(* ===== verification/_CoqProject ===== *)
-Q . S2P
Prelude.v
MemOps.v
Lib.v
Console.v
Ports.v
I8259.v
Rtc.v
FileSystem.v
Paging.v
Process.v
Schedule.v
Terminal.v
FileArray.v
Reading.v
Lifecycle.v
Shells.v
Drivers.v
Linkage.v
VideoSwap.v
Keyboard.v
Exceptions.v
Interrupts.v
Tasks.v
TaskProps.v
Kernel.v
Segments.v
Boot.v
System.v
UserLib.v
Syscalls.v
Programs.v
Unix.v
ProgramSpecs.v
Grep.v
Pingpong.v
Refinement.v
UserCalls.v
Sigtest.v
Emulate.v
Blink.v
BlinkBytes.v
Fish.v
