(* ===== verification/Prelude.v ===== *)
(** * GalapagOS: a verification development

    GalapagOS is a teaching operating system for a 32-bit PC: a kernel
    ([student-distrib/]), user programs ([syscalls/]) and a demonstration ([fish/]).  This
    library translates the kernel, its assembly included, and the programs into executable
    definitions and proves what makes them correct, from single routines up to the
    statement that a program specified against an abstract Unix behaves so on this kernel.

    ** The program and how its parts interact

    [boot.S] loads the segments and jumps to [entry] ([kernel.c]), which reports the boot loader's data, builds
    the descriptor tables, starts the drivers, paging, the scheduler and the file
    system, and calls [kexecute("shell")].  Programs enter the kernel by [int 0x80]
    through [system_call_linkage] ([assembly_linkage.S]), which jumps through a table to
    the calls of [file_array.c]; those reach the file system, the terminals and the clock
    through an operation table per open file.  [kexecute] and [khalt] start and end
    processes, change page directories and the run queue; the timer interrupt
    ([pit_int_linkage] of [assembly_linkage.S], [schedule.c]) switches between processes by
    exchanging kernel stacks; the keyboard
    interrupt ([int_handlers.c]) edits the line of the terminal in front and switches
    terminals, for which [swap_vid_mem] changes page tables.

    ** Conventions

    A C integer is the [Z] it denotes, wrapped by [u8], [u16], [u32], [s8], [s32] wherever an
    operation may leave its type.  Arrays are lists read by [l.[i]] and written by
    [l.[i <- v]], which are [None] out of bounds; memory is a function from addresses to bytes.
    [option] is used for undefined behaviour only (an access out of bounds, a null
    pointer, a loop without end): errors of the code are return values, as in C.  State is
    passed explicitly, one [Record] per component.  What a local variable holds before its
    first assignment is an argument.  Devices are a parameter [dev] that answers port reads
    from the history of accesses; what the drivers rely on is a class ([Pic]).  The linker's
    addresses are parameters ([layout], [pit_ret], the addresses of the entry points).

    ** The files

    - [Prelude]: integers, arrays, loops, tactics, lemmas shared by all.
    - [MemOps], [Lib], [Console]: [lib.c].  The assembly of the memory routines, strings and
      numbers, the boot console with [printf] against a reference rendering; where its stores
      go is a parameter [phys], the identity at boot and the page tables later.
    - [Ports], [I8259], [Rtc]: [lib.h], [i8259.c], [rtc.c], [pit.c].  The interrupt controller
      refines a set of enabled lines; [rtc_read] in any number of processes, interleaved with
      each other, the interrupt and the other functions of the driver.
    - [FileSystem]: [file_system.c] over an image in memory.
    - [Paging]: [paging.c], with the processor's page walk as the specification.
    - [Process], [Schedule]: control blocks of [file_array.c], the run queue and the context
      switch of [schedule.c].
    - [Terminal], [Keyboard], [VideoSwap]: [terminal.c], the keyboard and command history of
      [int_handlers.c], [swap_vid_mem] of [file_array.c].
    - [FileArray], [Drivers]: the system calls of [file_array.c], first over any operation tables
      that keep the promise [QuietOps], then the tables the kernel has, which keep it.
    - [Reading], [Lifecycle], [Shells]: theorems on reading, on [kexecute] and [khalt], and on
      the first call of [kexecute].
    - [Linkage]: [system_call_linkage] from the trap to the [iret].
    - [Exceptions], [Interrupts]: the nineteen exception handlers of [int_handlers.c], of which
      that of the page fault prints to the console; the entry points
      of [assembly_linkage.S] from the frame the processor pushes to the [iret], and an abstract
      machine with one set of registers per task, which the timer interrupt refines.
    - [Tasks]: the timer, [kexecute] and [khalt] put together through the [int $32] the last two
      end in; an abstract machine of processes that come and go, which they refine.
    - [TaskProps]: what follows for the processes: [execute] waits, registers are kept, nobody starves.
    - [Kernel], [Segments], [Boot]: the interrupt table of [kernel.c]; the segments and the task
      state segment of [x86_desc.S], [x86_desc.h] and [boot.S]; the whole of [entry].  Once
      paging is on, [entry] reads the file system image through the page tables, so that the
      boot loader has to leave it in the page of the kernel ([loader_ok]).
    - [System]: from the boot loader to the abstract machine of [Tasks].
    - [UserLib], [Syscalls], [Programs]: [ece391support.c] and the [main] functions of
      [syscalls/] as interaction trees over the system calls.
    - [Unix], [ProgramSpecs], [Grep], [Pingpong]: an abstract operating system (handles, files, a
      console) and what the programs do on it.
    - [Refinement]: the system calls of the kernel, given the buffers of the program by value,
      simulate the abstract system.
    - [UserCalls]: the same with [int 0x80], registers and the page of the program: the wrappers
      of [ece391syscall.S], [system_call_linkage], buffers as bytes of the page.  The theorems on
      programs hold of their runs on this level.
    - [Sigtest]: [ece391sigtest.c], up to the fault that ends it.
    - [Emulate]: [ece391emulate.c], the calls on Linux, with Linux as a parameter.
    - [Blink], [BlinkBytes], [Fish]: [blink.S] as a list through an array against a sequence of
      blinking characters, the layout and the copies of the structure, and [fish.c].  The
      tables of [Blink] hold offsets into a screen; in [Fish] each byte goes through the page
      tables of the process, from the address [vidmap] returned to video memory.

    ** What the theorems show

    - Isolation: after boot and any sequence of paging operations a program reaches its own
      frame and, exactly while [vidmap] has opened it, the page of video memory its terminal was
      put on, and two programs never share a byte of a program ([Paging]); user code
      enters the kernel at one gate ([Kernel]) and cannot load a segment of the kernel
      ([Segments]).
    - Multitasking: each process runs as if it had a processor of its own, whatever interrupts
      it, and whatever programs are started and end in the meantime, but for the register
      [ebx], which the entry point of the timer destroys; [execute] returns when the program
      it started has halted, and with its status; a process that is ready gets its turn by
      the ninth switch ([Tasks], [TaskProps]); the other interrupts change no
      register ([Interrupts]).
    - Processes: [kexecute] and [khalt] on every branch ([Lifecycle]), the invariant [system]
      they keep and that boot establishes ([Shells], [Boot]), round-robin progress
      ([Schedule]), exceptions end the process and resume its parent ([Exceptions]); [khalt]
      closes every file of the process and leaves the page tables of all others alone.
    - Files: opening, reading to the end, closing, and every refused call ([FileArray],
      [Reading], [FileSystem]).
    - Terminals: a typed line is what is read; the history; writes stay in the page of the
      terminal of the process that writes; a switch shows the other terminal and changes what no
      process finds at its video addresses, the kernel's and the one of [vidmap] ([Terminal],
      [Keyboard], [VideoSwap]).
    - System calls: registers are preserved, all but the result in [eax] and [ds], which is
      null on return because the entry point loads the kernel's and restores none; bad
      numbers are refused ([Linkage]); the kernel implements [Unix] ([UserCalls], by [Refinement]).
    - Programs: [cat], [ls], [grep], [pingpong], the shell, and the repository's tests of the error paths and
      of the signals, on the specification or, for [cat], the tests and [fish], on the kernel;
      the arguments of a program arrive under Linux as they were typed ([Emulate]).
    - Blinking: the list refines a sequence, and a character shows its two faces with the
      periods it was given ([Blink]); what [fish] leaves on the screen ([Fish]).
    - Boot: from the memory of a boot loader to three started shells ([Boot]), and from there to
      a kernel that refines the abstract machine of processes ([System]).
    - Routines: the memory routines and [printf] equal their references.

    ** Bounds and fuel

    Loops with a bound in the code run that often ([for_up]).  [while] loops take fuel that
    their theorems show is enough: 33 for the digits of a 32-bit number, the length of the
    array for scans, one more than the file's length for reading it in pieces, [LOOP_FUEL] = 8
    for the search of the run queue, which has 7 nodes (it ends exactly when some task
    runs), 7 for the chain of parents ([vid_chain], 6 processes), [e_map] entries of the
    boot loader's memory map (the theorem assumes it has no more), [loop_fuel] = 2001 for the
    list of blinking characters, which has 2000 slots.  Programs are trees without fuel;
    [runs] is inductive, so [runs] means the program ends; [reaches] is a prefix of a run.  The abstract system takes buffers
    of at most [MAX_BUFFER] = 2^20 bytes and names of at most [MAX_NAME] = 1023, which fit into
    the page of a program.  Code in kernel mode is interrupted with [STACK_ROOM] = 512 bytes left
    on its stack, more than an interrupt needs.

    ** Not modelled, and why

    - Interrupts are taken where the code waits ([rtc_read], [terminal_read]), and by code in user
      or kernel mode that is a set of registers with a stack ([Interrupts]); the functions of
      the system calls are single steps, so no interrupt falls between two of their statements:
      in [Tasks] a call gives the processor up at its [int $32] or, as work of the process,
      between two steps.  An interrupt in the middle of [kexecute], after the child became
      [curr_process] and before [cli], is one the code does not survive.
    - In [Tasks] what a process does between its events is any work on program memory, its
      kernel stack, its open files, the screen and the clock that keeps the page tables in order.
    - The instructions of user programs between their calls are the trees of [Programs]; the
      compiler that turns C into them is trusted, and so is the boot loader.
    - A program that goes on with the null [ds] a system call leaves: on a real processor its
      next access to data would fault; [Programs] and [UserCalls] say what the programs do where
      it does not.
    - Exceptions in the first shell of a terminal: [khalt] then patches the frame of its caller,
      whose place below the handler's depends on the compiler.
    - [debug.h]: logging macros, empty in this build.
    - [fish/ece391support.c] repeats the text of [syscalls/ece391support.c], which [UserLib] translates. *)

From stdpp Require Import base numbers list list_numbers option.
From Stdlib Require Import ZArith Lia ZifyBool Ascii String.
Export String.StringSyntax.

#[global] Open Scope list_scope.
#[global] Open Scope Z_scope.

(** ** Machine-width integers

    [types.h] fixes the widths: a value of a C integer type is kept as the
    [Z] it denotes, and every operation that may leave the range of its type is
    wrapped explicitly with the conversion of that type. *)

Definition u8 (z : Z) : Z := z mod 2 ^ 8.
Definition u16 (z : Z) : Z := z mod 2 ^ 16.
Definition u32 (z : Z) : Z := z mod 2 ^ 32.
Definition s8 (z : Z) : Z := (z + 2 ^ 7) mod 2 ^ 8 - 2 ^ 7.
Definition s32 (z : Z) : Z := (z + 2 ^ 31) mod 2 ^ 32 - 2 ^ 31.

(** ** Bit fields

    [width] bits from bit [lo] of a word, as the packed bit-field structs of
    [paging.h] and [x86_desc.h] lay them out (least significant field first). *)

Definition get_field (lo width w : Z) : Z := Z.land (Z.shiftr w lo) (Z.ones width).

Definition set_field (lo width v w : Z) : Z :=
  Z.lor (Z.ldiff w (Z.shiftl (Z.ones width) lo))
        (Z.shiftl (Z.land v (Z.ones width)) lo).

(** ** C arrays

    An array object is a list; an access outside of it is undefined behaviour in
    C and the value [None] here.  [None] is never a result the code computes: a
    theorem that an operation is [Some _] says the operation stays inside its
    arrays. *)

Definition zget {A} (l : list A) (i : Z) : option A :=
  if 0 <=? i then l !! Z.to_nat i else None.

Definition zset {A} (l : list A) (i : Z) (v : A) : option (list A) :=
  if (0 <=? i) && (i <? Z.of_nat (List.length l)) then Some (<[Z.to_nat i := v]> l) else None.

Declare Scope c_scope.
Delimit Scope c_scope with c.
Notation "l .[ i ]" := (zget l i) (at level 1, i at level 200, format "l .[ i ]") : c_scope.
Notation "l .[ i <- v ]" := (zset l i v)
  (at level 1, i at level 200, v at level 200, format "l .[ i  <-  v ]") : c_scope.
#[global] Open Scope c_scope.

(** ** Loops

    [for_up n i body] is [for (j = i; j < i + n; j++) body], [for_brk] is the
    same loop with a body that may [break] (result [false]), and [while_do] is a
    [while] loop on [fuel], [None] when the fuel is not enough. *)

Fixpoint for_up {S} (n : nat) (i : Z) (body : Z -> S -> option S) (s : S) : option S :=
  match n with
  | O => Some s
  | Datatypes.S n' => s' ← body i s; for_up n' (i + 1) body s'
  end.

Fixpoint for_brk {S} (n : nat) (i : Z) (body : Z -> S -> option (bool * S)) (s : S) : option S :=
  match n with
  | O => Some s
  | Datatypes.S n' =>
      '(go, s') ← body i s;
      if (go : bool) then for_brk n' (i + 1) body s' else Some s'
  end.

Fixpoint while_do {S} (fuel : nat) (cond : S -> bool) (body : S -> option S) (s : S) : option S :=
  match fuel with
  | O => None
  | Datatypes.S fuel' => if cond s then s' ← body s; while_do fuel' cond body s' else Some s
  end.

(** The error and success codes every file of the kernel defines for itself. *)
Definition ERROR : Z := -1.
Definition SUCCESS : Z := 0.

(** ** C strings

    A [char] array is a list of character codes; [str] gives the codes of a
    string literal (without its terminator), and [cstring buf cs] says that the
    string held by [buf] is [cs]: nonzero characters ended by a zero. *)

Definition str (s : string) : list Z :=
  map (fun a => Z.of_N (N_of_ascii a)) (list_ascii_of_string s).

Definition cstring (buf cs : list Z) : Prop :=
  exists rest, buf = cs ++ 0 :: rest /\ Forall (fun c => c <> 0) cs.

(** ** Tactics *)

Create HintDb galapagos.
Create Rewrite HintDb cint.

(** Integer goals with division and remainder by literals. *)
Ltac zlia := Z.to_euclidean_division_equations; lia.

(** Split the boolean tests of the code into their propositions. *)
Ltac bsplit :=
  repeat match goal with
  | H : (_ && _) = true |- _ => apply andb_true_iff in H as [? ?]
  | H : (_ || _) = false |- _ => apply orb_false_iff in H as [? ?]
  | H : negb _ = true |- _ => apply negb_true_iff in H
  | H : negb _ = false |- _ => apply negb_false_iff in H
  end;
  rewrite ?Z.eqb_eq, ?Z.eqb_neq, ?Z.ltb_lt, ?Z.ltb_ge, ?Z.leb_le, ?Z.leb_gt in *.

(** Case on the condition of an [if] in the goal, keeping it as arithmetic. *)
Ltac case_if :=
  match goal with
  | |- context [if ?b then _ else _] => destruct b eqn:?; bsplit
  end.

(** Compute the next bind of the option monad, and nothing else. *)
Ltac bind := cbn [mbind option_bind].

(** Decide a boolean test from the arithmetic in the context. *)
Ltac btrue b := replace b with true by
  (symmetry; rewrite ?andb_true_iff, ?orb_true_iff, ?Z.eqb_eq, ?Z.ltb_lt, ?Z.leb_le; lia).
Ltac bfalse b := replace b with false by
  (symmetry; rewrite ?andb_false_iff, ?orb_false_iff, ?Z.eqb_neq, ?Z.ltb_ge, ?Z.leb_gt; lia).

(** The same as an equation, where conversion would run the code. *)
Lemma some_bind {A B} (x : A) (f : A -> option B) : (Some x ≫= f) = f x.
Proof. done. Qed.

(** ** Lemmas on machine integers *)

Lemma u8_range z : 0 <= u8 z < 256.
Proof. unfold u8. apply Z.mod_pos_bound. lia. Qed.

Lemma u16_range z : 0 <= u16 z < 65536.
Proof. unfold u16. apply Z.mod_pos_bound. lia. Qed.

Lemma u32_range z : 0 <= u32 z < 4294967296.
Proof. unfold u32. apply Z.mod_pos_bound. lia. Qed.

Lemma u8_small z : 0 <= z < 256 -> u8 z = z.
Proof. intros. unfold u8. apply Z.mod_small. lia. Qed.

Lemma u16_small z : 0 <= z < 65536 -> u16 z = z.
Proof. intros. unfold u16. apply Z.mod_small. lia. Qed.

Lemma u32_small z : 0 <= z < 4294967296 -> u32 z = z.
Proof. intros. unfold u32. apply Z.mod_small. lia. Qed.

(** Undo the wrap-around of addresses that do not wrap, innermost first. *)
Ltac addresses :=
  repeat match goal with
  | |- context [u32 ?a] => lazymatch a with context [u32 _] => fail | _ => rewrite (u32_small a) by lia end
  end.

Lemma s32_small z : -2147483648 <= z < 2147483648 -> s32 z = z.
Proof. intros. unfold s32. rewrite Z.mod_small by lia. lia. Qed.

Lemma s8_small z : -128 <= z < 128 -> s8 z = z.
Proof. intros. unfold s8. rewrite Z.mod_small by lia. lia. Qed.

Lemma s32_range z : -2147483648 <= s32 z < 2147483648.
Proof. unfold s32. pose proof (Z.mod_pos_bound (z + 2 ^ 31) (2 ^ 32)). lia. Qed.

#[export] Hint Resolve u8_range u16_range u32_range s32_range : galapagos.
#[export] Hint Rewrite u8_small u16_small u32_small s32_small s8_small using lia : cint.

(** ** Lemmas on bit fields *)

Lemma get_field_spec lo width w i :
  0 <= lo -> 0 <= width -> 0 <= i ->
  Z.testbit (get_field lo width w) i = (i <? width) && Z.testbit w (i + lo).
Proof.
  intros. unfold get_field. rewrite Z.land_spec, Z.shiftr_spec by lia.
  rewrite Z.testbit_ones_nonneg by lia. apply andb_comm.
Qed.

Lemma set_field_spec lo width v w i :
  0 <= lo -> 0 <= width -> 0 <= i ->
  Z.testbit (set_field lo width v w) i =
  if (lo <=? i) && (i <? lo + width) then Z.testbit v (i - lo) else Z.testbit w i.
Proof.
  intros. unfold set_field.
  rewrite Z.lor_spec, Z.ldiff_spec, !Z.shiftl_spec, Z.land_spec by lia.
  destruct (Z.leb_spec lo i); simpl.
  - rewrite Z.testbit_ones_nonneg by lia.
    destruct (Z.ltb_spec i (lo + width)).
    + bfalse (i - lo <? width) || btrue (i - lo <? width).
      simpl. rewrite andb_false_r, andb_true_r. reflexivity.
    + bfalse (i - lo <? width). simpl. rewrite andb_true_r, andb_false_r, orb_false_r. reflexivity.
  - rewrite !(Z.testbit_neg_r _ (i - lo)) by lia.
    simpl. rewrite andb_true_r, orb_false_r. reflexivity.
Qed.

(** Reading a field back gives the value written, truncated to the field. *)
Lemma get_set_field_same lo width v w :
  0 <= lo -> 0 <= width -> get_field lo width (set_field lo width v w) = v mod 2 ^ width.
Proof.
  intros. apply Z.bits_inj'. intros i Hi.
  rewrite get_field_spec, set_field_spec, Z.testbit_mod_pow2 by lia.
  destruct (Z.ltb_spec i width); simpl; [|done].
  btrue ((lo <=? i + lo) && (i + lo <? lo + width)). f_equal. lia.
Qed.

(** Writing a field leaves every disjoint field as it was. *)
Lemma get_set_field_other lo width lo' width' v w :
  0 <= lo -> 0 <= width -> 0 <= lo' -> 0 <= width' ->
  lo' + width' <= lo \/ lo + width <= lo' ->
  get_field lo' width' (set_field lo width v w) = get_field lo' width' w.
Proof.
  intros. apply Z.bits_inj'. intros i Hi.
  rewrite !get_field_spec, set_field_spec by lia.
  destruct (Z.ltb_spec i width'); simpl; [|done].
  destruct ((lo <=? i + lo') && (i + lo' <? lo + width)) eqn:E; [bsplit; lia | done].
Qed.

Lemma get_field_range lo width w : 0 <= width -> 0 <= get_field lo width w < 2 ^ width.
Proof.
  intros. unfold get_field. rewrite Z.land_ones by lia.
  apply Z.mod_pos_bound. lia.
Qed.

(** Bitwise operations stay inside the width of their operands. *)
Lemma lor_range n a b :
  0 <= n -> 0 <= a < 2 ^ n -> 0 <= b < 2 ^ n -> 0 <= Z.lor a b < 2 ^ n.
Proof.
  intros Hn Ha Hb. rewrite <- (Z.mod_small a (2 ^ n)), <- (Z.mod_small b (2 ^ n)) by done.
  rewrite <- !Z.land_ones, <- Z.land_lor_distr_l, Z.land_ones by done.
  apply Z.mod_pos_bound. lia.
Qed.

Lemma land_range n a b : 0 <= n -> 0 <= a < 2 ^ n -> 0 <= Z.land a b < 2 ^ n.
Proof.
  intros Hn Ha. rewrite <- (Z.mod_small a (2 ^ n)) by done.
  rewrite <- Z.land_ones, <- Z.land_assoc, (Z.land_comm (Z.ones n)), Z.land_assoc, Z.land_ones by done.
  apply Z.mod_pos_bound. lia.
Qed.

(** ** Lemmas on arrays *)

Lemma zget_lookup {A} (l : list A) i : 0 <= i -> l.[i] = l !! Z.to_nat i.
Proof. intros. unfold zget. btrue (0 <=? i). done. Qed.

Lemma zget_is_Some {A} (l : list A) i :
  is_Some (l.[i]) <-> 0 <= i < Z.of_nat (List.length l).
Proof.
  unfold zget. destruct (Z.leb_spec 0 i).
  - rewrite lookup_lt_is_Some. lia.
  - split; [intros []; done | lia].
Qed.

Lemma zget_Some_range {A} (l : list A) i x : l.[i] = Some x -> 0 <= i < Z.of_nat (List.length l).
Proof. intros E. apply zget_is_Some. eauto. Qed.

Lemma zget_ex {A} (l : list A) i : 0 <= i < Z.of_nat (List.length l) -> exists x, l.[i] = Some x.
Proof. intros. apply zget_is_Some in H as [x Hx]. eauto. Qed.

Lemma zset_in {A} (l : list A) i v :
  0 <= i < Z.of_nat (List.length l) -> l.[i <- v] = Some (<[Z.to_nat i := v]> l).
Proof.
  intros. unfold zset. btrue ((0 <=? i) && (i <? Z.of_nat (List.length l))). done.
Qed.

Lemma zset_in_ex {A} (l : list A) i v : 0 <= i < Z.of_nat (List.length l) -> exists l', l.[i <- v] = Some l'.
Proof. intros. rewrite zset_in by done. by eexists. Qed.

Lemma zset_out {A} (l : list A) i v :
  ~ (0 <= i < Z.of_nat (List.length l)) -> l.[i <- v] = None.
Proof.
  intros. unfold zset.
  destruct ((0 <=? i) && (i <? Z.of_nat (List.length l))) eqn:E; [bsplit; lia | done].
Qed.

Lemma zset_Some {A} (l l' : list A) i v :
  l.[i <- v] = Some l' -> 0 <= i < Z.of_nat (List.length l) /\ l' = <[Z.to_nat i := v]> l.
Proof. unfold zset. case_if; intros; simplify_eq; split; [lia | done]. Qed.

Lemma zset_length {A} (l l' : list A) i v : l.[i <- v] = Some l' -> List.length l' = List.length l.
Proof. intros [_ ->]%zset_Some. apply length_insert. Qed.

Lemma zget_zset {A} (l l' : list A) i j v :
  l.[i <- v] = Some l' -> l'.[j] = if j =? i then Some v else l.[j].
Proof.
  intros [Hi ->]%zset_Some. unfold zget.
  destruct (Z.leb_spec 0 j), (Z.eqb_spec j i); subst; try lia; try done.
  - apply list_lookup_insert_eq. lia.
  - apply list_lookup_insert_ne. lia.
Qed.

(** ** Lemmas on loops *)

(** The invariant rule of [for_up]: the loop runs to its end and the invariant
    holds there. *)
Lemma for_up_inv {S} (P : Z -> S -> Prop) n i body (s : S) :
  P i s ->
  (forall j s, i <= j < i + Z.of_nat n -> P j s -> exists s', body j s = Some s' /\ P (j + 1) s') ->
  exists s', for_up n i body s = Some s' /\ P (i + Z.of_nat n) s'.
Proof.
  revert i s. induction n as [|n IH]; intros i s Hs Hbody.
  - exists s. replace (i + Z.of_nat 0) with i by lia. done.
  - destruct (Hbody i s) as (s1 & E1 & P1); [lia | done |]. simpl. rewrite E1. simpl.
    destruct (IH (i + 1) s1) as (s2 & E2 & P2); [done | |].
    + intros j t Hj. apply Hbody. lia.
    + exists s2. split; [done|].
      replace (i + Z.of_nat (Datatypes.S n)) with (i + 1 + Z.of_nat n) by lia. done.
Qed.

Lemma for_up_app {S} n m i body (s : S) :
  for_up (n + m) i body s = (for_up n i body s ≫= for_up m (i + Z.of_nat n) body).
Proof.
  revert i s. induction n as [|n IH]; intros i s; simpl.
  - f_equal. lia.
  - destruct (body i s); simpl; [|done]. rewrite IH.
    replace (i + Z.of_nat (Datatypes.S n)) with (i + 1 + Z.of_nat n) by lia. done.
Qed.

(** A loop whose body always continues ends in the state the invariant gives. *)
Lemma while_do_inv {S} (P : nat -> S -> Prop) cond body fuel (s : S) k :
  P k s -> (k < fuel)%nat ->
  (forall j s, P j s -> cond s = true ->
     exists j' s', body s = Some s' /\ (j' < j)%nat /\ P j' s') ->
  exists j s', while_do fuel cond body s = Some s' /\ P j s' /\ cond s' = false.
Proof.
  revert s k. induction fuel as [|fuel IH]; intros s k HP Hk Hbody; [lia|].
  simpl. destruct (cond s) eqn:E.
  - destruct (Hbody k s) as (j' & s' & E' & Hj & HP'); [done..|]. rewrite E'. simpl.
    apply (IH s' j'); [done | lia | done].
  - by exists k, s.
Qed.

(** ** Lemmas on lists *)

Lemma zget_app_l {A} (l k : list A) i : 0 <= i < Z.of_nat (List.length l) -> (l ++ k).[i] = l.[i].
Proof. intros. rewrite !zget_lookup by lia. apply lookup_app_l. lia. Qed.

Lemma zget_app_r {A} (l k : list A) i :
  Z.of_nat (List.length l) <= i -> (l ++ k).[i] = k.[i - Z.of_nat (List.length l)].
Proof.
  intros. rewrite !zget_lookup by lia. rewrite lookup_app_r by lia. f_equal. lia.
Qed.

Lemma zset_app_mid {A} (l k : list A) i x y :
  i = Z.of_nat (List.length l) -> (l ++ x :: k).[i <- y] = Some (l ++ y :: k).
Proof.
  intros ->. rewrite zset_in by (rewrite length_app; simpl; lia).
  rewrite Nat2Z.id. f_equal. apply list_insert_middle_eq || (induction l; simpl; congruence).
Qed.

Lemma zget_insert {A} (l : list A) i x j :
  0 <= i < Z.of_nat (Datatypes.length l) -> (<[Z.to_nat i := x]> l).[j] = if j =? i then Some x else l.[j].
Proof. intros H. apply (zget_zset l). by apply zset_in. Qed.

Lemma zset_app_cons {A} (l k : list A) w x y :
  (l ++ w :: x :: k).[Z.of_nat (List.length l) + 1 <- y] = Some (l ++ w :: y :: k).
Proof.
  change (w :: x :: k) with ([w] ++ x :: k). change (w :: y :: k) with ([w] ++ y :: k). rewrite !app_assoc.
  apply zset_app_mid. rewrite length_app. cbn. lia.
Qed.

(** A list of length [n] read at [0 .. n-1] determines it. *)
Lemma zget_ext {A} (l k : list A) :
  List.length l = List.length k ->
  (forall i, 0 <= i < Z.of_nat (List.length l) -> l.[i] = k.[i]) -> l = k.
Proof.
  intros Hlen Hext. apply list_eq. intros i.
  destruct (decide (i < List.length l)%nat) as [Hi|Hi].
  - pose proof (Hext (Z.of_nat i)) as E. rewrite !zget_lookup, !Nat2Z.id in E by lia. apply E. lia.
  - rewrite !lookup_ge_None_2 by lia. done.
Qed.

(** ** Lemmas on intervals of integers *)

Lemma seqZ_get a n i : seqZ a n !! i = if Z.of_nat i <? n then Some (a + Z.of_nat i) else None.
Proof.
  case_if; [apply lookup_seqZ_lt; lia | apply lookup_seqZ_ge; lia].
Qed.

Lemma take_seqZ k a n : take k (seqZ a n) = seqZ a (Z.min (Z.of_nat k) n).
Proof.
  apply list_eq. intros i. rewrite seqZ_get.
  destruct (decide (i < k)%nat).
  - rewrite lookup_take_lt, seqZ_get by lia. repeat case_if; done || lia.
  - rewrite lookup_take_ge by lia. case_if; [lia | done].
Qed.

Lemma drop_seqZ k a n : drop k (seqZ a n) = seqZ (a + Z.of_nat k) (n - Z.of_nat k).
Proof.
  apply list_eq. intros i. rewrite lookup_drop, !seqZ_get.
  repeat case_if; try lia; try done. f_equal. lia.
Qed.

(** [find] on an interval gives the least element the test accepts. *)
Lemma find_seqZ (P : Z -> bool) a n :
  match find P (seqZ a n) with
  | Some j => a <= j < a + n /\ P j = true /\ (forall i, a <= i < j -> P i = false)
  | None => forall i, a <= i < a + n -> P i = false
  end.
Proof.
  destruct (Z.le_gt_cases n 0) as [Hn|Hn].
  { rewrite seqZ_nil by lia. simpl. intros; lia. }
  apply Z.lt_le_incl in Hn. revert a. pattern n. revert n Hn.
  apply natlike_ind; [simpl; intros; lia|].
  intros k Hk IH a. rewrite seqZ_cons by lia. cbn [find]. destruct (P a) eqn:Ea.
  - split_and!; [lia | lia | done |]. intros; lia.
  - specialize (IH (Z.succ a)). rewrite Z.pred_succ. destruct (find P _) as [j|].
    + destruct IH as (? & ? & Hlt). split_and!; [lia | lia | done |]. intros i Hi.
      destruct (Z.eqb_spec i a) as [->|]; [done | apply Hlt; lia].
    + intros i Hi. destruct (Z.eqb_spec i a) as [->|]; [done | apply IH; lia].
Qed.

Lemma find_ext_in {A} (P Q : A -> bool) l : (forall x, x ∈ l -> P x = Q x) -> find P l = find Q l.
Proof.
  induction l as [|x l IH]; intros H; [done|]. cbn [find]. rewrite (H x) by left.
  destruct (Q x); [done|]. apply IH. intros y Hy. apply H. by right.
Qed.

Lemma find_app {A} (P : A -> bool) l1 l2 : find P (l1 ++ l2) = match find P l1 with Some x => Some x | None => find P l2 end.
Proof. induction l1 as [|x l IH]; [done|]. cbn. by destruct (P x). Qed.

(** A property of the numbers of an interval, by trying them. *)
Lemma on_interval (P : Z -> bool) lo n : forallb P (seqZ lo n) = true -> forall i, lo <= i < lo + n -> P i = true.
Proof. intros H i Hi. rewrite forallb_forall in H. apply H, list_elem_of_In, elem_of_seqZ. lia. Qed.
