(* ===== verification/MemOps.v ===== *)
(** * The memory routines of [student-distrib/lib.c]

    [memset], [memset_word], [memset_dword], [memcpy] and [memmove] are inline
    assembly.  They are modelled at the level of the instructions they run, on a
    machine with a byte-addressed memory, the registers the routines use and the
    direction flag, with 32-bit address arithmetic.  The theorems state what the
    routines do to memory: the aligned/unaligned split of the optimised loops is
    invisible, [memcpy] is right even on overlapping areas as long as the
    destination does not lie inside the source after its start (what
    [scroll_line] relies on), and [memmove] is right on every overlap. *)

From stdpp Require Import base list option.
From Stdlib Require Import ZArith Lia ZifyBool.
From S2P Require Import Prelude.

(** Byte-addressed memory. *)
Definition memory : Type := Z -> Z.

Definition store8 (m : memory) (a v : Z) : memory := fun x => if x =? a then u8 v else m x.

(** Stores of two and four bytes are little-endian. *)
Definition store16 (m : memory) (a v : Z) : memory :=
  store8 (store8 m a v) (u32 (a + 1)) (Z.shiftr v 8).

Definition store32 (m : memory) (a v : Z) : memory :=
  store16 (store16 m a v) (u32 (a + 2)) (Z.shiftr v 16).

Definition load32 (m : memory) (a : Z) : Z :=
  m a + 2 ^ 8 * m (u32 (a + 1)) + 2 ^ 16 * m (u32 (a + 2)) + 2 ^ 24 * m (u32 (a + 3)).

(** The machine state the routines work on. *)
Record regs := Regs { mem : memory; edi : Z; esi : Z; ecx : Z; edx : Z; df : bool }.

(** [rep stosb]-like step of width [w] bytes that stores [eax] at [edi]. *)
Definition step_edi (w : Z) (st : regs) : Z :=
  u32 (if df st then edi st - w else edi st + w).
Definition step_esi (w : Z) (st : regs) : Z :=
  u32 (if df st then esi st - w else esi st + w).

Definition stosw (eax : Z) (st : regs) : regs :=
  Regs (store16 (mem st) (edi st) eax) (step_edi 2 st) (esi st) (ecx st - 1) (edx st) (df st).
Definition stosl (eax : Z) (st : regs) : regs :=
  Regs (store32 (mem st) (edi st) eax) (step_edi 4 st) (esi st) (ecx st - 1) (edx st) (df st).
Definition movsb (st : regs) : regs :=
  Regs (store8 (mem st) (edi st) (mem st (esi st)))
       (step_edi 1 st) (step_esi 1 st) (ecx st - 1) (edx st) (df st).
Definition movsl (st : regs) : regs :=
  Regs (store32 (mem st) (edi st) (load32 (mem st) (esi st)))
       (step_edi 4 st) (step_esi 4 st) (ecx st - 1) (edx st) (df st).

(** The [rep] prefix: [ecx] times. *)
Definition rep (ins : regs -> regs) (st : regs) : regs :=
  Nat.iter (Z.to_nat (ecx st)) ins st.

Definition set_df (b : bool) (st : regs) : regs :=
  Regs (mem st) (edi st) (esi st) (ecx st) (edx st) b.

(** [movb %al,(%edi); addl $1,%edi; subl $1,%ecx] and the same on [edx]. *)
Definition put_byte_ecx (al : Z) (st : regs) : regs :=
  Regs (store8 (mem st) (edi st) al) (u32 (edi st + 1)) (esi st) (u32 (ecx st - 1)) (edx st) (df st).
Definition put_byte_edx (al : Z) (st : regs) : regs :=
  Regs (store8 (mem st) (edi st) al) (u32 (edi st + 1)) (esi st) (ecx st) (u32 (edx st - 1)) (df st).
Definition copy_byte_ecx (st : regs) : regs :=
  Regs (store8 (mem st) (edi st) (mem st (esi st)))
       (u32 (edi st + 1)) (u32 (esi st + 1)) (u32 (ecx st - 1)) (edx st) (df st).
Definition copy_byte_edx (st : regs) : regs :=
  Regs (store8 (mem st) (edi st) (mem st (esi st)))
       (u32 (edi st + 1)) (u32 (esi st + 1)) (ecx st) (u32 (edx st - 1)) (df st).

(** The condition of the [.mem*_top] loop: bytes remain and [edi] is unaligned. *)
Definition unaligned_top (st : regs) : bool :=
  negb (ecx st =? 0) && negb (Z.land (edi st) 3 =? 0).

(** [movl %ecx,%edx; shrl $2,%ecx; andl $3,%edx; cld]. *)
Definition split_count (st : regs) : regs :=
  Regs (mem st) (edi st) (esi st) (Z.shiftr (ecx st) 2) (Z.land (ecx st) 3) false.

(** The common shape of [memset] and [memcpy]: bytes until [edi] is aligned (at
    most three iterations), then dwords, then the last [edx] bytes. *)
Definition aligned_loop (byte_top dword byte_bottom : regs -> regs) (st : regs) : option regs :=
  st1 ← while_do 4 unaligned_top (fun s => Some (byte_top s)) st;
  if ecx st1 =? 0 then Some st1
  else
    let st2 := rep dword (split_count st1) in
    while_do 4 (fun s => negb (edx s =? 0)) (fun s => Some (byte_bottom s)) st2.

Definition memset (m : memory) (d : bool) (s c n : Z) : option regs :=
  let c := Z.land c 255 in
  let eax := Z.lor (Z.shiftl c 24) (Z.lor (Z.shiftl c 16) (Z.lor (Z.shiftl c 8) c)) in
  aligned_loop (put_byte_ecx eax) (stosl eax) (put_byte_edx eax) (Regs m s 0 n 0 d).

Definition memset_word (m : memory) (s c n : Z) : regs :=
  rep (stosw c) (set_df false (Regs m s 0 n 0 false)).

Definition memset_dword (m : memory) (s c n : Z) : regs :=
  rep (stosl c) (set_df false (Regs m s 0 n 0 false)).

Definition memcpy (m : memory) (d : bool) (dest src n : Z) : option regs :=
  aligned_loop copy_byte_ecx movsl copy_byte_edx (Regs m dest src n 0 d).

Definition memmove (m : memory) (dest src n : Z) : regs :=
  let st := set_df false (Regs m dest src n 0 false) in
  if dest <=? src then rep movsb st
  else rep movsb (Regs m (u32 (dest + n - 1)) (u32 (src + n - 1)) n 0 true).

(** ** What the routines are for *)

(** Memory with [n] bytes from [s] on given by [f]. *)
Definition patched (m : memory) (s n : Z) (f : Z -> Z) : memory :=
  fun x => if (s <=? x) && (x <? s + n) then f x else m x.

(** An area of [n] bytes that does not wrap around the address space. *)
Definition area (s n : Z) : Prop := 0 <= s < 2 ^ 32 /\ 0 <= n /\ s + n <= 2 ^ 32.

Definition bytes (m : memory) : Prop := forall x, 0 <= m x < 256.

(** ** Lemmas *)

Lemma store8_get m a v x : store8 m a v x = if x =? a then u8 v else m x.
Proof. done. Qed.

Lemma store16_get m a v x :
  area a 2 ->
  store16 m a v x = if x =? a then u8 v else if x =? a + 1 then u8 (Z.shiftr v 8) else m x.
Proof.
  intros (?&?&?). unfold store16. rewrite !store8_get, u32_small by lia.
  destruct (Z.eqb_spec x a), (Z.eqb_spec x (a + 1)); try done; lia.
Qed.

Lemma store32_get m a v x :
  area a 4 ->
  store32 m a v x =
  if (a <=? x) && (x <? a + 4) then u8 (Z.shiftr v (8 * (x - a))) else m x.
Proof.
  intros (?&?&?). unfold store32. rewrite (u32_small (a + 2)) by lia.
  rewrite !store16_get by (unfold area; lia).
  rewrite Z.shiftr_shiftr by lia.
  assert (x < a \/ x = a \/ x = a + 1 \/ x = a + 2 \/ x = a + 3 \/ a + 4 <= x) as D by lia.
  destruct D as [D|[->|[->|[->|[->|D]]]]];
    repeat case_if; try lia; try done; f_equal;
    [rewrite Z.sub_diag, Z.mul_0_r, Z.shiftr_0_r; done | f_equal; lia ..].
Qed.

Lemma u8_shiftr v k : 0 <= k -> u8 (Z.shiftr v k) = v / 2 ^ k mod 2 ^ 8.
Proof. intros. unfold u8. rewrite Z.shiftr_div_pow2 by lia. done. Qed.

(** A dword reads back what was stored, and a store elsewhere does not change it. *)
Lemma load_store_same m a v : area a 4 -> 0 <= v < 2 ^ 32 -> load32 (store32 m a v) a = v.
Proof.
  intros Ha Hv. pose proof Ha as (? & ? & ?). unfold load32. rewrite !store32_get by done.
  rewrite !u32_small by lia.
  btrue ((a <=? a) && (a <? a + 4)). btrue ((a <=? a + 1) && (a + 1 <? a + 4)).
  btrue ((a <=? a + 2) && (a + 2 <? a + 4)). btrue ((a <=? a + 3) && (a + 3 <? a + 4)).
  rewrite !u8_shiftr by lia.
  replace (8 * (a - a)) with 0 by lia. replace (8 * (a + 1 - a)) with 8 by lia.
  replace (8 * (a + 2 - a)) with 16 by lia. replace (8 * (a + 3 - a)) with 24 by lia. zlia.
Qed.

Lemma load_store_other m a b v :
  area a 4 -> area b 4 -> a + 4 <= b \/ b + 4 <= a -> load32 (store32 m a v) b = load32 m b.
Proof.
  intros Ha Hb Hab. pose proof Hb as (? & ? & ?). unfold load32. rewrite !store32_get by done.
  rewrite !u32_small by lia. repeat case_if; lia || done.
Qed.

(** A dword loaded from one place and stored at another moves four bytes. *)
Lemma store_load32_get m m' a b x :
  bytes m -> area a 4 -> area b 4 ->
  store32 m' a (load32 m b) x =
  if (a <=? x) && (x <? a + 4) then m (x - a + b) else m' x.
Proof.
  intros Hm Ha (?&?&?). rewrite store32_get by done. case_if; [|done].
  unfold load32. rewrite !u32_small by lia.
  rewrite u8_shiftr by lia.
  pose proof (Hm b). pose proof (Hm (b + 1)). pose proof (Hm (b + 2)). pose proof (Hm (b + 3)).
  assert (x = a \/ x = a + 1 \/ x = a + 2 \/ x = a + 3) as D by lia.
  destruct D as [->|[->|[->| ->]]].
  - replace (8 * (a - a)) with 0 by lia. replace (a - a + b) with b by lia. zlia.
  - replace (8 * (a + 1 - a)) with 8 by lia. replace (a + 1 - a + b) with (b + 1) by lia. zlia.
  - replace (8 * (a + 2 - a)) with 16 by lia. replace (a + 2 - a + b) with (b + 2) by lia. zlia.
  - replace (8 * (a + 3 - a)) with 24 by lia. replace (a + 3 - a + b) with (b + 3) by lia. zlia.
Qed.

(** ** The shared loop

    [Q k m si] says what memory [m] and source index [si] look like after [k]
    bytes; the three instruction sequences have to advance it. *)

Section AlignedLoop.
Context (dest n : Z) (Q : Z -> memory -> Z -> Prop).
Context (byte_top dword byte_bottom : regs -> regs).

Definition at_byte (k : Z) (st : regs) : Prop :=
  edi st = u32 (dest + k) /\ Q k (mem st) (esi st).

Context (Harea : area dest n).
Context (Htop : forall k st, 0 <= k < n -> at_byte k st ->
  at_byte (k + 1) (byte_top st) /\ ecx (byte_top st) = u32 (ecx st - 1)).
Context (Hdword : forall k st, 0 <= k -> k + 4 <= n -> df st = false -> at_byte k st ->
  at_byte (k + 4) (dword st) /\ edx (dword st) = edx st /\ df (dword st) = false).
Context (Hbottom : forall k st, 0 <= k < n -> at_byte k st ->
  at_byte (k + 1) (byte_bottom st) /\ edx (byte_bottom st) = u32 (edx st - 1)).

Lemma land3 z : Z.land z 3 = z mod 4.
Proof. change 3 with (Z.ones 2). rewrite Z.land_ones by lia. done. Qed.

Lemma top_loop fuel k st :
  0 <= k <= n -> at_byte k st -> ecx st = n - k -> (- (dest + k)) mod 4 < Z.of_nat fuel ->
  exists k' st', while_do fuel unaligned_top (fun s => Some (byte_top s)) st = Some st' /\
    0 <= k' <= n /\ at_byte k' st' /\ ecx st' = n - k'.
Proof.
  destruct Harea as (?&?&?).
  revert k st. induction fuel as [|fuel IH]; intros k st Hk Hat Hecx Hf; [zlia|].
  simpl. unfold unaligned_top. rewrite land3.
  destruct (negb (ecx st =? 0) && negb (edi st mod 4 =? 0)) eqn:E; [|by exists k, st].
  bsplit. destruct (Htop k st) as [Hat' Hecx']; [lia | done |].
  assert (edi st = dest + k) as Hedi by (destruct Hat as [-> _]; apply u32_small; lia).
  apply (IH (k + 1)); [lia | done | rewrite Hecx', u32_small; lia | zlia].
Qed.

Lemma dword_loop q k st :
  0 <= k -> k + 4 * Z.of_nat q <= n -> df st = false -> at_byte k st ->
  at_byte (k + 4 * Z.of_nat q) (Nat.iter q dword st) /\
  edx (Nat.iter q dword st) = edx st /\ df (Nat.iter q dword st) = false.
Proof.
  intros Hk Hn Hdf Hat. induction q as [|q IH].
  - replace (k + 4 * Z.of_nat 0) with k by lia. done.
  - destruct IH as (A & B & C); [lia|].
    change (Nat.iter (S q) dword st) with (dword (Nat.iter q dword st)).
    destruct (Hdword (k + 4 * Z.of_nat q) (Nat.iter q dword st)) as (D & F & G); try lia; try done.
    replace (k + 4 * Z.of_nat (S q)) with (k + 4 * Z.of_nat q + 4) by lia.
    split_and!; [done | congruence | done].
Qed.

Lemma bottom_loop fuel k st :
  0 <= k -> at_byte k st -> edx st = n - k -> 0 <= n - k < Z.of_nat fuel ->
  exists st', while_do fuel (fun s => negb (edx s =? 0)) (fun s => Some (byte_bottom s)) st = Some st' /\
    at_byte n st'.
Proof.
  destruct Harea as (?&?&?).
  revert k st. induction fuel as [|fuel IH]; intros k st Hk Hat Hedx Hf; [lia|].
  simpl. destruct (negb (edx st =? 0)) eqn:E; bsplit.
  - destruct (Hbottom k st) as [Hat' Hedx']; [lia | done |].
    apply (IH (k + 1)); [lia | done | rewrite Hedx', u32_small; lia | lia].
  - exists st. split; [done|]. replace n with k by lia. done.
Qed.

Lemma aligned_loop_runs st :
  at_byte 0 st -> ecx st = n ->
  exists st', aligned_loop byte_top dword byte_bottom st = Some st' /\ at_byte n st'.
Proof.
  destruct Harea as (?&?&?). intros Hat Hecx. unfold aligned_loop.
  destruct (top_loop 4 0 st) as (k & st1 & E & Hk & Hat1 & Hecx1); try done; try lia; [zlia|].
  rewrite E. simpl mbind. unfold option_bind.
  destruct (Z.eqb_spec (ecx st1) 0).
  { exists st1. split; [done|]. replace n with k by lia. done. }
  assert (Z.shiftr (n - k) 2 = (n - k) / 4) as Hq by (rewrite Z.shiftr_div_pow2; done || lia).
  destruct (dword_loop (Z.to_nat ((n - k) / 4)) k (split_count st1)) as (A & B & _);
    [lia | zlia | done | done |].
  unfold rep. simpl ecx. rewrite Hecx1, Hq. simpl edx in B. rewrite Hecx1, land3 in B.
  apply (bottom_loop 4 (k + 4 * Z.of_nat (Z.to_nat ((n - k) / 4)))); [zlia | done | | zlia].
  rewrite B. zlia.
Qed.

End AlignedLoop.

(** ** [memset] *)

Lemma memset_eax_byte c j :
  0 <= c < 256 -> 0 <= j < 4 ->
  u8 (Z.shiftr (Z.lor (Z.shiftl c 24) (Z.lor (Z.shiftl c 16) (Z.lor (Z.shiftl c 8) c))) (8 * j)) = c.
Proof.
  intros Hc Hj. unfold u8. apply Z.bits_inj'. intros i Hi.
  rewrite Z.testbit_mod_pow2 by lia.
  destruct (Z.ltb_spec i 8); simpl.
  - rewrite Z.shiftr_spec, !Z.lor_spec, !Z.shiftl_spec by lia.
    assert (forall k, 8 <= k -> Z.testbit c k = false) as Hhi.
    { intros k Hk. rewrite <- (Z.mod_small c (2 ^ 8)) by lia. apply Z.mod_pow2_bits_high. lia. }
    assert (j = 0 \/ j = 1 \/ j = 2 \/ j = 3) as [->|[->|[->| ->]]] by lia.
    + rewrite !(Z.testbit_neg_r c (_ - _)) by lia. simpl. f_equal. lia.
    + rewrite !(Z.testbit_neg_r c (_ - _)) by lia. simpl.
      rewrite (Hhi (i + 8 * 1)) by lia. rewrite orb_false_r. f_equal. lia.
    + rewrite (Z.testbit_neg_r c (i + 8 * 2 - 24)), (Hhi (i + 8 * 2)), (Hhi (i + 8 * 2 - 8)) by lia.
      simpl. rewrite !orb_false_r. f_equal. lia.
    + rewrite (Hhi (i + 8 * 3)), (Hhi (i + 8 * 3 - 8)), (Hhi (i + 8 * 3 - 16)) by lia.
      rewrite !orb_false_r. f_equal. lia.
  - symmetry. rewrite <- (Z.mod_small c (2 ^ 8)) by lia. apply Z.mod_pow2_bits_high. lia.
Qed.

Lemma memset_runs m d s c n :
  area s n ->
  exists st, memset m d s c n = Some st /\ forall x, mem st x = patched m s n (fun _ => u8 c) x.
Proof.
  intros Ha. pose proof Ha as (?&?&?). unfold memset.
  assert (Z.land c 255 = u8 c) as -> by (change 255 with (Z.ones 8); rewrite Z.land_ones by lia; done).
  pose proof (u8_range c) as Hc.
  set (eax := Z.lor _ _).
  assert (u8 eax = u8 c) as Heax.
  { pose proof (memset_eax_byte (u8 c) 0 Hc) as E. rewrite Z.shiftr_0_r in E. apply E. lia. }
  set (Q := fun k (m' : memory) (_ : Z) => forall x, m' x = patched m s k (fun _ => u8 c) x).
  destruct (aligned_loop_runs s n Q (put_byte_ecx eax) (stosl eax) (put_byte_edx eax) Ha)
    with (st := Regs m s 0 n 0 d) as (st & E & _ & Hst); [| | | | done | by exists st].
  - intros k st Hk [E HQ]. split; [split|]; [| | done].
    + simpl. rewrite E. rewrite (u32_small (s + k)) by lia. f_equal. lia.
    + intros x. simpl. rewrite store8_get, E, u32_small, Heax, HQ by lia.
      unfold patched. repeat case_if; try lia; done.
  - intros k st Hk Hn Hdf [E HQ]. split_and!; [split | done | done].
    + simpl. unfold step_edi. rewrite Hdf, E, (u32_small (s + k)) by lia. f_equal. lia.
    + intros x. simpl. rewrite store32_get by (unfold area; rewrite E, u32_small; lia).
      rewrite E, u32_small, HQ by lia. unfold patched.
      destruct ((s + k <=? x) && (x <? s + k + 4)) eqn:F; bsplit.
      * unfold eax. rewrite memset_eax_byte by lia. repeat case_if; try lia; done.
      * repeat case_if; try lia; done.
  - intros k st Hk [E HQ]. split; [split|]; [| | done].
    + simpl. rewrite E. rewrite (u32_small (s + k)) by lia. f_equal. lia.
    + intros x. simpl. rewrite store8_get, E, u32_small, Heax, HQ by lia.
      unfold patched. repeat case_if; try lia; done.
  - split; simpl; [rewrite Z.add_0_r, u32_small; lia|].
    intros x. unfold patched. case_if; [lia | done].
Qed.

(** ** [memcpy] and [memmove] *)

(** The bytes of [[src, src+n)] of [m] moved to [dest]. *)
Definition moved (m : memory) (dest src n : Z) : memory :=
  patched m dest n (fun x => m (x - dest + src)).

(** The areas [memcpy] handles: the destination starts at or before the source,
    or after its end. *)
Definition forward_safe (dest src n : Z) : Prop := dest <= src \/ src + n <= dest.

Lemma moved_read m dest src n k j :
  forward_safe dest src n -> 0 <= k -> k <= j < n ->
  moved m dest src k (src + j) = m (src + j).
Proof. intros [?|?] ??; unfold moved, patched; case_if; lia || done. Qed.

Lemma moved_bytes m dest src k : bytes m -> bytes (moved m dest src k).
Proof. intros H x. unfold moved, patched. case_if; apply H. Qed.

Lemma moved_snoc m dest src k x :
  0 <= k ->
  (if x =? dest + k then m (src + k) else moved m dest src k x) = moved m dest src (k + 1) x.
Proof.
  intros. unfold moved, patched. destruct (Z.eqb_spec x (dest + k)).
  - subst. case_if; [|lia]. f_equal. lia.
  - repeat case_if; try lia; done.
Qed.

Lemma moved_snoc4 m dest src k x :
  0 <= k ->
  (if (dest + k <=? x) && (x <? dest + k + 4) then m (x - (dest + k) + (src + k))
   else moved m dest src k x) = moved m dest src (k + 4) x.
Proof.
  intros. unfold moved, patched.
  destruct ((dest + k <=? x) && (x <? dest + k + 4)) eqn:F; bsplit.
  - case_if; [|lia]. f_equal. lia.
  - repeat case_if; try lia; done.
Qed.

Lemma load32_ext m m' a : area a 4 ->
  (forall j, 0 <= j < 4 -> m (a + j) = m' (a + j)) -> load32 m a = load32 m' a.
Proof.
  intros (?&?&?) Hj. unfold load32. rewrite !u32_small by lia.
  pose proof (Hj 0) as Hj0. rewrite Z.add_0_r in Hj0. rewrite Hj0, !Hj by lia. done.
Qed.

Lemma memcpy_runs m d dest src n :
  bytes m -> area dest n -> area src n -> forward_safe dest src n ->
  exists st, memcpy m d dest src n = Some st /\ forall x, mem st x = moved m dest src n x.
Proof.
  intros Hm Hd Hs Hfs. pose proof Hd as (?&?&?). pose proof Hs as (?&?&?). unfold memcpy.
  set (Q := fun k (m' : memory) si => si = u32 (src + k) /\ forall x, m' x = moved m dest src k x).
  assert (forall k st, 0 <= k < n -> at_byte dest Q k st ->
    let m' := store8 (mem st) (edi st) (mem st (esi st)) in
    u32 (edi st + 1) = u32 (dest + (k + 1)) /\ Q (k + 1) m' (u32 (esi st + 1))) as Hbyte.
  { intros k st Hk [E [Es HQ]]. simpl.
    rewrite E, Es, (u32_small (dest + k)), (u32_small (src + k)) by lia.
    split; [f_equal; lia | split; [f_equal; lia|]].
    intros x. rewrite store8_get, !HQ, (moved_read _ _ _ n) by (done || lia).
    rewrite u8_small by apply Hm. apply moved_snoc. lia. }
  destruct (aligned_loop_runs dest n Q copy_byte_ecx movsl copy_byte_edx Hd)
    with (st := Regs m dest src n 0 d) as (st & E & _ & _ & Hst); [| | | | done | by exists st].
  - intros k st Hk Hat. destruct (Hbyte k st Hk Hat). done.
  - intros k st Hk Hn Hdf [E [Es HQ]]. split_and!; [split; [|split] | done | done].
    + simpl. unfold step_edi. rewrite Hdf, E, (u32_small (dest + k)) by lia. f_equal. lia.
    + simpl. unfold step_esi. rewrite Hdf, Es, (u32_small (src + k)) by lia. f_equal. lia.
    + intros x. simpl. rewrite E, Es, !u32_small by lia.
      rewrite (load32_ext _ m) by
        (unfold area; try lia; intros j Hj; rewrite HQ, <- Z.add_assoc; apply (moved_read _ _ _ n); done || lia).
      rewrite store_load32_get, HQ by (done || unfold area; lia). apply moved_snoc4. lia.
  - intros k st Hk Hat. destruct (Hbyte k st Hk Hat). done.
  - split; simpl; [rewrite Z.add_0_r, u32_small; lia | split].
    + rewrite Z.add_0_r, u32_small; lia.
    + intros x. unfold moved, patched. case_if; [lia | done].
Qed.

(** The forward [rep movsb] of [memmove]. *)
Lemma rep_movsb_forward m dest src n :
  bytes m -> area dest n -> area src n -> forward_safe dest src n ->
  forall x, mem (rep movsb (Regs m dest src n 0 false)) x = moved m dest src n x.
Proof.
  intros Hm (?&?&?) (?&?&?) Hfs. unfold rep. simpl ecx.
  set (st0 := Regs m dest src n 0 false).
  assert (forall q, Z.of_nat q <= n ->
    let st := Nat.iter q movsb st0 in
    df st = false /\ edi st = u32 (dest + Z.of_nat q) /\ esi st = u32 (src + Z.of_nat q) /\
    forall x, mem st x = moved m dest src (Z.of_nat q) x) as Hind.
  { induction q as [|q IH]; intros Hq.
    - simpl. rewrite !Z.add_0_r, !u32_small by lia. split_and!; try done.
      intros x. unfold moved, patched. case_if; [lia | done].
    - destruct IH as (D & E & S & M); [lia|].
      change (Nat.iter (Datatypes.S q) movsb st0) with (movsb (Nat.iter q movsb st0)).
      simpl. unfold step_edi, step_esi.
      rewrite D, E, S, (u32_small (dest + Z.of_nat q)), (u32_small (src + Z.of_nat q)) by lia.
      split_and!; [done | f_equal; lia | f_equal; lia |].
      intros x. rewrite store8_get, !M, (moved_read _ _ _ n) by (done || lia).
      rewrite u8_small by apply Hm.
      replace (Z.of_nat (Datatypes.S q)) with (Z.of_nat q + 1) by lia. apply moved_snoc. lia. }
  intros x. destruct (Hind (Z.to_nat n)) as (_ & _ & _ & M); [lia|].
  rewrite M. f_equal. lia.
Qed.

(** The backward [rep movsb], from the last byte down to the first. *)
Lemma rep_movsb_backward m dest src n :
  bytes m -> area dest n -> area src n -> src < dest ->
  forall x, mem (rep movsb (Regs m (u32 (dest + n - 1)) (u32 (src + n - 1)) n 0 true)) x =
            moved m dest src n x.
Proof.
  intros Hm (?&?&?) (?&?&?) Hlt. unfold rep. simpl ecx.
  set (st0 := Regs m _ _ n 0 true).
  assert (forall q, Z.of_nat q <= n ->
    let st := Nat.iter q movsb st0 in
    df st = true /\ edi st = u32 (dest + n - 1 - Z.of_nat q) /\
    esi st = u32 (src + n - 1 - Z.of_nat q) /\
    forall x, mem st x =
      patched m (dest + n - Z.of_nat q) (Z.of_nat q) (fun x => m (x - dest + src)) x) as Hind.
  { induction q as [|q IH]; intros Hq.
    - simpl. rewrite !Z.sub_0_r. split_and!; try done.
      intros x. unfold patched. case_if; [lia | done].
    - destruct IH as (D & E & S & M); [lia|].
      change (Nat.iter (Datatypes.S q) movsb st0) with (movsb (Nat.iter q movsb st0)).
      simpl. unfold step_edi, step_esi.
      rewrite D, E, S, (u32_small (dest + n - 1 - Z.of_nat q)),
        (u32_small (src + n - 1 - Z.of_nat q)) by lia.
      split_and!; [done | f_equal; lia | f_equal; lia |].
      intros x. rewrite store8_get, !M. unfold patched.
      destruct (Z.eqb_spec x (dest + n - 1 - Z.of_nat q)) as [->|Hne].
      + repeat case_if; try lia. rewrite u8_small by apply Hm. f_equal. lia.
      + repeat case_if; try lia; done. }
  intros x. destruct (Hind (Z.to_nat n)) as (_ & _ & _ & M); [lia|].
  rewrite M. unfold moved. rewrite Z2Nat.id by lia.
  replace (dest + n - n) with dest by lia. done.
Qed.

Lemma memset_word_runs m s c n :
  area s (2 * n) ->
  forall x, mem (memset_word m s c n) x =
    patched m s (2 * n) (fun x => u8 (Z.shiftr c (8 * ((x - s) mod 2)))) x.
Proof.
  intros (?&?&?). unfold memset_word, rep. simpl ecx.
  set (st0 := Regs _ _ _ _ _ _). simpl in st0.
  assert (forall q, Z.of_nat q <= n ->
    let st := Nat.iter q (stosw c) (set_df false st0) in
    df st = false /\ edi st = u32 (s + 2 * Z.of_nat q) /\
    forall x, mem st x =
      patched m s (2 * Z.of_nat q) (fun x => u8 (Z.shiftr c (8 * ((x - s) mod 2)))) x) as Hind.
  { induction q as [|q IH]; intros Hq.
    - simpl. rewrite Z.add_0_r, u32_small by lia. split_and!; try done.
      intros x. unfold patched. case_if; [lia | done].
    - destruct IH as (D & E & M); [lia|].
      change (Nat.iter (Datatypes.S q) (stosw c) (set_df false st0))
        with (stosw c (Nat.iter q (stosw c) (set_df false st0))).
      simpl. unfold step_edi. rewrite D, E, (u32_small (s + 2 * Z.of_nat q)) by lia.
      split_and!; [done | f_equal; lia |].
      intros x. rewrite store16_get, M by (unfold area; lia). unfold patched.
      destruct (Z.eqb_spec x (s + 2 * Z.of_nat q)) as [->|].
      { case_if; [|lia]. f_equal.
        replace ((s + 2 * Z.of_nat q - s) mod 2) with 0 by zlia. rewrite Z.shiftr_0_r. done. }
      destruct (Z.eqb_spec x (s + 2 * Z.of_nat q + 1)) as [->|].
      { case_if; [|lia]. f_equal.
        replace ((s + 2 * Z.of_nat q + 1 - s) mod 2) with 1 by zlia. done. }
      repeat case_if; try lia; done. }
  intros x. destruct (Hind (Z.to_nat n)) as (_ & _ & M); [lia|].
  rewrite M. f_equal. lia.
Qed.

(** ** Properties *)

(** [memset], which writes single bytes up to a 4-byte boundary, dwords, and
    the remaining bytes, terminates and sets exactly the [n] bytes from [s] to the
    low byte of [c], whatever the alignment of [s]. *)
Theorem memset_correct m d s c n :
  area s n ->
  exists st, memset m d s c n = Some st /\ forall x, mem st x = patched m s n (fun _ => u8 c) x.
Proof. apply memset_runs. Qed.

Lemma memset_correct_witness :
  exists st, memset (fun _ => 9) true 1021 0x141 11 = Some st /\
    forall x, mem st x = patched (fun _ => 9) 1021 11 (fun _ => u8 0x141) x.
Proof. apply (memset_correct (fun _ => 9) true 1021 0x141 11). unfold area. lia. Defined.

(** C38: [memcpy] is correct on overlapping areas too, as long as the destination
    is not strictly inside the source: it ends with the [n] source bytes, as they
    were before the call, at the destination, and no other byte changed. *)
Theorem memcpy_correct m d dest src n :
  bytes m -> area dest n -> area src n -> forward_safe dest src n ->
  exists st, memcpy m d dest src n = Some st /\ forall x, mem st x = moved m dest src n x.
Proof. apply memcpy_runs. Qed.

Lemma memcpy_correct_witness :
  exists st, memcpy (fun x => x mod 256) false 0xb8000 (0xb8000 + 160) 3840 = Some st /\
    forall x, mem st x = moved (fun x => x mod 256) 0xb8000 (0xb8000 + 160) 3840 x.
Proof.
  apply (memcpy_correct (fun x => x mod 256) false 0xb8000 (0xb8000 + 160) 3840);
    [intros x; apply Z.mod_pos_bound | unfold area | unfold area | unfold forward_safe]; lia.
Defined.

(** [memmove] is correct whatever the overlap of the two areas. *)
Theorem memmove_correct m dest src n :
  bytes m -> area dest n -> area src n ->
  forall x, mem (memmove m dest src n) x = moved m dest src n x.
Proof.
  intros Hm Hd Hs. unfold memmove. destruct (Z.leb_spec dest src).
  - apply rep_movsb_forward; [done.. | left; done].
  - apply rep_movsb_backward; done.
Qed.

Lemma memmove_correct_witness : mem (memmove (fun x => x mod 256) 1003 1000 10) 1004 = 1001 mod 256.
Proof.
  rewrite (memmove_correct (fun x => x mod 256) 1003 1000 10);
    [reflexivity | intros x; apply Z.mod_pos_bound; lia | unfold area; lia | unfold area; lia].
Defined.

(** A [memmove] that copies backwards returns with the direction flag set,
    which the i386 calling convention requires to be clear. *)
Theorem memmove_leaves_df m dest src n :
  src < dest -> df (memmove m dest src n) = true.
Proof.
  intros. unfold memmove. bfalse (dest <=? src). unfold rep.
  set (st := Regs _ _ _ _ _ _). change true with (df st). clearbody st.
  generalize (Z.to_nat (ecx st)). intros k. induction k as [|k IH]; [done|]. simpl. done.
Qed.

Lemma memmove_leaves_df_witness : df (memmove (fun _ => 0) 8 4 2) = true.
Proof. apply (memmove_leaves_df (fun _ => 0) 8 4 2). lia. Defined.
