(* ===== verification/Lib.v ===== *)
(** * The string and number routines of [student-distrib/lib.c]

    [strlen], [strcpy], [strncpy], [strncmp], [strrev] and [itoa] on character
    arrays: a pointer argument is the array from the pointed position on, and an
    access past the array is [None]. *)

From stdpp Require Import base list option.
From Stdlib Require Import ZArith Lia ZifyBool.
From S2P Require Import Prelude.

(** [while (s[len] != '\0') len++]. *)
Fixpoint strlen_from (s : list Z) (len : Z) : option Z :=
  match s with
  | [] => None
  | c :: s' => if c =? 0 then Some len else strlen_from s' (u32 (len + 1))
  end.

Definition strlen (s : list Z) : option Z := strlen_from s 0.

(** [while (src[i] != '\0') { dest[i] = src[i]; i++; } dest[i] = '\0']. *)
Fixpoint strcpy_from (dest src : list Z) (i : Z) : option (list Z) :=
  match src with
  | [] => None
  | c :: src' =>
      if c =? 0 then dest.[i <- 0]
      else dest' ← dest.[i <- c]; strcpy_from dest' src' (i + 1)
  end.

Definition strcpy (dest src : list Z) : option (list Z) := strcpy_from dest src 0.

(** The two loops of [strncpy]; [src[i]] is read before [i < n] is tested. *)
Definition strncpy_pad (dest : list Z) (i n : Z) : option (list Z) :=
  for_up (Z.to_nat (n - i)) i (fun j d => d.[j <- 0]) dest.

Fixpoint strncpy_from (dest src : list Z) (i n : Z) : option (list Z) :=
  match src with
  | [] => None
  | c :: src' =>
      if negb (c =? 0) && (i <? n)
      then dest' ← dest.[i <- c]; strncpy_from dest' src' (i + 1) n
      else strncpy_pad dest i n
  end.

Definition strncpy (dest src : list Z) (n : Z) : option (list Z) := strncpy_from dest src 0 n.

(** [for (i = 0; i < n; i++)] with the early return. *)
Fixpoint strncmp_from (k : nat) (s1 s2 : list Z) (i : Z) : option Z :=
  match k with
  | O => Some 0
  | S k' =>
      a ← s1.[i]; b ← s2.[i];
      if negb (a =? b) || (a =? 0) then Some (a - b) else strncmp_from k' s1 s2 (i + 1)
  end.

Definition strncmp (s1 s2 : list Z) (n : Z) : option Z := strncmp_from (Z.to_nat n) s1 s2 0.

(** [tmp = s[end]; s[end] = s[beg]; s[beg] = tmp]. *)
Definition swap_chars (s : list Z) (a b : Z) : option (list Z) :=
  x ← s.[b]; y ← s.[a]; s' ← s.[b <- y]; s'.[a <- x].

(** One turn of [strrev]'s loop on [(s, beg, end)]. *)
Definition strrev_body (st : list Z * Z * Z) : option (list Z * Z * Z) :=
  let '(s, b, e) := st in s' ← swap_chars s b e; Some (s', b + 1, e - 1).

Definition strrev (s : list Z) : option (list Z) :=
  len ← strlen s;
  '(s', _, _) ← while_do (S (length s)) (fun '(_, b, e) => b <? e) strrev_body (s, 0, s32 (u32 (len - 1)));
  Some s'.

Definition lookup_table : list Z := str "0123456789ABCDEFGHIJKLMNOPQRSTUVWXYZ" ++ [0].

(** One turn of [itoa]'s loop on [(buf, newbuf - buf, newval)]. *)
Definition itoa_body (radix : Z) (st : list Z * Z * Z) : option (list Z * Z * Z) :=
  let '(buf, pos, newval) := st in
  let i := newval mod u32 radix in
  c ← lookup_table.[i];
  buf' ← buf.[pos <- c];
  Some (buf', pos + 1, newval / u32 radix).

(** The loop divides a 32-bit value by a radix of at least 2: 33 turns of fuel
    are enough. *)
Definition itoa (value : Z) (buf : list Z) (radix : Z) : option (list Z) :=
  if value =? 0 then
    b ← buf.[0 <- 48]; b.[1 <- 0]
  else
    '(b, pos, _) ← while_do 33 (fun '(_, _, v) => 0 <? v) (itoa_body radix) (buf, 0, value);
    b' ← b.[pos <- 0];
    strrev b'.

(** ** Reference definitions *)

(** The value a numeral denotes, most significant digit first. *)
Definition digit_value (c : Z) : Z := if c <=? 57 then c - 48 else c - 55.

Definition parse_radix (radix : Z) (cs : list Z) : Z :=
  fold_left (fun acc c => acc * radix + digit_value c) cs 0.

Definition digit_char (d : Z) : Z := if d <? 10 then 48 + d else 55 + d.

Definition is_digit (radix c : Z) : Prop := 0 <= digit_value c < radix /\ digit_char (digit_value c) = c.

(** ** C strings *)

Lemma cstring_cons buf c cs : c <> 0 -> cstring buf cs -> cstring (c :: buf) (c :: cs).
Proof. intros Hc (r & -> & H). exists r. split; [done | by constructor]. Qed.

Lemma cstring_inv buf cs : cstring buf cs ->
  match cs with
  | [] => exists r, buf = 0 :: r
  | c :: cs' => c <> 0 /\ exists buf', buf = c :: buf' /\ cstring buf' cs'
  end.
Proof.
  intros (r & -> & H). destruct cs as [|c cs]; [by exists r|].
  inversion H; subst. split; [done|]. exists (cs ++ 0 :: r). split; [done|]. by exists r.
Qed.

Lemma cstring_length buf cs : cstring buf cs -> (length cs < length buf)%nat.
Proof. intros (r & -> & _). rewrite length_app. simpl. lia. Qed.

Lemma strlen_from_spec s cs len :
  cstring s cs -> 0 <= len -> len + Z.of_nat (length cs) < 2 ^ 32 ->
  strlen_from s len = Some (len + Z.of_nat (length cs)).
Proof.
  revert s len. induction cs as [|c cs IH]; intros s len Hs%cstring_inv H0 Hlen.
  - destruct Hs as [r ->]. simpl. f_equal. lia.
  - destruct Hs as (Hc & s' & -> & Hs'). simpl in *.
    bfalse (c =? 0). rewrite u32_small by lia. rewrite IH by (done || lia). f_equal. lia.
Qed.

Lemma strlen_spec s cs :
  cstring s cs -> Z.of_nat (length cs) < 2 ^ 32 -> strlen s = Some (Z.of_nat (length cs)).
Proof. intros. unfold strlen. rewrite (strlen_from_spec s cs) by (done || lia). done. Qed.

Lemma strlen_from_inv s len n :
  strlen_from s len = Some n -> exists cs, cstring s cs.
Proof.
  revert len. induction s as [|c s IH]; intros len; simpl; [done|].
  case_if; intros H.
  - subst. exists []. by exists s.
  - apply IH in H as [cs Hcs]. exists (c :: cs). by apply cstring_cons.
Qed.

(** The string a buffer holds is determined by the buffer. *)
Lemma cstring_det s cs cs' : cstring s cs -> cstring s cs' -> cs = cs'.
Proof.
  revert s cs'. induction cs as [|c cs IH]; intros s cs' H1%cstring_inv H2%cstring_inv.
  - destruct H1 as [r ->]. destruct cs'; [done|].
    destruct H2 as (? & ? & ? & _). by simplify_eq.
  - destruct H1 as (Hc & s1 & -> & H1). destruct cs' as [|c' cs'].
    + destruct H2 as [r ?]. by simplify_eq.
    + destruct H2 as (_ & s2 & ? & H2). simplify_eq. f_equal. by apply (IH s2).
Qed.

(** [strcpy_from] on the two parts of the destination already written and still
    to be written. *)
Lemma strcpy_from_spec src cs : cstring src cs -> forall pre post,
  strcpy_from (pre ++ post) src (Z.of_nat (length pre)) =
  if (length cs <? length post)%nat
  then Some (pre ++ cs ++ 0 :: drop (S (length cs)) post) else None.
Proof.
  revert src. induction cs as [|c cs IH]; intros src Hs%cstring_inv pre post.
  - destruct Hs as [r ->]. simpl. destruct post as [|p post]; simpl.
    + rewrite zset_out; [done|]. rewrite app_nil_r. lia.
    + rewrite zset_app_mid by done. by rewrite drop_0.
  - destruct Hs as (Hc & src' & -> & Hs'). simpl. bfalse (c =? 0).
    destruct post as [|p post]; simpl.
    + rewrite zset_out; [done|]. rewrite app_nil_r. lia.
    + rewrite zset_app_mid by done. simpl.
      specialize (IH src' Hs' (pre ++ [c]) post).
      rewrite <- !app_assoc in IH. simpl in IH. rewrite length_app in IH. simpl in IH.
      replace (Z.of_nat (length pre) + 1) with (Z.of_nat (length pre + 1)) by lia.
      rewrite IH. done.
Qed.

Lemma strcpy_spec dest src cs :
  cstring src cs ->
  strcpy dest src = if (length cs <? length dest)%nat
                    then Some (cs ++ 0 :: drop (S (length cs)) dest) else None.
Proof. intros H. apply (strcpy_from_spec src cs H [] dest). Qed.

Lemma strncmp_from_zero k s1 s2 i :
  0 <= i -> i + Z.of_nat k <= Z.of_nat (length s1) -> i + Z.of_nat k <= Z.of_nat (length s2) ->
  exists r, strncmp_from k s1 s2 i = Some r /\
    (r = 0 <-> forall j, i <= j < i + Z.of_nat k ->
       s1.[j] = s2.[j] \/ exists h, i <= h < j /\ s1.[h] = Some 0 /\ s2.[h] = Some 0).
Proof.
  revert i. induction k as [|k IH]; intros i Hi H1 H2.
  - exists 0. split; [done|]. split; [intros _ j Hj; lia | done].
  - destruct (zget_ex s1 i) as [a Ha]; [lia|]. destruct (zget_ex s2 i) as [b Hb]; [lia|].
    simpl. rewrite Ha, Hb. simpl. destruct (negb (a =? b) || (a =? 0)) eqn:E.
    + exists (a - b). split; [done|]. split.
      * intros Hr j Hj. assert (a = b) as -> by lia. assert (b = 0) as -> by lia.
        destruct (decide (j = i)) as [->|]; [left; congruence|].
        right. exists i. split; [lia | done].
      * intros Hj. destruct (Hj i) as [E'|(h & ? & _)]; [lia | | lia].
        rewrite Ha, Hb in E'. simplify_eq. lia.
    + destruct (IH (i + 1)) as (r & Er & Hr); [lia..|]. exists r. split; [done|].
      assert (a = b /\ a <> 0) as [<- Hnz] by lia.
      rewrite Hr. split; intros Hj j Hj'.
      * destruct (decide (j = i)) as [->|]; [left; congruence|].
        destruct (Hj j) as [?|(h & ? & ?)]; [lia | by left | right; exists h; split; [lia | done]].
      * destruct (Hj j) as [?|(h & ? & E1 & ?)]; [lia | by left |].
        destruct (decide (h = i)) as [->|]; [congruence|].
        right. exists h. split; [lia | done].
Qed.

(** ** Reversing in place *)

Lemma swap_chars_spec s a b :
  0 <= a < Z.of_nat (length s) -> 0 <= b < Z.of_nat (length s) ->
  exists s', swap_chars s a b = Some s' /\ length s' = length s /\
    forall i, s'.[i] = if i =? a then s.[b] else if i =? b then s.[a] else s.[i].
Proof.
  intros Ha Hb. unfold swap_chars.
  destruct (zget_ex s a Ha) as [y Hy]. destruct (zget_ex s b Hb) as [x Hx].
  rewrite Hx, Hy. simpl. rewrite zset_in by done. simpl.
  rewrite zset_in by (rewrite length_insert; done).
  eexists. split; [done|]. split; [by rewrite !length_insert|]. intros i.
  rewrite (zget_zset (<[Z.to_nat b:=y]> s) _ a i x) by (apply zset_in; rewrite length_insert; done).
  rewrite (zget_zset s _ b i y) by (apply zset_in; done).
  repeat case_if; congruence.
Qed.

(** The first [k] and last [k] of the first [n] characters have changed places. *)
Definition half_reversed (s : list Z) (n k : Z) (s' : list Z) : Prop :=
  length s' = length s /\
  forall i, s'.[i] = if (0 <=? i) && (i <? n) && ((i <? k) || (n - 1 - k <? i))
                     then s.[n - 1 - i] else s.[i].

Lemma half_reversed_start s n : half_reversed s n 0 s.
Proof. split; [done|]. intros i. case_if; [lia | done]. Qed.

Lemma half_reversed_step s n k s' :
  half_reversed s n k s' -> 0 <= k -> k < n - 1 - k -> n <= Z.of_nat (length s) ->
  exists s'', swap_chars s' k (n - 1 - k) = Some s'' /\ half_reversed s n (k + 1) s''.
Proof.
  intros [Hlen Hget] Hk Hlt Hn.
  destruct (swap_chars_spec s' k (n - 1 - k)) as (s'' & E & Hlen' & Hget'); [lia..|].
  exists s''. split; [done|]. split; [congruence|]. intros i. rewrite Hget', !Hget.
  destruct (Z.eqb_spec i k) as [->|]; [|destruct (Z.eqb_spec i (n - 1 - k)) as [->|]];
    repeat case_if; try lia; try done; f_equal; lia.
Qed.

Lemma zget_rev {A} (l : list A) i :
  0 <= i < Z.of_nat (length l) -> (reverse l).[i] = l.[Z.of_nat (length l) - 1 - i].
Proof.
  intros Hi. rewrite !zget_lookup by lia.
  rewrite reverse_lookup by lia. f_equal. lia.
Qed.

Lemma half_reversed_done cs rest k s' :
  half_reversed (cs ++ rest) (Z.of_nat (length cs)) k s' ->
  Z.of_nat (length cs) - 1 - k <= k -> s' = reverse cs ++ rest.
Proof.
  intros [Hlen Hget] Hk. apply zget_ext.
  - rewrite Hlen, !length_app, length_reverse. done.
  - intros i Hi. rewrite Hlen, length_app in Hi. rewrite Hget.
    destruct (Z.ltb_spec i (Z.of_nat (length cs))).
    + rewrite (zget_app_l (reverse cs)) by (rewrite length_reverse; lia). rewrite zget_rev by lia.
      rewrite !zget_app_l by lia. case_if; [done|]. f_equal. lia.
    + rewrite (zget_app_r (reverse cs)) by (rewrite length_reverse; lia). rewrite length_reverse.
      case_if; [lia|]. rewrite zget_app_r by lia. done.
Qed.

Lemma strrev_spec cs rest :
  Forall (fun c => c <> 0) cs -> Z.of_nat (length cs) < 2 ^ 31 ->
  strrev (cs ++ 0 :: rest) = Some (reverse cs ++ 0 :: rest).
Proof.
  intros Hnz Hlen. unfold strrev.
  rewrite (strlen_spec _ cs) by ((by exists rest) || lia). bind.
  set (n := Z.of_nat (length cs)). set (s := cs ++ 0 :: rest).
  assert (s32 (u32 (n - 1)) = n - 1) as ->.
  { destruct (Z.eqb_spec n 0) as [->|]; [done|]. rewrite u32_small, s32_small by lia. done. }
  destruct (while_do_inv
    (fun (j : nat) (st : list Z * Z * Z) => let '(s', b, e) := st in
       exists k, b = k /\ e = n - 1 - k /\ 0 <= k /\ Z.of_nat j = Z.max 0 (n - k) /\ half_reversed s n k s')
    (fun '(_, b, e) => b <? e) strrev_body (S (length s)) (s, 0, n - 1) (length cs))
    as (j & [[s' b] e] & E & (k & -> & -> & Hk & Hj & Hh) & Hc).
  - exists 0. split_and!; try lia. apply half_reversed_start.
  - unfold s. rewrite length_app. simpl. lia.
  - intros j [[s' b] e] (k & -> & -> & Hk & Hj & Hh) Hc. bsplit.
    destruct (half_reversed_step s n k s') as (s'' & E & Hh'); [done | lia | lia | |].
    { unfold s, n. rewrite length_app. lia. }
    simpl. rewrite E. simpl. exists (pred j), (s'', k + 1, n - 1 - k - 1).
    split_and!; [done | lia |]. exists (k + 1). split_and!; [lia.. | done].
  - rewrite E. bind. f_equal. bsplit. apply (half_reversed_done cs (0 :: rest) k); [done | lia].
Qed.

(** ** Numerals *)

Lemma parse_radix_acc radix ds acc :
  fold_left (fun acc c => acc * radix + digit_value c) ds acc =
  acc * radix ^ Z.of_nat (length ds) + parse_radix radix ds.
Proof.
  unfold parse_radix. revert acc. induction ds as [|d ds IH]; intros acc; cbn [fold_left length].
  - change (Z.of_nat 0) with 0. rewrite Z.pow_0_r. lia.
  - rewrite IH, (IH (0 * radix + digit_value d)), Nat2Z.inj_succ, Z.pow_succ_r by lia. ring.
Qed.

Lemma parse_radix_cons radix d ds :
  parse_radix radix (d :: ds) = digit_value d * radix ^ Z.of_nat (length ds) + parse_radix radix ds.
Proof. unfold parse_radix at 1. cbn [fold_left]. rewrite parse_radix_acc. f_equal. Qed.

Lemma digit_char_value d : 0 <= d < 36 -> digit_value (digit_char d) = d.
Proof. intros. unfold digit_value, digit_char. repeat case_if; lia. Qed.

Lemma digit_char_is_digit radix d : 0 <= d < radix -> radix <= 36 -> is_digit radix (digit_char d).
Proof. intros. unfold is_digit. rewrite digit_char_value by lia. done. Qed.

Lemma digit_char_nonzero d : 0 <= d -> digit_char d <> 0.
Proof. intros. unfold digit_char. case_if; lia. Qed.

Lemma lookup_table_digit d : 0 <= d < 36 -> lookup_table.[d] = Some (digit_char d).
Proof.
  intros Hd.
  assert (forallb (fun d => bool_decide (lookup_table.[d] = Some (digit_char d))) (seqZ 0 36) = true)
    as HF by (vm_compute; done).
  rewrite forallb_forall in HF. specialize (HF d).
  apply bool_decide_eq_true in HF; [done|]. apply list_elem_of_In, elem_of_seqZ. lia.
Qed.

(** The state of [itoa]'s loop after the digits [ds] (most significant first). *)
Definition itoa_inv (value radix : Z) (buf : list Z) (j : nat) (st : list Z * Z * Z) : Prop :=
  let '(b, pos, v) := st in
  exists ds, b = reverse ds ++ drop (length ds) buf /\ pos = Z.of_nat (length ds) /\
    (length ds + j < length buf)%nat /\ 0 <= v < radix ^ Z.of_nat j /\ Forall (is_digit radix) ds /\
    value = v * radix ^ pos + parse_radix radix ds /\ (ds <> [] -> radix ^ (pos - 1) <= value).

Lemma parse_radix_range radix ds :
  2 <= radix -> Forall (is_digit radix) ds -> 0 <= parse_radix radix ds < radix ^ Z.of_nat (length ds).
Proof.
  intros Hr. induction 1 as [|d ds [[? ?] _] _ IH].
  - unfold parse_radix. simpl. lia.
  - rewrite parse_radix_cons. cbn [length]. rewrite Nat2Z.inj_succ, Z.pow_succ_r by lia. nia.
Qed.

Lemma itoa_body_step value radix buf j st :
  2 <= radix <= 36 -> itoa_inv value radix buf j st ->
  (let '(_, _, v) := st in 0 <? v) = true ->
  exists j' st', itoa_body radix st = Some st' /\ (j' < j)%nat /\ itoa_inv value radix buf j' st'.
Proof.
  intros Hr. destruct st as [[b pos] v].
  intros (ds & -> & -> & Hj & Hv & Hd & Hval & _) Hpos. bsplit.
  destruct j as [|j]; [simpl in Hv; lia|].
  unfold itoa_body. rewrite u32_small by lia.
  pose proof (Z.mod_pos_bound v radix). rewrite lookup_table_digit by lia. simpl.
  destruct (drop (length ds) buf) as [|x rest] eqn:Edrop.
  { apply (f_equal length) in Edrop. rewrite length_drop in Edrop. simpl in Edrop. lia. }
  rewrite zset_app_mid by (rewrite length_reverse; done). simpl.
  set (c := digit_char (v mod radix)).
  exists j, (reverse (c :: ds) ++ drop (length (c :: ds)) buf, Z.of_nat (length (c :: ds)), v / radix).
  split_and!.
  - rewrite reverse_cons, <- app_assoc. cbn [length app].
    replace (Z.of_nat (S (length ds))) with (Z.of_nat (length ds) + 1) by lia.
    replace (drop (S (length ds)) buf) with rest; [done|].
    replace (S (length ds)) with (length ds + 1)%nat by lia. by rewrite <- drop_drop, Edrop.
  - lia.
  - exists (c :: ds). split_and!; try done.
    + simpl in *. lia.
    + apply Z.div_pos; lia.
    + rewrite Nat2Z.inj_succ, Z.pow_succ_r in Hv by lia. apply Z.div_lt_upper_bound; nia.
    + constructor; [apply digit_char_is_digit; lia | done].
    + rewrite parse_radix_cons. unfold c. rewrite digit_char_value by lia.
      cbn [length]. rewrite Nat2Z.inj_succ, Z.pow_succ_r, Hval by lia.
      pose proof (Z.div_mod v radix). nia.
    + intros _. cbn [length]. replace (Z.of_nat (S (length ds)) - 1) with (Z.of_nat (length ds)) by lia.
      pose proof (parse_radix_range radix ds ltac:(lia) Hd). nia.
Qed.

Lemma is_digit_nonzero radix ds : Forall (is_digit radix) ds -> Forall (fun c => c <> 0) ds.
Proof.
  apply Forall_impl. intros c [[? ?] <-]. by apply digit_char_nonzero.
Qed.

(** The number of digits of a value below [2 ^ k]. *)
Lemma digits_bound radix n value k :
  2 <= radix -> 0 <= k -> value < 2 ^ k -> radix ^ (n - 1) <= value -> n <= k.
Proof.
  intros Hr Hk Hv Hn. destruct (Z.le_gt_cases n k); [done|].
  assert (2 ^ k <= radix ^ (n - 1)); [|lia].
  apply (Z.le_trans _ (2 ^ (n - 1))); [apply Z.pow_le_mono_r; lia | apply Z.pow_le_mono_l; lia].
Qed.

Lemma itoa_spec value radix buf :
  0 <= value < 2 ^ 32 -> 2 <= radix <= 36 -> (33 <= length buf)%nat ->
  exists cs, itoa value buf radix = Some (cs ++ 0 :: drop (S (length cs)) buf) /\
    parse_radix radix cs = value /\ Forall (is_digit radix) cs /\ (length cs <= 32)%nat /\
    cs <> [] /\ (value = 0 -> cs = [48]) /\ (value <> 0 -> radix ^ (Z.of_nat (length cs) - 1) <= value).
Proof.
  intros Hv Hr Hbuf. unfold itoa. destruct (Z.eqb_spec value 0) as [->|Hne].
  { destruct buf as [|x [|y buf]]; [simpl in Hbuf; lia..|].
    exists [48]. split_and!; try done; try (simpl; lia).
    { rewrite zset_in by (simpl; lia). bind. rewrite zset_in by (simpl; lia). done. }
    constructor; [|done]. split; [|done]. unfold digit_value. simpl. lia. }
  destruct (while_do_inv (itoa_inv value radix buf) (fun '(_, _, v) => 0 <? v) (itoa_body radix)
    33 (buf, 0, value) 32) as (j & [[b pos] v] & E & Hinv & Hc).
  - exists []. cbn [length]. rewrite drop_0.
    assert (2 ^ 32 <= radix ^ 32) by (apply Z.pow_le_mono_l; lia).
    split_and!; try done; try lia; cbn; lia.
  - lia.
  - intros j st. by apply itoa_body_step.
  - rewrite E. bind. bsplit. destruct Hinv as (ds & -> & -> & Hj & Hv' & Hd & Hval & Hlead).
    assert (v = 0) as -> by lia. rewrite Z.mul_0_l, Z.add_0_l in Hval.
    assert (ds <> []) as Hnil by (intros ->; by cbn in Hval).
    assert (length ds <= 32)%nat as Hl32
      by (pose proof (digits_bound radix (Z.of_nat (length ds)) value 32); specialize (Hlead Hnil); lia).
    destruct (drop (length ds) buf) as [|x rest] eqn:Edrop.
    { apply (f_equal length) in Edrop. rewrite length_drop in Edrop. simpl in Edrop. lia. }
    rewrite zset_app_mid by (rewrite length_reverse; done). simpl.
    rewrite strrev_spec, reverse_involutive.
    + assert (rest = drop (S (length ds)) buf) as ->.
      { replace (S (length ds)) with (length ds + 1)%nat by lia. by rewrite <- drop_drop, Edrop. }
      exists ds. split_and!; try done; auto.
    + apply Forall_reverse. by apply (is_digit_nonzero radix).
    + rewrite length_reverse. lia.
Qed.

(** *** Numerals

    The digits of a number from the last to the first, and that [itoa] writes them. *)

Fixpoint digits (n : nat) (radix v : Z) (acc : list Z) : list Z :=
  match n with
  | O => acc
  | S n' => if v =? 0 then acc else digits n' radix (v / radix) (digit_char (v mod radix) :: acc)
  end.

Definition numeral (radix v : Z) : list Z := if v =? 0 then [48] else digits 32 radix v [].

Lemma parse_radix_snoc radix ds d : parse_radix radix (ds ++ [d]) = parse_radix radix ds * radix + digit_value d.
Proof. unfold parse_radix. by rewrite fold_left_app. Qed.

(** A list of digits that does not start with a zero is the numeral of its value. *)
Lemma digits_parse radix ds n acc :
  2 <= radix <= 36 -> Forall (is_digit radix) ds -> (length ds <= n)%nat ->
  (ds <> [] -> radix ^ (Z.of_nat (length ds) - 1) <= parse_radix radix ds) ->
  digits n radix (parse_radix radix ds) acc = ds ++ acc.
Proof.
  intros Hr. revert n acc. induction ds as [|d ds IH] using rev_ind; intros n acc Hd Hn Hlead.
  - by destruct n.
  - apply Forall_app in Hd as [Hd Hd1]. inversion Hd1 as [|? ? [Hd2 Hd3] _]. subst.
    rewrite length_app in Hn, Hlead. cbn [length] in Hn, Hlead. destruct n as [|n]; [lia|].
    rewrite parse_radix_snoc in *. pose proof (parse_radix_range radix ds ltac:(lia) Hd) as Hp.
    assert (radix ^ Z.of_nat (length ds) <= parse_radix radix ds * radix + digit_value d) as Hl.
    { replace (Z.of_nat (length ds)) with (Z.of_nat (length ds + 1) - 1) by lia. apply Hlead. by destruct ds. }
    assert (0 < radix ^ Z.of_nat (length ds)) by (apply Z.pow_pos_nonneg; lia).
    cbn [digits]. bfalse (parse_radix radix ds * radix + digit_value d =? 0).
    rewrite Z.div_add_l, (Z.div_small (digit_value d)), Z.add_0_r by lia.
    rewrite Z.add_comm, Z.mod_add, Z.mod_small, Hd3 by lia. rewrite IH; [by rewrite <- app_assoc | done | lia|].
    intros Hne. destruct ds as [|e ds']; [done|]. set (N := Z.of_nat (length (e :: ds'))) in *.
    assert (radix ^ N = radix ^ (N - 1) * radix) as E by (rewrite Z.mul_comm, <- Z.pow_succ_r by (subst N; cbn [length]; lia); f_equal; lia).
    rewrite E in Hl. nia.
Qed.

Lemma itoa_numeral value radix buf :
  0 <= value < 2 ^ 32 -> 2 <= radix <= 36 -> (33 <= length buf)%nat ->
  itoa value buf radix = Some (numeral radix value ++ 0 :: drop (S (length (numeral radix value))) buf) /\
  Forall (is_digit radix) (numeral radix value) /\
  (value <> 0 -> radix ^ (Z.of_nat (length (numeral radix value)) - 1) <= value).
Proof.
  intros Hv Hr Hb. destruct (itoa_spec value radix buf Hv Hr Hb) as (cs & E & Hp & Hd & Hl & Hne & H0 & Hlead).
  assert (numeral radix value = cs) as ->; [|done]. unfold numeral. destruct (Z.eqb_spec value 0) as [->|Hnz]; [by rewrite H0|].
  rewrite <- Hp, digits_parse, app_nil_r; auto. intros _. rewrite Hp. auto.
Qed.
