(* ===== verification/Console.v ===== *)
(** * The boot console of [student-distrib/lib.c]

    [clear], [putc], [puts], [printf] and [test_interrupts] write straight to the
    text-mode video memory at [0xB8000].  The state is the cursor and memory;
    [printf] reads its arguments as the 32-bit words above the format pointer on
    the stack, so it takes them as a list of words, with [deref] for the string a
    [%s] word points to, and the contents of its uninitialised conversion buffers
    as arguments.  A store goes where the page tables put its address: [phys] says where,
    which is the address itself until paging is enabled. *)

From stdpp Require Import base list option.
From Stdlib Require Import ZArith Lia ZifyBool.
From S2P Require Import Prelude MemOps Lib.

Definition VIDEO : Z := 0xB8000.
Definition NUM_COLS : Z := 80.
Definition NUM_ROWS : Z := 25.
Definition ATTRIB : Z := 0x7.

(** Before paging is enabled. *)
Definition physical (a : Z) : Z := a.

Record console := Console { screen_x : Z; screen_y : Z; vmem : memory }.

Section Console.
Context (phys : Z -> Z).

Definition put_cell (m : memory) (i c : Z) : memory :=
  let a := VIDEO + Z.shiftl i 1 in store8 (store8 m (phys (u32 a)) c) (phys (u32 (a + 1))) ATTRIB.

Definition clear (con : console) : option console :=
  m ← for_up (Z.to_nat (NUM_ROWS * NUM_COLS)) 0 (fun i m => Some (put_cell m i 32)) (vmem con);
  Some (Console (screen_x con) (screen_y con) m).

Definition putc (con : console) (c : Z) : console :=
  let c := u8 c in
  if (c =? 10) || (c =? 13) then Console 0 (screen_y con + 1) (vmem con)
  else
    let m := put_cell (vmem con) (NUM_COLS * screen_y con + screen_x con) c in
    let x := Z.rem (screen_x con + 1) NUM_COLS in
    let y := Z.rem (screen_y con + Z.quot x NUM_COLS) NUM_ROWS in
    Console x y m.

(** [while (s[index] != '\0') { putc(s[index]); index++; }]. *)
Fixpoint puts_from (s : list Z) (con : console) (index : Z) : option (console * Z) :=
  match s with
  | [] => None
  | c :: s' => if c =? 0 then Some (con, index) else puts_from s' (putc con c) (index + 1)
  end.

Definition puts (s : list Z) (con : console) : option (console * Z) := puts_from s con 0.

(** [%x]: [itoa] into [conv_buf], or with [#], into its upper part with zeros put
    before it. *)
Definition conv_hex (alternate : bool) (conv_buf : list Z) (v : Z) : option (list Z) :=
  if alternate then
    upper ← itoa v (drop 8 conv_buf) 16;
    starting_index ← strlen upper;
    b ← for_up (Z.to_nat (8 - starting_index)) starting_index
          (fun i b => b.[i <- 48]) (take 8 conv_buf ++ upper);
    Some (drop (Z.to_nat starting_index) b)
  else itoa v conv_buf 16.

(** [%d]: a minus sign and the negated value, which is again the same 32-bit word
    for the least integer. *)
Definition conv_dec (conv_buf : list Z) (w : Z) : option (list Z) :=
  let value := s32 w in
  if value <? 0 then
    b ← conv_buf.[0 <- 45];
    tl ← itoa (u32 (- value)) (drop 1 b) 10;
    Some (take 1 b ++ tl)
  else itoa (u32 value) conv_buf 10.

Section Printf.
Context (deref : Z -> list Z) (conv64 conv36 : list Z).

(** [mode] is [None] in ordinary text, [Some alternate] after a percent sign; [n] is
    [buf - format]. *)
Fixpoint printf_from (fmt : list Z) (mode : option bool) (esp : list Z) (con : console) (n : Z)
  : option (console * Z) :=
  match fmt with
  | [] => None
  | c :: rest =>
      match mode with
      | None =>
          if c =? 0 then Some (con, n)
          else if c =? 37 then printf_from rest (Some false) esp con (n + 1)
          else printf_from rest None esp (putc con c) (n + 1)
      | Some alternate =>
          if c =? 37 then printf_from rest None esp (putc con 37) (n + 1)
          else if c =? 35 then printf_from rest (Some true) esp con (n + 1)
          else if c =? 120 then
            match esp with
            | [] => None
            | w :: esp' =>
                s ← conv_hex alternate conv64 w; '(con', _) ← puts s con;
                printf_from rest None esp' con' (n + 1)
            end
          else if c =? 117 then
            match esp with
            | [] => None
            | w :: esp' =>
                s ← itoa w conv36 10; '(con', _) ← puts s con;
                printf_from rest None esp' con' (n + 1)
            end
          else if c =? 100 then
            match esp with
            | [] => None
            | w :: esp' =>
                s ← conv_dec conv36 w; '(con', _) ← puts s con;
                printf_from rest None esp' con' (n + 1)
            end
          else if c =? 99 then
            match esp with
            | [] => None
            | w :: esp' => printf_from rest None esp' (putc con (u8 w)) (n + 1)
            end
          else if c =? 115 then
            match esp with
            | [] => None
            | w :: esp' =>
                '(con', _) ← puts (deref w) con;
                printf_from rest None esp' con' (n + 1)
            end
          else printf_from rest None esp con (n + 1)
      end
  end.

Definition printf (fmt esp : list Z) (con : console) : option (console * Z) :=
  printf_from fmt None esp con 0.

End Printf.

Definition test_interrupts (m : memory) : option memory :=
  for_up (Z.to_nat (NUM_ROWS * NUM_COLS)) 0
    (fun i m => let a := u32 (VIDEO + Z.shiftl i 1) in Some (store8 m a (m a + 1))) m.

(** ** What is printed

    [emit out con] is the console after the characters [out]. *)

Definition emit (out : list Z) (con : console) : console := fold_left putc out con.

End Console.

(** ** Lemmas *)

Lemma emit_app phys a b con : emit phys (a ++ b) con = emit phys b (emit phys a con).
Proof. apply fold_left_app. Qed.

Lemma emit_cons phys c a con : emit phys (c :: a) con = emit phys a (putc phys con c).
Proof. done. Qed.

Lemma puts_from_spec phys s cs con n :
  cstring s cs -> puts_from phys s con n = Some (emit phys cs con, n + Z.of_nat (length cs)).
Proof.
  revert s con n. induction cs as [|c cs IH]; intros s con n Hs%cstring_inv.
  - destruct Hs as [r ->]. simpl. rewrite Z.add_0_r. done.
  - destruct Hs as (Hc & s' & -> & Hs'). simpl. bfalse (c =? 0). rewrite (IH s') by done.
    do 2 f_equal. lia.
Qed.

Lemma puts_spec phys s cs con : cstring s cs -> puts phys s con = Some (emit phys cs con, Z.of_nat (length cs)).
Proof. intros. by apply puts_from_spec. Qed.

Lemma pow_digits_le v k : v < 16 ^ 8 -> 16 ^ (k - 1) <= v -> k <= 8.
Proof.
  intros Hv Hk. destruct (Z.le_gt_cases k 8); [done|].
  assert (16 ^ 8 <= 16 ^ (k - 1)) by (apply Z.pow_le_mono_r; lia). lia.
Qed.

(** Storing a constant at [i .. i+k-1] just before the end of a prefix. *)
Lemma for_up_fill (a : Z) k (pre mid post : list Z) :
  length mid = k ->
  for_up k (Z.of_nat (length pre)) (fun i b => b.[i <- a]) (pre ++ mid ++ post) =
  Some (pre ++ replicate k a ++ post).
Proof.
  revert pre mid. induction k as [|k IH]; intros pre mid Hk.
  - destruct mid; [done|]. simpl in Hk. lia.
  - destruct mid as [|x mid]; [simpl in Hk; lia|]. simpl.
    rewrite zset_app_mid by done. simpl.
    specialize (IH (pre ++ [a]) mid). rewrite length_app in IH. simpl in IH.
    rewrite <- !app_assoc in IH. simpl in IH.
    replace (Z.of_nat (length pre) + 1) with (Z.of_nat (length pre + 1)) by lia.
    rewrite IH by (simpl in Hk; lia). done.
Qed.

(** A hexadecimal numeral of eight digits. *)
Definition pad8 (ds : list Z) : list Z := replicate (8 - length ds) 48 ++ ds.

Lemma numeral_hex_length v : 0 <= v < 2 ^ 32 -> (length (numeral 16 v) <= 8)%nat.
Proof.
  intros Hv. destruct (Z.eqb_spec v 0) as [->|Hnz]; [vm_compute; lia|].
  destruct (itoa_numeral v 16 (replicate 33 0)) as (_ & _ & Hl); [lia | lia | done|].
  pose proof (pow_digits_le v (Z.of_nat (length (numeral 16 v)))). specialize (Hl Hnz). lia.
Qed.

Lemma pad8_digits v : 0 <= v < 2 ^ 32 ->
  length (pad8 (numeral 16 v)) = 8%nat /\ Forall (is_digit 16) (pad8 (numeral 16 v)) /\ parse_radix 16 (pad8 (numeral 16 v)) = v.
Proof.
  intros Hv. pose proof (numeral_hex_length v Hv) as Hl. destruct (itoa_spec v 16 (replicate 33 0)) as (cs & E & Hp & Hd & _); [lia | lia | done|].
  destruct (itoa_numeral v 16 (replicate 33 0)) as (E' & Hd' & _); [lia | lia | done|].
  assert (numeral 16 v = cs) as Ecs.
  { rewrite E' in E. injection E as E. eapply cstring_det; eexists; (split; [|by apply (is_digit_nonzero 16)]); [reflexivity | exact E]. }
  unfold pad8. set (k := (8 - length (numeral 16 v))%nat). split_and!.
  - rewrite length_app, length_replicate. lia.
  - apply Forall_app. split; [|done]. apply Forall_replicate. split; [|done]. unfold digit_value. simpl. lia.
  - rewrite Ecs. unfold parse_radix. rewrite fold_left_app.
    assert (forall k, fold_left (fun acc c => acc * 16 + digit_value c) (replicate k 48) 0 = 0) as ->; [|done].
    clear. induction k as [|k IH]; [done|]. simpl. done.
Qed.

Lemma conv_hex_alternate conv64 v :
  length conv64 = 64%nat -> 0 <= v < 2 ^ 32 -> exists s, conv_hex true conv64 v = Some s /\ cstring s (pad8 (numeral 16 v)).
Proof.
  intros Hlen Hv. unfold conv_hex. pose proof (numeral_hex_length v Hv) as Hle. destruct (pad8_digits v Hv) as (_ & Hpd & _).
  destruct (itoa_numeral v 16 (drop 8 conv64)) as (E & Hd & _); [lia | lia | rewrite length_drop; lia |].
  unfold pad8 in *. set (cs := numeral 16 v) in *.
  rewrite E. bind. rewrite (strlen_spec _ cs) by ((eexists; split; [done | by apply (is_digit_nonzero 16)]) || lia).
  bind. set (rest := drop _ _). rewrite <- (take_drop (length cs) (take 8 conv64)), <- app_assoc.
  assert (length (take (length cs) (take 8 conv64)) = length cs) as Hpre by (rewrite !length_take; lia).
  pose proof (for_up_fill 48 (8 - length cs) (take (length cs) (take 8 conv64)) (drop (length cs) (take 8 conv64)) (cs ++ 0 :: rest)) as F.
  rewrite Hpre in F. replace (Z.to_nat (8 - Z.of_nat (length cs))) with (8 - length cs)%nat by lia.
  rewrite F by (rewrite length_drop, length_take; lia). clear F. bind. rewrite Nat2Z.id, drop_app_length' by done.
  eexists. split; [done|]. exists rest. split; [by rewrite <- app_assoc | by apply (is_digit_nonzero 16)].
Qed.

Lemma conv_hex_plain conv64 v :
  length conv64 = 64%nat -> 0 <= v < 2 ^ 32 -> exists s, conv_hex false conv64 v = Some s /\ cstring s (numeral 16 v).
Proof.
  intros Hlen Hv. unfold conv_hex. destruct (itoa_numeral v 16 conv64) as (E & Hd & _); [lia | lia | lia|].
  rewrite E. eexists. split; [done|]. eexists. split; [done | by apply (is_digit_nonzero 16)].
Qed.

Lemma itoa_dec conv36 v :
  (33 <= length conv36)%nat -> 0 <= v < 2 ^ 32 -> exists s, itoa v conv36 10 = Some s /\ cstring s (numeral 10 v).
Proof.
  intros Hlen Hv. destruct (itoa_numeral v 10 conv36) as (E & Hd & _); [lia | lia | lia|].
  rewrite E. eexists. split; [done|]. eexists. split; [done | by apply (is_digit_nonzero 10)].
Qed.

(** The text of a signed word. *)
Definition signed_numeral (w : Z) : list Z := (if s32 w <? 0 then [45] else []) ++ numeral 10 (Z.abs (s32 w)).

Lemma conv_dec_spec conv36 w :
  length conv36 = 36%nat -> exists s, conv_dec conv36 w = Some s /\ cstring s (signed_numeral w).
Proof.
  intros Hlen. pose proof (s32_range w). unfold conv_dec, signed_numeral. destruct (Z.ltb_spec (s32 w) 0).
  - destruct conv36 as [|x conv36]; [done|]. rewrite zset_in by (simpl; lia). bind.
    change (<[Z.to_nat 0 := 45]> (x :: conv36)) with (45 :: conv36). cbn [drop take]. rewrite drop_0, take_0, u32_small by lia.
    destruct (itoa_dec conv36 (- s32 w)) as (s & -> & Hs); [cbn in Hlen; lia | lia|]. bind. eexists. split; [done|].
    rewrite Z.abs_neq by lia. by apply cstring_cons.
  - rewrite u32_small, Z.abs_eq by lia. apply itoa_dec; lia.
Qed.

(** ** The reference for [printf]

    The text of a format with its arguments; [None] when the format does not end, an
    argument is missing or a [%s] word does not point to a string. *)

Fixpoint c_string (s : list Z) : option (list Z) :=
  match s with
  | [] => None
  | c :: s' => if c =? 0 then Some [] else r ← c_string s'; Some (c :: r)
  end.

Definition conversion (deref : Z -> list Z) (alternate : bool) (c w : Z) : option (list Z) :=
  if c =? 120 then Some (if alternate then pad8 (numeral 16 w) else numeral 16 w)
  else if c =? 117 then Some (numeral 10 w)
  else if c =? 100 then Some (signed_numeral w)
  else if c =? 99 then Some [u8 w]
  else c_string (deref w).

Definition converts (c : Z) : bool := (c =? 120) || (c =? 117) || (c =? 100) || (c =? 99) || (c =? 115).

Fixpoint render (deref : Z -> list Z) (fmt : list Z) (mode : option bool) (args : list Z) : option (list Z) :=
  match fmt with
  | [] => None
  | c :: rest =>
      match mode with
      | None =>
          if c =? 0 then Some []
          else if c =? 37 then render deref rest (Some false) args
          else r ← render deref rest None args; Some (c :: r)
      | Some alternate =>
          if c =? 37 then r ← render deref rest None args; Some (37 :: r)
          else if c =? 35 then render deref rest (Some true) args
          else if converts c then
            w ← head args; t ← conversion deref alternate c w; r ← render deref rest None (tail args); Some (t ++ r)
          else render deref rest None args
      end
  end.

Lemma c_string_spec s cs : c_string s = Some cs -> cstring s cs.
Proof.
  revert cs. induction s as [|c s IH]; intros cs E; [done|]. cbn in E. destruct (Z.eqb_spec c 0) as [->|Hc].
  - injection E as <-. by exists s.
  - apply bind_Some in E as (r & Hr & E). injection E as <-. apply cstring_cons; auto.
Qed.

(** ** Properties *)

Section Rendering.
Context (phys : Z -> Z) (deref : Z -> list Z) (conv64 conv36 : list Z).
Hypotheses (H64 : length conv64 = 64%nat) (H36 : length conv36 = 36%nat).

Lemma printf_from_spec fmt mode args out con n :
  Forall (fun w => 0 <= w < 2 ^ 32) args -> render deref fmt mode args = Some out ->
  exists n', printf_from phys deref conv64 conv36 fmt mode args con n = Some (emit phys out con, n').
Proof.
  revert mode args out con n. induction fmt as [|c fmt IH]; intros mode args out con n Ha E; [done|].
  cbn [render printf_from] in *. destruct mode as [alt|].
  - destruct (Z.eqb_spec c 37) as [->|H37].
    { apply bind_Some in E as (r & Hr & E). injection E as <-. rewrite emit_cons. by apply IH. }
    destruct (Z.eqb_spec c 35) as [->|H35]; [by apply IH|]. destruct (converts c) eqn:Hc.
    + destruct args as [|w args]; [done|]. cbn [head tail] in E. rewrite some_bind in E. inversion Ha as [|? ? Hw Ha']. subst.
      apply bind_Some in E as (t & Ht & E). apply bind_Some in E as (r & Hr & E). injection E as <-. rewrite emit_app.
      unfold conversion in Ht. destruct (Z.eqb_spec c 120) as [->|H120].
      { injection Ht as <-. destruct alt; [destruct (conv_hex_alternate conv64 w H64 Hw) as (s & -> & Hs) | destruct (conv_hex_plain conv64 w H64 Hw) as (s & -> & Hs)];
          bind; rewrite (puts_spec _ _ _ _ Hs); bind; by apply IH. }
      destruct (Z.eqb_spec c 117) as [->|H117].
      { injection Ht as <-. destruct (itoa_dec conv36 w) as (s & -> & Hs); [lia | done|]. bind. rewrite (puts_spec _ _ _ _ Hs). bind. by apply IH. }
      destruct (Z.eqb_spec c 100) as [->|H100].
      { injection Ht as <-. destruct (conv_dec_spec conv36 w H36) as (s & -> & Hs). bind. rewrite (puts_spec _ _ _ _ Hs). bind. by apply IH. }
      destruct (Z.eqb_spec c 99) as [->|H99].
      { injection Ht as <-. rewrite emit_cons. by apply IH. }
      assert (c = 115) as -> by (unfold converts in Hc; lia). cbn [Z.eqb Pos.eqb]. apply c_string_spec in Ht.
      rewrite (puts_spec _ _ _ _ Ht). bind. by apply IH.
    + unfold converts in Hc. bfalse (c =? 120). bfalse (c =? 117). bfalse (c =? 100). bfalse (c =? 99). bfalse (c =? 115). by apply IH.
  - destruct (Z.eqb_spec c 0) as [->|H0]; [injection E as <-; by eexists|]. destruct (Z.eqb_spec c 37) as [->|H37]; [by apply IH|].
    apply bind_Some in E as (r & Hr & E). injection E as <-. rewrite emit_cons. by apply IH.
Qed.

(** C37: equivalence.  Whatever its conversion buffers held, [printf] of any format and
    argument words puts on the screen exactly the text of the reference: literal
    characters, hexadecimal numerals with and without zero padding, unsigned and
    signed decimal numerals, characters and strings. *)
Theorem printf_correct fmt args out con :
  Forall (fun w => 0 <= w < 2 ^ 32) args -> render deref fmt None args = Some out ->
  exists n, printf phys deref conv64 conv36 fmt args con = Some (emit phys out con, n).
Proof. intros Ha E. by apply printf_from_spec. Qed.

End Rendering.

Lemma printf_correct_witness :
  exists n, printf physical (fun _ => str "abc" ++ [0]) (replicate 64 1) (replicate 36 1) (str "%s = 0x%#x, %d%c" ++ [0]) [7; 0x1F; 0xFFFFFFFF; 33]
    (Console 0 0 (fun _ => 0)) = Some (emit physical (str "abc = 0x0000001F, -1!") (Console 0 0 (fun _ => 0)), n).
Proof.
  apply (printf_correct physical (fun _ => str "abc" ++ [0]) (replicate 64 1) (replicate 36 1));
    [done | done | repeat constructor; lia | vm_compute; reflexivity].
Defined.

(** [printf("%#x", v)] prints exactly eight hexadecimal digits, zero padded,
    that denote [v], for every 32-bit [v] and whatever its conversion buffer held
    before. *)
Theorem printf_padded_hex phys deref conv64 conv36 v con :
  length conv64 = 64%nat -> 0 <= v < 2 ^ 32 ->
  exists ds, printf phys deref conv64 conv36 (str "%#x" ++ [0]) [v] con = Some (emit phys ds con, 3) /\
    length ds = 8%nat /\ Forall (is_digit 16) ds /\ parse_radix 16 ds = v.
Proof.
  intros Hlen Hv. destruct (conv_hex_alternate conv64 v Hlen Hv) as (s & E & Hs). destruct (pad8_digits v Hv) as (Hl & Hd & Hp).
  exists (pad8 (numeral 16 v)). split_and!; try done. change (str "%#x" ++ [0]) with [37; 35; 120; 0].
  unfold printf. cbn -[conv_hex puts pad8]. rewrite E. bind. by rewrite (puts_spec _ s _ _ Hs).
Qed.

Lemma printf_padded_hex_witness :
  exists ds, printf physical (fun _ => []) (replicate 64 1) (replicate 36 1) (str "%#x" ++ [0]) [0xE]
      (Console 0 0 (fun _ => 0)) = Some (emit physical ds (Console 0 0 (fun _ => 0)), 3) /\
    length ds = 8%nat /\ Forall (is_digit 16) ds /\ parse_radix 16 ds = 0xE.
Proof. apply (printf_padded_hex physical (fun _ => []) (replicate 64 1)); [reflexivity | lia]. Defined.

(** [printf("%d", w)] prints the signed value of the word [w], for every word
    including the least integer: a minus sign when it is negative, then a decimal
    numeral of its magnitude. *)
Theorem printf_signed_decimal phys deref conv64 conv36 w con :
  length conv36 = 36%nat -> 0 <= w < 2 ^ 32 ->
  exists ds, printf phys deref conv64 conv36 (str "%d" ++ [0]) [w] con =
      Some (emit phys ((if s32 w <? 0 then [45] else []) ++ ds) con, 2) /\
    Forall (is_digit 10) ds /\ ds <> [] /\ parse_radix 10 ds = Z.abs (s32 w).
Proof.
  intros Hlen Hw. pose proof (s32_range w).
  change (str "%d" ++ [0]) with [37; 100; 0].
  unfold printf. cbn -[conv_dec puts]. unfold conv_dec. destruct (Z.ltb_spec (s32 w) 0).
  - destruct conv36 as [|x conv36]; [done|]. rewrite zset_in by (simpl; lia). bind.
    destruct (itoa_spec (u32 (- s32 w)) 10 conv36) as (cs & E & Hp & Hd & _ & Hne & _);
      [apply u32_range | lia | simpl in Hlen; lia |].
    change (<[Z.to_nat 0 := 45]> (x :: conv36)) with (45 :: conv36). cbn [drop take]. rewrite drop_0, take_0, E. bind.
    rewrite (puts_spec _ _ (45 :: cs)) by
      (eexists; split; [done | constructor; [done | by apply (is_digit_nonzero 10)]]).
    exists cs. split_and!; try done. rewrite Hp, u32_small; lia.
  - destruct (itoa_spec (u32 (s32 w)) 10 conv36) as (cs & E & Hp & Hd & _ & Hne & _);
      [apply u32_range | lia | lia |].
    rewrite E. bind.
    rewrite (puts_spec _ _ cs) by (eexists; split; [done | by apply (is_digit_nonzero 10)]).
    exists cs. split_and!; try done. rewrite Hp, u32_small; lia.
Qed.

Lemma printf_signed_decimal_witness :
  exists ds, printf physical (fun _ => []) [] (replicate 36 7) (str "%d" ++ [0]) [0x80000000]
      (Console 0 0 (fun _ => 0)) =
      Some (emit physical ((if s32 0x80000000 <? 0 then [45] else []) ++ ds) (Console 0 0 (fun _ => 0)), 2) /\
    Forall (is_digit 10) ds /\ ds <> [] /\ parse_radix 10 ds = Z.abs (s32 0x80000000).
Proof. apply (printf_signed_decimal physical (fun _ => []) [] (replicate 36 7)); [reflexivity | lia]. Defined.

(** [putc] never moves to the next row at the end of a line: it takes
    [screen_x] modulo the width before it divides it by the width, so a printable
    character leaves the row where it was (reduced to the screen). *)
Theorem putc_stays_on_row phys con c :
  0 <= screen_x con < NUM_COLS -> 0 <= screen_y con < NUM_ROWS -> u8 c <> 10 -> u8 c <> 13 ->
  screen_y (putc phys con c) = screen_y con /\
  screen_x (putc phys con c) = (screen_x con + 1) mod NUM_COLS.
Proof.
  unfold NUM_COLS, NUM_ROWS, putc. intros Hx Hy H1 H2.
  bfalse ((u8 c =? 10) || (u8 c =? 13)). cbn. unfold NUM_COLS, NUM_ROWS.
  rewrite !Z.rem_mod_nonneg by (try apply Z.add_nonneg_nonneg; try apply Z.quot_pos; try lia;
    apply Z.rem_nonneg; lia).
  split; [|done]. rewrite Z.quot_small, Z.add_0_r by (apply Z.mod_pos_bound; lia).
  apply Z.mod_small. lia.
Qed.

Lemma putc_stays_on_row_witness :
  screen_y (putc physical (Console 79 3 (fun _ => 0)) 65) = 3 /\
  screen_x (putc physical (Console 79 3 (fun _ => 0)) 65) = (79 + 1) mod NUM_COLS.
Proof.
  apply (putc_stays_on_row physical (Console 79 3 (fun _ => 0)) 65); vm_compute; try done; intros; discriminate.
Defined.
