(* ===== verification/Ports.v ===== *)
(** * Port input and output, and the interrupt flag

    The port instructions and the flag macros of [student-distrib/lib.h].  What the devices
    answer is not part of this repository: [inb] asks a parameter [dev], given the
    history of all port accesses (newest first) and the port.  The documented
    behaviour of a device that the code relies on is a class over [dev]. *)

From stdpp Require Import base list option.
From Stdlib Require Import ZArith Lia ZifyBool.
From S2P Require Import Prelude.

Inductive event := Out (port data : Z) | In (port : Z).

Definition log : Type := list event.

Record io := Io { history : log; interrupts : bool }.

Definition outb (data port : Z) (s : io) : io := Io (Out port (u8 data) :: history s) (interrupts s).
Definition cli (s : io) : io := Io (history s) false.
Definition sti (s : io) : io := Io (history s) true.

(** Two and four bytes, to consecutive ports. *)
Definition outw (data port : Z) (s : io) : io := outb (Z.shiftr data 8) (port + 1) (outb data port s).
Definition outl (data port : Z) (s : io) : io := outw (Z.shiftr data 16) (port + 2) (outw data port s).

(** The flags register; of its bits the interrupt flag is the one that [io] keeps. *)
Definition IF : Z := 9.
Definition eflags (other : Z) (s : io) : Z := if interrupts s then Z.setbit other IF else Z.clearbit other IF.
Definition cli_and_save (other : Z) (s : io) : Z * io := (eflags other s, cli s).
Definition restore_flags (flags : Z) (s : io) : io := Io (history s) (Z.testbit flags IF).

Section Inb.
Context (dev : log -> Z -> Z).

Definition inb (port : Z) (s : io) : Z * io :=
  (u8 (dev (history s) port), Io (In port :: history s) (interrupts s)).

End Inb.

(** A module of its own: [inl] is a constructor elsewhere. *)
Module Wide.
Section Inw.
Context (dev : log -> Z -> Z).

(** Two and four bytes from consecutive ports, the low one first. *)
Definition inw (port : Z) (s : io) : Z * io :=
  let '(lo, s) := inb dev port s in let '(hi, s) := inb dev (port + 1) s in (Z.lor lo (Z.shiftl hi 8), s).
Definition inl (port : Z) (s : io) : Z * io :=
  let '(lo, s) := inw port s in let '(hi, s) := inw (port + 2) s in (Z.lor lo (Z.shiftl hi 16), s).

(** Their values have the width of their names. *)
Lemma concat_range n lo hi : 0 <= n -> 0 <= lo < 2 ^ n -> 0 <= hi < 2 ^ n -> 0 <= Z.lor lo (Z.shiftl hi n) < 2 ^ (n + n).
Proof.
  intros Hn Hlo Hhi. pose proof (Z.pow_pos_nonneg 2 n ltac:(lia) Hn) as Hp.
  apply lor_range; [lia | rewrite Z.pow_add_r by lia; nia |]. rewrite Z.shiftl_mul_pow2, Z.pow_add_r by lia.
  split; [apply Z.mul_nonneg_nonneg; lia | apply Z.mul_lt_mono_pos_r; lia].
Qed.

Lemma inw_range port s : 0 <= (inw port s).1 < 2 ^ 16.
Proof. apply (concat_range 8); [lia | apply u8_range..]. Qed.

Lemma inl_range port s : 0 <= (inl port s).1 < 2 ^ 32.
Proof.
  unfold inl. pose proof (inw_range port s) as H1. destruct (inw port s) as [lo s1]. pose proof (inw_range (port + 2) s1) as H2.
  destruct (inw (port + 2) s1) as [hi s2]. by apply (concat_range 16).
Qed.

End Inw.
End Wide.

(** A section between [cli_and_save] and [restore_flags] leaves the interrupt flag as it found it,
    whatever it does to the flag; between [cli] and [sti] interrupts are enabled afterwards. *)
Lemma restore_saved other s (f : io -> io) :
  let '(flags, s1) := cli_and_save other s in interrupts s1 = false /\ interrupts (restore_flags flags (f s1)) = interrupts s.
Proof.
  unfold cli_and_save, restore_flags, eflags, IF. cbn [interrupts cli]. split; [done|].
  destruct (interrupts s); [apply Z.setbit_eq; lia | apply Z.clearbit_eq].
Qed.

(** A dword is written as its four bytes, the low one to the first port. *)
Lemma outl_history data port s :
  history (outl data port s) =
  Out (port + 3) (u8 (Z.shiftr data 24)) :: Out (port + 2) (u8 (Z.shiftr data 16)) ::
  Out (port + 1) (u8 (Z.shiftr data 8)) :: Out port (u8 data) :: history s.
Proof. unfold outl, outw, outb. cbn [history]. rewrite Z.shiftr_shiftr by lia. by replace (port + 2 + 1) with (port + 3) by lia. Qed.

(** The bytes written to a port, newest first. *)
Fixpoint written (port : Z) (h : log) : list Z :=
  match h with
  | [] => []
  | Out p v :: h' => if p =? port then v :: written port h' else written port h'
  | In _ :: h' => written port h'
  end.
