(* ===== verification/I8259.v ===== *)
(** * The interrupt controller driver, [student-distrib/i8259.c]

    The driver keeps a copy of each controller's mask and updates both the copy
    and the device.  [Pic] states the documented behaviour of an 8259A the driver
    relies on: after the initialisation words it asks for, the byte last written
    to the data port is its interrupt mask, and reading the data port gives it. *)

From stdpp Require Import base list option.
From Stdlib Require Import ZArith Lia ZifyBool.
From S2P Require Import Prelude Ports.

Definition MASTER_8259_PORT : Z := 0x20.
Definition SLAVE_8259_PORT : Z := 0xA0.
Definition NUM_IRQ_LINES : Z := 8.
Definition ICW1 : Z := 0x11.
Definition ICW2_MASTER : Z := 0x20.
Definition ICW2_SLAVE : Z := 0x28.
Definition ICW3_MASTER : Z := 0x04.
Definition ICW3_SLAVE : Z := 0x02.
Definition ICW4 : Z := 0x01.
Definition EOI : Z := 0x60.
Definition MASK_ALL : Z := 0xFF.
Definition SLAVE_LINE : Z := 0x2.

Record masks := Masks { master_mask : Z; slave_mask : Z }.

Definition i8259_init (s : io) : masks * io :=
  let mm := MASK_ALL in
  let sm := MASK_ALL in
  let s := outb ICW1 MASTER_8259_PORT s in
  let s := outb ICW1 SLAVE_8259_PORT s in
  let s := outb ICW2_MASTER (MASTER_8259_PORT + 1) s in
  let s := outb ICW2_SLAVE (SLAVE_8259_PORT + 1) s in
  let s := outb ICW3_MASTER (MASTER_8259_PORT + 1) s in
  let s := outb ICW3_SLAVE (SLAVE_8259_PORT + 1) s in
  let s := outb ICW4 (MASTER_8259_PORT + 1) s in
  let s := outb ICW4 (SLAVE_8259_PORT + 1) s in
  let s := outb mm (MASTER_8259_PORT + 1) s in
  let s := outb sm (SLAVE_8259_PORT + 1) s in
  (Masks mm sm, s).

Section Driver.
Context (dev : log -> Z -> Z).

(** [adjust_mask] and [mask] are of type [char], which is signed. *)
Definition enable_irq (irq_num : Z) (m : masks) (s : io) : masks * io :=
  let irq_index := s8 (irq_num mod NUM_IRQ_LINES) in
  let adjust_mask := s8 (Z.shiftl 1 irq_index) in
  if irq_num <? NUM_IRQ_LINES then
    let m := Masks (u8 (Z.land (master_mask m) (Z.lnot adjust_mask))) (slave_mask m) in
    let '(v, s) := inb dev (MASTER_8259_PORT + 1) s in
    (m, outb (Z.land v (Z.lnot adjust_mask)) (MASTER_8259_PORT + 1) s)
  else
    let m := Masks (master_mask m) (u8 (Z.land (slave_mask m) (Z.lnot adjust_mask))) in
    let '(v, s) := inb dev (SLAVE_8259_PORT + 1) s in
    (m, outb (Z.land v (Z.lnot adjust_mask)) (SLAVE_8259_PORT + 1) s).

Definition disable_irq (irq_num : Z) (m : masks) (s : io) : masks * io :=
  if irq_num <? NUM_IRQ_LINES then
    let mask := s8 (Z.shiftl 1 irq_num) in
    let m := Masks (u8 (Z.lor (master_mask m) mask)) (slave_mask m) in
    let '(v, s) := inb dev (MASTER_8259_PORT + 1) s in
    (m, outb (Z.lor v mask) (MASTER_8259_PORT + 1) s)
  else if (NUM_IRQ_LINES <=? irq_num) && (irq_num <? 2 * NUM_IRQ_LINES) then
    let mask := s8 (Z.shiftl 1 (irq_num - NUM_IRQ_LINES)) in
    let m := Masks (master_mask m) (u8 (Z.lor (slave_mask m) mask)) in
    let '(v, s) := inb dev (SLAVE_8259_PORT + 1) s in
    (m, outb (Z.lor v mask) (SLAVE_8259_PORT + 1) s)
  else (m, s).

End Driver.

Definition send_eoi (irq_num : Z) (s : io) : io :=
  if NUM_IRQ_LINES <=? irq_num then
    let s := outb (Z.lor EOI (u8 (irq_num mod NUM_IRQ_LINES))) SLAVE_8259_PORT s in
    outb (Z.lor EOI (u8 SLAVE_LINE)) MASTER_8259_PORT s
  else outb (Z.lor EOI (u8 (irq_num mod NUM_IRQ_LINES))) MASTER_8259_PORT s.

(** ** The controller, as its data sheet describes it

    [pic base h] is the number of initialisation words still expected and the
    interrupt mask of the controller at [base] after the accesses [h].  A write to
    the command port with bit 4 set is ICW1: it announces ICW2, ICW3 unless the
    controller is alone (bit 1), and ICW4 if bit 0 is set. *)

Fixpoint pic (base : Z) (h : log) : Z * Z :=
  match h with
  | [] => (0, 0)
  | Out p v :: h' =>
      let '(pending, imr) := pic base h' in
      if p =? base then
        if Z.testbit v 4
        then (1 + (if Z.testbit v 1 then 0 else 1) + (if Z.testbit v 0 then 1 else 0), 0)
        else (pending, imr)
      else if p =? base + 1 then
        if 0 <? pending then (pending - 1, imr) else (pending, v)
      else (pending, imr)
  | In _ :: h' => pic base h'
  end.

Class Pic (dev : log -> Z -> Z) : Prop :=
  pic_readback : forall h base,
    base = MASTER_8259_PORT \/ base = SLAVE_8259_PORT ->
    (pic base h).1 = 0 -> dev h (base + 1) = (pic base h).2.

(** ** The abstract specification: the set of enabled lines *)

Inductive irq_op := Enable (irq : Z) | Disable (irq : Z).

Definition lines_step (lines : Z -> bool) (op : irq_op) : Z -> bool :=
  match op with
  | Enable irq => fun x => (x =? irq) || lines x
  | Disable irq => fun x => negb (x =? irq) && lines x
  end.

Definition run_op (dev : log -> Z -> Z) (st : masks * io) (op : irq_op) : masks * io :=
  match op with
  | Enable irq => enable_irq dev irq st.1 st.2
  | Disable irq => disable_irq dev irq st.1 st.2
  end.

Definition op_line (op : irq_op) : Z := match op with Enable irq => irq | Disable irq => irq end.

(** The driver's copies are the devices' masks, and line [x] is enabled exactly
    when its bit is clear. *)
Record masks_refine (lines : Z -> bool) (m : masks) (s : io) : Prop := {
  mr_master : pic MASTER_8259_PORT (history s) = (0, master_mask m);
  mr_slave : pic SLAVE_8259_PORT (history s) = (0, slave_mask m);
  mr_range : 0 <= master_mask m < 256 /\ 0 <= slave_mask m < 256;
  mr_low : forall x, 0 <= x < 8 -> Z.testbit (master_mask m) x = negb (lines x);
  mr_high : forall x, 8 <= x < 16 -> Z.testbit (slave_mask m) (x - 8) = negb (lines x) }.

(** ** Lemmas *)

Lemma s8_bit i j : 0 <= i < 8 -> 0 <= j < 8 -> Z.testbit (s8 (Z.shiftl 1 i)) j = (j =? i).
Proof.
  intros Hi Hj.
  assert (i = 0 \/ i = 1 \/ i = 2 \/ i = 3 \/ i = 4 \/ i = 5 \/ i = 6 \/ i = 7) as D by lia.
  assert (j = 0 \/ j = 1 \/ j = 2 \/ j = 3 \/ j = 4 \/ j = 5 \/ j = 6 \/ j = 7) as D' by lia.
  repeat destruct D as [->|D]; subst; repeat destruct D' as [->|D']; subst; done.
Qed.

Lemma u8_testbit v j : 0 <= j < 8 -> Z.testbit (u8 v) j = Z.testbit v j.
Proof. intros. unfold u8. rewrite Z.testbit_mod_pow2 by lia. btrue (j <? 8). done. Qed.

Lemma mask_clear_bit v i j :
  0 <= i < 8 -> 0 <= j < 8 ->
  Z.testbit (u8 (Z.land v (Z.lnot (s8 (Z.shiftl 1 i))))) j = negb (j =? i) && Z.testbit v j.
Proof.
  intros. rewrite u8_testbit, Z.land_spec, Z.lnot_spec, s8_bit by lia. apply andb_comm.
Qed.

Lemma mask_set_bit v i j :
  0 <= i < 8 -> 0 <= j < 8 ->
  Z.testbit (u8 (Z.lor v (s8 (Z.shiftl 1 i)))) j = (j =? i) || Z.testbit v j.
Proof. intros. rewrite u8_testbit, Z.lor_spec, s8_bit by lia. apply orb_comm. Qed.

(** Reading the mask back: the value [inb] returns is the driver's copy. *)
Lemma inb_mask dev `{!Pic dev} base m s :
  base = MASTER_8259_PORT \/ base = SLAVE_8259_PORT ->
  pic base (history s) = (0, m) -> 0 <= m < 256 ->
  (inb dev (base + 1) s).1 = m.
Proof.
  intros Hb E Hm. simpl. rewrite (pic_readback _ base) by (done || by rewrite E).
  rewrite E. by apply u8_small.
Qed.

(** Writing a new mask to one controller and to the driver's copy of it. *)
Lemma master_write dev lines lines' m s v :
  masks_refine lines m s -> 0 <= v < 256 ->
  (forall x, 0 <= x < 8 -> Z.testbit v x = negb (lines' x)) ->
  (forall x, 8 <= x < 16 -> lines' x = lines x) ->
  masks_refine lines' (Masks v (slave_mask m)) (outb v 0x21 (inb dev 0x21 s).2).
Proof.
  intros [Hm Hs Hr Hlo Hhi] Hv Hbits Hsame. split; cbn.
  - rewrite Hm. cbn. by rewrite u8_small.
  - by rewrite Hs.
  - lia.
  - done.
  - intros x Hx. rewrite Hsame by done. by apply Hhi.
Qed.

Lemma slave_write dev lines lines' m s v :
  masks_refine lines m s -> 0 <= v < 256 ->
  (forall x, 8 <= x < 16 -> Z.testbit v (x - 8) = negb (lines' x)) ->
  (forall x, 0 <= x < 8 -> lines' x = lines x) ->
  masks_refine lines' (Masks (master_mask m) v) (outb v 0xA1 (inb dev 0xA1 s).2).
Proof.
  intros [Hm Hs Hr Hlo Hhi] Hv Hbits Hsame. split; cbn.
  - by rewrite Hm.
  - rewrite Hs. cbn. by rewrite u8_small.
  - lia.
  - intros x Hx. rewrite Hsame by done. by apply Hlo.
  - done.
Qed.

Lemma outb_u8 v p s : outb (u8 v) p s = outb v p s.
Proof. unfold outb. rewrite (u8_small (u8 v)) by apply u8_range. done. Qed.

Lemma inb_master dev `{!Pic dev} lines m s :
  masks_refine lines m s -> inb dev (MASTER_8259_PORT + 1) s = (master_mask m, (inb dev 0x21 s).2).
Proof.
  intros [Hm Hs Hr _ _]. rewrite (surjective_pairing (inb _ _ _)). f_equal.
  apply (inb_mask dev MASTER_8259_PORT); [by left | done | lia].
Qed.

Lemma inb_slave dev `{!Pic dev} lines m s :
  masks_refine lines m s -> inb dev (SLAVE_8259_PORT + 1) s = (slave_mask m, (inb dev 0xA1 s).2).
Proof.
  intros [Hm Hs Hr _ _]. rewrite (surjective_pairing (inb _ _ _)). f_equal.
  apply (inb_mask dev SLAVE_8259_PORT); [by right | done | lia].
Qed.

Lemma enable_refine dev `{!Pic dev} lines m s irq :
  0 <= irq < 16 -> masks_refine lines m s ->
  masks_refine (lines_step lines (Enable irq)) (enable_irq dev irq m s).1 (enable_irq dev irq m s).2.
Proof.
  intros Hirq HR. pose proof HR as [_ _ Hr Hlo Hhi]. unfold enable_irq, NUM_IRQ_LINES.
  rewrite (s8_small (irq mod 8)) by zlia. destruct (Z.ltb_spec irq 8).
  - rewrite (inb_master dev lines m s) by done. cbn [fst snd]. rewrite <- outb_u8.
    apply (master_write dev lines); [done | apply u8_range | |].
    + intros x Hx. rewrite mask_clear_bit, Hlo by zlia. cbn.
      rewrite Z.mod_small by lia. destruct (Z.eqb_spec x irq); done.
    + intros x Hx. cbn. bfalse (x =? irq). done.
  - rewrite (inb_slave dev lines m s) by done. cbn [fst snd]. rewrite <- outb_u8.
    apply (slave_write dev lines); [done | apply u8_range | |].
    + intros x Hx. rewrite mask_clear_bit, Hhi by zlia. cbn.
      destruct (Z.eqb_spec (x - 8) (irq mod 8)), (Z.eqb_spec x irq); try done; zlia.
    + intros x Hx. cbn. bfalse (x =? irq). done.
Qed.

Lemma disable_refine dev `{!Pic dev} lines m s irq :
  0 <= irq < 16 -> masks_refine lines m s ->
  masks_refine (lines_step lines (Disable irq)) (disable_irq dev irq m s).1 (disable_irq dev irq m s).2.
Proof.
  intros Hirq HR. pose proof HR as [_ _ Hr Hlo Hhi]. unfold disable_irq, NUM_IRQ_LINES.
  destruct (Z.ltb_spec irq 8).
  - rewrite (inb_master dev lines m s) by done. cbn [fst snd]. rewrite <- outb_u8.
    apply (master_write dev lines); [done | apply u8_range | |].
    + intros x Hx. rewrite mask_set_bit, Hlo by lia. cbn. destruct (Z.eqb_spec x irq); done.
    + intros x Hx. cbn. bfalse (x =? irq). done.
  - btrue ((8 <=? irq) && (irq <? 2 * 8)).
    rewrite (inb_slave dev lines m s) by done. cbn [fst snd]. rewrite <- outb_u8.
    apply (slave_write dev lines); [done | apply u8_range | |].
    + intros x Hx. rewrite mask_set_bit, Hhi by lia. cbn.
      destruct (Z.eqb_spec (x - 8) (irq - 8)), (Z.eqb_spec x irq); try done; lia.
    + intros x Hx. cbn. bfalse (x =? irq). done.
Qed.

Lemma init_refine s :
  masks_refine (fun _ => false) (i8259_init s).1 (i8259_init s).2.
Proof.
  split; try (cbn; destruct (pic _ (history s)); done).
  - cbn. unfold MASK_ALL. lia.
  - intros x Hx. change (master_mask _) with (Z.ones 8). by apply Z.ones_spec_low.
  - intros x Hx. change (slave_mask _) with (Z.ones 8). apply Z.ones_spec_low. lia.
Qed.

(** ** Properties *)

(** C29: refinement.  After [i8259_init] and any sequence of [enable_irq] and
    [disable_irq] calls on lines 0 to 15, on any device that reads its mask back,
    the enabled lines are the abstract set of lines, and the driver's copies of
    the masks are the masks in the two controllers. *)
Theorem i8259_refines dev `{!Pic dev} s ops :
  Forall (fun op => 0 <= op_line op < 16) ops ->
  let st := fold_left (run_op dev) ops (i8259_init s) in
  masks_refine (fold_left lines_step ops (fun _ => false)) st.1 st.2.
Proof.
  intros Hops. pose proof (init_refine s) as HR. revert HR.
  generalize (i8259_init s) as st, (fun _ : Z => false) as lines.
  induction Hops as [|op ops Hop _ IH]; intros [m t] lines HR; [done|].
  cbn [fold_left]. apply IH. destruct op; [by apply enable_refine | by apply disable_refine].
Qed.

(** A device that is nothing but the two controllers. *)
Definition pic_dev (h : log) (port : Z) : Z := (pic (port - 1) h).2.

#[export] Instance pic_dev_Pic : Pic pic_dev.
Proof. intros h base _ _. unfold pic_dev. by replace (base + 1 - 1) with base by lia. Qed.

Lemma i8259_refines_witness :
  let ops := [Enable 2; Enable 1; Enable 8; Disable 1; Enable 0] in
  let st := fold_left (run_op pic_dev) ops (i8259_init (Io [] true)) in
  masks_refine (fold_left lines_step ops (fun _ => false)) st.1 st.2 /\
  st.1 = Masks 0xFA 0xFE.
Proof.
  split; [|vm_compute; reflexivity].
  apply (i8259_refines pic_dev (Io [] true)). repeat constructor; simpl; lia.
Defined.
