(* ===== verification/Rtc.v ===== *)
(** * The real-time clock and timer drivers, [student-distrib/rtc.c] and [pit.c]

    [rtc_write] computes the rate of a requested frequency and sends it to
    register A; [rtc_read] busy-waits for the next clock interrupt.  The flag it waits for
    is one for all processes, so that the wait is modelled as a step relation in which any
    number of processes are in [rtc_read]: between any two steps of one of them the interrupt
    handler [rtc_int] of [int_handlers.c] may run, or the timer may let another one go on. *)

From stdpp Require Import base list option sets.
From Stdlib Require Import ZArith Lia ZifyBool.
From S2P Require Import Prelude Ports I8259.

Definition RTC_IDX_PORT : Z := 0x70.
Definition RTC_WR_PORT : Z := 0x71.
Definition RTC_REG_A : Z := 0x8A.
Definition RTC_REG_B : Z := 0x8B.
Definition RTC_EN : Z := 0x40.
Definition REG_C : Z := 0x0C.
Definition RTC_INT : Z := 8.
Definition MAX_FREQUENCY : Z := 1024.
Definition MIN_FREQUENCY : Z := 2.
Definition UINT32_LENGTH : nat := 32.
Definition CALIBRATE_FREQUENCY : Z := 0x8000.
Definition MAX_SHIFT : Z := 14.
Definition LIMIT_RATE_TO_15 : Z := 0xF.
Definition BYTE_MASK : Z := 0xF0.
Definition START_FREQUENCY : Z := 2.

Record rtc := Rtc { initialized : Z; rtc_flag : Z }.

(** The loop that counts one bits; [true] when it returns [ERROR] early. *)
Fixpoint too_many_ones (k : nat) (i frequency number_ones : Z) : bool :=
  match k with
  | O => false
  | S k' =>
      let number_ones :=
        if negb (Z.land (Z.shiftr frequency i) 1 =? 0) then number_ones + 1 else number_ones in
      if 1 <? number_ones then true else too_many_ones k' (i + 1) frequency number_ones
  end.

(** [for (j = 0; j <= MAX_SHIFT; j++) if ((CALIBRATE_FREQUENCY >> j) == frequency) rate = j + 1]. *)
Fixpoint find_rate (k : nat) (j frequency rate : Z) : Z :=
  match k with
  | O => rate
  | S k' =>
      find_rate k' (j + 1) frequency
        (if Z.shiftr CALIBRATE_FREQUENCY j =? frequency then j + 1 else rate)
  end.

Section Driver.
Context (dev : log -> Z -> Z).

Definition rtc_write (frequency : Z) (r : rtc) (s : io) : Z * io :=
  if (frequency <? MIN_FREQUENCY) || (MAX_FREQUENCY <? frequency) then (ERROR, s)
  else if too_many_ones UINT32_LENGTH 0 frequency 0 then (ERROR, s)
  else
    let rate := find_rate (Z.to_nat (MAX_SHIFT + 1)) 0 frequency 0 in
    let rate := Z.land rate LIMIT_RATE_TO_15 in
    let s := if negb (initialized r =? 0) then cli s else s in
    let s := outb RTC_REG_A RTC_IDX_PORT s in
    let '(reg_A_value, s) := inb dev RTC_WR_PORT s in
    let s := outb RTC_REG_A RTC_IDX_PORT s in
    let s := outb (Z.lor rate (Z.land reg_A_value BYTE_MASK)) RTC_WR_PORT s in
    let s := if negb (initialized r =? 0) then sti s else s in
    (0, s).

Definition rtc_init (s : io) : io :=
  let s := outb RTC_REG_B RTC_IDX_PORT s in
  let '(v, s) := inb dev RTC_WR_PORT s in
  let old_regb := s8 v in
  let s := outb RTC_REG_B RTC_IDX_PORT s in
  outb (Z.lor old_regb RTC_EN) RTC_WR_PORT s.

Definition rtc_open (r : rtc) (s : io) : Z * rtc * io :=
  if negb (initialized r =? 0) then (0, r, s)
  else
    let s := rtc_init s in
    let '(ret, s) := rtc_write START_FREQUENCY r s in
    if ret =? ERROR then (ERROR, r, s) else (0, Rtc 1 0, s).

Definition rtc_close : Z := 0.

(** The interrupt handler. *)
Definition rtc_int (r : rtc) (s : io) : rtc * io :=
  let s := send_eoi RTC_INT s in
  let s := outb REG_C RTC_IDX_PORT s in
  let '(_, s) := inb dev RTC_WR_PORT s in
  (Rtc (initialized r) 1, s).

End Driver.

(** ** [rtc_read] with interrupts *)

(** Where [rtc_read] stands: before [rtc_flag = 0], in [while (!rtc_flag);], or
    returned with a value. *)
Inductive read_pc := ReadEnter | ReadWait | ReadDone (ret : Z).

Definition rtc_read_code (pc : read_pc) (r : rtc) : read_pc * rtc :=
  match pc with
  | ReadEnter => (ReadWait, Rtc (initialized r) 0)
  | ReadWait => if rtc_flag r =? 0 then (ReadWait, r) else (ReadDone 0, r)
  | ReadDone ret => (ReadDone ret, r)
  end.

(** The processes in [rtc_read], the flag they share, and the ports. *)
Record readers := Readers { pcs : Z -> read_pc; clk : rtc; port_log : io }.

Definition set_pcs (i : Z) (pc : read_pc) (p : Z -> read_pc) : Z -> read_pc := fun j => if j =? i then pc else p j.

(** What happens next: process [i] resets the flag, tests it, or calls [rtc_read] again; the
    clock interrupts; some process opens the clock or sets its rate. *)
Inductive read_label := Enter (i : Z) | Test (i : Z) | Again (i : Z) | Tick | Open | SetRate (f : Z).

#[export] Instance read_label_eq_dec : EqDecision read_label.
Proof. solve_decision. Defined.

Inductive read_step (dev : log -> Z -> Z) : read_label -> readers -> readers -> Prop :=
| step_enter i c :
    pcs c i = ReadEnter ->
    read_step dev (Enter i) c (Readers (set_pcs i (rtc_read_code ReadEnter (clk c)).1 (pcs c)) (rtc_read_code ReadEnter (clk c)).2 (port_log c))
| step_test i c :
    pcs c i = ReadWait ->
    read_step dev (Test i) c (Readers (set_pcs i (rtc_read_code ReadWait (clk c)).1 (pcs c)) (rtc_read_code ReadWait (clk c)).2 (port_log c))
| step_again i ret c :
    pcs c i = ReadDone ret -> read_step dev (Again i) c (Readers (set_pcs i ReadEnter (pcs c)) (clk c) (port_log c))
| step_tick c :
    read_step dev Tick c (Readers (pcs c) (rtc_int dev (clk c) (port_log c)).1 (rtc_int dev (clk c) (port_log c)).2)
| step_open c ret r s :
    rtc_open dev (clk c) (port_log c) = (ret, r, s) -> read_step dev Open c (Readers (pcs c) r s)
| step_rate f c :
    read_step dev (SetRate f) c (Readers (pcs c) (clk c) (rtc_write dev f (clk c) (port_log c)).2).

Inductive read_run (dev : log -> Z -> Z) : list read_label -> readers -> readers -> Prop :=
| run_nil c : read_run dev [] c c
| run_cons l ls c c' c'' : read_step dev l c c' -> read_run dev ls c' c'' -> read_run dev (l :: ls) c c''.

(** ** The programmable interval timer, [pit.c] *)

Definition SET_FREQUENCY_HIGH : Z := Z.land (1193180 / 30) 0xFF.
Definition SET_FREQUENCY_LOW : Z := Z.shiftr (1193180 / 30) 8.
Definition SET_FREQUENCY_PORT : Z := 0x40.
Definition COMMAND_INPUT : Z := 0x36.
Definition COMMAND_PORT : Z := 0x43.
Definition PIT_INT : Z := 0.

Definition pit_init (dev : log -> Z -> Z) (m : masks) (s : io) : masks * io :=
  let s := outb COMMAND_INPUT COMMAND_PORT s in
  let s := outb SET_FREQUENCY_HIGH SET_FREQUENCY_PORT s in
  let s := outb SET_FREQUENCY_LOW SET_FREQUENCY_PORT s in
  enable_irq dev PIT_INT m s.

(** ** Lemmas *)

(** The frequencies the clock can run at, with their rates. *)
Definition frequency_ok (f : Z) : bool := existsb (fun k => f =? 2 ^ k) (seqZ 1 10).

Lemma rate_table :
  forallb (fun f =>
    Bool.eqb (negb (too_many_ones UINT32_LENGTH 0 f 0)) (frequency_ok f) &&
    implb (frequency_ok f)
      (let rate := Z.land (find_rate (Z.to_nat (MAX_SHIFT + 1)) 0 f 0) LIMIT_RATE_TO_15 in
       (1 <=? rate) && (rate <=? 15) && (Z.shiftr CALIBRATE_FREQUENCY (rate - 1) =? f)))
    (seqZ 2 1023) = true.
Proof. vm_compute. reflexivity. Qed.

Lemma rate_of f :
  2 <= f <= 1024 ->
  too_many_ones UINT32_LENGTH 0 f 0 = negb (frequency_ok f) /\
  (frequency_ok f = true ->
   let rate := Z.land (find_rate (Z.to_nat (MAX_SHIFT + 1)) 0 f 0) LIMIT_RATE_TO_15 in
   1 <= rate <= 15 /\ Z.shiftr CALIBRATE_FREQUENCY (rate - 1) = f).
Proof.
  intros Hf. pose proof rate_table as H. rewrite forallb_forall in H.
  specialize (H f). rewrite andb_true_iff, eqb_true_iff in H.
  destruct H as [H1 H2]; [apply list_elem_of_In, elem_of_seqZ; lia|].
  split; [by rewrite <- H1, negb_involutive|]. intros E. rewrite E in H2. cbn [implb] in H2.
  cbv zeta in *. bsplit. lia.
Qed.

Lemma frequency_ok_range f : frequency_ok f = true -> 2 <= f <= 1024.
Proof.
  unfold frequency_ok. rewrite existsb_exists. intros (k & Hk & E).
  apply list_elem_of_In, elem_of_seqZ in Hk. bsplit. subst.
  split; [change 2 with (2 ^ 1) at 1 | change 1024 with (2 ^ 10)]; apply Z.pow_le_mono_r; lia.
Qed.

Lemma rtc_write_ret dev f r s : (rtc_write dev f r s).1 = if frequency_ok f then 0 else ERROR.
Proof.
  unfold rtc_write, MIN_FREQUENCY, MAX_FREQUENCY.
  destruct ((f <? 2) || (1024 <? f)) eqn:E.
  - destruct (frequency_ok f) eqn:F; [apply frequency_ok_range in F; lia | done].
  - destruct (rate_of f) as [-> _]; [lia|]. by destruct (frequency_ok f).
Qed.

(** ** Properties *)

(** [rtc_write] accepts exactly the powers of two from 2 to 1024, refusing
    every other word without touching the device; on an accepted frequency [f] the
    last byte sent to register A holds a rate between 1 and 15 with
    [f = 0x8000 >> (rate - 1)] in its low half and what register A held in its
    high half. *)
Theorem rtc_write_correct dev f r s :
  0 <= f < 2 ^ 32 ->
  if frequency_ok f then
    (rtc_write dev f r s).1 = 0 /\
    exists rate old h, history (rtc_write dev f r s).2 =
        Out RTC_WR_PORT (Z.lor rate (Z.land old 0xF0)) :: Out RTC_IDX_PORT RTC_REG_A :: h /\
      old = u8 (dev (Out RTC_IDX_PORT RTC_REG_A :: history s) RTC_WR_PORT) /\
      1 <= rate <= 15 /\ Z.shiftr CALIBRATE_FREQUENCY (rate - 1) = f
  else rtc_write dev f r s = (ERROR, s).
Proof.
  intros Hf. unfold rtc_write, MIN_FREQUENCY, MAX_FREQUENCY.
  destruct (frequency_ok f) eqn:Eok.
  - pose proof (frequency_ok_range f Eok) as Hr. destruct (rate_of f Hr) as [-> Hrate].
    bfalse ((f <? 2) || (1024 <? f)). rewrite Eok. cbn [negb].
    specialize (Hrate Eok). set (rate := Z.land (find_rate _ _ _ _) _) in *. cbn zeta in Hrate.
    destruct Hrate as [Hrange Hsh].
    set (s1 := if negb (initialized r =? 0) then cli s else s).
    assert (history s1 = history s) as Hs1 by (unfold s1; by destruct (negb _)).
    assert (0 <= Z.lor rate (Z.land (u8 (dev (Out RTC_IDX_PORT RTC_REG_A :: history s) RTC_WR_PORT)) 0xF0) < 256)
      by (apply (lor_range 8); [lia | lia | apply (land_range 8); [lia | apply u8_range]]).
    split; [done|].
    exists rate. eexists. eexists.
    destruct (negb (initialized r =? 0)); cbn in *; rewrite u8_small by done; done.
  - destruct ((f <? 2) || (1024 <? f)) eqn:E; [done|].
    destruct (rate_of f) as [-> _]; [lia|]. by rewrite Eok.
Qed.

Lemma rtc_write_correct_witness :
  (rtc_write (fun _ _ => 0x26) 32 (Rtc 0 0) (Io [] true)).1 = 0 /\
  exists rate old h, history (rtc_write (fun _ _ => 0x26) 32 (Rtc 0 0) (Io [] true)).2 =
      Out RTC_WR_PORT (Z.lor rate (Z.land old 0xF0)) :: Out RTC_IDX_PORT RTC_REG_A :: h /\
    old = u8 0x26 /\ 1 <= rate <= 15 /\ Z.shiftr CALIBRATE_FREQUENCY (rate - 1) = 32.
Proof. apply (rtc_write_correct (fun _ _ => 0x26) 32 (Rtc 0 0) (Io [] true)). lia. Defined.

Lemma set_pcs_same i pc p : set_pcs i pc p i = pc.
Proof. unfold set_pcs. by rewrite Z.eqb_refl. Qed.
Lemma set_pcs_other i j pc p : j <> i -> set_pcs i pc p j = p j.
Proof. unfold set_pcs. intros. by bfalse (j =? i). Qed.

(** A step of a reader concerns its own place; what it does to the place of [i]. *)
Lemma read_step_pc dev l c c' i : read_step dev l c c' ->
  match l with
  | Enter j => if j =? i then pcs c i = ReadEnter /\ pcs c' i = ReadWait else pcs c' i = pcs c i
  | Test j => if j =? i then pcs c i = ReadWait /\ pcs c' i = (if rtc_flag (clk c) =? 0 then ReadWait else ReadDone 0) else pcs c' i = pcs c i
  | Again j => if j =? i then pcs c' i = ReadEnter else pcs c' i = pcs c i
  | _ => pcs c' i = pcs c i
  end.
Proof.
  destruct 1 as [j c H|j c H|j ret c H|c|c ret r s H|f c]; cbn [pcs rtc_read_code fst]; try done;
    destruct (Z.eqb_spec j i) as [->|Hne]; rewrite ?set_pcs_same, ?set_pcs_other by done; try done. split; [done|]. by destruct (rtc_flag (clk c) =? 0).
Qed.

(** What it does to the flag. *)
Lemma read_step_flag dev l c c' : read_step dev l c c' ->
  match l with
  | Enter _ => rtc_flag (clk c') = 0
  | Tick => rtc_flag (clk c') = 1
  | Open => rtc_flag (clk c') = rtc_flag (clk c) \/ rtc_flag (clk c') = 0
  | _ => rtc_flag (clk c') = rtc_flag (clk c)
  end.
Proof.
  destruct 1 as [j c H|j c H|j ret c H|c|c ret r s H|f c]; try done.
  - cbn. by destruct (rtc_flag (clk c) =? 0).
  - cbn [clk]. unfold rtc_open in H. destruct (negb _); [injection H as _ <- _; by left|].
    destruct (rtc_write _ _ _ _) as [v s']. destruct (v =? ERROR); injection H as _ <- _; [by left | by right].
Qed.

(** Once the flag is zero, only a clock interrupt ends a wait, and the result is 0. *)
Lemma read_run_tick dev i ls : forall c c' ret,
  read_run dev ls c c' -> pcs c i = ReadWait -> pcs c' i = ReadDone ret -> Again i ∉ ls -> rtc_flag (clk c) = 0 -> Tick ∈ ls.
Proof.
  induction ls as [|l ls IH]; intros c c' ret Hrun Hw Hd Ha Hf; inversion Hrun as [|? ? ? c1 ? Hs Hr]; subst; [congruence|].
  apply not_elem_of_cons in Ha as [Hne Ha]. destruct (decide (l = Tick)) as [->|Hl]; [by left|]. right.
  pose proof (read_step_pc _ _ _ _ i Hs) as Hp. pose proof (read_step_flag _ _ _ _ Hs) as Hg.
  apply (IH c1 c' ret); [done | | done | done |].
  - destruct l as [j|j|j| | |f]; try done; try congruence; destruct (Z.eqb_spec j i) as [->|]; try congruence; [tauto|]. rewrite Hf in Hp. tauto.
  - destruct l; try done; try congruence. destruct Hg; congruence.
Qed.

Lemma read_run_ret dev i ls : forall c c' ret,
  read_run dev ls c c' -> pcs c i = ReadWait \/ pcs c i = ReadDone 0 -> pcs c' i = ReadDone ret -> Again i ∉ ls -> ret = 0.
Proof.
  induction ls as [|l ls IH]; intros c c' ret Hrun Hw Hd Ha; inversion Hrun as [|? ? ? c1 ? Hs Hr]; subst; [destruct Hw; congruence|].
  apply not_elem_of_cons in Ha as [Hne Ha]. apply (IH c1 c' ret); [done | | done | done].
  pose proof (read_step_pc _ _ _ _ i Hs) as Hp.
  destruct l as [j|j|j| | |f]; try (by rewrite Hp); destruct (Z.eqb_spec j i) as [->|]; try (by rewrite Hp); [left; tauto|].
  destruct Hp as [_ ->]. case_if; auto.
Qed.

(** The flag stays set when nobody resets it. *)
Lemma read_run_set dev i ls : forall c c',
  read_run dev ls c c' -> rtc_flag (clk c) <> 0 -> (forall j, Enter j ∉ ls) -> Open ∉ ls -> Again i ∉ ls ->
  (pcs c i = ReadDone 0 -> pcs c' i = ReadDone 0) /\ (pcs c i = ReadWait -> Test i ∈ ls -> pcs c' i = ReadDone 0).
Proof.
  induction ls as [|l ls IH]; intros c c' Hrun Hf He Ho Ha; inversion Hrun as [|? ? ? c1 ? Hs Hr]; subst; [split; [done | by intros _ ?%elem_of_nil]|].
  apply not_elem_of_cons in Ha as [Hna Ha]. apply not_elem_of_cons in Ho as [Hno Ho].
  assert (forall j, Enter j <> l /\ Enter j ∉ ls) as He' by (intros j; by apply not_elem_of_cons).
  pose proof (read_step_pc _ _ _ _ i Hs) as Hp. pose proof (read_step_flag _ _ _ _ Hs) as Hg.
  destruct (IH c1 c') as [I1 I2]; [done | | intros j; apply He' | done | done |].
  { destruct l as [j|j|j| | |f]; try congruence. by destruct (He' j). }
  assert (forall pc, l <> Test i -> pcs c i = pc -> pcs c1 i = pc) as Hkeep.
  { intros pc Hl <-. destruct l as [j|j|j| | |f]; try done; destruct (Z.eqb_spec j i) as [->|]; try done; by destruct (He' i). }
  split.
  - intros E. apply I1, Hkeep; [|done]. intros ->. rewrite Z.eqb_refl in Hp. destruct Hp; congruence.
  - intros E Ht. destruct (decide (l = Test i)) as [->|Hl].
    + rewrite Z.eqb_refl in Hp. destruct Hp as [_ Hp]. rewrite (proj2 (Z.eqb_neq _ _) Hf) in Hp. by apply I1.
    + apply I2; [by apply Hkeep|]. apply elem_of_cons in Ht as [Ht|Ht]; [by destruct Hl | done].
Qed.

(** C32: [rtc_read] of one process among any number of them, under every interleaving of their
    steps, of clock interrupts and of calls that open the clock or set its rate.  It never
    returns early: a run in which the call returns has a clock interrupt after the step
    that reset the flag, whatever the flag held before, and the result is 0.  And it returns
    at its first test after an interrupt as long as nobody resets the flag in between, by an
    [rtc_read] or by opening the clock for the first time. *)
Theorem rtc_read_waits dev i :
  (forall ls c c' ret, read_run dev ls c c' -> pcs c i = ReadEnter -> pcs c' i = ReadDone ret -> Again i ∉ ls ->
     ret = 0 /\ exists before after, ls = before ++ (Enter i :: after) /\ (Enter i ∉ before) /\ Tick ∈ after) /\
  (forall ls c c', read_run dev (Tick :: ls) c c' -> pcs c i = ReadWait ->
     (forall j, Enter j ∉ ls) -> Open ∉ ls -> Again i ∉ ls -> Test i ∈ ls -> pcs c' i = ReadDone 0).
Proof.
  split.
  - induction ls as [|l ls IH]; intros c c' ret Hrun He Hd Ha; inversion Hrun as [|? ? ? c1 ? Hs Hr]; subst; [congruence|].
    apply not_elem_of_cons in Ha as [Hne Ha]. pose proof (read_step_pc _ _ _ _ i Hs) as Hp. pose proof (read_step_flag _ _ _ _ Hs) as Hg.
    destruct (decide (l = Enter i)) as [->|Hl].
    + rewrite Z.eqb_refl in Hp. destruct Hp as [_ Hp]. split; [by eapply read_run_ret; [exact Hr | left | ..]|].
      exists [], ls. split_and!; [done | apply not_elem_of_nil | by eapply read_run_tick].
    + assert (pcs c1 i = ReadEnter) as E1.
      { destruct l as [j|j|j| | |f]; try congruence; destruct (Z.eqb_spec j i) as [->|]; try congruence. destruct Hp; congruence. }
      destruct (IH c1 c' ret Hr E1 Hd Ha) as (-> & before & after & -> & Hb & Ht). split; [done|].
      exists (l :: before), after. split_and!; [done | by apply not_elem_of_cons | done].
  - intros ls c c' Hrun Hw He Ho Ha Ht. inversion Hrun as [|? ? ? c1 ? Hs Hr]; subst.
    pose proof (read_step_pc _ _ _ _ i Hs) as Hp. pose proof (read_step_flag _ _ _ _ Hs) as Hg. cbn in Hp, Hg.
    destruct (read_run_set dev i ls c1 c' Hr) as [_ H]; [lia | done | done | done|]. apply H; [congruence | done].
Qed.

(** Two processes that read: the second one resets the flag between an interrupt and the test of
    the first, over and over, and however many interrupts come the first one still waits. *)
Theorem rtc_read_misses_interrupts dev n r s :
  exists c', read_run dev (Enter 0 :: Enter 1 :: concat (replicate n [Tick; Test 1; Again 1; Enter 1; Test 0]))
      (Readers (fun _ => ReadEnter) r s) c' /\ pcs c' 0 = ReadWait.
Proof.
  assert (forall n c, pcs c 0 = ReadWait -> pcs c 1 = ReadWait ->
    exists c', read_run dev (concat (replicate n [Tick; Test 1; Again 1; Enter 1; Test 0])) c c' /\ pcs c' 0 = ReadWait) as H.
  { clear. induction n as [|n IH]; intros c H0 H1; [exists c; split; [apply run_nil | done]|].
    destruct (IH (Readers (set_pcs 0 ReadWait (set_pcs 1 ReadWait (set_pcs 1 ReadEnter (set_pcs 1 (ReadDone 0) (pcs c)))))
      (Rtc (initialized (clk c)) 0) (rtc_int dev (clk c) (port_log c)).2)) as (c' & Hr & Hw); [done | done|].
    exists c'. split; [|done]. cbn [replicate concat app].
    eapply run_cons; [apply step_tick|]. eapply run_cons; [by apply (step_test dev 1)|]. eapply run_cons; [by eapply (step_again dev 1)|].
    eapply run_cons; [by apply (step_enter dev 1)|]. eapply run_cons; [by apply (step_test dev 0)|]. exact Hr. }
  destruct (H n (Readers (set_pcs 1 ReadWait (set_pcs 0 ReadWait (fun _ => ReadEnter))) (Rtc (initialized r) 0) s)) as (c' & Hr & Hw); [done | done|].
  exists c'. split; [|done]. eapply run_cons; [by apply (step_enter dev 0)|]. eapply run_cons; [by apply (step_enter dev 1)|]. exact Hr.
Qed.

(** The two bytes [pit_init] writes to channel 0, low byte first after the
    mode byte, make up the divisor of a 30 Hz timer. *)
Theorem pit_divisor dev m s :
  match written SET_FREQUENCY_PORT (history (pit_init dev m s).2) with
  | hi :: lo :: _ => lo + 256 * hi = 1193180 / 30
  | _ => False
  end.
Proof. reflexivity. Qed.

(** Opening the clock again does nothing: a later [rtc_open] neither touches
    the device nor resets the frequency to 2 Hz. *)
Theorem rtc_reopen_keeps_frequency dev r s :
  let '(ret, r', s') := rtc_open dev r s in
  ret = 0 /\ rtc_open dev r' s' = (0, r', s').
Proof.
  unfold rtc_open. destruct (negb (initialized r =? 0)) eqn:E; [by rewrite E|].
  destruct (rtc_write dev START_FREQUENCY r (rtc_init dev s)) as [ret s'] eqn:W.
  pose proof (rtc_write_ret dev START_FREQUENCY r (rtc_init dev s)) as Hret.
  rewrite W in Hret. clear W.
  change (ret = 0) in Hret. subst ret. split; reflexivity.
Qed.
