(* ===== verification/FileSystem.v ===== *)
(** * The read-only file system, [student-distrib/file_system.c]

    The file system image is a region of memory: the boot block (64 bytes of
    [boot_info_t] and 63 directory entries of 64 bytes), then the inodes (4096
    bytes each), then the data blocks.  The code is translated over
    byte-addressed memory with the pointer arithmetic of the packed structs; the
    destination buffer of a read does not overlap the image, so a read returns the
    bytes it stores at [buf[0]], [buf[1]], ... together with its return value.  A
    file name argument is a nullable pointer to a character array. *)

From stdpp Require Import base list option.
From Stdlib Require Import ZArith Lia ZifyBool.
From S2P Require Import Prelude MemOps Lib.

Definition FNAME_SIZE : Z := 32.
Definition BLOCK_SIZE : Z := 4096.
Definition BOOT_BLOCK_ENTRIES : Z := 63.
Definition BOOT_BLOCK_SIZE : Z := 64 + 63 * 64.
Definition BOOT_INFO_SIZE : Z := 64.
Definition DENTRY_SIZE : Z := 64.
Definition INODE_SIZE : Z := 4 * 1024.
Definition SIZE_LOCATION : Z := 45.

(** [dentry_t], as [*dentry = boot_block->entries[i]] copies it. *)
Record dentry := Dentry {
  file_name : list Z; file_type : Z; inode_num : Z; reserved : list Z }.

(** The static variables of the file. *)
Record fs := Fs { boot_block : Z; inodes : Z; data : Z; curr_file_number : Z }.

Definition load_bytes (m : memory) (a : Z) (n : nat) : list Z :=
  map (fun i => m (u32 (a + i))) (seqZ 0 (Z.of_nat n)).

Section Image.
Context (m : memory).

Definition entry_addr (f : fs) (i : Z) : Z := u32 (boot_block f + BOOT_INFO_SIZE + DENTRY_SIZE * i).

Definition load_dentry (a : Z) : dentry :=
  Dentry (load_bytes m a 32) (load32 m (u32 (a + 32))) (load32 m (u32 (a + 36)))
         (load_bytes m (u32 (a + 40)) 24).

Definition NUM_DIR_ENTRIES (f : fs) : Z := load32 m (boot_block f).
Definition NUM_INODES (f : fs) : Z := load32 m (u32 (boot_block f + 4)).
Definition NUM_DATA_BLOCKS (f : fs) : Z := load32 m (u32 (boot_block f + 8)).

Definition inode_length (p : Z) : Z := load32 m p.
Definition inode_block (p i : Z) : Z := load32 m (u32 (p + 4 + 4 * i)).

Definition get_inode_ptr (f : fs) (inode_num : Z) : Z :=
  if inode_num <? 0 then u32 ERROR else u32 (inodes f + inode_num * INODE_SIZE).

(** [data] keeps its old value when the image has no inodes. *)
Definition fs_init (f : fs) (fs_address : Z) : Z * fs :=
  let bb := u32 fs_address in
  let ino := u32 (bb + BOOT_BLOCK_SIZE) in
  let num_inodes := s32 (load32 m (u32 (bb + 4))) in
  if 0 <? num_inodes
  then (SUCCESS, Fs bb ino (u32 (ino + num_inodes * INODE_SIZE)) 0)
  else (ERROR, Fs bb ino (data f) 0).

(** [for (i = 0; i < FNAME_SIZE; i++)] with its returns and break. *)
Fixpoint check_chars (k : nat) (i : Z) (fname : list Z) (entry : Z) : option Z :=
  match k with
  | O => Some SUCCESS
  | S k' =>
      a ← fname.[i];
      let b := m (u32 (entry + i)) in
      if negb (a =? b) then Some ERROR
      else if (a =? 0) && (b =? 0) then Some SUCCESS
      else check_chars k' (i + 1) fname entry
  end.

Definition check_file_name (fname : option (list Z)) (entry : Z) : option Z :=
  match fname with
  | None => Some ERROR
  | Some fn => if entry =? 0 then Some ERROR else check_chars (Z.to_nat FNAME_SIZE) 0 fn entry
  end.

(** [for (i = 0; i < 63; i++)]; a hit copies the entry out. *)
Fixpoint find_dentry (k : nat) (i : Z) (f : fs) (fname : list Z) : option (Z * option dentry) :=
  match k with
  | O => Some (ERROR, None)
  | S k' =>
      r ← check_file_name (Some fname) (entry_addr f i);
      if SUCCESS =? r then Some (SUCCESS, Some (load_dentry (entry_addr f i)))
      else find_dentry k' (i + 1) f fname
  end.

Definition read_dentry_by_name (f : fs) (fname : option (list Z)) : option (Z * option dentry) :=
  match fname with
  | None => Some (ERROR, None)
  | Some fn =>
      c ← fn.[0];
      if c =? 0 then Some (ERROR, None) else find_dentry 63 0 f fn
  end.

(** [i] is the uninitialised local the entry is copied from. *)
Definition read_dentry_by_index (f : fs) (index i : Z) : Z * option dentry :=
  if u32 (NUM_DIR_ENTRIES f - 1) <? index then (ERROR, None)
  else (SUCCESS, Some (load_dentry (entry_addr f i))).

(** The address of the name of the first entry with inode [n], 0 for none. *)
Fixpoint find_inode (k : nat) (i : Z) (f : fs) (n : Z) : Z :=
  match k with
  | O => 0
  | S k' =>
      if load32 m (u32 (entry_addr f i + 36)) =? n then entry_addr f i
      else find_inode k' (i + 1) f n
  end.

Definition return_dentry_by_ptr (f : fs) (inode : Z) : Z :=
  if inode =? 0 then 0
  else
    let inode_number := u32 (inode - inodes f) / INODE_SIZE in
    find_inode (Z.to_nat (s32 (NUM_DIR_ENTRIES f))) 0 f inode_number.

(** The copying loop of [read_data]; [acc] holds the bytes stored so far, last
    one first. *)
Fixpoint read_loop (f : fs) (p offset : Z) (k : nat) (i block_idx ret : Z) (acc : list Z)
  : Z * list Z :=
  match k with
  | O => (ret, reverse acc)
  | S k' =>
      if inode_length p <=? u32 (offset + i) then (ret, reverse acc)
      else
        let data_idx := s32 (inode_block p block_idx) in
        if u32 (NUM_DATA_BLOCKS f - 1) <? u32 data_idx then (ERROR, reverse acc)
        else
          let d_ptr := u32 (data f + data_idx * BLOCK_SIZE) in
          let block_idx := if u32 (offset + i + 1) mod BLOCK_SIZE =? 0 then block_idx + 1 else block_idx in
          read_loop f p offset k' (i + 1) block_idx (ret + 1)
            (m (u32 (d_ptr + u32 (offset + i) mod BLOCK_SIZE)) :: acc)
  end.

(** The null tests guard only the early return after them. *)
Definition read_data (f : fs) (inode offset buf length : Z) : Z * list Z :=
  if ((buf =? 0) || (inode =? 0)) && (inode_length inode <? offset) then (0, [])
  else
    read_loop f inode offset (Z.to_nat length) 0 (offset / BLOCK_SIZE) 0 [].

Definition fs_read_by_name (f : fs) (fname : option (list Z)) (offset count buf : Z)
  : option (Z * list Z) :=
  '(ret, d) ← read_dentry_by_name f fname;
  match d with
  | None => Some (ERROR, [])
  | Some d =>
      if ret =? ERROR then Some (ERROR, [])
      else
        let i_ptr := u32 (inodes f + inode_num d * INODE_SIZE) in
        Some (read_data f i_ptr (u32 offset) buf (u32 count))
  end.

End Image.

Definition fs_open : Z := SUCCESS.
Definition fs_write (fd : Z) (buf : list Z) (nbytes : Z) : Z := ERROR.
Definition fs_close : Z := SUCCESS.
Definition dir_open : Z := SUCCESS.
Definition dir_write (fd : Z) (buf : list Z) (nbytes : Z) : Z := ERROR.
Definition dir_close : Z := SUCCESS.

(** One turn of the digit loop on [(buf, ret, num)]; the remainder of C keeps the
    sign of the number. *)
Definition dec_body (st : list Z * Z * Z) : option (list Z * Z * Z) :=
  let '(buf, ret, num) := st in
  let lsd := Z.rem num 10 in
  buf' ← buf.[ret <- u8 (lsd + 48)];
  Some (buf', ret + 1, Z.quot num 10).

(** A 32-bit number has at most ten digits: eleven turns of fuel are enough. *)
Definition write_dec_to_char (num : Z) (buf : list Z) : option (Z * list Z) :=
  '(b, ret) ← (if num =? 0 then b ← buf.[0 <- 48]; Some (b, 1) else Some (buf, 0));
  '(b, ret, _) ← while_do 12 (fun '(_, _, n) => negb (n =? 0)) dec_body (b, ret, num);
  b ← for_up (Z.to_nat (ret / 2)) 0 (fun i b => swap_chars b i (ret - i - 1)) b;
  Some (ret, b).

Section Dir.
Context (m : memory).

(** The loop that copies the name; the result says whether it returned early. *)
Fixpoint dir_copy (k : nat) (j entry temp : Z) (acc : list Z) : bool * list Z :=
  match k with
  | O => (false, reverse acc)
  | S k' =>
      let c := m (u32 (entry + j)) in
      if c =? 0 then (false, reverse acc)
      else
        let temp := temp - 1 in
        if temp =? 0 then (true, reverse (c :: acc))
        else dir_copy k' (j + 1) entry temp (c :: acc)
  end.

(** [count] is overwritten with [FNAME_SIZE] after [temp] has kept it. *)
Definition dir_read (f : fs) (count : Z) : option (Z * list Z * fs) :=
  let temp := count in
  if NUM_DIR_ENTRIES m f <=? u32 (curr_file_number f) then
    Some (0, [], Fs (boot_block f) (inodes f) (data f) 0)
  else
    let count := FNAME_SIZE in
    let entry := entry_addr f (curr_file_number f) in
    let i_num := s32 (load32 m (u32 (entry + 36))) in
    let file_size := s32 (inode_length m (u32 (inodes f + i_num * INODE_SIZE))) in
    let next := Fs (boot_block f) (inodes f) (data f) (curr_file_number f + 1) in
    let '(early, name) := dir_copy (Z.to_nat FNAME_SIZE) 0 entry temp [] in
    if early then Some (Z.of_nat (length name), name, next)
    else if FNAME_SIZE <? count then
      let dots := replicate (Z.to_nat (SIZE_LOCATION - Z.of_nat (length name))) 46 in
      '(n, digits) ← write_dec_to_char file_size (replicate 12 0);
      let out := name ++ dots ++ take (Z.to_nat n) digits ++ [32; 66] in
      Some (Z.of_nat (length out), out, next)
    else Some (Z.of_nat (length name), name, next).

End Dir.

(** ** The abstract file system *)

Section Spec.
Context (m : memory) (f : fs).

(** A name field: up to 32 characters, shorter names zero padded. *)
Fixpoint name_of (bs : list Z) : list Z :=
  match bs with
  | [] => []
  | c :: bs' => if c =? 0 then [] else c :: name_of bs'
  end.

Definition entry_name (i : Z) : list Z := name_of (load_bytes m (entry_addr f i) 32).

(** The first directory entry a name selects: names are compared on their first
    32 characters. *)
Definition lookup_name (cs : list Z) : option Z :=
  find (fun i => bool_decide (entry_name i = take 32 cs)) (seqZ 0 63).

(** The bytes of the file of an inode, in order. *)
Definition file_byte (p k : Z) : Z :=
  m (u32 (data f + inode_block m p (k / BLOCK_SIZE) * BLOCK_SIZE + k mod BLOCK_SIZE)).

Definition file_content (p : Z) : list Z := map (file_byte p) (seqZ 0 (inode_length m p)).

(** Byte [k] of the file lies in a data block the image has. *)
Definition block_ok (p k : Z) : Prop := inode_block m p (k / BLOCK_SIZE) < NUM_DATA_BLOCKS m f.

(** The image does not wrap around the address space and is not at address 0. *)
Definition boot_ok : Prop := 0 < boot_block f /\ boot_block f + BOOT_BLOCK_SIZE <= 2 ^ 32.

End Spec.

(** ** Lemmas *)

Lemma load32_range m a : bytes m -> 0 <= load32 m a < 2 ^ 32.
Proof.
  intros Hm. unfold load32.
  pose proof (Hm a). pose proof (Hm (u32 (a + 1))). pose proof (Hm (u32 (a + 2))).
  pose proof (Hm (u32 (a + 3))). lia.
Qed.

Lemma u32_s32 z : u32 (s32 z) = u32 z.
Proof. unfold u32, s32. zlia. Qed.

Lemma u32_add_u32 a b : u32 (u32 a + b) = u32 (a + b).
Proof. unfold u32. apply Z.add_mod_idemp_l. lia. Qed.

Lemma u32_data_ptr d idx r : u32 (u32 (d + s32 idx * BLOCK_SIZE) + r) = u32 (d + idx * BLOCK_SIZE + r).
Proof. rewrite u32_add_u32. unfold u32, s32, BLOCK_SIZE. zlia. Qed.

Section ReadLoop.
Context (m : memory) (f : fs) (p offset : Z).
Context (Hm : bytes m) (Hblocks : 1 <= NUM_DATA_BLOCKS m f) (Hoff : 0 <= offset).

Abbreviation len := (inode_length m p).

Lemma block_test k :
  (u32 (NUM_DATA_BLOCKS m f - 1) <? u32 (s32 (inode_block m p (k / BLOCK_SIZE)))) = true <->
  ~ block_ok m f p k.
Proof.
  pose proof (load32_range m (u32 (boot_block f + 8)) Hm) as H1.
  pose proof (load32_range m (u32 (p + 4 + 4 * (k / BLOCK_SIZE))) Hm) as H2.
  unfold block_ok. fold (NUM_DATA_BLOCKS m f) in H1. fold (inode_block m p (k / BLOCK_SIZE)) in H2.
  rewrite u32_s32, !u32_small by lia. lia.
Qed.

Lemma next_block k :
  0 <= k -> k + 1 < 2 ^ 32 ->
  (if u32 (k + 1) mod BLOCK_SIZE =? 0 then k / BLOCK_SIZE + 1 else k / BLOCK_SIZE) = (k + 1) / BLOCK_SIZE.
Proof. intros. rewrite u32_small by lia. unfold BLOCK_SIZE. case_if; zlia. Qed.

(** One turn of the loop on a byte inside the file. *)
Lemma read_loop_step k i ret acc :
  0 <= i -> offset + i + 1 < 2 ^ 32 -> offset + i < len -> block_ok m f p (offset + i) ->
  read_loop m f p offset (S k) i ((offset + i) / BLOCK_SIZE) ret acc =
  read_loop m f p offset k (i + 1) ((offset + (i + 1)) / BLOCK_SIZE) (ret + 1)
    (file_byte m f p (offset + i) :: acc).
Proof.
  intros Hi Hwrap Hlen Hok. cbn [read_loop]. rewrite (u32_small (offset + i)) by lia.
  bfalse (len <=? offset + i).
  destruct (u32 (NUM_DATA_BLOCKS m f - 1) <? _) eqn:E; [by apply block_test in E|].
  rewrite next_block, u32_data_ptr by lia.
  replace (offset + (i + 1)) with (offset + i + 1) by lia. done.
Qed.

Lemma read_loop_spec k i ret acc n :
  0 <= i -> offset + i + Z.of_nat k < 2 ^ 32 ->
  n = Z.max 0 (Z.min (Z.of_nat k) (len - (offset + i))) ->
  (forall x, offset + i <= x < offset + i + n -> block_ok m f p x) ->
  read_loop m f p offset k i ((offset + i) / BLOCK_SIZE) ret acc =
  (ret + n, reverse acc ++ map (file_byte m f p) (seqZ (offset + i) n)).
Proof.
  revert i ret acc n. induction k as [|k IH]; intros i ret acc n Hi Hwrap Hn Hok.
  - assert (n = 0) as -> by lia. simpl. rewrite app_nil_r. f_equal. lia.
  - destruct (Z.le_gt_cases len (offset + i)) as [Hle|Hgt].
    + assert (n = 0) as -> by lia. cbn [read_loop]. rewrite u32_small by lia.
      btrue (len <=? offset + i). simpl. rewrite app_nil_r. f_equal. lia.
    + rewrite read_loop_step by (lia || apply Hok; lia).
      rewrite (IH (i + 1) _ _ (n - 1)) by (lia || (intros; apply Hok; lia)).
      rewrite (seqZ_cons (offset + i)) by lia. cbn [map].
      rewrite reverse_cons, <- app_assoc. cbn [app].
      replace (Z.succ (offset + i)) with (offset + (i + 1)) by lia.
      replace (Z.pred n) with (n - 1) by lia. f_equal. lia.
Qed.

Lemma read_loop_bad k i ret acc n :
  0 <= i -> 0 <= n < Z.of_nat k -> offset + i + n + 1 < 2 ^ 32 -> offset + i + n < len ->
  (forall x, offset + i <= x < offset + i + n -> block_ok m f p x) ->
  ~ block_ok m f p (offset + i + n) ->
  read_loop m f p offset k i ((offset + i) / BLOCK_SIZE) ret acc =
  (ERROR, reverse acc ++ map (file_byte m f p) (seqZ (offset + i) n)).
Proof.
  revert i ret acc n. induction k as [|k IH]; intros i ret acc n Hi Hn Hwrap Hlen Hok Hbad; [lia|].
  destruct (Z.eqb_spec n 0) as [->|Hne].
  - cbn [read_loop]. rewrite Z.add_0_r in *. rewrite (u32_small (offset + i)) by lia.
    bfalse (len <=? offset + i). apply block_test in Hbad. rewrite Hbad.
    simpl. rewrite app_nil_r. done.
  - rewrite read_loop_step by (lia || apply Hok; lia).
    rewrite (IH (i + 1) _ _ (n - 1)); [ | lia | lia | lia | lia | intros; apply Hok; lia |].
    + rewrite (seqZ_cons (offset + i)) by lia. cbn [map].
      rewrite reverse_cons, <- app_assoc. cbn [app].
      replace (Z.succ (offset + i)) with (offset + (i + 1)) by lia.
      replace (Z.pred n) with (n - 1) by lia. done.
    + replace (offset + (i + 1) + (n - 1)) with (offset + i + n) by lia. done.
Qed.

End ReadLoop.

Lemma content_slice m f p offset n :
  0 <= offset -> 0 <= n ->
  take (Z.to_nat n) (drop (Z.to_nat offset) (file_content m f p)) =
  map (file_byte m f p) (seqZ offset (Z.max 0 (Z.min n (inode_length m p - offset)))).
Proof.
  intros. unfold file_content. rewrite skipn_map, firstn_map, drop_seqZ, take_seqZ. f_equal.
  rewrite !Z2Nat.id, Z.add_0_l by lia.
  destruct (Z.le_gt_cases (Z.min n (inode_length m p - offset)) 0).
  - rewrite !seqZ_nil by lia. done.
  - f_equal. lia.
Qed.

(** ** Names *)

Lemma load_bytes_seq (m : memory) a k i :
  map (fun j => m (u32 (a + j))) (seqZ i (Z.of_nat (S k))) =
  m (u32 (a + i)) :: map (fun j => m (u32 (a + j))) (seqZ (i + 1) (Z.of_nat k)).
Proof.
  rewrite seqZ_cons by lia. cbn [map]. do 3 f_equal; lia.
Qed.

Lemma check_chars_spec m k i fname entry cs :
  0 <= i -> cstring (drop (Z.to_nat i) fname) cs ->
  check_chars m k i fname entry =
  Some (if bool_decide (name_of (map (fun j => m (u32 (entry + j))) (seqZ i (Z.of_nat k))) = take k cs)
        then SUCCESS else ERROR).
Proof.
  revert i cs. induction k as [|k IH]; intros i cs Hi Hcs.
  - simpl. done.
  - rewrite load_bytes_seq. cbn [check_chars name_of].
    set (b := m (u32 (entry + i))).
    assert (drop (Z.to_nat (i + 1)) fname = tail (drop (Z.to_nat i) fname)) as Htail.
    { replace (Z.to_nat (i + 1)) with (Z.to_nat i + 1)%nat by lia. rewrite <- drop_drop.
      by destruct (drop (Z.to_nat i) fname). }
    assert (fname.[i] = head (drop (Z.to_nat i) fname)) as Hhead.
    { rewrite zget_lookup by lia. replace (Z.to_nat i) with (Z.to_nat i + 0)%nat at 1 by lia.
      rewrite <- lookup_drop. by destruct (drop (Z.to_nat i) fname). }
    rewrite Hhead. apply cstring_inv in Hcs. destruct cs as [|c cs].
    + destruct Hcs as [r E]. rewrite E. cbn [head take]. bind.
      destruct (Z.eqb_spec 0 b) as [<-|Hne]; [done|]. cbn [negb].
      bfalse (b =? 0). by rewrite bool_decide_eq_false_2.
    + destruct Hcs as (Hc & fl & E & Hfl). rewrite E in *. cbn [head take tail] in *. bind.
      destruct (Z.eqb_spec c b) as [<-|Hne]; cbn [negb].
      * bfalse (c =? 0). cbn [andb]. rewrite (IH (i + 1) cs) by (lia || by rewrite Htail).
        destruct (decide (name_of (map (fun j => m (u32 (entry + j))) (seqZ (i + 1) (Z.of_nat k))) = take k cs))
          as [->|Hn]; [by rewrite !bool_decide_eq_true_2|].
        rewrite !bool_decide_eq_false_2; [done | congruence | done].
      * destruct (b =? 0); rewrite bool_decide_eq_false_2; congruence || done.
Qed.

Lemma check_file_name_spec m f fname i cs :
  boot_ok f -> 0 <= i < 63 -> cstring fname cs ->
  check_file_name m (Some fname) (entry_addr f i) =
  Some (if bool_decide (entry_name m f i = take 32 cs) then SUCCESS else ERROR).
Proof.
  intros [H1 H2] Hi Hcs. unfold check_file_name.
  assert (entry_addr f i <> 0) as Hne.
  { unfold entry_addr, BOOT_BLOCK_SIZE, BOOT_INFO_SIZE, DENTRY_SIZE in *. rewrite u32_small; lia. }
  bfalse (entry_addr f i =? 0). rewrite (check_chars_spec _ _ _ _ _ cs) by done. done.
Qed.

Lemma find_dentry_spec m f fname cs k i :
  boot_ok f -> cstring fname cs -> 0 <= i -> i + Z.of_nat k <= 63 ->
  find_dentry m k i f fname =
  Some (match find (fun j => bool_decide (entry_name m f j = take 32 cs)) (seqZ i (Z.of_nat k)) with
        | Some j => (SUCCESS, Some (load_dentry m (entry_addr f j)))
        | None => (ERROR, None)
        end).
Proof.
  intros Hb Hcs. revert i. induction k as [|k IH]; intros i Hi Hk; [done|].
  cbn [find_dentry]. rewrite (check_file_name_spec _ _ _ _ cs) by (done || lia). bind.
  rewrite seqZ_cons by lia. cbn [find].
  destruct (bool_decide (entry_name m f i = take 32 cs)); [done|]. cbn [SUCCESS ERROR Z.eqb].
  rewrite IH by lia. replace (Z.succ i) with (i + 1) by lia.
  replace (Z.pred (Z.of_nat (S k))) with (Z.of_nat k) by lia. done.
Qed.

Lemma read_dentry_by_name_spec m f fname cs :
  boot_ok f -> cstring fname cs -> cs <> [] ->
  read_dentry_by_name m f (Some fname) =
  Some (match lookup_name m f cs with
        | Some j => (SUCCESS, Some (load_dentry m (entry_addr f j)))
        | None => (ERROR, None)
        end).
Proof.
  intros Hb Hcs Hne. unfold read_dentry_by_name. pose proof (cstring_inv _ _ Hcs) as Hi.
  destruct cs as [|c cs]; [done|]. destruct Hi as (Hc & fl & -> & Hfl).
  rewrite zget_lookup by lia. change ((c :: fl) !! Z.to_nat 0) with (Some c). bind. bfalse (c =? 0).
  by apply (find_dentry_spec m f (c :: fl) (c :: cs) 63 0).
Qed.

(** ** Decimal output *)

(** On a number that is not negative, the digit loop is that of [itoa]. *)
Lemma dec_body_itoa b ret n : 0 <= n -> dec_body (b, ret, n) = itoa_body 10 (b, ret, n).
Proof.
  intros Hn. unfold dec_body, itoa_body. rewrite u32_small, Z.rem_mod_nonneg, Z.quot_div_nonneg by lia.
  pose proof (Z.mod_pos_bound n 10). rewrite lookup_table_digit by lia. bind.
  rewrite u8_small by lia. unfold digit_char. btrue (n mod 10 <? 10). by rewrite (Z.add_comm 48).
Qed.

Lemma swap_loop_reverses ds rest :
  for_up (Z.to_nat (Z.of_nat (length ds) / 2)) 0
    (fun i b => swap_chars b i (Z.of_nat (length ds) - i - 1)) (ds ++ rest) =
  Some (reverse ds ++ rest).
Proof.
  set (n := Z.of_nat (length ds)).
  destruct (for_up_inv (fun i b => half_reversed (ds ++ rest) n i b)
    (Z.to_nat (n / 2)) 0 (fun i b => swap_chars b i (n - i - 1)) (ds ++ rest)) as (b & E & H).
  - apply half_reversed_start.
  - intros i b Hi Hh. replace (n - i - 1) with (n - 1 - i) by lia.
    apply half_reversed_step; [done | lia | zlia |]. unfold n. rewrite length_app. lia.
  - rewrite E. f_equal. apply (half_reversed_done ds rest _ b H). zlia.
Qed.

Lemma write_dec_spec num buf :
  0 <= num < 2 ^ 31 -> (11 <= length buf)%nat ->
  exists ds, write_dec_to_char num buf = Some (Z.of_nat (length ds), ds ++ drop (length ds) buf) /\
    Forall (is_digit 10) ds /\ parse_radix 10 ds = num /\ ds <> [] /\
    (num <> 0 -> 10 ^ (Z.of_nat (length ds) - 1) <= num).
Proof.
  intros Hnum Hbuf. unfold write_dec_to_char. destruct (Z.eqb_spec num 0) as [->|Hne].
  { destruct buf as [|x buf]; [simpl in Hbuf; lia|]. rewrite zset_in by (simpl; lia). bind.
    exists [48]. split_and!; try done. constructor; [|done]. split; [|done]. unfold digit_value. simpl. lia. }
  bind.
  destruct (while_do_inv (itoa_inv num 10 buf) (fun '(_, _, n) => negb (n =? 0)) dec_body
    12 (buf, 0, num) 10) as (j & [[b ret] n] & E & Hinv & Hc).
  - exists []. cbn [length]. rewrite drop_0. split_and!; try done; try lia; cbn; lia.
  - lia.
  - intros j [[b ret] n] Hinv Hc. bsplit.
    assert (0 <= n) by (destruct Hinv as (? & _ & _ & _ & ? & _); lia).
    rewrite dec_body_itoa by done. apply (itoa_body_step num 10 buf); [lia | done|]. lia.
  - rewrite E. bind. bsplit. subst n. destruct Hinv as (ds & -> & -> & Hj & _ & Hd & Hval & Hlead).
    rewrite Z.mul_0_l, Z.add_0_l in Hval.
    assert (ds <> []) as Hnil by (intros ->; by cbn in Hval).
    pose proof (swap_loop_reverses (reverse ds) (drop (length ds) buf)) as Hsw.
    rewrite length_reverse, reverse_involutive in Hsw. rewrite Hsw. bind. exists ds. split_and!; auto.
Qed.

(** ** Directory reads *)

Lemma dir_copy_spec (m : memory) entry k j temp acc :
  0 < temp ->
  dir_copy m k j entry temp acc =
  (let name := name_of (map (fun i => m (u32 (entry + i))) (seqZ j (Z.of_nat k))) in
   (bool_decide (temp <= Z.of_nat (length name)), reverse acc ++ take (Z.to_nat temp) name)).
Proof.
  revert j temp acc. induction k as [|k IH]; intros j temp acc Ht.
  - simpl. rewrite bool_decide_eq_false_2 by lia. by rewrite take_nil, app_nil_r.
  - rewrite load_bytes_seq. cbn [dir_copy name_of]. cbv zeta.
    destruct (Z.eqb_spec (m (u32 (entry + j))) 0) as [E|E].
    { cbn [length]. rewrite bool_decide_eq_false_2 by (simpl; lia). by rewrite take_nil, app_nil_r. }
    set (c := m (u32 (entry + j))). cbn [length].
    destruct (Z.eqb_spec (temp - 1) 0) as [E1|E1].
    + replace temp with 1 by lia. cbn [take Z.to_nat Pos.to_nat Pos.iter_op].
      rewrite bool_decide_eq_true_2 by lia. rewrite reverse_cons. done.
    + rewrite IH by lia. replace (Z.to_nat temp) with (S (Z.to_nat (temp - 1))) by lia.
      cbn [take]. rewrite reverse_cons, <- app_assoc. f_equal.
      apply bool_decide_ext. lia.
Qed.

Definition next_file (f : fs) : fs := Fs (boot_block f) (inodes f) (data f) (curr_file_number f + 1).
Definition first_file (f : fs) : fs := Fs (boot_block f) (inodes f) (data f) 0.

Lemma dir_read_entry m f count :
  0 < count -> 0 <= curr_file_number f < NUM_DIR_ENTRIES m f -> curr_file_number f < 2 ^ 32 ->
  let name := take (Z.to_nat count) (entry_name m f (curr_file_number f)) in
  dir_read m f count = Some (Z.of_nat (length name), name, next_file f).
Proof.
  intros Hc Hn Hr name. unfold dir_read. rewrite u32_small by lia.
  bfalse (NUM_DIR_ENTRIES m f <=? curr_file_number f).
  rewrite dir_copy_spec by done. cbv zeta. cbn [reverse rev_append app].
  by destruct (bool_decide _).
Qed.

Lemma dir_read_end m f count :
  NUM_DIR_ENTRIES m f = curr_file_number f -> 0 <= curr_file_number f < 2 ^ 32 ->
  dir_read m f count = Some (0, [], first_file f).
Proof.
  intros Hn Hr. unfold dir_read. rewrite u32_small by lia.
  btrue (NUM_DIR_ENTRIES m f <=? curr_file_number f). done.
Qed.

(** [n] consecutive reads, with the results of each. *)
Fixpoint dir_reads (m : memory) (n : nat) (count : Z) (f : fs) : option (list (Z * list Z) * fs) :=
  match n with
  | O => Some ([], f)
  | S n' =>
      '(ret, bs, f') ← dir_read m f count;
      '(rs, f'') ← dir_reads m n' count f';
      Some ((ret, bs) :: rs, f'')
  end.

Definition result_of (bs : list Z) : Z * list Z := (Z.of_nat (length bs), bs).

Lemma dir_reads_from m count k f :
  0 < count -> 0 <= curr_file_number f ->
  curr_file_number f + Z.of_nat k = NUM_DIR_ENTRIES m f -> NUM_DIR_ENTRIES m f < 2 ^ 32 ->
  dir_reads m (S k) count f =
  Some (map (fun i => result_of (take (Z.to_nat count) (entry_name m f i)))
          (seqZ (curr_file_number f) (Z.of_nat k)) ++ [result_of []], first_file f).
Proof.
  intros Hc. revert f. induction k as [|k IH]; intros f Hf Hn Hr.
  - cbn [dir_reads]. rewrite dir_read_end by lia. done.
  - cbn [dir_reads] in *. rewrite dir_read_entry by lia. bind.
    pose proof (IH (next_file f)) as IHn. cbn [dir_reads] in IHn. rewrite IHn; clear IHn.
    + bind. rewrite (seqZ_cons (curr_file_number f)) by lia. cbn [map app].
      replace (Z.pred (Z.of_nat (S k))) with (Z.of_nat k) by lia. done.
    + simpl. lia.
    + simpl. change (NUM_DIR_ENTRIES m (next_file f)) with (NUM_DIR_ENTRIES m f). lia.
    + done.
Qed.

Lemma read_data_spec m f p offset buf n :
  bytes m -> 1 <= NUM_DATA_BLOCKS m f -> 0 <= offset -> 0 <= n -> offset + n < 2 ^ 32 ->
  (forall x, offset <= x < offset + n -> x < inode_length m p -> block_ok m f p x) ->
  read_data m f p offset buf n =
  result_of (take (Z.to_nat n) (drop (Z.to_nat offset) (file_content m f p))).
Proof.
  intros Hm Hb Ho Hn Hw Hok. rewrite content_slice by done. unfold result_of.
  rewrite length_map, length_seqZ. set (k := Z.max 0 _). rewrite Z2Nat.id by lia.
  pose proof (read_loop_spec m f p offset Hm Hb Ho (Z.to_nat n) 0 0 [] k) as E.
  rewrite Z.add_0_r in E. unfold read_data. case_if.
  - replace k with 0 by (bsplit; lia). done.
  - rewrite E; [by rewrite Z.add_0_l | lia | lia | lia |]. intros; apply Hok; lia.
Qed.

(** ** A small image

    Two entries, "." and "a"; one file of 4098 bytes in the data blocks 1 and 0, which
    starts like a program. *)

Definition demo_base : Z := 5242880.
Definition demo_mem : memory := fun x =>
  let o := x - demo_base in
  if o =? 0 then 2 else if o =? 4 then 1 else if o =? 8 then 2
  else if o =? 64 then 46 else if o =? 96 then 1
  else if o =? 128 then 97 else if o =? 160 then 2
  else if o =? 4096 then 2 else if o =? 4097 then 16
  else if o =? 4100 then 1
  else if o =? 12288 then 127 else if o =? 12289 then 69 else if o =? 12290 then 76 else if o =? 12291 then 70
  else if (8192 <=? o) && (o <? 16384) then o mod 251 else 0.

Definition demo_fs : fs := snd (fs_init demo_mem (Fs 0 0 0 0) demo_base).
Definition demo_inode : Z := demo_base + 4096.

Lemma demo_bytes : bytes demo_mem.
Proof.
  intros x. unfold demo_mem. repeat case_if; try lia.
  pose proof (Z.mod_pos_bound (x - demo_base) 251). lia.
Qed.

Lemma demo_boot_ok : boot_ok demo_fs.
Proof. split; vm_compute; done. Qed.

Lemma demo_blocks_ok x : 0 <= x < 8192 -> block_ok demo_mem demo_fs demo_inode x.
Proof.
  intros Hx. unfold block_ok, BLOCK_SIZE.
  assert (x / 4096 = 0 \/ x / 4096 = 1) as [-> | ->] by zlia; vm_compute; done.
Qed.

(** ** Properties *)

(** C20: [read_data] copies the bytes of the file from [offset] on, at most [length]
    of them, in file order across block boundaries whatever the order of the data
    blocks, and returns how many there were: 0 at and after the end of the file. *)
Theorem read_data_correct m f p offset buf n :
  bytes m -> 1 <= NUM_DATA_BLOCKS m f -> 0 <= offset -> 0 <= n -> offset + n < 2 ^ 32 ->
  (forall x, offset <= x < offset + n -> x < inode_length m p -> block_ok m f p x) ->
  read_data m f p offset buf n =
  result_of (take (Z.to_nat n) (drop (Z.to_nat offset) (file_content m f p))).
Proof. apply read_data_spec. Qed.

Lemma read_data_correct_witness :
  read_data demo_mem demo_fs demo_inode 4094 1 10 = (4, [67; 68; 160; 161]).
Proof.
  rewrite (read_data_correct demo_mem demo_fs demo_inode 4094 1 10);
    [ vm_compute; reflexivity | apply demo_bytes | vm_compute; discriminate | lia | lia | lia |].
  intros x Hx _. apply demo_blocks_ok. lia.
Defined.

(** A block number outside of the image ends [read_data] with -1; the bytes before
    it, and no others, have been stored by then. *)
Theorem read_data_bad_block m f p offset buf n k :
  bytes m -> 1 <= NUM_DATA_BLOCKS m f -> 0 <= offset -> 0 <= k < n -> offset + n < 2 ^ 32 ->
  offset + k < inode_length m p ->
  (forall x, offset <= x < offset + k -> block_ok m f p x) -> ~ block_ok m f p (offset + k) ->
  read_data m f p offset buf n =
  (ERROR, take (Z.to_nat k) (drop (Z.to_nat offset) (file_content m f p))).
Proof.
  intros Hm Hb Ho Hk Hw Hlen Hok Hbad. rewrite content_slice by lia.
  replace (Z.max 0 _) with k by lia. unfold read_data. case_if; [bsplit; lia|].
  pose proof (read_loop_bad m f p offset Hm Hb Ho (Z.to_nat n) 0 0 [] k) as E.
  rewrite Z.add_0_r in E. apply E; done || lia.
Qed.

(** The same image with data block 7 as the second block of the file. *)
Definition damaged_mem : memory := fun x => if x =? demo_base + 4104 then 7 else demo_mem x.

Lemma read_data_bad_block_witness :
  read_data damaged_mem demo_fs demo_inode 4094 1 10 = (ERROR, [67; 68]).
Proof.
  rewrite (read_data_bad_block damaged_mem demo_fs demo_inode 4094 1 10 2);
    [ vm_compute; reflexivity | | vm_compute; discriminate | lia | lia | lia | vm_compute; done | |].
  - intros x. unfold damaged_mem. case_if; [lia | apply demo_bytes].
  - intros x Hx. unfold block_ok, BLOCK_SIZE. replace (x / 4096) with 0 by zlia. vm_compute. done.
  - vm_compute. intros H. discriminate (H eq_refl) || discriminate H || done.
Defined.

(** C21: [read_dentry_by_name] returns the first of the 63 entries whose name is the
    given one (compared on the 32 characters an entry has), and -1 exactly when no
    entry has that name; it reads the name no further than its terminator. *)
Theorem read_dentry_by_name_correct m f fname cs :
  boot_ok f -> cstring fname cs -> cs <> [] ->
  (forall i, 0 <= i < 63 -> entry_name m f i = take 32 cs ->
     (forall j, 0 <= j < i -> entry_name m f j <> take 32 cs) ->
     read_dentry_by_name m f (Some fname) = Some (SUCCESS, Some (load_dentry m (entry_addr f i)))) /\
  ((forall i, 0 <= i < 63 -> entry_name m f i <> take 32 cs) <->
   read_dentry_by_name m f (Some fname) = Some (ERROR, None)).
Proof.
  intros Hb Hcs Hne. rewrite (read_dentry_by_name_spec _ _ _ cs) by done.
  pose proof (find_seqZ (fun i => bool_decide (entry_name m f i = take 32 cs)) 0 63) as Hfind.
  fold (lookup_name m f cs) in Hfind. split.
  - intros i Hi Hname Hfirst. destruct (lookup_name m f cs) as [j|].
    + destruct Hfind as (Hj & Hjn%bool_decide_eq_true & Hjf).
      assert (i = j) as ->; [|done]. destruct (Z.lt_trichotomy i j) as [H|[H|H]]; [|done|].
      * exfalso. exact (proj1 (bool_decide_eq_false _) (Hjf i ltac:(lia)) Hname).
      * exfalso. apply (Hfirst j); [lia | exact Hjn].
    + exfalso. exact (proj1 (bool_decide_eq_false _) (Hfind i ltac:(lia)) Hname).
  - destruct (lookup_name m f cs) as [j|].
    + destruct Hfind as (Hj & Hjn%bool_decide_eq_true & _). split; [|discriminate]. intros H. exfalso. exact (H j Hj Hjn).
    + split; [reflexivity|]. intros _ i Hi. apply (bool_decide_eq_false _), Hfind. lia.
Qed.

Lemma read_dentry_by_name_correct_witness :
  read_dentry_by_name demo_mem demo_fs (Some [97; 0]) =
    Some (SUCCESS, Some (load_dentry demo_mem (entry_addr demo_fs 1))).
Proof.
  destruct (read_dentry_by_name_correct demo_mem demo_fs [97; 0] [97]) as [H _].
  { apply demo_boot_ok. }
  { exists []. split; [done|]. repeat constructor. lia. }
  { done. }
  apply (H 1); clear H.
  - lia.
  - vm_compute. done.
  - intros j Hj. replace j with 0 by lia. vm_compute. done.
Defined.

(** Reading the open directory again and again yields the name of every entry in
    order, each cut to the size of the caller's buffer, then 0; after that the next
    read starts over at the first entry. *)
Theorem dir_read_lists_all m f count :
  0 < count -> curr_file_number f = 0 -> 0 <= NUM_DIR_ENTRIES m f < 2 ^ 32 ->
  dir_reads m (S (Z.to_nat (NUM_DIR_ENTRIES m f))) count f =
  Some (map (fun i => result_of (take (Z.to_nat count) (entry_name m f i)))
          (seqZ 0 (NUM_DIR_ENTRIES m f)) ++ [result_of []], f).
Proof.
  intros Hc Hf Hn. rewrite dir_reads_from by lia. rewrite Hf, Z2Nat.id by lia.
  do 2 f_equal. destruct f. simpl in *. by subst.
Qed.

Lemma dir_read_lists_all_witness :
  dir_reads demo_mem 3 32 demo_fs = Some ([(1, [46]); (1, [97]); (0, [])], demo_fs).
Proof.
  apply (dir_read_lists_all demo_mem demo_fs 32); [lia | done | vm_compute; done].
Defined.

(** [write_dec_to_char] writes the decimal digits of a number that is not negative,
    without leading zeros, at the front of the buffer, returns their count and leaves
    the rest of the buffer alone. *)
Theorem write_dec_to_char_correct num buf :
  0 <= num < 2 ^ 31 -> (11 <= length buf)%nat ->
  exists ds, write_dec_to_char num buf = Some (Z.of_nat (length ds), ds ++ drop (length ds) buf) /\
    Forall (is_digit 10) ds /\ parse_radix 10 ds = num /\ ds <> [] /\
    (num <> 0 -> 10 ^ (Z.of_nat (length ds) - 1) <= num).
Proof. apply write_dec_spec. Qed.

Lemma write_dec_to_char_correct_witness :
  exists ds, write_dec_to_char 4098 (replicate 12 0) = Some (Z.of_nat (length ds), ds ++ drop (length ds) (replicate 12 0)).
Proof.
  destruct (write_dec_to_char_correct 4098 (replicate 12 0)) as (ds & E & _);
    [lia | rewrite length_replicate; lia | by exists ds].
Defined.
