(* ===== verification/Paging.v ===== *)
(** * Paging, [student-distrib/paging.c] and [paging.h]

    Page directories and tables are arrays of 32-bit words whose bit fields the
    code sets one at a time.  The addresses the linker gives the static arrays
    are parameters ([layout]).  The processor's page walk ([translate]) is the
    specification side: it says what a virtual address means in a given state,
    for user and for kernel accesses. *)

From stdpp Require Import base list option.
From Stdlib Require Import ZArith Lia ZifyBool.
From S2P Require Import Prelude.

Definition NUM_ENT : Z := 1024.
Definition NUM_TASKS : Z := 7.
Definition PROTECTED_MASK : Z := 0x00000001.
Definition PAGE_MASK : Z := 0x80000000.
Definition PSE_MASK : Z := 0x00000010.
Definition VID_MEM : Z := 0xb8000.
Definition INACTIVE_VID_MEM : Z := 0xb7000.
Definition TERM1 : Z := 0xb9000.
Definition TERM2 : Z := 0xba000.
Definition TERM3 : Z := 0xbb000.
Definition PAGE_BITS : Z := 12.
Definition TABLE_BITS : Z := 10.
Definition KERNEL_DIR_ENTRY : Z := 1.
Definition USR_DIR_ENTRY : Z := 32.
Definition VIDMEM_DIR_ENTRY : Z := 0.
Definition TEN_MASK : Z := 0x000003ff.
Definition TWELVE_MASK : Z := 0x00000fff.
Definition BIG_MASK : Z := 0x000fffff.
Definition VIDMEM_PAGE_BASE : Z := Z.shiftr VID_MEM PAGE_BITS.
Definition TERM1_TABLE_ENTRY : Z := Z.land (Z.shiftr TERM1 PAGE_BITS) TEN_MASK.
Definition TERM2_TABLE_ENTRY : Z := Z.land (Z.shiftr TERM2 PAGE_BITS) TEN_MASK.
Definition TERM3_TABLE_ENTRY : Z := Z.land (Z.shiftr TERM3 PAGE_BITS) TEN_MASK.
Definition IN_VID_MEM_TABLE_ENTRY : Z := Z.land (Z.shiftr INACTIVE_VID_MEM 12) TEN_MASK.
Definition VIRT_VID_MEM : Z := 0xdeadb000.
Definition VIRT_VIDMEM_DIR_ENTRY : Z := Z.land (Z.shiftr VIRT_VID_MEM 22) TEN_MASK.
Definition VIRT_VIDMEM_TABLE_ENTRY : Z := Z.land (Z.shiftr VIRT_VID_MEM 12) TEN_MASK.

(** ** Entries

    The fields of [page_table_entry_t], [page_dir_entry_small_t] and
    [page_dir_entry_big_t]: first bit and width. *)

Definition field : Type := Z * Z.
Definition getf (f : field) (w : Z) : Z := get_field f.1 f.2 w.
Definition setf (f : field) (v w : Z) : Z := set_field f.1 f.2 v w.

Definition present : field := (0, 1).
Definition read_write : field := (1, 1).
Definition super : field := (2, 1).
Definition page_size : field := (7, 1).
Definition global_page : field := (8, 1).
Definition base_31_12 : field := (12, 20).
Definition base_31_22 : field := (22, 10).

(** ** State *)

(** Where the linker puts the arrays; [process_directories], [page_tables] and
    [vid_tables] have seven elements of 4 kB each. *)
Record layout := Layout {
  dir_addr : Z; table_addr : Z; pd_base : Z; pt_base : Z; vt_base : Z }.

Record paging := Paging {
  dir : list Z; table : list Z; first_dir : list Z; first_table : list Z;
  process_directories : list (list Z);
  page_tables : list (list Z);
  vid_tables : list (list Z);
  cr0 : Z; cr3 : Z; cr4 : Z;
  intr : bool }.

Definition set_cr3 (a : Z) (s : paging) : paging :=
  Paging (dir s) (table s) (first_dir s) (first_table s)
    (process_directories s) (page_tables s) (vid_tables s) (cr0 s) a (cr4 s) (intr s).

Definition set_cr0 (v : Z) (s : paging) : paging :=
  Paging (dir s) (table s) (first_dir s) (first_table s)
    (process_directories s) (page_tables s) (vid_tables s) v (cr3 s) (cr4 s) (intr s).

Definition set_cr4 (v : Z) (s : paging) : paging :=
  Paging (dir s) (table s) (first_dir s) (first_table s)
    (process_directories s) (page_tables s) (vid_tables s) (cr0 s) (cr3 s) v (intr s).

(** [cli()] and [sti()]. *)
Definition set_intr (b : bool) (s : paging) : paging :=
  Paging (dir s) (table s) (first_dir s) (first_table s)
    (process_directories s) (page_tables s) (vid_tables s) (cr0 s) (cr3 s) (cr4 s) b.
Definition cli (s : paging) : paging := set_intr false s.
Definition sti (s : paging) : paging := set_intr true s.

Definition page_enable (s : paging) : paging := set_cr0 (Z.lor (cr0 s) PAGE_MASK) s.
Definition protect_enable (s : paging) : paging := set_cr0 (Z.lor (cr0 s) PROTECTED_MASK) s.
Definition pse_enable (s : paging) : paging := set_cr4 (Z.lor (cr4 s) PSE_MASK) s.

Definition set_dir (d t : list Z) (s : paging) : paging :=
  Paging d t (first_dir s) (first_table s)
    (process_directories s) (page_tables s) (vid_tables s) (cr0 s) (cr3 s) (cr4 s) (intr s).

Definition set_tables (fd ft : list Z) (pds pts vts : list (list Z)) (s : paging) : paging :=
  Paging (dir s) (table s) fd ft pds pts vts (cr0 s) (cr3 s) (cr4 s) (intr s).

(** Read-modify-write of an entry through a pointer to it. *)
Definition upd (l : list Z) (i : Z) (g : Z -> Z) : option (list Z) :=
  e ← l.[i]; l.[i <- g e].

(** [t[j].table[i] = g(t[j].table[i])] *)
Definition upd2 (t : list (list Z)) (j i : Z) (g : Z -> Z) : option (list (list Z)) :=
  l ← t.[j]; l' ← upd l i g; t.[j <- l'].

Section Code.
Context (L : layout).

Definition pd_addr (pid : Z) : Z := pd_base L + 4096 * pid.
Definition pt_addr (pid : Z) : Z := pt_base L + 4096 * pid.
Definition vt_addr (pid : Z) : Z := vt_base L + 4096 * pid.

(** [table[i] = 2; table_entry->r_w = 1; table_entry->base_31_12 = i;] *)
Definition identity_entry (i : Z) (t : list Z) : option (list Z) :=
  t ← upd t i (fun _ => 2);
  t ← upd t i (setf read_write 1);
  upd t i (setf base_31_12 i).

Definition paging_init (s : paging) : option paging :=
  '(d, t) ← for_up (Z.to_nat NUM_ENT) 0 (fun i '(d, t) =>
    d ← upd d i (fun _ => 2);
    t ← identity_entry i t;
    Some (d, t)) (dir s, table s);
  let s := set_cr3 (dir_addr L) (pse_enable (protect_enable s)) in
  d ← upd d VIDMEM_DIR_ENTRY (fun e =>
    setf base_31_12 (Z.shiftr (table_addr L) PAGE_BITS) (setf read_write 1 (setf present 1 e)));
  t ← upd t (Z.shiftr VID_MEM PAGE_BITS) (fun e =>
    setf read_write 1 (setf present 1 (setf super 0 e)));
  t ← upd t IN_VID_MEM_TABLE_ENTRY (fun e =>
    setf base_31_12 VIDMEM_PAGE_BASE (setf read_write 1 (setf present 1 (setf super 0 e))));
  d ← upd d KERNEL_DIR_ENTRY (fun e =>
    setf present 1 (setf read_write 1 (setf super 0 (setf page_size 1 (setf base_31_22 1 e)))));
  Some (set_dir d t s).

(** The body of the first loop nest of [new_init], for task [j] and entry [i]. *)
Definition clear_entry (j i : Z) (s : paging) : option paging :=
  fd ← upd (first_dir s) i (fun _ => 2);
  ft ← upd (first_table s) i (fun _ => 2);
  pds ← upd2 (process_directories s) j i (fun _ => 2);
  pts ← upd2 (page_tables s) j i (fun _ => 2);
  pts ← upd2 pts j i (setf read_write 1);
  pts ← upd2 pts j i (setf base_31_12 i);
  vts ← upd2 (vid_tables s) j i (fun _ => 2);
  Some (set_tables fd ft pds pts vts s).

(** The body of its second loop, which sets up the tables of process [pid]. *)
Definition setup_process (pid : Z) (s : paging) : option paging :=
  pds ← upd2 (process_directories s) pid VIDMEM_DIR_ENTRY (fun e =>
    setf base_31_12 (Z.shiftr (pt_addr pid) PAGE_BITS) (setf read_write 1 (setf present 1 e)));
  pts ← upd2 (page_tables s) pid (Z.shiftr VID_MEM PAGE_BITS) (fun e =>
    let e := if (pid <? 3) && (0 <? pid) then setf base_31_12 (VIDMEM_PAGE_BASE + pid + 1) e else e in
    setf read_write 1 (setf present 1 (setf super 0 e)));
  pts ← upd2 pts pid IN_VID_MEM_TABLE_ENTRY (fun e =>
    setf base_31_12 VIDMEM_PAGE_BASE (setf read_write 1 (setf present 1 (setf super 0 e))));
  pts ← upd2 pts pid TERM1_TABLE_ENTRY (fun e => setf read_write 1 (setf super 0 (setf present 1 e)));
  pts ← upd2 pts pid TERM2_TABLE_ENTRY (fun e => setf read_write 1 (setf super 0 (setf present 1 e)));
  pts ← upd2 pts pid TERM3_TABLE_ENTRY (fun e => setf present 1 (setf super 0 (setf read_write 1 e)));
  pds ← upd2 pds pid KERNEL_DIR_ENTRY (fun e =>
    setf present 1 (setf read_write 1 (setf super 0 (setf page_size 1 (setf base_31_22 1 e)))));
  pds ← upd2 pds pid USR_DIR_ENTRY (fun e =>
    setf present 1 (setf read_write 1 (setf super 1 (setf page_size 1 (setf base_31_22 (2 + pid) e)))));
  pds ← upd2 pds pid VIRT_VIDMEM_DIR_ENTRY (fun e =>
    setf global_page 1 (setf super 1 (setf page_size 0
      (setf base_31_12 (Z.shiftr (vt_addr pid) PAGE_BITS) (setf read_write 1 (setf present 0 e))))));
  vts ← upd2 (vid_tables s) pid VIRT_VIDMEM_TABLE_ENTRY (fun e =>
    setf base_31_12 (Z.land (Z.shiftr VID_MEM PAGE_BITS) BIG_MASK)
      (setf read_write 1 (setf present 0 (setf super 1 e))));
  Some (set_tables (first_dir s) (first_table s) pds pts vts s).

Definition new_init (s : paging) : option paging :=
  s ← for_up (Z.to_nat NUM_TASKS) 0 (fun j s =>
        for_up (Z.to_nat NUM_ENT) 0 (fun i s => clear_entry j i s) s) s;
  s ← paging_init s;
  s ← for_up (Z.to_nat NUM_TASKS) 0 setup_process s;
  Some (page_enable s).

Definition paging_init_per_process (pid : Z) (s : paging) : option (Z * paging) :=
  pd ← (process_directories s).[pid];
  e ← pd.[USR_DIR_ENTRY];
  if getf present e =? 0 then
    pds ← upd2 (process_directories s) pid USR_DIR_ENTRY (fun e =>
      setf present 1 (setf read_write 1 (setf super 0 (setf page_size 1 (setf base_31_22 (1 + pid) e)))));
    Some (0, set_cr3 (pd_addr pid)
               (set_tables (first_dir s) (first_table s) pds (page_tables s) (vid_tables s) s))
  else Some (-1, s).

(** The pointer into the array is not null; the pid is not checked. *)
Definition switch_paging (pid : Z) (s : paging) : option (Z * paging) :=
  let s := cli s in
  _ ← (process_directories s).[pid];
  Some (0, sti (set_cr3 (pd_addr pid) s)).

Definition new_paging (pid parent_pid : Z) (s : paging) : option (Z * paging) :=
  let s := cli s in
  _ ← (process_directories s).[pid];
  parent_pt ← (page_tables s).[parent_pid];
  e ← parent_pt.[VIDMEM_PAGE_BASE];
  pts ← upd2 (page_tables s) pid VIDMEM_PAGE_BASE (fun _ => e);
  let s := set_tables (first_dir s) (first_table s) (process_directories s) pts (vid_tables s) s in
  Some (0, sti (set_cr3 (pd_addr pid) s)).

Definition get_dir_entry (vaddr : Z) : Z := Z.land (Z.shiftr vaddr (PAGE_BITS + TABLE_BITS)) TEN_MASK.
Definition get_table_entry (vaddr : Z) : Z := Z.land (Z.shiftr vaddr PAGE_BITS) TEN_MASK.
Definition get_page_offset_small (vaddr : Z) : Z := Z.land vaddr TWELVE_MASK.
Definition get_page_offset_big (vaddr : Z) : Z := Z.land vaddr BIG_MASK.

Definition address_mapped (vaddr pid : Z) (s : paging) : option Z :=
  let dir_entry := get_dir_entry vaddr in
  pd ← (process_directories s).[pid];
  e ← pd.[dir_entry];
  Some (if getf present e =? 1 then ERROR else 0).

Definition address_in_user (vaddr pid : Z) : Z :=
  if pid <? 0 then ERROR
  else if negb (get_dir_entry vaddr =? USR_DIR_ENTRY) then ERROR
  else 0.

Definition map_vid_memory (pid : Z) (s : paging) : option (Z * paging) :=
  if pid <? 0 then Some (ERROR, s)
  else
    vts ← upd2 (vid_tables s) pid VIRT_VIDMEM_TABLE_ENTRY (setf present 1);
    pds ← upd2 (process_directories s) pid VIRT_VIDMEM_DIR_ENTRY (setf present 1);
    Some (0, set_cr3 (pd_addr pid)
               (set_tables (first_dir s) (first_table s) pds (page_tables s) vts s)).

Definition unmap_vid_memory (pid : Z) (s : paging) : option (Z * paging) :=
  if pid <? 0 then Some (ERROR, s)
  else
    pds ← upd2 (process_directories s) pid VIRT_VIDMEM_DIR_ENTRY (setf present 0);
    vts ← upd2 (vid_tables s) pid VIRT_VIDMEM_TABLE_ENTRY (setf present 0);
    Some (0, set_tables (first_dir s) (first_table s) pds (page_tables s) vts s).

Definition set_video_base (pid v : Z) (s : paging) : option (Z * paging) :=
  pts ← upd2 (page_tables s) pid VIDMEM_PAGE_BASE (setf base_31_12 v);
  vts ← upd2 (vid_tables s) pid VIRT_VIDMEM_TABLE_ENTRY (setf base_31_12 v);
  Some (0, set_tables (first_dir s) (first_table s) (process_directories s) pts vts s).

Definition switch_vid_mem_out (pid term curr_pid : Z) (s : paging) : option (Z * paging) :=
  set_video_base pid (VIDMEM_PAGE_BASE + term + 1) s.

Definition switch_vid_mem_in (pid curr_pid : Z) (s : paging) : option (Z * paging) :=
  set_video_base pid VIDMEM_PAGE_BASE s.

Definition get_process_directory (pid : Z) : Z := pd_addr pid.
Definition get_page_table (pid : Z) : Z := pt_addr pid.

(** ** The processor's page walk *)

(** The array at a physical address, which is also its virtual one: the kernel's
    4 MB page is mapped to itself. *)
Definition table_at (s : paging) (a : Z) : option (list Z) :=
  if (pd_base L <=? a) && (a <? pd_base L + 4096 * NUM_TASKS) then (process_directories s).[(a - pd_base L) / 4096]
  else if (pt_base L <=? a) && (a <? pt_base L + 4096 * NUM_TASKS) then (page_tables s).[(a - pt_base L) / 4096]
  else if (vt_base L <=? a) && (a <? vt_base L + 4096 * NUM_TASKS) then (vid_tables s).[(a - vt_base L) / 4096]
  else if a =? dir_addr L then Some (dir s)
  else if a =? table_addr L then Some (table s)
  else None.

(** Rights of an entry: present, and open to user code for a user access. *)
Definition allows (user : bool) (e : Z) : bool :=
  (getf present e =? 1) && (negb user || (getf super e =? 1)).

(** The physical address an access at virtual address [va] reaches, [None] for a
    page fault. *)
Definition translate (s : paging) (user : bool) (va : Z) : option Z :=
  if negb (Z.testbit (cr0 s) 31) then Some va
  else
    pd ← table_at s (cr3 s / 4096 * 4096);
    e ← pd.[va / 2 ^ 22];
    if negb (allows user e) then None
    else if Z.testbit (cr4 s) 4 && (getf page_size e =? 1) then
      Some (getf base_31_22 e * 2 ^ 22 + va mod 2 ^ 22)
    else
      pt ← table_at s (getf base_31_12 e * 2 ^ 12);
      e ← pt.[va / 2 ^ 12 mod 2 ^ 10];
      if negb (allows user e) then None
      else Some (getf base_31_12 e * 2 ^ 12 + va mod 2 ^ 12).

End Code.

(** ** Invariant *)

(** The linker aligns the arrays and keeps them apart, inside the kernel's page. *)
Definition region_apart (a n b k : Z) : Prop := a + n <= b \/ b + k <= a.

Record layout_ok (L : layout) : Prop := {
  pd_aligned : pd_base L mod 4096 = 0;
  pt_aligned : pt_base L mod 4096 = 0;
  vt_aligned : vt_base L mod 4096 = 0;
  pd_in_kernel : 0x400000 <= pd_base L /\ pd_base L + 7 * 4096 <= 0x800000;
  pt_in_kernel : 0x400000 <= pt_base L /\ pt_base L + 7 * 4096 <= 0x800000;
  vt_in_kernel : 0x400000 <= vt_base L /\ vt_base L + 7 * 4096 <= 0x800000;
  pd_pt_apart : region_apart (pd_base L) (7 * 4096) (pt_base L) (7 * 4096);
  pd_vt_apart : region_apart (pd_base L) (7 * 4096) (vt_base L) (7 * 4096);
  pt_vt_apart : region_apart (pt_base L) (7 * 4096) (vt_base L) (7 * 4096) }.

Definition ent (l : list Z) (i : Z) : Z := default 0 (l.[i]).
Definition ent2 (t : list (list Z)) (j i : Z) : Z := ent (default [] (t.[j])) i.

Definition sized (l : list Z) : Prop := Z.of_nat (length l) = 1024.
Definition sized2 (t : list (list Z)) : Prop := Z.of_nat (length t) = 7 /\ Forall sized t.

Record paging_sized (s : paging) : Prop := {
  dir_sized : sized (dir s);
  table_sized : sized (table s);
  fd_sized : sized (first_dir s);
  ft_sized : sized (first_table s);
  pds_sized : sized2 (process_directories s);
  pts_sized : sized2 (page_tables s);
  vts_sized : sized2 (vid_tables s) }.

(** A directory entry for a 4 kB table, one for a 4 MB page, and a table entry. *)
Definition small_entry (e us base : Z) : Prop :=
  getf super e = us /\ getf page_size e = 0 /\ getf base_31_12 e = base.
Definition big_entry (e us base : Z) : Prop :=
  getf present e = 1 /\ getf super e = us /\ getf page_size e = 1 /\ getf base_31_22 e = base.
Definition page_entry (e base : Z) : Prop := getf present e = 1 /\ getf base_31_12 e = base.

(** The frames of the screen and of the three terminals' backing pages. *)
Definition video_frame (b : Z) : Prop := 0xb8 <= b <= 0xbb.

(** The tables of process [pid], whose directory words are [pd], ... *)
Record process_ok (L : layout) (pid : Z) (pd pt vt : Z -> Z) : Prop := {
  low_present : getf present (pd 0) = 1;
  low_entry : small_entry (pd 0) 0 (pt_addr L pid / 4096);
  kernel_entry : big_entry (pd 1) 0 1;
  user_entry : big_entry (pd 32) 1 (2 + pid);
  video_dir_entry : small_entry (pd 890) 1 (vt_addr L pid / 4096);
  other_dirs : forall i, 0 <= i < 1024 -> i <> 0 -> i <> 1 -> i <> 32 -> i <> 890 ->
    getf present (pd i) = 0;
  screen_entry : page_entry (pt 0xb7) 0xb8;
  active_entry : exists b, video_frame b /\ page_entry (pt 0xb8) b;
  term_entries : forall i, 0xb9 <= i <= 0xbb -> page_entry (pt i) i;
  other_pages : forall i, 0 <= i < 1024 -> ~ 0xb7 <= i <= 0xbb -> getf present (pt i) = 0;
  video_page : getf super (vt 731) = 1 /\ video_frame (getf base_31_12 (vt 731));
  other_videos : forall i, 0 <= i < 1024 -> i <> 731 -> getf present (vt i) = 0 }.

Definition paging_ok (L : layout) (s : paging) : Prop :=
  paging_sized s /\ Z.testbit (cr0 s) 31 = true /\ Z.testbit (cr4 s) 4 = true /\
  forall pid, 0 <= pid < 7 ->
    process_ok L pid (ent2 (process_directories s) pid) (ent2 (page_tables s) pid) (ent2 (vid_tables s) pid).

(** ** Lemmas on entries *)

Definition apart (f g : field) : bool :=
  (0 <=? f.1) && (0 <=? f.2) && (0 <=? g.1) && (0 <=? g.2) &&
  ((f.1 + f.2 <=? g.1) || (g.1 + g.2 <=? f.1)).

Lemma getf_same f v w : (0 <=? f.1) && (0 <=? f.2) = true -> getf f (setf f v w) = v mod 2 ^ f.2.
Proof. intros. bsplit. apply get_set_field_same; lia. Qed.

Lemma getf_other f g v w : apart f g = true -> getf f (setf g v w) = getf f w.
Proof. unfold apart. intros. apply get_set_field_other; lia. Qed.

(** Read fields of an entry that a series of assignments built. *)
Ltac fields :=
  repeat first [ rewrite getf_same by reflexivity | rewrite getf_other by reflexivity ].

Lemma upd_ok l i g :
  sized l -> 0 <= i < 1024 ->
  exists l', upd l i g = Some l' /\ sized l' /\
    forall i', ent l' i' = if i' =? i then g (ent l i) else ent l i'.
Proof.
  intros Hl Hi. unfold upd, sized in *. destruct (zget_ex l i) as [e He]; [lia|]. rewrite He. bind.
  rewrite zset_in by lia. eexists. split; [done|]. split; [by rewrite length_insert|].
  intros i'. unfold ent at 1. rewrite (zget_zset l _ i i' (g e)) by (rewrite zset_in by lia; done).
  unfold ent. rewrite He. by destruct (i' =? i).
Qed.

Lemma upd2_ok t j i g :
  sized2 t -> 0 <= j < 7 -> 0 <= i < 1024 ->
  exists t', upd2 t j i g = Some t' /\ sized2 t' /\
    forall j' i', ent2 t' j' i' = if (j' =? j) && (i' =? i) then g (ent2 t j i) else ent2 t j' i'.
Proof.
  intros [Ht Hs] Hj Hi. unfold upd2. destruct (zget_ex t j) as [l Hl]; [lia|]. rewrite Hl. bind.
  assert (sized l) as Hsl.
  { rewrite zget_lookup in Hl by lia. exact (Forall_lookup_1 _ _ _ _ Hs Hl). }
  destruct (upd_ok l i g Hsl Hi) as (l' & E & Hsl' & Hent). rewrite E. bind.
  destruct (t.[j <- l']) as [t'|] eqn:Et; [|by rewrite zset_in in Et by lia].
  exists t'. split; [done|]. split.
  - split; [by rewrite (zset_length _ _ _ _ Et)|]. apply zset_Some in Et as [_ ->]. by apply Forall_insert.
  - intros j' i'. unfold ent2. rewrite (zget_zset _ _ _ j' _ Et), Hl.
    destruct (j' =? j) eqn:Ej; [|done]. simpl. rewrite Hent.
    destruct (i' =? i); [done|]. bsplit. subst. by rewrite Hl.
Qed.

Ltac in_range := solve [ lia | vm_compute; split; [ discriminate | reflexivity ] ].

(** Run the next assignment to an entry. *)
Ltac entry_step :=
  match goal with
  | |- context [upd2 ?t ?j ?i ?g] =>
      let t' := fresh "t" in let E := fresh "E" in let S := fresh "Hs" in let V := fresh "Hv" in
      destruct (upd2_ok t j i g) as (t' & E & S & V); [ assumption | in_range | in_range |];
      rewrite E; clear E; bind
  | |- context [upd ?l ?i ?g] =>
      let t' := fresh "l" in let E := fresh "E" in let S := fresh "Hs" in let V := fresh "Hv" in
      destruct (upd_ok l i g) as (t' & E & S & V); [ assumption | in_range |];
      rewrite E; clear E; bind
  end.

(** Read entries back through the assignments run so far. *)
Ltac views :=
  repeat match goal with
  | H : (forall _ _, ent2 ?t _ _ = _) |- context [ent2 ?t _ _] => is_var t; rewrite H
  end.

Ltac tables := cbn [process_directories page_tables vid_tables first_dir first_table cr0 cr3 cr4
  set_tables set_cr3 set_intr cli sti].

(** The indices of the code as literals. *)
Ltac literals :=
  change VIRT_VIDMEM_DIR_ENTRY with 890 in *; change VIRT_VIDMEM_TABLE_ENTRY with 731 in *;
  change VIDMEM_PAGE_BASE with 0xb8 in *; change (Z.shiftr VID_MEM PAGE_BITS) with 0xb8 in *;
  change IN_VID_MEM_TABLE_ENTRY with 0xb7 in *; change TERM1_TABLE_ENTRY with 0xb9 in *;
  change TERM2_TABLE_ENTRY with 0xba in *; change TERM3_TABLE_ENTRY with 0xbb in *;
  change VIDMEM_DIR_ENTRY with 0 in *; change KERNEL_DIR_ENTRY with 1 in *;
  change USR_DIR_ENTRY with 32 in *; change (Z.land 0xb8 BIG_MASK) with 0xb8 in *.

(** Decide the tests between indices that arithmetic settles. *)
Ltac indices :=
  repeat match goal with
  | |- context [?a =? ?b] => first [ btrue (a =? b) | bfalse (a =? b) ]
  end; cbn [andb].

Lemma process_ok_ext L pid pd pt vt pd' pt' vt' :
  (forall i, pd' i = pd i) -> (forall i, pt' i = pt i) -> (forall i, vt' i = vt i) ->
  process_ok L pid pd pt vt -> process_ok L pid pd' pt' vt'.
Proof.
  intros Hpd Hpt Hvt []. split; repeat setoid_rewrite Hpd; repeat setoid_rewrite Hpt;
    repeat setoid_rewrite Hvt; assumption.
Qed.

(** Entry [k] of a table replaced. *)
Definition put (t : Z -> Z) (k e : Z) : Z -> Z := fun i => if i =? k then e else t i.

Lemma base_small b : 0 <= b < 2 ^ 20 -> b mod 2 ^ (base_31_12).2 = b.
Proof. intros. by apply Z.mod_small. Qed.

Ltac put_cases := unfold put in *; intros; indices; fields.

Lemma process_ok_video_present L pid pd pt vt v :
  process_ok L pid pd pt vt ->
  process_ok L pid (put pd 890 (setf present v (pd 890))) pt (put vt 731 (setf present v (vt 731))).
Proof.
  intros []. split; try assumption; unfold small_entry, big_entry in *; put_cases; auto.
Qed.

Lemma process_ok_video_base L pid pd pt vt b :
  video_frame b -> process_ok L pid pd pt vt ->
  process_ok L pid pd (put pt 0xb8 (setf base_31_12 b (pt 0xb8))) (put vt 731 (setf base_31_12 b (vt 731))).
Proof.
  unfold video_frame. intros Hb []. destruct video_page0, active_entry0 as (b' & ? & ?).
  split; try assumption; unfold page_entry in *; put_cases; auto.
  - exists b. split; [done|]. split; [tauto|]. apply base_small. lia.
  - rewrite base_small by lia. done.
Qed.

Lemma process_ok_copy L pid pd pt vt e :
  (exists b, video_frame b /\ page_entry e b) -> process_ok L pid pd pt vt ->
  process_ok L pid pd (put pt 0xb8 e) vt.
Proof.
  intros He []. split; try assumption; put_cases; auto.
Qed.

(** ** The operations preserve the invariant *)

Inductive op :=
  | SwitchPaging (pid : Z)
  | NewPaging (pid parent_pid : Z)
  | InitPerProcess (pid : Z)
  | MapVid (pid : Z)
  | UnmapVid (pid : Z)
  | VidOut (pid term curr_pid : Z)
  | VidIn (pid curr_pid : Z).

Definition exec (L : layout) (o : op) (s : paging) : option (Z * paging) :=
  match o with
  | SwitchPaging pid => switch_paging L pid s
  | NewPaging pid parent_pid => new_paging L pid parent_pid s
  | InitPerProcess pid => paging_init_per_process L pid s
  | MapVid pid => map_vid_memory L pid s
  | UnmapVid pid => unmap_vid_memory pid s
  | VidOut pid term curr_pid => switch_vid_mem_out pid term curr_pid s
  | VidIn pid curr_pid => switch_vid_mem_in pid curr_pid s
  end.

Fixpoint run_ops (L : layout) (os : list op) (s : paging) : option paging :=
  match os with
  | [] => Some s
  | o :: os' => '(_, s') ← exec L o s; run_ops L os' s'
  end.

(** Process numbers of the seven tasks and numbers of the three terminals. *)
Definition pid_ok (pid : Z) : Prop := 0 <= pid < 7.
Definition op_ok (o : op) : Prop :=
  match o with
  | SwitchPaging pid | InitPerProcess pid | MapVid pid | UnmapVid pid | VidIn pid _ => pid_ok pid
  | NewPaging pid parent_pid => pid_ok pid /\ pid_ok parent_pid
  | VidOut pid term _ => pid_ok pid /\ 0 <= term < 3
  end.

(** A state that differs in the tables of [pid] only. *)
Lemma paging_ok_update L s s' pid :
  paging_ok L s -> paging_sized s' -> cr0 s' = cr0 s -> cr4 s' = cr4 s ->
  (forall p i, p <> pid -> ent2 (process_directories s') p i = ent2 (process_directories s) p i /\
     ent2 (page_tables s') p i = ent2 (page_tables s) p i /\
     ent2 (vid_tables s') p i = ent2 (vid_tables s) p i) ->
  (pid_ok pid -> process_ok L pid (ent2 (process_directories s') pid) (ent2 (page_tables s') pid)
     (ent2 (vid_tables s') pid)) ->
  paging_ok L s'.
Proof.
  intros (Hs & H0 & H4 & Hp) Hs' E0 E4 Hother Hpid. split_and!; [done | congruence | congruence |].
  intros p Hrange. destruct (decide (p = pid)) as [->|Hne]; [by apply Hpid|].
  apply (process_ok_ext L p (ent2 (process_directories s) p) (ent2 (page_tables s) p) (ent2 (vid_tables s) p));
    [ intros i; apply (Hother p i Hne) .. | by apply Hp].
Qed.

Lemma paging_ok_cr3 L a s : paging_ok L s -> paging_ok L (set_cr3 a s).
Proof. intros (Hs & H0 & H4 & Hp). split_and!; try done. by destruct Hs. Qed.

Lemma paging_ok_intr L b s : paging_ok L s -> paging_ok L (set_intr b s).
Proof. intros (Hs & H0 & H4 & Hp). split_and!; try done. by destruct Hs. Qed.

#[export] Hint Resolve paging_ok_cr3 paging_ok_intr : galapagos.

Lemma sized2_get t j : sized2 t -> pid_ok j -> exists l, t.[j] = Some l /\ sized l.
Proof.
  unfold pid_ok. intros [Ht Hs] Hj. destruct (zget_ex t j) as [l Hl]; [lia|]. exists l. split; [done|].
  rewrite zget_lookup in Hl by lia. exact (Forall_lookup_1 _ _ _ _ Hs Hl).
Qed.

Lemma sized_get l i : sized l -> 0 <= i < 1024 -> l.[i] = Some (ent l i).
Proof. unfold sized, ent. intros Hl Hi. destruct (zget_ex l i) as [e He]; [lia|]. by rewrite He. Qed.

(** Where the code reads a table entry through two indices. *)
Lemma ent2_get t j l i : t.[j] = Some l -> ent2 t j i = ent l i.
Proof. intros Hl. unfold ent2. by rewrite Hl. Qed.

Lemma map_video_ok L s pid v :
  pid_ok pid -> paging_ok L s ->
  exists vts pds,
    upd2 (vid_tables s) pid 731 (setf present v) = Some vts /\
    upd2 (process_directories s) pid 890 (setf present v) = Some pds /\
    paging_ok L (set_tables (first_dir s) (first_table s) pds (page_tables s) vts s).
Proof.
  unfold pid_ok. intros Hpid Hok. pose proof Hok as ([] & _ & _ & Hp).
  destruct (upd2_ok (vid_tables s) pid 731 (setf present v)) as (vts & E1 & Hs1 & Hv1); [done | lia | lia |].
  destruct (upd2_ok (process_directories s) pid 890 (setf present v)) as (pds & E2 & Hs2 & Hv2);
    [done | lia | lia |].
  exists vts, pds. split_and!; [done | done |].
  apply (paging_ok_update L s _ pid); [done | by split | done | done | | intros _]; cbn.
  - intros p i Hne. views. indices. done.
  - eapply process_ok_ext, (process_ok_video_present L pid _ _ _ v (Hp pid Hpid)); unfold put;
      intros i; rewrite ?Hv1, ?Hv2, ?Z.eqb_refl; done.
Qed.

Lemma set_video_base_ok L s pid b :
  pid_ok pid -> video_frame b -> paging_ok L s ->
  exists s', set_video_base pid b s = Some (0, s') /\ cr3 s' = cr3 s /\ paging_ok L s'.
Proof.
  unfold pid_ok. intros Hpid Hb Hok. pose proof Hok as ([] & _ & _ & Hp). unfold set_video_base. literals.
  do 2 entry_step. eexists. split_and!; [done | done |].
  apply (paging_ok_update L s _ pid); [done | by split | done | done | | intros _]; cbn.
  - intros p i Hne. views. indices. done.
  - eapply process_ok_ext, (process_ok_video_base L pid _ _ _ b Hb (Hp pid Hpid)); unfold put;
      intros i; rewrite ?Hv, ?Hv0, ?Z.eqb_refl; done.
Qed.

Lemma switch_paging_ok L s pid :
  pid_ok pid -> paging_ok L s ->
  exists s', switch_paging L pid s = Some (0, s') /\ cr3 s' = pd_addr L pid /\ paging_ok L s'.
Proof.
  intros Hpid Hok. destruct (Hok) as ([] & _). unfold switch_paging, cli, sti. cbv zeta.
  change (process_directories (set_intr false s)) with (process_directories s).
  destruct (sized2_get _ pid pds_sized0 Hpid) as (pd & -> & _). bind. eexists.
  split_and!; [done | done |]. auto with galapagos.
Qed.

Lemma new_paging_ok L s pid parent :
  pid_ok pid -> pid_ok parent -> paging_ok L s ->
  exists s', new_paging L pid parent s = Some (0, s') /\ cr3 s' = pd_addr L pid /\ paging_ok L s'.
Proof.
  intros Hpid Hparent Hok. pose proof Hok as ([] & _ & _ & Hp). unfold new_paging. cbn [cli set_intr process_directories page_tables vid_tables first_dir first_table].
  destruct (sized2_get _ pid pds_sized0 Hpid) as (pd & -> & _). bind.
  destruct (sized2_get _ parent pts_sized0 Hparent) as (pt & Ept & Hpt). rewrite Ept. bind. literals.
  rewrite sized_get by (done || lia). bind. unfold pid_ok in *. entry_step.
  eexists. split_and!; [done | done |].
  apply (paging_ok_update L s _ pid); [done | by split | done | done | | intros _]; cbn.
  - intros p i Hne. views. indices. done.
  - eapply process_ok_ext, (process_ok_copy L pid _ _ _ (ent pt 0xb8)); [done | | done | | by apply Hp].
    + intros i. unfold put. rewrite Hv, Z.eqb_refl. done.
    + rewrite <- (ent2_get _ _ _ _ Ept). apply (active_entry _ _ _ _ _ (Hp parent Hparent)).
Qed.

Lemma init_per_process_dead L s pid :
  pid_ok pid -> paging_ok L s -> paging_init_per_process L pid s = Some (-1, s).
Proof.
  intros Hpid ([] & _ & _ & Hp). unfold paging_init_per_process. literals.
  destruct (sized2_get _ pid pds_sized0 Hpid) as (pd & Epd & Hpd). rewrite Epd. bind.
  rewrite sized_get by (done || lia). bind. rewrite <- (ent2_get _ _ _ _ Epd).
  destruct (user_entry _ _ _ _ _ (Hp pid Hpid)) as [-> _]. done.
Qed.

Lemma set_video_base_words L s s' pid b :
  paging_ok L s -> pid_ok pid -> set_video_base pid b s = Some (0, s') ->
  forall q, ent2 (process_directories s') q 890 = ent2 (process_directories s) q 890 /\
    ent2 (page_tables s') q 0xb8 =
      (if q =? pid then setf base_31_12 b (ent2 (page_tables s) pid 0xb8) else ent2 (page_tables s) q 0xb8) /\
    ent2 (vid_tables s') q 731 =
      (if q =? pid then setf base_31_12 b (ent2 (vid_tables s) pid 731) else ent2 (vid_tables s) q 731).
Proof.
  intros ([] & _) Hpid E q. unfold set_video_base in E. literals. unfold pid_ok in Hpid. revert E.
  do 2 entry_step. intros [= <-]. tables. views. by rewrite ?Z.eqb_refl, ?andb_true_r.
Qed.


Lemma new_paging_words L s s' pid parent :
  paging_ok L s -> pid_ok pid -> pid_ok parent -> new_paging L pid parent s = Some (0, s') ->
  ent2 (page_tables s') pid 0xb8 = ent2 (page_tables s) parent 0xb8 /\ vid_tables s' = vid_tables s /\
  process_directories s' = process_directories s.
Proof.
  intros ([] & _) Hpid Hpar. unfold new_paging. cbv zeta. tables. literals.
  destruct (sized2_get _ pid pds_sized0 Hpid) as (pd & -> & _). bind.
  destruct (sized2_get _ parent pts_sized0 Hpar) as (pt & Ept & Hpt). rewrite Ept. bind.
  rewrite sized_get by (done || lia). bind. unfold pid_ok in *. entry_step. intros [= <-]. tables. views.
  rewrite !Z.eqb_refl. cbn [andb]. by rewrite (ent2_get _ _ _ _ Ept).
Qed.


(** Every operation succeeds, apart from the second initialisation of a
    directory, and keeps the invariant. *)
Lemma exec_ok L o s :
  op_ok o -> paging_ok L s -> exists ret s', exec L o s = Some (ret, s') /\ paging_ok L s'.
Proof.
  intros Ho Hok. destruct o; cbn [op_ok exec] in *.
  - destruct (switch_paging_ok L s pid Ho Hok) as (s' & E & _ & H). eauto.
  - destruct Ho as [H1 H2]. destruct (new_paging_ok L s _ _ H1 H2 Hok) as (s' & E & _ & H). eauto.
  - rewrite init_per_process_dead by done. eauto.
  - destruct (map_video_ok L s pid 1 Ho Hok) as (vts & pds & E1 & E2 & H). unfold map_vid_memory. literals.
    unfold pid_ok in Ho. bfalse (pid <? 0). rewrite E1. bind. rewrite E2. bind. eexists _, _. split; [done|].
    auto with galapagos.
  - destruct (map_video_ok L s pid 0 Ho Hok) as (vts & pds & E1 & E2 & H). unfold unmap_vid_memory. literals.
    unfold pid_ok in Ho. bfalse (pid <? 0). rewrite E2. bind. rewrite E1. bind. eexists _, _. split; [done|].
    auto with galapagos.
  - destruct Ho as [H1 H2]. destruct (set_video_base_ok L s pid (0xb8 + term + 1) H1) as (s' & E & _ & H);
      [unfold video_frame; lia | done | eauto].
  - destruct (set_video_base_ok L s pid 0xb8 Ho) as (s' & E & _ & H); [unfold video_frame; lia | done | eauto].
Qed.

Lemma run_ops_ok L os s :
  Forall op_ok os -> paging_ok L s -> exists s', run_ops L os s = Some s' /\ paging_ok L s'.
Proof.
  intros Hos. revert s. induction Hos as [|o os Ho _ IH]; intros s Hok; cbn [run_ops]; [eauto|].
  destruct (exec_ok L o s Ho Hok) as (ret & s1 & -> & H1). bind. auto.
Qed.

(** ** Initialisation *)

Definition cleared (s : paging) (p k : Z) : Prop :=
  ent2 (process_directories s) p k = 2 /\
  ent2 (page_tables s) p k = setf base_31_12 k (setf read_write 1 2) /\
  ent2 (vid_tables s) p k = 2.

Definition cleared_upto (j i : Z) (s : paging) : Prop :=
  paging_sized s /\
  forall p k, 0 <= p -> 0 <= k < 1024 -> p < j \/ (p = j /\ k < i) -> cleared s p k.

Lemma clear_entry_ok j i s :
  0 <= j < 7 -> 0 <= i < 1024 -> cleared_upto j i s ->
  exists s', clear_entry j i s = Some s' /\ cleared_upto j (i + 1) s'.
Proof.
  intros Hj Hi [[] Hc]. unfold clear_entry. do 7 entry_step.
  eexists. split; [done|]. split; [by split|].
  intros p k Hp Hk Hpk. unfold cleared. cbn. views.
  destruct (Z.eqb_spec p j) as [->|Hne]; cbn [andb].
  - destruct (Z.eqb_spec k i) as [->|Hki]; cbn [andb].
    + by rewrite !Z.eqb_refl.
    + rewrite ?andb_false_r. apply (Hc j k); lia.
  - apply (Hc p k); lia.
Qed.

Lemma clear_loop_ok s :
  paging_sized s ->
  exists s', for_up (Z.to_nat NUM_TASKS) 0 (fun j s =>
        for_up (Z.to_nat NUM_ENT) 0 (fun i s => clear_entry j i s) s) s = Some s' /\
    cleared_upto 7 0 s'.
Proof.
  intros Hs. apply (for_up_inv (fun j s => cleared_upto j 0 s)).
  - split; [done|]. intros; lia.
  - intros j s1 Hj Hc. change (Z.of_nat (Z.to_nat NUM_TASKS)) with 7 in Hj.
    destruct (for_up_inv (fun i s => cleared_upto j i s) (Z.to_nat NUM_ENT) 0
      (fun i s => clear_entry j i s) s1 Hc) as (s2 & E & [Hs2 Hc2]).
    + intros i s2 Hi Hc2. apply clear_entry_ok; [lia | exact Hi | done].
    + exists s2. split; [done|]. split; [done|]. intros p k Hp Hk Hpk.
      change (0 + Z.of_nat (Z.to_nat NUM_ENT)) with 1024 in Hc2. apply Hc2; lia.
Qed.

Lemma lor_bit v m b : 0 <= b -> Z.testbit m b = true -> Z.testbit (Z.lor v m) b = true.
Proof. intros Hb Hm. by rewrite Z.lor_spec, Hm, orb_true_r. Qed.

Lemma paging_init_ok L s :
  paging_sized s ->
  exists s', paging_init L s = Some s' /\ paging_sized s' /\ Z.testbit (cr4 s') 4 = true /\
    cr3 s' = dir_addr L /\ process_directories s' = process_directories s /\
    page_tables s' = page_tables s /\ vid_tables s' = vid_tables s /\ big_entry (ent (dir s') 1) 0 1.
Proof.
  intros []. unfold paging_init.
  destruct (for_up_inv (fun _ '(d, t) => sized d /\ sized t) (Z.to_nat NUM_ENT) 0
    (fun i '(d, t) => d ← upd d i (fun _ => 2); t ← identity_entry i t; Some (d, t))
    (dir s, table s)) as ([d t] & E & [Hd Ht]); [done | |].
  { intros i [d t] Hi [Hd Ht]. change (0 + Z.of_nat (Z.to_nat NUM_ENT)) with 1024 in Hi.
    unfold identity_entry. do 4 entry_step. by eexists (_, _). }
  rewrite E. bind. literals. do 4 entry_step.
  eexists. split_and!; try done; [by apply lor_bit|]. cbn [dir set_dir].
  repeat match goal with H : (forall _, ent ?l _ = _) |- context [ent ?l _] => is_var l; rewrite H end.
  cbn [Z.eqb Pos.eqb]. unfold big_entry. fields. done.
Qed.

Definition inited_upto (L : layout) (n : Z) (s : paging) : Prop :=
  paging_sized s /\ Z.testbit (cr4 s) 4 = true /\
  (forall p, 0 <= p < n -> process_ok L p (ent2 (process_directories s) p)
     (ent2 (page_tables s) p) (ent2 (vid_tables s) p)) /\
  (forall p k, n <= p < 7 -> 0 <= k < 1024 -> cleared s p k).

Lemma shiftr_12 a : Z.shiftr a PAGE_BITS = a / 4096.
Proof. by rewrite Z.shiftr_div_pow2. Qed.

(** The tables [setup_process] makes from cleared ones. *)
Definition init_pd (L : layout) (pid : Z) : Z -> Z :=
  put (put (put (put (fun _ => 2)
    0 (setf base_31_12 (Z.shiftr (pt_addr L pid) PAGE_BITS) (setf read_write 1 (setf present 1 2))))
    1 (setf present 1 (setf read_write 1 (setf super 0 (setf page_size 1 (setf base_31_22 1 2))))))
    32 (setf present 1 (setf read_write 1 (setf super 1 (setf page_size 1 (setf base_31_22 (2 + pid) 2))))))
    890 (setf global_page 1 (setf super 1 (setf page_size 0
      (setf base_31_12 (Z.shiftr (vt_addr L pid) PAGE_BITS) (setf read_write 1 (setf present 0 2)))))).

Lemma init_tables_ok L pid pd pt vt :
  layout_ok L -> pid_ok pid ->
  (forall i, 0 <= i < 1024 -> pd i = init_pd L pid i) ->
  (forall i, 0 <= i < 1024 -> ~ 0xb7 <= i <= 0xbb -> pt i = setf base_31_12 i (setf read_write 1 2)) ->
  page_entry (pt 0xb7) 0xb8 -> (exists b, video_frame b /\ page_entry (pt 0xb8) b) ->
  (forall i, 0xb9 <= i <= 0xbb -> page_entry (pt i) i) ->
  getf super (vt 731) = 1 -> getf base_31_12 (vt 731) = 0xb8 ->
  (forall i, 0 <= i < 1024 -> i <> 731 -> vt i = 2) ->
  process_ok L pid pd pt vt.
Proof.
  unfold pid_ok. intros [] Hpid Hpd Hpt H1 H2 H3 H4 H5 H6.
  assert (0 <= pt_addr L pid / 4096 < 2 ^ 20) by (unfold pt_addr; zlia).
  assert (0 <= vt_addr L pid / 4096 < 2 ^ 20) by (unfold vt_addr; zlia).
  split; try assumption; rewrite ?Hpd by lia; unfold init_pd, small_entry, big_entry.
  - put_cases. done.
  - put_cases. rewrite shiftr_12, base_small by lia. done.
  - put_cases. done.
  - put_cases. split_and!; try done. change (2 ^ (base_31_22).2) with 1024. apply Z.mod_small. lia.
  - put_cases. rewrite shiftr_12, base_small by lia. done.
  - intros. rewrite Hpd by lia. unfold init_pd. put_cases. done.
  - intros. rewrite Hpt by lia. fields. done.
  - rewrite H5. unfold video_frame. split; [done | lia].
  - intros. by rewrite H6.
Qed.

Lemma setup_process_dir L n s s' : setup_process L n s = Some s' -> cr3 s' = cr3 s /\ dir s' = dir s.
Proof.
  unfold setup_process. intros H.
  repeat (apply bind_Some in H as (? & _ & H)). by simplify_eq.
Qed.

Lemma setup_process_ok L n s :
  layout_ok L -> pid_ok n -> inited_upto L n s ->
  exists s', setup_process L n s = Some s' /\ inited_upto L (n + 1) s'.
Proof.
  unfold pid_ok. intros HL Hn ([] & H4 & Hdone & Hc). unfold setup_process. literals. do 10 entry_step.
  eexists. split; [done|]. split; [by split|]. split; [done|].
  cbn [process_directories page_tables vid_tables set_tables]. split.
  - intros p Hp. destruct (decide (p = n)) as [->|Hne].
    2:{ eapply process_ok_ext, (Hdone p); [intros i; views; indices; done .. | lia]. }
    assert (forall i, 0 <= i < 1024 -> cleared s n i) as Hcn by (intros; apply Hc; lia).
    assert (forall i, 0 <= i < 1024 -> ent2 (process_directories s) n i = 2) as Hpd by apply Hcn.
    assert (forall i, 0 <= i < 1024 -> ent2 (page_tables s) n i = setf base_31_12 i (setf read_write 1 2))
      as Hpt by apply Hcn.
    apply init_tables_ok; [done | done | ..]; unfold page_entry.
    + intros i Hi. views. rewrite ?Z.eqb_refl. cbn [andb Z.eqb Pos.eqb]. unfold init_pd, put.
      rewrite !Hpd by lia. done.
    + intros i Hi Hni. views. rewrite ?Z.eqb_refl. indices. apply Hcn. lia.
    + views. rewrite ?Z.eqb_refl. cbn [andb Z.eqb Pos.eqb]. fields. done.
    + exists (if (n <? 3) && (0 <? n) then 0xb8 + n + 1 else 0xb8).
      views. rewrite ?Z.eqb_refl. cbn [andb Z.eqb Pos.eqb]. fields.
      split; [unfold video_frame; case_if; lia|]. split; [done|].
      rewrite Hpt by lia. case_if; fields; apply base_small; lia.
    + intros i Hi. assert (i = 0xb9 \/ i = 0xba \/ i = 0xbb) as [-> | [-> | ->]] by lia;
        views; rewrite ?Z.eqb_refl; cbn [andb Z.eqb Pos.eqb]; fields;
        rewrite Hpt by lia; fields; done.
    + views. rewrite ?Z.eqb_refl. cbn [andb Z.eqb Pos.eqb]. fields. done.
    + views. rewrite ?Z.eqb_refl. cbn [andb Z.eqb Pos.eqb]. fields. done.
    + intros i Hi Hni. views. rewrite ?Z.eqb_refl. indices. apply Hcn. lia.
  - intros p k Hp Hk. destruct (Hc p k ltac:(lia) Hk) as (? & ? & ?).
    unfold cleared. cbn. views. indices. done.
Qed.

(** What the page of [vidmap] of process [pid] is: open or not, and its frame. *)
Definition vid_words (s : paging) (pid : Z) (v : bool * Z) : Prop :=
  getf present (ent2 (process_directories s) pid 890) = Z.b2z v.1 /\
  getf present (ent2 (vid_tables s) pid 731) = Z.b2z v.1 /\
  getf base_31_12 (ent2 (vid_tables s) pid 731) = v.2.

Lemma setup_process_closed L n s s' :
  pid_ok n -> paging_sized s -> setup_process L n s = Some s' ->
  forall p, p = n \/ vid_words s p (false, 0xb8) -> vid_words s' p (false, 0xb8).
Proof.
  unfold pid_ok, setup_process, vid_words. intros Hn []. literals. do 10 entry_step.
  intros [= <-] p Hp. tables. views. destruct (Z.eqb_spec p n) as [->|]; cbn [andb Z.eqb Pos.eqb].
  - fields. done.
  - by destruct Hp.
Qed.

Lemma new_init_full L s :
  layout_ok L -> paging_sized s ->
  exists s', new_init L s = Some s' /\ cr3 s' = dir_addr L /\ paging_ok L s' /\ big_entry (ent (dir s') 1) 0 1 /\
    forall p, pid_ok p -> vid_words s' p (false, 0xb8).
Proof.
  intros HL Hs. unfold new_init. destruct (clear_loop_ok s Hs) as (s1 & E1 & Hs1 & Hc1). rewrite E1. bind.
  destruct (paging_init_ok L s1 Hs1) as (s2 & E2 & Hs2 & H4 & H3 & Epd & Ept & Evt & Hd). rewrite E2. bind.
  destruct (for_up_inv (fun n s => inited_upto L n s /\ cr3 s = dir_addr L /\ big_entry (ent (dir s) 1) 0 1 /\
      forall p, 0 <= p < n -> vid_words s p (false, 0xb8)) (Z.to_nat NUM_TASKS) 0
    (setup_process L) s2) as (s3 & E3 & (Hs3 & H43 & Hp & _) & H33 & Hd3 & Hv3).
  - split; [|split; [done | split; [done | intros; lia]]].
    split; [done|]. split; [done|]. split; [intros; lia|]. intros p k Hp Hk.
    unfold cleared. rewrite Epd, Ept, Evt. apply Hc1; lia.
  - intros n s3 Hn (Hi & Hcr3 & Hdir & Hv). destruct (setup_process_ok L n s3) as (s4 & E & H); [done | exact Hn | done |].
    exists s4. split; [done|]. split; [done|]. destruct (setup_process_dir L n _ _ E) as [-> ->].
    split; [done|]. split; [done|].
    intros p Hp. apply (setup_process_closed L n s3); [exact Hn | apply Hi | exact E |].
    destruct (decide (p = n)); [by left | right; apply Hv; lia].
  - rewrite E3. bind. eexists. split; [done|]. split; [done|]. split; [|by split].
    split_and!; [by destruct Hs3 | | done |].
    + by apply lor_bit.
    + intros p Hrange. apply Hp. exact Hrange.
Qed.

Lemma new_init_ok L s :
  layout_ok L -> paging_sized s ->
  exists s', new_init L s = Some s' /\ cr3 s' = dir_addr L /\ paging_ok L s'.
Proof.
  intros HL Hs. destruct (new_init_full L s HL Hs) as (s' & E & H & Hok & _). eauto 6.
Qed.

(** ** What the tables mean to the processor *)

Section Walk.
Context (L : layout) (HL : layout_ok L).

Lemma table_at_pd s pid : pid_ok pid -> table_at L s (pd_addr L pid) = (process_directories s).[pid].
Proof.
  unfold pid_ok. intros Hpid. unfold table_at, pd_addr, NUM_TASKS.
  btrue ((pd_base L <=? pd_base L + 4096 * pid) && (pd_base L + 4096 * pid <? pd_base L + 4096 * 7)).
  f_equal. zlia.
Qed.

Lemma table_at_pt s pid : pid_ok pid -> table_at L s (pt_addr L pid) = (page_tables s).[pid].
Proof.
  destruct HL. unfold pid_ok, region_apart in *. intros Hpid. unfold table_at, pt_addr, NUM_TASKS.
  bfalse ((pd_base L <=? pt_base L + 4096 * pid) && (pt_base L + 4096 * pid <? pd_base L + 4096 * 7)).
  btrue ((pt_base L <=? pt_base L + 4096 * pid) && (pt_base L + 4096 * pid <? pt_base L + 4096 * 7)).
  f_equal. zlia.
Qed.

Lemma table_at_vt s pid : pid_ok pid -> table_at L s (vt_addr L pid) = (vid_tables s).[pid].
Proof.
  destruct HL. unfold pid_ok, region_apart in *. intros Hpid. unfold table_at, vt_addr, NUM_TASKS.
  bfalse ((pd_base L <=? vt_base L + 4096 * pid) && (vt_base L + 4096 * pid <? pd_base L + 4096 * 7)).
  bfalse ((pt_base L <=? vt_base L + 4096 * pid) && (vt_base L + 4096 * pid <? pt_base L + 4096 * 7)).
  btrue ((vt_base L <=? vt_base L + 4096 * pid) && (vt_base L + 4096 * pid <? vt_base L + 4096 * 7)).
  f_equal. zlia.
Qed.

Lemma addr_aligned pid :
  pd_addr L pid / 4096 * 4096 = pd_addr L pid /\ pt_addr L pid / 4096 * 2 ^ 12 = pt_addr L pid /\
  vt_addr L pid / 4096 * 2 ^ 12 = vt_addr L pid.
Proof. destruct HL. unfold pd_addr, pt_addr, vt_addr. split_and!; zlia. Qed.

(** The walk of an invariant state, with the words of the tables. *)
Definition walk (pid : Z) (pd pt vt : Z -> Z) (user : bool) (va : Z) : option Z :=
  let d := va / 2 ^ 22 in
  let i := va / 2 ^ 12 mod 2 ^ 10 in
  if d =? 0 then
    if negb user && (getf present (pt i) =? 1) then Some (getf base_31_12 (pt i) * 2 ^ 12 + va mod 2 ^ 12)
    else None
  else if d =? 1 then if user then None else Some va
  else if d =? 32 then Some ((2 + pid) * 2 ^ 22 + va mod 2 ^ 22)
  else if (d =? 890) && (getf present (pd 890) =? 1) && allows user (vt i) then
    Some (getf base_31_12 (vt i) * 2 ^ 12 + va mod 2 ^ 12)
  else None.

Lemma translate_walk s pid user va :
  paging_ok L s -> pid_ok pid -> 0 <= va < 2 ^ 32 ->
  translate L (set_cr3 (pd_addr L pid) s) user va =
  walk pid (ent2 (process_directories s) pid) (ent2 (page_tables s) pid) (ent2 (vid_tables s) pid) user va.
Proof.
  intros ([] & H0 & H4 & Hp) Hpid Hva. destruct (Hp pid Hpid).
  destruct (addr_aligned pid) as (Apd & Apt & Avt).
  unfold translate. cbn [cr0 cr3 cr4 set_cr3]. rewrite H0, H4, Apd. cbn [negb].
  rewrite table_at_pd by done. cbn [process_directories set_cr3].
  destruct (sized2_get _ pid pds_sized0 Hpid) as (pd & Epd & Hpd). rewrite Epd. bind.
  rewrite sized_get by (done || zlia). bind. rewrite <- (ent2_get _ _ _ _ Epd).
  unfold walk. cbv zeta. set (d := va / 2 ^ 22). set (i := va / 2 ^ 12 mod 2 ^ 10).
  assert (0 <= d < 1024) as Hd by (unfold d; zlia). assert (0 <= i < 1024) as Hi by (unfold i; zlia). unfold allows at 1.
  destruct (Z.eqb_spec d 0) as [->|Hd0].
  { destruct low_entry0 as (-> & -> & ->). rewrite low_present0. destruct user; [done|]. cbn [andb negb orb Z.eqb Pos.eqb].
    rewrite Apt, table_at_pt by done. cbn [page_tables set_cr3].
    destruct (sized2_get _ pid pts_sized0 Hpid) as (pt & Ept & Hpt). rewrite Ept. bind.
    rewrite sized_get by done. bind. rewrite <- (ent2_get _ _ _ _ Ept).
    unfold allows. rewrite andb_true_r. by destruct (getf present _ =? 1). }
  destruct (Z.eqb_spec d 1) as [Hd1|Hd1].
  { rewrite Hd1. destruct kernel_entry0 as (-> & -> & -> & ->). destruct user; [done|].
    cbn [andb negb orb Z.eqb Pos.eqb]. f_equal. unfold d in Hd1. zlia. }
  destruct (Z.eqb_spec d 32) as [->|Hd32].
  { destruct user_entry0 as (-> & -> & -> & ->). by destruct user. }
  destruct (Z.eqb_spec d 890) as [->|Hd890]; [|by rewrite other_dirs0].
  destruct video_dir_entry0 as (-> & -> & ->). cbn [Z.eqb Pos.eqb andb]. rewrite orb_true_r, andb_true_r.
  destruct (getf present _ =? 1); [|done]. cbn [negb andb].
  rewrite Avt, table_at_vt by done. cbn [vid_tables set_cr3].
  destruct (sized2_get _ pid vts_sized0 Hpid) as (vt & Evt & Hvt). rewrite Evt. bind.
  rewrite sized_get by done. bind. rewrite <- (ent2_get _ _ _ _ Evt). by destruct (allows user _).
Qed.

(** The page of the program, and the page [vidmap] opens. *)
Definition program_page (va : Z) : Prop := 0x8000000 <= va < 0x8400000.
Definition vidmap_page (va : Z) : Prop := 0xdeadb000 <= va < 0xdeadc000.
Definition program_frame (pid va : Z) : Z := 0x800000 + 0x400000 * pid + (va - 0x8000000).

Lemma walk_program pid pd pt vt user va :
  program_page va -> walk pid pd pt vt user va = Some (program_frame pid va).
Proof.
  unfold program_page, program_frame, walk. intros Hva. replace (va / 2 ^ 22) with 32 by zlia.
  cbn [Z.eqb Pos.eqb]. f_equal. zlia.
Qed.

Lemma walk_user_inv pid pd pt vt va pa :
  process_ok L pid pd pt vt -> 0 <= va < 2 ^ 32 -> walk pid pd pt vt true va = Some pa ->
  (program_page va /\ pa = program_frame pid va) \/
  (vidmap_page va /\ 0xb8000 <= pa < 0xbc000 /\ getf present (pd 890) = 1 /\ getf present (vt 731) = 1).
Proof.
  intros [] Hva. unfold walk. cbv zeta. cbn [negb andb].
  set (d := va / 2 ^ 22). set (i := va / 2 ^ 12 mod 2 ^ 10).
  destruct (Z.eqb_spec d 0) as [|Hd0]; [done|]. destruct (Z.eqb_spec d 1) as [|Hd1]; [done|].
  destruct (Z.eqb_spec d 32) as [Hd32|Hd32].
  { intros [= <-]. left. unfold program_page, program_frame, d in *. zlia. }
  destruct (Z.eqb_spec d 890) as [Hd890|]; [|done]. cbn [andb].
  destruct (Z.eqb_spec (getf present (pd 890)) 1) as [Hp|]; [|done]. cbn [andb]. unfold allows.
  destruct (Z.eqb_spec (getf present (vt i)) 1) as [Hv|]; [|done]. cbn [andb].
  destruct (Z.eqb_spec (getf super (vt i)) 1) as [Hs|]; [|done]. cbn [negb orb].
  intros [= <-]. right. destruct (decide (i = 731)) as [E|E].
  - destruct video_page0 as [_ Hf]. rewrite E in *. unfold vidmap_page, video_frame in *.
    split_and!; try done; unfold d, i in *; zlia.
  - rewrite (other_videos0 i) in Hv by (done || unfold i; zlia). lia.
Qed.

End Walk.

(** ** Properties *)

(** The state after boot and a sequence of paging operations. *)
Definition booted (L : layout) (s0 : paging) (os : list op) : option paging :=
  s ← new_init L s0; run_ops L os s.

Lemma booted_ok L s0 os :
  layout_ok L -> paging_sized s0 -> Forall op_ok os -> exists s, booted L s0 os = Some s /\ paging_ok L s.
Proof.
  intros HL Hs Hos. unfold booted. destruct (new_init_ok L s0 HL Hs) as (s & -> & _ & Hok). bind.
  by apply run_ops_ok.
Qed.

(** The directory of the boot code is aligned and apart from those of the processes. *)
Record boot_layout_ok (L : layout) : Prop := {
  dir_aligned : dir_addr L mod 4096 = 0;
  dir_pd_apart : region_apart (dir_addr L) 4096 (pd_base L) (7 * 4096);
  dir_pt_apart : region_apart (dir_addr L) 4096 (pt_base L) (7 * 4096);
  dir_vt_apart : region_apart (dir_addr L) 4096 (vt_base L) (7 * 4096) }.

(** Once [new_init] has turned paging on, the boot code sees the kernel's page at its
    own addresses. *)
Lemma boot_view L s0 s va :
  layout_ok L -> boot_layout_ok L -> paging_sized s0 -> new_init L s0 = Some s ->
  0x400000 <= va < 0x800000 -> translate L s false va = Some va.
Proof.
  intros HL [] Hs E Hva. destruct (new_init_full L s0 HL Hs) as (s' & E' & Hcr & ([] & H0 & H4 & _) & (P1 & P2 & P3 & P4) & _).
  rewrite E in E'. injection E' as <-. unfold region_apart in *. unfold translate. rewrite H0, H4, Hcr. cbn [negb].
  replace (dir_addr L / 4096 * 4096) with (dir_addr L) by zlia. unfold table_at, NUM_TASKS.
  bfalse ((pd_base L <=? dir_addr L) && (dir_addr L <? pd_base L + 4096 * 7)).
  bfalse ((pt_base L <=? dir_addr L) && (dir_addr L <? pt_base L + 4096 * 7)).
  bfalse ((vt_base L <=? dir_addr L) && (dir_addr L <? vt_base L + 4096 * 7)).
  rewrite Z.eqb_refl. bind. replace (va / 2 ^ 22) with 1 by zlia. rewrite sized_get by (done || lia). bind.
  unfold allows. rewrite P1, P3, P4. cbn [Z.eqb Pos.eqb andb negb orb]. f_equal. zlia.
Qed.

(** The page of [vidmap] of process [pid] after a history of operations: open since
    a [map_vid_memory] no [unmap_vid_memory] followed, and on the frame the last
    switch gave it. *)
Definition vidmap_step (pid : Z) (v : bool * Z) (o : op) : bool * Z :=
  match o with
  | MapVid p => if p =? pid then (true, v.2) else v
  | UnmapVid p => if p =? pid then (false, v.2) else v
  | VidOut p term _ => if p =? pid then (v.1, 0xb9 + term) else v
  | VidIn p _ => if p =? pid then (v.1, 0xb8) else v
  | _ => v
  end.
Definition vidmap_after (pid : Z) (os : list op) : bool * Z := fold_left (vidmap_step pid) os (false, 0xb8).

Lemma present_b2z (b : bool) w : getf present (setf present (Z.b2z b) w) = Z.b2z b.
Proof. rewrite getf_same by done. by destruct b. Qed.

Lemma map_video_words s p pid b vts pds v :
  paging_sized s -> pid_ok p ->
  upd2 (vid_tables s) p 731 (setf present (Z.b2z b)) = Some vts ->
  upd2 (process_directories s) p 890 (setf present (Z.b2z b)) = Some pds ->
  vid_words s pid v ->
  vid_words (set_tables (first_dir s) (first_table s) pds (page_tables s) vts s) pid
    (if p =? pid then (b, v.2) else v).
Proof.
  unfold pid_ok, vid_words. intros [] Hp. do 2 entry_step. intros [= <-] [= <-] (H1 & H2 & H3). tables. views.
  rewrite (Z.eqb_sym p pid). destruct (Z.eqb_spec pid p) as [->|]; cbn [andb Z.eqb Pos.eqb]; [|done].
  rewrite !present_b2z. fields. done.
Qed.

Lemma video_base_words L s s' p pid b v :
  paging_ok L s -> pid_ok p -> video_frame b -> set_video_base p b s = Some (0, s') ->
  vid_words s pid v -> vid_words s' pid (if p =? pid then (v.1, b) else v).
Proof.
  unfold vid_words, video_frame. intros Hok Hp Hb E (H1 & H2 & H3).
  destruct (set_video_base_words L s s' p b Hok Hp E pid) as (-> & _ & ->).
  rewrite (Z.eqb_sym p pid). destruct (Z.eqb_spec pid p) as [->|]; [|done]. fields.
  by rewrite base_small by lia.
Qed.

Lemma new_paging_vid_words L s s' p q pid v :
  paging_ok L s -> pid_ok p -> pid_ok q -> new_paging L p q s = Some (0, s') ->
  vid_words s pid v -> vid_words s' pid v.
Proof.
  intros Hok Hp Hq E. destruct (new_paging_words L s s' p q Hok Hp Hq E) as (_ & Hv & Hd).
  unfold vid_words. by rewrite Hv, Hd.
Qed.

Lemma exec_vid_words L o s ret s' pid v :
  op_ok o -> paging_ok L s -> exec L o s = Some (ret, s') -> vid_words s pid v ->
  vid_words s' pid (vidmap_step pid v o).
Proof.
  intros Ho Hok. pose proof Hok as (Hs & _). destruct o as [p|p q|p|p|p|p term c|p c]; cbn [op_ok exec vidmap_step] in *.
  - destruct (switch_paging_ok L s p Ho Hok) as (s1 & E1 & _). rewrite E1. intros [= <- <-].
    revert E1. unfold switch_paging. intros E1. apply bind_Some in E1 as (? & _ & [= <-]). done.
  - destruct Ho as [H1 H2]. destruct (new_paging_ok L s p q H1 H2 Hok) as (s1 & E1 & _). rewrite E1.
    intros [= <- <-]. by apply (new_paging_vid_words L s s1 p q).
  - rewrite init_per_process_dead by done. by intros [= <- <-].
  - destruct (map_video_ok L s p 1 Ho Hok) as (vts & pds & E1 & E2 & _). unfold map_vid_memory. literals.
    unfold pid_ok in Ho. bfalse (p <? 0). rewrite E1. bind. rewrite E2. bind. intros [= <- <-].
    exact (map_video_words s p pid true vts pds v Hs Ho E1 E2).
  - destruct (map_video_ok L s p 0 Ho Hok) as (vts & pds & E1 & E2 & _). unfold unmap_vid_memory. literals.
    unfold pid_ok in Ho. bfalse (p <? 0). rewrite E2. bind. rewrite E1. bind. intros [= <- <-].
    exact (map_video_words s p pid false vts pds v Hs Ho E1 E2).
  - destruct Ho as [H1 H2]. unfold switch_vid_mem_out. change (VIDMEM_PAGE_BASE + term + 1) with (0xb8 + term + 1).
    assert (video_frame (0xb8 + term + 1)) as Hf by (unfold video_frame; lia).
    destruct (set_video_base_ok L s p _ H1 Hf Hok) as (s1 & E1 & _). rewrite E1. intros [= <- <-].
    replace (0xb9 + term) with (0xb8 + term + 1) by lia. by apply (video_base_words L s).
  - assert (video_frame 0xb8) as Hf by (unfold video_frame; lia).
    destruct (set_video_base_ok L s p _ Ho Hf Hok) as (s1 & E1 & _). unfold switch_vid_mem_in.
    change VIDMEM_PAGE_BASE with 0xb8. rewrite E1. intros [= <- <-]. by apply (video_base_words L s).
Qed.

Lemma run_ops_vid_words L os s s' pid v :
  Forall op_ok os -> paging_ok L s -> run_ops L os s = Some s' -> vid_words s pid v ->
  vid_words s' pid (fold_left (vidmap_step pid) os v).
Proof.
  intros Hos. revert s v. induction Hos as [|o os Ho _ IH]; intros s v Hok; cbn [run_ops fold_left].
  { by intros [= <-]. }
  destruct (exec_ok L o s Ho Hok) as (ret & s1 & E & H1). rewrite E. bind. intros Hr Hv.
  apply (IH s1); [done | done |]. by apply (exec_vid_words L o s ret).
Qed.

Lemma booted_full L s0 os :
  layout_ok L -> paging_sized s0 -> Forall op_ok os ->
  exists s, booted L s0 os = Some s /\ paging_ok L s /\
    forall pid, pid_ok pid -> vid_words s pid (vidmap_after pid os).
Proof.
  intros HL Hs Hos. unfold booted. destruct (new_init_full L s0 HL Hs) as (s & -> & _ & Hok & _ & Hv). bind.
  destruct (run_ops_ok L os s Hos Hok) as (s' & E & Hok'). exists s'. split; [done|]. split; [done|].
  intros pid Hpid. apply (run_ops_vid_words L os s); auto.
Qed.

Definition demo_layout : layout := Layout 0x410000 0x411000 0x412000 0x419000 0x420000.
Definition zero_paging : paging :=
  let z := replicate 1024 0 in
  Paging z z z z (replicate 7 z) (replicate 7 z) (replicate 7 z) 17 0 0 false.

Lemma demo_boot_layout_ok : boot_layout_ok demo_layout.
Proof. split; vm_compute; try done; left; done. Qed.

Lemma demo_layout_ok : layout_ok demo_layout.
Proof. split; vm_compute; repeat split; try done; try (left; done); try (right; done). Qed.

Lemma zero_paging_sized : paging_sized zero_paging.
Proof.
  split; unfold sized2, sized; cbn [zero_paging dir table first_dir first_table process_directories
    page_tables vid_tables]; rewrite ?length_replicate; try done;
    (split; [done | apply Forall_replicate; unfold sized; by rewrite length_replicate]).
Qed.

(** All a program may touch: its own frame and, while the page of [vidmap] is open,
    one page of video memory. *)
Definition user_reach (pid : Z) (v : bool * Z) (va : Z) : option Z :=
  if (0x8000000 <=? va) && (va <? 0x8400000) then Some (0x800000 + 0x400000 * pid + (va - 0x8000000))
  else if v.1 && (0xdeadb000 <=? va) && (va <? 0xdeadc000) then Some (v.2 * 4096 + (va - 0xdeadb000))
  else None.

Lemma walk_user L s pid v va :
  paging_ok L s -> pid_ok pid -> vid_words s pid v -> 0 <= va < 2 ^ 32 ->
  walk pid (ent2 (process_directories s) pid) (ent2 (page_tables s) pid) (ent2 (vid_tables s) pid) true va =
  user_reach pid v va.
Proof.
  intros (_ & _ & _ & Hok) Hpid (H1 & H2 & H3) Hva. destruct (Hok pid Hpid). unfold walk, user_reach. cbv zeta.
  set (d := va / 2 ^ 22). set (i := va / 2 ^ 12 mod 2 ^ 10).
  assert (0 <= i < 1024) as Hi by (unfold i; zlia). cbn [negb andb].
  destruct (Z.eqb_spec d 32) as [Hd|Hd].
  { rewrite Hd. cbn [Z.eqb Pos.eqb]. assert (0x8000000 <= va < 0x8400000) by (unfold d in Hd; zlia).
    btrue ((0x8000000 <=? va) && (va <? 0x8400000)). f_equal. unfold d in Hd. zlia. }
  assert (~ 0x8000000 <= va < 0x8400000) by (unfold d in Hd; zlia).
  bfalse ((0x8000000 <=? va) && (va <? 0x8400000)). rewrite <- (andb_assoc (v.1)).
  destruct (Z.eqb_spec d 890) as [Hd8|Hd8].
  2:{ assert (~ 0xdeadb000 <= va < 0xdeadc000) by (unfold d in Hd8; zlia).
      bfalse ((0xdeadb000 <=? va) && (va <? 0xdeadc000)). rewrite ?andb_false_r. cbn [andb].
      by destruct (d =? 0), (d =? 1). }
  rewrite Hd8. cbn [Z.eqb Pos.eqb andb]. rewrite H1. unfold allows. cbn [negb orb].
  destruct (decide (i = 731)) as [Ei|Ei].
  - rewrite Ei, H2, H3. destruct video_page0 as [-> _].
    assert (0xdeadb000 <= va < 0xdeadc000) by (unfold d, i in *; zlia).
    btrue ((0xdeadb000 <=? va) && (va <? 0xdeadc000)).
    destruct (v.1); [|done]. cbn. f_equal. unfold d, i in *. zlia.
  - rewrite (other_videos0 i) by done.
    assert (~ 0xdeadb000 <= va < 0xdeadc000) by (unfold d, i in *; zlia).
    bfalse ((0xdeadb000 <=? va) && (va <? 0xdeadc000)). by rewrite !andb_false_r.
Qed.

(** C1: after boot and any sequence of the paging operations user code of process
    [pid] reaches the 4 MB page at 128 MB, which is physical 8 MB + 4 MB * [pid]; the
    page of [vidmap] when [map_vid_memory] was called for the process and
    [unmap_vid_memory] not since, in the frame of video memory of the last switch;
    and nothing else. *)
Theorem user_access_confined L s0 os :
  layout_ok L -> paging_sized s0 -> Forall op_ok os ->
  exists s, booted L s0 os = Some s /\
    forall pid va, pid_ok pid -> 0 <= va < 2 ^ 32 ->
      translate L (set_cr3 (pd_addr L pid) s) true va = user_reach pid (vidmap_after pid os) va.
Proof.
  intros HL Hs Hos. destruct (booted_full L s0 os HL Hs Hos) as (s & E & Hok & Hv).
  exists s. split; [done|]. intros pid va Hpid Hva. rewrite translate_walk by done.
  apply (walk_user L); auto.
Qed.

Lemma user_access_confined_witness :
  exists s, booted demo_layout zero_paging [NewPaging 3 0; MapVid 3; VidOut 3 1 0; MapVid 2; UnmapVid 2] = Some s /\
    translate demo_layout (set_cr3 (pd_addr demo_layout 3) s) true 0x8048000 = Some 0x1448000 /\
    translate demo_layout (set_cr3 (pd_addr demo_layout 3) s) true 0xdeadb010 = Some 0xba010 /\
    translate demo_layout (set_cr3 (pd_addr demo_layout 2) s) true 0xdeadb010 = None.
Proof.
  destruct (user_access_confined demo_layout zero_paging
    [NewPaging 3 0; MapVid 3; VidOut 3 1 0; MapVid 2; UnmapVid 2]) as (s & E & H);
    [apply demo_layout_ok | apply zero_paging_sized | repeat constructor; unfold pid_ok; lia|].
  exists s. split; [exact E|]. rewrite !H by (unfold pid_ok; lia). split_and!; reflexivity.
Defined.

(** C2: user accesses of two different processes, at any addresses, never meet in
    physical memory outside of the video pages. *)
Theorem processes_isolated L s0 os p q va va' pa pa' s :
  layout_ok L -> paging_sized s0 -> Forall op_ok os -> booted L s0 os = Some s ->
  pid_ok p -> pid_ok q -> p <> q -> 0 <= va < 2 ^ 32 -> 0 <= va' < 2 ^ 32 ->
  translate L (set_cr3 (pd_addr L p) s) true va = Some pa ->
  translate L (set_cr3 (pd_addr L q) s) true va' = Some pa' ->
  pa <> pa' \/ 0xb8000 <= pa < 0xbc000.
Proof.
  intros HL Hs Hos E Hp Hq Hne Hva Hva'. destruct (booted_ok L s0 os HL Hs Hos) as (s' & E' & Hok).
  replace s' with s in Hok by congruence. rewrite !translate_walk by done. destruct Hok as (_ & _ & _ & H).
  intros W1 W2. apply (walk_user_inv L) in W1; [|by apply H|done]. apply (walk_user_inv L) in W2; [|by apply H|done].
  unfold pid_ok, program_page, program_frame in *. destruct W1 as [[? ->] | (? & ? & _)]; [|lia].
  destruct W2 as [[? ?] | (? & ? & _)]; lia.
Qed.

Lemma processes_isolated_witness : 0x1448000 <> 0x1048000 \/ 0xb8000 <= 0x1448000 < 0xbc000.
Proof.
  destruct (booted_ok demo_layout zero_paging [MapVid 1; MapVid 2]) as (s & E & Hok);
    [apply demo_layout_ok | apply zero_paging_sized | repeat constructor; unfold pid_ok; lia|].
  apply (processes_isolated demo_layout zero_paging [MapVid 1; MapVid 2] 3 2 0x8048000 0x8048000
    0x1448000 0x1048000 s);
    [ apply demo_layout_ok | apply zero_paging_sized | repeat constructor; unfold pid_ok; lia | exact E
    | unfold pid_ok; lia | unfold pid_ok; lia | lia | lia | lia
    | rewrite translate_walk; [apply walk_program; unfold program_page; lia | apply demo_layout_ok | exact Hok
        | unfold pid_ok; lia | lia] .. ].
Defined.

(** The kernel's own page is mapped to itself under every directory. *)
Lemma kernel_page L s pid va :
  layout_ok L -> paging_ok L s -> pid_ok pid -> 0x400000 <= va < 0x800000 ->
  translate L (set_cr3 (pd_addr L pid) s) false va = Some va.
Proof.
  intros HL Hok Hpid Hva. rewrite translate_walk by (done || lia). unfold walk. cbv zeta.
  by replace (va / 2 ^ 22) with 1 by zlia.
Qed.

(** In kernel mode, under the directory of any process after boot and any sequence
    of operations, the kernel's own page is mapped to itself, 0xb7000 is the screen
    and 0xb9000 to 0xbbfff are the three terminals' pages; every other address of the
    first 4 MB but the video page 0xb8000, the null page among them, faults. *)
Theorem kernel_view L s0 os s pid va :
  layout_ok L -> paging_sized s0 -> Forall op_ok os -> booted L s0 os = Some s -> pid_ok pid ->
  (0x400000 <= va < 0x800000 -> translate L (set_cr3 (pd_addr L pid) s) false va = Some va) /\
  (0xb7000 <= va < 0xb8000 -> translate L (set_cr3 (pd_addr L pid) s) false va = Some (va + 0x1000)) /\
  (0xb9000 <= va < 0xbc000 -> translate L (set_cr3 (pd_addr L pid) s) false va = Some va) /\
  (0 <= va < 0xb7000 \/ 0xbc000 <= va < 0x400000 ->
     translate L (set_cr3 (pd_addr L pid) s) false va = None).
Proof.
  intros HL Hs Hos E Hpid. destruct (booted_ok L s0 os HL Hs Hos) as (s' & E' & Hok).
  replace s' with s in Hok by congruence. pose proof Hok as (_ & _ & _ & Hp). destruct (Hp pid Hpid).
  split_and!; intros Hva; rewrite translate_walk by (done || lia); unfold walk; cbv zeta.
  - by replace (va / 2 ^ 22) with 1 by zlia.
  - replace (va / 2 ^ 22) with 0 by zlia. replace (va / 2 ^ 12 mod 2 ^ 10) with 0xb7 by zlia.
    destruct screen_entry0 as [-> ->]. simpl. f_equal. zlia.
  - replace (va / 2 ^ 22) with 0 by zlia. set (i := va / 2 ^ 12 mod 2 ^ 10).
    destruct (term_entries0 i) as [-> ->]; [unfold i; zlia|]. simpl. f_equal. unfold i. zlia.
  - replace (va / 2 ^ 22) with 0 by zlia. rewrite other_pages0; [done | zlia | zlia].
Qed.

Lemma kernel_view_witness :
  exists s, booted demo_layout zero_paging [SwitchPaging 2] = Some s /\
    translate demo_layout (set_cr3 (pd_addr demo_layout 2) s) false 0xb7010 = Some 0xb8010 /\
    translate demo_layout (set_cr3 (pd_addr demo_layout 2) s) false 0 = None.
Proof.
  destruct (booted_ok demo_layout zero_paging [SwitchPaging 2]) as (s & E & _);
    [apply demo_layout_ok | apply zero_paging_sized | repeat constructor; unfold pid_ok; lia|].
  exists s. split; [exact E|].
  assert (forall va, (0xb7000 <= va < 0xb8000 ->
      translate demo_layout (set_cr3 (pd_addr demo_layout 2) s) false va = Some (va + 0x1000)) /\
    (0 <= va < 0xb7000 \/ 0xbc000 <= va < 0x400000 ->
      translate demo_layout (set_cr3 (pd_addr demo_layout 2) s) false va = None)) as H.
  { intros va. destruct (kernel_view demo_layout zero_paging [SwitchPaging 2] s 2 va) as (_ & H1 & _ & H2);
      [apply demo_layout_ok | apply zero_paging_sized | repeat constructor; unfold pid_ok; lia | exact E
      | unfold pid_ok; lia | split; assumption]. }
  split; [apply (H 0xb7010); lia | apply (H 0); lia].
Defined.

(** The kernel's video page and the page of [vidmap] under the directory of [pid]. *)
Definition kernel_video (L : layout) (s : paging) (pid o : Z) : option Z :=
  translate L (set_cr3 (pd_addr L pid) s) false (VID_MEM + o).
Definition user_video (L : layout) (s : paging) (pid o : Z) : option Z :=
  translate L (set_cr3 (pd_addr L pid) s) true (VIRT_VID_MEM + o).

Lemma kernel_video_word L s pid o :
  layout_ok L -> paging_ok L s -> pid_ok pid -> 0 <= o < 4096 ->
  kernel_video L s pid o = Some (getf base_31_12 (ent2 (page_tables s) pid 0xb8) * 4096 + o).
Proof.
  intros HL Hok Hpid Ho. unfold kernel_video, VID_MEM. rewrite translate_walk by (done || lia).
  destruct Hok as (_ & _ & _ & Hp). destruct (active_entry _ _ _ _ _ (Hp pid Hpid)) as (b & _ & E & _).
  unfold walk. cbv zeta. replace ((0xb8000 + o) / 2 ^ 22) with 0 by zlia.
  replace ((0xb8000 + o) / 2 ^ 12 mod 2 ^ 10) with 0xb8 by zlia. rewrite E. simpl. f_equal. zlia.
Qed.

Lemma user_video_word L s pid o :
  layout_ok L -> paging_ok L s -> pid_ok pid -> 0 <= o < 4096 ->
  user_video L s pid o =
  if (getf present (ent2 (process_directories s) pid 890) =? 1) &&
     (getf present (ent2 (vid_tables s) pid 731) =? 1)
  then Some (getf base_31_12 (ent2 (vid_tables s) pid 731) * 4096 + o) else None.
Proof.
  intros HL Hok Hpid Ho. unfold user_video, VIRT_VID_MEM. rewrite translate_walk by (done || lia).
  destruct Hok as (_ & _ & _ & Hp). destruct (video_page _ _ _ _ _ (Hp pid Hpid)) as [E _].
  unfold walk, allows. cbv zeta. replace ((0xdeadb000 + o) / 2 ^ 22) with 890 by zlia.
  replace ((0xdeadb000 + o) / 2 ^ 12 mod 2 ^ 10) with 731 by zlia. rewrite E. simpl.
  rewrite andb_true_r. destruct (_ && _); [|done]. f_equal. zlia.
Qed.

(** After [switch_vid_mem_out] for terminal [term], or [switch_vid_mem_in], both
    views a process has of its terminal, the kernel's at 0xb8000 and its own mapped
    page, are that terminal's backing page, or the screen; the views of the other
    processes do not change. *)
Theorem switch_vid_mem_views L s pid curr_pid v o :
  layout_ok L -> paging_ok L s -> pid_ok pid -> -1 <= v < 3 -> 0 <= o < 4096 ->
  let run := if v =? -1 then switch_vid_mem_in pid curr_pid s else switch_vid_mem_out pid v curr_pid s in
  exists s', run = Some (0, s') /\ paging_ok L s' /\
    kernel_video L s' pid o = Some (VID_MEM + 4096 * (v + 1) + o) /\
    (user_video L s pid o <> None -> user_video L s' pid o = kernel_video L s' pid o) /\
    (forall q, pid_ok q -> q <> pid ->
       kernel_video L s' q o = kernel_video L s q o /\ user_video L s' q o = user_video L s q o).
Proof.
  intros HL Hok Hpid Hv Ho run.
  assert (run = set_video_base pid (0xb8 + (v + 1)) s) as ->.
  { unfold run, switch_vid_mem_in, switch_vid_mem_out. literals.
    destruct (Z.eqb_spec v (-1)) as [->|]; f_equal; lia. }
  destruct (set_video_base_ok L s pid (0xb8 + (v + 1)) Hpid) as (s' & E & _ & Hok');
    [unfold video_frame; lia | done |].
  exists s'. split; [done|]. split; [done|].
  pose proof (set_video_base_words L s s' pid _ Hok Hpid E) as Hw.
  destruct (Hw pid) as (W1 & W2 & W3). rewrite Z.eqb_refl in W2, W3. split_and!.
  - rewrite kernel_video_word by done. rewrite W2. fields. rewrite base_small by lia.
    unfold VID_MEM. f_equal. lia.
  - rewrite !user_video_word, kernel_video_word by done. rewrite W1, W2, W3. fields.
    destruct (_ && _); [|done]. intros _. by rewrite base_small by lia.
  - intros q Hq Hne. destruct (Hw q) as (V1 & V2 & V3). rewrite (proj2 (Z.eqb_neq q pid) Hne) in V2, V3.
    rewrite !user_video_word, !kernel_video_word by done. by rewrite V1, V2, V3.
Qed.

Lemma switch_vid_mem_views_witness :
  exists s s', booted demo_layout zero_paging [MapVid 2] = Some s /\
    switch_vid_mem_out 2 1 0 s = Some (0, s') /\ kernel_video demo_layout s' 2 160 = Some 0xba0a0.
Proof.
  destruct (booted_ok demo_layout zero_paging [MapVid 2]) as (s & E & Hok);
    [apply demo_layout_ok | apply zero_paging_sized | repeat constructor; unfold pid_ok; lia|].
  destruct (switch_vid_mem_views demo_layout s 2 0 1 160) as (s' & E' & _ & H & _);
    [apply demo_layout_ok | exact Hok | unfold pid_ok; lia | lia | lia|].
  exists s, s'. split; [exact E|]. split; [exact E' | exact H].
Defined.

(** The directory of a new process shows the kernel the video page of its parent,
    but the page [map_vid_memory] then opens to the program is the one its slot was
    last switched to: the two differ after the slot was used on another terminal. *)
Theorem new_paging_stale_video L s pid parent o :
  layout_ok L -> paging_ok L s -> pid_ok pid -> pid_ok parent -> 0 <= o < 4096 ->
  exists s1 s2, new_paging L pid parent s = Some (0, s1) /\ map_vid_memory L pid s1 = Some (0, s2) /\
    kernel_video L s2 pid o = kernel_video L s parent o /\
    user_video L s2 pid o = Some (getf base_31_12 (ent2 (vid_tables s) pid VIRT_VIDMEM_TABLE_ENTRY) * 4096 + o).
Proof.
  intros HL Hok Hpid Hpar Ho. literals.
  destruct (new_paging_ok L s pid parent Hpid Hpar Hok) as (s1 & E1 & _ & Hok1). exists s1.
  pose proof (new_paging_words L s s1 pid parent Hok Hpid Hpar E1) as (W1 & W2 & _).
  destruct (map_video_ok L s1 pid 1 Hpid Hok1) as (vts & pds & Ev & Ed & Hok2).
  exists (set_cr3 (pd_addr L pid) (set_tables (first_dir s1) (first_table s1) pds (page_tables s1) vts s1)).
  split; [done|]. unfold map_vid_memory. literals. unfold pid_ok in Hpid. bfalse (pid <? 0).
  rewrite Ev. bind. rewrite Ed. bind. split; [done|].
  rewrite !kernel_video_word, user_video_word by auto with galapagos. tables. rewrite W1. split; [done|].
  revert Ev Ed. pose proof Hok1 as ([] & _). do 2 entry_step. intros [= <-] [= <-]. views.
  rewrite !Z.eqb_refl. cbn [andb]. fields. by rewrite W2.
Qed.

Lemma booted_app L s0 s s' os : booted L s0 [] = Some s -> run_ops L os s = Some s' -> booted L s0 os = Some s'.
Proof. unfold booted. destruct (new_init L s0); [|done]. cbn. by intros [= ->]. Qed.

Lemma video_ops L s sa sb :
  set_video_base 3 0xba s = Some (0, sa) -> set_video_base 0 0xb8 sa = Some (0, sb) ->
  run_ops L [VidOut 3 1 0; VidIn 0 0] s = Some sb.
Proof.
  intros Ea Eb. cbn [run_ops exec]. unfold switch_vid_mem_out, switch_vid_mem_in. literals.
  change (0xb8 + 1 + 1) with 0xba. rewrite Ea. bind. by rewrite Eb.
Qed.

Lemma new_paging_stale_video_witness :
  exists s s1 s2, booted demo_layout zero_paging [VidOut 3 1 0; VidIn 0 0] = Some s /\
    new_paging demo_layout 3 0 s = Some (0, s1) /\ map_vid_memory demo_layout 3 s1 = Some (0, s2) /\
    kernel_video demo_layout s2 3 0 = Some 0xb8000 /\ user_video demo_layout s2 3 0 = Some 0xba000.
Proof.
  destruct (booted_ok demo_layout zero_paging []) as (s & E & Hok);
    [apply demo_layout_ok | apply zero_paging_sized | constructor|].
  assert (pid_ok 3 /\ pid_ok 0) as [H3 H0] by (unfold pid_ok; lia).
  destruct (set_video_base_ok demo_layout s 3 0xba H3) as (sa & Ea & _ & Hoka); [unfold video_frame; lia | exact Hok|].
  destruct (set_video_base_ok demo_layout sa 0 0xb8 H0) as (sb & Eb & _ & Hokb); [unfold video_frame; lia | exact Hoka|].
  pose proof (set_video_base_words demo_layout s sa 3 0xba Hok H3 Ea 3) as (_ & _ & Wa).
  pose proof (set_video_base_words demo_layout sa sb 0 0xb8 Hoka H0 Eb 0) as (_ & Wb & _).
  pose proof (set_video_base_words demo_layout sa sb 0 0xb8 Hoka H0 Eb 3) as (_ & _ & Wc).
  destruct (new_paging_stale_video demo_layout sb 3 0 0) as (s1 & s2 & E1 & E2 & HK & HU);
    [apply demo_layout_ok | exact Hokb | exact H3 | exact H0 | lia|].
  exists sb, s1, s2. split.
  { exact (booted_app demo_layout zero_paging s sb _ E (video_ops demo_layout s sa sb Ea Eb)). }
  split; [exact E1|]. split; [exact E2|]. literals. cbn [Z.eqb Pos.eqb] in Wa, Wb, Wc. split.
  - rewrite HK, kernel_video_word by (exact demo_layout_ok || exact Hokb || exact H0 || lia). rewrite Wb. fields. reflexivity.
  - rewrite HU, Wc, Wa. fields. reflexivity.
Defined.

(** [address_in_user] accepts exactly the addresses of the program page, for any
    process number that is not negative. *)
Theorem address_in_user_correct vaddr pid :
  0 <= vaddr < 2 ^ 32 -> 0 <= pid ->
  address_in_user (s32 vaddr) pid = 0 <-> program_page vaddr.
Proof.
  intros Hv Hp. unfold address_in_user, get_dir_entry, PAGE_BITS, TABLE_BITS, TEN_MASK, USR_DIR_ENTRY.
  bfalse (pid <? 0). rewrite Z.shiftr_div_pow2 by lia. change 0x3ff with (Z.ones 10). rewrite Z.land_ones by lia.
  unfold s32, program_page. destruct (Z.eqb_spec (((vaddr + 2 ^ 31) mod 2 ^ 32 - 2 ^ 31) / 2 ^ (12 + 10) mod 2 ^ 10) 32) as [E|E];
    cbn [negb]; [split; [intros _; zlia | done] | split; [done | intros; exfalso; apply E; zlia]].
Qed.

Lemma address_in_user_correct_witness : address_in_user (s32 0x8048000) 1 = 0 <-> program_page 0x8048000.
Proof. apply (address_in_user_correct 0x8048000 1); lia. Defined.
