(* ===== verification/Process.v ===== *)
(** * Process control blocks, [student-distrib/file_array.c] and [file_array.h]

    The data of a process and the routines of [file_array.c] that the scheduler
    and the system calls share.  A process control block exists only at
    [get_pcb_address (pid)], so a [pcb_t *] is the process number ([None] for
    NULL) and the blocks are an array; [desc] is the pointer to the descriptor
    array of one of them. *)

From stdpp Require Import base list option.
From Stdlib Require Import ZArith Lia ZifyBool.
From S2P Require Import Prelude MemOps Lib Paging.

Definition FILE_ARRAY_SIZE : Z := 8.
Definition MAX_ARGS : Z := 100.
Definition MAX_COMMAND : Z := 33.
Definition FD_IN_USE : Z := 0x00000100.
Definition FD_FREE : Z := 0.
Definition FD_START : Z := 2.
Definition RTC : Z := 0.
Definition DIRECTORY : Z := 0x00000001.
Definition REGULAR_FILE : Z := 0x00000002.
Definition STDIN : Z := 3.
Definition STDOUT : Z := 4.
Definition FILE_TYPE : Z := 0x0000000f.
Definition STACK_START : Z := 0x800000.
Definition STACK_SIZE : Z := 0x2000.
Definition PROGRAM_START : Z := 0x08048000.
Definition PROGRAM_SIZE : Z := 0x400000.
Definition USTACK_START : Z := 0x83ffffc.
Definition PID_ARR_SIZE : Z := 6.
Definition NUM_SHELLS : Z := 3.
Definition FIRST_TERMINAL : Z := 0.
Definition SECOND_TERMINAL : Z := 1.
Definition THIRD_TERMINAL : Z := 2.
Definition WORD : Z := 4.
Definition CLEAR : Z := 0.
Definition ON : Z := 1.
Definition KERNEL_CS : Z := 0x0010.
Definition USER_CS : Z := 0x0023.
Definition USER_DS : Z := 0x002B.
Definition KERNEL_DS : Z := 0x0018.
Definition KERNEL_TSS : Z := 0x0030.
Definition KERNEL_LDT : Z := 0x0038.

(** The operation tables are static objects: [std_ops], [rtc_op], [dir_op] and
    [fs_op]. *)
Inductive op_table := std_ops | rtc_op | dir_op | fs_op.

#[export] Instance op_table_eq_dec : EqDecision op_table.
Proof. solve_decision. Defined.

Record file_descriptor := FileDescriptor {
  file_op_table_ptr : option op_table; inode_ptr : Z; file_position : Z; flags : Z }.

Record pcb := Pcb {
  pid : Z; program : Z; kernel_stack : Z; user_stack : Z; instr_ptr : Z;
  parent : option Z; child : option Z;
  files : list file_descriptor;
  command : list Z; args : list Z;
  esp : Z; ebp : Z; ret_status : Z; terminal : Z }.

(** The size of the packed struct. *)
Definition sizeof_pcb : Z := 7 * 4 + FILE_ARRAY_SIZE * 16 + MAX_COMMAND + MAX_ARGS + 4 + 4 + 1 + 4.

Record procs := Procs {
  pcbs : list pcb;
  curr_process : option Z;
  desc : option Z;
  pid_arr : list Z;
  roots : list (option Z);
  esp0 : Z;
  pg : paging;
  kmem : memory }.

Definition set_pcbs (x : list pcb) (s : procs) : procs :=
  Procs x (curr_process s) (desc s) (pid_arr s) (roots s) (esp0 s) (pg s) (kmem s).
Definition set_curr (x : option Z) (s : procs) : procs :=
  Procs (pcbs s) x (desc s) (pid_arr s) (roots s) (esp0 s) (pg s) (kmem s).
Definition set_desc (x : option Z) (s : procs) : procs :=
  Procs (pcbs s) (curr_process s) x (pid_arr s) (roots s) (esp0 s) (pg s) (kmem s).
Definition set_pid_arr (x : list Z) (s : procs) : procs :=
  Procs (pcbs s) (curr_process s) (desc s) x (roots s) (esp0 s) (pg s) (kmem s).
Definition set_roots (x : list (option Z)) (s : procs) : procs :=
  Procs (pcbs s) (curr_process s) (desc s) (pid_arr s) x (esp0 s) (pg s) (kmem s).
Definition set_esp0 (x : Z) (s : procs) : procs :=
  Procs (pcbs s) (curr_process s) (desc s) (pid_arr s) (roots s) x (pg s) (kmem s).
Definition set_pg (x : paging) (s : procs) : procs :=
  Procs (pcbs s) (curr_process s) (desc s) (pid_arr s) (roots s) (esp0 s) x (kmem s).
Definition set_kmem (x : memory) (s : procs) : procs :=
  Procs (pcbs s) (curr_process s) (desc s) (pid_arr s) (roots s) (esp0 s) (pg s) x.

(** Update of the block a [pcb_t] pointer points to. *)
Definition upd_pcb (p : Z) (g : pcb -> pcb) (s : procs) : option procs :=
  b ← (pcbs s).[p]; bs ← (pcbs s).[p <- g b]; Some (set_pcbs bs s).

Definition with_files (x : list file_descriptor) (b : pcb) : pcb :=
  Pcb (pid b) (program b) (kernel_stack b) (user_stack b) (instr_ptr b) (parent b) (child b) x
    (command b) (args b) (esp b) (ebp b) (ret_status b) (terminal b).
Definition with_parent (x : option Z) (b : pcb) : pcb :=
  Pcb (pid b) (program b) (kernel_stack b) (user_stack b) (instr_ptr b) x (child b) (files b)
    (command b) (args b) (esp b) (ebp b) (ret_status b) (terminal b).
Definition with_child (x : option Z) (b : pcb) : pcb :=
  Pcb (pid b) (program b) (kernel_stack b) (user_stack b) (instr_ptr b) (parent b) x (files b)
    (command b) (args b) (esp b) (ebp b) (ret_status b) (terminal b).
Definition with_terminal (x : Z) (b : pcb) : pcb :=
  Pcb (pid b) (program b) (kernel_stack b) (user_stack b) (instr_ptr b) (parent b) (child b) (files b)
    (command b) (args b) (esp b) (ebp b) (ret_status b) x.
Definition with_ret_status (x : Z) (b : pcb) : pcb :=
  Pcb (pid b) (program b) (kernel_stack b) (user_stack b) (instr_ptr b) (parent b) (child b) (files b)
    (command b) (args b) (esp b) (ebp b) x (terminal b).
Definition with_esp_ebp (x y : Z) (b : pcb) : pcb :=
  Pcb (pid b) (program b) (kernel_stack b) (user_stack b) (instr_ptr b) (parent b) (child b) (files b)
    (command b) (args b) x y (ret_status b) (terminal b).

(** ** Addresses *)

Definition get_kstack_address (pid : Z) : Z := u32 (STACK_START - pid * STACK_SIZE - WORD).
Definition get_pcb_address (pid : Z) : Z := u32 (STACK_START - (pid + 1) * STACK_SIZE).
Definition get_program_address (pid : Z) : Z := u32 (PROGRAM_START + pid * PROGRAM_SIZE).
Definition get_ustack_address (pid : Z) : Z := u32 (PROGRAM_START + pid * PROGRAM_SIZE - WORD).

(** ** Process numbers *)

Definition pid_init (s : procs) : procs := set_pid_arr (replicate (length (pid_arr s)) CLEAR) s.

Fixpoint free_pid_from (k : nat) (idx : Z) (l : list Z) : option Z :=
  match k with
  | O => Some ERROR
  | S k' => x ← l.[idx]; if x =? CLEAR then Some idx else free_pid_from k' (idx + 1) l
  end.

Definition free_pid_idx (s : procs) : option Z := free_pid_from (Z.to_nat PID_ARR_SIZE) 0 (pid_arr s).

Definition init_process (curr_pid : Z) (s : procs) : option (Z * procs) :=
  l ← (pid_arr s).[curr_pid <- 0]; Some (SUCCESS, set_curr None (set_pid_arr l s)).

(** ** Descriptor arrays *)

Definition clear_flags (f : file_descriptor) : file_descriptor :=
  FileDescriptor (file_op_table_ptr f) (inode_ptr f) (file_position f) CLEAR.

Definition clear_fdarray (f : list file_descriptor) : option (list file_descriptor) :=
  for_up (Z.to_nat FILE_ARRAY_SIZE) 0 (fun i f => d ← f.[i]; f.[i <- clear_flags d]) f.

(** The descriptors [desc] points to. *)
Definition get_desc (s : procs) : option (list file_descriptor) :=
  p ← desc s; b ← (pcbs s).[p]; Some (files b).
Definition put_desc (f : list file_descriptor) (s : procs) : option procs :=
  p ← desc s; upd_pcb p (with_files f) s.

Definition open_stdin_stdout (s : procs) : option (Z * procs) :=
  f ← get_desc s;
  f ← f.[0 <- FileDescriptor (Some std_ops) 0 CLEAR (Z.lor FD_IN_USE STDIN)];
  f ← f.[1 <- FileDescriptor (Some std_ops) 0 CLEAR (Z.lor FD_IN_USE STDOUT)];
  s ← put_desc f s;
  Some (SUCCESS, s).

(** ** The current process *)

Definition get_curr_process_terminal (s : procs) : option Z :=
  match curr_process s with
  | None => Some 0
  | Some p => b ← (pcbs s).[p]; Some (terminal b)
  end.

Definition set_current_process (p : Z) (s : procs) : option (Z * procs) :=
  let s := set_desc (Some p) (set_curr (Some p) s) in
  f ← get_desc s; f ← clear_fdarray f; s ← put_desc f s;
  b ← (pcbs s).[p];
  Some (0, set_esp0 (kernel_stack b) s).

Definition reset_curr_process (L : layout) (p : Z) (s : procs) : option procs :=
  let s := set_desc (Some p) (set_curr (Some p) s) in
  b ← (pcbs s).[p];
  let s := set_esp0 (kernel_stack b) s in
  '(_, pg') ← switch_paging L (pid b) (pg s);
  Some (set_pg pg' s).

(** [curr_terminal] is the terminal on display, [get_curr_terminal ()]. *)
Definition pcb_init (p new_pid eip : Z) (cmd a : list Z) (curr_terminal : Z) (s : procs) : option procs :=
  b ← (pcbs s).[p];
  let term := if NUM_SHELLS <=? new_pid then curr_terminal else new_pid in
  s ← upd_pcb p (fun b => Pcb new_pid PROGRAM_START (get_kstack_address new_pid) USTACK_START eip
        (curr_process s) None (files b) (command b) (args b) (esp b) (ebp b) (ret_status b) term) s;
  s ← match curr_process s with
      | Some q => if THIRD_TERMINAL <? new_pid then upd_pcb q (with_child (Some p)) s else Some s
      | None => Some s
      end;
  b ← (pcbs s).[p];
  c ← strcpy (command b) cmd;
  a' ← strcpy (args b) a;
  upd_pcb p (fun b => Pcb (pid b) (program b) (kernel_stack b) (user_stack b) (instr_ptr b) (parent b)
    (child b) (files b) c a' (esp b) (ebp b) (ret_status b) (terminal b)) s.
