(* ===== verification/Schedule.v ===== *)
(** * The scheduler, [student-distrib/schedule.c] and [schedule.h]

    The run queue is a circular doubly linked list of the nodes of a static array
    and a sentinel.  It is translated with its pointers; [ring] is the abstraction,
    the sequence of process numbers the queue holds.  A context switch is the
    assignment to [esp] and [ebp] in the middle of [pit_handler]: the handler takes
    the two registers and returns their new values.  [pit_ret] is the code of
    [assembly_linkage.S] that runs after the handler returns. *)

From stdpp Require Import base list option sets.
From Stdlib Require Import ZArith Lia ZifyBool.
From S2P Require Import Prelude MemOps Paging Process.

Definition NUM_PROCESSES : Z := 6.
Definition STACK_FLAGS : Z := 0x00000202.
Definition NUM_IRET_STACK : Z := 5.
Definition NUM_REG_STACK : Z := 8.
Definition MOVE_NEW_STACK : Z := 10.

Inductive task_state := TASK_RUNNING | TASK_INACTIVE | TASK_SENTINEL | TASK_FINISHED.

#[export] Instance task_state_eq_dec : EqDecision task_state.
Proof. solve_decision. Defined.

(** [&sentinel] or [&run_queue[pid]]. *)
Inductive node_ptr := Sentinel | Task (pid : Z).

#[export] Instance node_ptr_eq_dec : EqDecision node_ptr.
Proof. solve_decision. Defined.

Record iret_t := Iret { eip : Z; cs : Z; iflags : Z; uesp : Z; ss : Z }.

Record run_queue_node := Node {
  next_task : option node_ptr; prev_task : option node_ptr;
  process : option Z; running : task_state }.

Record sched := Sched {
  run_queue : list run_queue_node; sentinel : run_queue_node;
  curr_node : option node_ptr; head : option node_ptr; tail : option node_ptr;
  first_shell : bool; first_schedule : bool }.

Definition set_curr_node (x : option node_ptr) (s : sched) : sched :=
  Sched (run_queue s) (sentinel s) x (head s) (tail s) (first_shell s) (first_schedule s).
Definition set_head (x : option node_ptr) (s : sched) : sched :=
  Sched (run_queue s) (sentinel s) (curr_node s) x (tail s) (first_shell s) (first_schedule s).
Definition set_tail (x : option node_ptr) (s : sched) : sched :=
  Sched (run_queue s) (sentinel s) (curr_node s) (head s) x (first_shell s) (first_schedule s).
Definition set_first_shell (x : bool) (s : sched) : sched :=
  Sched (run_queue s) (sentinel s) (curr_node s) (head s) (tail s) x (first_schedule s).
Definition set_first_schedule (x : bool) (s : sched) : sched :=
  Sched (run_queue s) (sentinel s) (curr_node s) (head s) (tail s) (first_shell s) x.

Definition node_at (s : sched) (x : node_ptr) : option run_queue_node :=
  match x with Sentinel => Some (sentinel s) | Task p => (run_queue s).[p] end.

Definition upd_node (x : node_ptr) (g : run_queue_node -> run_queue_node) (s : sched) : option sched :=
  match x with
  | Sentinel => Some (Sched (run_queue s) (g (sentinel s)) (curr_node s) (head s) (tail s)
                        (first_shell s) (first_schedule s))
  | Task p =>
      n ← (run_queue s).[p]; q ← (run_queue s).[p <- g n];
      Some (Sched q (sentinel s) (curr_node s) (head s) (tail s) (first_shell s) (first_schedule s))
  end.

Definition set_next (x : option node_ptr) (n : run_queue_node) : run_queue_node :=
  Node x (prev_task n) (process n) (running n).
Definition set_prev (x : option node_ptr) (n : run_queue_node) : run_queue_node :=
  Node (next_task n) x (process n) (running n).
Definition set_running (x : task_state) (n : run_queue_node) : run_queue_node :=
  Node (next_task n) (prev_task n) (process n) x.

(** [memcpy] of an [iret_t] to the address [a]. *)
Definition put_iret (m : memory) (a : Z) (f : iret_t) : memory :=
  let m := store32 m a (eip f) in
  let m := store32 m (u32 (a + 4)) (cs f) in
  let m := store32 m (u32 (a + 8)) (iflags f) in
  let m := store32 m (u32 (a + 12)) (uesp f) in
  store32 m (u32 (a + 16)) (ss f).

(** The stack [schedule] makes up for a task that has never run: an interrupt
    frame, the flags and registers the linkage saves, the return address into the
    linkage and the saved frame pointer.  The result is the new stack pointer. *)
Definition fabricate (pit_ret : Z) (task : pcb) (m : memory) : Z * memory :=
  let new_stack := kernel_stack task in
  let new_stack := u32 (new_stack - 4 * NUM_IRET_STACK) in
  let m := put_iret m new_stack (Iret (instr_ptr task) USER_CS STACK_FLAGS (user_stack task) USER_DS) in
  let new_stack := u32 (new_stack - 4) in
  let m := store32 m new_stack STACK_FLAGS in
  let all_registers := u32 (new_stack - 4 * NUM_REG_STACK) in
  let m := store32 m (u32 (all_registers + 12)) new_stack in
  let new_stack := u32 (new_stack - 4 * MOVE_NEW_STACK) in
  let m := store32 m new_stack pit_ret in
  let new_stack := u32 (new_stack - 4) in
  let m := store32 m new_stack (kernel_stack task) in
  (new_stack, m).

Section Code.
(** The placement of the page tables and the address of [pit_ret]. *)
Context (L : layout) (pit_ret : Z).

Definition sched_init (s : sched) : option sched :=
  let s := set_head (Some Sentinel) s in
  let s := set_tail (head s) s in
  h ← head s;
  s ← upd_node h (set_next (head s)) s;
  s ← upd_node h (set_prev (tail s)) s;
  Some (set_curr_node (head s) s).

(** The assignments of [schedule] that link the node of [pid] in before the
    sentinel. *)
Definition enqueue (pid : Z) (s : sched) : option sched :=
  let new_task := Task pid in
  t ← tail s; tn ← node_at s t;
  s ← upd_node new_task (fun n => Node (next_task tn) (tail s) (Some pid) TASK_RUNNING) s;
  s ← upd_node t (set_next (Some new_task)) s;
  let s := set_tail (Some new_task) s in
  h ← head s;
  upd_node h (set_prev (tail s)) s.

Definition schedule (pid : Z) (s : sched) (p : procs) : option (sched * procs) :=
  task ← (pcbs p).[pid];
  s ← enqueue pid s;
  s ← match parent task with
      | Some q => pt ← (pcbs p).[q]; upd_node (Task (Process.pid pt)) (set_running TASK_INACTIVE) s
      | None => Some s
      end;
  p ← (if negb (first_schedule s && bool_decide (curr_node s = Some Sentinel)) then
         let '(new_stack, m) := fabricate pit_ret task (kmem p) in
         upd_pcb pid (with_esp_ebp new_stack new_stack) (set_kmem m p)
       else Some p);
  Some (set_first_schedule false s, p).

Definition unschedule (pid parent_pid : Z) (s : sched) : option sched :=
  s ← upd_node (Task pid) (set_running TASK_FINISHED) s;
  if NUM_SHELLS <=? pid then upd_node (Task parent_pid) (set_running TASK_RUNNING) s else Some s.

(** [while (new_task->running != TASK_RUNNING) new_task = new_task->next_task;] *)
Fixpoint find_running (fuel : nat) (s : sched) (x : node_ptr) : option node_ptr :=
  match fuel with
  | O => None
  | S fuel' =>
      n ← node_at s x;
      if bool_decide (running n = TASK_RUNNING) then Some x
      else y ← next_task n; find_running fuel' s y
  end.

(** The queue has at most six tasks and the sentinel. *)
Definition LOOP_FUEL : nat := 8.

(** Take the current task out of the queue, its successor being [new_task]. *)
Definition unlink (c new_task : node_ptr) (s : sched) : option sched :=
  n ← node_at s c;
  prev ← prev_task n;
  s ← upd_node prev (set_next (Some new_task)) s;
  s ← upd_node new_task (set_prev (Some prev)) s;
  s ← upd_node c (fun n => Node None None (process n) (running n)) s;
  Some (if bool_decide (Some c = tail s) then set_tail (Some prev) s else s).

(** [regs] is the address of the interrupt frame, [esp_in] and [ebp_in] the
    registers in the handler; the result has their new values. *)
Definition pit_handler (regs esp_in ebp_in : Z) (s : sched) (p : procs)
  : option (sched * procs * Z * Z) :=
  c ← curr_node s;
  if first_shell s && bool_decide (c = Sentinel) then
    cn ← node_at s c; new_task ← next_task cn; nn ← node_at s new_task; q ← process nn;
    b ← (pcbs p).[q];
    let frame := Iret (instr_ptr b) USER_CS STACK_FLAGS (user_stack b) USER_DS in
    p ← reset_curr_process L q p;
    let s := set_curr_node (Some new_task) s in
    let p := set_kmem (put_iret (kmem p) regs frame) p in
    Some (set_first_shell false s, p, esp_in, ebp_in)
  else
    cn ← node_at s c; new_task ← next_task cn;
    s ← (if bool_decide (running cn = TASK_FINISHED) then unlink c new_task s else Some s);
    new_task ← find_running LOOP_FUEL s new_task;
    cn ← node_at s c; q ← process cn;
    p ← upd_pcb q (with_esp_ebp esp_in ebp_in) p;
    nn ← node_at s new_task; q' ← process nn;
    p ← reset_curr_process L q' p;
    let s := set_curr_node (Some new_task) s in
    b ← (pcbs p).[q'];
    Some (s, p, esp b, ebp b).

End Code.

(** ** The end of a time slice

    [pit_handler] ends in [leave; ret]; then [pit_ret] drops the argument, calls
    [send_eoi] and restores the registers ([popal] skips [esp]), the flags and the
    interrupt frame. *)

Record cpu := Cpu { c_ret : Z; c_ebp : Z; c_flags : Z; c_frame : iret_t; c_esp : Z }.

Definition load_iret (m : memory) (a : Z) : iret_t :=
  Iret (load32 m a) (load32 m (u32 (a + 4))) (load32 m (u32 (a + 8)))
       (load32 m (u32 (a + 12))) (load32 m (u32 (a + 16))).

(** From [ebp] in the handler: the return address, the restored [ebp] and flags
    and the frame [iret] consumes. *)
Definition resume (m : memory) (ebp_in : Z) : cpu :=
  let sp := ebp_in in
  let sp := u32 (sp + 4) in
  let ret := load32 m sp in
  let sp := u32 (sp + 4) in
  let sp := u32 (sp + 4) in
  let restored_ebp := load32 m (u32 (sp + 8)) in
  let sp := u32 (sp + 32) in
  let fl := load32 m sp in
  let sp := u32 (sp + 4) in
  Cpu ret restored_ebp fl (load_iret m sp) (u32 (sp + 20)).

(** ** The made-up stack *)

Ltac area_tac := unfold area; lia.

(** Read a dword back through the stores of the code. *)
Ltac loads :=
  repeat first [ rewrite load_store_same by area_tac | rewrite load_store_other by area_tac ].

Definition u32_range_of (z : Z) : Prop := 0 <= z < 2 ^ 32.

(** The addresses the stores of [fabricate] go to. *)
Lemma fabricate_eq pit_ret task m :
  68 <= kernel_stack task < 2 ^ 32 ->
  let K := kernel_stack task in
  fabricate pit_ret task m =
  (K - 68, store32 (store32 (store32 (store32
     (put_iret m (K - 20) (Iret (instr_ptr task) USER_CS STACK_FLAGS (user_stack task) USER_DS))
     (K - 24) STACK_FLAGS) (K - 44) (K - 24)) (K - 64) pit_ret) (K - 68) K).
Proof.
  intros HK K. unfold fabricate, NUM_IRET_STACK, NUM_REG_STACK, MOVE_NEW_STACK. cbv zeta. fold K.
  rewrite (u32_small (K - 4 * 5)) by lia. replace (K - 4 * 5) with (K - 20) by lia.
  rewrite (u32_small (K - 20 - 4)) by lia. replace (K - 20 - 4) with (K - 24) by lia.
  rewrite (u32_small (K - 24 - 4 * 8)), (u32_small (K - 24 - 4 * 8 + 12)) by lia.
  replace (K - 24 - 4 * 8 + 12) with (K - 44) by lia.
  rewrite (u32_small (K - 24 - 4 * 10)) by lia. replace (K - 24 - 4 * 10) with (K - 64) by lia.
  rewrite (u32_small (K - 64 - 4)) by lia. replace (K - 64 - 4) with (K - 68) by lia. done.
Qed.

Lemma put_iret_eq m a f :
  0 <= a -> a + 20 <= 2 ^ 32 ->
  put_iret m a f = store32 (store32 (store32 (store32 (store32 m a (eip f)) (a + 4) (cs f))
    (a + 8) (iflags f)) (a + 12) (uesp f)) (a + 16) (ss f).
Proof. intros. unfold put_iret. cbv zeta. by rewrite !u32_small by lia. Qed.

Lemma store32_frame m a v x : area a 4 -> ~ a <= x < a + 4 -> store32 m a v x = m x.
Proof. intros Ha Hx. rewrite store32_get by done. case_if; [lia | done]. Qed.

Lemma resume_fabricated pit_ret task m :
  68 <= kernel_stack task < 2 ^ 32 -> u32_range_of pit_ret -> u32_range_of (instr_ptr task) ->
  u32_range_of (user_stack task) ->
  let K := kernel_stack task in
  let '(sp, m') := fabricate pit_ret task m in
  sp = K - 68 /\
  (forall x, ~ K - 68 <= x < K -> m' x = m x) /\
  let c := resume m' sp in
  c_ret c = pit_ret /\ c_flags c = STACK_FLAGS /\ c_esp c = u32 K /\
  c_frame c = Iret (instr_ptr task) USER_CS STACK_FLAGS (user_stack task) USER_DS.
Proof.
  unfold u32_range_of. intros HK Hr Hi Hu. rewrite fabricate_eq by done. set (K := kernel_stack task) in *. cbv zeta.
  rewrite put_iret_eq by lia. cbn [eip cs iflags uesp ss].
  split; [done|]. split.
  { intros x Hx. rewrite !store32_frame by (area_tac || lia). done. }
  unfold resume. cbv zeta. cbn [c_ret c_flags c_frame c_esp].
  rewrite (u32_small (K - 68 + 4)) by lia. rewrite (u32_small (K - 68 + 4 + 4)) by lia.
  rewrite (u32_small (K - 68 + 4 + 4 + 4)) by lia. rewrite (u32_small (K - 68 + 4 + 4 + 4 + 32)) by lia.
  rewrite (u32_small (K - 68 + 4 + 4 + 4 + 32 + 4)) by lia.
  replace (K - 68 + 4 + 4 + 4 + 32 + 4) with (K - 20) by lia.
  replace (K - 68 + 4 + 4 + 4 + 32) with (K - 24) by lia. replace (K - 68 + 4) with (K - 64) by lia.
  unfold load_iret. rewrite !u32_small by lia.
  unfold STACK_FLAGS, USER_CS, USER_DS. split_and!; loads; try done. lia.
Qed.

(** ** The queue as a sequence *)

(** Consecutive elements of a list are related. *)
Fixpoint chain {A} (R : A -> A -> Prop) (l : list A) : Prop :=
  match l with
  | [] => True
  | x :: l' => match l' with [] => True | y :: _ => R x y end /\ chain R l'
  end.

Lemma chain_app {A} (R : A -> A -> Prop) l x k :
  chain R (l ++ x :: k) <-> chain R (l ++ [x]) /\ chain R (x :: k).
Proof.
  induction l as [|y l IH]; [cbn; tauto|]. cbn [app chain]. rewrite IH.
  destruct l; simpl; tauto.
Qed.

Lemma chain_mono {A} (R R' : A -> A -> Prop) l :
  (forall x y, x ∈ removelast l -> y ∈ list.tail l -> R x y -> R' x y) -> chain R l -> chain R' l.
Proof.
  induction l as [|x l IH]; [done|]. intros H [H1 H2]. split.
  - destruct l as [|y l]; [done|]. apply H; [by left | by left | done].
  - apply IH; [|done]. intros a b Ha Hb. apply H; [|by destruct l; [inversion Hb | right]].
    destruct l; [inversion Ha | by right].
Qed.

Lemma chain_prefix {A} (R : A -> A -> Prop) l k : chain R (l ++ k) -> chain R l.
Proof.
  revert k. induction l as [|x l IH]; intros k; [done|]. cbn [app chain]. intros [H1 H2].
  split; [by destruct l | by apply (IH k)].
Qed.

Lemma chain_suffix {A} (R : A -> A -> Prop) l k : chain R (l ++ k) -> chain R k.
Proof. induction l as [|x l IH]; [done|]. intros [_ H]. auto. Qed.

Definition dummy_node : run_queue_node := Node None None None TASK_SENTINEL.
Definition nd (s : sched) (x : node_ptr) : run_queue_node := default dummy_node (node_at s x).
Definition ptr_ok (x : node_ptr) : Prop := match x with Sentinel => True | Task p => 0 <= p < 6 end.
Definition pointers (s : sched) := (curr_node s, head s, tail s, first_shell s, first_schedule s).

Definition link (s : sched) (x y : node_ptr) : Prop :=
  next_task (nd s x) = Some y /\ prev_task (nd s y) = Some x.

Definition task_ok (s : sched) (p : Z) : Prop :=
  0 <= p < 6 /\ process (nd s (Task p)) = Some p.

(** The queue is the circle of the sentinel and the tasks [q], in this order. *)
Record ring (s : sched) (q : list Z) : Prop := {
  ring_size : Z.of_nat (length (run_queue s)) = 6;
  ring_head : head s = Some Sentinel;
  ring_tail : tail s = last (Sentinel :: map Task q);
  ring_nodup : NoDup q;
  ring_links : chain (link s) (Sentinel :: map Task q ++ [Sentinel]);
  ring_sentinel : running (nd s Sentinel) = TASK_SENTINEL;
  ring_tasks : Forall (task_ok s) q }.

Lemma node_at_nd s x : Z.of_nat (length (run_queue s)) = 6 -> ptr_ok x -> node_at s x = Some (nd s x).
Proof.
  intros Hl Hx. unfold nd. destruct x as [|p]; [done|]. cbn in *.
  destruct (zget_ex (run_queue s) p) as [n Hn]; [lia|]. by rewrite Hn.
Qed.

Lemma upd_node_ok s x g :
  Z.of_nat (length (run_queue s)) = 6 -> ptr_ok x ->
  exists s', upd_node x g s = Some s' /\ Z.of_nat (length (run_queue s')) = 6 /\ pointers s' = pointers s /\
    forall y, nd s' y = if decide (y = x) then g (nd s x) else nd s y.
Proof.
  intros Hl Hx. destruct x as [|p]; cbn [upd_node].
  - eexists. split_and!; [done | done | done |]. intros [|p]; [by rewrite decide_True | done].
  - cbn in Hx. destruct (zget_ex (run_queue s) p) as [n Hn]; [lia|]. rewrite Hn. bind.
    destruct ((run_queue s).[p <- g n]) as [q|] eqn:E; [|by rewrite zset_in in E by lia]. bind.
    eexists. split_and!; [done | cbn [run_queue]; by rewrite (zset_length _ _ _ _ E) | done |].
    intros [|p']; [done|]. unfold nd. cbn [node_at run_queue]. rewrite (zget_zset _ _ _ _ _ E).
    destruct (Z.eqb_spec p' p) as [->|Hne]; [rewrite decide_True, Hn by done; done|].
    rewrite decide_False by congruence. done.
Qed.

(** Run the next assignment to a node. *)
Ltac node_step :=
  match goal with
  | |- context [upd_node ?x ?g ?s] =>
      let s' := fresh "s" in let E := fresh "E" in let Hl := fresh "Hl" in
      let Hp := fresh "Hp" in let Hn := fresh "Hn" in
      destruct (upd_node_ok s x g) as (s' & E & Hl & Hp & Hn); [ assumption | assumption |];
      rewrite E; clear E; bind
  end.

(** Read nodes back through the assignments run so far. *)
Ltac node_views :=
  repeat match goal with
  | H : (forall y, nd ?t y = _) |- context [nd ?t _] => is_var t; rewrite H
  end.

Lemma map_Task_elem x q : x ∈ map Task q <-> exists p, x = Task p /\ p ∈ q.
Proof. rewrite list_elem_of_fmap. naive_solver. Qed.

Lemma ring_length s q : ring s q -> (length q <= 6)%nat.
Proof.
  intros []. change 6%nat with (length (seqZ 0 6)). apply NoDup_incl_length; [by apply NoDup_ListNoDup|].
  intros p Hp. apply list_elem_of_In, elem_of_seqZ. rewrite Forall_forall in ring_tasks0.
  apply list_elem_of_In in Hp. destruct (ring_tasks0 p Hp). lia.
Qed.

Lemma NoDup_ptrs q : NoDup q -> NoDup (Sentinel :: map Task q).
Proof.
  intros Hq. constructor; [by intros (r & ? & _)%map_Task_elem|].
  apply NoDup_fmap_2; [|done]. intros x y. congruence.
Qed.

Lemma removelast_snoc {A} (l : list A) x : removelast (l ++ [x]) = l.
Proof. apply removelast_last. Qed.

(** The last element of a list that is not empty. *)
Lemma snoc_view {A} (x : A) l : exists k t, x :: l = k ++ [t] /\ last (x :: l) = Some t.
Proof.
  destruct (exists_last (l := x :: l)) as (k & t & E); [done|]. exists k, t. split; [done|].
  rewrite E. apply last_snoc.
Qed.

Lemma last_app_cons {A} (l : list A) x k : last (l ++ x :: k) = last (x :: k).
Proof. induction l as [|y l IH]; [done|]. cbn [app]. rewrite <- IH. by destruct l. Qed.

Lemma last_Some_elem_of {A} (l : list A) x : last l = Some x -> x ∈ l.
Proof.
  intros H. destruct l as [|y l]; [done|]. destruct (snoc_view y l) as (k & t & E & Ht). rewrite E.
  replace x with t by congruence. apply elem_of_app. right. by left.
Qed.

(** The sentinel or a task of the queue. *)
Definition on_ring (q : list Z) (x : node_ptr) : Prop := x ∈ Sentinel :: map Task q.

Lemma on_ring_ok s q x : ring s q -> on_ring q x -> ptr_ok x.
Proof.
  intros [] Hx. apply elem_of_cons in Hx as [-> | (p & -> & Hp)%map_Task_elem]; [done|].
  rewrite Forall_forall in ring_tasks0. apply ring_tasks0 in Hp as [? _]. done.
Qed.

Lemma snoc_split q (l : list node_ptr) t :
  Sentinel :: map Task q = l ++ [t] ->
  forall y, y ∈ list.tail (l ++ [t]) -> exists p, y = Task p /\ p ∈ q.
Proof. intros <- y Hy. by apply map_Task_elem. Qed.

Lemma elem_snoc {A} (l : list A) x : x ∈ l ++ [x].
Proof. apply elem_of_app. right. by left. Qed.

Lemma Task_on_ring q p : on_ring q (Task p) -> p ∈ q.
Proof. intros [? | (r & [= <-] & ?)%map_Task_elem]%elem_of_cons; done. Qed.

(** Links of [s] hold in [s'] between nodes that keep their pointers. *)
Lemma chain_frame s s' l :
  (forall x, x ∈ removelast l -> next_task (nd s' x) = next_task (nd s x)) ->
  (forall y, y ∈ list.tail l -> prev_task (nd s' y) = prev_task (nd s y)) ->
  chain (link s) l -> chain (link s') l.
Proof.
  intros Hx Hy. apply chain_mono. intros x y Hxl Hyl [H1 H2]. split.
  - by rewrite Hx.
  - by rewrite Hy.
Qed.

(** The nodes after a task [p] is put behind the last element [t] of the circle. *)
Record enqueued (s s' : sched) (q : list Z) (p : Z) (t : node_ptr) : Prop := {
  enq_size : Z.of_nat (length (run_queue s')) = 6;
  enq_curr : curr_node s' = curr_node s;
  enq_head : head s' = head s;
  enq_tail : tail s' = Some (Task p);
  enq_schedule : first_schedule s' = first_schedule s;
  enq_shell : first_shell s' = first_shell s;
  enq_next : forall y, on_ring q y -> y <> t -> next_task (nd s' y) = next_task (nd s y);
  enq_prev : forall y, on_ring q y -> y <> Sentinel -> prev_task (nd s' y) = prev_task (nd s y);
  enq_link_left : link s' t (Task p);
  enq_link_right : link s' (Task p) Sentinel;
  enq_task : running (nd s' (Task p)) = TASK_RUNNING /\ process (nd s' (Task p)) = Some p;
  enq_other : forall y, y <> Task p -> running (nd s' y) = running (nd s y) /\ process (nd s' y) = process (nd s y) }.

Lemma enqueue_nodes s q p l t :
  ring s q -> 0 <= p < 6 -> p ∉ q -> Sentinel :: map Task q = l ++ [t] ->
  exists s', enqueue p s = Some s' /\ enqueued s s' q p t.
Proof.
  intros Hring Hp Hnew El. pose proof Hring as []. rewrite El, last_snoc in ring_tail0.
  assert (on_ring q t) as Hton by (unfold on_ring; rewrite El; apply elem_snoc).
  pose proof (on_ring_ok s q t Hring Hton) as Ht.
  assert (ptr_ok (Task p)) as Hpp by done. assert (ptr_ok Sentinel) as Hsp by done.
  assert (forall x, on_ring q x -> x <> Task p) as Hne by (intros x Hx ->; by apply Hnew, Task_on_ring).
  pose proof (Hne t Hton) as Htp.
  assert (next_task (nd s t) = Some Sentinel) as Htn.
  { change (Sentinel :: map Task q ++ [Sentinel]) with ((Sentinel :: map Task q) ++ [Sentinel]) in ring_links0.
    rewrite El, <- app_assoc in ring_links0. apply chain_suffix in ring_links0 as [[? _] _]. done. }
  unfold enqueue. cbv zeta. rewrite ring_tail0. bind. rewrite node_at_nd by done. bind.
  do 2 node_step. injection Hp1 as Ec1 Eh1 Et1 Ef1 Eg1. injection Hp0 as Ec0 Eh0 Et0 Ef0 Eg0.
  cbn [set_tail head tail]. rewrite Eh1, Eh0, ring_head0. bind.
  destruct (upd_node_ok (set_tail (Some (Task p)) s1) Sentinel (set_prev (Some (Task p))))
    as (s2 & -> & Hl2 & Hp2 & Hn2); [done | done|].
  change (nd (set_tail (Some (Task p)) s1)) with (nd s1) in Hn2. injection Hp2 as Ec2 Eh2 Et2 Ef2 Eg2.
  exists s2. split; [done|]. split; try done; try congruence.
  - intros y Hy Hyt. specialize (Hne y Hy). node_views. repeat destruct (decide _); subst; done.
  - intros y Hy Hys. specialize (Hne y Hy). node_views. repeat destruct (decide _); subst; done.
  - split; node_views; repeat destruct (decide _); subst; done.
  - split; node_views; repeat destruct (decide _); subst; done.
  - split; node_views; repeat destruct (decide _); subst; done.
  - intros y Hy. split; node_views; repeat destruct (decide _); subst; done.
Qed.

Lemma enqueued_chain s s' q p l t :
  ring s q -> Sentinel :: map Task q = l ++ [t] -> enqueued s s' q p t ->
  chain (link s') (Sentinel :: map Task (q ++ [p]) ++ [Sentinel]).
Proof.
  intros [] El []. pose proof (NoDup_ptrs q ring_nodup0) as Hnd. rewrite El in Hnd. apply NoDup_app in Hnd as (_ & Hnt & _).
  rewrite map_app, app_comm_cons, app_comm_cons, El, <- !app_assoc. cbn [map app]. apply chain_app. split; [|by split].
  apply (chain_frame s).
  - rewrite removelast_snoc. intros x Hx. apply enq_next0; [unfold on_ring; rewrite El; apply elem_of_app; by left|].
    intros ->. by apply (Hnt t Hx), list_elem_of_singleton.
  - intros y (r & -> & Hr)%(snoc_split q l t El). apply enq_prev0; [|done].
    apply elem_of_cons. right. apply map_Task_elem. eauto.
  - rewrite <- El. apply (chain_prefix _ _ [Sentinel]). done.
Qed.

Lemma enqueue_ring s q p :
  ring s q -> 0 <= p < 6 -> p ∉ q ->
  exists s', enqueue p s = Some s' /\ ring s' (q ++ [p]) /\ curr_node s' = curr_node s /\
    first_schedule s' = first_schedule s /\ first_shell s' = first_shell s /\
    running (nd s' (Task p)) = TASK_RUNNING /\
    forall r, r <> p -> running (nd s' (Task r)) = running (nd s (Task r)).
Proof.
  intros Hring Hp Hnew. destruct (snoc_view Sentinel (map Task q)) as (l & t & El & _).
  destruct (enqueue_nodes s q p l t Hring Hp Hnew El) as (s' & E & Henq).
  pose proof (enqueued_chain _ _ _ _ _ _ Hring El Henq) as Hchain. exists s'. split; [done|]. pose proof Hring as []. destruct Henq.
  split_and!; try done; [|apply enq_task0 | intros r Hr; apply enq_other0; congruence].
  split; try done; try congruence.
  - rewrite enq_tail0, map_app, app_comm_cons. symmetry. apply last_snoc.
  - apply NoDup_app. split_and!; [done | intros x Hx ->%list_elem_of_singleton; done | apply NoDup_singleton].
  - by rewrite (proj1 (enq_other0 Sentinel ltac:(done))).
  - apply Forall_app. split; [|constructor; [split; [done | apply enq_task0] | constructor]].
    apply Forall_forall. intros r Hr. rewrite Forall_forall in ring_tasks0. destruct (ring_tasks0 r Hr) as [? Hpr]. split; [done|].
    rewrite (proj2 (enq_other0 (Task r) ltac:(intros [= ->]; done))). done.
Qed.

(** ** Taking a finished task out *)

Ltac elems := unfold on_ring; rewrite ?map_app; cbn [map];
  repeat first [ rewrite list_elem_of_singleton | rewrite elem_of_cons | rewrite elem_of_app ].

(** The circle around a task [c] of the queue: [a] before it and [b] after it. *)
Record around (s : sched) (l1 : list Z) (c : Z) (l2 : list Z) (u : list node_ptr) (a b : node_ptr)
    (v : list node_ptr) : Prop := {
  ar_left : Sentinel :: map Task l1 = u ++ [a];
  ar_right : map Task l2 ++ [Sentinel] = b :: v;
  ar_chain_left : chain (link s) (u ++ [a]);
  ar_link_left : link s a (Task c);
  ar_link_right : link s (Task c) b;
  ar_chain_right : chain (link s) (b :: v);
  ar_nodup : NoDup (l1 ++ l2);
  ar_c : forall x, on_ring (l1 ++ l2) x -> x <> Task c;
  ar_ok : forall x, on_ring (l1 ++ l2) x -> ptr_ok x;
  ar_c_ok : ptr_ok (Task c);
  ar_a_on : on_ring l1 a;
  ar_b_on : on_ring l2 b }.

Lemma ring_around s l1 c l2 : ring s (l1 ++ c :: l2) -> exists u a b v, around s l1 c l2 u a b v.
Proof.
  intros Hring. pose proof Hring as [].
  destruct (snoc_view Sentinel (map Task l1)) as (u & a & Eu & _).
  destruct (map Task l2 ++ [Sentinel]) as [|b v] eqn:Eb; [by destruct (map Task l2)|].
  exists u, a, b, v.
  assert (Sentinel :: map Task (l1 ++ c :: l2) ++ [Sentinel] = u ++ a :: Task c :: b :: v) as Ecyc.
  { rewrite map_app. cbn [map]. rewrite <- app_assoc. cbn [app]. rewrite Eb, app_comm_cons, Eu, <- app_assoc. done. }
  rewrite Ecyc in ring_links0. apply chain_app in ring_links0 as [Hu Hac].
  destruct Hac as [Hl [Hr Hbv]].
  assert (NoDup (c :: (l1 ++ l2))) as [Hc Hnd]%NoDup_cons by by rewrite Permutation_middle.
  split; try done.
  - intros x Hx ->. by apply Hc, Task_on_ring.
  - intros x Hx. apply (on_ring_ok s _ x Hring). revert Hx. elems. tauto.
  - apply (on_ring_ok s _ _ Hring). elems. tauto.
  - unfold on_ring. rewrite Eu. apply elem_snoc.
  - assert (b ∈ map Task l2 ++ [Sentinel]) as Hb by (rewrite Eb; by left). revert Hb. elems. tauto.
Qed.

(** Reading a node after the three assignments of [unlink]. *)
Lemma unlink_nodes s l1 c l2 u a b v :
  ring s (l1 ++ c :: l2) -> around s l1 c l2 u a b v ->
  exists s', unlink (Task c) b s = Some s' /\ Z.of_nat (length (run_queue s')) = 6 /\
    curr_node s' = curr_node s /\ head s' = head s /\ first_shell s' = first_shell s /\
    first_schedule s' = first_schedule s /\
    tail s' = (if decide (tail s = Some (Task c)) then Some a else tail s) /\
    (forall x, running (nd s' x) = running (nd s x) /\ process (nd s' x) = process (nd s x)) /\
    (forall x, x <> Task c -> next_task (nd s' x) = if decide (x = a) then Some b else next_task (nd s x)) /\
    (forall x, x <> Task c -> prev_task (nd s' x) = if decide (x = b) then Some a else prev_task (nd s x)).
Proof.
  intros Hring []. pose proof Hring as [].
  assert (ptr_ok a /\ ptr_ok b /\ a <> Task c /\ b <> Task c) as (Ha & Hb & Hac & Hbc).
  { split_and!; (apply ar_ok0 || apply ar_c0); revert ar_a_on0 ar_b_on0; elems; tauto. }
  unfold unlink. rewrite node_at_nd by done. bind. destruct ar_link_left0 as [_ ->]. bind. do 3 node_step.
  injection Hp1 as Ec1 Eh1 Et1 Ef1 Eg1. injection Hp0 as Ec0 Eh0 Et0 Ef0 Eg0. injection Hp as Ec Eh Et Ef Eg.
  eexists. split; [done|]. rewrite Et1, Et0, Et.
  replace (nd (if bool_decide (Some (Task c) = tail s) then set_tail (Some a) s2 else s2)) with (nd s2)
    by (by destruct (bool_decide _)).
  split_and!.
  1-5: destruct (bool_decide _); cbn; congruence.
  - destruct (decide (tail s = Some (Task c))) as [E|E].
    + by rewrite bool_decide_eq_true_2.
    + rewrite bool_decide_eq_false_2 by congruence. congruence.
  - intros x. node_views. repeat destruct (decide _); subst; cbn [set_prev set_next running process]; done || congruence.
  - intros x Hx. node_views. repeat destruct (decide _); subst; done || congruence.
  - intros x Hx. node_views. repeat destruct (decide _); subst; done || congruence.
Qed.

Lemma unlinked_chain s s' l1 c l2 u a b v :
  around s l1 c l2 u a b v ->
  (forall x, x <> Task c -> next_task (nd s' x) = if decide (x = a) then Some b else next_task (nd s x)) ->
  (forall x, x <> Task c -> prev_task (nd s' x) = if decide (x = b) then Some a else prev_task (nd s x)) ->
  chain (link s') (Sentinel :: map Task (l1 ++ l2) ++ [Sentinel]).
Proof.
  intros [] Hnext Hprev. pose proof (NoDup_ptrs _ ar_nodup0) as Hnd.
  assert (Sentinel :: map Task (l1 ++ l2) ++ [Sentinel] = u ++ a :: b :: v) as ->.
  { rewrite map_app, <- app_assoc, ar_right0, app_comm_cons, ar_left0, <- app_assoc. done. }
  rewrite map_app, app_comm_cons, ar_left0 in Hnd. apply NoDup_app in Hnd as (Hua & Hdis & Hnd2).
  apply NoDup_app in Hua as (_ & Hua & _).
  assert (forall x, x ∈ u ++ [a] -> on_ring (l1 ++ l2) x) as Hon1.
  { intros x. rewrite <- ar_left0. elems. tauto. }
  assert (forall x, x ∈ b :: v -> on_ring (l1 ++ l2) x) as Hon2.
  { intros x. rewrite <- ar_right0. elems. tauto. }
  assert (NoDup (b :: v)) as [Hbv _]%NoDup_cons.
  { rewrite <- ar_right0. apply NoDup_app. split_and!; [done | | apply NoDup_singleton].
    intros x (p & -> & _)%map_Task_elem. by intros ?%list_elem_of_singleton. }
  apply chain_app. split; [|split; [split|]].
  - apply (chain_frame s); [| | done].
    + rewrite removelast_snoc. intros x Hx. rewrite Hnext, decide_False; [done | |].
      * intros ->. by apply (Hua a Hx), list_elem_of_singleton.
      * apply ar_c0, Hon1, elem_of_app. by left.
    + intros y Hy. pose proof (snoc_split _ _ _ ar_left0 y Hy) as (p & -> & Hp). rewrite Hprev, decide_False; [done | |].
      * intros <-. pose proof (Task_on_ring _ _ ar_b_on0) as Hp2.
        apply (Hdis (Task p)); [rewrite <- ar_left0; elems; right; by apply map_Task_elem; eauto | apply map_Task_elem; eauto].
      * apply ar_c0. elems. right. left. apply map_Task_elem. eauto.
  - rewrite Hnext, decide_True; [done | done |]. apply ar_c0, Hon1, elem_snoc.
  - rewrite Hprev, decide_True; [done | done |]. apply ar_c0, Hon2. by left.
  - apply (chain_frame s); [| | done].
    + rewrite <- ar_right0, removelast_snoc. intros x Hx. rewrite Hnext, decide_False; [done | |].
      * intros ->. apply (Hdis a); [apply elem_snoc | done].
      * apply ar_c0. revert Hx. elems. tauto.
    + cbn [list.tail]. intros y Hy. rewrite Hprev, decide_False; [done | by intros -> |].
      apply ar_c0, Hon2. by right.
Qed.

Lemma unlink_ring s l1 c l2 u a b v s' :
  ring s (l1 ++ c :: l2) -> around s l1 c l2 u a b v -> unlink (Task c) b s = Some s' -> ring s' (l1 ++ l2).
Proof.
  intros Hring Har E. destruct (unlink_nodes s l1 c l2 u a b v Hring Har)
    as (s1 & E1 & Hl & Hcur & Hh & _ & _ & Ht & Hrp & Hnext & Hprev).
  replace s1 with s' in * by congruence. clear s1 E1.
  pose proof (unlinked_chain _ _ _ _ _ _ _ _ _ Har Hnext Hprev) as Hchain. pose proof Hring as []. destruct Har.
  split; try done; try congruence.
  - rewrite Ht, ring_tail0, !map_app. cbn [map]. destruct l2 as [|p l2].
    + cbn [map]. rewrite app_nil_r, app_comm_cons, last_snoc, decide_True, ar_left0, last_snoc by done. done.
    + cbn [map]. rewrite !app_comm_cons, !last_app_cons. change (Task c :: Task p :: map Task l2) with ([Task c] ++ Task p :: map Task l2).
      rewrite last_app_cons, decide_False; [done|]. intros Hlast%last_Some_elem_of.
      apply (ar_c0 (Task c)); [|done]. revert Hlast. elems. tauto.
  - by rewrite (proj1 (Hrp Sentinel)).
  - rewrite !Forall_app, Forall_cons in ring_tasks0. destruct ring_tasks0 as (F1 & _ & F2).
    apply Forall_app. split; [apply (Forall_impl _ _ _ F1) | apply (Forall_impl _ _ _ F2)];
      intros p [? ?]; (split; [done | by rewrite (proj2 (Hrp (Task p)))]).
Qed.

(** ** Choosing the next task *)

Definition is_running (s : sched) (x : node_ptr) : bool := bool_decide (running (nd s x) = TASK_RUNNING).

(** The first running task of a sequence. *)
Definition next_pid (s : sched) (l : list Z) : option Z := find (fun p => is_running s (Task p)) l.

Lemma find_running_chain s fuel x l y :
  Z.of_nat (length (run_queue s)) = 6 -> Forall ptr_ok (x :: l) -> chain (link s) (x :: l) ->
  find (is_running s) (x :: l) = Some y -> (length (x :: l) <= fuel)%nat ->
  find_running fuel s x = Some y.
Proof.
  intros Hl. revert x l. induction fuel as [|fuel IH]; intros x l Hok Hc Hf Hlen; [cbn in Hlen; lia|].
  apply Forall_cons in Hok as [Hx Hok]. cbn [find_running]. rewrite node_at_nd by done. bind.
  cbn [find] in Hf. unfold is_running in Hf at 1. destruct (bool_decide _); [done|].
  destruct l as [|z l]; [done|]. destruct Hc as [[Hz _] Hc]. rewrite Hz. bind.
  apply (IH z l); [done | done | done | cbn in *; lia].
Qed.

Lemma find_ring s q l2 l1 :
  ring s q -> find (is_running s) (map Task l2 ++ Sentinel :: map Task l1) = Task <$> next_pid s (l2 ++ l1).
Proof.
  intros []. unfold next_pid. induction l2 as [|p l2 IH]; cbn [map app find].
  - unfold is_running at 1. rewrite ring_sentinel0, bool_decide_eq_false_2 by done.
    induction l1 as [|p l1 IH]; [done|]. cbn [map find]. by destruct (is_running s (Task p)).
  - by destruct (is_running s (Task p)).
Qed.

Lemma rotate s l1 l2 : ring s (l1 ++ l2) -> chain (link s) (map Task l2 ++ Sentinel :: map Task l1).
Proof.
  intros []. rewrite map_app, <- app_assoc in ring_links0. apply chain_app. split.
  - apply (chain_suffix _ (Sentinel :: map Task l1)). done.
  - apply (chain_prefix _ _ (map Task l2 ++ [Sentinel])). done.
Qed.

Lemma find_running_ring s l1 l2 b v n :
  ring s (l1 ++ l2) -> map Task l2 ++ [Sentinel] = b :: v -> next_pid s (l2 ++ l1) = Some n ->
  find_running LOOP_FUEL s b = Some (Task n).
Proof.
  intros Hring Eb Hn. pose proof (ring_length s _ Hring) as Hlen.
  assert (map Task l2 ++ Sentinel :: map Task l1 = b :: (v ++ map Task l1)) as E.
  { change (Sentinel :: map Task l1) with ([Sentinel] ++ map Task l1). by rewrite app_assoc, Eb. }
  apply (find_running_chain s _ b (v ++ map Task l1)).
  - by destruct Hring.
  - rewrite <- E. apply Forall_forall. intros x Hx. apply (on_ring_ok s _ x Hring). revert Hx. elems. tauto.
  - rewrite <- E. by apply rotate.
  - rewrite <- E, (find_ring s _ _ _ Hring), Hn. done.
  - rewrite <- E, length_app. cbn [length]. rewrite !length_map. rewrite length_app in Hlen. unfold LOOP_FUEL. lia.
Qed.

Lemma chain_next {A} (R : A -> A -> Prop) l z x :
  chain R (l ++ [z]) -> x ∈ l -> exists y, R x y /\ y ∈ l ++ [z].
Proof.
  intros Hc (l1 & l2 & ->)%list_elem_of_split. rewrite <- app_assoc in Hc. apply chain_suffix in Hc.
  cbn [app] in Hc. destruct (l2 ++ [z]) as [|y k] eqn:E; [by destruct l2|]. destruct Hc as [Hxy _].
  exists y. split; [done|]. rewrite <- app_assoc. cbn [app]. rewrite E, elem_of_app, !elem_of_cons. tauto.
Qed.

Lemma next_on_ring s q x : ring s q -> on_ring q x -> exists y, next_task (nd s x) = Some y /\ on_ring q y.
Proof.
  intros [] Hx. rewrite app_comm_cons in ring_links0.
  destruct (chain_next _ _ _ _ ring_links0 Hx) as (y & [Hn _] & Hy). exists y. split; [done|].
  revert Hy. elems. tauto.
Qed.

(** With no running task on the queue the loop runs for ever. *)
Lemma find_running_spins s q fuel x :
  ring s q -> on_ring q x -> next_pid s q = None -> find_running fuel s x = None.
Proof.
  intros Hring Hx Hnone. revert x Hx. induction fuel as [|fuel IH]; intros x Hx; [done|].
  cbn [find_running]. pose proof (on_ring_ok s q x Hring Hx) as Hok. pose proof Hring as [].
  rewrite node_at_nd by done. bind. destruct (bool_decide (running (nd s x) = TASK_RUNNING)) eqn:Er.
  - exfalso. apply elem_of_cons in Hx as [-> | (p & -> & Hp)%map_Task_elem].
    + apply bool_decide_eq_true in Er. congruence.
    + unfold next_pid in Hnone. apply list_elem_of_In in Hp. pose proof (find_none _ _ Hnone p Hp) as E. 
      unfold is_running in E. congruence.
  - destruct (next_on_ring s q x Hring Hx) as (y & -> & Hy). bind. by apply IH.
Qed.

(** The control blocks of the queued tasks, and the page tables, are in order. *)
Record procs_ok (L : layout) (p : procs) (q : list Z) : Prop := {
  po_size : Z.of_nat (length (pcbs p)) = 6;
  po_pids : Forall (fun i => exists b, (pcbs p).[i] = Some b /\ Process.pid b = i) q;
  po_paging : paging_ok L (pg p) }.

Lemma upd_pcb_get i g p p' j :
  upd_pcb i g p = Some p' ->
  (pcbs p').[j] = (if j =? i then g <$> (pcbs p).[i] else (pcbs p).[j]) /\
  length (pcbs p') = length (pcbs p) /\ pg p' = pg p /\ kmem p' = kmem p /\ curr_process p' = curr_process p.
Proof.
  unfold upd_pcb. destruct ((pcbs p).[i]) as [b|] eqn:Eb; [|done]. bind.
  destruct ((pcbs p).[i <- g b]) as [bs|] eqn:Es; [|done]. bind. intros [= <-]. cbn.
  rewrite (zget_zset _ _ _ _ _ Es), (zset_length _ _ _ _ Es). by destruct (j =? i).
Qed.

Lemma upd_pcb_ok L i g p q :
  procs_ok L p q -> i ∈ q -> (forall b, Process.pid (g b) = Process.pid b) ->
  exists p', upd_pcb i g p = Some p' /\ procs_ok L p' q.
Proof.
  intros [] Hi Hg. rewrite Forall_forall in po_pids0. destruct (po_pids0 i Hi) as (b & Hb & Hpid).
  destruct (upd_pcb i g p) as [p'|] eqn:E.
  - exists p'. split; [done|]. destruct (upd_pcb_get _ _ _ _ 0 E) as (_ & Hl & Hpg & _). split.
    + by rewrite Hl.
    + apply Forall_forall. intros j Hj. destruct (upd_pcb_get _ _ _ _ j E) as (Hget & _).
      destruct (po_pids0 j Hj) as (b' & Hb' & Hpid'). rewrite Hget, Hb.
      destruct (Z.eqb_spec j i) as [->|]; [|by exists b']. exists (g b). by rewrite Hg.
    + by rewrite Hpg.
  - exfalso. unfold upd_pcb in E. rewrite Hb in E. cbn [mbind option_bind] in E. apply zget_Some_range in Hb. by rewrite zset_in in E by lia.
Qed.

Lemma reset_curr_ok L p q n b :
  procs_ok L p q -> n ∈ q -> pid_ok n -> (pcbs p).[n] = Some b ->
  exists p', reset_curr_process L n p = Some p' /\ procs_ok L p' q /\ pcbs p' = pcbs p /\ kmem p' = kmem p /\
    curr_process p' = Some n /\ desc p' = Some n /\ esp0 p' = kernel_stack b /\ cr3 (pg p') = pd_addr L n.
Proof.
  intros [] Hn Hpid Hb. rewrite Forall_forall in po_pids0. destruct (po_pids0 n Hn) as (b' & Hb' & Hpid').
  replace b' with b in Hpid' by congruence. unfold reset_curr_process. cbn [set_desc set_curr pcbs]. rewrite Hb. bind.
  destruct (switch_paging_ok L (pg p) n Hpid po_paging0) as (pg' & E & Hcr3 & Hok).
  cbn [set_esp0 set_desc set_curr pg]. rewrite Hpid', E. bind. eexists. split; [done|].
  split_and!; try done. split; [done | apply Forall_forall; done | done].
Qed.

(** The tasks after [c] in queue order, [c] itself last unless it is finished. *)
Definition candidates (s : sched) (l1 : list Z) (c : Z) (l2 : list Z) : list Z :=
  l2 ++ l1 ++ (if bool_decide (running (nd s (Task c)) = TASK_FINISHED) then [] else [c]).
Definition remaining (s : sched) (l1 : list Z) (c : Z) (l2 : list Z) : list Z :=
  if bool_decide (running (nd s (Task c)) = TASK_FINISHED) then l1 ++ l2 else l1 ++ c :: l2.

Lemma next_pid_elem s l n : next_pid s l = Some n -> n ∈ l /\ is_running s (Task n) = true.
Proof. intros H. unfold next_pid in H. apply find_some in H as [H1 H2]. split; [by apply list_elem_of_In | done]. Qed.

Lemma next_pid_ext s s' l :
  (forall x, running (nd s' x) = running (nd s x)) -> next_pid s' l = next_pid s l.
Proof. intros H. unfold next_pid, is_running. induction l as [|p l IH]; [done|]. cbn [find]. by rewrite H, IH. Qed.

(** The queue part of the switch: remove the task if it is finished, look for the
    next one. *)
Lemma switch_queue s l1 c l2 n :
  ring s (l1 ++ c :: l2) -> next_pid s (candidates s l1 c l2) = Some n ->
  exists b s', next_task (nd s (Task c)) = Some b /\
    (if bool_decide (running (nd s (Task c)) = TASK_FINISHED) then unlink (Task c) b s else Some s) = Some s' /\
    find_running LOOP_FUEL s' b = Some (Task n) /\ ring s' (remaining s l1 c l2) /\
    first_shell s' = first_shell s /\ first_schedule s' = first_schedule s /\
    (forall x, running (nd s' x) = running (nd s x)) /\ process (nd s' (Task c)) = Some c /\
    process (nd s' (Task n)) = Some n.
Proof.
  intros Hring Hn. destruct (ring_around s l1 c l2 Hring) as (u & a & b & v & Har).
  assert (forall p, p ∈ l1 ++ c :: l2 -> process (nd s (Task p)) = Some p) as Hproc.
  { intros p Hp. destruct Hring. rewrite Forall_forall in ring_tasks0. by destruct (ring_tasks0 p Hp). }
  assert (c ∈ l1 ++ c :: l2) as Hc by (elems; tauto).
  assert (n ∈ l1 ++ c :: l2) as Hnq.
  { apply next_pid_elem in Hn as [Hn _]. revert Hn. unfold candidates. destruct (bool_decide _); elems; rewrite ?elem_of_nil; tauto. }
  pose proof Har as []. exists b. unfold candidates, remaining in *.
  destruct (bool_decide (running (nd s (Task c)) = TASK_FINISHED)) eqn:Ef.
  - destruct (unlink_nodes s l1 c l2 u a b v Hring Har)
      as (s1 & E1 & Hl & Hcur & Hh & Hfs & Hfc & Ht & Hrp & Hnext & Hprev).
    pose proof (unlink_ring s l1 c l2 u a b v s1 Hring Har E1) as Hring1.
    exists s1. split; [apply ar_link_right0|]. rewrite app_nil_r in Hn.
    split_and!; try done; try (intros x; apply Hrp); try (rewrite (proj2 (Hrp _)); auto).
    apply (find_running_ring s1 l1 l2 b v n); [done | done |].
    rewrite (next_pid_ext s); [done | intros x; apply Hrp].
  - exists s. split; [apply ar_link_right0|]. split_and!; try done; auto.
    apply (find_running_ring s (l1 ++ [c]) l2 b v n); [by rewrite <- app_assoc | done | done].
Qed.

Lemma pit_handler_spec L regs esp_in ebp_in s p l1 c l2 n :
  ring s (l1 ++ c :: l2) -> procs_ok L p (l1 ++ c :: l2) -> curr_node s = Some (Task c) ->
  next_pid s (candidates s l1 c l2) = Some n ->
  exists s' p' b, pit_handler L regs esp_in ebp_in s p = Some (s', p', esp b, ebp b) /\
    ring s' (remaining s l1 c l2) /\ curr_node s' = Some (Task n) /\
    (forall x, running (nd s' x) = running (nd s x)) /\
    first_schedule s' = first_schedule s /\
    procs_ok L p' (l1 ++ c :: l2) /\ curr_process p' = Some n /\ desc p' = Some n /\
    (pcbs p').[n] = Some b /\ esp0 p' = kernel_stack b /\ cr3 (pg p') = pd_addr L n /\ kmem p' = kmem p /\
    forall i, (pcbs p').[i] = if i =? c then with_esp_ebp esp_in ebp_in <$> (pcbs p).[c] else (pcbs p).[i].
Proof.
  intros Hring Hp Hcur Hn.
  destruct (switch_queue s l1 c l2 n Hring Hn) as (b & s1 & Hb & E1 & Ef & Hring1 & Hfs & Hfc & Hrun & Pc & Pn).
  assert (n ∈ l1 ++ c :: l2 /\ c ∈ l1 ++ c :: l2) as [Hnq Hcq].
  { split; [|elems; tauto]. apply next_pid_elem in Hn as [Hn _]. revert Hn. unfold candidates.
    destruct (bool_decide _); elems; rewrite ?elem_of_nil; tauto. }
  assert (forall i, i ∈ l1 ++ c :: l2 -> 0 <= i < 6) as Hrange.
  { intros i Hi. destruct Hring. rewrite Forall_forall in ring_tasks0. by destruct (ring_tasks0 i Hi). }
  unfold pit_handler. rewrite Hcur. bind. rewrite (bool_decide_eq_false_2 (Task c = Sentinel)), andb_false_r by done.
  pose proof Hring as []. rewrite node_at_nd by (done || by apply Hrange). bind. rewrite Hb. bind. rewrite E1. bind.
  rewrite Ef. bind. pose proof Hring1 as [Hl1 _ _ _ _ _ _]. rewrite (node_at_nd s1 (Task c)) by (done || by apply Hrange). bind.
  rewrite Pc. bind. destruct (upd_pcb_ok L c (with_esp_ebp esp_in ebp_in) p _ Hp Hcq) as (p1 & Eu & Hp1); [done|].
  rewrite Eu. bind. rewrite (node_at_nd s1 (Task n)) by (done || by apply Hrange). bind. rewrite Pn. bind.
  destruct (Hp1) as [_ Hpids _]. rewrite Forall_forall in Hpids. destruct (Hpids n Hnq) as (bn & Hbn & _).
  destruct (reset_curr_ok L p1 _ n bn Hp1 Hnq) as (p2 & Er & Hp2 & Epcbs & Ekm & Ecp & Edesc & Eesp0 & Ecr3);
    [specialize (Hrange n Hnq); unfold pid_ok; lia | done |].
  rewrite Er. bind. rewrite Epcbs, Hbn. bind.
  exists (set_curr_node (Some (Task n)) s1), p2, bn. split; [done|].
  assert (kmem p1 = kmem p) as Hk1 by apply (upd_pcb_get _ _ _ _ 0 Eu).
  split_and!; try done; try congruence.
  - by destruct Hring1.
  - intros i. rewrite Epcbs. apply (upd_pcb_get _ _ _ _ i Eu).
Qed.

(** ** Rounds of the timer *)

(** One interrupt after the other, with the frame and the registers of each; the
    first result is the sequence of tasks that ran. *)
Fixpoint ticks (L : layout) (ts : list (Z * Z * Z)) (s : sched) (p : procs)
  : option (list Z * sched * procs) :=
  match ts with
  | [] => Some ([], s, p)
  | (regs, e, b) :: ts' =>
      '(s', p', _, _) ← pit_handler L regs e b s p;
      n ← curr_process p';
      '(ns, s'', p'') ← ticks L ts' s' p';
      Some (n :: ns, s'', p'')
  end.

Definition none_finished (s : sched) (q : list Z) : Prop :=
  Forall (fun i => running (nd s (Task i)) <> TASK_FINISHED) q.

Lemma find_split {A} (P : A -> bool) l x :
  find P l = Some x -> exists l1 l2, l = l1 ++ x :: l2 /\ P x = true /\ forall y, y ∈ l1 -> P y = false.
Proof.
  induction l as [|y l IH]; [done|]. cbn [find]. destruct (P y) eqn:E.
  - intros [= ->]. exists [], l. split_and!; [done | done |]. by intros y ?%elem_of_nil.
  - intros H. destruct (IH H) as (l1 & l2 & -> & Hx & Hl1). exists (y :: l1), l2. split_and!; [done | done |].
    intros z [-> | Hz]%elem_of_cons; auto.
Qed.

(** The circle seen from [c] and from a task further on. *)
Lemma rotate_split (l1 l2 a b : list Z) c n :
  l2 ++ l1 ++ [c] = a ++ n :: b -> b <> [] ->
  exists l1' l2', l1 ++ c :: l2 = l1' ++ n :: l2' /\ l2' ++ l1' ++ [n] = b ++ a ++ [n].
Proof.
  intros E Hb. apply app_eq_inv in E as [(k & E1 & E2) | (k & E1 & E2)].
  - destruct k as [|x k].
    + cbn in E2. rewrite app_nil_r in E1. subst l2. destruct l1 as [|y l1]; cbn in E2; [by simplify_eq|].
      simplify_eq. exists [], (l1 ++ c :: a). split; [done|]. cbn. by rewrite <- !app_assoc.
    + cbn [app] in E2. simplify_eq. exists (l1 ++ c :: a), k. split; [by rewrite <- app_assoc|].
      by rewrite <- !app_assoc.
  - subst a. apply app_eq_inv in E2 as [(j & F1 & F2) | (j & F1 & F2)].
    + destruct j as [|x j]; cbn in F2; [by simplify_eq|]. simplify_eq.
      exists k, (j ++ c :: l2). split; [by rewrite <- app_assoc|]. by rewrite <- !app_assoc.
    + destruct j as [|x j]; cbn in F2; [by simplify_eq|]. by destruct j.
Qed.

(** A queue without finished tasks on which task [r] is running, [c] at work. *)
Record round_state (L : layout) (r : Z) (q : list Z) (c : Z) (s : sched) (p : procs) : Prop := {
  rs_ring : ring s q;
  rs_procs : procs_ok L p q;
  rs_curr : curr_node s = Some (Task c);
  rs_alive : none_finished s q;
  rs_member : r ∈ q;
  rs_running : is_running s (Task r) = true }.

Lemma tick_step L r l1 c l2 s p regs e b :
  round_state L r (l1 ++ c :: l2) c s p ->
  exists n s' p' e' b', pit_handler L regs e b s p = Some (s', p', e', b') /\ curr_process p' = Some n /\
    next_pid s (l2 ++ l1 ++ [c]) = Some n /\ n ∈ l1 ++ c :: l2 /\ round_state L r (l1 ++ c :: l2) n s' p'.
Proof.
  intros [Hring Hp Hcur Hnf Hin Hr].
  assert (running (nd s (Task c)) <> TASK_FINISHED) as Hc.
  { unfold none_finished in Hnf. rewrite Forall_forall in Hnf. apply Hnf. elems. tauto. }
  assert (candidates s l1 c l2 = l2 ++ l1 ++ [c]) as Ecand by (unfold candidates; by rewrite bool_decide_eq_false_2).
  destruct (next_pid s (candidates s l1 c l2)) as [n|] eqn:En.
  2:{ exfalso. rewrite Ecand in En. unfold next_pid in En.
      assert (In r (l2 ++ l1 ++ [c])) as Hin' by (apply list_elem_of_In; revert Hin; elems; tauto).
      pose proof (find_none _ _ En r Hin') as E. cbn in E. congruence. }
  destruct (pit_handler_spec L regs e b s p l1 c l2 n Hring Hp Hcur En)
    as (s1 & p1 & bn & E & Hring1 & Hcur1 & Hrun1 & _ & Hp1 & Hcp1 & _).
  unfold remaining in Hring1. rewrite bool_decide_eq_false_2 in Hring1 by done. rewrite Ecand in En.
  exists n, s1, p1, (esp bn), (ebp bn). split_and!; try done.
  - apply next_pid_elem in En as [Hn _]. revert Hn. elems. tauto.
  - split; try done.
    + unfold none_finished in *. apply (Forall_impl _ _ _ Hnf). intros i. by rewrite Hrun1.
    + unfold is_running in *. by rewrite Hrun1.
Qed.

Lemma ticks_total L r q ts : forall s p c,
  round_state L r q c s p -> c ∈ q -> exists ns s' p', ticks L ts s p = Some (ns, s', p').
Proof.
  induction ts as [|[[regs e] b] ts IH]; intros s p c Hst Hc; [by eexists _, _, _|].
  apply list_elem_of_split in Hc as (l1 & l2 & ->).
  destruct (tick_step L r l1 c l2 s p regs e b Hst) as (n & s1 & p1 & e1 & b1 & E & Hcp & _ & Hn & Hst1).
  cbn [ticks]. rewrite E. bind. rewrite Hcp. bind.
  destruct (IH s1 p1 n Hst1 Hn) as (ns & s2 & p2 & ->). bind. eauto.
Qed.

Lemma ticks_reach L r ts : forall s p l1 c l2 x y,
  round_state L r (l1 ++ c :: l2) c s p -> l2 ++ l1 ++ [c] = x ++ r :: y -> (length x < length ts)%nat ->
  exists ns s' p', ticks L ts s p = Some (ns, s', p') /\ r ∈ ns.
Proof.
  induction ts as [|[[regs e] b] ts IH]; intros s p l1 c l2 x y Hst Hsplit Hlen; [cbn in Hlen; lia|].
  pose proof (rs_running _ _ _ _ _ _ Hst) as Hr.
  destruct (tick_step L r l1 c l2 s p regs e b Hst) as (n & s1 & p1 & e1 & b1 & E & Hcp & En & Hn & Hst1).
  cbn [ticks]. rewrite E. bind. rewrite Hcp. bind.
  rewrite Hsplit in En. apply find_split in En as (a & d & Ead & _ & Hfirst).
  destruct (decide (n = r)) as [->|Hnr].
  { destruct (ticks_total L r _ ts s1 p1 r Hst1 Hn) as (ns & s2 & p2 & ->). exists (r :: ns), s2, p2. by split; [|left]. }
  assert (exists x', x = a ++ n :: x' /\ d = x' ++ r :: y) as (x' & -> & ->).
  { apply app_eq_inv in Ead as [(k & F1 & F2) | (k & F1 & F2)].
    - destruct k as [|z k]; cbn [app] in F2; [by simplify_eq|]. simplify_eq. eauto.
    - destruct k as [|z k]; cbn [app] in F2; [by simplify_eq|]. simplify_eq.
      rewrite (Hfirst z) in Hr; [done|]. elems. tauto. }
  rewrite <- app_assoc in Hsplit. cbn [app] in Hsplit.
  destruct (rotate_split l1 l2 a (x' ++ r :: y) c n Hsplit) as (l1' & l2' & Eq & Erot); [by destruct x'|].
  rewrite Eq in Hst1.
  destruct (IH s1 p1 l1' n l2' x' (y ++ a ++ [n]) Hst1) as (ns & s2 & p2 & -> & Hin).
  - by rewrite Erot, <- app_assoc.
  - rewrite length_app in Hlen. cbn [length] in Hlen. lia.
  - exists (n :: ns), s2, p2. split; [done | by right].
Qed.

(** ** Changing the state of a task *)

Lemma set_running_ring s q x st :
  ring s q -> 0 <= x < 6 ->
  exists s', upd_node (Task x) (set_running st) s = Some s' /\ ring s' q /\ pointers s' = pointers s /\
    forall y, running (nd s' y) = if decide (y = Task x) then st else running (nd s y).
Proof.
  intros Hring Hx. pose proof Hring as [].
  destruct (upd_node_ok s (Task x) (set_running st)) as (s' & E & Hl & Hp & Hn); [done | done|].
  assert (forall y, next_task (nd s' y) = next_task (nd s y) /\ prev_task (nd s' y) = prev_task (nd s y) /\
    process (nd s' y) = process (nd s y)) as Hsame.
  { intros y. rewrite Hn. destruct (decide (y = Task x)) as [->|]; done. }
  exists s'. split; [done|]. split; [|split; [done|]].
  - injection Hp as _ Hh Ht _ _. split; try done; try congruence.
    + apply (chain_frame s); [intros y _; apply Hsame .. | done].
    + by rewrite Hn, decide_False.
    + apply (Forall_impl _ _ _ ring_tasks0). intros r [Hr Hpr]. split; [done|].
      by rewrite (proj2 (proj2 (Hsame (Task r)))).
  - intros y. rewrite Hn. by destruct (decide (y = Task x)).
Qed.

(** ** Properties *)

(** The parent a new task names is on the queue. *)
Definition parent_queued (p : procs) (task : pcb) (q : list Z) : Prop :=
  match parent task with
  | None => True
  | Some r => r ∈ q /\ exists b, (pcbs p).[r] = Some b /\ Process.pid b = r
  end.

(** The parts of the state of the processes beside the control blocks and the stacks. *)
Definition same_rest (p p' : procs) : Prop :=
  curr_process p' = curr_process p /\ desc p' = desc p /\ pid_arr p' = pid_arr p /\ roots p' = roots p /\
  esp0 p' = esp0 p /\ pg p' = pg p.

Lemma upd_pcb_rest i g p p' : upd_pcb i g p = Some p' -> same_rest p p'.
Proof.
  unfold upd_pcb. destruct ((pcbs p).[i]) as [b|]; [|done]. bind.
  destruct ((pcbs p).[i <- g b]); [|done]. bind. intros [= <-]. done.
Qed.

Lemma schedule_spec pit_ret pid s p q task :
  ring s q -> 0 <= pid < 6 -> pid ∉ q -> (pcbs p).[pid] = Some task -> parent_queued p task q ->
  68 <= kernel_stack task < 2 ^ 32 -> u32_range_of pit_ret -> u32_range_of (instr_ptr task) ->
  u32_range_of (user_stack task) ->
  exists s' p', schedule pit_ret pid s p = Some (s', p') /\ ring s' (q ++ [pid]) /\
    curr_node s' = curr_node s /\ first_schedule s' = false /\
    (forall x, running (nd s' (Task x)) = if decide (x = pid) then TASK_RUNNING
       else if decide (Some x = parent task) then TASK_INACTIVE else running (nd s (Task x))) /\
    (first_schedule s = false \/ curr_node s <> Some Sentinel ->
     exists b, (pcbs p').[pid] = Some b /\ esp b = ebp b /\
       let c := resume (kmem p') (ebp b) in
       c_ret c = pit_ret /\ c_flags c = STACK_FLAGS /\ c_esp c = kernel_stack task /\
       c_frame c = Iret (instr_ptr task) USER_CS STACK_FLAGS (user_stack task) USER_DS) /\
    (exists x y, (pcbs p').[pid] = Some (with_esp_ebp x y task)) /\
    (forall i, i <> pid -> (pcbs p').[i] = (pcbs p).[i]) /\ length (pcbs p') = length (pcbs p) /\
    same_rest p p'.
Proof.
  intros Hring Hpid Hnew Htask Hpar HK Hr Hi Hu. unfold schedule. rewrite Htask. bind.
  destruct (enqueue_ring s q pid Hring Hpid Hnew) as (s1 & -> & Hring1 & Hc1 & Hf1 & _ & Hrun1 & Hoth1). bind.
  assert (exists s2, (match parent task with
      | Some q => pt ← (pcbs p).[q]; upd_node (Task (Process.pid pt)) (set_running TASK_INACTIVE) s1
      | None => Some s1
      end) = Some s2 /\ ring s2 (q ++ [pid]) /\ curr_node s2 = curr_node s /\ first_schedule s2 = first_schedule s /\
      (forall x, running (nd s2 (Task x)) = if decide (x = pid) then TASK_RUNNING
       else if decide (Some x = parent task) then TASK_INACTIVE else running (nd s (Task x))))
    as (s2 & -> & Hring2 & Hc2 & Hf2 & Hrun2).
  { unfold parent_queued in Hpar. destruct (parent task) as [r|].
    - destruct Hpar as (Hrq & b & -> & <-). bind.
      assert (0 <= Process.pid b < 6).
      { pose proof Hring as []. rewrite Forall_forall in ring_tasks0. by destruct (ring_tasks0 _ Hrq). }
      destruct (set_running_ring s1 _ (Process.pid b) TASK_INACTIVE Hring1) as (s2 & -> & Hring2 & Hp2 & Hr2); [done|].
      injection Hp2 as Hc2 _ _ _ Hf2. exists s2. split_and!; try done; try congruence.
      intros x. rewrite Hr2. destruct (decide (x = pid)) as [->|Hx].
      + rewrite decide_False; [done|]. intros [= E]. congruence.
      + destruct (decide (Task x = Task (Process.pid b))) as [[= ->]|Hne]; [by rewrite decide_True|].
        rewrite decide_False by congruence. auto.
    - exists s1. split_and!; try done. intros x.
      destruct (decide (x = pid)) as [->|Hx]; [done|]. rewrite decide_False by done. auto. }
  bind. rewrite Hf2, Hc2. pose proof (resume_fabricated pit_ret task (kmem p) HK Hr Hi Hu) as Hres.
  destruct (fabricate pit_ret task (kmem p)) as [sp m]. destruct Hres as (_ & _ & Hres).
  destruct (negb _) eqn:Efirst.
  - destruct (upd_pcb pid (with_esp_ebp sp sp) (set_kmem m p)) as [p'|] eqn:Eu.
    2:{ exfalso. unfold upd_pcb in Eu. cbn [pcbs set_kmem] in Eu. rewrite Htask in Eu. cbn [mbind option_bind] in Eu.
        apply zget_Some_range in Htask. by rewrite zset_in in Eu by lia. }
    bind. exists (set_first_schedule false s2), p'.
    destruct (upd_pcb_get _ _ _ _ pid Eu) as (Hself & Hlen & _). rewrite Z.eqb_refl in Hself. cbn [pcbs set_kmem] in Hself, Hlen.
    rewrite Htask in Hself.
    split_and!; try done; [by destruct Hring2 | | by exists sp, sp | | by apply (upd_pcb_rest _ _ _ _ Eu)].
    2:{ intros j Hj. destruct (upd_pcb_get _ _ _ _ j Eu) as (Hj' & _). rewrite Hj'. bfalse (j =? pid). done. }
    intros _. destruct (upd_pcb_get _ _ _ _ pid Eu) as (Hget & _ & _ & Hk & _).
    rewrite Z.eqb_refl in Hget. cbn [pcbs set_kmem] in Hget. rewrite Htask in Hget.
    exists (with_esp_ebp sp sp task). rewrite Hk. cbn [kmem set_kmem ebp esp with_esp_ebp].
    destruct Hres as (? & ? & He & ?). rewrite u32_small in He by lia. done.
  - bind. exists (set_first_schedule false s2), p.
    split_and!; try done; [by destruct Hring2 | | by exists (esp task), (ebp task); rewrite Htask; destruct task].
    intros [H|H]; exfalso; apply negb_false_iff, andb_true_iff in Efirst as [E1 E2%bool_decide_eq_true]; congruence.
Qed.

(** The stack of the new task is the one [fabricate] makes. *)
Lemma upd_node_curr x g s s' : upd_node x g s = Some s' -> curr_node s' = curr_node s.
Proof.
  destruct x as [|q]; cbn; intros E; [by injection E as <-|]. apply bind_Some in E as (n & _ & E). apply bind_Some in E as (l & _ & E).
  by injection E as <-.
Qed.

Lemma enqueue_curr pid s s' : enqueue pid s = Some s' -> curr_node s' = curr_node s.
Proof.
  unfold enqueue. intros E. apply bind_Some in E as (t & _ & E). apply bind_Some in E as (tn & _ & E).
  apply bind_Some in E as (sa & Ha%upd_node_curr & E). apply bind_Some in E as (sb & Hb%upd_node_curr & E).
  apply bind_Some in E as (h & _ & Hc%upd_node_curr). cbn in *. congruence.
Qed.

Lemma fabricate_esp_ebp pit_ret x y task m : fabricate pit_ret (with_esp_ebp x y task) m = fabricate pit_ret task m.
Proof. reflexivity. Qed.

Lemma schedule_made pit_ret pid s p s' p' task :
  schedule pit_ret pid s p = Some (s', p') -> (pcbs p).[pid] = Some task -> curr_node s <> Some Sentinel ->
  let f := fabricate pit_ret task (kmem p) in kmem p' = f.2 /\ (pcbs p').[pid] = Some (with_esp_ebp f.1 f.1 task).
Proof.
  intros E Ht Hn. unfold schedule in E. rewrite Ht, some_bind in E. apply bind_Some in E as (s1 & H1%enqueue_curr & E).
  apply bind_Some in E as (s2 & E2 & E). apply bind_Some in E as (p2 & E3 & [= <- <-]).
  assert (curr_node s2 = curr_node s) as H2.
  { destruct (parent task); [|congruence]. apply bind_Some in E2 as (pt & _ & H%upd_node_curr). congruence. }
  rewrite (bool_decide_eq_false_2 (curr_node s2 = Some Sentinel)), andb_false_r in E3 by congruence. cbn [negb] in E3. cbv zeta.
  destruct (fabricate pit_ret task (kmem p)) as [sp m]. destruct (upd_pcb_get _ _ _ _ pid E3) as (Hget & _ & _ & Hk & _).
  rewrite Z.eqb_refl in Hget. cbn [pcbs set_kmem] in Hget. rewrite Ht in Hget. split; [exact Hk | exact Hget].
Qed.

(** [schedule] appends the task to the circle, running, and makes its parent
    inactive; the states of all the other tasks stay.  Unless it is the very first
    task, its saved stack pointer leads the end of the timer interrupt to the first
    instruction of the program, in user mode, on its user stack, with interrupts on,
    and leaves its kernel stack empty. *)
Theorem schedule_new_task pit_ret pid s p q task :
  ring s q -> 0 <= pid < 6 -> pid ∉ q -> (pcbs p).[pid] = Some task -> parent_queued p task q ->
  68 <= kernel_stack task < 2 ^ 32 -> u32_range_of pit_ret -> u32_range_of (instr_ptr task) ->
  u32_range_of (user_stack task) ->
  exists s' p', schedule pit_ret pid s p = Some (s', p') /\ ring s' (q ++ [pid]) /\
    curr_node s' = curr_node s /\ first_schedule s' = false /\
    (forall x, running (nd s' (Task x)) = if decide (x = pid) then TASK_RUNNING
       else if decide (Some x = parent task) then TASK_INACTIVE else running (nd s (Task x))) /\
    (first_schedule s = false \/ curr_node s <> Some Sentinel ->
     exists b, (pcbs p').[pid] = Some b /\ esp b = ebp b /\
       let c := resume (kmem p') (ebp b) in
       c_ret c = pit_ret /\ c_flags c = STACK_FLAGS /\ c_esp c = kernel_stack task /\
       c_frame c = Iret (instr_ptr task) USER_CS STACK_FLAGS (user_stack task) USER_DS).
Proof.
  intros Hring Hpid Hnew Htask Hpar HK Hr Hi Hu.
  destruct (schedule_spec pit_ret pid s p q task) as (s' & p' & H1 & H2 & H3 & H4 & H5 & H6 & _); try done.
  exists s', p'. done.
Qed.

(** Three tasks on the queue, the first one at work. *)
Definition zero_sched : sched :=
  Sched (replicate 6 (Node None None None TASK_INACTIVE)) (Node None None None TASK_SENTINEL) None None None true true.
Definition demo_sched : sched :=
  set_first_schedule false (set_first_shell false (set_curr_node (Some (Task 0))
    (default zero_sched (s ← sched_init zero_sched; s ← enqueue 0 s; s ← enqueue 1 s; enqueue 2 s)))).
Definition demo_pcb (pid : Z) : pcb :=
  Pcb pid PROGRAM_START (get_kstack_address pid) USTACK_START 0x8048094 None None [] [] []
    (0x7f0000 - pid) (0x7f0100 - pid) 0 pid.
Definition demo_procs (pages : paging) : procs :=
  Procs (map demo_pcb (seqZ 0 6)) (Some 0) (Some 0) [1; 1; 1; 0; 0; 0] [Some 0; Some 1; Some 2] 0 pages (fun _ => 0).

Lemma demo_ring : ring demo_sched [0; 1; 2].
Proof.
  split; try (vm_compute; done).
  - apply (bool_decide_unpack _). vm_compute. done.
  - repeat constructor; vm_compute; done.
Qed.

Lemma demo_procs_ok L pages : paging_ok L pages -> procs_ok L (demo_procs pages) [0; 1; 2].
Proof.
  intros Hok. split; [done | | done].
  repeat constructor; [exists (demo_pcb 0) | exists (demo_pcb 1) | exists (demo_pcb 2)]; done.
Qed.

Lemma schedule_new_task_witness :
  exists s' p', schedule 0x401000 3 demo_sched (demo_procs zero_paging) = Some (s', p') /\ ring s' [0; 1; 2; 3].
Proof.
  destruct (schedule_new_task 0x401000 3 demo_sched (demo_procs zero_paging) [0; 1; 2] (demo_pcb 3))
    as (s' & p' & E & Hr & _); [apply demo_ring | lia | | reflexivity | exact I | vm_compute; split; [discriminate | reflexivity]
    | unfold u32_range_of; lia | vm_compute; split; [discriminate | reflexivity]
    | vm_compute; split; [discriminate | reflexivity] | exists s', p'; split; [exact E | exact Hr]].
  intros H. repeat (apply elem_of_cons in H as [H|H]; [lia|]). exact (proj1 (elem_of_nil 3) H).
Defined.

(** The timer interrupt takes a finished task out of the circle, saves the stack
    of the task at work, and switches to the first running task after it in circle
    order (to itself when it is the only one): its stack pointers are returned, it
    becomes the current process with its own descriptors, kernel stack and page
    directory.  Nothing else changes. *)
Theorem pit_handler_switches L regs esp_in ebp_in s p l1 c l2 n :
  ring s (l1 ++ c :: l2) -> procs_ok L p (l1 ++ c :: l2) -> curr_node s = Some (Task c) ->
  next_pid s (candidates s l1 c l2) = Some n ->
  exists s' p' b, pit_handler L regs esp_in ebp_in s p = Some (s', p', esp b, ebp b) /\
    ring s' (remaining s l1 c l2) /\ curr_node s' = Some (Task n) /\
    (forall x, running (nd s' x) = running (nd s x)) /\
    first_schedule s' = first_schedule s /\
    procs_ok L p' (l1 ++ c :: l2) /\ curr_process p' = Some n /\ desc p' = Some n /\
    (pcbs p').[n] = Some b /\ esp0 p' = kernel_stack b /\ cr3 (pg p') = pd_addr L n /\ kmem p' = kmem p /\
    forall i, (pcbs p').[i] = if i =? c then with_esp_ebp esp_in ebp_in <$> (pcbs p).[c] else (pcbs p).[i].
Proof. apply pit_handler_spec. Qed.

Lemma pit_handler_switches_witness :
  exists pages s' p' b,
    pit_handler demo_layout 0 0x7fff00 0x7fff20 demo_sched (demo_procs pages) = Some (s', p', esp b, ebp b) /\
    curr_node s' = Some (Task 1) /\ curr_process p' = Some 1.
Proof.
  destruct (booted_ok demo_layout zero_paging []) as (pages & _ & Hok);
    [apply demo_layout_ok | apply zero_paging_sized | constructor|].
  destruct (pit_handler_switches demo_layout 0 0x7fff00 0x7fff20 demo_sched (demo_procs pages) [] 0 [1; 2] 1)
    as (s' & p' & b & E & _ & Hc & _ & _ & _ & Hcp & _);
    [apply demo_ring | apply demo_procs_ok; exact Hok | reflexivity | reflexivity|].
  exists pages, s', p', b. split; [exact E|]. split; [exact Hc | exact Hcp].
Defined.

(** Round robin: a running task of a queue with no finished task gets the
    processor within as many timer interrupts as the queue has tasks, whatever the
    states of the others are. *)
Theorem running_task_scheduled L r q c s p ts :
  ring s q -> procs_ok L p q -> curr_node s = Some (Task c) -> c ∈ q -> none_finished s q ->
  r ∈ q -> running (nd s (Task r)) = TASK_RUNNING -> (length q <= length ts)%nat ->
  exists ns s' p', ticks L ts s p = Some (ns, s', p') /\ r ∈ ns.
Proof.
  intros Hring Hp Hcur Hc Hnf Hrq Hr Hlen. apply list_elem_of_split in Hc as (l1 & l2 & ->).
  assert (r ∈ l2 ++ l1 ++ [c]) as Hin by (revert Hrq; elems; tauto).
  apply list_elem_of_split in Hin as (x & y & E).
  apply (ticks_reach L r ts s p l1 c l2 x y); [split; try done | done |].
  - unfold is_running. by apply bool_decide_eq_true_2.
  - apply (f_equal length) in E. rewrite !length_app in *. cbn [length] in *. lia.
Qed.

Lemma running_task_scheduled_witness :
  exists pages ns s' p',
    ticks demo_layout [(0, 1, 2); (0, 3, 4); (0, 5, 6)] demo_sched (demo_procs pages) = Some (ns, s', p') /\ 2 ∈ ns.
Proof.
  destruct (booted_ok demo_layout zero_paging []) as (pages & _ & Hok);
    [apply demo_layout_ok | apply zero_paging_sized | constructor|].
  destruct (running_task_scheduled demo_layout 2 [0; 1; 2] 0 demo_sched (demo_procs pages)
    [(0, 1, 2); (0, 3, 4); (0, 5, 6)]) as (ns & s' & p' & E & H);
    [apply demo_ring | apply demo_procs_ok; exact Hok | reflexivity | apply list_elem_of_here
    | repeat constructor; vm_compute; discriminate
    | do 2 apply list_elem_of_further; apply list_elem_of_here | reflexivity | cbn; lia |].
  exists pages, ns, s', p'. split; [exact E | exact H].
Defined.

(** C36: the search for the next task ends exactly when some task of the queue is
    running; its bound of eight steps is then enough, and without a running task no
    number of steps is: the handler never returns. *)
Theorem search_terminates s l1 l2 b v :
  ring s (l1 ++ l2) -> map Task l2 ++ [Sentinel] = b :: v ->
  (forall n, next_pid s (l2 ++ l1) = Some n -> find_running LOOP_FUEL s b = Some (Task n)) /\
  ((forall r, r ∈ l1 ++ l2 -> running (nd s (Task r)) <> TASK_RUNNING) <->
   forall fuel, find_running fuel s b = None).
Proof.
  intros Hring Eb. split; [intros n; by apply (find_running_ring s l1 l2 b v)|]. split.
  - intros Hnone fuel. apply (find_running_spins s (l1 ++ l2)); [done | |].
    + assert (b ∈ map Task l2 ++ [Sentinel]) as Hb by (rewrite Eb; by left). revert Hb. elems. tauto.
    + destruct (next_pid s (l1 ++ l2)) as [n|] eqn:E; [|done].
      apply next_pid_elem in E as [Hn Hr%bool_decide_eq_true]. by destruct (Hnone n Hn).
  - intros Hspin r Hin Hr. destruct (next_pid s (l2 ++ l1)) as [n|] eqn:E.
    + pose proof (find_running_ring s l1 l2 b v n Hring Eb E) as H. by rewrite Hspin in H.
    + unfold next_pid in E. assert (In r (l2 ++ l1)) as Hin' by (apply list_elem_of_In; revert Hin; elems; tauto).
      pose proof (find_none _ _ E r Hin') as H. cbn in H. unfold is_running in H.
      by rewrite bool_decide_eq_true_2 in H.
Qed.

Lemma search_terminates_witness : find_running LOOP_FUEL demo_sched (Task 1) = Some (Task 1).
Proof.
  apply (search_terminates demo_sched [0] [1; 2] (Task 1) [Task 2; Sentinel]); [apply demo_ring | reflexivity | reflexivity].
Defined.
