(* ===== verification/Terminal.v ===== *)
(** * The terminals, [student-distrib/terminal.c]

    The arrays of the file, indexed by terminal, are one array of records here.
    Addresses of video memory are physical: under the directory of every process
    0xb7000 is the screen at 0xb8000 and the terminals' backing pages follow it
    (Paging); where the page at 0xb8000 leads is the argument [vpage] of the
    operations that write through [mem].  The terminal of the running process,
    [get_curr_process_terminal ()], is an argument too. *)

From stdpp Require Import base list option.
From Stdlib Require Import ZArith Lia ZifyBool.
From S2P Require Import Prelude MemOps Ports.

Definition SCREEN : Z := 0xb8000.
Definition KB4 : Z := 4096.
Definition WIDTH : Z := 80.
Definition HEIGHT : Z := 25.
Definition INDEX (x y : Z) : Z := x + WIDTH * y.
Definition BLACK : Z := 0.
Definition GREEN : Z := 2.
Definition CYAN : Z := 3.
Definition YELLOW : Z := 0xe.
Definition ASCII_SPACE : Z := 32.
Definition BACKSPACE : Z := 0x08.
Definition TAB : Z := 0x09.
Definition NEW_LINE : Z := 0xa.
Definition BUFFER_LIMIT : Z := 128.
Definition NUM_TERMINALS : Z := 3.
Definition CURSOR_LOCATION_HIGH : Z := 0x0E.
Definition CURSOR_LOCATION_LOW : Z := 0x0F.
Definition VGA_ADDRESS_REGISTER : Z := 0x3D4.
Definition VGA_DATA_REGISTER : Z := 0x3D5.

(** The state of one terminal. *)
Record tty := Tty {
  linelength : Z; lastlinelength : Z; linestart : Z;
  linebuffer : list Z; lastlinebuffer : list Z;
  rd : Z; curr_x : Z; curr_y : Z; blank : Z }.

Record terminals := Terminals {
  mem_set : bool;
  curr_terminal : Z;
  ttys : list tty;
  vm : memory;
  pio : io }.

Definition set_line (n : Z) (l : list Z) (x : tty) : tty :=
  Tty n (lastlinelength x) (linestart x) l (lastlinebuffer x) (rd x) (curr_x x) (curr_y x) (blank x).
Definition set_pos (cx cy : Z) (x : tty) : tty :=
  Tty (linelength x) (lastlinelength x) (linestart x) (linebuffer x) (lastlinebuffer x) (rd x) cx cy (blank x).
Definition set_linestart (n : Z) (x : tty) : tty :=
  Tty (linelength x) (lastlinelength x) n (linebuffer x) (lastlinebuffer x) (rd x) (curr_x x) (curr_y x) (blank x).
Definition set_last (n r : Z) (l : list Z) (x : tty) : tty :=
  Tty (linelength x) n (linestart x) (linebuffer x) l r (curr_x x) (curr_y x) (blank x).

(** The foreground colour of a terminal. *)
Definition colour (t : Z) : option Z :=
  if t =? 0 then Some YELLOW else if t =? 1 then Some GREEN else if t =? 2 then Some CYAN else None.

(** The assignments to a [screen_char_t] at address [a]: a character byte and two
    attribute nibbles. *)
Definition put_cell (m : memory) (a c t : Z) : memory :=
  let m := store8 m a c in
  let m := match colour t with
           | Some fore => store8 m (a + 1) (set_field 0 4 fore (m (a + 1)))
           | None => m
           end in
  store8 m (a + 1) (set_field 4 4 BLACK (m (a + 1))).

Definition update_cursor (row col : Z) (s : io) : io :=
  let position := u16 (row * WIDTH + col) in
  let s := outb CURSOR_LOCATION_LOW VGA_ADDRESS_REGISTER s in
  let s := outb (Z.land position 0xFF) VGA_DATA_REGISTER s in
  let s := outb CURSOR_LOCATION_HIGH VGA_ADDRESS_REGISTER s in
  outb (Z.land (Z.shiftr position 8) 0xFF) VGA_DATA_REGISTER s.

(** The word of a blank in the colour of terminal [t]. *)
Definition blank_word (t : Z) : Z :=
  Z.lor ASCII_SPACE (Z.lor (Z.shiftl (default 0 (colour t)) 8) (Z.shiftl BLACK 12)).

(** [base] is the page scrolled, the screen or the page of the process. *)
Definition scroll_line (t base : Z) (x : tty) (m : memory) : option (tty * memory) :=
  let i := curr_y x - HEIGHT + 1 in
  st ← memcpy m false base (base + i * WIDTH * 2) ((HEIGHT - i) * WIDTH * 2);
  let m := mem (memset_word (mem st) (base + 2 * (HEIGHT - i) * WIDTH) (blank_word t) WIDTH) in
  Some (set_pos (curr_x x) (HEIGHT - 1) x, m).

Definition clear_line (l : list Z) : option (list Z) :=
  for_up (Z.to_nat BUFFER_LIMIT) 0 (fun i l => l.[i <- 0]) l.

(** ** [put_char], in its parts *)

(** [if (c == '\t') ...] *)
Definition put_tab (x : tty) (s : io) : option (tty * io) :=
  let x := set_pos (curr_x x + 8) (curr_y x) x in
  x ← for_up 8 0 (fun _ x =>
        l ← (linebuffer x).[linelength x <- 32]; Some (set_line (linelength x + 1) l x)) x;
  Some (x, update_cursor (curr_y x) (curr_x x) s).

(** [if (curr_x[terminal] >= WIDTH) ...] *)
Definition put_wrap (x : tty) (s : io) : tty * io :=
  if WIDTH <=? curr_x x
  then let x := set_pos 0 (curr_y x + 1) x in (x, update_cursor (curr_y x) (curr_x x) s)
  else (x, s).

(** [if (c >= ' ') ...], [data] being the address computed on entry. *)
Definition put_printable (t c data : Z) (x : tty) (m : memory) (s : io) : option (tty * memory * io) :=
  if ASCII_SPACE <=? c then
    l ← (linebuffer x).[linelength x <- u8 c];
    let m := put_cell m data c t in
    let x := set_pos (curr_x x + 1) (curr_y x) (set_line (linelength x + 1) l x) in
    Some (x, m, update_cursor (curr_y x) (curr_x x) s)
  else Some (x, m, s).

(** [if (linelength[terminal] < BUFFER_LIMIT) ...] *)
Definition put_insert (t c data : Z) (x : tty) (m : memory) (s : io) : option (tty * memory * io) :=
  if linelength x <? BUFFER_LIMIT then
    '(x, s) ← (if c =? TAB then put_tab x s else Some (x, s));
    let '(x, s) := put_wrap x s in
    put_printable t c data x m s
  else Some (x, m, s).

(** [if (c == BACKSPACE) ...] *)
Definition put_backspace (c : Z) (x : tty) (m : memory) (s : io) : option (tty * memory * io) :=
  if c =? BACKSPACE then
    let x := if 0 <? linelength x then set_pos (curr_x x - 1) (curr_y x) x else x in
    let data := SCREEN + INDEX (curr_x x) (curr_y x) * 2 in
    let m := store16 m data (blank x) in
    let n := if 0 <? linelength x then linelength x - 1 else linelength x in
    l ← (linebuffer x).[n <- 0];
    let x := set_line n l x in
    Some (x, m, update_cursor (curr_y x) (curr_x x) s)
  else Some (x, m, s).

(** [if (c == '\n') ...] *)
Definition put_newline (c : Z) (x : tty) (s : io) : option (tty * io) :=
  if c =? NEW_LINE then
    l ← (linebuffer x).[linelength x <- u8 c];
    let last := linelength x + 1 in
    '(l, ll) ← for_up (Z.to_nat last) 0 (fun i '(l, ll) =>
        b ← l.[i]; ll ← ll.[i <- b]; l ← l.[i <- 0]; Some (l, ll)) (l, lastlinebuffer x);
    let x := Tty 0 last 0 l ll 1 0 (curr_y x + 1) (blank x) in
    Some (x, update_cursor (curr_y x) (curr_x x) s)
  else Some (x, s).

(** [if (curr_y[terminal] >= HEIGHT) ...] *)
Definition put_scroll (t base : Z) (x : tty) (m : memory) (s : io) : option (tty * memory * io) :=
  if HEIGHT <=? curr_y x then
    '(x, m) ← scroll_line t base x m;
    let x := set_pos (curr_x x) (HEIGHT - 1) x in
    Some (x, m, update_cursor (curr_y x) (curr_x x) s)
  else Some (x, m, s).

Definition put_char_tty (t c : Z) (x : tty) (m : memory) (s : io) : option (tty * memory * io) :=
  let data := SCREEN + 2 * INDEX (curr_x x) (curr_y x) in
  let s := cli s in
  '(x, m, s) ← put_insert t c data x m s;
  '(x, m, s) ← put_backspace c x m s;
  '(x, s) ← put_newline c x s;
  '(x, m, s) ← put_scroll t SCREEN x m s;
  Some (x, m, sti s).

(** [put_char] works on the terminal on display. *)
Definition put_char (c : Z) (ts : terminals) : option terminals :=
  let t := curr_terminal ts in
  x ← (ttys ts).[t];
  '(x, m, s) ← put_char_tty t c x (vm ts) (pio ts);
  l ← (ttys ts).[t <- x];
  Some (Terminals (mem_set ts) t l m s).

(** ** Output of programs *)

Definition put_char_out_tty (t vpage c : Z) (x : tty) (m : memory) (s : io) : option (tty * memory * io) :=
  let data := vpage + 2 * INDEX (curr_x x) (curr_y x) in
  let '(x, s) :=
    if WIDTH <=? curr_x x then
      let x := set_pos 0 (curr_y x + 1) (set_linestart 0 x) in (x, update_cursor (curr_y x) (curr_x x) s)
    else (x, s) in
  let '(x, m, s) :=
    if c =? NEW_LINE then
      let x := set_pos 0 (curr_y x + 1) (set_line 0 (linebuffer x) x) in
      (x, m, update_cursor (curr_y x) (curr_x x) s)
    else
      let m := put_cell m data c t in
      let x := set_pos (curr_x x + 1) (curr_y x) x in
      let x := set_line (linelength x + 1) (linebuffer x) (set_linestart (curr_x x) x) in
      (x, m, update_cursor (curr_y x) (curr_x x) s) in
  put_scroll t vpage x m s.

(** [terminal_write] by a process of terminal [t]; [buf] is [None] for NULL. *)
Definition terminal_write (t vpage : Z) (buf : option (list Z)) (count : Z) (ts : terminals)
  : option (Z * terminals) :=
  let s := cli (pio ts) in
  match buf with
  | None => Some (-1, Terminals (mem_set ts) (curr_terminal ts) (ttys ts) (vm ts) (sti s))
  | Some buf =>
      if count <? 0 then Some (-1, Terminals (mem_set ts) (curr_terminal ts) (ttys ts) (vm ts) (sti s))
      else
        x ← (ttys ts).[t];
        '(x, m, s, written) ← for_up (Z.to_nat count) 0 (fun i '(x, m, s, written) =>
            c ← buf.[i];
            if negb (c =? 0) then
              '(x, m, s) ← put_char_out_tty t vpage c x m s;
              Some (x, m, s, written + 1)
            else Some (x, m, s, written)) (x, vm ts, s, 0);
        l ← (ttys ts).[t <- set_line 0 (linebuffer x) x];
        Some (written, Terminals (mem_set ts) (curr_terminal ts) l m (sti s))
  end.

(** ** Input of programs *)

(** The copying loop of [terminal_read]; [acc] holds the bytes stored so far, last
    one first. *)
Fixpoint read_line (k : nat) (i count : Z) (n : Z) (ll acc : list Z) : option (list Z * list Z) :=
  match k with
  | O => Some (reverse acc, ll)
  | S k' =>
      if (i <? n) && (i <? count) then
        c ← ll.[i];
        if c =? 0 then Some (reverse acc, ll)
        else ll ← ll.[i <- 0]; read_line k' (i + 1) count n ll (c :: acc)
      else Some (reverse acc, ll)
  end.

(** The result of a read: an error, still waiting for a line, or the line. *)
Inductive read_result := ReadError | ReadWaits | ReadLine (ret : Z) (bs : list Z) (ts : terminals).

Definition terminal_read (t buf count : Z) (ts : terminals) : option read_result :=
  if (buf =? 0) || (count <? 0) then Some ReadError
  else
    x ← (ttys ts).[t];
    if negb (rd x =? 1) then Some ReadWaits
    else
      '(bs, ll) ← read_line (Z.to_nat (lastlinelength x)) 0 count (lastlinelength x) (lastlinebuffer x) [];
      ll ← for_up (Z.to_nat (lastlinelength x - count)) count (fun i ll => ll.[i <- 0]) ll;
      let x := set_last 0 0 ll x in
      l ← (ttys ts).[t <- x];
      Some (ReadLine (Z.of_nat (length bs)) bs
              (Terminals (mem_set ts) (curr_terminal ts) l (vm ts) (sti (cli (pio ts))))).

(** ** Clearing, opening, closing *)

(** The two nested loops that blank a page, [t] being the pointer they advance. *)
Definition blank_page (t base : Z) (m : memory) : option memory :=
  '(m, _) ← for_up (Z.to_nat WIDTH) 0 (fun _ st =>
    for_up (Z.to_nat HEIGHT) 0 (fun _ '(m, a) => Some (put_cell m a ASCII_SPACE t, a + 2)) st) (m, base);
  Some m.

Definition clear_terminal (ts : terminals) : option terminals :=
  let t := curr_terminal ts in
  let s := cli (pio ts) in
  x ← (ttys ts).[t];
  if negb (mem_set ts) || (curr_x x <? 0) || (WIDTH <=? curr_x x) || (curr_y x <? 0) || (HEIGHT <=? curr_y x)
  then Some (Terminals (mem_set ts) t (ttys ts) (vm ts) s)
  else
    m ← blank_page t SCREEN (vm ts);
    l ← clear_line (linebuffer x);
    ttys' ← (ttys ts).[t <- Tty 0 0 0 l (lastlinebuffer x) 0 0 0 (blank x)];
    Some (Terminals (mem_set ts) t ttys' m (sti s)).

Definition clear_buffer (t : Z) (ts : terminals) : option terminals :=
  x ← (ttys ts).[t];
  l ← clear_line (linebuffer x);
  ttys' ← (ttys ts).[t <- set_line (linelength x) l x];
  Some (Terminals (mem_set ts) (curr_terminal ts) ttys' (vm ts) (pio ts)).

(** [blank[j]] as the assignments to its fields leave it. *)
Definition set_blank (t old : Z) : Z :=
  let w := set_field 0 8 ASCII_SPACE old in
  let w := match colour t with Some fore => set_field 8 4 fore w | None => w end in
  set_field 12 4 BLACK w.

Definition terminal_open (vpage : Z) (ts : terminals) : option (Z * terminals) :=
  '(l, m) ← for_up 3 0 (fun j '(l, m) =>
     x ← l.[j];
     m ← blank_page j vpage m;
     lb ← clear_line (linebuffer x);
     l ← l.[j <- Tty 0 0 0 lb (lastlinebuffer x) 0 0 0 (set_blank j (blank x))];
     Some (l, m)) (ttys ts, vm ts);
  x ← l.[0];
  Some (0, Terminals true 0 l m (update_cursor (curr_y x) (curr_x x) (pio ts))).

Definition terminal_close (t : Z) (ts : terminals) : option (Z * terminals) :=
  l ← for_up 3 0 (fun _ l =>
        x ← l.[t]; l.[t <- Tty 0 0 0 (linebuffer x) (lastlinebuffer x) 0 0 0 (blank x)]) (ttys ts);
  Some (0, Terminals (mem_set ts) (curr_terminal ts) l (vm ts) (pio ts)).

(** ** Switching *)

(** [memcpy (to, from, KB4)] *)
Definition copy_page (m : memory) (to from : Z) : option memory :=
  st ← memcpy m false to from KB4; Some (mem st).

Section Switch.
(** [swap_vid_mem] of [file_array.c], on the state of the processes. *)
Context {P : Type} (swap_vid_mem : Z -> Z -> P -> option (Z * P)).

Definition switch_terminals (term : Z) (ts : terminals) (p : P) : option (terminals * P) :=
  if term =? curr_terminal ts then Some (ts, p)
  else
    m ← copy_page (vm ts) (SCREEN + (curr_terminal ts + 1) * KB4) SCREEN;
    m ← copy_page m SCREEN (SCREEN + (term + 1) * KB4);
    '(_, p) ← swap_vid_mem (curr_terminal ts) term p;
    Some (Terminals (mem_set ts) term (ttys ts) m (sti (cli (pio ts))), p).

End Switch.

(** ** Recalling a command *)

Fixpoint type_chars (k : nat) (i : Z) (src : list Z) (ts : terminals) : option terminals :=
  match k with
  | O => Some ts
  | S k' =>
      c ← src.[i];
      if c =? 0 then Some ts else ts ← put_char (s8 c) ts; type_chars k' (i + 1) src ts
  end.

Definition hist_copy_from (src : list Z) (ts : terminals) : option terminals :=
  ts ← for_up 128 0 (fun _ ts => put_char BACKSPACE ts) ts;
  type_chars 128 0 src ts.

Definition get_curr_terminal (ts : terminals) : Z := curr_terminal ts.

(** ** The line editor a terminal is *)

(** The line being typed and the last line entered. *)
Definition line (x : tty) : list Z := take (Z.to_nat (linelength x)) (linebuffer x).
Definition lastline (x : tty) : list Z := take (Z.to_nat (lastlinelength x)) (lastlinebuffer x).

(** What a key other than tab and newline does to the line: at most 128
    characters, a backspace takes the last one away. *)
Definition edit (l : list Z) (c : Z) : list Z :=
  if c =? BACKSPACE then removelast l
  else if (ASCII_SPACE <=? c) && (Z.of_nat (length l) <? BUFFER_LIMIT) then l ++ [u8 c]
  else l.

(** The cursor may be up to 128 columns left of column 0 of its row: a backspace
    does not move it to the row above. *)
Record tty_ok (x : tty) : Prop := {
  ok_linebuffer : Z.of_nat (length (linebuffer x)) = 129;
  ok_lastlinebuffer : Z.of_nat (length (lastlinebuffer x)) = 129;
  ok_linelength : 0 <= linelength x <= 128;
  ok_lastlinelength : 0 <= lastlinelength x <= 129;
  ok_y : 0 <= curr_y x <= 24;
  ok_x : curr_x x <= 80;
  ok_left : -128 <= curr_x x - linelength x;
  ok_index : linelength x <= INDEX (curr_x x) (curr_y x) }.

(** Memory unchanged outside of the 4 kB page at [base]. *)
Definition only_page (base : Z) (m m' : memory) : Prop :=
  forall a, ~ base <= a < base + 4096 -> m' a = m a.

(** ** Lemmas on cells *)

Lemma store8_bytes m a v : bytes m -> bytes (store8 m a v).
Proof. intros Hm x. unfold store8. case_if; [apply u8_range | apply Hm]. Qed.

Lemma store16_bytes m a v : bytes m -> bytes (store16 m a v).
Proof. intros Hm. by apply store8_bytes, store8_bytes. Qed.

Lemma put_cell_bytes m a c t : bytes m -> bytes (put_cell m a c t).
Proof.
  intros Hm. unfold put_cell. destruct (colour t); repeat apply store8_bytes; done.
Qed.

#[export] Hint Resolve store8_bytes store16_bytes put_cell_bytes : galapagos.

Lemma put_cell_frame m a c t x : x <> a -> x <> a + 1 -> put_cell m a c t x = m x.
Proof.
  intros. unfold put_cell. destruct (colour t); unfold store8;
    bfalse (x =? a + 1); bfalse (x =? a); done.
Qed.

Lemma put_cell_char m a c t : put_cell m a c t a = u8 c.
Proof.
  unfold put_cell. destruct (colour t); unfold store8; bfalse (a =? a + 1); btrue (a =? a); done.
Qed.

Lemma store16_frame m a v x : 0 <= a -> a + 2 <= 2 ^ 32 -> x <> a -> x <> a + 1 -> store16 m a v x = m x.
Proof. intros. rewrite store16_get by (unfold area; lia). bfalse (x =? a). by bfalse (x =? a + 1). Qed.

(** ** Scrolling *)

(** A page scrolled up by [i] rows the way [scroll_line] does it: the rows below
    move up, and one row after them is blanked. *)
Definition scrolled (m : memory) (base w i x : Z) : Z :=
  if (base <=? x) && (x <? base + (25 - i) * 160) then m (x + 160 * i)
  else if (base + (25 - i) * 160 <=? x) && (x <? base + (26 - i) * 160)
  then u8 (Z.shiftr w (8 * ((x - base) mod 2)))
  else m x.

Lemma scroll_line_spec t base x m :
  bytes m -> 0 <= base -> base + 4096 <= 2 ^ 32 -> 25 <= curr_y x <= 26 ->
  exists m', scroll_line t base x m = Some (set_pos (curr_x x) 24 x, m') /\
    forall a, m' a = scrolled m base (blank_word t) (curr_y x - 24) a.
Proof.
  intros Hm Hb Hb' Hy. unfold scroll_line, HEIGHT, WIDTH. cbv zeta.
  replace (curr_y x - 25 + 1) with (curr_y x - 24) by lia. set (i := curr_y x - 24) in *.
  replace (i * 80 * 2) with (160 * i) by lia. replace ((25 - i) * 80 * 2) with ((25 - i) * 160) by lia.
  destruct (memcpy_runs m false base (base + 160 * i) ((25 - i) * 160)) as (st & -> & Hst);
    [done | unfold area; lia | unfold area; lia | unfold forward_safe; lia|].
  bind. eexists. split; [done|]. intros a.
  replace (2 * (25 - i) * 80) with ((25 - i) * 160) by lia. rewrite memset_word_runs by (unfold area; lia).
  unfold patched, scrolled. rewrite Hst. unfold moved, patched.
  replace (base + (25 - i) * 160 + 2 * 80) with (base + (26 - i) * 160) by lia.
  destruct (Z.leb_spec base a); cbn [andb].
  - destruct (Z.ltb_spec a (base + (25 - i) * 160)).
    + bfalse ((base + (25 - i) * 160 <=? a) && (a <? base + (26 - i) * 160)). f_equal. lia.
    + btrue (base + (25 - i) * 160 <=? a). cbn [andb].
      destruct (a <? base + (26 - i) * 160); [|done]. do 3 f_equal. zlia.
  - by bfalse ((base + (25 - i) * 160 <=? a) && (a <? base + (26 - i) * 160)).
Qed.

Lemma scrolled_bytes m base w i m' : bytes m -> (forall a, m' a = scrolled m base w i a) -> bytes m'.
Proof. intros Hm H a. rewrite H. unfold scrolled. repeat case_if; apply u8_range || apply Hm. Qed.

Lemma scrolled_only_page m base w i m' :
  1 <= i <= 2 -> (forall a, m' a = scrolled m base w i a) -> only_page base m m'.
Proof. intros Hi H a Ha. rewrite H. unfold scrolled. repeat case_if; done || lia. Qed.

Lemma put_scroll_spec t base x m s :
  bytes m -> 0 <= base -> base + 4096 <= 2 ^ 32 -> curr_y x <= 26 ->
  exists m' s', put_scroll t base x m s = Some (set_pos (curr_x x) (Z.min 24 (curr_y x)) x, m', s') /\
    bytes m' /\ only_page base m m' /\ interrupts s' = interrupts s /\
    (forall a, m' a = if 25 <=? curr_y x then scrolled m base (blank_word t) (curr_y x - 24) a else m a).
Proof.
  intros Hm Hb Hb' Hy. unfold put_scroll, HEIGHT. destruct (Z.leb_spec 25 (curr_y x)) as [H|H].
  - destruct (scroll_line_spec t base x m Hm Hb Hb') as (m' & -> & Hm'); [lia|]. bind. eexists m', _.
    replace (Z.min 24 (curr_y x)) with 24 by lia. split; [done|].
    split; [by apply (scrolled_bytes m base (blank_word t) (curr_y x - 24))|].
    split; [apply (scrolled_only_page m base (blank_word t) (curr_y x - 24)); [lia | done]|]. done.
  - exists m, s. replace (Z.min 24 (curr_y x)) with (curr_y x) by lia. by destruct x.
Qed.

(** ** Lines *)

Lemma take_zset (l l' : list Z) n v :
  l.[n <- v] = Some l' -> take (Z.to_nat n) l' = take (Z.to_nat n) l /\
    take (Z.to_nat (n + 1)) l' = take (Z.to_nat n) l ++ [v].
Proof.
  intros [Hn ->]%zset_Some. split.
  - apply take_insert_ge. lia.
  - replace (Z.to_nat (n + 1)) with (S (Z.to_nat n)) by lia.
    rewrite (take_S_r _ _ v) by (apply list_lookup_insert_eq; lia). f_equal. apply take_insert_ge. lia.
Qed.

Lemma removelast_take {A} (l : list A) n :
  (n <= length l)%nat -> removelast (take n l) = take (n - 1) l.
Proof.
  intros Hn. destruct n as [|n]; [done|]. replace (S n - 1)%nat with n by lia.
  destruct (lookup_lt_is_Some_2 l n) as [v Hv]; [lia|]. rewrite (take_S_r _ _ v) by done. apply removelast_last.
Qed.

(** The loop that moves the entered line to [lastlinebuffer]. *)
Lemma move_line_spec (l ll : list Z) n :
  0 <= n <= Z.of_nat (length l) -> n <= Z.of_nat (length ll) ->
  for_up (Z.to_nat n) 0 (fun i '(l, ll) => b ← l.[i]; ll ← ll.[i <- b]; l ← l.[i <- 0]; Some (l, ll)) (l, ll) =
  Some (replicate (Z.to_nat n) 0 ++ drop (Z.to_nat n) l, take (Z.to_nat n) l ++ drop (Z.to_nat n) ll).
Proof.
  intros Hn Hll.
  destruct (for_up_inv (fun i '(a, b) => a = replicate (Z.to_nat i) 0 ++ drop (Z.to_nat i) l /\
      b = take (Z.to_nat i) l ++ drop (Z.to_nat i) ll) (Z.to_nat n) 0
    (fun i '(l, ll) => b ← l.[i]; ll ← ll.[i <- b]; l ← l.[i <- 0]; Some (l, ll)) (l, ll))
    as ([a b] & E & Ha & Hb).
  - done.
  - intros i [a b] Hi [-> ->]. replace (0 + Z.of_nat (Z.to_nat n)) with n in Hi by lia.
    destruct (lookup_lt_is_Some_2 l (Z.to_nat i)) as [v Hv]; [lia|].
    destruct (lookup_lt_is_Some_2 ll (Z.to_nat i)) as [w Hw]; [lia|].
    rewrite (drop_S l v), (drop_S ll w) by done.
    rewrite zget_app_r by (rewrite length_replicate; lia). rewrite length_replicate.
    replace (i - Z.of_nat (Z.to_nat i)) with 0 by lia.
    change ((v :: drop (S (Z.to_nat i)) l).[0]) with (Some v). bind.
    rewrite (zset_app_mid (take _ l)) by (rewrite length_take; lia). bind.
    rewrite zset_app_mid by (rewrite length_replicate; lia). bind.
    eexists (_, _). split; [done|]. replace (Z.to_nat (i + 1)) with (S (Z.to_nat i)) by lia.
    rewrite replicate_S_end, (take_S_r l _ v) by done. rewrite <- !app_assoc. done.
  - rewrite E. replace (0 + Z.of_nat (Z.to_nat n)) with n in * by lia. by subst.
Qed.

Lemma put_newline_spec x s :
  Z.of_nat (length (linebuffer x)) = 129 -> Z.of_nat (length (lastlinebuffer x)) = 129 ->
  0 <= linelength x <= 128 ->
  exists l ll s', put_newline NEW_LINE x s = Some (Tty 0 (linelength x + 1) 0 l ll 1 0 (curr_y x + 1) (blank x), s') /\
    Z.of_nat (length l) = 129 /\ Z.of_nat (length ll) = 129 /\
    take (Z.to_nat (linelength x + 1)) ll = line x ++ [10] /\ interrupts s' = interrupts s.
Proof.
  intros H1 H2 Hl. unfold put_newline, NEW_LINE. rewrite Z.eqb_refl. change (u8 10) with 10.
  destruct ((linebuffer x).[linelength x <- 10]) as [l|] eqn:E; [|by rewrite zset_in in E by lia].
  bind. pose proof (zset_length _ _ _ _ E) as Hlen. rewrite move_line_spec by lia. bind.
  eexists _, _, _. split; [done|]. split_and!.
  - rewrite length_app, length_replicate, length_drop. lia.
  - rewrite length_app, length_take, length_drop. lia.
  - rewrite take_app_le by (rewrite length_take; lia). rewrite take_take, Nat.min_id. apply (take_zset _ _ _ _ E).
  - done.
Qed.

(** ** [put_char] on one terminal *)

Lemma set_pos_eta x : set_pos (curr_x x) (curr_y x) x = x.
Proof. by destruct x. Qed.

(** A terminal in the middle of [put_char]. *)
Record tty_mid (x : tty) : Prop := {
  mid_linebuffer : Z.of_nat (length (linebuffer x)) = 129;
  mid_lastlinebuffer : Z.of_nat (length (lastlinebuffer x)) = 129;
  mid_linelength : 0 <= linelength x <= 128;
  mid_lastlinelength : 0 <= lastlinelength x <= 129;
  mid_y : 0 <= curr_y x <= 25;
  mid_x : curr_x x <= 80;
  mid_left : -128 <= curr_x x - linelength x;
  mid_index : linelength x <= INDEX (curr_x x) (curr_y x) <= 2001 }.

Lemma tty_ok_mid x : tty_ok x -> tty_mid x.
Proof. intros []. split; try done; unfold INDEX, WIDTH in *; lia. Qed.

(** Where the row is full, the cursor goes to the next one; its index stays. *)
Definition wrapped (x : tty) : tty := if 80 <=? curr_x x then set_pos 0 (curr_y x + 1) x else x.

Lemma put_wrap_spec x s : exists s', put_wrap x s = (wrapped x, s') /\ interrupts s' = interrupts s.
Proof. unfold put_wrap, wrapped, WIDTH. case_if; eauto. Qed.

Lemma wrapped_mid x : tty_ok x -> tty_mid (wrapped x) /\ curr_x (wrapped x) < 80 /\
  INDEX (curr_x (wrapped x)) (curr_y (wrapped x)) = INDEX (curr_x x) (curr_y x).
Proof.
  intros []. unfold wrapped, INDEX, WIDTH in *. case_if; split_and!; try split; try done; cbn;
    unfold INDEX, WIDTH in *; lia.
Qed.

(** The parts of a terminal that typing leaves alone. *)
Definition untouched (x : tty) := (lastlinelength x, lastlinebuffer x, rd x, blank x).

Lemma put_insert_spec t c x m s :
  tty_ok x -> bytes m -> c <> TAB ->
  let data := SCREEN + 2 * INDEX (curr_x x) (curr_y x) in
  exists x' m' s', put_insert t c data x m s = Some (x', m', s') /\ tty_mid x' /\ bytes m' /\
    only_page SCREEN m m' /\ interrupts s' = interrupts s /\ untouched x' = untouched x /\
    (if (ASCII_SPACE <=? c) && (linelength x <? BUFFER_LIMIT)
     then line x' = line x ++ [u8 c] /\ m' = put_cell m data c t /\
       INDEX (curr_x x') (curr_y x') = INDEX (curr_x x) (curr_y x) + 1 /\ linelength x' = linelength x + 1
     else line x' = line x /\ m' = m /\ INDEX (curr_x x') (curr_y x') = INDEX (curr_x x) (curr_y x)) /\
    curr_y x' = if linelength x <? BUFFER_LIMIT then curr_y (wrapped x) else curr_y x.
Proof.
  intros Hx Hm Hc data. pose proof (wrapped_mid x Hx) as (Hw & Hwx & Hwi). unfold put_insert, put_printable.
  destruct (put_wrap_spec x s) as (s1 & Ew & Hs1).
  assert (untouched (wrapped x) = untouched x /\ linelength (wrapped x) = linelength x /\
    linebuffer (wrapped x) = linebuffer x) as (Hu & Hll & Hlb) by (unfold wrapped; case_if; done).
  unfold BUFFER_LIMIT. destruct (Z.ltb_spec (linelength x) 128) as [Hlt|Hge].
  2:{ exists x, m, s. rewrite andb_false_r. split_and!; try done. by apply tty_ok_mid. }
  rewrite (proj2 (Z.eqb_neq c TAB) Hc). bind. rewrite Ew, Hll, Hlb, andb_true_r.
  destruct (ASCII_SPACE <=? c).
  2:{ exists (wrapped x), m, s1. split_and!; try done. unfold line. by rewrite Hll, Hlb. }
  pose proof Hw as []. destruct Hx.
  destruct ((linebuffer x).[linelength x <- u8 c]) as [l|] eqn:E; [|by rewrite zset_in in E by lia].
  bind. cbv zeta. eexists _, _, _. split; [done|]. pose proof (zset_length _ _ _ _ E) as Hlen.
  split_and!; try done.
  - split; cbn; try done; unfold INDEX, WIDTH in *; lia.
  - auto with galapagos.
  - intros a Ha. apply put_cell_frame; unfold data, INDEX, WIDTH in *; lia.
  - unfold line. cbn. apply (take_zset _ _ _ _ E).
  - cbn. rewrite <- Hwi. unfold INDEX. lia.
Qed.

Lemma put_backspace_spec c x m s :
  tty_mid x -> bytes m ->
  exists x' m' s', put_backspace c x m s = Some (x', m', s') /\ tty_mid x' /\ bytes m' /\
    only_page SCREEN m m' /\ interrupts s' = interrupts s /\ untouched x' = untouched x /\ curr_y x' = curr_y x /\
    (if c =? BACKSPACE then line x' = removelast (line x) else x' = x /\ m' = m).
Proof.
  intros Hx Hm. unfold put_backspace. destruct (c =? BACKSPACE); [|by exists x, m, s].
  destruct Hx. set (n := if 0 <? linelength x then linelength x - 1 else linelength x).
  assert (0 <= n <= 128 /\ n <= linelength x) as [Hn Hn'] by (unfold n; case_if; lia).
  set (x1 := if 0 <? linelength x then set_pos (curr_x x - 1) (curr_y x) x else x).
  assert (linelength x1 = linelength x /\ linebuffer x1 = linebuffer x /\ curr_y x1 = curr_y x /\
    untouched x1 = untouched x /\ curr_x x1 - n = curr_x x - linelength x /\ blank x1 = blank x) as (E1 & E2 & E3 & E4 & E5 & E6).
  { unfold x1, n. case_if; split_and!; try done; cbn; lia. }
  cbv zeta. fold x1. rewrite E1, E2. fold n.
  destruct ((linebuffer x).[n <- 0]) as [l|] eqn:E; [|by rewrite zset_in in E by lia]. bind.
  eexists _, _, _. split; [done|]. unfold untouched in *. pose proof (zset_length _ _ _ _ E) as Hlen.
  split_and!; try done.
  - injection E4 as F1 F2 F3 F4. split; cbn; try congruence; try lia; unfold INDEX, WIDTH in *; lia.
  - auto with galapagos.
  - intros a Ha. unfold SCREEN, INDEX, WIDTH in *. rewrite store16_frame; [done | lia ..].
  - unfold line. cbn. rewrite removelast_take by lia. rewrite (proj1 (take_zset _ _ _ _ E)).
    f_equal. unfold n. case_if; lia.
Qed.

Lemma only_page_trans base m1 m2 m3 : only_page base m1 m2 -> only_page base m2 m3 -> only_page base m1 m3.
Proof. intros H1 H2 a Ha. by rewrite H2, H1. Qed.

Lemma length_line x : tty_ok x -> Z.of_nat (length (line x)) = linelength x.
Proof. intros []. unfold line. rewrite length_take. lia. Qed.

Lemma put_char_tty_spec t c x m s :
  tty_ok x -> bytes m -> c <> TAB ->
  exists x' m' s', put_char_tty t c x m s = Some (x', m', s') /\ tty_ok x' /\ bytes m' /\
    only_page SCREEN m m' /\ interrupts s' = true /\ blank x' = blank x /\
    if c =? NEW_LINE then line x' = [] /\ lastline x' = line x ++ [10] /\ rd x' = 1
    else line x' = edit (line x) c /\ lastline x' = lastline x /\ rd x' = rd x.
Proof.
  intros Hx Hm Hc. unfold put_char_tty. cbv zeta.
  destruct (put_insert_spec t c x m (cli s) Hx Hm Hc)
    as (x1 & m1 & s1 & -> & Hx1 & Hm1 & Hp1 & _ & Hu1 & Hl1 & Hy1). bind.
  destruct (put_backspace_spec c x1 m1 s1 Hx1 Hm1)
    as (x2 & m2 & s2 & -> & Hx2 & Hm2 & Hp2 & _ & Hu2 & Hy2 & Hl2). bind.
  destruct (Z.eqb_spec c NEW_LINE) as [->|Hnl].
  - change (NEW_LINE =? BACKSPACE) with false in Hl2. destruct Hl2 as [-> ->].
    change (ASCII_SPACE <=? NEW_LINE) with false in Hl1. destruct Hl1 as (Hl1 & _ & _). pose proof Hx1 as [].
    destruct (put_newline_spec x1 s2) as (l & ll & s3 & -> & Hlen & Hllen & Htake & _); [done | done | lia|]. bind.
    set (x3 := Tty _ _ _ _ _ _ _ _ _).
    destruct (put_scroll_spec t SCREEN x3 m1 s3) as (m4 & s4 & -> & Hm4 & Hp4 & _ & _);
      [done | unfold SCREEN; lia | unfold SCREEN; lia | cbn; lia|].
    bind. eexists _, _, _. split; [done|]. split_and!; try done.
    + split; cbn; try done; unfold INDEX, WIDTH; lia.
    + by apply (only_page_trans _ _ m1).
    + injection Hu1 as _ _ _ Hb. done.
    + unfold lastline. cbn. by rewrite Htake, Hl1.
  - unfold put_newline. rewrite (proj2 (Z.eqb_neq c NEW_LINE) Hnl). bind. pose proof Hx2 as [].
    destruct (put_scroll_spec t SCREEN x2 m2 s2) as (m4 & s4 & -> & Hm4 & Hp4 & _ & _);
      [done | unfold SCREEN; lia | unfold SCREEN; lia | lia|].
    bind. eexists _, _, _. split; [done|]. unfold untouched in *.
    injection Hu1 as U1 U2 U3 U4. injection Hu2 as V1 V2 V3 V4. split_and!; try done.
    + split; cbn; try done; try lia; unfold INDEX, WIDTH in *; lia.
    + by apply (only_page_trans _ _ m1), (only_page_trans _ _ m2).
    + cbn. congruence.
    + change (line (set_pos _ _ x2)) with (line x2). unfold edit. rewrite length_line by done.
      destruct (Z.eqb_spec c BACKSPACE) as [->|Hbs].
      * rewrite Hl2. f_equal. by destruct Hl1.
      * destruct Hl2 as [-> _]. destruct (_ && _); by destruct Hl1.
    + unfold lastline. cbn. congruence.
    + cbn. congruence.
Qed.

(** ** Programs' output *)

(** A terminal during a write: the length of the line is of no meaning there. *)
Record tty_out (x : tty) : Prop := {
  out_linebuffer : Z.of_nat (length (linebuffer x)) = 129;
  out_lastlinebuffer : Z.of_nat (length (lastlinebuffer x)) = 129;
  out_lastlinelength : 0 <= lastlinelength x <= 129;
  out_y : 0 <= curr_y x <= 24;
  out_x : -128 <= curr_x x <= 80;
  out_index : 0 <= INDEX (curr_x x) (curr_y x) }.

Lemma tty_ok_out x : tty_ok x -> tty_out x.
Proof. intros []. split; try done; lia. Qed.

Lemma tty_out_ok x : tty_out x -> tty_ok (set_line 0 (linebuffer x) x).
Proof. intros []. split; cbn; try done; unfold INDEX, WIDTH in *; lia. Qed.

(** A page of video memory. *)
Definition page_ok (base : Z) : Prop := 0 <= base /\ base + 4096 <= 2 ^ 32.

Lemma put_char_out_spec t vpage c x m s :
  tty_out x -> bytes m -> page_ok vpage ->
  exists x' m' s', put_char_out_tty t vpage c x m s = Some (x', m', s') /\ tty_out x' /\ bytes m' /\
    only_page vpage m m' /\ untouched x' = untouched x /\ linebuffer x' = linebuffer x /\
    interrupts s' = interrupts s.
Proof.
  intros [] Hm [Hb Hb']. unfold put_char_out_tty. cbv zeta.
  set (x1 := if WIDTH <=? curr_x x then set_pos 0 (curr_y x + 1) (set_linestart 0 x) else x).
  assert (exists s1, (if WIDTH <=? curr_x x then
      (set_pos 0 (curr_y x + 1) (set_linestart 0 x),
       update_cursor (curr_y (set_pos 0 (curr_y x + 1) (set_linestart 0 x)))
         (curr_x (set_pos 0 (curr_y x + 1) (set_linestart 0 x))) s)
    else (x, s)) = (x1, s1) /\ interrupts s1 = interrupts s) as (s1 & -> & Hs1)
    by (unfold x1; destruct (WIDTH <=? curr_x x); eauto).
  assert (untouched x1 = untouched x /\ linebuffer x1 = linebuffer x /\ 0 <= curr_y x1 <= 25 /\
    -128 <= curr_x x1 < 80) as (Hu & Hl & Hy1 & Hx1).
  { unfold x1, WIDTH. case_if; cbn; lia || (split_and!; done || lia). }
  set (data := vpage + 2 * INDEX (curr_x x) (curr_y x)).
  set (x2 := if c =? NEW_LINE then set_pos 0 (curr_y x1 + 1) (set_line 0 (linebuffer x1) x1)
    else set_line (linelength x1 + 1) (linebuffer x1) (set_linestart (curr_x x1 + 1) (set_pos (curr_x x1 + 1) (curr_y x1) x1))).
  assert (exists m2 s2, (if c =? NEW_LINE then
      (set_pos 0 (curr_y x1 + 1) (set_line 0 (linebuffer x1) x1), m,
       update_cursor (curr_y x1 + 1) 0 s1)
    else (x2, put_cell m data c t, update_cursor (curr_y x1) (curr_x x1 + 1) s1)) = (x2, m2, s2) /\
    bytes m2 /\ only_page vpage m m2 /\ interrupts s2 = interrupts s) as (m2 & s2 & E2 & Hm2 & Hp2 & Hs2).
  { unfold x2. destruct (c =? NEW_LINE); eexists _, _; split_and!; try done; auto with galapagos.
    intros a Ha. apply put_cell_frame; unfold data, INDEX, WIDTH in *; lia. }
  assert (untouched x2 = untouched x1 /\ linebuffer x2 = linebuffer x1 /\ 0 <= curr_y x2 <= 26 /\
    -128 <= curr_x x2 <= 80 /\ (c <> NEW_LINE -> curr_y x2 <= 25)) as (Hu2 & Hl2 & Hy2 & Hx2 & _).
  { unfold x2. destruct (Z.eqb_spec c NEW_LINE); cbn; split_and!; done || lia. }
  assert (0 <= INDEX (curr_x x2) (curr_y x2)) as Hi2.
  { unfold x2, x1, INDEX, WIDTH in *. destruct (c =? NEW_LINE); repeat case_if; cbn; lia. }
  cbn [curr_y curr_x set_pos set_line set_linestart linelength linebuffer] in E2 |- *.
  destruct (put_scroll_spec t vpage x2 m2 s2 Hm2 Hb Hb') as (m3 & s3 & E3 & Hm3 & Hp3 & Hs3 & _); [lia|].
  exists (set_pos (curr_x x2) (Z.min 24 (curr_y x2)) x2), m3, s3.
  unfold untouched in *. injection Hu as U1 U2 U3 U4. injection Hu2 as V1 V2 V3 V4. split_and!.
  - unfold x2 in *. destruct (c =? NEW_LINE); injection E2 as <- <-; exact E3.
  - split; cbn; try congruence; try lia; unfold INDEX, WIDTH in *; lia.
  - done.
  - by apply (only_page_trans _ _ m2).
  - cbn. congruence.
  - cbn. congruence.
  - congruence.
Qed.

(** ** All terminals *)

Record terminals_ok (ts : terminals) : Prop := {
  to_size : Z.of_nat (length (ttys ts)) = 3;
  to_curr : 0 <= curr_terminal ts < 3;
  to_ttys : forall t x, (ttys ts).[t] = Some x -> tty_ok x;
  to_bytes : bytes (vm ts) }.

(** [x] and [x'] before and after the key [c]. *)
Definition key_effect (c : Z) (x x' : tty) : Prop :=
  if c =? NEW_LINE then line x' = [] /\ lastline x' = line x ++ [10] /\ rd x' = 1
  else line x' = edit (line x) c /\ lastline x' = lastline x /\ rd x' = rd x.

(** The terminals other than [t] are the same. *)
Definition others_same (t : Z) (ts ts' : terminals) : Prop :=
  forall u, u <> t -> (ttys ts').[u] = (ttys ts).[u].

Lemma replace_tty ts t x l m s :
  terminals_ok ts -> tty_ok x -> bytes m -> (ttys ts).[t <- x] = Some l ->
  terminals_ok (Terminals (mem_set ts) (curr_terminal ts) l m s) /\ l.[t] = Some x /\
  others_same t ts (Terminals (mem_set ts) (curr_terminal ts) l m s).
Proof.
  intros [] Hx Hm E. split_and!.
  - split; cbn; [by rewrite (zset_length _ _ _ _ E) | done | | done].
    intros u y. rewrite (zget_zset _ _ _ _ _ E). destruct (Z.eqb_spec u t); [by intros [= <-] | apply to_ttys0].
  - by rewrite (zget_zset _ _ _ _ _ E), Z.eqb_refl.
  - intros u Hu. cbn. rewrite (zget_zset _ _ _ _ _ E). by bfalse (u =? t).
Qed.

Lemma get_tty ts t : terminals_ok ts -> 0 <= t < 3 -> exists x, (ttys ts).[t] = Some x /\ tty_ok x.
Proof. intros [] Ht. destruct (zget_ex (ttys ts) t) as [x Hx]; [lia|]. eauto. Qed.

Lemma put_tty ts t x : terminals_ok ts -> 0 <= t < 3 -> exists l, (ttys ts).[t <- x] = Some l.
Proof. intros [] Ht. rewrite zset_in by lia. eauto. Qed.

Lemma put_char_spec c ts x :
  terminals_ok ts -> c <> TAB -> (ttys ts).[curr_terminal ts] = Some x ->
  exists x' ts', put_char c ts = Some ts' /\ terminals_ok ts' /\ curr_terminal ts' = curr_terminal ts /\
    (ttys ts').[curr_terminal ts] = Some x' /\ key_effect c x x' /\ others_same (curr_terminal ts) ts ts' /\
    only_page SCREEN (vm ts) (vm ts').
Proof.
  intros Hts Hc Hx. pose proof Hts as []. unfold put_char. rewrite Hx. bind.
  destruct (put_char_tty_spec (curr_terminal ts) c x (vm ts) (pio ts) (to_ttys0 _ _ Hx) to_bytes0 Hc)
    as (x' & m' & s' & -> & Hx' & Hm' & Hp' & _ & _ & He). bind.
  destruct (put_tty ts (curr_terminal ts) x' Hts to_curr0) as [l El]. rewrite El. bind.
  destruct (replace_tty ts _ x' l m' s' Hts Hx' Hm' El) as (H1 & H2 & H3).
  exists x', (Terminals (mem_set ts) (curr_terminal ts) l m' s'). done.
Qed.

(** A sequence of keys. *)
Fixpoint type_keys (ks : list Z) (ts : terminals) : option terminals :=
  match ks with
  | [] => Some ts
  | c :: ks' => ts ← put_char c ts; type_keys ks' ts
  end.

(** Keys other than tab and newline. *)
Definition plain_key (c : Z) : Prop := c <> TAB /\ c <> NEW_LINE.

Lemma type_keys_spec ks ts x :
  Forall plain_key ks -> terminals_ok ts -> (ttys ts).[curr_terminal ts] = Some x ->
  exists x' ts', type_keys ks ts = Some ts' /\ terminals_ok ts' /\ curr_terminal ts' = curr_terminal ts /\
    (ttys ts').[curr_terminal ts] = Some x' /\ line x' = fold_left edit ks (line x) /\
    lastline x' = lastline x /\ rd x' = rd x /\ others_same (curr_terminal ts) ts ts' /\
    only_page SCREEN (vm ts) (vm ts').
Proof.
  intros Hks. revert ts x. induction Hks as [|c ks [Hc1 Hc2] _ IH]; intros ts x Hts Hx; [by exists x, ts|].
  destruct (put_char_spec c ts x Hts Hc1 Hx) as (x1 & ts1 & E1 & Hts1 & Hcur1 & Hx1 & He1 & Ho1 & Hp1).
  unfold key_effect in He1. rewrite (proj2 (Z.eqb_neq c NEW_LINE) Hc2) in He1. destruct He1 as (L1 & L2 & L3).
  rewrite <- Hcur1 in Hx1. destruct (IH ts1 x1 Hts1 Hx1) as (x2 & ts2 & E2 & Hts2 & Hcur2 & Hx2 & M1 & M2 & M3 & Ho2 & Hp2).
  cbn [type_keys]. rewrite E1. bind. exists x2, ts2. rewrite Hcur1 in *. cbn [fold_left].
  split_and!; try done; try congruence.
  - intros u Hu. rewrite Ho2, Ho1; done.
  - by apply (only_page_trans _ _ (vm ts1)).
Qed.

(** ** Reading a line *)

Lemma read_line_spec k count n (cs rest : list Z) acc i :
  0 <= i -> Z.of_nat (length acc) = i -> Z.of_nat k = n - i -> 0 <= count ->
  Forall (fun c => c <> 0) cs -> Z.of_nat (length cs) = n - i ->
  exists zs, Z.of_nat (length zs) = i + Z.of_nat (length (take (Z.to_nat (count - i)) cs)) /\
    read_line k i count n (replicate (Z.to_nat i) 0 ++ cs ++ rest) acc =
    Some (reverse acc ++ take (Z.to_nat (count - i)) cs, zs ++ drop (Z.to_nat (count - i)) cs ++ rest).
Proof.
  revert cs acc i. induction k as [|k IH]; intros cs acc i Hi Hacc Hk Hcount Hnz Hlen.
  - destruct cs; [|cbn in Hlen; lia]. exists (replicate (Z.to_nat i) 0). rewrite length_replicate.
    cbn [read_line]. rewrite take_nil, drop_nil, app_nil_r. cbn. split; [lia | done].
  - destruct cs as [|c cs]; [cbn in Hlen; lia|]. cbn [length] in Hlen. apply Forall_cons_1 in Hnz as [Hc Hnz].
    cbn [read_line]. btrue (i <? n). cbn [andb]. destruct (Z.ltb_spec i count) as [Hlt|Hge].
    + rewrite zget_app_r by (rewrite length_replicate; lia). rewrite length_replicate.
      replace (i - Z.of_nat (Z.to_nat i)) with 0 by lia. change (((c :: cs) ++ rest).[0]) with (Some c). bind.
      bfalse (c =? 0). cbn [app]. rewrite zset_app_mid by (rewrite length_replicate; lia). bind.
      destruct (IH cs (c :: acc) (i + 1)) as (zs & Hzs & E); [lia | cbn [length]; lia | lia | done | done | lia|].
      exists zs. replace (Z.to_nat (count - i)) with (S (Z.to_nat (count - (i + 1)))) by lia. cbn [take drop length].
      split; [lia|]. replace (replicate (Z.to_nat i) 0 ++ 0 :: cs ++ rest)
        with (replicate (Z.to_nat (i + 1)) 0 ++ cs ++ rest).
      * rewrite E, reverse_cons, <- app_assoc. done.
      * replace (Z.to_nat (i + 1)) with (S (Z.to_nat i)) by lia. by rewrite replicate_S_end, <- app_assoc.
    + exists (replicate (Z.to_nat i) 0). replace (Z.to_nat (count - i)) with 0%nat by lia.
      cbn [take drop length]. rewrite length_replicate, app_nil_r. split; [lia | done].
Qed.

Lemma zero_tail_spec k i (l : list Z) :
  0 <= i -> k = 0%nat \/ i + Z.of_nat k <= Z.of_nat (length l) ->
  exists l', for_up k i (fun j l => l.[j <- 0]) l = Some l' /\ length l' = length l.
Proof.
  intros Hi Hk. destruct (for_up_inv (fun _ l' => length l' = length l) k i (fun j l => l.[j <- 0]) l)
    as (l' & E & H); [done | | eauto].
  intros j l1 Hj Hl1. rewrite zset_in by lia. eexists. split; [done|]. by rewrite length_insert.
Qed.

Lemma terminal_read_spec t buf count ts x :
  terminals_ok ts -> 0 <= t < 3 -> buf <> 0 -> 0 <= count -> (ttys ts).[t] = Some x -> rd x = 1 ->
  Forall (fun c => c <> 0) (lastline x) ->
  exists ts', terminal_read t buf count ts =
      Some (ReadLine (Z.of_nat (length (take (Z.to_nat count) (lastline x)))) (take (Z.to_nat count) (lastline x)) ts') /\
    terminals_ok ts' /\ others_same t ts ts' /\
    exists x', (ttys ts').[t] = Some x' /\ rd x' = 0 /\ line x' = line x /\ lastline x' = [].
Proof.
  intros Hts Ht Hbuf Hcount Hx Hrd Hnz. unfold terminal_read. bfalse ((buf =? 0) || (count <? 0)). rewrite Hx. bind.
  rewrite Hrd. cbn [negb Z.eqb Pos.eqb]. pose proof Hts as []. pose proof (to_ttys0 _ _ Hx) as Hok. destruct Hok.
  assert (Z.of_nat (length (lastline x)) = lastlinelength x) as Hlen by (unfold lastline; rewrite length_take; lia).
  destruct (read_line_spec (Z.to_nat (lastlinelength x)) count (lastlinelength x) (lastline x)
    (drop (Z.to_nat (lastlinelength x)) (lastlinebuffer x)) [] 0) as (zs & Hzs & E); [lia | done | lia | done | done | lia|].
  change (replicate (Z.to_nat 0) 0) with (@nil Z) in E. cbn [app] in E. unfold lastline in E at 1. rewrite take_drop, Z.sub_0_r in E. rewrite E. bind.
  cbn [reverse rev_append app]. rewrite Z.sub_0_r in Hzs.
  edestruct (zero_tail_spec (Z.to_nat (lastlinelength x - count)) count) as (ll & El & Hll); [done | | rewrite El; bind].
  { rewrite !length_app, !length_drop. rewrite length_take in Hzs. lia. }
  set (x' := set_last 0 0 ll x).
  assert (tty_ok x') as Hx'.
  { split; cbn; try done; try lia. rewrite Hll, !length_app, !length_drop. rewrite length_take in Hzs. lia. }
  destruct (put_tty ts t x' Hts Ht) as [l Ett]. rewrite Ett. bind.
  destruct (replace_tty ts t x' l (vm ts) (sti (cli (pio ts))) Hts Hx' to_bytes0 Ett) as (H1 & H2 & H3).
  eexists. split; [done|]. split; [done|]. split; [done|]. by exists x'.
Qed.

(** ** Properties *)

Definition demo_tty : tty := Tty 0 0 0 (replicate 129 0) (replicate 129 0) 0 0 0 (set_blank 0 0).
Definition demo_terminals : terminals := Terminals true 0 (replicate 3 demo_tty) (fun _ => 0) (Io [] true).

Lemma demo_tty_ok : tty_ok demo_tty.
Proof. split; vm_compute; try done; split; done. Qed.

Lemma demo_terminals_ok : terminals_ok demo_terminals.
Proof.
  split; [done | cbn; lia | | intros a; cbn; lia].
  intros t x Hx. pose proof (zget_Some_range _ _ _ Hx) as Hr. cbn in Hr.
  assert (t = 0 \/ t = 1 \/ t = 2) as [-> | [-> | ->]] by lia; injection Hx as <-; apply demo_tty_ok.
Qed.

Lemma demo_plain_keys : Forall plain_key [108; 115; 120; 8].
Proof. repeat constructor; done. Qed.

(** C40: whatever is typed (keys other than tab and newline), the terminal on display is
    a line editor of at most 128 characters: its buffer holds the line the keys
    spell, backspaces taken into account, every access stays inside the arrays, and
    neither another terminal nor memory outside of the screen page changes. *)
Theorem typing_edits_line ks ts x :
  Forall plain_key ks -> terminals_ok ts -> (ttys ts).[curr_terminal ts] = Some x ->
  exists x' ts', type_keys ks ts = Some ts' /\ terminals_ok ts' /\ curr_terminal ts' = curr_terminal ts /\
    (ttys ts').[curr_terminal ts] = Some x' /\ line x' = fold_left edit ks (line x) /\
    lastline x' = lastline x /\ rd x' = rd x /\ others_same (curr_terminal ts) ts ts' /\
    only_page SCREEN (vm ts) (vm ts').
Proof. apply type_keys_spec. Qed.

Lemma typing_edits_line_witness :
  exists x' ts', type_keys [108; 115; 120; 8] demo_terminals = Some ts' /\
    (ttys ts').[0] = Some x' /\ line x' = [108; 115].
Proof.
  destruct (typing_edits_line [108; 115; 120; 8] demo_terminals demo_tty) as (x' & ts' & E & _ & _ & Hx & Hl & _);
    [apply demo_plain_keys | apply demo_terminals_ok | reflexivity|].
  exists x', ts'. split; [exact E|]. split; [exact Hx|]. rewrite Hl. reflexivity.
Defined.

Lemma edit_nonzero l c : Forall (fun b => b <> 0) l -> -128 <= c < 128 -> Forall (fun b => b <> 0) (edit l c).
Proof.
  intros Hl Hc. unfold edit. destruct (c =? BACKSPACE).
  - destruct l as [|a l]; [done|]. destruct (exists_last (l := a :: l)) as (k & z & E); [done|]. rewrite E in *.
    rewrite removelast_last. by apply Forall_app in Hl as [? _].
  - destruct ((ASCII_SPACE <=? c) && _) eqn:E; [|done]. apply Forall_app. split; [done|].
    apply andb_true_iff in E as [E _]. unfold ASCII_SPACE in E. repeat constructor. rewrite u8_small by lia. lia.
Qed.

Lemma fold_edit_nonzero ks l :
  Forall (fun c => -128 <= c < 128) ks -> Forall (fun b => b <> 0) l -> Forall (fun b => b <> 0) (fold_left edit ks l).
Proof.
  intros Hks. revert l. induction Hks as [|c ks Hc _ IH]; intros l Hl; [done|]. cbn [fold_left].
  by apply IH, edit_nonzero.
Qed.

Lemma terminal_read_curr t buf count ts r bs ts' :
  terminal_read t buf count ts = Some (ReadLine r bs ts') -> curr_terminal ts' = curr_terminal ts.
Proof.
  unfold terminal_read. case_if; [done|]. intros E. apply bind_Some in E as (x & _ & E). destruct (negb (rd x =? 1)); [done|].
  apply bind_Some in E as ([bs' ll] & _ & E). apply bind_Some in E as (ll' & _ & E). apply bind_Some in E as (l & _ & E).
  by injection E as _ _ <-.
Qed.

(** A line typed on the terminal on display, entered, and read. *)
Lemma typed_line_spec ks ts x buf count :
  Forall plain_key ks -> Forall (fun c => -128 <= c < 128) ks -> terminals_ok ts ->
  (ttys ts).[curr_terminal ts] = Some x -> line x = [] -> buf <> 0 -> 0 <= count ->
  let entered := fold_left edit ks [] ++ [10] in
  exists ts1 ts2 ts3 x3, type_keys ks ts = Some ts1 /\ put_char NEW_LINE ts1 = Some ts2 /\
    terminal_read (curr_terminal ts) buf count ts2 =
      Some (ReadLine (Z.of_nat (length (take (Z.to_nat count) entered))) (take (Z.to_nat count) entered) ts3) /\
    terminals_ok ts3 /\ (ttys ts3).[curr_terminal ts] = Some x3 /\ rd x3 = 0 /\ line x3 = [] /\ curr_terminal ts3 = curr_terminal ts.
Proof.
  intros Hks Hrange Hts Hx Hline Hbuf Hcount entered.
  destruct (type_keys_spec ks ts x Hks Hts Hx) as (x1 & ts1 & E1 & Hts1 & Hcur1 & Hx1 & L1 & _).
  rewrite <- Hcur1 in Hx1. destruct (put_char_spec NEW_LINE ts1 x1 Hts1) as (x2 & ts2 & E2 & Hts2 & Hcur2 & Hx2 & He2 & _); [done | done|].
  unfold key_effect in He2. rewrite Z.eqb_refl in He2. destruct He2 as (Hl2 & Hlast & Hrd). rewrite Hcur1 in Hx2.
  assert (lastline x2 = entered) as Hent by (unfold entered; by rewrite Hlast, L1, Hline).
  destruct (terminal_read_spec (curr_terminal ts) buf count ts2 x2 Hts2) as (ts3 & E3 & Hts3 & _ & x3 & Hx3 & Hrd3 & Hl3 & _);
    [by destruct Hts | done | done | done | done | |].
  - rewrite Hent. unfold entered. apply Forall_app. split; [by apply fold_edit_nonzero|]. repeat constructor. lia.
  - rewrite Hent in E3. exists ts1, ts2, ts3, x3. split_and!; try done; [congruence|].
    rewrite (terminal_read_curr _ _ _ _ _ _ _ E3). congruence.
Qed.

(** A line typed on the terminal on display and ended with the newline key is what
    a waiting [terminal_read] of that terminal returns: the edited line and the
    newline, cut to the size of the reader's buffer, and the line is used up. *)
Theorem typed_line_is_read ks ts x buf count :
  Forall plain_key ks -> Forall (fun c => -128 <= c < 128) ks -> terminals_ok ts ->
  (ttys ts).[curr_terminal ts] = Some x -> line x = [] -> buf <> 0 -> 0 <= count ->
  let entered := fold_left edit ks [] ++ [10] in
  exists ts1 ts2 ts3, type_keys ks ts = Some ts1 /\ put_char NEW_LINE ts1 = Some ts2 /\
    terminal_read (curr_terminal ts) buf count ts2 =
      Some (ReadLine (Z.of_nat (length (take (Z.to_nat count) entered))) (take (Z.to_nat count) entered) ts3) /\
    terminals_ok ts3 /\ terminal_read (curr_terminal ts) buf count ts3 = Some ReadWaits.
Proof.
  intros Hks Hrange Hts Hx Hline Hbuf Hcount entered.
  destruct (typed_line_spec ks ts x buf count) as (ts1 & ts2 & ts3 & x3 & E1 & E2 & E3 & Hts3 & Hx3 & Hrd3 & _); try done.
  exists ts1, ts2, ts3. split_and!; try done.
  unfold terminal_read. bfalse ((buf =? 0) || (count <? 0)). rewrite Hx3. bind. by rewrite Hrd3.
Qed.

Lemma typed_line_is_read_witness :
  exists ts1 ts2 ts3, type_keys [108; 115; 120; 8] demo_terminals = Some ts1 /\ put_char NEW_LINE ts1 = Some ts2 /\
    terminal_read 0 1 128 ts2 = Some (ReadLine 3 [108; 115; 10] ts3).
Proof.
  destruct (typed_line_is_read [108; 115; 120; 8] demo_terminals demo_tty 1 128) as (ts1 & ts2 & ts3 & E1 & E2 & E3 & _);
    [apply demo_plain_keys | repeat constructor; lia | apply demo_terminals_ok | reflexivity | reflexivity | lia | lia|].
  exists ts1, ts2, ts3. split; [exact E1|]. split; [exact E2 | exact E3].
Defined.

Lemma blank_word_char t : u8 (Z.shiftr (blank_word t) 0) = 32.
Proof. unfold blank_word, colour. repeat case_if; done. Qed.

(** A printable key, on a line that is not full, shows the character at the cursor
    and moves the cursor one cell on; no other cell changes.  In the one cell after
    the last of the screen this fails: there the screen scrolls and the new last row
    is blank, the character, though part of the line, is not shown. *)
Theorem put_char_echo t c x m s :
  tty_ok x -> bytes m -> 32 <= c < 128 -> linelength x < 128 ->
  let p := INDEX (curr_x x) (curr_y x) in
  exists x' m' s', put_char_tty t c x m s = Some (x', m', s') /\ p <= 2000 /\
    (p < 2000 -> m' (SCREEN + 2 * p) = c /\ INDEX (curr_x x') (curr_y x') = p + 1 /\
       forall a, a <> SCREEN + 2 * p -> a <> SCREEN + 2 * p + 1 -> m' a = m a) /\
    (p = 2000 -> line x' = line x ++ [c] /\ forall k, 0 <= k < 80 -> m' (SCREEN + 2 * INDEX k 24) = 32).
Proof.
  intros Hx Hm Hc Hl p. unfold put_char_tty. cbv zeta. fold p.
  destruct (put_insert_spec t c x m (cli s) Hx Hm) as (x1 & m1 & s1 & E1 & Hx1 & Hm1 & _ & _ & _ & Hl1 & Hy1);
    [unfold TAB; lia|]. fold p in E1, Hl1. rewrite E1. bind.
  unfold ASCII_SPACE, BUFFER_LIMIT in Hl1, Hy1.
  rewrite (proj2 (Z.leb_le 32 c)), (proj2 (Z.ltb_lt (linelength x) 128)) in Hl1 by lia.
  rewrite (proj2 (Z.ltb_lt (linelength x) 128)) in Hy1 by lia. destruct Hl1 as (Hline & -> & Hidx & _).
  unfold put_backspace, put_newline. rewrite (proj2 (Z.eqb_neq c BACKSPACE)), (proj2 (Z.eqb_neq c NEW_LINE))
    by (unfold BACKSPACE, NEW_LINE; lia). bind. pose proof Hx1 as [].
  destruct (put_scroll_spec t SCREEN x1 (put_cell m (SCREEN + 2 * p) c t) s1) as (m4 & s4 & -> & _ & _ & _ & Hm4);
    [done | unfold SCREEN; lia | unfold SCREEN; lia | lia|]. bind. destruct Hx.
  assert (p < 2000 -> curr_y x1 <= 24) as Hnoscroll.
  { rewrite Hy1. unfold wrapped, p, INDEX, WIDTH in *. case_if; cbn; lia. }
  eexists _, _, _. split; [done|]. split; [unfold p, INDEX, WIDTH in *; lia|]. split.
  - intros Hp. specialize (Hnoscroll Hp). setoid_rewrite Hm4. bfalse (25 <=? curr_y x1). split_and!.
    + rewrite put_cell_char. apply u8_small. lia.
    + cbn. by replace (Z.min 24 (curr_y x1)) with (curr_y x1) by lia.
    + intros a Ha Ha'. by apply put_cell_frame.
  - intros Hp. change (line (set_pos _ _ x1)) with (line x1). rewrite Hline, u8_small by lia. split; [done|].
    intros k Hk. rewrite Hm4. assert (curr_y x1 = 25) as ->.
    { rewrite Hy1. unfold wrapped, p, INDEX, WIDTH in *. case_if; cbn; lia. }
    cbn [Z.leb]. unfold scrolled, SCREEN, INDEX, WIDTH. change (25 - 24) with 1.
    btrue ((753664 + (25 - 1) * 160 <=? 753664 + 2 * (k + 80 * 24)) && (753664 + 2 * (k + 80 * 24) <? 753664 + (26 - 1) * 160)).
    bfalse ((753664 <=? 753664 + 2 * (k + 80 * 24)) && (753664 + 2 * (k + 80 * 24) <? 753664 + (25 - 1) * 160)).
    replace ((753664 + 2 * (k + 80 * 24) - 753664) mod 2) with 0 by zlia. apply blank_word_char.
Qed.

Lemma put_char_echo_witness :
  exists x' m' s', put_char_tty 0 97 demo_tty (fun _ => 0) (Io [] true) = Some (x', m', s') /\ m' 0xb8000 = 97.
Proof.
  destruct (put_char_echo 0 97 demo_tty (fun _ => 0) (Io [] true)) as (x' & m' & s' & E & _ & H & _);
    [apply demo_tty_ok | intros a; lia | lia | cbn; lia|].
  exists x', m', s'. split; [exact E|]. apply H. reflexivity.
Defined.

(** A tab typed when 122 to 127 characters are on the line writes its eight blanks
    past the end of the terminal's line buffer. *)
Theorem tab_overflows_line t x m s :
  Z.of_nat (length (linebuffer x)) = 129 -> 122 <= linelength x < 128 -> put_char_tty t TAB x m s = None.
Proof.
  intros Hlen Hl. unfold put_char_tty, put_insert, BUFFER_LIMIT. cbv zeta. btrue (linelength x <? 128).
  rewrite Z.eqb_refl. unfold put_tab. cbv zeta. set (x0 := set_pos (curr_x x + 8) (curr_y x) x).
  assert (forall k y i, Z.of_nat (length (linebuffer y)) = 129 -> linelength y <= 129 -> 129 < linelength y + Z.of_nat k ->
    for_up k i (fun _ x => l ← (linebuffer x).[linelength x <- 32]; Some (set_line (linelength x + 1) l x)) y = None) as H.
  { induction k as [|k IH]; intros y i H1 H2 H3; [lia|]. cbn [for_up].
    destruct ((linebuffer y).[linelength y <- 32]) as [l|] eqn:E; [|done]. bind.
    apply zset_Some in E as [Hr ->]. apply IH; cbn; rewrite ?length_insert; lia. }
  rewrite (H 8%nat x0 0); [done | done | cbn; lia | cbn; lia].
Qed.

Lemma tab_overflows_line_witness :
  put_char_tty 1 TAB (set_line 125 (replicate 129 97) demo_tty) (fun _ => 0) (Io [] true) = None.
Proof. apply tab_overflows_line; [reflexivity | cbn; lia]. Defined.

(** The characters [terminal_write] shows. *)
Definition shown (bs : list Z) : list Z := List.filter (fun c => negb (c =? 0)) bs.

Lemma shown_snoc bs c : shown (bs ++ [c]) = shown bs ++ (if c =? 0 then [] else [c]).
Proof. unfold shown. rewrite List.filter_app. cbn. by destruct (c =? 0). Qed.

Lemma terminal_write_spec t vpage buf count ts x :
  terminals_ok ts -> (ttys ts).[t] = Some x -> page_ok vpage -> 0 <= count <= Z.of_nat (length buf) ->
  exists ts' x', terminal_write t vpage (Some buf) count ts =
      Some (Z.of_nat (length (shown (take (Z.to_nat count) buf))), ts') /\
    terminals_ok ts' /\ others_same t ts ts' /\ only_page vpage (vm ts) (vm ts') /\
    (ttys ts').[t] = Some x' /\ line x' = [] /\ untouched x' = untouched x /\ interrupts (pio ts') = true.
Proof.
  intros Hts Hx Hpage Hcount. pose proof Hts as []. unfold terminal_write. bfalse (count <? 0). rewrite Hx. bind.
  destruct (for_up_inv (fun i '(y, m, s, w) => tty_out y /\ bytes m /\ only_page vpage (vm ts) m /\
      untouched y = untouched x /\ w = Z.of_nat (length (shown (take (Z.to_nat i) buf))))
    (Z.to_nat count) 0 (fun i '(x, m, s, written) =>
            c ← buf.[i];
            if negb (c =? 0) then
              '(x, m, s) ← put_char_out_tty t vpage c x m s;
              Some (x, m, s, written + 1)
            else Some (x, m, s, written)) (x, vm ts, cli (pio ts), 0))
    as ([[[y m] s] w] & E & Hy & Hm & Hp & Hu & Hw).
  - split_and!; try done. apply tty_ok_out. by apply (to_ttys0 t).
  - intros i [[[y m] s] w] Hi (Hy & Hm & Hp & Hu & Hw).
    destruct (zget_ex buf i) as [c Hc]; [lia|]. rewrite Hc. bind.
    assert (take (Z.to_nat (i + 1)) buf = take (Z.to_nat i) buf ++ [c]) as Ht.
    { replace (Z.to_nat (i + 1)) with (S (Z.to_nat i)) by lia. rewrite zget_lookup in Hc by lia. by apply take_S_r. }
    rewrite Ht, shown_snoc. destruct (Z.eqb_spec c 0); cbn [negb].
    + eexists (_, _, _, _). split; [done|]. rewrite app_nil_r. done.
    + destruct (put_char_out_spec t vpage c y m s Hy Hm Hpage) as (y' & m' & s' & -> & Hy' & Hm' & Hp' & Hu' & _ & _).
      bind. eexists (_, _, _, _). split; [done|]. split_and!; try done; [by apply (only_page_trans _ _ m) | congruence |].
      rewrite length_app. cbn [length]. lia.
  - rewrite E. bind. replace (0 + Z.of_nat (Z.to_nat count)) with count in Hw by lia.
    pose proof (tty_out_ok y Hy) as Hok. apply zget_Some_range in Hx.
    destruct (put_tty ts t (set_line 0 (linebuffer y) y) Hts) as [l El]; [lia|]. rewrite El. bind.
    destruct (replace_tty ts t _ l m (sti s) Hts Hok Hm El) as (H1 & H2 & H3).
    eexists _, _. rewrite Hw. split_and!; done.
Qed.

(** [terminal_write] by a process returns the number of its bytes that are not
    zero, and every access stays inside the arrays.  It writes only to the video page of
    the process, empties the line buffer, keeps a line already entered, leaves
    the other terminals alone and interrupts enabled. *)
Theorem terminal_write_confined t vpage buf count ts x :
  terminals_ok ts -> (ttys ts).[t] = Some x -> page_ok vpage -> 0 <= count <= Z.of_nat (length buf) ->
  exists ts' x', terminal_write t vpage (Some buf) count ts =
      Some (Z.of_nat (length (shown (take (Z.to_nat count) buf))), ts') /\
    terminals_ok ts' /\ others_same t ts ts' /\ only_page vpage (vm ts) (vm ts') /\
    (ttys ts').[t] = Some x' /\ line x' = [] /\ untouched x' = untouched x /\ interrupts (pio ts') = true.
Proof. apply terminal_write_spec. Qed.

Lemma terminal_write_confined_witness :
  exists ts', terminal_write 0 0xb9000 (Some [104; 0; 105; 10]) 4 demo_terminals = Some (3, ts') /\
    only_page 0xb9000 (vm demo_terminals) (vm ts').
Proof.
  destruct (terminal_write_confined 0 0xb9000 [104; 0; 105; 10] 4 demo_terminals demo_tty)
    as (ts' & x' & E & _ & _ & H & _); [apply demo_terminals_ok | reflexivity | split; lia | cbn; lia|].
  exists ts'. split; [exact E | exact H].
Defined.

(** The backing page of a terminal. *)
Definition term_page (t : Z) : Z := SCREEN + (t + 1) * KB4.

(** Memory after the two copies of a switch. *)
Definition swapped (m : memory) (old term a : Z) : Z :=
  if (SCREEN <=? a) && (a <? SCREEN + 4096) then m (a - SCREEN + term_page term)
  else if (term_page old <=? a) && (a <? term_page old + 4096) then m (a - term_page old + SCREEN)
  else m a.

Lemma copy_page_spec m to from :
  bytes m -> area to KB4 -> area from KB4 -> forward_safe to from KB4 ->
  exists m', copy_page m to from = Some m' /\ bytes m' /\ forall a, m' a = moved m to from KB4 a.
Proof.
  intros Hm Ht Hf Hs. unfold copy_page. destruct (memcpy_runs m false to from KB4 Hm Ht Hf Hs) as (st & -> & H).
  bind. exists (mem st). split_and!; [done | | done]. intros a. rewrite H. by apply moved_bytes.
Qed.

Lemma switch_once {P} (swap_vid_mem : Z -> Z -> P -> option (Z * P)) old term ts p p' r :
  terminals_ok ts -> curr_terminal ts = old -> 0 <= term < 3 -> term <> old ->
  swap_vid_mem old term p = Some (r, p') ->
  exists ts', switch_terminals swap_vid_mem term ts p = Some (ts', p') /\ terminals_ok ts' /\
    curr_terminal ts' = term /\ ttys ts' = ttys ts /\ forall a, vm ts' a = swapped (vm ts) old term a.
Proof.
  intros [] Hold Hterm Hne Hs. rewrite Hold in to_curr0. unfold switch_terminals.
  rewrite Hold, (proj2 (Z.eqb_neq term old) Hne).
  assert (area SCREEN KB4 /\ area (term_page old) KB4 /\ area (term_page term) KB4) as (A0 & A1 & A2)
    by (unfold area, term_page, SCREEN, KB4; lia).
  assert (forward_safe (term_page old) SCREEN KB4 /\ forward_safe SCREEN (term_page term) KB4) as (F1 & F2)
    by (unfold forward_safe, term_page, SCREEN, KB4; lia).
  destruct (copy_page_spec (vm ts) (term_page old) SCREEN to_bytes0 A1 A0 F1) as (m1 & E1 & Hb1 & H1).
  destruct (copy_page_spec m1 SCREEN (term_page term) Hb1 A0 A2 F2) as (m2 & E2 & Hb2 & H2).
  unfold term_page in E1, E2. rewrite E1, some_bind, E2, some_bind, Hs. bind.
  eexists. split; [done|]. split_and!; [by split | done | done|].
  intros a. cbn [vm]. rewrite H2. unfold moved, patched. rewrite !H1. unfold moved, patched, swapped, KB4.
  destruct ((SCREEN <=? a) && (a <? SCREEN + 4096)) eqn:E; [|done].
  rewrite (proj2 (andb_false_iff _ _)); [done|]. unfold term_page, SCREEN, KB4 in *. lia.
Qed.

(** Switching to another terminal saves the screen in the backing page of the
    terminal that was on display and shows the backing page of the new one; the third
    terminal's page, and all other memory, stay as they are, and switching back shows
    the old screen again. *)
Theorem switch_terminals_swaps {P} (swap_vid_mem : Z -> Z -> P -> option (Z * P)) old term ts p p' r r' p'' :
  terminals_ok ts -> curr_terminal ts = old -> 0 <= term < 3 -> term <> old ->
  swap_vid_mem old term p = Some (r, p') -> swap_vid_mem term old p' = Some (r', p'') ->
  exists ts1 ts2,
    switch_terminals swap_vid_mem term ts p = Some (ts1, p') /\ curr_terminal ts1 = term /\ ttys ts1 = ttys ts /\
    (forall a, vm ts1 a = swapped (vm ts) old term a) /\
    switch_terminals swap_vid_mem old ts1 p' = Some (ts2, p'') /\ curr_terminal ts2 = old /\
    (forall o, 0 <= o < 4096 -> vm ts2 (SCREEN + o) = vm ts (SCREEN + o)).
Proof.
  intros Hts Hold Hterm Hne Hs1 Hs2. pose proof (to_curr _ Hts) as Hcur. rewrite Hold in Hcur.
  destruct (switch_once swap_vid_mem old term ts p p' r) as (ts1 & E1 & Hts1 & Hc1 & Ht1 & H1); [done..|].
  destruct (switch_once swap_vid_mem term old ts1 p' p'' r') as (ts2 & E2 & _ & Hc2 & _ & H2); [done..|].
  exists ts1, ts2. split_and!; try done. intros o Ho. rewrite H2. unfold swapped at 1.
  btrue ((SCREEN <=? SCREEN + o) && (SCREEN + o <? SCREEN + 4096)). rewrite H1.
  unfold swapped, term_page, KB4, SCREEN.
  repeat case_if; try lia. f_equal. lia.
Qed.

Lemma switch_terminals_swaps_witness :
  exists ts1, switch_terminals (fun _ _ (n : nat) => Some (0, S n)) 2 demo_terminals 0%nat = Some (ts1, 1%nat) /\
    curr_terminal ts1 = 2.
Proof.
  destruct (switch_terminals_swaps (fun _ _ (n : nat) => Some (0, S n)) 0 2 demo_terminals 0%nat 1%nat 0 0 2%nat)
    as (ts1 & ts2 & E & Hc & _); [apply demo_terminals_ok | reflexivity | lia | lia | reflexivity | reflexivity|].
  exists ts1. split; [exact E | exact Hc].
Defined.

Lemma erase_keys ts n i : for_up n i (fun _ ts => put_char BACKSPACE ts) ts = type_keys (replicate n BACKSPACE) ts.
Proof.
  revert i ts. induction n as [|n IH]; intros i ts; [done|]. cbn [for_up replicate type_keys].
  destruct (put_char BACKSPACE ts); [|done]. rewrite !some_bind. apply IH.
Qed.

Lemma erase_line n l : (length l <= n)%nat -> fold_left edit (replicate n BACKSPACE) l = [].
Proof.
  revert l. induction n as [|n IH]; intros l Hl; [by destruct l; [|cbn in Hl; lia]|]. cbn [replicate fold_left].
  apply IH. unfold edit. rewrite Z.eqb_refl. destruct l as [|a l]; [cbn; lia|].
  destruct (exists_last (l := a :: l)) as (k & z & E); [done|]. rewrite E in *.
  rewrite removelast_last. rewrite length_app in Hl. cbn in Hl. lia.
Qed.

Lemma type_chars_keys k i src cs ts :
  0 <= i -> cstring (drop (Z.to_nat i) src) cs -> Forall (fun c => 32 <= c < 128) cs -> (length cs < k)%nat ->
  type_chars k i src ts = type_keys cs ts.
Proof.
  revert i cs ts. induction k as [|k IH]; intros i cs ts Hi (rest & Ed & Hnz) Hcs Hlen; [lia|]. cbn [type_chars].
  assert (src.[i] = list.head (drop (Z.to_nat i) src)) as ->.
  { rewrite zget_lookup by lia. replace (Z.to_nat i) with (Z.to_nat i + 0)%nat at 1 by lia.
    rewrite <- lookup_drop. by destruct (drop (Z.to_nat i) src). }
  rewrite Ed. destruct cs as [|c cs]; cbn [app list.head]; rewrite some_bind; [done|].
  inversion Hnz as [|? ? Hc Hnz']; subst. inversion Hcs as [|? ? Hr Hcs']; subst. bfalse (c =? 0).
  rewrite s8_small by lia. cbn [type_keys]. destruct (put_char c ts) as [ts1|]; [|done]. rewrite !some_bind.
  apply IH; [lia | | done | cbn in Hlen; lia]. exists rest. split; [|done].
  replace (Z.to_nat (i + 1)) with (Z.to_nat i + 1)%nat by lia. rewrite <- drop_drop, Ed. done.
Qed.

Lemma edit_types cs l :
  Forall (fun c => 32 <= c < 128) cs -> (length l + length cs <= 128)%nat -> fold_left edit cs l = l ++ cs.
Proof.
  intros Hcs. revert l. induction Hcs as [|c cs Hc _ IH]; intros l Hl; [by rewrite app_nil_r|]. cbn [fold_left length] in *.
  assert (edit l c = l ++ [c]) as ->.
  { unfold edit, BACKSPACE, ASCII_SPACE, BUFFER_LIMIT. bfalse (c =? 8).
    btrue ((32 <=? c) && (Z.of_nat (length l) <? 128)). by rewrite u8_small by lia. }
  rewrite IH by (rewrite length_app; cbn; lia). by rewrite <- app_assoc.
Qed.

Lemma hist_copy_spec src cs ts x :
  terminals_ok ts -> (ttys ts).[curr_terminal ts] = Some x -> cstring src cs ->
  Forall (fun c => 32 <= c < 128) cs -> (length cs < 128)%nat ->
  exists ts' x', hist_copy_from src ts = Some ts' /\ terminals_ok ts' /\ curr_terminal ts' = curr_terminal ts /\
    (ttys ts').[curr_terminal ts] = Some x' /\ line x' = cs /\ others_same (curr_terminal ts) ts ts'.
Proof.
  intros Hts Hx Hsrc Hcs Hlen. unfold hist_copy_from. rewrite erase_keys.
  destruct (type_keys_spec (replicate 128 BACKSPACE) ts x) as (x1 & ts1 & -> & Hts1 & Hc1 & Hx1 & L1 & _ & _ & Ho1 & _);
    [by apply Forall_replicate | done | done|].
  rewrite some_bind, (type_chars_keys 128 0 src cs) by (done || lia).
  assert (Forall plain_key cs) as Hplain.
  { eapply Forall_impl; [|exact Hcs]. intros c Hc. cbn beta in Hc. unfold plain_key, TAB, NEW_LINE. lia. }
  rewrite <- Hc1 in Hx1. destruct (type_keys_spec cs ts1 x1 Hplain Hts1 Hx1) as (x2 & ts2 & -> & Hts2 & Hc2 & Hx2 & L2 & _ & _ & Ho2 & _).
  rewrite Hc1 in *. exists ts2, x2. split_and!; try done; try congruence.
  - rewrite L2, L1, erase_line by (pose proof (length_line x (to_ttys _ Hts _ _ Hx)); pose proof (ok_linelength x (to_ttys _ Hts _ _ Hx)); lia).
    by apply edit_types; [|cbn; lia].
  - intros u Hu. rewrite Ho2, Ho1; done.
Qed.

(** Recalling a command of the history replaces whatever is on the line of the
    terminal on display by the command. *)
Theorem hist_copy_recalls src cs ts x :
  terminals_ok ts -> (ttys ts).[curr_terminal ts] = Some x -> cstring src cs ->
  Forall (fun c => 32 <= c < 128) cs -> (length cs < 128)%nat ->
  exists ts' x', hist_copy_from src ts = Some ts' /\ terminals_ok ts' /\
    (ttys ts').[curr_terminal ts] = Some x' /\ line x' = cs /\ others_same (curr_terminal ts) ts ts'.
Proof.
  intros Hts Hx Hsrc Hcs Hlen. destruct (hist_copy_spec src cs ts x) as (ts' & x' & H1 & H2 & _ & H3); try done. by exists ts', x'.
Qed.

Lemma hist_copy_recalls_witness :
  exists ts' x', hist_copy_from (str "grep" ++ replicate 124 0) demo_terminals = Some ts' /\
    (ttys ts').[0] = Some x' /\ line x' = str "grep".
Proof.
  destruct (hist_copy_recalls (str "grep" ++ replicate 124 0) (str "grep") demo_terminals demo_tty)
    as (ts' & x' & E & _ & Hx & Hl & _);
    [apply demo_terminals_ok | reflexivity | | vm_compute; repeat constructor; discriminate | cbn; lia|].
  - exists (replicate 123 0). split; [reflexivity|]. vm_compute. repeat constructor; discriminate.
  - exists ts', x'. split; [exact E|]. split; [exact Hx | exact Hl].
Defined.

(** With the cursor behind the last column, or left of the first one after
    backspaces, [clear_terminal] clears nothing and leaves interrupts disabled. *)
Theorem clear_terminal_gives_up ts x :
  (ttys ts).[curr_terminal ts] = Some x -> curr_x x = 80 \/ curr_x x < 0 ->
  exists ts', clear_terminal ts = Some ts' /\ ttys ts' = ttys ts /\ vm ts' = vm ts /\ interrupts (pio ts') = false.
Proof.
  intros Hx Hcol. unfold clear_terminal. rewrite Hx, some_bind. unfold WIDTH, HEIGHT.
  rewrite (proj2 (orb_true_iff _ _)); [by eexists|]. left. rewrite !orb_true_iff. lia.
Qed.

Lemma clear_terminal_gives_up_witness :
  exists ts', clear_terminal (Terminals true 0 [set_pos 80 3 demo_tty] (fun _ => 0) (Io [] true)) = Some ts' /\
    interrupts (pio ts') = false.
Proof.
  destruct (clear_terminal_gives_up (Terminals true 0 [set_pos 80 3 demo_tty] (fun _ => 0) (Io [] true)) (set_pos 80 3 demo_tty))
    as (ts' & E & _ & _ & H); [reflexivity | left; reflexivity | exists ts'; split; [exact E | exact H]].
Defined.

(** ** Blank screens *)

Lemma put_cell_attr m a c t fore : bytes m -> colour t = Some fore -> put_cell m a c t (a + 1) = fore.
Proof.
  intros Hm Hc. unfold put_cell. rewrite Hc. unfold store8 at 1. rewrite Z.eqb_refl. unfold store8 at 1. rewrite Z.eqb_refl.
  set (b := store8 m a c (a + 1)). assert (0 <= b < 256) as Hb by (apply store8_bytes; done). clearbody b.
  assert (forallb (fun b => forallb (fun f => u8 (set_field 4 4 BLACK (u8 (set_field 0 4 f b))) =? f) [YELLOW; GREEN; CYAN]) (seqZ 0 256) = true) as H by (vm_compute; reflexivity).
  rewrite forallb_forall in H. specialize (H b). rewrite forallb_forall in H. apply Z.eqb_eq, H.
  - apply list_elem_of_In, elem_of_seqZ. lia.
  - unfold colour in Hc. destruct (t =? 0), (t =? 1), (t =? 2); simplify_eq; cbn; tauto.
Qed.

(** The first [n] cells of the page at [base] are spaces in the colour of terminal [t]. *)
Definition blanked (t base n : Z) (m m' : memory) : Prop :=
  bytes m' /\ only_page base m m' /\
  forall i, 0 <= i < n -> m' (base + 2 * i) = ASCII_SPACE /\ forall fore, colour t = Some fore -> m' (base + 2 * i + 1) = fore.

Lemma blank_page_spec t base m : bytes m -> exists m', blank_page t base m = Some m' /\ blanked t base 2000 m m'.
Proof.
  intros Hm. unfold blank_page.
  destruct (for_up_inv (fun j '(m', a) => a = base + 2 * (25 * j) /\ blanked t base (25 * j) m m') (Z.to_nat WIDTH) 0
    (fun _ st => for_up (Z.to_nat HEIGHT) 0 (fun _ '(m, a) => Some (put_cell m a ASCII_SPACE t, a + 2)) st) (m, base))
    as ([m' a] & E & _ & Hb).
  - split; [lia|]. split; [done|]. split; [done | lia].
  - intros j [m1 a1] Hj Hj1.
    destruct (for_up_inv (fun i '(m', a) => a = base + 2 * (25 * j + i) /\ blanked t base (25 * j + i) m m') (Z.to_nat HEIGHT) 0
      (fun _ '(m, a) => Some (put_cell m a ASCII_SPACE t, a + 2)) (m1, a1)) as ([m2 a2] & E & H2).
    + by rewrite Z.add_0_r.
    + intros i [m3 a3] Hi [-> (Hb3 & Ho3 & Hc3)]. unfold WIDTH, HEIGHT in *. eexists. split; [reflexivity|]. split; [lia|].
      split; [by apply put_cell_bytes|]. split.
      * intros x Hx. rewrite put_cell_frame by lia. by apply Ho3.
      * intros n Hn. destruct (decide (n = 25 * j + i)) as [->|Hne].
        { split; [by rewrite put_cell_char | intros fore; by apply put_cell_attr]. }
        rewrite !put_cell_frame by lia. apply Hc3. lia.
    + exists (m2, a2). split; [exact E|]. unfold HEIGHT in H2. replace (25 * (j + 1)) with (25 * j + (0 + Z.of_nat (Z.to_nat 25))) by lia. exact H2.
  - rewrite E, some_bind. exists m'. split; [reflexivity | exact Hb].
Qed.

Lemma clear_line_ex l : (128 <= length l)%nat -> exists l', clear_line l = Some l' /\ length l' = length l.
Proof.
  intros Hl. destruct (for_up_inv (fun _ l' => length l' = length l) (Z.to_nat BUFFER_LIMIT) 0 (fun i l => l.[i <- 0]) l) as (l' & E & H); [done| |by exists l'].
  intros i l' Hi Hl'. unfold BUFFER_LIMIT in Hi. rewrite zset_in by lia. eexists. split; [done|]. by rewrite length_insert.
Qed.

(** A terminal as [terminal_open] and [clear_terminal] leave it. *)
Definition fresh_tty (x : tty) : Prop :=
  curr_x x = 0 /\ curr_y x = 0 /\ linelength x = 0 /\ lastlinelength x = 0 /\
  length (linebuffer x) = 129%nat /\ length (lastlinebuffer x) = 129%nat.

Lemma fresh_tty_ok x : fresh_tty x -> tty_ok x.
Proof. intros (? & ? & ? & ? & ? & ?). split; unfold INDEX, WIDTH; lia. Qed.

(** [terminal_open] makes three empty terminals of any data of the right size. *)
Lemma terminal_open_spec vpage ts :
  length (ttys ts) = 3%nat -> (forall t x, (ttys ts).[t] = Some x -> length (linebuffer x) = 129%nat /\ length (lastlinebuffer x) = 129%nat) ->
  bytes (vm ts) ->
  exists ts', terminal_open vpage ts = Some (0, ts') /\ terminals_ok ts' /\ mem_set ts' = true /\ curr_terminal ts' = 0 /\
    (forall t x, (ttys ts').[t] = Some x -> fresh_tty x) /\ only_page vpage (vm ts) (vm ts') /\
    blanked 2 vpage 2000 (vm ts) (vm ts') /\ pio ts' = update_cursor 0 0 (pio ts).
Proof.
  intros H3 Hl Hm. unfold terminal_open.
  destruct (for_up_inv (fun j '(l, m) => length l = 3%nat /\ bytes m /\ only_page vpage (vm ts) m /\ (0 < j -> blanked (j - 1) vpage 2000 (vm ts) m) /\
      (forall t x, l.[t] = Some x -> length (linebuffer x) = 129%nat /\ length (lastlinebuffer x) = 129%nat /\ (t < j -> fresh_tty x))) 3 0
    (fun j '(l, m) => x ← l.[j]; m ← blank_page j vpage m; lb ← clear_line (linebuffer x);
      l ← l.[j <- Tty 0 0 0 lb (lastlinebuffer x) 0 0 0 (set_blank j (blank x))]; Some (l, m)) (ttys ts, vm ts))
    as ([l m] & E & Hll & Hmb & Ho & Hblk & Hf).
  - split_and!; [done | done | done | lia|]. intros t x Hx. pose proof (zget_Some_range _ _ _ Hx). destruct (Hl t x Hx). split_and!; [done | done | lia].
  - intros j [l m] Hj (H1 & H2 & Ho & _ & Hx). destruct (zget_ex l j) as [x Ex]; [lia|]. rewrite Ex, some_bind.
    destruct (Hx j x Ex) as (Hx1 & Hx2 & _). destruct (blank_page_spec j vpage m H2) as (m' & -> & Hb & Hb2 & Hb3). rewrite some_bind.
    destruct (clear_line_ex (linebuffer x)) as (lb & -> & Hlb); [lia|]. rewrite some_bind, zset_in, some_bind by lia.
    assert (only_page vpage (vm ts) m') as Ho' by (intros a Ha; rewrite Hb2 by done; by apply Ho).
    eexists. split; [reflexivity|]. split_and!; [by rewrite length_insert | done | done | |].
    + intros _. by replace (j + 1 - 1) with j by lia.
    + intros t y Hy. rewrite zget_insert in Hy by lia. destruct (Z.eqb_spec t j) as [->|Hne].
      * injection Hy as <-. cbn [linebuffer lastlinebuffer]. split_and!; [lia | done|]. intros _. unfold fresh_tty. cbn. split_and!; try done; lia.
      * destruct (Hx t y Hy) as (? & ? & Hfr). split_and!; [done | done|]. intros Ht. apply Hfr. lia.
  - rewrite E, some_bind. destruct (zget_ex l 0) as [x Ex]; [lia|]. rewrite Ex, some_bind. eexists. split; [reflexivity|].
    assert (forall t y, l.[t] = Some y -> fresh_tty y) as Hfresh.
    { intros t y Hy. apply (Hf t y Hy). pose proof (zget_Some_range _ _ _ Hy). lia. }
    destruct (Hfresh 0 x Ex) as (-> & -> & _). split_and!; try done; [|apply Hblk; lia..].
    split; cbn; [lia | lia | intros t y Hy; by eapply fresh_tty_ok, Hfresh | done].
Qed.

(** [clear_terminal] when the cursor is on the screen. *)
Lemma clear_terminal_spec ts x :
  terminals_ok ts -> mem_set ts = true -> (ttys ts).[curr_terminal ts] = Some x -> 0 <= curr_x x < 80 ->
  exists ts', clear_terminal ts = Some ts' /\ terminals_ok ts' /\ mem_set ts' = true /\ curr_terminal ts' = curr_terminal ts /\
    (exists x', (ttys ts').[curr_terminal ts] = Some x' /\ fresh_tty x') /\ others_same (curr_terminal ts) ts ts' /\
    blanked (curr_terminal ts) SCREEN 2000 (vm ts) (vm ts') /\ pio ts' = sti (cli (pio ts)).
Proof.
  intros Hok Hset Hx Hcol. pose proof (to_ttys _ Hok _ _ Hx) as Hxok. pose proof Hxok as []. unfold clear_terminal. rewrite Hx, some_bind, Hset. unfold WIDTH, HEIGHT.
  bfalse (negb true || (curr_x x <? 0) || (80 <=? curr_x x) || (curr_y x <? 0) || (25 <=? curr_y x)).
  destruct (blank_page_spec (curr_terminal ts) SCREEN (vm ts) (to_bytes _ Hok)) as (m' & -> & Hb). rewrite some_bind.
  destruct (clear_line_ex (linebuffer x)) as (lb & -> & Hlb); [lia|]. rewrite some_bind.
  assert (fresh_tty (Tty 0 0 0 lb (lastlinebuffer x) 0 0 0 (blank x))) as Hfr.
  { unfold fresh_tty. cbn. split_and!; try done; lia. }
  destruct (put_tty ts (curr_terminal ts) (Tty 0 0 0 lb (lastlinebuffer x) 0 0 0 (blank x)) Hok (to_curr _ Hok)) as (l & El).
  destruct (replace_tty ts (curr_terminal ts) (Tty 0 0 0 lb (lastlinebuffer x) 0 0 0 (blank x)) l m' (sti (cli (pio ts))) Hok) as (Hok' & Hl & Hs);
    [by apply fresh_tty_ok | apply Hb | done|].
  rewrite El, some_bind. rewrite Hset in Hok', Hs. eexists. split; [reflexivity|]. split_and!; try done. by eexists.
Qed.
