(* ===== verification/FileArray.v ===== *)
(** * System calls, [student-distrib/file_array.c]

    The operation table of an open file is the interface between the system calls
    and the drivers: [file_ops] is the record of its four functions, and the calls
    are defined over any assignment [ops] of such records to the four tables of the
    kernel.  The functions of the file system are given here ([fs_ops],
    [dir_ops]); those of the terminal and of the real-time clock, which block, are
    modelled in their own files.

    A read returns the bytes it stores in the caller's buffer. *)

From stdpp Require Import base list option sets.
From Stdlib Require Import ZArith Lia ZifyBool.
From S2P Require Import Prelude MemOps Lib Ports Rtc Terminal FileSystem Paging Process Schedule.

Definition NAME_LENGTH : Z := 32.
Definition CMD_LENGTH : Z := 128.
Definition PROGRAM_DIR_START : Z := 0x08000000.
Definition PROGRAM_OFFSET : Z := 0x00048000.
Definition DEL : Z := 0x7f.
Definition STATUS_MASK : Z := 0x000000ff.
Definition EHALT : Z := 239.
Definition EXCEPTION_RETURN : Z := 256.
Definition ALLOW_INTERRUPT_FLAGS : Z := 0x00000202.
Definition CHECK_EXEC_OFFSET : Z := 24.
Definition JUMP_BACK_TO_IRET : Z := 14.

(** The state the system calls work on: the processes, the run queue, the file
    system with its image, the physical memory of the programs, the terminals, the
    clock, and whether the timer was started. *)
Record kernel := Kernel {
  pr : procs; sc : sched; fsys : fs; image : memory; umem : memory;
  screen : terminals; clock : rtc; timer_on : bool }.

Definition set_pr (x : procs) (k : kernel) : kernel :=
  Kernel x (sc k) (fsys k) (image k) (umem k) (screen k) (clock k) (timer_on k).
Definition set_sc (x : sched) (k : kernel) : kernel :=
  Kernel (pr k) x (fsys k) (image k) (umem k) (screen k) (clock k) (timer_on k).
Definition set_fsys (x : fs) (k : kernel) : kernel :=
  Kernel (pr k) (sc k) x (image k) (umem k) (screen k) (clock k) (timer_on k).
Definition set_umem (x : memory) (k : kernel) : kernel :=
  Kernel (pr k) (sc k) (fsys k) (image k) x (screen k) (clock k) (timer_on k).
Definition set_screen (x : terminals) (k : kernel) : kernel :=
  Kernel (pr k) (sc k) (fsys k) (image k) (umem k) x (clock k) (timer_on k).
Definition set_clock (x : rtc) (k : kernel) : kernel :=
  Kernel (pr k) (sc k) (fsys k) (image k) (umem k) (screen k) x (timer_on k).
Definition set_timer (x : bool) (k : kernel) : kernel :=
  Kernel (pr k) (sc k) (fsys k) (image k) (umem k) (screen k) (clock k) x.

(** [get_curr_terminal ()], the terminal on display. *)
Definition shown_terminal (k : kernel) : Z := curr_terminal (screen k).

(** The functions of an [op_table_t]. *)
Record file_ops := FileOps {
  op_open : kernel -> option (Z * kernel);
  op_read : Z -> Z -> Z -> kernel -> option (Z * list Z * kernel);
  op_write : Z -> list Z -> Z -> kernel -> option (Z * kernel);
  op_close : kernel -> option (Z * kernel) }.

(** ** Positions and reads of regular files *)

Definition add_position (amt : Z) (d : file_descriptor) : file_descriptor :=
  FileDescriptor (file_op_table_ptr d) (inode_ptr d) (u32 (file_position d + amt)) (flags d).

Definition increment_position (inode amt : Z) (p : procs) : option procs :=
  if inode =? 0 then Some p
  else
    f ← get_desc p;
    f ← for_up (Z.to_nat (FILE_ARRAY_SIZE - FD_START)) FD_START (fun i f =>
          d ← f.[i]; if inode_ptr d =? inode then f.[i <- add_position amt d] else Some f) f;
    put_desc f p.

(** A file name in the image, as the pointer [a] to it. *)
Definition name_at (m : memory) (a : Z) : option (list Z) :=
  if a =? 0 then None else Some (load_bytes m a 64).

Definition fs_read (ptr offset count : Z) (k : kernel) : option (Z * list Z * kernel) :=
  let fname := name_at (image k) (return_dentry_by_ptr (image k) (fsys k) ptr) in
  '(ret, d) ← read_dentry_by_name (image k) (fsys k) fname;
  match d with
  | None => Some (ERROR, [], k)
  | Some d =>
      if ret =? ERROR then Some (ERROR, [], k)
      else
        let i_ptr := u32 (inodes (fsys k) + inode_num d * INODE_SIZE) in
        let '(ret, bs) := read_data (image k) (fsys k) i_ptr (u32 offset) 1 (u32 count) in
        p ← increment_position ptr ret (pr k);
        Some (ret, bs, set_pr p k)
  end.

Definition fs_ops : file_ops := FileOps
  (fun k => Some (fs_open, k)) fs_read
  (fun fd buf n k => Some (fs_write fd buf n, k)) (fun k => Some (fs_close, k)).

Definition dir_ops : file_ops := FileOps
  (fun k => Some (dir_open, k))
  (fun _ _ count k => '(ret, bs, f) ← dir_read (image k) (fsys k) count; Some (ret, bs, set_fsys f k))
  (fun fd buf n k => Some (dir_write fd buf n, k)) (fun k => Some (dir_close, k)).

Section Calls.
Context (ops : op_table -> file_ops) (L : layout) (pit_ret : Z).

Definition fd_init (data : dentry) (i : Z) (k : kernel) : option (Z * kernel) :=
  let ty := file_type data in
  if (ty =? RTC) || (ty =? DIRECTORY) || (ty =? REGULAR_FILE) then
    f ← get_desc (pr k);
    d ← f.[i];
    let d := FileDescriptor (file_op_table_ptr d) (inode_ptr d) 0 FD_IN_USE in
    let d :=
      if ty =? RTC then FileDescriptor (Some rtc_op) 0 (file_position d) (Z.lor (flags d) RTC)
      else if ty =? DIRECTORY then FileDescriptor (Some dir_op) 0 (file_position d) (Z.lor (flags d) DIRECTORY)
      else FileDescriptor (Some fs_op) (get_inode_ptr (fsys k) (s32 (inode_num data))) (file_position d)
             (Z.lor (flags d) REGULAR_FILE) in
    f ← f.[i <- d];
    p ← put_desc f (pr k);
    Some (SUCCESS, set_pr p k)
  else Some (ERROR, k).

(** [for (i = FD_START; i < FILE_ARRAY_SIZE; i++)] *)
Fixpoint free_fd (n : nat) (i : Z) (f : list file_descriptor) : option Z :=
  match n with
  | O => Some ERROR
  | S n' => d ← f.[i]; if Z.land (flags d) FD_IN_USE =? CLEAR then Some i else free_fd n' (i + 1) f
  end.

Definition kopen (file_name : option (list Z)) (k : kernel) : option (Z * kernel) :=
  f ← get_desc (pr k);
  chosen_index ← free_fd (Z.to_nat (FILE_ARRAY_SIZE - FD_START)) FD_START f;
  if chosen_index =? ERROR then Some (ERROR, k)
  else
    '(ret, d) ← read_dentry_by_name (image k) (fsys k) file_name;
    match d with
    | None => Some (ERROR, k)
    | Some data =>
        if negb (SUCCESS =? ret) then Some (ERROR, k)
        else
          '(ret, k) ← fd_init data chosen_index k;
          if ERROR =? ret then Some (ERROR, k)
          else
            f ← get_desc (pr k); d ← f.[chosen_index]; o ← file_op_table_ptr d;
            '(_, k) ← op_open (ops o) k;
            Some (chosen_index, k)
    end.

Definition in_use (d : file_descriptor) : bool := negb (Z.land (flags d) FD_IN_USE =? 0).
Definition has_type (d : file_descriptor) (t : Z) : bool := Z.land (flags d) FILE_TYPE =? t.

Definition kread (fd buf nbytes : Z) (k : kernel) : option (Z * list Z * kernel) :=
  f ← get_desc (pr k);
  if (fd <? 0) || (FILE_ARRAY_SIZE <=? fd) || (buf =? 0) || (nbytes <? 0) then Some (ERROR, [], k)
  else
    d ← f.[fd];
    if negb (in_use d) ||
       (negb (has_type d RTC) && negb (has_type d DIRECTORY) && negb (has_type d REGULAR_FILE) && negb (has_type d STDIN))
    then Some (ERROR, [], k)
    else o ← file_op_table_ptr d; op_read (ops o) (inode_ptr d) (file_position d) nbytes k.

Definition kwrite (fd : Z) (buf : option (list Z)) (nbytes : Z) (k : kernel) : option (Z * kernel) :=
  f ← get_desc (pr k);
  match buf with
  | None => Some (ERROR, k)
  | Some buf =>
      if (fd <? 0) || (FILE_ARRAY_SIZE <=? fd) || (nbytes <? 0) then Some (ERROR, k)
      else
        d ← f.[fd];
        if negb (in_use d) ||
           (negb (has_type d RTC) && negb (has_type d DIRECTORY) && negb (has_type d REGULAR_FILE) && negb (has_type d STDOUT))
        then Some (ERROR, k)
        else o ← file_op_table_ptr d; op_write (ops o) fd buf nbytes k
  end.

Definition kclose (fd : Z) (k : kernel) : option (Z * kernel) :=
  f ← get_desc (pr k);
  if (fd <? FD_START) || (FILE_ARRAY_SIZE <=? fd) then Some (ERROR, k)
  else
    d ← f.[fd];
    if negb (in_use d) then Some (ERROR, k)
    else
      o ← file_op_table_ptr d;
      f ← f.[fd <- FileDescriptor (file_op_table_ptr d) (inode_ptr d) (file_position d) FD_FREE];
      p ← put_desc f (pr k);
      op_close (ops o) (set_pr p k).

(** The arguments of the current process, copied whole: [nbytes] is only tested.
    The result has the bytes stored in the caller's buffer. *)
Definition kget_args (buf nbytes : Z) (k : kernel) : option (Z * list Z) :=
  c ← curr_process (pr k); b ← (pcbs (pr k)).[c];
  if (buf =? 0) || (nbytes <? 0) then Some (ERROR, [])
  else
    n ← strlen (args b);
    Some (SUCCESS, take (Z.to_nat n) (args b) ++ [0]).

Definition kset_handler (signum handler_address : Z) : Z := ERROR.
Definition ksigreturn : Z := ERROR.

Definition kvidmap (screen_start : Z) (k : kernel) : option (Z * kernel) :=
  c ← curr_process (pr k); b ← (pcbs (pr k)).[c];
  if ERROR =? address_in_user (s32 screen_start) (pid b) then Some (ERROR, k)
  else
    '(ret, pg') ← map_vid_memory L (pid b) (pg (pr k));
    let k := set_pr (set_pg pg' (pr k)) k in
    if ret =? ERROR then Some (ERROR, k)
    else
      let m := store32 (umem k) (program_frame (pid b) screen_start) VIRT_VID_MEM in
      Some (s32 VIRT_VID_MEM, set_umem m k).

(** The two loops over a chain of children; a chain has at most six processes. *)
Fixpoint vid_chain (fuel : nat) (f : Z -> paging -> option (Z * paging)) (c : option Z) (p : procs) : option procs :=
  match fuel with
  | O => None
  | S fuel' =>
      match c with
      | None => Some p
      | Some c =>
          b ← (pcbs p).[c];
          '(_, pg') ← f (pid b) (pg p);
          vid_chain fuel' f (child b) (set_pg pg' p)
      end
  end.

Definition swap_vid_mem (old_term new_term : Z) (p : procs) : option (Z * procs) :=
  if (new_term <? FIRST_TERMINAL) || (THIRD_TERMINAL <? new_term) ||
     (old_term <? FIRST_TERMINAL) || (THIRD_TERMINAL <? old_term) then Some (ERROR, p)
  else
    old ← (roots p).[old_term]; new ← (roots p).[new_term];
    let p := set_pg (cli (pg p)) p in
    c ← curr_process p; cb ← (pcbs p).[c];
    p ← vid_chain 7 (fun q pg => switch_vid_mem_out q old_term (pid cb) pg) old p;
    p ← vid_chain 7 (fun q pg => switch_vid_mem_in q (pid cb) pg) new p;
    let p := set_pg (sti (pg p)) p in
    Some (SUCCESS, set_pg (set_cr3 (get_process_directory L (pid cb)) (pg p)) p).

End Calls.

(** ** Executing and halting programs *)

(** Bytes stored from address [a] on. *)
Fixpoint store_bytes (m : memory) (a : Z) (bs : list Z) : memory :=
  match bs with
  | [] => m
  | b :: bs' => store_bytes (store8 m a b) (a + 1) bs'
  end.

Definition ELF : list Z := [DEL; 69; 76; 70].

(** [elf_junk] is the uninitialised local buffer the bytes are read into. *)
Definition check_executable (elf_junk : list Z) (file_name : list Z) (k : kernel) : option Z :=
  '(ret, bs) ← fs_read_by_name (image k) (fsys k) (Some file_name) 0 WORD 1;
  if (ret =? ERROR) || (ret <? WORD) then Some ERROR
  else
    let elfbuf := bs ++ drop (length bs) elf_junk in
    r ← strncmp elfbuf ELF WORD;
    if negb (r =? SUCCESS) then Some ERROR else Some SUCCESS.

Definition get_file_info (cmd : list Z) (k : kernel) : option (Z * option dentry) :=
  '(ret, d) ← read_dentry_by_name (image k) (fsys k) (Some cmd);
  if ERROR =? ret then Some (ERROR, None) else Some (SUCCESS, d).

(** The scan for the end of the command name: its length and whether a newline
    ended it. *)
Fixpoint command_end (n : nat) (i : Z) (command : list Z) : option (Z * bool) :=
  match n with
  | O => Some (i, false)
  | S n' =>
      c ← command.[i];
      if c =? 32 then Some (i, false)
      else if c =? 0 then Some (i, false)
      else if c =? 10 then Some (i, true)
      else command_end n' (i + 1) command
  end.

(** [while (command[i] == ' ') i++;] *)
Fixpoint skip_spaces (fuel : nat) (i : Z) (command : list Z) : option Z :=
  match fuel with
  | O => None
  | S fuel' => c ← command.[i]; if c =? 32 then skip_spaces fuel' (i + 1) command else Some i
  end.

(** The loop that copies the arguments, with its break. *)
Fixpoint copy_args (n : nat) (i j : Z) (command a : list Z) : option (list Z) :=
  match n with
  | O => Some a
  | S n' =>
      c ← command.[i + j];
      if (c =? 0) || (c =? 10) then a.[j <- 0]
      else a ← a.[j <- c]; copy_args n' i (j + 1) command a
  end.

(** What a function finds in its uninitialised locals. *)
Record junk := Junk { no_args_junk : Z; args_junk : list Z; cmd_junk : list Z; elf_bytes : list Z; eip_junk : list Z }.

(** Parsing: the command name, and the buffer of arguments. *)
Definition parse_command (jk : junk) (command : list Z) : option (list Z * Z * bool) :=
  '(i, nl) ← command_end (Z.to_nat CMD_LENGTH) 0 command;
  cmd ← strncpy (take (Z.to_nat (i + 1)) (cmd_junk jk)) command i;
  cmd ← cmd.[i <- 0];
  Some (cmd, i, nl).

Definition parse_args (jk : junk) (i : Z) (nl : bool) (command : list Z) : option (list Z) :=
  i ← skip_spaces (S (length command)) i command;
  c ← command.[i];
  let no_args := if negb (c =? 0) then CLEAR else if nl then ON else no_args_junk jk in
  if CMD_LENGTH - i <? 0 then None
  else
    let a := take (Z.to_nat (CMD_LENGTH - i)) (args_junk jk) in
    if no_args =? CLEAR then copy_args (Z.to_nat (CMD_LENGTH - i)) i 0 command a else Some a.

(** The result of a call that may give up the processor with [int $32]. *)
Inductive outcome := Returns (ret : Z) (k : kernel) | Yields (k : kernel).

Section Execute.
Context (L : layout) (pit_ret : Z).

(** Little-endian dword of four bytes read, over what the variable held. *)
Definition dword_of (bs jk : list Z) : Z :=
  match bs ++ drop (length bs) jk with
  | b0 :: b1 :: b2 :: b3 :: _ => b0 + 2 ^ 8 * b1 + 2 ^ 16 * b2 + 2 ^ 24 * b3
  | _ => 0
  end.

(** Load the file of an inode at [0x8048000] under the current directory, which is
    that of process [q]; the result says whether all of it was read. *)
Definition load_program (q i_ptr : Z) (k : kernel) : bool * kernel :=
  let len := inode_length (image k) i_ptr in
  let '(ret, bs) := read_data (image k) (fsys k) i_ptr 0 (PROGRAM_DIR_START + PROGRAM_OFFSET) len in
  let k := set_umem (store_bytes (umem k) (program_frame q (PROGRAM_DIR_START + PROGRAM_OFFSET)) bs) k in
  (negb ((ret =? ERROR) || (u32 ret <? len)), k).

(** One turn of the loop of [open_shells]; [false] for the error return. *)
Definition open_shell (eip i_ptr : Z) (cmd a : list Z) (i : Z) (k : kernel) : option (bool * kernel) :=
  '(_, pg') ← switch_paging L i (pg (pr k));
  let k := set_pr (set_pg pg' (pr k)) k in
  let '(ok, k) := load_program i i_ptr k in
  if negb ok then Some (false, k)
  else
    p ← pcb_init i i eip cmd a (shown_terminal k) (pr k);
    '(_, p) ← set_current_process i p;
    r ← (roots p).[i <- Some i];
    let p := set_roots r p in
    p ← upd_pcb i (with_parent None) p;
    p ← upd_pcb i (with_terminal i) p;
    '(_, p) ← open_stdin_stdout p;
    b ← (pcbs p).[i];
    let context := Iret (instr_ptr b) USER_CS ALLOW_INTERRUPT_FLAGS (user_stack b) KERNEL_DS in
    let p := set_kmem (put_iret (kmem p) (u32 (kernel_stack b - 20)) context) p in
    '(s, p) ← schedule pit_ret (pid b) (sc k) p;
    Some (true, set_sc s (set_pr p k)).

Definition open_shells (eip i_ptr : Z) (cmd a : list Z) (k : kernel) : option (Z * kernel) :=
  '(ok, k) ← open_shell eip i_ptr cmd a SECOND_TERMINAL k;
  if negb ok then Some (ERROR, k)
  else
    '(ok, k) ← open_shell eip i_ptr cmd a THIRD_TERMINAL k;
    if negb ok then Some (ERROR, k)
    else
      l ← (pid_arr (pr k)).[THIRD_TERMINAL <- ON]; l ← l.[SECOND_TERMINAL <- ON];
      let p := set_pid_arr l (pr k) in
      '(_, pg') ← switch_paging L FIRST_TERMINAL (pg p);
      p ← reset_curr_process L FIRST_TERMINAL (set_pg pg' p);
      Some (SUCCESS, set_pr p k).

(** The control block of a new process: it becomes the current process, and the
    parent's stack is saved and its pages come back. *)
Definition new_process (q eip : Z) (cmd a : list Z) (curr_terminal esp_in ebp_in : Z) (p : procs) : option procs :=
  p ← pcb_init q q eip cmd a curr_terminal p;
  '(_, p) ← set_current_process q p;
  '(_, p) ← open_stdin_stdout p;
  b ← (pcbs p).[q];
  match parent b with
  | Some r =>
      p ← upd_pcb r (with_esp_ebp esp_in ebp_in) p;
      rb ← (pcbs p).[r];
      '(_, pg') ← switch_paging L (pid rb) (pg p);
      Some (set_pg pg' p)
  | None => Some p
  end.

(** From the choice of the page directory to the scheduling of the new process. *)
Definition start_process (jk : junk) (q : Z) (data : dentry) (cmd a : list Z) (esp_in ebp_in : Z) (k : kernel)
  : option outcome :=
  '(_, pg') ← (if THIRD_TERMINAL <? q
               then c ← curr_process (pr k); cb ← (pcbs (pr k)).[c]; new_paging L q (pid cb) (pg (pr k))
               else switch_paging L q (pg (pr k)));
  let k := set_pr (set_pg pg' (pr k)) k in
  let i_ptr := get_inode_ptr (fsys k) (s32 (inode_num data)) in
  let '(ok, k) := load_program q i_ptr k in
  if negb ok then Some (Returns ERROR k)
  else
    l ← (pid_arr (pr k)).[q <- ON];
    let '(_, bs) := read_data (image k) (fsys k) i_ptr CHECK_EXEC_OFFSET 1 WORD in
    let eip := dword_of bs (eip_junk jk) in
    p ← new_process q eip cmd a (shown_terminal k) esp_in ebp_in (set_pid_arr l (pr k));
    b ← (pcbs p).[q];
    '(s, p) ← schedule pit_ret (pid b) (sc k) (set_pg (cli (pg p)) p);
    let p := set_pg (sti (pg p)) p in
    p ← (if q <=? THIRD_TERMINAL then r ← (roots p).[q <- Some q]; Some (set_roots r p) else Some p);
    let k := set_sc s (set_pr p k) in
    p0 ← (pid_arr p).[FIRST_TERMINAL]; p1 ← (pid_arr p).[SECOND_TERMINAL]; p2 ← (pid_arr p).[THIRD_TERMINAL];
    if (p0 =? ON) && (p1 =? CLEAR) && (p2 =? CLEAR) then
      p ← upd_pcb q (with_terminal FIRST_TERMINAL) p;
      c ← curr_process p; r ← (roots p).[0 <- Some c];
      '(ret, k) ← open_shells eip i_ptr cmd a (set_pr (set_roots r p) k);
      if ret =? ERROR then Some (Returns ERROR (set_pr (set_pg (sti (pg (pr k))) (pr k)) k))
      else Some (Yields (set_timer true k))
    else Some (Yields k).

(** [esp_in] and [ebp_in] are the registers in [kexecute].  A process that yields
    returns [curr_process->ret_status] when it runs again. *)
Definition kexecute (jk : junk) (command : option (list Z)) (esp_in ebp_in : Z) (k : kernel) : option outcome :=
  q ← free_pid_idx (pr k);
  match command with
  | None => Some (Returns ERROR k)
  | Some command =>
      if q =? ERROR then Some (Returns ERROR k)
      else
        '(cmd, i, nl) ← parse_command jk command;
        '(ret, d) ← get_file_info cmd k;
        match d with
        | None => Some (Returns ERROR k)
        | Some data =>
            if ERROR =? ret then Some (Returns ERROR k)
            else
              e ← check_executable (elf_bytes jk) (file_name data) k;
              if e =? ERROR then Some (Returns ERROR k)
              else
                a ← parse_args jk i nl command;
                start_process jk q data cmd a esp_in ebp_in k
        end
  end.

Section Halt.
Context (ops : op_table -> file_ops).

(** [for (fd = 0; fd < FILE_ARRAY_SIZE; fd++) if (desc[fd].flags & FD_IN_USE) kclose(fd);] *)
Definition close_all (k : kernel) : option kernel :=
  for_up (Z.to_nat FILE_ARRAY_SIZE) 0 (fun fd k =>
    f ← get_desc (pr k); d ← f.[fd];
    if in_use d then '(_, k) ← kclose ops fd k; Some k else Some k) k.

(** The value a parent sees for the status of a halted child. *)
Definition halt_value (status : Z) : Z :=
  u8 (if status =? EHALT then EXCEPTION_RETURN else Z.land status STATUS_MASK).

(** [ebp_in] is the frame pointer in [khalt]; the process of a shell starts over. *)
Definition khalt (status ebp_in : Z) (k : kernel) : option outcome :=
  c ← curr_process (pr k); b ← (pcbs (pr k)).[c];
  if THIRD_TERMINAL <? pid b then
    l ← (pid_arr (pr k)).[pid b <- CLEAR];
    let k := set_pr (set_pid_arr l (pr k)) k in
    '(_, pg') ← unmap_vid_memory (pid b) (pg (pr k));
    k ← close_all (set_pr (set_pg pg' (pr k)) k);
    par ← parent b;
    pb ← (pcbs (pr k)).[par];
    let parent_pid := pid pb in
    p ← upd_pcb c (with_ret_status (u8 status)) (pr k);
    p ← upd_pcb par (with_child None) p;
    p ← upd_pcb c (with_parent None) p;
    p ← upd_pcb par (with_ret_status (halt_value (u8 status))) p;
    s ← unschedule (pid b) parent_pid (sc k);
    Some (Yields (set_sc s (set_pr (set_pg (sti (cli (pg p))) p) k)))
  else
    let curr_iret := u32 (ebp_in + 4 * JUMP_BACK_TO_IRET) in
    let m := store32 (kmem (pr k)) curr_iret (instr_ptr b) in
    let m := store32 m (u32 (curr_iret + 12)) (user_stack b) in
    Some (Returns SUCCESS (set_pr (set_kmem m (pr k)) k)).

End Halt.
End Execute.

(** ** Descriptors *)

Definition fd_slots : list Z := seqZ 2 6.

Definition free_slot (f : list file_descriptor) (i : Z) : bool :=
  match f.[i] with Some d => negb (in_use d) | None => false end.

(** The lowest free descriptor a program may get. *)
Definition lowest_free (f : list file_descriptor) : option Z := find (free_slot f) fd_slots.

Lemma free_fd_spec f n i :
  0 <= i -> i + Z.of_nat n <= Z.of_nat (length f) ->
  free_fd n i f = Some (default ERROR (find (free_slot f) (seqZ i (Z.of_nat n)))).
Proof.
  revert i. induction n as [|n IH]; intros i Hi Hn; [done|]. cbn [free_fd].
  destruct (zget_ex f i) as [d Hd]; [lia|]. rewrite Hd, some_bind.
  rewrite seqZ_cons by lia. cbn [find]. unfold free_slot at 1, in_use. rewrite Hd. unfold CLEAR.
  rewrite negb_involutive. destruct (Z.land (flags d) FD_IN_USE =? 0); [done|].
  rewrite IH by lia. replace (Z.pred (Z.of_nat (S n))) with (Z.of_nat n) by lia. done.
Qed.

(** The process numbers: the lowest one that is free. *)
Lemma free_pid_spec l n i :
  0 <= i -> i + Z.of_nat n <= Z.of_nat (length l) ->
  free_pid_from n i l = Some (default ERROR (find (fun j => bool_decide (l.[j] = Some 0)) (seqZ i (Z.of_nat n)))).
Proof.
  revert i. induction n as [|n IH]; intros i Hi Hn; [done|]. cbn [free_pid_from].
  destruct (zget_ex l i) as [x Hx]; [lia|]. rewrite Hx, some_bind.
  rewrite seqZ_cons by lia. cbn [find]. rewrite Hx. unfold CLEAR. destruct (Z.eqb_spec x 0) as [->|Hne].
  - by rewrite bool_decide_eq_true_2.
  - rewrite bool_decide_eq_false_2 by congruence. rewrite IH by lia.
    replace (Z.pred (Z.of_nat (S n))) with (Z.of_nat n) by lia. done.
Qed.

(** A state whose [desc] points to the descriptor array [f]. *)
Record desc_is (p : procs) (f : list file_descriptor) : Prop := {
  di_get : get_desc p = Some f;
  di_size : Z.of_nat (length f) = 8 }.

Lemma put_desc_spec p f f' :
  desc_is p f -> Z.of_nat (length f') = 8 ->
  exists p', put_desc f' p = Some p' /\ desc_is p' f' /\ curr_process p' = curr_process p /\ desc p' = desc p /\
    pid_arr p' = pid_arr p /\ roots p' = roots p /\ pg p' = pg p /\ kmem p' = kmem p /\ esp0 p' = esp0 p /\
    forall i, (pcbs p').[i] = if decide (desc p = Some i) then with_files f' <$> (pcbs p).[i] else (pcbs p).[i].
Proof.
  intros [Hg Hs] Hs'. unfold get_desc, put_desc, upd_pcb in *. destruct (desc p) as [q|] eqn:Ed; [|done].
  cbn [mbind option_bind] in *. destruct ((pcbs p).[q]) as [b|] eqn:Eb; [|done]. cbn [mbind option_bind] in *.
  pose proof (zget_Some_range _ _ _ Eb) as Hr.
  destruct ((pcbs p).[q <- with_files f' b]) as [bs|] eqn:Es; [|by rewrite zset_in in Es by lia].
  eexists. split; [done|]. split_and!; try done.
  - split; [|done]. unfold get_desc. cbn [desc pcbs set_pcbs]. rewrite Ed, some_bind, (zget_zset _ _ _ _ _ Es), Z.eqb_refl. done.
  - intros i. cbn [pcbs set_pcbs]. rewrite (zget_zset _ _ _ _ _ Es). destruct (Z.eqb_spec i q) as [->|Hne].
    + by rewrite decide_True, Eb.
    + rewrite decide_False by congruence. done.
Qed.

Lemma set_fd (f : list file_descriptor) i d : Z.of_nat (length f) = 8 -> 0 <= i < 8 ->
  exists f', f.[i <- d] = Some f' /\ Z.of_nat (length f') = 8 /\ forall j, f'.[j] = if j =? i then Some d else f.[j].
Proof.
  intros Hl Hi. destruct (f.[i <- d]) as [f'|] eqn:E; [|by rewrite zset_in in E by lia].
  exists f'. split_and!; [done | by rewrite (zset_length _ _ _ _ E) |]. intros j. apply (zget_zset _ _ _ _ _ E).
Qed.

(** What the drivers promise the system calls about opening and closing: once the
    clock is initialised, those of the files a program can open change nothing. *)
Class QuietOps (ops : op_table -> file_ops) : Prop := {
  open_quiet : forall o k, o <> std_ops -> initialized (clock k) <> 0 -> exists r, op_open (ops o) k = Some (r, k);
  close_quiet : forall o k, o <> std_ops -> exists r, op_close (ops o) k = Some (r, k) }.

(** The descriptors a program opened have a driver other than the terminal. *)
Definition fds_ok (f : list file_descriptor) : Prop :=
  forall i d, f.[i] = Some d -> 2 <= i -> in_use d = true -> exists o, file_op_table_ptr d = Some o /\ o <> std_ops.

(** Drivers that do nothing, for the terminal and the clock, and the real ones for
    files and directories. *)
Definition null_ops : file_ops := FileOps (fun k => Some (0, k)) (fun _ _ _ k => Some (0, [], k))
  (fun _ _ _ k => Some (0, k)) (fun k => Some (0, k)).
Definition demo_ops (o : op_table) : file_ops :=
  match o with fs_op => fs_ops | dir_op => dir_ops | _ => null_ops end.

#[export] Instance demo_ops_quiet : QuietOps demo_ops.
Proof. split; intros [] k; eexists; reflexivity. Qed.

(** The descriptor [fd_init] makes for a directory entry, if its type is known. *)
Definition new_fd (f : fs) (data : dentry) : option file_descriptor :=
  if file_type data =? RTC then Some (FileDescriptor (Some rtc_op) 0 0 (Z.lor FD_IN_USE RTC))
  else if file_type data =? DIRECTORY then Some (FileDescriptor (Some dir_op) 0 0 (Z.lor FD_IN_USE DIRECTORY))
  else if file_type data =? REGULAR_FILE
  then Some (FileDescriptor (Some fs_op) (get_inode_ptr f (s32 (inode_num data))) 0 (Z.lor FD_IN_USE REGULAR_FILE))
  else None.

(** [k'] is [k] with the descriptor array replaced by [f]. *)
Definition only_fds (k k' : kernel) (f : list file_descriptor) : Prop :=
  desc_is (pr k') f /\ sc k' = sc k /\ fsys k' = fsys k /\ image k' = image k /\ umem k' = umem k /\
  screen k' = screen k /\ clock k' = clock k /\ timer_on k' = timer_on k /\ curr_process (pr k') = curr_process (pr k) /\
  pid_arr (pr k') = pid_arr (pr k) /\ roots (pr k') = roots (pr k) /\ pg (pr k') = pg (pr k) /\
  kmem (pr k') = kmem (pr k) /\ esp0 (pr k') = esp0 (pr k) /\ desc (pr k') = desc (pr k) /\
  forall i, (pcbs (pr k')).[i] =
    if decide (desc (pr k) = Some i) then with_files f <$> (pcbs (pr k)).[i] else (pcbs (pr k)).[i].

Lemma put_desc_only k f f' :
  desc_is (pr k) f -> Z.of_nat (length f') = 8 ->
  exists p', put_desc f' (pr k) = Some p' /\ only_fds k (set_pr p' k) f'.
Proof.
  intros Hd Hl. destruct (put_desc_spec _ _ _ Hd Hl) as (p' & E & H1 & H2 & H3 & H4 & H5 & H6 & H7 & H8 & H9).
  exists p'. split; [done|]. unfold only_fds. cbn. done.
Qed.

Lemma fd_init_spec k f data i :
  desc_is (pr k) f -> 0 <= i < 8 ->
  match new_fd (fsys k) data with
  | Some d => exists f' k', fd_init data i k = Some (SUCCESS, k') /\ f.[i <- d] = Some f' /\ only_fds k k' f'
  | None => fd_init data i k = Some (ERROR, k)
  end.
Proof.
  intros Hd Hi. pose proof Hd as [Hg Hs]. unfold new_fd, fd_init. cbv zeta.
  destruct (zget_ex f i) as [d0 Hd0]; [lia|].
  destruct (file_type data =? RTC); [|destruct (file_type data =? DIRECTORY); [|destruct (file_type data =? REGULAR_FILE); [|done]]];
    cbn [orb]; rewrite Hg, some_bind, Hd0, some_bind; cbn [file_position flags];
    (match goal with |- context [f.[i <- ?d]] => destruct (set_fd f i d Hs Hi) as (f' & E & Hl & _) end);
    rewrite E; destruct (put_desc_only k f f' Hd Hl) as (p' & Ep & Ho); rewrite some_bind, Ep, some_bind; eauto.
Qed.

Lemma lowest_free_range f i : lowest_free f = Some i -> 2 <= i < 8 /\ free_slot f i = true.
Proof.
  unfold lowest_free, fd_slots. intros E. pose proof (find_seqZ (free_slot f) 2 6) as H. rewrite E in H.
  destruct H as (H1 & H2 & _). split; [lia | done].
Qed.

Lemma new_fd_in_use f data d : new_fd f data = Some d -> in_use d = true /\ exists o, file_op_table_ptr d = Some o /\ o <> std_ops.
Proof.
  unfold new_fd. destruct (file_type data =? RTC); [|destruct (file_type data =? DIRECTORY); [|destruct (file_type data =? REGULAR_FILE); [|done]]];
    intros [= <-]; eauto.
Qed.

Lemma kopen_spec ops k f fname cs :
  QuietOps ops -> initialized (clock k) <> 0 -> desc_is (pr k) f -> boot_ok (fsys k) -> cstring fname cs -> cs <> [] ->
  match lowest_free f, lookup_name (image k) (fsys k) cs with
  | Some i, Some j =>
      match new_fd (fsys k) (load_dentry (image k) (entry_addr (fsys k) j)) with
      | Some d => exists f' k', kopen ops (Some fname) k = Some (i, k') /\ f.[i <- d] = Some f' /\ only_fds k k' f'
      | None => kopen ops (Some fname) k = Some (ERROR, k)
      end
  | _, _ => kopen ops (Some fname) k = Some (ERROR, k)
  end.
Proof.
  intros Hops Hck Hd Hb Hcs Hne. pose proof Hd as [Hg Hs]. unfold kopen. rewrite Hg, some_bind.
  rewrite free_fd_spec by (unfold FD_START, FILE_ARRAY_SIZE; lia).
  change (Z.of_nat (Z.to_nat (FILE_ARRAY_SIZE - FD_START))) with 6. change FD_START with 2. fold fd_slots.
  change (find (free_slot f) fd_slots) with (lowest_free f). rewrite some_bind.
  destruct (lowest_free f) as [i|] eqn:Ei; cbn [default from_option]; [|done]. unfold id.
  apply lowest_free_range in Ei as [Hi _]. rewrite (proj2 (Z.eqb_neq i ERROR)) by (unfold ERROR; lia).
  rewrite (read_dentry_by_name_spec _ _ _ cs) by done. rewrite some_bind.
  destruct (lookup_name (image k) (fsys k) cs) as [j|]; [|done]. cbn [negb SUCCESS Z.eqb].
  pose proof (fd_init_spec k f (load_dentry (image k) (entry_addr (fsys k) j)) i Hd) as Hinit.
  destruct (new_fd _ _) as [d|] eqn:En.
  - destruct Hinit as (f' & k' & -> & Ef & Ho); [lia|]. rewrite some_bind. cbn [ERROR SUCCESS Z.eqb].
    pose proof Ho as ([Hg' _] & _ & _ & _ & _ & _ & Hclk & _). rewrite Hg', some_bind, (zget_zset _ _ _ _ _ Ef), Z.eqb_refl, some_bind.
    destruct (new_fd_in_use _ _ _ En) as [_ (o & -> & Hstd)].
    rewrite some_bind. destruct (open_quiet o k' Hstd) as [r ->]; [by rewrite Hclk|]. rewrite some_bind. eauto.
  - rewrite Hinit by lia. done.
Qed.

Definition closed (d : file_descriptor) : file_descriptor :=
  FileDescriptor (file_op_table_ptr d) (inode_ptr d) (file_position d) FD_FREE.

Lemma kclose_spec ops k f fd d :
  QuietOps ops -> desc_is (pr k) f -> 2 <= fd < 8 -> f.[fd] = Some d -> in_use d = true ->
  (exists o, file_op_table_ptr d = Some o /\ o <> std_ops) ->
  exists r f' k', kclose ops fd k = Some (r, k') /\ f.[fd <- closed d] = Some f' /\ only_fds k k' f'.
Proof.
  intros Hops Hd Hfd Hget Huse (o & Ho & Hstd). pose proof Hd as [Hg Hs]. unfold kclose, FD_START, FILE_ARRAY_SIZE.
  rewrite Hg, some_bind. bfalse ((fd <? 2) || (8 <=? fd)). rewrite Hget, some_bind, Huse. cbn [negb]. rewrite Ho, some_bind.
  destruct (set_fd f fd (closed d) Hs) as (f' & Ef & Hl & _); [lia|].
  unfold closed in Ef. rewrite Ho in Ef. rewrite Ef, some_bind.
  destruct (put_desc_only k f f' Hd Hl) as (p' & -> & Hof). rewrite some_bind.
  destruct (close_quiet o (set_pr p' k) Hstd) as [r ->]. exists r, f', (set_pr p' k). split; [done|]. split; [|done].
  unfold closed. by rewrite Ho.
Qed.

(** ** Properties *)

(** C18: [kopen] of a name that is in the directory takes the lowest free descriptor
    from 2 on, sets it up for the type of the file at position 0 and changes nothing
    else; with no descriptor free, no such name, or an unknown file type it returns
    -1 and changes nothing. *)
Theorem kopen_correct ops k f fname cs :
  QuietOps ops -> initialized (clock k) <> 0 -> desc_is (pr k) f -> boot_ok (fsys k) -> cstring fname cs -> cs <> [] ->
  match lowest_free f, lookup_name (image k) (fsys k) cs with
  | Some i, Some j =>
      match new_fd (fsys k) (load_dentry (image k) (entry_addr (fsys k) j)) with
      | Some d => exists f' k', kopen ops (Some fname) k = Some (i, k') /\ f.[i <- d] = Some f' /\ only_fds k k' f'
      | None => kopen ops (Some fname) k = Some (ERROR, k)
      end
  | _, _ => kopen ops (Some fname) k = Some (ERROR, k)
  end.
Proof. apply kopen_spec. Qed.

Definition null_fd : file_descriptor := FileDescriptor None 0 0 0.
Definition std_fd (t : Z) : file_descriptor := FileDescriptor (Some std_ops) 0 0 (Z.lor FD_IN_USE t).
Definition demo_files : list file_descriptor := std_fd STDIN :: std_fd STDOUT :: replicate 6 null_fd.
Definition demo_kernel : kernel :=
  Kernel (Procs (map (fun p => with_files demo_files (demo_pcb p)) (seqZ 0 6)) (Some 0) (Some 0) [1; 1; 1; 0; 0; 0]
            [Some 0; Some 1; Some 2] 0 zero_paging (fun _ => 0))
    demo_sched demo_fs demo_mem (fun _ => 0) demo_terminals (Rtc 1 0) true.

Lemma demo_clock : initialized (clock demo_kernel) <> 0.
Proof. discriminate. Qed.

Lemma demo_desc : desc_is (pr demo_kernel) demo_files.
Proof. split; reflexivity. Qed.

Lemma demo_name : cstring [97; 0] [97].
Proof. exists []. split; [reflexivity|]. repeat constructor. lia. Qed.

Definition demo_fd : file_descriptor := FileDescriptor (Some fs_op) demo_inode 0 258.

Lemma demo_free : lowest_free demo_files = Some 2.
Proof. reflexivity. Qed.

Lemma demo_lookup : lookup_name (image demo_kernel) (fsys demo_kernel) [97] = Some 1.
Proof. vm_compute. reflexivity. Qed.

Lemma demo_new_fd : new_fd (fsys demo_kernel) (load_dentry (image demo_kernel) (entry_addr (fsys demo_kernel) 1)) = Some demo_fd.
Proof. vm_compute. reflexivity. Qed.

Lemma kopen_correct_witness :
  exists f' k', kopen demo_ops (Some [97; 0]) demo_kernel = Some (2, k') /\ demo_files.[2 <- demo_fd] = Some f' /\
    only_fds demo_kernel k' f'.
Proof.
  pose proof (kopen_correct demo_ops demo_kernel demo_files [97; 0] [97] demo_ops_quiet demo_clock demo_desc demo_boot_ok demo_name) as H.
  rewrite demo_free, demo_lookup, demo_new_fd in H. apply H. discriminate.
Defined.

(** Closing a file that was just opened frees its descriptor and no other, so that
    the next [kopen] gets the same one. *)
Theorem open_close_reopen ops k f fname cs i k1 :
  QuietOps ops -> initialized (clock k) <> 0 -> desc_is (pr k) f -> boot_ok (fsys k) -> cstring fname cs -> cs <> [] ->
  kopen ops (Some fname) k = Some (i, k1) -> i <> ERROR ->
  exists r k2 k3, kclose ops i k1 = Some (r, k2) /\ (forall j f2, get_desc (pr k2) = Some f2 -> j <> i -> f2.[j] = f.[j]) /\
    kopen ops (Some fname) k2 = Some (i, k3).
Proof.
  intros Hops Hck Hd Hb Hcs Hne Hopen Hi. pose proof (kopen_spec ops k f fname cs Hops Hck Hd Hb Hcs Hne) as Hspec.
  destruct (lowest_free f) as [i'|] eqn:Ei; [|congruence].
  destruct (lookup_name (image k) (fsys k) cs) as [j|] eqn:Ej; [|congruence].
  destruct (new_fd _ _) as [d|] eqn:En; [|congruence]. destruct Hspec as (f1 & k1' & E1 & Ef1 & Ho1).
  rewrite E1 in Hopen. injection Hopen as -> ->. pose proof (lowest_free_range f i Ei) as [Hr Hfree].
  destruct (new_fd_in_use _ _ _ En) as [Huse Hop]. pose proof Ho1 as (Hd1 & _ & Hfs1 & Him1 & _ & _ & Hck1 & _).
  destruct (kclose_spec ops k1 f1 i d Hops Hd1 Hr) as (r & f2 & k2 & E2 & Ef2 & Ho2); [by rewrite (zget_zset _ _ _ _ _ Ef1), Z.eqb_refl | done | done |].
  pose proof Ho2 as (Hd2 & _ & Hfs2 & Him2 & _ & _ & Hck2 & _).
  assert (forall j, j <> i -> f2.[j] = f.[j]) as Hsame.
  { intros x Hx. rewrite (zget_zset _ _ _ _ _ Ef2), (zget_zset _ _ _ _ _ Ef1). bfalse (x =? i). done. }
  assert (lowest_free f2 = Some i) as El2.
  { unfold lowest_free in *. rewrite <- Ei. apply find_ext_in. intros x Hx. unfold free_slot.
    destruct (Z.eqb_spec x i) as [->|Hxi]; [|by rewrite Hsame].
    rewrite (zget_zset _ _ _ _ _ Ef2), Z.eqb_refl. unfold free_slot in Hfree. symmetry. exact Hfree. }
  pose proof (kopen_spec ops k2 f2 fname cs Hops ltac:(by rewrite Hck2, Hck1) Hd2) as Hspec2. rewrite El2, Hfs2, Hfs1, Him2, Him1, Ej, En in Hspec2.
  destruct Hspec2 as (f3 & k3 & E3 & _); [done | done | done|].
  exists r, k2, k3. split_and!; try done. intros x g Hg Hx. pose proof Hd2 as [Hg2 _]. replace g with f2 by congruence. auto.
Qed.

Lemma open_close_reopen_witness :
  exists k1 r k2 k3, kopen demo_ops (Some [97; 0]) demo_kernel = Some (2, k1) /\
    kclose demo_ops 2 k1 = Some (r, k2) /\ kopen demo_ops (Some [97; 0]) k2 = Some (2, k3).
Proof.
  pose proof (kopen_spec demo_ops demo_kernel demo_files [97; 0] [97] demo_ops_quiet demo_clock demo_desc demo_boot_ok demo_name) as H.
  rewrite demo_free, demo_lookup, demo_new_fd in H. destruct H as (f' & k1 & E & _); [discriminate|].
  destruct (open_close_reopen demo_ops demo_kernel demo_files [97; 0] [97] 2 k1 demo_ops_quiet demo_clock demo_desc demo_boot_ok demo_name)
    as (r & k2 & k3 & E2 & _ & E3); [discriminate | exact E | discriminate|].
  exists k1, r, k2, k3. split; [exact E | split; [exact E2 | exact E3]].
Defined.
