(* ===== verification/Reading.v ===== *)
(** * Reading files through descriptors

    [kread] on a regular file goes from the descriptor to the inode, from the inode to
    the name of the first directory entry that has it, from the name back to an entry
    and its inode, and moves the position of every descriptor on that inode.  On a
    directory with distinct names this is reading the file of the descriptor. *)

From stdpp Require Import base list option sets.
From Stdlib Require Import ZArith Lia ZifyBool.
From S2P Require Import Prelude MemOps Lib Rtc Terminal FileSystem Paging Process Schedule FileArray.

Section Image.
Context (m : memory) (f : fs).

Definition entry_inode (i : Z) : Z := load32 m (u32 (entry_addr f i + 36)).
Definition entry_type (i : Z) : Z := load32 m (u32 (entry_addr f i + 32)).

(** A directory whose entries have distinct names and one of the known types. *)
Record dir_ok : Prop := {
  do_bytes : bytes m;
  do_boot : boot_ok f;
  do_entries : 0 <= NUM_DIR_ENTRIES m f <= 63;
  do_blocks : 1 <= NUM_DATA_BLOCKS m f;
  do_type : forall i, 0 <= i < NUM_DIR_ENTRIES m f -> entry_type i < 256;
  do_named : forall i, 0 <= i < NUM_DIR_ENTRIES m f -> entry_name m f i <> [];
  do_distinct : forall i j, 0 <= i < NUM_DIR_ENTRIES m f -> 0 <= j < 63 ->
    entry_name m f i = entry_name m f j -> i = j }.

(** [p] points to the inode with number [n] and some entry has that number. *)
Record file_at (n p : Z) : Prop := {
  fa_ptr : p = get_inode_ptr f n;
  fa_num : 0 <= n;
  fa_inodes : 0 < inodes f;
  fa_wrap : inodes f + n * INODE_SIZE < 2 ^ 32;
  fa_listed : exists i, 0 <= i < NUM_DIR_ENTRIES m f /\ entry_inode i = n }.

Lemma find_inode_spec n k i :
  find_inode m k i f n =
  match find (fun j => entry_inode j =? n) (seqZ i (Z.of_nat k)) with
  | Some j => entry_addr f j
  | None => 0
  end.
Proof.
  revert i. induction k as [|k IH]; intros i; [done|]. cbn [find_inode].
  rewrite seqZ_cons by lia. cbn [find]. unfold entry_inode at 1. case_if; [done|].
  rewrite IH. replace (Z.pred (Z.of_nat (S k))) with (Z.of_nat k) by lia. done.
Qed.

Lemma entry_addr_pos i : boot_ok f -> 0 <= i < 63 -> entry_addr f i <> 0.
Proof.
  intros [H1 H2] Hi. unfold entry_addr, BOOT_BLOCK_SIZE, BOOT_INFO_SIZE, DENTRY_SIZE in *. rewrite u32_small; lia.
Qed.

Lemma file_at_ptr n p : file_at n p -> p = inodes f + n * INODE_SIZE /\ p <> 0 /\ u32 (p - inodes f) / INODE_SIZE = n.
Proof.
  intros []. assert (p = inodes f + n * INODE_SIZE) as E.
  { rewrite fa_ptr0. unfold get_inode_ptr. case_if; [lia|]. apply u32_small. unfold INODE_SIZE in *. lia. }
  split; [done|]. unfold INODE_SIZE in *. split; [lia|]. rewrite E. rewrite u32_small by lia.
  rewrite Z.add_simpl_l. apply Z.div_mul. lia.
Qed.

(** The entry [return_dentry_by_ptr] finds. *)
Lemma return_dentry_spec n p :
  dir_ok -> file_at n p ->
  exists i, return_dentry_by_ptr m f p = entry_addr f i /\ 0 <= i < NUM_DIR_ENTRIES m f /\ entry_inode i = n.
Proof.
  intros Hd Hf. pose proof (file_at_ptr n p Hf) as (_ & Hne & Hnum). destruct Hf, Hd.
  unfold return_dentry_by_ptr. bfalse (p =? 0). rewrite Hnum.
  rewrite s32_small by lia. rewrite find_inode_spec. rewrite Z2Nat.id by lia.
  pose proof (find_seqZ (fun j => entry_inode j =? n) 0 (NUM_DIR_ENTRIES m f)) as H.
  destruct (find _ _) as [j|]; [|].
  - destruct H as (Hj & E & _). exists j. split_and!; [done | lia.. |]. lia.
  - destruct fa_listed0 as (i & Hi & E). specialize (H i). cbv beta in H. rewrite E in H. lia.
Qed.

Lemma name_of_cstring bs : 0 ∈ bs -> cstring bs (name_of bs).
Proof.
  induction bs as [|b bs IH]; intros H; [by apply elem_of_nil in H|]. cbn [name_of].
  destruct (Z.eqb_spec b 0) as [->|Hne]; [by exists bs; split|].
  apply elem_of_cons in H as [H|H]; [done|]. destruct (IH H) as (rest & E & HF).
  exists rest. split; [cbn; by rewrite E at 1 | by constructor].
Qed.

Lemma name_of_take k bs : take k (name_of bs) = name_of (take k bs).
Proof.
  revert k. induction bs as [|b bs IH]; intros [|k]; try done. cbn [name_of take].
  destruct (b =? 0); [done|]. cbn [take]. by rewrite IH.
Qed.

Lemma load_bytes_take a k n : (k <= n)%nat -> take k (load_bytes m a n) = load_bytes m a k.
Proof. intros H. unfold load_bytes. rewrite firstn_map, take_seqZ. do 2 f_equal. lia. Qed.

(** The name in an entry, with what follows it, is a string that finds the entry. *)
Lemma entry_name_cstring i :
  dir_ok -> 0 <= i < NUM_DIR_ENTRIES m f ->
  exists cs, cstring (load_bytes m (entry_addr f i) 64) cs /\ cs <> [] /\ lookup_name m f cs = Some i.
Proof.
  intros Hd Hi. pose proof Hd as []. exists (name_of (load_bytes m (entry_addr f i) 64)).
  assert (take 32 (name_of (load_bytes m (entry_addr f i) 64)) = entry_name m f i) as Hname.
  { rewrite name_of_take, load_bytes_take by lia. done. }
  split_and!.
  - apply name_of_cstring, list_elem_of_In, in_map_iff. exists 35. split; [|apply list_elem_of_In, elem_of_seqZ; lia].
    pose proof (do_type0 i Hi) as Ht. unfold entry_type, load32 in Ht. rewrite !u32_add_u32 in Ht.
    pose proof (do_bytes0 (u32 (entry_addr f i + 32))). pose proof (do_bytes0 (u32 (entry_addr f i + 32 + 1))).
    pose proof (do_bytes0 (u32 (entry_addr f i + 32 + 2))). pose proof (do_bytes0 (u32 (entry_addr f i + 32 + 3))).
    replace (entry_addr f i + 35) with (entry_addr f i + 32 + 3) by lia. lia.
  - intros E. apply (do_named0 i Hi). rewrite <- Hname, E. apply take_nil.
  - unfold lookup_name. rewrite Hname. pose proof (find_seqZ (fun j => bool_decide (entry_name m f j = entry_name m f i)) 0 63) as H.
    destruct (find _ _) as [j|]; [|].
    + destruct H as (Hj & E%bool_decide_eq_true & _). f_equal. symmetry. apply (do_distinct0 i j Hi); [lia | exact (eq_sym E)].
    + assert (bool_decide (entry_name m f i = entry_name m f i) = false) as E by (apply H; lia).
      rewrite bool_decide_eq_true_2 in E; [discriminate | reflexivity].
Qed.

End Image.

(** ** Positions *)

(** What [increment_position] does to the descriptors. *)
Definition bump (inode amt : Z) (f : list file_descriptor) : list file_descriptor :=
  imap (fun j d => if (2 <=? Z.of_nat j) && (inode_ptr d =? inode) then add_position amt d else d) f.

Lemma bump_get inode amt f j :
  (bump inode amt f).[j] =
  (fun d => if (2 <=? j) && (inode_ptr d =? inode) then add_position amt d else d) <$> f.[j].
Proof.
  unfold zget, bump. case_if; [|done]. rewrite list_lookup_imap, Z2Nat.id by lia. done.
Qed.

Lemma length_bump inode amt f : length (bump inode amt f) = length f.
Proof. apply length_imap. Qed.

Lemma increment_position_spec k f inode amt :
  desc_is (pr k) f -> inode <> 0 ->
  exists p', increment_position inode amt (pr k) = Some p' /\ only_fds k (set_pr p' k) (bump inode amt f).
Proof.
  intros Hd Hne. pose proof Hd as [Hg Hs]. unfold increment_position. bfalse (inode =? 0). rewrite Hg, some_bind.
  change (Z.to_nat (FILE_ARRAY_SIZE - FD_START)) with 6%nat. change FD_START with 2.
  destruct (for_up_inv (fun i g => length g = length f /\ forall j, g.[j] =
      if j <? i then (bump inode amt f).[j] else f.[j]) 6 2
    (fun i g => d ← g.[i]; if inode_ptr d =? inode then g.[i <- add_position amt d] else Some g) f) as (g & E & Hl & Hget).
  - split; [done|]. intros j. case_if; [|done]. rewrite bump_get. bfalse (2 <=? j). by destruct (f.[j]).
  - intros i g Hi [Hl Hget]. destruct (zget_ex g i) as [d Hd0]; [rewrite Hl; lia|]. rewrite Hd0, some_bind.
    pose proof (Hget i) as Hgi. rewrite Hd0 in Hgi. bfalse (i <? i).
    rewrite (proj2 (Z.ltb_ge i i)) in Hgi by lia.
    assert (forall j, j <> i -> g.[j] = if j <? i + 1 then (bump inode amt f).[j] else f.[j]) as Hother.
    { intros j Hj. rewrite Hget. destruct (Z.ltb_spec j i), (Z.ltb_spec j (i + 1)); done || lia. }
    assert ((bump inode amt f).[i] = Some (if inode_ptr d =? inode then add_position amt d else d)) as Hb.
    { rewrite bump_get, <- Hgi. btrue (2 <=? i). done. }
    destruct (inode_ptr d =? inode) eqn:Ed.
    + destruct (g.[i <- add_position amt d]) as [g'|] eqn:Eg; [|by rewrite zset_in in Eg by lia].
      exists g'. split; [done|]. split; [by rewrite (zset_length _ _ _ _ Eg)|].
      intros j. rewrite (zget_zset _ _ _ _ _ Eg). destruct (Z.eqb_spec j i) as [->|Hj]; [|auto].
      btrue (i <? i + 1). by rewrite Hb.
    + exists g. split; [done|]. split; [done|]. intros j. destruct (Z.eq_dec j i) as [->|Hj]; [|auto].
      btrue (i <? i + 1). by rewrite Hb.
  - rewrite E, some_bind. assert (g = bump inode amt f) as ->.
    { apply zget_ext; [by rewrite length_bump|]. intros j. rewrite Hget. destruct (Z.ltb_spec j (2 + Z.of_nat 6)); [done|].
      rewrite bump_get. unfold zget. case_if; [|done]. rewrite lookup_ge_None_2 by lia. done. }
    destruct (put_desc_only k f (bump inode amt f) Hd) as (p' & E' & Ho); [by rewrite length_bump|].
    exists p'. done.
Qed.

(** ** Reads *)

(** The bytes a read of [count] at [offset] returns. *)
Definition slice (k : kernel) (p offset count : Z) : list Z :=
  take (Z.to_nat count) (drop (Z.to_nat offset) (file_content (image k) (fsys k) p)).

(** All of the file lies in blocks the image has, and its size is a positive [int]. *)
Record whole (k : kernel) (p : Z) : Prop := {
  wh_length : inode_length (image k) p < 2 ^ 31;
  wh_blocks : forall x, 0 <= x < inode_length (image k) p -> block_ok (image k) (fsys k) p x }.

(** At or behind the end of a file nothing is read, wherever that is. *)
Lemma read_data_whole k p offset buf count :
  bytes (image k) -> 1 <= NUM_DATA_BLOCKS (image k) (fsys k) -> whole k p -> 0 <= offset < 2 ^ 32 -> 0 <= count < 2 ^ 31 ->
  buf <> 0 -> p <> 0 -> read_data (image k) (fsys k) p offset buf count = result_of (slice k p offset count).
Proof.
  intros Hm Hb [Hl Hok] Ho Hc Hbuf Hp. destruct (Z.lt_ge_cases offset (2 ^ 31)) as [Hlt|Hge].
  - apply read_data_spec; try done; try lia. intros. apply Hok. lia.
  - assert (slice k p offset count = []) as ->.
    { unfold slice. rewrite drop_ge, take_nil; [done|]. unfold file_content. rewrite length_map, length_seqZ.
      pose proof (load32_range (image k) p Hm). unfold inode_length in *. lia. }
    unfold read_data. bfalse ((buf =? 0) || (p =? 0)). cbn [andb]. destruct (Z.to_nat count); [done|]. cbn [read_loop].
    rewrite Z.add_0_r, u32_small by lia. by btrue (inode_length (image k) p <=? offset).
Qed.

Lemma fs_read_spec k f n p offset count :
  dir_ok (image k) (fsys k) -> file_at (image k) (fsys k) n p -> whole k p -> desc_is (pr k) f ->
  0 <= offset < 2 ^ 32 -> 0 <= count < 2 ^ 31 ->
  let bs := slice k p offset count in
  exists k', fs_read p offset count k = Some (Z.of_nat (length bs), bs, k') /\
    only_fds k k' (bump p (Z.of_nat (length bs)) f).
Proof.
  intros Hdir Hfile Hw Hd Ho Hc bs. unfold fs_read.
  destruct (return_dentry_spec _ _ n p Hdir Hfile) as (i & -> & Hi & Hn).
  destruct (entry_name_cstring _ _ i Hdir Hi) as (cs & Hcs & Hne & Hlook).
  pose proof (do_entries _ _ Hdir) as Hents. pose proof (do_boot _ _ Hdir) as Hboot.
  unfold name_at. rewrite (proj2 (Z.eqb_neq _ 0)) by (apply entry_addr_pos; [done | lia]).
  rewrite (read_dentry_by_name_spec _ _ _ cs) by done. rewrite Hlook, some_bind.
  change (inode_num (load_dentry (image k) (entry_addr (fsys k) i))) with (entry_inode (image k) (fsys k) i). rewrite Hn.
  pose proof (file_at_ptr _ _ n p Hfile) as (Ep & Hp0 & _). rewrite (proj2 (Z.eqb_neq SUCCESS ERROR)) by done.
  rewrite <- Ep, (u32_small offset), (u32_small count) by lia.
  replace (u32 p) with p by (symmetry; apply u32_small; destruct Hfile; unfold INODE_SIZE in *; lia).
  rewrite read_data_whole; [|apply (do_bytes _ _ Hdir) | apply (do_blocks _ _ Hdir) | done..].
  unfold result_of. fold bs.
  destruct (increment_position_spec k f p (Z.of_nat (length bs)) Hd Hp0) as (p' & -> & Hof). rewrite some_bind. eauto.
Qed.

(** An open descriptor on the file of inode [n]. *)
Record open_on (k : kernel) (n : Z) (d : file_descriptor) : Prop := {
  oo_ops : file_op_table_ptr d = Some fs_op;
  oo_use : in_use d = true;
  oo_type : has_type d REGULAR_FILE = true;
  oo_file : file_at (image k) (fsys k) n (inode_ptr d) }.

(** Descriptor [fd] of the current process, [d], is open on the file of inode [n]. *)
Record reader (fd n : Z) (k : kernel) (f : list file_descriptor) (d : file_descriptor) : Prop := {
  rd_dir : dir_ok (image k) (fsys k);
  rd_desc : desc_is (pr k) f;
  rd_fd : 2 <= fd < 8;
  rd_get : f.[fd] = Some d;
  rd_open : open_on k n d;
  rd_whole : whole k (inode_ptr d);
  rd_pos : 0 <= file_position d < 2 ^ 31 }.

Lemma kread_spec ops k f n fd d buf count :
  ops fs_op = fs_ops -> reader fd n k f d -> buf <> 0 -> 0 <= count < 2 ^ 31 ->
  let bs := slice k (inode_ptr d) (file_position d) count in
  exists k', kread ops fd buf count k = Some (Z.of_nat (length bs), bs, k') /\
    only_fds k k' (bump (inode_ptr d) (Z.of_nat (length bs)) f).
Proof.
  intros Hops [Hdir Hd Hfd Hget [Ho Hu Ht Hf] Hw Hpos] Hbuf Hc. unfold kread. pose proof Hd as [Hg Hs].
  rewrite Hg, some_bind. unfold FILE_ARRAY_SIZE. bfalse ((fd <? 0) || (8 <=? fd) || (buf =? 0) || (count <? 0)).
  rewrite Hget, some_bind, Hu, Ht. rewrite andb_false_r. cbn [negb orb andb].
  rewrite Ho, some_bind, Hops. apply (fs_read_spec k f n); done || lia.
Qed.

Lemma length_content m f p : 0 <= inode_length m p -> Z.of_nat (length (file_content m f p)) = inode_length m p.
Proof. intros H. unfold file_content. rewrite length_map, length_seqZ. lia. Qed.

Lemma slice_length k p offset count :
  bytes (image k) -> 0 <= offset -> 0 <= count ->
  Z.of_nat (length (slice k p offset count)) = Z.max 0 (Z.min count (inode_length (image k) p - offset)).
Proof.
  intros Hm Ho Hc. pose proof (load32_range (image k) p Hm) as Hl. unfold slice. rewrite length_take, length_drop.
  pose proof (length_content (image k) (fsys k) p) as H. unfold inode_length in *. lia.
Qed.

(** A read leaves the descriptor open on the same file, further on. *)
Lemma reader_read fd n k k' f d count :
  reader fd n k f d -> 0 <= count ->
  let len := Z.of_nat (length (slice k (inode_ptr d) (file_position d) count)) in
  only_fds k k' (bump (inode_ptr d) len f) ->
  reader fd n k' (bump (inode_ptr d) len f) (add_position len d) /\ file_position (add_position len d) = file_position d + len.
Proof.
  intros [Hdir Hd Hfd Hget [Ho Hu Ht Hf] [Hw1 Hw2] Hpos] Hc len (Hd' & _ & Hfs & Him & _).
  assert (file_position (add_position len d) = file_position d + len) as Hpos'.
  { unfold add_position, len. cbn [file_position]. rewrite slice_length by (lia || apply (do_bytes _ _ Hdir)).
    apply u32_small. lia. }
  split; [|done]. split; rewrite ?Him, ?Hfs; try done.
  - rewrite bump_get, Hget. cbn [fmap option_fmap option_map]. btrue (2 <=? fd). by rewrite Z.eqb_refl.
  - split; rewrite ?Him, ?Hfs; done.
  - split; cbn [inode_ptr add_position]; rewrite ?Him, ?Hfs; done.
  - rewrite Hpos'. unfold len. rewrite slice_length by (lia || apply (do_bytes _ _ Hdir)). lia.
Qed.

(** ** Whole files *)

(** [while ((cnt = read(fd, buf, count)) != 0)], gathering what was read. *)
Fixpoint read_to_end (ops : op_table -> file_ops) (fuel : nat) (fd buf count : Z) (k : kernel) : option (list Z * kernel) :=
  match fuel with
  | O => None
  | S fuel' =>
      '(ret, bs, k) ← kread ops fd buf count k;
      if ret =? 0 then Some ([], k)
      else '(rest, k) ← read_to_end ops fuel' fd buf count k; Some (bs ++ rest, k)
  end.

Lemma slice_drop k p offset count :
  0 <= offset -> slice k p offset count ++ drop (Z.to_nat (offset + Z.of_nat (length (slice k p offset count)))) (file_content (image k) (fsys k) p)
    = drop (Z.to_nat offset) (file_content (image k) (fsys k) p).
Proof.
  intros Ho. unfold slice. set (l := file_content _ _ p). set (t := drop (Z.to_nat offset) l).
  replace (Z.to_nat (offset + Z.of_nat (length (take (Z.to_nat count) t)))) with (Z.to_nat offset + length (take (Z.to_nat count) t))%nat by lia.
  rewrite <- drop_drop. fold t. rewrite length_take. destruct (Nat.le_ge_cases (Z.to_nat count) (length t)).
  - rewrite Nat.min_l by done. apply take_drop.
  - rewrite Nat.min_r, take_ge, drop_all by done. apply app_nil_r.
Qed.

Lemma only_fds_trans k1 k2 k3 f2 f3 : only_fds k1 k2 f2 -> only_fds k2 k3 f3 -> only_fds k1 k3 f3.
Proof.
  unfold only_fds. intros (? & ? & ? & ? & ? & ? & ? & ? & ? & ? & ? & ? & ? & ? & Hd & Hp) (? & ? & ? & ? & ? & ? & ? & ? & ? & ? & ? & ? & ? & ? & Hd' & Hp').
  split_and!; try (congruence || done). intros i. rewrite Hp', Hp, Hd.
  destruct (decide (desc (pr k1) = Some i)); [|done]. by destruct ((pcbs (pr k1)).[i]).
Qed.

Lemma only_fds_refl k f : desc_is (pr k) f -> only_fds k k f.
Proof.
  intros Hd. unfold only_fds. split_and!; try done. intros i. destruct (decide _) as [E|]; [|done].
  destruct Hd as [Hg _]. unfold get_desc in Hg. rewrite E, some_bind in Hg. destruct ((pcbs (pr k)).[i]) as [b|]; [|done].
  injection Hg as <-. by destruct b.
Qed.

Lemma read_to_end_spec ops n fd buf count fuel k f d :
  ops fs_op = fs_ops -> reader fd n k f d -> buf <> 0 -> 0 < count < 2 ^ 31 ->
  Z.max 0 (inode_length (image k) (inode_ptr d) - file_position d) < Z.of_nat fuel ->
  exists k' f', read_to_end ops fuel fd buf count k =
    Some (drop (Z.to_nat (file_position d)) (file_content (image k) (fsys k) (inode_ptr d)), k') /\ only_fds k k' f'.
Proof.
  intros Hops. revert k f d. induction fuel as [|fuel IH]; intros k f d Hr Hbuf Hc Hfuel; [lia|]. cbn [read_to_end].
  destruct (kread_spec ops k f n fd d buf count Hops Hr Hbuf) as (k1 & -> & Ho1); [lia|]. rewrite some_bind.
  destruct (reader_read fd n k k1 f d count Hr) as (Hr1 & Hpos1); [lia | done|].
  pose proof (slice_drop k (inode_ptr d) (file_position d) count) as Hsplit.
  pose proof (slice_length k (inode_ptr d) (file_position d) count) as Hlen.
  destruct Hr as [Hdir Hd Hfd Hget _ _ Hpos]. pose proof Ho1 as (_ & _ & Hfs & Him & _).
  set (bs := slice _ _ _ _) in *. specialize (Hlen (do_bytes _ _ Hdir)). destruct (Z.eqb_spec (Z.of_nat (length bs)) 0) as [E0|E0].
  - eexists k1, _. split; [|exact Ho1]. destruct bs; [|cbn in E0; lia]. rewrite <- Hsplit by lia.
    cbn [length]. rewrite drop_ge; [done|].
    pose proof (length_content (image k) (fsys k) (inode_ptr d)). pose proof (load32_range (image k) (inode_ptr d) (do_bytes _ _ Hdir)).
    unfold inode_length in *. lia.
  - destruct (IH k1 _ _ Hr1 Hbuf Hc) as (k2 & f2 & E2 & Ho2).
    { rewrite Him, Hpos1. cbn [inode_ptr add_position]. lia. }
    rewrite E2, some_bind, Him, Hfs, Hpos1. cbn [inode_ptr add_position]. rewrite Hsplit by lia.
    exists k2, f2. split; [done|]. eapply only_fds_trans; done.
Qed.

(** ** A descriptor on the file of the small image *)

Definition demo_open : kernel := set_pr
  (Procs (map (fun p => with_files (<[2%nat := demo_fd]> (<[3%nat := demo_fd]> demo_files)) (demo_pcb p)) (seqZ 0 6)) (Some 0) (Some 0)
     [1; 1; 1; 0; 0; 0] [Some 0; Some 1; Some 2] 0 zero_paging (fun _ => 0)) demo_kernel.
Definition demo_open_files : list file_descriptor := <[2%nat := demo_fd]> (<[3%nat := demo_fd]> demo_files).

Lemma demo_empty_names j : 2 <= j < 63 -> entry_name demo_mem demo_fs j = [].
Proof.
  intros Hj. unfold entry_name, load_bytes. rewrite (seqZ_cons 0) by done. cbn [map name_of].
  assert (demo_mem (u32 (entry_addr demo_fs j + 0)) = 0) as ->; [|done].
  assert (entry_addr demo_fs j = demo_base + 64 + 64 * j) as ->.
  { change (entry_addr demo_fs j) with (u32 (demo_base + 64 + 64 * j)). apply u32_small. unfold demo_base. lia. }
  rewrite u32_small by (unfold demo_base; lia). unfold demo_mem. repeat case_if; try lia; bsplit; lia.
Qed.

Lemma demo_dir_ok : dir_ok demo_mem demo_fs.
Proof.
  assert (forall i, 0 <= i < NUM_DIR_ENTRIES demo_mem demo_fs -> i = 0 \/ i = 1) as Hi.
  { change (NUM_DIR_ENTRIES demo_mem demo_fs) with 2. lia. }
  split.
  - apply demo_bytes.
  - apply demo_boot_ok.
  - change (NUM_DIR_ENTRIES demo_mem demo_fs) with 2. lia.
  - vm_compute. discriminate.
  - intros i [-> | ->]%Hi; vm_compute; reflexivity.
  - intros i [-> | ->]%Hi; vm_compute; discriminate.
  - intros i j Hr Hj E. destruct (Z.lt_ge_cases j 2) as [H|H].
    + assert (j = 0 \/ j = 1) as [-> | ->] by lia; destruct (Hi i Hr) as [-> | ->]; try reflexivity; vm_compute in E; discriminate.
    + rewrite (demo_empty_names j) in E by lia. destruct (Hi i Hr) as [-> | ->]; vm_compute in E; discriminate.
Qed.

Lemma demo_file_at : file_at demo_mem demo_fs 0 demo_inode.
Proof.
  split; [reflexivity | lia | vm_compute; reflexivity | vm_compute; reflexivity|].
  exists 1. split; [vm_compute; split; [discriminate | reflexivity] | vm_compute; reflexivity].
Qed.

Lemma demo_whole k : image k = demo_mem -> fsys k = demo_fs -> whole k demo_inode.
Proof.
  intros Hm Hf. assert (inode_length demo_mem demo_inode = 4098) as E by (vm_compute; reflexivity).
  split; rewrite Hm, ?Hf, E; [lia|]. intros x Hx. apply demo_blocks_ok. lia.
Qed.

Lemma demo_reader : reader 2 0 demo_open demo_open_files demo_fd.
Proof.
  split; [apply demo_dir_ok | split; reflexivity | lia | reflexivity | | by apply demo_whole | cbn; lia].
  split; [reflexivity.. | apply demo_file_at].
Qed.

(** ** Properties *)

(** [kread] on a descriptor that is open on a regular file stores the next bytes of
    that file, as many as were asked for or are left, returns their number, and moves
    the position of the descriptors 2 to 7 that are on the same inode by it; nothing
    else changes. *)
Theorem kread_regular ops k f n fd d buf count :
  ops fs_op = fs_ops -> reader fd n k f d -> buf <> 0 -> 0 <= count < 2 ^ 31 ->
  let bs := take (Z.to_nat count) (drop (Z.to_nat (file_position d)) (file_content (image k) (fsys k) (inode_ptr d))) in
  exists k', kread ops fd buf count k = Some (Z.of_nat (length bs), bs, k') /\
    only_fds k k' (bump (inode_ptr d) (Z.of_nat (length bs)) f).
Proof. apply kread_spec. Qed.

Lemma kread_regular_witness :
  let bs := take (Z.to_nat 1024) (drop (Z.to_nat 0) (file_content demo_mem demo_fs demo_inode)) in
  exists k', kread demo_ops 2 1 1024 demo_open = Some (Z.of_nat (length bs), bs, k').
Proof.
  destruct (kread_regular demo_ops demo_open demo_open_files 0 2 demo_fd 1 1024) as (k' & E & _);
    [reflexivity | apply demo_reader | lia | lia|].
  exists k'. exact E.
Defined.

(** Two descriptors on one file share its position: a read through one of them also
    moves the other, which was not read from. *)
Theorem positions_shared ops k f n fd d fd' d' buf count :
  ops fs_op = fs_ops -> reader fd n k f d -> buf <> 0 -> 0 < count < 2 ^ 31 ->
  file_position d < inode_length (image k) (inode_ptr d) ->
  2 <= fd' < 8 -> fd' <> fd -> f.[fd'] = Some d' -> inode_ptr d' = inode_ptr d -> 0 <= file_position d' < 2 ^ 31 ->
  exists len bs k' f' d'', kread ops fd buf count k = Some (len, bs, k') /\ 0 < len <= count /\
    get_desc (pr k') = Some f' /\ f'.[fd'] = Some d'' /\ file_position d'' = file_position d' + len.
Proof.
  intros Hops Hr Hbuf Hc Hlt Hfd Hne Hget Hsame Hpos.
  destruct (kread_spec ops k f n fd d buf count Hops Hr Hbuf) as (k' & E & [Hd' _] & _); [lia|].
  pose proof (slice_length k (inode_ptr d) (file_position d) count (do_bytes _ _ (rd_dir _ _ _ _ _ Hr))) as Hlen.
  pose proof (rd_pos _ _ _ _ _ Hr). set (bs := slice _ _ _ _) in *.
  eexists _, bs, k', _, (add_position (Z.of_nat (length bs)) d'). split; [exact E|]. split; [lia|]. split; [exact Hd'|].
  rewrite bump_get, Hget. cbn [fmap option_fmap option_map]. btrue (2 <=? fd'). rewrite Hsame, Z.eqb_refl. split; [done|].
  cbn [add_position file_position]. apply u32_small. lia.
Qed.

Lemma positions_shared_witness :
  exists len bs k' f' d'', kread demo_ops 2 1 10 demo_open = Some (len, bs, k') /\ 0 < len <= 10 /\
    get_desc (pr k') = Some f' /\ f'.[3] = Some d'' /\ file_position d'' = 0 + len.
Proof.
  apply (positions_shared demo_ops demo_open demo_open_files 0 2 demo_fd 3 demo_fd 1 10);
    [reflexivity | apply demo_reader | lia | lia | vm_compute; reflexivity | lia | lia | reflexivity | reflexivity | cbn; lia].
Defined.

(** C17: opening a regular file by its name and reading it in pieces of any size until a
    read returns 0 gives the file, byte for byte; the reads end after at most one more
    call than the file has bytes. *)
Theorem open_read_all ops k f fname cs fd j buf count :
  QuietOps ops -> ops fs_op = fs_ops -> initialized (clock k) <> 0 -> desc_is (pr k) f -> dir_ok (image k) (fsys k) -> cstring fname cs -> cs <> [] ->
  lowest_free f = Some fd -> lookup_name (image k) (fsys k) cs = Some j ->
  entry_type (image k) (fsys k) j = REGULAR_FILE ->
  let n := entry_inode (image k) (fsys k) j in
  let p := get_inode_ptr (fsys k) n in
  file_at (image k) (fsys k) n p -> whole k p -> buf <> 0 -> 0 < count < 2 ^ 31 ->
  exists k1 k2, kopen ops (Some fname) k = Some (fd, k1) /\
    read_to_end ops (S (Z.to_nat (inode_length (image k) p))) fd buf count k1 = Some (file_content (image k) (fsys k) p, k2).
Proof.
  intros Hq Hops Hck Hd Hdir Hcs Hne Hfree Hlook Hty n p Hfile Hw Hbuf Hc.
  pose proof (kopen_spec ops k f fname cs Hq Hck Hd (do_boot _ _ Hdir) Hcs Hne) as Hopen. rewrite Hfree, Hlook in Hopen.
  assert (s32 n = n) as Hs32 by (apply s32_small; destruct Hfile; unfold INODE_SIZE in *; lia).
  unfold new_fd in Hopen. change (file_type (load_dentry _ _)) with (entry_type (image k) (fsys k) j) in Hopen.
  change (inode_num (load_dentry _ _)) with n in Hopen. rewrite Hty, Hs32 in Hopen. fold p in Hopen.
  cbn [REGULAR_FILE RTC DIRECTORY Z.eqb Pos.eqb] in Hopen. destruct Hopen as (f1 & k1 & E1 & Ef1 & Ho1).
  apply lowest_free_range in Hfree as [Hfd _]. pose proof Ho1 as (Hd1 & _ & Hfs & Him & _).
  set (d := FileDescriptor _ _ _ _) in Ef1.
  assert (reader fd n k1 f1 d) as Hr.
  { split; rewrite ?Him, ?Hfs; try done.
    - by rewrite (zget_zset _ _ _ _ _ Ef1), Z.eqb_refl.
    - split; rewrite ?Him, ?Hfs; done.
    - destruct Hw as [H1 H2]. split; rewrite ?Him, ?Hfs; done. }
  pose proof (load32_range (image k) p (do_bytes _ _ Hdir)) as Hl. fold (inode_length (image k) p) in Hl.
  destruct (read_to_end_spec ops n fd buf count (S (Z.to_nat (inode_length (image k) p))) k1 f1 d Hops Hr Hbuf Hc) as (k2 & f2 & E2 & _).
  { rewrite Him. cbn [inode_ptr file_position d]. lia. }
  rewrite Him, Hfs in E2. cbn [inode_ptr file_position d] in E2. rewrite drop_0 in E2. eauto.
Qed.

Lemma open_read_all_witness :
  exists k1 k2, kopen demo_ops (Some [97; 0]) demo_kernel = Some (2, k1) /\
    read_to_end demo_ops 4099 2 1 1024 k1 = Some (file_content demo_mem demo_fs demo_inode, k2).
Proof.
  apply (open_read_all demo_ops demo_kernel demo_files [97; 0] [97] 2 1 1 1024 demo_ops_quiet eq_refl demo_clock demo_desc demo_dir_ok demo_name);
    [discriminate | apply demo_free | apply demo_lookup | vm_compute; reflexivity | apply demo_file_at | by apply demo_whole | lia | lia].
Defined.

(** C19: a descriptor that is out of range or not in use is refused by [kread], [kwrite] and
    [kclose] with -1 and no change; so are a read from the standard output, a write to
    the standard input, a null buffer, a negative count, and closing 0 or 1. *)
Theorem bad_calls_rejected ops k f fd buf bs count :
  desc_is (pr k) f ->
  (fd < 0 \/ 8 <= fd \/ free_slot f fd = true ->
     kread ops fd buf count k = Some (ERROR, [], k) /\ kwrite ops fd (Some bs) count k = Some (ERROR, k) /\ kclose ops fd k = Some (ERROR, k)) /\
  (buf = 0 \/ count < 0 -> kread ops fd buf count k = Some (ERROR, [], k)) /\
  (count < 0 -> kwrite ops fd (Some bs) count k = Some (ERROR, k)) /\ kwrite ops fd None count k = Some (ERROR, k) /\
  (fd < 2 -> kclose ops fd k = Some (ERROR, k)) /\
  (forall d, f.[fd] = Some d -> has_type d STDOUT = true -> kread ops fd buf count k = Some (ERROR, [], k)) /\
  (forall d, f.[fd] = Some d -> has_type d STDIN = true -> kwrite ops fd (Some bs) count k = Some (ERROR, k)).
Proof.
  intros Hd. pose proof Hd as [Hg Hs]. unfold kread, kwrite, kclose, FILE_ARRAY_SIZE, FD_START. rewrite Hg, !some_bind.
  split_and!.
  - intros H. unfold free_slot in H. destruct (f.[fd]) as [d|] eqn:E.
    + pose proof (zget_Some_range _ _ _ E). rewrite !some_bind. assert (in_use d = false) as ->.
      { destruct (in_use d); [|done]. destruct H as [H|[H|H]]; [lia | lia | done]. }
      cbn [negb orb]. split_and!; case_if; done.
    + assert (fd < 0 \/ 8 <= fd) as Hr by (destruct H as [H|[H|H]]; [auto | auto | done]).
      split_and!; case_if; try done; bsplit; lia.
  - intros H. case_if; [done|]. bsplit. lia.
  - intros H. case_if; [done|]. bsplit. lia.
  - done.
  - intros H. case_if; [done|]. bsplit. lia.
  - intros d -> H. case_if; [done|]. rewrite some_bind. unfold has_type in *. apply Z.eqb_eq in H. rewrite H.
    destruct (in_use d); done.
  - intros d -> H. case_if; [done|]. rewrite some_bind. unfold has_type in *. apply Z.eqb_eq in H. rewrite H.
    destruct (in_use d); done.
Qed.

Lemma bad_calls_rejected_witness : kread demo_ops 5 1 10 demo_kernel = Some (ERROR, [], demo_kernel).
Proof.
  destruct (bad_calls_rejected demo_ops demo_kernel demo_files 5 1 [] 10 demo_desc) as [H _].
  apply H. right. right. reflexivity.
Defined.
