(* ===== verification/Lifecycle.v ===== *)
(** * The life of a process

    From the command line of [kexecute] to [khalt]: what is parsed, which files are
    programs, where the program, the control block and the kernel stack of a process
    are, and what the parent gets back. *)

From stdpp Require Import base list option sets.
From Stdlib Require Import ZArith Lia ZifyBool.
From S2P Require Import Prelude MemOps Lib Rtc Terminal FileSystem Paging Process Schedule FileArray Reading.

(** ** Parsing *)

(** The characters of a command name, of an argument string, and what ends them. *)
Definition word_char (c : Z) : Prop := c <> 32 /\ c <> 0 /\ c <> 10.
Definition arg_char (c : Z) : Prop := c <> 0 /\ c <> 10.
Definition no_space_first (a : list Z) : Prop := match a with c :: _ => c <> 32 | [] => True end.

Lemma command_end_spec pre w c rest n :
  Forall word_char w -> c = 32 \/ c = 0 \/ c = 10 -> (length w < n)%nat ->
  command_end n (Z.of_nat (length pre)) (pre ++ w ++ c :: rest) =
  Some (Z.of_nat (length pre + length w), c =? 10).
Proof.
  revert pre n. induction w as [|x w IH]; intros pre [|n] Hw Hc Hn; cbn [length] in Hn; try lia; cbn [command_end].
  - cbn [app length]. rewrite zget_app_r by lia. rewrite Z.sub_diag, Nat.add_0_r.
    change ((c :: rest).[0]) with (Some c). rewrite some_bind.
    destruct Hc as [-> | [-> | ->]]; done.
  - inversion Hw as [|? ? (H1 & H2 & H3) Hw']. subst. cbn [app]. rewrite zget_app_r, Z.sub_diag by lia.
    change ((x :: w ++ c :: rest).[0]) with (Some x). rewrite some_bind.
    bfalse (x =? 32). bfalse (x =? 0). bfalse (x =? 10).
    replace (pre ++ x :: w ++ c :: rest) with ((pre ++ [x]) ++ w ++ c :: rest) by (rewrite <- app_assoc; done).
    replace (Z.of_nat (length pre) + 1) with (Z.of_nat (length (pre ++ [x]))) by (rewrite length_app; cbn [length]; lia).
    rewrite IH by (done || lia). rewrite length_app. cbn [length]. do 2 f_equal. lia.
Qed.

Lemma strncpy_from_spec w c rest pre post :
  Forall (fun x => x <> 0) w -> (length w <= length post)%nat ->
  strncpy_from (pre ++ post) (w ++ c :: rest) (Z.of_nat (length pre)) (Z.of_nat (length pre + length w)) =
  Some (pre ++ w ++ drop (length w) post).
Proof.
  revert pre post. induction w as [|x w IH]; intros pre post Hw Hl; cbn [app strncpy_from length].
  - rewrite Nat.add_0_r, drop_0, Z.ltb_irrefl, andb_false_r. unfold strncpy_pad. rewrite Z.sub_diag. done.
  - inversion Hw; subst. bfalse (x =? 0). btrue (Z.of_nat (length pre) <? Z.of_nat (length pre + S (length w))).
    cbn [negb andb]. destruct post as [|y post]; cbn [length] in Hl; [lia|].
    rewrite (zset_app_mid pre post _ y x) by done. rewrite some_bind.
    replace (pre ++ x :: post) with ((pre ++ [x]) ++ post) by (rewrite <- app_assoc; done).
    replace (Z.of_nat (length pre) + 1) with (Z.of_nat (length (pre ++ [x]))) by (rewrite length_app; cbn [length]; lia).
    replace (length pre + S (length w))%nat with (length (pre ++ [x]) + length w)%nat by (rewrite length_app; cbn [length]; lia).
    rewrite IH by (done || lia). cbn [drop]. rewrite <- app_assoc. done.
Qed.

Lemma skip_spaces_spec pre n c rest fuel :
  c <> 32 -> (n < fuel)%nat ->
  skip_spaces fuel (Z.of_nat (length pre)) (pre ++ replicate n 32 ++ c :: rest) = Some (Z.of_nat (length pre + n)).
Proof.
  intros Hc. revert pre fuel. induction n as [|n IH]; intros pre [|fuel] Hf; try lia; cbn [skip_spaces replicate app].
  - rewrite zget_app_r, Z.sub_diag by lia. change ((c :: rest).[0]) with (Some c). rewrite some_bind.
    bfalse (c =? 32). by rewrite Nat.add_0_r.
  - rewrite zget_app_r, Z.sub_diag by lia. change ((32 :: _).[0]) with (Some 32). rewrite some_bind. cbn [Z.eqb Pos.eqb].
    replace (pre ++ 32 :: replicate n 32 ++ c :: rest) with ((pre ++ [32]) ++ replicate n 32 ++ c :: rest) by (rewrite <- app_assoc; done).
    replace (Z.of_nat (length pre) + 1) with (Z.of_nat (length (pre ++ [32]))) by (rewrite length_app; cbn [length]; lia).
    rewrite IH by lia. rewrite length_app. cbn [length]. do 2 f_equal. lia.
Qed.

Lemma copy_args_spec pre a t rest done_ post n :
  Forall arg_char a -> t = 0 \/ t = 10 -> (length a < n)%nat -> (length a < length post)%nat ->
  copy_args n (Z.of_nat (length pre)) (Z.of_nat (length done_)) (pre ++ done_ ++ a ++ t :: rest) (done_ ++ post) =
  Some (done_ ++ a ++ 0 :: drop (S (length a)) post).
Proof.
  revert done_ post n. induction a as [|x a IH]; intros dn post [|n] Ha Ht Hn Hp; cbn [length] in *; try lia; cbn [copy_args].
  - cbn [app]. rewrite (app_assoc pre dn), zget_app_r by (rewrite length_app; lia).
    rewrite length_app, Nat2Z.inj_add, Z.sub_diag. change ((t :: rest).[0]) with (Some t). rewrite some_bind.
    btrue ((t =? 0) || (t =? 10)). destruct post as [|y post]; cbn [length] in Hp; [lia|].
    by rewrite (zset_app_mid dn post _ y 0).
  - inversion Ha as [|? ? [H1 H2] Ha']. subst. cbn [app]. rewrite (app_assoc pre dn), zget_app_r by (rewrite length_app; lia).
    rewrite length_app, Nat2Z.inj_add, Z.sub_diag. change ((x :: a ++ t :: rest).[0]) with (Some x). rewrite some_bind.
    bfalse ((x =? 0) || (x =? 10)). destruct post as [|y post]; cbn [length] in Hp; [lia|].
    rewrite (zset_app_mid dn post _ y x) by done. rewrite some_bind.
    replace (dn ++ x :: post) with ((dn ++ [x]) ++ post) by (rewrite <- app_assoc; done).
    replace ((pre ++ dn) ++ x :: a ++ t :: rest) with (pre ++ (dn ++ [x]) ++ a ++ t :: rest) by (rewrite <- !app_assoc; done).
    replace (Z.of_nat (length dn) + 1) with (Z.of_nat (length (dn ++ [x]))) by (rewrite length_app; cbn [length]; lia).
    rewrite IH by (done || lia). cbn [drop]. rewrite <- app_assoc. done.
Qed.

Lemma word_chars_nonzero w : Forall word_char w -> Forall (fun x => x <> 0) w.
Proof. intros H. apply (Forall_impl _ _ _ H). intros x (_ & Hx & _). exact Hx. Qed.

Lemma parse_command_spec jk w c rest :
  Forall word_char w -> c = 32 \/ c = 0 \/ c = 10 -> (length w < 128)%nat -> (length w < length (cmd_junk jk))%nat ->
  parse_command jk (w ++ c :: rest) = Some (w ++ [0], Z.of_nat (length w), c =? 10).
Proof.
  intros Hw Hc Hl Hj. unfold parse_command, CMD_LENGTH.
  pose proof (command_end_spec [] w c rest (Z.to_nat 128) Hw Hc ltac:(lia)) as E. cbn [app length Nat.add] in E. change (Z.of_nat 0) with 0 in E. rewrite E, some_bind.
  unfold strncpy. pose proof (strncpy_from_spec w c rest [] (take (Z.to_nat (Z.of_nat (length w) + 1)) (cmd_junk jk))
    (word_chars_nonzero w Hw)) as E2. cbn [app length Nat.add] in E2. change (Z.of_nat 0) with 0 in E2. rewrite length_take in E2. rewrite E2 by lia. rewrite some_bind.
  assert (exists x, drop (length w) (take (Z.to_nat (Z.of_nat (length w) + 1)) (cmd_junk jk)) = [x]) as [x ->].
  { destruct (drop _ _) as [|x [|y l]] eqn:Ed; apply (f_equal (@length Z)) in Ed; rewrite length_drop, length_take in Ed; cbn [length] in Ed; try lia.
    by exists x. }
  rewrite (zset_app_mid w [] _ x 0) by done. done.
Qed.

Lemma parse_args_spec jk w n a t rest nl :
  Forall arg_char a -> no_space_first a -> t = 0 \/ t = 10 -> a <> [] \/ t = 10 \/ (nl = false /\ no_args_junk jk = 0) ->
  (length w + n + length a < 128)%nat -> (128 <= length (args_junk jk))%nat ->
  exists junk', parse_args jk (Z.of_nat (length w)) nl (w ++ replicate n 32 ++ a ++ t :: rest) = Some (a ++ 0 :: junk').
Proof.
  intros Ha Hs Ht Hsome Hl Hj. unfold parse_args.
  assert (exists c r, a ++ t :: rest = c :: r /\ c <> 32 /\ (c = 0 -> a = [] /\ t = 0)) as (c & r & Ec & Hc32 & Hc0).
  { destruct a as [|x a]; [exists t, rest; split_and!; [done | lia | by intros ->] | exists x, (a ++ t :: rest)].
    inversion Ha as [|? ? [? ?]]. split_and!; [done | exact Hs | intros; lia]. }
  rewrite Ec. rewrite skip_spaces_spec; [|done | rewrite !length_app, length_replicate; lia]. rewrite some_bind.
  rewrite (app_assoc w), zget_app_r by (rewrite length_app, length_replicate; lia).
  rewrite length_app, length_replicate, Z.sub_diag. change ((c :: r).[0]) with (Some c). rewrite some_bind.
  unfold CMD_LENGTH. bfalse (128 - Z.of_nat (length w + n) <? 0).
  assert ((if negb (c =? 0) then CLEAR else if nl then ON else no_args_junk jk) = CLEAR) as ->.
  { destruct (Z.eqb_spec c 0) as [->|Hne]; [|done]. cbn [negb]. destruct (Hc0 eq_refl) as [-> ->].
    destruct Hsome as [H|[H|[-> H]]]; done. }
  cbn [Z.eqb CLEAR]. rewrite <- Ec.
  pose proof (copy_args_spec (w ++ replicate n 32) a t rest [] (take (Z.to_nat (128 - Z.of_nat (length w + n))) (args_junk jk))
    (Z.to_nat (128 - Z.of_nat (length w + n))) Ha Ht) as E. cbn [app length] in E. change (Z.of_nat 0) with 0 in E.
  rewrite length_app, length_replicate, length_take in E.
  rewrite E by lia. eauto.
Qed.

(** ** Programs *)

(** The first bytes of the file of an inode. *)
Definition is_elf (k : kernel) (p : Z) : bool := bool_decide (take 4 (file_content (image k) (fsys k) p) = ELF).

Lemma strncmp_elf jk l :
  (4 <= length l)%nat -> exists r, strncmp (l ++ jk) ELF 4 = Some r /\ (r = 0 <-> take 4 l = ELF).
Proof.
  intros Hl. destruct l as [|a [|b [|c [|d l]]]]; cbn [length] in Hl; try lia.
  unfold strncmp. change (Z.to_nat 4) with 4%nat. cbn [strncmp_from app take].
  change ((a :: b :: c :: d :: l ++ jk).[0]) with (Some a). change (ELF.[0]) with (Some 127). rewrite !some_bind.
  destruct (Z.eqb_spec a 127) as [->|Ha]; cbn [negb orb Z.eqb].
  2:{ eexists. split; [done|]. unfold ELF, DEL. split; [lia | congruence]. }
  change ((127 :: b :: c :: d :: l ++ jk).[0 + 1]) with (Some b). change (ELF.[0 + 1]) with (Some 69). rewrite !some_bind.
  destruct (Z.eqb_spec b 69) as [->|Hb]; cbn [negb orb Z.eqb].
  2:{ eexists. split; [done|]. unfold ELF, DEL. split; [lia | congruence]. }
  change ((127 :: 69 :: c :: d :: l ++ jk).[0 + 1 + 1]) with (Some c). change (ELF.[0 + 1 + 1]) with (Some 76). rewrite !some_bind.
  destruct (Z.eqb_spec c 76) as [->|Hc]; cbn [negb orb Z.eqb].
  2:{ eexists. split; [done|]. unfold ELF, DEL. split; [lia | congruence]. }
  change ((127 :: 69 :: 76 :: d :: l ++ jk).[0 + 1 + 1 + 1]) with (Some d). change (ELF.[0 + 1 + 1 + 1]) with (Some 70). rewrite !some_bind.
  destruct (Z.eqb_spec d 70) as [->|Hd]; cbn [negb orb Z.eqb]; (eexists; split; [done|]); unfold ELF, DEL; [done|].
  split; [lia | congruence].
Qed.

Lemma name_of_short bs : (length (name_of bs) < length bs)%nat -> 0 ∈ bs.
Proof.
  induction bs as [|b bs IH]; cbn [name_of length]; [lia|]. destruct (Z.eqb_spec b 0) as [->|Hne]; [by left|].
  cbn [length]. intros H. right. apply IH. lia.
Qed.

Lemma name_of_length bs : (length (name_of bs) <= length bs)%nat.
Proof. induction bs as [|b bs IH]; cbn [name_of length]; [lia|]. case_if; cbn [length]; lia. Qed.

(** A file of the directory that [kexecute] may be asked for: entry [j], whose name is
    shorter than the field, with inode pointer [p]. *)
Record program_file (k : kernel) (j p : Z) : Prop := {
  pf_dir : dir_ok (image k) (fsys k);
  pf_entry : 0 <= j < NUM_DIR_ENTRIES (image k) (fsys k);
  pf_name : (length (entry_name (image k) (fsys k) j) < 32)%nat;
  pf_file : file_at (image k) (fsys k) (entry_inode (image k) (fsys k) j) p;
  pf_whole : whole k p }.

Lemma lookup_own_name k j p : program_file k j p ->
  lookup_name (image k) (fsys k) (entry_name (image k) (fsys k) j) = Some j.
Proof.
  intros [Hd Hj Hn _ _]. unfold lookup_name. rewrite take_ge by lia.
  pose proof (find_seqZ (fun i => bool_decide (entry_name (image k) (fsys k) i = entry_name (image k) (fsys k) j)) 0 63) as H.
  pose proof (do_entries _ _ Hd) as He. destruct (find _ _) as [i|].
  - destruct H as (Hi & E%bool_decide_eq_true & _). f_equal. symmetry.
    apply (do_distinct _ _ Hd j i Hj); [lia | exact (eq_sym E)].
  - assert (bool_decide (entry_name (image k) (fsys k) j = entry_name (image k) (fsys k) j) = false) as E by (apply H; lia).
    rewrite bool_decide_eq_true_2 in E; [discriminate | reflexivity].
Qed.

(** Reading the start of a program by the name in its own entry. *)
Lemma read_own_file k j p :
  program_file k j p ->
  fs_read_by_name (image k) (fsys k) (Some (file_name (load_dentry (image k) (entry_addr (fsys k) j)))) 0 WORD 1 =
  Some (result_of (take 4 (file_content (image k) (fsys k) p))).
Proof.
  intros Hp. pose proof (lookup_own_name k j p Hp) as Hlook. destruct Hp as [Hd Hj Hn Hf [_ Hok]]. unfold fs_read_by_name.
  assert (cstring (load_bytes (image k) (entry_addr (fsys k) j) 32) (entry_name (image k) (fsys k) j)) as Hcs.
  { apply name_of_cstring, name_of_short. fold (entry_name (image k) (fsys k) j). unfold load_bytes. rewrite length_map, length_seqZ. lia. }
  change (file_name (load_dentry (image k) (entry_addr (fsys k) j))) with (load_bytes (image k) (entry_addr (fsys k) j) 32).
  rewrite (read_dentry_by_name_spec _ _ _ (entry_name (image k) (fsys k) j)); [|apply (do_boot _ _ Hd) | done | by apply (do_named _ _ Hd)].
  rewrite Hlook, some_bind. pose proof (file_at_ptr _ _ _ p Hf) as (Ep & Hp0 & _).
  change (inode_num (load_dentry (image k) (entry_addr (fsys k) j))) with (entry_inode (image k) (fsys k) j).
  rewrite (proj2 (Z.eqb_neq SUCCESS ERROR)) by done. rewrite <- Ep.
  replace (u32 p) with p by (symmetry; apply u32_small; destruct Hf; unfold INODE_SIZE in *; lia).
  change (u32 0) with 0. change (u32 WORD) with 4. f_equal.
  rewrite read_data_spec; [done | apply (do_bytes _ _ Hd) | apply (do_blocks _ _ Hd) | lia | lia | lia | intros; apply Hok; lia].
Qed.

Lemma check_executable_spec k j p jk :
  program_file k j p ->
  check_executable jk (file_name (load_dentry (image k) (entry_addr (fsys k) j))) k =
  Some (if is_elf k p then SUCCESS else ERROR).
Proof.
  intros Hp. unfold check_executable. rewrite (read_own_file k j p Hp), some_bind. unfold result_of, is_elf.
  set (l := take 4 _). pose proof (firstn_le_length 4 (file_content (image k) (fsys k) p)) as Hl. fold l in Hl.
  destruct (Nat.eq_dec (length l) 4) as [E4|E4].
  - rewrite E4. cbn [Z.of_nat Pos.of_succ_nat Pos.succ]. change ((4 =? ERROR) || (4 <? WORD)) with false. cbv iota.
    destruct (strncmp_elf (drop 4 jk) l) as (r & Er & Hr); [lia|]. unfold WORD. rewrite Er, some_bind.
    rewrite (take_ge l 4) in Hr by lia. destruct (Z.eqb_spec r SUCCESS) as [->|Hne]; cbn [negb].
    + by rewrite bool_decide_eq_true_2 by (by apply Hr).
    + rewrite bool_decide_eq_false_2; [done|]. intros H. apply Hne, Hr, H.
  - unfold ERROR, WORD. btrue ((Z.of_nat (length l) =? -1) || (Z.of_nat (length l) <? 4)).
    rewrite bool_decide_eq_false_2; [done|]. intros E. rewrite E in E4. done.
Qed.

(** ** Control blocks *)

Lemma upd_pcb_eq i g b p :
  (pcbs p).[i] = Some b -> upd_pcb i g p = Some (set_pcbs (<[Z.to_nat i := g b]> (pcbs p)) p).
Proof.
  intros H. pose proof (zget_Some_range _ _ _ H). unfold upd_pcb. rewrite H, some_bind, zset_in by lia. done.
Qed.

Lemma clear_fdarray_spec f : length f = 8%nat -> clear_fdarray f = Some (map clear_flags f).
Proof.
  intros H. destruct f as [|d0 [|d1 [|d2 [|d3 [|d4 [|d5 [|d6 [|d7 [|? ?]]]]]]]]]; try done.
Qed.

(** The descriptors of a process that starts: standard input and output, the others free. *)
Definition fresh_files (f : list file_descriptor) : list file_descriptor :=
  FileDescriptor (Some std_ops) 0 CLEAR (Z.lor FD_IN_USE STDIN) ::
  FileDescriptor (Some std_ops) 0 CLEAR (Z.lor FD_IN_USE STDOUT) :: drop 2 (map clear_flags f).

Lemma fresh_files_free f i : 2 <= i < 8 -> length f = 8%nat -> free_slot (fresh_files f) i = true.
Proof.
  intros Hi Hf. destruct f as [|d0 [|d1 [|d2 [|d3 [|d4 [|d5 [|d6 [|d7 [|? ?]]]]]]]]]; try done.
  assert (i = 2 \/ i = 3 \/ i = 4 \/ i = 5 \/ i = 6 \/ i = 7) as H by lia.
  destruct H as [-> | [-> | [-> | [-> | [-> | ->]]]]]; done.
Qed.

Lemma set_current_spec n b p :
  (pcbs p).[n] = Some b -> length (files b) = 8%nat ->
  set_current_process n p = Some (0,
    Procs (<[Z.to_nat n := with_files (map clear_flags (files b)) b]> (pcbs p)) (Some n) (Some n)
      (pid_arr p) (roots p) (kernel_stack b) (pg p) (kmem p)).
Proof.
  intros Hb Hf. pose proof (zget_Some_range _ _ _ Hb) as Hr. unfold set_current_process, get_desc, put_desc.
  cbn [desc set_desc set_curr pcbs]. rewrite !some_bind, Hb, !some_bind, clear_fdarray_spec, !some_bind by done.
  rewrite (upd_pcb_eq n _ b) by done. rewrite !some_bind. cbn [pcbs set_pcbs].
  by rewrite zget_insert, Z.eqb_refl, some_bind by done.
Qed.

Lemma open_std_spec n b p :
  desc p = Some n -> (pcbs p).[n] = Some b -> length (files b) = 8%nat ->
  open_stdin_stdout p = Some (SUCCESS, set_pcbs (<[Z.to_nat n := with_files
    (FileDescriptor (Some std_ops) 0 CLEAR (Z.lor FD_IN_USE STDIN) ::
     FileDescriptor (Some std_ops) 0 CLEAR (Z.lor FD_IN_USE STDOUT) :: drop 2 (files b)) b]> (pcbs p)) p).
Proof.
  intros Hd Hb Hf. unfold open_stdin_stdout, get_desc, put_desc. rewrite Hd, !some_bind, Hb, !some_bind.
  do 2 (rewrite zset_in by (rewrite ?length_insert; lia); rewrite some_bind). rewrite some_bind, (upd_pcb_eq n _ b) by done. rewrite some_bind.
  destruct (files b) as [|d0 [|d1 ds]]; done.
Qed.

(** [set_current_process] and [open_stdin_stdout] on a control block. *)
Lemma enter_process_spec n b p :
  (pcbs p).[n] = Some b -> length (files b) = 8%nat ->
  exists p1, set_current_process n p = Some (0, p1) /\
    open_stdin_stdout p1 = Some (SUCCESS,
      Procs (<[Z.to_nat n := with_files (fresh_files (files b)) b]> (pcbs p)) (Some n) (Some n)
        (pid_arr p) (roots p) (kernel_stack b) (pg p) (kmem p)).
Proof.
  intros Hb Hf. pose proof (zget_Some_range _ _ _ Hb) as Hr. eexists. split; [by apply set_current_spec|].
  erewrite open_std_spec; [|done | cbn [pcbs]; by rewrite zget_insert, Z.eqb_refl by done | cbn [files with_files]; by rewrite length_map].
  unfold set_pcbs. cbn [pcbs curr_process desc pid_arr roots esp0 pg kmem]. by rewrite list_insert_insert_eq.
Qed.

(** The block of a process [n] that [c] starts. *)
Definition child_block (n c eip : Z) (w a : list Z) (term : Z) (b : pcb) : pcb :=
  Pcb n PROGRAM_START (get_kstack_address n) USTACK_START eip (Some c) None (files b)
    (w ++ 0 :: drop (S (length w)) (command b)) (a ++ 0 :: drop (S (length a)) (args b))
    (esp b) (ebp b) (ret_status b) term.

Lemma pcb_init_spec n c eip cmd w abuf a term p b cb :
  curr_process p = Some c -> 2 < n -> c <> n -> (pcbs p).[n] = Some b -> (pcbs p).[c] = Some cb ->
  cstring cmd w -> cstring abuf a -> (length w < length (command b))%nat -> (length a < length (args b))%nat ->
  pcb_init n n eip cmd abuf term p =
  Some (set_pcbs (<[Z.to_nat n := child_block n c eip w a term b]> (<[Z.to_nat c := with_child (Some n) cb]> (pcbs p))) p).
Proof.
  intros Hc Hn Hne Hb Hcb Hcmd Ha Hlw Hla. pose proof (zget_Some_range _ _ _ Hb) as Hr. pose proof (zget_Some_range _ _ _ Hcb) as Hrc.
  unfold pcb_init, NUM_SHELLS, THIRD_TERMINAL. rewrite Hb, some_bind. btrue (3 <=? n). rewrite (upd_pcb_eq n _ b) by done.
  rewrite some_bind. cbn [curr_process set_pcbs]. rewrite Hc. btrue (2 <? n).
  rewrite (upd_pcb_eq c _ cb) by (cbn [pcbs set_pcbs]; rewrite zget_insert by done; by bfalse (c =? n)).
  rewrite some_bind. cbn [pcbs set_pcbs].
  rewrite zget_insert by (rewrite length_insert; lia). bfalse (n =? c). rewrite zget_insert, Z.eqb_refl, some_bind by done.
  cbn [command args]. rewrite (strcpy_spec (command b) cmd w Hcmd), (strcpy_spec (args b) abuf a Ha).
  rewrite (proj2 (Nat.ltb_lt _ _) Hlw), some_bind, (proj2 (Nat.ltb_lt _ _) Hla), some_bind.
  match goal with |- upd_pcb n ?g ?q = _ => erewrite (upd_pcb_eq n g _ q) end.
  2:{ cbn [pcbs set_pcbs]. rewrite zget_insert by (rewrite length_insert; lia). bfalse (n =? c). by rewrite zget_insert, Z.eqb_refl by done. }
  unfold set_pcbs. cbn [pcbs curr_process desc pid_arr roots esp0 pg kmem]. do 2 f_equal.
  rewrite list_insert_insert_ne by lia. rewrite list_insert_insert_eq. apply list_insert_insert_ne. lia.
Qed.

(** ** Loading *)

Lemma store_bytes_get m a bs x :
  0 <= a -> a + Z.of_nat (length bs) <= 2 ^ 32 -> Forall (fun b => 0 <= b < 256) bs ->
  store_bytes m a bs x =
  if (a <=? x) && (x <? a + Z.of_nat (length bs)) then default 0 (bs.[x - a]) else m x.
Proof.
  intros Ha Hw Hb. revert m a Ha Hw. induction Hb as [|b bs Hb0 Hb IH]; intros m a Ha Hw; cbn [store_bytes length] in *.
  - bfalse ((a <=? x) && (x <? a + Z.of_nat 0)). done.
  - rewrite IH by lia. unfold store8. destruct (Z.eqb_spec x a) as [->|Hne].
    + bfalse ((a + 1 <=? a) && (a <? a + 1 + Z.of_nat (length bs))).
      btrue ((a <=? a) && (a <? a + Z.of_nat (S (length bs)))). rewrite Z.sub_diag. cbn. by apply u8_small.
    + destruct ((a + 1 <=? x) && (x <? a + 1 + Z.of_nat (length bs))) eqn:E; bsplit.
      * btrue ((a <=? x) && (x <? a + Z.of_nat (S (length bs)))).
        rewrite (zget_lookup (b :: bs)) by lia. replace (Z.to_nat (x - a)) with (S (Z.to_nat (x - (a + 1)))) by lia.
        cbn [lookup list_lookup]. by rewrite zget_lookup by lia.
      * bfalse ((a <=? x) && (x <? a + Z.of_nat (S (length bs)))). done.
Qed.

(** Where a program starts in the memory of process [n]. *)
Definition load_address (n : Z) : Z := program_frame n (PROGRAM_DIR_START + PROGRAM_OFFSET).

Lemma content_bytes m f p : bytes m -> Forall (fun b => 0 <= b < 256) (file_content m f p).
Proof. intros H. unfold file_content. apply Forall_forall. intros b (x & -> & _)%list_elem_of_fmap. apply H. Qed.

Lemma load_program_spec k n p :
  bytes (image k) -> 1 <= NUM_DATA_BLOCKS (image k) (fsys k) -> whole k p ->
  load_program n p k = (true, set_umem (store_bytes (umem k) (load_address n) (file_content (image k) (fsys k) p)) k).
Proof.
  intros Hm Hb [Hl Hok]. unfold load_program. pose proof (load32_range (image k) p Hm) as Hr. fold (inode_length (image k) p) in Hr.
  rewrite read_data_spec by (done || lia || (intros; apply Hok; lia)). unfold result_of.
  rewrite drop_0, take_ge by (pose proof (length_content (image k) (fsys k) p); lia).
  rewrite length_content, u32_small by lia. unfold ERROR. bfalse ((inode_length (image k) p =? -1) || (inode_length (image k) p <? inode_length (image k) p)).
  done.
Qed.

(** ** Starting a process *)

(** The kernel while process [c] runs: its place in the queue [q] of tasks, the numbers
    and blocks of the processes.  The three shells have been started. *)
Record system (L : layout) (k : kernel) (q : list Z) (c : Z) : Prop := {
  sy_ring : ring (sc k) q;
  sy_curr : curr_process (pr k) = Some c;
  sy_node : curr_node (sc k) = Some (Task c);
  sy_in : c ∈ q;
  sy_procs : procs_ok L (pr k) q;
  sy_pids : length (pid_arr (pr k)) = 6%nat;
  sy_shells : forall i, 0 <= i < 3 -> (pid_arr (pr k)).[i] = Some ON;
  sy_taken : forall i, i ∈ q -> (pid_arr (pr k)).[i] = Some ON;
  sy_blocks : forall i b, (pcbs (pr k)).[i] = Some b ->
    length (files b) = 8%nat /\ length (command b) = 33%nat /\ length (args b) = 100%nat }.

Lemma system_member L k q c i : system L k q c -> i ∈ q ->
  0 <= i < 6 /\ exists b, (pcbs (pr k)).[i] = Some b /\ pid b = i.
Proof.
  intros H Hi. destruct (sy_ring _ _ _ _ H) as [_ _ _ _ _ _ Ht]. rewrite Forall_forall in Ht.
  destruct (sy_procs _ _ _ _ H) as [_ Hp _]. rewrite Forall_forall in Hp. split; [by apply Ht | by apply Hp].
Qed.

Lemma free_pid_new L k q c n : system L k q c -> free_pid_idx (pr k) = Some n -> n <> ERROR ->
  3 <= n < 6 /\ (n ∉ q) /\ exists b, (pcbs (pr k)).[n] = Some b.
Proof.
  intros H. unfold free_pid_idx. rewrite free_pid_spec by (try rewrite (sy_pids _ _ _ _ H); unfold PID_ARR_SIZE; lia).
  change (Z.of_nat (Z.to_nat PID_ARR_SIZE)) with 6. intros E Hne.
  pose proof (find_seqZ (fun j => bool_decide ((pid_arr (pr k)).[j] = Some 0)) 0 6) as Hf.
  destruct (find _ _) as [i|]; cbn [default from_option] in E; [|unfold ERROR in *; congruence]. injection E as E. unfold id in E. subst i.
  destruct Hf as (Hn & Ez%bool_decide_eq_true & _).
  assert (forall i, (pid_arr (pr k)).[i] = Some ON -> i <> n) as Hon by (intros i Ei ->; rewrite Ez in Ei; discriminate).
  split_and!; try lia.
  - destruct (Z.lt_ge_cases n 3) as [Hlt|]; [|done]. exfalso. apply (Hon n); [apply (sy_shells _ _ _ _ H); lia | done].
  - intros Hq. apply (Hon n); [by apply (sy_taken _ _ _ _ H) | done].
  - apply zget_ex. destruct (sy_procs _ _ _ _ H) as [Hs _ _]. lia.
Qed.

Lemma dword_of_four l jk : length l = 4%nat -> dword_of l jk = dword_of l [].
Proof. destruct l as [|a [|b [|c [|d [|? ?]]]]]; done. Qed.

Lemma dword_of_range l jk : length l = 4%nat -> Forall (fun b => 0 <= b < 256) l -> u32_range_of (dword_of l jk).
Proof.
  destruct l as [|a [|b [|c [|d [|? ?]]]]]; try done. intros _ H. unfold dword_of, u32_range_of. cbn [app].
  repeat match goal with H : Forall _ (_ :: _) |- _ => apply Forall_cons in H as [? H] end. lia.
Qed.

(** The entry point a program file names, in the dword at offset 24. *)
Definition entry_point (k : kernel) (p : Z) : Z := dword_of (slice k p CHECK_EXEC_OFFSET WORD) [].

(** What starting [n] as a child of [c] does to the state of the kernel. *)
Record started (L : layout) (pit_ret : Z) (k k' : kernel) (q : list Z) (c n p : Z) (w a : list Z) (esp_in ebp_in : Z) : Prop := {
  st_ring : ring (sc k') (q ++ [n]);
  st_node : curr_node (sc k') = Some (Task c);
  st_running : forall x, running (nd (sc k') (Task x)) =
    if decide (x = n) then TASK_RUNNING else if decide (x = c) then TASK_INACTIVE else running (nd (sc k) (Task x));
  st_pids : (pid_arr (pr k)).[n <- ON] = Some (pid_arr (pr k'));
  st_block : exists b, (pcbs (pr k')).[n] = Some b /\ pid b = n /\ parent b = Some c /\ child b = None /\
    instr_ptr b = entry_point k p /\ user_stack b = USTACK_START /\ kernel_stack b = get_kstack_address n /\
    terminal b = shown_terminal k /\ cstring (command b) w /\ cstring (args b) a /\
    (exists f, files b = fresh_files f /\ length f = 8%nat) /\
    (first_schedule (sc k) = false \/ curr_node (sc k) <> Some Sentinel -> esp b = ebp b /\
       let r := resume (kmem (pr k')) (ebp b) in
       c_esp r = kernel_stack b /\ c_frame r = Iret (entry_point k p) USER_CS STACK_FLAGS USTACK_START USER_DS);
  st_made : exists b, (pcbs (pr k')).[n] = Some b /\ (ebp b, kmem (pr k')) = fabricate pit_ret b (kmem (pr k)) /\
    length (command b) = 33%nat /\ length (args b) = 100%nat;
  st_count : length (pcbs (pr k')) = length (pcbs (pr k));
  st_parent : exists b b', (pcbs (pr k)).[c] = Some b /\ (pcbs (pr k')).[c] = Some b' /\
    b' = with_esp_ebp esp_in ebp_in (with_child (Some n) b);
  st_others : forall i, i <> n -> i <> c -> (pcbs (pr k')).[i] = (pcbs (pr k)).[i];
  st_paging : paging_ok L (pg (pr k')) /\ cr3 (pg (pr k')) = pd_addr L c;
  st_memory : forall x, umem k' x =
    if (load_address n <=? x) && (x <? load_address n + inode_length (image k) p)
    then file_byte (image k) (fsys k) p (x - load_address n) else umem k x;
  st_files : fsys k' = fsys k /\ image k' = image k;
  st_devices : screen k' = screen k /\ clock k' = clock k /\ timer_on k' = timer_on k }.

Section Start.
Context (L : layout) (pit_ret : Z) (jk : junk) (k : kernel) (q : list Z) (c n j p : Z) (w a cmd abuf : list Z) (esp_in ebp_in : Z).
Hypotheses (Hsys : system L k q c) (Hfree : free_pid_idx (pr k) = Some n) (Hn : n <> ERROR) (Hpf : program_file k j p)
  (Hlen : 28 <= inode_length (image k) p <= 0x3b8000) (Hcmd : cstring cmd w) (Habuf : cstring abuf a)
  (Hw : (length w < 33)%nat) (Ha : (length a < 100)%nat) (Hret : u32_range_of pit_ret).

Lemma program_ptr : get_inode_ptr (fsys k) (s32 (inode_num (load_dentry (image k) (entry_addr (fsys k) j)))) = p.
Proof.
  destruct Hpf as [_ _ _ [Hp H1 H2 H3 _] _].
  change (inode_num (load_dentry (image k) (entry_addr (fsys k) j))) with (entry_inode (image k) (fsys k) j).
  rewrite s32_small by (unfold INODE_SIZE in *; lia). done.
Qed.

Lemma entry_bytes : length (slice k p 24 4) = 4%nat /\ Forall (fun b => 0 <= b < 256) (slice k p 24 4).
Proof.
  pose proof (do_bytes _ _ (pf_dir _ _ _ Hpf)) as Hm. pose proof (slice_length k p 24 4 Hm) as Hl. split; [lia|].
  unfold slice. apply Forall_take, Forall_drop, content_bytes, Hm.
Qed.

Lemma read_entry_point : read_data (image k) (fsys k) p CHECK_EXEC_OFFSET 1 WORD = result_of (slice k p 24 4).
Proof.
  destruct Hpf as [Hd _ _ _ [Hl Hok]]. unfold CHECK_EXEC_OFFSET, WORD.
  rewrite read_data_spec; [done | apply (do_bytes _ _ Hd) | apply (do_blocks _ _ Hd) | lia | lia | lia | intros; apply Hok; lia].
Qed.

Lemma loaded_memory x :
  store_bytes (umem k) (load_address n) (file_content (image k) (fsys k) p) x =
  if (load_address n <=? x) && (x <? load_address n + inode_length (image k) p)
  then file_byte (image k) (fsys k) p (x - load_address n) else umem k x.
Proof.
  pose proof (free_pid_new L k q c n Hsys Hfree Hn) as (Hr & _ & _). pose proof (do_bytes _ _ (pf_dir _ _ _ Hpf)) as Hm.
  assert (load_address n = 0x848000 + 0x400000 * n) as Ea.
  { unfold load_address, program_frame, PROGRAM_DIR_START, PROGRAM_OFFSET. lia. }
  rewrite store_bytes_get by (rewrite ?length_content, ?Ea; lia || by apply content_bytes).
  rewrite length_content by lia. case_if; [|done]. unfold file_content.
  rewrite zget_lookup by lia. rewrite list_lookup_fmap, seqZ_get. rewrite Z2Nat.id by lia.
  btrue (x - load_address n <? inode_length (image k) p). done.
Qed.

(** The block of the new process after [pcb_init], [set_current_process] and
    [open_stdin_stdout]. *)
Definition new_block (b : pcb) : pcb :=
  with_files (fresh_files (files b)) (child_block n c (entry_point k p) w a (shown_terminal k) b).

Lemma new_process_spec l pg1 b cb :
  paging_ok L pg1 -> (pcbs (pr k)).[n] = Some b -> (pcbs (pr k)).[c] = Some cb -> pid cb = c ->
  exists p', new_process L n (entry_point k p) cmd abuf (shown_terminal k) esp_in ebp_in (set_pid_arr l (set_pg pg1 (pr k))) = Some p' /\
    (forall i, (pcbs p').[i] = if i =? n then Some (new_block b)
       else if i =? c then Some (with_esp_ebp esp_in ebp_in (with_child (Some n) cb)) else (pcbs (pr k)).[i]) /\
    pid_arr p' = l /\ paging_ok L (pg p') /\ cr3 (pg p') = pd_addr L c /\ kmem p' = kmem (pr k) /\ length (pcbs p') = length (pcbs (pr k)).
Proof.
  intros Hpg1 Hb Hcb Hcpid. destruct (free_pid_new L k q c n Hsys Hfree Hn) as (Hr & Hnq & _).
  destruct (system_member L k q c c Hsys (sy_in _ _ _ _ Hsys)) as (Hc & _).
  assert (c <> n) as Hcn by (intros ->; apply Hnq, (sy_in _ _ _ _ Hsys)).
  destruct (sy_procs _ _ _ _ Hsys) as [Hsize _ _]. destruct (sy_blocks _ _ _ _ Hsys n b Hb) as (Hf8 & Hc33 & Ha100). unfold new_process.
  erewrite (pcb_init_spec n c _ cmd w abuf a) by (try done; cbn; try done; try apply (sy_curr _ _ _ _ Hsys); lia).
  rewrite some_bind. cbn [set_pcbs set_pid_arr set_pg pcbs curr_process desc pid_arr roots esp0 pg kmem].
  match goal with |- context [set_current_process n ?P] =>
    destruct (enter_process_spec n (child_block n c (entry_point k p) w a (shown_terminal k) b) P) as (p1 & -> & Estd) end;
    [cbn [pcbs set_pcbs]; by rewrite zget_insert, Z.eqb_refl by (rewrite length_insert; lia) | done|].
  rewrite some_bind, Estd, some_bind. clear Estd. cbn [set_pcbs set_pid_arr set_pg pcbs curr_process desc pid_arr roots esp0 pg kmem].
  rewrite list_insert_insert_eq. change (with_files _ _) with (new_block b).
  set (B := <[Z.to_nat n := new_block b]> (<[Z.to_nat c := with_child (Some n) cb]> (pcbs (pr k)))).
  assert (forall i, B.[i] = if i =? n then Some (new_block b) else if i =? c then Some (with_child (Some n) cb) else (pcbs (pr k)).[i]) as HB.
  { intros i. unfold B. rewrite !zget_insert by (rewrite ?length_insert; lia). done. }
  assert (length B = length (pcbs (pr k))) as HlB by (unfold B; by rewrite !length_insert).
  rewrite HB, Z.eqb_refl, some_bind. cbn [parent new_block child_block with_files].
  assert (B.[c] = Some (with_child (Some n) cb)) as HBc by (rewrite HB; bfalse (c =? n); by rewrite Z.eqb_refl).
  rewrite (upd_pcb_eq c _ (with_child (Some n) cb)) by done. rewrite some_bind. cbn [pcbs set_pcbs pg].
  rewrite zget_insert, Z.eqb_refl, some_bind by lia. cbn [pid with_esp_ebp with_child]. rewrite Hcpid.
  destruct (switch_paging_ok L pg1 c) as (pg2 & -> & Hcr3 & Hpg2); [unfold pid_ok; lia | done|]. rewrite some_bind.
  eexists. split; [reflexivity|]. cbn [set_pcbs set_pg pcbs pid_arr pg kmem]. split_and!; try done; [|by rewrite length_insert].
  intros i. rewrite zget_insert by lia. destruct (Z.eqb_spec i c) as [->|Hic]; [by bfalse (c =? n)|].
  rewrite HB. destruct (i =? n); [done|]. by bfalse (i =? c).
Qed.

Lemma schedule_child b cb p1 :
  (forall i, (pcbs p1).[i] = if i =? n then Some (new_block b)
     else if i =? c then Some (with_esp_ebp esp_in ebp_in (with_child (Some n) cb)) else (pcbs (pr k)).[i]) -> pid cb = c ->
  exists s' p', schedule pit_ret n (sc k) p1 = Some (s', p') /\ ring s' (q ++ [n]) /\ curr_node s' = curr_node (sc k) /\
    (forall x, running (nd s' (Task x)) = if decide (x = n) then TASK_RUNNING
       else if decide (x = c) then TASK_INACTIVE else running (nd (sc k) (Task x))) /\
    (exists x y, (pcbs p').[n] = Some (with_esp_ebp x y (new_block b)) /\
       (first_schedule (sc k) = false \/ curr_node (sc k) <> Some Sentinel -> x = y /\
          let r := resume (kmem p') y in
          c_esp r = kernel_stack (new_block b) /\ c_frame r = Iret (entry_point k p) USER_CS STACK_FLAGS USTACK_START USER_DS)) /\
    (let f := fabricate pit_ret (new_block b) (kmem p1) in kmem p' = f.2 /\ (pcbs p').[n] = Some (with_esp_ebp f.1 f.1 (new_block b))) /\
    (forall i, i <> n -> (pcbs p').[i] = (pcbs p1).[i]) /\ length (pcbs p') = length (pcbs p1) /\ same_rest p1 p'.
Proof.
  intros Hp1 Hcpid. destruct (free_pid_new L k q c n Hsys Hfree Hn) as (Hr & Hnq & _). destruct entry_bytes as [He1 He2].
  assert (c <> n) as Hcn by (intros ->; apply Hnq, (sy_in _ _ _ _ Hsys)).
  destruct (schedule_spec pit_ret n (sc k) p1 q (new_block b) (sy_ring _ _ _ _ Hsys)) as
    (s' & p' & E & Hring & Hnode & _ & Hrun & Hres & (x & y & Hblk) & Hoth & Hcount & Hrest); try done; try lia.
  { by rewrite Hp1, Z.eqb_refl. }
  { cbn. split; [apply (sy_in _ _ _ _ Hsys)|]. eexists. split; [rewrite Hp1; bfalse (c =? n); by rewrite Z.eqb_refl | done]. }
  { cbn. unfold get_kstack_address, STACK_START, STACK_SIZE, WORD. rewrite u32_small; lia. }
  { by apply dword_of_range. }
  exists s', p'. split_and!; try done.
  - intros x'. rewrite Hrun. destruct (decide (x' = n)); [done|]. cbn [parent new_block child_block with_files].
    destruct (decide (x' = c)) as [->|Hx]; [by rewrite decide_True | by rewrite decide_False by congruence].
  - exists x, y. split; [done|]. intros Hfs. destruct (Hres Hfs) as (b2 & Eb2 & Hes & Hr2). rewrite Hblk in Eb2. injection Eb2 as <-.
    cbn [esp ebp with_esp_ebp] in Hes, Hr2. destruct Hr2 as (_ & _ & Hr3 & Hr4). done.
  - apply (schedule_made _ _ _ _ _ _ _ E); [by rewrite Hp1, Z.eqb_refl | by rewrite (sy_node _ _ _ _ Hsys)].
Qed.

Lemma start_process_spec :
  exists k', start_process L pit_ret jk n (load_dentry (image k) (entry_addr (fsys k) j)) cmd abuf esp_in ebp_in k = Some (Yields k') /\
    started L pit_ret k k' q c n p w a esp_in ebp_in.
Proof.
  destruct (free_pid_new L k q c n Hsys Hfree Hn) as (Hr & Hnq & b & Hb).
  destruct (system_member L k q c c Hsys (sy_in _ _ _ _ Hsys)) as (Hc & cb & Hcb & Hcpid).
  assert (c <> n) as Hcn by (intros ->; apply Hnq, (sy_in _ _ _ _ Hsys)).
  destruct (sy_procs _ _ _ _ Hsys) as [_ _ Hpg]. destruct (sy_blocks _ _ _ _ Hsys n b Hb) as (Hf8 & _).
  unfold start_process, THIRD_TERMINAL. btrue (2 <? n). rewrite (sy_curr _ _ _ _ Hsys), some_bind, Hcb, some_bind, Hcpid.
  destruct (new_paging_ok L (pg (pr k)) n c) as (pg1 & -> & _ & Hpg1); [unfold pid_ok; lia | unfold pid_ok; lia | done|].
  rewrite some_bind. cbn [fsys set_pr]. rewrite program_ptr.
  rewrite load_program_spec; [|apply (do_bytes _ _ (pf_dir _ _ _ Hpf)) | apply (do_blocks _ _ (pf_dir _ _ _ Hpf)) | by destruct (pf_whole _ _ _ Hpf)].
  unfold shown_terminal. cbn [negb pr set_umem set_pr image fsys umem sc screen clock timer_on set_pg pid_arr].
  change (curr_terminal (screen k)) with (shown_terminal k).
  rewrite zset_in by (rewrite (sy_pids _ _ _ _ Hsys); lia). rewrite some_bind, read_entry_point. unfold result_of.
  rewrite dword_of_four by apply entry_bytes. change (dword_of (slice k p 24 4) []) with (entry_point k p).
  destruct (new_process_spec (<[Z.to_nat n := ON]> (pid_arr (pr k))) pg1 b cb) as (p1 & E1 & Hp1 & Hl1 & Hpg2 & Hcr3 & Hkm1 & Hlen1); try done.
  rewrite E1, some_bind, Hp1, Z.eqb_refl, some_bind.
  change (pid (new_block b)) with n. clear E1.
  destruct (schedule_child b cb (set_pg (cli (pg p1)) p1)) as (s' & p' & -> & Hring & Hnode & Hrun & (x & y & Hblk & Hres) & Hmade & Hoth & Hlen2 & (_ & _ & Hpa & _ & _ & Hpg')); [done..|].
  rewrite some_bind. bfalse (n <=? 2). rewrite some_bind. cbn [pid_arr set_pg] in *. rewrite Hpa, Hl1.
  rewrite !zget_insert by (rewrite (sy_pids _ _ _ _ Hsys); lia). unfold FIRST_TERMINAL, SECOND_TERMINAL.
  bfalse (0 =? n). bfalse (1 =? n). bfalse (2 =? n). rewrite !(sy_shells _ _ _ _ Hsys), !some_bind by lia.
  change ((ON =? ON) && (ON =? CLEAR) && (ON =? CLEAR)) with false. cbv iota.
  eexists. split; [reflexivity|]. split; cbn [sc pr umem fsys image set_sc set_pr set_umem set_pg kmem pcbs pg pid_arr]; try done.
  - rewrite Hnode. apply (sy_node _ _ _ _ Hsys).
  - rewrite Hpa, Hl1. apply zset_in. rewrite (sy_pids _ _ _ _ Hsys). lia.
  - eexists. split; [exact Hblk|]. cbn [pid parent child instr_ptr user_stack kernel_stack terminal command args files with_esp_ebp new_block child_block with_files esp ebp].
    destruct Hcmd as (r1 & _ & Hw0), Habuf as (r2 & _ & Ha0). split_and!; try done; by eexists.
  - change (kmem (set_pg (cli (pg p1)) p1)) with (kmem p1) in Hmade. rewrite Hkm1 in Hmade. destruct Hmade as [Hk2 Hb2]. destruct (sy_blocks _ _ _ _ Hsys n b Hb) as (_ & Hc33 & Ha100). eexists. split; [exact Hb2|].
    rewrite Hk2. cbn [ebp with_esp_ebp command args new_block with_files child_block].
    split; [rewrite fabricate_esp_ebp; symmetry; apply surjective_pairing|]. rewrite !length_app. cbn [length]. rewrite !length_drop. lia.
  - rewrite Hlen2. exact Hlen1.
  - exists cb. eexists. split; [done|]. split; [|reflexivity]. rewrite (Hoth c Hcn). cbn [pcbs set_pg]. rewrite Hp1. bfalse (c =? n). by rewrite Z.eqb_refl.
  - intros i Hi1 Hi2. rewrite (Hoth i Hi1). cbn [pcbs set_pg]. rewrite Hp1. bfalse (i =? n). by bfalse (i =? c).
  - rewrite Hpg'. cbn. split; [|done]. apply paging_ok_intr, paging_ok_intr. done.
  - apply loaded_memory.
Qed.

End Start.

(** ** Halting *)

(** The descriptors of a program when all its files are closed; the standard ones stay. *)
Definition close_fd (i : Z) (d : file_descriptor) : file_descriptor := if (2 <=? i) && in_use d then closed d else d.
Definition all_closed (f f' : list file_descriptor) : Prop := forall i, f'.[i] = close_fd i <$> f.[i].

Lemma kclose_quiet ops k f fd :
  QuietOps ops -> desc_is (pr k) f -> fds_ok f ->
  exists r k' f', kclose ops fd k = Some (r, k') /\ only_fds k k' f' /\
    fds_ok f' /\ forall i, f'.[i] = if i =? fd then close_fd fd <$> f.[fd] else f.[i].
Proof.
  intros Hq Hd Hops. destruct (decide (2 <= fd < 8)) as [Hfd|Hfd].
  - destruct (zget_ex f fd) as [d Ed]; [destruct Hd; lia|]. destruct (in_use d) eqn:Eu.
    + destruct (kclose_spec ops k f fd d Hq Hd Hfd Ed Eu (Hops fd d Ed (proj1 Hfd) Eu)) as (r & f' & k' & E & Ef & Ho).
      exists r, k', f'. split_and!; try done; intros i; [intros d' Hi H2 Hu | ]; rewrite (zget_zset _ _ _ _ _ Ef) in *.
      * destruct (i =? fd); [|by apply (Hops i)]. injection Hi as <-. cbn in Hu. done.
      * case_if; [|done]. rewrite Ed. unfold close_fd. cbn [fmap option_fmap option_map]. rewrite Eu. by btrue ((2 <=? fd) && true).
    + exists ERROR, k, f. split_and!; try (done || by apply only_fds_refl).
      * destruct Hd as [Hg Hs]. unfold kclose, FD_START, FILE_ARRAY_SIZE. rewrite Hg, some_bind.
        bfalse ((fd <? 2) || (8 <=? fd)). by rewrite Ed, some_bind, Eu.
      * intros i. destruct (Z.eqb_spec i fd) as [->|]; [|done]. rewrite Ed. unfold close_fd. cbn [fmap option_fmap option_map]. by rewrite Eu, andb_false_r.
  - exists ERROR, k, f. split_and!; try (done || by apply only_fds_refl).
    + destruct Hd as [Hg Hs]. unfold kclose, FD_START, FILE_ARRAY_SIZE. rewrite Hg, some_bind.
      btrue ((fd <? 2) || (8 <=? fd)). done.
    + intros i. destruct (Z.eqb_spec i fd) as [->|]; [|done]. destruct (f.[fd]) as [d|] eqn:Ed; [|done]. pose proof (zget_Some_range _ _ _ Ed).
      destruct Hd as [_ Hs]. cbn [fmap option_fmap option_map]. unfold close_fd. by bfalse ((2 <=? fd) && in_use d).
Qed.

Lemma close_all_spec ops k f :
  QuietOps ops -> desc_is (pr k) f -> fds_ok f ->
  exists k' f', close_all ops k = Some k' /\ only_fds k k' f' /\ all_closed f f'.
Proof.
  intros Hq Hd Hops. unfold close_all.
  destruct (for_up_inv (fun n k' => exists f', only_fds k k' f' /\ fds_ok f' /\ forall i, f'.[i] = if i <? n then close_fd i <$> f.[i] else f.[i])
    (Z.to_nat FILE_ARRAY_SIZE) 0
    (fun fd k => f ← get_desc (pr k); d ← f.[fd];
       if in_use d then '(_, k) ← kclose ops fd k; Some k else Some k) k) as (k' & -> & f' & Ho & _ & Hf).
  - exists f. split; [by apply only_fds_refl|]. split; [done|]. intros i. case_if; [|done].
    destruct (f.[i]) as [d|] eqn:Ed; [|done]. apply zget_Some_range in Ed. lia.
  - intros fd k1 Hfd (f1 & Ho1 & Hops1 & Hf1). pose proof Ho1 as ([Hg1 Hs1] & _). rewrite Hg1, some_bind.
    change (Z.of_nat (Z.to_nat FILE_ARRAY_SIZE)) with 8 in Hfd. destruct (zget_ex f1 fd) as [d Ed]; [lia|]. rewrite Ed, some_bind.
    assert (f.[fd] = Some d) as Ed0 by (rewrite Hf1, Z.ltb_irrefl in Ed; exact Ed).
    destruct (in_use d) eqn:Eu.
    + destruct (kclose_quiet ops k1 f1 fd Hq) as (r & k2 & f2 & -> & Ho2 & Hops2 & Hf2); [done | done |]. rewrite some_bind.
      exists k2. split; [done|]. exists f2. split; [by eapply only_fds_trans|]. split; [done|]. intros i. rewrite Hf2, Ed, Hf1.
      destruct (Z.eqb_spec i fd) as [->|]; [btrue (fd <? fd + 1); by rewrite Ed0|]. destruct (Z.ltb_spec i fd), (Z.ltb_spec i (fd + 1)); done || lia.
    + exists k1. split; [done|]. exists f1. split; [done|]. split; [done|]. intros i. rewrite Hf1.
      destruct (Z.ltb_spec i fd), (Z.ltb_spec i (fd + 1)); try (done || lia). replace i with fd by lia. rewrite Ed0.
      unfold close_fd. cbn [fmap option_fmap option_map]. by rewrite Eu, andb_false_r.
  - exists k', f'. split; [done|]. split; [done|]. intros i. rewrite Hf. destruct (Z.ltb_spec i (0 + Z.of_nat (Z.to_nat FILE_ARRAY_SIZE))) as [|Hi]; [done|]. destruct (f.[i]) as [d|] eqn:Ed; [|done].
    apply zget_Some_range in Ed. destruct Hd as [_ Hs]. change (0 + Z.of_nat (Z.to_nat FILE_ARRAY_SIZE)) with 8 in Hi. lia.
Qed.

Lemma map_vid_spec L s n :
  pid_ok n -> paging_ok L s ->
  exists s', map_vid_memory L n s = Some (0, s') /\ paging_ok L s' /\ cr3 s' = pd_addr L n /\ page_tables s' = page_tables s.
Proof.
  intros Hn Hok. destruct (map_video_ok L s n 1 Hn Hok) as (vts & pds & E1 & E2 & H). unfold map_vid_memory. literals.
  unfold pid_ok in Hn. bfalse (n <? 0). rewrite E1, some_bind, E2, some_bind. eexists. split; [done|]. split_and!; try done. by apply paging_ok_cr3.
Qed.

(** Page tables that differ in the page of [vidmap] of process [n], which is closed. *)
Record video_closed (n : Z) (s s' : paging) : Prop := {
  vc_dirs : forall p i, ent2 (process_directories s') p i =
    if (p =? n) && (i =? 890) then setf present 0 (ent2 (process_directories s) n 890) else ent2 (process_directories s) p i;
  vc_vids : forall p i, ent2 (vid_tables s') p i =
    if (p =? n) && (i =? 731) then setf present 0 (ent2 (vid_tables s) n 731) else ent2 (vid_tables s) p i;
  vc_tables : page_tables s' = page_tables s;
  vc_kernel : dir s' = dir s /\ table s' = table s /\ first_dir s' = first_dir s /\ first_table s' = first_table s;
  vc_registers : cr0 s' = cr0 s /\ cr3 s' = cr3 s /\ cr4 s' = cr4 s }.

Lemma unmap_vid_spec L s n :
  pid_ok n -> paging_ok L s ->
  exists s', unmap_vid_memory n s = Some (0, s') /\ paging_ok L s' /\ cr3 s' = cr3 s /\
    video_closed n s s' /\ intr s' = intr s.
Proof.
  intros Hn Hok. pose proof Hok as ([] & _). unfold pid_ok in Hn.
  destruct (map_video_ok L s n 0 Hn Hok) as (vts & pds & E1 & E2 & H). unfold unmap_vid_memory. literals.
  bfalse (n <? 0). rewrite E2, some_bind, E1, some_bind. eexists. split; [done|]. split_and!; try done.
  destruct (upd2_ok (process_directories s) n 890 (setf present 0)) as (pds' & E' & _ & Hv); [done | lia | lia|].
  destruct (upd2_ok (vid_tables s) n 731 (setf present 0)) as (vts' & E'' & _ & Hv'); [done | lia | lia|].
  rewrite E2 in E'. injection E' as <-. rewrite E1 in E''. injection E'' as <-. by split.
Qed.

Lemma unschedule_spec s q c r :
  ring s q -> 3 <= c < 6 -> 0 <= r < 6 -> r <> c ->
  exists s', unschedule c r s = Some s' /\ ring s' q /\ pointers s' = pointers s /\
    forall x, running (nd s' (Task x)) = if decide (x = r) then TASK_RUNNING
      else if decide (x = c) then TASK_FINISHED else running (nd s (Task x)).
Proof.
  intros Hring Hc Hr Hne. unfold unschedule, NUM_SHELLS.
  destruct (set_running_ring s q c TASK_FINISHED Hring) as (s1 & -> & Hring1 & Hp1 & Hr1); [lia|]. rewrite some_bind. btrue (3 <=? c).
  destruct (set_running_ring s1 q r TASK_RUNNING Hring1) as (s2 & -> & Hring2 & Hp2 & Hr2); [lia|].
  exists s2. split_and!; try done; [congruence|]. intros x. rewrite Hr2, Hr1.
  destruct (decide (x = r)) as [->|Hx]; [by rewrite decide_True|]. rewrite decide_False by congruence.
  destruct (decide (x = c)) as [->|Hx']; [by rewrite decide_True | by rewrite decide_False by congruence].
Qed.

(** What the end of process [c], started by [r], does. *)
Record halted (L : layout) (k k' : kernel) (q : list Z) (c r status : Z) : Prop := {
  ha_ring : ring (sc k') q;
  ha_pointers : pointers (sc k') = pointers (sc k);
  ha_running : forall x, running (nd (sc k') (Task x)) =
    if decide (x = r) then TASK_RUNNING else if decide (x = c) then TASK_FINISHED else running (nd (sc k) (Task x));
  ha_pids : (pid_arr (pr k)).[c <- CLEAR] = Some (pid_arr (pr k'));
  ha_parent : exists b, (pcbs (pr k)).[r] = Some b /\
    (pcbs (pr k')).[r] = Some (with_ret_status (halt_value (u8 status)) (with_child None b));
  ha_child : exists b, (pcbs (pr k')).[c] = Some b /\ parent b = None /\ ret_status b = u8 status;
  ha_block : exists b f, (pcbs (pr k)).[c] = Some b /\ length f = 8%nat /\ all_closed (files b) f /\
    (pcbs (pr k')).[c] = Some (with_parent None (with_ret_status (u8 status) (with_files f b)));
  ha_count : length (pcbs (pr k')) = length (pcbs (pr k));
  ha_others : forall i, i <> c -> i <> r -> (pcbs (pr k')).[i] = (pcbs (pr k)).[i];
  ha_video : paging_ok L (pg (pr k')) /\ video_closed c (pg (pr k)) (pg (pr k')) /\ intr (pg (pr k')) = true;
  ha_memory : umem k' = umem k /\ kmem (pr k') = kmem (pr k);
  ha_curr : curr_process (pr k') = curr_process (pr k) /\ desc (pr k') = desc (pr k);
  ha_roots : roots (pr k') = roots (pr k) /\ esp0 (pr k') = esp0 (pr k);
  ha_files : fsys k' = fsys k /\ image k' = image k;
  ha_devices : screen k' = screen k /\ clock k' = clock k /\ timer_on k' = timer_on k }.

Lemma same_length {A B} (l : list A) (l' : list B) :
  (forall i, is_Some (l'.[i]) <-> is_Some (l.[i])) -> length l' = length l.
Proof.
  intros H. assert (forall i, 0 <= i < Z.of_nat (length l) <-> 0 <= i < Z.of_nat (length l')) as H'.
  { intros i. split; intros Hi; [destruct (zget_ex l i Hi) as [x E] | destruct (zget_ex l' i Hi) as [x E]];
      [destruct (proj2 (H i) ltac:(eauto)) as [y Ey] | destruct (proj1 (H i) ltac:(eauto)) as [y Ey]]; by apply zget_Some_range in Ey. }
  pose proof (H' (Z.of_nat (length l))). pose proof (H' (Z.of_nat (length l'))). lia.
Qed.

Lemma khalt_spec ops L k q c b r f status ebp_in :
  QuietOps ops -> system L k q c -> 2 < c -> (pcbs (pr k)).[c] = Some b -> parent b = Some r -> r ∈ q -> r <> c ->
  desc (pr k) = Some c -> desc_is (pr k) f ->
  fds_ok f ->
  exists k', khalt ops status ebp_in k = Some (Yields k') /\ halted L k k' q c r status.
Proof.
  intros Hq Hsys Hc2 Hb Hpar Hrq Hrc Hdesc Hd Hops.
  destruct (system_member L k q c c Hsys (sy_in _ _ _ _ Hsys)) as (Hc & b' & Hb' & Hpid).
  replace b' with b in * by congruence. clear Hb' b'.
  destruct (system_member L k q c r Hsys Hrq) as (Hr & rb & Hrb & Hrpid).
  assert (files b = f) as Hfiles by (destruct Hd as [Hg _]; unfold get_desc in Hg; rewrite Hdesc, some_bind, Hb in Hg; by injection Hg).
  destruct (sy_procs _ _ _ _ Hsys) as [Hsize _ Hpg]. unfold khalt, THIRD_TERMINAL.
  rewrite (sy_curr _ _ _ _ Hsys), some_bind, Hb, some_bind, Hpid. btrue (2 <? c).
  rewrite zset_in by (rewrite (sy_pids _ _ _ _ Hsys); lia). rewrite some_bind. cbn [pr set_pr pg set_pid_arr].
  destruct (unmap_vid_spec L (pg (pr k)) c) as (pg1 & -> & Hpg1 & _ & Hvid & _); [unfold pid_ok; lia | done|]. rewrite some_bind.
  match goal with |- context [close_all ops ?K] => destruct (close_all_spec ops K f Hq) as (k1 & f1 & -> & Ho1 & Hclosed) end; [|done|].
  { destruct Hd as [Hg Hs]. split; [exact Hg | done]. }
  destruct Ho1 as (Hd1 & Hsc & Hfs & Him & Hum & Hscr & Hclk & Hton & Hcur & Hpa & Hro & Hpg' & Hkm & He0 & Hde & Hp1).
  cbn [pr sc set_pr set_pg set_pid_arr pid_arr pg umem desc pcbs fsys image screen clock curr_process kmem roots esp0 timer_on] in *. rewrite Hdesc in Hp1.
  rewrite some_bind, Hpar, some_bind.
  assert ((pcbs (pr k1)).[r] = Some rb) as Hr1 by (rewrite Hp1, decide_False by congruence; done).
  assert ((pcbs (pr k1)).[c] = Some (with_files f1 b)) as Hc1 by (rewrite Hp1, decide_True, Hb by done; done).
  pose proof (zget_Some_range _ _ _ Hr1). pose proof (zget_Some_range _ _ _ Hc1).
  rewrite Hr1, some_bind, (upd_pcb_eq c _ _ _ Hc1), some_bind.
  erewrite (upd_pcb_eq r) by (cbn [pcbs set_pcbs]; rewrite zget_insert by lia; bfalse (r =? c); exact Hr1). rewrite some_bind.
  erewrite (upd_pcb_eq c) by (cbn [pcbs set_pcbs]; rewrite !zget_insert by (rewrite ?length_insert; lia); bfalse (c =? r); by rewrite Z.eqb_refl).
  rewrite some_bind.
  erewrite (upd_pcb_eq r) by (cbn [pcbs set_pcbs]; rewrite !zget_insert by (rewrite ?length_insert; lia); bfalse (r =? c); by rewrite Z.eqb_refl).
  rewrite some_bind, Hrpid, Hsc.
  destruct (unschedule_spec (sc k) q c r (sy_ring _ _ _ _ Hsys)) as (s' & -> & Hring & Hnode & Hrun); [lia | lia | done|].
  rewrite some_bind. eexists. split; [reflexivity|].
  split; cbn [sc pr set_sc set_pr set_pg set_pcbs pcbs pg pid_arr umem fsys image screen clock curr_process kmem desc roots esp0 timer_on];
    rewrite ?Hpa, ?Hpg', ?Hum, ?Hfs, ?Him, ?Hscr, ?Hclk, ?Hcur, ?Hkm, ?Hton, ?Hro, ?He0, ?Hde; try done.
  - apply zset_in. rewrite (sy_pids _ _ _ _ Hsys). lia.
  - exists rb. split; [done|]. rewrite !zget_insert by (rewrite ?length_insert; lia). by rewrite Z.eqb_refl.
  - eexists. rewrite !zget_insert by (rewrite ?length_insert; lia). bfalse (c =? r). by rewrite Z.eqb_refl.
  - exists b, f1. split; [done|]. split; [destruct Hd1; lia|]. split; [by rewrite Hfiles|]. rewrite !zget_insert by (rewrite ?length_insert; lia). bfalse (c =? r). by rewrite Z.eqb_refl.
  - rewrite !length_insert. apply same_length. intros i. rewrite Hp1. destruct (decide _); [by rewrite fmap_is_Some | done].
  - intros i Hi1 Hi2. rewrite !zget_insert by (rewrite ?length_insert; lia). bfalse (i =? c). bfalse (i =? r).
    rewrite Hp1, decide_False by congruence. done.
  - split; [by apply paging_ok_intr, paging_ok_intr|]. split; [by destruct Hvid | done].
Qed.

(** ** A small system *)

Definition demo_block (n : Z) : pcb :=
  Pcb n PROGRAM_START (get_kstack_address n) USTACK_START 0x8048094 (if n =? 3 then Some 0 else None) None demo_files
    (replicate 33 0) (replicate 100 0) 0x7f0000 0x7f0100 0 0.
Definition demo_state (pages : paging) : kernel :=
  Kernel (Procs (map demo_block (seqZ 0 6)) (Some 0) (Some 0) [1; 1; 1; 0; 0; 0] [Some 0; Some 1; Some 2] 0 pages (fun _ => 0))
    demo_sched demo_fs demo_mem (fun _ => 0) demo_terminals (Rtc 1 0) true.

Lemma demo_blocks pages i b : (pcbs (pr (demo_state pages))).[i] = Some b -> b = demo_block i /\ 0 <= i < 6.
Proof.
  intros H. pose proof (zget_Some_range _ _ _ H) as Hr. change (Z.of_nat (length (pcbs (pr (demo_state pages))))) with 6 in Hr.
  split; [|done]. assert (i = 0 \/ i = 1 \/ i = 2 \/ i = 3 \/ i = 4 \/ i = 5) as Hi by lia.
  destruct Hi as [-> | [-> | [-> | [-> | [-> | ->]]]]]; injection H as <-; done.
Qed.

Lemma demo_system L pages : paging_ok L pages -> system L (demo_state pages) [0; 1; 2] 0.
Proof.
  intros Hp. split; try done.
  - apply demo_ring.
  - by left.
  - split; [done | | done]. repeat constructor; [exists (demo_block 0) | exists (demo_block 1) | exists (demo_block 2)]; done.
  - intros i Hi. assert (i = 0 \/ i = 1 \/ i = 2) as [-> | [-> | ->]] by lia; done.
  - intros i Hi. repeat (apply elem_of_cons in Hi as [->|Hi]; [done|]). by apply elem_of_nil in Hi.
  - intros i b [-> _]%demo_blocks. done.
Qed.

Lemma demo_program pages : program_file (demo_state pages) 1 demo_inode.
Proof.
  split; [apply demo_dir_ok | vm_compute; split; [discriminate | reflexivity] | vm_compute; lia | apply demo_file_at | by apply demo_whole].
Qed.

(** Process 3, started by the first shell, at work. *)
Definition demo_child_sched : sched := set_curr_node (Some (Task 3)) (default zero_sched (enqueue 3 demo_sched)).
Definition demo_child (pages : paging) : kernel :=
  Kernel (Procs (map demo_block (seqZ 0 6)) (Some 3) (Some 3) [1; 1; 1; 1; 0; 0] [Some 0; Some 1; Some 2] 0 pages (fun _ => 0))
    demo_child_sched demo_fs demo_mem (fun _ => 0) demo_terminals (Rtc 1 0) true.

Lemma demo_child_system L pages : paging_ok L pages -> system L (demo_child pages) [0; 1; 2; 3] 3.
Proof.
  intros Hp. split; try done.
  - split; try (vm_compute; done); [apply (bool_decide_unpack _); vm_compute; done | repeat constructor; vm_compute; done].
  - do 3 right. by left.
  - split; [done | | done]. repeat constructor; [exists (demo_block 0) | exists (demo_block 1) | exists (demo_block 2) | exists (demo_block 3)]; done.
  - intros i Hi. assert (i = 0 \/ i = 1 \/ i = 2) as [-> | [-> | ->]] by lia; done.
  - intros i Hi. repeat (apply elem_of_cons in Hi as [->|Hi]; [done|]). by apply elem_of_nil in Hi.
  - intros i b [-> _]%(demo_blocks pages). done.
Qed.

Lemma demo_files_ops : fds_ok demo_files.
Proof.
  intros i d H H2 Hu. pose proof (zget_Some_range _ _ _ H) as Hr. change (Z.of_nat (length demo_files)) with 8 in Hr.
  assert (i = 2 \/ i = 3 \/ i = 4 \/ i = 5 \/ i = 6 \/ i = 7) as Hj by lia.
  destruct Hj as [-> | [-> | [-> | [-> | [-> | ->]]]]]; injection H as <-; done.
Qed.

Definition demo_junk : junk := Junk 7 (replicate 128 7) (replicate 129 7) [] [].

(** ** Properties *)

Lemma program_file_ext k k' j p :
  image k' = image k -> fsys k' = fsys k -> program_file k j p ->
  program_file k' j p /\ is_elf k' p = is_elf k p.
Proof.
  intros Hi Hf [Hd He Hn Ha [Hw1 Hw2]]. split.
  - split; rewrite ?Hi, ?Hf; try done. split; by rewrite ?Hi, ?Hf.
  - unfold is_elf, slice. by rewrite Hi, Hf.
Qed.

(** From the command to the start of the program, however its arguments came about. *)
Lemma kexecute_starts L pit_ret jk k q c n j p w t abuf a rest esp_in ebp_in :
  system L k q c -> free_pid_idx (pr k) = Some n -> n <> ERROR -> program_file k j p -> is_elf k p = true ->
  28 <= inode_length (image k) p <= 0x3b8000 -> entry_name (image k) (fsys k) j = w -> Forall word_char w ->
  t = 32 \/ t = 0 \/ t = 10 -> (129 <= length (cmd_junk jk))%nat -> u32_range_of pit_ret ->
  parse_args jk (Z.of_nat (length w)) (t =? 10) (w ++ t :: rest) = Some abuf -> cstring abuf a -> (length a < 100)%nat ->
  exists k', kexecute L pit_ret jk (Some (w ++ t :: rest)) esp_in ebp_in k = Some (Yields k') /\
    started L pit_ret k k' q c n p w a esp_in ebp_in.
Proof.
  intros Hsys Hfree Hn Hpf Helf Hlen Hname Hw Ht Hj Hret Hargs Habuf Hla. unfold kexecute. rewrite Hfree, some_bind.
  rewrite (proj2 (Z.eqb_neq n ERROR)) by done. pose proof (pf_name _ _ _ Hpf) as Hw32. rewrite Hname in Hw32.
  rewrite parse_command_spec, some_bind by (done || lia).
  assert (cstring (w ++ [0]) w) as Hcs by (exists []; split; [done | by apply word_chars_nonzero]).
  unfold get_file_info. rewrite (read_dentry_by_name_spec _ _ _ w); [|apply (do_boot _ _ (pf_dir _ _ _ Hpf)) | done |].
  2:{ rewrite <- Hname. apply (do_named _ _ (pf_dir _ _ _ Hpf)), (pf_entry _ _ _ Hpf). }
  replace (lookup_name (image k) (fsys k) w) with (Some j) by (rewrite <- Hname; symmetry; apply (lookup_own_name k j p Hpf)).
  rewrite !some_bind. change (ERROR =? SUCCESS) with false. cbv iota. rewrite some_bind.
  change (ERROR =? SUCCESS) with false. cbv iota. rewrite (check_executable_spec k j p _ Hpf), Helf, some_bind.
  change (SUCCESS =? ERROR) with false. cbv iota. rewrite Hargs, some_bind. eapply start_process_spec; try done; lia.
Qed.



(** A name the directory does not have. *)
Lemma kexecute_unknown L pit_ret jk k w t rest esp_in ebp_in :
  dir_ok (image k) (fsys k) -> length (pid_arr (pr k)) = 6%nat ->
  Forall word_char w -> w <> [] -> t = 32 \/ t = 0 \/ t = 10 -> (length w < 128)%nat -> (129 <= length (cmd_junk jk))%nat ->
  lookup_name (image k) (fsys k) w = None ->
  kexecute L pit_ret jk (Some (w ++ t :: rest)) esp_in ebp_in k = Some (Returns ERROR k).
Proof.
  intros Hdir Hlen Hw Hne Ht Hl Hj Hnone. unfold kexecute, free_pid_idx.
  rewrite free_pid_spec by (try rewrite Hlen; unfold PID_ARR_SIZE; lia).
  assert (cstring (w ++ [0]) w) as Hcs by (exists []; split; [done | by apply word_chars_nonzero]).
  rewrite some_bind. destruct (_ =? ERROR); [done|]. rewrite parse_command_spec, some_bind by (done || lia).
  unfold get_file_info. rewrite (read_dentry_by_name_spec _ _ _ w (do_boot _ _ Hdir) Hcs Hne), Hnone, !some_bind. done.
Qed.

(** A file that is no executable. *)
Lemma kexecute_not_elf L pit_ret jk k w t rest j p esp_in ebp_in :
  program_file k j p -> length (pid_arr (pr k)) = 6%nat ->
  Forall word_char w -> t = 32 \/ t = 0 \/ t = 10 -> (129 <= length (cmd_junk jk))%nat ->
  entry_name (image k) (fsys k) j = w -> is_elf k p = false ->
  kexecute L pit_ret jk (Some (w ++ t :: rest)) esp_in ebp_in k = Some (Returns ERROR k).
Proof.
  intros Hpf Hlen Hw Ht Hj Hname Helf. pose proof (pf_dir _ _ _ Hpf) as Hdir. pose proof (pf_name _ _ _ Hpf) as Hw32. rewrite Hname in Hw32.
  assert (w <> []) as Hne by (rewrite <- Hname; apply (do_named _ _ Hdir), (pf_entry _ _ _ Hpf)).
  assert (cstring (w ++ [0]) w) as Hcs by (exists []; split; [done | by apply word_chars_nonzero]).
  unfold kexecute, free_pid_idx. rewrite free_pid_spec by (try rewrite Hlen; unfold PID_ARR_SIZE; lia).
  rewrite some_bind. destruct (_ =? ERROR); [done|]. rewrite parse_command_spec, some_bind by (done || lia).
  unfold get_file_info. rewrite (read_dentry_by_name_spec _ _ _ w (do_boot _ _ Hdir) Hcs Hne).
  replace (lookup_name (image k) (fsys k) w) with (Some j) by (rewrite <- Hname; symmetry; apply (lookup_own_name k j p Hpf)).
  rewrite !some_bind. change (ERROR =? SUCCESS) with false. cbv iota. rewrite some_bind. change (ERROR =? SUCCESS) with false. cbv iota.
  rewrite (check_executable_spec k j p _ Hpf), Helf, some_bind. done.
Qed.

(** C24: [kexecute] returns -1 and changes nothing without a command, with six processes
    running, for a name the directory does not have, and for a file that does not start
    with the four ELF bytes. *)
Theorem kexecute_rejects L pit_ret jk k command w t rest j p esp_in ebp_in :
  dir_ok (image k) (fsys k) -> length (pid_arr (pr k)) = 6%nat ->
  Forall word_char w -> w <> [] -> t = 32 \/ t = 0 \/ t = 10 -> (length w < 128)%nat -> (129 <= length (cmd_junk jk))%nat ->
  kexecute L pit_ret jk None esp_in ebp_in k = Some (Returns ERROR k) /\
  ((forall i, 0 <= i < 6 -> (pid_arr (pr k)).[i] <> Some CLEAR) ->
     kexecute L pit_ret jk (Some command) esp_in ebp_in k = Some (Returns ERROR k)) /\
  (lookup_name (image k) (fsys k) w = None ->
     kexecute L pit_ret jk (Some (w ++ t :: rest)) esp_in ebp_in k = Some (Returns ERROR k)) /\
  (program_file k j p -> entry_name (image k) (fsys k) j = w -> is_elf k p = false ->
     kexecute L pit_ret jk (Some (w ++ t :: rest)) esp_in ebp_in k = Some (Returns ERROR k)).
Proof.
  intros Hdir Hlen Hw Hne Ht Hl Hj. pose proof (find_seqZ (fun i => bool_decide ((pid_arr (pr k)).[i] = Some 0)) 0 6) as Hfind.
  split_and!; [| intros Hfull | intros Hnone | intros Hpf Hname Helf].
  - unfold kexecute, free_pid_idx. by rewrite free_pid_spec by (try rewrite Hlen; unfold PID_ARR_SIZE; lia).
  - unfold kexecute, free_pid_idx. rewrite free_pid_spec by (try rewrite Hlen; unfold PID_ARR_SIZE; lia).
    change (Z.of_nat (Z.to_nat PID_ARR_SIZE)) with 6.
    destruct (find _ _) as [i|]; [|done]. destruct Hfind as (Hi & E%bool_decide_eq_true & _). exfalso. exact (Hfull i Hi E).
  - by apply kexecute_unknown.
  - by eapply kexecute_not_elf.
Qed.

Lemma kexecute_rejects_witness :
  kexecute demo_layout 0x401000 demo_junk (Some [98; 10]) 1 2 (demo_state zero_paging) = Some (Returns ERROR (demo_state zero_paging)).
Proof.
  destruct (kexecute_rejects demo_layout 0x401000 demo_junk (demo_state zero_paging) [] [98] 10 [] 1 demo_inode 1 2) as (_ & _ & H & _);
    [apply demo_dir_ok | reflexivity | repeat constructor; lia | discriminate | lia | cbn; lia | cbn; lia |].
  apply H. vm_compute. reflexivity.
Defined.

(** A command that ends right after its name, as the shell passes it when no
    argument was typed, does not set the arguments: unless the uninitialised variable
    [no_args] happens to be 0, the process gets what the uninitialised buffer held. *)
Theorem args_uninitialised jk w rest :
  (length w < 128)%nat -> (128 <= length (args_junk jk))%nat -> no_args_junk jk <> 0 ->
  parse_args jk (Z.of_nat (length w)) false (w ++ 0 :: rest) = Some (take (128 - length w) (args_junk jk)).
Proof.
  intros Hl Hj Hn. unfold parse_args.
  pose proof (skip_spaces_spec w 0 0 rest (S (length (w ++ 0 :: rest))) ltac:(done) ltac:(lia)) as E. cbn [replicate app] in E.
  rewrite E, some_bind, Nat.add_0_r, zget_app_r, Z.sub_diag by lia. change ((0 :: rest).[0]) with (Some 0). rewrite some_bind.
  cbn [Z.eqb negb]. unfold CMD_LENGTH, CLEAR. bfalse (128 - Z.of_nat (length w) <? 0). bfalse (no_args_junk jk =? 0).
  do 2 f_equal. lia.
Qed.

Lemma args_uninitialised_witness : parse_args demo_junk 1 false [97; 0] = Some (replicate 127 7).
Proof. apply (args_uninitialised demo_junk [97] []); [cbn; lia | cbn; lia | discriminate]. Defined.

(** C10: [khalt] in a process that is not a shell: its number is free again, the task is
    finished and its parent runs, the parent has the status and no child, every file of the
    process is closed and the rest of its block but the parent and the status as it was, its
    page of [vidmap] is unmapped, and nothing else changes: the queue, the other blocks, the
    roots of the terminals, every other entry of the page tables, the kernel stacks, the
    frames of the programs, the screen and the clock are as they were. *)
Theorem khalt_resumes_parent ops L k q c b r f status ebp_in :
  QuietOps ops -> system L k q c -> 2 < c -> (pcbs (pr k)).[c] = Some b -> parent b = Some r -> r ∈ q -> r <> c ->
  desc (pr k) = Some c -> desc_is (pr k) f ->
  fds_ok f ->
  exists k', khalt ops status ebp_in k = Some (Yields k') /\ halted L k k' q c r status.
Proof. apply khalt_spec. Qed.

Lemma khalt_resumes_parent_witness :
  exists pages k', khalt demo_ops 5 0x7f0000 (demo_child pages) = Some (Yields k') /\
    halted demo_layout (demo_child pages) k' [0; 1; 2; 3] 3 0 5.
Proof.
  destruct (booted_ok demo_layout zero_paging [] demo_layout_ok zero_paging_sized ltac:(constructor)) as (pages & _ & Hok).
  exists pages. apply (khalt_resumes_parent demo_ops demo_layout (demo_child pages) [0; 1; 2; 3] 3 (demo_block 3) 0 demo_files 5 0x7f0000);
    [apply demo_ops_quiet | by apply demo_child_system | lia | reflexivity | reflexivity | by left | lia | reflexivity
    | split; reflexivity | apply demo_files_ops].
Defined.

(** The status a parent sees is the byte the child halted with, except that a program
    killed by an exception, which halts with 239 and should report 256, reports 0: the
    value is kept in a byte. *)
Theorem halt_status status :
  0 <= status < 256 -> halt_value (u8 status) = if status =? EHALT then 0 else status.
Proof.
  intros H. rewrite u8_small by lia. unfold halt_value, EHALT, EXCEPTION_RETURN, STATUS_MASK.
  destruct (Z.eqb_spec status 239) as [->|Hne]; [done|].
  change 0x000000ff with (Z.ones 8). rewrite Z.land_ones by lia. unfold u8. zlia.
Qed.

Lemma halt_status_witness : halt_value (u8 239) = 0.
Proof. apply (halt_status 239). lia. Defined.

(** Every process has 8 kB of kernel memory to itself, below 8 MB and above the
    code: the control block at the bottom and the stack, which grows down from the top,
    do not overlap those of another process, and the stack has 7886 bytes before it
    reaches its own control block. *)
Theorem kernel_blocks_disjoint n m :
  0 <= n < 6 -> 0 <= m < 6 ->
  0x400000 < get_pcb_address n /\ get_kstack_address n + 4 <= 0x800000 /\
  get_kstack_address n - (get_pcb_address n + sizeof_pcb) = 7886 /\
  (n <> m -> get_kstack_address n + 4 <= get_pcb_address m \/ get_kstack_address m + 4 <= get_pcb_address n).
Proof.
  intros Hn Hm. unfold get_pcb_address, get_kstack_address, STACK_START, STACK_SIZE, WORD. rewrite !u32_small by lia.
  change sizeof_pcb with 302. lia.
Qed.

Lemma kernel_blocks_disjoint_witness : get_kstack_address 1 + 4 <= get_pcb_address 0 \/ get_kstack_address 0 + 4 <= get_pcb_address 1.
Proof. destruct (kernel_blocks_disjoint 1 0) as (_ & _ & _ & H); [lia | lia |]. apply H. lia. Defined.
