(* ===== verification/Shells.v ===== *)
(** * The first three shells, [student-distrib/file_array.c]

    The call [kexecute("shell")] at the end of the boot sequence, when there is no process
    yet: it starts a shell for each of the three terminals and the timer, and the first timer
    interrupt makes the first of them run.  The theorem says that this establishes the
    state the theorems on [kexecute] and [khalt] start from. *)

From stdpp Require Import base list option sets.
From Stdlib Require Import ZArith Lia ZifyBool.
From S2P Require Import Prelude MemOps Lib Ports Rtc Terminal FileSystem Paging Process Schedule FileArray Reading Lifecycle.

(** ** Kernel stacks *)

Lemma upd_node_flags x g s s' : upd_node x g s = Some s' -> first_shell s' = first_shell s /\ first_schedule s' = first_schedule s.
Proof.
  destruct x as [|q]; cbn; intros E; [by injection E as <-|]. apply bind_Some in E as (n & _ & E). apply bind_Some in E as (l & _ & E).
  by injection E as <-.
Qed.

Lemma enqueue_flags pid s s' : enqueue pid s = Some s' -> first_shell s' = first_shell s /\ first_schedule s' = first_schedule s.
Proof.
  unfold enqueue. intros E. apply bind_Some in E as (t & _ & E). apply bind_Some in E as (tn & _ & E).
  apply bind_Some in E as (sa & [? ?]%upd_node_flags & E). apply bind_Some in E as (sb & [? ?]%upd_node_flags & E).
  apply bind_Some in E as (h & _ & [? ?]%upd_node_flags). cbn in *. split; congruence.
Qed.

(** A task is scheduled within the 68 bytes below the top of its kernel stack. *)
Lemma schedule_stack pit_ret pid s p s' p' task :
  schedule pit_ret pid s p = Some (s', p') -> (pcbs p).[pid] = Some task -> 68 <= kernel_stack task < 2 ^ 32 ->
  let K := kernel_stack task in
  first_shell s' = first_shell s /\ (forall x, ~ K - 68 <= x < K -> kmem p' x = kmem p x) /\
  (first_schedule s = false -> (pcbs p').[pid] = Some (with_esp_ebp (K - 68) (K - 68) task)).
Proof.
  intros E Ht HK K. unfold schedule in E. rewrite Ht, some_bind in E.
  apply bind_Some in E as (s1 & [Hf1 Hs1]%enqueue_flags & E). apply bind_Some in E as (s2 & E2 & E). apply bind_Some in E as (p2 & E3 & E).
  injection E as <- <-.
  assert (first_shell s2 = first_shell s /\ first_schedule s2 = first_schedule s) as [Hf2 Hs2].
  { destruct (parent task); [|injection E2 as <-; done]. apply bind_Some in E2 as (pt & _ & [? ?]%upd_node_flags). split; congruence. }
  split; [exact Hf2|]. destruct (negb (first_schedule s2 && _)) eqn:Efirst.
  - rewrite fabricate_eq in E3 by done. destruct (upd_pcb_get _ _ _ _ pid E3) as (Hget & _ & _ & Hk & _).
    rewrite Z.eqb_refl in Hget. cbn [pcbs set_kmem] in Hget. rewrite Ht in Hget. split; [|intros _; exact Hget].
    intros x Hx. rewrite Hk. cbn [kmem set_kmem]. clear - HK Hx. subst K. revert HK Hx. generalize (kernel_stack task). intros K HK Hx.
    rewrite put_iret_eq by lia. rewrite !store32_frame by (unfold area; lia). done.
  - injection E3 as <-. split; [done|]. intros H. rewrite Hs2, H in Efirst. done.
Qed.

(** What the end of the timer interrupt reads of a stack. *)
Lemma resume_ext m m' a : 0 <= a -> a + 68 < 2 ^ 32 -> (forall x, a <= x < a + 68 -> m' x = m x) -> resume m' a = resume m a.
Proof.
  intros Ha Hw Hm. assert (forall b, a <= b -> b + 4 <= a + 68 -> load32 m' b = load32 m b) as Hl.
  { intros b H1 H2. unfold load32. rewrite !u32_small by lia. rewrite !Hm by lia. done. }
  unfold resume, load_iret. cbv zeta. addresses. rewrite !Hl by lia. done.
Qed.

(** ** One shell *)

(** The control block [pcb_init] makes for shell [n]. *)
Definition shell_block (par : option Z) (n eip : Z) (w a : list Z) (b : pcb) : pcb :=
  Pcb n PROGRAM_START (get_kstack_address n) USTACK_START eip par None (files b)
    (w ++ 0 :: drop (S (length w)) (command b)) (a ++ 0 :: drop (S (length a)) (args b))
    (esp b) (ebp b) (ret_status b) n.

Lemma pcb_init_shell n eip cmd w abuf a term p b :
  0 <= n <= 2 -> (pcbs p).[n] = Some b -> cstring cmd w -> cstring abuf a ->
  (length w < length (command b))%nat -> (length a < length (args b))%nat ->
  pcb_init n n eip cmd abuf term p = Some (set_pcbs (<[Z.to_nat n := shell_block (curr_process p) n eip w a b]> (pcbs p)) p).
Proof.
  intros Hn Hb Hcmd Ha Hlw Hla. pose proof (zget_Some_range _ _ _ Hb) as Hr.
  unfold pcb_init, NUM_SHELLS, THIRD_TERMINAL. rewrite Hb, some_bind. bfalse (3 <=? n). bfalse (2 <? n).
  rewrite (upd_pcb_eq n _ b) by done. rewrite some_bind. cbn [curr_process set_pcbs].
  assert (forall (o : option Z) (P : procs), match o with Some _ => Some P | None => Some P end = Some P) as -> by by intros [].
  rewrite some_bind. cbn [pcbs set_pcbs]. rewrite zget_insert, Z.eqb_refl, some_bind by done. cbn [command args].
  rewrite (strcpy_spec (command b) cmd w Hcmd), (strcpy_spec (args b) abuf a Ha).
  rewrite (proj2 (Nat.ltb_lt _ _) Hlw), some_bind, (proj2 (Nat.ltb_lt _ _) Hla), some_bind.
  erewrite (upd_pcb_eq n); [|cbn [pcbs set_pcbs]; by rewrite zget_insert, Z.eqb_refl by done].
  unfold set_pcbs. cbn [pcbs curr_process desc pid_arr roots esp0 pg kmem]. by rewrite list_insert_insert_eq.
Qed.

(** A kernel that has been initialised and runs no process. *)
Record idle (L : layout) (k : kernel) : Prop := {
  id_ring : ring (sc k) [];
  id_node : curr_node (sc k) = Some Sentinel;
  id_first : first_shell (sc k) = true;
  id_curr : curr_process (pr k) = None;
  id_pids : pid_arr (pr k) = replicate 6 CLEAR;
  id_count : Z.of_nat (length (pcbs (pr k))) = 6;
  id_sizes : forall i b, (pcbs (pr k)).[i] = Some b -> length (files b) = 8%nat /\ length (command b) = 33%nat /\ length (args b) = 100%nat;
  id_roots : length (roots (pr k)) = 3%nat;
  id_paging : paging_ok L (pg (pr k)) }.

Section Launch.
Context (L : layout) (pit_ret : Z) (k0 : kernel) (j p : Z) (w a cmd abuf : list Z).
Hypotheses (Hpf : program_file k0 j p) (Hlen : 28 <= inode_length (image k0) p <= 0x3b8000)
  (Hcmd : cstring cmd w) (Habuf : cstring abuf a) (Hw : (length w < 33)%nat) (Ha : (length a < 100)%nat) (Hret : u32_range_of pit_ret).

Definition shell_of (n : Z) (b : pcb) : pcb :=
  with_files (fresh_files (files b)) (shell_block None n (entry_point k0 p) w a b).

(** Where the program of process [i] is in memory. *)
Definition loaded_at (i x : Z) : Prop := load_address i <= x < load_address i + inode_length (image k0) p.

(** The start of a process that was scheduled and has not run. *)
Definition starts_at (m : memory) (b : pcb) : Prop :=
  esp b = ebp b /\ c_ret (resume m (ebp b)) = pit_ret /\ c_esp (resume m (ebp b)) = kernel_stack b /\
  c_frame (resume m (ebp b)) = Iret (entry_point k0 p) USER_CS STACK_FLAGS USTACK_START USER_DS.

(** The kernel with the shells [q] started and none of them running yet. *)
Record launched (k : kernel) (q : list Z) : Prop := {
  la_ring : ring (sc k) q;
  la_node : curr_node (sc k) = Some Sentinel;
  la_first : first_schedule (sc k) = false /\ first_shell (sc k) = true;
  la_run : forall i, i ∈ q -> running (nd (sc k) (Task i)) = TASK_RUNNING;
  la_block : forall i, i ∈ q -> exists b x y, (pcbs (pr k)).[i] = Some (with_esp_ebp x y (shell_of i b));
  la_start : forall i b, i ∈ q -> i <> 0 -> (pcbs (pr k)).[i] = Some b -> ebp b = get_kstack_address i - 68 /\ starts_at (kmem (pr k)) b;
  la_count : Z.of_nat (length (pcbs (pr k))) = 6;
  la_sizes : forall i b, (pcbs (pr k)).[i] = Some b -> length (files b) = 8%nat /\ length (command b) = 33%nat /\ length (args b) = 100%nat;
  la_paging : paging_ok L (pg (pr k));
  la_memory : forall i x, i ∈ q -> loaded_at i x -> umem k x = file_byte (image k0) (fsys k0) p (x - load_address i);
  la_outside : forall x, (forall i, i ∈ q -> ~ loaded_at i x) -> umem k x = umem k0 x;
  la_same : fsys k = fsys k0 /\ image k = image k0 /\ screen k = screen k0 /\ clock k = clock k0 }.

(** The addresses of the kernel stacks of the shells. *)
Lemma kstack_shell n : 0 <= n < 6 -> get_kstack_address n = 0x7ffffc - 0x2000 * n.
Proof. intros Hn. unfold get_kstack_address, STACK_START, STACK_SIZE, WORD. rewrite u32_small by lia. lia. Qed.

(** The memory after one more shell was loaded. *)
Lemma loaded_memory_shell m n x :
  0 <= n <= 2 ->
  store_bytes m (load_address n) (file_content (image k0) (fsys k0) p) x =
  if (load_address n <=? x) && (x <? load_address n + inode_length (image k0) p)
  then file_byte (image k0) (fsys k0) p (x - load_address n) else m x.
Proof.
  intros Hr. pose proof (do_bytes _ _ (pf_dir _ _ _ Hpf)) as Hm.
  assert (load_address n = 0x848000 + 0x400000 * n) as Ea.
  { unfold load_address, program_frame, PROGRAM_DIR_START, PROGRAM_OFFSET. lia. }
  rewrite store_bytes_get by (rewrite ?length_content, ?Ea; lia || by apply content_bytes).
  rewrite length_content by lia. case_if; [|done]. unfold file_content.
  rewrite zget_lookup by lia. rewrite list_lookup_fmap, seqZ_get. rewrite Z2Nat.id by lia.
  btrue (x - load_address n <? inode_length (image k0) p). done.
Qed.

(** From the control block of shell [n], prepared by [pcb_init] and entered, to the queue. *)
Lemma launch_schedule k q n b p1 :
  launched k q \/ (q = [] /\ ring (sc k) [] /\ curr_node (sc k) = Some Sentinel /\ first_shell (sc k) = true) ->
  0 <= n <= 2 -> n ∉ q -> (pcbs p1).[n] = Some b -> parent b = None -> kernel_stack b = get_kstack_address n ->
  instr_ptr b = entry_point k0 p -> user_stack b = USTACK_START ->
  exists s' p', schedule pit_ret n (sc k) p1 = Some (s', p') /\ ring s' (q ++ [n]) /\ curr_node s' = Some Sentinel /\
    first_schedule s' = false /\ first_shell s' = true /\
    (forall i, i ∈ q ++ [n] -> (i ∈ q -> running (nd (sc k) (Task i)) = TASK_RUNNING) -> running (nd s' (Task i)) = TASK_RUNNING) /\
    (exists x y, (pcbs p').[n] = Some (with_esp_ebp x y b)) /\
    (first_schedule (sc k) = false -> exists b', (pcbs p').[n] = Some b' /\ ebp b' = get_kstack_address n - 68 /\ starts_at (kmem p') b') /\
    (forall i, i <> n -> (pcbs p').[i] = (pcbs p1).[i]) /\ length (pcbs p') = length (pcbs p1) /\ same_rest p1 p' /\
    (forall x, ~ get_kstack_address n - 68 <= x < get_kstack_address n -> kmem p' x = kmem p1 x).
Proof.
  intros Hk Hn Hnq Hb Hpar HK Hi Hu. pose proof (kstack_shell n ltac:(lia)) as HKn.
  assert (ring (sc k) q /\ curr_node (sc k) = Some Sentinel /\ first_shell (sc k) = true) as (Hring & Hnode & Hfs).
  { destruct Hk as [[]|(-> & ? & ? & ?)]; [|done]. split_and!; [done | done | apply la_first0]. }
  destruct (entry_bytes k0 j p w a Hpf Hlen Hw Ha) as [He1 He2].
  destruct (schedule_spec pit_ret n (sc k) p1 q b Hring) as
    (s' & p' & E & Hring' & Hnode' & Hfs' & Hrun & Hres & Hblk & Hoth & Hcount & Hrest); try done; try lia.
  { unfold parent_queued. by rewrite Hpar. }
  { rewrite Hi. by apply dword_of_range. }
  { by rewrite Hu. }
  destruct (schedule_stack _ _ _ _ _ _ _ E Hb) as (Hshell & Hmem & Hsp); [lia|].
  exists s', p'. split_and!; try done; try congruence.
  - intros i Hiq Hold. rewrite Hrun. destruct (decide (i = n)) as [->|Hne]; [done|]. rewrite Hpar, decide_False by done.
    apply Hold. apply elem_of_app in Hiq as [?|?%list_elem_of_singleton]; done.
  - intros Hf. destruct (Hres (or_introl Hf)) as (b' & Hb' & He & Hr3). destruct Hblk as (x & y & Hb2).
    exists b'. split; [done|]. destruct Hr3 as (Hr2 & _ & Hr3 & Hr4). unfold starts_at. rewrite Hb2 in Hb'. injection Hb' as <-.
    cbn [kernel_stack with_esp_ebp]. rewrite Hi, Hu in Hr4. specialize (Hsp Hf). rewrite Hb2 in Hsp. injection Hsp as -> ->.
    split; [cbn [ebp with_esp_ebp]; by rewrite HK|]. split_and!; [exact He | exact Hr2 | exact Hr3 | exact Hr4].
  - rewrite <- HK. exact Hmem.
Qed.

(** The assignments of [open_shell] to the control block of shell [n]. *)
Lemma enter_shell {X} (K : procs -> option X) n b p1 r term :
  0 <= n <= 2 -> (pcbs p1).[n] = Some b -> length (files b) = 8%nat -> length (command b) = 33%nat -> length (args b) = 100%nat ->
  (roots p1).[n <- Some n] = Some r ->
  (p2 ← pcb_init n n (entry_point k0 p) cmd abuf term p1;
   '(_, p2) ← set_current_process n p2;
   r ← (roots p2).[n <- Some n];
   let p2 := set_roots r p2 in
   p2 ← upd_pcb n (with_parent None) p2;
   p2 ← upd_pcb n (with_terminal n) p2;
   '(_, p2) ← open_stdin_stdout p2; K p2) =
  K (Procs (<[Z.to_nat n := shell_of n b]> (pcbs p1)) (Some n) (Some n) (pid_arr p1) r (get_kstack_address n) (pg p1) (kmem p1)).
Proof.
  intros Hn Hb Hf Hc Hargs Hr. pose proof (zget_Some_range _ _ _ Hb) as Hrange.
  erewrite pcb_init_shell by (done || lia). rewrite some_bind.
  erewrite set_current_spec; [|cbn [pcbs set_pcbs]; by rewrite zget_insert, Z.eqb_refl by done | done]. rewrite some_bind.
  cbn [roots set_pcbs pcbs]. rewrite Hr, some_bind, list_insert_insert_eq. cbv zeta.
  erewrite (upd_pcb_eq n); [|cbn [pcbs set_roots]; by rewrite zget_insert, Z.eqb_refl by done]. rewrite some_bind.
  erewrite (upd_pcb_eq n); [|cbn [pcbs set_roots set_pcbs]; by rewrite zget_insert, Z.eqb_refl by (rewrite length_insert; lia)]. rewrite some_bind.
  erewrite (open_std_spec n); [|done | cbn [pcbs set_roots set_pcbs]; by rewrite zget_insert, Z.eqb_refl by (rewrite ?length_insert; lia)
    | cbn [files with_files with_terminal with_parent]; by rewrite length_map].
  rewrite some_bind. unfold set_pcbs, set_roots. cbn [pcbs curr_process desc pid_arr roots esp0 pg kmem]. by rewrite !list_insert_insert_eq.
Qed.

Lemma ring_range s q i : ring s q -> i ∈ q -> 0 <= i < 6.
Proof. intros [_ _ _ _ _ _ Ht] Hi. rewrite Forall_forall in Ht. by apply Ht. Qed.

(** Programs in memory do not meet. *)
Lemma loaded_apart i n x : loaded_at i x -> 0 <= i < 6 -> 0 <= n <= 2 -> i <> n -> ~ loaded_at n x.
Proof. unfold loaded_at, load_address, program_frame, PROGRAM_DIR_START, PROGRAM_OFFSET. lia. Qed.

Lemma shell_sizes n b x y :
  length (files b) = 8%nat -> length (command b) = 33%nat -> length (args b) = 100%nat ->
  let b' := with_esp_ebp x y (shell_of n b) in length (files b') = 8%nat /\ length (command b') = 33%nat /\ length (args b') = 100%nat.
Proof.
  intros H8 H33 H100. cbn [files command args with_esp_ebp shell_of with_files shell_block]. split_and!.
  - unfold fresh_files. cbn [length]. rewrite length_drop, length_map. lia.
  - rewrite length_app. cbn [length]. rewrite length_drop. lia.
  - rewrite length_app. cbn [length]. rewrite length_drop. lia.
Qed.

(** A stack that was not touched still starts its process. *)
Lemma starts_keep m m' i b :
  0 <= i < 6 -> ebp b = get_kstack_address i - 68 -> (forall x, get_kstack_address i - 68 <= x < get_kstack_address i -> m' x = m x) ->
  starts_at m b -> starts_at m' b.
Proof.
  intros Hi He Hm (H1 & H2 & H3 & H4). pose proof (kstack_shell i Hi) as HK. unfold starts_at.
  rewrite (resume_ext m m') by (rewrite ?He; try lia; intros; apply Hm; lia). done.
Qed.

(** The programs in memory after one more was loaded. *)
Lemma loaded_more k q n :
  launched k q -> 0 <= n <= 2 -> n ∉ q ->
  let m := store_bytes (umem k) (load_address n) (file_content (image k0) (fsys k0) p) in
  (forall i x, i ∈ q ++ [n] -> loaded_at i x -> m x = file_byte (image k0) (fsys k0) p (x - load_address i)) /\
  (forall x, (forall i, i ∈ q ++ [n] -> ~ loaded_at i x) -> m x = umem k0 x).
Proof.
  intros Hla Hn Hnq m. unfold m. split.
  - intros i x' Hi Hx. rewrite loaded_memory_shell by done. apply elem_of_app in Hi as [Hi|Hi%list_elem_of_singleton].
    + rewrite (proj2 (andb_false_iff _ _)); [by apply Hla|]. apply (loaded_apart i n) in Hx; [unfold loaded_at in Hx; lia | | done | by intros ->].
      apply (ring_range (sc k) q); [apply Hla | done].
    + subst i. unfold loaded_at in Hx. by btrue ((load_address n <=? x') && (x' <? load_address n + inode_length (image k0) p)).
  - intros x' Hx. rewrite loaded_memory_shell by done. rewrite (proj2 (andb_false_iff _ _)).
    + apply Hla. intros i Hi. apply Hx. apply elem_of_app. by left.
    + pose proof (Hx n) as Hxn. unfold loaded_at in Hxn. destruct (Z.leb_spec (load_address n) x'); [right|by left].
      apply Z.ltb_ge. apply Z.nlt_ge. intros Hlt. apply Hxn; [apply elem_of_app; right; by left | done].
Qed.

Lemma open_shell_launch k q n :
  launched k q -> n = 1 \/ n = 2 -> n ∉ q -> length (roots (pr k)) = 3%nat ->
  exists k', open_shell L pit_ret (entry_point k0 p) p cmd abuf n k = Some (true, k') /\ launched k' (q ++ [n]) /\
    pid_arr (pr k') = pid_arr (pr k) /\ (roots (pr k)).[n <- Some n] = Some (roots (pr k')).
Proof.
  intros Hla Hn Hnq Hroots. pose proof Hla as [Hring Hnode [Hfs Hshell] Hrun Hblock Hstart Hcount Hsizes Hpg Hmem Hout (Hf & Him & Hsc & Hck)].
  assert (0 <= n <= 2) as Hn2 by lia. pose proof (kstack_shell n ltac:(lia)) as HKn.
  destruct (switch_paging_ok L (pg (pr k)) n) as (pg1 & E1 & _ & Hpg1); [unfold pid_ok; lia | done|].
  unfold open_shell. rewrite E1, some_bind.
  rewrite load_program_spec; cbn [image fsys set_pr umem]; rewrite ?Him, ?Hf;
    [|apply (do_bytes _ _ (pf_dir _ _ _ Hpf)) | apply (do_blocks _ _ (pf_dir _ _ _ Hpf)) | destruct (pf_whole _ _ _ Hpf) as [W1 W2]; split; cbn [image fsys set_pr]; by rewrite ?Him, ?Hf].
  cbv zeta. cbn [negb pr set_umem set_pr].
  destruct (zget_ex (pcbs (pr k)) n) as [b Hb]; [lia|]. destruct (Hsizes n b Hb) as (H8 & H33 & H100).
  destruct (zset_in_ex (roots (pr k)) n (Some n)) as [r Hr]; [lia|].
  rewrite (enter_shell _ n b (set_pg pg1 (pr k)) r) by done.
  set (p1 := Procs _ _ _ _ _ _ _ _).
  assert ((pcbs p1).[n] = Some (shell_of n b)) as Hp1 by (cbn [pcbs p1 set_pg]; by rewrite zget_insert, Z.eqb_refl by lia).
  rewrite Hp1, some_bind. change (pid (shell_of n b)) with n. change (kernel_stack (shell_of n b)) with (get_kstack_address n).
  set (p2 := set_kmem _ p1).
  destruct (launch_schedule k q n (shell_of n b) p2) as (s' & p' & E2 & Hring' & Hnode' & Hfs' & Hsh' & Hrun' & (x & y & Hblk) & Hst & Hoth & Hcnt & Hrest & Hkm);
    [by left | done | done | exact Hp1 | done..|].
  change (sc (set_umem _ _)) with (sc k). rewrite E2, some_bind. eexists. split; [reflexivity|].
  assert (forall i, i <> n -> (pcbs p').[i] = (pcbs (pr k)).[i]) as Hother.
  { intros i Hi. rewrite Hoth by done. cbn [pcbs p2 p1 set_kmem set_pg]. rewrite zget_insert by lia. by bfalse (i =? n). }
  destruct Hrest as (_ & _ & Hpa & Hro & _ & Hpg').
  split_and!; [|cbn [pr set_sc set_pr]; exact Hpa | cbn [pr set_sc set_pr]; rewrite Hro; exact Hr].
  split; cbn [sc pr umem fsys image screen clock set_sc set_pr set_umem].
  - exact Hring'.
  - exact Hnode'.
  - done.
  - intros i Hi. apply Hrun'; [done | apply Hrun].
  - intros i [Hi|Hi%list_elem_of_singleton]%elem_of_app; [rewrite Hother by (intros ->; done); by apply Hblock | subst i; eauto].
  - intros i b' [Hi|Hi%list_elem_of_singleton]%elem_of_app H0 Hb'.
    + assert (i <> n) as Hin by (intros ->; done). rewrite Hother in Hb' by done.
      destruct (Hstart i b' Hi H0 Hb') as (He & Hs). split; [done|].
      pose proof (ring_range _ _ _ Hring Hi) as Hi6. pose proof (kstack_shell i Hi6) as HKi.
      apply (starts_keep (kmem (pr k)) _ i); [done | done | | done]. intros x' Hx. rewrite Hkm by lia.
      cbn [kmem p2 set_kmem]. rewrite u32_small by lia. rewrite put_iret_eq by lia. rewrite !store32_frame by (unfold area; lia). done.
    + subst i. destruct (Hst Hfs) as (b2 & Hb2 & He & Hs). replace b2 with b' in * by congruence. done.
  - rewrite Hcnt. cbn [pcbs p2 p1 set_kmem set_pg]. rewrite length_insert. exact Hcount.
  - intros i b' Hb'. destruct (decide (i = n)) as [->|Hin]; [|rewrite Hother in Hb' by done; by apply (Hsizes i)].
    rewrite Hblk in Hb'. injection Hb' as <-. by apply shell_sizes.
  - rewrite Hpg'. exact Hpg1.
  - exact (proj1 (loaded_more k q n Hla Hn2 Hnq)).
  - exact (proj2 (loaded_more k q n Hla Hn2 Hnq)).
  - rewrite Hf, Him. done.
Qed.

(** Changes of the processes beside the control blocks and the stacks. *)
Lemma launched_procs k q p' :
  launched k q -> pcbs p' = pcbs (pr k) -> kmem p' = kmem (pr k) -> paging_ok L (pg p') -> launched (set_pr p' k) q.
Proof.
  intros [] E1 E2 Hp. split; cbn [pr set_pr sc umem fsys image screen clock]; rewrite ?E1, ?E2; done.
Qed.

Lemma shell_pid k q i b : launched k q -> i ∈ q -> (pcbs (pr k)).[i] = Some b -> pid b = i.
Proof. intros Hla Hi Hb. destruct (la_block _ _ Hla i Hi) as (b0 & x & y & E). rewrite E in Hb. by injection Hb as <-. Qed.

Lemma open_shells_launch k :
  launched k [0] -> length (roots (pr k)) = 3%nat -> length (pid_arr (pr k)) = 6%nat ->
  exists k', open_shells L pit_ret (entry_point k0 p) p cmd abuf k = Some (SUCCESS, k') /\ launched k' [0; 1; 2] /\
    curr_process (pr k') = Some 0 /\ desc (pr k') = Some 0 /\ cr3 (pg (pr k')) = pd_addr L 0 /\
    pid_arr (pr k') = <[1%nat := ON]> (<[2%nat := ON]> (pid_arr (pr k))) /\
    roots (pr k') = <[2%nat := Some 2]> (<[1%nat := Some 1]> (roots (pr k))).
Proof.
  intros Hla Hr Hpid. unfold open_shells, SECOND_TERMINAL, THIRD_TERMINAL, FIRST_TERMINAL.
  destruct (open_shell_launch k [0] 1 Hla) as (k1 & -> & Hla1 & Hp1 & Hr1); [by left | by intros ?%list_elem_of_singleton | done|].
  rewrite some_bind. cbn [negb]. pose proof (zset_length _ _ _ _ Hr1) as Hl1.
  destruct (open_shell_launch k1 [0; 1] 2 Hla1) as (k2 & -> & Hla2 & Hp2 & Hr2); [by right | | congruence |].
  { intros [?|?%list_elem_of_singleton]%elem_of_cons; done. }
  rewrite some_bind. cbn [negb app] in *. rewrite Hp2, Hp1. rewrite !zset_in in * by (rewrite ?length_insert; lia).
  rewrite !some_bind. rewrite zset_in by (rewrite ?length_insert; lia). rewrite some_bind. cbn [pg set_pid_arr].
  destruct (switch_paging_ok L (pg (pr k2)) 0) as (pg1 & -> & _ & Hpg1); [unfold pid_ok; lia | apply (la_paging _ _ Hla2)|]. rewrite some_bind.
  set (p1 := set_pg pg1 _).
  assert (procs_ok L p1 [0; 1; 2]) as Hok.
  { split; [apply (la_count _ _ Hla2) | | exact Hpg1]. apply Forall_forall. intros i Hi.
    destruct (la_block _ _ Hla2 i Hi) as (b & x & y & Hb). exists (with_esp_ebp x y (shell_of i b)). split; [exact Hb | done]. }
  destruct (zget_ex (pcbs p1) 0) as [b Hb]; [pose proof (po_size _ _ _ Hok); lia|].
  unfold reset_curr_process at 1. cbn [set_desc set_curr pcbs p1 set_pg set_pid_arr]. change (pcbs p1) with (pcbs (pr k2)) in Hb.
  rewrite Hb, some_bind. rewrite (shell_pid k2 [0; 1; 2] 0 b Hla2) by (by left || done). cbn [pg set_esp0 set_desc set_curr set_pg set_pid_arr].
  destruct (switch_paging_ok L (pg p1) 0) as (pg2 & -> & Hcr & Hpg2); [unfold pid_ok; lia | done|]. rewrite !some_bind.
  eexists. split; [reflexivity|]. split; [by apply launched_procs|]. cbn [pr set_pr set_pg set_esp0 set_desc set_curr set_pid_arr curr_process desc pg pid_arr roots].
  split_and!; try done. change (roots p1) with (roots (pr k2)). injection Hr1 as Hr1. injection Hr2 as Hr2. by rewrite <- Hr2, <- Hr1.
Qed.

(** The kernel after the first call of [kexecute]. *)
Record three_shells (k : kernel) : Prop := {
  ts_launched : launched k [0; 1; 2];
  ts_curr : curr_process (pr k) = Some 0;
  ts_cr3 : cr3 (pg (pr k)) = pd_addr L 0;
  ts_pids : pid_arr (pr k) = [ON; ON; ON; CLEAR; CLEAR; CLEAR];
  ts_roots : roots (pr k) = [Some 0; Some 1; Some 2];
  ts_timer : timer_on k = true }.

(** The first shell alone. *)
Lemma launch_first s1 p1 b :
  idle L k0 -> ring s1 [0] -> curr_node s1 = Some Sentinel -> first_schedule s1 = false -> first_shell s1 = true ->
  running (nd s1 (Task 0)) = TASK_RUNNING -> (pcbs (pr k0)).[0] = Some b ->
  (exists x y, (pcbs p1).[0] = Some (with_esp_ebp x y (shell_of 0 b))) ->
  (forall i, i <> 0 -> (pcbs p1).[i] = (pcbs (pr k0)).[i]) -> length (pcbs p1) = length (pcbs (pr k0)) -> paging_ok L (pg p1) ->
  launched (set_sc s1 (set_pr p1 (set_umem (store_bytes (umem k0) (load_address 0) (file_content (image k0) (fsys k0) p)) k0))) [0].
Proof.
  intros [] Hring Hnode Hfs Hsh Hrun Hb (x & y & Hblk) Hoth Hcnt Hpg.
  assert (forall i, i ∈ [0] -> i = 0) as H0 by (by intros i Hi%list_elem_of_singleton).
  split; cbn [sc pr umem fsys image screen clock set_sc set_pr set_umem]; try done.
  - intros i ->%H0. exact Hrun.
  - intros i ->%H0. eauto.
  - intros i b' Hi%H0 Hne. done.
  - by rewrite Hcnt.
  - intros i b' Hb'. destruct (decide (i = 0)) as [->|Hi]; [|rewrite Hoth in Hb' by done; by apply (id_sizes0 i)].
    rewrite Hblk in Hb'. injection Hb' as <-. destruct (id_sizes0 0 b Hb) as (? & ? & ?). by apply shell_sizes.
  - intros i x' ->%H0 Hx. rewrite loaded_memory_shell by lia. unfold loaded_at in Hx.
    by btrue ((load_address 0 <=? x') && (x' <? load_address 0 + inode_length (image k0) p)).
  - intros x' Hx. rewrite loaded_memory_shell by lia. specialize (Hx 0 ltac:(by left)). unfold loaded_at in Hx.
    by bfalse ((load_address 0 <=? x') && (x' <? load_address 0 + inode_length (image k0) p)).
Qed.

(** Only process 0 exists. *)
Lemma only_first_on {A} (x y : option A) :
  (a ← [ON; CLEAR; CLEAR; CLEAR; CLEAR; CLEAR].[0]; b ← [ON; CLEAR; CLEAR; CLEAR; CLEAR; CLEAR].[1]; c ← [ON; CLEAR; CLEAR; CLEAR; CLEAR; CLEAR].[2];
   if (a =? ON) && (b =? CLEAR) && (c =? CLEAR) then x else y) = x.
Proof. done. Qed.

(** The other two shells behind it. *)
Lemma other_shells k :
  launched k [0] -> pid_arr (pr k) = [ON; CLEAR; CLEAR; CLEAR; CLEAR; CLEAR] -> length (roots (pr k)) = 3%nat -> (roots (pr k)).[0] = Some (Some 0) ->
  exists k', open_shells L pit_ret (entry_point k0 p) p cmd abuf k = Some (SUCCESS, k') /\ three_shells (set_timer true k').
Proof.
  intros Hla Hp Hr3 Hr0. destruct (open_shells_launch k Hla Hr3) as (k' & E & Hla' & Hc & _ & Hcr & Hp' & Hr'); [by rewrite Hp|].
  exists k'. split; [done|]. split; cbn [pr set_timer timer_on]; try done.
  - by destruct Hla'.
  - by rewrite Hp', Hp.
  - rewrite Hr'. destruct (roots (pr k)) as [|r0 [|r1 [|r2 [|]]]]; try done. injection Hr0 as ->. done.
Qed.

Lemma start_first_shell jk esp_in ebp_in :
  idle L k0 ->
  exists k', start_process L pit_ret jk 0 (load_dentry (image k0) (entry_addr (fsys k0) j)) cmd abuf esp_in ebp_in k0 = Some (Yields k') /\
    three_shells k'.
Proof.
  intros Hid. pose proof Hid as [Hring Hnode Hfirst Hcurr Hpids Hcount Hsizes Hroots Hpg].
  unfold start_process, THIRD_TERMINAL, SECOND_TERMINAL, FIRST_TERMINAL. bfalse (2 <? 0).
  destruct (switch_paging_ok L (pg (pr k0)) 0) as (pg1 & -> & _ & Hpg1); [unfold pid_ok; lia | done|]. rewrite some_bind.
  cbn [fsys set_pr]. rewrite (program_ptr k0 j p w a Hpf Hw Ha).
  rewrite load_program_spec; [|apply (do_bytes _ _ (pf_dir _ _ _ Hpf)) | apply (do_blocks _ _ (pf_dir _ _ _ Hpf)) | by destruct (pf_whole _ _ _ Hpf)].
  unfold shown_terminal. cbn [negb pr set_umem set_pr image fsys umem sc screen clock timer_on set_pg pid_arr].
  rewrite Hpids. change ((replicate 6 CLEAR).[0 <- ON]) with (Some [ON; CLEAR; CLEAR; CLEAR; CLEAR; CLEAR]). rewrite some_bind.
  rewrite (read_entry_point k0 j p w a Hpf Hw Ha). unfold result_of.
  rewrite dword_of_four by apply (entry_bytes k0 j p w a Hpf Hlen Hw Ha). change (dword_of (slice k0 p 24 4) []) with (entry_point k0 p).
  destruct (zget_ex (pcbs (pr k0)) 0) as [b Hb]; [lia|]. destruct (Hsizes 0 b Hb) as (H8 & H33 & H100).
  unfold new_process. erewrite pcb_init_shell by (try done; cbn; try done; lia). rewrite some_bind. cbn [curr_process set_pid_arr set_pg]. rewrite Hcurr.
  match goal with |- context [set_current_process 0 ?P] =>
    destruct (enter_process_spec 0 (shell_block None 0 (entry_point k0 p) w a b) P) as (p1 & -> & Estd) end;
    [cbn [pcbs set_pcbs set_pid_arr set_pg]; by rewrite zget_insert, Z.eqb_refl by lia | done|].
  rewrite some_bind, Estd, some_bind. clear Estd p1. cbn [set_pcbs set_pid_arr set_pg pcbs curr_process desc pid_arr roots esp0 pg kmem].
  rewrite list_insert_insert_eq. change (with_files _ _) with (shell_of 0 b). rewrite zget_insert, Z.eqb_refl, some_bind by lia.
  cbn [parent shell_of with_files shell_block]. rewrite some_bind. cbn [pcbs]. rewrite zget_insert, Z.eqb_refl, some_bind by lia.
  change (pid (shell_of 0 b)) with 0. set (p2 := Procs _ _ _ _ _ _ _ _).
  destruct (launch_schedule k0 [] 0 (shell_of 0 b) (set_pg (cli (pg p2)) p2)) as
    (s1 & p3 & -> & Hring1 & Hnode1 & Hfs1 & Hsh1 & Hrun1 & (x & y & Hblk) & _ & Hoth & Hcnt & (Hcur & _ & Hpa & Hro & _ & Hpg3) & _);
    [by right | lia | by apply not_elem_of_nil | cbn [pcbs p2 set_pg]; by rewrite zget_insert, Z.eqb_refl by lia | done..|].
  rewrite some_bind. cbn [app] in *. cbn [curr_process pid_arr roots pg p2 set_pg pcbs] in Hcur, Hpa, Hro, Hpg3, Hoth, Hcnt.
  change (0 <=? 2) with true. cbv iota. cbn [roots set_pg]. rewrite Hro, zset_in, !some_bind by lia. cbn [pid_arr set_roots set_pg]. rewrite Hpa.
  rewrite only_first_on.
  rewrite (upd_pcb_eq 0 _ (with_esp_ebp x y (shell_of 0 b))) by exact Hblk. rewrite some_bind. cbn [curr_process set_pcbs set_roots set_pg].
  rewrite Hcur, some_bind. cbn [roots set_pcbs set_roots]. rewrite zset_in, some_bind, list_insert_insert_eq by (rewrite length_insert; lia).
  change (with_terminal 0 (with_esp_ebp x y (shell_of 0 b))) with (with_esp_ebp x y (shell_of 0 b)).
  match goal with |- context [open_shells _ _ _ _ _ _ ?K] => set (k1 := K) end.
  assert (pcbs (pr k1) = pcbs p3) as Hpc.
  { cbn [pr k1 set_pr set_roots set_pcbs set_pg pcbs]. apply list_insert_id. rewrite zget_lookup in Hblk by lia. exact Hblk. }
  assert (launched k1 [0]) as Hla1.
  { apply (launch_first s1 (pr k1) b); try done; rewrite ?Hpc.
    - apply Hrun1; [by left | by intros ?%not_elem_of_nil].
    - by exists x, y.
    - intros i Hi. rewrite Hoth by done. rewrite zget_insert by lia. by bfalse (i =? 0).
    - rewrite Hcnt. by rewrite length_insert.
    - cbn [pr k1 set_pr set_roots set_pcbs set_pg pg]. rewrite Hpg3. by apply paging_ok_intr, paging_ok_intr. }
  destruct (other_shells k1 Hla1) as (k' & -> & Hthree).
  { cbn [pr k1 set_pr set_roots set_pcbs set_pg pid_arr]. by rewrite Hpa. }
  { cbn [pr k1 set_pr set_roots roots]. by rewrite length_insert. }
  { cbn [pr k1 set_pr set_roots roots]. by rewrite zget_insert by lia. }
  rewrite some_bind. change (SUCCESS =? ERROR) with false. cbv iota. by eexists.
Qed.

(** The first timer interrupt. *)
Lemma first_tick k regs esp_in ebp_in :
  three_shells k -> 0 <= regs -> regs + 20 < 2 ^ 32 ->
  exists s' p', pit_handler L regs esp_in ebp_in (sc k) (pr k) = Some (s', p', esp_in, ebp_in) /\
    system L (set_sc s' (set_pr p' k)) [0; 1; 2] 0 /\ first_shell s' = false /\
    load_iret (kmem p') regs = Iret (entry_point k0 p) USER_CS STACK_FLAGS USTACK_START USER_DS /\
    kmem p' = put_iret (kmem (pr k)) regs (Iret (entry_point k0 p) USER_CS STACK_FLAGS USTACK_START USER_DS) /\
    (forall x, running (nd s' x) = running (nd (sc k) x)) /\ pcbs p' = pcbs (pr k) /\ pid_arr p' = pid_arr (pr k) /\
    desc p' = Some 0 /\ esp0 p' = get_kstack_address 0 /\ cr3 (pg p') = pd_addr L 0.
Proof.
  intros [Hla Hcurr Hcr Hpids Hroots _] Hr1 Hr2. pose proof Hla as [Hring Hnode [Hfs Hsh] Hrun Hblock _ Hcount Hsizes Hpg _ _ _].
  pose proof Hring as [Hsize Hhead Htail _ Hlinks _ Htasks]. destruct Hlinks as [[Hnext _] _].
  unfold pit_handler. rewrite Hnode, some_bind, Hsh. rewrite bool_decide_eq_true_2 by done. cbn [andb].
  rewrite node_at_nd by done. rewrite some_bind, Hnext, some_bind.
  assert (task_ok (sc k) 0) as [_ Hproc] by (by inversion Htasks).
  rewrite node_at_nd, some_bind, Hproc, some_bind by (done || cbn; lia).
  destruct (Hblock 0) as (b & x & y & Hb); [by left|]. rewrite Hb, some_bind.
  assert (procs_ok L (pr k) [0; 1; 2]) as Hok.
  { split; [done | | done]. apply Forall_forall. intros i Hi. destruct (Hblock i Hi) as (b' & x' & y' & Hb'). by eexists. }
  destruct (reset_curr_ok L (pr k) [0; 1; 2] 0 _ Hok ltac:(by left) ltac:(unfold pid_ok; lia) Hb) as (p' & E & Hok' & Hpc & Hkm & Hc' & Hd' & He' & Hcr').
  assert (pid_arr p' = pid_arr (pr k)) as Hpa.
  { unfold reset_curr_process in E. apply bind_Some in E as (b1 & _ & E). apply bind_Some in E as ([r pg1] & _ & E). by injection E as <-. }
  rewrite E, some_bind. eexists _, _. split; [reflexivity|]. cbn [instr_ptr user_stack with_esp_ebp shell_of with_files shell_block].
  split_and!; [|done| |by rewrite <- Hkm | done | exact Hpc | exact Hpa | exact Hd' | exact He' | exact Hcr'].
  - split; cbn [sc pr set_sc set_pr set_kmem curr_process pid_arr pcbs]; rewrite ?Hpa, ?Hpids, ?Hpc; try done.
    + by destruct Hring.
    + by left.
    + by destruct Hok'.
    + intros i Hi. assert (i = 0 \/ i = 1 \/ i = 2) as [-> | [-> | ->]] by lia; done.
    + intros i Hi. repeat (apply elem_of_cons in Hi as [->|Hi]; [done|]). by apply not_elem_of_nil in Hi.
  - cbn [kmem set_kmem]. destruct (entry_bytes k0 j p w a Hpf Hlen Hw Ha) as [He1 He2].
    pose proof (dword_of_range _ [] He1 He2) as He. change (u32_range_of (entry_point k0 p)) in He.
    rewrite put_iret_eq by lia. cbn [eip cs iflags uesp ss]. unfold load_iret. addresses.
    unfold u32_range_of in He. unfold STACK_FLAGS, USER_CS, USER_DS, USTACK_START. f_equal; loads; done || lia.
Qed.

End Launch.

(** What the argument buffer holds when a command has no arguments: nothing if the stack
    slot of [no_args] held 0, else what was in it before. *)
Definition args_left (jk : junk) (len : Z) (a : list Z) : Prop :=
  no_args_junk jk = CLEAR /\ a = [] \/
  no_args_junk jk <> CLEAR /\ cstring (take (Z.to_nat (CMD_LENGTH - len)) (args_junk jk)) a /\ (length a < 100)%nat.

Lemma parse_no_args jk w rest a :
  Forall word_char w -> (length w < 128)%nat -> (128 <= length (args_junk jk))%nat -> args_left jk (Z.of_nat (length w)) a ->
  exists abuf, parse_args jk (Z.of_nat (length w)) false (w ++ 0 :: rest) = Some abuf /\ cstring abuf a /\ (length a < 100)%nat.
Proof.
  intros Hw Hl Hj [[Hn ->]|(Hn & Ha & Hla)].
  - destruct (parse_args_spec jk w 0 [] 0 rest false) as (junk' & E); [constructor | done | by left | by right; right | cbn; lia | done|].
    exists (0 :: junk'). split; [exact E|]. split; [by exists junk' | cbn; lia].
  - eexists. split_and!; [|exact Ha | done]. unfold parse_args.
    pose proof (skip_spaces_spec w 0 0 rest (S (length (w ++ 0 :: rest)))) as E. cbn [replicate app] in E. rewrite Nat.add_0_r in E.
    rewrite E by (done || rewrite length_app; cbn; lia). rewrite some_bind, zget_app_r, Z.sub_diag by lia.
    change ((0 :: rest).[0]) with (Some 0). rewrite some_bind. cbn [negb Z.eqb]. unfold CMD_LENGTH. bfalse (128 - Z.of_nat (length w) <? 0).
    by rewrite (proj2 (Z.eqb_neq _ _) Hn).
Qed.

(** The first call of [kexecute]. *)
Lemma kexecute_first L pit_ret jk k j p w a rest esp_in ebp_in :
  idle L k -> program_file k j p -> is_elf k p = true -> 28 <= inode_length (image k) p <= 0x3b8000 ->
  entry_name (image k) (fsys k) j = w -> Forall word_char w ->
  (128 <= length (args_junk jk))%nat -> (129 <= length (cmd_junk jk))%nat -> args_left jk (Z.of_nat (length w)) a ->
  u32_range_of pit_ret ->
  exists k', kexecute L pit_ret jk (Some (w ++ 0 :: rest)) esp_in ebp_in k = Some (Yields k') /\ three_shells L pit_ret k p w a k'.
Proof.
  intros Hid Hpf Helf Hlen Hname Hw Hj1 Hj2 Hleft Hret.
  assert (length w < 32)%nat as Hlw by (rewrite <- Hname; apply (pf_name _ _ _ Hpf)).
  assert (w <> []) as Hne by (rewrite <- Hname; apply (do_named _ _ (pf_dir _ _ _ Hpf)), (pf_entry _ _ _ Hpf)).
  assert (cstring (w ++ [0]) w) as Hcs by (exists []; split; [done | by apply word_chars_nonzero]).
  destruct (parse_no_args jk w rest a Hw) as (abuf & Eargs & Habuf & Hla); [lia | done | done|].
  destruct (start_first_shell L pit_ret k j p w a (w ++ [0]) abuf Hpf Hlen Hcs Habuf ltac:(lia) Hla Hret jk esp_in ebp_in Hid) as (k' & Es & Hts).
  exists k'. split; [|done]. unfold kexecute, free_pid_idx. rewrite (id_pids _ _ Hid).
  change (free_pid_from (Z.to_nat PID_ARR_SIZE) 0 (replicate 6 CLEAR)) with (Some 0). rewrite some_bind. change (0 =? ERROR) with false. cbv iota.
  rewrite parse_command_spec, some_bind by (auto || lia).
  unfold get_file_info. rewrite (read_dentry_by_name_spec _ _ _ w (do_boot _ _ (pf_dir _ _ _ Hpf)) Hcs Hne).
  replace (lookup_name (image k) (fsys k) w) with (Some j) by (rewrite <- Hname; symmetry; apply (lookup_own_name k j p Hpf)).
  rewrite !some_bind. change (ERROR =? SUCCESS) with false. cbv iota. rewrite some_bind. change (ERROR =? SUCCESS) with false. cbv iota.
  rewrite (check_executable_spec k j p _ Hpf), Helf, some_bind. change (SUCCESS =? ERROR) with false. cbv iota.
  change (0 =? 10) with false. rewrite Eargs, some_bind. exact Es.
Qed.

(** The first program: on a kernel that runs no process, [kexecute] of an executable
    starts it as the shell of each of the three terminals, every one with its own copy in
    memory, control block, standard files and start-up stack, then starts the timer; and
    the first timer interrupt makes the first of them the current process, its frame
    leading to the entry point in user mode, with the queue of the three shells in order. *)
Theorem first_program_starts_shells L pit_ret jk k j p w a rest esp_in ebp_in regs esp2 ebp2 :
  idle L k -> program_file k j p -> is_elf k p = true -> 28 <= inode_length (image k) p <= 0x3b8000 ->
  entry_name (image k) (fsys k) j = w -> Forall word_char w ->
  (128 <= length (args_junk jk))%nat -> (129 <= length (cmd_junk jk))%nat -> args_left jk (Z.of_nat (length w)) a ->
  u32_range_of pit_ret -> 0 <= regs -> regs + 20 < 2 ^ 32 ->
  exists k' s' p', kexecute L pit_ret jk (Some (w ++ 0 :: rest)) esp_in ebp_in k = Some (Yields k') /\ three_shells L pit_ret k p w a k' /\
    pit_handler L regs esp2 ebp2 (sc k') (pr k') = Some (s', p', esp2, ebp2) /\
    system L (set_sc s' (set_pr p' k')) [0; 1; 2] 0 /\ first_shell s' = false /\
    load_iret (kmem p') regs = Iret (entry_point k p) USER_CS STACK_FLAGS USTACK_START USER_DS.
Proof.
  intros Hid Hpf Helf Hlen Hname Hw Hj1 Hj2 Hleft Hret Hr1 Hr2.
  destruct (kexecute_first L pit_ret jk k j p w a rest esp_in ebp_in) as (k' & Es & Hts); try done.
  assert (length w < 33)%nat as Hlw by (rewrite <- Hname; pose proof (pf_name _ _ _ Hpf); lia).
  destruct (parse_no_args jk w rest a Hw) as (_ & _ & _ & Hla); [lia | done | done|].
  destruct (first_tick L pit_ret k j p w a Hpf Hlen Hlw Hla k' regs esp2 ebp2 Hts Hr1 Hr2) as (s' & p' & Et & Hsys & Hfs & Hfr & _).
  by exists k', s', p'.
Qed.

Definition demo_idle (pages : paging) : kernel :=
  Kernel (Procs (map demo_block (seqZ 0 6)) None None (replicate 6 CLEAR) [None; None; None] 0 pages (fun _ => 0))
    (default zero_sched (sched_init zero_sched)) demo_fs demo_mem (fun _ => 0) demo_terminals (Rtc 1 0) false.

Definition demo_empty_junk : junk := Junk 0 (replicate 128 0) (replicate 129 0) [] [].

Lemma demo_idle_ok L pages : paging_ok L pages -> idle L (demo_idle pages).
Proof.
  intros Hpg. split; try done.
  - split; try done. constructor.
  - intros i b [-> _]%(demo_blocks pages). done.
Qed.

Lemma demo_idle_program pages : program_file (demo_idle pages) 1 demo_inode.
Proof.
  split; [apply demo_dir_ok | vm_compute; split; [discriminate | reflexivity] | vm_compute; lia | apply demo_file_at | by apply demo_whole].
Qed.

Lemma first_program_starts_shells_witness :
  exists pages k' s' p', kexecute demo_layout 0x401000 demo_empty_junk (Some [97; 0]) 1 2 (demo_idle pages) = Some (Yields k') /\
    pit_handler demo_layout 0x7fff00 1 2 (sc k') (pr k') = Some (s', p', 1, 2) /\
    system demo_layout (set_sc s' (set_pr p' k')) [0; 1; 2] 0.
Proof.
  destruct (booted_ok demo_layout zero_paging [] demo_layout_ok zero_paging_sized ltac:(constructor)) as (pages & _ & Hok).
  exists pages. destruct (first_program_starts_shells demo_layout 0x401000 demo_empty_junk (demo_idle pages) 1 demo_inode [97] [] [] 1 2 0x7fff00 1 2)
    as (k' & s' & p' & E & _ & Et & Hs & _);
    [by apply demo_idle_ok | apply demo_idle_program | vm_compute; reflexivity | vm_compute; split; discriminate
    | vm_compute; reflexivity | repeat constructor; lia | cbn; lia | cbn; lia | left; split; reflexivity | split; reflexivity || discriminate | lia | lia|].
  exists k', s', p'. exact (conj E (conj Et Hs)).
Defined.
