(* ===== verification/Drivers.v ===== *)
(** * The drivers behind the operation tables, [student-distrib/file_array.c]

    The four operation tables of the kernel with the functions they really hold: the
    terminal for the standard input and output, the real-time clock, the directory and
    the regular files.  The drivers that block are given as they end: a read of the
    clock with the next clock interrupt, a read of the terminal when a line has been
    entered, and [None] while there is none. *)

From stdpp Require Import base list option sets.
From Stdlib Require Import ZArith Lia ZifyBool.
From S2P Require Import Prelude MemOps Lib Ports Rtc Terminal FileSystem Paging Process Schedule FileArray Reading Lifecycle.

Section Drivers.
Context (L : layout) (dev : log -> Z -> Z).

(** The physical page behind [mem], the kernel's view of video memory at [0xb8000]. *)
Definition video_page (k : kernel) : option Z := translate L (pg (pr k)) false VID_MEM.

Definition std_driver : file_ops := FileOps
  (fun k => v ← video_page k; '(r, ts) ← terminal_open v (screen k); Some (r, set_screen ts k))
  (fun _ _ count k =>
     t ← get_curr_process_terminal (pr k);
     r ← terminal_read t 1 count (screen k);
     match r with
     | ReadError => Some (ERROR, [], k)
     | ReadWaits => None
     | ReadLine n bs ts => Some (n, bs, set_screen ts k)
     end)
  (fun _ buf n k =>
     t ← get_curr_process_terminal (pr k);
     v ← video_page k;
     '(r, ts) ← terminal_write t v (Some buf) n (screen k);
     Some (r, set_screen ts k))
  (fun k =>
     t ← get_curr_process_terminal (pr k);
     '(r, ts) ← terminal_close t (screen k); Some (r, set_screen ts k)).

(** The ports are those of the state of the terminals. *)
Definition set_io (s : io) (ts : terminals) : terminals :=
  Terminals (mem_set ts) (curr_terminal ts) (ttys ts) (vm ts) s.
Definition set_rtc (r : rtc) (s : io) (k : kernel) : kernel :=
  set_screen (set_io s (screen k)) (set_clock r k).

Definition rtc_driver : file_ops := FileOps
  (fun k => let '(ret, r, s) := rtc_open dev (clock k) (pio (screen k)) in Some (ret, set_rtc r s k))
  (fun _ _ _ k =>
     let '(pc, r) := rtc_read_code ReadEnter (clock k) in
     let '(r, s) := rtc_int dev r (pio (screen k)) in
     let '(pc, r) := rtc_read_code pc r in
     match pc with ReadDone ret => Some (ret, [], set_rtc r s k) | _ => None end)
  (fun _ buf _ k =>
     match buf with
     | b0 :: b1 :: b2 :: b3 :: _ =>
         let frequency := b0 + 2 ^ 8 * b1 + 2 ^ 16 * b2 + 2 ^ 24 * b3 in
         let '(ret, s) := rtc_write dev frequency (clock k) (pio (screen k)) in
         Some (ret, set_rtc (clock k) s k)
     | _ => None
     end)
  (fun k => Some (rtc_close, k)).

Definition galapagos_ops (o : op_table) : file_ops :=
  match o with std_ops => std_driver | rtc_op => rtc_driver | dir_op => dir_ops | fs_op => fs_ops end.

Lemma set_rtc_same k : set_rtc (clock k) (pio (screen k)) k = k.
Proof. by destruct k as [? ? ? ? ? [] ? ?]. Qed.

(** The drivers keep the promise the system calls rely on. *)
#[export] Instance galapagos_ops_quiet : QuietOps galapagos_ops.
Proof.
  split.
  - intros [] k Hs Hc; try done; [|by eexists..]. cbn. unfold rtc_open.
    rewrite (proj2 (Z.eqb_neq _ 0) Hc). cbn [negb]. rewrite set_rtc_same. by eexists.
  - intros [] k Hs; try done; by eexists.
Qed.

(** ** Writing to the terminal *)

(** A process at work: the current process has a terminal, and its video page is a page of
    video memory. *)
Record at_terminal (k : kernel) (t v : Z) (x : tty) : Prop := {
  at_term : get_curr_process_terminal (pr k) = Some t;
  at_screen : terminals_ok (screen k);
  at_tty : (ttys (screen k)).[t] = Some x;
  at_page : video_page k = Some v;
  at_page_ok : page_ok v }.

(** What a write to terminal [t], page [v], may change. *)
Record wrote (k k' : kernel) (t v : Z) (x : tty) : Prop := {
  wr_kernel : k' = set_screen (screen k') k;
  wr_screen : terminals_ok (screen k');
  wr_others : others_same t (screen k) (screen k');
  wr_page : only_page v (vm (screen k)) (vm (screen k'));
  wr_shown : curr_terminal (screen k') = curr_terminal (screen k);
  wr_tty : exists x', (ttys (screen k')).[t] = Some x' /\ line x' = [] /\ untouched x' = untouched x }.

(** Under the directory of a process the page is that of its own table. *)
Lemma video_page_word k c :
  layout_ok L -> paging_ok L (pg (pr k)) -> cr3 (pg (pr k)) = pd_addr L c -> pid_ok c ->
  video_page k = Some (getf base_31_12 (ent2 (page_tables (pg (pr k))) c 0xb8) * 4096).
Proof.
  intros HL Hok Hcr Hc. pose proof (kernel_video_word L (pg (pr k)) c 0 HL Hok Hc ltac:(lia)) as E.
  unfold kernel_video in E. rewrite <- Hcr in E.
  replace (set_cr3 (cr3 (pg (pr k))) (pg (pr k))) with (pg (pr k)) in E by (by destruct (pg (pr k))).
  by rewrite !Z.add_0_r in E.
Qed.

(** It is always a page of video memory. *)
Lemma video_page_ok k c :
  layout_ok L -> paging_ok L (pg (pr k)) -> cr3 (pg (pr k)) = pd_addr L c -> pid_ok c ->
  exists v, video_page k = Some v /\ page_ok v.
Proof.
  intros HL Hok Hcr Hc. eexists. split; [by apply video_page_word|]. unfold getf, base_31_12. cbn [fst snd].
  pose proof (get_field_range 12 20 (ent2 (page_tables (pg (pr k))) c 0xb8)). unfold page_ok. lia.
Qed.

(** [terminal_write] leaves the choice of the terminal on display alone. *)
Lemma terminal_write_shown t v buf n ts r ts' :
  terminal_write t v buf n ts = Some (r, ts') -> curr_terminal ts' = curr_terminal ts /\ mem_set ts' = mem_set ts.
Proof.
  unfold terminal_write. destruct buf as [buf|]; [|by intros [= _ <-]].
  destruct (n <? 0); [by intros [= _ <-]|]. intros E.
  apply bind_Some in E as (x & _ & E). apply bind_Some in E as ([[[x1 m1] s1] w1] & _ & E).
  apply bind_Some in E as (l & _ & E). by injection E as _ <-.
Qed.

Lemma std_write_spec fd k t v x bs n :
  at_terminal k t v x -> 0 <= n <= Z.of_nat (length bs) ->
  exists k', op_write std_driver fd bs n k = Some (Z.of_nat (length (shown (take (Z.to_nat n) bs))), k') /\
    wrote k k' t v x.
Proof.
  intros [Ht Hs Hx Hv Hp] Hn. cbn [op_write std_driver].
  destruct (terminal_write_spec t v bs n (screen k) x Hs Hx Hp Hn) as (ts' & x' & E & Hok & Ho & Hpg & Hx' & Hl & Hu & _).
  rewrite Ht, some_bind, Hv, some_bind, E, some_bind. eexists. split; [done|].
  apply terminal_write_shown in E as [Hc _]. split; try done. by exists x'.
Qed.

(** A change of the terminals is none of the processes. *)
Lemma system_screen k q c ts : system L k q c -> system L (set_screen ts k) q c.
Proof. intros []. by split. Qed.

End Drivers.

(** ** The standard files through descriptors *)

(** Descriptors 0 and 1 are those [open_stdin_stdout] made. *)
Record std_files (f : list file_descriptor) : Prop := {
  sf_in : f.[0] = Some (FileDescriptor (Some std_ops) 0 CLEAR (Z.lor FD_IN_USE STDIN));
  sf_out : f.[1] = Some (FileDescriptor (Some std_ops) 0 CLEAR (Z.lor FD_IN_USE STDOUT)) }.

Lemma kwrite_stdout L dev k f bs n :
  desc_is (pr k) f -> std_files f -> 0 <= n ->
  kwrite (galapagos_ops L dev) 1 (Some bs) n k = op_write (std_driver L) 1 bs n k.
Proof.
  intros [Hg Hs] [_ Hout] Hn. unfold kwrite, FILE_ARRAY_SIZE. rewrite Hg, some_bind. bfalse ((1 <? 0) || (8 <=? 1) || (n <? 0)).
  by rewrite Hout, some_bind.
Qed.

Lemma kread_stdin L dev k f buf n :
  desc_is (pr k) f -> std_files f -> buf <> 0 -> 0 <= n ->
  kread (galapagos_ops L dev) 0 buf n k = op_read (std_driver L) 0 CLEAR n k.
Proof.
  intros [Hg Hs] [Hin _] Hb Hn. unfold kread, FILE_ARRAY_SIZE. rewrite Hg, some_bind.
  bfalse ((0 <? 0) || (8 <=? 0) || (buf =? 0) || (n <? 0)). by rewrite Hin, some_bind.
Qed.
