(* ===== verification/Linkage.v ===== *)
(** * The entry of system calls, [student-distrib/assembly_linkage.S]

    [system_call_linkage] from the [int $0x80] of a program to the [iret]: the frame the
    processor pushes on the kernel stack of the process, the saved flags and registers,
    the bounds of the call number, the jump through [sys_call_table], and the return with
    the result in [eax].  The functions of the table take their pointers as addresses in
    the page of the program. *)

From stdpp Require Import base list option sets.
From Stdlib Require Import ZArith Lia ZifyBool.
From S2P Require Import Prelude MemOps Lib Ports Rtc Terminal FileSystem Paging Process Schedule FileArray Reading Lifecycle Drivers.

Definition MIN_SYS_CALL : Z := 1.
Definition MAX_SYS_CALL : Z := 10.

(** The general registers, and what [iret] restores. *)
Record user_regs := UserRegs {
  r_eax : Z; r_ecx : Z; r_edx : Z; r_ebx : Z; r_ebp : Z; r_esi : Z; r_edi : Z; r_frame : iret_t }.

Definition set_eax (v : Z) (r : user_regs) : user_regs :=
  UserRegs v (r_ecx r) (r_edx r) (r_ebx r) (r_ebp r) (r_esi r) (r_edi r) (r_frame r).

(** ** The stack *)

Definition push (v : Z) (s : memory * Z) : memory * Z := (store32 s.1 (u32 (s.2 - 4)) v, u32 (s.2 - 4)).
Definition pop (m : memory) (sp : Z) : Z * Z := (load32 m sp, u32 (sp + 4)).

(** What the processor pushes when a gate leads from user mode into the kernel. *)
Definition int_frame (f : iret_t) (s : memory * Z) : memory * Z :=
  push (eip f) (push (cs f) (push (iflags f) (push (uesp f) (push (ss f) s)))).

Definition pushal (r : user_regs) (s : memory * Z) : memory * Z :=
  push (r_edi r) (push (r_esi r) (push (r_ebp r) (push s.2 (push (r_ebx r)
    (push (r_edx r) (push (r_ecx r) (push (r_eax r) s))))))).

(** [popal], [popfl] and [iret] from [sp] on; [popal] leaves [esp] alone. *)
Definition restore_all (m : memory) (sp : Z) : user_regs :=
  let '(edi, sp) := pop m sp in
  let '(esi, sp) := pop m sp in
  let '(ebp, sp) := pop m sp in
  let '(_, sp) := pop m sp in
  let '(ebx, sp) := pop m sp in
  let '(edx, sp) := pop m sp in
  let '(ecx, sp) := pop m sp in
  let '(eax, sp) := pop m sp in
  let '(_, sp) := pop m sp in
  let '(ip, sp) := pop m sp in
  let '(c, sp) := pop m sp in
  let '(fl, sp) := pop m sp in
  let '(usp, sp) := pop m sp in
  let '(s, sp) := pop m sp in
  UserRegs eax ecx edx ebx ebp esi edi (Iret ip c fl usp s).

(** ** The data segment

    The gate loads [cs] and [ss] and leaves [ds] to the code; on the way back to level 3
    [iret] takes the segments of a lower level away: it loads the null selector. *)

Definition selector_dpl (sel : Z) : Z := if (sel / 8 =? 4) || (sel / 8 =? 5) then 3 else 0.
Definition iret_data (sel : Z) : Z := if selector_dpl sel <? 3 then 0 else sel.

(** ** Pointers of programs *)

(** Every address the calls follow is in the 4 MB page of the program. *)
Definition in_program (a n : Z) : bool := (0x8000000 <=? a) && (a + n <=? 0x8400000).

Definition load_user (k : kernel) (a n : Z) : option (list Z) :=
  c ← curr_process (pr k); b ← (pcbs (pr k)).[c];
  if in_program a n then Some (load_bytes (umem k) (program_frame (pid b) a) (Z.to_nat n)) else None.

Definition store_user (k : kernel) (a : Z) (bs : list Z) : option kernel :=
  c ← curr_process (pr k); b ← (pcbs (pr k)).[c];
  match bs with
  | [] => Some k
  | _ =>
      if in_program a (Z.of_nat (length bs))
      then Some (set_umem (store_bytes (umem k) (program_frame (pid b) a) bs) k) else None
  end.

(** A string argument: [None] for NULL, or what the page holds from the address on, up to
    a kilobyte of it. *)
Definition user_string (k : kernel) (a : Z) : option (option (list Z)) :=
  if a =? 0 then Some None
  else s ← load_user k a (Z.min 1024 (0x8400000 - a)); Some (Some s).

(** A buffer to write from: the [n] bytes from the address on, as far as they are in the page;
    the drivers look at no more than the number of bytes to write, or at one dword. *)
Definition user_bytes (k : kernel) (a n : Z) : option (list Z) :=
  if in_program a 0 then load_user k a (Z.min n (0x8400000 - a)) else Some [].

(** ** The calls *)

Section Linkage.
Context (L : layout) (dev : log -> Z -> Z) (pit_ret ret_addr : Z) (jk : junk).

(** [sys_call_table]: [a1], [a2] and [a3] are the dwords on the stack above the return
    address, [sp] the stack pointer at the first instruction of the function, which
    pushes [ebp] first. *)
Definition sys_call_table (n a1 a2 a3 sp : Z) (k : kernel) : option outcome :=
  let ops := galapagos_ops L dev in
  let ebp := u32 (sp - 4) in
  match n with
  | 1 => khalt ops (u8 a1) ebp k
  | 2 => cmd ← user_string k a1; kexecute L pit_ret jk cmd ebp ebp k
  | 3 => '(ret, bs, k) ← kread ops (s32 a1) a2 (s32 a3) k;
         k ← store_user k a2 bs; Some (Returns ret k)
  | 4 => buf ← (if a2 =? 0 then Some None else b ← user_bytes k a2 (Z.max 4 (s32 a3)); Some (Some b));
         '(ret, k) ← kwrite ops (s32 a1) buf (s32 a3) k; Some (Returns ret k)
  | 5 => name ← user_string k a1; '(ret, k) ← kopen ops name k; Some (Returns ret k)
  | 6 => '(ret, k) ← kclose ops (s32 a1) k; Some (Returns ret k)
  | 7 => '(ret, bs) ← kget_args a1 (s32 a2) k; k ← store_user k a1 bs; Some (Returns ret k)
  | 8 => '(ret, k) ← kvidmap L a1 k; Some (Returns ret k)
  | 9 => Some (Returns (kset_handler (s32 a1) a2) k)
  | 10 => Some (Returns ksigreturn k)
  | _ => None
  end.

(** What a system call leads to: the program goes on, or the processor is given up. *)
Inductive call_result := Resumes (r : user_regs) (k : kernel) | GivesUp (k : kernel).

Definition with_kmem (m : memory) (k : kernel) : kernel := set_pr (set_kmem m (pr k)) k.

(** The call of a program whose [ds] holds [ds], and what [ds] holds after it.  The low half of
    [ecx] is the way to [ds]: [popal] restores it, nothing restores [ds]. *)
Definition system_call_linkage (r : user_regs) (ds : Z) (k : kernel) : option (call_result * Z) :=
  let s := int_frame (r_frame r) (kmem (pr k), esp0 (pr k)) in
  let s := push (iflags (r_frame r)) s in
  let s := pushal r s in
  let saved := s.2 in
  if (s32 (r_eax r) <? MIN_SYS_CALL) || (MAX_SYS_CALL <? s32 (r_eax r)) then
    Some (Resumes (set_eax (u32 (-1)) (restore_all s.1 saved)) (with_kmem s.1 k), iret_data ds)
  else
    let s := push (r_ebx r) (push (r_ecx r) (push (r_edx r) s)) in
    let ds := KERNEL_DS in
    let s := push ret_addr s in
    o ← sys_call_table (r_eax r) (load32 s.1 (u32 (s.2 + 4))) (load32 s.1 (u32 (s.2 + 8)))
          (load32 s.1 (u32 (s.2 + 12))) s.2 (with_kmem s.1 k);
    match o with
    | Returns ret k => Some (Resumes (set_eax (u32 ret) (restore_all (kmem (pr k)) saved)) k, iret_data ds)
    | Yields k => Some (GivesUp k, ds)
    end.

End Linkage.

(** ** The saved frame *)

Definition regs_ok (r : user_regs) : Prop :=
  u32_range_of (r_eax r) /\ u32_range_of (r_ecx r) /\ u32_range_of (r_edx r) /\ u32_range_of (r_ebx r) /\
  u32_range_of (r_ebp r) /\ u32_range_of (r_esi r) /\ u32_range_of (r_edi r) /\
  u32_range_of (eip (r_frame r)) /\ u32_range_of (cs (r_frame r)) /\ u32_range_of (iflags (r_frame r)) /\
  u32_range_of (uesp (r_frame r)) /\ u32_range_of (ss (r_frame r)).

(** The memory and the stack pointer where the call number is tested. *)
Definition saved_stack (r : user_regs) (m : memory) (sp : Z) : memory * Z :=
  pushal r (push (iflags (r_frame r)) (int_frame (r_frame r) (m, sp))).

(** The same at the first instruction of the function. *)
Definition call_stack (ret_addr : Z) (r : user_regs) (m : memory) (sp : Z) : memory * Z :=
  push ret_addr (push (r_ebx r) (push (r_ecx r) (push (r_edx r) (saved_stack r m sp)))).

Definition sp_ok (sp : Z) : Prop := 0x1000 <= sp < 2 ^ 32.

(** A sequence of pushes, first one first. *)
Definition pushes (vs : list Z) (s : memory * Z) : memory * Z := fold_left (fun s v => push v s) vs s.

Lemma pushes_spec vs : forall m sp,
  4 * Z.of_nat (length vs) <= sp < 2 ^ 32 -> Forall u32_range_of vs ->
  let s := pushes vs (m, sp) in
  s.2 = sp - 4 * Z.of_nat (length vs) /\
  (forall i v, vs !! i = Some v -> load32 s.1 (sp - 4 * Z.of_nat (S i)) = v) /\
  (forall x, ~ sp - 4 * Z.of_nat (length vs) <= x < sp -> s.1 x = m x).
Proof.
  induction vs as [|v vs IH]; intros m sp Hsp Hvs; cbn [length] in *.
  - cbn. split_and!; [lia | done | done].
  - inversion Hvs as [|? ? Hv Hvs']; subst. cbn [pushes fold_left]. fold (pushes vs (push v (m, sp))).
    unfold push. cbn [fst snd]. rewrite u32_small by lia.
    destruct (IH (store32 m (sp - 4) v) (sp - 4)) as (IH1 & IH2 & IH3); [lia | done|].
    split_and!.
    + rewrite IH1. lia.
    + intros [|i] w Hw; cbn in Hw.
      * injection Hw as <-. replace (sp - 4 * Z.of_nat 1) with (sp - 4) by lia.
        transitivity (load32 (store32 m (sp - 4) v) (sp - 4)); [|apply load_store_same; [unfold area; lia | done]].
        apply load32_ext; [unfold area; lia|]. intros j Hj. apply IH3. lia.
      * rewrite <- (IH2 i w Hw). f_equal. lia.
    + intros x Hx. rewrite IH3 by lia. apply store32_frame; [unfold area; lia | lia].
Qed.

(** The dwords of the saved frame, and of the frame of the function. *)
Definition saved_words (r : user_regs) (sp : Z) : list Z :=
  let f := r_frame r in
  [ss f; uesp f; iflags f; cs f; eip f; iflags f; r_eax r; r_ecx r; r_edx r; r_ebx r; sp - 24; r_ebp r; r_esi r; r_edi r].
Definition call_words (ret_addr : Z) (r : user_regs) (sp : Z) : list Z :=
  saved_words r sp ++ [r_edx r; r_ecx r; r_ebx r; ret_addr].

Lemma saved_stack_words r m sp : sp_ok sp -> saved_stack r m sp = pushes (saved_words r sp) (m, sp).
Proof.
  intros H. unfold saved_stack, pushal, int_frame, saved_words.
  replace (sp - 24) with (push (iflags (r_frame r)) (push (eip (r_frame r)) (push (cs (r_frame r)) (push (iflags (r_frame r))
    (push (uesp (r_frame r)) (push (ss (r_frame r)) (m, sp))))))).2; [done|].
  unfold push, sp_ok in *. cbn [snd]. addresses. lia.
Qed.

Lemma call_stack_words a r m sp : sp_ok sp -> call_stack a r m sp = pushes (call_words a r sp) (m, sp).
Proof. intros H. unfold call_stack. rewrite saved_stack_words by done. unfold pushes, call_words. by rewrite fold_left_app. Qed.

Lemma saved_words_ok r sp : regs_ok r -> sp_ok sp -> Forall u32_range_of (saved_words r sp).
Proof. unfold regs_ok, sp_ok. intros. repeat constructor; unfold u32_range_of in *; lia. Qed.

Lemma call_words_ok a r sp : regs_ok r -> u32_range_of a -> sp_ok sp -> Forall u32_range_of (call_words a r sp).
Proof.
  intros Hr Ha Hsp. apply Forall_app. split; [by apply saved_words_ok|].
  unfold regs_ok in Hr. repeat constructor; unfold u32_range_of in *; lia.
Qed.

(** The [i]-th dword of the frame. *)
Ltac word H i := etransitivity; [|exact (H i _ eq_refl)]; f_equal; lia.

(** A stack whose dwords from [sp - 56] on are those of [saved_words] gives the registers back. *)
Lemma restore_words r m sp :
  sp_ok sp -> (forall i v, saved_words r sp !! i = Some v -> load32 m (sp - 4 * Z.of_nat (S i)) = v) ->
  restore_all m (sp - 56) = r.
Proof.
  intros Hsp Hw. unfold restore_all, pop, sp_ok in *. addresses.
  destruct r as [? ? ? ? ? ? ? []].
  f_equal; [word Hw 6%nat | word Hw 7%nat | word Hw 8%nat | word Hw 9%nat | word Hw 11%nat | word Hw 12%nat | word Hw 13%nat | f_equal];
    [word Hw 4%nat | word Hw 3%nat | word Hw 2%nat | word Hw 1%nat | word Hw 0%nat].
Qed.

(** ** Calls that leave the kernel stacks alone *)

Definition keeps_stack (k k' : kernel) : Prop := kmem (pr k') = kmem (pr k).

(** Run a hypothesis [code = Some _] backwards through its binds and tests. *)
Ltac unbind :=
  repeat match goal with
  | H : Some _ = Some _ |- _ => injection H; clear H; intros; subst
  | H : None = Some _ |- _ => discriminate H
  | H : (_ ≫= _) = Some _ |- _ => apply bind_Some in H as (? & ? & H)
  | H : (let '(_, _) := ?p in _) = Some _ |- _ => destruct p eqn:?
  | H : (if ?b then _ else _) = Some _ |- _ => destruct b eqn:?
  | H : match ?x with _ => _ end = Some _ |- _ => destruct x eqn:?
  end.

(** The kernel stacks and the page tables are those of before. *)
Definition same_mem (p p' : procs) : Prop := kmem p' = kmem p /\ pg p' = pg p.
Definition keeps_mem (k k' : kernel) : Prop := same_mem (pr k) (pr k').

Lemma upd_pcb_mem q g p p' : upd_pcb q g p = Some p' -> same_mem p p'.
Proof. unfold upd_pcb. intros. unbind. done. Qed.

Lemma put_desc_mem f p p' : put_desc f p = Some p' -> same_mem p p'.
Proof. unfold put_desc. intros. unbind. by eapply upd_pcb_mem. Qed.

Lemma increment_position_mem i n p p' : increment_position i n p = Some p' -> same_mem p p'.
Proof. unfold increment_position. intros. unbind; [done | by eapply put_desc_mem]. Qed.

Create HintDb kmem.
#[local] Hint Resolve upd_pcb_mem put_desc_mem increment_position_mem : kmem.

Section Keeps.
Context (L : layout) (dev : log -> Z -> Z).

Lemma read_keeps o i p n k r bs k' : op_read (galapagos_ops L dev o) i p n k = Some (r, bs, k') -> keeps_mem k k'.
Proof.
  destruct o; cbn; unfold keeps_mem.
  - intros. unbind; by split.
  - intros. unbind. by split.
  - intros. unbind. by split.
  - unfold fs_read. intros. unbind; cbn; first [by split | eauto with kmem].
Qed.

Lemma write_keeps o fd bs n k r k' : op_write (galapagos_ops L dev o) fd bs n k = Some (r, k') -> keeps_mem k k'.
Proof. destruct o; cbn; intros; unbind; by split. Qed.

Lemma open_keeps o k r k' : op_open (galapagos_ops L dev o) k = Some (r, k') -> keeps_mem k k'.
Proof. destruct o; cbn; intros; unbind; by split. Qed.

Lemma close_keeps o k r k' : op_close (galapagos_ops L dev o) k = Some (r, k') -> keeps_mem k k'.
Proof. destruct o; cbn; intros; unbind; by split. Qed.

Lemma kread_keeps fd buf n k r bs k' : kread (galapagos_ops L dev) fd buf n k = Some (r, bs, k') -> keeps_mem k k'.
Proof. unfold kread. intros. unbind; try (by split). by eapply read_keeps. Qed.

Lemma kwrite_keeps fd buf n k r k' : kwrite (galapagos_ops L dev) fd buf n k = Some (r, k') -> keeps_mem k k'.
Proof. unfold kwrite. intros. unbind; try (by split). by eapply write_keeps. Qed.

Lemma fd_init_keeps data i k r k' : fd_init data i k = Some (r, k') -> keeps_mem k k'.
Proof. unfold fd_init, keeps_mem. cbv zeta. intros. unbind; cbn; first [by split | eauto with kmem]. Qed.

Lemma keeps_trans k1 k2 k3 : keeps_mem k1 k2 -> keeps_mem k2 k3 -> keeps_mem k1 k3.
Proof. unfold keeps_mem, same_mem. intuition congruence. Qed.

Lemma kopen_keeps name k r k' : kopen (galapagos_ops L dev) name k = Some (r, k') -> keeps_mem k k'.
Proof.
  unfold kopen. intros. unbind; try (by split); try (by eapply fd_init_keeps).
  match goal with H : op_open _ _ = _ |- _ => apply open_keeps in H end.
  match goal with H : fd_init _ _ _ = _ |- _ => apply fd_init_keeps in H end.
  by eapply keeps_trans.
Qed.

Lemma kclose_keeps fd k r k' : kclose (galapagos_ops L dev) fd k = Some (r, k') -> keeps_mem k k'.
Proof.
  unfold kclose. intros. unbind; try (by split).
  match goal with H : op_close _ _ = _ |- _ => apply close_keeps in H end.
  match goal with H : put_desc _ _ = _ |- _ => apply put_desc_mem in H end.
  match goal with H1 : same_mem _ ?p, H2 : keeps_mem _ _ |- _ => exact (keeps_trans k (set_pr p k) k' H1 H2) end.
Qed.

Lemma store_user_keeps k a bs k' : store_user k a bs = Some k' -> keeps_mem k k'.
Proof. unfold store_user. intros. unbind; by split. Qed.

Ltac keeps :=
  repeat match goal with
  | H : kread _ _ _ _ _ = _ |- _ => apply kread_keeps in H
  | H : kwrite _ _ _ _ _ = _ |- _ => apply kwrite_keeps in H
  | H : kopen _ _ _ = _ |- _ => apply kopen_keeps in H
  | H : kclose _ _ _ = _ |- _ => apply kclose_keeps in H
  | H : store_user _ _ _ = _ |- _ => apply store_user_keeps in H
  | H : kvidmap _ _ _ = _ |- _ => unfold kvidmap in H; unbind
  end; unfold keeps_mem, same_mem, keeps_stack in *; cbn in *; intuition congruence.

Lemma sys_call_keeps pit_ret jk n a1 a2 a3 sp k ret k' :
  2 < n -> sys_call_table L dev pit_ret jk n a1 a2 a3 sp k = Some (Returns ret k') -> keeps_stack k k'.
Proof.
  unfold sys_call_table. intros Hn E. destruct n as [|[[[|[]|]|[[]|[]|]|]|[[|[]|]|[[]|[]|]|]|]|]; try lia; try discriminate E; unbind; keeps.
Qed.

(** The calls on files change no page tables either. *)
Lemma file_call_keeps pit_ret jk n a1 a2 a3 sp k ret k' :
  3 <= n <= 6 -> sys_call_table L dev pit_ret jk n a1 a2 a3 sp k = Some (Returns ret k') -> keeps_mem k k'.
Proof.
  unfold sys_call_table. intros Hn E. assert (n = 3 \/ n = 4 \/ n = 5 \/ n = 6) as [-> | [-> | [-> | ->]]] by lia; unbind; keeps.
Qed.
End Keeps.

(** ** The frame of a call *)

Lemma saved_frame r m sp :
  regs_ok r -> sp_ok sp ->
  (saved_stack r m sp).2 = sp - 56 /\ restore_all (saved_stack r m sp).1 (sp - 56) = r /\
  (forall x, ~ sp - 56 <= x < sp -> (saved_stack r m sp).1 x = m x).
Proof.
  intros Hr Hsp. rewrite saved_stack_words by done.
  destruct (pushes_spec (saved_words r sp) m sp) as (H1 & H2 & H3); [unfold sp_ok in *; cbn; lia | by apply saved_words_ok|].
  split_and!; [exact H1 | | exact H3]. apply restore_words; [done|]. exact H2.
Qed.

Lemma call_frame a r m sp :
  regs_ok r -> u32_range_of a -> sp_ok sp ->
  let s := call_stack a r m sp in
  s.2 = sp - 72 /\ load32 s.1 (sp - 68) = r_ebx r /\ load32 s.1 (sp - 64) = r_ecx r /\ load32 s.1 (sp - 60) = r_edx r /\
  restore_all s.1 (sp - 56) = r /\ (forall x, ~ sp - 72 <= x < sp -> s.1 x = m x).
Proof.
  intros Hr Ha Hsp s. unfold s. rewrite call_stack_words by done.
  assert (Forall u32_range_of (call_words a r sp)) as Hws by by apply call_words_ok.
  destruct (pushes_spec (call_words a r sp) m sp) as (H1 & H2 & H3); [unfold sp_ok in *; cbn; lia | done |].
  split_and!; [exact H1 | exact (H2 16%nat _ eq_refl) | exact (H2 15%nat _ eq_refl) | exact (H2 14%nat _ eq_refl) | | exact H3].
  apply restore_words; [done|]. intros i v Hi. apply H2. unfold call_words. by apply lookup_app_l_Some.
Qed.

(** The linkage around the function of the table. *)
Lemma linkage_eq L dev pit_ret ret_addr jk r ds k :
  regs_ok r -> u32_range_of ret_addr -> sp_ok (esp0 (pr k)) -> 1 <= r_eax r <= 10 ->
  let sp := esp0 (pr k) in
  let m := (call_stack ret_addr r (kmem (pr k)) sp).1 in
  system_call_linkage L dev pit_ret ret_addr jk r ds k =
  (o ← sys_call_table L dev pit_ret jk (r_eax r) (r_ebx r) (r_ecx r) (r_edx r) (sp - 72) (with_kmem m k);
   match o with
   | Returns ret k => Some (Resumes (set_eax (u32 ret) (restore_all (kmem (pr k)) (sp - 56))) k, 0)
   | Yields k => Some (GivesUp k, KERNEL_DS)
   end).
Proof.
  intros Hr Ha Hsp Hn sp m. unfold system_call_linkage. fold (saved_stack r (kmem (pr k)) (esp0 (pr k))).
  unfold MIN_SYS_CALL, MAX_SYS_CALL. rewrite s32_small by lia. bfalse ((r_eax r <? 1) || (10 <? r_eax r)).
  fold (call_stack ret_addr r (kmem (pr k)) (esp0 (pr k))). fold sp. fold m.
  destruct (call_frame ret_addr r (kmem (pr k)) sp Hr Ha Hsp) as (H1 & H2 & H3 & H4 & _).
  destruct (saved_frame r (kmem (pr k)) sp Hr Hsp) as (H6 & _). rewrite H1, H6.
  fold m in H2, H3, H4. unfold sp_ok, sp in *. rewrite !u32_small by lia.
  replace (esp0 (pr k) - 72 + 4) with (esp0 (pr k) - 68) by lia. replace (esp0 (pr k) - 72 + 8) with (esp0 (pr k) - 64) by lia.
  replace (esp0 (pr k) - 72 + 12) with (esp0 (pr k) - 60) by lia. by rewrite H2, H3, H4.
Qed.

(** The frame after [khalt] in a shell. *)
Lemma restarted_words a r m0 sp ip usp :
  regs_ok r -> u32_range_of a -> sp_ok sp -> u32_range_of ip -> u32_range_of usp ->
  let m := (call_stack a r m0 sp).1 in
  forall i v, saved_words (UserRegs (r_eax r) (r_ecx r) (r_edx r) (r_ebx r) (r_ebp r) (r_esi r) (r_edi r)
      (Iret ip (cs (r_frame r)) (iflags (r_frame r)) usp (ss (r_frame r)))) sp !! i = Some v ->
    load32 (store32 (store32 m (sp - 20) ip) (sp - 8) usp) (sp - 4 * Z.of_nat (S i)) = v.
Proof.
  intros Hr Ha Hsp Hip Husp m i v Hv. pose proof (lookup_lt_Some _ _ _ Hv) as Hlt. cbn in Hlt.
  assert (Forall u32_range_of (call_words a r sp)) as Hws by by apply call_words_ok.
  destruct (pushes_spec (call_words a r sp) m0 sp) as (_ & H2 & _); [unfold sp_ok in *; cbn; lia | done |].
  rewrite <- call_stack_words in H2 by done. fold m in H2. unfold sp_ok in Hsp.
  destruct (decide (i = 1)%nat) as [->|H1].
  - injection Hv as <-. apply load_store_same; [unfold area; lia | done].
  - rewrite load_store_other by (unfold area; lia). destruct (decide (i = 4)%nat) as [->|H4].
    + injection Hv as <-. apply load_store_same; [unfold area; lia | done].
    + rewrite load_store_other by (unfold area; lia). apply H2. rewrite <- Hv.
      do 14 (destruct i as [|i]; [done|]). lia.
Qed.

(** ** Properties *)

(** C11: a system call other than halt and execute is a call of the function with its number:
    the function gets ebx, ecx and edx as arguments, and when it returns, the program goes
    on with its general registers, flags, stack, instruction pointer and the segments [cs] and
    [ss] as they were and the result in eax; of the kernel stack only the 72 bytes below its top
    are used.  [ds] is not kept: whatever it held, it is null after the call. *)
Theorem system_call_transparent L dev pit_ret ret_addr jk r ds k ret k' :
  regs_ok r -> u32_range_of ret_addr -> sp_ok (esp0 (pr k)) -> 2 < r_eax r <= 10 ->
  let sp := esp0 (pr k) in
  let m := (call_stack ret_addr r (kmem (pr k)) sp).1 in
  sys_call_table L dev pit_ret jk (r_eax r) (r_ebx r) (r_ecx r) (r_edx r) (sp - 72) (with_kmem m k) = Some (Returns ret k') ->
  system_call_linkage L dev pit_ret ret_addr jk r ds k = Some (Resumes (set_eax (u32 ret) r) k', 0) /\
  kmem (pr k') = m /\ (forall x, ~ sp - 72 <= x < sp -> m x = kmem (pr k) x).
Proof.
  intros Hr Ha Hsp Hn sp m E. rewrite linkage_eq by (done || lia). fold sp. fold m. rewrite E, some_bind.
  apply sys_call_keeps in E; [|lia]. change (kmem (pr k') = m) in E. rewrite E.
  destruct (call_frame ret_addr r (kmem (pr k)) sp Hr Ha Hsp) as (_ & _ & _ & _ & H5 & H6). fold m in H5, H6. by rewrite H5.
Qed.

Definition demo_regs (n ebx : Z) : user_regs :=
  UserRegs n 2 3 ebx 0x83fff00 5 6 (Iret 0x8048100 USER_CS 0x202 0x83ffe00 USER_DS).
Definition demo_caller : kernel := set_pr (set_esp0 (get_kstack_address 0) (pr demo_kernel)) demo_kernel.

Lemma demo_regs_ok n ebx : u32_range_of n -> u32_range_of ebx -> regs_ok (demo_regs n ebx).
Proof. intros. unfold regs_ok, u32_range_of in *. cbn [demo_regs r_eax r_ecx r_edx r_ebx r_ebp r_esi r_edi r_frame eip cs iflags uesp ss]. unfold USER_CS, USER_DS. lia. Qed.

Lemma demo_sp_ok : sp_ok (esp0 (pr demo_caller)).
Proof. vm_compute. split; discriminate || reflexivity. Qed.

(** Closing descriptor 9. *)
Lemma system_call_transparent_witness :
  exists k', system_call_linkage demo_layout (fun _ _ => 0) 0 0x400000 demo_junk (demo_regs 6 9) USER_DS demo_caller =
    Some (Resumes (set_eax 0xFFFFFFFF (demo_regs 6 9)) k', 0).
Proof.
  eexists. apply (system_call_transparent demo_layout (fun _ _ => 0) 0 0x400000 demo_junk (demo_regs 6 9) USER_DS demo_caller ERROR);
    [by apply demo_regs_ok | done | apply demo_sp_ok | cbn; lia | reflexivity].
Defined.

Lemma bad_number_spec L dev pit_ret ret_addr jk r ds k :
  regs_ok r -> sp_ok (esp0 (pr k)) -> s32 (r_eax r) < 1 \/ 10 < s32 (r_eax r) ->
  exists m, system_call_linkage L dev pit_ret ret_addr jk r ds k = Some (Resumes (set_eax 0xFFFFFFFF r) (with_kmem m k), iret_data ds) /\
    (forall x, ~ esp0 (pr k) - 56 <= x < esp0 (pr k) -> m x = kmem (pr k) x).
Proof.
  intros Hr Hsp Hn. unfold system_call_linkage. fold (saved_stack r (kmem (pr k)) (esp0 (pr k))).
  unfold MIN_SYS_CALL, MAX_SYS_CALL. btrue ((s32 (r_eax r) <? 1) || (10 <? s32 (r_eax r))).
  destruct (saved_frame r (kmem (pr k)) (esp0 (pr k)) Hr Hsp) as (-> & -> & H). eexists. split; [reflexivity | exact H].
Qed.

(** A call number below 1 or above 10, as a signed number, gives -1 and changes nothing
    but the 56 bytes below the top of the kernel stack; a [ds] of the programs is kept. *)
Theorem bad_call_number L dev pit_ret ret_addr jk r ds k :
  regs_ok r -> sp_ok (esp0 (pr k)) -> s32 (r_eax r) < 1 \/ 10 < s32 (r_eax r) ->
  exists m, system_call_linkage L dev pit_ret ret_addr jk r ds k = Some (Resumes (set_eax 0xFFFFFFFF r) (with_kmem m k), iret_data ds) /\
    (forall x, ~ esp0 (pr k) - 56 <= x < esp0 (pr k) -> m x = kmem (pr k) x).
Proof. apply bad_number_spec. Qed.

Lemma bad_call_number_witness :
  exists m, system_call_linkage demo_layout (fun _ _ => 0) 0 0x400000 demo_junk (demo_regs 0xC0000001 9) USER_DS demo_caller =
    Some (Resumes (set_eax 0xFFFFFFFF (demo_regs 0xC0000001 9)) (with_kmem m demo_caller), USER_DS).
Proof.
  destruct (bad_call_number demo_layout (fun _ _ => 0) 0 0x400000 demo_junk (demo_regs 0xC0000001 9) USER_DS demo_caller) as (m & E & _);
    [by apply demo_regs_ok | apply demo_sp_ok | left; reflexivity|].
  exists m. exact E.
Defined.

(** Halt in a shell starts the shell over: the program goes on at its entry point with an
    empty user stack and 0 in eax, the frame on the kernel stack being found 14 dwords
    above the frame pointer of [khalt], and nothing else of the kernel changes. *)
Theorem shell_starts_over L dev pit_ret ret_addr jk r ds k c b :
  regs_ok r -> u32_range_of ret_addr -> sp_ok (esp0 (pr k)) -> r_eax r = 1 ->
  curr_process (pr k) = Some c -> (pcbs (pr k)).[c] = Some b -> pid b <= 2 ->
  u32_range_of (instr_ptr b) -> u32_range_of (user_stack b) ->
  exists m, let f := r_frame r in
    system_call_linkage L dev pit_ret ret_addr jk r ds k =
      Some (Resumes (UserRegs 0 (r_ecx r) (r_edx r) (r_ebx r) (r_ebp r) (r_esi r) (r_edi r)
                       (Iret (instr_ptr b) (cs f) (iflags f) (user_stack b) (ss f))) (with_kmem m k), 0) /\
    (forall x, ~ esp0 (pr k) - 72 <= x < esp0 (pr k) -> m x = kmem (pr k) x).
Proof.
  intros Hr Ha Hsp Hn Hc Hb Hp Hi Hu. rewrite linkage_eq by (done || lia). rewrite Hn. cbn [sys_call_table Z.eqb].
  set (sp := esp0 (pr k)) in *. set (m := (call_stack ret_addr r (kmem (pr k)) sp).1).
  change (sys_call_table L dev pit_ret jk 1 (r_ebx r) (r_ecx r) (r_edx r) (sp - 72) (with_kmem m k))
    with (khalt (galapagos_ops L dev) (u8 (r_ebx r)) (u32 (sp - 72 - 4)) (with_kmem m k)).
  unfold khalt, with_kmem, THIRD_TERMINAL, JUMP_BACK_TO_IRET. cbn [pr set_pr curr_process set_kmem pcbs kmem].
  rewrite Hc, some_bind, Hb, some_bind. bfalse (2 <? pid b). rewrite some_bind. cbn [pr set_pr kmem set_kmem].
  unfold sp_ok in Hsp. addresses. replace (sp - 72 - 4 + 4 * 14) with (sp - 20) by lia. replace (sp - 20 + 12) with (sp - 8) by lia.
  set (m2 := store32 (store32 m (sp - 20) (instr_ptr b)) (sp - 8) (user_stack b)).
  exists m2. cbv zeta. split.
  - rewrite (restore_words (UserRegs (r_eax r) (r_ecx r) (r_edx r) (r_ebx r) (r_ebp r) (r_esi r) (r_edi r)
      (Iret (instr_ptr b) (cs (r_frame r)) (iflags (r_frame r)) (user_stack b) (ss (r_frame r))))); [done | done |].
    by apply restarted_words.
  - intros x Hx. destruct (call_frame ret_addr r (kmem (pr k)) sp Hr Ha) as (_ & _ & _ & _ & _ & H6); [done|].
    unfold m2. rewrite !store32_frame by (unfold area; lia). by apply H6.
Qed.

Lemma shell_starts_over_witness :
  exists r k', system_call_linkage demo_layout (fun _ _ => 0) 0 0x400000 demo_junk (demo_regs 1 0) USER_DS demo_caller = Some (Resumes r k', 0) /\
    uesp (r_frame r) = user_stack (demo_pcb 0).
Proof.
  destruct (shell_starts_over demo_layout (fun _ _ => 0) 0 0x400000 demo_junk (demo_regs 1 0) USER_DS demo_caller 0
    (with_files demo_files (demo_pcb 0))) as (m & E & _);
    [by apply demo_regs_ok | done | apply demo_sp_ok | reflexivity | reflexivity | reflexivity | cbn; lia
    | vm_compute; split; discriminate || reflexivity | vm_compute; split; discriminate || reflexivity|].
  eexists _, _. split; [exact E | reflexivity].
Defined.
