(* ===== verification/VideoSwap.v ===== *)
(** * Switching the video memory of the processes of two terminals

    [swap_vid_mem] walks the chain of processes of the terminal that leaves the screen
    and of the one that comes onto it.  With the copying of [switch_terminals] this is
    all that switching to another terminal does.  A program writes to its terminal where
    the switches have put it. *)

From stdpp Require Import base list option sets.
From Stdlib Require Import ZArith Lia ZifyBool.
From S2P Require Import Prelude MemOps Ports Rtc FileSystem Paging Process Schedule Terminal FileArray Reading Lifecycle Drivers.

(** The processes from [r] on along the child pointers. *)
Fixpoint chain_from (p : procs) (r : option Z) (l : list Z) : Prop :=
  match l with
  | [] => r = None
  | x :: l' => r = Some x /\ exists b, (pcbs p).[x] = Some b /\ pid b = x /\ chain_from p (child b) l'
  end.

(** The entries that decide what a process sees of its terminal. *)
Record video_words (s s' : paging) (l : list Z) (v : Z) : Prop := {
  vw_dirs : forall x, ent2 (process_directories s') x 890 = ent2 (process_directories s) x 890;
  vw_present : forall x, getf present (ent2 (vid_tables s') x 731) = getf present (ent2 (vid_tables s) x 731);
  vw_in : forall x, x ∈ l -> getf base_31_12 (ent2 (page_tables s') x 0xb8) = v /\
    getf base_31_12 (ent2 (vid_tables s') x 731) = v;
  vw_out : forall x, x ∉ l -> ent2 (page_tables s') x 0xb8 = ent2 (page_tables s) x 0xb8 /\
    ent2 (vid_tables s') x 731 = ent2 (vid_tables s) x 731 }.

Lemma getf_base v w : video_frame v -> getf base_31_12 (setf base_31_12 v w) = v.
Proof. intros H. rewrite getf_same by done. unfold video_frame in H. apply Z.mod_small. cbn. lia. Qed.

Lemma getf_present_base v w : getf present (setf base_31_12 v w) = getf present w.
Proof. by apply getf_other. Qed.

Lemma vid_chain_spec L v f l : forall fuel r p,
  (forall x s, f x s = set_video_base x v s) -> video_frame v -> paging_ok L (pg p) ->
  chain_from p r l -> Forall pid_ok l -> NoDup l -> (length l < fuel)%nat ->
  exists s', vid_chain fuel f r p = Some (set_pg s' p) /\ paging_ok L s' /\ cr3 s' = cr3 (pg p) /\ video_words (pg p) s' l v.
Proof.
  intros fuel r p Hf Hv. revert fuel r p. induction l as [|x l IH]; intros [|fuel] r p Hok Hch Hpid Hnd Hfuel; cbn [length] in Hfuel; try lia; cbn [vid_chain].
  - cbn [chain_from] in Hch. subst r. exists (pg p). split; [by destruct p|]. split_and!; try done.
    split; try done. intros x Hx. by apply elem_of_nil in Hx.
  - destruct Hch as (-> & b & Hb & Hx & Hch). apply Forall_cons in Hpid as [Hpx Hpl]. apply NoDup_cons in Hnd as [Hnx Hnd].
    rewrite Hb, some_bind, Hx, Hf. destruct (set_video_base_ok L (pg p) x v Hpx Hv Hok) as (s1 & E & Hcr & Hok1). rewrite E, some_bind.
    pose proof (set_video_base_words L _ _ x v Hok Hpx E) as Hw.
    destruct (IH fuel (child b) (set_pg s1 p)) as (s2 & E2 & Hok2 & Hcr2 & [V1 V2 V3 V4]); [done | | done | done | lia|].
    { clear -Hch. revert Hch. generalize (child b). clear b. induction l as [|y l IH]; intros r; [done|].
      intros (-> & b & Hb & Hy & Hch). split; [done|]. exists b. cbn [pcbs set_pg]. auto. }
    exists s2. split; [exact E2|]. split; [done|]. cbn [pg set_pg] in *. split; [congruence|]. split.
    + intros y. rewrite V1. by destruct (Hw y).
    + intros y. rewrite V2. destruct (Hw y) as (_ & _ & ->). destruct (Z.eqb_spec y x) as [->|]; [apply getf_present_base | done].
    + intros y Hy. destruct (decide (y ∈ l)) as [Hl|Hl]; [by apply V3|].
      apply elem_of_cons in Hy as [->|Hy]; [|done]. destruct (V4 x Hl) as [-> ->]. destruct (Hw x) as (_ & -> & ->).
      rewrite Z.eqb_refl. split; by apply getf_base.
    + intros y Hy. apply not_elem_of_cons in Hy as [Hyx Hyl]. destruct (V4 y Hyl) as [-> ->]. destruct (Hw y) as (_ & -> & ->).
      by rewrite (proj2 (Z.eqb_neq y x) Hyx).
Qed.

Lemma chain_set_pg s p r l : chain_from p r l -> chain_from (set_pg s p) r l.
Proof.
  revert r. induction l as [|y l IH]; intros r; [done|].
  intros (-> & b & Hb & Hy & Hch). split; [done|]. exists b. cbn [pcbs set_pg]. auto.
Qed.

(** What process [x] sees of its terminal, as kernel and as program. *)
Definition sees (L : layout) (s s' : paging) (x page : Z) : Prop :=
  forall o, 0 <= o < 4096 -> kernel_video L s' x o = Some (page + o) /\
    user_video L s' x o = match user_video L s x o with Some _ => Some (page + o) | None => None end.

(** The chains of the two terminals of a switch. *)
Record switchable (L : layout) (p : procs) (c old new : Z) (lo ln : list Z) : Prop := {
  sw_layout : layout_ok L;
  sw_paging : paging_ok L (pg p);
  sw_terms : 0 <= old < 3 /\ 0 <= new < 3;
  sw_curr : exists b, curr_process p = Some c /\ (pcbs p).[c] = Some b /\ pid b = c;
  sw_old : exists r, (roots p).[old] = Some r /\ chain_from p r lo;
  sw_new : exists r, (roots p).[new] = Some r /\ chain_from p r ln;
  sw_pids : Forall pid_ok (lo ++ ln);
  sw_nodup : NoDup (lo ++ ln);
  sw_short : (length lo <= 6)%nat /\ (length ln <= 6)%nat }.

Lemma swap_vid_mem_spec L p c old new lo ln :
  switchable L p c old new lo ln ->
  exists s', swap_vid_mem L old new p = Some (SUCCESS, set_pg s' p) /\ paging_ok L s' /\ cr3 s' = pd_addr L c /\
    (forall x, x ∈ lo -> sees L (pg p) s' x (VID_MEM + 4096 * (old + 1))) /\
    (forall x, x ∈ ln -> sees L (pg p) s' x VID_MEM) /\
    (forall x o, pid_ok x -> x ∉ lo -> x ∉ ln -> 0 <= o < 4096 ->
       kernel_video L s' x o = kernel_video L (pg p) x o /\ user_video L s' x o = user_video L (pg p) x o).
Proof.
  intros [HL Hok [Ht1 Ht2] (cb & Hc & Hcb & Hcp) (ro & Hro & Hlo) (rn & Hrn & Hln) Hpids Hnd [Hs1 Hs2]].
  apply Forall_app in Hpids as [Hpo Hpn]. apply NoDup_app in Hnd as (Hno & Hdisj & Hnn).
  unfold swap_vid_mem, FIRST_TERMINAL, THIRD_TERMINAL. bfalse ((new <? 0) || (2 <? new) || (old <? 0) || (2 <? old)).
  rewrite Hro, some_bind, Hrn, some_bind. cbn [curr_process set_pg pcbs]. rewrite Hc, some_bind, Hcb, some_bind, Hcp.
  destruct (vid_chain_spec L (0xb8 + (old + 1)) (fun q s => switch_vid_mem_out q old c s) lo 7 ro (set_pg (cli (pg p)) p))
    as (s1 & -> & Hok1 & _ & V); try done; try lia.
  { intros x s. unfold switch_vid_mem_out. literals. f_equal. lia. }
  { unfold video_frame. lia. }
  { by apply paging_ok_intr. }
  { by apply chain_set_pg. }
  rewrite some_bind.
  destruct (vid_chain_spec L 0xb8 (fun q s => switch_vid_mem_in q c s) ln 7 rn (set_pg s1 (set_pg (cli (pg p)) p)))
    as (s2 & -> & Hok2 & _ & V'); try done; try lia.
  { by apply chain_set_pg, chain_set_pg. }
  rewrite some_bind. cbn [pg set_pg] in *.
  exists (set_cr3 (pd_addr L c) (sti s2)).
  assert (paging_ok L (set_cr3 (pd_addr L c) (sti s2))) as Hok3 by (apply paging_ok_cr3, paging_ok_intr; done).
  split; [by destruct p|]. split; [done|]. split; [done|]. destruct V as [D1 P1 I1 O1], V' as [D2 P2 I2 O2].
  assert (forall x page, pid_ok x -> getf base_31_12 (ent2 (page_tables s2) x 0xb8) * 4096 = page ->
    getf base_31_12 (ent2 (vid_tables s2) x 731) * 4096 = page -> sees L (pg p) (set_cr3 (pd_addr L c) (sti s2)) x page) as Hsees.
  { intros x page Hx Hk Hu o Ho. rewrite kernel_video_word, !user_video_word by done.
    cbn [page_tables vid_tables process_directories set_cr3 sti set_intr]. rewrite Hk, Hu, D2, P2, D1, P1.
    cbn [cli set_intr process_directories vid_tables]. split; [done|]. destruct (_ && _); done. }
  rewrite Forall_forall in Hpo, Hpn. split_and!.
  - intros x Hx. destruct (O2 x (fun H => Hdisj x Hx H)) as [E1 E2]. destruct (I1 x Hx) as [F1 F2].
    apply Hsees; [by apply Hpo | rewrite E1, F1; unfold VID_MEM; lia | rewrite E2, F2; unfold VID_MEM; lia].
  - intros x Hx. destruct (I2 x Hx) as [F1 F2]. apply Hsees; [by apply Hpn | by rewrite F1 | by rewrite F2].
  - intros x o Hx Hxo Hxn Ho. rewrite !kernel_video_word, !user_video_word by done.
    cbn [page_tables vid_tables process_directories set_cr3 sti set_intr].
    destruct (O2 x Hxn) as [E1 E2], (O1 x Hxo) as [F1 F2]. rewrite E1, F1, E2, F2, D2, D1. done.
Qed.

(** ** Properties *)

(** [swap_vid_mem] gives every process of the terminal that leaves the screen the
    backing page of that terminal, and every process of the new terminal the screen,
    both for the kernel and for the page a program mapped with vidmap; the other
    processes see what they saw, a program that had not mapped the page still has not,
    and the current process goes on under its own directory.  It ends, whatever the
    chains, as long as they have at most six processes. *)
Theorem swap_vid_mem_correct L p c old new lo ln :
  switchable L p c old new lo ln ->
  exists s', swap_vid_mem L old new p = Some (SUCCESS, set_pg s' p) /\ paging_ok L s' /\ cr3 s' = pd_addr L c /\
    (forall x, x ∈ lo -> sees L (pg p) s' x (VID_MEM + 4096 * (old + 1))) /\
    (forall x, x ∈ ln -> sees L (pg p) s' x VID_MEM) /\
    (forall x o, pid_ok x -> x ∉ lo -> x ∉ ln -> 0 <= o < 4096 ->
       kernel_video L s' x o = kernel_video L (pg p) x o /\ user_video L s' x o = user_video L (pg p) x o).
Proof. apply swap_vid_mem_spec. Qed.

(** Processes 0 and 3 on the first terminal, 1 on the second. *)
Definition family (pages : paging) : procs :=
  Procs (map (fun n => with_child (if n =? 0 then Some 3 else None) (demo_block n)) (seqZ 0 6)) (Some 3) (Some 3) [1; 1; 1; 1; 0; 0]
    [Some 0; Some 1; Some 2] 0 pages (fun _ => 0).

Lemma family_chains pages : chain_from (family pages) (Some 0) [0; 3] /\ chain_from (family pages) (Some 1) [1].
Proof.
  split; (split; [done|]; eexists; split; [reflexivity|]; split; [done|]); [|done].
  split; [done|]. eexists. split; [reflexivity|]. done.
Qed.

Lemma family_switchable pages : paging_ok demo_layout pages ->
  switchable demo_layout (family pages) 3 0 1 [0; 3] [1] /\ switchable demo_layout (family pages) 3 1 0 [1] [0; 3].
Proof.
  intros Hok. destruct (family_chains pages) as [H0 H1].
  assert (exists b, curr_process (family pages) = Some 3 /\ (pcbs (family pages)).[3] = Some b /\ pid b = 3) as Hc
    by (eexists; split; [done|]; split; reflexivity).
  split; (split; [apply demo_layout_ok | done | lia | done | eexists; split; [reflexivity | done] | eexists; split; [reflexivity | done]
    | repeat constructor; unfold pid_ok; lia | apply (bool_decide_unpack _); vm_compute; done | cbn; lia]).
Qed.

Lemma swap_vid_mem_correct_witness :
  exists pages s', swap_vid_mem demo_layout 0 1 (family pages) = Some (SUCCESS, set_pg s' (family pages)) /\
    sees demo_layout pages s' 3 0xb9000 /\ sees demo_layout pages s' 1 VID_MEM.
Proof.
  destruct (booted_ok demo_layout zero_paging [] demo_layout_ok zero_paging_sized ltac:(constructor)) as (pages & _ & Hok).
  destruct (swap_vid_mem_correct demo_layout (family pages) 3 0 1 [0; 3] [1] (proj1 (family_switchable pages Hok)))
    as (s' & E & _ & _ & H1 & H2 & _).
  exists pages, s'. split; [exact E|]. split; [apply (H1 3); right; by left | apply (H2 1); by left].
Defined.

(** Where terminal [t] is when [cur] is on display: on the screen, or in its backing page. *)
Definition home (cur t : Z) : Z := if t =? cur then SCREEN else term_page t.

(** Process [x] looks at terminal [t], as kernel and, if it has mapped the page, as program. *)
Definition placed (L : layout) (s : paging) (cur t x : Z) : Prop :=
  forall o, 0 <= o < 4096 -> kernel_video L s x o = Some (home cur t + o) /\
    (user_video L s x o = None \/ user_video L s x o = Some (home cur t + o)).

Lemma sees_placed L s s' cur t x : sees L s s' x (home cur t) -> placed L s' cur t x.
Proof. intros Hs o Ho. destruct (Hs o Ho) as [-> ->]. split; [done|]. case_match; auto. Qed.

Lemma swapped_home m old new t o :
  0 <= old < 3 -> 0 <= new < 3 -> 0 <= t < 3 -> old <> new -> 0 <= o < 4096 ->
  swapped m old new (home new t + o) = m (home old t + o).
Proof.
  intros Ho Hn Ht Hne Hoo. unfold swapped, home, term_page, SCREEN, KB4.
  destruct (Z.eqb_spec t new), (Z.eqb_spec t old); subst; try lia; repeat case_if; try lia; f_equal; lia.
Qed.

(** C23: no process notices that another terminal comes onto the screen.  Let every process look
    at its terminal, on the screen or in the backing page, as kernel and through the page of
    [vidmap] if it has mapped it, the processes of the terminals that are switched being those
    of the two chains; the third terminal may have processes too.  After [switch_terminals]
    every process looks at its terminal at the new place, has the page of [vidmap] mapped if it
    had, and reads through both the characters it read before. *)
Theorem switch_keeps_contents L p c old new lo ln ts (ps : list Z) (term : Z -> Z) :
  switchable L p c old new lo ln -> terminals_ok ts -> curr_terminal ts = old -> new <> old ->
  (forall x, x ∈ ps -> pid_ok x /\ 0 <= term x < 3 /\ (term x = old <-> x ∈ lo) /\ (term x = new <-> x ∈ ln) /\ placed L (pg p) old (term x) x) ->
  exists ts' s', switch_terminals (swap_vid_mem L) new ts p = Some (ts', set_pg s' p) /\ curr_terminal ts' = new /\
    forall x, x ∈ ps -> placed L s' new (term x) x /\
      forall o, 0 <= o < 4096 ->
        (exists a a', kernel_video L (pg p) x o = Some a /\ kernel_video L s' x o = Some a' /\ vm ts' a' = vm ts a) /\
        match user_video L (pg p) x o with
        | Some a => exists a', user_video L s' x o = Some a' /\ vm ts' a' = vm ts a
        | None => user_video L s' x o = None
        end.
Proof.
  intros Hsw Hts Hold Hne Hps. destruct (sw_terms _ _ _ _ _ _ _ Hsw) as [Ho Hn].
  destruct (swap_vid_mem_spec L p c old new lo ln Hsw) as (s' & E & _ & _ & H1 & H2 & H3).
  destruct (switch_once (swap_vid_mem L) old new ts p (set_pg s' p) SUCCESS Hts Hold Hn Hne E) as (ts' & E' & _ & Hc & _ & Hvm).
  exists ts', s'. split; [done|]. split; [done|]. intros x Hx. destruct (Hps x Hx) as (Hp & Ht & Hxo & Hxn & Hpl).
  assert (sees L (pg p) s' x (home new (term x))) as Hs.
  { unfold home. destruct (decide (x ∈ lo)) as [Hl|Hl].
    { apply Hxo in Hl as E0. rewrite E0. bfalse (old =? new). replace (term_page old) with (VID_MEM + 4096 * (old + 1)) by (unfold term_page, SCREEN, VID_MEM, KB4; lia). exact (H1 x Hl). }
    destruct (decide (x ∈ ln)) as [Hl2|Hl2].
    { apply Hxn in Hl2 as E0. rewrite E0, Z.eqb_refl. exact (H2 x Hl2). }
    assert (term x <> old /\ term x <> new) as [N1 N2] by tauto. rewrite (proj2 (Z.eqb_neq _ _) N2). intros o Hoo.
    destruct (H3 x o Hp Hl Hl2 Hoo) as [-> ->]. destruct (Hpl o Hoo) as [-> Hu]. unfold home in *. rewrite (proj2 (Z.eqb_neq _ _) N1) in *.
    split; [done|]. by destruct Hu as [-> | ->]. }
  split; [by eapply sees_placed|]. intros o Hoo. destruct (Hs o Hoo) as [Ek Eu]. destruct (Hpl o Hoo) as [Ek0 Eu0].
  assert (vm ts' (home new (term x) + o) = vm ts (home old (term x) + o)) as Em by (rewrite Hvm; apply swapped_home; lia).
  split; [by eexists _, _|]. rewrite Eu. destruct Eu0 as [-> | ->]; [done | by eexists].
Qed.

Lemma switch_keeps_contents_witness :
  exists pages ts' s', switch_terminals (swap_vid_mem demo_layout) 1 demo_terminals (family pages) = Some (ts', set_pg s' (family pages)) /\
    kernel_video demo_layout s' 3 160 = Some 0xb90a0.
Proof.
  destruct (booted_ok demo_layout zero_paging [] demo_layout_ok zero_paging_sized ltac:(constructor)) as (pages0 & _ & Hok0).
  destruct (swap_vid_mem_spec demo_layout (family pages0) 3 1 0 [1] [0; 3] (proj2 (family_switchable pages0 Hok0)))
    as (pages & _ & Hok & _ & H1 & H2 & _). exists pages.
  destruct (switch_keeps_contents demo_layout (family pages) 3 0 1 [0; 3] [1] demo_terminals [0; 3; 1] (fun x => if x =? 1 then 1 else 0)
    (proj1 (family_switchable pages Hok)) demo_terminals_ok eq_refl) as (ts' & s' & E & _ & K); [lia | |].
  - intros x Hx. assert (x = 0 \/ x = 3 \/ x = 1) as Hx3 by (clear -Hx; repeat (apply elem_of_cons in Hx as [->|Hx]; [tauto|]); by apply elem_of_nil in Hx).
    split; [unfold pid_ok; lia|]. split; [case_if; lia|].
    split; [destruct Hx3 as [-> | [-> | ->]]; apply (bool_decide_unpack _); vm_compute; done|].
    split; [destruct Hx3 as [-> | [-> | ->]]; apply (bool_decide_unpack _); vm_compute; done|].
    destruct Hx3 as [-> | [-> | ->]]; apply (sees_placed demo_layout pages0);
      [apply (H2 0); by left | apply (H2 3); right; by left | apply (H1 1); by left].
  - exists ts', s'. split; [exact E|]. destruct (K 3) as [K3 _]; [right; by left|]. apply (K3 160). lia.
Defined.

(** C22: a program writes to its standard output, descriptor 1: the result is the number of
    its bytes that are not zero, and every access stays inside the arrays.  Of video memory
    only the page of its own terminal changes, the screen when that terminal is on display
    and the backing page when not; the half-typed line of the terminal is discarded, a line
    already entered is kept; the other terminals, the choice of
    the terminal on display and everything else of the kernel are as they were. *)
Theorem write_confined L dev k f c t x bs n :
  layout_ok L -> paging_ok L (pg (pr k)) -> pid_ok c -> cr3 (pg (pr k)) = pd_addr L c ->
  get_curr_process_terminal (pr k) = Some t -> terminals_ok (screen k) -> (ttys (screen k)).[t] = Some x ->
  placed L (pg (pr k)) (curr_terminal (screen k)) t c ->
  desc_is (pr k) f -> std_files f -> 0 <= n <= Z.of_nat (length bs) ->
  exists k', kwrite (galapagos_ops L dev) 1 (Some bs) n k = Some (Z.of_nat (length (shown (take (Z.to_nat n) bs))), k') /\
    wrote k k' t (home (curr_terminal (screen k)) t) x.
Proof.
  intros HL Hok Hp Hcr Ht Hts Hx Hpl Hd Hf Hn. destruct (video_page_ok L k c HL Hok Hcr Hp) as (v & Hv & Hvok).
  assert (v = home (curr_terminal (screen k)) t) as <-.
  { destruct (Hpl 0 ltac:(lia)) as [E _]. unfold video_page in Hv. unfold kernel_video in E. rewrite <- Hcr, !Z.add_0_r in E.
    replace (set_cr3 (cr3 (pg (pr k))) (pg (pr k))) with (pg (pr k)) in E by (by destruct (pg (pr k))). congruence. }
  rewrite (kwrite_stdout L dev k f bs n Hd Hf) by lia. apply (std_write_spec L 1 k t v x bs n); [by split | done].
Qed.

(** Process 3, on the screen: its program writes "hi", the zero between is not counted. *)
Lemma write_confined_witness :
  exists pages k', kwrite (galapagos_ops demo_layout (fun _ _ => 0)) 1 (Some [104; 0; 105; 10]) 4
      (Kernel (family pages) demo_sched demo_fs demo_mem (fun _ => 0) demo_terminals (Rtc 1 0) true) = Some (3, k') /\
    only_page SCREEN (vm demo_terminals) (vm (screen k')).
Proof.
  destruct (booted_ok demo_layout zero_paging [] demo_layout_ok zero_paging_sized ltac:(constructor)) as (pages0 & _ & Hok0).
  destruct (swap_vid_mem_spec demo_layout (family pages0) 3 1 0 [1] [0; 3] (proj2 (family_switchable pages0 Hok0)))
    as (s & _ & Hok & Hcr & _ & H2 & _). exists s.
  destruct (write_confined demo_layout (fun _ _ => 0) (Kernel (family s) demo_sched demo_fs demo_mem (fun _ => 0) demo_terminals (Rtc 1 0) true)
    demo_files 3 0 demo_tty [104; 0; 105; 10] 4) as (k' & E & H);
    [apply demo_layout_ok | exact Hok | unfold pid_ok; lia | exact Hcr | done | apply demo_terminals_ok | done | | split; reflexivity
    | split; reflexivity | cbn; lia|].
  - apply (sees_placed demo_layout pages0), (H2 3). right. by left.
  - exists k'. split; [exact E | exact (wr_page _ _ _ _ _ H)].
Defined.
