(* ===== verification/Keyboard.v ===== *)
(** * The keyboard, [student-distrib/int_handlers.c]

    The keyboard interrupt: modifier keys, the four tables from scan codes to
    characters, and the command history of every terminal, a circle of nine rows of
    which one is empty.  The arrays over terminals are one record per terminal.  Where
    a scan for the end of a row finds none, the code leaves the row: the model is
    stuck ([None]). *)

From stdpp Require Import base list option.
From Stdlib Require Import ZArith Lia ZifyBool.
From S2P Require Import Prelude MemOps Lib Console Ports I8259 Process Schedule Terminal FileArray.

Definition LSHIFT : Z := 0x2a.
Definition RSHIFT : Z := 0x36.
Definition LCTRL : Z := 0x1d.
Definition CAPS : Z := 0x3a.
Definition LALT : Z := 0x38.
Definition UP : Z := 0x48.
Definition DOWN : Z := 0x50.
Definition ENTER : Z := 0x1C.
Definition F1 : Z := 0x3b.
Definition F2 : Z := 0x3c.
Definition F3 : Z := 0x3d.
Definition RELEASE : Z := 0x80.
Definition MAXHIST : Z := 8.
Definition KEYBOARD_INT : Z := 1.
Definition KEYBOARD_PORT : Z := 0x60.
Definition SCAN_LIMIT : Z := 80.

(** ** The tables *)

Definition kbdus_0 : list Z :=
  [0; 27] ++ str "1234567890-=" ++ [8; 9] ++ str "qwertyuiop[]" ++ [10; 0] ++ str "asdfghjkl;'`" ++ [0] ++ str "\zxcvbnm,./" ++ [0; 42; 0; 32]
  ++ replicate 16 0 ++ [45; 0; 0; 0; 43] ++ replicate 49 0.
Definition kbdus_1 : list Z :=
  [0; 27] ++ str "!@#$%^&*()_+" ++ [8; 9] ++ str "QWERTYUIOP{}" ++ [10; 0] ++ str "ASDFGHJKL:" ++ [34; 126; 0] ++ str "|ZXCVBNM<>?" ++ [0; 42; 0; 32]
  ++ replicate 17 0 ++ [45; 0; 0; 0; 43] ++ replicate 48 0.
Definition kbdus_2 : list Z :=
  [0; 27] ++ str "1234567890-=" ++ [8; 9] ++ str "QWERTYUIOP[]" ++ [10; 0] ++ str "ASDFGHJKL;'`" ++ [0] ++ str "\ZXCVBNM,./" ++ [0; 42; 0; 32]
  ++ replicate 17 0 ++ [45; 0; 0; 0; 43] ++ replicate 48 0.
Definition kbdus_3 : list Z :=
  [0; 27] ++ str "!@#$%^&*()_+" ++ [8; 9] ++ str "qwertyuiop[]" ++ [10; 0] ++ str "asdfghjkl:" ++ [34; 126; 0] ++ str "|ZXCVBNM<>?" ++ [0; 42; 0; 32]
  ++ replicate 17 0 ++ [45; 0; 0; 0; 43] ++ replicate 48 0.

(** ** State *)

(** The history of a terminal. *)
Record cmd_hist := CmdHist {
  num_hist : Z; curr_hist : Z; min_hist : Z;
  modified_hist : list (list Z); hist : list (list Z); curr_cmd : list Z }.

Record keyboard := Keyboard {
  caps_lock : Z; shift : Z; ctrl : Z; alt : Z; hists : list cmd_hist }.

Definition set_shift (v : Z) (kb : keyboard) : keyboard := Keyboard (caps_lock kb) v (ctrl kb) (alt kb) (hists kb).
Definition set_ctrl (v : Z) (kb : keyboard) : keyboard := Keyboard (caps_lock kb) (shift kb) v (alt kb) (hists kb).
Definition set_caps (v : Z) (kb : keyboard) : keyboard := Keyboard v (shift kb) (ctrl kb) (alt kb) (hists kb).
Definition set_alt (v : Z) (kb : keyboard) : keyboard := Keyboard (caps_lock kb) (shift kb) (ctrl kb) v (hists kb).
Definition set_hists (v : list cmd_hist) (kb : keyboard) : keyboard := Keyboard (caps_lock kb) (shift kb) (ctrl kb) (alt kb) v.

(** ** History *)

(** [for (i = 0; i < 128; i++) to[i] = from[i];] and the same with zeros. *)
Definition copy_row (to from : list Z) : option (list Z) :=
  for_up 128 0 (fun i r => c ← from.[i]; r.[i <- c]) to.
Definition clear_row (r : list Z) : option (list Z) := for_up 128 0 (fun i r => r.[i <- 0]) r.

Definition slot (n : Z) : Z := Z.rem n (MAXHIST + 1).

(** The branch for the enter key. *)
Definition save_command (h : cmd_hist) : option cmd_hist :=
  r ← (hist h).[slot (num_hist h)]; r ← copy_row r (curr_cmd h); rows ← (hist h).[slot (num_hist h) <- r];
  let num := num_hist h + 1 in
  let min := if MAXHIST <? num then min_hist h + 1 else min_hist h in
  r ← rows.[slot num]; r ← clear_row r; rows ← rows.[slot num <- r];
  modified ← for_up (Z.to_nat (MAXHIST + 1)) 0 (fun i ms =>
      r ← ms.[i]; from ← rows.[i]; r ← copy_row r from; ms.[i <- r]) (modified_hist h);
  cmd ← clear_row (curr_cmd h);
  Some (CmdHist num num min modified rows cmd).

(** The branches for the arrow keys, [n] being the row to show. *)
Definition recall (n : Z) (h : cmd_hist) (ts : terminals) : option (cmd_hist * terminals) :=
  src ← (modified_hist h).[slot n];
  ts ← hist_copy_from src ts;
  cmd ← copy_row (curr_cmd h) src;
  Some (CmdHist (num_hist h) n (min_hist h) (modified_hist h) (hist h) cmd, ts).

(** [curr_cmd[term][strlen(curr_cmd[term])] = c] and the same for the row on display. *)
Definition append_char (c : Z) (h : cmd_hist) : option cmd_hist :=
  n ← strlen (curr_cmd h); cmd ← (curr_cmd h).[n <- c];
  m ← (modified_hist h).[slot (curr_hist h)]; n ← strlen m; m ← m.[n <- c];
  ms ← (modified_hist h).[slot (curr_hist h) <- m];
  Some (CmdHist (num_hist h) (curr_hist h) (min_hist h) ms (hist h) cmd).

Definition init_hist (kb : keyboard) : option keyboard :=
  hs ← for_up (Z.to_nat NUM_TERMINALS) 0 (fun j hs =>
      h ← hs.[j]; cmd ← clear_row (curr_cmd h);
      hs.[j <- CmdHist (num_hist h) (curr_hist h) (min_hist h) (modified_hist h) (hist h) cmd]) (hists kb);
  hs ← for_up (Z.to_nat NUM_TERMINALS) 0 (fun j hs =>
      h ← hs.[j];
      rows ← for_up (Z.to_nat (MAXHIST + 1)) 0 (fun i rows => r ← rows.[i]; r ← r.[0 <- 0]; rows.[i <- r]) (hist h);
      hs.[j <- CmdHist (num_hist h) (curr_hist h) (min_hist h) (modified_hist h) rows (curr_cmd h)]) hs;
  Some (set_hists hs kb).

(** ** The interrupt *)

(** The chain of tests before the key is typed. *)
Definition scan_key (key : Z) (kb : keyboard) (ts : terminals) : option (keyboard * terminals) :=
  let term := get_curr_terminal ts in
  h ← (hists kb).[term];
  if (key =? LSHIFT) || (key =? RSHIFT) then Some (set_shift 1 kb, ts)
  else if (key =? LSHIFT + RELEASE) || (key =? RSHIFT + RELEASE) then Some (set_shift 0 kb, ts)
  else if key =? LCTRL then Some (set_ctrl 1 kb, ts)
  else if key =? LCTRL + RELEASE then Some (set_ctrl 0 kb, ts)
  else if (key =? CAPS) && (caps_lock kb =? 0) then Some (set_caps 1 kb, ts)
  else if (key =? CAPS) && (caps_lock kb =? 1) then Some (set_caps 0 kb, ts)
  else if key =? LALT then Some (set_alt 1 kb, ts)
  else if key =? LALT + RELEASE then Some (set_alt 0 kb, ts)
  else if (key =? UP) && (min_hist h <? curr_hist h) then
    '(h, ts) ← recall (curr_hist h - 1) h ts; hs ← (hists kb).[term <- h]; Some (set_hists hs kb, ts)
  else if (key =? DOWN) && (curr_hist h <? num_hist h) then
    '(h, ts) ← recall (curr_hist h + 1) h ts; hs ← (hists kb).[term <- h]; Some (set_hists hs kb, ts)
  else
    c ← (curr_cmd h).[0];
    if (key =? ENTER) && negb (c =? 0) then
      h ← save_command h; hs ← (hists kb).[term <- h]; Some (set_hists hs kb, ts)
    else Some (kb, ts).

(** Type the character a table gives for the key. *)
Definition type_key (table : list Z) (key term : Z) (kb : keyboard) (ts : terminals) : option (keyboard * terminals) :=
  c ← table.[key];
  ts ← put_char (s8 c) ts;
  if negb (key =? ENTER) then
    h ← (hists kb).[term]; h ← append_char c h; hs ← (hists kb).[term <- h]; Some (set_hists hs kb, ts)
  else Some (kb, ts).

Section Interrupt.
Context (dev : log -> Z -> Z) {P : Type} (swap_vid_mem : Z -> Z -> P -> option (Z * P)).

Definition press_key (key : Z) (kb : keyboard) (ts : terminals) (p : P) : option (keyboard * terminals * P) :=
  let term := get_curr_terminal ts in
  if (alt kb =? 1) && ((key =? F1) || (key =? F2) || (key =? F3)) then
    '(ts, p) ← switch_terminals swap_vid_mem (key - F1) ts p; Some (kb, ts, p)
  else if (shift kb =? 1) && (caps_lock kb =? 0) then '(kb, ts) ← type_key kbdus_1 key term kb ts; Some (kb, ts, p)
  else if (shift kb =? 0) && (caps_lock kb =? 1) then '(kb, ts) ← type_key kbdus_2 key term kb ts; Some (kb, ts, p)
  else if (shift kb =? 1) && (caps_lock kb =? 1) then '(kb, ts) ← type_key kbdus_3 key term kb ts; Some (kb, ts, p)
  else
    c ← kbdus_0.[key];
    if (ctrl kb =? 1) && (c =? 108) then ts ← clear_terminal ts; Some (kb, ts, p)
    else '(kb, ts) ← type_key kbdus_0 key term kb ts; Some (kb, ts, p).

Definition on_key (key : Z) (kb : keyboard) (ts : terminals) (p : P) : option (keyboard * terminals * P) :=
  '(kb, ts) ← scan_key key kb ts;
  if key <=? SCAN_LIMIT then press_key key kb ts p else Some (kb, ts, p).

Definition keyboard_int (kb : keyboard) (ts : terminals) (p : P) : option (keyboard * terminals * P) :=
  let s := send_eoi KEYBOARD_INT (pio ts) in
  let '(key, s) := inb dev KEYBOARD_PORT s in
  on_key key kb (Terminals (mem_set ts) (curr_terminal ts) (ttys ts) (vm ts) s) p.

End Interrupt.


(** ** Rows *)

Lemma copy_row_spec to from : length to = 128%nat -> length from = 128%nat -> copy_row to from = Some from.
Proof.
  intros Ht Hf. unfold copy_row.
  destruct (for_up_inv (fun i r => length r = 128%nat /\ forall j, 0 <= j < i -> r.[j] = from.[j]) 128 0
    (fun i r => c ← from.[i]; r.[i <- c]) to) as (r & -> & Hl & Hr).
  - split; [done|]. lia.
  - intros i r Hi [Hl Hr]. destruct (zget_ex from i) as [c Hc]; [lia|]. rewrite Hc, some_bind.
    destruct (r.[i <- c]) as [r'|] eqn:E; [|by rewrite zset_in in E by lia]. exists r'. split; [done|].
    split; [by rewrite (zset_length _ _ _ _ E)|]. intros j Hj. rewrite (zget_zset _ _ _ _ _ E).
    destruct (Z.eqb_spec j i) as [->|Hne]; [done|]. apply Hr. lia.
  - f_equal. apply zget_ext; [lia|]. intros j Hj. apply Hr. lia.
Qed.

Lemma zget_replicate {A} n (x : A) j : 0 <= j < Z.of_nat n -> (replicate n x).[j] = Some x.
Proof. intros Hj. rewrite zget_lookup by lia. apply lookup_replicate. split; [done | lia]. Qed.

Lemma clear_row_spec r : length r = 128%nat -> clear_row r = Some (replicate 128 0).
Proof.
  intros Hr. unfold clear_row.
  destruct (for_up_inv (fun i r => length r = 128%nat /\ forall j, 0 <= j < i -> r.[j] = Some 0) 128 0 (fun i r => r.[i <- 0]) r)
    as (r' & -> & Hl & Hz).
  - split; [done|]. lia.
  - intros i r1 Hi [Hl Hz]. destruct (r1.[i <- 0]) as [r2|] eqn:E; [|by rewrite zset_in in E by lia]. exists r2. split; [done|].
    split; [by rewrite (zset_length _ _ _ _ E)|]. intros j Hj. rewrite (zget_zset _ _ _ _ _ E).
    destruct (Z.eqb_spec j i); [done|]. apply Hz. lia.
  - f_equal. apply zget_ext; [by rewrite length_replicate|]. intros j Hj. rewrite zget_replicate by lia. apply Hz. lia.
Qed.

(** A row that holds a string, filled up with zeros. *)
Definition padded (r c : list Z) : Prop :=
  r = c ++ replicate (128 - length c) 0 /\ Forall (fun x => x <> 0) c /\ (length c < 128)%nat.

Lemma padded_cstring r c : padded r c -> cstring r c.
Proof.
  intros (-> & Hnz & Hl). exists (replicate (127 - length c) 0). split; [|done].
  replace (128 - length c)%nat with (S (127 - length c)) by lia. done.
Qed.

Lemma padded_length r c : padded r c -> length r = 128%nat.
Proof. intros (-> & _ & Hl). rewrite length_app, length_replicate. lia. Qed.

Lemma padded_nil : padded (replicate 128 0) [].
Proof. split; [done|]. split; [constructor | cbn; lia]. Qed.

(** The place a character is appended at. *)
Lemma padded_end r c : padded r c -> strlen r = Some (Z.of_nat (length c)).
Proof. intros H. rewrite (strlen_spec r c); [done | by apply padded_cstring | destruct H as (_ & _ & H); lia]. Qed.

Lemma padded_append r c x : padded r c -> r.[Z.of_nat (length c) <- x] = Some (c ++ x :: replicate (127 - length c) 0).
Proof.
  intros (-> & _ & Hl). replace (128 - length c)%nat with (S (127 - length c)) by lia. cbn [replicate].
  by rewrite (zset_app_mid c _ _ 0 x).
Qed.

Lemma padded_snoc r c x : padded r c -> x <> 0 -> (length c < 127)%nat -> padded (c ++ x :: replicate (127 - length c) 0) (c ++ [x]).
Proof.
  intros (_ & Hnz & _) Hx Hl. split; [|split].
  - rewrite length_app. cbn [length]. replace (128 - (length c + 1))%nat with (127 - length c)%nat by lia. by rewrite <- app_assoc.
  - apply Forall_app. split; [done | by repeat constructor].
  - rewrite length_app. cbn [length]. lia.
Qed.

(** Nine rows of 128 bytes. *)
Definition rows_ok (rows : list (list Z)) : Prop := length rows = 9%nat /\ forall i r, rows.[i] = Some r -> length r = 128%nat.

Lemma rows_get rows i : rows_ok rows -> 0 <= i < 9 -> exists r, rows.[i] = Some r /\ length r = 128%nat.
Proof. intros [Hl Hr] Hi. destruct (zget_ex rows i) as [r E]; [lia|]. eauto. Qed.

Lemma rows_set rows i r : rows_ok rows -> 0 <= i < 9 -> length r = 128%nat ->
  exists rows', rows.[i <- r] = Some rows' /\ rows_ok rows' /\ forall j, rows'.[j] = if j =? i then Some r else rows.[j].
Proof.
  intros [Hl Hr] Hi Hlr. destruct (rows.[i <- r]) as [rows'|] eqn:E; [|by rewrite zset_in in E by lia].
  exists rows'. split; [done|]. split; [|intros j; apply (zget_zset _ _ _ _ _ E)].
  split; [by rewrite (zset_length _ _ _ _ E)|]. intros j r'. rewrite (zget_zset _ _ _ _ _ E).
  destruct (j =? i); [by intros [= <-] | apply Hr].
Qed.

Lemma slot_range n : 0 <= n -> 0 <= slot n < 9.
Proof. intros H. unfold slot, MAXHIST. rewrite Z.rem_mod_nonneg by lia. apply Z.mod_pos_bound. lia. Qed.

Lemma slot_differs i j : 0 <= i < j -> j < i + 9 -> slot i <> slot j.
Proof. intros H1 H2. unfold slot, MAXHIST. rewrite !Z.rem_mod_nonneg by lia. zlia. Qed.

Lemma copy_rows_spec ms rows : rows_ok ms -> rows_ok rows ->
  for_up (Z.to_nat (MAXHIST + 1)) 0 (fun i ms => r ← ms.[i]; from ← rows.[i]; r ← copy_row r from; ms.[i <- r]) ms = Some rows.
Proof.
  intros Hms Hrows.
  destruct (for_up_inv (fun i ms => rows_ok ms /\ forall j, 0 <= j < i -> ms.[j] = rows.[j]) (Z.to_nat (MAXHIST + 1)) 0
    (fun i ms => r ← ms.[i]; from ← rows.[i]; r ← copy_row r from; ms.[i <- r]) ms) as (ms' & -> & [Hl _] & Hm).
  - split; [done|]. lia.
  - intros i ms1 Hi [Hok Hm]. change (Z.of_nat (Z.to_nat (MAXHIST + 1))) with 9 in Hi.
    destruct (rows_get ms1 i Hok) as (r & -> & Hr); [lia|]. destruct (rows_get rows i Hrows) as (from & Ef & Hf); [lia|].
    rewrite some_bind, Ef, some_bind, copy_row_spec, some_bind by done.
    destruct (rows_set ms1 i from Hok) as (ms2 & -> & Hok2 & Hget); [lia | done|]. exists ms2. split; [done|]. split; [done|].
    intros j Hj. rewrite Hget. destruct (Z.eqb_spec j i) as [->|]; [done|]. apply Hm. lia.
  - f_equal. destruct Hrows as [Hl' _]. apply zget_ext; [lia|]. intros j Hj. apply Hm. change (Z.of_nat (Z.to_nat (MAXHIST + 1))) with 9. lia.
Qed.

(** ** The history of a terminal *)

(** [cmds] are all the commands entered so far; the last eight are kept. *)
Record hist_ok (h : cmd_hist) (cmds : list (list Z)) : Prop := {
  ho_num : num_hist h = Z.of_nat (length cmds);
  ho_min : min_hist h = Z.max 0 (num_hist h - 8);
  ho_hist : rows_ok (hist h);
  ho_modified : rows_ok (modified_hist h);
  ho_cmd : length (curr_cmd h) = 128%nat;
  ho_rows : forall i c, min_hist h <= i -> cmds.[i] = Some c -> exists r, (hist h).[slot i] = Some r /\ padded r c }.

(** Row [j] is on display and no row has been edited since the last command. *)
Definition browsing (h : cmd_hist) (j : Z) : Prop := curr_hist h = j /\ modified_hist h = hist h.

(** The text [c] has been typed so far, as a new command. *)
Definition drafting (h : cmd_hist) (c : list Z) : Prop :=
  padded (curr_cmd h) c /\ exists r, (modified_hist h).[slot (curr_hist h)] = Some r /\ padded r c.

Lemma save_command_spec h cmds c :
  hist_ok h cmds -> padded (curr_cmd h) c ->
  exists h', save_command h = Some h' /\ hist_ok h' (cmds ++ [c]) /\ browsing h' (num_hist h') /\ drafting h' [].
Proof.
  intros [Hn Hm Hh Hmo Hc Hr] Hpad. unfold save_command. set (num := num_hist h) in *. assert (0 <= num) as Hn0 by lia.
  pose proof (slot_range num Hn0) as S0. pose proof (slot_range (num + 1) ltac:(lia)) as S1.
  destruct (rows_get (hist h) (slot num) Hh S0) as (r0 & -> & Hr0). rewrite some_bind, copy_row_spec, some_bind by done.
  destruct (rows_set (hist h) (slot num) (curr_cmd h) Hh S0 Hc) as (rows1 & -> & Hok1 & G1). rewrite some_bind.
  destruct (rows_get rows1 (slot (num + 1)) Hok1 S1) as (r1 & -> & Hr1). rewrite some_bind, (clear_row_spec r1), some_bind by done.
  destruct (rows_set rows1 (slot (num + 1)) (replicate 128 0) Hok1 S1 ltac:(done)) as (rows2 & -> & Hok2 & G2). rewrite some_bind.
  rewrite copy_rows_spec, some_bind, clear_row_spec, some_bind by done. eexists. split; [done|]. split.
  2:{ split; [done|]. split; [apply padded_nil|]. exists (replicate 128 0). split; [|apply padded_nil].
      cbn [modified_hist curr_hist]. by rewrite G2, Z.eqb_refl. }
  split; cbn [num_hist min_hist hist modified_hist curr_cmd]; try done.
  - rewrite length_app. cbn [length]. lia.
  - unfold MAXHIST. destruct (Z.ltb_spec 8 (num + 1)); lia.
  - intros i x Hi Hx. pose proof (zget_Some_range _ _ _ Hx) as Hir. rewrite length_app in Hir. cbn [length] in Hir.
    unfold MAXHIST in Hi. assert (num - 7 <= i) as Hwin by (destruct (Z.ltb_spec 8 (num + 1)); lia).
    assert (slot i <> slot (num + 1)) as D1 by (apply slot_differs; lia). rewrite G2, (proj2 (Z.eqb_neq _ _) D1), G1.
    destruct (Z.eq_dec i num) as [->|Hne].
    + rewrite Z.eqb_refl. exists (curr_cmd h). split; [done|]. rewrite zget_app_r in Hx by lia.
      replace (num - Z.of_nat (length cmds)) with 0 in Hx by lia. by injection Hx as <-.
    + assert (slot i <> slot num) as D0 by (apply slot_differs; lia). rewrite (proj2 (Z.eqb_neq _ _) D0).
      apply Hr; [destruct (MAXHIST <? num + 1); lia |]. rewrite zget_app_l in Hx by lia. done.
Qed.


(** A key with no character changes nothing. *)
Lemma append_nothing h r c c' :
  padded (curr_cmd h) c -> (modified_hist h).[slot (curr_hist h)] = Some r -> padded r c' -> append_char 0 h = Some h.
Proof.
  intros Hc Hr Hc'. unfold append_char. rewrite (padded_end _ c) by done. rewrite some_bind.
  assert (forall r c, padded r c -> r.[Z.of_nat (length c) <- 0] = Some r) as Hsame.
  { intros r0 c0 H0. rewrite (padded_append _ _ _ H0). destruct H0 as (-> & _ & Hl).
    replace (128 - length c0)%nat with (S (127 - length c0)) by lia. done. }
  rewrite (Hsame _ _ Hc), some_bind, Hr, some_bind, (padded_end r c'), some_bind, (Hsame _ _ Hc'), some_bind by done.
  pose proof (zget_Some_range _ _ _ Hr). rewrite zset_in by lia. rewrite some_bind.
  assert (<[Z.to_nat (slot (curr_hist h)) := r]> (modified_hist h) = modified_hist h) as ->.
  { apply list_insert_id. rewrite <- zget_lookup by lia. done. }
  by destruct h.
Qed.

(** No modifier is held. *)
Definition plain_keyboard (kb : keyboard) : Prop := caps_lock kb = 0 /\ shift kb = 0 /\ ctrl kb = 0 /\ alt kb = 0.

Definition printable (c : list Z) : Prop := Forall (fun x => 32 <= x < 128) c.

(** The line of the terminal on display. *)
Definition shows (ts : terminals) (c : list Z) : Prop := exists x, (ttys ts).[curr_terminal ts] = Some x /\ line x = c.

Lemma recall_spec h cmds j c ts :
  hist_ok h cmds -> modified_hist h = hist h -> min_hist h <= j -> cmds.[j] = Some c -> printable c -> terminals_ok ts ->
  exists h' ts', recall j h ts = Some (h', ts') /\ hist_ok h' cmds /\ browsing h' j /\ padded (curr_cmd h') c /\
    (exists r, (modified_hist h').[slot j] = Some r /\ padded r c) /\
    terminals_ok ts' /\ curr_terminal ts' = curr_terminal ts /\ shows ts' c /\ min_hist h' = min_hist h.
Proof.
  intros Hok Hmod Hj Hc Hprint Hts. pose proof Hok as [Hn Hm Hh Hmo Hcl Hr]. destruct (Hr j c Hj Hc) as (r & Er & Hp).
  unfold recall. rewrite Hmod, Er, some_bind. destruct (get_tty ts (curr_terminal ts) Hts) as (x & Hx & _); [by destruct Hts|].
  destruct (hist_copy_spec r c ts x Hts Hx) as (ts' & x' & -> & Hts' & Hcur & Hx' & Hline & _); [by apply padded_cstring | done | by destruct Hp as (_ & _ & ?)|].
  rewrite some_bind, copy_row_spec, some_bind by (done || by apply (padded_length r c)).
  eexists _, ts'. split; [done|]. split_and!; try done.
  - split; cbn; rewrite ?Hmod; try done. by apply (padded_length r c).
  - by exists r.
  - exists x'. by rewrite Hcur.
Qed.

(** ** Keys *)

Section Keys.
Context {P : Type} (swap_vid_mem : Z -> Z -> P -> option (Z * P)).

Fixpoint on_keys (ks : list Z) (kb : keyboard) (ts : terminals) (p : P) : option (keyboard * terminals * P) :=
  match ks with
  | [] => Some (kb, ts, p)
  | key :: ks' => '(kb, ts, p) ← on_key swap_vid_mem key kb ts p; on_keys ks' kb ts p
  end.

(** The keyboard with no modifier held, on a terminal with history [h]. *)
Record at_work (kb : keyboard) (ts : terminals) (t : Z) (h : cmd_hist) (cmds : list (list Z)) : Prop := {
  aw_plain : plain_keyboard kb;
  aw_ts : terminals_ok ts;
  aw_term : curr_terminal ts = t;
  aw_hist : (hists kb).[t] = Some h;
  aw_ok : hist_ok h cmds }.

Lemma put_hist kb t h h' : (hists kb).[t] = Some h -> exists hs, (hists kb).[t <- h'] = Some hs /\ hs.[t] = Some h'.
Proof.
  intros H. pose proof (zget_Some_range _ _ _ H). destruct ((hists kb).[t <- h']) as [hs|] eqn:E; [|by rewrite zset_in in E by lia].
  exists hs. split; [done|]. by rewrite (zget_zset _ _ _ _ _ E), Z.eqb_refl.
Qed.

(** With no modifier, a key other than the function keys is typed from the first table. *)
Lemma press_plain key c kb ts p :
  plain_keyboard kb -> kbdus_0.[key] = Some c ->
  press_key swap_vid_mem key kb ts p = ('(kb, ts) ← type_key kbdus_0 key (curr_terminal ts) kb ts; Some (kb, ts, p)).
Proof.
  intros (H1 & H2 & H3 & H4) Hc. unfold press_key, get_curr_terminal. rewrite H1, H2, H3, H4. cbn [Z.eqb Pos.eqb andb].
  rewrite Hc, some_bind. done.
Qed.

Lemma on_key_up kb ts t h cmds j c p :
  at_work kb ts t h cmds -> browsing h (j + 1) -> min_hist h <= j -> cmds.[j] = Some c -> printable c ->
  exists kb' ts' h', on_key swap_vid_mem UP kb ts p = Some (kb', ts', p) /\ at_work kb' ts' t h' cmds /\ browsing h' j /\
    min_hist h' = min_hist h /\ shows ts' c /\ padded (curr_cmd h') c.
Proof.
  intros [Hp Hts Ht Hh Hok] [Hcur Hmod] Hj Hc Hprint. unfold on_key, scan_key, get_curr_terminal. rewrite Ht, Hh, some_bind.
  change ((UP =? LSHIFT) || (UP =? RSHIFT)) with false. change ((UP =? LSHIFT + RELEASE) || (UP =? RSHIFT + RELEASE)) with false.
  change (UP =? LCTRL) with false. change (UP =? LCTRL + RELEASE) with false. change (UP =? CAPS) with false.
  change (UP =? LALT) with false. change (UP =? LALT + RELEASE) with false. change (UP =? UP) with true. cbn [andb].
  rewrite Hcur. btrue (min_hist h <? j + 1). replace (j + 1 - 1) with j by lia.
  destruct (recall_spec h cmds j c ts Hok Hmod Hj Hc Hprint Hts) as (h' & ts' & -> & Hok' & Hb' & Hpc & (r & Hr & Hpr) & Hts' & Hct & (x & Hx & Hline) & Hmin).
  rewrite some_bind. destruct (put_hist kb t h h' Hh) as (hs & -> & Hhs). rewrite !some_bind.
  change (UP <=? SCAN_LIMIT) with true. cbv iota. rewrite (press_plain UP 0) by done. rewrite Hct, Ht.
  unfold type_key. change (kbdus_0.[UP]) with (Some 0). rewrite some_bind. change (s8 0) with 0.
  destruct (put_char_spec 0 ts' x Hts') as (x2 & ts2 & -> & Hts2 & Hct2 & Hx2 & He & _); [done | done|]. rewrite some_bind.
  change (negb (UP =? ENTER)) with true. cbv iota. cbn [hists set_hists]. rewrite Hhs, some_bind.
  destruct Hb' as [Hb1 Hb2]. rewrite <- Hb1 in Hr. rewrite (append_nothing h' r c c), some_bind by done.
  destruct (put_hist (set_hists hs kb) t h' h' Hhs) as (hs2 & E2 & Hhs2). cbn [hists set_hists] in E2. rewrite E2, !some_bind.
  eexists _, ts2, h'. split; [done|]. split; [by split; [done | done | congruence | done | done]|]. split_and!; try done.
  exists x2. split; [by rewrite Hct2|]. unfold key_effect in He. cbn [Z.eqb NEW_LINE] in He. destruct He as (-> & _). by rewrite Hline.
Qed.

(** Pressing the up arrow [k] times. *)
Lemma ups_recall k kb ts t h cmds j c p :
  at_work kb ts t h cmds -> browsing h (j + Z.of_nat k) -> (0 < k)%nat -> j + Z.of_nat k <= Z.of_nat (length cmds) ->
  min_hist h <= j -> cmds.[j] = Some c -> Forall printable cmds ->
  exists kb' ts' h', on_keys (replicate k UP) kb ts p = Some (kb', ts', p) /\ at_work kb' ts' t h' cmds /\ browsing h' j /\
    shows ts' c /\ padded (curr_cmd h') c.
Proof.
  revert kb ts h. induction k as [|k IH]; intros kb ts h Haw Hb Hk Hn Hj Hc Hall; [lia|]. cbn [replicate on_keys].
  pose proof (zget_Some_range _ _ _ Hc) as Hjr. destruct (zget_ex cmds (j + Z.of_nat k)) as [c1 Hc1]; [lia|].
  assert (forall i x, cmds.[i] = Some x -> printable x) as Hpr.
  { intros i x Hx. pose proof (zget_Some_range _ _ _ Hx). rewrite zget_lookup in Hx by lia. exact (Forall_lookup_1 _ _ _ _ Hall Hx). }
  replace (j + Z.of_nat (S k)) with (j + Z.of_nat k + 1) in Hb by lia.
  destruct (on_key_up kb ts t h cmds (j + Z.of_nat k) c1 p Haw Hb) as (kb1 & ts1 & h1 & -> & Haw1 & Hb1 & Hm1 & Hs1 & Hp1); [lia | done | by eapply Hpr|].
  rewrite some_bind. destruct k as [|k].
  - replace (j + Z.of_nat 0) with j in * by lia. replace c1 with c in * by congruence. by exists kb1, ts1, h1.
  - apply (IH kb1 ts1 h1); try done; lia.
Qed.

Lemma on_key_enter kb ts t h cmds c p :
  at_work kb ts t h cmds -> padded (curr_cmd h) c -> c <> [] ->
  exists kb' ts' h', on_key swap_vid_mem ENTER kb ts p = Some (kb', ts', p) /\ at_work kb' ts' t h' (cmds ++ [c]) /\
    browsing h' (num_hist h') /\ drafting h' [] /\ shows ts' [] /\
    (forall l, shows ts l -> exists x, (ttys ts').[t] = Some x /\ lastline x = l ++ [10] /\ rd x = 1).
Proof.
  intros [Hp Hts Ht Hh Hok] Hpad Hne. unfold on_key, scan_key, get_curr_terminal. rewrite Ht, Hh, some_bind.
  change ((ENTER =? LSHIFT) || (ENTER =? RSHIFT)) with false. change ((ENTER =? LSHIFT + RELEASE) || (ENTER =? RSHIFT + RELEASE)) with false.
  change (ENTER =? LCTRL) with false. change (ENTER =? LCTRL + RELEASE) with false. change (ENTER =? CAPS) with false.
  change (ENTER =? LALT) with false. change (ENTER =? LALT + RELEASE) with false. change (ENTER =? UP) with false.
  change (ENTER =? DOWN) with false. change (ENTER =? ENTER) with true. cbn [andb].
  destruct c as [|c0 c]; [done|]. assert ((curr_cmd h).[0] = Some c0 /\ c0 <> 0) as [-> Hc0].
  { destruct Hpad as (-> & Hnz & _). inversion Hnz. done. }
  rewrite some_bind. bfalse (c0 =? 0). cbn [negb].
  destruct (save_command_spec h cmds (c0 :: c) Hok Hpad) as (h' & -> & Hok' & Hb' & Hdraft'). rewrite some_bind.
  destruct (put_hist kb t h h' Hh) as (hs & -> & Hhs). rewrite !some_bind. change (ENTER <=? SCAN_LIMIT) with true. cbv iota.
  rewrite (press_plain ENTER 10) by done. unfold type_key. change (kbdus_0.[ENTER]) with (Some 10). rewrite some_bind. change (s8 10) with 10.
  destruct (get_tty ts (curr_terminal ts) Hts) as (x & Hx & _); [by destruct Hts|].
  destruct (put_char_spec 10 ts x Hts) as (x2 & ts2 & -> & Hts2 & Hct2 & Hx2 & He & _); [done | done|]. rewrite !some_bind.
  change (negb (ENTER =? ENTER)) with false. cbv iota. rewrite some_bind. unfold key_effect in He. cbn [Z.eqb NEW_LINE Pos.eqb] in He.
  destruct He as (He1 & He2 & He3). eexists _, ts2, h'. split; [done|].
  split; [by split; [done | done | congruence | done | done]|]. split_and!; try done.
  - exists x2. by rewrite Hct2.
  - intros l (x' & Hx' & <-). exists x2. rewrite <- Ht. replace x' with x in * by congruence. done.
Qed.

(** A key that types a character has none of the special scan codes. *)
Definition types (key c : Z) : Prop := kbdus_0.[key] = Some c /\ 32 <= c < 128.

Definition special (key : Z) : bool :=
  (key =? LSHIFT) || (key =? RSHIFT) || (key =? LCTRL) || (key =? CAPS) || (key =? LALT) || (key =? UP) || (key =? DOWN) || (key =? ENTER).

Lemma types_plain key c : types key c -> 0 <= key <= 80 /\ special key = false.
Proof.
  intros [Hk Hc].
  assert (forallb (fun i => match kbdus_0.[i] with Some x => (x <? 32) || ((i <=? 80) && negb (special i)) | None => true end) (seqZ 0 128) = true) as H
    by (vm_compute; reflexivity).
  rewrite forallb_forall in H. pose proof (zget_Some_range _ _ _ Hk) as Hr. change (Z.of_nat (length kbdus_0)) with 128 in Hr.
  specialize (H key). rewrite Hk in H. assert (((c <? 32) || ((key <=? 80) && negb (special key))) = true) as E.
  { apply H, list_elem_of_In, elem_of_seqZ. lia. }
  apply orb_true_iff in E as [E|E]; [lia|]. apply andb_true_iff in E as [E1 E2]. apply negb_true_iff in E2. split; [lia | done].
Qed.

Lemma scan_plain key c kb ts h :
  types key c -> (hists kb).[curr_terminal ts] = Some h -> length (curr_cmd h) = 128%nat -> scan_key key kb ts = Some (kb, ts).
Proof.
  intros Hty Hh Hl. destruct (types_plain key c Hty) as [Hk Hs]. unfold special in Hs. repeat apply orb_false_iff in Hs as [Hs ?].
  unfold scan_key, get_curr_terminal. rewrite Hh, some_bind.
  repeat match goal with H : (key =? _) = false |- _ => rewrite H; clear H end. cbn [orb andb].
  unfold LSHIFT, RSHIFT, LCTRL, LALT, RELEASE. bfalse ((key =? 0x2a + 0x80) || (key =? 0x36 + 0x80)). bfalse (key =? 0x1d + 0x80). bfalse (key =? 0x38 + 0x80).
  destruct (zget_ex (curr_cmd h) 0) as [x ->]; [lia|]. done.
Qed.

Lemma append_draft h cmds c x :
  hist_ok h cmds -> drafting h c -> x <> 0 -> (length c < 127)%nat ->
  exists h', append_char x h = Some h' /\ hist_ok h' cmds /\ drafting h' (c ++ [x]).
Proof.
  intros [Hn Hm Hh Hmo Hcl Hr] [Hpc (r & Er & Hpr)] Hx Hl. unfold append_char.
  rewrite (padded_end _ c Hpc), some_bind, (padded_append _ c x Hpc), some_bind, Er, some_bind.
  rewrite (padded_end _ c Hpr), some_bind, (padded_append _ c x Hpr), some_bind.
  pose proof (padded_snoc _ c x Hpc Hx Hl) as Hsnoc. pose proof (zget_Some_range _ _ _ Er) as Hrange.
  destruct (rows_set (modified_hist h) (slot (curr_hist h)) (c ++ x :: replicate (127 - length c) 0) Hmo) as (ms & -> & Hms & Hget);
    [destruct Hmo; lia | by apply (padded_length _ (c ++ [x]))|].
  rewrite some_bind. eexists. split; [done|]. split; [split; cbn; try done; by apply (padded_length _ (c ++ [x]))|].
  split; [done|]. eexists. cbn [modified_hist curr_hist]. rewrite Hget, Z.eqb_refl. done.
Qed.

Lemma on_key_type kb ts t h cmds c key x p :
  at_work kb ts t h cmds -> drafting h c -> types key x -> (length c < 127)%nat -> shows ts c ->
  exists kb' ts' h', on_key swap_vid_mem key kb ts p = Some (kb', ts', p) /\ at_work kb' ts' t h' cmds /\ drafting h' (c ++ [x]) /\
    shows ts' (c ++ [x]).
Proof.
  intros [Hp Hts Ht Hh Hok] Hd Hty Hl (y & Hy & Hline). pose proof (types_plain key x Hty) as [Hk Hs]. pose proof Hty as [Hkx Hx].
  unfold on_key. rewrite (scan_plain key x kb ts h Hty) by (rewrite ?Ht; done || by destruct Hok). rewrite some_bind.
  unfold SCAN_LIMIT. btrue (key <=? 80). rewrite (press_plain key x) by done. unfold type_key. rewrite Hkx, some_bind, s8_small by lia.
  destruct (put_char_spec x ts y Hts) as (y2 & ts2 & -> & Hts2 & Hct2 & Hy2 & He & _); [unfold TAB; lia | done|]. rewrite some_bind.
  assert ((key =? ENTER) = false) as -> by (unfold special in Hs; repeat apply orb_false_iff in Hs as [Hs ?]; done). cbn [negb].
  rewrite Ht, Hh, some_bind. destruct (append_draft h cmds c x Hok Hd) as (h' & -> & Hok' & Hd'); [lia | done|]. rewrite some_bind.
  destruct (put_hist kb t h h' Hh) as (hs & -> & Hhs). rewrite !some_bind.
  eexists _, ts2, h'. split; [done|]. split; [by split; [done | done | congruence | done | done]|]. split; [done|].
  exists y2. split; [by rewrite Hct2|]. unfold key_effect in He. rewrite (proj2 (Z.eqb_neq x NEW_LINE)) in He by (unfold NEW_LINE; lia).
  destruct He as (-> & _). rewrite Hline. unfold edit, BACKSPACE, ASCII_SPACE, BUFFER_LIMIT. bfalse (x =? 8).
  btrue ((32 <=? x) && (Z.of_nat (length c) <? 128)). by rewrite u8_small by lia.
Qed.

Lemma on_keys_app ks ks' kb ts p :
  on_keys (ks ++ ks') kb ts p = ('(kb, ts, p) ← on_keys ks kb ts p; on_keys ks' kb ts p).
Proof.
  revert kb ts p. induction ks as [|key ks IH]; intros kb ts p; [done|]. cbn [app on_keys].
  destruct (on_key swap_vid_mem key kb ts p) as [[[kb1 ts1] p1]|]; [|done]. rewrite !some_bind. apply IH.
Qed.

Lemma on_keys_type ks cs kb ts t h cmds c p :
  Forall2 types ks cs -> at_work kb ts t h cmds -> drafting h c -> (length c + length cs <= 127)%nat -> shows ts c ->
  exists kb' ts' h', on_keys ks kb ts p = Some (kb', ts', p) /\ at_work kb' ts' t h' cmds /\ drafting h' (c ++ cs) /\
    shows ts' (c ++ cs).
Proof.
  intros Hty. revert kb ts h c. induction Hty as [|key x ks cs Hkx _ IH]; intros kb ts h c Haw Hd Hl Hs; cbn [length] in Hl.
  - rewrite app_nil_r. by exists kb, ts, h.
  - cbn [on_keys]. destruct (on_key_type kb ts t h cmds c key x p Haw Hd Hkx) as (kb1 & ts1 & h1 & -> & Haw1 & Hd1 & Hs1); [lia | done|].
    rewrite some_bind. replace (c ++ x :: cs) with ((c ++ [x]) ++ cs) by (by rewrite <- app_assoc).
    apply (IH kb1 ts1 h1); try done. rewrite length_app. cbn [length]. lia.
Qed.

(** Between two commands. *)
Definition idle (kb : keyboard) (ts : terminals) (t : Z) (cmds : list (list Z)) : Prop :=
  exists h, at_work kb ts t h cmds /\ browsing h (num_hist h) /\ drafting h [] /\ shows ts [].

Lemma enter_command ks cs kb ts t cmds p :
  Forall2 types ks cs -> (0 < length cs <= 127)%nat -> idle kb ts t cmds ->
  exists kb' ts', on_keys (ks ++ [ENTER]) kb ts p = Some (kb', ts', p) /\ idle kb' ts' t (cmds ++ [cs]) /\
    exists x, (ttys ts').[t] = Some x /\ lastline x = cs ++ [10] /\ rd x = 1.
Proof.
  intros Hty Hl (h & Haw & Hb & Hd & Hs). rewrite on_keys_app.
  destruct (on_keys_type ks cs kb ts t h cmds [] p Hty Haw Hd) as (kb1 & ts1 & h1 & -> & Haw1 & [Hd1 _] & Hs1); [cbn; lia | done|].
  cbn [app] in *. rewrite some_bind. cbn [on_keys].
  destruct (on_key_enter kb1 ts1 t h1 cmds cs p Haw1 Hd1) as (kb2 & ts2 & h2 & -> & Haw2 & Hb2 & Hd2 & Hs2 & Hlast);
    [by destruct cs; [cbn in Hl; lia|]|].
  rewrite some_bind. exists kb2, ts2. split; [done|]. split; [by exists h2 | by apply Hlast].
Qed.

(** A sequence of commands typed one after the other. *)
Lemma enter_commands kss css kb ts t cmds p :
  Forall2 (Forall2 types) kss css -> Forall (fun cs => (0 < length cs <= 127)%nat) css -> idle kb ts t cmds ->
  exists kb' ts', on_keys (concat (map (fun ks => ks ++ [ENTER]) kss)) kb ts p = Some (kb', ts', p) /\ idle kb' ts' t (cmds ++ css).
Proof.
  intros Hty. revert kb ts cmds. induction Hty as [|ks cs kss css Hk _ IH]; intros kb ts cmds Hl Hid.
  - rewrite app_nil_r. by exists kb, ts.
  - inversion Hl as [|? ? Hl1 Hl2]. subst. cbn [map concat]. rewrite on_keys_app.
    destruct (enter_command ks cs kb ts t cmds p Hk Hl1 Hid) as (kb1 & ts1 & -> & Hid1 & _). rewrite some_bind.
    replace (cmds ++ cs :: css) with ((cmds ++ [cs]) ++ css) by (by rewrite <- app_assoc). by apply IH.
Qed.

Lemma types_printable ks cs : Forall2 types ks cs -> printable cs.
Proof. induction 1 as [|k c ks cs [_ Hc] _ IH]; [constructor | by constructor]. Qed.

End Keys.

(** ** A fresh keyboard *)

Definition empty_rows : list (list Z) := replicate 9 (replicate 128 0).
Definition empty_hist : cmd_hist := CmdHist 0 0 0 empty_rows empty_rows (replicate 128 0).
Definition demo_keyboard : keyboard := Keyboard 0 0 0 0 [empty_hist; empty_hist; empty_hist].

Lemma empty_rows_ok : rows_ok empty_rows.
Proof.
  split; [done|]. intros i r Hr. pose proof (zget_Some_range _ _ _ Hr) as Hi. unfold empty_rows in *. rewrite length_replicate in Hi.
  rewrite zget_replicate in Hr by lia. by injection Hr as <-.
Qed.

Lemma demo_idle : idle demo_keyboard demo_terminals 0 [].
Proof.
  exists empty_hist. split_and!.
  - split; [done | apply demo_terminals_ok | done | done|]. split; try done; try apply empty_rows_ok.
    intros i c _ Hc. pose proof (zget_Some_range _ _ _ Hc) as Hr. cbn in Hr. lia.
  - done.
  - split; [apply padded_nil|]. exists (replicate 128 0). split; [done | apply padded_nil].
  - exists demo_tty. done.
Qed.

(** ** Properties *)

(** C25: commands typed on a terminal, each ended with the enter key, are in its history:
    after any number of them, pressing the up arrow [k] times, for [k] up to the eight
    that are kept, replaces the line by the [k]-th last command, which a further enter
    would run. *)
Theorem history_recalls {P} (swap_vid_mem : Z -> Z -> P -> option (Z * P)) kss css kb ts t p k :
  Forall2 (Forall2 types) kss css -> Forall (fun cs => (0 < length cs <= 127)%nat) css -> idle kb ts t [] ->
  (0 < k)%nat -> (k <= 8)%nat -> (k <= length css)%nat ->
  exists kb' ts' h c, on_keys swap_vid_mem (concat (map (fun ks => ks ++ [ENTER]) kss) ++ replicate k UP) kb ts p = Some (kb', ts', p) /\
    css.[Z.of_nat (length css) - Z.of_nat k] = Some c /\ shows ts' c /\ (hists kb').[t] = Some h /\ padded (curr_cmd h) c.
Proof.
  intros Hty Hl Hid Hk0 Hk8 Hk. rewrite on_keys_app.
  destruct (enter_commands swap_vid_mem kss css kb ts t [] p Hty Hl Hid) as (kb1 & ts1 & -> & h1 & Haw & [Hb1 Hb2] & _). rewrite some_bind.
  cbn [app] in Haw. set (j := Z.of_nat (length css) - Z.of_nat k). destruct (zget_ex css j) as [c Hc]; [lia|].
  pose proof (aw_ok _ _ _ _ _ Haw) as [Hn Hm _ _ _ _].
  destruct (ups_recall swap_vid_mem k kb1 ts1 t h1 css j c p Haw) as (kb2 & ts2 & h2 & E & Haw2 & _ & Hs & Hp); try done; try lia.
  - split; [lia | done].
  - clear -Hty. induction Hty as [|ks cs kss css H _ IH]; [constructor|]. constructor; [by eapply types_printable | done].
  - exists kb2, ts2, h2, c. split_and!; try done. apply (aw_hist _ _ _ _ _ Haw2).
Qed.

(** The keys for "ls" and "cat". *)
Definition demo_keys : list (list Z) := [[38; 31]; [46; 30; 20]].
Definition demo_cmds : list (list Z) := [str "ls"; str "cat"].

Lemma demo_keys_types : Forall2 (Forall2 types) demo_keys demo_cmds.
Proof. repeat constructor; vm_compute; discriminate. Qed.

Lemma history_recalls_witness :
  exists kb' ts' p, on_keys (fun _ _ (n : nat) => Some (0, n)) (concat (map (fun ks => ks ++ [ENTER]) demo_keys) ++ [UP; UP])
      demo_keyboard demo_terminals 0%nat = Some (kb', ts', p) /\ shows ts' (str "ls").
Proof.
  destruct (history_recalls (fun _ _ (n : nat) => Some (0, n)) demo_keys demo_cmds demo_keyboard demo_terminals 0 0%nat 2)
    as (kb' & ts' & h & c & E & Hc & Hs & _);
    [apply demo_keys_types | repeat constructor; cbn; lia | apply demo_idle | lia | lia | cbn; lia|].
  exists kb', ts', 0%nat. split; [exact E|]. injection Hc as <-. exact Hs.
Defined.

(** A command typed key by key and ended with the enter key is the line a waiting
    [terminal_read] gets, and the next entry of the history; the line and the draft are
    empty again. *)
Theorem typed_command_saved {P} (swap_vid_mem : Z -> Z -> P -> option (Z * P)) ks cs kb ts t cmds p :
  Forall2 types ks cs -> (0 < length cs <= 127)%nat -> idle kb ts t cmds ->
  exists kb' ts', on_keys swap_vid_mem (ks ++ [ENTER]) kb ts p = Some (kb', ts', p) /\ idle kb' ts' t (cmds ++ [cs]) /\
    exists x, (ttys ts').[t] = Some x /\ lastline x = cs ++ [10] /\ rd x = 1.
Proof. apply enter_command. Qed.

Lemma typed_command_saved_witness :
  exists kb' ts' x, on_keys (fun _ _ (n : nat) => Some (0, n)) [38; 31; ENTER] demo_keyboard demo_terminals 0%nat = Some (kb', ts', 0%nat) /\
    (ttys ts').[0] = Some x /\ lastline x = str "ls" ++ [10].
Proof.
  destruct (typed_command_saved (fun _ _ (n : nat) => Some (0, n)) [38; 31] (str "ls") demo_keyboard demo_terminals 0 [] 0%nat)
    as (kb' & ts' & E & _ & x & Hx & Hl & _);
    [repeat constructor; vm_compute; discriminate | cbn; lia | apply demo_idle|].
  exists kb', ts', x. split; [exact E|]. split; [exact Hx | exact Hl].
Defined.

(** A 129th key before the enter key (backspaces count) leaves the row of the command
    being typed: once 128 characters are in it, it has no end, and the search for its
    end runs out of the array. *)
Theorem draft_overflows {P} (swap_vid_mem : Z -> Z -> P -> option (Z * P)) kb ts t h cmds key x p :
  at_work kb ts t h cmds -> Forall (fun c => c <> 0) (curr_cmd h) -> types key x ->
  on_key swap_vid_mem key kb ts p = None.
Proof.
  intros [Hp Hts Ht Hh Hok] Hfull Hty. pose proof (types_plain key x Hty) as [Hk Hs]. pose proof Hty as [Hkx Hx].
  unfold on_key. rewrite (scan_plain key x kb ts h Hty) by (rewrite ?Ht; done || by destruct Hok). rewrite some_bind.
  unfold SCAN_LIMIT. btrue (key <=? 80). rewrite (press_plain swap_vid_mem key x) by done. unfold type_key. rewrite Hkx, some_bind, s8_small by lia.
  destruct (get_tty ts (curr_terminal ts) Hts) as (y & Hy & _); [by destruct Hts|].
  destruct (put_char_spec x ts y Hts) as (y2 & ts2 & -> & _); [unfold TAB; lia | done|]. rewrite some_bind.
  assert ((key =? ENTER) = false) as -> by (unfold special in Hs; repeat apply orb_false_iff in Hs as [Hs ?]; done). cbn [negb].
  rewrite Ht, Hh, some_bind. unfold append_char. destruct (strlen (curr_cmd h)) as [n|] eqn:E; [|done].
  apply strlen_from_inv in E as (cs & rest & E & _). rewrite E in Hfull. apply Forall_app in Hfull as [_ Hfull]. by inversion Hfull.
Qed.

Lemma draft_overflows_witness :
  on_key (fun _ _ (n : nat) => Some (0, n)) 38
    (Keyboard 0 0 0 0 [CmdHist 0 0 0 empty_rows empty_rows (replicate 128 97)]) demo_terminals 0%nat = None.
Proof.
  apply (draft_overflows (fun _ _ (n : nat) => Some (0, n)) _ _ 0 (CmdHist 0 0 0 empty_rows empty_rows (replicate 128 97)) [] 38 108).
  - split; [done | apply demo_terminals_ok | done | done|]. split; try done; try apply empty_rows_ok.
    intros i c _ Hc. pose proof (zget_Some_range _ _ _ Hc) as Hr. cbn in Hr. lia.
  - by apply Forall_replicate.
  - split; [reflexivity | lia].
Defined.

(** The characters a US keyboard has with the shift key, and capitals. *)
Definition capital (c : Z) : Z := if (97 <=? c) && (c <=? 122) then c - 32 else c.
Definition shifted (c : Z) : Z :=
  match find (fun '(a, _) => a =? c) (zip (str "1234567890-=[];'`\,./") (str "!@#$%^&*(" ++ str ")_+{}:" ++ [34] ++ str "~|<>?")) with
  | Some (_, b) => b
  | None => capital c
  end.
Definition shifted_caps (c : Z) : Z := if (97 <=? c) && (c <=? 122) then c else shifted c.

(** The tables of the shift key and of caps lock are those of a US keyboard on the
    58 keys of the main block; that of both together is wrong exactly for the two
    brackets and the bottom row of letters; and with shift or caps lock the minus and
    plus of the keypad are one key too far. *)
Theorem keyboard_tables key c :
  0 <= key < 128 -> kbdus_0.[key] = Some c ->
  (key < 58 -> kbdus_1.[key] = Some (shifted c) /\ kbdus_2.[key] = Some (capital c) /\
     (kbdus_3.[key] = Some (shifted_caps c) <-> ~ (key = 26 \/ key = 27 \/ 44 <= key <= 50))) /\
  (58 <= key -> c <> 0 -> kbdus_1.[key] = Some 0 /\ kbdus_1.[key + 1] = Some c /\
     kbdus_2.[key + 1] = Some c /\ kbdus_3.[key + 1] = Some c).
Proof.
  intros Hk Hc.
  assert (forallb (fun i => match kbdus_0.[i] with
    | Some c => implb (i <? 58) (bool_decide (kbdus_1.[i] = Some (shifted c)) && bool_decide (kbdus_2.[i] = Some (capital c)) &&
        Bool.eqb (bool_decide (kbdus_3.[i] = Some (shifted_caps c))) (negb ((i =? 26) || (i =? 27) || ((44 <=? i) && (i <=? 50))))) &&
        implb ((58 <=? i) && negb (c =? 0)) (bool_decide (kbdus_1.[i] = Some 0) && bool_decide (kbdus_1.[i + 1] = Some c) &&
        bool_decide (kbdus_2.[i + 1] = Some c) && bool_decide (kbdus_3.[i + 1] = Some c))
    | None => true end) (seqZ 0 128) = true) as H by (vm_compute; reflexivity).
  rewrite forallb_forall in H. specialize (H key (proj1 (list_elem_of_In _ _) (proj2 (elem_of_seqZ 0 128 key) Hk))). rewrite Hc in H.
  apply andb_true_iff in H as [H1 H2]. split.
  - intros Hlt. rewrite (proj2 (Z.ltb_lt key 58) Hlt) in H1. cbn [implb] in H1. apply andb_true_iff in H1 as [H1 H3].
    apply andb_true_iff in H1 as [Ha%bool_decide_eq_true Hb%bool_decide_eq_true]. split_and!; [done | done|].
    apply Bool.eqb_prop in H3. symmetry in H3. revert H3.
    destruct (bool_decide_reflect (kbdus_3.[key] = Some (shifted_caps c))) as [E|E]; intros H3.
    + split; [intros _; lia | done].
    + split; [done | intros Hn; lia].
  - intros Hge Hnz. rewrite (proj2 (Z.leb_le 58 key) Hge), (proj2 (Z.eqb_neq c 0) Hnz) in H2. cbn [implb andb negb] in H2.
    repeat apply andb_true_iff in H2 as [H2 ?%bool_decide_eq_true]. apply bool_decide_eq_true in H2. done.
Qed.

Lemma keyboard_tables_witness : kbdus_1.[30] = Some 65.
Proof. destruct (keyboard_tables 30 97) as [H _]; [lia | reflexivity|]. apply H. lia. Defined.

(** ** The history at start-up *)

(** [init_hist] leaves each terminal with an empty history and no command. *)
Lemma init_hist_spec kb :
  length (hists kb) = 3%nat -> (forall t h, (hists kb).[t] = Some h -> hist_ok h []) ->
  exists kb', init_hist kb = Some kb' /\ length (hists kb') = 3%nat /\
    forall t h, (hists kb').[t] = Some h -> hist_ok h [] /\ curr_cmd h = replicate 128 0.
Proof.
  intros H3 Hok. unfold init_hist.
  set (P := fun (j : Z) (hs : list cmd_hist) => length hs = 3%nat /\ forall t h, hs.[t] = Some h -> hist_ok h [] /\ (t < j -> curr_cmd h = replicate 128 0)).
  match goal with |- context [for_up _ 0 ?F (hists kb)] => destruct (for_up_inv P (Z.to_nat NUM_TERMINALS) 0 F (hists kb)) as (hs & -> & Hl & Hh) end.
  - split; [done|]. intros t h Hh. split; [by eapply Hok|]. pose proof (zget_Some_range _ _ _ Hh). lia.
  - intros j hs Hj [Hl Hh]. change (Z.of_nat (Z.to_nat NUM_TERMINALS)) with 3 in Hj. destruct (zget_ex hs j) as [h E]; [lia|]. rewrite E, some_bind.
    destruct (Hh j h E) as [[] _]. rewrite clear_row_spec, some_bind, zset_in by (done || lia). eexists. split; [reflexivity|].
    split; [by rewrite length_insert|]. intros t h'. rewrite zget_insert by lia. destruct (Z.eqb_spec t j) as [->|Hne].
    + intros [= <-]. split; [|done]. by split.
    + intros Hh'. destruct (Hh t h' Hh') as [? Hc]. split; [done|]. intros Ht. apply Hc. lia.
  - rewrite some_bind. change (0 + Z.of_nat (Z.to_nat NUM_TERMINALS)) with 3 in Hh.
    match goal with |- context [for_up _ 0 ?F hs] => destruct (for_up_inv (fun _ => P 3) (Z.to_nat NUM_TERMINALS) 0 F hs) as (hs' & -> & Hl' & Hh') end.
    + by split.
    + intros j hs1 Hj [Hl1 Hh1]. change (Z.of_nat (Z.to_nat NUM_TERMINALS)) with 3 in Hj. destruct (zget_ex hs1 j) as [h E]; [lia|]. rewrite E, some_bind.
      destruct (Hh1 j h E) as [[Hn Hmi Hr Hmo Hc _] Hcl].
      match goal with |- context [for_up _ 0 ?F (hist h)] => destruct (for_up_inv (fun _ => rows_ok) (Z.to_nat (MAXHIST + 1)) 0 F (hist h) Hr) as (rows & -> & Hrows) end.
      { intros i rows Hi Hrows. change (Z.of_nat (Z.to_nat (MAXHIST + 1))) with 9 in Hi. destruct (rows_get rows i Hrows) as (r & -> & Hr1); [lia|].
        rewrite some_bind, zset_in, some_bind by lia. destruct (rows_set rows i (<[Z.to_nat 0 := 0]> r) Hrows) as (rows' & -> & Hrows' & _); [lia | by rewrite length_insert|].
        by exists rows'. }
      rewrite some_bind, zset_in by lia. eexists. split; [reflexivity|]. split; [by rewrite length_insert|]. intros t h'. rewrite zget_insert by lia.
      destruct (Z.eqb_spec t j) as [->|Hne]; [|apply Hh1]. intros [= <-]. split; [|exact Hcl]. split; try done.
      intros i c _ Hz. pose proof (zget_Some_range _ _ _ Hz) as Hr1. cbn in Hr1. lia.
    + rewrite some_bind. eexists. split; [reflexivity|]. cbn [hists set_hists]. split; [done|]. intros t h Hz. destruct (Hh' t h Hz) as [? Hc].
      split; [done|]. apply Hc. pose proof (zget_Some_range _ _ _ Hz). lia.
Qed.
