(* ===== verification/Exceptions.v ===== *)
(** * Handlers of the processor's exceptions, [student-distrib/int_handlers.c]

    Every handler writes a message to the terminal of the process, or for a page fault
    to the boot console, and halts the process with the status [EHALT].  The console writes to
    the video memory the page tables of the process map at its address. *)

From stdpp Require Import base list option sets.
From Stdlib Require Import ZArith Lia ZifyBool.
From S2P Require Import Prelude MemOps Lib Console Ports Rtc Terminal FileSystem Paging Process Schedule FileArray Reading Lifecycle Drivers.

Inductive exn :=
  | divide_by_zero | debugger | NMI | breakpoint | overflow | bounds | invalid_opcode | coprocessor
  | double_fault | coprocessor_segment | invalid_tss | segment_not_present | stack_segment_fault
  | general_protection_fault | page_fault | floating_point | alignment_check | machine_check | SIMD_floating_point.

#[export] Instance exn_eq_dec : EqDecision exn.
Proof. solve_decision. Defined.

(** The string and the count each handler passes to [terminal_write]; for a page fault, the
    format it passes to [printf]. *)
Definition message (e : exn) : list Z :=
  match e with
  | divide_by_zero => str "Divide-by-zero"
  | debugger => str "Debugger error"
  | NMI => str "Non-Maskable Interrupt"
  | breakpoint => str "Breakpoint"
  | overflow => str "Overflow"
  | bounds => str "Out of bounds"
  | invalid_opcode => str "Invalid opcode"
  | coprocessor => str "Coprocessor exception"
  | double_fault => str "Double Fault"
  | coprocessor_segment => str "Coprocessor Segment"
  | invalid_tss => str "Invalid TSS"
  | segment_not_present => str "Segment not present"
  | stack_segment_fault => str "Stack Segment Fault"
  | general_protection_fault => str "General Protection Fault"
  | page_fault => str "Page fault! %x"
  | floating_point => str "Floating point"
  | alignment_check => str "Alignment check"
  | machine_check => str "Machine Check"
  | SIMD_floating_point => str "SIMD Floating Point"
  end ++ [10; 0].

Definition message_count (e : exn) : Z :=
  match e with
  | divide_by_zero => 15 | debugger => 15 | NMI => 23 | breakpoint => 11 | overflow => 9 | bounds => 14
  | invalid_opcode => 15 | coprocessor => 22 | double_fault => 13 | coprocessor_segment => 20 | invalid_tss => 12
  | segment_not_present => 20 | stack_segment_fault => 20 | general_protection_fault => 25
  | page_fault => 0 | floating_point => 15 | alignment_check => 16 | machine_check => 14 | SIMD_floating_point => 20
  end.

(** What a page fault needs besides the kernel: the address that faulted, what the conversion
    buffers of [printf] held, the strings in memory, and the cursor of the console. *)
Record fault := Fault { cr2 : Z; conv64 : list Z; conv36 : list Z; deref : Z -> list Z }.

Section Handlers.
Context (L : layout) (dev : log -> Z -> Z).

(** Where the page tables put an address of the kernel; those of video memory are all mapped. *)
Definition seen_at (k : kernel) (a : Z) : Z := default a (translate L (pg (pr k)) false a).

Definition console_of (cursor : Z * Z) (k : kernel) : console := Console cursor.1 cursor.2 (vm (screen k)).
Definition set_vm (m : memory) (k : kernel) : kernel :=
  let ts := screen k in set_screen (Terminals (mem_set ts) (curr_terminal ts) (ttys ts) m (pio ts)) k.

(** [ebp_in] is the frame pointer in [khalt]. *)
Definition exception_handler (e : exn) (x : fault) (cursor : Z * Z) (ebp_in : Z) (k : kernel) : option (outcome * (Z * Z)) :=
  '(k, cursor) ← match e with
                 | page_fault =>
                     '(con, _) ← printf (seen_at k) (deref x) (conv64 x) (conv36 x) (message e) [cr2 x] (console_of cursor k);
                     Some (set_vm (vmem con) k, (screen_x con, screen_y con))
                 | _ => '(_, k) ← op_write (std_driver L) 0 (message e) (message_count e) k; Some (k, cursor)
                 end;
  o ← khalt (galapagos_ops L dev) EHALT ebp_in k;
  Some (o, cursor).

End Handlers.

(** The count of every other handler is the length of its message, the newline included. *)
Lemma message_counts e : e <> page_fault -> Z.of_nat (length (message e)) = message_count e + 1 /\
  Z.of_nat (length (shown (take (Z.to_nat (message_count e)) (message e)))) = message_count e.
Proof. destruct e; vm_compute; done. Qed.

(** ** The message of a page fault *)

(** A cursor on the screen, or at the start of the line below it, where a newline leaves it. *)
Definition cursor_ok (x y : Z) : Prop := 0 <= x < 80 /\ (0 <= y < 25 \/ y = 25 /\ x = 0).

Lemma putc_page phys v c con :
  (forall o, 0 <= o < 4096 -> phys (VIDEO + o) = v + o) -> cursor_ok (screen_x con) (screen_y con) -> u8 c <> 10 -> u8 c <> 13 ->
  let con' := putc phys con c in
  0 <= screen_x con' < 80 /\ 0 <= screen_y con' < 25 /\ only_page v (vmem con) (vmem con').
Proof.
  unfold cursor_ok. intros Hp [Hx Hy] H1 H2. unfold putc. bfalse ((u8 c =? 10) || (u8 c =? 13)). cbn [screen_x screen_y vmem].
  set (x := Z.rem (screen_x con + 1) NUM_COLS).
  assert (0 <= x < 80) as Hx' by (unfold x, NUM_COLS; rewrite Z.rem_mod_nonneg by lia; apply Z.mod_pos_bound; lia).
  split; [done|]. split.
  - unfold NUM_COLS, NUM_ROWS. rewrite Z.quot_small, Z.add_0_r, Z.rem_mod_nonneg by lia. apply Z.mod_pos_bound. lia.
  - unfold Console.put_cell, NUM_COLS. rewrite Z.shiftl_mul_pow2 by lia. set (o := (80 * screen_y con + screen_x con) * 2 ^ 1).
    assert (0 <= o < 4095) as Ho by (unfold o; lia). unfold VIDEO in *. rewrite !u32_small by lia.
    replace (0xB8000 + o + 1) with (0xB8000 + (o + 1)) by lia. rewrite !Hp by lia.
    intros a Ha. unfold store8. bfalse (a =? v + (o + 1)). by bfalse (a =? v + o).
Qed.

(** A line of text stays on the page of the console, and leaves the cursor as it should be. *)
Lemma line_page phys v t : (forall o, 0 <= o < 4096 -> phys (VIDEO + o) = v + o) -> Forall (fun c => u8 c <> 10 /\ u8 c <> 13) t -> t <> [] ->
  forall con, cursor_ok (screen_x con) (screen_y con) ->
  let con' := emit phys (t ++ [10]) con in cursor_ok (screen_x con') (screen_y con') /\ only_page v (vmem con) (vmem con').
Proof.
  intros Hp Ht Hne. induction Ht as [|c t [H1 H2] Ht IH]; [done|]. intros con Hc.
  destruct (putc_page phys v c con Hp Hc H1 H2) as (Hx & Hy & Hv). cbn [app]. rewrite emit_cons. destruct t as [|c' t].
  - cbn [app emit fold_left]. unfold putc at 1 3 5. change (u8 10) with 10. cbn [Z.eqb Pos.eqb orb screen_x screen_y vmem].
    split; [|exact Hv]. unfold cursor_ok. lia.
  - destruct (IH ltac:(done) (putc phys con c)) as [H3 H4]; [unfold cursor_ok; lia|]. split; [exact H3 | by eapply only_page_trans].
Qed.

Lemma digits_plain ds : Forall (is_digit 16) ds -> Forall (fun c => u8 c <> 10 /\ u8 c <> 13) ds.
Proof.
  intros H. eapply Forall_impl; [exact H|]. intros c [Hr <-]. clear H. pose proof (on_interval (fun d => negb (u8 (digit_char d) =? 10) && negb (u8 (digit_char d) =? 13)) 0 16) as H.
  specialize (H ltac:(vm_compute; reflexivity) (digit_value c) ltac:(lia)). cbv beta in H. lia.
Qed.

(** What the handler says before the process ends: [printf] of a page fault with the address, on
    the page [v] of the process, or [terminal_write] of the message, all its characters. *)
Definition reports (L : layout) (e : exn) (x : fault) (cursor cursor' : Z * Z) (k k1 : kernel) (t v : Z) (term : tty) : Prop :=
  match e with
  | page_fault =>
      let con := emit (seen_at L k) (str "Page fault! " ++ numeral 16 (cr2 x) ++ [10]) (console_of cursor k) in
      k1 = set_vm (vmem con) k /\ cursor' = (screen_x con, screen_y con) /\ cursor_ok cursor'.1 cursor'.2 /\
      only_page v (vm (screen k)) (vm (screen k1))
  | _ =>
      op_write (std_driver L) 0 (message e) (message_count e) k = Some (message_count e, k1) /\ wrote k k1 t v term /\ cursor' = cursor
  end.

(** What a page fault finds. *)
Record fault_ok (x : fault) (cursor : Z * Z) : Prop := {
  fo_address : 0 <= cr2 x < 2 ^ 32;
  fo_buffers : length (conv64 x) = 64%nat /\ length (conv36 x) = 36%nat;
  fo_cursor : cursor_ok cursor.1 cursor.2 }.

Lemma page_fault_reports L k c v x cursor t term :
  layout_ok L -> paging_ok L (pg (pr k)) -> cr3 (pg (pr k)) = pd_addr L c -> pid_ok c -> video_page L k = Some v -> fault_ok x cursor ->
  exists k1 cursor' n, let con := emit (seen_at L k) (str "Page fault! " ++ numeral 16 (cr2 x) ++ [10]) (console_of cursor k) in
    printf (seen_at L k) (deref x) (conv64 x) (conv36 x) (message page_fault) [cr2 x] (console_of cursor k) = Some (con, n) /\
    k1 = set_vm (vmem con) k /\ cursor' = (screen_x con, screen_y con) /\ reports L page_fault x cursor cursor' k k1 t v term.
Proof.
  intros HL Hok Hcr Hc Hv [Hx [H64 H36] Hcur].
  set (con := emit (seen_at L k) (str "Page fault! " ++ numeral 16 (cr2 x) ++ [10]) (console_of cursor k)).
  assert (forall o, 0 <= o < 4096 -> seen_at L k (VIDEO + o) = v + o) as Hp.
  { intros o Ho. rewrite (video_page_word L k c HL Hok Hcr Hc) in Hv. injection Hv as <-. unfold seen_at.
    pose proof (kernel_video_word L (pg (pr k)) c o HL Hok Hc Ho) as E. unfold kernel_video, VID_MEM in E. rewrite <- Hcr in E.
    replace (set_cr3 (cr3 (pg (pr k))) (pg (pr k))) with (pg (pr k)) in E by (by destruct (pg (pr k))). unfold VIDEO. by rewrite E. }
  destruct (printf_from_spec (seen_at L k) (deref x) (conv64 x) (conv36 x) H64 H36 (message page_fault) None [cr2 x]
    (str "Page fault! " ++ numeral 16 (cr2 x) ++ [10]) (console_of cursor k) 0) as (n & En);
    [by apply Forall_cons; split; [exact Hx | apply Forall_nil] | by change (message page_fault) with (str "Page fault! " ++ [37; 120; 10; 0])|].
  destruct (itoa_numeral (cr2 x) 16 (conv64 x)) as (_ & Hd & _); [lia | lia | rewrite H64; cbn; lia|].
  destruct (line_page (seen_at L k) v (str "Page fault! " ++ numeral 16 (cr2 x)) Hp) with (con := console_of cursor k) as [H1 H2];
    [apply Forall_app; split; [repeat constructor; done | by apply digits_plain] | done | exact Hcur|].
  rewrite <- app_assoc in H1, H2. exists (set_vm (vmem con) k), (screen_x con, screen_y con), n. by split_and!.
Qed.

(** ** Properties *)

(** C26: an exception in a program that is not a shell, a page fault included, reports itself
    and ends the process.  The message goes to the page of video memory of the process and
    changes no other; it is the text of the page fault with its address, on the console, or
    all the characters of the message of the exception, given to [terminal_write].  Then the
    process is halted: its parent runs again with status 0, not the 256 of an exception. *)
Theorem exception_ends_process L dev e x cursor k q c b r f ebp_in term :
  layout_ok L -> system L k q c -> cr3 (pg (pr k)) = pd_addr L c -> 2 < c ->
  (pcbs (pr k)).[c] = Some b -> parent b = Some r -> r ∈ q -> r <> c ->
  desc (pr k) = Some c -> desc_is (pr k) f -> fds_ok f ->
  terminals_ok (screen k) -> (ttys (screen k)).[terminal b] = Some term -> fault_ok x cursor ->
  exists v k1 k' cursor' rb, video_page L k = Some v /\ reports L e x cursor cursor' k k1 (terminal b) v term /\
    exception_handler L dev e x cursor ebp_in k = Some (Yields k', cursor') /\ halted L k1 k' q c r EHALT /\
    (pcbs (pr k')).[r] = Some rb /\ ret_status rb = 0.
Proof.
  intros HL Hsys Hcr Hc Hb Hpar Hr Hrc Hdesc Hd Hops Hts Hx Hf.
  destruct (system_member L k q c c Hsys (sy_in _ _ _ _ Hsys)) as (Hc6 & _).
  destruct (sy_procs _ _ _ _ Hsys) as [_ _ Hpg].
  destruct (video_page_ok L k c HL Hpg Hcr) as (v & Hv & Hvok); [unfold pid_ok; lia|].
  assert (exists k1 cursor', reports L e x cursor cursor' k k1 (terminal b) v term /\ k1 = set_screen (screen k1) k /\
    exception_handler L dev e x cursor ebp_in k = (o ← khalt (galapagos_ops L dev) EHALT ebp_in k1; Some (o, cursor'))) as (k1 & cursor' & Hrep & Ek1 & E).
  { destruct (decide (e = page_fault)) as [->|Hne].
    - destruct (page_fault_reports L k c v x cursor (terminal b) term HL Hpg Hcr ltac:(unfold pid_ok; lia) Hv Hf) as (k1 & cursor' & n & En & Ek & Ec & Hrep).
      exists k1, cursor'. split; [exact Hrep|]. split; [by rewrite Ek|]. unfold exception_handler. by rewrite En, !some_bind, Ek, Ec.
    - destruct (message_counts e Hne) as [Hl Hs]. assert (0 <= message_count e) as Hpos by (destruct e; done).
      assert (at_terminal L k (terminal b) v term) as Hat.
      { split; try done. unfold get_curr_process_terminal. by rewrite (sy_curr _ _ _ _ Hsys), Hb. }
      destruct (std_write_spec L 0 k (terminal b) v term (message e) (message_count e) Hat) as (k1 & E & Hw); [lia|]. rewrite Hs in E.
      exists k1, cursor. split; [by destruct e|]. split; [by apply (wr_kernel _ _ _ _ _ Hw)|].
      unfold exception_handler. destruct e; try done; by rewrite E, !some_bind. }
  destruct (khalt_spec (galapagos_ops L dev) L k1 q c b r f EHALT ebp_in) as (k' & E' & Hh); try (done || (rewrite Ek1; done)).
  - apply galapagos_ops_quiet.
  - rewrite Ek1. by apply system_screen.
  - destruct (ha_parent _ _ _ _ _ _ _ Hh) as (rb & _ & Hrb). rewrite E' in E. eexists v, k1, k', cursor', _. by split_and!.
Qed.

Lemma exception_ends_process_witness :
  exists pages k' cursor', exception_handler demo_layout (fun _ _ => 0) page_fault
    (Fault 0x7fffffff (replicate 64 1) (replicate 36 1) (fun _ => [])) (0, 0) 0x7f0000 (demo_child pages) = Some (Yields k', cursor').
Proof.
  destruct (booted_ok demo_layout zero_paging [] demo_layout_ok zero_paging_sized ltac:(constructor)) as (pages & _ & Hok).
  destruct (exception_ends_process demo_layout (fun _ _ => 0) page_fault
    (Fault 0x7fffffff (replicate 64 1) (replicate 36 1) (fun _ => [])) (0, 0)
    (demo_child (set_cr3 (pd_addr demo_layout 3) pages)) [0; 1; 2; 3] 3 (demo_block 3) 0 demo_files
    0x7f0000 demo_tty) as (v & k1 & k' & cursor' & rb & _ & _ & E & _);
    [apply demo_layout_ok | by apply demo_child_system, paging_ok_cr3 | reflexivity | lia | reflexivity | reflexivity | by left | lia | reflexivity
    | split; reflexivity | apply demo_files_ops | apply demo_terminals_ok | reflexivity | split; [cbn; lia | split; reflexivity | unfold cursor_ok; cbn; lia] |].
  exists (set_cr3 (pd_addr demo_layout 3) pages), k', cursor'. exact E.
Defined.
