(* ===== verification/Interrupts.v ===== *)
(** * Interrupts and the switch of tasks, [student-distrib/assembly_linkage.S]

    The entry points of the timer, the clock, the keyboard and the exceptions: the frame
    the processor pushes, on the stack of [tss.esp0] when it comes from user mode and on
    the current stack otherwise, the saved registers, the handler, and the way back to
    the code that was interrupted.  [pit_int_linkage] goes back to another task than it
    came from; the second half of the file shows that the tasks then run as on an
    abstract machine that keeps one set of registers for each task. *)

From stdpp Require Import base list option sets.
From Stdlib Require Import ZArith Lia ZifyBool.
From S2P Require Import Prelude MemOps Lib Ports I8259 Rtc Terminal FileSystem Paging Process Schedule FileArray Reading Lifecycle Drivers Linkage Keyboard Exceptions.

Definition set_ebx (v : Z) (r : user_regs) : user_regs :=
  UserRegs (r_eax r) (r_ecx r) (r_edx r) v (r_ebp r) (r_esi r) (r_edi r) (r_frame r).
Definition set_ebp (v : Z) (r : user_regs) : user_regs :=
  UserRegs (r_eax r) (r_ecx r) (r_edx r) (r_ebx r) v (r_esi r) (r_edi r) (r_frame r).
Definition set_frame (f : iret_t) (r : user_regs) : user_regs :=
  UserRegs (r_eax r) (r_ecx r) (r_edx r) (r_ebx r) (r_ebp r) (r_esi r) (r_edi r) f.

(** ** The processor *)

(** The privilege level is in the low bits of the code selector. *)
Definition user_mode (f : iret_t) : bool := Z.land (cs f) 3 =? 3.

(** What a gate pushes: from user mode, on the stack of the task state segment and with
    the old stack first; from kernel mode, on the stack in use. *)
Definition gate_frame (f : iret_t) (m : memory) (sp0 : Z) : memory * Z :=
  if user_mode f then int_frame f (m, sp0)
  else push (eip f) (push (cs f) (push (iflags f) (m, uesp f))).

(** [iret] at privilege level 0, where the stack segment is the one of the kernel. *)
Definition iret (m : memory) (sp : Z) : iret_t :=
  let '(ip, sp) := pop m sp in
  let '(c, sp) := pop m sp in
  let '(fl, sp) := pop m sp in
  if Z.land c 3 =? 3 then
    let '(usp, sp) := pop m sp in
    let '(s, sp) := pop m sp in Iret ip c fl usp s
  else Iret ip c fl sp KERNEL_DS.

(** The registers [popal] loads, with no frame yet, and the stack pointer after it. *)
Definition popal (m : memory) (sp : Z) : user_regs * Z :=
  let '(edi, sp) := pop m sp in
  let '(esi, sp) := pop m sp in
  let '(ebp, sp) := pop m sp in
  let '(_, sp) := pop m sp in
  let '(ebx, sp) := pop m sp in
  let '(edx, sp) := pop m sp in
  let '(ecx, sp) := pop m sp in
  let '(eax, sp) := pop m sp in
  (UserRegs eax ecx edx ebx ebp esi edi (Iret 0 0 0 0 0), sp).

(** Interrupt gates clear the interrupt flag, trap gates do not. *)
Definition masked (fl : Z) : Z := Z.land fl 0xFFFFFDFF.

(** ** The entry points *)

(** [popal; popfl; iret]. *)
Definition unwind (m : memory) (sp : Z) : user_regs :=
  let '(r, sp) := popal m sp in
  let '(_, sp) := pop m sp in
  set_frame (iret m sp) r.

(** [pushl %ebp; movl %esp, %ebp; pushfl; pushal], after an error code if there is one. *)
Definition stub_enter (err : list Z) (fl : Z) (r : user_regs) (m : memory) (sp0 : Z) : memory * Z :=
  let s := pushes err (gate_frame (r_frame r) m sp0) in
  let s := push (r_ebp r) s in
  let r := set_ebp s.2 r in
  let s := push fl s in
  pushal r s.

(** [popal; popfl; leave; iret]. *)
Definition stub_leave (m : memory) (sp : Z) : user_regs :=
  let '(r, sp) := popal m sp in
  let '(_, sp) := pop m sp in
  let sp := r_ebp r in
  let '(ebp, sp) := pop m sp in
  set_ebp ebp (set_frame (iret m sp) r).

Section Entry.
(** The placement of the page tables, the devices, the return address of [call], the
    address of the label [pit_ret] and the size of the stack frame of [pit_handler]. *)
Context (L : layout) (dev : log -> Z -> Z) (ret_addr pit_ret locals : Z).

Definition rtc_int_linkage (r : user_regs) (k : kernel) : user_regs * kernel :=
  let s := stub_enter [] (masked (iflags (r_frame r))) r (kmem (pr k)) (esp0 (pr k)) in
  let saved := s.2 in
  let m := (push ret_addr s).1 in
  let '(clk, p) := rtc_int dev (clock k) (pio (screen k)) in
  let ts := screen k in
  (stub_leave m saved,
   set_clock clk (set_screen (Terminals (mem_set ts) (curr_terminal ts) (ttys ts) (vm ts) p) (with_kmem m k))).

(** This one has its frame pointer commented out. *)
Definition keyboard_int_linkage (r : user_regs) (kb : keyboard) (k : kernel) : option (user_regs * keyboard * kernel) :=
  let s := gate_frame (r_frame r) (kmem (pr k)) (esp0 (pr k)) in
  let s := push (masked (iflags (r_frame r))) s in
  let s := pushal r s in
  let saved := s.2 in
  let k := with_kmem (push ret_addr s).1 k in
  '(kb, ts, p) ← keyboard_int dev (swap_vid_mem L) kb (screen k) (pr k);
  Some (unwind (kmem p) saved, kb, set_screen ts (set_pr p k)).

(** The nineteen stubs that differ in the handler they call; [err] is the error code, if the
    exception has one, [ebp_in] the frame pointer in [khalt]. *)
Definition exception_linkage (e : exn) (err : list Z) (x : fault) (cursor : Z * Z) (ebp_in : Z) (r : user_regs) (k : kernel)
  : option (call_result * (Z * Z)) :=
  let s := stub_enter err (iflags (r_frame r)) r (kmem (pr k)) (esp0 (pr k)) in
  let saved := s.2 in
  '(o, cursor) ← exception_handler L dev e x cursor ebp_in (with_kmem (push ret_addr s).1 k);
  match o with
  | Returns _ k => Some (Resumes (stub_leave (kmem (pr k)) saved) k, cursor)
  | Yields k => Some (GivesUp k, cursor)
  end.

(** [ebx] gets the address of the frame before the registers are saved.  The handler pushes
    [ebp] and returns by [leave; ret] from the stack of the task it chose. *)
Definition pit_int_linkage (r : user_regs) (k : kernel) : option (user_regs * kernel) :=
  let s := gate_frame (r_frame r) (kmem (pr k)) (esp0 (pr k)) in
  let r := set_ebx s.2 r in
  let s := push (masked (iflags (r_frame r))) s in
  let s := pushal r s in
  let s := push (r_ebx r) s in
  let s := push pit_ret s in
  let s := push (r_ebp r) s in
  '(sc', p', _, ebp') ← pit_handler L (r_ebx r) (u32 (s.2 - locals)) s.2 (sc k) (set_kmem s.1 (pr k));
  let sp := ebp' in
  let '(_, sp) := pop (kmem p') sp in
  let '(target, sp) := pop (kmem p') sp in
  if negb (target =? pit_ret) then None
  else
    let sp := u32 (sp + 4) in
    let m := (push ret_addr (push 0 (kmem p', sp))).1 in
    let ts := screen k in
    let ts := Terminals (mem_set ts) (curr_terminal ts) (ttys ts) (vm ts) (send_eoi 0 (pio ts)) in
    Some (unwind m sp, set_screen ts (set_sc sc' (set_pr (set_kmem m p') k))).

End Entry.

(** ** Saved registers *)

(** The dwords of a frame, first one pushed first, and the stack pointer they are pushed from. *)
Definition frame_words (f : iret_t) : list Z :=
  if user_mode f then [ss f; uesp f; iflags f; cs f; eip f] else [iflags f; cs f; eip f].
Definition frame_base (f : iret_t) (sp0 : Z) : Z := if user_mode f then sp0 else uesp f.
Definition frame_addr (f : iret_t) (sp0 : Z) : Z := if user_mode f then sp0 - 20 else uesp f - 12.

(** The dwords of [pushal] at [sp]. *)
Definition reg_words (r : user_regs) (sp : Z) : list Z :=
  [r_eax r; r_ecx r; r_edx r; r_ebx r; sp; r_ebp r; r_esi r; r_edi r].

(** Code that may be interrupted: in kernel mode the stack segment is the one of the kernel. *)
Definition mode_ok (f : iret_t) : Prop := user_mode f = false -> ss f = KERNEL_DS.

(** [m] has the dwords [ws] below [sp]. *)
Definition has_words (m : memory) (sp : Z) (ws : list Z) : Prop :=
  forall i v, ws !! i = Some v -> load32 m (sp - 4 * Z.of_nat (S i)) = v.

Lemma has_words_app m sp ws vs :
  has_words m sp (ws ++ vs) -> has_words m sp ws /\ has_words m (sp - 4 * Z.of_nat (length ws)) vs.
Proof.
  intros H. split; intros i v Hi.
  - apply H. by apply lookup_app_l_Some.
  - rewrite <- (H (length ws + i)%nat v); [f_equal; lia|]. by rewrite lookup_app_r, Nat.add_comm, Nat.add_sub by lia.
Qed.

Lemma has_words_ext m m' sp ws :
  4 * Z.of_nat (length ws) <= sp < 2 ^ 32 -> (forall x, sp - 4 * Z.of_nat (length ws) <= x < sp -> m' x = m x) ->
  has_words m sp ws -> has_words m' sp ws.
Proof.
  intros Hsp Hm H i v Hi. rewrite <- (H i v Hi). apply lookup_lt_Some in Hi.
  apply load32_ext; [unfold area; lia|]. intros j Hj. apply Hm. lia.
Qed.

Lemma gate_frame_words f m sp0 : gate_frame f m sp0 = pushes (frame_words f) (m, frame_base f sp0).
Proof. unfold gate_frame, frame_words, frame_base. by destruct (user_mode f). Qed.

Lemma frame_words_length f sp0 : frame_addr f sp0 = frame_base f sp0 - 4 * Z.of_nat (length (frame_words f)).
Proof. unfold frame_addr, frame_base, frame_words. destruct (user_mode f); cbn; lia. Qed.

Lemma pushal_words r s : pushal r s = pushes (reg_words r s.2) s.
Proof. done. Qed.

Lemma pushes_app ws vs s : pushes (ws ++ vs) s = pushes vs (pushes ws s).
Proof. apply fold_left_app. Qed.

Lemma frame_words_ok r : regs_ok r -> Forall u32_range_of (frame_words (r_frame r)).
Proof. unfold regs_ok, frame_words. intros. destruct (user_mode (r_frame r)); repeat constructor; unfold u32_range_of in *; lia. Qed.

Lemma reg_words_ok r sp : regs_ok r -> u32_range_of sp -> Forall u32_range_of (reg_words r sp).
Proof. unfold regs_ok. intros. repeat constructor; unfold u32_range_of in *; lia. Qed.

Lemma masked_ok fl : u32_range_of fl -> u32_range_of (masked fl).
Proof. unfold u32_range_of, masked. intros H. by apply land_range. Qed.

(** [iret] takes the frame back. *)
Lemma iret_words f m sp0 :
  mode_ok f -> 32 <= frame_base f sp0 < 2 ^ 32 -> has_words m (frame_base f sp0) (frame_words f) -> iret m (frame_addr f sp0) = f.
Proof.
  unfold mode_ok, frame_base, frame_words, frame_addr, iret, pop. intros Hm Hsp Hw. destruct f as [ip c fl usp s]. cbn [cs ss eip iflags uesp] in *.
  destruct (user_mode (Iret ip c fl usp s)) eqn:Eu; addresses.
  - rewrite (Hw 4%nat ip eq_refl : load32 m (sp0 - 20) = ip). replace (sp0 - 20 + 4) with (sp0 - 16) by lia.
    rewrite (Hw 3%nat c eq_refl : load32 m (sp0 - 16) = c). unfold user_mode in Eu. cbn [cs] in Eu. rewrite Eu. addresses.
    f_equal; [word Hw 2%nat | word Hw 1%nat | word Hw 0%nat].
  - rewrite (Hw 2%nat ip eq_refl : load32 m (usp - 12) = ip). replace (usp - 12 + 4) with (usp - 8) by lia.
    rewrite (Hw 1%nat c eq_refl : load32 m (usp - 8) = c). unfold user_mode in Eu. cbn [cs] in Eu. rewrite Eu. addresses.
    f_equal; [word Hw 0%nat | lia | symmetry; auto].
Qed.

(** [popal] takes the registers back. *)
Lemma popal_words r m sp v :
  64 <= sp < 2 ^ 32 -> has_words m sp (reg_words r v) -> popal m (sp - 32) = (set_frame (Iret 0 0 0 0 0) r, sp).
Proof.
  intros Hsp Hw. unfold popal, pop. addresses. destruct r. f_equal; [|lia].
  unfold set_frame. cbn. f_equal; [word Hw 0%nat | word Hw 1%nat | word Hw 2%nat | word Hw 3%nat | word Hw 5%nat | word Hw 6%nat | word Hw 7%nat].
Qed.

(** Frame, flags and registers. *)
Definition context_words (hf : Z) (r : user_regs) (sp0 : Z) : list Z :=
  frame_words (r_frame r) ++ hf :: reg_words r (frame_addr (r_frame r) sp0 - 4).

Definition base_ok (f : iret_t) (sp0 : Z) : Prop := sp_ok (frame_base f sp0).

Lemma frame_below f sp0 : frame_base f sp0 - 20 <= frame_addr f sp0 <= frame_base f sp0 - 12.
Proof. unfold frame_base, frame_addr. destruct (user_mode f); lia. Qed.

Lemma push_sp v m sp : 4 <= sp < 2 ^ 32 -> (push v (m, sp)).2 = sp - 4.
Proof. intros. unfold push. cbn [snd]. addresses. lia. Qed.

Lemma gate_frame_sp r m sp0 :
  regs_ok r -> base_ok (r_frame r) sp0 -> (gate_frame (r_frame r) m sp0).2 = frame_addr (r_frame r) sp0.
Proof.
  intros Hr Hb. rewrite gate_frame_words.
  destruct (pushes_spec (frame_words (r_frame r)) m (frame_base (r_frame r) sp0)) as (-> & _).
  - unfold base_ok, sp_ok in Hb. pose proof (frame_words_length (r_frame r) sp0). pose proof (frame_below (r_frame r) sp0). lia.
  - by apply frame_words_ok.
  - symmetry. apply frame_words_length.
Qed.

Lemma enter_context r hf m sp0 :
  regs_ok r -> base_ok (r_frame r) sp0 ->
  pushal r (push hf (gate_frame (r_frame r) m sp0)) = pushes (context_words hf r sp0) (m, frame_base (r_frame r) sp0).
Proof.
  intros Hr Hb. unfold context_words. rewrite pushes_app, <- gate_frame_words, pushal_words.
  pose proof (gate_frame_sp r m sp0 Hr Hb) as E. destruct (gate_frame (r_frame r) m sp0) as [m1 sp]. cbn [snd] in E. subst sp.
  unfold base_ok, sp_ok in Hb. pose proof (frame_below (r_frame r) sp0). rewrite push_sp by lia. done.
Qed.

Lemma context_words_length hf r sp0 :
  4 * Z.of_nat (length (context_words hf r sp0)) = frame_base (r_frame r) sp0 - frame_addr (r_frame r) sp0 + 36.
Proof. unfold context_words. rewrite length_app. pose proof (frame_words_length (r_frame r) sp0). cbn. lia. Qed.

Lemma context_words_ok hf r sp0 :
  regs_ok r -> u32_range_of hf -> base_ok (r_frame r) sp0 -> Forall u32_range_of (context_words hf r sp0).
Proof.
  intros Hr Hf Hb. apply Forall_app. split; [by apply frame_words_ok|]. constructor; [done|].
  apply reg_words_ok; [done|]. unfold base_ok, sp_ok in Hb. pose proof (frame_below (r_frame r) sp0). unfold u32_range_of. lia.
Qed.

(** [popal; popfl; iret] gives the interrupted code back its registers. *)
Lemma unwind_words hf r m sp0 :
  mode_ok (r_frame r) -> base_ok (r_frame r) sp0 ->
  has_words m (frame_base (r_frame r) sp0) (context_words hf r sp0) ->
  unwind m (frame_addr (r_frame r) sp0 - 36) = r.
Proof.
  intros Hmode Hb Hw. unfold base_ok, sp_ok in Hb. pose proof (frame_below (r_frame r) sp0) as HF.
  pose proof (frame_words_length (r_frame r) sp0) as HL.
  apply has_words_app in Hw as [Hf Hw]. rewrite <- HL in Hw.
  apply (has_words_app m _ [hf]) in Hw as [_ Hr]. cbn [length] in Hr.
  set (F := frame_addr (r_frame r) sp0) in *. unfold unwind.
  replace (F - 36) with (F - 4 - 32) by lia. rewrite (popal_words r m (F - 4) (F - 4)); [|lia | exact Hr].
  unfold pop. addresses. replace (F - 4 + 4) with F by lia. unfold F. rewrite iret_words by (done || lia). by destruct r.
Qed.

(** ** Interrupts that return *)

(** What the stubs with a frame pointer push. *)
Definition stub_words (fl : Z) (r : user_regs) (sp0 : Z) : list Z :=
  let F := frame_addr (r_frame r) sp0 in
  frame_words (r_frame r) ++ [r_ebp r] ++ [fl] ++ reg_words (set_ebp (F - 4) r) (F - 8).

Lemma enter_stub fl r m sp0 :
  regs_ok r -> base_ok (r_frame r) sp0 ->
  stub_enter [] fl r m sp0 = pushes (stub_words fl r sp0) (m, frame_base (r_frame r) sp0).
Proof.
  intros Hr Hb. pose proof (gate_frame_sp r m sp0 Hr Hb) as E. unfold stub_enter, stub_words. cbn [pushes fold_left].
  rewrite !pushes_app, <- gate_frame_words, pushal_words. destruct (gate_frame (r_frame r) m sp0) as [m1 F]. cbn [snd] in E.
  rewrite <- E. unfold base_ok, sp_ok in Hb. pose proof (frame_below (r_frame r) sp0). cbn [pushes fold_left].
  rewrite push_sp by lia. replace (push fl (push (r_ebp r) (m1, F))).2 with (F - 8); [done|].
  unfold push. cbn [snd]. addresses. lia.
Qed.

Lemma stub_words_length fl r sp0 :
  4 * Z.of_nat (length (stub_words fl r sp0)) = frame_base (r_frame r) sp0 - frame_addr (r_frame r) sp0 + 40.
Proof. unfold stub_words. rewrite length_app. pose proof (frame_words_length (r_frame r) sp0). cbn [length app reg_words]. lia. Qed.

Lemma stub_words_ok fl r sp0 :
  regs_ok r -> u32_range_of fl -> base_ok (r_frame r) sp0 -> Forall u32_range_of (stub_words fl r sp0).
Proof.
  intros Hr Hf Hb. apply Forall_app. split; [by apply frame_words_ok|]. unfold base_ok, sp_ok in Hb.
  pose proof (frame_below (r_frame r) sp0). unfold regs_ok in Hr. repeat constructor; unfold u32_range_of in *; cbn; lia.
Qed.

(** [popal; popfl; leave; iret] gives the interrupted code back its registers. *)
Lemma stub_leave_words fl r m sp0 :
  mode_ok (r_frame r) -> base_ok (r_frame r) sp0 ->
  has_words m (frame_base (r_frame r) sp0) (stub_words fl r sp0) ->
  stub_leave m (frame_addr (r_frame r) sp0 - 40) = r.
Proof.
  intros Hmode Hb Hw. unfold base_ok, sp_ok in Hb. pose proof (frame_below (r_frame r) sp0) as HF.
  pose proof (frame_words_length (r_frame r) sp0) as HL. unfold stub_words in Hw. cbv zeta in Hw.
  apply has_words_app in Hw as [Wf Hw]. rewrite <- HL in Hw. set (F := frame_addr (r_frame r) sp0) in *.
  apply (has_words_app m _ [r_ebp r]) in Hw as [We Hw]. apply (has_words_app m _ [fl]) in Hw as [_ Wr]. cbn [length] in Wr.
  replace (F - 4 * Z.of_nat 1 - 4 * Z.of_nat 1) with (F - 8) in Wr by lia. unfold stub_leave.
  replace (F - 40) with (F - 8 - 32) by lia. rewrite (popal_words _ m (F - 8) (F - 8) ltac:(lia) Wr).
  unfold pop. cbn [set_frame set_ebp r_ebp]. addresses. pose proof (We 0%nat _ eq_refl) as E. change (4 * Z.of_nat 1) with 4 in E.
  rewrite E. replace (F - 4 + 4) with F by lia. unfold F. rewrite iret_words by (done || lia). by destruct r.
Qed.

(** A handler that keeps what was pushed before it is invisible to the code it interrupts. *)
Lemma stub_restores fl r m sp0 :
  regs_ok r -> mode_ok (r_frame r) -> base_ok (r_frame r) sp0 -> u32_range_of fl ->
  let s := stub_enter [] fl r m sp0 in
  let base := frame_base (r_frame r) sp0 in
  base - 60 <= s.2 <= base - 52 /\ (forall x, ~ s.2 <= x < base -> s.1 x = m x) /\
  forall m', (forall x, s.2 <= x < base -> m' x = s.1 x) -> stub_leave m' s.2 = r.
Proof.
  intros Hr Hmode Hb Hfl. pose proof (frame_below (r_frame r) sp0) as HF. pose proof (stub_words_length fl r sp0) as Hlen.
  cbv zeta. rewrite enter_stub by done. pose proof Hb as Hb'. unfold base_ok, sp_ok in Hb'.
  destruct (pushes_spec (stub_words fl r sp0) m (frame_base (r_frame r) sp0)) as (H1 & H2 & H3); [lia | by apply stub_words_ok|].
  rewrite H1 in *. split; [lia|]. split; [exact H3|]. intros m' Hm'.
  replace (frame_base (r_frame r) sp0 - 4 * Z.of_nat (length (stub_words fl r sp0))) with (frame_addr (r_frame r) sp0 - 40) by lia.
  apply (stub_leave_words fl); [done | done|]. eapply has_words_ext; [lia | exact Hm' | exact H2].
Qed.

Lemma context_restores fl r m sp0 :
  regs_ok r -> mode_ok (r_frame r) -> base_ok (r_frame r) sp0 -> u32_range_of fl ->
  let s := pushal r (push fl (gate_frame (r_frame r) m sp0)) in
  let base := frame_base (r_frame r) sp0 in
  base - 60 <= s.2 <= base - 48 /\ (forall x, ~ s.2 <= x < base -> s.1 x = m x) /\
  forall m', (forall x, s.2 <= x < base -> m' x = s.1 x) -> unwind m' s.2 = r.
Proof.
  intros Hr Hmode Hb Hfl. pose proof (frame_below (r_frame r) sp0) as HF. pose proof (context_words_length fl r sp0) as Hlen.
  cbv zeta. rewrite enter_context by done. pose proof Hb as Hb'. unfold base_ok, sp_ok in Hb'.
  destruct (pushes_spec (context_words fl r sp0) m (frame_base (r_frame r) sp0)) as (H1 & H2 & H3); [lia | by apply context_words_ok|].
  rewrite H1 in *. split; [lia|]. split; [exact H3|]. intros m' Hm'.
  replace (frame_base (r_frame r) sp0 - 4 * Z.of_nat (length (context_words fl r sp0))) with (frame_addr (r_frame r) sp0 - 36) by lia.
  apply (unwind_words fl); [done | done|]. eapply has_words_ext; [lia | exact Hm' | exact H2].
Qed.

(** The return address of the handler is below what was saved. *)
Lemma return_address ret_addr m sp base :
  base - 60 <= sp <= base - 48 -> 0x1000 <= base < 2 ^ 32 ->
  (forall x, ~ sp - 4 <= x < sp -> (push ret_addr (m, sp)).1 x = m x) /\
  (forall x, sp <= x < base -> (push ret_addr (m, sp)).1 x = m x).
Proof.
  intros Hs Hb. unfold push. cbn [fst snd]. addresses.
  split; intros x Hx; apply store32_frame; unfold area; lia.
Qed.

(** Nothing of the keyboard handler touches the kernel stacks. *)
Lemma vid_chain_kmem f : forall n x p p', vid_chain n f x p = Some p' -> kmem p' = kmem p.
Proof.
  induction n as [|n IH]; intros x p p' E; [done|]. cbn [vid_chain] in E. unbind; [|done].
  match goal with H : vid_chain _ _ _ _ = _ |- _ => by apply IH in H end.
Qed.

Lemma swap_vid_mem_kmem L a b p x p' : swap_vid_mem L a b p = Some (x, p') -> kmem p' = kmem p.
Proof.
  unfold swap_vid_mem. cbv zeta. intros. unbind; [done|].
  repeat match goal with H : vid_chain _ _ _ _ = _ |- _ => apply vid_chain_kmem in H end. cbn in *. congruence.
Qed.

Lemma keyboard_int_kmem L dev kb ts p kb' ts' p' :
  keyboard_int dev (swap_vid_mem L) kb ts p = Some (kb', ts', p') -> kmem p' = kmem p.
Proof.
  unfold keyboard_int, on_key, press_key, switch_terminals. cbv zeta. intros. unbind; try done.
  all: match goal with H : swap_vid_mem _ _ _ _ = _ |- _ => by apply swap_vid_mem_kmem in H end.
Qed.

(** ** The switch of tasks *)

(** The stack of process [i]: below its top, above its control block. *)
Definition stack_low (i : Z) : Z := get_pcb_address i + sizeof_pcb.
Definition in_stack (i x : Z) : Prop := stack_low i <= x < get_kstack_address i.

(** Room for what the interrupt and its handler push. *)
Definition STACK_ROOM : Z := 512.

(** The code of process [c] can be interrupted with the registers [r]: in user mode anywhere, in
    the kernel while its stack is in the stack of the process, below the frame it was entered with. *)
Definition interruptible (c : Z) (r : user_regs) : Prop :=
  regs_ok r /\
  (user_mode (r_frame r) = true \/
   cs (r_frame r) = KERNEL_CS /\ ss (r_frame r) = KERNEL_DS /\
   stack_low c + STACK_ROOM <= uesp (r_frame r) <= get_kstack_address c - 20).

#[export] Instance u32_range_dec z : Decision (u32_range_of z).
Proof. unfold u32_range_of. solve_decision. Defined.
#[export] Instance regs_ok_dec r : Decision (regs_ok r).
Proof. unfold regs_ok. solve_decision. Defined.
#[export] Instance interruptible_dec c r : Decision (interruptible c r).
Proof. unfold interruptible. solve_decision. Defined.

(** ** The abstract machine

    It keeps the registers of every task.  A timer interrupt stores those of the task at work and
    goes on with the next task in the circle [q] that is ready. *)

Record multi := Multi { m_cur : Z; m_ctx : Z -> user_regs }.

(** The circle after [c], [c] last. *)
Fixpoint after_from (c : Z) (q before : list Z) : list Z :=
  match q with
  | [] => before
  | i :: q' => if i =? c then q' ++ before ++ [c] else after_from c q' (before ++ [i])
  end.
Definition after (c : Z) (q : list Z) : list Z := after_from c q [].

(** [ebx] is not kept: it comes back as the address of the interrupt frame. *)
Definition kept (c : Z) (r : user_regs) : user_regs := set_ebx (frame_addr (r_frame r) (get_kstack_address c)) r.

Definition spec_timer (q : list Z) (ready : Z -> bool) (r : user_regs) (a : multi) : option (user_regs * multi) :=
  if decide (interruptible (m_cur a) r) then
    n ← find ready (after (m_cur a) q);
    let ctx := fun i => if i =? m_cur a then kept (m_cur a) r else m_ctx a i in
    Some (ctx n, Multi n ctx)
  else None.

(** What happens: a timer interrupt that finds the registers [r], or work of the current task,
    which may write anything on its own kernel stack and change files, screen, clock and
    programs. *)
Inductive happening := Tick (r : user_regs) | Work (m : memory) (w : kernel).

Definition work (m : memory) (w k : kernel) : option kernel :=
  c ← curr_process (pr k);
  let m' := fun x => if (stack_low c <=? x) && (x <? get_kstack_address c) then m x else kmem (pr k) x in
  Some (Kernel (set_kmem m' (pr k)) (sc k) (fsys w) (image w) (umem w) (screen w) (clock w) (timer_on w)).

Section Runs.
Context (L : layout) (ret_addr pit_ret locals : Z).

(** The tasks that are resumed, with their registers. *)
Fixpoint runs (hs : list happening) (k : kernel) : option (list (Z * user_regs) * kernel) :=
  match hs with
  | [] => Some ([], k)
  | Tick r :: hs' =>
      '(r', k') ← pit_int_linkage L ret_addr pit_ret locals r k;
      n ← curr_process (pr k');
      '(out, k'') ← runs hs' k'; Some ((n, r') :: out, k'')
  | Work m w :: hs' => k' ← work m w k; runs hs' k'
  end.

Fixpoint spec_runs (q : list Z) (ready : Z -> bool) (hs : list happening) (a : multi) : option (list (Z * user_regs) * multi) :=
  match hs with
  | [] => Some ([], a)
  | Tick r :: hs' =>
      '(r', a') ← spec_timer q ready r a;
      '(out, a'') ← spec_runs q ready hs' a'; Some ((m_cur a', r') :: out, a'')
  | Work _ _ :: hs' => spec_runs q ready hs' a
  end.

(** The stack of task [i], which is not at work, holds what [pit_ret] needs to go on with [r]. *)
Record saved (m : memory) (i e : Z) (r : user_regs) : Prop := {
  sv_low : stack_low i <= e;
  sv_high : e + 68 <= get_kstack_address i;
  sv_ret : load32 m (e + 4) = pit_ret;
  sv_regs : unwind m (e + 12) = r }.

(** The kernel state [k] stands for the machine [a]; [t] is a task that is ready. *)
Record multitasking (t : Z) (q : list Z) (k : kernel) (a : multi) : Prop := {
  mt_round : round_state L t q (m_cur a) (sc k) (pr k);
  mt_in : m_cur a ∈ q;
  mt_curr : curr_process (pr k) = Some (m_cur a);
  mt_stacks : forall i b, i ∈ q -> (pcbs (pr k)).[i] = Some b -> kernel_stack b = get_kstack_address i;
  mt_esp0 : esp0 (pr k) = get_kstack_address (m_cur a);
  mt_saved : forall i b, i ∈ q -> i <> m_cur a -> (pcbs (pr k)).[i] = Some b -> saved (kmem (pr k)) i (ebp b) (m_ctx a i) }.

(** ** Stacks *)

Lemma stack_bounds i : 0 <= i < 6 ->
  stack_low i = 0x800000 - (i + 1) * 0x2000 + 302 /\ get_kstack_address i = 0x800000 - i * 0x2000 - 4.
Proof.
  intros. unfold stack_low, get_pcb_address, get_kstack_address, STACK_START, STACK_SIZE, WORD.
  change sizeof_pcb with 302. rewrite !u32_small by lia. lia.
Qed.

Lemma unwind_ext m m' sp :
  0 <= sp -> sp + 56 <= 2 ^ 32 -> (forall x, sp <= x < sp + 56 -> m' x = m x) -> unwind m' sp = unwind m sp.
Proof.
  intros H0 H1 Hm. assert (forall o, 0 <= o <= 52 -> load32 m' (sp + o) = load32 m (sp + o)) as Hl.
  { intros o Ho. apply load32_ext; [unfold area; lia|]. intros j Hj. apply Hm. lia. }
  unfold unwind, popal, iret, pop. addresses. rewrite <- !Z.add_assoc, !Hl by lia.
  replace (load32 m' sp) with (load32 m sp); [done|]. rewrite <- (Z.add_0_r sp). symmetry. apply Hl. lia.
Qed.

Lemma saved_ext m m' i e r :
  0 <= i < 6 -> (forall x, in_stack i x -> m' x = m x) -> saved m i e r -> saved m' i e r.
Proof.
  intros Hi Hm []. destruct (stack_bounds i Hi) as [E1 E2]. unfold in_stack in Hm. split; [done | done | |].
  - rewrite <- sv_ret0. apply load32_ext; [unfold area; lia|]. intros j Hj. apply Hm. lia.
  - rewrite <- sv_regs0. apply unwind_ext; [lia | lia|]. intros x Hx. apply Hm. lia.
Qed.

Lemma stacks_apart i j x : 0 <= i < 6 -> 0 <= j < 6 -> i <> j -> in_stack i x -> ~ in_stack j x.
Proof.
  intros Hi Hj Hij. unfold in_stack. destruct (stack_bounds i Hi) as [-> ->]. destruct (stack_bounds j Hj) as [-> ->]. lia.
Qed.

Lemma interruptible_frame c r : 0 <= c < 6 -> interruptible c r ->
  let K := get_kstack_address c in
  mode_ok (r_frame r) /\ base_ok (r_frame r) K /\ frame_base (r_frame r) K <= K /\
  stack_low c + 48 <= frame_addr (r_frame r) K /\ frame_addr (r_frame r) K + 20 <= K.
Proof.
  intros Hc [Hr Hm] K. destruct (stack_bounds c Hc) as [E1 E2]. fold K in E2, Hm.
  unfold mode_ok, base_ok, sp_ok, frame_base, frame_addr, STACK_ROOM in *. destruct Hm as [Hu | (Hcs & Hss & Hsp)].
  - rewrite Hu. split_and!; try done; lia.
  - assert (user_mode (r_frame r) = false) as Hu by (unfold user_mode; by rewrite Hcs). rewrite Hu. split_and!; try done; lia.
Qed.

(** What the linkage and the first instruction of the handler leave on the stack of [c]. *)
Definition timer_stack (r : user_regs) (m : memory) (sp0 : Z) : memory * Z :=
  let s := gate_frame (r_frame r) m sp0 in
  let F := s.2 in
  push (r_ebp r) (push pit_ret (push F (pushal (set_ebx F r) (push (masked (iflags (r_frame r))) s)))).

Definition timer_words (r : user_regs) (sp0 : Z) : list Z :=
  let F := frame_addr (r_frame r) sp0 in
  context_words (masked (iflags (r_frame r))) (set_ebx F r) sp0 ++ [F; pit_ret; r_ebp r].

Lemma timer_stack_words r m sp0 :
  regs_ok r -> base_ok (r_frame r) sp0 ->
  timer_stack r m sp0 = pushes (timer_words r sp0) (m, frame_base (r_frame r) sp0).
Proof.
  intros Hr Hb. unfold timer_stack, timer_words. cbv zeta. rewrite pushes_app, gate_frame_sp by done.
  pose proof (frame_below (r_frame r) sp0). pose proof Hb as Hb'. unfold base_ok, sp_ok in Hb'.
  set (F := frame_addr (r_frame r) sp0) in *.
  pose proof (enter_context (set_ebx F r) (masked (iflags (r_frame r))) m sp0) as E. cbn [set_ebx r_frame] in E.
  cbn [pushes fold_left]. f_equal. f_equal. f_equal. apply E; [|done]. unfold regs_ok in *. cbn. unfold u32_range_of in *. lia.
Qed.

Lemma timer_stack_saved c r m :
  0 <= c < 6 -> interruptible c r -> u32_range_of pit_ret ->
  let s := timer_stack r m (get_kstack_address c) in
  (forall x, ~ in_stack c x -> s.1 x = m x) /\ saved s.1 c s.2 (kept c r).
Proof.
  intros Hc Hi Hret. destruct (interruptible_frame c r Hc Hi) as (Hmode & Hb & Hbase & Hlow & Hhigh). pose proof Hi as [Hr _].
  destruct (stack_bounds c Hc) as [E1 E2]. cbv zeta. rewrite timer_stack_words by done.
  set (K := get_kstack_address c) in *. unfold timer_words. pose proof (frame_below (r_frame r) K) as HB.
  set (F := frame_addr (r_frame r) K) in *. assert (set_ebx F r = kept c r) as -> by done.
  assert (u32_range_of F) as HF by (unfold u32_range_of; lia).
  assert (regs_ok (kept c r)) as Hk by (unfold regs_ok, kept, set_ebx in *; cbn; tauto).
  assert (u32_range_of (masked (iflags (r_frame r)))) as Hfl by (apply masked_ok; unfold regs_ok in Hr; tauto).
  pose proof (context_words_length (masked (iflags (r_frame r))) (kept c r) K) as Hlen.
  set (ws := context_words (masked (iflags (r_frame r))) (kept c r) K) in *. cbn [kept set_ebx r_frame] in Hlen. fold F in Hlen.
  destruct (pushes_spec (ws ++ [F; pit_ret; r_ebp r]) m (frame_base (r_frame r) K)) as (H1 & H2 & H3).
  { rewrite length_app. cbn [length]. lia. }
  { apply Forall_app. split; [by apply context_words_ok|]. unfold regs_ok in Hr.
    constructor; [done|]. constructor; [done|]. constructor; [tauto | done]. }
  rewrite length_app in H1, H3. cbn [length] in H1, H3. apply has_words_app in H2 as [W1 W2].
  assert ((pushes (ws ++ [F; pit_ret; r_ebp r]) (m, frame_base (r_frame r) K)).2 = F - 48) as -> by lia.
  split; [intros x Hx; apply H3; unfold in_stack in Hx; lia|]. split; [lia | lia | |].
  - word W2 1%nat.
  - replace (F - 48 + 12) with (F - 36) by lia.
    exact (unwind_words (masked (iflags (r_frame r))) (kept c r) _ K Hmode Hb W1).
Qed.

(** [leave; ret] to [pit_ret], the end of interrupt, and the registers of the task. *)
Lemma resume_saved m i e r :
  0 <= i < 6 -> saved m i e r ->
  let m2 := (push ret_addr (push 0 (m, e + 12))).1 in
  load32 m (e + 4) = pit_ret /\ unwind m2 (e + 12) = r /\ forall x, ~ in_stack i x -> m2 x = m x.
Proof.
  intros Hi []. destruct (stack_bounds i Hi) as [E1 E2]. cbv zeta. unfold push. cbn [fst snd]. addresses.
  split; [done|]. split.
  - rewrite <- sv_regs0. apply unwind_ext; [lia | lia|]. intros x Hx.
    rewrite !store32_frame by (unfold area; lia). done.
  - intros x Hx. unfold in_stack in Hx. rewrite !store32_frame by (unfold area; lia). done.
Qed.

Lemma after_from_split c l1 l2 : forall before, c ∉ l1 -> after_from c (l1 ++ c :: l2) before = l2 ++ before ++ l1 ++ [c].
Proof.
  induction l1 as [|i l1 IH]; intros before Hc; cbn [app after_from].
  - by rewrite Z.eqb_refl.
  - apply not_elem_of_cons in Hc as [Hi Hc]. bfalse (i =? c). rewrite IH by done. by rewrite <- !app_assoc.
Qed.

Lemma after_split c l1 l2 : NoDup (l1 ++ c :: l2) -> after c (l1 ++ c :: l2) = l2 ++ l1 ++ [c].
Proof.
  intros H. unfold after. rewrite after_from_split; [done|]. apply NoDup_app in H as (_ & H & _). intros Hc. by apply (H c Hc); left.
Qed.

(** The handler chooses the next task of the circle and keeps the queue. *)
Lemma pit_handler_next t q c s p regs e b :
  round_state L t q c s p -> c ∈ q ->
  exists n s' p' bn, pit_handler L regs e b s p = Some (s', p', esp bn, ebp bn) /\
    find (fun i => is_running s (Task i)) (after c q) = Some n /\ n ∈ q /\
    round_state L t q n s' p' /\ (forall i, is_running s' (Task i) = is_running s (Task i)) /\
    curr_process p' = Some n /\ (pcbs p').[n] = Some bn /\ esp0 p' = kernel_stack bn /\ kmem p' = kmem p /\
    forall i, (pcbs p').[i] = if i =? c then with_esp_ebp e b <$> (pcbs p).[c] else (pcbs p).[i].
Proof.
  intros Hst Hc. apply list_elem_of_split in Hc as (l1 & l2 & ->).
  destruct (tick_step L t l1 c l2 s p regs e b Hst) as (n & s' & p' & e' & b' & E & _ & Hn & Hnq & Hst').
  pose proof Hst as [Hring Hp Hcur Hnf _ _].
  assert (candidates s l1 c l2 = l2 ++ l1 ++ [c]) as Ec.
  { unfold candidates. rewrite bool_decide_eq_false_2; [done|]. unfold none_finished in Hnf. rewrite Forall_forall in Hnf.
    apply Hnf. elems. tauto. }
  rewrite <- Ec in Hn. destruct (pit_handler_spec L regs e b s p l1 c l2 n Hring Hp Hcur Hn)
    as (s1 & p1 & bn & E1 & _ & _ & Hrun & _ & _ & Hcp & _ & Hbn & Hesp0 & _ & Hkm & Hpcbs).
  rewrite E1 in E. injection E as -> -> _ _. exists n, s', p', bn. rewrite after_split by (by destruct Hring). rewrite <- Ec.
  split_and!; try done. intros i. unfold is_running. by rewrite Hrun.
Qed.

Lemma round_range t q c s p : round_state L t q c s p -> forall i, i ∈ q -> 0 <= i < 6.
Proof. intros [Hr _ _ _ _ _] i Hq. pose proof (ring_tasks _ _ Hr) as H. rewrite Forall_forall in H. by destruct (H i Hq). Qed.

(** Which memory the control blocks are seen with is no matter to the queue. *)
Lemma round_kmem t q c s p m : round_state L t q c s p -> round_state L t q c s (set_kmem m p).
Proof. intros [? [] ? ? ? ?]. by constructor. Qed.

(** The timer interrupt does what the abstract machine does. *)
Lemma timer_step t q k a r r' a' :
  u32_range_of pit_ret -> multitasking t q k a ->
  spec_timer q (fun i => is_running (sc k) (Task i)) r a = Some (r', a') ->
  exists k', pit_int_linkage L ret_addr pit_ret locals r k = Some (r', k') /\ multitasking t q k' a' /\
    forall i, is_running (sc k') (Task i) = is_running (sc k) (Task i).
Proof.
  intros Hret [Hst Hin Hcurr Hstacks Hesp0 Hsaved] Hspec. unfold spec_timer in Hspec.
  destruct (decide (interruptible (m_cur a) r)) as [Hi|]; [|done]. set (c := m_cur a) in *.
  pose proof (round_range t q c _ _ Hst) as Hrange.
  pose proof (timer_stack_saved c r (kmem (pr k)) (Hrange c Hin) Hi Hret) as Hts. cbv zeta in Hts.
  pose proof (gate_frame_sp r (kmem (pr k)) (get_kstack_address c) (proj1 Hi)
    (proj1 (proj2 (interruptible_frame c r (Hrange c Hin) Hi)))) as EF.
  remember (timer_stack r (kmem (pr k)) (get_kstack_address c)) as ts eqn:Ets. destruct Hts as [Hout Hsv].
  destruct (pit_handler_next t q c (sc k) (set_kmem ts.1 (pr k)) (frame_addr (r_frame r) (get_kstack_address c))
    (u32 (ts.2 - locals)) ts.2) as (n & s' & p' & bn & Eh & Hn & Hnq & Hst' & Hrun & Hcp & Hbn & He0 & Hkm & Hpcbs).
  { by apply round_kmem. }
  { done. }
  cbn [kmem set_kmem pcbs] in Hkm, Hpcbs. rewrite Hn, some_bind in Hspec. injection Hspec as <- <-.
  assert (forall i b, i ∈ q -> (pcbs p').[i] = Some b -> kernel_stack b = get_kstack_address i /\
    saved ts.1 i (ebp b) (if i =? c then kept c r else m_ctx a i)) as Hall.
  { intros i b Hq Hb. rewrite Hpcbs in Hb. destruct (Z.eqb_spec i c) as [->|Hic].
    - destruct ((pcbs (pr k)).[c]) as [b0|] eqn:Eb; [|done]. cbn in Hb. simplify_eq. split; [exact (Hstacks c b0 Hq Eb) | exact Hsv].
    - split; [by apply Hstacks|]. apply (saved_ext (kmem (pr k))); [auto | |by apply Hsaved].
      intros x Hx. apply Hout. apply (stacks_apart i c x); auto. }
  destruct (Hall n bn Hnq Hbn) as [HK Hsn]. destruct (resume_saved ts.1 n (ebp bn) _ (Hrange n Hnq) Hsn) as (Eret & Eun & Hout2).
  destruct (stack_bounds n (Hrange n Hnq)) as [B1 B2]. pose proof (Hrange n Hnq). pose proof (sv_low _ _ _ _ Hsn). pose proof (sv_high _ _ _ _ Hsn).
  unfold pit_int_linkage. rewrite Hesp0. cbn [r_ebx set_ebx r_ebp r_frame]. fold (set_ebx (gate_frame (r_frame r) (kmem (pr k)) (get_kstack_address c)).2 r).
  fold (timer_stack r (kmem (pr k)) (get_kstack_address c)). rewrite <- Ets, EF, Eh, some_bind, Hkm.
  unfold pop. addresses. rewrite Eret, Z.eqb_refl. cbn [negb]. replace (ebp bn + 4 + 4 + 4) with (ebp bn + 12) by lia.
  rewrite Eun. eexists. split; [done|]. split; [|done]. split; cbn [m_cur m_ctx pr set_screen set_sc set_pr set_kmem sc curr_process pcbs esp0 kmem].
  - by apply round_kmem.
  - done.
  - done.
  - intros i b Hq Hb. by apply Hall.
  - congruence.
  - intros i b Hq Hin' Hb. apply (saved_ext ts.1); [auto | | by apply Hall].
    intros x Hx. apply Hout2. apply (stacks_apart i n x); auto.
Qed.

Lemma work_step t q k a m w :
  multitasking t q k a -> exists k', work m w k = Some k' /\ multitasking t q k' a /\ sc k' = sc k.
Proof.
  intros [Hst Hin Hcurr Hstacks Hesp0 Hsaved]. unfold work. rewrite Hcurr, some_bind. eexists. split; [done|]. split; [|done].
  split; cbn [pr set_kmem sc curr_process pcbs esp0 kmem]; try done; [by apply round_kmem|].
  pose proof (round_range _ _ _ _ _ Hst) as Hrange. intros i b Hq Hic Hb. apply (saved_ext (kmem (pr k))); [auto | | by apply Hsaved].
  intros x Hx. apply (stacks_apart i (m_cur a) x) in Hx; auto. unfold in_stack in Hx. case_if; [lia | done].
Qed.

Lemma find_ext_eq {A} (f g : A -> bool) l : (forall x, f x = g x) -> find f l = find g l.
Proof. intros H. induction l as [|x l IH]; [done|]. cbn. by rewrite H, IH. Qed.

Lemma runs_refine t q ready : u32_range_of pit_ret -> forall hs k a out a',
  multitasking t q k a -> (forall i, ready i = is_running (sc k) (Task i)) ->
  spec_runs q ready hs a = Some (out, a') ->
  exists k', runs hs k = Some (out, k') /\ multitasking t q k' a'.
Proof.
  intros Hret. induction hs as [|[r | m w] hs IH]; intros k a out a' Hmt Hready Hs; cbn [spec_runs runs] in *.
  - injection Hs as <- <-. by exists k.
  - apply bind_Some in Hs as ([r' a1] & E1 & Hs). apply bind_Some in Hs as ([out1 a2] & E2 & [= <- <-]).
    destruct (timer_step t q k a r r' a1 Hret Hmt) as (k1 & -> & Hmt1 & Hrun).
    { rewrite <- E1. unfold spec_timer. case_decide; [|done]. f_equal. symmetry. by apply find_ext_eq. }
    rewrite some_bind, (mt_curr _ _ _ _ Hmt1), some_bind.
    destruct (IH k1 a1 out1 a2 Hmt1) as (k2 & -> & Hmt2); [intros i; by rewrite Hready, Hrun | done|].
    rewrite some_bind. by exists k2.
  - destruct (work_step t q k a m w Hmt) as (k1 & -> & Hmt1 & Esc). rewrite some_bind.
    apply (IH k1 a out a' Hmt1); [by rewrite Esc | done].
Qed.

(** A task the machine does not go on with keeps its registers. *)
Lemma context_kept q ready c : forall hs a out r' a',
  m_cur a <> c -> spec_runs q ready hs a = Some (out ++ [(c, r')], a') -> c ∉ map fst out -> r' = m_ctx a c.
Proof.
  induction hs as [|[r | m w] hs IH]; intros a out r' a' Ha Hs Hc; cbn [spec_runs] in Hs.
  - injection Hs. by destruct out.
  - apply bind_Some in Hs as ([r1 a1] & E1 & Hs). apply bind_Some in Hs as ([out1 a2] & E2 & Hs).
    unfold spec_timer in E1. case_decide; [|done]. apply bind_Some in E1 as (n & Hn & [= <- <-]). cbn [m_cur m_ctx] in *.
    assert (forall x, (if c =? m_cur a then x else m_ctx a c) = m_ctx a c) as Hctx by (intros; by bfalse (c =? m_cur a)).
    destruct out as [|[n' r1] out]; cbn [app] in Hs; injection Hs; intros; subst.
    + apply Hctx.
    + cbn in Hc. apply not_elem_of_cons in Hc as [Hn' Hc]. apply IH in E2; [|cbn; congruence | done]. rewrite E2. apply Hctx.
  - by apply (IH _ _ _ _ Ha Hs).
Qed.

End Runs.

Lemma unwind_frame m sp : 0 <= sp -> sp + 56 <= 2 ^ 32 -> r_frame (unwind m sp) = iret m (sp + 36).
Proof. intros. unfold unwind, popal, pop. cbn [set_frame r_frame]. addresses. f_equal. lia. Qed.

(** The stack [schedule] makes up for a new task is a saved one: the task starts at its entry
    point in user mode. *)
Lemma fabricated_saved pit_ret i task m :
  0 <= i < 6 -> kernel_stack task = get_kstack_address i ->
  u32_range_of pit_ret -> u32_range_of (instr_ptr task) -> u32_range_of (user_stack task) ->
  let s := fabricate pit_ret task m in
  saved pit_ret s.2 i s.1 (unwind s.2 (s.1 + 12)) /\
  r_frame (unwind s.2 (s.1 + 12)) = Iret (instr_ptr task) USER_CS STACK_FLAGS (user_stack task) USER_DS /\
  forall x, ~ in_stack i x -> s.2 x = m x.
Proof.
  intros Hi HK Hret Hip Hus. destruct (stack_bounds i Hi) as [E1 E2].
  pose proof (resume_fabricated pit_ret task m ltac:(lia) Hret Hip Hus) as H. cbv zeta in *.
  destruct (fabricate pit_ret task m) as [sp m']. cbn [fst snd]. destruct H as (-> & Hout & Hc & _ & _ & Hf). rewrite HK in *.
  unfold resume in Hc, Hf. cbn [c_ret c_frame] in Hc, Hf. unfold load_iret in Hf. split_and!.
  - split; [lia | lia | | done]. rewrite <- Hc. f_equal. symmetry. apply u32_small. lia.
  - set (f := Iret (instr_ptr task) USER_CS STACK_FLAGS (user_stack task) USER_DS) in *. rewrite unwind_frame by lia.
    replace (get_kstack_address i - 68 + 12 + 36) with (frame_addr f (get_kstack_address i)) by (change (frame_addr f (get_kstack_address i)) with (get_kstack_address i - 20); lia).
    injection Hf as H1 H2 H3 H4 H5. apply iret_words; [done | change (frame_base f (get_kstack_address i)) with (get_kstack_address i); lia|].
    intros [|[|[|[|[|n]]]]] v Hv; [| | | | | done]; injection Hv as <-; [rewrite <- H5 | rewrite <- H4 | rewrite <- H3 | rewrite <- H2 | rewrite <- H1];
      change (frame_base f (get_kstack_address i)) with (get_kstack_address i); addresses; f_equal; lia.
  - intros x Hx. apply Hout. unfold in_stack in Hx. lia.
Qed.

Lemma iret_eip m a : eip (iret m a) = load32 m a.
Proof. unfold iret, pop. by case_if. Qed.
Lemma iret_cs m a : cs (iret m a) = load32 m (u32 (a + 4)).
Proof. unfold iret, pop. by case_if. Qed.

(** No stub drops the error code of an exception: should a handler return, the program would go
    on at the address that the code is, with the old instruction pointer for a code selector. *)
Lemma error_code_left err fl r m sp0 :
  regs_ok r -> user_mode (r_frame r) = true -> sp_ok sp0 -> u32_range_of fl -> u32_range_of err ->
  let s := stub_enter [err] fl r m sp0 in
  eip (r_frame (stub_leave s.1 s.2)) = err /\ cs (r_frame (stub_leave s.1 s.2)) = eip (r_frame r).
Proof.
  intros Hr Hu Hsp Hfl Herr. cbv zeta. unfold sp_ok in Hsp. unfold stub_enter. rewrite pushal_words, gate_frame_words.
  rewrite <- pushes_app. unfold frame_base, frame_words. rewrite Hu. cbn [app].
  set (fs := [ss (r_frame r); uesp (r_frame r); iflags (r_frame r); cs (r_frame r); eip (r_frame r); err]).
  change (push fl (push (r_ebp r) (pushes fs (m, sp0)))) with (pushes [r_ebp r; fl] (pushes fs (m, sp0))).
  change (push (r_ebp r) (pushes fs (m, sp0))) with (pushes [r_ebp r] (pushes fs (m, sp0))).
  rewrite <- !pushes_app. pose proof Hr as Hr'. unfold regs_ok in Hr'.
  assert (Forall u32_range_of fs) as Hfs by (unfold fs; rewrite !Forall_cons, Forall_nil; tauto).
  destruct (pushes_spec (fs ++ [r_ebp r]) m sp0) as (S1 & _); [cbn; lia | apply Forall_app; split; [done | constructor; [tauto | done]]|].
  destruct (pushes_spec (fs ++ [r_ebp r; fl]) m sp0) as (S2 & _);
    [cbn; lia | apply Forall_app; split; [done | constructor; [tauto | constructor; done]]|].
  change (length (fs ++ [r_ebp r])) with 7%nat in S1. change (length (fs ++ [r_ebp r; fl])) with 8%nat in S2. rewrite S1, S2, (app_assoc fs).
  set (ws := (fs ++ [r_ebp r; fl]) ++ reg_words (set_ebp (sp0 - 4 * Z.of_nat 7) r) (sp0 - 4 * Z.of_nat 8)).
  destruct (pushes_spec ws m sp0) as (H1 & H2 & _); [cbn; lia | |].
  { apply Forall_app. split; [apply Forall_app; split; [done | constructor; [tauto | constructor; done]]|].
    apply reg_words_ok; [|unfold u32_range_of; lia]. unfold regs_ok, set_ebp. cbn. unfold u32_range_of in *. lia. }
  rewrite H1. apply has_words_app in H2 as [Wf Wr]. change (length (fs ++ [r_ebp r; fl])) with 8%nat in Wr. unfold stub_leave.
  replace (sp0 - 4 * Z.of_nat (length ws)) with (sp0 - 32 - 32) by (cbn; lia).
  replace (sp0 - 4 * Z.of_nat 8) with (sp0 - 32) in Wr by lia.
  rewrite (popal_words _ _ (sp0 - 32) _ ltac:(lia) Wr). unfold pop. cbn [set_frame set_ebp r_ebp r_frame].
  addresses. replace (sp0 - 4 * Z.of_nat 7 + 4) with (sp0 - 24) by lia. rewrite iret_eip, iret_cs. addresses.
  split; [word Wf 5%nat | word Wf 4%nat].
Qed.

(** ** Properties *)

(** The timer interrupt makes of the one processor a machine with registers for every task:
    from a state that stands for such a machine, any sequence of timer interrupts, in programs
    or in the kernel on behalf of one, and of work of the task whose turn it is, with any writes
    to its own kernel stack, resumes the tasks in the order of the circle, each one with the
    registers the abstract machine keeps for it, and ends in a state that stands for the machine
    again. *)
Theorem timer_refines L ret_addr pit_ret locals t q hs k a out a' :
  u32_range_of pit_ret -> multitasking L pit_ret t q k a ->
  spec_runs q (fun i => is_running (sc k) (Task i)) hs a = Some (out, a') ->
  exists k', runs L ret_addr pit_ret locals hs k = Some (out, k') /\ multitasking L pit_ret t q k' a'.
Proof. intros Hret Hmt. by apply runs_refine. Qed.

Definition ready_block (i : Z) : pcb := with_esp_ebp (get_kstack_address i - 68) (get_kstack_address i - 68) (demo_block i).
Definition ready_stacks : memory :=
  (fabricate 0x401000 (demo_block 2) (fabricate 0x401000 (demo_block 1) (fun _ => 0)).2).2.
Definition demo_switch (pages : paging) : kernel :=
  Kernel (Procs (map ready_block (seqZ 0 6)) (Some 0) (Some 0) [1; 1; 1; 0; 0; 0] [Some 0; Some 1; Some 2]
            (get_kstack_address 0) pages ready_stacks)
    demo_sched demo_fs demo_mem (fun _ => 0) demo_terminals (Rtc 1 0) true.
Definition demo_multi : multi := Multi 0 (fun i => unwind ready_stacks (get_kstack_address i - 56)).

Lemma demo_multitasking : exists pages, multitasking demo_layout 0x401000 0 [0; 1; 2] (demo_switch pages) demo_multi.
Proof.
  destruct (booted_ok demo_layout zero_paging []) as (pages & _ & Hok);
    [apply demo_layout_ok | apply zero_paging_sized | constructor|].
  exists pages. assert (forall i b, i ∈ [0; 1; 2] -> (pcbs (pr (demo_switch pages))).[i] = Some b -> b = ready_block i /\ 0 <= i < 3) as Hb.
  { intros i b Hi E. repeat (apply elem_of_cons in Hi as [->|Hi]; [by injection E as <-|]). by apply elem_of_nil in Hi. }
  split; [|by left | done | | done |].
  - split; [apply demo_ring | | done | repeat constructor; vm_compute; discriminate | by left | done].
    split; [done | | done]. repeat constructor; eexists; (split; [reflexivity | done]).
  - intros i b Hi E. by destruct (Hb i b Hi E) as [-> _].
  - intros i b Hi Hic E. destruct (Hb i b Hi E) as [-> Hi3]. cbn [m_cur demo_multi] in Hic.
    assert (i = 1 \/ i = 2) as [-> | ->] by lia; split; vm_compute; done.
Qed.

(** Registers of a program, and of the kernel working for process 1. *)
Definition demo_kernel_regs : user_regs := UserRegs 1 2 3 4 (get_kstack_address 1 - 100) 5 6 (Iret 0x401234 KERNEL_CS 0x202 (get_kstack_address 1 - 200) KERNEL_DS).
Definition demo_hs (k : kernel) : list happening :=
  [Tick (demo_regs 3 4); Work (fun _ => 7) k; Tick demo_kernel_regs; Tick (demo_regs 5 6); Work (fun _ => 9) k].

Lemma spec_timer_next q ready r a n :
  interruptible (m_cur a) r -> find ready (after (m_cur a) q) = Some n ->
  let ctx := fun i => if i =? m_cur a then kept (m_cur a) r else m_ctx a i in
  spec_timer q ready r a = Some (ctx n, Multi n ctx).
Proof. intros Hi Hn. unfold spec_timer. rewrite decide_True by done. by rewrite Hn. Qed.

Definition demo_out : list (Z * user_regs) :=
  [(1, m_ctx demo_multi 1); (2, m_ctx demo_multi 2); (0, kept 0 (demo_regs 3 4))].

Ltac spec_tick n :=
  rewrite (spec_timer_next _ _ _ _ n);
    [cbv zeta; cbn [m_cur m_ctx]; rewrite some_bind | apply (bool_decide_unpack _); vm_compute; exact I | reflexivity].

Lemma demo_spec_runs k : exists a', spec_runs [0; 1; 2] (fun i => is_running demo_sched (Task i)) (demo_hs k) demo_multi = Some (demo_out, a').
Proof. cbn [demo_hs spec_runs]. spec_tick 1. spec_tick 2. spec_tick 0. rewrite some_bind. by eexists. Qed.

Lemma timer_refines_witness :
  exists pages k', runs demo_layout 0x402000 0x401000 32 (demo_hs (demo_switch pages)) (demo_switch pages) = Some (demo_out, k').
Proof.
  destruct demo_multitasking as (pages & Hmt). destruct (demo_spec_runs (demo_switch pages)) as (a' & Hs).
  destruct (timer_refines demo_layout 0x402000 0x401000 32 0 [0; 1; 2] (demo_hs (demo_switch pages)) (demo_switch pages) demo_multi
    demo_out a') as (k' & E & _); [unfold u32_range_of; lia | exact Hmt | exact Hs |].
  exists pages, k'. exact E.
Defined.

(** A task that is interrupted by the timer and gets the processor back, after whatever the
    other tasks did in the meantime, goes on with its instruction pointer, flags, stack and
    registers as they were, but for [ebx], which the linkage overwrites with the address of the
    interrupt frame before it saves it. *)
Theorem preempted_task_resumes L ret_addr pit_ret locals t q hs k a r out r' a' :
  u32_range_of pit_ret -> multitasking L pit_ret t q k a ->
  spec_runs q (fun i => is_running (sc k) (Task i)) (Tick r :: hs) a = Some (out ++ [(m_cur a, r')], a') ->
  m_cur a ∉ map fst out ->
  (exists k', runs L ret_addr pit_ret locals (Tick r :: hs) k = Some (out ++ [(m_cur a, r')], k')) /\
  r' = set_ebx (frame_addr (r_frame r) (get_kstack_address (m_cur a))) r.
Proof.
  intros Hret Hmt Hs Hc. split.
  { destruct (runs_refine L ret_addr pit_ret locals t q _ Hret _ k a _ _ Hmt (fun i => eq_refl) Hs) as (k' & E & _). by exists k'. }
  cbn [spec_runs] in Hs. apply bind_Some in Hs as ([r1 a1] & E1 & Hs). apply bind_Some in Hs as ([out1 a2] & E2 & Hs).
  unfold spec_timer in E1. case_decide; [|done]. apply bind_Some in E1 as (n & Hn & [= <- <-]). cbn [m_cur m_ctx] in *.
  destruct out as [|[n' x] out]; cbn [app] in Hs; injection Hs; intros; subst.
  - by rewrite Z.eqb_refl.
  - cbn in Hc. apply not_elem_of_cons in Hc as [Hn' Hc]. apply context_kept in E2; [|cbn; congruence | done].
    rewrite E2. cbn [m_ctx]. by rewrite Z.eqb_refl.
Qed.

Lemma preempted_task_resumes_witness :
  exists pages k' r', runs demo_layout 0x402000 0x401000 32 (demo_hs (demo_switch pages)) (demo_switch pages)
    = Some ([(1, m_ctx demo_multi 1); (2, m_ctx demo_multi 2)] ++ [(0, r')], k') /\ r' = set_ebx (get_kstack_address 0 - 20) (demo_regs 3 4).
Proof.
  destruct demo_multitasking as (pages & Hmt). destruct (demo_spec_runs (demo_switch pages)) as (a' & Hs).
  destruct (preempted_task_resumes demo_layout 0x402000 0x401000 32 0 [0; 1; 2] (drop 1 (demo_hs (demo_switch pages))) (demo_switch pages) demo_multi
    (demo_regs 3 4) [(1, m_ctx demo_multi 1); (2, m_ctx demo_multi 2)] (kept 0 (demo_regs 3 4)) a') as ((k' & E) & Er);
    [unfold u32_range_of; lia | exact Hmt | exact Hs | apply (bool_decide_unpack _); reflexivity |].
  exists pages, k', (kept 0 (demo_regs 3 4)). split; [exact E | exact Er].
Defined.

(** C12: The interrupts of the clock and of the keyboard are invisible to the code they interrupt,
    in user and in kernel mode: whenever the handler returns, that code goes on with all its
    registers, flags and stack as they were, and of the kernel stacks only the 64 bytes below
    its stack pointer have changed. *)
Theorem device_interrupts_transparent L dev ret_addr r k :
  regs_ok r -> mode_ok (r_frame r) -> base_ok (r_frame r) (esp0 (pr k)) ->
  let base := frame_base (r_frame r) (esp0 (pr k)) in
  let keeps := fun k' : kernel => forall x, ~ base - 64 <= x < base -> kmem (pr k') x = kmem (pr k) x in
  (exists k', rtc_int_linkage dev ret_addr r k = (r, k') /\ rtc_flag (clock k') = 1 /\ keeps k') /\
  exists m, (forall x, ~ base - 64 <= x < base -> m x = kmem (pr k) x) /\
    forall kb kb' ts' p', keyboard_int dev (swap_vid_mem L) kb (screen k) (set_kmem m (pr k)) = Some (kb', ts', p') ->
    exists k', keyboard_int_linkage L dev ret_addr r kb k = Some (r, kb', k') /\
      screen k' = ts' /\ pr k' = p' /\ kmem p' = m.
Proof.
  intros Hr Hmode Hb base keeps. assert (u32_range_of (masked (iflags (r_frame r)))) as Hfl by (apply masked_ok; unfold regs_ok in Hr; tauto).
  pose proof Hb as Hb'. unfold base_ok, sp_ok in Hb'. fold base in Hb'. split.
  - destruct (stub_restores _ r (kmem (pr k)) (esp0 (pr k)) Hr Hmode Hb Hfl) as (Hs & Hout & Hback). fold base in Hs, Hout, Hback.
    unfold rtc_int_linkage. destruct (stub_enter _ _ _ _ _) as [m sp]. cbn [fst snd] in *.
    destruct (return_address ret_addr m sp base ltac:(lia) Hb') as [Hlow Habove]. rewrite Hback by exact Habove.
    destruct (rtc_int dev (clock k) (pio (screen k))) as [clk p] eqn:E. eexists. split; [done|].
    split; [unfold rtc_int, inb in E; by injection E as <- _|].
    intros x Hx. cbn [pr set_clock set_screen with_kmem set_pr kmem set_kmem]. rewrite Hlow by lia. apply Hout. lia.
  - destruct (context_restores _ r (kmem (pr k)) (esp0 (pr k)) Hr Hmode Hb Hfl) as (Hs & Hout & Hback). fold base in Hs, Hout, Hback.
    unfold keyboard_int_linkage. destruct (pushal _ _) as [m sp]. cbn [fst snd] in *.
    destruct (return_address ret_addr m sp base ltac:(lia) Hb') as [Hlow Habove]. exists (push ret_addr (m, sp)).1.
    split; [intros x Hx; rewrite Hlow by lia; apply Hout; lia|]. intros kb kb' ts' p' E. cbn [with_kmem screen pr set_pr]. rewrite E, some_bind.
    apply keyboard_int_kmem in E. cbn [kmem set_kmem] in E. rewrite E, Hback by exact Habove. by eexists.
Qed.

Lemma device_interrupts_transparent_witness :
  exists k', rtc_int_linkage (fun _ _ => 0) 0x402000 demo_kernel_regs demo_caller = (demo_kernel_regs, k') /\ rtc_flag (clock k') = 1.
Proof.
  destruct (device_interrupts_transparent demo_layout (fun _ _ => 0) 0x402000 demo_kernel_regs demo_caller) as [(k' & E & Hf & _) _];
    [apply (bool_decide_unpack _); vm_compute; exact I | intros _; reflexivity | split; vm_compute; discriminate || reflexivity |].
  exists k'. split; [exact E | exact Hf].
Defined.
