(* ===== verification/Tasks.v ===== *)
(** * Processes that come and go

    Timer interrupts, [kexecute] and [khalt] put together: each of the last two ends in
    [int $32], so that a process that starts a program is suspended in the middle of its
    system call, and one that halts is never resumed.  The kernel is shown to behave as an
    abstract machine whose state is a circle of tasks with their registers, the task each one
    was started by and the status its last child left; on that machine, a system call
    [execute] returns when the program it started halts, with the status of that program. *)

From stdpp Require Import base list option sets.
From Stdlib Require Import ZArith Lia ZifyBool.
From S2P Require Import Prelude MemOps Lib FileSystem Paging Process Schedule Terminal Rtc FileArray Reading Lifecycle Drivers Linkage Interrupts.

(** ** The machine of the kernel *)

(** The arguments of [kexecute] and what its locals and registers hold on entry. *)
Record exec_call := ExecCall { x_command : option (list Z); x_junk : junk; x_esp : Z; x_ebp : Z }.

(** What happens: a timer interrupt that finds the registers [r]; the two system calls that
    give the processor up, by an [int $32] that finds the registers [r]; and other work of the
    current process, with the kernel state it would lead to. *)
Inductive event :=
| Timer (r : user_regs)
| Execute (x : exec_call) (r : user_regs)
| Halt (status ebp_in : Z) (r : user_regs)
| Working (w : kernel).

(** A step of a run: the process that made it, the event, and the process that was resumed
    with its registers, if one was. *)
Record entry := Entry { en_actor : Z; en_event : event; en_resumed : option (Z * user_regs) }.

(** What the work of process [c] may change: its own kernel stack and open files, the
    memory of programs, the page tables, the screen and the clock. *)
Definition do_work (w k : kernel) : option kernel :=
  c ← curr_process (pr k); b ← (pcbs (pr w)).[c];
  p ← upd_pcb c (with_files (files b)) (pr k);
  let m := fun x => if (stack_low c <=? x) && (x <? get_kstack_address c) then kmem (pr w) x else kmem (pr k) x in
  Some (Kernel (set_kmem m (set_pg (pg (pr w)) p)) (sc k) (fsys k) (image k) (umem w) (screen w) (clock w) (timer_on w)).

(** [return curr_process->ret_status;], after the [int $32] of [kexecute]. *)
Definition execute_result (k : kernel) : option Z :=
  c ← curr_process (pr k); b ← (pcbs (pr k)).[c]; Some (ret_status b).

Section Machine.
Context (ops : op_table -> file_ops) (L : layout) (ret_addr pit_ret locals : Z).

(** The timer interrupt, with the process it goes on with. *)
Definition switch_tasks (r : user_regs) (k : kernel) : option (option (Z * user_regs) * kernel) :=
  '(r', k') ← pit_int_linkage L ret_addr pit_ret locals r k;
  n ← curr_process (pr k'); Some (Some (n, r'), k').

(** [asm("int $32")] at the end of a system call that gets so far. *)
Definition int_32 (o : outcome) (r : user_regs) : option (option (Z * user_regs) * kernel) :=
  match o with Yields k => switch_tasks r k | Returns _ k => Some (None, k) end.

Definition kernel_step (e : event) (k : kernel) : option (option (Z * user_regs) * kernel) :=
  match e with
  | Timer r => switch_tasks r k
  | Execute x r => o ← kexecute L pit_ret (x_junk x) (x_command x) (x_esp x) (x_ebp x) k; int_32 o r
  | Halt status ebp_in r => o ← khalt ops status ebp_in k; int_32 o r
  | Working w => k' ← do_work w k; Some (None, k')
  end.

Fixpoint kernel_run (es : list event) (k : kernel) : option (list entry * kernel) :=
  match es with
  | [] => Some ([], k)
  | e :: es' =>
      c ← curr_process (pr k); '(o, k1) ← kernel_step e k;
      '(tr, k') ← kernel_run es' k1; Some (Entry c e o :: tr, k')
  end.

End Machine.

(** ** The abstract machine *)

(** The task at work, the circle of tasks, which of them are ready, the registers of the ones
    that wait, the parent of each, and the status its last child left, if it has had one. *)
Record tasks := Tasks {
  t_cur : Z; t_queue : list Z; t_ready : Z -> bool; t_ctx : Z -> user_regs;
  t_parent : Z -> option Z; t_status : Z -> option Z }.

Definition upd {A} (i : Z) (v : A) (f : Z -> A) : Z -> A := fun j => if j =? i then v else f j.

(** The current task waits with the registers [r], the next one that is ready goes on and the
    circle becomes [q]. *)
Definition pass_on (q : list Z) (r : user_regs) (a : tasks) : option (user_regs * tasks) :=
  n ← find (t_ready a) (after (t_cur a) (t_queue a));
  let ctx := upd (t_cur a) (kept (t_cur a) r) (t_ctx a) in
  Some (ctx n, Tasks n q (t_ready a) ctx (t_parent a) (t_status a)).

(** A new task [n] with the registers [r0], at the end of the circle; the current task has
    to wait for it. *)
Definition spawn (n : Z) (r0 : user_regs) (a : tasks) : tasks :=
  let c := t_cur a in
  Tasks c (t_queue a ++ [n]) (upd n true (upd c false (t_ready a))) (upd n r0 (t_ctx a))
    (upd n (Some c) (t_parent a)) (upd n None (t_status a)).

(** The current task is over; its parent [p] has the status and is ready again. *)
Definition finish (p status : Z) (a : tasks) : tasks :=
  Tasks (t_cur a) (t_queue a) (upd p true (upd (t_cur a) false (t_ready a))) (t_ctx a)
    (t_parent a) (upd p (Some (halt_value (u8 status))) (t_status a)).

Definition others (c : Z) (q : list Z) : list Z := filter (fun i => i <> c) q.

(** The lowest number no task has. *)
Definition new_number (a : tasks) : option Z := find (fun i => bool_decide (i ∉ t_queue a)) (seqZ 0 6).

(** Where a new program starts: at its entry point, in user mode, on an empty stack. *)
Definition entry_frame (ip : Z) : iret_t := Iret ip USER_CS STACK_FLAGS USTACK_START USER_DS.

(** The call names the program file [p] of the file system of [k]. *)
Definition names_program (k : kernel) (x : exec_call) (p : Z) : Prop :=
  exists j w t abuf a rest, x_command x = Some (w ++ t :: rest) /\ program_file k j p /\ is_elf k p = true /\
    28 <= inode_length (image k) p <= 0x3b8000 /\ entry_name (image k) (fsys k) j = w /\ Forall word_char w /\
    (t = 32 \/ t = 0 \/ t = 10) /\ (129 <= length (cmd_junk (x_junk x)))%nat /\
    parse_args (x_junk x) (Z.of_nat (length w)) (t =? 10) (w ++ t :: rest) = Some abuf /\ cstring abuf a /\ (length a < 100)%nat.

(** The call names no file of it, or one that is no executable. *)
Definition names_nothing (k : kernel) (x : exec_call) : Prop :=
  exists w t rest, x_command x = Some (w ++ t :: rest) /\ dir_ok (image k) (fsys k) /\ Forall word_char w /\ w <> [] /\
    (t = 32 \/ t = 0 \/ t = 10) /\ (length w < 128)%nat /\ (129 <= length (cmd_junk (x_junk x)))%nat /\
    (lookup_name (image k) (fsys k) w = None \/
     exists j p, program_file k j p /\ entry_name (image k) (fsys k) j = w /\ is_elf k p = false).

(** The steps, with the files of [k0]. *)
Inductive task_step (k0 : kernel) (a : tasks) : event -> option (Z * user_regs) -> tasks -> Prop :=
| timer_step_a r r' a' :
    pass_on (t_queue a) r a = Some (r', a') -> task_step k0 a (Timer r) (Some (t_cur a', r')) a'
| execute_step x r p n r0 r' a' :
    names_program k0 x p -> new_number a = Some n -> r_frame r0 = entry_frame (entry_point k0 p) ->
    pass_on (t_queue a ++ [n]) r (spawn n r0 a) = Some (r', a') ->
    task_step k0 a (Execute x r) (Some (t_cur a', r')) a'
| refuse_step x r :
    new_number a = None \/ x_command x = None \/ names_nothing k0 x -> task_step k0 a (Execute x r) None a
| halt_step status ebp_in r p r' a' :
    2 < t_cur a -> t_parent a (t_cur a) = Some p -> pass_on (others (t_cur a) (t_queue a)) r (finish p status a) = Some (r', a') ->
    task_step k0 a (Halt status ebp_in r) (Some (t_cur a', r')) a'
| restart_step status ebp_in r : t_cur a <= 2 -> task_step k0 a (Halt status ebp_in r) None a
| working_step w : task_step k0 a (Working w) None a.

Inductive task_run (k0 : kernel) : tasks -> list event -> list entry -> tasks -> Prop :=
| run_nil a : task_run k0 a [] [] a
| run_cons a e o a1 es tr a' :
    task_step k0 a e o a1 -> task_run k0 a1 es tr a' -> task_run k0 a (e :: es) (Entry (t_cur a) e o :: tr) a'.

(** ** The invariant of the abstract machine *)

(** The shells never leave; the task at work is ready; each other task has a parent in the
    circle that waits for it alone. *)
Record family (a : tasks) : Prop := {
  fm_cur : t_cur a ∈ t_queue a;
  fm_ready : t_ready a (t_cur a) = true;
  fm_nodup : NoDup (t_queue a);
  fm_range : forall i, i ∈ t_queue a -> 0 <= i < 6;
  fm_shells : forall i, 0 <= i < 3 -> i ∈ t_queue a;
  fm_parent : forall i, i ∈ t_queue a -> 2 < i -> is_Some (t_parent a i);
  fm_waits : forall i p, i ∈ t_queue a -> t_parent a i = Some p -> p ∈ t_queue a /\ t_ready a p = false;
  fm_child : forall i j p, i ∈ t_queue a -> j ∈ t_queue a -> t_parent a i = Some p -> t_parent a j = Some p -> i = j }.

Lemma elem_of_after c i q : i ∈ after c q <-> i ∈ q.
Proof.
  unfold after. assert (forall before, i ∈ after_from c q before <-> i ∈ before \/ i ∈ q) as H.
  { induction q as [|j q IH]; intros before; cbn [after_from]; [rewrite elem_of_nil; tauto|].
    destruct (Z.eqb_spec j c) as [->|Hj]; [elems; rewrite ?elem_of_nil; tauto|]. rewrite IH. elems. rewrite ?elem_of_nil. tauto. }
  rewrite H, elem_of_nil. tauto.
Qed.

Lemma find_ready {A} (f : A -> bool) l i : i ∈ l -> f i = true -> exists n, find f l = Some n.
Proof.
  intros Hi Hf. destruct (find f l) as [n|] eqn:E; [by exists n|]. apply list_elem_of_In in Hi.
  pose proof (find_none f l E i Hi). congruence.
Qed.

Lemma pass_on_inv q r a r' a' :
  pass_on q r a = Some (r', a') ->
  t_cur a' ∈ t_queue a /\ t_ready a (t_cur a') = true /\ r' = upd (t_cur a) (kept (t_cur a) r) (t_ctx a) (t_cur a') /\
  a' = Tasks (t_cur a') q (t_ready a) (upd (t_cur a) (kept (t_cur a) r) (t_ctx a)) (t_parent a) (t_status a).
Proof.
  unfold pass_on. intros E. apply bind_Some in E as (n & Hn & [= <- <-]). cbn [t_cur t_ctx].
  apply find_some in Hn as [Hn Hr]. apply list_elem_of_In, elem_of_after in Hn. done.
Qed.

Lemma new_number_spec a n : new_number a = Some n -> 0 <= n < 6 /\ n ∉ t_queue a.
Proof.
  intros E. apply find_some in E as [Hn H]. apply bool_decide_eq_true in H. split; [|done].
  apply list_elem_of_In, elem_of_seqZ in Hn. lia.
Qed.

Lemma elem_of_others c i q : i ∈ others c q <-> i <> c /\ i ∈ q.
Proof. unfold others. by rewrite list_elem_of_filter. Qed.

Lemma upd_same {A} i (v : A) f : upd i v f i = v.
Proof. unfold upd. by rewrite Z.eqb_refl. Qed.
Lemma upd_other {A} i j (v : A) f : j <> i -> upd i v f j = f j.
Proof. intros. unfold upd. by bfalse (j =? i). Qed.

Lemma family_spawn n r0 a :
  family a -> new_number a = Some n ->
  let a1 := spawn n r0 a in
  NoDup (t_queue a1) /\ (forall i, i ∈ t_queue a1 -> 0 <= i < 6) /\ (forall i, 0 <= i < 3 -> i ∈ t_queue a1) /\
  (forall i, i ∈ t_queue a1 -> 2 < i -> is_Some (t_parent a1 i)) /\
  (forall i p, i ∈ t_queue a1 -> t_parent a1 i = Some p -> p ∈ t_queue a1 /\ t_ready a1 p = false) /\
  (forall i j p, i ∈ t_queue a1 -> j ∈ t_queue a1 -> t_parent a1 i = Some p -> t_parent a1 j = Some p -> i = j).
Proof.
  intros [Hc Hr Hnd Hrg Hsh Hpar Hw Hch] [Hn Hnq]%new_number_spec. cbn [spawn t_queue t_parent t_ready].
  assert (forall i, i ∈ t_queue a ++ [n] <-> i = n \/ i ∈ t_queue a) as Hin by (intros; elems; rewrite ?elem_of_nil; tauto).
  assert (forall i, i ∈ t_queue a -> i <> n) as Hne by (intros i Hi ->; done).
  assert (forall i, i ∈ t_queue a -> t_parent a i <> Some (t_cur a)) as Hno.
  { intros i Hi E. destruct (Hw i _ Hi E) as [_ E']. congruence. }
  split_and!.
  - apply NoDup_app. split_and!; [done | | apply NoDup_singleton]. intros i Hi ->%list_elem_of_singleton. done.
  - intros i [->|Hi]%Hin; auto.
  - intros i Hi. apply Hin. auto.
  - intros i [->|Hi]%Hin H2; [rewrite upd_same; eauto | rewrite upd_other by auto; auto].
  - intros i p [->|Hi]%Hin.
    + rewrite upd_same. intros [= <-]. split; [apply Hin; auto|]. rewrite upd_other by auto. apply upd_same.
    + rewrite upd_other by auto. intros E. destruct (Hw i p Hi E) as [Hp Ep]. split; [apply Hin; auto|].
      rewrite upd_other by auto. unfold upd. by destruct (p =? t_cur a).
  - intros i j p [->|Hi]%Hin [->|Hj]%Hin; rewrite ?upd_same, ?(upd_other n) by auto; try done.
    + intros [= <-] E. by destruct (Hno j Hj).
    + intros E [= <-]. by destruct (Hno i Hi).
    + by apply Hch.
Qed.

Lemma family_finish p status a :
  family a -> 2 < t_cur a -> t_parent a (t_cur a) = Some p ->
  let a1 := finish p status a in let q := others (t_cur a) (t_queue a) in
  NoDup q /\ (forall i, i ∈ q -> 0 <= i < 6) /\ (forall i, 0 <= i < 3 -> i ∈ q) /\
  (forall i, i ∈ q -> 2 < i -> is_Some (t_parent a1 i)) /\
  (forall i p, i ∈ q -> t_parent a1 i = Some p -> p ∈ q /\ t_ready a1 p = false) /\
  (forall i j p, i ∈ q -> j ∈ q -> t_parent a1 i = Some p -> t_parent a1 j = Some p -> i = j).
Proof.
  intros [Hc Hr Hnd Hrg Hsh Hpar Hw Hch] H2 Hp. cbn [finish t_queue t_parent t_ready]. split_and!.
  - by apply NoDup_filter.
  - intros i [_ Hi]%elem_of_others. auto.
  - intros i Hi. apply elem_of_others. split; [lia | auto].
  - intros i [_ Hi]%elem_of_others. auto.
  - intros i p' [Hic Hi]%elem_of_others E. destruct (Hw i p' Hi E) as [Hp' Ep'].
    assert (p' <> t_cur a) as Hne by (intros ->; congruence). split; [by apply elem_of_others|].
    rewrite upd_other; [by rewrite upd_other|]. intros ->. apply Hic. by apply (Hch i (t_cur a) p).
  - intros i j p' [_ Hi]%elem_of_others [_ Hj]%elem_of_others. by apply Hch.
Qed.

(** Every step keeps it. *)
Lemma family_step k0 a e o a' :
  family a -> task_step k0 a e o a' -> family a'.
Proof.
  intros Hf Hs. destruct Hs as [r r' a' Hp | x r p n r0 r' a' _ Hn _ Hp | | st eb r p r' a' H2 Hpar Hp | |]; [| |done| |done|done];
    apply pass_on_inv in Hp as (Hin & Hready & _ & ->).
  - destruct Hf. by constructor.
  - destruct (family_spawn n r0 a Hf Hn) as (? & ? & ? & ? & ? & ?). by constructor.
  - destruct (family_finish p st a Hf H2 Hpar) as (? & ? & ? & ? & ? & ?). constructor; try done.
    cbn [t_cur t_queue]. apply elem_of_others. split; [|done]. intros E. rewrite E in Hready. cbn [finish t_ready] in Hready.
    destruct (fm_waits _ Hf _ _ (fm_cur _ Hf) Hpar) as [_ Hp]. pose proof (fm_ready _ Hf).
    rewrite upd_other in Hready by congruence. by rewrite upd_same in Hready.
Qed.

(** ** The switch of tasks, once more

    Unlike in [timer_step], the interrupt comes from a kernel that is about to leave a task:
    the task may be finished, and [curr_process] and [desc] may be the ones of another. *)

Lemma others_notin c l : c ∉ l -> others c l = l.
Proof.
  induction l as [|i l IH]; [done|]. intros [Hi Hl]%not_elem_of_cons. unfold others. rewrite filter_cons_True by congruence.
  f_equal. by apply IH.
Qed.

Lemma others_split c l1 l2 : NoDup (l1 ++ c :: l2) -> others c (l1 ++ c :: l2) = l1 ++ l2.
Proof.
  intros (_ & H1 & (H2 & _)%NoDup_cons)%NoDup_app. unfold others. rewrite filter_app, filter_cons_False by tauto.
  f_equal; apply others_notin; [|done]. intros Hi. by apply (H1 c Hi); left.
Qed.

Section Switch.
Context (L : layout) (ret_addr pit_ret locals : Z).
Hypothesis Hret : u32_range_of pit_ret.

(** What the switch from [c] to [n] does; [ctx] are the registers of the tasks of the circle. *)
Record switched (k k' : kernel) (q : list Z) (c n : Z) (ctx : Z -> user_regs) : Prop := {
  sw_ring : ring (sc k') (if bool_decide (running (nd (sc k) (Task c)) = TASK_FINISHED) then others c q else q);
  sw_node : curr_node (sc k') = Some (Task n);
  sw_running : forall x, running (nd (sc k') x) = running (nd (sc k) x);
  sw_procs : procs_ok L (pr k') q;
  sw_curr : curr_process (pr k') = Some n /\ desc (pr k') = Some n /\ esp0 (pr k') = get_kstack_address n /\ cr3 (pg (pr k')) = pd_addr L n;
  sw_pids : pid_arr (pr k') = pid_arr (pr k);
  sw_blocks : exists e b, forall i, (pcbs (pr k')).[i] = if i =? c then with_esp_ebp e b <$> (pcbs (pr k)).[c] else (pcbs (pr k)).[i];
  sw_saved : forall i b, i ∈ q -> i <> n -> (pcbs (pr k')).[i] = Some b -> saved pit_ret (kmem (pr k')) i (ebp b) (ctx i);
  sw_files : fsys k' = fsys k /\ image k' = image k }.

Lemma pit_handler_pids regs e b s p s' p' e' b' :
  pit_handler L regs e b s p = Some (s', p', e', b') -> pid_arr p' = pid_arr p.
Proof.
  assert (forall q p p', reset_curr_process L q p = Some p' -> pid_arr p' = pid_arr p) as Hr.
  { intros q p1 p2 E. unfold reset_curr_process in E. cbv zeta in E. unbind. done. }
  assert (forall q g p p', upd_pcb q g p = Some p' -> pid_arr p' = pid_arr p) as Hu.
  { intros q g p1 p2 E. unfold upd_pcb in E. by unbind. }
  unfold pit_handler. cbv zeta. intros E.
  unbind; repeat match goal with
    | H : reset_curr_process _ _ _ = _ |- _ => apply Hr in H | H : upd_pcb _ _ _ = _ |- _ => apply Hu in H end; cbn in *; congruence.
Qed.

(** The stack of [tss.esp0] matters in user mode only. *)
Lemma gate_frame_base f m sp0 sp1 : user_mode f = false \/ sp0 = sp1 -> gate_frame f m sp0 = gate_frame f m sp1.
Proof. intros [H| ->]; [|done]. unfold gate_frame. by rewrite H. Qed.

(** A finished task is not a candidate, and would not be chosen as one. *)
Lemma finished_next s l1 c l2 n :
  find (fun i => is_running s (Task i)) (l2 ++ l1 ++ [c]) = Some n -> next_pid s (candidates s l1 c l2) = Some n.
Proof.
  intros Hn. unfold candidates, next_pid. destruct (bool_decide _) eqn:Ef; [|exact Hn]. apply bool_decide_eq_true in Ef.
  rewrite app_nil_r. rewrite app_assoc, find_app in Hn. destruct (find _ (l2 ++ l1)); [done|]. cbn [find] in Hn.
  unfold is_running in Hn. rewrite bool_decide_eq_false_2 in Hn by (rewrite Ef; discriminate). done.
Qed.

(** With the registers of [c] saved, those of all the tasks are. *)
Lemma suspended k c (q : list Z) r ctx ts p' e :
  (forall i, i ∈ q -> 0 <= i < 6) -> c ∈ q ->
  (forall i b, i ∈ q -> (pcbs (pr k)).[i] = Some b -> kernel_stack b = get_kstack_address i) ->
  (forall i b, i ∈ q -> i <> c -> (pcbs (pr k)).[i] = Some b -> saved pit_ret (kmem (pr k)) i (ebp b) (ctx i)) ->
  (forall x, ~ in_stack c x -> ts.1 x = kmem (pr k) x) -> saved pit_ret ts.1 c ts.2 (kept c r) ->
  (forall i, (pcbs p').[i] = if i =? c then with_esp_ebp e ts.2 <$> (pcbs (pr k)).[c] else (pcbs (pr k)).[i]) ->
  forall i b, i ∈ q -> (pcbs p').[i] = Some b ->
    kernel_stack b = get_kstack_address i /\ saved pit_ret ts.1 i (ebp b) (upd c (kept c r) ctx i).
Proof.
  intros Hrange Hcq Hstacks Hsaved Hout Hsv Hpcbs i b Hq Hb. rewrite Hpcbs in Hb. destruct (Z.eqb_spec i c) as [->|Hic].
  - destruct ((pcbs (pr k)).[c]) as [b0|] eqn:Eb; [|done]. cbn in Hb. simplify_eq. rewrite upd_same. split; [exact (Hstacks c b0 Hq Eb) | exact Hsv].
  - rewrite upd_other by done. split; [by apply Hstacks|]. apply (saved_ext pit_ret (kmem (pr k))); [auto | |by apply Hsaved].
    intros x Hx. apply Hout. apply (stacks_apart i c x); auto.
Qed.

Lemma switch_spec k q c n r ctx :
  ring (sc k) q -> procs_ok L (pr k) q -> curr_node (sc k) = Some (Task c) -> c ∈ q -> interruptible c r ->
  user_mode (r_frame r) = false \/ esp0 (pr k) = get_kstack_address c ->
  (forall i b, i ∈ q -> (pcbs (pr k)).[i] = Some b -> kernel_stack b = get_kstack_address i) ->
  (forall i b, i ∈ q -> i <> c -> (pcbs (pr k)).[i] = Some b -> saved pit_ret (kmem (pr k)) i (ebp b) (ctx i)) ->
  find (fun i => is_running (sc k) (Task i)) (after c q) = Some n ->
  exists k', switch_tasks L ret_addr pit_ret locals r k = Some (Some (n, upd c (kept c r) ctx n), k') /\
    switched k k' q c n (upd c (kept c r) ctx).
Proof.
  intros Hring Hp Hnode Hcq Hi Hesp Hstacks Hsaved Hn.
  assert (forall i, i ∈ q -> 0 <= i < 6) as Hrange.
  { pose proof (ring_tasks _ _ Hring) as H. rewrite Forall_forall in H. intros i Hq. by destruct (H i Hq). }
  pose proof (timer_stack_saved pit_ret c r (kmem (pr k)) (Hrange c Hcq) Hi Hret) as Hts. cbv zeta in Hts.
  pose proof (gate_frame_sp r (kmem (pr k)) (get_kstack_address c) (proj1 Hi)
    (proj1 (proj2 (interruptible_frame c r (Hrange c Hcq) Hi)))) as EF.
  remember (timer_stack pit_ret r (kmem (pr k)) (get_kstack_address c)) as ts eqn:Ets. destruct Hts as [Hout Hsv].
  assert (exists l1 l2, q = l1 ++ c :: l2) as (l1 & l2 & Eq) by (by apply list_elem_of_split). subst q.
  pose proof (ring_nodup _ _ Hring) as Hnd. rewrite after_split in Hn by done.
  pose proof (finished_next _ _ _ _ _ Hn) as Hn'.
  destruct (pit_handler_spec L (frame_addr (r_frame r) (get_kstack_address c)) (u32 (ts.2 - locals)) ts.2 (sc k) (set_kmem ts.1 (pr k)) l1 c l2 n)
    as (s' & p' & bn & Eh & Hr' & Hcn & Hrun & _ & Hp' & Hcp & Hd & Hbn & He0 & Hcr & Hkm & Hpcbs).
  { done. }
  { destruct Hp. by constructor. }
  { done. }
  { done. }
  cbn [kmem set_kmem pcbs] in Hkm, Hpcbs. pose proof (pit_handler_pids _ _ _ _ _ _ _ _ _ Eh) as Hpids. cbn [pid_arr set_kmem] in Hpids.
  pose proof (suspended k c _ r ctx ts p' _ Hrange Hcq Hstacks Hsaved Hout Hsv Hpcbs) as Hall.
  assert (n ∈ l1 ++ c :: l2) as Hnq by (apply next_pid_elem in Hn as [Hn _]; revert Hn; elems; rewrite ?elem_of_nil; tauto).
  destruct (Hall n bn Hnq Hbn) as [HK Hsn]. destruct (resume_saved ret_addr pit_ret ts.1 n (ebp bn) _ (Hrange n Hnq) Hsn) as (Eret & Eun & Hout2).
  destruct (stack_bounds n (Hrange n Hnq)) as [B1 B2]. pose proof (Hrange n Hnq). pose proof (sv_low _ _ _ _ _ Hsn). pose proof (sv_high _ _ _ _ _ Hsn).
  unfold switch_tasks, pit_int_linkage. rewrite (gate_frame_base _ _ _ _ Hesp). cbn [r_ebx set_ebx r_ebp r_frame].
  fold (set_ebx (gate_frame (r_frame r) (kmem (pr k)) (get_kstack_address c)).2 r).
  fold (timer_stack pit_ret r (kmem (pr k)) (get_kstack_address c)). rewrite <- Ets, EF, Eh, some_bind, Hkm.
  unfold pop. addresses. rewrite Eret, Z.eqb_refl. cbn [negb]. replace (ebp bn + 4 + 4 + 4) with (ebp bn + 12) by lia.
  rewrite Eun, some_bind. cbn [pr set_screen set_sc set_pr set_kmem curr_process]. rewrite Hcp, some_bind. eexists. split; [done|].
  split; cbn [pr set_screen set_sc set_pr set_kmem sc curr_process desc pcbs esp0 kmem pg pid_arr fsys image]; try done.
  - unfold remaining in Hr'. by rewrite others_split.
  - destruct Hp'. by constructor.
  - split_and!; congruence.
  - by eexists _, _.
  - intros i b Hq Hin Hb. apply (saved_ext pit_ret ts.1); [auto | | by apply Hall].
    intros x Hx. apply Hout2. apply (stacks_apart i n x); auto.
Qed.

End Switch.

(** ** The kernel stands for the machine *)

(** Code of the kernel in the middle of a system call of process [c]. *)
Definition in_kernel (c : Z) (r : user_regs) : Prop := interruptible c r /\ user_mode (r_frame r) = false.

Definition block_ok (a : tasks) (i : Z) (b : pcb) : Prop :=
  kernel_stack b = get_kstack_address i /\ parent b = t_parent a i /\ fds_ok (files b) /\
  forall v, t_status a i = Some v -> ret_status b = v.

Section Represents.
Context (ops : op_table -> file_ops) `{!QuietOps ops} (L : layout) (ret_addr pit_ret locals : Z) (k0 : kernel).
Hypothesis Hret : u32_range_of pit_ret.

Record represents (k : kernel) (a : tasks) : Prop := {
  rp_system : system L k (t_queue a) (t_cur a);
  rp_free : forall i, 0 <= i < 6 -> i ∉ t_queue a -> (pid_arr (pr k)).[i] = Some CLEAR;
  rp_desc : desc (pr k) = Some (t_cur a);
  rp_esp0 : esp0 (pr k) = get_kstack_address (t_cur a);
  rp_cr3 : cr3 (pg (pr k)) = pd_addr L (t_cur a);
  rp_ready : forall i, i ∈ t_queue a -> running (nd (sc k) (Task i)) = if t_ready a i then TASK_RUNNING else TASK_INACTIVE;
  rp_blocks : forall i b, i ∈ t_queue a -> (pcbs (pr k)).[i] = Some b -> block_ok a i b;
  rp_saved : forall i b, i ∈ t_queue a -> i <> t_cur a -> (pcbs (pr k)).[i] = Some b ->
    saved pit_ret (kmem (pr k)) i (ebp b) (t_ctx a i);
  rp_files : fsys k = fsys k0 /\ image k = image k0;
  rp_family : family a }.

(** A frame on the stack of process [c]. *)
Definition frame_in (c x : Z) : Prop := stack_low c <= x /\ x + 16 <= get_kstack_address c.

(** What the processes may do, the kernel being what it is: the registers are those of code that
    can be interrupted; [execute] finds a program or refuses; the [halt] of a shell finds the frame
    of the system call on its stack; work keeps the open files and the page tables in order. *)
Definition enabled (a : tasks) (e : event) : Prop :=
  match e with
  | Timer r => interruptible (t_cur a) r
  | Execute x r =>
      new_number a = None \/ x_command x = None \/ names_nothing k0 x \/
      (exists p, names_program k0 x p) /\ in_kernel (t_cur a) r
  | Halt _ ebp_in r => 2 < t_cur a /\ in_kernel (t_cur a) r \/ t_cur a <= 2 /\ frame_in (t_cur a) (u32 (ebp_in + 4 * JUMP_BACK_TO_IRET))
  | Working w =>
      (exists b, (pcbs (pr w)).[t_cur a] = Some b /\ length (files b) = 8%nat /\ fds_ok (files b)) /\
      paging_ok L (pg (pr w)) /\ cr3 (pg (pr w)) = pd_addr L (t_cur a)
  end.

Inductive allowed : tasks -> list event -> Prop :=
| allowed_nil a : allowed a []
| allowed_cons a e es :
    enabled a e -> (forall o a', task_step k0 a e o a' -> allowed a' es) -> allowed a (e :: es).

(** The kernel stands for [a1], about to switch to the next task and to go on with the tasks [q']. *)
Record leaving (k1 : kernel) (q' : list Z) (a1 : tasks) : Prop := {
  lv_ring : ring (sc k1) (t_queue a1);
  lv_procs : procs_ok L (pr k1) (t_queue a1);
  lv_node : curr_node (sc k1) = Some (Task (t_cur a1));
  lv_cur : t_cur a1 ∈ t_queue a1;
  lv_queue : q' = t_queue a1 \/
    q' = others (t_cur a1) (t_queue a1) /\ running (nd (sc k1) (Task (t_cur a1))) = TASK_FINISHED /\ t_ready a1 (t_cur a1) = false;
  lv_size : length (pid_arr (pr k1)) = 6%nat;
  lv_pids : forall i, 0 <= i < 6 -> (pid_arr (pr k1)).[i] = Some (if decide (i ∈ q') then ON else CLEAR);
  lv_arrays : forall i b, (pcbs (pr k1)).[i] = Some b -> length (files b) = 8%nat /\ length (command b) = 33%nat /\ length (args b) = 100%nat;
  lv_stacks : forall i b, i ∈ t_queue a1 -> (pcbs (pr k1)).[i] = Some b -> kernel_stack b = get_kstack_address i;
  lv_saved : forall i b, i ∈ t_queue a1 -> i <> t_cur a1 -> (pcbs (pr k1)).[i] = Some b -> saved pit_ret (kmem (pr k1)) i (ebp b) (t_ctx a1 i);
  lv_ready : forall i, i ∈ q' -> running (nd (sc k1) (Task i)) = if t_ready a1 i then TASK_RUNNING else TASK_INACTIVE;
  lv_blocks : forall i b, i ∈ q' -> (pcbs (pr k1)).[i] = Some b -> block_ok a1 i b;
  lv_files : fsys k1 = fsys k0 /\ image k1 = image k0 }.

Lemma not_finished (b : bool) : (if b then TASK_RUNNING else TASK_INACTIVE) <> TASK_FINISHED.
Proof. by destruct b. Qed.

Lemma leaving_queue k1 q' a1 : leaving k1 q' a1 ->
  q' = if bool_decide (running (nd (sc k1) (Task (t_cur a1))) = TASK_FINISHED) then others (t_cur a1) (t_queue a1) else t_queue a1.
Proof.
  intros H. destruct (lv_queue _ _ _ H) as [-> | (-> & Hr & _)]; [|by rewrite bool_decide_eq_true_2].
  rewrite bool_decide_eq_false_2; [done|]. rewrite (lv_ready _ _ _ H) by apply (lv_cur _ _ _ H). apply not_finished.
Qed.

Lemma find_running k1 q' a1 : leaving k1 q' a1 ->
  find (fun i => is_running (sc k1) (Task i)) (after (t_cur a1) (t_queue a1)) = find (t_ready a1) (after (t_cur a1) (t_queue a1)).
Proof.
  intros H. apply find_ext_in. intros i Hi%elem_of_after. unfold is_running.
  assert (i ∈ q' \/ running (nd (sc k1) (Task i)) = TASK_FINISHED /\ t_ready a1 i = false) as [Hq | [-> ->]].
  { destruct (lv_queue _ _ _ H) as [-> | (-> & Hr & Hf)]; [by left|]. rewrite elem_of_others.
    destruct (decide (i = t_cur a1)) as [-> | Hne]; auto. }
  - rewrite (lv_ready _ _ _ H) by done. by destruct (t_ready a1 i).
  - done.
Qed.

(** After the switch, with [a'] what the machine has become. *)
Lemma represents_switched k1 k' q' a1 r r' a' :
  leaving k1 q' a1 -> pass_on q' r a1 = Some (r', a') -> family a' ->
  switched L pit_ret k1 k' (t_queue a1) (t_cur a1) (t_cur a') (upd (t_cur a1) (kept (t_cur a1) r) (t_ctx a1)) ->
  represents k' a'.
Proof.
  intros Hlv Hp Hfam [Hring Hnode Hrun Hprocs (Hcurr & Hdesc & Hesp0 & Hcr3) Hpids (e & b & Hblocks) Hsaved [Hf Hi]].
  pose proof (leaving_queue _ _ _ Hlv) as Hq. rewrite <- Hq in Hring. pose proof Hp as (Hin & _ & _ & Ea)%pass_on_inv.
  pose proof Hlv as [_ _ _ _ _ Hlen Harr Hsz _ _ Hready Hblk [Hf1 Hi1]].
  assert (t_queue a' = q') as Eq by (by rewrite Ea). assert (forall i, i ∈ q' -> i ∈ t_queue a1) as Hsub.
  { intros i. rewrite Hq. destruct (bool_decide _); [|done]. by intros [_ ?]%elem_of_others. }
  assert (forall i b', (pcbs (pr k')).[i] = Some b' -> exists b0, (pcbs (pr k1)).[i] = Some b0 /\
    (b' = b0 \/ b' = with_esp_ebp e b b0)) as Hget.
  { intros i b' E. rewrite Hblocks in E. destruct (Z.eqb_spec i (t_cur a1)) as [->|]; [|by eauto].
    apply fmap_Some in E as (b0 & E & ->). eauto. }
  split; rewrite ?Eq; try done.
  - split; rewrite ?Hpids; try done.
    + rewrite <- Eq. apply fm_cur, Hfam.
    + destruct Hprocs as [H1 H2 H3]. split; try done. rewrite Forall_forall in *. auto.
    + intros i Hi3. rewrite Harr by lia. rewrite decide_True; [done|]. rewrite <- Eq. by apply fm_shells.
    + intros i Hiq. rewrite Harr by (rewrite <- Eq in Hiq; by apply (fm_range a')). by rewrite decide_True.
    + intros i b' (b0 & E0 & Hb')%Hget. pose proof (Hsz i b0 E0). by destruct Hb' as [-> | ->].
  - intros i Hi6 Hiq. rewrite Hpids, Harr by done. by rewrite decide_False.
  - intros i Hiq. rewrite Hrun, Hready by done. by rewrite Ea.
  - intros i b' Hiq (b0 & E0 & Hb')%Hget. pose proof (Hblk i b0 Hiq E0) as H. unfold block_ok in *. rewrite Ea. cbn [t_parent t_status].
    by destruct Hb' as [-> | ->].
  - intros i b' Hiq Hic E. rewrite Ea. cbn [t_ctx]. by apply Hsaved; auto.
  - split; congruence.
Qed.

(** The switch of a kernel that is about to. *)
Lemma leave_simulated k1 q' a1 r r' a' :
  leaving k1 q' a1 -> interruptible (t_cur a1) r -> user_mode (r_frame r) = false \/ esp0 (pr k1) = get_kstack_address (t_cur a1) ->
  pass_on q' r a1 = Some (r', a') -> family a' ->
  exists k', switch_tasks L ret_addr pit_ret locals r k1 = Some (Some (t_cur a', r'), k') /\ represents k' a'.
Proof.
  intros H Hi Hmode Hp Hfam. pose proof Hp as Hp'. unfold pass_on in Hp'. apply bind_Some in Hp' as (n & Hn & E). injection E as E1 E2.
  destruct (switch_spec L ret_addr pit_ret locals Hret k1 (t_queue a1) (t_cur a1) n r (t_ctx a1)) as (k' & E & Hsw);
    try (destruct H; done); [by rewrite (find_running _ _ _ H)|].
  exists k'. rewrite E, <- E1, <- E2. split; [done|]. rewrite E2. eapply represents_switched; try done. by rewrite <- E2.
Qed.

Lemma pids_array k a : represents k a ->
  forall i, 0 <= i < 6 -> (pid_arr (pr k)).[i] = Some (if decide (i ∈ t_queue a) then ON else CLEAR).
Proof.
  intros H i Hi. destruct (decide _) as [Hq|Hq]; [by apply (sy_taken _ _ _ _ (rp_system _ _ H)) | by apply (rp_free _ _ H)].
Qed.

Lemma pids_free k a : represents k a -> free_pid_idx (pr k) = Some (default ERROR (new_number a)).
Proof.
  intros H. unfold free_pid_idx. rewrite free_pid_spec by (try rewrite (sy_pids _ _ _ _ (rp_system _ _ H)); unfold PID_ARR_SIZE; lia).
  change (Z.of_nat (Z.to_nat PID_ARR_SIZE)) with 6. do 2 f_equal. unfold new_number. apply find_ext_in.
  intros i Hi%elem_of_seqZ. rewrite (pids_array k a H) by lia. destruct (decide _) as [Hq|Hq].
  - rewrite !bool_decide_eq_false_2; [done | tauto | discriminate].
  - by rewrite !bool_decide_eq_true_2.
Qed.

(** The machine always has a task to go on with. *)
Lemma pass_on_total q r a i : i ∈ t_queue a -> t_ready a i = true -> exists r' a', pass_on q r a = Some (r', a').
Proof.
  intros Hi Hr. unfold pass_on. destruct (find_ready (t_ready a) (after (t_cur a) (t_queue a)) i) as (n & ->); [by apply elem_of_after | done|].
  rewrite some_bind. by eexists _, _.
Qed.

Lemma timer_simulated k a r :
  represents k a -> interruptible (t_cur a) r ->
  exists r' a' k', pass_on (t_queue a) r a = Some (r', a') /\
    switch_tasks L ret_addr pit_ret locals r k = Some (Some (t_cur a', r'), k') /\ represents k' a'.
Proof.
  intros H Hi. pose proof H as [[] ? ? ? ? ? Hblocks ? ? Hfam].
  destruct (pass_on_total (t_queue a) r a (t_cur a) (fm_cur _ Hfam) (fm_ready _ Hfam)) as (r' & a' & Hp). exists r', a'.
  destruct (leave_simulated k (t_queue a) a r r' a') as (k' & E & Hk'); try done; [|by right | |by exists k'].
  - split; try done; [by left | by apply pids_array |]. intros i b Hq Hb. by destruct (Hblocks i b Hq Hb).
  - apply (family_step k0 a (Timer r) (Some (t_cur a', r'))); [done | by constructor].
Qed.

(** ** A program is started *)

Lemma names_program_ext k x p : fsys k = fsys k0 -> image k = image k0 -> names_program k0 x p -> names_program k x p.
Proof.
  intros Ef Ei (j & w & t & abuf & a & rest & H1 & Hpf & He & H). destruct (program_file_ext k0 k j p Ei Ef Hpf) as [Hpf' Ee].
  exists j, w, t, abuf, a, rest. rewrite Ee, Ei, Ef. done.
Qed.

Lemma fds_ok_fresh f : length f = 8%nat -> fds_ok (fresh_files f).
Proof.
  intros Hl i d E H2 Hu. pose proof (zget_Some_range _ _ _ E) as Hr.
  assert (length (fresh_files f) = 8%nat) as H8 by (unfold fresh_files, clear_flags; cbn [length]; rewrite length_drop, length_map; lia).
  pose proof (fresh_files_free f i ltac:(lia) Hl) as Hfree. unfold free_slot in Hfree. rewrite E, Hu in Hfree. done.
Qed.

(** The blocks of the tasks after the start of [n]. *)
Lemma started_blocks k k1 q c n p w a e b :
  started L pit_ret k k1 q c n p w a e b -> n ∉ q -> forall i b1, i ∈ q ++ [n] -> (pcbs (pr k1)).[i] = Some b1 ->
  i = n \/ i <> n /\ i ∈ q /\ exists b0, (pcbs (pr k)).[i] = Some b0 /\ (b1 = b0 \/ i = c /\ b1 = with_esp_ebp e b (with_child (Some n) b0)).
Proof.
  intros Hst Hn i b1 Hi E. destruct (decide (i = n)) as [|Hin]; [by left|]. right. split; [done|].
  split; [revert Hi; elems; rewrite ?elem_of_nil; tauto|].
  destruct (decide (i = c)) as [->|Hic].
  - destruct (st_parent _ _ _ _ _ _ _ _ _ _ _ _ Hst) as (b0 & b' & E0 & E' & ->). exists b0. split; [done|]. right. split; [done|]. congruence.
  - rewrite (st_others _ _ _ _ _ _ _ _ _ _ _ _ Hst) in E by done. exists b1. auto.
Qed.

(** The block and the stack of [n]. *)
Lemma started_child k k1 q c n p w a e b :
  started L pit_ret k k1 q c n p w a e b -> 0 <= n < 6 -> u32_range_of (entry_point k p) ->
  exists b1, (pcbs (pr k1)).[n] = Some b1 /\ pid b1 = n /\ kernel_stack b1 = get_kstack_address n /\ parent b1 = Some c /\
    (length (files b1) = 8%nat /\ length (command b1) = 33%nat /\ length (args b1) = 100%nat) /\ fds_ok (files b1) /\
    (exists r0, saved pit_ret (kmem (pr k1)) n (ebp b1) r0 /\ r_frame r0 = entry_frame (entry_point k p)) /\
    forall x, ~ in_stack n x -> kmem (pr k1) x = kmem (pr k) x.
Proof.
  intros Hst Hn Hip. destruct (st_block _ _ _ _ _ _ _ _ _ _ _ _ Hst) as (b1 & E1 & Hpid & Hpar & _ & Hptr & Hus & HK & _ & _ & _ & (f & Hf & Hlf) & _).
  destruct (st_made _ _ _ _ _ _ _ _ _ _ _ _ Hst) as (b2 & E2 & Hfab & Hl1 & Hl2). assert (b2 = b1) as -> by congruence.
  pose proof (fabricated_saved pit_ret n b1 (kmem (pr k)) Hn HK Hret) as H. cbv zeta in H. rewrite <- Hfab in H. cbn [fst snd] in H.
  destruct H as (Hsv & Hfr & Hout); [by rewrite Hptr | rewrite Hus; unfold u32_range_of, USTACK_START; lia|].
  exists b1. split_and!; try done.
  - rewrite Hf. unfold fresh_files. cbn [length]. rewrite length_drop, length_map. lia.
  - rewrite Hf. by apply fds_ok_fresh.
  - eexists. split; [exact Hsv|]. rewrite Hfr, Hptr, Hus. done.
Qed.

Lemma started_procs k k1 q c n p w al e b :
  system L k q c -> started L pit_ret k k1 q c n p w al e b -> procs_ok L (pr k1) (q ++ [n]).
Proof.
  intros Hsys Hst. split.
  - rewrite (st_count _ _ _ _ _ _ _ _ _ _ _ _ Hst). apply (sy_procs _ _ _ _ Hsys).
  - apply Forall_forall. intros i Hi. destruct (decide (i = n)) as [->|Hne].
    { destruct (st_block _ _ _ _ _ _ _ _ _ _ _ _ Hst) as (b1 & E1 & Hpid & _). eauto. }
    assert (i ∈ q) as Hq by (revert Hi; elems; rewrite ?elem_of_nil; tauto).
    destruct (system_member _ _ _ _ i Hsys Hq) as (_ & b0 & E0 & Hp0). destruct (decide (i = c)) as [->|Hic].
    + destruct (st_parent _ _ _ _ _ _ _ _ _ _ _ _ Hst) as (b2 & b3 & E2 & E3 & ->). eexists. split; [done|]. cbn. congruence.
    + rewrite (st_others _ _ _ _ _ _ _ _ _ _ _ _ Hst) by done. eauto.
  - apply (st_paging _ _ _ _ _ _ _ _ _ _ _ _ Hst).
Qed.

Lemma started_arrays k k1 q c n p w al e b :
  system L k q c -> started L pit_ret k k1 q c n p w al e b -> 0 <= n < 6 -> u32_range_of (entry_point k p) ->
  forall i b, (pcbs (pr k1)).[i] = Some b -> length (files b) = 8%nat /\ length (command b) = 33%nat /\ length (args b) = 100%nat.
Proof.
  intros Hsys Hst Hn Hip i b' E. destruct (decide (i = n)) as [->|Hne].
  { destruct (started_child _ _ _ _ _ _ _ _ _ _ Hst Hn Hip) as (b1 & E1 & _ & _ & _ & Hsz & _). congruence. }
  destruct (decide (i = c)) as [->|Hic].
  - destruct (st_parent _ _ _ _ _ _ _ _ _ _ _ _ Hst) as (b2 & b3 & E2 & E3 & ->). rewrite E3 in E. injection E as <-.
    cbn. apply (sy_blocks _ _ _ _ Hsys _ _ E2).
  - rewrite (st_others _ _ _ _ _ _ _ _ _ _ _ _ Hst) in E by done. apply (sy_blocks _ _ _ _ Hsys _ _ E).
Qed.

Lemma started_leaving k k1 a n p w al e b :
  represents k a -> new_number a = Some n -> u32_range_of (entry_point k p) ->
  started L pit_ret k k1 (t_queue a) (t_cur a) n p w al e b ->
  exists r0, r_frame r0 = entry_frame (entry_point k p) /\ leaving k1 (t_queue a ++ [n]) (spawn n r0 a).
Proof.
  intros H Hnew Hip Hst. pose proof H as [Hsys Hfree Hdesc Hesp0 Hcr3 Hready Hblocks Hsaved Hfiles Hfam].
  destruct (new_number_spec a n Hnew) as [Hn Hnq]. pose proof (fm_cur _ Hfam) as Hc.
  assert (t_cur a <> n) as Hcn by (intros <-; done). pose proof (started_blocks _ _ _ _ _ _ _ _ _ _ Hst Hnq) as Hbl.
  destruct (started_child _ _ _ _ _ _ _ _ _ _ Hst Hn Hip) as (b1 & E1 & Hpid & HK & Hpar & _ & Hfds & (r0 & Hsv & Hfr) & Hout).
  pose proof (st_pids _ _ _ _ _ _ _ _ _ _ _ _ Hst) as Hp.
  assert (forall i, i ∈ t_queue a ++ [n] <-> i = n \/ i ∈ t_queue a) as Hin by (intros; elems; rewrite ?elem_of_nil; tauto).
  exists r0. split; [done|]. split; cbn [spawn t_queue t_cur t_ready t_ctx]; try (by destruct Hst; auto).
  - by eapply started_procs.
  - apply Hin. auto.
  - rewrite (zset_length _ _ _ _ Hp). apply (sy_pids _ _ _ _ Hsys).
  - intros i Hi. rewrite (zget_zset _ _ _ _ _ Hp), (pids_array k a H) by done. destruct (Z.eqb_spec i n) as [->|Hne].
    + rewrite decide_True; [done|]. apply Hin. auto.
    + f_equal. apply decide_ext. rewrite Hin. tauto.
  - by eapply started_arrays.
  - intros i b' Hi E. destruct (Hbl i b' Hi E) as [-> | (Hne & Hq & b0 & E0 & Hb)]; [congruence|].
    destruct (Hblocks i b0 Hq E0) as (HK0 & _). by destruct Hb as [-> | [_ ->]].
  - intros i b' Hi Hic E. destruct (Hbl i b' Hi E) as [-> | (Hne & Hq & b0 & E0 & Hb)].
    + rewrite upd_same. congruence.
    + rewrite upd_other by done. destruct Hb as [-> | [Hb _]]; [|done]. apply (saved_ext pit_ret (kmem (pr k))); [by apply (fm_range a) | | by apply Hsaved].
      intros y Hy. apply Hout. apply (stacks_apart i n y); [by apply (fm_range a) | done | done | done].
  - intros i Hi. rewrite (st_running _ _ _ _ _ _ _ _ _ _ _ _ Hst). destruct (decide (i = n)) as [->|Hne]; [by rewrite upd_same|].
    rewrite upd_other by done. destruct (decide (i = t_cur a)) as [->|Hic]; [by rewrite upd_same|]. rewrite upd_other by done.
    apply Hready. apply Hin in Hi as [Hi|Hi]; done.
  - intros i b' Hi E. unfold block_ok. cbn [spawn t_parent t_status]. destruct (Hbl i b' Hi E) as [-> | (Hne & Hq & b0 & E0 & Hb)].
    + rewrite !upd_same. replace b' with b1 by congruence. done.
    + rewrite !upd_other by done. pose proof (Hblocks i b0 Hq E0) as Hok. unfold block_ok in Hok. by destruct Hb as [-> | [_ ->]].
  - destruct Hfiles. destruct (st_files _ _ _ _ _ _ _ _ _ _ _ _ Hst). split; congruence.
Qed.

Lemma execute_simulated k a x r p n :
  represents k a -> names_program k0 x p -> new_number a = Some n -> in_kernel (t_cur a) r ->
  exists r0 r' a' k', r_frame r0 = entry_frame (entry_point k0 p) /\ pass_on (t_queue a ++ [n]) r (spawn n r0 a) = Some (r', a') /\
    kernel_step ops L ret_addr pit_ret locals (Execute x r) k = Some (Some (t_cur a', r'), k') /\ represents k' a'.
Proof.
  intros H Hx Hnew [Hi Hmode]. pose proof H as [Hsys _ _ _ _ _ _ _ [Hf Him] Hfam].
  pose proof (pids_free k a H) as Hpid. rewrite Hnew in Hpid. cbn [default from_option] in Hpid. unfold id in Hpid.
  destruct (new_number_spec a n Hnew) as [Hn Hnq].
  destruct (names_program_ext k x p Hf Him Hx) as (j & w & t & abuf & al & rest & Ec & Hpf & Helf & Hlen & Hname & Hw & Ht & Hj & Hargs & Habuf & Hla).
  destruct (kexecute_starts L pit_ret (x_junk x) k (t_queue a) (t_cur a) n j p w t abuf al rest (x_esp x) (x_ebp x)) as (k1 & E & Hst); try done.
  { unfold ERROR. lia. }
  assert (u32_range_of (entry_point k p)) as Hip.
  { destruct (entry_bytes k j p [] [] Hpf Hlen) as [He1 He2]; [cbn; lia | cbn; lia | by apply dword_of_range]. }
  assert (entry_point k0 p = entry_point k p) as Eip by (unfold entry_point, slice; by rewrite Hf, Him).
  destruct (started_leaving k k1 a n p w al (x_esp x) (x_ebp x) H Hnew Hip Hst) as (r0 & Hfr & Hlv).
  destruct (pass_on_total (t_queue a ++ [n]) r (spawn n r0 a) n) as (r' & a' & Hp); [cbn [spawn t_queue]; elems; rewrite ?elem_of_nil; tauto | by apply upd_same|].
  assert (task_step k0 a (Execute x r) (Some (t_cur a', r')) a') as Hs by (apply (execute_step k0 a x r p n r0); congruence).
  destruct (leave_simulated k1 _ _ r r' a' Hlv Hi (or_introl Hmode) Hp) as (k' & E2 & Hk').
  { by apply (family_step k0 a (Execute x r) (Some (t_cur a', r'))). }
  exists r0, r', a', k'. rewrite Eip. split_and!; try done. cbn [kernel_step]. rewrite Ec, E, some_bind. exact E2.
Qed.

(** ** A program halts *)

(** The blocks after the end of [c]. *)
Lemma halted_blocks k k1 q c p st : halted L k k1 q c p st -> forall i b1, (pcbs (pr k1)).[i] = Some b1 ->
  exists b0, (pcbs (pr k)).[i] = Some b0 /\
    ((i <> c /\ i <> p /\ b1 = b0) \/ (i = p /\ b1 = with_ret_status (halt_value (u8 st)) (with_child None b0)) \/
     (i = c /\ exists f, length f = 8%nat /\ b1 = with_parent None (with_ret_status (u8 st) (with_files f b0)))).
Proof.
  intros H i b1 E. destruct (decide (i = p)) as [->|Hp].
  { destruct (ha_parent _ _ _ _ _ _ _ H) as (b0 & E0 & E1). exists b0. split; [done|]. right. left. split; congruence. }
  destruct (decide (i = c)) as [->|Hc].
  - destruct (ha_block _ _ _ _ _ _ _ H) as (b0 & f & E0 & Hf & _ & E1). exists b0. split; [done|]. do 2 right. split; [done|]. exists f. split; congruence.
  - rewrite (ha_others _ _ _ _ _ _ _ H) in E by done. exists b1. auto.
Qed.

Lemma halted_procs k k1 q c p st : system L k q c -> halted L k k1 q c p st -> procs_ok L (pr k1) q.
Proof.
  intros Hsys H. split.
  - rewrite (ha_count _ _ _ _ _ _ _ H). apply (sy_procs _ _ _ _ Hsys).
  - apply Forall_forall. intros i Hi. destruct (system_member _ _ _ _ i Hsys Hi) as (_ & b0 & E0 & Hp0).
    destruct (zget_ex (pcbs (pr k1)) i) as [b1 E1].
    { pose proof (zget_Some_range _ _ _ E0). rewrite (ha_count _ _ _ _ _ _ _ H). done. }
    exists b1. split; [done|]. destruct (halted_blocks _ _ _ _ _ _ H i b1 E1) as (b2 & E2 & Hb). assert (b2 = b0) as -> by congruence.
    destruct Hb as [(_ & _ & ->) | [[_ ->] | (_ & f & _ & ->)]]; done.
  - apply (ha_video _ _ _ _ _ _ _ H).
Qed.

Lemma halted_leaving k k1 a p st :
  represents k a -> 2 < t_cur a -> t_parent a (t_cur a) = Some p -> halted L k k1 (t_queue a) (t_cur a) p st ->
  leaving k1 (others (t_cur a) (t_queue a)) (finish p st a).
Proof.
  intros H H2 Hpar Hh. pose proof H as [Hsys Hfree Hdesc Hesp0 Hcr3 Hready Hblocks Hsaved Hfiles Hfam].
  destruct (fm_waits _ Hfam _ _ (fm_cur _ Hfam) Hpar) as [Hpq Hpr]. pose proof (fm_ready _ Hfam) as Hcr.
  assert (p <> t_cur a) as Hpc by congruence. pose proof (halted_blocks _ _ _ _ _ _ Hh) as Hbl. pose proof (ha_pids _ _ _ _ _ _ _ Hh) as Hp.
  assert (forall i, i ∈ others (t_cur a) (t_queue a) <-> i <> t_cur a /\ i ∈ t_queue a) as Hin by (intros; apply elem_of_others).
  split; cbn [finish t_queue t_cur t_ready t_ctx]; try (by destruct Hh; auto).
  - by eapply halted_procs.
  - pose proof (ha_pointers _ _ _ _ _ _ _ Hh) as Hn. injection Hn as -> _ _ _ _. apply (sy_node _ _ _ _ Hsys).
  - apply (fm_cur _ Hfam).
  - right. split; [done|]. rewrite (ha_running _ _ _ _ _ _ _ Hh), decide_False, decide_True by congruence. split; [done|].
    rewrite upd_other, upd_same by congruence. done.
  - rewrite (zset_length _ _ _ _ Hp). apply (sy_pids _ _ _ _ Hsys).
  - intros i Hi. rewrite (zget_zset _ _ _ _ _ Hp), (pids_array k a H) by done. destruct (Z.eqb_spec i (t_cur a)) as [->|Hne].
    + rewrite decide_False; [done|]. rewrite Hin. tauto.
    + f_equal. apply decide_ext. rewrite Hin. tauto.
  - intros i b1 (b0 & E0 & Hb)%Hbl. destruct (sy_blocks _ _ _ _ Hsys i b0 E0) as (? & ? & ?).
    by destruct Hb as [(_ & _ & ->) | [[_ ->] | (_ & f & Hf & ->)]].
  - intros i b1 Hq (b0 & E0 & Hb)%Hbl. destruct (Hblocks i b0 Hq E0) as (HK & _).
    by destruct Hb as [(_ & _ & ->) | [[_ ->] | (_ & f & Hf & ->)]].
  - intros i b1 Hq Hic (b0 & E0 & Hb)%Hbl. destruct (ha_memory _ _ _ _ _ _ _ Hh) as [_ ->]. pose proof (Hsaved i b0 Hq Hic E0).
    by destruct Hb as [(_ & _ & ->) | [[_ ->] | (? & f & Hf & ->)]].
  - intros i [Hic Hq]%Hin. rewrite (ha_running _ _ _ _ _ _ _ Hh). unfold upd. destruct (Z.eqb_spec i p) as [->|Hip].
    + by rewrite decide_True.
    + rewrite !decide_False by done. bfalse (i =? t_cur a). by apply Hready.
  - intros i b1 [Hic Hq]%Hin (b0 & E0 & Hb)%Hbl. pose proof (Hblocks i b0 Hq E0) as Hok. unfold block_ok in *. cbn [finish t_parent t_status].
    destruct Hb as [(_ & Hip & ->) | [[-> ->] | (? & f & Hf & ->)]]; [by rewrite upd_other | | done].
    rewrite upd_same. cbn. split_and!; try tauto. by intros v [= <-].
  - destruct Hfiles. destruct (ha_files _ _ _ _ _ _ _ Hh). split; congruence.
Qed.

Lemma halt_simulated k a st eb r :
  represents k a -> 2 < t_cur a -> in_kernel (t_cur a) r ->
  exists p r' a' k', t_parent a (t_cur a) = Some p /\ pass_on (others (t_cur a) (t_queue a)) r (finish p st a) = Some (r', a') /\
    kernel_step ops L ret_addr pit_ret locals (Halt st eb r) k = Some (Some (t_cur a', r'), k') /\ represents k' a'.
Proof.
  intros H H2 [Hi Hmode]. pose proof H as [Hsys _ Hdesc _ _ _ Hblocks _ _ Hfam]. pose proof (fm_cur _ Hfam) as Hc.
  destruct (fm_parent _ Hfam _ Hc H2) as [p Hpar]. destruct (fm_waits _ Hfam _ _ Hc Hpar) as [Hpq Hpr].
  pose proof (fm_ready _ Hfam) as Hcr. assert (p <> t_cur a) as Hpc by congruence.
  destruct (system_member _ _ _ _ _ Hsys Hc) as (Hr & b & Eb & Hpid). destruct (Hblocks _ b Hc Eb) as (_ & Hpb & Hfds & _).
  destruct (khalt_spec ops L k (t_queue a) (t_cur a) b p (files b) st eb) as (k1 & E & Hh); try done; [congruence | | ].
  { split; [|destruct (sy_blocks _ _ _ _ Hsys _ b Eb); lia]. unfold get_desc. by rewrite Hdesc, some_bind, Eb. }
  pose proof (halted_leaving k k1 a p st H H2 Hpar Hh) as Hlv.
  destruct (pass_on_total (others (t_cur a) (t_queue a)) r (finish p st a) p) as (r' & a' & Hp); [done | by apply upd_same|].
  assert (task_step k0 a (Halt st eb r) (Some (t_cur a', r')) a') as Hs by (by apply (halt_step k0 a st eb r p r' a')).
  destruct (leave_simulated k1 _ _ r r' a' Hlv Hi (or_introl Hmode) Hp) as (k' & E2 & Hk').
  { by apply (family_step k0 a (Halt st eb r) (Some (t_cur a', r'))). }
  exists p, r', a', k'. split_and!; try done. cbn [kernel_step]. rewrite E, some_bind. exact E2.
Qed.

(** ** Work, a call that is refused, and a shell that starts over *)

Lemma represents_kmem k a m :
  represents k a -> (forall x, ~ in_stack (t_cur a) x -> m x = kmem (pr k) x) -> represents (set_pr (set_kmem m (pr k)) k) a.
Proof.
  intros [[? ? ? ? [] ? ? ? ?] ? ? ? ? ? ? Hsaved ? Hfam] Hm. split; try done. intros i b Hi Hic Hb.
  apply (saved_ext pit_ret (kmem (pr k))); [by apply (fm_range _ Hfam) | | by apply Hsaved].
  intros x Hx. apply Hm. apply (stacks_apart i (t_cur a) x); [by apply (fm_range _ Hfam) | apply (fm_range _ Hfam), Hfam | done | done].
Qed.

(** [khalt] in a shell: the system call returns to the start of its program. *)
Lemma restart_simulated k a st eb :
  represents k a -> t_cur a <= 2 -> frame_in (t_cur a) (u32 (eb + 4 * JUMP_BACK_TO_IRET)) ->
  exists k', khalt ops st eb k = Some (Returns SUCCESS k') /\ represents k' a.
Proof.
  intros H H2 [Hl Hh]. pose proof (rp_system _ _ H) as Hsys. pose proof (fm_range _ (rp_family _ _ H) _ (fm_cur _ (rp_family _ _ H))) as Hr.
  destruct (system_member _ _ _ _ _ Hsys (sy_in _ _ _ _ Hsys)) as (_ & b & Eb & Hpid). destruct (stack_bounds _ Hr) as [B1 B2].
  unfold khalt. rewrite (sy_curr _ _ _ _ Hsys), some_bind, Eb, some_bind, Hpid. unfold THIRD_TERMINAL. bfalse (2 <? t_cur a). cbv zeta.
  eexists. split; [reflexivity|]. apply represents_kmem; [done|]. intros x Hx. unfold in_stack in Hx.
  set (f := u32 (eb + 4 * JUMP_BACK_TO_IRET)) in *. rewrite (u32_small (f + 12)) by lia.
  rewrite !store32_frame by (unfold area; lia). done.
Qed.

Lemma work_simulated k a w b :
  represents k a -> (pcbs (pr w)).[t_cur a] = Some b -> length (files b) = 8%nat -> fds_ok (files b) ->
  paging_ok L (pg (pr w)) -> cr3 (pg (pr w)) = pd_addr L (t_cur a) ->
  exists k', do_work w k = Some k' /\ represents k' a.
Proof.
  intros H Ew Hlen Hfds Hpg Hc3. pose proof H as [Hsys Hfree Hdesc Hesp0 Hcr3 Hready Hblocks Hsaved Hfiles Hfam].
  pose proof (fm_cur _ Hfam) as Hc. destruct (system_member _ _ _ _ _ Hsys Hc) as (Hr & b0 & E0 & Hpid).
  pose proof Hsys as [Hring Hcurr Hnode Hin [Hsize Hpids Hpg0] Hlp Hsh Htk Hsz].
  unfold do_work. rewrite Hcurr, some_bind, Ew, some_bind, (upd_pcb_eq _ _ _ _ E0), some_bind. eexists. split; [done|].
  assert (forall i b1, (<[Z.to_nat (t_cur a):=with_files (files b) b0]> (pcbs (pr k))).[i] = Some b1 ->
    exists b2, (pcbs (pr k)).[i] = Some b2 /\ (b1 = b2 \/ b1 = with_files (files b) b2)) as Hget.
  { intros i b1. rewrite zget_insert by (pose proof (zget_Some_range _ _ _ E0); lia). destruct (Z.eqb_spec i (t_cur a)) as [->|]; [|by eauto].
    intros [= <-]. eauto. }
  split; cbn [sc pr pid_arr desc esp0 cr3 pg pcbs kmem fsys image set_kmem set_pg set_pcbs]; try done.
  - split; cbn [sc pr curr_process pid_arr pcbs set_kmem set_pg set_pcbs]; try done.
    + split; cbn [pcbs pg set_kmem set_pg set_pcbs]; [by rewrite length_insert | | done]. rewrite Forall_forall in *.
      intros i Hi. destruct (Hpids i Hi) as (b1 & E1 & Hp1). destruct (Z.eqb_spec i (t_cur a)) as [->|Hne].
      * eexists. rewrite zget_insert, Z.eqb_refl by (pose proof (zget_Some_range _ _ _ E0); lia). split; [done|]. cbn. congruence.
      * exists b1. rewrite zget_insert by (pose proof (zget_Some_range _ _ _ E0); lia). bfalse (i =? t_cur a). done.
    + intros i b1 (b2 & E2 & Hb)%Hget. destruct (Hsz i b2 E2) as (? & ? & ?). by destruct Hb as [-> | ->].
  - intros i b1 Hq (b2 & E2 & Hb)%Hget. pose proof (Hblocks i b2 Hq E2) as (? & ? & ? & ?). by destruct Hb as [-> | ->].
  - intros i b1 Hq Hic (b2 & E2 & Hb)%Hget. apply (saved_ext pit_ret (kmem (pr k))); [by apply (fm_range _ Hfam) | |].
    + intros x Hx. apply (stacks_apart i (t_cur a) x) in Hx; [|by apply (fm_range _ Hfam) | done | done].
      unfold in_stack in Hx. case_if; [lia | done].
    + pose proof (Hsaved i b2 Hq Hic E2). by destruct Hb as [-> | ->].
Qed.

Lemma refuse_simulated k a x :
  represents k a -> new_number a = None \/ x_command x = None \/ names_nothing k0 x ->
  kexecute L pit_ret (x_junk x) (x_command x) (x_esp x) (x_ebp x) k = Some (Returns ERROR k).
Proof.
  intros H Hx. pose proof (pids_free k a H) as Hpid. destruct (rp_files _ _ H) as [Hf Hi].
  assert (x_command x = None -> kexecute L pit_ret (x_junk x) (x_command x) (x_esp x) (x_ebp x) k = Some (Returns ERROR k)) as Hnone.
  { intros ->. unfold kexecute. by rewrite Hpid, some_bind. }
  destruct Hx as [Hfull | [Hno | (w & t & rest & Ec & Hdir & Hw & Hne & Ht & Hl & Hj & Hlook)]]; [|by apply Hnone|].
  - destruct (x_command x) as [cmd|]; [|by apply Hnone]. unfold kexecute. by rewrite Hpid, some_bind, Hfull.
  - rewrite Ec. pose proof (sy_pids _ _ _ _ (rp_system _ _ H)) as Hlen. destruct Hlook as [Hlook | (j & p & Hpf & Hname & Helf)].
    + rewrite <- Hf, <- Hi in *. by apply kexecute_unknown.
    + destruct (program_file_ext k0 k j p Hi Hf Hpf) as [Hpf' Ee]. rewrite <- Hf, <- Hi in Hname. eapply kexecute_not_elf; try done. by rewrite Ee.
Qed.

(** Whatever the processes do, the kernel does what the machine does. *)
Lemma step_simulated k a e :
  represents k a -> enabled a e ->
  exists o k' a', kernel_step ops L ret_addr pit_ret locals e k = Some (o, k') /\ task_step k0 a e o a' /\ represents k' a'.
Proof.
  intros H He. destruct e as [r | x r | st eb r | w]; cbn [enabled] in He.
  - destruct (timer_simulated k a r H He) as (r' & a' & k' & Hp & E & H'). exists (Some (t_cur a', r')), k', a'. split_and!; try done. by constructor.
  - assert ((new_number a = None \/ x_command x = None \/ names_nothing k0 x) \/
      exists p n, names_program k0 x p /\ new_number a = Some n /\ in_kernel (t_cur a) r) as [Hno | (p & n & Hx & Hn & Hi)].
    { destruct (new_number a) as [n|] eqn:En; [|by auto]. destruct He as [He | [He | [He | ((p & Hp) & Hi)]]]; eauto 10. }
    + exists None, k, a. cbn [kernel_step]. rewrite (refuse_simulated k a x H Hno), some_bind. split_and!; try done. by constructor.
    + destruct (execute_simulated k a x r p n H Hx Hn Hi) as (r0 & r' & a' & k' & Hf & Hp & E & H').
      exists (Some (t_cur a', r')), k', a'. split_and!; try done. by eapply execute_step.
  - destruct He as [[H2 Hi] | [H2 Hfr]].
    + destruct (halt_simulated k a st eb r H H2 Hi) as (p & r' & a' & k' & Hpar & Hp & E & H').
      exists (Some (t_cur a', r')), k', a'. split_and!; try done. by eapply halt_step.
    + destruct (restart_simulated k a st eb H H2 Hfr) as (k' & E & H'). exists None, k', a. cbn [kernel_step]. rewrite E, some_bind.
      split_and!; try done. by apply restart_step.
  - destruct He as ((b & Eb & Hl & Hf) & Hpg & Hc3). destruct (work_simulated k a w b H Eb Hl Hf Hpg Hc3) as (k' & E & H').
    exists None, k', a. cbn [kernel_step]. rewrite E, some_bind. split_and!; try done. by constructor.
Qed.

Lemma run_simulated es : forall k a, represents k a -> allowed a es ->
  exists tr k' a', kernel_run ops L ret_addr pit_ret locals es k = Some (tr, k') /\ task_run k0 a es tr a' /\ represents k' a'.
Proof.
  induction es as [|e es IH]; intros k a H Hal; inversion Hal as [|? ? ? He Hes]; subst.
  - exists [], k, a. split_and!; [done | constructor | done].
  - destruct (step_simulated k a e H He) as (o & k1 & a1 & E & Hs & H1). destruct (IH k1 a1 H1 (Hes _ _ Hs)) as (tr & k' & a' & E' & Hr & H').
    exists (Entry (t_cur a) e o :: tr), k', a'. cbn [kernel_run]. rewrite (sy_curr _ _ _ _ (rp_system _ _ H)), some_bind, E, some_bind, E', some_bind.
    split_and!; [done | by econstructor | done].
Qed.

End Represents.
