(* ===== verification/TaskProps.v ===== *)
(** * What the processes can rely on

    Theorems on the abstract machine of [Tasks], and through the simulation on the kernel:
    [execute] returns after the program it started, with its status; a process that does not
    run keeps its registers; a process that is ready gets its turn. *)

From stdpp Require Import base list option sets.
From Stdlib Require Import ZArith Lia ZifyBool.
From S2P Require Import Prelude MemOps Lib FileSystem Paging Process Schedule Terminal Rtc FileArray Reading Lifecycle Drivers Linkage Interrupts Tasks.

(** ** A parent waits for its child *)

Definition resumes (c : Z) (en : entry) : Prop := exists r, en_resumed en = Some (c, r).
Definition is_halt (e : event) : Prop := match e with Halt _ _ _ => True | _ => False end.

(** [c] is in the middle of [execute], and its registers are [rc]: its child [n] is there, or has
    left the status [v]. *)
Record waiting (c n : Z) (rc : user_regs) (a : tasks) : Prop := {
  wt_in : c ∈ t_queue a /\ n ∈ t_queue a;
  wt_ready : t_ready a c = false;
  wt_parent : t_parent a n = Some c /\ 2 < n;
  wt_ctx : t_ctx a c = rc }.

Record released (c v : Z) (rc : user_regs) (a : tasks) : Prop := {
  rl_in : c ∈ t_queue a;
  rl_ready : t_ready a c = true;
  rl_ctx : t_ctx a c = rc;
  rl_status : t_status a c = Some v }.

Section Waits.
Context (L : layout) (k0 : kernel).

Lemma waiting_step c n rc a e o a' :
  family a -> waiting c n rc a -> enabled L k0 a e -> task_step k0 a e o a' ->
  ~ resumes c (Entry (t_cur a) e o) /\ waiting c n rc a' /\ ~ (t_cur a = n /\ is_halt e) \/
  t_cur a = n /\ exists st eb r, e = Halt st eb r /\ released c (halt_value (u8 st)) rc a' /\
    (resumes c (Entry (t_cur a) e o) -> o = Some (c, rc) /\ t_cur a' = c).
Proof.
  intros Hf [[Hc Hn] Hr [Hp Hn2] Hx] He Hs. assert (c <> t_cur a) as Hcc by (intros ->; pose proof (fm_ready _ Hf); congruence).
  destruct Hs as [r r' a' Hp' | x r p m r0 r' a' _ Hm _ Hp' | x r _ | st eb r p r' a' H2 Hpar Hp' | st eb r H2 | w].
  - left. apply pass_on_inv in Hp' as (Hin & Hready & _ & ->). cbn [t_cur]. split; [intros (r1 & [= E _]); cbn in Hready; congruence|].
    split; [|by intros [_ []]]. split; cbn [t_queue t_ready t_parent t_ctx]; try done. by rewrite upd_other.
  - left. apply pass_on_inv in Hp' as (Hin & Hready & _ & ->). destruct (new_number_spec a m Hm) as [_ Hmq].
    assert (c <> m /\ n <> m) as [Hcm Hnm] by (split; intros ->; done). cbn [spawn t_cur t_queue t_ready t_parent t_ctx t_status] in *.
    split; [intros (r1 & [= E _]); rewrite E, !upd_other in Hready by done; congruence|].
    split; [|by intros [_ []]]. split; cbn [spawn t_queue t_ready t_parent t_ctx]; rewrite ?upd_other by done; try done. elems. auto.
  - left. split; [by intros (r1 & [=])|]. split; [done | by intros [_ []]].
  - apply pass_on_inv in Hp' as (Hin & Hready & Er & ->). cbn [t_cur finish t_queue t_ready t_parent t_ctx t_status] in *.
    destruct (decide (t_cur a = n)) as [En|En].
    + right. split; [done|]. exists st, eb, r. assert (p = c) as -> by (rewrite En in Hpar; congruence).
      split; [done|]. split; [split; cbn [t_queue t_ready t_ctx t_status]; rewrite ?upd_same; try done; [by apply elem_of_others | by rewrite upd_other]|].
      intros (r1 & [= E ->]). rewrite E, upd_other in Er by done. split; congruence.
    + left. assert (p <> c) as Hpc by (intros ->; apply En; apply (fm_child _ Hf _ _ c); try done; apply (fm_cur _ Hf)).
      split; [intros (r1 & [= E _]); rewrite E, !upd_other in Hready by done; congruence|]. split; [|by intros [? _]].
      split; cbn [t_queue t_ready t_parent t_ctx]; rewrite ?upd_other by done; try done. by rewrite !elem_of_others.
  - left. split; [by intros (r1 & [=])|]. split; [done | intros [? _]; lia].
  - left. split; [by intros (r1 & [=])|]. split; [done | by intros [_ []]].
Qed.

Lemma released_step c v rc a e o a' :
  family a -> released c v rc a -> c <> t_cur a -> enabled L k0 a e -> task_step k0 a e o a' ->
  released c v rc a' /\ (resumes c (Entry (t_cur a) e o) -> o = Some (c, rc)) /\ (t_cur a' = c <-> resumes c (Entry (t_cur a) e o)).
Proof.
  intros Hf [Hc Hr Hx Hv] Hcc He Hs.
  destruct Hs as [r r' a' Hp' | x r p m r0 r' a' _ Hm _ Hp' | x r _ | st eb r p r' a' H2 Hpar Hp' | st eb r H2 | w].
  - apply pass_on_inv in Hp' as (_ & _ & Er & ->). cbn [t_cur t_ctx] in *.
    split; [split; cbn [t_queue t_ready t_ctx t_status]; try done; by rewrite upd_other|].
    split; [intros (r1 & [= E ->]); rewrite E, upd_other in Er by done; congruence|].
    split; [intros ->; by eexists | by intros (r1 & [= ? _])].
  - apply pass_on_inv in Hp' as (_ & _ & Er & ->). destruct (new_number_spec a m Hm) as [_ Hmq].
    assert (c <> m) as Hcm by (intros ->; done). cbn [spawn t_cur t_queue t_ready t_parent t_ctx t_status] in *.
    split; [split; cbn [t_queue t_ready t_ctx t_status]; rewrite ?upd_other by done; try done; elems; auto|].
    split; [intros (r1 & [= E ->]); rewrite E, !upd_other in Er by done; congruence|].
    split; [intros ->; by eexists | by intros (r1 & [= ? _])].
  - split; [done|]. split; [by intros (r1 & [=])|]. split; [congruence | by intros (r1 & [=])].
  - apply pass_on_inv in Hp' as (_ & _ & Er & ->). cbn [t_cur finish t_queue t_ready t_parent t_ctx t_status] in *.
    destruct (fm_waits _ Hf _ _ (fm_cur _ Hf) Hpar) as [_ Hpr]. assert (c <> p) as Hcp by congruence.
    split; [split; cbn [t_queue t_ready t_ctx t_status]; rewrite ?upd_other by done; try done; by apply elem_of_others|].
    split; [intros (r1 & [= E ->]); rewrite E, upd_other in Er by done; congruence|].
    split; [intros ->; by eexists | by intros (r1 & [= ? _])].
  - split; [done|]. split; [by intros (r1 & [=])|]. split; [congruence | by intros (r1 & [=])].
  - split; [done|]. split; [by intros (r1 & [=])|]. split; [congruence | by intros (r1 & [=])].
Qed.

(** The last entry of a run resumes [c]; the others do not. *)
Definition comes_back (c : Z) (tr : list entry) (r : user_regs) : Prop :=
  exists tr0 d e, tr = tr0 ++ [Entry d e (Some (c, r))] /\ forall en, en ∈ tr0 -> ~ resumes c en.

Lemma comes_back_cons c en tr r :
  comes_back c (en :: tr) r -> (tr = [] /\ en_resumed en = Some (c, r)) \/ (~ resumes c en /\ comes_back c tr r).
Proof.
  intros ([|en0 tr0] & d & e & E & H); cbn [app] in E; injection E as -> ->; [by left|]. right.
  split; [apply H; by left|]. exists tr0, d, e. split; [done|]. intros en Hen. apply H. by right.
Qed.

Lemma released_run c v rc r' es : forall a tr a',
  family a -> released c v rc a -> c <> t_cur a -> allowed L k0 a es -> task_run k0 a es tr a' -> comes_back c tr r' ->
  r' = rc /\ t_cur a' = c /\ t_status a' c = Some v.
Proof.
  induction es as [|e es IH]; intros a tr a' Hf Hrl Hcc Hal Hrun Hcb; inversion Hrun as [|? ? o a1 ? tr1 ? Hs Hrun1]; subst.
  { destruct Hcb as (tr0 & d & e & E & _). by destruct tr0. }
  inversion Hal as [|? ? ? He Hes]; subst. destruct (released_step c v rc a e o a1 Hf Hrl Hcc He Hs) as (Hrl1 & Ho & Hcur).
  apply comes_back_cons in Hcb as [[-> Er] | [Hno Hcb]].
  - cbn [en_resumed] in Er. assert (resumes c (Entry (t_cur a) e o)) as Hres by (by exists r').
    assert (a' = a1) as -> by (by inversion Hrun1). split; [specialize (Ho Hres); congruence|]. split; [by apply Hcur | apply (rl_status _ _ _ _ Hrl1)].
  - apply (IH a1 tr1 a'); try done; [by eapply family_step | | by eapply Hes]. intros E. apply Hno, Hcur. done.
Qed.

Lemma waiting_run c n rc r' es : forall a tr a',
  family a -> waiting c n rc a -> allowed L k0 a es -> task_run k0 a es tr a' -> comes_back c tr r' ->
  r' = rc /\ t_cur a' = c /\ exists tr1 st eb rh o tr2, tr = tr1 ++ Entry n (Halt st eb rh) o :: tr2 /\
    (forall en, en ∈ tr1 -> ~ (en_actor en = n /\ is_halt (en_event en))) /\ t_status a' c = Some (halt_value (u8 st)).
Proof.
  induction es as [|e es IH]; intros a tr a' Hf Hw Hal Hrun Hcb; inversion Hrun as [|? ? o a1 ? tr1 ? Hs Hrun1]; subst.
  { destruct Hcb as (tr0 & d & e & E & _). by destruct tr0. }
  inversion Hal as [|? ? ? He Hes]; subst. assert (family a1) as Hf1 by (by eapply family_step).
  destruct (waiting_step c n rc a e o a1 Hf Hw He Hs) as [(Hno & Hw1 & Hnh) | (Hn & st & eb & rh & -> & Hrl & Hres)];
    apply comes_back_cons in Hcb as [[-> Er] | [Hno' Hcb]].
  - destruct Hno. by exists r'.
  - destruct (IH a1 tr1 a' Hf1 Hw1 (Hes _ _ Hs) Hrun1 Hcb) as (-> & Hcur & t1 & st & eb & rh & o' & t2 & -> & Hall & Hst).
    split; [done|]. split; [done|]. exists (Entry (t_cur a) e o :: t1), st, eb, rh, o', t2. split; [done|]. split; [|done].
    intros en [-> | Hen]%elem_of_cons; [done | auto].
  - assert (a' = a1) as -> by (by inversion Hrun1). destruct Hres as [Eo Hcur]; [by exists r'|]. cbn [en_resumed] in Er.
    split; [congruence|]. split; [done|]. exists [], st, eb, rh, o, []. rewrite Hn. split; [done|].
    split; [by intros en ?%elem_of_nil | apply (rl_status _ _ _ _ Hrl)].
  - assert (c <> t_cur a1) as Hcc.
    { intros E. apply Hno'. inversion Hs; subst; [unfold resumes; cbn; eauto|]. pose proof (fm_ready _ Hf). pose proof (wt_ready _ _ _ _ Hw). congruence. }
    destruct (released_run c _ rc r' es a1 tr1 a' Hf1 Hrl Hcc (Hes _ _ Hs) Hrun1 Hcb) as (-> & Hcur & Hst).
    split; [done|]. split; [done|]. exists [], st, eb, rh, o, tr1. rewrite Hn. split; [done|]. split; [by intros en ?%elem_of_nil | done].
Qed.

(** A process that does not run keeps its registers. *)
Lemma context_step c a e o a' :
  family a -> c ∈ t_queue a -> c <> t_cur a -> enabled L k0 a e -> task_step k0 a e o a' ->
  (resumes c (Entry (t_cur a) e o) -> o = Some (c, t_ctx a c)) /\
  (~ resumes c (Entry (t_cur a) e o) -> c ∈ t_queue a' /\ c <> t_cur a' /\ t_ctx a' c = t_ctx a c).
Proof.
  intros Hf Hc Hcc He Hs. assert (forall n r (o := Some (n, r)), ~ resumes c (Entry (t_cur a) e o) -> c <> n) as Hne.
  { intros n r o' H ->. apply H. by eexists. }
  destruct Hs as [r r' a' Hp' | x r p m r0 r' a' _ Hm _ Hp' | x r _ | st eb r p r' a' H2 Hpar Hp' | st eb r H2 | w].
  - apply pass_on_inv in Hp' as (_ & _ & Er & ->). cbn [t_cur t_ctx t_queue] in *. split.
    + intros (r1 & [= E ->]). rewrite E, upd_other in Er by done. congruence.
    + intros H%Hne. by rewrite upd_other.
  - apply pass_on_inv in Hp' as (_ & _ & Er & ->). destruct (new_number_spec a m Hm) as [_ Hmq].
    assert (c <> m) as Hcm by (intros ->; done). cbn [spawn t_cur t_queue t_ctx] in *. split.
    + intros (r1 & [= E ->]). rewrite E, !upd_other in Er by done. congruence.
    + intros H%Hne. rewrite !upd_other by done. elems. auto.
  - split; [by intros (r1 & [=]) | done].
  - apply pass_on_inv in Hp' as (_ & _ & Er & ->). cbn [finish t_cur t_queue t_ctx] in *. split.
    + intros (r1 & [= E ->]). rewrite E, upd_other in Er by done. congruence.
    + intros H%Hne. rewrite upd_other by done. by rewrite elem_of_others.
  - split; [by intros (r1 & [=]) | done].
  - split; [by intros (r1 & [=]) | done].
Qed.

Lemma context_run c r' es : forall a tr a',
  family a -> c ∈ t_queue a -> c <> t_cur a -> allowed L k0 a es -> task_run k0 a es tr a' -> comes_back c tr r' -> r' = t_ctx a c.
Proof.
  induction es as [|e es IH]; intros a tr a' Hf Hc Hcc Hal Hrun Hcb; inversion Hrun as [|? ? o a1 ? tr1 ? Hs Hrun1]; subst.
  { destruct Hcb as (tr0 & d & e & E & _). by destruct tr0. }
  inversion Hal as [|? ? ? He Hes]; subst. destruct (context_step c a e o a1 Hf Hc Hcc He Hs) as [Hyes Hno].
  apply comes_back_cons in Hcb as [[-> Er] | [Hn Hcb]].
  - cbn [en_resumed] in Er. specialize (Hyes ltac:(by exists r')). congruence.
  - destruct (Hno Hn) as (Hc1 & Hcc1 & <-). apply (IH a1 tr1 a'); try done; [by eapply family_step | by eapply Hes].
Qed.

End Waits.

(** ** Every process that is ready gets its turn

    The measure is the number of tasks the circle has before [c], twice, and the numbers that
    are free: a new task may come before [c], but then takes a number. *)

Lemma after_rotate q c n P S :
  NoDup q -> c ∈ q -> after c q = P ++ n :: S -> after n q = S ++ P ++ [n].
Proof.
  intros Hnd Hc E. apply list_elem_of_split in Hc as (l1 & l2 & ->). rewrite after_split in E by done.
  replace (l1 ++ c :: l2) with ((l1 ++ [c]) ++ l2) in Hnd |- * by (by rewrite <- app_assoc). revert Hnd E. generalize (l1 ++ [c]). clear l1 c.
  intros x Hnd E. destruct (app_eq_app _ _ _ _ E) as (t & [[E1 E2] | [E1 E2]]).
  - destruct t as [|m t]; cbn [app] in E2.
    + rewrite app_nil_r in E1. subst l2 x. cbn [app] in *. pose proof (after_split n [] (S ++ P) Hnd) as H. cbn [app] in H. rewrite H. by rewrite <- app_assoc.
    + injection E2 as -> ->. subst l2. rewrite (app_assoc x P) in *. rewrite after_split by done. by rewrite <- !app_assoc.
  - subst P x. rewrite <- app_assoc in *. cbn [app] in *. rewrite after_split by done. by rewrite <- !app_assoc.
Qed.

Lemma after_others c n q : NoDup q -> n ∈ q -> n <> c -> after n (others c q) = others c (after n q).
Proof.
  intros Hnd Hn Hne. apply list_elem_of_split in Hn as (l1 & l2 & ->). rewrite after_split by done.
  assert (others c (l1 ++ n :: l2) = others c l1 ++ n :: others c l2) as E.
  { unfold others. rewrite filter_app, filter_cons_True by done. done. }
  rewrite E, after_split by (rewrite <- E; by apply NoDup_filter). unfold others. rewrite !filter_app, filter_cons_True by done. done.
Qed.

Lemma others_length c q : (length (others c q) <= length q)%nat.
Proof. apply length_filter. Qed.

(** The first ready task is [c] or one before it. *)
Lemma find_before (f : Z -> bool) X c Y n :
  f c = true -> find f (X ++ c :: Y) = Some n -> n = c \/ exists P T, X = P ++ n :: T.
Proof.
  intros Hc. induction X as [|x X IH]; cbn [app find]; [rewrite Hc; intros [= <-]; by left|].
  destruct (f x); [intros [= <-]; right; by exists [], X|]. intros H. destruct (IH H) as [-> | (P & T & ->)]; [by left|]. right. by exists (x :: P), T.
Qed.

Lemma pass_on_gap q r a r' a' c X Y :
  NoDup (t_queue a) -> t_cur a ∈ t_queue a -> t_ready a c = true -> c <> t_cur a ->
  q = t_queue a \/ q = others (t_cur a) (t_queue a) /\ t_ready a (t_cur a) = false ->
  pass_on q r a = Some (r', a') -> after (t_cur a) (t_queue a) = X ++ c :: Y ->
  t_cur a' = c \/ exists X' Y', after (t_cur a') (t_queue a') = X' ++ c :: Y' /\ (length X' < length X)%nat.
Proof.
  intros Hnd Hcur Hc Hcc Hq Hp HX. unfold pass_on in Hp. apply bind_Some in Hp as (n & Hn & [= _ <-]). cbn [t_cur t_queue].
  pose proof Hn as [Hnin Hnr]%find_some. apply list_elem_of_In, elem_of_after in Hnin.
  rewrite HX in Hn. destruct (find_before _ X c Y n Hc Hn) as [-> | (P & T & ->)]; [by left|]. right. rewrite <- app_assoc in HX. cbn [app] in HX.
  pose proof (after_rotate _ _ _ _ _ Hnd Hcur HX) as E. rewrite length_app. cbn [length]. destruct Hq as [-> | [-> Hno]].
  - rewrite E, <- app_assoc. cbn [app]. eexists T, _. split; [reflexivity | lia].
  - rewrite after_others, E by (done || congruence). unfold others at 1. rewrite !filter_app, filter_cons_True by done. rewrite <- app_assoc. cbn [app].
    eexists _, _. split; [reflexivity|]. pose proof (others_length (t_cur a) T). unfold others in *. lia.
Qed.

(** Process [c] is ready and has the tasks [X] before it. *)
Record waits_behind (c : Z) (X : list Z) (a : tasks) : Prop := {
  wb_in : c ∈ t_queue a;
  wb_cur : c <> t_cur a;
  wb_ready : t_ready a c = true;
  wb_after : exists Y, after (t_cur a) (t_queue a) = X ++ c :: Y }.

Lemma queue_length a : family a -> (length (t_queue a) <= 6)%nat.
Proof.
  intros [_ _ Hnd Hr _ _ _ _]. change 6%nat with (length (seqZ 0 6)). apply submseteq_length, NoDup_submseteq; [done|].
  intros i Hi%Hr. apply elem_of_seqZ. lia.
Qed.

Definition patience (X : list Z) (a : tasks) : Z := 2 * Z.of_nat (length X) + 6 - Z.of_nat (length (t_queue a)).

(** A new task may come before [c]. *)
Lemma spawn_behind c X n a :
  family a -> waits_behind c X a -> new_number a = Some n ->
  exists X' Y, after (t_cur a) (t_queue a ++ [n]) = X' ++ c :: Y /\ (length X' <= S (length X))%nat.
Proof.
  intros Hf [Hc Hcc _ (Y & HY)] [_ Hn]%new_number_spec. pose proof (fm_nodup _ Hf) as Hnd. pose proof (fm_cur _ Hf) as Hcur.
  assert (NoDup (t_queue a ++ [n])) as Hnd'.
  { apply NoDup_app. split_and!; [done | | apply NoDup_singleton]. intros i Hi ->%list_elem_of_singleton. done. }
  apply list_elem_of_split in Hcur as (l1 & l2 & Eq). rewrite Eq in *. rewrite after_split in HY by done. rewrite <- app_assoc in *. cbn [app] in *.
  rewrite after_split by done. clear Hf Eq. destruct (app_eq_app _ _ _ _ HY) as (t & [[-> E2] | [-> E2]]).
  - destruct t as [|m t]; cbn [app] in E2.
    + exists (X ++ [n]), Y. rewrite !app_nil_r, E2, <- !app_assoc. split; [done|]. rewrite length_app. cbn. lia.
    + injection E2 as -> ->. rewrite <- !app_assoc. cbn [app]. eexists X, _. split; [reflexivity | lia].
  - rewrite E2. exists (l2 ++ n :: t), Y. rewrite <- !app_assoc. cbn [app]. split; [done|]. rewrite !length_app. cbn [length]. lia.
Qed.

Lemma pass_on_behind q r a r' a' c X Y :
  NoDup (t_queue a) -> t_cur a ∈ t_queue a -> t_ready a c = true -> c <> t_cur a ->
  q = t_queue a \/ q = others (t_cur a) (t_queue a) /\ t_ready a (t_cur a) = false ->
  pass_on q r a = Some (r', a') -> after (t_cur a) (t_queue a) = X ++ c :: Y -> c ∈ q -> t_cur a' <> c ->
  exists X', waits_behind c X' a' /\ (length X' < length X)%nat /\ t_queue a' = q.
Proof.
  intros Hnd Hcur Hr Hcc Hq Hp HY Hc Hne. destruct (pass_on_gap q r a r' a' c X Y Hnd Hcur Hr Hcc Hq Hp HY) as [|(X' & Y' & E & Hl)]; [done|].
  exists X'. apply pass_on_inv in Hp as (_ & _ & _ & Ea). split_and!; [|done | by rewrite Ea].
  split; [by rewrite Ea | congruence | by rewrite Ea | eauto].
Qed.

Definition switches (en : entry) : Z := match en_resumed en with Some _ => 1 | None => 0 end.

Lemma others_remove c q : NoDup q -> c ∈ q -> length q = S (length (others c q)).
Proof.
  intros Hnd Hc. apply list_elem_of_split in Hc as (l1 & l2 & ->). rewrite others_split by done. rewrite !length_app. cbn. lia.
Qed.

Lemma patience_step k0 c X a e o a' :
  family a -> waits_behind c X a -> task_step k0 a e o a' ->
  resumes c (Entry (t_cur a) e o) \/
  exists X', waits_behind c X' a' /\ patience X' a' + switches (Entry (t_cur a) e o) <= patience X a.
Proof.
  intros Hf Hw Hs. pose proof Hw as [Hc Hcc Hr (Y & HY)]. pose proof (fm_cur _ Hf) as Hcur. pose proof (fm_nodup _ Hf) as Hnd. unfold patience, switches.
  assert (forall n r, resumes c (Entry (t_cur a) e (Some (n, r))) \/ n <> c) as Hres.
  { intros n r. destruct (decide (n = c)) as [->|]; [left; by eexists | by right]. }
  destruct Hs as [r r' a' Hp | x r p n r0 r' a' _ Hn _ Hp | x r _ | st eb r p r' a' H2 Hpar Hp | st eb r H2 | w]; cbn [en_resumed];
    [ | | by right; exists X; split; [done | lia] | | by right; exists X; split; [done | lia] ..];
    (destruct (Hres (t_cur a') r') as [|Hne]; [by left | right]).
  - destruct (pass_on_behind _ _ _ _ _ c X Y Hnd Hcur Hr Hcc (or_introl eq_refl) Hp HY Hc Hne) as (X' & Hw' & Hl & ->).
    exists X'. split; [done | lia].
  - destruct (spawn_behind c X n a Hf Hw Hn) as (X1 & Y1 & E1 & Hl1). destruct (new_number_spec a n Hn) as [_ Hnq].
    destruct (family_spawn n r0 a Hf Hn) as (Hnd' & _). assert (c <> n) as Hcn by (intros ->; done).
    assert (forall i, i ∈ t_queue a -> i ∈ t_queue a ++ [n]) as Hsub by (intros; elems; auto).
    destruct (pass_on_behind (t_queue a ++ [n]) r (spawn n r0 a) r' a' c X1 Y1) as (X' & Hw' & Hl & ->);
      try done; [by apply Hsub | by cbn; rewrite !upd_other | by left | by apply Hsub |].
    exists X'. split; [done|]. rewrite length_app. cbn [length]. lia.
  - destruct (fm_waits _ Hf _ _ Hcur Hpar) as [_ Hpr]. assert (c <> p) as Hcp by congruence. pose proof (fm_ready _ Hf) as Hcr.
    destruct (pass_on_behind (others (t_cur a) (t_queue a)) r (finish p st a) r' a' c X Y) as (X' & Hw' & Hl & ->); try done.
    + by cbn; rewrite !upd_other.
    + right. split; [done|]. cbn. rewrite upd_other by congruence. apply upd_same.
    + by apply elem_of_others.
    + exists X'. split; [done|]. rewrite (others_remove _ _ Hnd Hcur). lia.
Qed.

Definition turns (tr : list entry) : Z := fold_right (fun en s => switches en + s) 0 tr.

Lemma patience_run k0 c es : forall X a tr a',
  family a -> waits_behind c X a -> task_run k0 a es tr a' -> (exists en, en ∈ tr /\ resumes c en) \/ turns tr <= patience X a.
Proof.
  induction es as [|e es IH]; intros X a tr a' Hf Hw Hrun; inversion Hrun as [|? ? o a1 ? tr1 ? Hs Hrun1]; subst.
  { right. pose proof (queue_length _ Hf). unfold patience. cbn. lia. }
  destruct (patience_step k0 c X a e o a1 Hf Hw Hs) as [Hres | (X1 & Hw1 & Hle)]; [left; eexists; split; [by left | done]|].
  destruct (IH X1 a1 tr1 a' (family_step _ _ _ _ _ Hf Hs) Hw1 Hrun1) as [(en & Hen & Hr) | Ht]; [left; exists en; split; [by right | done]|].
  right. cbn [turns fold_right]. unfold turns in Ht. lia.
Qed.

Lemma ready_waits c a : family a -> c ∈ t_queue a -> t_ready a c = true -> c <> t_cur a ->
  exists X, waits_behind c X a /\ patience X a <= 8.
Proof.
  intros Hf Hc Hr Hcc. pose proof (fm_nodup _ Hf) as Hnd. pose proof (queue_length a Hf) as Hq.
  pose proof Hc as Hc'. rewrite <- (elem_of_after (t_cur a)) in Hc'. apply list_elem_of_split in Hc' as (X & Y & E).
  exists X. split; [by split; eauto|]. unfold patience. pose proof (fm_cur _ Hf) as (l1 & l2 & Eq)%list_elem_of_split.
  rewrite Eq in *. rewrite after_split in E by done. assert (Y <> []) as HY.
  { intros ->. rewrite app_assoc in E. apply app_inj_tail in E as [_ E]. congruence. }
  apply (f_equal length) in E. rewrite !length_app in *. cbn [length] in *. destruct Y; [done|]. cbn [length] in E. lia.
Qed.

(** A process that has started [n] waits for it. *)
Lemma spawn_waiting a n r0 r r' q a' :
  family a -> new_number a = Some n -> pass_on q r (spawn n r0 a) = Some (r', a') -> q = t_queue a ++ [n] ->
  waiting (t_cur a) n (kept (t_cur a) r) a' /\ t_cur a' <> t_cur a.
Proof.
  intros Hf Hn Hp ->. destruct (new_number_spec a n Hn) as [Hn6 Hnq]. pose proof (fm_cur _ Hf) as Hc.
  assert (t_cur a <> n) as Hcn by (intros E; by rewrite E in Hc). apply pass_on_inv in Hp as (Hin & Hready & _ & ->).
  cbn [spawn t_cur t_queue t_ready t_parent t_ctx] in *. split.
  - split; cbn [t_queue t_ready t_parent t_ctx]; rewrite ?upd_same; try done.
    + elems. rewrite ?elem_of_nil. tauto.
    + by rewrite upd_other, upd_same.
    + split; [done|]. destruct (Z.le_gt_cases n 2); [|lia]. destruct Hnq. apply (fm_shells _ Hf). lia.
  - intros E. rewrite E, upd_other, upd_same in Hready by done. done.
Qed.

(** ** A small system: three shells, and a program that the first one runs *)

Definition demo_tasks : tasks :=
  Tasks 0 [0; 1; 2] (fun _ => true) (fun i => unwind ready_stacks (get_kstack_address i - 56)) (fun _ => None) (fun _ => None).

Lemma demo_represents : exists pages,
  represents demo_layout 0x401000 (demo_switch pages) (demo_switch pages) demo_tasks.
Proof.
  destruct (booted_ok demo_layout zero_paging [] demo_layout_ok zero_paging_sized ltac:(constructor)) as (pages0 & _ & Hok0).
  destruct (switch_paging_ok demo_layout pages0 0) as (pages & _ & Hcr3 & Hok); [unfold pid_ok; lia | done|]. exists pages.
  assert (forall i b, (pcbs (pr (demo_switch pages))).[i] = Some b -> b = ready_block i /\ 0 <= i < 6) as Hb.
  { intros i b H. pose proof (zget_Some_range _ _ _ H) as Hr. change (Z.of_nat (length (pcbs (pr (demo_switch pages))))) with 6 in Hr.
    split; [|done]. assert (i = 0 \/ i = 1 \/ i = 2 \/ i = 3 \/ i = 4 \/ i = 5) as Hi by lia.
    destruct Hi as [-> | [-> | [-> | [-> | [-> | ->]]]]]; injection H as <-; done. }
  assert (forall i, i ∈ [0; 1; 2] -> i = 0 \/ i = 1 \/ i = 2) as Hq by (intros i; elems; rewrite ?elem_of_nil; tauto).
  assert (forall i, 0 <= i < 3 -> i ∈ [0; 1; 2]) as Hq' by (intros i Hi; elems; lia).
  split; try done; cbn [demo_tasks t_cur t_queue t_ready t_ctx t_parent t_status].
  - split; try done; [apply demo_ring | by left | split; [done | | done] | | |].
    + repeat constructor; eexists; (split; [reflexivity | done]).
    + intros i Hi. by destruct (Hq i (Hq' i Hi)) as [-> | [-> | ->]].
    + intros i Hi. by destruct (Hq i Hi) as [-> | [-> | ->]].
    + intros i b [-> _]%Hb. done.
  - intros i Hi Hn. assert (i = 3 \/ i = 4 \/ i = 5) as [-> | [-> | ->]] by (assert (~ 0 <= i < 3) by auto; lia); done.
  - intros i Hi. by destruct (Hq i Hi) as [-> | [-> | ->]].
  - intros i b Hi [-> _]%Hb. split_and!; [done | by destruct (Hq i Hi) as [-> | [-> | ->]] | apply demo_files_ops | done].
  - intros i b Hi Hne [-> _]%Hb. destruct (Hq i Hi) as [-> | [-> | ->]]; [done | |]; split; vm_compute; done.
  - split; try done; cbn [t_cur t_queue t_ready t_parent]; try (by left).
    + apply (bool_decide_unpack _). vm_compute. done.
    + intros i Hi. destruct (Hq i Hi) as [-> | [-> | ->]]; lia.
    + intros i Hi H2. destruct (Hq i Hi) as [-> | [-> | ->]]; lia.
Qed.

(** The kernel at work for process [c]. *)
Definition demo_in_kernel (c : Z) : user_regs :=
  UserRegs 1 2 3 4 (get_kstack_address c - 100) 5 6 (Iret 0x401234 KERNEL_CS 0x202 (get_kstack_address c - 200) KERNEL_DS).
Definition demo_exec : exec_call := ExecCall (Some [97; 32; 98; 0]) demo_junk 1 2.

(** The program runs in the third time slice and halts with 5. *)
Definition demo_events : list event := [Timer (demo_regs 3 4); Timer (demo_in_kernel 2); Halt 5 0x7f0000 (demo_in_kernel 3)].

Lemma demo_names pages : names_program (demo_switch pages) demo_exec demo_inode.
Proof.
  apply (names_program_ext (demo_state pages)); [done | done|].
  exists 1, [97], 32, ([98] ++ 0 :: replicate 124 7), [98], [98; 0].
  split; [reflexivity|]. split; [apply demo_program|]. split; [vm_compute; reflexivity|]. split; [vm_compute; split; discriminate|].
  split; [vm_compute; reflexivity|]. split; [repeat constructor; lia|]. split; [lia|]. split; [cbn; lia|].
  split; [vm_compute; reflexivity|]. split; [|cbn; lia]. eexists. split; [reflexivity|]. repeat constructor; lia.
Qed.

(** A step that passes the processor on is the only one. *)
Lemma pass_on_eq q r a n r' a' :
  find (t_ready a) (after (t_cur a) (t_queue a)) = Some n -> pass_on q r a = Some (r', a') ->
  let ctx := upd (t_cur a) (kept (t_cur a) r) (t_ctx a) in
  r' = ctx n /\ a' = Tasks n q (t_ready a) ctx (t_parent a) (t_status a).
Proof. unfold pass_on. intros ->. rewrite some_bind. by intros [= <- <-]. Qed.

Ltac demo_pass n :=
  match goal with H : pass_on _ _ _ = Some _ |- _ => apply (pass_on_eq _ _ _ n) in H as [-> ->]; [|reflexivity] end.

Lemma demo_execute_step pages a r o a1 :
  new_number a = Some 3 -> task_step (demo_switch pages) a (Execute demo_exec r) o a1 ->
  exists r0 r', o = Some (t_cur a1, r') /\ pass_on (t_queue a ++ [3]) r (spawn 3 r0 a) = Some (r', a1).
Proof.
  intros Hnew H. inversion H as [| x r1 p n r0 r' a' Hx Hn Hf Hp | x r1 [Hr | [Hr | Hr]] | | |]; subst; [| congruence | discriminate |].
  - assert (n = 3) as -> by congruence. by exists r0, r'.
  - exfalso. destruct Hr as (w & t & rest & E & _ & Hw & Hne & _ & _ & _ & Hno). cbn [demo_exec x_command] in E. injection E as E.
    destruct w as [|c0 [|c1 w]]; [exact (Hne eq_refl) | |].
    + injection E as <- <- <-. destruct Hno as [Hno | (j & q & Hpf & Hname & Helf)]; [vm_compute in Hno; discriminate|].
      pose proof (lookup_own_name _ _ _ Hpf) as Ej. rewrite Hname in Ej. vm_compute in Ej. injection Ej as <-.
      destruct (pf_file _ _ _ Hpf) as [Hq _]. vm_compute in Hq. subst q.
      assert (forall b : bool, b = true -> b = false -> False) as Hb by (intros []; discriminate). apply (Hb _ eq_refl Helf).
    + injection E as <- <- _. apply Forall_cons in Hw as [_ Hw]. apply Forall_cons in Hw as [Hw _]. unfold word_char in Hw. lia.
Qed.

(** Take the only step there is. *)
Ltac demo_step n :=
  match goal with
  | H : task_step _ _ (Execute _ _) _ _ |- _ => apply demo_execute_step in H as (? & ? & -> & ?); [demo_pass n | reflexivity]
  | H : task_step _ _ (Timer _) _ _ |- _ => inversion H; subst; clear H; demo_pass n
  | H : task_step _ _ (Halt _ _ _) _ _ |- _ =>
      inversion H as [| | | ? ? ? ? ? ? _ Hpar ? | ? ? ? Hle |]; subst; clear H; [injection Hpar as <-; demo_pass n | by cbn in Hle]
  end.
Ltac demo_next := match goal with H : task_run _ _ _ _ _ |- _ => inversion H; subst; clear H end.

Lemma demo_allowed pages : allowed demo_layout (demo_switch pages) demo_tasks (Execute demo_exec (demo_in_kernel 0) :: demo_events).
Proof.
  constructor; [do 3 right; split; [exists demo_inode; apply demo_names | by apply (bool_decide_unpack _)]|].
  intros o1 a1 H1. demo_step 1. unfold demo_events. constructor; [by apply (bool_decide_unpack _)|].
  intros o2 a2 H2. demo_step 2. constructor; [by apply (bool_decide_unpack _)|].
  intros o3 a3 H3. demo_step 3. constructor; [left; split; [cbn; lia | by apply (bool_decide_unpack _)]|]. intros. constructor.
Qed.

(** The run of the machine: the other shells, the program, and the first shell again. *)
Lemma demo_trace pages tr a' :
  task_run (demo_switch pages) demo_tasks (Execute demo_exec (demo_in_kernel 0) :: demo_events) tr a' ->
  exists r1 r2 r3 r4, tr = [Entry 0 (Execute demo_exec (demo_in_kernel 0)) (Some (1, r1)); Entry 1 (Timer (demo_regs 3 4)) (Some (2, r2));
    Entry 2 (Timer (demo_in_kernel 2)) (Some (3, r3)); Entry 3 (Halt 5 0x7f0000 (demo_in_kernel 3)) (Some (0, r4))].
Proof.
  unfold demo_events. intros H. demo_next. demo_step 1. demo_next. demo_step 2. demo_next. demo_step 3. demo_next. demo_step 0. demo_next.
  by eexists _, _, _, _.
Qed.

Lemma demo_comes_back r1 r2 r3 r4 e1 e2 e3 e4 :
  comes_back 0 [Entry 0 e1 (Some (1, r1)); Entry 1 e2 (Some (2, r2)); Entry 2 e3 (Some (3, r3)); Entry 3 e4 (Some (0, r4))] r4.
Proof.
  eexists [_; _; _], 3, e4. split; [reflexivity|]. intros en. rewrite !elem_of_cons, elem_of_nil.
  by intros [-> | [-> | [-> | []]]] (r & [=]).
Qed.

(** ** Properties *)

(** C3: The kernel refines an abstract machine of processes that come and go: from a state that
    stands for such a machine, every sequence of timer interrupts, of system calls [execute] and
    [halt] and of other work that the machine allows runs to its end, resumes the processes that
    the machine says, with the registers it keeps for them, and ends in a state that stands for
    the machine again: new processes start at their entry point in user mode, with the lowest
    free number; a process waits from its [execute] on until its child halts; the numbers of
    processes that have halted are free again; and some process is always ready. *)
Theorem tasks_refine ops `{!QuietOps ops} L ret_addr pit_ret locals k0 es k a :
  u32_range_of pit_ret -> represents L pit_ret k0 k a -> allowed L k0 a es ->
  exists tr k' a', kernel_run ops L ret_addr pit_ret locals es k = Some (tr, k') /\ task_run k0 a es tr a' /\
    represents L pit_ret k0 k' a'.
Proof. intros Hret H Hal. by apply run_simulated. Qed.

Lemma tasks_refine_witness :
  exists pages tr k', kernel_run demo_ops demo_layout 0x402000 0x401000 32 (Execute demo_exec (demo_in_kernel 0) :: demo_events) (demo_switch pages)
    = Some (tr, k') /\ map en_actor tr = [0; 1; 2; 3].
Proof.
  destruct demo_represents as (pages & Hrep).
  destruct (tasks_refine demo_ops demo_layout 0x402000 0x401000 32 (demo_switch pages) (Execute demo_exec (demo_in_kernel 0) :: demo_events)
    (demo_switch pages) demo_tasks) as (tr & k' & a' & E & Hrun & _); [unfold u32_range_of; lia | exact Hrep | apply demo_allowed |].
  exists pages, tr, k'. split; [exact E|]. destruct (demo_trace pages tr a' Hrun) as (r1 & r2 & r3 & r4 & ->). reflexivity.
Defined.

(** C4: [execute] is synchronous: a process that starts a program is not resumed before the
    program, whose process has the lowest free number [n], has halted, whatever the other
    processes do in the meantime; when it is resumed, it is in the middle of its system call
    with its registers, and what the call returns is the status the program halted with. *)
Theorem execute_waits ops `{!QuietOps ops} L ret_addr pit_ret locals k0 k a x r p n es tr r' k' :
  u32_range_of pit_ret -> represents L pit_ret k0 k a ->
  names_program k0 x p -> new_number a = Some n -> in_kernel (t_cur a) r -> allowed L k0 a (Execute x r :: es) ->
  kernel_run ops L ret_addr pit_ret locals (Execute x r :: es) k = Some (tr, k') -> comes_back (t_cur a) tr r' ->
  r' = kept (t_cur a) r /\
  exists tr1 st eb rh o tr2, tr = tr1 ++ Entry n (Halt st eb rh) o :: tr2 /\
    (forall en, en ∈ tr1 -> ~ (en_actor en = n /\ is_halt (en_event en))) /\
    curr_process (pr k') = Some (t_cur a) /\ execute_result k' = Some (halt_value (u8 st)).
Proof.
  intros Hret H Hx Hn Hi Hal Hrun Hcb. pose proof (rp_family _ _ _ _ _ H) as Hf.
  destruct (execute_simulated ops L ret_addr pit_ret locals k0 Hret k a x r p n H Hx Hn Hi) as (r0 & r1 & a1 & k1 & Hfr & Hp & E & H1).
  destruct (spawn_waiting a n r0 r r1 _ a1 Hf Hn Hp eq_refl) as [Hw Hne].
  assert (task_step k0 a (Execute x r) (Some (t_cur a1, r1)) a1) as Hs by (by eapply execute_step).
  inversion Hal as [|? ? ? He Hes]; subst.
  destruct (run_simulated ops L ret_addr pit_ret locals k0 Hret es k1 a1 H1 (Hes _ _ Hs)) as (tr1 & k2 & a2 & E2 & Hr2 & H2).
  cbn [kernel_run] in Hrun. rewrite (sy_curr _ _ _ _ (rp_system _ _ _ _ _ H)), some_bind, E, some_bind, E2, some_bind in Hrun.
  injection Hrun as <- <-. apply comes_back_cons in Hcb as [[_ Er] | [_ Hcb]]; [cbn in Er; congruence|].
  destruct (waiting_run L k0 _ n _ r' es a1 tr1 a2 (rp_family _ _ _ _ _ H1) Hw (Hes _ _ Hs) Hr2 Hcb)
    as (-> & Hcur & t1 & st & eb & rh & o & t2 & -> & Hall & Hst).
  split; [done|]. exists (Entry (t_cur a) (Execute x r) (Some (t_cur a1, r1)) :: t1), st, eb, rh, o, t2. split; [done|].
  split; [|pose proof (rp_system _ _ _ _ _ H2) as Hsys; destruct (system_member _ _ _ _ _ Hsys (sy_in _ _ _ _ Hsys)) as (_ & b & Eb & _)].
  - intros en [-> | Hen]%elem_of_cons; [intros [_ []] | auto].
  - rewrite <- Hcur. split; [apply (sy_curr _ _ _ _ Hsys)|]. unfold execute_result. rewrite (sy_curr _ _ _ _ Hsys), some_bind, Eb, some_bind.
    destruct (rp_blocks _ _ _ _ _ H2 _ b (sy_in _ _ _ _ Hsys) Eb) as (_ & _ & _ & Hv). f_equal. apply Hv. by rewrite Hcur.
Qed.

Lemma execute_waits_witness :
  exists pages tr k', kernel_run demo_ops demo_layout 0x402000 0x401000 32 (Execute demo_exec (demo_in_kernel 0) :: demo_events) (demo_switch pages)
    = Some (tr, k') /\ execute_result k' = Some 5.
Proof.
  destruct demo_represents as (pages & Hrep).
  destruct (run_simulated demo_ops demo_layout 0x402000 0x401000 32 (demo_switch pages) ltac:(unfold u32_range_of; lia)
    (Execute demo_exec (demo_in_kernel 0) :: demo_events) (demo_switch pages) demo_tasks Hrep (demo_allowed pages)) as (tr & k' & a' & E & Hrun & _).
  destruct (demo_trace pages tr a' Hrun) as (r1 & r2 & r3 & r4 & ->). exists pages. eexists. exists k'. split; [exact E|].
  destruct (execute_waits demo_ops demo_layout 0x402000 0x401000 32 (demo_switch pages) (demo_switch pages) demo_tasks demo_exec (demo_in_kernel 0)
    demo_inode 3 demo_events _ r4 k' ltac:(unfold u32_range_of; lia) Hrep (demo_names pages) eq_refl ltac:(by apply (bool_decide_unpack _))
    (demo_allowed pages) E (demo_comes_back _ _ _ _ _ _ _ _)) as (_ & tr1 & st & eb & rh & o & tr2 & Etr & _ & _ & Hres).
  rewrite Hres. destruct tr1 as [|? [|? [|? [|? [|? tr1]]]]]; cbn [app] in Etr; try discriminate Etr. injection Etr; intros; subst; reflexivity.
Defined.

(** C6: A process that is interrupted by the timer, in its program or in a system call, and gets
    the processor back, after other processes ran, started programs and halted, goes on with its
    instruction pointer, flags, stack and registers as they were, but for [ebx], which the
    linkage overwrites with the address of the interrupt frame before it saves it. *)
Theorem preempted_process_resumes ops `{!QuietOps ops} L ret_addr pit_ret locals k0 k a r es tr r' k' :
  u32_range_of pit_ret -> represents L pit_ret k0 k a -> allowed L k0 a (Timer r :: es) ->
  kernel_run ops L ret_addr pit_ret locals (Timer r :: es) k = Some (tr, k') -> comes_back (t_cur a) tr r' ->
  r' = set_ebx (frame_addr (r_frame r) (get_kstack_address (t_cur a))) r.
Proof.
  intros Hret H Hal Hrun Hcb. pose proof (rp_family _ _ _ _ _ H) as Hf. change (r' = kept (t_cur a) r).
  destruct (run_simulated ops L ret_addr pit_ret locals k0 Hret _ k a H Hal) as (tr1 & k1 & a2 & E & Hr & _).
  rewrite E in Hrun. injection Hrun as -> ->. inversion Hr as [|? ? o a1 ? tr1 ? Hs Hr1]; subst. inversion Hal as [|? ? ? He Hes]; subst.
  inversion Hs as [? r1 ? Hp | | | | |]; subst. apply pass_on_inv in Hp as (Hin & _ & Er & Ea).
  assert (t_ctx a1 (t_cur a) = kept (t_cur a) r) as Hctx by (rewrite Ea; apply upd_same).
  apply comes_back_cons in Hcb as [[_ Eo] | [Hno Hcb]].
  - cbn [en_resumed] in Eo. injection Eo as Ec <-. rewrite Er, Ec. apply upd_same.
  - rewrite <- Hctx. apply (context_run L k0 (t_cur a) r' es a1 tr1 a2); try done; [by eapply family_step | | | by eapply Hes].
    + rewrite Ea. apply (fm_cur _ Hf).
    + intros E'. apply Hno. rewrite E'. by eexists.
Qed.

(** The first shell is interrupted, the second one starts a program and is suspended. *)
Definition demo_preempted : list event := [Execute demo_exec (demo_in_kernel 1); Timer (demo_in_kernel 2); Timer (demo_regs 5 6)].

Lemma demo_preempted_allowed pages : allowed demo_layout (demo_switch pages) demo_tasks (Timer (demo_regs 3 4) :: demo_preempted).
Proof.
  constructor; [by apply (bool_decide_unpack _)|]. intros o1 a1 H1. demo_step 1. unfold demo_preempted.
  constructor; [do 3 right; split; [exists demo_inode; apply demo_names | by apply (bool_decide_unpack _)]|].
  intros o2 a2 H2. demo_step 2. constructor; [by apply (bool_decide_unpack _)|].
  intros o3 a3 H3. demo_step 3. constructor; [by apply (bool_decide_unpack _)|]. intros. constructor.
Qed.

Lemma preempted_process_resumes_witness :
  exists pages tr k' r', kernel_run demo_ops demo_layout 0x402000 0x401000 32 (Timer (demo_regs 3 4) :: demo_preempted) (demo_switch pages)
    = Some (tr, k') /\ map en_actor tr = [0; 1; 2; 3] /\ (en_resumed <$> last tr) = Some (Some (0, r')) /\
    r' = set_ebx (get_kstack_address 0 - 20) (demo_regs 3 4).
Proof.
  destruct demo_represents as (pages & Hrep).
  destruct (run_simulated demo_ops demo_layout 0x402000 0x401000 32 (demo_switch pages) ltac:(unfold u32_range_of; lia)
    (Timer (demo_regs 3 4) :: demo_preempted) (demo_switch pages) demo_tasks Hrep (demo_preempted_allowed pages)) as (tr & k' & a' & E & Hrun & _).
  unfold demo_preempted in Hrun. demo_next. demo_step 1. demo_next. demo_step 2. demo_next. demo_step 3. demo_next. demo_step 0. demo_next.
  exists pages. eexists. exists k'. eexists. split; [exact E|]. split; [reflexivity|]. split; [reflexivity|].
  exact (preempted_process_resumes demo_ops demo_layout 0x402000 0x401000 32 (demo_switch pages) (demo_switch pages) demo_tasks (demo_regs 3 4)
    demo_preempted _ _ k' ltac:(unfold u32_range_of; lia) Hrep (demo_preempted_allowed pages) E (demo_comes_back _ _ _ _ _ _ _ _)).
Defined.

(** C13: No process that is ready starves: it is resumed by the ninth switch of processes,
    whatever the other processes do, starting programs, halting and being interrupted; in
    particular a process whose child has halted gets the result of its [execute] by then. *)
Theorem ready_process_runs ops `{!QuietOps ops} L ret_addr pit_ret locals k0 k a c es tr k' :
  u32_range_of pit_ret -> represents L pit_ret k0 k a -> allowed L k0 a es ->
  c ∈ t_queue a -> t_ready a c = true -> c <> t_cur a ->
  kernel_run ops L ret_addr pit_ret locals es k = Some (tr, k') -> 8 < turns tr ->
  exists en, en ∈ tr /\ resumes c en.
Proof.
  intros Hret H Hal Hc Hr Hcc Hrun Ht. pose proof (rp_family _ _ _ _ _ H) as Hf.
  destruct (run_simulated ops L ret_addr pit_ret locals k0 Hret es k a H Hal) as (tr1 & k1 & a1 & E & Htr & _).
  rewrite E in Hrun. injection Hrun as -> ->. destruct (ready_waits c a Hf Hc Hr Hcc) as (X & Hw & Hp).
  destruct (patience_run k0 c es X a tr a1 Hf Hw Htr) as [|Hle]; [done | lia].
Qed.

Definition demo_ticks : list event := replicate 9 (Timer (demo_regs 3 4)).

Lemma ticks_allowed L k0 r n : regs_ok r -> user_mode (r_frame r) = true -> forall a, allowed L k0 a (replicate n (Timer r)).
Proof.
  intros Hr Hu. induction n as [|n IH]; intros a; cbn [replicate]; constructor; [|auto]. split; [done | by left].
Qed.

Lemma ticks_turns k0 r n : forall a tr a', task_run k0 a (replicate n (Timer r)) tr a' -> turns tr = Z.of_nat n.
Proof.
  induction n as [|n IH]; intros a tr a' H; cbn [replicate] in H; inversion H as [|? ? o a1 ? tr1 ? Hs H1]; subst; [done|].
  inversion Hs; subst. apply IH in H1. unfold turns in *. cbn [fold_right]. rewrite H1. cbn [switches en_resumed]. lia.
Qed.

Lemma ready_process_runs_witness :
  exists pages tr k', kernel_run demo_ops demo_layout 0x402000 0x401000 32 demo_ticks (demo_switch pages) = Some (tr, k') /\
    exists en, en ∈ tr /\ resumes 2 en.
Proof.
  destruct demo_represents as (pages & Hrep).
  destruct (run_simulated demo_ops demo_layout 0x402000 0x401000 32 (demo_switch pages) ltac:(unfold u32_range_of; lia)
    demo_ticks (demo_switch pages) demo_tasks Hrep ltac:(by apply ticks_allowed; [apply (bool_decide_unpack _) |])) as (tr & k' & a' & E & Hrun & _).
  exists pages, tr, k'. split; [exact E|].
  apply (ready_process_runs demo_ops demo_layout 0x402000 0x401000 32 (demo_switch pages) (demo_switch pages) demo_tasks 2 demo_ticks tr k');
    [unfold u32_range_of; lia | exact Hrep | by apply ticks_allowed; [apply (bool_decide_unpack _) |]
    | apply (bool_decide_unpack _); reflexivity | reflexivity | discriminate | exact E |].
  rewrite (ticks_turns _ _ _ _ _ _ Hrun). reflexivity.
Defined.
