(* ===== verification/Kernel.v ===== *)
(** * Descriptor tables, [student-distrib/kernel.c] and [student-distrib/x86_desc.h]

    The descriptors [entry] builds on its stack and stores in the global and the interrupt
    descriptor table, and how the processor reads them.  The addresses of the assembly
    entry points come from the linker and are a parameter. *)

From stdpp Require Import base list option.
From Stdlib Require Import ZArith Lia ZifyBool.
From S2P Require Import Prelude I8259 Process Exceptions.

Definition TSS_SIZE : Z := 104.
Definition NUM_VEC : Z := 256.

(** ** Segment descriptors

    A [seg_desc_t] is its 64 bits; the names are those of the fields of the struct. *)

Definition seg_desc_seg_lim_15_00 := set_field 0 16.
Definition seg_desc_base_15_00 := set_field 16 16.
Definition seg_desc_base_23_16 := set_field 32 8.
Definition seg_desc_type := set_field 40 4.
Definition seg_desc_sys := set_field 44 1.
Definition seg_desc_dpl := set_field 45 2.
Definition seg_desc_present := set_field 47 1.
Definition seg_desc_seg_lim_19_16 := set_field 48 4.
Definition seg_desc_avail := set_field 52 1.
Definition seg_desc_reserved := set_field 53 1.
Definition seg_desc_opsize := set_field 54 1.
Definition seg_desc_granularity := set_field 55 1.
Definition seg_desc_base_31_24 := set_field 56 8.

(** [SET_LDT_PARAMS] and [SET_TSS_PARAMS] have the same text. *)
Definition SET_LDT_PARAMS (addr lim d : Z) : Z :=
  let d := seg_desc_base_31_24 (Z.shiftr (Z.land (u32 addr) 0xFF000000) 24) d in
  let d := seg_desc_base_23_16 (Z.shiftr (Z.land (u32 addr) 0x00FF0000) 16) d in
  let d := seg_desc_base_15_00 (Z.land (u32 addr) 0x0000FFFF) d in
  let d := seg_desc_seg_lim_19_16 (Z.shiftr (Z.land lim 0x000F0000) 16) d in
  seg_desc_seg_lim_15_00 (Z.land lim 0x0000FFFF) d.

Definition SET_TSS_PARAMS : Z -> Z -> Z -> Z := SET_LDT_PARAMS.

(** The entry for the LDT; [the_ldt_desc] is what the stack held. *)
Definition ldt_entry (ldt ldt_size the_ldt_desc : Z) : Z :=
  let d := seg_desc_granularity 0 the_ldt_desc in
  let d := seg_desc_opsize 1 d in
  let d := seg_desc_reserved 0 d in
  let d := seg_desc_avail 0 d in
  let d := seg_desc_present 1 d in
  let d := seg_desc_dpl 0 d in
  let d := seg_desc_sys 0 d in
  let d := seg_desc_type 2 d in
  SET_LDT_PARAMS ldt ldt_size d.

Definition tss_entry (tss tss_size the_tss_desc : Z) : Z :=
  let d := seg_desc_granularity 0 the_tss_desc in
  let d := seg_desc_opsize 0 d in
  let d := seg_desc_reserved 0 d in
  let d := seg_desc_avail 0 d in
  let d := seg_desc_seg_lim_19_16 (Z.land TSS_SIZE 0x000F0000) d in
  let d := seg_desc_present 1 d in
  let d := seg_desc_dpl 0 d in
  let d := seg_desc_sys 0 d in
  let d := seg_desc_type 9 d in
  let d := seg_desc_seg_lim_15_00 (Z.land TSS_SIZE 0x0000FFFF) d in
  SET_TSS_PARAMS tss tss_size d.

(** How the processor reads a segment descriptor. *)
Record segment := Segment {
  segment_base : Z;
  segment_limit : Z;
  segment_type : Z;
  segment_sys : Z;
  segment_dpl : Z;
  segment_present : Z;
  segment_flags : Z
}.

Definition decode_segment (d : Z) : segment :=
  Segment (get_field 16 16 d + 2 ^ 16 * get_field 32 8 d + 2 ^ 24 * get_field 56 8 d)
          (get_field 0 16 d + 2 ^ 16 * get_field 48 4 d)
          (get_field 40 4 d) (get_field 44 1 d) (get_field 45 2 d) (get_field 47 1 d)
          (get_field 52 1 d + 2 * get_field 53 1 d + 4 * get_field 54 1 d + 8 * get_field 55 1 d).

(** ** Interrupt descriptors *)

Definition idt_desc_offset_15_00 := set_field 0 16.
Definition idt_desc_seg_selector := set_field 16 16.
Definition idt_desc_reserved4 := set_field 32 8.
Definition idt_desc_reserved3 := set_field 40 1.
Definition idt_desc_reserved2 := set_field 41 1.
Definition idt_desc_reserved1 := set_field 42 1.
Definition idt_desc_size := set_field 43 1.
Definition idt_desc_reserved0 := set_field 44 1.
Definition idt_desc_dpl := set_field 45 2.
Definition idt_desc_present := set_field 47 1.
Definition idt_desc_offset_31_16 := set_field 48 16.

Definition SET_IDT_ENTRY (handler d : Z) : Z :=
  let d := idt_desc_offset_31_16 (Z.shiftr (Z.land (u32 handler) 0xFFFF0000) 16) d in
  idt_desc_offset_15_00 (Z.land (u32 handler) 0xFFFF) d.

(** The assembly entry points of [assembly_linkage.S], by the handler they call. *)
Inductive linkage :=
  | exn_linkage (e : exn)
  | pit_int_linkage | keyboard_int_linkage | rtc_int_linkage | system_call_linkage.

#[export] Instance linkage_eq_dec : EqDecision linkage.
Proof. solve_decision. Defined.

(** [SET_IDT_ENTRY(the_idt_desc, h); idt[v] = the_idt_desc;] *)
Definition install (addr : linkage -> Z) (v : Z) (h : linkage) (s : Z * list Z) : option (Z * list Z) :=
  let d := SET_IDT_ENTRY (addr h) s.1 in
  idt ← (s.2).[v <- d];
  Some (d, idt).

Definition first_gate (the_idt_desc : Z) : Z :=
  let d := idt_desc_seg_selector KERNEL_CS the_idt_desc in
  let d := idt_desc_reserved4 0 d in
  let d := idt_desc_reserved3 1 d in
  let d := idt_desc_reserved2 1 d in
  let d := idt_desc_reserved1 1 d in
  let d := idt_desc_size 1 d in
  let d := idt_desc_reserved0 0 d in
  let d := idt_desc_dpl 0 d in
  idt_desc_present 1 d.

(** The part of [entry] that fills the table. *)
Definition init_idt (addr : linkage -> Z) (the_idt_desc : Z) (idt : list Z) : option (list Z) :=
  let put := install addr in
  let s := (first_gate the_idt_desc, idt) in
  s ← put 0 (exn_linkage divide_by_zero) s;
  s ← put 1 (exn_linkage debugger) s;
  s ← put 2 (exn_linkage NMI) s;
  s ← put 3 (exn_linkage breakpoint) s;
  s ← put 4 (exn_linkage overflow) s;
  s ← put 5 (exn_linkage bounds) s;
  s ← put 6 (exn_linkage invalid_opcode) s;
  s ← put 7 (exn_linkage coprocessor) s;
  s ← put 8 (exn_linkage double_fault) s;
  s ← put 9 (exn_linkage coprocessor_segment) s;
  s ← put 10 (exn_linkage invalid_tss) s;
  s ← put 11 (exn_linkage segment_not_present) s;
  s ← put 12 (exn_linkage stack_segment_fault) s;
  s ← put 13 (exn_linkage general_protection_fault) s;
  s ← put 14 (exn_linkage page_fault) s;
  s ← put 15 (exn_linkage floating_point) s;
  s ← put 16 (exn_linkage alignment_check) s;
  s ← put 17 (exn_linkage machine_check) s;
  let s := (idt_desc_reserved3 0 s.1, s.2) in
  s ← put 32 pit_int_linkage s;
  s ← put 33 keyboard_int_linkage s;
  s ← put 40 rtc_int_linkage s;
  let s := (idt_desc_dpl 3 (idt_desc_reserved3 1 s.1), s.2) in
  s ← put 128 system_call_linkage s;
  Some s.2.

(** How the processor reads a gate: [None] when it is not present. *)
Record gate := Gate {
  gate_offset : Z;
  gate_selector : Z;
  gate_type : Z;
  gate_dpl : Z
}.

Definition INTERRUPT_GATE : Z := 0xE.
Definition TRAP_GATE : Z := 0xF.

Definition decode_gate (d : Z) : option gate :=
  if get_field 47 1 d =? 1 then
    Some (Gate (get_field 0 16 d + 2 ^ 16 * get_field 48 16 d) (get_field 16 16 d)
               (get_field 40 1 d + 2 * get_field 41 1 d + 4 * get_field 42 1 d
                 + 8 * get_field 43 1 d + 16 * get_field 44 1 d)
               (get_field 45 2 d))
  else None.

(** [int n] at privilege level [cpl] goes through the gate only when its level allows. *)
Definition int_n (idt : list Z) (cpl n : Z) : option gate :=
  d ← idt.[n]; g ← decode_gate d; if cpl <=? gate_dpl g then Some g else None.

(** The exceptions of the processor by their vector. *)
Definition x86_exception (v : Z) : option linkage :=
  match v with
  | 0 => Some (exn_linkage divide_by_zero) | 1 => Some (exn_linkage debugger)
  | 2 => Some (exn_linkage NMI) | 3 => Some (exn_linkage breakpoint)
  | 4 => Some (exn_linkage overflow) | 5 => Some (exn_linkage bounds)
  | 6 => Some (exn_linkage invalid_opcode) | 7 => Some (exn_linkage coprocessor)
  | 8 => Some (exn_linkage double_fault) | 9 => Some (exn_linkage coprocessor_segment)
  | 10 => Some (exn_linkage invalid_tss) | 11 => Some (exn_linkage segment_not_present)
  | 12 => Some (exn_linkage stack_segment_fault) | 13 => Some (exn_linkage general_protection_fault)
  | 14 => Some (exn_linkage page_fault) | 16 => Some (exn_linkage floating_point)
  | 17 => Some (exn_linkage alignment_check) | 18 => Some (exn_linkage machine_check)
  | 19 => Some (exn_linkage SIMD_floating_point)
  | _ => None
  end.

(** The interrupt lines as [i8259_init] numbers them. *)
Definition irq_vector (irq : Z) : Z := if irq <? 8 then ICW2_MASTER + irq else ICW2_SLAVE + (irq - 8).

(** ** Lemmas on the fields *)

(** Read a field through the writes of others. *)
Ltac read_fields :=
  repeat first [rewrite get_set_field_same by lia | rewrite get_set_field_other by lia].

Lemma shifted_mask a lo width m :
  0 <= lo -> 0 <= width -> m = Z.shiftl (Z.ones width) lo ->
  Z.shiftr (Z.land a m) lo = get_field lo width a.
Proof.
  intros ? ? ->. unfold get_field. apply Z.bits_inj'. intros i Hi.
  rewrite Z.shiftr_spec, !Z.land_spec, Z.shiftr_spec, Z.shiftl_spec by lia.
  do 2 f_equal. lia.
Qed.

Lemma low_mask a width m :
  0 <= width -> m = Z.ones width -> Z.land a m = get_field 0 width a.
Proof. intros ? ->. unfold get_field. by rewrite Z.shiftr_0_r. Qed.

Lemma get_field_div lo width a : 0 <= lo -> 0 <= width -> get_field lo width a = (a / 2 ^ lo) mod 2 ^ width.
Proof. intros. unfold get_field. by rewrite Z.land_ones, Z.shiftr_div_pow2 by lia. Qed.

(** The parts of an address put together again. *)
Lemma offset_joined a : get_field 0 16 (u32 a) mod 2 ^ 16 + 2 ^ 16 * (get_field 16 16 (u32 a) mod 2 ^ 16) = u32 a.
Proof. rewrite !get_field_div by lia. pose proof (u32_range a). zlia. Qed.

Lemma base_joined a :
  get_field 0 16 (u32 a) mod 2 ^ 16 + 2 ^ 16 * (get_field 16 8 (u32 a) mod 2 ^ 8)
    + 2 ^ 24 * (get_field 24 8 (u32 a) mod 2 ^ 8) = u32 a.
Proof. rewrite !get_field_div by lia. pose proof (u32_range a). zlia. Qed.

Lemma limit_joined l :
  0 <= l < 2 ^ 20 -> get_field 0 16 l mod 2 ^ 16 + 2 ^ 16 * (get_field 16 4 l mod 2 ^ 4) = l.
Proof. intros. rewrite !get_field_div by lia. zlia. Qed.

(** [SET_LDT_PARAMS] sets base and limit and nothing else. *)
Lemma decode_set_params addr lim d :
  0 <= lim < 2 ^ 20 ->
  decode_segment (SET_LDT_PARAMS addr lim d) =
  Segment (u32 addr) lim (get_field 40 4 d) (get_field 44 1 d) (get_field 45 2 d) (get_field 47 1 d)
    (get_field 52 1 d + 2 * get_field 53 1 d + 4 * get_field 54 1 d + 8 * get_field 55 1 d).
Proof.
  intros Hl. unfold SET_LDT_PARAMS, decode_segment,
    seg_desc_base_31_24, seg_desc_base_23_16, seg_desc_base_15_00, seg_desc_seg_lim_19_16, seg_desc_seg_lim_15_00.
  rewrite (shifted_mask _ 24 8 0xFF000000), (shifted_mask _ 16 8 0x00FF0000),
    (shifted_mask _ 16 4 0x000F0000), !(low_mask _ 16 0x0000FFFF) by done.
  read_fields. rewrite base_joined, limit_joined by done. done.
Qed.

(** [SET_IDT_ENTRY] sets the offset of a gate and nothing else. *)
Lemma decode_set_idt h d sel ty dp :
  (exists o, decode_gate d = Some (Gate o sel ty dp)) ->
  decode_gate (SET_IDT_ENTRY h d) = Some (Gate (u32 h) sel ty dp).
Proof.
  intros [o E]. unfold decode_gate in E. destruct (_ =? 1) eqn:Ep in E; [|done]. simplify_eq.
  unfold decode_gate, SET_IDT_ENTRY, idt_desc_offset_31_16, idt_desc_offset_15_00.
  rewrite (shifted_mask _ 16 16 0xFFFF0000), (low_mask _ 16 0xFFFF) by done.
  read_fields. by rewrite Ep, offset_joined.
Qed.

(** ** Lemmas on the table *)

(** A descriptor whose gate is present with these attributes, whatever its offset. *)
Definition attrs (d ty dp : Z) : Prop := exists o, decode_gate d = Some (Gate o KERNEL_CS ty dp).

(** The table holds the gates [T] gives. *)
Definition table_is (addr : linkage -> Z) (idt : list Z) (T : Z -> option (linkage * Z * Z)) : Prop :=
  length idt = Z.to_nat NUM_VEC /\
  forall v, 0 <= v < NUM_VEC -> exists d, idt.[v] = Some d /\
    decode_gate d = ('(h, ty, dp) ← T v; Some (Gate (u32 (addr h)) KERNEL_CS ty dp)).

Lemma install_spec addr v h d idt T ty dp :
  0 <= v < NUM_VEC -> attrs d ty dp -> table_is addr idt T ->
  exists d' idt', install addr v h (d, idt) = Some (d', idt') /\ attrs d' ty dp /\
    table_is addr idt' (fun w => if w =? v then Some (h, ty, dp) else T w).
Proof.
  intros Hv Hd [Hlen HT]. unfold install. cbn [fst snd].
  pose proof (decode_set_idt (addr h) d _ _ _ Hd) as Hg.
  destruct (idt.[v <- SET_IDT_ENTRY (addr h) d]) as [idt'|] eqn:E; [|rewrite zset_in in E by (unfold NUM_VEC in *; lia); done].
  rewrite some_bind. eexists _, _. split_and!; [done | by eexists |].
  split; [by rewrite (zset_length _ _ _ _ E)|]. intros w Hw. rewrite (zget_zset _ _ _ _ _ E).
  case_if; [|by apply HT]. eexists. by split; [|rewrite Hg].
Qed.

Lemma first_gate_attrs d : attrs (first_gate d) TRAP_GATE 0.
Proof.
  eexists. unfold decode_gate, first_gate, idt_desc_seg_selector, idt_desc_reserved4, idt_desc_reserved3, idt_desc_reserved2,
    idt_desc_reserved1, idt_desc_size, idt_desc_reserved0, idt_desc_dpl, idt_desc_present.
  read_fields. done.
Qed.

Lemma attrs_bits d ty dp : attrs d ty dp <->
  get_field 47 1 d = 1 /\ get_field 16 16 d = KERNEL_CS /\ dp = get_field 45 2 d /\
  ty = get_field 40 1 d + 2 * get_field 41 1 d + 4 * get_field 42 1 d + 8 * get_field 43 1 d + 16 * get_field 44 1 d.
Proof.
  unfold attrs, decode_gate. destruct (Z.eqb_spec (get_field 47 1 d) 1).
  - split; [intros [o E]; by simplify_eq | intros (_ & -> & -> & ->); by eexists].
  - split; [by intros [] | by intros []].
Qed.

(** The bit between trap and interrupt gates. *)
Lemma attrs_reserved3 b d ty dp :
  0 <= b < 2 -> attrs d ty dp -> attrs (idt_desc_reserved3 b d) (2 * (ty / 2) + b) dp.
Proof.
  rewrite !attrs_bits. intros Hb (Hp & Hs & -> & ->). unfold idt_desc_reserved3. read_fields. split_and!; [done..|].
  pose proof (get_field_range 40 1 d). change (2 ^ 1) with 2 in *. zlia.
Qed.

Lemma attrs_dpl p d ty dp : 0 <= p < 4 -> attrs d ty dp -> attrs (idt_desc_dpl p d) ty p.
Proof.
  rewrite !attrs_bits. intros Hb (Hp & Hs & -> & ->). unfold idt_desc_dpl. read_fields. split_and!; [done..| |done].
  change (2 ^ 2) with 4. zlia.
Qed.

(** The gates [entry] installs. *)
Definition kernel_vectors (v : Z) : option (linkage * Z * Z) :=
  if v <=? 14 then h ← x86_exception v; Some (h, TRAP_GATE, 0)
  else match v with
  | 15 => Some (exn_linkage floating_point, TRAP_GATE, 0)
  | 16 => Some (exn_linkage alignment_check, TRAP_GATE, 0)
  | 17 => Some (exn_linkage machine_check, TRAP_GATE, 0)
  | 32 => Some (pit_int_linkage, INTERRUPT_GATE, 0)
  | 33 => Some (keyboard_int_linkage, INTERRUPT_GATE, 0)
  | 40 => Some (rtc_int_linkage, INTERRUPT_GATE, 0)
  | 128 => Some (system_call_linkage, TRAP_GATE, 3)
  | _ => None
  end.

(** Vectors checked one by one. *)
Lemma vectors_ext (T U : Z -> option (linkage * Z * Z)) :
  forallb (fun v => bool_decide (T v = U v)) (seqZ 0 NUM_VEC) = true ->
  forall v, 0 <= v < NUM_VEC -> T v = U v.
Proof.
  intros H v Hv. rewrite forallb_forall in H.
  apply (bool_decide_eq_true_1 (T v = U v)), H, list_elem_of_In, elem_of_seqZ. lia.
Qed.

Lemma empty_table addr : table_is addr (replicate (Z.to_nat NUM_VEC) 0) (fun _ => None).
Proof.
  split; [apply length_replicate|]. intros v Hv. exists 0. split; [|done].
  rewrite zget_lookup by lia. apply lookup_replicate_2. unfold NUM_VEC in *. lia.
Qed.

(** One step of [init_idt]. *)
Ltac install_next :=
  match goal with
  | Hd : attrs ?d ?ty ?dp, HT : table_is ?addr ?idt ?T |- context [install ?addr ?v ?h (?d, ?idt)] =>
      let d' := fresh "d" in let idt' := fresh "idt" in let Hd' := fresh "Hd" in let HT' := fresh "HT" in
      destruct (install_spec addr v h d idt T ty dp ltac:(unfold NUM_VEC; lia) Hd HT) as (d' & idt' & -> & Hd' & HT');
      rewrite some_bind; clear Hd HT; rename Hd' into Hd, HT' into HT
  end.

Lemma init_idt_spec addr junk :
  exists idt, init_idt addr junk (replicate (Z.to_nat NUM_VEC) 0) = Some idt /\ table_is addr idt kernel_vectors.
Proof.
  pose proof (empty_table addr) as HT. pose proof (first_gate_attrs junk) as Hd. unfold init_idt. cbv zeta.
  remember (replicate _ _) as idt0 eqn:Hidt. clear Hidt. remember (first_gate junk) as d0 eqn:Hd0. clear Hd0.
  do 18 install_next. cbn [fst snd].
  apply (attrs_reserved3 0) in Hd; [|lia]. change (2 * (TRAP_GATE / 2) + 0) with INTERRUPT_GATE in Hd.
  do 3 install_next. cbn [fst snd].
  apply (attrs_reserved3 1) in Hd; [|lia]. change (2 * (INTERRUPT_GATE / 2) + 1) with TRAP_GATE in Hd.
  apply (attrs_dpl 3) in Hd; [|lia].
  install_next. eexists. split; [done|]. destruct HT as [Hlen HT]. split; [done|].
  intros v Hv. destruct (HT v Hv) as (w & Ew & Hw). exists w. split; [done|]. rewrite Hw. f_equal.
  match goal with |- ?A = _ => match eval pattern v in A with ?F _ => apply (vectors_ext F kernel_vectors) end end;
    [by vm_compute | done].
Qed.

(** Only the gate of the system calls is open to user programs. *)
Lemma vectors_levels v :
  0 <= v < NUM_VEC ->
  kernel_vectors v = '(h, ty, _) ← kernel_vectors v; Some (h, ty, if v =? 128 then 3 else 0).
Proof.
  revert v. apply (vectors_ext kernel_vectors (fun v => '(h, ty, _) ← kernel_vectors v; Some (h, ty, if v =? 128 then 3 else 0))).
  vm_compute. reflexivity.
Qed.

(** ** Properties *)

(** Whatever was on the stack, [entry] fills the table with the gates of
    [kernel_vectors]: every present gate leads to the address of its entry point with the
    kernel's code segment.  The exceptions 0 to 14 get the handler of their name, and the lines
    of the timer, the keyboard and the clock get theirs behind interrupt gates, as
    [i8259_init] numbers the lines. *)
Theorem init_idt_correct addr the_idt_desc :
  exists idt, init_idt addr the_idt_desc (replicate (Z.to_nat NUM_VEC) 0) = Some idt /\
    table_is addr idt kernel_vectors /\
    (forall v h, 0 <= v <= 14 -> x86_exception v = Some h -> kernel_vectors v = Some (h, TRAP_GATE, 0)) /\
    kernel_vectors (irq_vector 0) = Some (pit_int_linkage, INTERRUPT_GATE, 0) /\
    kernel_vectors (irq_vector 1) = Some (keyboard_int_linkage, INTERRUPT_GATE, 0) /\
    kernel_vectors (irq_vector 8) = Some (rtc_int_linkage, INTERRUPT_GATE, 0).
Proof.
  destruct (init_idt_spec addr the_idt_desc) as (idt & E & HT). exists idt. split; [exact E|]. split; [exact HT|]. split; [|repeat split].
  intros v h Hv E'. unfold kernel_vectors. btrue (v <=? 14). by rewrite E'.
Qed.

(** C27: a program at privilege level 3 enters the kernel with [int] only through vector 128,
    at the entry point of the system calls, through a trap gate; every other vector is refused. *)
Theorem user_enters_by_system_call addr the_idt_desc idt n :
  init_idt addr the_idt_desc (replicate (Z.to_nat NUM_VEC) 0) = Some idt ->
  int_n idt 3 n =
    if n =? 128 then Some (Gate (u32 (addr system_call_linkage)) KERNEL_CS TRAP_GATE 3) else None.
Proof.
  intros E. destruct (init_idt_spec addr the_idt_desc) as (idt' & E' & Hlen & HT).
  rewrite E' in E. injection E as ->. clear E'. unfold int_n.
  destruct (decide (0 <= n < NUM_VEC)) as [Hn|Hn].
  - destruct (HT n Hn) as (d & -> & Hd). rewrite some_bind, Hd.
    destruct (Z.eqb_spec n 128) as [->|Hne]; [done|].
    destruct (kernel_vectors n) as [[[h ty] dp]|] eqn:Ek; [|done]. rewrite !some_bind. cbn [gate_dpl].
    pose proof (vectors_levels n Hn) as Hx. rewrite Ek, some_bind in Hx.
    rewrite (proj2 (Z.eqb_neq n 128) Hne) in Hx. by simplify_eq.
  - destruct (Z.eqb_spec n 128); [unfold NUM_VEC in *; lia|].
    destruct (idt.[n]) as [d|] eqn:Ed; [|done]. apply zget_Some_range in Ed. rewrite Hlen in Ed. unfold NUM_VEC in *. lia.
Qed.

Lemma user_enters_by_system_call_witness :
  exists idt, init_idt (fun _ => 0x400100) 0xFFFF (replicate (Z.to_nat NUM_VEC) 0) = Some idt /\
    int_n idt 3 128 = Some (Gate 0x400100 KERNEL_CS TRAP_GATE 3) /\ int_n idt 3 14 = None.
Proof.
  destruct (init_idt_spec (fun _ => 0x400100) 0xFFFF) as (idt & E & _).
  exists idt. split; [exact E|].
  split; [exact (user_enters_by_system_call (fun _ => 0x400100) 0xFFFF idt 128 E)
         | exact (user_enters_by_system_call (fun _ => 0x400100) 0xFFFF idt 14 E)].
Defined.

(** From vector 15 on the table is one off: the floating point error (16) enters the handler of
    alignment checks, the alignment check (17) that of machine checks, and machine checks (18)
    and SIMD errors (19) have no gate. *)
Theorem late_exceptions_misdirected addr the_idt_desc :
  exists idt, init_idt addr the_idt_desc (replicate (Z.to_nat NUM_VEC) 0) = Some idt /\
    (idt.[16] ≫= decode_gate) = Some (Gate (u32 (addr (exn_linkage alignment_check))) KERNEL_CS TRAP_GATE 0) /\
    (idt.[17] ≫= decode_gate) = Some (Gate (u32 (addr (exn_linkage machine_check))) KERNEL_CS TRAP_GATE 0) /\
    (idt.[18] ≫= decode_gate) = None /\ (idt.[19] ≫= decode_gate) = None /\
    map x86_exception [16; 17; 18; 19] =
      map (fun e => Some (exn_linkage e)) [floating_point; alignment_check; machine_check; SIMD_floating_point].
Proof.
  destruct (init_idt_spec addr the_idt_desc) as (idt & E & _ & HT). exists idt.
  unfold NUM_VEC in HT.
  destruct (HT 16 ltac:(lia)) as (d16 & -> & E16), (HT 17 ltac:(lia)) as (d17 & -> & E17),
    (HT 18 ltac:(lia)) as (d18 & -> & E18), (HT 19 ltac:(lia)) as (d19 & -> & E19).
  rewrite !some_bind, E16, E17, E18, E19. split; [exact E | repeat split].
Qed.

(** The descriptors of the LDT and of the task state segment hold their address and
    limit, are present at level 0, and have the types of an LDT (2) and of an available
    32-bit task state segment (9), whatever was on the stack. *)
Theorem segment_entries addr lim junk :
  0 <= lim < 2 ^ 20 ->
  decode_segment (ldt_entry addr lim junk) = Segment (u32 addr) lim 2 0 0 1 4 /\
  decode_segment (tss_entry addr lim junk) = Segment (u32 addr) lim 9 0 0 1 0.
Proof.
  intros Hl. unfold ldt_entry, tss_entry, SET_TSS_PARAMS. cbv zeta. rewrite !decode_set_params by done.
  unfold seg_desc_granularity, seg_desc_opsize, seg_desc_reserved, seg_desc_avail, seg_desc_present, seg_desc_dpl, seg_desc_sys, seg_desc_type,
    seg_desc_seg_lim_19_16, seg_desc_seg_lim_15_00.
  split; read_fields; done.
Qed.

Lemma segment_entries_witness :
  decode_segment (tss_entry 0x405000 (TSS_SIZE - 1) 0xABCDEF) = Segment 0x405000 103 9 0 0 1 0.
Proof. apply (segment_entries 0x405000 (TSS_SIZE - 1) 0xABCDEF). unfold TSS_SIZE. lia. Defined.
