(* ===== verification/Segments.v ===== *)
(** * Segmentation, [student-distrib/x86_desc.S], [x86_desc.h], [boot.S] and [kernel.c]

    The global descriptor table as it is assembled and as [entry] completes it, the task
    state segment, the loads of the table registers, the entry point [start] of the
    kernel, and the rules by which the processor accepts a selector.  With flat segments it is
    paging that confines programs; what is shown here is that the table leaves nothing else
    to a program. *)

From stdpp Require Import base list option.
From Stdlib Require Import ZArith Lia ZifyBool.
From S2P Require Import Prelude MemOps Process Schedule Linkage Kernel.

(** ** The tables of [x86_desc.S] *)

(** [gdt], from the null entry to the slots of the task state segment and of the LDT. *)
Definition gdt : list Z :=
  [0; 0; 0x00CF9A000000FFFF; 0x00CF92000000FFFF; 0x00CFFA000000FFFF; 0x00CFF2000000FFFF; 0; 0].
Definition ldt : list Z := replicate 4 0.

(** [gdt_bottom - gdt - 1] and the like. *)
Definition table_limit (t : list Z) : Z := 8 * Z.of_nat (length t) - 1.
Definition ldt_size : Z := table_limit ldt.
Definition tss_size : Z := TSS_SIZE - 1.

(** [ldt_desc_ptr = the_ldt_desc;] and [tss_desc_ptr = the_tss_desc;]. *)
Definition complete_gdt (ldt_addr tss_addr ldt_junk tss_junk : Z) : option (list Z) :=
  g ← gdt.[7 <- ldt_entry ldt_addr ldt_size ldt_junk];
  g.[6 <- tss_entry tss_addr tss_size tss_junk].

(** ** The task state segment *)

(** The members of [tss_t] in bits; the two bit fields share a half-word. *)
Inductive tss_field :=
  | prev_task_link | esp0_ | ss0_ | esp1 | ss1 | esp2 | ss2 | cr3_ | eip_ | eflags | eax_ | ecx_ | edx_ | ebx_ | esp_ | ebp_ | esi_ | edi_
  | es_ | cs_ | ss_ | ds_ | fs_ | gs_ | ldt_segment_selector | debug_trap | io_base_addr.

#[export] Instance tss_field_eq_dec : EqDecision tss_field.
Proof. solve_decision. Defined.

(** Width of a member and of the padding behind it. *)
Definition tss_t : list (tss_field * Z * Z) :=
  [(prev_task_link, 16, 16); (esp0_, 32, 0); (ss0_, 16, 16); (esp1, 32, 0); (ss1, 16, 16); (esp2, 32, 0); (ss2, 16, 16);
   (cr3_, 32, 0); (eip_, 32, 0); (eflags, 32, 0); (eax_, 32, 0); (ecx_, 32, 0); (edx_, 32, 0); (ebx_, 32, 0); (esp_, 32, 0);
   (ebp_, 32, 0); (esi_, 32, 0); (edi_, 32, 0); (es_, 16, 16); (cs_, 16, 16); (ss_, 16, 16); (ds_, 16, 16); (fs_, 16, 16); (gs_, 16, 16);
   (ldt_segment_selector, 16, 16); (debug_trap, 1, 15); (io_base_addr, 16, 0)].

Fixpoint tss_offset (f : tss_field) (l : list (tss_field * Z * Z)) : Z :=
  match l with
  | [] => 0
  | (g, w, pad) :: l' => if decide (f = g) then 0 else w + pad + tss_offset f l'
  end.
Definition tss_bits (l : list (tss_field * Z * Z)) : Z := fold_right (fun '(_, w, pad) n => w + pad + n) 0 l.

Definition store16 (m : memory) (a v : Z) : memory := store8 (store8 m (u32 a) (u8 v)) (u32 (a + 1)) (u8 (Z.shiftr v 8)).
Definition load16 (m : memory) (a : Z) : Z := m (u32 a) + 256 * m (u32 (a + 1)).

Definition tss_addr (tss : Z) (f : tss_field) : Z := tss + tss_offset f tss_t / 8.

(** The assignments of [entry]. *)
Definition init_tss (tss : Z) (m : memory) : memory :=
  let m := store16 m (tss_addr tss ldt_segment_selector) KERNEL_LDT in
  let m := store16 m (tss_addr tss ss0_) KERNEL_DS in
  store32 m (tss_addr tss esp0_) 0x800000.

(** Where the processor takes the stack of the kernel from: 4 and 8 bytes into the segment. *)
Definition tss_stack (m : memory) (tss : Z) : Z * Z := (load16 m (tss + 8), load32 m (tss + 4)).

(** ** Selectors *)

Definition rpl (sel : Z) : Z := sel mod 4.
Definition is_null (sel : Z) : bool := (sel / 4 =? 0).

(** The descriptor a selector stands for: bit 2 chooses the table, the limit bounds the index. *)
Definition descriptor (g l : list Z) (sel : Z) : option segment :=
  let t := if Z.odd (sel / 4) then l else g in
  if 8 * (sel / 8) + 7 <=? table_limit t then d ← t.[sel / 8]; Some (decode_segment d) else None.

Definition is_code (s : segment) : bool := Z.testbit (segment_type s) 3.
(** Bit 1: a readable code segment or a writable data segment. *)
Definition is_rw (s : segment) : bool := Z.testbit (segment_type s) 1.
(** Bit 2 of a code segment: conforming. *)
Definition is_conforming (s : segment) : bool := Z.testbit (segment_type s) 2.
Definition is_usable (s : segment) : bool := (segment_sys s =? 1) && (segment_present s =? 1).

(** [mov] to [ds], [es], [fs] or [gs] at level [cpl]: [None] is a fault, [Some None] a null
    selector, which can be loaded but not used. *)
Definition load_data (g l : list Z) (cpl sel : Z) : option (option segment) :=
  if is_null sel then Some None
  else
    s ← descriptor g l sel;
    if is_usable s && (negb (is_code s) || is_rw s) &&
       ((is_code s && is_conforming s) || (Z.max cpl (rpl sel) <=? segment_dpl s))
    then Some (Some s) else None.

(** [mov] to [ss]. *)
Definition load_stack (g l : list Z) (cpl sel : Z) : option segment :=
  if is_null sel then None
  else
    s ← descriptor g l sel;
    if is_usable s && negb (is_code s) && is_rw s && (rpl sel =? cpl) && (segment_dpl s =? cpl) then Some s else None.

(** A far jump within level [cpl], and [iret] to the level of the selector. *)
Definition load_code (g l : list Z) (cpl sel : Z) : option segment :=
  if is_null sel then None
  else
    s ← descriptor g l sel;
    if is_usable s && is_code s &&
       (if is_conforming s then segment_dpl s <=? cpl else (rpl sel <=? cpl) && (segment_dpl s =? cpl)) then Some s else None.

(** [lldt] and [ltr]: system descriptors of type 2 and 9 in the global table. *)
Definition load_system (ty : Z) (g : list Z) (sel : Z) : option segment :=
  s ← descriptor g [] sel;
  if (segment_sys s =? 0) && (segment_type s =? ty) && (segment_present s =? 1) then Some s else None.
Definition lldt : list Z -> Z -> option segment := load_system 2.
Definition ltr : list Z -> Z -> option segment := load_system 9.

(** [lidt (idt_desc_ptr)]: the limit and the address of the table, as the assembler put them
    down, go to the register of the processor, which then finds the gate of a vector; [None]
    is a general protection fault. *)
Definition lidt (m : memory) (desc : Z) : Z * Z := (load16 m desc, load32 m (desc + 2)).
Definition gate_at (m : memory) (idtr : Z * Z) (v : Z) : option Z :=
  if 8 * v + 7 <=? idtr.1 then Some (load32 m (idtr.2 + 8 * v) + 2 ^ 32 * load32 m (idtr.2 + 8 * v + 4)) else None.

(** The table [idt] at [base], with its description at [desc]. *)
Record table_at (m : memory) (desc base : Z) (idt : list Z) : Prop := {
  at_limit : load16 m desc = table_limit idt;
  at_base : load32 m (desc + 2) = base;
  at_gates : forall v d, idt.[v] = Some d -> load32 m (base + 8 * v) + 2 ^ 32 * load32 m (base + 8 * v + 4) = d }.

(** A far jump or call to a task. *)
Definition load_task (g : list Z) (cpl sel : Z) : option segment :=
  s ← ltr g sel; if Z.max cpl (rpl sel) <=? segment_dpl s then Some s else None.

(** The addresses a segment covers, with its granularity. *)
Definition covers (s : segment) : Z * Z :=
  let lim := segment_limit s in
  (segment_base s, segment_base s + (if Z.testbit (segment_flags s) 3 then 4096 * lim + 4095 else lim)).

(** After [lidt] the processor uses the table that [entry] built, and none of the memory behind it. *)
Lemma lidt_selects m desc base idt v : table_at m desc base idt -> 0 <= v -> gate_at m (lidt m desc) v = idt.[v].
Proof.
  intros [Hl Hb Hg] Hv. unfold gate_at, lidt. cbn [fst snd]. rewrite Hl, Hb. unfold table_limit.
  destruct (Z.leb_spec (8 * v + 7) (8 * Z.of_nat (length idt) - 1)) as [H|H].
  - destruct (zget_ex idt v) as [d Hd]; [lia|]. by rewrite Hd, (Hg v d Hd).
  - rewrite zget_lookup by lia. symmetry. apply lookup_ge_None_2. lia.
Qed.

(** ** [start] of [boot.S]

    [eax] and [ebx] are what the boot loader left; the result has the segments in [cs],
    [ss] and the data registers, and the stack at the first instruction of [entry]. *)
Record started := Started { s_cs : segment; s_ss : segment; s_data : list (option segment); s_stack : memory * Z; s_interrupts : bool }.

Definition start (ret_addr eax ebx : Z) (m : memory) : option started :=
  code ← load_code gdt [] 0 KERNEL_CS;
  let sp := 0x800000 in
  stack ← load_stack gdt [] 0 KERNEL_DS;
  ds ← load_data gdt [] 0 KERNEL_DS;
  es ← load_data gdt [] 0 KERNEL_DS;
  fs ← load_data gdt [] 0 KERNEL_DS;
  gs ← load_data gdt [] 0 KERNEL_DS;
  Some (Started code stack [ds; es; fs; gs] (push ret_addr (push eax (push ebx (m, sp)))) false).

(** What [entry] finds as its parameters. *)
Definition parameter (n : Z) (s : memory * Z) : Z := load32 s.1 (s.2 + 4 * (n + 1)).

(** ** Properties *)

(** The entries of the completed table, as the processor reads them. *)
Definition flat (ty dpl : Z) : segment := Segment 0 0xFFFFF ty 1 dpl 1 12.
Definition no_segment : segment := Segment 0 0 0 0 0 0 0.
Definition entries (ldt_addr tss_addr : Z) : list segment :=
  [no_segment; no_segment; flat 10 0; flat 2 0; flat 10 3; flat 2 3;
   Segment (u32 tss_addr) tss_size 9 0 0 1 0; Segment (u32 ldt_addr) ldt_size 2 0 0 1 4].

Lemma complete_gdt_entries la ta lj tj :
  exists g, complete_gdt la ta lj tj = Some g /\ length g = 8%nat /\
    forall i s, entries la ta !! i = Some s -> exists d, g !! i = Some d /\ decode_segment d = s.
Proof.
  destruct (segment_entries la ldt_size lj) as [Hl _]; [vm_compute; split; [discriminate | reflexivity]|].
  destruct (segment_entries ta tss_size tj) as [_ Ht]; [vm_compute; split; [discriminate | reflexivity]|].
  eexists. split; [reflexivity|]. split; [reflexivity|].
  intros i s Hs. do 8 (destruct i as [|i]; [injection Hs as <-; eexists; split; [reflexivity|]; first [exact Hl | exact Ht | reflexivity]|]). done.
Qed.

(** The descriptor of a selector, in the completed table and in the empty LDT. *)
Lemma descriptor_entries la ta lj tj g l sel :
  complete_gdt la ta lj tj = Some g -> 0 <= sel -> Z.odd (sel / 4) = false ->
  descriptor g l sel = entries la ta !! Z.to_nat (sel / 8).
Proof.
  intros Eg Hsel Ho. destruct (complete_gdt_entries la ta lj tj) as (g' & E' & Hlen & Hent). rewrite Eg in E'. injection E' as <-.
  assert (0 <= sel / 8) as Hi by (apply Z.div_pos; lia). unfold descriptor, table_limit. rewrite Ho, Hlen. case_if.
  - destruct (lookup_lt_is_Some_2 (entries la ta) (Z.to_nat (sel / 8))) as (s & Hs); [cbn; lia|].
    destruct (Hent _ _ Hs) as (d & Hd & Ed). by rewrite zget_lookup, Hd, Hs, some_bind, Ed by lia.
  - symmetry. apply lookup_ge_None_2. cbn. lia.
Qed.

Lemma descriptor_ldt g sel :
  0 <= sel -> Z.odd (sel / 4) = true -> descriptor g ldt sel = None \/ descriptor g ldt sel = Some no_segment.
Proof.
  intros Hsel Ho. assert (0 <= sel / 8) as Hi by (apply Z.div_pos; lia). unfold descriptor, table_limit. rewrite Ho.
  change (Z.of_nat (length ldt)) with 4. case_if; [right | by left]. unfold ldt. by rewrite zget_lookup, lookup_replicate_2 by lia.
Qed.

(** What level 3 makes of the entries of the table: [0] to [7], and the rest. *)
Lemma entry_cases la ta i :
  0 <= i -> let s := entries la ta !! Z.to_nat i in
  s = Some (flat 10 3) /\ i = 4 \/ s = Some (flat 2 3) /\ i = 5 \/
  i <> 4 /\ i <> 5 /\ forall x, s = Some x -> is_usable x = false \/ segment_dpl x = 0 /\ is_conforming x = false.
Proof.
  intros Hi s. unfold s. assert (i = 4 \/ i = 5 \/ (i <> 4 /\ i <> 5)) as [-> | [-> | [H4 H5]]] by lia; [by left | by right; left | right; right].
  split; [done|]. split; [done|]. intros x Hx. destruct (Z.to_nat i) as [|[|[|[|[|[|[|[|n]]]]]]]] eqn:En; try lia; try done; injection Hx as <-; auto.
Qed.

Lemma selector_cases la ta lj tj g sel :
  complete_gdt la ta lj tj = Some g -> 0 <= sel ->
  let user := negb (Z.odd (sel / 4)) in
  user && (sel / 8 =? 4) = true /\ descriptor g ldt sel = Some (flat 10 3) \/
  user && (sel / 8 =? 5) = true /\ descriptor g ldt sel = Some (flat 2 3) \/
  user && (sel / 8 =? 4) = false /\ user && (sel / 8 =? 5) = false /\
    forall x, descriptor g ldt sel = Some x -> is_usable x = false \/ segment_dpl x = 0 /\ is_conforming x = false.
Proof.
  intros Eg Hsel user. unfold user. destruct (Z.odd (sel / 4)) eqn:Eo; cbn [negb andb].
  - right. right. split; [done|]. split; [done|]. intros x Hx. left. destruct (descriptor_ldt g sel Hsel Eo) as [E|E]; rewrite E in Hx; [done|].
    by injection Hx as <-.
  - rewrite (descriptor_entries la ta lj tj g ldt sel Eg Hsel Eo).
    destruct (entry_cases la ta (sel / 8)) as [(E & Hi) | [(E & Hi) | (H4 & H5 & H)]]; [apply Z.div_pos; lia | | |].
    + left. split; [by rewrite Hi | done].
    + right. left. split; [by rewrite Hi | done].
    + right. right. split_and!; [lia | lia | done].
Qed.

(** The levels [iret] compares when it takes data segments away are those of the table. *)
Lemma selector_level la ta lj tj g sel s :
  complete_gdt la ta lj tj = Some g -> 0 <= sel -> Z.odd (sel / 4) = false -> descriptor g ldt sel = Some s ->
  segment_dpl s = selector_dpl sel.
Proof.
  intros Eg Hsel Ho E. rewrite (descriptor_entries la ta lj tj g ldt sel Eg Hsel Ho) in E. unfold selector_dpl.
  assert (0 <= sel / 8) as Hi by (apply Z.div_pos; lia). remember (sel / 8) as i.
  destruct (Z.to_nat i) as [|[|[|[|[|[|[|[|n]]]]]]]] eqn:En; try discriminate E; injection E as <-;
    first [bfalse ((i =? 4) || (i =? 5)) | btrue ((i =? 4) || (i =? 5))]; done.
Qed.

(** The only task of the table is at level 0. *)
Lemma task_entry la ta lj tj g sel s :
  complete_gdt la ta lj tj = Some g -> 0 <= sel -> segment_sys s = 0 -> segment_type s = 9 ->
  descriptor g [] sel = Some s -> segment_dpl s = 0.
Proof.
  intros Eg Hsel _ Ht E. destruct (Z.odd (sel / 4)) eqn:Eo.
  - unfold descriptor in E. rewrite Eo in E. assert (0 <= sel / 8) by (apply Z.div_pos; lia).
    change (table_limit []) with (-1) in E. revert E. by bfalse (8 * (sel / 8) + 7 <=? -1).
  - rewrite (descriptor_entries la ta lj tj g [] sel Eg Hsel Eo) in E.
    destruct (Z.to_nat (sel / 8)) as [|[|[|[|[|[|[|[|n]]]]]]]]; try discriminate E; injection E as <-; done.
Qed.

(** C28: With the table [entry] completes, a program can load no segment of the kernel: at
    level 3 the data registers take the null selectors and the two user segments, the stack
    register the user data segment only, a jump the user code segment only, and neither the
    LDT, which is empty, nor a switch of tasks lets it out.  The user segments cover
    all linear addresses at level 3, so that paging alone decides what a program reaches. *)
Theorem user_segments la ta lj tj g sel :
  complete_gdt la ta lj tj = Some g -> 0 <= sel < 2 ^ 16 ->
  let user := negb (Z.odd (sel / 4)) in
  load_data g ldt 3 sel =
    (if sel <? 4 then Some None else if user && (sel / 8 =? 4) then Some (Some (flat 10 3))
     else if user && (sel / 8 =? 5) then Some (Some (flat 2 3)) else None) /\
  load_stack g ldt 3 sel = (if sel =? USER_DS then Some (flat 2 3) else None) /\
  load_code g ldt 3 sel = (if user && (sel / 8 =? 4) then Some (flat 10 3) else None) /\
  load_task g 3 sel = None /\
  covers (flat 10 3) = (0, 2 ^ 32 - 1) /\ covers (flat 2 3) = (0, 2 ^ 32 - 1).
Proof.
  intros Eg Hsel user. assert (0 <= sel / 8) as Hi by (apply Z.div_pos; lia).
  assert (is_null sel = (sel <? 4)) as Hnull by (unfold is_null; destruct (Z.ltb_spec sel 4); zlia).
  assert (0 <= rpl sel < 4) as Hrpl by (unfold rpl; apply Z.mod_pos_bound; lia).
  assert (forall x, (Z.max 3 (rpl sel) <=? x) = (3 <=? x)) as Hmax by (intros x; f_equal; lia).
  assert (load_task g 3 sel = None) as Htask.
  { unfold load_task, ltr, load_system. destruct (descriptor g [] sel) as [s|] eqn:Ed; [|done]. rewrite some_bind.
    destruct (_ && _) eqn:Es; [|done]. rewrite some_bind, Hmax. bsplit.
    assert (segment_dpl s = 0) as -> by (apply (task_entry la ta lj tj g sel s Eg); lia || done). done. }
  assert (sel / 8 = 4 \/ sel / 8 = 5 -> (sel <? 4) = false) as Hbig by (intros; zlia).
  unfold load_data, load_stack, load_code. rewrite Hnull.
  pose proof (selector_cases la ta lj tj g sel Eg (proj1 Hsel)) as Hc. cbv zeta in Hc. fold user in Hc.
  destruct Hc as [(E & ->) | [(E & ->) | (E4 & E5 & H)]].
  - apply andb_true_iff in E as [Eu Ei]. rewrite Eu, Ei. rewrite Z.eqb_eq in Ei. rewrite Hbig, !some_bind, Hmax by auto. rewrite Ei. cbn.
    split_and!; try done; [|by btrue (rpl sel <=? 3)]. destruct (Z.eqb_spec sel USER_DS) as [->|]; done.
  - apply andb_true_iff in E as [Eu Ei]. rewrite Eu, Ei. rewrite Z.eqb_eq in Ei. rewrite Hbig, !some_bind, Hmax by auto. rewrite Ei. cbn.
    split_and!; try done. rewrite andb_true_r. unfold rpl, user, USER_DS in *. apply negb_true_iff in Eu.
    destruct (Z.eqb_spec sel 0x2B) as [->|Hne]; [done|]. case_if; [|done]. exfalso. apply Hne. pose proof (Zmod_odd (sel / 4)) as Ho. rewrite Eu in Ho. bsplit. clear - Ei Ho Heqb Hsel. zlia.
  - rewrite E4, E5. assert ((sel =? USER_DS) = false) as ->.
    { destruct (Z.eqb_spec sel USER_DS) as [->|]; [|done]. by vm_compute in E5. }
    destruct (descriptor g ldt sel) as [x|]; [|by case_if]. rewrite !some_bind.
    destruct (H x eq_refl) as [-> | [-> ->]]; rewrite ?Hmax, ?andb_false_r, ?andb_false_l; cbn; rewrite ?andb_false_r; by case_if.
Qed.

Lemma user_segments_witness :
  exists g, complete_gdt 0x406000 0x405000 7 8 = Some g /\ load_data g ldt 3 KERNEL_DS = None /\ load_stack g ldt 3 USER_DS = Some (flat 2 3).
Proof.
  destruct (complete_gdt_entries 0x406000 0x405000 7 8) as (g & E & _). exists g. split; [exact E|].
  split; [apply (user_segments 0x406000 0x405000 7 8 g KERNEL_DS E) | apply (user_segments 0x406000 0x405000 7 8 g USER_DS E)];
    unfold KERNEL_DS, USER_DS; lia.
Defined.

(** The offsets the processor expects. *)
Lemma tss_layout : tss_bits tss_t = 8 * TSS_SIZE /\
  map (fun f => tss_offset f tss_t / 8) [esp0_; ss0_; cr3_; ldt_segment_selector; io_base_addr] = [4; 8; 28; 96; 102].
Proof. split; reflexivity. Qed.

Lemma load16_store16 m a v : 0 <= a < 2 ^ 32 - 1 -> 0 <= v < 2 ^ 16 -> load16 (store16 m a v) a = v.
Proof.
  intros Ha Hv. unfold load16, store16, store8. rewrite !u32_small by lia.
  bfalse (a =? a + 1). rewrite !Z.eqb_refl. rewrite Z.shiftr_div_pow2 by lia. unfold u8. change (2 ^ 8) with 256. zlia.
Qed.

Lemma load16_other m a b v : 0 <= a -> 0 <= b -> a + 4 <= 2 ^ 32 -> b + 2 <= 2 ^ 32 -> a + 4 <= b \/ b + 2 <= a ->
  load16 (store32 m a v) b = load16 m b.
Proof. intros. unfold load16. rewrite !u32_small by lia. rewrite !store32_frame by (unfold area; lia). done. Qed.

(** [start] enters [entry] on a stack below 8 MB, with flat segments of level 0 in all segment
    registers, interrupts off, and the magic number and the address of the boot information
    as parameters; the tables [entry] completes let it load the LDT and the task
    register, whose segment gives the processor the kernel's stack segment and the top of
    memory as the stack, and accept the selectors of the frames that start a program. *)
Theorem start_ready ret_addr eax ebx m la ta lj tj m' :
  u32_range_of ret_addr -> u32_range_of eax -> u32_range_of ebx -> 0 <= ta -> ta + TSS_SIZE <= 2 ^ 32 ->
  exists s g, start ret_addr eax ebx m = Some s /\ complete_gdt la ta lj tj = Some g /\
    s_cs s = flat 10 0 /\ s_ss s = flat 2 0 /\ s_data s = replicate 4 (Some (flat 2 0)) /\ s_interrupts s = false /\
    (s_stack s).2 = 0x800000 - 12 /\ parameter 0 (s_stack s) = eax /\ parameter 1 (s_stack s) = ebx /\
    lldt g KERNEL_LDT = Some (Segment (u32 la) 31 2 0 0 1 4) /\ ltr g KERNEL_TSS = Some (Segment (u32 ta) 103 9 0 0 1 0) /\
    tss_stack (init_tss ta m') ta = (KERNEL_DS, 0x800000) /\
    load_code g ldt 3 USER_CS = Some (flat 10 3) /\ load_stack g ldt 3 USER_DS = Some (flat 2 3).
Proof.
  intros Hr Ha Hb Hta Htop. change TSS_SIZE with 104 in Htop. destruct (complete_gdt_entries la ta lj tj) as (g & Eg & _).
  eexists _, g. split; [reflexivity|]. split; [exact Eg|]. cbn [s_cs s_ss s_data s_interrupts s_stack].
  change (push ret_addr (push eax (push ebx (m, 0x800000)))) with (pushes [ebx; eax; ret_addr] (m, 0x800000)).
  destruct (pushes_spec [ebx; eax; ret_addr] m 0x800000) as (S1 & S2 & _); [cbn; lia | repeat (apply List.Forall_cons; [assumption|]); apply List.Forall_nil|].
  assert (forall sel l, 0 <= sel -> Z.odd (sel / 4) = false -> descriptor g l sel = entries la ta !! Z.to_nat (sel / 8)) as Hd
    by (intros; by eapply descriptor_entries).
  split_and!; try done.
  - etransitivity; [|exact (S2 1%nat eax eq_refl)]. unfold parameter. rewrite S1. reflexivity.
  - etransitivity; [|exact (S2 0%nat ebx eq_refl)]. unfold parameter. rewrite S1. reflexivity.
  - unfold lldt, load_system. by rewrite Hd.
  - unfold ltr, load_system. by rewrite Hd.
  - unfold tss_stack, init_tss. cbv zeta. change (tss_addr ta esp0_) with (ta + 4). change (tss_addr ta ss0_) with (ta + 8).
    rewrite load_store_same by (unfold area; lia). rewrite load16_other by lia. by rewrite load16_store16 by (unfold KERNEL_DS; lia).
  - unfold load_code. by rewrite Hd.
  - unfold load_stack. by rewrite Hd.
Qed.

Lemma start_ready_witness :
  exists s g, start 0x400100 0x2BADB002 0x9500 (fun _ => 0) = Some s /\ complete_gdt 0x406000 0x405000 7 8 = Some g /\
    parameter 0 (s_stack s) = 0x2BADB002 /\ ltr g KERNEL_TSS = Some (Segment 0x405000 103 9 0 0 1 0).
Proof.
  destruct (start_ready 0x400100 0x2BADB002 0x9500 (fun _ => 0) 0x406000 0x405000 7 8 (fun _ => 0))
    as (s & g & E1 & E2 & _ & _ & _ & _ & _ & Hp & _ & _ & Ht & _); [unfold u32_range_of; lia.. | lia | unfold TSS_SIZE; lia |].
  exists s, g. split; [exact E1|]. split; [exact E2|]. split; [exact Hp | exact Ht].
Defined.
