(* ===== verification/Boot.v ===== *)
(** * The start of the kernel, [student-distrib/kernel.c]

    [entry] as a whole: the report on the information the boot loader left, the descriptor
    tables, the devices, paging, the scheduler, the file system, and the call
    [kexecute("shell")].  Memory is read through [image], the areas of memory the kernel
    writes being those of its parts; the text goes to the video memory of [screen]. *)

From stdpp Require Import base list option sets.
From Stdlib Require Import ZArith Lia ZifyBool.
From S2P Require Import Prelude MemOps Lib Console Ports I8259 Rtc FileSystem Paging Process Schedule Terminal FileArray Reading Lifecycle Shells Drivers Keyboard Exceptions Kernel.

Definition MULTIBOOT_BOOTLOADER_MAGIC : Z := 0x2BADB002.
Definition SLAVE_INT : Z := 2.

Definition CHECK_FLAG (flags bit : Z) : bool := negb (Z.land flags (Z.shiftl 1 bit) =? 0).

(** ** The structures of the boot loader, [multiboot.h] *)

Record multiboot_info := MultibootInfo {
  flags : Z; mem_lower : Z; mem_upper : Z; boot_device : Z; cmdline : Z; mods_count : Z; mods_addr : Z;
  elf_num : Z; elf_size : Z; elf_addr : Z; elf_shndx : Z; mmap_length : Z; mmap_addr : Z }.

Definition load_mbi (m : memory) (mbi : Z) : multiboot_info :=
  let f i := load32 m (u32 (mbi + 4 * i)) in
  MultibootInfo (f 0) (f 1) (f 2) (f 3) (f 4) (f 5) (f 6) (f 7) (f 8) (f 9) (f 10) (f 11) (f 12).

(** The fields of a [module_t] and of a [memory_map_t], by their address. *)
Definition mod_start (m : memory) (mod_ : Z) : Z := load32 m (u32 mod_).
Definition mod_end (m : memory) (mod_ : Z) : Z := load32 m (u32 (mod_ + 4)).
Definition sizeof_module : Z := 16.

Record memory_map := MemoryMap {
  map_size : Z; base_addr_low : Z; base_addr_high : Z; length_low : Z; length_high : Z; map_type : Z }.

Definition load_map (m : memory) (mmap : Z) : memory_map :=
  let f i := load32 m (u32 (mmap + 4 * i)) in MemoryMap (f 0) (f 1) (f 2) (f 3) (f 4) (f 5).

(** ** State *)

(** What [entry] sets: the cursor of the console, [fs_address], the descriptors and the
    registers that hold their selectors, the driver's copies of the interrupt masks, the keyboard's
    data and the kernel. *)
Record boot := Boot {
  at_x : Z; at_y : Z; fs_address : Z;
  ldt_desc : Z; tss_desc : Z; idt : list Z; ldtr : Z; tr : Z; tss_ldt : Z; tss_ss0 : Z;
  irqs : masks; keys : keyboard; krn : kernel }.

Definition set_krn (k : kernel) (b : boot) : boot :=
  Boot (at_x b) (at_y b) (fs_address b) (ldt_desc b) (tss_desc b) (idt b) (ldtr b) (tr b) (tss_ldt b) (tss_ss0 b) (irqs b) (keys b) k.
Definition set_fs_address (a : Z) (b : boot) : boot :=
  Boot (at_x b) (at_y b) a (ldt_desc b) (tss_desc b) (idt b) (ldtr b) (tr b) (tss_ldt b) (tss_ss0 b) (irqs b) (keys b) (krn b).
Definition set_irqs (m : masks) (b : boot) : boot :=
  Boot (at_x b) (at_y b) (fs_address b) (ldt_desc b) (tss_desc b) (idt b) (ldtr b) (tr b) (tss_ldt b) (tss_ss0 b) m (keys b) (krn b).
Definition set_keys (kb : keyboard) (b : boot) : boot :=
  Boot (at_x b) (at_y b) (fs_address b) (ldt_desc b) (tss_desc b) (idt b) (ldtr b) (tr b) (tss_ldt b) (tss_ss0 b) (irqs b) kb (krn b).

Definition set_io (s : io) (b : boot) : boot :=
  let ts := screen (krn b) in set_krn (set_screen (Terminals (mem_set ts) (curr_terminal ts) (ttys ts) (vm ts) s) (krn b)) b.
Definition ports (b : boot) : io := pio (screen (krn b)).

(** The console writes to the video memory. *)
Definition console_of (b : boot) : console := Console (at_x b) (at_y b) (vm (screen (krn b))).
Definition set_console (c : console) (b : boot) : boot :=
  let ts := screen (krn b) in
  Boot (screen_x c) (screen_y c) (fs_address b) (ldt_desc b) (tss_desc b) (idt b) (ldtr b) (tr b) (tss_ldt b) (tss_ss0 b) (irqs b) (keys b)
    (set_screen (Terminals (mem_set ts) (curr_terminal ts) (ttys ts) (vmem c) (pio ts)) (krn b)).

(** What the kernel finds outside its code: the addresses and sizes of the linker, what
    the stack held where a local variable is not initialised, how many bytes of memory a
    string may take, and how many entries of the memory map are looked at. *)
Record environment := Environment {
  e_layout : layout; e_handlers : linkage -> Z; e_pit_ret : Z;
  e_ldt : Z; e_ldt_size : Z; e_tss : Z; e_tss_size : Z;
  e_ldt_junk : Z; e_tss_junk : Z; e_idt_junk : Z; e_conv64 : console -> list Z; e_conv36 : console -> list Z; e_junk : junk;
  e_string : nat; e_map : nat }.

Section Entry.
Context (E : environment) (dev : log -> Z -> Z).

(** ** Messages *)

Definition string_at (m : memory) (a : Z) : list Z := map (fun i => m (u32 (a + i))) (seqZ 0 (Z.of_nat (e_string E))).

Definition print (fmt args : list Z) (b : boot) : option boot :=
  let c := console_of b in
  '(c, _) ← printf physical (string_at (image (krn b))) (e_conv64 E c) (e_conv36 E c) (fmt ++ [0]) args c;
  Some (set_console c b).

Definition nl : list Z := [10].

(** One turn of the loop over the modules, [mod_] being its pointer. *)
Definition report_module (mod_count : Z) (st : Z * boot) : option (Z * boot) :=
  let '(mod_, b) := st in
  let m := image (krn b) in
  b ← print (str "Module %d loaded at address: 0x%#x" ++ nl) [u32 mod_count; mod_start m mod_] b;
  b ← print (str "Module %d ends at address: 0x%#x" ++ nl) [u32 mod_count; mod_end m mod_] b;
  b ← print (str "First few bytes of module:" ++ nl) [] b;
  b ← for_up 16 0 (fun i b => print (str "0x%x ") [u32 (s8 (m (u32 (mod_start m mod_ + i))))] b) b;
  b ← print nl [] b;
  Some (u32 (mod_ + sizeof_module), set_fs_address (mod_start m mod_) b).

Definition report_map (st : Z * boot) : option (Z * boot) :=
  let '(mmap, b) := st in
  let e := load_map (image (krn b)) mmap in
  b ← print (str " size = 0x%x,     base_addr = 0x%#x%#x" ++ nl ++ str "     type = 0x%x,  length    = 0x%#x%#x" ++ nl)
        [map_size e; base_addr_high e; base_addr_low e; map_type e; length_high e; length_low e] b;
  Some (u32 (mmap + map_size e + 4), b).

(** The messages up to the descriptor tables; [false] when [entry] returns. *)
Definition report (magic addr : Z) (b : boot) : option (bool * boot) :=
  c ← clear physical (console_of b);
  let b := set_console c b in
  if negb (magic =? MULTIBOOT_BOOTLOADER_MAGIC) then
    b ← print (str "Invalid magic number: 0x%#x" ++ nl) [magic] b; Some (false, b)
  else
    let mbi := load_mbi (image (krn b)) addr in
    b ← print (str "flags = 0x%#x" ++ nl) [flags mbi] b;
    b ← (if CHECK_FLAG (flags mbi) 0
         then print (str "mem_lower = %uKB, mem_upper = %uKB" ++ nl) [mem_lower mbi; mem_upper mbi] b else Some b);
    b ← (if CHECK_FLAG (flags mbi) 1 then print (str "boot_device = 0x%#x" ++ nl) [boot_device mbi] b else Some b);
    b ← (if CHECK_FLAG (flags mbi) 2 then print (str "cmdline = %s" ++ nl) [cmdline mbi] b else Some b);
    b ← (if CHECK_FLAG (flags mbi) 3
         then '(_, b) ← for_up (Z.to_nat (mods_count mbi)) 0 report_module (mods_addr mbi, b); Some b
         else Some b);
    if CHECK_FLAG (flags mbi) 4 && CHECK_FLAG (flags mbi) 5 then
      b ← print (str "Both bits 4 and 5 are set." ++ nl) [] b; Some (false, b)
    else
      b ← (if CHECK_FLAG (flags mbi) 5
           then print (str "elf_sec: num = %u, size = 0x%#x, addr = 0x%#x, shndx = 0x%#x" ++ nl)
                  [elf_num mbi; elf_size mbi; elf_addr mbi; elf_shndx mbi] b
           else Some b);
      b ← (if CHECK_FLAG (flags mbi) 6
           then
             b ← print (str "mmap_addr = 0x%#x, mmap_length = 0x%x" ++ nl) [mmap_addr mbi; mmap_length mbi] b;
             '(_, b) ← while_do (S (e_map E)) (fun '(mmap, _) => mmap <? u32 (mmap_addr mbi + mmap_length mbi)) report_map (mmap_addr mbi, b);
             Some b
           else Some b);
      Some (true, b).

(** ** Descriptor tables *)

Definition init_tables (b : boot) : option boot :=
  let ld := ldt_entry (e_ldt E) (e_ldt_size E) (e_ldt_junk E) in
  let td := tss_entry (e_tss E) (e_tss_size E) (e_tss_junk E) in
  idt' ← init_idt (e_handlers E) (e_idt_junk E) (idt b);
  Some (Boot (at_x b) (at_y b) (fs_address b) ld td idt' KERNEL_LDT KERNEL_TSS KERNEL_LDT KERNEL_DS (irqs b) (keys b)
    (set_pr (set_esp0 0x800000 (pr (krn b))) (krn b))).

(** ** Devices, from [i8259_init] to [terminal_open] *)

Definition enable (irq : Z) (b : boot) : boot :=
  let '(m, s) := enable_irq dev irq (irqs b) (ports b) in set_io s (set_irqs m b).

Definition init_devices (b : boot) : option boot :=
  let '(m, s) := i8259_init (ports b) in
  let b := set_io s (set_irqs m b) in
  let '(_, r, s) := rtc_open dev (clock (krn b)) (ports b) in
  let b := set_krn (set_rtc r s (krn b)) b in
  b ← print (str "Enabling Interrupts" ++ nl) [] b;
  let b := enable RTC_INT (enable KEYBOARD_INT (enable SLAVE_INT b)) in
  '(_, ts) ← terminal_open SCREEN (screen (krn b));
  Some (set_krn (set_screen ts (krn b)) b).

(** ** Paging, the scheduler and the file system, from [new_init] to [init_hist] *)

(** Once paging is on, the kernel reads memory through its page tables; where they map
    nothing, it faults. *)
Definition readable (pages : paging) (a n : Z) : bool :=
  forallb (fun i => bool_decide (is_Some (translate (e_layout E) pages false (u32 (a + i))))) (seqZ 0 n).
Definition seen (pages : paging) (m : memory) : memory := fun a =>
  match translate (e_layout E) pages false a with Some pa => m pa | None => 0 end.

Definition init_kernel (b : boot) : option boot :=
  let k := krn b in
  pages ← new_init (e_layout E) (pg (pr k));
  let k := set_pr (set_pg (Paging.sti pages) (pr k)) k in
  let b := set_io (Ports.sti (ports b)) (set_krn k b) in
  let k := krn b in
  s ← sched_init (sc k);
  let k := set_sc s k in
  if negb (readable (pg (pr k)) (fs_address b + 4) 4) then None
  else
  let '(_, f) := fs_init (seen (pg (pr k)) (image k)) (fsys k) (fs_address b) in
  let k := set_fsys f k in
  ts ← clear_terminal (screen k);
  kb ← init_hist (keys b);
  Some (set_keys kb (set_krn (set_screen ts k) b)).

(** [entry]: the state it leaves and what became of the call of [kexecute], if it came to
    it.  [esp_in] and [ebp_in] are the registers at that call. *)
Definition entry (magic addr esp_in ebp_in : Z) (b : boot) : option (boot * option outcome) :=
  '(go, b) ← report magic addr b;
  if negb go then Some (b, None)
  else
    b ← init_tables b;
    b ← init_devices b;
    b ← init_kernel b;
    o ← kexecute (e_layout E) (e_pit_ret E) (e_junk E) (Some (str "shell" ++ [0])) esp_in ebp_in (krn b);
    Some (b, Some o).

End Entry.

(** ** Lemmas on the messages *)

(** [b] with another console and [fs_address]; what the messages change. *)
Definition at_ (c : console) (f : Z) (b : boot) : boot := set_console c (set_fs_address f b).

Lemma at_self b : at_ (console_of b) (fs_address b) b = b.
Proof. destruct b as [? ? ? ? ? ? ? ? ? ? ? ? [? ? ? ? ? [] ? ?]]. done. Qed.

Lemma console_of_at c f b : console_of (at_ c f b) = c.
Proof. by destruct c. Qed.

(** [clear] and [putc] keep memory a memory of bytes. *)
Lemma cell_bytes m i c : bytes m -> bytes (Console.put_cell physical m i c).
Proof. intros Hm. by apply store8_bytes, store8_bytes. Qed.

Lemma emit_bytes t c : bytes (vmem c) -> bytes (vmem (emit physical t c)).
Proof.
  revert c. induction t as [|x t IH]; intros c Hc; [done|]. rewrite emit_cons. apply IH. unfold putc. case_if; [done|]. by apply cell_bytes.
Qed.

Lemma clear_ex c : bytes (vmem c) -> exists c', clear physical c = Some c' /\ bytes (vmem c').
Proof.
  intros Hc. unfold clear.
  destruct (for_up_inv (fun _ m => bytes m) (Z.to_nat (NUM_ROWS * NUM_COLS)) 0 (fun i m => Some (Console.put_cell physical m i 32)) (vmem c) Hc) as (m & -> & Hm).
  - intros j m _ Hm. eexists. split; [done | by apply cell_bytes].
  - by eexists.
Qed.

Section Reports.
Context (E : environment).
Hypothesis Hconv : forall c, length (e_conv64 E c) = 64%nat /\ length (e_conv36 E c) = 36%nat.

Lemma print_spec fmt args c f b out :
  Forall (fun w => 0 <= w < 2 ^ 32) args -> render (string_at E (image (krn b))) (fmt ++ [0]) None args = Some out ->
  print E fmt args (at_ c f b) = Some (at_ (emit physical out c) f b).
Proof.
  intros Ha Hr. unfold print. rewrite console_of_at. change (image (krn (at_ c f b))) with (image (krn b)).
  destruct (Hconv c) as [H64 H36].
  destruct (printf_from_spec physical (string_at E (image (krn b))) _ _ H64 H36 (fmt ++ [0]) None args out c 0 Ha Hr) as (n & Hp).
  unfold printf. by rewrite Hp.
Qed.

(** A message that is not followed by a return: the console changes. *)
Definition talks (g : boot -> option boot) (b : boot) : Prop :=
  forall c f, exists t, g (at_ c f b) = Some (at_ (emit physical t c) f b).

Lemma print_talks fmt args b out :
  Forall (fun w => 0 <= w < 2 ^ 32) args -> render (string_at E (image (krn b))) (fmt ++ [0]) None args = Some out ->
  talks (print E fmt args) b.
Proof. intros Ha Hr c f. exists out. by apply print_spec. Qed.

Lemma talks_if (x : bool) g b : (x = true -> talks g b) -> talks (fun b => if x then g b else Some b) b.
Proof. intros H c f. destruct x; [by apply H|]. by exists []. Qed.

Lemma talks_seq g h b : talks g b -> talks h b -> talks (fun b => g b ≫= h) b.
Proof.
  intros Hg Hh c f. destruct (Hg c f) as (t & Ht). destruct (Hh (emit physical t c) f) as (u & Hu). exists (t ++ u).
  rewrite emit_app, <- Hu, Ht. done.
Qed.

Lemma talks_for n i g b : (forall j, i <= j < i + Z.of_nat n -> talks (g j) b) -> talks (for_up n i g) b.
Proof.
  intros Hg c f. destruct (for_up_inv (fun _ b' => exists t, b' = at_ (emit physical t c) f b) n i g (at_ c f b)) as (b' & Eb & t & Ht).
  - by exists [].
  - intros j b' Hj (t & ->). destruct (Hg j Hj (emit physical t c) f) as (u & Hu). eexists. split; [exact Hu|]. exists (t ++ u). by rewrite emit_app.
  - exists t. by rewrite Eb, Ht.
Qed.


(** A message whose format and arguments are known. *)
Ltac words := repeat first [apply List.Forall_nil | apply List.Forall_cons; [first [apply u32_range | by apply load32_range]|]].
Ltac talk := eapply print_talks; [words | reflexivity].

(** ** The report *)

(** The memory map has [n] entries: walking it from [a] passes [e] after [n] steps. *)
Fixpoint map_entries (m : memory) (n : nat) (a e : Z) : Prop :=
  match n with
  | O => e <= a
  | S n' => a < e /\ map_entries m n' (u32 (a + load32 m (u32 a) + 4)) e
  end.

(** The bytes of an image of a file system: the boot block, the inodes and the data blocks. *)
Definition image_size (m : memory) (fsaddr : Z) : Z :=
  BLOCK_SIZE * (1 + load32 m (fsaddr + 4) + load32 m (fsaddr + 8)).

(** What the boot loader promises: the structure at [addr] announces modules, the last of
    them at [fsaddr], a command line that is a string, and a memory map of at most [e_map] entries.
    The image lies in the page of the kernel, from 4 MB to 8 MB, below its stacks, since the
    kernel maps nothing else it could be in; and its entries name inodes it has. *)
Record loader_ok (m : memory) (addr fsaddr : Z) : Prop := {
  lo_bytes : bytes m;
  lo_cmdline : CHECK_FLAG (flags (load_mbi m addr)) 2 = true -> exists s, c_string (string_at E m (cmdline (load_mbi m addr))) = Some s;
  lo_modules : CHECK_FLAG (flags (load_mbi m addr)) 3 = true /\ 1 <= mods_count (load_mbi m addr);
  lo_last : mod_start m (mods_addr (load_mbi m addr) + sizeof_module * (mods_count (load_mbi m addr) - 1)) = fsaddr;
  lo_map : CHECK_FLAG (flags (load_mbi m addr)) 6 = true ->
    exists n, (n <= e_map E)%nat /\
      map_entries m n (mmap_addr (load_mbi m addr)) (u32 (mmap_addr (load_mbi m addr) + mmap_length (load_mbi m addr)));
  lo_image : 0x400000 <= fsaddr /\ fsaddr + image_size m fsaddr <= 0x7f4000;
  lo_inodes : forall j, 0 <= j < 63 -> load32 m (fsaddr + 64 + 64 * j + 36) < load32 m (fsaddr + 4) }.

Lemma loader_image m addr fsaddr : loader_ok m addr fsaddr -> 0x400000 <= fsaddr /\ fsaddr + 8 <= 0x800000.
Proof.
  intros [Hm _ _ _ _ [H1 H2] _]. unfold image_size, BLOCK_SIZE in H2.
  pose proof (load32_range m (fsaddr + 4) Hm). pose proof (load32_range m (fsaddr + 8) Hm). lia.
Qed.

Lemma mod_start_u32 m a : mod_start m (u32 a) = mod_start m a.
Proof. unfold mod_start. by rewrite (u32_small (u32 a)) by apply u32_range. Qed.

Lemma report_module_spec j a c f b :
  bytes (image (krn b)) ->
  exists t, report_module E j (a, at_ c f b) = Some (u32 (a + sizeof_module), at_ (emit physical t c) (mod_start (image (krn b)) a) b).
Proof.
  intros Hm. set (m := image (krn b)) in *. unfold report_module. change (image (krn (at_ c f b))) with m.
  assert (talks (fun b => print E (str "Module %d loaded at address: 0x%#x" ++ nl) [u32 j; mod_start m a] b ≫= (fun b =>
    print E (str "Module %d ends at address: 0x%#x" ++ nl) [u32 j; mod_end m a] b ≫= (fun b =>
    print E (str "First few bytes of module:" ++ nl) [] b ≫= (fun b =>
    for_up 16 0 (fun i b => print E (str "0x%x ") [u32 (s8 (m (u32 (mod_start m a + i))))] b) b ≫= print E nl [])))) b) as H.
  { do 3 (apply talks_seq; [talk|]). apply talks_seq; [|talk]. apply talks_for. intros i _. talk. }
  destruct (H c f) as (t & Ht). exists t. clear H.
  repeat (apply bind_Some in Ht as (? & E1 & Ht); rewrite E1, some_bind; clear E1). rewrite Ht, some_bind. done.
Qed.

Lemma report_modules_spec n a c f b :
  bytes (image (krn b)) -> 0 <= a < 2 ^ 32 -> 1 <= n ->
  exists a' t, for_up (Z.to_nat n) 0 (report_module E) (a, at_ c f b) =
    Some (a', at_ (emit physical t c) (mod_start (image (krn b)) (a + sizeof_module * (n - 1))) b).
Proof.
  intros Hm Ha Hn. set (m := image (krn b)) in *.
  destruct (for_up_inv (fun j '(a', b') => a' = u32 (a + sizeof_module * j) /\
      exists t g, b' = at_ (emit physical t c) g b /\ (0 < j -> g = mod_start m (a + sizeof_module * (j - 1)))) (Z.to_nat n) 0 (report_module E) (a, at_ c f b))
    as ([a' b'] & Er & _ & t & g & -> & Hg).
  - split; [by rewrite Z.mul_0_r, Z.add_0_r, u32_small|]. exists [], f. split; [done | lia].
  - intros j [a' b'] Hj (-> & t & g & -> & _). destruct (report_module_spec j (u32 (a + sizeof_module * j)) (emit physical t c) g b Hm) as (u & ->).
    eexists. split; [reflexivity|]. split.
    + unfold u32. rewrite Zplus_mod_idemp_l. f_equal. lia.
    + exists (t ++ u), (mod_start m (a + sizeof_module * j)). rewrite emit_app, mod_start_u32. split; [done|]. intros _. f_equal. lia.
  - exists a', t. rewrite Er. do 3 f_equal. rewrite Hg by lia. f_equal. f_equal. f_equal. lia.
Qed.

Lemma report_map_spec n fuel a e c f b :
  bytes (image (krn b)) -> map_entries (image (krn b)) n a e -> (n < fuel)%nat ->
  exists a' t, while_do fuel (fun '(mmap, _) => mmap <? e) (report_map E) (a, at_ c f b) = Some (a', at_ (emit physical t c) f b).
Proof.
  intros Hm. revert fuel a c. induction n as [|n IH]; intros fuel a c He Hn; (destruct fuel as [|fuel]; [lia|]); cbn [while_do]; cbn in He.
  - bfalse (a <? e). by exists a, [].
  - destruct He as [Ha He]. btrue (a <? e).
    assert (exists t, report_map E (a, at_ c f b) = Some (u32 (a + load32 (image (krn b)) (u32 a) + 4), at_ (emit physical t c) f b)) as (t & ->).
    { unfold report_map. change (image (krn (at_ c f b))) with (image (krn b)). cbn [load_map map_size base_addr_high base_addr_low map_type length_high length_low].
      eexists. erewrite print_spec; [|words | reflexivity]. rewrite some_bind. rewrite Z.mul_0_r, Z.add_0_r. done. }
    rewrite some_bind. destruct (IH fuel _ (emit physical t c) He) as (a' & u & Hu); [lia|]. exists a', (t ++ u). by rewrite Hu, emit_app.
Qed.

Lemma render_text deref l rest args :
  forallb (fun c => negb (c =? 0) && negb (c =? 37)) l = true ->
  render deref (l ++ rest) None args = r ← render deref rest None args; Some (l ++ r).
Proof.
  induction l as [|c l IH]; intros Hl; [cbn [app]; by destruct (render deref rest None args)|]. cbn [forallb] in Hl. bsplit.
  cbn [app render]. bfalse (c =? 0). bfalse (c =? 37). rewrite IH by done. by destruct (render deref rest None args).
Qed.

Lemma render_cmdline deref w s :
  c_string (deref w) = Some s -> render deref ((str "cmdline = %s" ++ nl) ++ [0]) None [w] = Some (str "cmdline = " ++ s ++ nl).
Proof.
  intros Hs. change ((str "cmdline = %s" ++ nl) ++ [0]) with (str "cmdline = " ++ [37; 115; 10; 0]). rewrite render_text by done.
  change (render deref [37; 115; 10; 0] None [w]) with (t ← c_string (deref w); r ← Some [10]; Some (t ++ r)). by rewrite Hs.
Qed.

(** Both kinds of symbol table are announced. *)
Definition both_symbols (m : memory) (addr : Z) : bool :=
  CHECK_FLAG (flags (load_mbi m addr)) 4 && CHECK_FLAG (flags (load_mbi m addr)) 5.

(** The whole report, for the right magic number. *)
Lemma report_spec addr fsaddr b :
  loader_ok (image (krn b)) addr fsaddr -> bytes (vm (screen (krn b))) ->
  exists c, report E MULTIBOOT_BOOTLOADER_MAGIC addr b = Some (negb (both_symbols (image (krn b)) addr), at_ c fsaddr b) /\ bytes (vmem c).
Proof.
  intros [Hm Hcmd [Hflag Hcount] Hlast Hmap _ _] Hv. set (m := image (krn b)) in *. set (mbi := load_mbi m addr) in *.
  unfold report. destruct (clear_ex (console_of b) Hv) as (c0 & -> & Hc0). rewrite some_bind. rewrite Z.eqb_refl. cbn [negb].
  replace (set_console c0 b) with (at_ c0 (fs_address b) b) by (by destruct b).
  change (load_mbi (image (krn (at_ c0 (fs_address b) b))) addr) with mbi.
  assert (talks (print E (str "flags = 0x%#x" ++ nl) [flags mbi]) b) as H1 by talk.
  destruct (H1 c0 (fs_address b)) as (t1 & ->). clear H1. rewrite some_bind.
  assert (talks (fun b => if CHECK_FLAG (flags mbi) 0 then print E (str "mem_lower = %uKB, mem_upper = %uKB" ++ nl) [mem_lower mbi; mem_upper mbi] b else Some b) b) as H1 by (apply talks_if; intros _; talk).
  destruct (H1 (emit physical t1 c0) (fs_address b)) as (t2 & ->). clear H1. rewrite some_bind.
  assert (talks (fun b => if CHECK_FLAG (flags mbi) 1 then print E (str "boot_device = 0x%#x" ++ nl) [boot_device mbi] b else Some b) b) as H1 by (apply talks_if; intros _; talk).
  destruct (H1 (emit physical t2 (emit physical t1 c0)) (fs_address b)) as (t3 & ->). clear H1. rewrite some_bind.
  assert (talks (fun b => if CHECK_FLAG (flags mbi) 2 then print E (str "cmdline = %s" ++ nl) [cmdline mbi] b else Some b) b) as H1.
  { apply talks_if. intros H2. destruct (Hcmd H2) as (s & Hs). eapply print_talks; [words|].
    exact (render_cmdline _ _ s Hs). }
  destruct (H1 (emit physical t3 (emit physical t2 (emit physical t1 c0))) (fs_address b)) as (t4 & ->). clear H1. rewrite some_bind. rewrite Hflag.
  destruct (report_modules_spec (mods_count mbi) (mods_addr mbi) (emit physical t4 (emit physical t3 (emit physical t2 (emit physical t1 c0)))) (fs_address b) b Hm) as (a' & t5 & ->);
    [by apply load32_range | done|]. rewrite !some_bind. fold m. rewrite Hlast.
  fold mbi. unfold both_symbols. change (image (krn b)) with m. fold mbi. destruct (CHECK_FLAG (flags mbi) 4 && CHECK_FLAG (flags mbi) 5).
  { assert (talks (print E (str "Both bits 4 and 5 are set." ++ nl) []) b) as H1 by talk.
    match goal with |- context [at_ ?c fsaddr b] => destruct (H1 c fsaddr) as (t6 & ->) end. rewrite some_bind. eexists. split; [reflexivity|].
    by repeat apply emit_bytes. }
  assert (talks (fun b => if CHECK_FLAG (flags mbi) 5 then print E (str "elf_sec: num = %u, size = 0x%#x, addr = 0x%#x, shndx = 0x%#x" ++ nl)
                  [elf_num mbi; elf_size mbi; elf_addr mbi; elf_shndx mbi] b else Some b) b) as H1 by (apply talks_if; intros _; talk).
  set (c5 := emit physical t5 _). destruct (H1 c5 fsaddr) as (t6 & ->). clear H1. rewrite some_bind.
  assert (talks (fun b => if CHECK_FLAG (flags mbi) 6
           then
             b ← print E (str "mmap_addr = 0x%#x, mmap_length = 0x%x" ++ nl) [mmap_addr mbi; mmap_length mbi] b;
             '(_, b) ← while_do (S (e_map E)) (fun '(mmap, _) => mmap <? u32 (mmap_addr mbi + mmap_length mbi)) (report_map E) (mmap_addr mbi, b);
             Some b
           else Some b) b) as H1.
  { apply talks_if. intros H6. destruct (Hmap H6) as (n & Hn & He). apply talks_seq; [talk|]. intros c f.
    destruct (report_map_spec n (S (e_map E)) (mmap_addr mbi) _ c f b Hm He) as (a2 & t & ->); [lia|]. by exists t. }
  destruct (H1 (emit physical t6 c5) fsaddr) as (t7 & ->). clear H1. rewrite some_bind. eexists. split; [reflexivity|].
  subst c5. by repeat apply emit_bytes.
Qed.

End Reports.

(** ** Ports *)

(** [s'] is [s] after accesses to ports that are not the interrupt controllers'. *)
Definition other_ports (s s' : io) : Prop :=
  exists l, history s' = l ++ history s /\ Forall (fun e => match e with Out p _ => p ∉ [0x20; 0x21; 0xA0; 0xA1] | In _ => True end) l.

Lemma pic_other base l h :
  base = MASTER_8259_PORT \/ base = SLAVE_8259_PORT ->
  Forall (fun e => match e with Out p _ => p ∉ [0x20; 0x21; 0xA0; 0xA1] | In _ => True end) l -> pic base (l ++ h) = pic base h.
Proof.
  intros Hb Hl. induction Hl as [|[p v|p] l Hp _ IH]; [done| |exact IH]. cbn [app pic]. rewrite IH. destruct (pic base h) as [n i].
  rewrite !not_elem_of_cons in Hp. destruct Hb as [-> | ->]; unfold MASTER_8259_PORT, SLAVE_8259_PORT;
    [bfalse (p =? 0x20); by bfalse (p =? 0x20 + 1) | bfalse (p =? 0xA0); by bfalse (p =? 0xA0 + 1)].
Qed.

Lemma masks_other lines m s s' : other_ports s s' -> masks_refine lines m s -> masks_refine lines m s'.
Proof.
  intros (l & Hl & Ho) [H1 H2 H3 H4 H5]. split; [| | exact H3 | exact H4 | exact H5]; rewrite Hl, pic_other; [exact H1 | by left | exact Ho | exact H2 | by right | exact Ho].
Qed.

Lemma other_refl s : other_ports s s.
Proof. by exists []. Qed.

(** Membership in a list of ports that are known. *)
Ltac other_port := rewrite !not_elem_of_cons; split_and!; [discriminate.. | apply not_elem_of_nil].

Lemma cursor_other r c s : other_ports s (update_cursor r c s).
Proof. eexists [_; _; _; _]. split; [reflexivity|]. repeat (apply List.Forall_cons; [other_port|]). apply List.Forall_nil. Qed.

(** The first time, [rtc_open] sets the clock up. *)
Lemma rtc_open_first dev r s :
  initialized r = 0 -> exists s', rtc_open dev r s = (0, Rtc 1 0, s') /\ other_ports s s' /\ interrupts s' = interrupts s.
Proof.
  intros Hr. unfold rtc_open, rtc_write. rewrite Hr. change (negb (0 =? 0)) with false. cbv iota.
  change ((START_FREQUENCY <? MIN_FREQUENCY) || (MAX_FREQUENCY <? START_FREQUENCY)) with false. cbv iota.
  change (too_many_ones UINT32_LENGTH 0 START_FREQUENCY 0) with false. cbv iota zeta. unfold inb. cbv iota beta zeta.
  change (0 =? ERROR) with false. cbv iota. eexists. split; [reflexivity|]. split; [|reflexivity].
  eexists [_; _; _; _; _; _; _; _]. split; [reflexivity|]. repeat (apply List.Forall_cons; [other_port || exact I|]). apply List.Forall_nil.
Qed.

(** ** The parts of the start-up *)

Lemma sched_init_ring s :
  Z.of_nat (length (run_queue s)) = 6 -> running (sentinel s) = TASK_SENTINEL ->
  exists s', sched_init s = Some s' /\ ring s' [] /\ curr_node s' = Some Sentinel /\ first_shell s' = first_shell s.
Proof.
  intros H6 Hs. unfold sched_init. cbn. eexists. split; [reflexivity|]. split; [|done].
  split; cbn; try done; [constructor..].
Qed.

(** Kernel data before [init_kernel]: the tables and arrays have their sizes, and the
    variables with an initial value, zero or not, have it. *)
Record untouched_kernel (k : kernel) (kb : keyboard) : Prop := {
  un_paging : paging_sized (pg (pr k));
  un_queue : Z.of_nat (length (run_queue (sc k))) = 6 /\ running (sentinel (sc k)) = TASK_SENTINEL /\ first_shell (sc k) = true;
  un_curr : curr_process (pr k) = None;
  un_pids : pid_arr (pr k) = replicate 6 CLEAR;
  un_count : Z.of_nat (length (pcbs (pr k))) = 6;
  un_blocks : forall i x, (pcbs (pr k)).[i] = Some x -> length (files x) = 8%nat /\ length (command x) = 33%nat /\ length (args x) = 100%nat;
  un_roots : length (roots (pr k)) = 3%nat;
  un_hists : length (hists kb) = 3%nat /\ forall t h, (hists kb).[t] = Some h -> hist_ok h [] }.

(** The kernel as the boot loader leaves it. *)
Record powered (b : boot) : Prop := {
  po_idt : idt b = replicate (Z.to_nat NUM_VEC) 0;
  po_kernel : untouched_kernel (krn b) (keys b);
  po_ttys : length (ttys (screen (krn b))) = 3%nat;
  po_lines : forall t x, (ttys (screen (krn b))).[t] = Some x -> length (linebuffer x) = 129%nat /\ length (lastlinebuffer x) = 129%nat;
  po_video : bytes (vm (screen (krn b)));
  po_clock : initialized (clock (krn b)) = 0 }.

(** The lines of the keyboard, of the second controller and of the clock. *)
Definition boot_lines (x : Z) : bool := (x =? RTC_INT) || ((x =? KEYBOARD_INT) || ((x =? SLAVE_INT) || false)).

(** The same but for the devices. *)
Definition same_kernel (k k' : kernel) : Prop :=
  pr k' = pr k /\ sc k' = sc k /\ fsys k' = fsys k /\ image k' = image k /\ umem k' = umem k.

Section Starting.
Context (E : environment) (dev : log -> Z -> Z) `{!Pic dev}.
Hypothesis Hconv : forall c, length (e_conv64 E c) = 64%nat /\ length (e_conv36 E c) = 36%nat.

Lemma init_devices_spec b :
  length (ttys (screen (krn b))) = 3%nat ->
  (forall t x, (ttys (screen (krn b))).[t] = Some x -> length (linebuffer x) = 129%nat /\ length (lastlinebuffer x) = 129%nat) ->
  bytes (vm (screen (krn b))) -> initialized (clock (krn b)) = 0 ->
  exists b', init_devices E dev b = Some b' /\ masks_refine boot_lines (irqs b') (ports b') /\ clock (krn b') = Rtc 1 0 /\
    terminals_ok (screen (krn b')) /\ mem_set (screen (krn b')) = true /\ curr_terminal (screen (krn b')) = 0 /\
    (forall t x, (ttys (screen (krn b'))).[t] = Some x -> fresh_tty x) /\
    same_kernel (krn b) (krn b') /\ fs_address b' = fs_address b /\ idt b' = idt b /\ keys b' = keys b.
Proof.
  intros H3 Hl Hm Hc. unfold init_devices. pose proof (init_refine (ports b)) as Hr. destruct (i8259_init (ports b)) as [m0 s0]. cbn [fst snd] in Hr.
  destruct (rtc_open_first dev (clock (krn (set_io s0 (set_irqs m0 b)))) (ports (set_io s0 (set_irqs m0 b))) Hc) as (s1 & -> & Ho & _).
  change (ports (set_io s0 (set_irqs m0 b))) with s0 in Ho. apply (masks_other _ _ _ _ Ho) in Hr.
  set (b1 := set_krn _ _). rewrite <- (at_self b1).
  erewrite (print_spec E Hconv (str "Enabling Interrupts" ++ nl) [] (console_of b1) (fs_address b1) b1); [|apply List.Forall_nil | reflexivity].
  rewrite some_bind. set (b2 := at_ _ _ b1).
  assert (bytes (vm (screen (krn b2)))) as Hb2 by (by apply (emit_bytes _ (console_of b1))).
  unfold enable. change (irqs b2) with m0. change (ports b2) with s1.
  apply (enable_refine dev _ _ _ SLAVE_INT) in Hr; [|unfold SLAVE_INT; lia]. destruct (enable_irq dev SLAVE_INT m0 s1) as [m2 s2]. cbn [fst snd] in Hr.
  change (irqs (set_io s2 (set_irqs m2 b2))) with m2. change (ports (set_io s2 (set_irqs m2 b2))) with s2.
  apply (enable_refine dev _ _ _ KEYBOARD_INT) in Hr; [|unfold KEYBOARD_INT; lia]. destruct (enable_irq dev KEYBOARD_INT m2 s2) as [m3 s3]. cbn [fst snd] in Hr.
  set (b3 := set_io s3 _). change (irqs b3) with m3. change (ports b3) with s3.
  apply (enable_refine dev _ _ _ RTC_INT) in Hr; [|unfold RTC_INT; lia]. destruct (enable_irq dev RTC_INT m3 s3) as [m4 s4]. cbn [fst snd] in Hr.
  set (b4 := set_io s4 _).
  destruct (terminal_open_spec SCREEN (screen (krn b4)) H3 Hl Hb2) as (ts & -> & Hok & Hset & Hcur & Hfr & _ & _ & Hpio).
  rewrite some_bind. eexists. split; [reflexivity|]. split_and!; try done.
  apply (masks_other _ _ s4); [|exact Hr]. change (ports (set_krn (set_screen ts (krn b4)) b4)) with (pio ts). rewrite Hpio. apply cursor_other.
Qed.

(** What [fs_init] reads in the kernel's page it sees as it is in memory. *)
Lemma fs_init_seen pages m f fsaddr :
  (forall va, 0x400000 <= va < 0x800000 -> translate (e_layout E) pages false va = Some va) ->
  0x400000 <= fsaddr -> fsaddr + 8 <= 0x800000 ->
  readable E pages (fsaddr + 4) 4 = true /\ fs_init (seen E pages m) f fsaddr = fs_init m f fsaddr.
Proof.
  intros Hv H1 H2. split.
  - apply forallb_forall. intros i Hi%list_elem_of_In%elem_of_seqZ. apply bool_decide_eq_true.
    rewrite u32_small, Hv by lia. done.
  - unfold fs_init, load32, seen. rewrite (u32_small fsaddr) by lia.
    by rewrite !(u32_small (fsaddr + 4)), !u32_small, !Hv by lia.
Qed.

Lemma init_kernel_spec b :
  0x400000 <= fs_address b -> fs_address b + 8 <= 0x800000 -> boot_layout_ok (e_layout E) ->
  layout_ok (e_layout E) -> untouched_kernel (krn b) (keys b) -> mem_set (screen (krn b)) = true ->
  terminals_ok (screen (krn b)) -> curr_terminal (screen (krn b)) = 0 -> (forall t x, (ttys (screen (krn b))).[t] = Some x -> fresh_tty x) ->
  exists b', init_kernel E b = Some b' /\ Shells.idle (e_layout E) (krn b') /\ image (krn b') = image (krn b) /\ umem (krn b') = umem (krn b) /\
    fsys (krn b') = (fs_init (image (krn b)) (fsys (krn b)) (fs_address b)).2 /\ clock (krn b') = clock (krn b) /\
    terminals_ok (screen (krn b')) /\ (forall t x, (ttys (screen (krn b'))).[t] = Some x -> fresh_tty x) /\
    blanked 0 SCREEN 2000 (vm (screen (krn b))) (vm (screen (krn b'))) /\
    other_ports (ports b) (ports b') /\ interrupts (ports b') = true /\ idt b' = idt b /\ irqs b' = irqs b /\
    (forall t h, (hists (keys b')).[t] = Some h -> hist_ok h [] /\ curr_cmd h = replicate 128 0).
Proof.
  intros Hfa1 Hfa2 HBL HL [] Hset Hok Hcur Hfr. destruct un_queue0 as (Hq & Hs & Hf). destruct un_hists0 as [Hh3 Hh]. unfold init_kernel.
  destruct (new_init_ok (e_layout E) (pg (pr (krn b))) HL un_paging0) as (pages & Epages & _ & Hpg).
  pose proof (fun va => boot_view _ _ _ va HL HBL un_paging0 Epages) as Hview. rewrite Epages, some_bind.
  destruct (sched_init_ring (sc (krn b)) Hq Hs) as (s & Es & Hring & Hnode & Hf1). cbn [sc krn set_io set_krn set_screen set_pr]. rewrite Es, some_bind.
  cbn [image fsys fs_address set_sc krn set_io set_krn set_screen set_pr set_pg pr pg ports screen set_fsys].
  destruct (fs_init_seen (Paging.sti pages) (image (krn b)) (fsys (krn b)) (fs_address b)) as [-> ->]; [exact Hview | done | done|]. cbn [negb].
  destruct (fs_init (image (krn b)) (fsys (krn b)) (fs_address b)) as [r f] eqn:Ef. cbn [screen set_fsys set_sc set_screen set_pr].
  set (ts0 := Terminals _ _ _ _ _). assert (terminals_ok ts0) as Hok0 by (destruct Hok; by split).
  destruct (get_tty ts0 0 Hok0) as (x & Hx & _); [lia|]. assert (fresh_tty x) as Hxf by (by apply (Hfr 0)).
  destruct (clear_terminal_spec ts0 x) as (ts & -> & Hok' & Hset' & Hcur' & Hx' & Hoth & Hbl & Hpio); [done | done | change ((ttys ts0).[curr_terminal (screen (krn b))] = Some x); by rewrite Hcur | by destruct Hxf as [-> _]|].
  rewrite some_bind. destruct (init_hist_spec (keys b) Hh3 Hh) as (kb & E2 & _ & Hkb). cbn [keys set_io set_krn]. rewrite E2, some_bind.
  change (curr_terminal ts0) with (curr_terminal (screen (krn b))) in *. rewrite Hcur in *.
  eexists. split; [reflexivity|]. cbn [krn set_keys set_krn image umem fsys clock screen set_screen set_fsys set_sc set_pr set_io keys irqs idt ports pio].
  split_and!; try done.
  - split; cbn [sc pr set_screen set_fsys set_sc set_pr set_pg curr_process pid_arr pcbs roots pg]; try done; [by rewrite Hf1 | by apply paging_ok_intr].
  - intros t y Hy. destruct (decide (t = 0)) as [->|Hne].
    + destruct Hx' as (y' & Hy' & Hf'). rewrite Hy' in Hy. by injection Hy as <-.
    + apply (Hfr t). by rewrite (Hoth t Hne) in Hy.
  - exists []. split; [|done]. change (history (pio ts) = history (ports b)). by rewrite Hpio.
  - change (interrupts (pio ts) = true). by rewrite Hpio.
Qed.

Lemma shell_word : Forall word_char (str "shell").
Proof. change (str "shell") with [115; 104; 101; 108; 108]. repeat constructor; lia. Qed.

(** The system boots.  From the memory a boot loader leaves, with an image of a file
    system as the last module, [entry] reports, fills the descriptor tables, sets up the
    devices, paging, the queue of the scheduler and the file system, and starts the program
    [shell] in the three terminals: the interrupt table is the one of [kernel_vectors],
    exactly the lines of the keyboard, the clock and the second controller are enabled,
    interrupts are on, the terminals are empty, and the kernel is the one from which the
    timer runs the shells.  Nothing of the report, long or short, gets in the way. *)
Theorem boot_starts_shells addr fsaddr esp_in ebp_in b j p a :
  layout_ok (e_layout E) -> boot_layout_ok (e_layout E) -> powered b -> loader_ok E (image (krn b)) addr fsaddr -> both_symbols (image (krn b)) addr = false ->
  let k := set_fsys (fs_init (image (krn b)) (fsys (krn b)) fsaddr).2 (krn b) in
  program_file k j p -> is_elf k p = true -> 28 <= inode_length (image k) p <= 0x3b8000 -> entry_name (image k) (fsys k) j = str "shell" ->
  (128 <= length (args_junk (e_junk E)))%nat -> (129 <= length (cmd_junk (e_junk E)))%nat -> args_left (e_junk E) 5 a ->
  u32_range_of (e_pit_ret E) ->
  exists b' k', entry E dev MULTIBOOT_BOOTLOADER_MAGIC addr esp_in ebp_in b = Some (b', Some (Yields k')) /\
    three_shells (e_layout E) (e_pit_ret E) (krn b') p (str "shell") a k' /\ image (krn b') = image k /\ fsys (krn b') = fsys k /\
    table_is (e_handlers E) (idt b') kernel_vectors /\ masks_refine boot_lines (irqs b') (ports b') /\
    clock (krn b') = Rtc 1 0 /\ interrupts (ports b') = true /\
    terminals_ok (screen (krn b')) /\ (forall t x, (ttys (screen (krn b'))).[t] = Some x -> fresh_tty x).
Proof.
  intros HL HBL [Hidt Hun H3 Hl Hv Hc] Hlo Hsym k Hpf Helf Hlen Hname Hj1 Hj2 Hleft Hret. unfold entry.
  destruct (report_spec E Hconv addr fsaddr b Hlo Hv) as (c & -> & Hcb). rewrite Hsym, some_bind. cbn [negb]. unfold init_tables.
  change (idt (at_ c fsaddr b)) with (idt b). rewrite Hidt. destruct (init_idt_spec (e_handlers E) (e_idt_junk E)) as (idt1 & -> & Htab). rewrite !some_bind.
  set (b1 := Boot _ _ _ _ _ _ _ _ _ _ _ _ _).
  destruct (init_devices_spec b1 H3 Hl Hcb Hc) as (b2 & -> & Hmask & Hclk & Hok & Hset & Hcur & Hfr & (Hpr & Hsc & Hfs & Him & Hum) & Hfa & Hid2 & Hk2).
  rewrite some_bind.
  assert (untouched_kernel (krn b2) (keys b2)) as Hun2 by (rewrite Hk2; destruct Hun; split; rewrite ?Hpr, ?Hsc; done).
  pose proof (loader_image _ _ _ _ Hlo) as [Hi1 Hi2]. change (fs_address b1) with fsaddr in Hfa. rewrite <- Hfa in Hi1, Hi2.
  destruct (init_kernel_spec b2 Hi1 Hi2 HBL HL Hun2 Hset Hok Hcur Hfr) as
    (b3 & -> & Hidle & Him3 & _ & Hfs3 & Hclk3 & Hok3 & Hfr3 & _ & Hports & Hint & Hid3 & Hirq3 & _). rewrite some_bind.
  assert (image (krn b3) = image k) as Himk by (by rewrite Him3, Him).
  assert (fsys (krn b3) = fsys k) as Hfsk by (by rewrite Hfs3, Him, Hfs, Hfa).
  destruct (program_file_ext k (krn b3) j p Himk Hfsk Hpf) as [Hpf3 Helf3].
  destruct (kexecute_first (e_layout E) (e_pit_ret E) (e_junk E) (krn b3) j p (str "shell") a [] esp_in ebp_in) as (k' & Ek & Hts);
    [exact Hidle | exact Hpf3 | by rewrite Helf3 | by rewrite Himk | by rewrite Himk, Hfsk | by apply shell_word | exact Hj1 | exact Hj2 | exact Hleft | exact Hret|].
  change (str "shell" ++ [0]) with (str "shell" ++ 0 :: []). rewrite Ek, some_bind. exists b3, k'. split; [reflexivity|]. rewrite Hid3, Hid2, Hirq3, Hclk3.
  split_and!; [exact Hts | exact Himk | exact Hfsk | exact Htab | exact (masks_other _ _ _ _ Hports Hmask) | exact Hclk | exact Hint | exact Hok3 | exact Hfr3].
Qed.

(** [entry] gives up before it touches anything but the screen: for another magic number
    it prints it and returns, and when both kinds of symbol table are announced it returns
    after the report of the modules, the address of the file system being set. *)
Theorem boot_gives_up magic addr fsaddr esp_in ebp_in b :
  bytes (vm (screen (krn b))) -> 0 <= magic < 2 ^ 32 ->
  (magic <> MULTIBOOT_BOOTLOADER_MAGIC ->
    exists c, clear physical (console_of b) = Some c /\
      entry E dev magic addr esp_in ebp_in b =
        Some (set_console (emit physical (str "Invalid magic number: 0x" ++ pad8 (numeral 16 magic) ++ nl) c) b, None)) /\
  (magic = MULTIBOOT_BOOTLOADER_MAGIC -> loader_ok E (image (krn b)) addr fsaddr -> both_symbols (image (krn b)) addr = true ->
    exists c, entry E dev magic addr esp_in ebp_in b = Some (set_console c (set_fs_address fsaddr b), None)).
Proof.
  intros Hv Hmg. split.
  - intros Hne. destruct (clear_ex (console_of b) Hv) as (c & Ec & Hc). exists c. split; [done|]. unfold entry, report. rewrite Ec, some_bind.
    rewrite (proj2 (Z.eqb_neq _ _) Hne). cbn [negb]. replace (set_console c b) with (at_ c (fs_address b) b) by (by destruct b).
    erewrite (print_spec E Hconv _ [magic]); [|apply List.Forall_cons; [exact Hmg | apply List.Forall_nil] | reflexivity]. rewrite !some_bind. cbn [negb]. by destruct b.
  - intros -> Hlo Hsym. destruct (report_spec E Hconv addr fsaddr b Hlo Hv) as (c & Er & _). exists c. unfold entry. by rewrite Er, Hsym, some_bind.
Qed.

End Starting.

(** ** A machine that boots

    The small image with its program renamed, a module at its place, and the structure of
    the boot loader at [0x9000]. *)

Definition boot_mem : memory := fun x =>
  if x =? 0x9000 then 8 else if x =? 0x9014 then 1 else if x =? 0x9019 then 0x91 else if x =? 0x9102 then 0x50
  else if (demo_base + 128 <=? x) && (x <? demo_base + 133) then default 0 ((str "shell").[x - (demo_base + 128)]) else demo_mem x.

Definition boot_fs : fs := (fs_init boot_mem (Fs 0 0 0 0) demo_base).2.

Lemma boot_mem_bytes : bytes boot_mem.
Proof.
  intros x. unfold boot_mem. repeat (case_if; [lia|]). case_if; [|apply demo_bytes].
  assert (x - (demo_base + 128) = 0 \/ x - (demo_base + 128) = 1 \/ x - (demo_base + 128) = 2 \/ x - (demo_base + 128) = 3 \/ x - (demo_base + 128) = 4)
    as [-> | [-> | [-> | [-> | ->]]]] by lia; vm_compute; split; discriminate || reflexivity.
Qed.

(** Outside of the renamed entry it is the small image. *)
Lemma boot_mem_above x : demo_base + 133 <= x -> boot_mem x = demo_mem x.
Proof.
  unfold demo_base. intros Hx. unfold boot_mem, demo_base. bfalse (x =? 0x9000). bfalse (x =? 0x9014). bfalse (x =? 0x9019). bfalse (x =? 0x9102).
  by bfalse ((5242880 + 128 <=? x) && (x <? 5242880 + 133)).
Qed.

Lemma boot_empty_names j : 2 <= j < 63 -> entry_name boot_mem boot_fs j = [].
Proof.
  intros Hj. rewrite <- (demo_empty_names j Hj). unfold entry_name, load_bytes. f_equal. apply map_ext_in. intros i Hi%list_elem_of_In%elem_of_seqZ.
  change (entry_addr boot_fs j) with (entry_addr demo_fs j). apply boot_mem_above.
  assert (entry_addr demo_fs j = demo_base + 64 + 64 * j) as ->.
  { change (entry_addr demo_fs j) with (u32 (demo_base + 64 + 64 * j)). apply u32_small. unfold demo_base. lia. }
  rewrite u32_small by (unfold demo_base, FNAME_SIZE in *; lia). lia.
Qed.

Lemma boot_dir_ok : dir_ok boot_mem boot_fs.
Proof.
  assert (forall i, 0 <= i < NUM_DIR_ENTRIES boot_mem boot_fs -> i = 0 \/ i = 1) as Hi.
  { change (NUM_DIR_ENTRIES boot_mem boot_fs) with 2. lia. }
  split.
  - apply boot_mem_bytes.
  - split; vm_compute; done.
  - change (NUM_DIR_ENTRIES boot_mem boot_fs) with 2. lia.
  - vm_compute. discriminate.
  - intros i [-> | ->]%Hi; vm_compute; reflexivity.
  - intros i [-> | ->]%Hi; vm_compute; discriminate.
  - intros i j Hr Hj Ee. destruct (Z.lt_ge_cases j 2) as [H|H].
    + assert (j = 0 \/ j = 1) as [-> | ->] by lia; destruct (Hi i Hr) as [-> | ->]; try reflexivity; vm_compute in Ee; discriminate.
    + rewrite (boot_empty_names j) in Ee by lia. destruct (Hi i Hr) as [-> | ->]; vm_compute in Ee; discriminate.
Qed.

Definition boot_kernel : kernel :=
  Kernel (Procs (map demo_block (seqZ 0 6)) None None (replicate 6 CLEAR) [None; None; None] 0 zero_paging (fun _ => 0))
    zero_sched (Fs 0 0 0 0) boot_mem (fun _ => 0) (Terminals false 0 (replicate 3 demo_tty) (fun _ => 0) (Io [] false)) (Rtc 0 0) false.
Definition demo_boot : boot :=
  Boot 0 0 0 0 0 (replicate (Z.to_nat NUM_VEC) 0) 0 0 0 0 (Masks 0 0) demo_keyboard boot_kernel.
Definition demo_env : environment :=
  Environment demo_layout (fun _ => 0x400100) 0x401000 0x402000 16 0x403000 104 1 2 3 (fun _ => replicate 64 1) (fun _ => replicate 36 1)
    demo_empty_junk 80 4.

Lemma boot_program : program_file (set_fsys boot_fs boot_kernel) 1 demo_inode.
Proof.
  split; cbn [image fsys set_fsys boot_kernel].
  - apply boot_dir_ok.
  - vm_compute. split; [discriminate | reflexivity].
  - vm_compute. lia.
  - split; [reflexivity | vm_compute; discriminate | vm_compute; reflexivity | vm_compute; reflexivity|].
    exists 1. split; [vm_compute; split; [discriminate | reflexivity] | vm_compute; reflexivity].
  - assert (inode_length boot_mem demo_inode = 4098) as El by (vm_compute; reflexivity).
    split; cbn [image fsys set_fsys boot_kernel]; rewrite El; [lia|]. intros x Hx. unfold block_ok, BLOCK_SIZE.
    assert (x / 4096 = 0 \/ x / 4096 = 1) as [-> | ->] by zlia; vm_compute; done.
Qed.

Lemma boot_powered : powered demo_boot.
Proof.
  split; try done.
  - split; try done; [apply zero_paging_sized | intros i b [-> _]%(demo_blocks zero_paging); done|].
    split; [done|]. intros t h Hh. pose proof (zget_Some_range _ _ _ Hh) as Hr. cbn in Hr.
    assert (h = empty_hist) as ->. { assert (t = 0 \/ t = 1 \/ t = 2) as [-> | [-> | ->]] by lia; by injection Hh as <-. }
    split; try done; try apply empty_rows_ok. intros i c _ Hc. pose proof (zget_Some_range _ _ _ Hc) as Hr2. cbn in Hr2. lia.
  - intros t x Hx. pose proof (zget_Some_range _ _ _ Hx) as Hr. cbn in Hr.
    assert (t = 0 \/ t = 1 \/ t = 2) as [-> | [-> | ->]] by lia; by injection Hx as <-.
Qed.

Lemma boot_loader_ok : loader_ok demo_env boot_mem 0x9000 demo_base.
Proof.
  split; [apply boot_mem_bytes | intros H; vm_compute in H; discriminate | split; vm_compute; [reflexivity | discriminate] | vm_compute; reflexivity | intros H; vm_compute in H; discriminate
  | vm_compute; split; discriminate |].
  intros j Hj. apply Z.ltb_lt.
  assert (forallb (fun j => load32 boot_mem (demo_base + 64 + 64 * j + 36) <? load32 boot_mem (demo_base + 4)) (seqZ 0 63) = true) as H
    by (vm_compute; reflexivity).
  rewrite forallb_forall in H. apply H, list_elem_of_In, elem_of_seqZ. lia.
Qed.

Lemma boot_starts_shells_witness :
  exists b' k', entry demo_env pic_dev MULTIBOOT_BOOTLOADER_MAGIC 0x9000 1 2 demo_boot = Some (b', Some (Yields k')) /\
    three_shells demo_layout (e_pit_ret demo_env) (krn b') demo_inode (str "shell") [] k' /\ masks_refine boot_lines (irqs b') (ports b').
Proof.
  destruct (boot_starts_shells demo_env pic_dev (fun _ => conj eq_refl eq_refl) 0x9000 demo_base 1 2 demo_boot 1 demo_inode [])
    as (b' & k' & Hb & Hts & _ & _ & _ & Hm & _);
    [apply demo_layout_ok | apply demo_boot_layout_ok | apply boot_powered | apply boot_loader_ok | vm_compute; reflexivity | apply boot_program | vm_compute; reflexivity
    | vm_compute; split; discriminate | vm_compute; reflexivity | apply Nat.leb_le; reflexivity | apply Nat.leb_le; reflexivity
    | left; split; reflexivity | split; [discriminate | reflexivity]|].
  exists b', k'. exact (conj Hb (conj Hts Hm)).
Defined.

Lemma boot_gives_up_witness :
  exists c, entry demo_env pic_dev 7 0x9000 1 2 demo_boot = Some (set_console c demo_boot, None).
Proof.
  destruct (boot_gives_up demo_env pic_dev (fun _ => conj eq_refl eq_refl) 7 0x9000 0 1 2 demo_boot) as [H _];
    [intros x; split; [discriminate | reflexivity] | split; [discriminate | reflexivity]|].
  destruct H as (c & _ & Hb); [discriminate|]. eexists. exact Hb.
Defined.
