(* ===== verification/System.v ===== *)
(** * From the boot to the processes

    The first [int $32], which leaves the boot code for good and enters the first shell, and
    what the whole development adds up to: from the memory a boot loader leaves, through
    [entry] and the start of the three shells, the kernel stands for the abstract machine of
    [Tasks], and so do all its later states. *)

From stdpp Require Import base list option sets.
From Stdlib Require Import ZArith Lia ZifyBool.
From S2P Require Import Prelude MemOps Lib FileSystem Paging Process Schedule Terminal Rtc FileArray Reading Lifecycle Shells Drivers Linkage I8259 Ports Kernel Interrupts Tasks TaskProps Boot.

(** ** The end of the boot code *)

(** A frame of user mode is consumed as it is read. *)
Lemma iret_user m a f : 0 <= a -> a + 20 <= 2 ^ 32 -> load_iret m a = f -> user_mode f = true -> iret m a = f.
Proof.
  intros H0 H1 <- Hu. unfold user_mode, load_iret in Hu. cbn [cs] in Hu. unfold iret, pop, load_iret in *.
  rewrite Hu. rewrite !u32_small in * by lia. replace (a + 4 + 4) with (a + 8) by lia.
  replace (a + 8 + 4) with (a + 12) by lia. replace (a + 12 + 4) with (a + 16) by lia. done.
Qed.

Lemma load_iret_ext m m' a :
  0 <= a -> a + 20 <= 2 ^ 32 -> (forall x, a <= x < a + 20 -> m' x = m x) -> load_iret m' a = load_iret m a.
Proof.
  intros H0 H1 Hm. unfold load_iret. rewrite !u32_small by lia.
  f_equal; apply load32_ext; try (unfold area; lia); intros i Hi; apply Hm; lia.
Qed.

Lemma timer_stack_sp pit_ret r m K :
  regs_ok r -> base_ok (r_frame r) K -> u32_range_of pit_ret -> (timer_stack pit_ret r m K).2 = frame_addr (r_frame r) K - 48.
Proof.
  intros Hr Hb Hret. rewrite timer_stack_words by done. unfold timer_words. pose proof (frame_below (r_frame r) K) as HB.
  pose proof Hb as Hb'. unfold base_ok, sp_ok in Hb'. set (F := frame_addr (r_frame r) K) in *.
  assert (u32_range_of F) as HF by (unfold u32_range_of; lia).
  assert (regs_ok (set_ebx F r)) as Hk by (unfold regs_ok, set_ebx in *; cbn; tauto).
  pose proof (context_words_length (masked (iflags (r_frame r))) (set_ebx F r) K) as Hlen. cbn [set_ebx r_frame] in Hlen. fold F in Hlen.
  destruct (pushes_spec (context_words (masked (iflags (r_frame r))) (set_ebx F r) K ++ [F; pit_ret; r_ebp r]) m (frame_base (r_frame r) K)) as (-> & _).
  - rewrite length_app. cbn [length]. lia.
  - apply Forall_app. unfold regs_ok in Hr. split; [apply context_words_ok; try done; apply masked_ok; tauto|].
    constructor; [done|]. constructor; [done|]. constructor; [tauto | done].
  - rewrite length_app. cbn [length]. lia.
Qed.

Section First.
Context (L : layout) (ret_addr pit_ret locals : Z) (k0 : kernel) (j p : Z) (w a : list Z).
Hypotheses (Hpf : program_file k0 j p) (Hlen : 28 <= inode_length (image k0) p <= 0x3b8000)
  (Hw : (length w < 33)%nat) (Ha : (length a < 100)%nat) (Hret : u32_range_of pit_ret).

(** What the boot code, on the stack of the first shell, pushes is no matter to the shells. *)
Lemma shells_kmem k m :
  (forall x, ~ in_stack 0 x -> m x = kmem (pr k) x) -> three_shells L pit_ret k0 p w a k ->
  three_shells L pit_ret k0 p w a (set_pr (set_kmem m (pr k)) k).
Proof.
  intros Hm [[] Hcurr Hcr Hpids Hroots Htimer]. split; try done. split; try done.
  intros i b Hi H0 Hb. destruct (la_start i b Hi H0 Hb) as [He Hs]. split; [done|].
  pose proof (ring_range _ _ _ la_ring Hi) as Hi6. eapply (starts_keep pit_ret k0 p w a); [exact Hw | exact Ha | exact Hi6 | exact He | | exact Hs].
  intros x Hx. cbn [pr set_pr kmem set_kmem]. apply Hm. destruct (stack_bounds i Hi6), (stack_bounds 0 ltac:(lia)).
  unfold in_stack. lia.
Qed.

(** The machine after the start. *)
Definition three_tasks (m : memory) : tasks :=
  Tasks 0 [0; 1; 2] (fun _ => true) (fun i => unwind m (get_kstack_address i - 56)) (fun _ => None) (fun _ => None).

Lemma three_family m : family (three_tasks m).
Proof.
  assert (forall i, i ∈ [0; 1; 2] -> i = 0 \/ i = 1 \/ i = 2) as Hq by (intros i; elems; rewrite ?elem_of_nil; tauto).
  split; try done; cbn [three_tasks t_cur t_queue t_parent]; try (by left).
  - apply (bool_decide_unpack _). vm_compute. done.
  - intros i Hi. destruct (Hq i Hi) as [-> | [-> | ->]]; lia.
  - intros i Hi. elems. lia.
  - intros i Hi H2. destruct (Hq i Hi) as [-> | [-> | ->]]; lia.
Qed.

(** A shell that has not run starts at its entry point. *)
Lemma shell_context k i b m :
  three_shells L pit_ret k0 p w a k -> i ∈ [1; 2] -> (pcbs (pr k)).[i] = Some b -> (forall x, in_stack i x -> m x = kmem (pr k) x) ->
  saved pit_ret m i (ebp b) (t_ctx (three_tasks m) i) /\ r_frame (t_ctx (three_tasks m) i) = entry_frame (entry_point k0 p).
Proof.
  intros [Hla _ _ _ _ _] Hi Hb Hm. assert (i = 1 \/ i = 2) as Hi2 by (revert Hi; elems; rewrite ?elem_of_nil; tauto).
  destruct (stack_bounds i ltac:(lia)) as [B1 B2].
  destruct (la_start _ _ _ _ _ _ _ _ Hla i b) as (He & _ & Hr & _ & Hf); [by destruct Hi2 as [-> | ->]; apply (bool_decide_unpack _) | lia | done|]. cbn [three_tasks t_ctx].
  unfold resume in Hr, Hf. cbn [c_ret c_frame] in Hr, Hf. rewrite u32_small in Hr by lia.
  rewrite (u32_small (ebp b + 4)), (u32_small (ebp b + 4 + 4)), (u32_small (ebp b + 4 + 4 + 4)), (u32_small (ebp b + 4 + 4 + 4 + 32)), u32_small in Hf by lia. split.
  - split; [lia | lia | | f_equal; lia]. rewrite <- Hr. apply load32_ext; [unfold area; lia|]. intros x Hx. apply Hm. unfold in_stack. lia.
  - rewrite unwind_frame by lia. apply iret_user; [lia | lia | | done]. unfold entry_frame. rewrite <- Hf.
    replace (get_kstack_address i - 56 + 36) with (ebp b + 4 + 4 + 4 + 32 + 4) by lia. apply load_iret_ext; [lia | lia|].
    intros x Hx. apply Hm. unfold in_stack. lia.
Qed.

Lemma shells_frames k m :
  three_shells L pit_ret k0 p w a k -> (forall x, ~ in_stack 0 x -> m x = kmem (pr k) x) ->
  forall i, i ∈ [1; 2] -> r_frame (t_ctx (three_tasks m) i) = entry_frame (entry_point k0 p).
Proof.
  intros H3 Hm i Hi. assert (1 <= i <= 2) as Hi2 by (revert Hi; elems; rewrite ?elem_of_nil; lia).
  destruct (la_block _ _ _ _ _ _ _ _ (ts_launched _ _ _ _ _ _ _ H3) i) as (b & x & y & Hb); [apply elem_of_cons; by right|].
  apply (shell_context k i _ m H3 Hi Hb). intros z Hz. apply Hm. by apply (stacks_apart i 0 z); [lia | lia | lia |].
Qed.

Lemma first_represents k s' p' ts m :
  three_shells L pit_ret k0 p w a k -> system L (set_sc s' (set_pr p' k)) [0; 1; 2] 0 ->
  (forall x, running (nd s' x) = running (nd (sc k) x)) -> pcbs p' = pcbs (pr k) -> pid_arr p' = pid_arr (pr k) ->
  desc p' = Some 0 -> esp0 p' = get_kstack_address 0 -> cr3 (pg p') = pd_addr L 0 -> (forall x, ~ in_stack 0 x -> m x = kmem (pr k) x) ->
  represents L pit_ret k0 (set_screen ts (set_sc s' (set_pr (set_kmem m p') k))) (three_tasks m).
Proof.
  intros H3 Hsys Hrun Hpc Hpa Hd He Hcr Hm. pose proof H3 as [Hla _ _ Hpids _ _]. pose proof Hla as [_ _ _ Hrunning Hblock _ _ Hsizes _ _ _ (Hf & Hi & _)].
  split; cbn [three_tasks t_queue t_cur t_ready t_parent t_status sc pr set_screen set_sc set_pr set_kmem pid_arr desc esp0 pg pcbs kmem fsys image]; try done.
  - destruct Hsys as [? ? ? ? [] ? ? ? ?]. by split.
  - intros i Hi6 Hn. rewrite Hpa, Hpids. assert (i = 3 \/ i = 4 \/ i = 5) as [-> | [-> | ->]]; [|done..].
    assert (i <> 0 /\ i <> 1 /\ i <> 2) by (split_and!; intros ->; apply Hn; apply (bool_decide_unpack _); done). lia.
  - intros i Hq. rewrite Hrun. by apply Hrunning.
  - intros i b Hq Hb. rewrite Hpc in Hb. destruct (Hsizes i b Hb) as (H8 & _). destruct (Hblock i Hq) as (b0 & x & y & E). rewrite E in Hb. injection Hb as <-.
    split_and!; [done | done | | done]. cbn [files with_esp_ebp shell_of with_files]. apply fds_ok_fresh.
    cbn [files with_esp_ebp shell_of with_files fresh_files length] in H8.
    rewrite length_drop, length_map in H8. lia.
  - intros i b Hq Hne Hb. rewrite Hpc in Hb. assert (i ∈ [1; 2]) as Hq' by (revert Hq; rewrite elem_of_cons; tauto).
    apply (shell_context k i b m H3 Hq' Hb). intros x Hx. apply Hm. apply (stacks_apart i 0 x); [|lia | done | done].
    revert Hq'. elems. rewrite ?elem_of_nil. lia.
  - apply three_family.
Qed.

Lemma first_switch k r :
  three_shells L pit_ret k0 p w a k -> in_kernel 0 r ->
  exists r' k', switch_tasks L ret_addr pit_ret locals r k = Some (Some (0, r'), k') /\
    r_frame r' = entry_frame (entry_point k0 p) /\ represents L pit_ret k0 k' (three_tasks (kmem (pr k'))) /\
    forall i, i ∈ [1; 2] -> r_frame (t_ctx (three_tasks (kmem (pr k'))) i) = entry_frame (entry_point k0 p).
Proof.
  intros H3 [Hi Hmode]. destruct (interruptible_frame 0 r ltac:(lia) Hi) as (_ & Hb & _ & Hlow & Hhigh). destruct (stack_bounds 0 ltac:(lia)) as [B1 B2].
  pose proof (timer_stack_saved pit_ret 0 r (kmem (pr k)) ltac:(lia) Hi Hret) as Hts. cbv zeta in Hts.
  pose proof (timer_stack_sp pit_ret r (kmem (pr k)) _ (proj1 Hi) Hb Hret) as Esp.
  pose proof (gate_frame_sp r (kmem (pr k)) (get_kstack_address 0) (proj1 Hi) Hb) as EF. set (F := frame_addr (r_frame r) (get_kstack_address 0)) in *.
  remember (timer_stack pit_ret r (kmem (pr k)) (get_kstack_address 0)) as ts eqn:Ets. destruct Hts as [Hout [_ _ Hpit _]].
  pose proof (shells_kmem k ts.1 Hout H3) as H3'.
  destruct (first_tick L pit_ret k0 j p w a Hpf Hlen Hw Ha _ F (u32 (ts.2 - locals)) ts.2 H3') as
    (s' & p' & Eh & Hsys & _ & Hfr & Hkm & Hrun & Hpc & Hpa & Hd & He & Hcr); [lia | lia|]. cbn [pr set_pr kmem set_kmem sc] in *.
  unfold switch_tasks, pit_int_linkage. rewrite (gate_frame_base _ _ (esp0 (pr k)) (get_kstack_address 0)) by auto. cbn [r_ebx set_ebx r_ebp r_frame].
  fold (set_ebx (gate_frame (r_frame r) (kmem (pr k)) (get_kstack_address 0)).2 r).
  fold (timer_stack pit_ret r (kmem (pr k)) (get_kstack_address 0)). rewrite <- Ets, EF, Eh, some_bind. unfold pop. addresses.
  assert (forall x, ~ F <= x < F + 20 -> kmem p' x = ts.1 x) as Hmem.
  { intros x Hx. rewrite Hkm, put_iret_eq by lia. rewrite !store32_frame by (unfold area; lia). done. }
  replace (load32 (kmem p') (ts.2 + 4)) with pit_ret by (rewrite <- Hpit; apply load32_ext; [unfold area; lia|]; intros x Hx; symmetry; apply Hmem; lia).
  rewrite Z.eqb_refl. cbn [negb]. replace (ts.2 + 4 + 4 + 4) with (ts.2 + 12) by lia. set (m2 := (push ret_addr (push 0 (kmem p', ts.2 + 12))).1).
  assert (forall x, ~ ts.2 + 4 <= x < ts.2 + 12 -> m2 x = kmem p' x) as Hm2.
  { intros x Hx. unfold m2, push. cbn [fst snd]. addresses. rewrite !store32_frame by (unfold area; lia). done. }
  rewrite some_bind. cbn [pr set_screen set_sc set_pr set_kmem curr_process].
  rewrite (sy_curr _ _ _ _ Hsys : curr_process p' = Some 0), some_bind. eexists _, _. split; [reflexivity|].
  assert (forall x, ~ in_stack 0 x -> m2 x = ts.1 x) as Hm2'.
  { intros x Hx. rewrite Hm2, Hmem; [done | |]; unfold in_stack in Hx; lia. }
  split_and!.
  - rewrite unwind_frame by lia. apply iret_user; [lia | lia | | done]. replace (ts.2 + 12 + 36) with F by lia. unfold entry_frame. rewrite <- Hfr.
    apply load_iret_ext; [lia | lia|]. intros x Hx. apply Hm2. lia.
  - apply (first_represents (set_pr (set_kmem ts.1 (pr k)) k) s' p' _ m2 H3' Hsys); done.
  - by apply (shells_frames (set_pr (set_kmem ts.1 (pr k)) k)).
Qed.

End First.

Lemma represents_files L pit_ret k0 k1 k a :
  fsys k1 = fsys k0 -> image k1 = image k0 -> represents L pit_ret k1 k a -> represents L pit_ret k0 k a.
Proof. intros Hf Hi []. by split; [..|rewrite <- Hf, <- Hi|]. Qed.

Lemma args_left_short jk len a : args_left jk len a -> (length a < 100)%nat.
Proof. intros [[_ ->] | (_ & _ & Ha)]; [cbn; lia | done]. Qed.

(** The kernel reads the image of the file system at its own addresses. *)
Definition sees_image (L : layout) (m : memory) (fsaddr : Z) (k : kernel) : Prop :=
  forall x, fsaddr <= x < fsaddr + image_size m fsaddr -> translate L (pg (pr k)) false x = Some x.

Lemma represents_image E L pit_ret k0 k a m addr fsaddr :
  layout_ok L -> loader_ok E m addr fsaddr -> represents L pit_ret k0 k a -> sees_image L m fsaddr k.
Proof.
  intros HL [_ _ _ _ _ [H1 H2] _] Hr x Hx.
  pose proof (po_paging _ _ _ (sy_procs _ _ _ _ (rp_system _ _ _ _ _ Hr))) as Hok.
  destruct (system_member _ _ _ _ _ (rp_system _ _ _ _ _ Hr) (sy_in _ _ _ _ (rp_system _ _ _ _ _ Hr))) as [Hi _].
  replace (pg (pr k)) with (set_cr3 (pd_addr L (t_cur a)) (pg (pr k))).
  - apply kernel_page; [done | done | unfold pid_ok; lia | lia].
  - rewrite <- (rp_cr3 _ _ _ _ _ Hr). by destruct (pg (pr k)).
Qed.

(** ** Properties *)

Section Boots.
Context (E : environment) (dev : log -> Z -> Z) `{!Pic dev}.
Hypothesis Hconv : forall c, length (e_conv64 E c) = 64%nat /\ length (e_conv36 E c) = 36%nat.

(** The registers [int $32] finds at the end of the first call of [kexecute]: the boot code runs
    on what will be the kernel stack of the first shell. *)
Definition booting : user_regs -> Prop := in_kernel 0.

(** C5: From the boot loader to the processes: from the memory a boot loader leaves, with an image
    of a file system as the last module and in the 4 MB page of the kernel, which is all that is
    mapped when the file system is first read, [entry] fills the descriptor tables, sets up the
    devices and starts the program [shell] in the three terminals; the interrupt that ends the
    boot code enters the first shell at its entry point in user mode; and from there on the
    kernel stands for the abstract machine of processes, with the three shells ready and the
    other two about to start at the same entry point, so that everything the processes do runs
    as on that machine and never gets stuck; the image stays where the kernel reads it. *)
Theorem boot_runs_processes addr fsaddr esp_in ebp_in b j p a :
  layout_ok (e_layout E) -> boot_layout_ok (e_layout E) -> powered b -> loader_ok E (image (krn b)) addr fsaddr -> both_symbols (image (krn b)) addr = false ->
  let k := set_fsys (fs_init (image (krn b)) (fsys (krn b)) fsaddr).2 (krn b) in
  program_file k j p -> is_elf k p = true -> 28 <= inode_length (image k) p <= 0x3b8000 -> entry_name (image k) (fsys k) j = str "shell" ->
  (128 <= length (args_junk (e_junk E)))%nat -> (129 <= length (cmd_junk (e_junk E)))%nat -> args_left (e_junk E) 5 a ->
  u32_range_of (e_pit_ret E) ->
  exists b' k1, entry E dev MULTIBOOT_BOOTLOADER_MAGIC addr esp_in ebp_in b = Some (b', Some (Yields k1)) /\
    table_is (e_handlers E) (idt b') kernel_vectors /\ masks_refine boot_lines (irqs b') (ports b') /\ interrupts (ports b') = true /\
    forall ret_addr locals r, booting r ->
    exists r' k2, switch_tasks (e_layout E) ret_addr (e_pit_ret E) locals r k1 = Some (Some (0, r'), k2) /\
      r_frame r' = entry_frame (entry_point k p) /\
      let a0 := three_tasks (kmem (pr k2)) in
      represents (e_layout E) (e_pit_ret E) k k2 a0 /\ sees_image (e_layout E) (image (krn b)) fsaddr k2 /\
      (forall i, i ∈ [1; 2] -> r_frame (t_ctx a0 i) = entry_frame (entry_point k p)) /\
      forall ops es, QuietOps ops -> allowed (e_layout E) k a0 es ->
      exists tr k3 a3, kernel_run ops (e_layout E) ret_addr (e_pit_ret E) locals es k2 = Some (tr, k3) /\
        task_run k a0 es tr a3 /\ represents (e_layout E) (e_pit_ret E) k k3 a3 /\
        sees_image (e_layout E) (image (krn b)) fsaddr k3.
Proof.
  intros HL HBL Hpow Hlo Hsym k Hpf Helf Hlen Hname Hj1 Hj2 Hleft Hret.
  destruct (boot_starts_shells E dev Hconv addr fsaddr esp_in ebp_in b j p a HL HBL Hpow Hlo Hsym Hpf Helf Hlen Hname Hj1 Hj2 Hleft Hret)
    as (b' & k1 & Eb & H3 & Him & Hfs & Htab & Hmask & _ & Hint & _).
  exists b', k1. split; [exact Eb|]. split; [exact Htab|]. split; [exact Hmask|]. split; [exact Hint|]. intros ret_addr locals r Hr.
  destruct (program_file_ext k (krn b') j p Him Hfs Hpf) as [Hpf' _].
  edestruct (first_switch (e_layout E) ret_addr (e_pit_ret E) locals (krn b') j p (str "shell") a Hpf') as (r' & k2 & Es & Hfr & Hrep & Hctx);
    [by rewrite Him | apply Nat.ltb_lt; reflexivity | by eapply args_left_short | exact Hret | exact H3 | exact Hr|].
  apply (represents_files _ _ k) in Hrep; [|exact Hfs | exact Him].
  assert (entry_point (krn b') p = entry_point k p) as Eip by (unfold entry_point, slice; by rewrite Hfs, Him). rewrite Eip in *.
  exists r', k2. split; [exact Es|]. split; [exact Hfr|]. split; [exact Hrep|].
  split; [by eapply represents_image|]. split; [exact Hctx|]. intros ops es Hq Hal.
  edestruct run_simulated as (tr & k3 & a3 & Er & Ha & Hrep3); [exact Hq | exact Hret | exact Hrep | exact Hal|].
  exists tr, k3, a3. split_and!; [exact Er | exact Ha | exact Hrep3 | by eapply represents_image].
Qed.

End Boots.

(** The boot of the small image, and two time slices. *)
Lemma three_allowed L k m : allowed L k (three_tasks m) [Timer (demo_regs 3 4); Timer (demo_in_kernel 1)].
Proof.
  constructor; [by apply (bool_decide_unpack _)|]. intros o1 a1 H1. inversion H1; subst. demo_pass 1.
  constructor; [by apply (bool_decide_unpack _)|]. intros o2 a2 H2. constructor.
Qed.

Lemma boot_runs_processes_witness :
  exists b' k1 r' k2 tr k3, entry demo_env pic_dev MULTIBOOT_BOOTLOADER_MAGIC 0x9000 1 2 demo_boot = Some (b', Some (Yields k1)) /\
    switch_tasks demo_layout 0x402000 (e_pit_ret demo_env) 32 (demo_in_kernel 0) k1 = Some (Some (0, r'), k2) /\
    kernel_run demo_ops demo_layout 0x402000 (e_pit_ret demo_env) 32 [Timer (demo_regs 3 4); Timer (demo_in_kernel 1)] k2 = Some (tr, k3).
Proof.
  destruct (boot_runs_processes demo_env pic_dev (fun _ => conj eq_refl eq_refl) 0x9000 demo_base 1 2 demo_boot 1 demo_inode [])
    as (b' & k1 & Hb & _ & _ & _ & Hrun);
    [apply demo_layout_ok | apply demo_boot_layout_ok | apply boot_powered | apply boot_loader_ok | vm_compute; reflexivity | apply boot_program | vm_compute; reflexivity
    | vm_compute; split; discriminate | vm_compute; reflexivity | apply Nat.leb_le; reflexivity | apply Nat.leb_le; reflexivity
    | left; split; reflexivity | split; [discriminate | reflexivity]|].
  destruct (Hrun 0x402000 32 (demo_in_kernel 0)) as (r' & k2 & Es & _ & _ & _ & _ & Hgo); [apply (bool_decide_unpack _); vm_compute; exact I|].
  destruct (Hgo demo_ops [Timer (demo_regs 3 4); Timer (demo_in_kernel 1)] demo_ops_quiet (three_allowed _ _ _)) as (tr & k3 & a3 & Er & _).
  exists b', k1, r', k2, tr, k3. exact (conj Hb (conj Es Er)).
Defined.
