(* ===== verification/UserLib.v ===== *)
(** * The support library of the programs, [syscalls/ece391support.c]

    Strings are byte arrays; a function that runs past the end of its array is [None].
    [fish/ece391support.c] has the same text for the functions it shares. *)

From stdpp Require Import base list option.
From Stdlib Require Import ZArith Lia ZifyBool.
From S2P Require Import Prelude Lib.

(** [for (len = 0; '\0' != *s; s++, len++);] *)
Fixpoint ece391_strlen_from (s : list Z) (len : Z) : option Z :=
  match s with
  | [] => None
  | c :: s' => if c =? 0 then Some len else ece391_strlen_from s' (u32 (len + 1))
  end.
Definition ece391_strlen (s : list Z) : option Z := ece391_strlen_from s 0.

(** [while ('\0' != ( *dst++ = *src++ ));] with both pointers into one array, at [d] and
    [s]; the fuel is the size of the array. *)
Fixpoint ece391_strcpy (fuel : nat) (buf : list Z) (d s : Z) : option (list Z) :=
  match fuel with
  | O => None
  | S fuel' =>
      c ← buf.[s]; buf ← buf.[d <- c];
      if c =? 0 then Some buf else ece391_strcpy fuel' buf (d + 1) (s + 1)
  end.

Fixpoint ece391_strcmp (s1 s2 : list Z) : option Z :=
  match s1, s2 with
  | a :: s1', b :: s2' =>
      if a =? b then if a =? 0 then Some 0 else ece391_strcmp s1' s2'
      else Some (a - b)
  | _, _ => None
  end.

(** The loop; [n] counts down and is not 0 on entry. *)
Fixpoint ece391_strncmp_from (s1 s2 : list Z) (n : Z) : option Z :=
  match s1, s2 with
  | a :: s1', b :: s2' =>
      if a =? b then
        if (a =? 0) || (n - 1 =? 0) then Some 0 else ece391_strncmp_from s1' s2' (n - 1)
      else Some (a - b)
  | _, _ => None
  end.
Definition ece391_strncmp (s1 s2 : list Z) (n : Z) : option Z :=
  if 0 =? n then Some 0 else ece391_strncmp_from s1 s2 n.

Definition ece391_strrev (s : list Z) : option (list Z) :=
  len ← ece391_strlen s;
  let e := s32 (u32 (len - 1)) in
  if e <=? 0 then Some s
  else '(s', _, _) ← while_do (S (length s)) (fun '(_, b, e) => b <? e) strrev_body (s, 0, e); Some s'.

Definition ece391_itoa (value : Z) (buf : list Z) (radix : Z) : option (list Z) :=
  if value =? 0 then b ← buf.[0 <- 48]; b.[1 <- 0]
  else
    '(b, pos, _) ← while_do 33 (fun '(_, _, v) => 0 <? v) (itoa_body radix) (buf, 0, value);
    b' ← b.[pos <- 0];
    ece391_strrev b'.

(** ** Lemmas *)

Lemma ece391_strlen_from_eq s len : ece391_strlen_from s len = strlen_from s len.
Proof. revert len. induction s as [|c s IH]; intros len; [done|]. cbn. by rewrite IH. Qed.

(** The library agrees with the kernel's: the early return of [ece391_strrev] changes nothing. *)
Lemma ece391_strrev_eq s : ece391_strrev s = strrev s.
Proof.
  unfold ece391_strrev, strrev, ece391_strlen, strlen. rewrite ece391_strlen_from_eq.
  destruct (strlen_from s 0) as [len|]; [|done]. rewrite !some_bind. cbv zeta.
  destruct (Z.leb_spec (s32 (u32 (len - 1))) 0); [|done]. cbn [while_do].
  bfalse (0 <? s32 (u32 (len - 1))). done.
Qed.

Lemma ece391_itoa_eq value buf radix : ece391_itoa value buf radix = itoa value buf radix.
Proof.
  unfold ece391_itoa, itoa. destruct (value =? 0); [done|].
  destruct (while_do _ _ _ _) as [[[b pos] v]|]; [|done]. rewrite !some_bind.
  destruct (b.[pos <- 0]) as [b'|]; [|done]. rewrite !some_bind. apply ece391_strrev_eq.
Qed.

Lemma ece391_strlen_spec s cs :
  cstring s cs -> Z.of_nat (length cs) < 2 ^ 32 -> ece391_strlen s = Some (Z.of_nat (length cs)).
Proof.
  intros Hs Hl. unfold ece391_strlen. rewrite ece391_strlen_from_eq. rewrite (strlen_from_spec s cs 0) by (done || lia). f_equal.
Qed.

(** [ece391_strcmp] is 0 exactly for equal strings. *)
Lemma ece391_strcmp_spec s1 s2 c1 c2 :
  cstring s1 c1 -> cstring s2 c2 -> exists r, ece391_strcmp s1 s2 = Some r /\ (r = 0 <-> c1 = c2).
Proof.
  revert s2 c1 c2. induction s1 as [|a s1 IH]; intros s2 c1 c2 H1 H2.
  { destruct H1 as (r & E & _). by destruct c1. }
  destruct s2 as [|b s2]; [destruct H2 as (r & E & _); by destruct c2|].
  destruct H1 as (r1 & E1 & F1), H2 as (r2 & E2 & F2). cbn [ece391_strcmp].
  destruct (Z.eqb_spec a b) as [->|Hab].
  - destruct (Z.eqb_spec b 0) as [->|Hb].
    + exists 0. split; [done|]. split; [|done]. intros _.
      destruct c1 as [|x c1], c2 as [|y c2]; try done; simplify_eq/=; by inversion F1 || by inversion F2.
    + destruct c1 as [|x c1], c2 as [|y c2]; simplify_eq/=; try done.
      inversion F1; inversion F2; subst. destruct (IH (c2 ++ 0 :: r2) c1 c2) as (r & E & Hr).
      * by exists r1.
      * by exists r2.
      * exists r. split; [done|]. rewrite Hr. split; [by intros -> | by intros [= ->]].
  - exists (a - b). split; [done|]. split; [lia|]. intros ->. destruct c2; simplify_eq/=.
Qed.

(** ** Lines of text *)

(** The lines of a text; the last one is what follows the last newline. *)
Fixpoint lines (d : list Z) : list (list Z) :=
  match d with
  | [] => [[]]
  | c :: d' => if c =? 10 then [] :: lines d' else match lines d' with l :: ls => (c :: l) :: ls | [] => [] end
  end.

Lemma lines_split r :
  exists x, Forall (fun c => c <> 10) x /\
    ((exists r', r = x ++ 10 :: r' /\ lines r = x :: lines r') \/ r = x /\ lines r = [x]).
Proof.
  induction r as [|c r (x & Hx & IH)]; [exists []; split; [constructor | by right]|]. cbn [lines].
  destruct (Z.eqb_spec c 10) as [->|Hc]; [exists []; split; [constructor | left; by exists r]|].
  exists (c :: x). split; [by constructor|]. destruct IH as [(r' & -> & ->)|[-> E]]; [left; by exists r' | right; by rewrite E].
Qed.

Lemma lines_length r : (length (lines r) <= S (length r))%nat /\ Forall (fun l => (length l <= length r)%nat) (lines r).
Proof.
  induction r as [|c r [IH1 IH2]]; [split; [done | by repeat constructor]|]. cbn [lines length].
  assert (Forall (fun l => (length l <= S (length r))%nat) (lines r)) as IH3 by (revert IH2; apply List.Forall_impl; cbn; lia).
  destruct (c =? 10); [split; [cbn; lia | constructor; [cbn; lia | done]]|].
  destruct (lines r) as [|l ls]; [split; [cbn; lia | constructor]|]. inversion IH2; inversion IH3; subst. split; [cbn in *; lia|]. constructor; [cbn; lia | done].
Qed.

Lemma lines_ne r : lines r <> [].
Proof. destruct (lines_split r) as (x & _ & [(r' & _ & ->)|[_ ->]]); done. Qed.

Lemma lines_app u v : lines (u ++ 10 :: v) = lines u ++ lines v.
Proof.
  induction u as [|c u IH]; [done|]. cbn [app lines]. rewrite IH. destruct (c =? 10); [done|].
  pose proof (lines_ne u). by destruct (lines u).
Qed.

Lemma lines_one x : Forall (fun c => c <> 10) x -> lines x = [x].
Proof. induction 1 as [|c x Hc _ IH]; [done|]. cbn [lines]. bfalse (c =? 10). by rewrite IH. Qed.
