(* ===== verification/Syscalls.v ===== *)
(** * Programs and the system calls they make

    A program is an interaction tree over the system calls of
    [syscalls/ece391syscall.h]: its own computation is in the tree, what the calls answer
    is up to a handler.  A handler is a partial function on the state of an operating
    system; it is undefined where the call does not return or where the program did
    something undefined.

    [runs] says that a program ends against a handler, with which result and in which
    state; [run] computes it with fuel.  The rules below are those of straight-line code,
    sequencing and loops, and [runs_sim] carries a run over to an operating system that
    simulates the first. *)

From stdpp Require Import base list option.
From Stdlib Require Import ZArith Lia ZifyBool.
From ITree Require Import ITree.
From S2P Require Import Prelude.

(** Sequencing, in a scope of its own. *)
Declare Scope prog_scope.
Delimit Scope prog_scope with prog.
Notation "x <~ t ;; k" := (ITree.bind t (fun x => k))
  (at level 20, t at level 60, k at level 200, only parsing) : prog_scope.
Notation "' x <~ t ;; k" := (ITree.bind t (fun x => k))
  (at level 20, x pattern, t at level 60, k at level 200, only parsing) : prog_scope.
Notation "t ;;; k" := (ITree.bind t (fun _ => k)) (at level 62, k at level 200, right associativity, only parsing) : prog_scope.
#[global] Open Scope prog_scope.

(** The buffers of a call are values: a call that stores bytes gives the bytes it stores.
    [Store] is no call but an instruction: a byte the program stores at an address where others
    can see it. *)
Variant sysE : Type -> Type :=
  | Execute (command : list Z) : sysE Z
  | Read (fd nbytes : Z) : sysE (Z * list Z)
  | Write (fd : Z) (buf : list Z) (nbytes : Z) : sysE Z
  | Open (filename : list Z) : sysE Z
  | Close (fd : Z) : sysE Z
  | Getargs (nbytes : Z) : sysE (Z * list Z)
  | Vidmap (screen_start : Z) : sysE (Z * list Z)
  | Set_handler (signum : Z) : sysE Z
  | Call_sys (num : Z) : sysE Z
  | Store (addr c : Z) : sysE unit
  | Undefined : sysE Empty_set.

Definition prog : Type -> Type := itree sysE.

Definition sys {X} (e : sysE X) : prog X := ITree.trigger e.

(** A step of C that may be undefined. *)
Definition lift {X} (o : option X) : prog X :=
  match o with
  | Some x => Ret x
  | None => v <~ sys Undefined;; match (v : Empty_set) with end
  end.

(** The bytes [bs] stored in [buf] from index [i] on. *)
Definition fill (buf : list Z) (i : Z) (bs : list Z) : option (list Z) :=
  if (0 <=? i) && (i + Z.of_nat (length bs) <=? Z.of_nat (length buf))
  then Some (take (Z.to_nat i) buf ++ bs ++ drop (Z.to_nat i + length bs) buf) else None.

(** ** Running programs *)

Section Runs.
Context {W : Type} (h : forall X, sysE X -> W -> option (X * W)).

Inductive runs {R} : prog R -> W -> R -> W -> Prop :=
  | runs_RetF t w r : observe t = RetF r -> runs t w r w
  | runs_TauF t t' w r w' : observe t = TauF t' -> runs t' w r w' -> runs t w r w'
  | runs_VisF X t (e : sysE X) k w x w1 r w2 :
      observe t = VisF e k -> h X e w = Some (x, w1) -> runs (k x) w1 r w2 -> runs t w r w2.

Fixpoint run {R} (fuel : nat) (t : prog R) (w : W) : option (R * W) :=
  match fuel with
  | O => None
  | S fuel' =>
      match observe t with
      | RetF r => Some (r, w)
      | TauF t' => run fuel' t' w
      | VisF e k => '(x, w') ← h _ e w; run fuel' (k x) w'
      end
  end.

Lemma run_runs {R} fuel (t : prog R) w r w' : run fuel t w = Some (r, w') -> runs t w r w'.
Proof.
  revert t w. induction fuel as [|fuel IH]; intros t w E; [done|]. cbn in E.
  destruct (observe t) as [r0|t'|X e k] eqn:Eo.
  - injection E as -> ->. by apply runs_RetF.
  - eapply runs_TauF; [done|]. by apply IH.
  - apply bind_Some in E as ([x w1] & E1 & E2). eapply runs_VisF; [done..|]. by apply IH.
Qed.

Lemma runs_run {R} (t : prog R) w r w' : runs t w r w' -> exists fuel, run fuel t w = Some (r, w').
Proof.
  induction 1 as [t w r E | t t' w r w' E _ [n IH] | X t e k w x w1 r w2 E Eh _ [n IH]].
  - exists 1%nat. cbn. by rewrite E.
  - exists (S n). cbn. by rewrite E.
  - exists (S n). cbn. by rewrite E, Eh.
Qed.

(** ** Rules *)

Lemma runs_ret {R} (r : R) w : runs (Ret r) w r w.
Proof. by apply runs_RetF. Qed.

Lemma observe_bind {X R} (t : prog X) (k : X -> prog R) :
  observe (ITree.bind t k) =
  match observe t with
  | RetF x => observe (k x)
  | TauF t' => TauF (ITree.bind t' k)
  | VisF e k' => VisF e (fun y => ITree.bind (k' y) k)
  end.
Proof.
  transitivity (observe (match observe t with
    | RetF x => k x | TauF t' => Tau (ITree.bind t' k) | VisF e k' => Vis e (fun y => ITree.bind (k' y) k) end));
    [reflexivity | by destruct (observe t)].
Qed.

Lemma observe_iter {I R} (body : I -> prog (I + R)) i :
  observe (ITree.iter body i) =
  observe (ITree.bind (body i) (fun lr => match lr with inl l => Tau (ITree.iter body l) | inr r => Ret r end)).
Proof. reflexivity. Qed.

(** Trees with the same head run alike. *)
Lemma runs_observe {R} (t t' : prog R) w r w' : observe t = observe t' -> runs t w r w' -> runs t' w r w'.
Proof.
  intros Ho H. destruct H; [eapply runs_RetF | eapply runs_TauF | eapply runs_VisF]; try done; by rewrite <- Ho.
Qed.

Lemma runs_bind {X R} (t : prog X) (k : X -> prog R) w x w1 r w2 :
  runs t w x w1 -> runs (k x) w1 r w2 -> runs (ITree.bind t k) w r w2.
Proof.
  induction 1 as [t w x E | t t' w x w' E _ IH | Y t e k' w y w1' x w' E Eh _ IH]; intros Hk.
  - refine (runs_observe (k x) _ _ _ _ _ Hk). by rewrite observe_bind, E.
  - eapply runs_TauF; [by rewrite observe_bind, E | by apply IH].
  - eapply runs_VisF; [by rewrite observe_bind, E | exact Eh | by apply IH].
Qed.

(** A system call. *)
Lemma runs_sys {X} (e : sysE X) w x w' : h X e w = Some (x, w') -> runs (sys e) w x w'.
Proof. intros E. eapply runs_VisF; [reflexivity | exact E | apply runs_ret]. Qed.

Lemma runs_call {X R} (e : sysE X) (k : X -> prog R) w x w1 r w2 :
  h X e w = Some (x, w1) -> runs (k x) w1 r w2 -> runs (ITree.bind (sys e) k) w r w2.
Proof. intros E. apply runs_bind. by apply runs_sys. Qed.

Lemma runs_lift {X R} (o : option X) (k : X -> prog R) w x r w2 :
  o = Some x -> runs (k x) w r w2 -> runs (ITree.bind (lift o) k) w r w2.
Proof. intros ->. apply runs_bind, runs_ret. Qed.

(** One turn of a loop, then the rest of it or its end. *)
Lemma runs_iter_next {I R} (body : I -> prog (I + R)) i j w w1 r w2 :
  runs (body i) w (inl j) w1 -> runs (ITree.iter body j) w1 r w2 -> runs (ITree.iter body i) w r w2.
Proof.
  intros H1 H2. refine (runs_observe _ _ _ _ _ (eq_sym (observe_iter body i)) _).
  eapply runs_bind; [exact H1|]. by eapply runs_TauF.
Qed.

Lemma runs_iter_stop {I R} (body : I -> prog (I + R)) i w r w1 :
  runs (body i) w (inr r) w1 -> runs (ITree.iter body i) w r w1.
Proof.
  intros H1. refine (runs_observe _ _ _ _ _ (eq_sym (observe_iter body i)) _).
  eapply runs_bind; [exact H1|]. apply runs_ret.
Qed.

(** The result of a run is unique. *)
Lemma runs_det {R} (t : prog R) w r1 w1 r2 w2 : runs t w r1 w1 -> runs t w r2 w2 -> r1 = r2 /\ w1 = w2.
Proof.
  intros (n1 & E1)%runs_run (n2 & E2)%runs_run.
  assert (forall n m R (t : prog R) w r w', run n t w = Some (r, w') -> run (n + m) t w = Some (r, w')) as Hmore.
  { clear. induction n as [|n IH]; intros m R t w r w' E; [done|]. cbn in *. destruct (observe t); [done | by apply IH |].
    apply bind_Some in E as ([x w1] & -> & E). cbn. by apply IH. }
  apply (Hmore n1 n2) in E1. apply (Hmore n2 n1) in E2. rewrite Nat.add_comm in E2. rewrite E1 in E2. by injection E2 as -> ->.
Qed.

(** ** Programs that do not end *)

(** What a program does up to some point of its run. *)
Inductive reaches {R} : prog R -> W -> W -> Prop :=
  | reaches_here t w : reaches t w w
  | reaches_TauF t t' w w' : observe t = TauF t' -> reaches t' w w' -> reaches t w w'
  | reaches_VisF X t (e : sysE X) k w x w1 w2 :
      observe t = VisF e k -> h X e w = Some (x, w1) -> reaches (k x) w1 w2 -> reaches t w w2.

Lemma reaches_observe {R} (t t' : prog R) w w' : observe t = observe t' -> reaches t w w' -> reaches t' w w'.
Proof. intros Ho H. destruct H; [eapply reaches_here | eapply reaches_TauF | eapply reaches_VisF]; try done; by rewrite <- Ho. Qed.

Lemma reaches_bind {X R} (t : prog X) (k : X -> prog R) w x w1 w2 :
  runs t w x w1 -> reaches (k x) w1 w2 -> reaches (ITree.bind t k) w w2.
Proof.
  induction 1 as [t w x E | t t' w x w' E _ IH | Y t e k' w y w1' x w' E Eh _ IH]; intros Hk.
  - refine (reaches_observe (k x) _ _ _ _ Hk). by rewrite observe_bind, E.
  - eapply reaches_TauF; [by rewrite observe_bind, E | by apply IH].
  - eapply reaches_VisF; [by rewrite observe_bind, E | exact Eh | by apply IH].
Qed.

Lemma reaches_iter_next {I R} (body : I -> prog (I + R)) i j w w1 w2 :
  runs (body i) w (inl j) w1 -> reaches (ITree.iter body j) w1 w2 -> reaches (ITree.iter body i) w w2.
Proof.
  intros H1 H2. refine (reaches_observe _ _ _ _ (eq_sym (observe_iter body i)) _).
  eapply reaches_bind; [exact H1|]. by eapply reaches_TauF.
Qed.

(** The parts of a run of two programs in sequence. *)
Lemma run_bind_inv {X R} (k : X -> prog R) r w' : forall n (t : prog X) w,
  run n (ITree.bind t k) w = Some (r, w') -> exists m x w1, (m <= n)%nat /\ runs t w x w1 /\ run m (k x) w1 = Some (r, w').
Proof.
  induction n as [|n IH]; intros t w E; [done|]. cbn [run] in E. rewrite observe_bind in E. destruct (observe t) as [x|t'|Y e k'] eqn:Eo.
  - exists (S n), x, w. split; [done|]. split; [by apply runs_RetF | exact E].
  - apply IH in E as (m & x & w1 & Hm & H1 & H2). exists m, x, w1. split; [lia|]. split; [by eapply runs_TauF | done].
  - apply bind_Some in E as ([y w0] & Eh & E). apply IH in E as (m & x & w1 & Hm & H1 & H2).
    exists m, x, w1. split; [lia|]. split; [by eapply runs_VisF | done].
Qed.

Lemma runs_after {X R} (t : prog X) (k : X -> prog R) w x w1 r w' :
  runs t w x w1 -> runs (ITree.bind t k) w r w' -> runs (k x) w1 r w'.
Proof.
  intros H1 (n & E)%runs_run. apply run_bind_inv in E as (m & y & w2 & _ & H2 & E). destruct (runs_det _ _ _ _ _ _ H1 H2) as [<- <-].
  by eapply run_runs.
Qed.

(** A loop whose body always asks for another turn, by an invariant of the state, has no end. *)
Lemma iter_forever {I R} (body : I -> prog (I + R)) (P : I -> W -> Prop) :
  (forall i w, P i w -> exists j w1, runs (body i) w (inl j) w1 /\ P j w1) ->
  forall i w r w', P i w -> ~ runs (ITree.iter body i) w r w'.
Proof.
  intros Hbody i w r w' HP (n & E)%runs_run. revert i w HP E. induction n as [n IH] using lt_wf_ind. intros i w HP E.
  destruct n as [|n]; [done|]. destruct (Hbody i w HP) as (j & w1 & Hj & HPj).
  apply (run_bind_inv (fun lr => match lr with inl l => Tau (ITree.iter body l) | inr r => Ret r end) r w' (S n) (body i)) in E
    as (m & x & w2 & Hm & Hx & E).
  destruct (runs_det _ _ _ _ _ _ Hj Hx) as [<- <-]. destruct m as [|m]; [done|]. apply (IH m ltac:(lia) j w1 HPj E).
Qed.

(** A program that gets as far as something undefined, such as an access through a bad pointer. *)
Inductive faults {R} : prog R -> W -> W -> Prop :=
  | faults_here t k w : observe t = VisF Undefined k -> faults t w w
  | faults_TauF t t' w w' : observe t = TauF t' -> faults t' w w' -> faults t w w'
  | faults_VisF X t (e : sysE X) k w x w1 w2 :
      observe t = VisF e k -> h X e w = Some (x, w1) -> faults (k x) w1 w2 -> faults t w w2.

Lemma faults_observe {R} (t t' : prog R) w w' : observe t = observe t' -> faults t w w' -> faults t' w w'.
Proof. intros Ho H. destruct H; [eapply faults_here | eapply faults_TauF | eapply faults_VisF]; try done; by rewrite <- Ho. Qed.

Lemma faults_bind {X R} (t : prog X) (k : X -> prog R) w x w1 w2 :
  runs t w x w1 -> faults (k x) w1 w2 -> faults (ITree.bind t k) w w2.
Proof.
  induction 1 as [t w x E | t t' w x w' E _ IH | Y t e k' w y w1' x w' E Eh _ IH]; intros Hk.
  - refine (faults_observe (k x) _ _ _ _ Hk). by rewrite observe_bind, E.
  - eapply faults_TauF; [by rewrite observe_bind, E | by apply IH].
  - eapply faults_VisF; [by rewrite observe_bind, E | exact Eh | by apply IH].
Qed.

Lemma faults_call {X R} (e : sysE X) (k : X -> prog R) w x w1 w2 :
  h X e w = Some (x, w1) -> faults (k x) w1 w2 -> faults (ITree.bind (sys e) k) w w2.
Proof. intros E. apply faults_bind. by apply runs_sys. Qed.

Lemma faults_step {X R} (o : option X) (k : X -> prog R) w x w2 :
  o = Some x -> faults (k x) w w2 -> faults (ITree.bind (lift o) k) w w2.
Proof. intros ->. apply faults_bind, runs_ret. Qed.

Lemma faults_lift {X R} (k : X -> prog R) w : faults (ITree.bind (lift None) k) w w.
Proof. eapply faults_here. rewrite observe_bind. unfold lift. rewrite observe_bind. reflexivity. Qed.

End Runs.

(** ** Simulation *)

(** [h2] does what [h1] does, on states related by [rel]. *)
Definition simulates {W1 W2} (h1 : forall X, sysE X -> W1 -> option (X * W1))
    (h2 : forall X, sysE X -> W2 -> option (X * W2)) (rel : W1 -> W2 -> Prop) : Prop :=
  forall X (e : sysE X) w1 w2 x w1', rel w1 w2 -> h1 X e w1 = Some (x, w1') ->
    exists w2', h2 X e w2 = Some (x, w2') /\ rel w1' w2'.

Lemma runs_sim {W1 W2 R} h1 h2 (rel : W1 -> W2 -> Prop) (t : prog R) w1 w2 r w1' :
  simulates h1 h2 rel -> rel w1 w2 -> runs h1 t w1 r w1' -> exists w2', runs h2 t w2 r w2' /\ rel w1' w2'.
Proof.
  intros Hsim Hrel Hr. revert w2 Hrel.
  induction Hr as [t w r E | t t' w r w' E _ IH | X t e k w x wa r wb E Eh _ IH]; intros w2 Hrel.
  - exists w2. split; [by apply runs_RetF | done].
  - destruct (IH w2 Hrel) as (w2' & H & Hrel'). exists w2'. split; [by eapply runs_TauF | done].
  - destruct (Hsim X e w w2 x wa Hrel Eh) as (w2a & E2 & Hrel2). destruct (IH w2a Hrel2) as (w2' & H & Hrel').
    exists w2'. split; [by eapply runs_VisF | done].
Qed.

Lemma faults_sim {W1 W2 R} h1 h2 (rel : W1 -> W2 -> Prop) (t : prog R) w1 w2 w1' :
  simulates h1 h2 rel -> rel w1 w2 -> faults h1 t w1 w1' -> exists w2', faults h2 t w2 w2' /\ rel w1' w2'.
Proof.
  intros Hsim Hrel Hr. revert w2 Hrel.
  induction Hr as [t k w E | t t' w w' E _ IH | X t e k w x wa wb E Eh _ IH]; intros w2 Hrel.
  - exists w2. split; [by eapply faults_here | done].
  - destruct (IH w2 Hrel) as (w2' & H & Hrel'). exists w2'. split; [by eapply faults_TauF | done].
  - destruct (Hsim X e w w2 x wa Hrel Eh) as (w2a & E2 & Hrel2). destruct (IH w2a Hrel2) as (w2' & H & Hrel').
    exists w2'. split; [by eapply faults_VisF | done].
Qed.
