(* ===== verification/Programs.v ===== *)
(** * The programs, [syscalls/*.c]

    The [main] functions as interaction trees over the system calls, one Module per
    program.  An array that is not initialised is an argument that holds what the stack
    held.  [_start] halts with the value a [main] returns. *)

From stdpp Require Import base list option.
From Stdlib Require Import ZArith Lia ZifyBool.
From ITree Require Import ITree.
From S2P Require Import Prelude Lib UserLib Syscalls.

(** A string literal, with a newline at its end or without. *)
Definition lit (s : String.string) : list Z := str s ++ [0].
Definition litn (s : String.string) : list Z := str s ++ [10; 0].

Arguments lit s%_string_scope.
Arguments litn s%_string_scope.

Definition ece391_fdputs (fd : Z) (s : list Z) : prog unit :=
  n <~ lift (ece391_strlen s);; sys (Write fd s n);;; Ret tt.

Module Cat.

Definition cat_main (buf : list Z) : prog Z :=
  '(ret, bs) <~ sys (Getargs 1024);; buf <~ lift (fill buf 0 bs);;
  if negb (0 =? ret) then ece391_fdputs 1 (litn "could not read arguments");;; Ret 3
  else
    fd <~ sys (Open buf);;
    if -1 =? fd then ece391_fdputs 1 (litn "file not found");;; Ret 2
    else
      ITree.iter (fun buf =>
        '(cnt, bs) <~ sys (Read fd 1024);; buf <~ lift (fill buf 0 bs);;
        if 0 =? cnt then Ret (inr 0)
        else if -1 =? cnt then ece391_fdputs 1 (litn "file read failed");;; Ret (inr 3)
        else
          w <~ sys (Write 1 buf cnt);;
          if -1 =? w then Ret (inr 3) else Ret (inl buf)) buf.

End Cat.

Module Ls.

Definition SBUFSIZE : Z := 33.

Definition ls_main (buf : list Z) : prog Z :=
  fd <~ sys (Open (lit "."));;
  if -1 =? fd then ece391_fdputs 1 (litn "directory open failed");;; Ret 2
  else
    ITree.iter (fun buf =>
      '(cnt, bs) <~ sys (Read fd (SBUFSIZE - 1));; buf <~ lift (fill buf 0 bs);;
      if 0 =? cnt then Ret (inr 0)
      else if -1 =? cnt then ece391_fdputs 1 (litn "directory entry read failed");;; Ret (inr 3)
      else
        buf <~ lift (buf.[cnt <- 10]);;
        w <~ sys (Write 1 buf (cnt + 1));;
        if -1 =? w then Ret (inr 3) else Ret (inl buf)) buf.

End Ls.

Module Grep.

Definition BUFSIZE : Z := 1024.
Definition SBUFSIZE : Z := 33.

(** [while (line_end < last && '\n' != data[line_end]) line_end++;] *)
Fixpoint find_end (fuel : nat) (data : list Z) (last line_end : Z) : option Z :=
  match fuel with
  | O => None
  | S fuel' =>
      if line_end <? last then
        c ← data.[line_end]; if c =? 10 then Some line_end else find_end fuel' data last (line_end + 1)
      else Some line_end
  end.

(** The loop over [check]: whether the line matches.  [s] is a [char] array. *)
Fixpoint matches (n : nat) (s data : list Z) (s_len check : Z) : option bool :=
  match n with
  | O => Some false
  | S n' =>
      c ← data.[check]; s0 ← s.[0];
      if s8 s0 =? c then
        r ← ece391_strncmp (drop (Z.to_nat check) data) s s_len;
        if 0 =? r then Some true else matches n' s data s_len (check + 1)
      else matches n' s data s_len (check + 1)
  end.

(** One line of the buffer: on to the next one at [line_start], or out of the loop. *)
Definition do_line (s fname : list Z) (s_len cnt : Z) (st : list Z * Z * Z) : prog (list Z * Z * Z + list Z * Z) :=
  let '(data, last, line_start) := st in
  line_end <~ lift (find_end (S (length data)) data last line_start);;
  c <~ lift (data.[line_end]);;
  if negb (10 =? c) && negb (0 =? cnt) && negb (line_start =? 0) then
    data <~ lift (data.[line_end <- 0]);;
    data <~ lift (ece391_strcpy (length data) data 0 line_start);;
    Ret (inr (data, last - line_start))
  else
    data <~ lift (data.[line_end <- 0]);;
    hit <~ lift (matches (Z.to_nat (line_end - line_start)) s data s_len line_start);;
    (if (hit : bool) then
       ece391_fdputs 1 fname;;; ece391_fdputs 1 (lit ":");;;
       ece391_fdputs 1 (drop (Z.to_nat line_start) data);;; ece391_fdputs 1 (litn "")
     else Ret tt);;;
    let line_start := line_end + 1 in
    if last <=? line_start then Ret (inr (data, 0)) else Ret (inl (data, last, line_start)).

Definition do_one_file (s fname data : list Z) : prog Z :=
  s_len <~ lift (ece391_strlen s);;
  fd <~ sys (Open fname);;
  if -1 =? fd then ece391_fdputs 1 (litn "file open failed");;; Ret (-1)
  else
    ok <~ ITree.iter (fun '(data, last) =>
      '(cnt, bs) <~ sys (Read fd (BUFSIZE - last));; data <~ lift (fill data last bs);;
      if -1 =? cnt then ece391_fdputs 1 (litn "file read failed");;; Ret (inr false)
      else
        '(data, last) <~ ITree.iter (do_line s fname s_len cnt) (data, last + cnt, 0);;
        if 0 =? cnt then Ret (inr true) else Ret (inl (data, last))) (data, 0);;
    if negb (ok : bool) then Ret (-1)
    else
      r <~ sys (Close fd);;
      if -1 =? r then ece391_fdputs 1 (litn "file close failed");;; Ret (-1) else Ret 0.

(** [data] is what [do_one_file] finds in its buffer, for each of the names. *)
Definition grep_main (buf search : list Z) (data : list Z -> list Z) : prog Z :=
  '(ret, bs) <~ sys (Getargs BUFSIZE);; search <~ lift (fill search 0 bs);;
  if negb (0 =? ret) then ece391_fdputs 1 (litn "could not read argument");;; Ret 3
  else
    fd <~ sys (Open (lit "."));;
    if -1 =? fd then ece391_fdputs 1 (litn "directory open failed");;; Ret 2
    else
      ITree.iter (fun buf =>
        '(cnt, bs) <~ sys (Read fd (SBUFSIZE - 1));; buf <~ lift (fill buf 0 bs);;
        if 0 =? cnt then Ret (inr 0)
        else if -1 =? cnt then ece391_fdputs 1 (litn "directory entry read failed");;; Ret (inr 3)
        else
          c <~ lift (buf.[0]);;
          if 46 =? c then Ret (inl buf)
          else
            buf <~ lift (buf.[cnt <- 0]);;
            r <~ do_one_file search buf (data buf);;
            if negb (0 =? r) then Ret (inr 3) else Ret (inl buf)) buf.

End Grep.

Module Shell.

Definition BUFSIZE : Z := 1024.

(** One turn of the loop: a prompt, a line, a command. *)
Definition turn (buf : list Z) : prog (list Z + Z) :=
  ece391_fdputs 1 (lit "391OS> ");;;
  '(cnt, bs) <~ sys (Read 0 (BUFSIZE - 1));; buf <~ lift (fill buf 0 bs);;
  if -1 =? cnt then ece391_fdputs 1 (litn "read from keyboard failed");;; Ret (inr 3)
  else
    cnt <~ (if 0 <? cnt then c <~ lift (buf.[cnt - 1]);; Ret (if 10 =? c then cnt - 1 else cnt) else Ret cnt);;
    buf <~ lift (buf.[cnt <- 0]);;
    r <~ lift (ece391_strcmp buf (lit "exit"));;
    if 0 =? r then Ret (inr 0)
    else
      c <~ lift (buf.[0]);;
      if 0 =? c then Ret (inl buf)
      else
        rval <~ sys (Execute buf);;
        (if -1 =? rval then ece391_fdputs 1 (litn "no such command")
         else if 256 =? rval then ece391_fdputs 1 (litn "program terminated by exception")
         else if negb (0 =? rval) then ece391_fdputs 1 (litn "program terminated abnormally")
         else Ret tt);;;
        Ret (inl buf).

Definition shell_main (buf : list Z) : prog Z :=
  ece391_fdputs 1 (litn "Starting 391 Shell");;; ITree.iter turn buf.

End Shell.

Module Hello.

Definition BUFSIZE : Z := 1024.

Definition hello_main (buf : list Z) : prog Z :=
  ece391_fdputs 1 (lit "Hi, what's your name? ");;;
  '(cnt, bs) <~ sys (Read 0 (BUFSIZE - 1));; buf <~ lift (fill buf 0 bs);;
  if -1 =? cnt then ece391_fdputs 1 (litn "Can't read name from keyboard.");;; Ret 3
  else
    buf <~ lift (buf.[cnt <- 0]);;
    ece391_fdputs 1 (lit "Hello, ");;; ece391_fdputs 1 buf;;; Ret 0.

End Hello.

Module Sigtest.

Definition BUFSIZE : Z := 1024.
Definition SEGFAULT : Z := 1.
Definition ALARM : Z := 3.

(** [switch (signum)] of both handlers. *)
Definition signum_text (signum : Z) : list Z :=
  match signum with
  | 0 => litn "0" | 1 => litn "1" | 2 => litn "2" | 3 => litn "3" | _ => litn "invalid"
  end.

(** Afterwards [badbuf] points to [charbuf], and so does the saved eax: the result. *)
Definition segfault_sighandler (signum charbuf_addr : Z) : prog (bool * Z) :=
  ece391_fdputs 1 (lit "Segfault signal handler called, signum: ");;;
  ece391_fdputs 1 (signum_text signum);;;
  ece391_fdputs 1 (litn "Press enter to continue...");;;
  sys (Read 0 1);;;
  ece391_fdputs 1 (litn "Signal handler returning");;;
  Ret (true, charbuf_addr).

Definition alarm_sighandler (signum : Z) : prog unit :=
  ece391_fdputs 1 (lit "Alarm signal handler called, signum: ");;; ece391_fdputs 1 (signum_text signum).

(** [badbuf] says whether that variable points to [charbuf]; it starts as NULL, and only the
    handler changes it.  The store gives the new value of [charbuf]. *)
Definition sigtest_main (badbuf : bool) (buf : list Z) : prog Z :=
  '(ret, bs) <~ sys (Getargs BUFSIZE);; buf <~ lift (fill buf 0 bs);;
  if negb (0 =? ret) then ece391_fdputs 1 (litn "could not read argument");;; Ret 3
  else
    c <~ lift (buf.[0]);;
    (if c =? 49 then
       ece391_fdputs 1 (litn "Installing signal handlers");;;
       sys (Set_handler SEGFAULT);;; sys (Set_handler ALARM);;; Ret tt
     else Ret tt);;;
    ece391_fdputs 1 (lit "Hi, what's your name? ");;;
    '(cnt, bs) <~ sys (Read 0 (BUFSIZE - 1));; buf <~ lift (fill buf 0 bs);;
    if -1 =? cnt then ece391_fdputs 1 (litn "Can't read name from keyboard.");;; Ret 3
    else
      charbuf <~ lift (if badbuf then Some 1 else None);;
      buf <~ lift (buf.[cnt <- 0]);;
      ece391_fdputs 1 (lit "Hello, ");;; ece391_fdputs 1 buf;;;
      (if charbuf =? 1 then ece391_fdputs 1 (litn "success") else ece391_fdputs 1 (litn "failure"));;;
      Ret 0.

End Sigtest.

Module Testprint.

Definition testprint_main : prog Z :=
  ece391_fdputs 1 (litn "Hello, if this ran, the program was correct. Yay!");;; Ret 0.

End Testprint.

Module Counter.

Definition BUFSIZE : Z := 1024.

(** [for (i = 0; i < max; i++)] *)
Definition count (max : Z) (buf : list Z) : prog Z :=
  ITree.iter (fun '(i, buf) =>
    if i <? max then
      buf <~ lift (ece391_itoa (u32 (i + 1)) buf 10);;
      ece391_fdputs 1 buf;;; ece391_fdputs 1 (litn "");;;
      Ret (inl (i + 1, buf))
    else Ret (inr 0)) (0, buf).

Definition counter_main (buf : list Z) : prog Z :=
  ece391_fdputs 1 (litn "Enter the Test Number: (0): 100, (1): 10000, (2): 100000");;;
  '(cnt, bs) <~ sys (Read 0 (BUFSIZE - 1));; buf <~ lift (fill buf 0 bs);;
  if -1 =? cnt then ece391_fdputs 1 (litn "Can't read the number from keyboard.");;; Ret 3
  else
    buf <~ lift (buf.[cnt <- 0]);;
    len <~ lift (ece391_strlen buf);;
    c <~ lift (buf.[0]);;
    if (1 <? len) || ((len =? 1) && ((c <? 48) || (50 <? c))) then
      ece391_fdputs 1 (litn "Wrong Choice!");;; Ret 0
    else
      count (if c =? 48 then 100 else if c =? 49 then 10000 else if c =? 50 then 100000 else 0) buf.

End Counter.

Module Pingpong.

Definition SCREENWIDTH : Z := 79.
Definition ENDING : Z := 2.
Definition BUFMAX : Z := SCREENWIDTH + ENDING.
Definition START : Z := 1.
Definition STARTLOOP : Z := START + 1.
Definition LOOPMAX : Z := BUFMAX - ENDING - 1.

(** [for (i = lo; i < hi; i++) buf[i] = ' ';] *)
Definition blank (lo hi : Z) (buf : list Z) : option (list Z) :=
  for_up (Z.to_nat (hi - lo)) lo (fun i buf => buf.[i <- 32]) buf.

(** The body of both inner loops: the character at [j], and a tick of the clock. *)
Definition frame (rtc_fd curchar j : Z) (buf : list Z) : prog (list Z) :=
  buf <~ lift (blank STARTLOOP LOOPMAX buf);;
  buf <~ lift (buf.[j <- curchar]);;
  ece391_fdputs 1 buf;;;
  sys (Read rtc_fd 4);;;
  Ret buf.

Definition move_out (rtc_fd curchar : Z) (buf : list Z) : prog (list Z) :=
  ITree.iter (fun '(j, buf) =>
    if j <? LOOPMAX then buf <~ frame rtc_fd curchar j buf;; Ret (inl (j + 1, buf)) else Ret (inr buf)) (STARTLOOP, buf).

Definition bounce_back (rtc_fd curchar : Z) (buf : list Z) : prog (list Z) :=
  ITree.iter (fun '(j, buf) =>
    if STARTLOOP <=? j then buf <~ frame rtc_fd curchar j buf;; Ret (inl (j - 1, buf)) else Ret (inr buf)) (LOOPMAX - 1, buf).

(** The walls around the court. *)
Definition walls (buf : list Z) : option (list Z) :=
  buf ← blank 0 BUFMAX buf;
  buf ← buf.[BUFMAX - 1 <- 0]; buf ← buf.[BUFMAX - 2 <- 10]; buf ← buf.[BUFMAX - 3 <- 124]; buf.[START <- 124].

(** One turn of [while (1)]. *)
Definition rally (rtc_fd : Z) (st : Z * list Z) : prog (Z * list Z + Z) :=
  let '(curchar, buf) := st in
  buf <~ move_out rtc_fd curchar buf;;
  buf <~ bounce_back rtc_fd curchar buf;;
  Ret (inl (if curchar =? 90 then 65 else u8 (curchar + 1), buf)).

Definition pingpong_main (buf : list Z) : prog Z :=
  buf <~ lift (walls buf);;
  rtc_fd <~ sys (Open (lit "rtc"));;
  sys (Write rtc_fd [32; 0; 0; 0] 4);;;
  ITree.iter (rally rtc_fd) (65, buf).

End Pingpong.

Module Syserr.

Definition NEG_FD : Z := -1073741823.
Definition BIG_FD : Z := 1073741823.
Definition BIG_NUM : Z := 1073741823.
Definition NEG_NUM : Z := -1073741823.

(** [if (-1 != call) { fail = 2; ece391_fdputs (1, msg); }] *)
Definition expect_error (r fail : Z) (msg : list Z) : prog Z :=
  if negb (-1 =? r) then ece391_fdputs 1 msg;;; Ret 2 else Ret fail.

(** [if (fail) FAIL else PASS] at the end of a test. *)
Definition verdict (fail : Z) (failed passed : list Z) : prog Z :=
  (if negb (fail =? 0) then ece391_fdputs 1 failed else ece391_fdputs 1 passed);;; Ret fail.

Definition bad_fd (fd : Z) (buf : list Z) : prog Z :=
  '(r, bs) <~ sys (Read fd 31);; buf <~ lift (fill buf 0 bs);;
  fail <~ expect_error r 0 (litn "read fail");;
  r <~ sys (Write fd buf 31);; fail <~ expect_error r fail (litn "write fail");;
  r <~ sys (Close fd);; expect_error r fail (litn "close fail").

Definition err_neg_fd (buf : list Z) : prog Z :=
  fail <~ bad_fd NEG_FD buf;; verdict fail (litn "err_neg_fd: FAIL") (litn "err_neg_fd: PASS").

Definition err_big_fd (buf : list Z) : prog Z :=
  fail <~ bad_fd BIG_FD buf;; verdict fail (litn "err_big_fd: FAIL") (litn "err_big_fd: PASS").

(** A [for] loop of [n] turns from [i] on. *)
Fixpoint for_prog {S} (n : nat) (i : Z) (body : Z -> S -> prog S) (s : S) : prog S :=
  match n with
  | O => Ret s
  | Datatypes.S n' => s <~ body i s;; for_prog n' (i + 1) body s
  end.

Definition err_open_lots : prog Z :=
  cnt <~ for_prog 7 0 (fun _ cnt => r <~ sys (Open (lit "."));; Ret (if -1 =? r then cnt + 1 else cnt)) 0;;
  for_prog 6 2 (fun i (_ : unit) => sys (Close i);;; Ret tt) tt;;;
  if cnt =? 1 then ece391_fdputs 1 (litn "err_open_lots: PASS");;; Ret 0
  else ece391_fdputs 1 (litn "err_open_lots: FAIL");;; Ret 2.

Definition err_open : prog Z :=
  r <~ sys (Open (lit "helloo"));; fail <~ expect_error r 0 (litn "'helloo' fail");;
  r <~ sys (Open (lit "shel"));; fail <~ expect_error r fail (litn "'shel' fail");;
  r <~ sys (Open (lit ""));; fail <~ expect_error r fail (litn "empty string fail");;
  verdict fail (litn "err_open: FAIL") (litn "err_open: PASS").

Definition err_unopened (buf : list Z) : prog Z :=
  fail <~ for_prog 8 0 (fun i fail =>
    r <~ sys (Close i);; expect_error r fail (litn "close unopened or invalid fd fail")) 0;;
  '(fail, buf) <~ for_prog 6 2 (fun i '(fail, buf) =>
    '(r, bs) <~ sys (Read i 31);; buf <~ lift (fill buf 0 bs);;
    fail <~ expect_error r fail (litn "read from unopened fd fail");; Ret (fail, buf)) (fail, buf);;
  fail <~ for_prog 6 2 (fun i fail =>
    r <~ sys (Write i buf 31);; expect_error r fail (litn "write to unopened fd fail")) fail;;
  verdict fail (litn "err_unopened: FAIL") (litn "err_unopened: PASS").

Definition err_vidmap : prog Z :=
  '(r, _) <~ sys (Vidmap 0);; fail <~ expect_error r 0 (litn "Null pointer fail");;
  '(r, _) <~ sys (Vidmap 0x400000);; fail <~ expect_error r fail (litn "Kernel pointer fail fail");;
  verdict fail (litn "err_vidmap: FAIL") (litn "err_vidmap: PASS").

Definition err_stdin_out (buf : list Z) : prog Z :=
  r <~ sys (Write 0 buf 31);; fail <~ expect_error r 0 (litn "write to stdin fail");;
  '(r, bs) <~ sys (Read 1 31);; buf <~ lift (fill buf 0 bs);;
  fail <~ expect_error r fail (litn "read from stdout fail");;
  verdict fail (litn "err_stdin_out: FAIL") (litn "err_stdin_out: PASS").

Definition err_syscall_num : prog Z :=
  r <~ sys (Call_sys BIG_NUM);; fail <~ expect_error r 0 (litn "syscall 0 fail");;
  r <~ sys (Call_sys NEG_NUM);; fail <~ expect_error r fail (litn "big num syscall fail");;
  r <~ sys (Call_sys 0);; fail <~ expect_error r fail (litn "neg num syscall fail");;
  verdict fail (litn "err_syscall_num: FAIL") (litn "err_syscall_num: PASS").

(** [case 0]: every test in turn.  [b] gives the uninitialised buffer of 32 bytes each of
    them finds. *)
Definition run_all (b : Z -> list Z) : prog Z :=
  f1 <~ err_neg_fd (b 1);; f2 <~ err_big_fd (b 2);; f3 <~ err_open_lots;; f4 <~ err_open;;
  f5 <~ err_unopened (b 5);; f6 <~ err_vidmap;; f7 <~ err_stdin_out (b 7);; f8 <~ err_syscall_num;;
  let fail := f1 + f2 + f3 + f4 + f5 + f6 + f7 + f8 in
  verdict fail ([10] ++ litn "Overall Tests: FAIL") ([10] ++ litn "Overall Tests: PASS").

Definition syserr_main (buf : list Z) (b : Z -> list Z) : prog Z :=
  ece391_fdputs 1 (lit "Choose from tests 1-8. 0 to run all: ");;;
  '(cnt, bs) <~ sys (Read 0 127);; buf <~ lift (fill buf 0 bs);;
  if -1 =? cnt then ece391_fdputs 1 (litn "Can't read test #");;; Ret 2
  else
    c <~ lift (buf.[0]);;
    match c - 48 with
    | 0 => run_all b
    | 1 => err_neg_fd (b 1)
    | 2 => err_big_fd (b 2)
    | 3 => err_open_lots
    | 4 => err_open
    | 5 => err_unopened (b 5)
    | 6 => err_vidmap
    | 7 => err_stdin_out (b 7)
    | 8 => err_syscall_num
    | _ => ece391_fdputs 1 (lit "Invalid test number. Choose from tests 1-8 or 0");;; Ret 0
    end.

End Syserr.
