(* ===== verification/Unix.v ===== *)
(** * What the kernel promises its programs

    An operating system for one process, without memory, page tables or descriptor
    flags: named files with contents, a table of eight handles, a terminal with the bytes
    shown and the lines the user is going to enter.  It keeps what a program can tell
    about the calls: a read moves every handle on the same file, the position in
    the directory belongs to no handle, and a write reports the bytes that were not zero.

    The programs are proved against this specification; the kernel is shown to
    implement it in the file after it. *)

From stdpp Require Import base list option.
From Stdlib Require Import ZArith Lia ZifyBool.
From ITree Require Import ITree.
From S2P Require Import Prelude Lib Rtc Paging UserLib Syscalls Programs.

Inductive handle := HFree | HStdin | HStdout | HClock | HDir | HFile (ino pos : Z).

#[export] Instance handle_eq_dec : EqDecision handle.
Proof. solve_decision. Defined.

Record dir_entry := DirEntry { e_name : list Z; e_type : Z; e_ino : Z }.

(** What happens on the terminal, in order. *)
Inductive shown_event := Shown (bs : list Z) | Entered (line : list Z).

Record os := Os {
  o_dir : list dir_entry;
  o_data : Z -> list Z;
  o_args : list Z;
  o_fds : list handle;
  o_next : Z;
  o_console : list shown_event;
  o_lines : list (list Z) }.

Definition set_fds (x : list handle) (a : os) : os :=
  Os (o_dir a) (o_data a) (o_args a) x (o_next a) (o_console a) (o_lines a).
Definition set_next (x : Z) (a : os) : os :=
  Os (o_dir a) (o_data a) (o_args a) (o_fds a) x (o_console a) (o_lines a).
Definition say (e : shown_event) (a : os) : os :=
  Os (o_dir a) (o_data a) (o_args a) (o_fds a) (o_next a) (o_console a ++ [e]) (o_lines a).
Definition set_lines (x : list (list Z)) (a : os) : os :=
  Os (o_dir a) (o_data a) (o_args a) (o_fds a) (o_next a) (o_console a) x.

Definition nonzero (bs : list Z) : list Z := List.filter (fun c => negb (c =? 0)) bs.

(** The string a buffer holds, [None] without a terminator. *)
Fixpoint string_in (buf : list Z) : option (list Z) :=
  match buf with
  | [] => None
  | c :: buf' => if c =? 0 then Some [] else s ← string_in buf'; Some (c :: s)
  end.

Definition find_name (d : list dir_entry) (cs : list Z) : option dir_entry :=
  find (fun e => bool_decide (e_name e = take 32 cs)) d.

(** The handle of a newly opened file, by the type in its entry. *)
Definition new_handle (e : dir_entry) : option handle :=
  match e_type e with 0 => Some HClock | 1 => Some HDir | 2 => Some (HFile (e_ino e) 0) | _ => None end.

Definition is_free (h : handle) : bool := match h with HFree => true | _ => false end.

Definition free_handle (l : list handle) : option Z :=
  find (fun i => match l.[i] with Some h => is_free h | None => false end) (seqZ 2 6).

(** The bounds below which the buffers of a program stay: its memory is a page of 4 MB. *)
Definition MAX_NAME : Z := 1023.
Definition MAX_BUFFER : Z := 2 ^ 20.

Definition os_open (buf : list Z) (a : os) : option (Z * os) :=
  cs ← string_in buf;
  if MAX_NAME <? Z.of_nat (length cs) then None else
  match free_handle (o_fds a), cs, find_name (o_dir a) cs with
  | Some i, _ :: _, Some e =>
      match new_handle e with
      | Some h => l ← (o_fds a).[i <- h]; Some (i, set_fds l a)
      | None => Some (ERROR, a)
      end
  | _, _, _ => Some (ERROR, a)
  end.

(** A read of [n] bytes from the file [ino] moves the handles on it; positions have 32 bits. *)
Definition advance (ino n : Z) (l : list handle) : list handle :=
  map (fun h => match h with HFile i p => if i =? ino then HFile i (u32 (p + n)) else h | _ => h end) l.

(** The values of a C [int]; no other numbers are arguments. *)
Definition int32 (z : Z) : bool := (- 2 ^ 31 <=? z) && (z <? 2 ^ 31).

Definition os_read (fd n : Z) (a : os) : option (Z * list Z * os) :=
  if (fd <? 0) || (8 <=? fd) || (n <? 0) then if int32 fd && int32 n then Some (ERROR, [], a) else None
  else if MAX_BUFFER <? n then None
  else
    h ← (o_fds a).[fd];
    match h with
    | HFree | HStdout => Some (ERROR, [], a)
    | HStdin =>
        match o_lines a with
        | [] => None
        | l :: rest =>
            let bs := take (Z.to_nat n) (l ++ [10]) in
            Some (Z.of_nat (length bs), bs, set_lines rest (say (Entered l) a))
        end
    | HClock => Some (0, [], a)
    | HDir =>
        if n =? 0 then None
        else
          match (o_dir a).[o_next a] with
          | None => Some (0, [], set_next 0 a)
          | Some e =>
              let bs := take (Z.to_nat n) (e_name e) in
              Some (Z.of_nat (length bs), bs, set_next (o_next a + 1) a)
          end
    | HFile ino pos =>
        let bs := take (Z.to_nat n) (drop (Z.to_nat pos) (o_data a ino)) in
        Some (Z.of_nat (length bs), bs, set_fds (advance ino (Z.of_nat (length bs)) (o_fds a)) a)
    end.

Definition os_write (fd : Z) (buf : list Z) (n : Z) (a : os) : option (Z * os) :=
  if (fd <? 0) || (8 <=? fd) || (n <? 0) then if int32 fd && int32 n then Some (ERROR, a) else None
  else if MAX_BUFFER <? n then None
  else
    h ← (o_fds a).[fd];
    match h with
    | HStdout =>
        if Z.of_nat (length buf) <? n then None
        else
          let bs := nonzero (take (Z.to_nat n) buf) in
          Some (Z.of_nat (length bs), say (Shown bs) a)
    | HClock =>
        match buf with
        | b0 :: b1 :: b2 :: b3 :: _ =>
            Some (if frequency_ok (b0 + 2 ^ 8 * b1 + 2 ^ 16 * b2 + 2 ^ 24 * b3) then 0 else ERROR, a)
        | _ => None
        end
    | _ => Some (ERROR, a)
    end.

Definition os_close (fd : Z) (a : os) : option (Z * os) :=
  if (fd <? 2) || (8 <=? fd) then if int32 fd then Some (ERROR, a) else None
  else
    h ← (o_fds a).[fd];
    if is_free h then Some (ERROR, a) else l ← (o_fds a).[fd <- HFree]; Some (0, set_fds l a).

Definition os_getargs (n : Z) (a : os) : option (Z * list Z * os) :=
  if negb (int32 n) then None else if n <? 0 then Some (ERROR, [], a) else Some (0, o_args a ++ [0], a).

(** The bytes of a dword, and the address of the page of the screen as the value of the
    call and as the bytes stored. *)
Definition le_bytes (v : Z) : list Z := map (fun i => Z.land (Z.shiftr v (8 * i)) 0xFF) (seqZ 0 4).
Definition video_answer : Z * list Z := (s32 VIRT_VID_MEM, le_bytes VIRT_VID_MEM).

Section Os.
(** What a command does to the system, for the shell; [None] when it does not end. *)
Context (execute : list Z -> os -> option (Z * os)).

Definition os_step (X : Type) (e : sysE X) : os -> option (X * os) :=
  match e with
  | Execute command => fun a =>
      cs ← string_in command; if MAX_NAME <? Z.of_nat (length cs) then None else execute cs a
  | Read fd n => os_read fd n
  | Write fd buf n => os_write fd buf n
  | Open name => os_open name
  | Close fd => os_close fd
  | Getargs n => os_getargs n
  | Vidmap p => fun a =>
      if ((0 <=? p) && (p <? 0x8000000)) || ((0x8400000 <=? p) && (p <? 2 ^ 32)) then Some ((ERROR, []), a)
      else if (0x8000000 <=? p) && (p + 4 <=? 0x8400000) then Some (video_answer, a)
      else None
  | Set_handler _ => fun a => Some (ERROR, a)
  | Call_sys n => fun a =>
      if ((- 2 ^ 31 <=? n) && (n <? 1)) || ((10 <? n) && (n <? 2 ^ 31)) then Some (ERROR, a) else None
  | Store _ _ => fun _ => None
  | Undefined => fun _ => None
  end.

(** All that was shown. *)
Definition shown_bytes (es : list shown_event) : list Z :=
  concat (map (fun e => match e with Shown bs => bs | Entered _ => [] end) es).
Definition output (a : os) : list Z := shown_bytes (o_console a).

(** ** Steps *)

Definition on_stdout (a : os) : Prop := (o_fds a).[1] = Some HStdout.

Lemma output_say bs a : output (say (Shown bs) a) = output a ++ bs.
Proof. unfold output, shown_bytes. cbn [o_console say]. rewrite map_app, concat_app. cbn. by rewrite app_nil_r. Qed.

Lemma output_entered l a : output (say (Entered l) a) = output a.
Proof. unfold output, shown_bytes. cbn [o_console say]. rewrite map_app, concat_app. cbn. apply app_nil_r. Qed.

Lemma nonzero_id bs : Forall (fun c => c <> 0) bs -> nonzero bs = bs.
Proof. unfold nonzero. induction 1 as [|c bs Hc _ IH]; [done|]. cbn. bfalse (c =? 0). cbn. by rewrite IH. Qed.

Lemma os_write_stdout buf n a :
  on_stdout a -> 0 <= n <= Z.of_nat (length buf) -> n <= MAX_BUFFER ->
  os_write 1 buf n a =
  Some (Z.of_nat (length (nonzero (take (Z.to_nat n) buf))), say (Shown (nonzero (take (Z.to_nat n) buf))) a).
Proof.
  intros H Hn Hmax. unfold os_write. bfalse ((1 <? 0) || (8 <=? 1) || (n <? 0)). bfalse (MAX_BUFFER <? n).
  rewrite H, some_bind. by bfalse (Z.of_nat (length buf) <? n).
Qed.

(** [ece391_fdputs] of a string shows it. *)
Lemma fdputs_runs s cs a :
  on_stdout a -> cstring s cs -> Z.of_nat (length cs) <= MAX_BUFFER ->
  runs os_step (ece391_fdputs 1 s) a tt (say (Shown cs) a).
Proof.
  intros Ho Hs Hl. unfold ece391_fdputs.
  eapply runs_lift; [apply ece391_strlen_spec; [done | unfold MAX_BUFFER in Hl; lia]|].
  destruct Hs as (rest & -> & Hnz).
  eapply runs_call; [|apply runs_ret]. cbn [os_step]. rewrite os_write_stdout; [|done|rewrite length_app; cbn; lia|done].
  rewrite Nat2Z.id, take_app_length, nonzero_id by done. done.
Qed.

Lemma runs_fdputs s cs a R (k : unit -> prog R) r a' :
  on_stdout a -> cstring s cs -> Z.of_nat (length cs) <= MAX_BUFFER ->
  runs os_step (k tt) (say (Shown cs) a) r a' ->
  runs os_step (ITree.bind (ece391_fdputs 1 s) k) a r a'.
Proof. intros Ho Hs Hl Hk. eapply runs_bind; [|exact Hk]. by apply fdputs_runs. Qed.

(** ** The programs *)

Lemma string_in_spec buf cs : cstring buf cs -> string_in buf = Some cs.
Proof.
  intros (rest & -> & Hnz). induction Hnz as [|c cs Hc _ IH]; [done|]. cbn. bfalse (c =? 0). by rewrite IH.
Qed.

Lemma fill_start buf bs : (length bs <= length buf)%nat -> fill buf 0 bs = Some (bs ++ drop (length bs) buf).
Proof. intros H. unfold fill. btrue ((0 <=? 0) && (0 + Z.of_nat (length bs) <=? Z.of_nat (length buf))). done. Qed.

Lemma fill_length buf i bs buf' : fill buf i bs = Some buf' -> length buf' = length buf.
Proof.
  unfold fill. case_if; [|done]. intros [= <-]. rewrite !length_app, length_take, length_drop. lia.
Qed.

(** The file [a] opens under the name [cs], with the handle it gets. *)
Lemma os_open_file buf cs a e i :
  cstring buf cs -> cs <> [] -> Z.of_nat (length cs) <= MAX_NAME -> free_handle (o_fds a) = Some i -> find_name (o_dir a) cs = Some e -> length (o_fds a) = 8%nat ->
  forall h, new_handle e = Some h -> os_open buf a = Some (i, set_fds (<[Z.to_nat i := h]> (o_fds a)) a) /\ 2 <= i < 8.
Proof.
  intros Hb Hne Hmax Hf Hn Hl h Hh. pose proof (find_seqZ (fun i => match (o_fds a).[i] with Some h => is_free h | None => false end) 2 6) as Hi.
  unfold free_handle in Hf. rewrite Hf in Hi. destruct Hi as (Hi & _). split; [|lia].
  unfold os_open. rewrite (string_in_spec _ _ Hb), some_bind. bfalse (MAX_NAME <? Z.of_nat (length cs)). unfold free_handle. rewrite Hf.
  destruct cs; [done|]. rewrite Hn, Hh. by rewrite zset_in by lia.
Qed.

(** The loop of [cat], from position [pos] of the file on. *)
Definition cat_loop (fd : Z) : list Z -> prog Z :=
  ITree.iter (fun buf =>
        '(cnt, bs) <~ sys (Read fd 1024);; buf <~ lift (fill buf 0 bs);;
        if 0 =? cnt then Ret (inr 0)
        else if -1 =? cnt then ece391_fdputs 1 (litn "file read failed");;; Ret (inr 3)
        else
          w <~ sys (Write 1 buf cnt);;
          if -1 =? w then Ret (inr 3) else Ret (inl buf)).

Lemma take_drop_length {A} k (l : list A) : take k l ++ drop (length (take k l)) l = l.
Proof.
  rewrite length_take. destruct (Nat.le_ge_cases k (length l)).
  - rewrite Nat.min_l by done. apply take_drop.
  - rewrite Nat.min_r, take_ge, drop_all by done. apply app_nil_r.
Qed.

Lemma nonzero_app a b : nonzero (a ++ b) = nonzero a ++ nonzero b.
Proof. unfold nonzero. by rewrite List.filter_app. Qed.

(** What a program that only reads files and writes to the terminal leaves alone. *)
Definition same_system (a a' : os) : Prop :=
  o_dir a' = o_dir a /\ o_data a' = o_data a /\ o_args a' = o_args a /\ o_lines a' = o_lines a /\ length (o_fds a') = length (o_fds a).

Lemma advance_get ino n l i :
  (advance ino n l).[i] = (fun h => match h with HFile j p => if j =? ino then HFile j (u32 (p + n)) else h | _ => h end) <$> l.[i].
Proof. unfold advance, zget. case_if; [|done]. apply list_lookup_fmap. Qed.

Lemma cat_loop_runs fd ino : forall n a buf pos,
  (Z.to_nat (Z.of_nat (length (o_data a ino)) - pos) <= n)%nat -> 2 <= fd < 8 -> 0 <= pos -> length buf = 1024%nat ->
  on_stdout a -> (o_fds a).[fd] = Some (HFile ino pos) -> Z.of_nat (length (o_data a ino)) < 2 ^ 32 ->
  pos <= Z.of_nat (length (o_data a ino)) ->
  exists a', runs os_step (cat_loop fd buf) a 0 a' /\ same_system a a' /\
    output a' = output a ++ nonzero (drop (Z.to_nat pos) (o_data a ino)).
Proof.
  induction n as [n IH] using lt_wf_ind. intros a buf pos Hn Hfd Hpos Hbuf Hout Hh Hsize Hend.
  set (bs := take 1024 (drop (Z.to_nat pos) (o_data a ino))).
  set (a1 := set_fds (advance ino (Z.of_nat (length bs)) (o_fds a)) a).
  assert (os_step _ (Read fd 1024) a = Some (Z.of_nat (length bs), bs, a1)) as Eread.
  { cbn [os_step]. unfold os_read. bfalse ((fd <? 0) || (8 <=? fd) || (1024 <? 0)). change (MAX_BUFFER <? 1024) with false. by rewrite Hh, some_bind. }
  assert (length bs <= 1024)%nat as Hbs by (unfold bs; rewrite length_take; lia).
  assert (fill buf 0 bs = Some (bs ++ drop (length bs) buf)) as Efill by (apply fill_start; lia).
  assert (same_system a a1) as Hsame1 by (unfold same_system, a1; cbn; unfold advance; by rewrite length_map).
  assert (on_stdout a1) as Hout1 by (unfold on_stdout, a1 in *; cbn [o_fds set_fds]; by rewrite advance_get, Hout).
  destruct (decide (bs = [])) as [Enil|Hne].
  - exists a1. split_and!; [|done|].
    + unfold cat_loop. apply runs_iter_stop. eapply runs_call; [exact Eread|]. cbn beta iota. eapply runs_lift; [exact Efill|].
      rewrite Enil. apply runs_ret.
    + unfold bs in Enil. destruct (drop (Z.to_nat pos) (o_data a ino)); [|done]. cbn. by rewrite app_nil_r.
  - assert (0 < length bs)%nat as Hlen by (destruct bs; [done | cbn; lia]).
    set (a2 := say (Shown (nonzero bs)) a1).
    destruct (IH (n - length bs)%nat) with (a := a2) (buf := bs ++ drop (length bs) buf) (pos := pos + Z.of_nat (length bs))
      as (a' & Hr & Hs & Ho); try done; try lia.
    + unfold bs in *. rewrite length_take, length_drop in *. cbn [o_data a2 say a1 set_fds]. lia.
    + unfold bs in *. rewrite length_take, length_drop in *. cbn [o_data a2 say a1 set_fds]. lia.
    + rewrite length_app, length_drop. lia.
    + cbn [o_fds a2 say a1 set_fds]. rewrite advance_get, Hh. cbn [fmap option_fmap option_map]. rewrite Z.eqb_refl, u32_small; [done|].
      unfold bs in *. rewrite length_take, length_drop in *. lia.
    + unfold bs in *. rewrite length_take, length_drop in *. cbn [o_data a2 say a1 set_fds]. lia.
    + exists a'. split_and!.
      * unfold cat_loop. eapply runs_iter_next; [|exact Hr].
        eapply runs_call; [exact Eread|]. cbn beta iota. eapply runs_lift; [exact Efill|].
        bfalse (0 =? Z.of_nat (length bs)). bfalse (-1 =? Z.of_nat (length bs)).
        eapply runs_call.
        { cbn [os_step]. rewrite os_write_stdout; [|done | rewrite length_app; lia | unfold MAX_BUFFER; lia]. rewrite Nat2Z.id, take_app_length. reflexivity. }
        bfalse (-1 =? Z.of_nat (length (nonzero bs))). apply runs_ret.
      * unfold same_system in *. cbn [o_dir o_data o_args o_lines o_fds a2 say] in Hs. destruct Hs as (? & ? & ? & ? & ?), Hsame1 as (? & ? & ? & ? & ?).
        split_and!; congruence.
      * rewrite Ho. unfold a2. rewrite output_say. change (output a1) with (output a). rewrite <- app_assoc, <- nonzero_app. do 2 f_equal.
        cbn [o_data say a1 set_fds]. rewrite Z2Nat.inj_add, Nat2Z.id by lia. rewrite <- drop_drop.
        apply take_drop_length.
Qed.

End Os.

(** What a program that only writes to the terminal changes. *)
Definition says (a a' : os) (out : list Z) : Prop :=
  same_system a a' /\ o_fds a' = o_fds a /\ o_next a' = o_next a /\ output a' = output a ++ out.

Lemma says_nothing a : says a a [].
Proof. unfold says, same_system. by rewrite app_nil_r. Qed.

Lemma says_say a bs : says a (say (Shown bs) a) bs.
Proof. unfold says, same_system. by rewrite output_say. Qed.

Lemma says_trans a b c o1 o2 : says a b o1 -> says b c o2 -> says a c (o1 ++ o2).
Proof.
  unfold says, same_system. intros ((? & ? & ? & ? & ?) & ? & ? & ?) ((? & ? & ? & ? & ?) & ? & ? & ?).
  split_and!; try congruence. rewrite app_assoc. congruence.
Qed.

Lemma says_stdout a a' out : says a a' out -> on_stdout a -> on_stdout a'.
Proof. unfold on_stdout. by intros (_ & -> & _). Qed.
