(* ===== verification/ProgramSpecs.v ===== *)
(** * What the programs do

    The programs of [syscalls/] against the operating system of [Unix]: what each of
    them shows and returns. *)

From stdpp Require Import base list option.
From Stdlib Require Import ZArith Lia ZifyBool.
From ITree Require Import ITree.
From S2P Require Import Prelude Lib Rtc UserLib Syscalls Programs Unix.

Section Specs.
Context (execute : list Z -> os -> option (Z * os)).
Notation "t ⇓[ a ] r , b" := (runs (os_step execute) t a r b) (at level 70, a at level 200, r at level 50, b at level 50).

Definition table_ok (a : os) : Prop :=
  length (o_fds a) = 8%nat /\ (o_fds a).[0] = Some HStdin /\ (o_fds a).[1] = Some HStdout.

(** Words without zero bytes. *)
Definition text (cs : list Z) : Prop := Forall (fun c => c <> 0) cs.

Lemma text_cstring cs rest : text cs -> cstring (cs ++ 0 :: rest) cs.
Proof. intros H. by exists rest. Qed.

(** Literals. *)
Lemma lit_cstring s : text (str s) -> cstring (lit s) (str s).
Proof. intros H. by exists []. Qed.

Lemma litn_cstring s : text (str s) -> cstring (litn s) (str s ++ [10]).
Proof. intros H. exists []. split; [by rewrite <- app_assoc|]. apply Forall_app. split; [done | by repeat constructor]. Qed.

(** Show a literal and go on. *)
Ltac puts :=
  eapply runs_fdputs; [| first [apply lit_cstring | apply litn_cstring]; by repeat constructor | by vm_compute |].

(** ** Reading a directory *)

Definition named (d : list dir_entry) : Prop :=
  Forall (fun e => text (e_name e) /\ (0 < length (e_name e) <= 32)%nat) d.

Lemma named_get d i e : named d -> d.[i] = Some e -> text (e_name e) /\ (0 < length (e_name e) <= 32)%nat.
Proof.
  intros Hn He. unfold zget in He. destruct (0 <=? i); [|done]. apply (Forall_lookup_1 _ _ _ _ Hn He).
Qed.

Lemma os_read_dir_end fd n a :
  0 <= fd < 8 -> 0 < n <= MAX_BUFFER -> (o_fds a).[fd] = Some HDir -> Z.of_nat (length (o_dir a)) <= o_next a ->
  os_read fd n a = Some (0, [], set_next 0 a).
Proof.
  intros Hfd Hn Hh Hnext. unfold os_read. bfalse ((fd <? 0) || (8 <=? fd) || (n <? 0)). bfalse (MAX_BUFFER <? n). rewrite Hh, some_bind.
  bfalse (n =? 0). by rewrite zget_lookup, lookup_ge_None_2 by lia.
Qed.

Lemma os_read_dir_next fd n a e :
  0 <= fd < 8 -> 32 <= n <= MAX_BUFFER -> (o_fds a).[fd] = Some HDir -> (o_dir a).[o_next a] = Some e -> (length (e_name e) <= 32)%nat ->
  os_read fd n a = Some (Z.of_nat (length (e_name e)), e_name e, set_next (o_next a + 1) a).
Proof.
  intros Hfd Hn Hh He Hl. unfold os_read. bfalse ((fd <? 0) || (8 <=? fd) || (n <? 0)). bfalse (MAX_BUFFER <? n). rewrite Hh, some_bind.
  bfalse (n =? 0). by rewrite He, take_ge by lia.
Qed.

(** ** cat *)

(** The file a name opens, with the handle it gets. *)
Definition opens (a : os) (cs : list Z) : option (Z * handle) :=
  match free_handle (o_fds a), cs, find_name (o_dir a) cs with
  | Some i, _ :: _, Some e => h ← new_handle e; Some (i, h)
  | _, _, _ => None
  end.

Lemma free_handle_range l i : free_handle l = Some i -> 2 <= i < 8.
Proof.
  intros H. pose proof (find_seqZ (fun i => match l.[i] with Some h => is_free h | None => false end) 2 6) as Hi.
  unfold free_handle in H. rewrite H in Hi. destruct Hi as (Hi & _). lia.
Qed.

Lemma os_open_spec buf cs a :
  cstring buf cs -> Z.of_nat (length cs) <= MAX_NAME -> length (o_fds a) = 8%nat ->
  os_open buf a =
  match opens a cs with
  | Some (i, h) => Some (i, set_fds (<[Z.to_nat i := h]> (o_fds a)) a)
  | None => Some (ERROR, a)
  end.
Proof.
  intros Hb Hmax H8. unfold os_open, opens. rewrite (string_in_spec _ _ Hb), some_bind. bfalse (MAX_NAME <? Z.of_nat (length cs)).
  destruct (free_handle (o_fds a)) as [i|] eqn:Hf; [|done]. apply free_handle_range in Hf.
  destruct cs; [done|]. destruct (find_name _ _) as [e|]; [|done]. destruct (new_handle e); [|done].
  cbn. by rewrite zset_in by lia.
Qed.

Lemma opens_range a cs i h : opens a cs = Some (i, h) -> 2 <= i < 8.
Proof.
  unfold opens. destruct (free_handle _) as [j|] eqn:E; [|done]. apply free_handle_range in E.
  destruct cs; [done|]. destruct (find_name _ _) as [e|]; [|done]. destruct (new_handle e); [|done]. by intros [= <- <-].
Qed.

Lemma opens_handle a cs i h : opens a cs = Some (i, h) -> h = HClock \/ h = HDir \/ exists ino, h = HFile ino 0.
Proof.
  unfold opens. destruct (free_handle _); [|done]. destruct cs; [done|]. destruct (find_name _ _) as [e|]; [|done].
  unfold new_handle. destruct (e_type e) as [|[[]| [] |]|]; intros [= <- <-]; eauto.
Qed.

(** A handle put into a free place of the table. *)
Definition with_handle (i : Z) (h : handle) (a : os) : os := set_fds (<[Z.to_nat i := h]> (o_fds a)) a.

Lemma with_handle_ok i h a :
  table_ok a -> 2 <= i < 8 -> table_ok (with_handle i h a) /\ (o_fds (with_handle i h a)).[i] = Some h.
Proof.
  intros (H8 & H0 & H1) Hi. unfold table_ok, with_handle. cbn [o_fds set_fds]. rewrite length_insert.
  rewrite !zget_lookup in * by lia. rewrite !list_lookup_insert_ne, list_lookup_insert_eq by lia. done.
Qed.

Lemma same_with_handle i h a a' : same_system (with_handle i h a) a' -> same_system a a'.
Proof. unfold same_system, with_handle. cbn [o_dir o_data o_args o_lines o_fds set_fds]. by rewrite length_insert. Qed.

(** A directory shows the names from where it stands. *)
Lemma cat_dir_runs fd : forall n a buf,
  Z.to_nat (Z.of_nat (length (o_dir a)) - o_next a) = n -> 2 <= fd < 8 -> 0 <= o_next a <= Z.of_nat (length (o_dir a)) ->
  length buf = 1024%nat -> named (o_dir a) -> on_stdout a -> (o_fds a).[fd] = Some HDir ->
  exists a', cat_loop fd buf ⇓[a] 0, a' /\ same_system a a' /\
    output a' = output a ++ concat (map e_name (drop (Z.to_nat (o_next a)) (o_dir a))).
Proof.
  induction n as [|n IH]; intros a buf Hn Hfd Hnext Hbuf Hnm Hout Hh.
  - exists (set_next 0 a). split_and!; try done.
    + unfold cat_loop. apply runs_iter_stop. eapply runs_call.
      { cbn [os_step]. apply os_read_dir_end; done || lia. }
      cbn beta iota. eapply runs_lift; [by apply fill_start; cbn; lia|]. apply runs_ret.
    + rewrite drop_ge by lia. cbn. by rewrite app_nil_r.
  - destruct (zget_ex (o_dir a) (o_next a)) as [e He]; [lia|].
    destruct (named_get _ _ _ Hnm He) as [Ht Hl].
    set (a1 := say (Shown (e_name e)) (set_next (o_next a + 1) a)).
    destruct (IH a1 (e_name e ++ drop (length (e_name e)) buf)) as (a' & Hr & Hs & Ho); try done.
    + cbn [o_dir o_next a1 say set_next]. lia.
    + cbn [o_dir o_next a1 say set_next]. lia.
    + rewrite length_app, length_drop. lia.
    + exists a'. split_and!; try done.
      * unfold cat_loop. eapply runs_iter_next; [|exact Hr].
        eapply runs_call; [cbn [os_step]; apply (os_read_dir_next _ _ _ e); done || lia|].
        cbn beta iota. eapply runs_lift; [apply fill_start; lia|]. bfalse (0 =? Z.of_nat (length (e_name e))).
        bfalse (-1 =? Z.of_nat (length (e_name e))).
        eapply runs_call.
        { cbn [os_step]. rewrite os_write_stdout; [|done | rewrite length_app; cbn; lia | unfold MAX_BUFFER; cbn; lia].
          rewrite Nat2Z.id, take_app_length, nonzero_id by done. reflexivity. }
        bfalse (-1 =? Z.of_nat (length (e_name e))). apply runs_ret.
      * rewrite Ho. unfold a1 at 1. rewrite output_say. change (output (set_next (o_next a + 1) a)) with (output a).
        rewrite <- app_assoc. f_equal. cbn [o_next o_dir a1 say set_next].
        rewrite zget_lookup in He by lia. rewrite (drop_S _ _ _ He).
        by replace (Z.to_nat (o_next a + 1)) with (S (Z.to_nat (o_next a))) by lia.
Qed.

(** What [cat] shows and returns, by what its argument names. *)
Definition cat_shows (a : os) : Z * list Z :=
  match opens a (o_args a) with
  | Some (_, HFile ino _) => (0, nonzero (o_data a ino))
  | Some (_, HDir) => (0, concat (map e_name (drop (Z.to_nat (o_next a)) (o_dir a))))
  | Some _ => (0, [])
  | None => (2, str "file not found" ++ [10])
  end.

Lemma cat_loop_all a i h buf :
  table_ok a -> named (o_dir a) -> 0 <= o_next a <= Z.of_nat (length (o_dir a)) -> length buf = 1024%nat ->
  opens a (o_args a) = Some (i, h) -> (forall ino, Z.of_nat (length (o_data a ino)) < 2 ^ 32) ->
  exists a', cat_loop i buf ⇓[with_handle i h a] 0, a' /\ same_system a a' /\ output a' = output a ++ (cat_shows a).2.
Proof.
  intros Ht Hd Hnext Hbuf Ho Hsize. pose proof (opens_range _ _ _ _ Ho) as Hi.
  destruct (with_handle_ok i h a Ht Hi) as [(H8 & _ & H1) Hh].
  unfold cat_shows. rewrite Ho. destruct (opens_handle _ _ _ _ Ho) as [-> | [-> | [ino ->]]].
  - exists (with_handle i HClock a). split_and!.
    + unfold cat_loop. apply runs_iter_stop. eapply runs_call.
      { cbn [os_step]. unfold os_read. bfalse ((i <? 0) || (8 <=? i) || (1024 <? 0)). by rewrite Hh. }
      cbn beta iota. eapply runs_lift; [apply fill_start; cbn; lia|]. apply runs_ret.
    + eapply same_with_handle. unfold same_system. split_and!; reflexivity.
    + symmetry. apply app_nil_r.
  - edestruct (cat_dir_runs i _ (with_handle i HDir a) buf eq_refl) as (a' & Hr & Hs & Hout); try done.
    exists a'. split_and!; [done | by eapply same_with_handle | done].
  - edestruct (cat_loop_runs execute i ino _ (with_handle i (HFile ino 0) a) buf 0 (Nat.le_refl _)) as (a' & Hr & Hs & Hout); try done.
    { apply Hsize. } { lia. }
    exists a'. split_and!; [done | by eapply same_with_handle | done].
Qed.

(** A byte put behind what was read into a buffer. *)
Lemma zset_behind (cs buf : list Z) x :
  (length cs < length buf)%nat -> (cs ++ drop (length cs) buf).[Z.of_nat (length cs) <- x] = Some (cs ++ x :: drop (S (length cs)) buf).
Proof.
  intros H. destruct (lookup_lt_is_Some_2 buf (length cs)) as [y Hy]; [lia|]. rewrite (drop_S _ _ _ Hy). by apply zset_app_mid.
Qed.

(** ** ls *)

Definition ls_loop (fd : Z) : list Z -> prog Z :=
  ITree.iter (fun buf =>
      '(cnt, bs) <~ sys (Read fd (Ls.SBUFSIZE - 1));; buf <~ lift (fill buf 0 bs);;
      if 0 =? cnt then Ret (inr 0)
      else if -1 =? cnt then ece391_fdputs 1 (litn "directory entry read failed");;; Ret (inr 3)
      else
        buf <~ lift (buf.[cnt <- 10]);;
        w <~ sys (Write 1 buf (cnt + 1));;
        if -1 =? w then Ret (inr 3) else Ret (inl buf)).

Lemma ls_loop_runs fd : forall n a buf,
  Z.to_nat (Z.of_nat (length (o_dir a)) - o_next a) = n -> 2 <= fd < 8 -> 0 <= o_next a <= Z.of_nat (length (o_dir a)) ->
  length buf = 33%nat -> named (o_dir a) -> on_stdout a -> (o_fds a).[fd] = Some HDir ->
  exists a', ls_loop fd buf ⇓[a] 0, a' /\ same_system a a' /\ o_next a' = 0 /\
    output a' = output a ++ concat (map (fun e => e_name e ++ [10]) (drop (Z.to_nat (o_next a)) (o_dir a))).
Proof.
  induction n as [|n IH]; intros a buf Hn Hfd Hnext Hbuf Hnm Hout Hh.
  - exists (set_next 0 a). split_and!; try done.
    + unfold ls_loop. apply runs_iter_stop. eapply runs_call.
      { cbn [os_step]. apply os_read_dir_end; done || lia. }
      cbn beta iota. eapply runs_lift; [by apply fill_start; cbn; lia|]. apply runs_ret.
    + rewrite drop_ge by lia. cbn. by rewrite app_nil_r.
  - destruct (zget_ex (o_dir a) (o_next a)) as [e He]; [lia|].
    destruct (named_get _ _ _ Hnm He) as [Ht Hl].
    set (a1 := say (Shown (e_name e ++ [10])) (set_next (o_next a + 1) a)).
    pose proof (zset_behind (e_name e) buf 10 ltac:(lia)) as Ebuf. set (buf1 := e_name e ++ 10 :: drop (S (length (e_name e))) buf) in *.
    pose proof (eq_refl buf1 : buf1 = e_name e ++ 10 :: drop (S (length (e_name e))) buf) as Hbuf1.
    destruct (IH a1 buf1) as (a' & Hr & Hs & Hn' & Ho); try done.
    + cbn [o_dir o_next a1 say set_next]. lia.
    + cbn [o_dir o_next a1 say set_next]. lia.
    + rewrite Hbuf1, length_app. cbn [length]. rewrite length_drop. lia.
    + exists a'. split_and!; try done.
      * unfold ls_loop. eapply runs_iter_next; [|exact Hr]. eapply runs_call.
        { cbn [os_step]. apply (os_read_dir_next _ _ _ e); done || lia. }
        cbn beta iota. eapply runs_lift; [apply fill_start; lia|]. bfalse (0 =? Z.of_nat (length (e_name e))).
        bfalse (-1 =? Z.of_nat (length (e_name e))). eapply runs_lift; [exact Ebuf|]. rewrite Hbuf1.
        eapply runs_call.
        { cbn [os_step]. rewrite os_write_stdout; [|done | rewrite length_app; cbn; lia | unfold MAX_BUFFER; cbn; lia].
          replace (Z.to_nat (Z.of_nat (length (e_name e)) + 1)) with (length (e_name e) + 1)%nat by lia.
          rewrite take_app_add. cbn [take]. rewrite take_0, nonzero_id by (apply Forall_app; split; [done | by repeat constructor]). reflexivity. }
        bfalse (-1 =? Z.of_nat (length (e_name e ++ [10]))). rewrite <- Hbuf1. apply runs_ret.
      * rewrite Ho. unfold a1 at 1. rewrite output_say. change (output (set_next (o_next a + 1) a)) with (output a).
        rewrite <- app_assoc. f_equal. cbn [o_next o_dir a1 say set_next].
        rewrite zget_lookup in He by lia. rewrite (drop_S _ _ _ He).
        by replace (Z.to_nat (o_next a + 1)) with (S (Z.to_nat (o_next a))) by lia.
Qed.

(** ** Reading a line *)

(** A line as the terminal delivers it. *)
Definition line_ok (l : list Z) : Prop := text l /\ (length l <= 1022)%nat.

Lemma os_read_line a l rest :
  table_ok a -> o_lines a = l :: rest -> line_ok l ->
  os_read 0 1023 a = Some (Z.of_nat (length l) + 1, l ++ [10], set_lines rest (say (Entered l) a)).
Proof.
  intros (_ & H0 & _) Hl [_ Hlen]. unfold os_read. bfalse ((0 <? 0) || (8 <=? 0) || (1023 <? 0)). rewrite H0, some_bind, Hl.
  rewrite take_ge by (rewrite length_app; cbn; lia). do 4 f_equal. rewrite length_app. cbn. lia.
Qed.

(** The buffer of 1024 bytes with the line in it and a zero behind it. *)
Definition line_buf (buf l : list Z) : list Z := l ++ 10 :: 0 :: drop (length l + 2) buf.

Lemma fill_line buf l :
  (length l <= 1022)%nat -> length buf = 1024%nat ->
  exists buf1, fill buf 0 (l ++ [10]) = Some buf1 /\ buf1.[Z.of_nat (length l) + 1 <- 0] = Some (line_buf buf l) /\
    buf1 = l ++ 10 :: drop (length l + 1) buf /\ length (line_buf buf l) = 1024%nat.
Proof.
  intros Hl Hbuf. rewrite fill_start by (rewrite length_app; cbn; lia). eexists. split; [done|].
  rewrite length_app, <- app_assoc. cbn [app length]. split_and!; [|done|].
  - destruct (lookup_lt_is_Some_2 buf (length l + 1)) as [x Hx]; [lia|]. rewrite (drop_S _ _ _ Hx).
    rewrite zset_app_cons. unfold line_buf. by replace (length l + 2)%nat with (S (length l + 1)) by lia.
  - unfold line_buf. rewrite length_app. cbn [length]. rewrite length_drop. lia.
Qed.

(** ** The shell *)

Definition shell_message (v : Z) : list Z :=
  if -1 =? v then str "no such command" ++ [10]
  else if 256 =? v then str "program terminated by exception" ++ [10]
  else if negb (0 =? v) then str "program terminated abnormally" ++ [10] else [].

(** The prompt is shown and a line entered. *)
Definition prompted (l : list Z) (rest : list (list Z)) (a : os) : os :=
  set_lines rest (say (Entered l) (say (Shown (str "391OS> ")) a)).

(** What the shell is meant to do from the prompt on. *)
Inductive shell_session : os -> os -> Prop :=
  | session_exit a rest : table_ok a -> o_lines a = str "exit" :: rest -> shell_session a (prompted (str "exit") rest a)
  | session_empty a rest b :
      table_ok a -> o_lines a = [] :: rest -> shell_session (prompted [] rest a) b -> shell_session a b
  | session_command a l rest v a1 b :
      table_ok a -> o_lines a = l :: rest -> line_ok l -> l <> [] -> l <> str "exit" ->
      execute l (prompted l rest a) = Some (v, a1) -> table_ok a1 ->
      shell_session (match shell_message v with [] => a1 | m => say (Shown m) a1 end) b -> shell_session a b.

(** The buffer of the shell after a line: the line without its newline. *)
Definition shell_buf (buf l : list Z) : list Z := l ++ 0 :: drop (length l + 1) buf.

Lemma shell_buf_length buf l : (length l <= 1022)%nat -> length buf = 1024%nat -> length (shell_buf buf l) = 1024%nat.
Proof. intros. unfold shell_buf. rewrite length_app. cbn [length]. rewrite length_drop. lia. Qed.

(** What the shell does with the line in its buffer. *)
Definition shell_act (buf : list Z) : prog (list Z + Z) :=
    r <~ lift (ece391_strcmp buf (lit "exit"));;
    if 0 =? r then Ret (inr 0)
    else
      c <~ lift (buf.[0]);;
      if 0 =? c then Ret (inl buf)
      else
        rval <~ sys (Execute buf);;
        (if -1 =? rval then ece391_fdputs 1 (litn "no such command")
         else if 256 =? rval then ece391_fdputs 1 (litn "program terminated by exception")
         else if negb (0 =? rval) then ece391_fdputs 1 (litn "program terminated abnormally")
         else Ret tt);;;
        Ret (inl buf).

Lemma shell_turn a l rest buf r b :
  table_ok a -> o_lines a = l :: rest -> line_ok l -> length buf = 1024%nat ->
  shell_act (shell_buf buf l) ⇓[prompted l rest a] r, b -> Shell.turn buf ⇓[a] r, b.
Proof.
  intros Ht Hl [Htx Hlen] Hbuf Hact. unfold Shell.turn. puts; [by destruct Ht as (_ & _ & H)|].
  eapply runs_call; [apply os_read_line; done|]. cbn beta iota.
  destruct (fill_line buf l Hlen Hbuf) as (buf1 & E1 & _ & -> & _). eapply runs_lift; [exact E1|].
  bfalse (-1 =? Z.of_nat (length l) + 1). btrue (0 <? Z.of_nat (length l) + 1).
  eapply runs_bind.
  { eapply runs_lift; [|apply runs_ret]. replace (Z.of_nat (length l) + 1 - 1) with (Z.of_nat (length l)) by lia.
    rewrite zget_app_r, Z.sub_diag by lia. reflexivity. }
  change (10 =? 10) with true. cbv iota. replace (Z.of_nat (length l) + 1 - 1) with (Z.of_nat (length l)) by lia.
  eapply runs_lift; [by apply zset_app_mid|]. exact Hact.
Qed.

Lemma shell_runs a b : shell_session a b -> forall buf, length buf = 1024%nat -> ITree.iter Shell.turn buf ⇓[a] 0, b.
Proof.
  induction 1 as [a rest Ht Hl | a rest b Ht Hl _ IH | a l rest v a1 b Ht Hl Hok Hne Hex Hrun Ht1 _ IH]; intros buf Hbuf.
  - apply runs_iter_stop. eapply shell_turn; [done | done | split; [by repeat constructor | cbn; lia] | done |].
    unfold shell_act. destruct (ece391_strcmp_spec (shell_buf buf (str "exit")) (lit "exit") (str "exit") (str "exit")) as (r & E & Hr).
    { apply text_cstring. by repeat constructor. } { apply lit_cstring. by repeat constructor. }
    eapply runs_lift; [exact E|]. rewrite (proj2 Hr eq_refl). apply runs_ret.
  - apply (runs_iter_next _ _ _ (shell_buf buf []) _ (prompted [] rest a)); [|apply IH, shell_buf_length; [cbn; lia | done]].
    eapply shell_turn; [done | done | split; [constructor | cbn; lia] | done |].
    unfold shell_act. eapply runs_lift; [reflexivity|]. change (0 =? 0 - 101) with false. cbv iota.
    eapply runs_lift; [reflexivity|]. apply runs_ret.
  - destruct Hok as [Htx Hlen].
    apply (runs_iter_next _ _ _ (shell_buf buf l) _ (match shell_message v with [] => a1 | m => say (Shown m) a1 end));
      [|apply IH; by apply shell_buf_length].
    eapply shell_turn; [done | done | done | done|]. unfold shell_act.
    destruct (ece391_strcmp_spec (shell_buf buf l) (lit "exit") l (str "exit")) as (r & E & Hr).
    { by apply text_cstring. } { apply lit_cstring. by repeat constructor. }
    eapply runs_lift; [exact E|]. rewrite (proj2 (Z.eqb_neq 0 r)) by (intros E0; by apply Hex, Hr).
    destruct l as [|c l]; [done|]. inversion Htx as [|? ? Hc Htx']; subst.
    eapply runs_lift; [reflexivity|]. bfalse (0 =? c).
    eapply runs_call.
    { cbn [os_step]. rewrite (string_in_spec _ (c :: l)) by by apply text_cstring. rewrite some_bind. unfold MAX_NAME.
      bfalse (1023 <? Z.of_nat (length (c :: l))). exact Hrun. }
    unfold shell_message. destruct (-1 =? v); [puts; [by destruct Ht1 as (_ & _ & H) | apply runs_ret]|].
    destruct (256 =? v); [puts; [by destruct Ht1 as (_ & _ & H) | apply runs_ret]|].
    destruct (negb (0 =? v)); [puts; [by destruct Ht1 as (_ & _ & H) | apply runs_ret]|].
    eapply runs_bind; apply runs_ret.
Qed.

(** ** counter and hello *)

Lemma counter_wrong a l rest buf :
  table_ok a -> o_lines a = l :: rest -> line_ok l -> length buf = 1024%nat ->
  exists a', Counter.counter_main buf ⇓[a] 0, a' /\
    output a' = output a ++ str "Enter the Test Number: (0): 100, (1): 10000, (2): 100000" ++ [10] ++ str "Wrong Choice!" ++ [10].
Proof.
  intros Ht Hl [Htx Hlen] Hbuf. eexists. split.
  - unfold Counter.counter_main. puts; [by destruct Ht as (_ & _ & H)|].
    eapply runs_call; [apply os_read_line; done|]. cbn beta iota.
    destruct (fill_line buf l Hlen Hbuf) as (buf1 & E1 & E2 & _ & _). eapply runs_lift; [exact E1|].
    bfalse (-1 =? Z.of_nat (length l) + 1). eapply runs_lift; [exact E2|].
    eapply runs_lift.
    { apply (ece391_strlen_spec _ (l ++ [10])); [|rewrite length_app; cbn; lia]. unfold line_buf.
      exists (drop (length l + 2) buf). split; [by rewrite <- app_assoc|]. apply Forall_app. split; [done | by repeat constructor]. }
    destruct (zget_ex (line_buf buf l) 0) as [c Hc]; [unfold line_buf; rewrite length_app; cbn; lia|].
    eapply runs_lift; [exact Hc|].
    assert ((1 <? Z.of_nat (length (l ++ [10]))) || ((Z.of_nat (length (l ++ [10])) =? 1) && ((c <? 48) || (50 <? c))) = true) as ->.
    { destruct l as [|x l]; [injection Hc as <-; done|]. rewrite length_app. cbn [length].
      btrue (1 <? Z.of_nat (S (length l) + 1)). done. }
    puts; [by destruct Ht as (_ & _ & H) | apply runs_ret].
  - rewrite output_say. change (output (set_lines rest ?x)) with (output x). rewrite output_entered, output_say. by rewrite <- !app_assoc.
Qed.

Lemma hello_greets a l rest buf :
  table_ok a -> o_lines a = l :: rest -> line_ok l -> length buf = 1024%nat ->
  exists a', Hello.hello_main buf ⇓[a] 0, a' /\
    output a' = output a ++ str "Hi, what's your name? " ++ str "Hello, " ++ l ++ [10].
Proof.
  intros Ht Hl [Htx Hlen] Hbuf. eexists. split.
  - unfold Hello.hello_main. puts; [by destruct Ht as (_ & _ & H)|].
    eapply runs_call; [apply os_read_line; done|]. cbn beta iota.
    destruct (fill_line buf l Hlen Hbuf) as (buf1 & E1 & E2 & _ & _). eapply runs_lift; [exact E1|].
    bfalse (-1 =? Z.of_nat (length l) + 1). eapply runs_lift; [exact E2|].
    puts; [by destruct Ht as (_ & _ & H)|].
    apply (runs_fdputs _ _ (l ++ [10])); [by destruct Ht as (_ & _ & H) | | rewrite length_app; unfold MAX_BUFFER; cbn; lia | apply runs_ret].
    unfold line_buf. exists (drop (length l + 2) buf). split; [by rewrite <- app_assoc|]. apply Forall_app. split; [done | by repeat constructor].
  - rewrite !output_say. change (output (set_lines rest ?x)) with (output x). rewrite output_entered, output_say. by rewrite <- !app_assoc.
Qed.

(** ** syserr *)

Definition std_handles : list handle := HStdin :: HStdout :: replicate 6 HFree.

(** A process with nothing open but the standard files, a directory with an entry for
    itself, and none of the two names that must not be there. *)
Record fresh (a : os) (dot : dir_entry) : Prop := {
  fr_fds : o_fds a = std_handles;
  fr_dot : find_name (o_dir a) (str ".") = Some dot;
  fr_type : e_type dot = 1;
  fr_helloo : find_name (o_dir a) (str "helloo") = None;
  fr_shel : find_name (o_dir a) (str "shel") = None }.

Lemma fresh_say a dot e : fresh a dot -> fresh (say e a) dot.
Proof. intros []. by split. Qed.

Lemma fresh_stdout a dot : fresh a dot -> on_stdout a.
Proof. intros []. unfold on_stdout. by rewrite fr_fds0. Qed.

Lemma runs_expect R (k : Z -> prog R) fail msg a r b :
  k fail ⇓[a] r, b -> (ITree.bind (Syserr.expect_error (-1) fail msg) k) ⇓[a] r, b.
Proof. intros H. eapply runs_bind; [apply runs_ret | exact H]. Qed.

(** A test that found nothing wrong shows its name and PASS. *)
Lemma runs_verdict failed passed cs a :
  on_stdout a -> cstring passed cs -> Z.of_nat (length cs) <= MAX_BUFFER ->
  Syserr.verdict 0 failed passed ⇓[a] 0, say (Shown cs) a.
Proof. intros H1 H2 H3. unfold Syserr.verdict. eapply runs_fdputs; [done | exact H2 | done | apply runs_ret]. Qed.

(** The call is refused and the test goes on. *)
Ltac refused := first [eapply runs_call; [cbn [os_step]; reflexivity|] | idtac]; cbn beta iota;
  first [eapply runs_lift; [apply fill_start; cbn; lia|] | idtac]; cbn beta iota;
  first [eapply runs_expect | idtac].

Lemma bad_fd_runs fd buf a :
  fd < 0 \/ 8 <= fd -> int32 fd = true -> length buf = 32%nat -> Syserr.bad_fd fd buf ⇓[a] 0, a.
Proof.
  intros Hfd H32 Hbuf. unfold Syserr.bad_fd. assert (int32 fd && int32 31 = true) as H31 by by rewrite H32.
  eapply runs_call; [cbn [os_step]; unfold os_read; btrue ((fd <? 0) || (8 <=? fd) || (31 <? 0)); by rewrite H31|]. cbn beta iota.
  eapply runs_lift; [apply fill_start; cbn; lia|]. eapply runs_expect.
  eapply runs_call; [cbn [os_step]; unfold os_write; btrue ((fd <? 0) || (8 <=? fd) || (31 <? 0)); by rewrite H31|]. eapply runs_expect.
  eapply runs_call; [cbn [os_step]; unfold os_close; btrue ((fd <? 2) || (8 <=? fd)); by rewrite H32|]. apply runs_ret.
Qed.

Ltac passed := apply runs_verdict; [by eapply fresh_stdout | apply litn_cstring; by repeat constructor | by vm_compute].

Lemma err_neg_fd_runs a dot buf : fresh a dot -> length buf = 32%nat ->
  Syserr.err_neg_fd buf ⇓[a] 0, say (Shown (str "err_neg_fd: PASS" ++ [10])) a.
Proof.
  intros Ha Hb. unfold Syserr.err_neg_fd. eapply runs_bind; [apply bad_fd_runs; [by left | done | done]|]. passed.
Qed.

Lemma err_big_fd_runs a dot buf : fresh a dot -> length buf = 32%nat ->
  Syserr.err_big_fd buf ⇓[a] 0, say (Shown (str "err_big_fd: PASS" ++ [10])) a.
Proof.
  intros Ha Hb. unfold Syserr.err_big_fd. eapply runs_bind; [apply bad_fd_runs; [by right | done | done]|]. passed.
Qed.

Lemma err_open_runs a dot : fresh a dot ->
  Syserr.err_open ⇓[a] 0, say (Shown (str "err_open: PASS" ++ [10])) a.
Proof.
  intros Ha. pose proof Ha as []. unfold Syserr.err_open.
  assert (forall cs, text cs -> Z.of_nat (length cs) <= MAX_NAME -> find_name (o_dir a) cs = None -> os_open (cs ++ [0]) a = Some (ERROR, a)) as Hopen.
  { intros cs Hcs Hmax Hn. unfold os_open. rewrite (string_in_spec _ cs) by by apply text_cstring. rewrite some_bind.
    bfalse (MAX_NAME <? Z.of_nat (length cs)).
    destruct (free_handle _); [|done]. destruct cs; [done|]. by rewrite Hn. }
  eapply runs_call; [apply Hopen; [by repeat constructor | by vm_compute | done]|]. eapply runs_expect.
  eapply runs_call; [apply Hopen; [by repeat constructor | by vm_compute | done]|]. eapply runs_expect.
  eapply runs_call; [cbn [os_step]; unfold os_open; rewrite fr_fds0; reflexivity|]. eapply runs_expect. passed.
Qed.

Lemma err_vidmap_runs a dot : fresh a dot ->
  Syserr.err_vidmap ⇓[a] 0, say (Shown (str "err_vidmap: PASS" ++ [10])) a.
Proof.
  intros Ha. unfold Syserr.err_vidmap. eapply runs_call; [reflexivity|]. eapply runs_expect.
  eapply runs_call; [reflexivity|]. eapply runs_expect. passed.
Qed.

Lemma err_syscall_num_runs a dot : fresh a dot ->
  Syserr.err_syscall_num ⇓[a] 0, say (Shown (str "err_syscall_num: PASS" ++ [10])) a.
Proof.
  intros Ha. unfold Syserr.err_syscall_num. do 3 (eapply runs_call; [reflexivity|]; eapply runs_expect). passed.
Qed.

Lemma err_stdin_out_runs a dot buf : fresh a dot -> length buf = 32%nat ->
  Syserr.err_stdin_out buf ⇓[a] 0, say (Shown (str "err_stdin_out: PASS" ++ [10])) a.
Proof.
  intros Ha Hb. unfold Syserr.err_stdin_out.
  eapply runs_call; [cbn [os_step]; unfold os_write; rewrite (fr_fds _ _ Ha); reflexivity|]. eapply runs_expect.
  eapply runs_call; [cbn [os_step]; unfold os_read; rewrite (fr_fds _ _ Ha); reflexivity|]. cbn beta iota.
  eapply runs_lift; [apply fill_start; cbn; lia|]. eapply runs_expect. passed.
Qed.

(** Loops. *)
Lemma runs_for {S} n : forall i (body : Z -> S -> prog S) s a,
  (forall j, i <= j < i + Z.of_nat n -> body j s ⇓[a] s, a) -> Syserr.for_prog n i body s ⇓[a] s, a.
Proof.
  induction n as [|n IH]; intros i body s a H; [apply runs_ret|]. cbn [Syserr.for_prog].
  eapply runs_bind; [apply H; lia|]. apply IH. intros j Hj. apply H. lia.
Qed.

Lemma std_handle_free a dot i : fresh a dot -> 2 <= i < 8 -> (o_fds a).[i] = Some HFree.
Proof.
  intros Ha Hi. rewrite (fr_fds _ _ Ha). unfold std_handles. rewrite zget_lookup by lia.
  destruct (Z.to_nat i) as [|[|n]] eqn:E; [lia | lia|]. cbn. apply (lookup_replicate_2 6 HFree). lia.
Qed.

Lemma err_unopened_runs a dot buf : fresh a dot -> length buf = 32%nat ->
  Syserr.err_unopened buf ⇓[a] 0, say (Shown (str "err_unopened: PASS" ++ [10])) a.
Proof.
  intros Ha Hb. unfold Syserr.err_unopened.
  eapply runs_bind.
  { apply runs_for. intros j Hj. apply (runs_call _ (Close j) _ a ERROR a); [|apply runs_ret]. cbn [os_step]. unfold os_close.
    destruct (Z.ltb_spec j 2); [by replace (int32 j) with true by (unfold int32; lia)|]. bfalse (8 <=? j). cbn [orb]. by rewrite (std_handle_free a dot) by (done || lia). }
  eapply runs_bind.
  { apply (runs_for 6 2 _ (0, buf)). intros j Hj. eapply runs_call.
    { cbn [os_step]. unfold os_read. bfalse ((j <? 0) || (8 <=? j) || (31 <? 0)).
      rewrite (std_handle_free a dot) by (done || lia). reflexivity. }
    cbn beta iota. eapply runs_lift; [apply fill_start; cbn; lia|]. eapply runs_expect. apply runs_ret. }
  cbn beta iota. eapply runs_bind.
  { apply runs_for. intros j Hj. apply (runs_call _ (Write j _ 31) _ a ERROR a); [|apply runs_ret]. cbn [os_step]. unfold os_write.
    bfalse ((j <? 0) || (8 <=? j) || (31 <? 0)). by rewrite (std_handle_free a dot) by (done || lia). }
  passed.
Qed.

(** Six directories open, the seventh refused, and all closed again. *)
Lemma open_dot a dot l : fresh a dot ->
  os_open (lit ".") (set_fds l a) =
  match free_handle l with
  | Some i => l' ← l.[i <- HDir]; Some (i, set_fds l' a)
  | None => Some (ERROR, set_fds l a)
  end.
Proof.
  intros Ha. unfold os_open. rewrite (string_in_spec _ (str ".")) by (apply lit_cstring; by repeat constructor). rewrite some_bind.
  change (MAX_NAME <? Z.of_nat (length (str "."))) with false. cbv iota. cbn [o_fds set_fds o_dir]. destruct (free_handle l); [|done].
  change (str ".") with [46]. cbn [o_dir set_fds]. pose proof (fr_dot _ _ Ha) as E. change (str ".") with [46] in E. rewrite E.
  unfold new_handle. by rewrite (fr_type _ _ Ha).
Qed.

Lemma close_dir a l i : l.[i] = Some HDir -> 2 <= i < 8 -> os_close i (set_fds l a) = (l' ← l.[i <- HFree]; Some (0, set_fds l' a)).
Proof. intros Hl Hi. unfold os_close. bfalse ((i <? 2) || (8 <=? i)). cbn [o_fds set_fds]. by rewrite Hl. Qed.

Lemma fresh_set a dot : fresh a dot -> a = set_fds std_handles a.
Proof. intros []. destruct a. cbn in *. by subst. Qed.

Lemma err_open_lots_runs a dot : fresh a dot ->
  Syserr.err_open_lots ⇓[a] 0, say (Shown (str "err_open_lots: PASS" ++ [10])) a.
Proof.
  intros Ha. unfold Syserr.err_open_lots. rewrite (fresh_set a dot Ha) at 1. eapply runs_bind.
  { cbn [Syserr.for_prog].
    do 7 (eapply runs_bind; [eapply runs_call; [cbn [os_step]; rewrite (open_dot a dot) by done; reflexivity|]; apply runs_ret|]).
    apply runs_ret. }
  eapply runs_bind.
  { cbn [Syserr.for_prog].
    do 6 (eapply runs_bind; [eapply runs_call; [cbn [os_step]; rewrite close_dir by (reflexivity || lia); reflexivity|]; apply runs_ret|]).
    apply runs_ret. }
  rewrite (fresh_set a dot Ha) at 2.
  puts; [by apply (fresh_stdout a dot) in Ha | apply runs_ret].
Qed.

(** ** What the programs show and return *)

Lemma cat_runs a buf :
  table_ok a -> named (o_dir a) -> 0 <= o_next a <= Z.of_nat (length (o_dir a)) ->
  text (o_args a) -> (length (o_args a) < 1024)%nat -> length buf = 1024%nat ->
  (forall ino, Z.of_nat (length (o_data a ino)) < 2 ^ 32) ->
  exists a', Cat.cat_main buf ⇓[a] (cat_shows a).1, a' /\ same_system a a' /\ output a' = output a ++ (cat_shows a).2.
Proof.
  intros Ht Hd Hnext Ha Hl Hbuf Hsize.
  assert (forall r b, (fd <~ sys (Open ((o_args a ++ [0]) ++ drop (length (o_args a ++ [0])) buf));;
    if -1 =? fd then ece391_fdputs 1 (litn "file not found");;; Ret 2
    else cat_loop fd ((o_args a ++ [0]) ++ drop (length (o_args a ++ [0])) buf)) ⇓[a] r, b -> Cat.cat_main buf ⇓[a] r, b) as Hstart.
  { intros r b H. unfold Cat.cat_main. eapply runs_call; [reflexivity|]. cbn beta iota.
    eapply runs_lift; [apply fill_start; rewrite length_app; cbn; lia|]. exact H. }
  assert (length ((o_args a ++ [0]) ++ drop (length (o_args a ++ [0])) buf) = 1024%nat) as Hbuf'.
  { rewrite length_app, length_drop, length_app. cbn. lia. }
  pose proof (os_open_spec ((o_args a ++ [0]) ++ drop (length (o_args a ++ [0])) buf) (o_args a) a) as Eo.
  destruct (opens a (o_args a)) as [[i h]|] eqn:Ho.
  - pose proof (opens_range _ _ _ _ Ho) as Hi. destruct (cat_loop_all a i h _ Ht Hd Hnext Hbuf' Ho Hsize) as (a' & Hr & Hs & Hout).
    exists a'. split_and!; [|done|done]. replace (cat_shows a).1 with 0.
    + apply Hstart. eapply runs_call; [apply Eo; [|unfold MAX_NAME; lia|apply Ht]|bfalse (-1 =? i); exact Hr].
      rewrite <- app_assoc. by apply text_cstring.
    + unfold cat_shows. rewrite Ho. by destruct h.
  - exists (say (Shown (str "file not found" ++ [10])) a). unfold cat_shows. rewrite Ho. split_and!.
    + apply Hstart. eapply runs_call; [apply Eo; [|unfold MAX_NAME; lia|apply Ht]|].
      { rewrite <- app_assoc. by apply text_cstring. }
      change (-1 =? ERROR) with true. cbv iota. puts; [by destruct Ht as (_ & _ & H) | apply runs_ret].
    + by unfold same_system.
    + apply output_say.
Qed.

(** [cat] ends whatever its argument names: a regular file is shown whole, without
    its zero bytes and however long it is, a directory as the names from its position on,
    the clock as nothing, all with result 0; a name that cannot be opened gives the
    message and the result 2.  Files, arguments and pending lines are as before. *)
Theorem cat_correct a buf :
  table_ok a -> named (o_dir a) -> 0 <= o_next a <= Z.of_nat (length (o_dir a)) ->
  text (o_args a) -> (length (o_args a) < 1024)%nat -> length buf = 1024%nat ->
  (forall ino, Z.of_nat (length (o_data a ino)) < 2 ^ 32) ->
  exists a', Cat.cat_main buf ⇓[a] (cat_shows a).1, a' /\ same_system a a' /\ output a' = output a ++ (cat_shows a).2.
Proof. apply cat_runs. Qed.

(** What [ls] shows and returns. *)
Definition ls_shows (a : os) : Z * list Z :=
  match opens a (str ".") with
  | Some (_, HDir) => (0, concat (map (fun e => e_name e ++ [10]) (drop (Z.to_nat (o_next a)) (o_dir a))))
  | _ => (2, str "directory open failed" ++ [10])
  end.

(** [ls] shows the name of every entry from the position of the directory on, one a
    line, and returns 0; the position is at the start again, so the next listing is of the
    whole directory.  With every handle taken it says so and returns 2. *)
Theorem ls_correct a buf :
  table_ok a -> named (o_dir a) -> 0 <= o_next a <= Z.of_nat (length (o_dir a)) -> length buf = 33%nat ->
  (forall e, find_name (o_dir a) (str ".") = Some e -> e_type e = 1) ->
  exists a', Ls.ls_main buf ⇓[a] (ls_shows a).1, a' /\ same_system a a' /\
    output a' = output a ++ (ls_shows a).2 /\ ((ls_shows a).1 = 0 -> o_next a' = 0).
Proof.
  intros Ht Hd Hnext Hbuf Hdot.
  assert (cstring (lit ".") (str ".")) as Hlit by (apply lit_cstring; by repeat constructor).
  pose proof (os_open_spec _ _ a Hlit ltac:(by vm_compute) (proj1 Ht)) as Eo.
  unfold ls_shows. destruct (opens a (str ".")) as [[i h]|] eqn:Ho.
  - assert (h = HDir) as ->.
    { unfold opens in Ho. destruct (free_handle _); [|done]. change (str ".") with [46] in *. cbv beta iota in Ho.
      destruct (find_name _ _) as [e|] eqn:En; [|done]. unfold new_handle in Ho. rewrite (Hdot e eq_refl) in Ho. by injection Ho as <- <-. }
    pose proof (opens_range _ _ _ _ Ho) as Hi. destruct (with_handle_ok i HDir a Ht Hi) as [(H8 & _ & H1) Hh].
    edestruct (ls_loop_runs i _ (with_handle i HDir a) buf eq_refl) as (a' & Hr & Hs & Hn & Hout); try done.
    exists a'. split_and!; [|by eapply same_with_handle | done | done].
    unfold Ls.ls_main. eapply runs_call; [exact Eo|]. bfalse (-1 =? i). exact Hr.
  - exists (say (Shown (str "directory open failed" ++ [10])) a). split_and!; [|by unfold same_system | apply output_say | done].
    unfold Ls.ls_main. eapply runs_call; [exact Eo|]. change (-1 =? ERROR) with true. cbv iota.
    puts; [by destruct Ht as (_ & _ & H) | apply runs_ret].
Qed.

(** C33: the shell does what a session is: a prompt before each line, empty lines ignored,
    a command executed with the line as it was typed and its result reported, until the
    line exit, on which it returns 0. *)
Theorem shell_correct a b buf :
  on_stdout a -> length buf = 1024%nat ->
  shell_session (say (Shown (str "Starting 391 Shell" ++ [10])) a) b ->
  Shell.shell_main buf ⇓[a] 0, b.
Proof. intros Ha Hbuf Hs. unfold Shell.shell_main. puts; [done|]. by apply shell_runs. Qed.

(** [counter] never counts: whatever line is entered, the choices 0, 1 and 2
    included, it answers that the choice is wrong, because the newline is part of the line. *)
Theorem counter_never_counts a l rest buf :
  table_ok a -> o_lines a = l :: rest -> line_ok l -> length buf = 1024%nat ->
  exists a', Counter.counter_main buf ⇓[a] 0, a' /\
    output a' = output a ++ str "Enter the Test Number: (0): 100, (1): 10000, (2): 100000" ++ [10] ++ str "Wrong Choice!" ++ [10].
Proof. apply counter_wrong. Qed.

Definition syserr_report : list Z :=
  str "err_neg_fd: PASS" ++ [10] ++ str "err_big_fd: PASS" ++ [10] ++ str "err_open_lots: PASS" ++ [10] ++
  str "err_open: PASS" ++ [10] ++ str "err_unopened: PASS" ++ [10] ++ str "err_vidmap: PASS" ++ [10] ++
  str "err_stdin_out: PASS" ++ [10] ++ str "err_syscall_num: PASS" ++ [10] ++ [10] ++ str "Overall Tests: PASS" ++ [10].

(** Each test runs on the state the one before it left. *)
Ltac next_test lem := eapply runs_bind; [eapply lem; by eauto 10 using fresh_say|].

Lemma run_all_passes a dot b :
  fresh a dot -> (forall i, length (b i) = 32%nat) ->
  exists a', Syserr.run_all b ⇓[a] 0, a' /\ o_lines a' = o_lines a /\ output a' = output a ++ syserr_report.
Proof.
  intros Ha Hb. eexists. split_and!.
  - unfold Syserr.run_all.
    next_test err_neg_fd_runs. next_test err_big_fd_runs. next_test err_open_lots_runs. next_test err_open_runs.
    next_test err_unopened_runs. next_test err_vidmap_runs. next_test err_stdin_out_runs. next_test err_syscall_num_runs.
    apply (runs_verdict _ _ ([10] ++ str "Overall Tests: PASS" ++ [10])); [eapply fresh_stdout; repeat apply fresh_say; exact Ha | | by vm_compute].
    apply (text_cstring ([10] ++ str "Overall Tests: PASS" ++ [10])). by repeat constructor.
  - reflexivity.
  - rewrite !output_say. unfold syserr_report. by rewrite <- !app_assoc.
Qed.

Lemma syserr_runs a dot rest buf b :
  fresh a dot -> o_lines a = str "0" :: rest -> length buf = 128%nat -> (forall i, length (b i) = 32%nat) ->
  exists a', Syserr.syserr_main buf b ⇓[a] 0, a' /\ o_lines a' = rest /\
    output a' = output a ++ str "Choose from tests 1-8. 0 to run all: " ++ syserr_report.
Proof.
  intros Ha Hl Hbuf Hb.
  set (a1 := say (Shown (str "Choose from tests 1-8. 0 to run all: ")) a).
  destruct (run_all_passes (set_lines rest (say (Entered (str "0")) a1)) dot b) as (a' & Hr & Hl' & Ho); [by destruct Ha | done|].
  exists a'. split_and!.
  - unfold Syserr.syserr_main. puts; [by eapply fresh_stdout|].
    eapply runs_call; [cbn [os_step]; unfold os_read; cbn [o_fds say o_lines]; rewrite (fr_fds _ _ Ha), Hl; reflexivity|].
    cbn beta iota. eapply runs_lift; [apply fill_start; rewrite Hbuf; vm_compute; lia|]. eapply runs_lift; [reflexivity|]. exact Hr.
  - exact Hl'.
  - rewrite Ho. change (output (set_lines rest ?x)) with (output x). unfold a1. rewrite output_entered, output_say. by rewrite <- app_assoc.
Qed.

(** The repository's own test of the error paths passes on every system of the
    specification: with the choice 0 all eight tests report PASS and the result is 0. *)
Theorem syserr_passes a dot rest buf b :
  fresh a dot -> o_lines a = str "0" :: rest -> length buf = 128%nat -> (forall i, length (b i) = 32%nat) ->
  exists a', Syserr.syserr_main buf b ⇓[a] 0, a' /\ o_lines a' = rest /\
    output a' = output a ++ str "Choose from tests 1-8. 0 to run all: " ++ syserr_report.
Proof. apply syserr_runs. Qed.

End Specs.

(** ** A small system *)

Definition demo_dir : list dir_entry :=
  [DirEntry (str ".") 1 0; DirEntry (str "rtc") 0 0; DirEntry (str "note") 2 7].

Definition demo_os (lines : list (list Z)) : os :=
  Os demo_dir (fun ino => if ino =? 7 then [104; 105; 0; 10] else []) (str "note") std_handles 0 [] lines.

(** No program can be run. *)
Definition no_program (cs : list Z) (a : os) : option (Z * os) := Some (-1, a).

Lemma demo_table lines : table_ok (demo_os lines).
Proof. by unfold table_ok. Qed.

Lemma demo_named : named demo_dir.
Proof. repeat constructor; by cbn; lia. Qed.

Lemma demo_fresh lines : fresh (demo_os lines) (DirEntry (str ".") 1 0).
Proof. by split. Qed.

(** [cat] of the file: three bytes, the zero left out. *)
Lemma cat_correct_witness :
  exists a', runs (os_step no_program) (Cat.cat_main (replicate 1024 0)) (demo_os []) 0 a' /\
    same_system (demo_os []) a' /\ output a' = [104; 105; 10].
Proof.
  apply (cat_correct no_program (demo_os []) (replicate 1024 0)); [apply demo_table | apply demo_named | cbn; lia | by repeat constructor | cbn; lia | done | intros ino; cbn; case_if; cbn; lia].
Defined.

Lemma ls_correct_witness :
  exists a', runs (os_step no_program) (Ls.ls_main (replicate 33 0)) (demo_os []) 0 a' /\
    same_system (demo_os []) a' /\ output a' = str "." ++ [10] ++ str "rtc" ++ [10] ++ str "note" ++ [10] /\ (0 = 0 -> o_next a' = 0).
Proof.
  apply (ls_correct no_program (demo_os []) (replicate 33 0)); [apply demo_table | apply demo_named | cbn; lia | done | by intros e [= <-]].
Defined.

(** An unknown command, an empty line, exit. *)
Lemma shell_correct_witness :
  exists b, runs (os_step no_program) (Shell.shell_main (replicate 1024 0)) (demo_os [str "frame0"; []; str "exit"]) 0 b /\
    output b = str "Starting 391 Shell" ++ [10] ++ str "391OS> " ++ str "no such command" ++ [10] ++ str "391OS> " ++ str "391OS> ".
Proof.
  eexists. split.
  - apply (shell_correct no_program); [done | done |].
    eapply session_command; [done | reflexivity | split; [by repeat constructor | cbn; lia] | done | done | reflexivity | done |].
    eapply session_empty; [done | reflexivity|]. eapply session_exit; [done | reflexivity].
  - reflexivity.
Defined.

Lemma counter_never_counts_witness :
  exists a', runs (os_step no_program) (Counter.counter_main (replicate 1024 0)) (demo_os [str "1"]) 0 a' /\
    output a' = str "Enter the Test Number: (0): 100, (1): 10000, (2): 100000" ++ [10] ++ str "Wrong Choice!" ++ [10].
Proof.
  apply (counter_never_counts no_program (demo_os [str "1"]) (str "1") []);
    [apply demo_table | done | split; [by repeat constructor | cbn; lia] | done].
Defined.

Lemma syserr_passes_witness :
  exists a', runs (os_step no_program) (Syserr.syserr_main (replicate 128 0) (fun _ => replicate 32 0)) (demo_os [str "0"]) 0 a' /\ o_lines a' = [] /\
    output a' = str "Choose from tests 1-8. 0 to run all: " ++ syserr_report.
Proof.
  apply (syserr_passes no_program (demo_os [str "0"]) (DirEntry (str ".") 1 0) []); [apply demo_fresh | done..].
Defined.
