(* ===== verification/Grep.v ===== *)
(** * What [grep] shows, [syscalls/ece391grep.c]

    [grep] searches the files of the directory through a buffer of 1024 bytes, carrying the
    line that is cut off at its end over to the next read.  It is proved against the lines
    of the files: a file of text whose lines fit into the buffer shows exactly its lines that
    contain the words searched for. *)

From stdpp Require Import base list option.
From Stdlib Require Import ZArith Lia ZifyBool.
From ITree Require Import ITree.
From S2P Require Import Prelude Lib Rtc UserLib Syscalls Programs Unix ProgramSpecs.

Import Programs.Grep.

(** ** The specification *)

Definition starts (s l : list Z) : bool := bool_decide (take (length s) l = s).

Fixpoint contains (s l : list Z) : bool :=
  match l with [] => false | _ :: l' => starts s l || contains s l' end.

(** The first character is compared as a [char] with an [unsigned char]: a pattern that starts
    with a byte from 128 on is never found, nor is an empty one. *)
Definition hit (s l : list Z) : bool :=
  match s with [] => false | c :: _ => (c <? 128) && contains s l end.

Definition show_line (s name l : list Z) : list Z := if hit s l then name ++ [58] ++ l ++ [10] else [].
Definition show_text (s name d : list Z) : list Z := concat (map (show_line s name) (lines d)).

(** A byte that is not zero. *)
Definition is_char (c : Z) : Prop := 0 < c < 256.

Lemma chars_text l : Forall is_char l -> text l.
Proof. apply List.Forall_impl. unfold is_char. intros. lia. Qed.

Lemma hit_nil s : hit s [] = false.
Proof. destruct s; [done|]. apply andb_false_r. Qed.

Lemma show_text_app s name u v : show_text s name (u ++ 10 :: v) = show_text s name u ++ show_text s name v.
Proof. unfold show_text. by rewrite lines_app, map_app, concat_app. Qed.

Lemma show_text_one s name x : Forall (fun c => c <> 10) x -> show_text s name x = show_line s name x.
Proof. intros H. unfold show_text. rewrite lines_one by done. cbn. apply app_nil_r. Qed.

Lemma show_text_nil s name : show_text s name [] = [].
Proof. unfold show_text. cbn. unfold show_line. by rewrite hit_nil. Qed.

Lemma show_text_nl s name u : show_text s name (u ++ [10]) = show_text s name u.
Proof. by rewrite show_text_app, show_text_nil, app_nil_r. Qed.

(** ** Finding the words in a line *)

Lemma starts_true s l : starts s l = true <-> take (length s) l = s.
Proof. apply bool_decide_eq_true. Qed.

Lemma strncmp_starts s : forall l post rest,
  s <> [] -> text s -> text l ->
  exists r, ece391_strncmp_from (l ++ 0 :: post) (s ++ 0 :: rest) (Z.of_nat (length s)) = Some r /\ (r = 0 <-> starts s l = true).
Proof.
  unfold text. induction s as [|c s IH]; intros l post rest Hne Hs Hl; [done|]. inversion Hs; subst.
  destruct l as [|x l]; cbn [app ece391_strncmp_from length].
  - bfalse (0 =? c). exists (0 - c). split; [done|]. rewrite starts_true. split; [lia | done].
  - inversion Hl; subst. destruct (Z.eqb_spec x c) as [->|Hxc].
    + bfalse (c =? 0). cbn [orb]. destruct s as [|c' s].
      * exists 0. split; [done|]. rewrite starts_true. cbn. by rewrite take_0.
      * assert (0 < length (c' :: s))%nat as Hpos by (cbn; lia). bfalse (Z.of_nat (S (length (c' :: s))) - 1 =? 0). destruct (IH l post rest) as (r & E & Hr); [done..|].
        replace (Z.of_nat (S (length (c' :: s))) - 1) with (Z.of_nat (length (c' :: s))) by lia.
        exists r. split; [exact E|]. rewrite Hr, !starts_true. cbn [length take]. split; [by intros -> | by intros [= ->]].
    + exists (x - c). split; [done|]. rewrite starts_true. cbn [length take]. split; [lia | by intros [= ->]].
Qed.

(** The loop over [check] decides whether the rest of the line contains the words. *)
Lemma matches_spec s srest l : forall pre post,
  text s -> Forall is_char l -> Forall is_char s ->
  matches (length l) (s ++ 0 :: srest) (pre ++ l ++ 0 :: post) (Z.of_nat (length s)) (Z.of_nat (length pre)) = Some (hit s l).
Proof.
  induction l as [|x l IH]; intros pre post Hs Hl Hsc; [by rewrite hit_nil|]. cbn [length matches]. pose proof Hl as Hl0. inversion Hl as [|? ? Hx Hl']; subst.
  rewrite (zget_app_r pre), Z.sub_diag by lia. change (((x :: l) ++ 0 :: post).[0]) with (Some x). rewrite some_bind.
  assert (matches (length l) (s ++ 0 :: srest) (pre ++ (x :: l) ++ 0 :: post) (Z.of_nat (length s)) (Z.of_nat (length pre) + 1) = Some (hit s l)) as Hnext.
  { specialize (IH (pre ++ [x]) post Hs Hl' Hsc). rewrite <- app_assoc in IH. rewrite <- IH. f_equal. rewrite length_app. cbn. lia. }
  destruct s as [|c s]; [|inversion Hsc as [|? ? Hc ?]; subst].
  - change (([] ++ 0 :: srest).[0]) with (Some 0). rewrite some_bind. change (s8 0) with 0. unfold is_char in Hx. bfalse (0 =? x). exact Hnext.
  - change (((c :: s) ++ 0 :: srest).[0]) with (Some c). rewrite some_bind, Nat2Z.id, drop_app_length. unfold is_char in *.
    unfold hit in *. cbn [contains]. destruct (Z.ltb_spec c 128) as [Hc'|Hc'].
    + rewrite s8_small by lia. cbn [andb] in *. destruct (Z.eqb_spec c x) as [->|Hcx].
      * assert (0 < length (x :: s))%nat as Hpos by (cbn; lia). unfold ece391_strncmp. bfalse (0 =? Z.of_nat (length (x :: s))).
        destruct (strncmp_starts (x :: s) (x :: l) post srest) as (r & -> & Hr); [done | done | by apply chars_text|].
        rewrite some_bind. destruct (Z.eqb_spec 0 r) as [<-|Hne]; [by rewrite (proj1 Hr eq_refl)|].
        destruct (starts (x :: s) (x :: l)); [exfalso; apply Hne; symmetry; by apply Hr | exact Hnext].
      * assert (starts (c :: s) (x :: l) = false) as ->; [|exact Hnext]. apply bool_decide_eq_false. cbn. congruence.
    + assert (s8 c < 0) as Hneg by (unfold s8; Z.to_euclidean_division_equations; lia). bfalse (s8 c =? x). exact Hnext.
Qed.

(** ** One line of the buffer *)

Definition no_newline (l : list Z) : Prop := Forall (fun c => c <> 10) l.

(** The end of the line that starts behind [pre]: a newline, or the end of the bytes read. *)
Lemma find_end_spec l : forall fuel pre x post last,
  no_newline l -> (length l < fuel)%nat ->
  last = Z.of_nat (length pre + length l) \/ (x = 10 /\ Z.of_nat (length pre + length l) < last) ->
  find_end fuel (pre ++ l ++ x :: post) last (Z.of_nat (length pre)) = Some (Z.of_nat (length pre + length l)).
Proof.
  induction l as [|c l IH]; intros fuel pre x post last Hl Hf Hlast; (destruct fuel as [|fuel]; [cbn in Hf; lia|]); cbn [find_end length app] in *.
  - rewrite Nat.add_0_r in *. destruct Hlast as [->|[-> Hlt]].
    + by rewrite Z.ltb_irrefl.
    + btrue (Z.of_nat (length pre) <? last). rewrite zget_app_r, Z.sub_diag by lia. done.
  - inversion Hl; subst. assert (Z.of_nat (length pre) < last) as Hlt by (destruct Hlast as [->|[_ ?]]; lia).
    btrue (Z.of_nat (length pre) <? last). rewrite (zget_app_r pre), Z.sub_diag by lia. change ((c :: l ++ x :: post).[0]) with (Some c).
    rewrite some_bind. bfalse (c =? 10). specialize (IH fuel (pre ++ [c]) x post last). rewrite length_app in IH. cbn [length] in IH.
    rewrite <- app_assoc in IH. cbn [app] in IH. replace (Z.of_nat (length pre) + 1) with (Z.of_nat (length pre + 1)) by lia.
    rewrite IH; [f_equal; lia | done | lia |]. destruct Hlast as [->|[-> ?]]; [left; lia | right; split; [done | lia]].
Qed.

Lemma zget_cons_pos {A} (x : A) l i : 0 < i -> (x :: l).[i] = l.[i - 1].
Proof. intros H. exact (zget_app_r [x] l i ltac:(cbn; lia)). Qed.

(** [ece391_strcpy] of the string at [s] down to [d]. *)
Lemma strcpy_down l : forall fuel buf d s,
  text l -> 0 <= d < s -> (length l < fuel)%nat ->
  (forall j, 0 <= j <= Z.of_nat (length l) -> buf.[s + j] = (l ++ [0]).[j]) ->
  exists buf', ece391_strcpy fuel buf d s = Some buf' /\ length buf' = length buf /\
    forall i, buf'.[i] = if (d <=? i) && (i <=? d + Z.of_nat (length l)) then (l ++ [0]).[i - d] else buf.[i].
Proof.
  induction l as [|c l IH]; intros fuel buf d s Hl Hd Hf Hs; (destruct fuel as [|fuel]; [cbn in Hf; lia|]); cbn [ece391_strcpy].
  - pose proof (Hs 0 ltac:(cbn; lia)) as E. rewrite Z.add_0_r in E. change (([] ++ [0]).[0]) with (Some 0) in E. rewrite E, some_bind.
    apply zget_Some_range in E. destruct (buf.[d <- 0]) as [b|] eqn:Eb; [|rewrite zset_in in Eb by lia; done]. rewrite some_bind. cbn [Z.eqb].
    exists b. split; [done|]. split; [by apply (zset_length _ _ _ _ Eb)|]. intros i. rewrite (zget_zset _ _ _ _ _ Eb). cbn [length app].
    destruct (Z.eqb_spec i d) as [->|Hi]; [btrue ((d <=? d) && (d <=? d + Z.of_nat 0)); by rewrite Z.sub_diag|].
    by bfalse ((d <=? i) && (i <=? d + Z.of_nat 0)).
  - inversion Hl; subst. pose proof (Hs 0 ltac:(cbn; lia)) as E. rewrite Z.add_0_r in E. change (((c :: l) ++ [0]).[0]) with (Some c) in E.
    rewrite E, some_bind. apply zget_Some_range in E. destruct (buf.[d <- c]) as [b|] eqn:Eb; [|rewrite zset_in in Eb by lia; done].
    rewrite some_bind. bfalse (c =? 0). destruct (IH fuel b (d + 1) (s + 1)) as (b' & -> & Hlen & Hget).
    + done.
    + lia.
    + cbn in Hf. lia.
    + intros j Hj. rewrite (zget_zset _ _ _ _ _ Eb). bfalse (s + 1 + j =? d). replace (s + 1 + j) with (s + (j + 1)) by lia.
      rewrite Hs by (cbn; lia). cbn [app]. rewrite zget_cons_pos by lia. f_equal. lia.
    + exists b'. split; [done|]. split; [rewrite Hlen; by apply (zset_length _ _ _ _ Eb)|]. intros i. rewrite Hget. cbn [length].
      destruct ((d + 1 <=? i) && (i <=? d + 1 + Z.of_nat (length l))) eqn:Ei.
      * bsplit. btrue ((d <=? i) && (i <=? d + Z.of_nat (S (length l)))). cbn [app]. rewrite zget_cons_pos by lia. f_equal. lia.
      * rewrite (zget_zset _ _ _ _ _ Eb). destruct (Z.eqb_spec i d) as [->|Hi].
        -- btrue ((d <=? d) && (d <=? d + Z.of_nat (S (length l)))). by rewrite Z.sub_diag.
        -- apply andb_false_iff in Ei. bfalse ((d <=? i) && (i <=? d + Z.of_nat (S (length l)))). done.
Qed.

(** ** Running it *)

Section Run.
Context (execute : list Z -> os -> option (Z * os)).
Notation "t ⇓[ a ] r , b" := (runs (os_step execute) t a r b) (at level 70, a at level 200, r at level 50, b at level 50).

(** The words searched for and the name of the file, in their buffers. *)
Context (s srest fname name : list Z).
Hypothesis Hs : Forall is_char s.
Hypothesis Hname : cstring fname name /\ (length name <= 32)%nat.

Lemma show_runs l post a :
  on_stdout a -> Forall is_char l -> (length l <= 1024)%nat ->
  exists a', (if hit s l then ece391_fdputs 1 fname;;; ece391_fdputs 1 (lit ":");;; ece391_fdputs 1 (l ++ 0 :: post);;; ece391_fdputs 1 (litn "")
              else Ret tt) ⇓[a] tt, a' /\ says a a' (show_line s name l).
Proof.
  intros Ho Hl Hlen. destruct Hname as [Hf Hn]. unfold show_line. destruct (hit s l); [|exists a; split; [apply runs_ret | apply says_nothing]].
  eexists. split.
  - eapply runs_fdputs; [done | exact Hf | unfold MAX_BUFFER; lia|]. eapply runs_fdputs; [done | apply lit_cstring; by repeat constructor | by vm_compute|].
    eapply runs_fdputs; [done | by apply text_cstring, chars_text | unfold MAX_BUFFER; lia|].
    apply fdputs_runs; [done | apply litn_cstring; constructor | by vm_compute].
  - repeat first [eapply says_trans; [apply says_say|] | apply says_say].
Qed.

(** The lines of the buffer that are whole, and the last one when there is nothing to come. *)
Lemma do_line_search cnt l pre x post last a :
  on_stdout a -> Forall is_char l -> no_newline l -> (length pre + length l <= 1024)%nat ->
  last = Z.of_nat (length pre + length l) \/ (x = 10 /\ Z.of_nat (length pre + length l) < last) ->
  x = 10 \/ cnt = 0 \/ pre = [] ->
  exists a', do_line (s ++ 0 :: srest) fname (Z.of_nat (length s)) cnt (pre ++ l ++ x :: post, last, Z.of_nat (length pre)) ⇓[a]
    (if last <=? Z.of_nat (length pre + length l) + 1 then inr (pre ++ l ++ 0 :: post, 0)
     else inl (pre ++ l ++ 0 :: post, last, Z.of_nat (length pre + length l) + 1)), a' /\ says a a' (show_line s name l).
Proof.
  intros Ho Hl Hnl Hlen Hlast Hstay. destruct (show_runs l post a Ho Hl ltac:(lia)) as (a' & Hr & Hsay). exists a'. split; [|exact Hsay].
  unfold do_line. eapply runs_lift; [apply find_end_spec; [done | rewrite !length_app; cbn; lia | exact Hlast]|].
  assert (forall y, (pre ++ l ++ y :: post).[Z.of_nat (length pre + length l)] = Some y) as Hget.
  { intros y. rewrite app_assoc. rewrite zget_app_r by (rewrite length_app; lia). rewrite length_app, Z.sub_diag. done. }
  assert (forall y, (pre ++ l ++ x :: post).[Z.of_nat (length pre + length l) <- y] = Some (pre ++ l ++ y :: post)) as Hset.
  { intros y. rewrite !(app_assoc pre). apply zset_app_mid. by rewrite length_app. }
  eapply runs_lift; [apply Hget|]. replace (negb (10 =? x) && negb (0 =? cnt) && negb (Z.of_nat (length pre) =? 0)) with false.
  2:{ destruct Hstay as [-> | [-> | ->]]; [done | by rewrite andb_false_r | by rewrite andb_false_r]. }
  eapply runs_lift; [apply Hset|]. eapply runs_lift.
  { replace (Z.to_nat (Z.of_nat (length pre + length l) - Z.of_nat (length pre))) with (length l) by lia.
    apply matches_spec; [by apply chars_text | done | done]. }
  rewrite Nat2Z.id, drop_app_length. eapply runs_bind; [exact Hr|]. cbv zeta. case_if; apply runs_ret.
Qed.

(** The line that is cut off moves to the front. *)
Lemma do_line_move cnt l pre x post a :
  Forall is_char l -> no_newline l -> (length pre + length l <= 1024)%nat -> x <> 10 -> cnt <> 0 -> pre <> [] ->
  exists data, do_line (s ++ 0 :: srest) fname (Z.of_nat (length s)) cnt (pre ++ l ++ x :: post, Z.of_nat (length pre + length l), Z.of_nat (length pre)) ⇓[a]
    inr (data, Z.of_nat (length l)), a /\ length data = length (pre ++ l ++ x :: post) /\
    take (length l) data = l /\
    forall i, Z.of_nat (length l) < i -> data.[i] = (pre ++ l ++ 0 :: post).[i].
Proof.
  intros Hl Hnl Hlen Hx Hcnt Hpre. assert (0 < length pre)%nat as Hpos by (destruct pre; [done | cbn; lia]).
  destruct (strcpy_down l (length (pre ++ l ++ 0 :: post)) (pre ++ l ++ 0 :: post) 0 (Z.of_nat (length pre))) as (data & E & Hdl & Hget).
  { by apply chars_text. } { lia. } { rewrite !length_app. cbn. lia. }
  { intros j Hj. rewrite zget_app_r by lia. replace (Z.of_nat (length pre) + j - Z.of_nat (length pre)) with j by lia.
    change (l ++ 0 :: post) with (l ++ [0] ++ post). rewrite app_assoc, zget_app_l; [done | rewrite length_app; cbn; lia]. }
  exists data. split_and!.
  - unfold do_line. eapply runs_lift; [apply find_end_spec; [done | rewrite !length_app; cbn; lia | by left]|].
    eapply runs_lift; [rewrite app_assoc, zget_app_r, length_app, Z.sub_diag by (rewrite length_app; lia); reflexivity|].
    replace (negb (10 =? x) && negb (0 =? cnt) && negb (Z.of_nat (length pre) =? 0)) with true by lia.
    eapply runs_lift; [rewrite (app_assoc pre); apply zset_app_mid; by rewrite length_app|]. rewrite <- app_assoc.
    eapply runs_lift; [exact E|]. replace (Z.of_nat (length pre + length l) - Z.of_nat (length pre)) with (Z.of_nat (length l)) by lia. apply runs_ret.
  - rewrite Hdl, !length_app. done.
  - apply zget_ext; [rewrite length_take, Hdl, !length_app; cbn; lia|]. rewrite length_take. intros i Hi.
    rewrite zget_lookup, lookup_take_lt, <- zget_lookup by lia. rewrite Hget. btrue ((0 <=? i) && (i <=? 0 + Z.of_nat (length l))).
    rewrite Z.sub_0_r. apply zget_app_l. lia.
  - intros i Hi. rewrite Hget. by bfalse ((0 <=? i) && (i <=? 0 + Z.of_nat (length l))).
Qed.

Lemma zget_mid_other {A} (l k : list A) x y i : i <> Z.of_nat (length l) -> (l ++ x :: k).[i] = (l ++ y :: k).[i].
Proof.
  intros Hi. unfold zget. case_if; [|done]. destruct (Nat.lt_ge_cases (Z.to_nat i) (length l)).
  - by rewrite !lookup_app_l by done.
  - rewrite !lookup_app_r by done. destruct (Z.to_nat i - length l)%nat eqn:E; [lia | done].
Qed.

(** The byte behind the buffer is never taken for a newline. *)
Definition guarded (data : list Z) : Prop := length data = 1025%nat /\ data.[1024] <> Some 10.

Lemma guarded_set l k x : guarded (l ++ x :: k) -> guarded (l ++ 0 :: k).
Proof.
  intros [Hlen Hg]. split; [by rewrite length_app in *|]. destruct (decide (1024 = Z.of_nat (length l))) as [E|E].
  - rewrite E, zget_app_r, Z.sub_diag by lia. done.
  - by rewrite (zget_mid_other l k 0 x).
Qed.

(** What the loop over the lines of a buffer leaves of the text [t]: the part [u] has been
    searched, [p] is the line that is cut off, at the front of the buffer. *)
Record lines_done (cnt : Z) (pre t : list Z) (data : list Z) (last : Z) (u p : list Z) : Prop := {
  ld_split : t = u ++ p;
  ld_guarded : guarded data;
  ld_last : last = Z.of_nat (length p);
  ld_front : take (length p) data = p;
  ld_line : no_newline p;
  ld_end : (p = [] /\ (cnt = 0 \/ (length (pre ++ t) < 1024)%nat \/ (exists v, t = v ++ [10]) \/ (pre = [] /\ no_newline t))) \/
           (p <> [] /\ ((u = [] /\ pre <> []) \/ exists v, u = v ++ [10])) }.

(** The last line of the buffer. *)
Lemma last_line_runs cnt t pre post a :
  on_stdout a -> Forall is_char t -> no_newline t -> guarded (pre ++ t ++ post) -> post <> [] -> t <> [] \/ pre = [] ->
  exists data last a' u p,
    do_line (s ++ 0 :: srest) fname (Z.of_nat (length s)) cnt (pre ++ t ++ post, Z.of_nat (length pre + length t), Z.of_nat (length pre)) ⇓[a]
      inr (data, last), a' /\ says a a' (show_text s name u) /\ lines_done cnt pre t data last u p.
Proof.
  intros Ho Ht Hnl Hg Hpost Hne. destruct post as [|y post]; [done|]. pose proof Hg as [Hlen H1024].
  rewrite !length_app in Hlen. cbn [length] in Hlen.
  assert (guarded (pre ++ t ++ 0 :: post)) as Hg0 by (rewrite app_assoc in *; by eapply guarded_set).
  destruct (decide (y = 10 \/ cnt = 0 \/ pre = [])) as [Hstay|Hmove].
  - destruct (do_line_search cnt t pre y post (Z.of_nat (length pre + length t)) a) as (a' & Hr & Hsay); [done | done | done | lia | by left | done|].
    btrue (Z.of_nat (length pre + length t) <=? Z.of_nat (length pre + length t) + 1).
    replace (Z.of_nat (length pre + length t) <=? Z.of_nat (length pre + length t) + 1) with true in Hr by lia.
    exists (pre ++ t ++ 0 :: post), 0, a', t, []. split; [exact Hr|]. split; [by rewrite show_text_one|].
    split; [by rewrite app_nil_r | done | done | done | constructor |]. left. split; [done|].
    destruct Hstay as [-> | [-> | ->]]; [|by left | by right; right; right].
    right. left. rewrite length_app. destruct (decide (length pre + length t = 1024)%nat) as [E|]; [|lia]. exfalso. apply H1024.
    rewrite app_assoc, zget_app_r, length_app by (rewrite length_app; lia). by replace (1024 - Z.of_nat (length pre + length t)) with 0 by lia.
  - assert (0 < length pre)%nat by (destruct pre; [tauto | cbn; lia]).
    destruct (do_line_move cnt t pre y post a) as (data & Hr & Hl & Hfront & Hget); [done | done | lia | tauto | tauto | tauto|].
    exists data, (Z.of_nat (length t)), a, [], t. split; [exact Hr|]. rewrite show_text_nil. split; [apply says_nothing|].
    split; try done; [|right; split; [tauto|]; left; split; [done | tauto]].
    split; [rewrite Hl, !length_app; cbn; lia|]. rewrite Hget by lia. apply Hg0.
Qed.

(** The loop over the lines of the buffer. *)
Lemma lines_run cnt : forall n t pre post a,
  (length t <= n)%nat -> on_stdout a -> Forall is_char t -> guarded (pre ++ t ++ post) -> post <> [] -> t <> [] \/ pre = [] ->
  exists data last a' u p,
    ITree.iter (do_line (s ++ 0 :: srest) fname (Z.of_nat (length s)) cnt) (pre ++ t ++ post, Z.of_nat (length pre + length t), Z.of_nat (length pre)) ⇓[a]
      (data, last), a' /\ says a a' (show_text s name u) /\ lines_done cnt pre t data last u p.
Proof.
  induction n as [|n IH]; intros t pre post a Hn Ho Ht Hg Hpost Hne; destruct (lines_split t) as (x & Hx & [(t' & -> & _) | [-> _]]).
  1: rewrite length_app in Hn; cbn in Hn; lia.
  1,3: destruct (last_line_runs cnt x pre post a) as (data & last & a' & u & p & Hr & Hsay & Hd); [done..|];
       exists data, last, a', u, p; split; [by apply runs_iter_stop | done].
  apply Forall_app in Ht as [Hxc Ht']. inversion Ht'; subst. rewrite length_app in Hn. cbn [length] in Hn. pose proof Hg as [Hlen _].
  rewrite <- app_assoc in *. cbn [app] in *. assert (0 < length post)%nat by (destruct post; [done | cbn; lia]).
  rewrite !length_app in Hlen. cbn [length] in Hlen. rewrite length_app in Hlen.
  destruct (do_line_search cnt x pre 10 (t' ++ post) (Z.of_nat (length pre + length (x ++ 10 :: t'))) a) as (a1 & Hr1 & Hsay1);
    [done | done | done | lia | right; split; [done | rewrite length_app; cbn; lia] | by left|].
  assert (guarded (pre ++ x ++ 0 :: t' ++ post)) as Hg' by (rewrite app_assoc in *; by eapply guarded_set).
  rewrite length_app in Hr1. cbn [length] in Hr1. destruct t' as [|c t'].
  - replace (_ <=? _) with true in Hr1 by (cbn; lia). exists (pre ++ x ++ 0 :: [] ++ post), 0, a1, (x ++ [10]), [].
    rewrite length_app. cbn [length]. split; [by apply runs_iter_stop|]. split; [by rewrite show_text_nl, show_text_one|].
    split; [by rewrite app_nil_r | done | done | done | constructor|]. left. split; [done|]. right. right. left. by exists x.
  - replace (_ <=? _) with false in Hr1 by (cbn; lia). set (pre' := pre ++ x ++ [0]).
    assert (pre ++ x ++ 0 :: (c :: t') ++ post = pre' ++ (c :: t') ++ post) as E by (unfold pre'; by rewrite <- !app_assoc).
    assert (length pre' = length pre + length x + 1)%nat as Hp' by (unfold pre'; rewrite !length_app; cbn; lia).
    rewrite E in Hg', Hr1. destruct (IH (c :: t') pre' post a1) as (data & last & a' & u & p & Hr & Hsay & Hd);
      [lia | by eapply says_stdout | done | done | done | by left|].
    exists data, last, a', (x ++ 10 :: u), p. split; [|split].
    + eapply runs_iter_next; [rewrite length_app; cbn [length]; exact Hr1|]. rewrite Hp' in Hr.
      replace (Z.of_nat (length pre + length x) + 1) with (Z.of_nat (length pre + length x + 1)) by lia.
      replace (length pre + (length x + S (length (c :: t'))))%nat with (length pre + length x + 1 + length (c :: t'))%nat by lia. exact Hr.
    + rewrite show_text_app, (show_text_one _ _ x) by done. by eapply says_trans.
    + destruct Hd as [Hsp ? ? ? ? Hend]. split; try done; [rewrite Hsp, <- app_assoc; done|].
      destruct Hend as [[-> Hc] | [Hp [[-> _] | [v ->]]]].
      * left. split; [done|]. destruct Hc as [Hc | [Hc | [[v Hc] | [Hc _]]]].
        -- by left.
        -- right. left. rewrite !length_app in *. cbn [length] in *. lia.
        -- right. right. left. exists (x ++ 10 :: v). rewrite Hc, <- app_assoc. done.
        -- exfalso. rewrite Hc in Hp'. cbn in Hp'. lia.
      * right. split; [done|]. right. exists x. done.
      * right. split; [done|]. right. exists (x ++ 10 :: v). by rewrite <- app_assoc.
Qed.

(** ** A whole file *)

(** The lines of a text that fit into the buffer with their newline. *)
Definition lines_fit (d : list Z) : Prop := Forall (fun l => (length l <= 1023)%nat) (lines d).

Lemma lines_fit_app u v : lines_fit (u ++ 10 :: v) <-> lines_fit u /\ lines_fit v.
Proof. unfold lines_fit. rewrite lines_app. apply Forall_app. Qed.

Lemma lines_fit_first x r : no_newline x -> lines_fit (x ++ r) -> (length x <= 1023)%nat.
Proof.
  intros Hx. destruct (lines_split r) as (y & Hy & [(r' & -> & _) | [-> _]]); unfold lines_fit.
  - rewrite app_assoc, lines_app, lines_one by (apply Forall_app; done). intros [H _]%Forall_app.
    inversion H; subst. rewrite length_app in *. lia.
  - rewrite lines_one by (apply Forall_app; done). intros H. inversion H; subst. rewrite length_app in *. lia.
Qed.

Lemma fill_front data p c :
  take (length p) data = p -> (length p + length c <= length data)%nat ->
  fill data (Z.of_nat (length p)) c = Some (p ++ c ++ drop (length p + length c) data).
Proof.
  intros Hp Hl. unfold fill. btrue ((0 <=? Z.of_nat (length p)) && (Z.of_nat (length p) + Z.of_nat (length c) <=? Z.of_nat (length data))).
  rewrite Nat2Z.id, Hp. done.
Qed.

(** A step over a piece of a file: [t] is in the buffer, [r] is still to be read, and the
    piece was short of the buffer only at the end of the file. *)
Lemma piece_done cnt t r data last u p :
  lines_done cnt [] t data last u p -> cnt <> 0 -> lines_fit (t ++ r) ->
  ((length t < 1024)%nat -> r = []) ->
  show_text s name (t ++ r) = show_text s name u ++ show_text s name (p ++ r) /\ lines_fit (p ++ r).
Proof.
  intros [-> _ _ _ _ Hend] Hcnt Hfit Hshort. rewrite <- app_assoc in *.
  assert ((exists v, u = v ++ [10]) \/ (p = [] /\ r = [])) as [[v ->] | [-> ->]].
  { destruct Hend as [[-> He] | [_ [[_ He] | He]]]; [|done | by left]. rewrite app_nil_r in *. cbn [app] in *.
    destruct He as [? | [He | [? | [_ He]]]]; [done | right; split; [done | by apply Hshort] | by left |].
    right. split; [done|]. apply Hshort. pose proof (lines_fit_first _ _ He Hfit). lia. }
  - rewrite <- app_assoc in *. cbn [app] in *. apply lines_fit_app in Hfit as [_ Hfit].
    rewrite show_text_app, show_text_nl. done.
  - rewrite !app_nil_r in *. rewrite show_text_nil, app_nil_r. split; [done|]. unfold lines_fit. cbn. by repeat constructor.
Qed.

(** The last search, with nothing more to read. *)
Lemma piece_last t data last u p : lines_done 0 [] t data last u p -> no_newline t -> show_text s name t = show_text s name u.
Proof.
  intros [-> _ _ _ _ Hend] Ht. destruct Hend as [[-> _] | [_ [[_ He] | [v ->]]]]; [by rewrite app_nil_r | done|].
  unfold no_newline in Ht. rewrite !Forall_app in Ht. destruct Ht as [[_ H] _]. inversion H. done.
Qed.

(** What a program that reads files and writes to the terminal changes: positions and output. *)
Definition erase (h : handle) : handle := match h with HFile i _ => HFile i 0 | _ => h end.

Definition showed (a a' : os) (out : list Z) : Prop :=
  same_system a a' /\ map erase (o_fds a') = map erase (o_fds a) /\ o_next a' = o_next a /\ output a' = output a ++ out.

Lemma says_showed a a' out : says a a' out -> showed a a' out.
Proof. intros (? & E & ?). split; [done|]. by rewrite E. Qed.

Lemma showed_trans a b c o1 o2 : showed a b o1 -> showed b c o2 -> showed a c (o1 ++ o2).
Proof.
  unfold showed, same_system. intros ((? & ? & ? & ? & ?) & ? & ? & ?) ((? & ? & ? & ? & ?) & ? & ? & ?).
  split_and!; try congruence. rewrite app_assoc. congruence.
Qed.

Lemma erase_advance ino n l : map erase (advance ino n l) = map erase l.
Proof. unfold advance. rewrite map_map. apply map_ext. intros []; cbn; try done. by case_if. Qed.

Lemma showed_advance ino n a : showed a (set_fds (advance ino n (o_fds a)) a) [].
Proof.
  unfold showed, same_system. cbn [o_dir o_data o_args o_lines o_fds set_fds o_next]. rewrite erase_advance, app_nil_r.
  split_and!; try done. unfold advance. apply length_map.
Qed.

Lemma erase_get l l' i h : map erase l' = map erase l -> l.[i] = Some h -> (forall j p, h <> HFile j p) -> l'.[i] = Some h.
Proof.
  intros E Hi Hh. assert ((map erase l').[i] = (map erase l).[i]) as Ei by by rewrite E. unfold zget in *. case_if; [|done].
  rewrite !list_lookup_fmap, Hi in Ei. destruct (l' !! _) as [h'|]; [|done]. destruct h, h'; cbn in Ei; congruence || by edestruct Hh.
Qed.

Lemma showed_stdout a a' out : showed a a' out -> on_stdout a -> on_stdout a'.
Proof. intros (_ & E & _) H. by eapply erase_get. Qed.

(** The loop over the pieces of a file. *)
Definition file_loop (fd : Z) : list Z * Z -> prog bool :=
  ITree.iter (fun '(data, last) =>
      '(cnt, bs) <~ sys (Read fd (BUFSIZE - last));; data <~ lift (fill data last bs);;
      if -1 =? cnt then ece391_fdputs 1 (litn "file read failed");;; Ret (inr false)
      else
        '(data, last) <~ ITree.iter (do_line (s ++ 0 :: srest) fname (Z.of_nat (length s)) cnt) (data, last + cnt, 0);;
        if 0 =? cnt then Ret (inr true) else Ret (inl (data, last))).

(** One turn: the bytes [c] are read behind the line [p] that was cut off. *)
Lemma piece_runs fd p c data a a1 :
  on_stdout a1 -> os_step execute _ (Read fd (1024 - Z.of_nat (length p))) a = Some (Z.of_nat (length c), c, a1) ->
  guarded data -> take (length p) data = p -> Forall is_char (p ++ c) -> (length p + length c <= 1024)%nat ->
  exists data' last a' u q, says a1 a' (show_text s name u) /\ lines_done (Z.of_nat (length c)) [] (p ++ c) data' last u q /\
    forall b r, (c = [] -> r = true /\ b = a') -> (c <> [] -> file_loop fd (data', last) ⇓[a'] r, b) ->
      file_loop fd (data, Z.of_nat (length p)) ⇓[a] r, b.
Proof.
  intros Ho Er [Hlen Hg] Hp Hc Hl. set (post := drop (length p + length c) data).
  assert (length post = 1025 - (length p + length c))%nat as Hpost by (unfold post; rewrite length_drop; lia).
  assert (fill data (Z.of_nat (length p)) c = Some (p ++ c ++ post)) as Ef by (apply fill_front; [done | lia]).
  assert (guarded ([] ++ (p ++ c) ++ post)) as Hg'.
  { cbn [app]. split; [rewrite !length_app; lia|]. unfold post. rewrite zget_app_r by (rewrite length_app; lia).
    rewrite length_app, zget_lookup, lookup_drop in * by lia.
    replace (length p + length c + Z.to_nat (1024 - Z.of_nat (length p + length c)))%nat with (Z.to_nat 1024) by lia.
    by rewrite <- zget_lookup by lia. }
  destruct (lines_run (Z.of_nat (length c)) _ (p ++ c) [] post a1 (Nat.le_refl _) Ho Hc Hg') as (data' & last & a' & u & q & Hr & Hsay & Hd).
  { intros E. rewrite E in Hpost. cbn in Hpost. lia. } { by right. }
  exists data', last, a', u, q. split; [done|]. split; [done|]. intros b r Hstop Hgo. cbn [app length] in Hr. rewrite <- app_assoc in Hr.
  assert (forall k, (if 0 =? Z.of_nat (length c) then Ret (inr true) else Ret (inl (data', last))) ⇓[a'] k, a' ->
    (fun '(data, last) =>
      '(cnt, bs) <~ sys (Read fd (BUFSIZE - last));; data <~ lift (fill data last bs);;
      if -1 =? cnt then ece391_fdputs 1 (litn "file read failed");;; Ret (inr false)
      else
        '(data, last) <~ ITree.iter (do_line (s ++ 0 :: srest) fname (Z.of_nat (length s)) cnt) (data, last + cnt, 0);;
        if 0 =? cnt then Ret (inr true) else Ret (inl (data, last))) (data, Z.of_nat (length p)) ⇓[a] k, a') as Hturn.
  { intros k Hk. cbv beta iota. eapply runs_call; [exact Er|]. cbn beta iota. eapply runs_lift; [exact Ef|].
    bfalse (-1 =? Z.of_nat (length c)). eapply runs_bind.
    { rewrite length_app, Nat.add_0_l, Nat2Z.inj_add in Hr. exact Hr. } exact Hk. }
  destruct c as [|x c].
  - destruct (Hstop eq_refl) as [-> ->]. apply runs_iter_stop, Hturn. apply runs_ret.
  - eapply runs_iter_next; [apply Hturn; apply runs_ret|]. by apply Hgo.
Qed.

Lemma file_loop_runs fd ino : forall n r p data a pos,
  (length r <= n)%nat -> on_stdout a -> 2 <= fd < 8 -> (o_fds a).[fd] = Some (HFile ino pos) ->
  0 <= pos -> pos + Z.of_nat (length r) < 2 ^ 32 -> drop (Z.to_nat pos) (o_data a ino) = r ->
  guarded data -> take (length p) data = p -> no_newline p -> Forall is_char (p ++ r) -> lines_fit (p ++ r) ->
  exists a', file_loop fd (data, Z.of_nat (length p)) ⇓[a] true, a' /\ showed a a' (show_text s name (p ++ r)).
Proof.
  induction n as [n IH] using lt_wf_ind. intros r p data a pos Hn Ho Hfd Hh Hpos Hsz Hr Hg Hp Hnl Hch Hfit.
  pose proof (lines_fit_first p r Hnl Hfit) as Hpl.
  set (c := take (1024 - length p) r). set (a1 := set_fds (advance ino (Z.of_nat (length c)) (o_fds a)) a).
  assert (length c <= 1024 - length p /\ length c <= length r)%nat as [Hcl Hcr] by (unfold c; rewrite length_take; lia).
  pose proof (showed_advance ino (Z.of_nat (length c)) a : showed a a1 []) as Hadv.
  assert (os_step execute _ (Read fd (1024 - Z.of_nat (length p))) a = Some (Z.of_nat (length c), c, a1)) as Er.
  { cbn [os_step]. unfold os_read. bfalse ((fd <? 0) || (8 <=? fd) || (1024 - Z.of_nat (length p) <? 0)).
    unfold MAX_BUFFER. bfalse (2 ^ 20 <? 1024 - Z.of_nat (length p)). rewrite Hh, some_bind, Hr.
    by replace (Z.to_nat (1024 - Z.of_nat (length p))) with (1024 - length p)%nat by lia. }
  assert (r = c ++ drop (1024 - length p) r) as Esplit by (unfold c; by rewrite take_drop).
  set (r' := drop (1024 - length p) r) in *.
  assert (Forall is_char (p ++ c) /\ Forall is_char r') as [Hpc Hr'].
  { rewrite Esplit, app_assoc in Hch. by apply Forall_app in Hch. }
  destruct (piece_runs fd p c data a a1) as (data' & last & a2 & u & q & Hsay & Hd & Hturn); [by eapply showed_stdout | done | done | done | done | lia|].
  pose proof (showed_trans _ _ _ _ _ Hadv (says_showed _ _ _ Hsay)) as Hsh. cbn [app] in Hsh.
  destruct (decide (c = [])) as [Ec|Hne].
  - exists a2. split; [by apply Hturn|]. assert (r = []) as ->.
    { rewrite Esplit, Ec. cbn. unfold r'. unfold c in Ec. destruct r; [by rewrite drop_nil|]. destruct (1024 - length p)%nat eqn:E; [lia | done]. }
    rewrite Ec in Hd. rewrite app_nil_r in *. by rewrite (piece_last _ _ _ _ _ Hd Hnl).
  - assert (0 < length c)%nat as Hc0 by (destruct c; [done | cbn; lia]). rewrite Esplit, app_assoc in Hfit.
    destruct (piece_done _ _ r' _ _ _ _ Hd) as [Eshow Hfit']; [lia | done | |].
    { intros Hlt. unfold r'. apply drop_ge. unfold c in Hlt. rewrite length_app, length_take in Hlt. lia. }
    destruct Hd as [Esp Hg' -> Hq Hqnl _]. assert (Forall is_char (q ++ r')) as Hqc.
    { apply Forall_app. split; [|done]. rewrite Esp in Hpc. by apply Forall_app in Hpc as [_ ?]. }
    destruct (IH (length r') ltac:(apply (f_equal length) in Esplit; rewrite length_app in Esplit; lia) r' q data' a2 (pos + Z.of_nat (length c)))
      as (b & Hrun & Hshow); try done; try lia.
    + by eapply showed_stdout.
    + destruct Hsay as (_ & -> & _). unfold a1. cbn [o_fds set_fds]. rewrite advance_get, Hh. cbn. rewrite Z.eqb_refl, u32_small by lia. done.
    + apply (f_equal length) in Esplit. rewrite length_app in Esplit. lia.
    + destruct Hsay as ((_ & -> & _) & _). unfold a1. cbn [o_data set_fds].
      replace (Z.to_nat (pos + Z.of_nat (length c))) with (Z.to_nat pos + length c)%nat by lia. rewrite <- drop_drop, Hr, Esplit at 1. by rewrite drop_app_length.
    + exists b. split; [by apply Hturn|]. rewrite Esplit, app_assoc, Eshow. by eapply showed_trans.
Qed.

(** Opening a file, searching it, closing it. *)
Definition file_shows (a : os) : list Z :=
  match find_name (o_dir a) name with Some e => if e_type e =? 2 then show_text s name (o_data a (e_ino e)) else [] | None => [] end.

(** A file that can be searched: the clock, or a text whose lines fit. *)
Definition searchable (a : os) (e : dir_entry) : Prop :=
  e_type e = 0 \/ e_type e = 2 /\ Forall is_char (o_data a (e_ino e)) /\ lines_fit (o_data a (e_ino e)) /\ Z.of_nat (length (o_data a (e_ino e))) < 2 ^ 32.

Lemma clock_loop_runs fd data a :
  on_stdout a -> 2 <= fd < 8 -> (o_fds a).[fd] = Some HClock -> guarded data ->
  exists a', file_loop fd (data, 0) ⇓[a] true, a' /\ showed a a' [].
Proof.
  intros Ho Hfd Hh Hg. destruct (piece_runs fd [] [] data a a) as (data' & last & a' & u & q & Hsay & Hd & Hturn); [done | | done | done | constructor | cbn; lia|].
  - cbn [os_step]. unfold os_read. change (1024 - Z.of_nat (length [])) with 1024. bfalse ((fd <? 0) || (8 <=? fd) || (1024 <? 0)).
    change (MAX_BUFFER <? 1024) with false. by rewrite Hh.
  - exists a'. split; [by apply Hturn|]. apply says_showed. apply piece_last in Hd; [|constructor]. cbn [app] in Hd. by rewrite <- Hd, show_text_nil in Hsay.
Qed.

Lemma erase_insert i h l : map erase (<[i := h]> l) = <[i := erase h]> (map erase l).
Proof. exact (list_fmap_insert erase l i h). Qed.

(** The handle [i] is closed again: the table is as it was, up to positions. *)
Lemma file_closed i h a a1 out :
  length (o_fds a) = 8%nat -> 2 <= i < 8 -> (o_fds a).[i] = Some HFree -> is_free h = false -> showed (with_handle i h a) a1 out ->
  exists a', os_close i a1 = Some (0, a') /\ showed a a' out.
Proof.
  intros H8 Hi Hfree Hh (Hsame & He & Hn & Ho). assert (map erase (o_fds a1) = <[Z.to_nat i := erase h]> (map erase (o_fds a))) as He'.
  { rewrite He. unfold with_handle. cbn [o_fds set_fds]. apply erase_insert. }
  assert (length (o_fds a1) = 8%nat) as H8' by (rewrite <- (length_map erase), He', length_insert, length_map; done).
  destruct (zget_ex (o_fds a1) i) as [h1 Hh1]; [lia|]. assert (is_free h1 = false) as Hf1.
  { apply (f_equal (fun l => l !! Z.to_nat i)) in He'. rewrite list_lookup_fmap, list_lookup_insert_eq in He' by (rewrite length_map; lia).
    rewrite zget_lookup in Hh1 by lia. rewrite Hh1 in He'. by destruct h1, h. }
  exists (set_fds (<[Z.to_nat i := HFree]> (o_fds a1)) a1). split.
  - unfold os_close. bfalse ((i <? 2) || (8 <=? i)). rewrite Hh1, some_bind, Hf1, zset_in by lia. done.
  - unfold showed, same_system in *. cbn [o_dir o_data o_args o_lines o_fds set_fds o_next with_handle] in *. rewrite !length_insert in *.
    destruct Hsame as (? & ? & ? & ? & ?). split_and!; try done.
    rewrite erase_insert, He', list_insert_insert_eq. apply list_insert_id.
    rewrite list_lookup_fmap. rewrite zget_lookup in Hfree by lia. by rewrite Hfree.
Qed.

Lemma file_runs data a i e :
  table_ok a -> text name -> name <> [] -> free_handle (o_fds a) = Some i -> find_name (o_dir a) name = Some e -> searchable a e ->
  guarded data -> (length s <= 1023)%nat ->
  exists a', do_one_file (s ++ 0 :: srest) fname data ⇓[a] 0, a' /\ showed a a' (file_shows a).
Proof.
  intros Ht Htx Hne Hfree Hfind Hse Hg Hsl. pose proof (free_handle_range _ _ Hfree) as Hi.
  assert ((o_fds a).[i] = Some HFree) as Hfree'.
  { pose proof (find_seqZ (fun i => match (o_fds a).[i] with Some h => is_free h | None => false end) 2 6) as H.
    unfold free_handle in Hfree. rewrite Hfree in H. destruct H as (_ & H & _). by destruct ((o_fds a).[i]) as [[]|]. }
  assert (exists h, new_handle e = Some h /\ is_free h = false /\
    exists a1, file_loop i (data, 0) ⇓[with_handle i h a] true, a1 /\ showed (with_handle i h a) a1 (file_shows a)) as (h & Eh & Hh & a1 & Hr & Hshow).
  { unfold file_shows. rewrite Hfind. destruct Hse as [E | (E & Hch & Hfit & Hsz)]; unfold new_handle; rewrite E; eexists; (split; [done|]); (split; [done|]).
    - destruct (with_handle_ok i HClock a Ht Hi) as [(_ & _ & H1) Hh]. by apply clock_loop_runs.
    - destruct (with_handle_ok i (HFile (e_ino e) 0) a Ht Hi) as [(_ & _ & H1) Hh].
      apply (file_loop_runs i (e_ino e) _ (o_data a (e_ino e)) [] data _ 0 (Nat.le_refl _)); try done; lia || constructor. }
  destruct (file_closed i h a a1 _ (proj1 Ht) Hi Hfree' Hh Hshow) as (a' & Ec & Hsh). exists a'. split; [|done].
  unfold do_one_file. eapply runs_lift; [apply ece391_strlen_spec; [by apply text_cstring, chars_text | lia]|].
  destruct Hname as [Hcs Hnl]. eapply runs_call.
  { cbn [os_step]. apply (os_open_file fname name a e i); try done; [unfold MAX_NAME; lia | apply Ht]. }
  bfalse (-1 =? i). eapply runs_bind; [exact Hr|]. cbn [negb]. eapply runs_call; [exact Ec|]. apply runs_ret.
Qed.

End Run.

Section Grep.
Context (execute : list Z -> os -> option (Z * os)).
Notation "t ⇓[ a ] r , b" := (runs (os_step execute) t a r b) (at level 70, a at level 200, r at level 50, b at level 50).

(** What [grep] shows for an entry of the directory; the names that start with a dot are skipped. *)
Definition dotted (name : list Z) : bool := match name with c :: _ => 46 =? c | [] => false end.

Definition entry_shows (s : list Z) (a : os) (e : dir_entry) : list Z :=
  if dotted (e_name e) then [] else file_shows s (e_name e) a.

Definition all_searchable (a : os) : Prop :=
  Forall (fun e => dotted (e_name e) = false -> searchable a e) (o_dir a).

Definition grep_loop (fd : Z) (search : list Z) (data : list Z -> list Z) : list Z -> prog Z :=
  ITree.iter (fun buf =>
        '(cnt, bs) <~ sys (Read fd (SBUFSIZE - 1));; buf <~ lift (fill buf 0 bs);;
        if 0 =? cnt then Ret (inr 0)
        else if -1 =? cnt then ece391_fdputs 1 (litn "directory entry read failed");;; Ret (inr 3)
        else
          c <~ lift (buf.[0]);;
          if 46 =? c then Ret (inl buf)
          else
            buf <~ lift (buf.[cnt <- 0]);;
            r <~ do_one_file search buf (data buf);;
            if negb (0 =? r) then Ret (inr 3) else Ret (inl buf)).

(** A name of the directory is found in it. *)
Lemma find_own_name d e : In e d -> (length (e_name e) <= 32)%nat -> exists e', find_name d (e_name e) = Some e' /\ In e' d /\ e_name e' = e_name e.
Proof.
  intros Hin Hl. unfold find_name. rewrite take_ge by done. destruct (find _ d) as [e'|] eqn:E.
  - apply find_some in E as [? E%bool_decide_eq_true]. by exists e'.
  - apply (find_none _ _ E) in Hin. by rewrite bool_decide_eq_false in Hin.
Qed.

(** The state of the loop: a handle on the directory and a free one. *)
Record grep_ready (fd : Z) (a : os) : Prop := {
  gr_table : table_ok a;
  gr_dir : (o_fds a).[fd] = Some HDir;
  gr_named : named (o_dir a);
  gr_files : all_searchable a;
  gr_free : exists i, free_handle (o_fds a) = Some i }.

Lemma find_ext {A} (f g : A -> bool) l : (forall x, f x = g x) -> find f l = find g l.
Proof. intros H. induction l as [|x l IH]; [done|]. cbn. by rewrite H, IH. Qed.

Lemma erase_free l l' : map erase l' = map erase l -> free_handle l' = free_handle l.
Proof.
  intros E. unfold free_handle. apply find_ext. intros i. assert ((map erase l').[i] = (map erase l).[i]) as Ei by by rewrite E.
  unfold zget in *. case_if; [|done]. rewrite !list_lookup_fmap in Ei. by destruct (l' !! _) as [[]|], (l !! _) as [[]|].
Qed.

Lemma grep_ready_showed fd a a' out : showed a a' out -> grep_ready fd a -> grep_ready fd a'.
Proof.
  intros ((Hd & Hda & _ & _ & Hl) & He & _) [(H8 & H0 & H1) ? ? ? ?]. split.
  - split_and!; [congruence | by eapply erase_get | by eapply erase_get].
  - by eapply erase_get.
  - by rewrite Hd.
  - unfold all_searchable, searchable in *. by rewrite Hd, Hda.
  - by rewrite (erase_free _ _ He).
Qed.

Lemma grep_ready_next fd a n : grep_ready fd a -> grep_ready fd (set_next n a).
Proof. intros []. by split. Qed.

(** One entry. *)
Lemma entry_runs fd s srest data a e buf :
  grep_ready fd a -> 2 <= fd < 8 -> Forall is_char s -> (length s <= 1023)%nat -> (forall n, guarded (data n)) -> length buf = 33%nat ->
  (o_dir a).[o_next a] = Some e ->
  exists a' buf', showed (set_next (o_next a + 1) a) a' (entry_shows s a e) /\ length buf' = 33%nat /\
    forall r b, grep_loop fd (s ++ 0 :: srest) data buf' ⇓[a'] r, b -> grep_loop fd (s ++ 0 :: srest) data buf ⇓[a] r, b.
Proof.
  intros Hrdy Hfd Hs Hsl Hg Hbuf He. pose proof Hrdy as [Ht Hd Hnm Hf (i & Hfree)]. destruct (named_get _ _ _ Hnm He) as [Htx Hl].
  set (a1 := set_next (o_next a + 1) a). set (buf1 := e_name e ++ drop (length (e_name e)) buf).
  assert (os_step execute _ (Read fd (SBUFSIZE - 1)) a = Some (Z.of_nat (length (e_name e)), e_name e, a1)) as Er.
  { cbn [os_step]. apply os_read_dir_next; [lia | by vm_compute | done | done | lia]. }
  assert (In e (o_dir a)) as Hin.
  { rewrite zget_lookup in He by (apply zget_Some_range in He; lia). apply list_elem_of_In. by eapply list_elem_of_lookup_2. }
  destruct (find_own_name _ _ Hin ltac:(lia)) as (e' & Efind & Hin' & En).
  assert (exists c cs, e_name e = c :: cs) as (c & cs & Ename) by (destruct (e_name e); [cbn in Hl; lia | by eauto]).
  assert (buf1.[0] = Some c) as Hc0 by (unfold buf1; by rewrite Ename).
  destruct (Z.eqb_spec 46 c) as [<-|Hc].
  - exists a1, buf1. split; [|split; [unfold buf1; rewrite length_app, length_drop; lia|]].
    { unfold entry_shows. rewrite Ename. apply says_showed, says_nothing. }
    intros r b Hr. eapply runs_iter_next; [|exact Hr]. eapply runs_call; [exact Er|]. cbn beta iota. eapply runs_lift; [apply fill_start; lia|].
    bfalse (0 =? Z.of_nat (length (e_name e))). bfalse (-1 =? Z.of_nat (length (e_name e))). eapply runs_lift; [exact Hc0|]. apply runs_ret.
  - set (buf2 := e_name e ++ 0 :: drop (S (length (e_name e))) buf).
    assert (searchable a1 e') as Hse.
    { unfold all_searchable in Hf. rewrite Forall_forall in Hf. apply Hf; [done|].
      rewrite En, Ename. cbn [dotted]. lia. }
    destruct (file_runs execute s srest buf2 (e_name e) Hs (conj (text_cstring _ _ Htx) (proj2 Hl)) (data buf2) a1 i e') as (a' & Hr & Hshow);
      [done | done | by rewrite Ename | done | done | done | done | done|].
    exists a', buf2. split; [|split; [unfold buf2; rewrite length_app; cbn [length]; rewrite length_drop; lia|]].
    { replace (entry_shows s a e) with (file_shows s (e_name e) a1); [done|]. unfold entry_shows. rewrite Ename. cbn [dotted]. by bfalse (46 =? c). }
    intros r b Hloop. eapply runs_iter_next; [|exact Hloop]. eapply runs_call; [exact Er|]. cbn beta iota. eapply runs_lift; [apply fill_start; lia|].
    bfalse (0 =? Z.of_nat (length (e_name e))). bfalse (-1 =? Z.of_nat (length (e_name e))). eapply runs_lift; [exact Hc0|].
    bfalse (46 =? c). eapply runs_lift; [apply zset_behind; lia|]. eapply runs_bind; [exact Hr|]. apply runs_ret.
Qed.

Lemma entry_shows_same s a a' e : same_system a a' -> entry_shows s a' e = entry_shows s a e.
Proof. intros (Hd & Hda & _). unfold entry_shows, file_shows. by rewrite Hd, Hda. Qed.

Lemma grep_loop_runs fd s srest data : forall n a buf,
  Z.to_nat (Z.of_nat (length (o_dir a)) - o_next a) = n -> grep_ready fd a -> 2 <= fd < 8 -> Forall is_char s -> (length s <= 1023)%nat ->
  (forall n, guarded (data n)) -> length buf = 33%nat -> 0 <= o_next a <= Z.of_nat (length (o_dir a)) ->
  exists a', grep_loop fd (s ++ 0 :: srest) data buf ⇓[a] 0, a' /\ same_system a a' /\ o_next a' = 0 /\
    output a' = output a ++ concat (map (entry_shows s a) (drop (Z.to_nat (o_next a)) (o_dir a))).
Proof.
  induction n as [|n IH]; intros a buf Hn Hrdy Hfd Hs Hsl Hg Hbuf Hnext.
  - exists (set_next 0 a). split_and!; try done.
    + apply runs_iter_stop. eapply runs_call.
      { cbn [os_step]. apply os_read_dir_end; [lia | by vm_compute | apply Hrdy | lia]. }
      cbn beta iota. eapply runs_lift; [by apply fill_start; cbn; lia|]. apply runs_ret.
    + rewrite drop_ge by lia. symmetry. apply app_nil_r.
  - destruct (zget_ex (o_dir a) (o_next a)) as [e He]; [lia|].
    destruct (entry_runs fd s srest data a e buf) as (a1 & buf1 & Hshow & Hbuf1 & Hgo); [done..|].
    pose proof Hshow as (Hsame & _ & Hnext1 & Hout). cbn [o_next set_next] in Hnext1. pose proof Hsame as (Hdir & Hdata & Hargs & Hlines & Hlen).
    cbn [o_dir o_data o_args o_lines o_fds set_next] in *.
    destruct (IH a1 buf1) as (a' & Hr & (? & ? & ? & ? & ?) & Hn' & Ho'); try done; try (rewrite Hdir, Hnext1; lia).
    { eapply grep_ready_showed; [exact Hshow|]. by apply grep_ready_next. }
    exists a'. split_and!; [by apply Hgo | unfold same_system; split_and!; congruence | done|].
    rewrite Ho', Hout, Hdir, Hnext1. change (output (set_next _ a)) with (output a). rewrite <- app_assoc. f_equal.
    rewrite zget_lookup in He by lia. rewrite (drop_S _ _ _ He). cbn [map concat].
    replace (Z.to_nat (o_next a + 1)) with (S (Z.to_nat (o_next a))) by lia. f_equal. f_equal. apply map_ext.
    intros e'. by apply (entry_shows_same s (set_next (o_next a + 1) a)).
Qed.

(** C34: [grep] shows of every file of the directory, from its position on and but for the names that
    start with a dot, exactly the lines that contain the words it was given, in order and each
    behind the name of its file, and returns 0: the buffer of 1024 bytes loses no line and cuts none
    when the files are text with lines of at most 1023 bytes, wherever the reads fall, and
    what the buffers hold at the start does not matter if only the byte behind the buffer of a
    file is not a newline.  The position in the directory is at the start again. *)
Theorem grep_correct a dot buf search data :
  o_fds a = std_handles -> find_name (o_dir a) (str ".") = Some dot -> e_type dot = 1 ->
  named (o_dir a) -> all_searchable a -> 0 <= o_next a <= Z.of_nat (length (o_dir a)) ->
  Forall is_char (o_args a) -> (length (o_args a) <= 1023)%nat ->
  length buf = 33%nat -> length search = 1024%nat -> (forall n, guarded (data n)) ->
  exists a', grep_main buf search data ⇓[a] 0, a' /\ same_system a a' /\ o_next a' = 0 /\
    output a' = output a ++ concat (map (entry_shows (o_args a) a) (drop (Z.to_nat (o_next a)) (o_dir a))).
Proof.
  intros Hfds Hdot Htype Hnm Hf Hnext Hargs Hlen Hbuf Hsearch Hg.
  assert (table_ok (with_handle 2 HDir a)) as Ht by (unfold table_ok, with_handle; cbn [o_fds set_fds]; by rewrite Hfds).
  edestruct (grep_loop_runs 2 (o_args a) (drop (length (o_args a) + 1) search) data _ (with_handle 2 HDir a) buf eq_refl)
    as (a' & Hr & Hs & Hn & Ho); try done.
  { split; try done; unfold with_handle; cbn [o_fds set_fds]; rewrite Hfds; [done | by eexists]. }
  exists a'. split_and!; [|by eapply same_with_handle | done | done].
  unfold grep_main. eapply runs_call; [reflexivity|]. cbn beta iota.
  eapply runs_lift; [apply fill_start; rewrite length_app; cbn; lia|]. cbn [Z.eqb negb]. eapply runs_call.
  { cbn [os_step]. apply (os_open_file _ (str ".") a dot 2); try done; [apply lit_cstring; by repeat constructor | by rewrite Hfds | by rewrite Hfds |].
    unfold new_handle. by rewrite Htype. }
  rewrite length_app, <- app_assoc. exact Hr.
Qed.

End Grep.

(** A directory with a text in which two lines of three match. *)
Definition grep_os : os :=
  Os demo_dir (fun ino => if ino =? 7 then str "fish" ++ [10] ++ str "frame" ++ [10] ++ str "a fish" else []) (str "fish") std_handles 0 [] [].

Lemma grep_correct_witness :
  exists a', runs (os_step no_program) (grep_main (replicate 33 0) (replicate 1024 0) (fun _ => replicate 1025 7)) grep_os 0 a' /\
    same_system grep_os a' /\ o_next a' = 0 /\ output a' = str "note:fish" ++ [10] ++ str "note:a fish" ++ [10].
Proof.
  apply (grep_correct no_program grep_os (DirEntry (str ".") 1 0) (replicate 33 0) (replicate 1024 0)); try done.
  - by repeat constructor.
  - apply Forall_cons; [done|]. apply Forall_cons; [by left|]. apply Forall_cons; [|apply Forall_nil; done]. intros _. right.
    split_and!; [done | unfold is_char; apply (bool_decide_eq_true_1 _); by vm_compute | unfold lines_fit; apply (bool_decide_eq_true_1 _); by vm_compute | by vm_compute].
  - by repeat constructor.
  - cbn. lia.
Defined.
