(* ===== verification/Pingpong.v ===== *)
(** * What [pingpong] shows, [syscalls/ece391pingpong.c]

    [pingpong] moves a letter between two walls, a picture for each tick of the clock, and
    goes on with the next letter of the alphabet; it has no end.  The theorem says what it
    has shown after any number of rallies. *)

From stdpp Require Import base list option.
From Stdlib Require Import ZArith Lia ZifyBool.
From ITree Require Import ITree.
From S2P Require Import Prelude Lib Rtc UserLib Syscalls Programs Unix ProgramSpecs.

Import Programs.Pingpong.

(** ** The specification *)

(** A picture: the letter [c] in column [j] of the court. *)
Definition picture (c j : Z) : list Z := [32; 124] ++ <[Z.to_nat (j - 2) := c]> (replicate 76 32) ++ [124; 10].

Definition columns : list Z := seqZ 2 76.

(** There and back. *)
Definition rally_text (c : Z) : list Z := concat (map (picture c) (columns ++ rev columns)).

(** The letter of the [n]th rally. *)
Definition letter (n : nat) : Z := 65 + Z.of_nat n mod 26.

Definition shown_after (n : nat) : list Z := concat (map (fun i => rally_text (letter i)) (seq 0 n)).

(** ** The buffer *)

Definition court (inner : list Z) : list Z := [32; 124] ++ inner ++ [124; 10; 0].

Lemma blank_mid post : forall mid pre,
  blank (Z.of_nat (length pre)) (Z.of_nat (length pre + length mid)) (pre ++ mid ++ post) = Some (pre ++ replicate (length mid) 32 ++ post).
Proof.
  unfold blank. intros mid pre. replace (Z.to_nat _) with (length mid) by lia. revert pre.
  induction mid as [|x mid IH]; intros pre; [done|]. cbn [length for_up app replicate]. rewrite zset_app_mid by done. rewrite some_bind.
  specialize (IH (pre ++ [32])). rewrite length_app, <- !app_assoc in IH. cbn [app length] in IH. rewrite <- IH. f_equal. lia.
Qed.

Lemma walls_spec buf : length buf = 81%nat -> walls buf = Some (court (replicate 76 32)).
Proof.
  intros H. unfold walls. change BUFMAX with 81. pose proof (blank_mid [] buf []) as E. rewrite app_nil_r, H in E. cbn [app] in E.
  change (Z.of_nat (length (@nil Z) + 81)) with 81 in E. change (Z.of_nat (length (@nil Z))) with 0 in E. rewrite E. reflexivity.
Qed.

Lemma court_set inner c j : length inner = 76%nat -> 2 <= j < 78 -> (court inner).[j <- c] = Some (court (<[Z.to_nat (j - 2) := c]> inner)).
Proof.
  intros Hl Hj. rewrite zset_in by (unfold court; rewrite !length_app; cbn; lia). unfold court. f_equal.
  rewrite insert_app_r_alt by (cbn; lia). rewrite insert_app_l by (cbn; lia). do 3 f_equal. cbn. lia.
Qed.

Lemma picture_cstring c j : c <> 0 -> cstring (court (<[Z.to_nat (j - 2) := c]> (replicate 76 32))) (picture c j).
Proof.
  intros Hc. exists []. split; [unfold court, picture; by rewrite <- !app_assoc|]. unfold picture. rewrite !Forall_app.
  split; [by repeat constructor|]. split; [|by repeat constructor]. apply Forall_insert; [|done]. by apply Forall_replicate.
Qed.

(** ** Running it *)

Section Play.
Context (execute : list Z -> os -> option (Z * os)).
Notation "t ⇓[ a ] r , b" := (runs (os_step execute) t a r b) (at level 70, a at level 200, r at level 50, b at level 50).

(** A tick leaves everything as it is. *)
Definition ticks (fd : Z) (a : os) : Prop :=
  exists r, forall b, o_fds b = o_fds a -> os_step execute _ (Read fd 4) b = Some (r, [], b).

Definition playing (fd : Z) (a : os) : Prop := on_stdout a /\ ticks fd a.

Lemma playing_says fd a a' out : says a a' out -> playing fd a -> playing fd a'.
Proof. intros Hs [Ho Ht]. split; [by eapply says_stdout|]. destruct Hs as (_ & E & _). unfold ticks in *. by rewrite E. Qed.

Lemma frame_runs fd c j inner a :
  playing fd a -> c <> 0 -> 2 <= j < 78 -> length inner = 76%nat ->
  exists inner', frame fd c j (court inner) ⇓[a] court inner', say (Shown (picture c j)) a /\ length inner' = 76%nat.
Proof.
  intros [Ho [r Ht]] Hc Hj Hl. exists (<[Z.to_nat (j - 2) := c]> (replicate 76 32)). split; [|by rewrite length_insert, length_replicate].
  unfold frame. eapply runs_lift.
  { pose proof (blank_mid [124; 10; 0] inner [32; 124]) as E. rewrite Hl in E. exact E. }
  eapply runs_lift; [apply court_set; [apply length_replicate | done]|].
  eapply runs_fdputs; [done | by apply picture_cstring | unfold picture; rewrite !length_app, length_insert, length_replicate; by vm_compute|].
  eapply runs_call; [by apply Ht | apply runs_ret].
Qed.

Lemma move_out_runs fd c : c <> 0 -> forall n j inner a,
  Z.to_nat (78 - j) = n -> playing fd a -> 2 <= j <= 78 -> length inner = 76%nat ->
  exists inner' a', ITree.iter (fun '(j, buf) =>
      if j <? LOOPMAX then buf <~ frame fd c j buf;; Ret (inl (j + 1, buf)) else Ret (inr buf)) (j, court inner) ⇓[a] court inner', a' /\
    length inner' = 76%nat /\ says a a' (concat (map (picture c) (seqZ j (78 - j)))).
Proof.
  intros Hc. induction n as [|n IH]; intros j inner a Hn Hp Hj Hl.
  - assert (j = 78) as -> by lia. exists inner, a. split; [apply runs_iter_stop, runs_ret|]. split; [done|]. apply says_nothing.
  - destruct (frame_runs fd c j inner a) as (inner1 & Hf & Hl1); [done | done | lia | done|].
    destruct (IH (j + 1) inner1 (say (Shown (picture c j)) a)) as (inner' & a' & Hr & Hl' & Hs); [lia | by eapply playing_says, Hp; apply says_say | lia | done|].
    exists inner', a'. split; [|split; [done|]].
    + eapply runs_iter_next; [|exact Hr]. cbv beta iota. change LOOPMAX with 78. btrue (j <? 78). eapply runs_bind; [exact Hf | apply runs_ret].
    + rewrite seqZ_cons by lia. replace (Z.pred (78 - j)) with (78 - (j + 1)) by lia. replace (Z.succ j) with (j + 1) by lia.
      cbn [map concat]. eapply says_trans; [apply says_say | exact Hs].
Qed.

Lemma bounce_back_runs fd c : c <> 0 -> forall n j inner a,
  Z.to_nat (j - 1) = n -> playing fd a -> 1 <= j < 78 -> length inner = 76%nat ->
  exists inner' a', ITree.iter (fun '(j, buf) =>
      if STARTLOOP <=? j then buf <~ frame fd c j buf;; Ret (inl (j - 1, buf)) else Ret (inr buf)) (j, court inner) ⇓[a] court inner', a' /\
    length inner' = 76%nat /\ says a a' (concat (map (picture c) (rev (seqZ 2 (j - 1))))).
Proof.
  intros Hc. induction n as [|n IH]; intros j inner a Hn Hp Hj Hl.
  - assert (j = 1) as -> by lia. exists inner, a. split; [apply runs_iter_stop, runs_ret|]. split; [done|]. apply says_nothing.
  - destruct (frame_runs fd c j inner a) as (inner1 & Hf & Hl1); [done | done | lia | done|].
    destruct (IH (j - 1) inner1 (say (Shown (picture c j)) a)) as (inner' & a' & Hr & Hl' & Hs); [lia | by eapply playing_says, Hp; apply says_say | lia | done|].
    exists inner', a'. split; [|split; [done|]].
    + eapply runs_iter_next; [|exact Hr]. cbv beta iota. change STARTLOOP with 2. btrue (2 <=? j). eapply runs_bind; [exact Hf | apply runs_ret].
    + replace (j - 1) with (Z.of_nat (S (Z.to_nat (j - 2)))) by lia. rewrite seqZ_S, rev_app_distr. cbn [rev app map concat].
      replace (2 + Z.of_nat (Z.to_nat (j - 2))) with j by lia. eapply says_trans; [apply says_say|].
      by replace (Z.of_nat (Z.to_nat (j - 2))) with (j - 1 - 1) by lia.
Qed.

Lemma letter_next n : (if letter n =? 90 then 65 else u8 (letter n + 1)) = letter (S n).
Proof.
  unfold letter. pose proof (Z.mod_pos_bound (Z.of_nat n) 26 ltac:(lia)) as Hb. destruct (Z.eqb_spec (65 + Z.of_nat n mod 26) 90) as [E|E].
  - Z.to_euclidean_division_equations. lia.
  - rewrite u8_small by lia. Z.to_euclidean_division_equations. lia.
Qed.

Lemma rally_runs fd n inner a :
  playing fd a -> length inner = 76%nat ->
  exists inner' a', rally fd (letter n, court inner) ⇓[a] inl (letter (S n), court inner'), a' /\
    length inner' = 76%nat /\ says a a' (rally_text (letter n)).
Proof.
  intros Hp Hl. assert (letter n <> 0) as Hc by (unfold letter; pose proof (Z.mod_pos_bound (Z.of_nat n) 26 ltac:(lia)); lia).
  destruct (move_out_runs fd (letter n) Hc _ 2 inner a eq_refl Hp) as (inner1 & a1 & H1 & Hl1 & Hs1); [lia | done|].
  destruct (bounce_back_runs fd (letter n) Hc _ 77 inner1 a1 eq_refl) as (inner2 & a2 & H2 & Hl2 & Hs2); [by eapply playing_says | lia | done|].
  exists inner2, a2. split; [|split; [done|]].
  - unfold rally. eapply runs_bind; [exact H1|]. eapply runs_bind; [exact H2|]. rewrite letter_next. apply runs_ret.
  - unfold rally_text. rewrite map_app, concat_app. by eapply says_trans.
Qed.

(** Any number of rallies from the [m]th one on. *)
Lemma rallies_reached fd n : forall m inner a,
  playing fd a -> length inner = 76%nat ->
  exists a', reaches (os_step execute) (ITree.iter (rally fd) (letter m, court inner)) a a' /\
    says a a' (concat (map (fun i => rally_text (letter i)) (seq m n))).
Proof.
  induction n as [|n IH]; intros m inner a Hp Hl; [exists a; split; [apply reaches_here | apply says_nothing]|].
  destruct (rally_runs fd m inner a Hp Hl) as (inner1 & a1 & Hr & Hl1 & Hs1).
  destruct (IH (S m) inner1 a1) as (a' & Hr' & Hs'); [by eapply playing_says | done|].
  exists a'. split; [by eapply reaches_iter_next|]. cbn [seq map concat]. by eapply says_trans.
Qed.

Lemma rallies_forever fd a inner r b : playing fd a -> length inner = 76%nat -> ~ ITree.iter (rally fd) (letter 0, court inner) ⇓[a] r, b.
Proof.
  intros Hp Hl. apply (iter_forever _ _ (fun st w => exists n inner, st = (letter n, court inner) /\ playing fd w /\ length inner = 76%nat)).
  - intros st w (n & inner0 & -> & Hw & Hl0). destruct (rally_runs fd n inner0 w Hw Hl0) as (inner1 & w1 & Hr & Hl1 & Hs1).
    exists (letter (S n), court inner1), w1. split; [done|]. exists (S n), inner1. split; [done|]. split; [by eapply playing_says | done].
  - by exists 0%nat, inner.
Qed.

(** The clock is opened and set to 32 ticks a second; without one the game goes on unpaced. *)
Lemma clock_ready a :
  table_ok a -> (forall e, find_name (o_dir a) (str "rtc") = Some e -> e_type e = 0) ->
  exists fd a1 r, sys (Open (lit "rtc")) ⇓[a] fd, a1 /\ sys (Write fd [32; 0; 0; 0] 4) ⇓[a1] r, a1 /\ playing fd a1 /\ output a1 = output a.
Proof.
  intros Ht Hrtc. assert (cstring (lit "rtc") (str "rtc")) as Hlit by (apply lit_cstring; by repeat constructor).
  pose proof (os_open_spec _ _ a Hlit ltac:(by vm_compute) (proj1 Ht)) as Eo. destruct (opens a (str "rtc")) as [[i h]|] eqn:Ho.
  - pose proof (opens_range _ _ _ _ Ho) as Hi. assert (h = HClock) as ->.
    { unfold opens in Ho. destruct (free_handle _); [|done]. change (str "rtc") with [114; 116; 99] in *. cbv beta iota in Ho.
      destruct (find_name _ _) as [e|] eqn:En; [|done]. unfold new_handle in Ho. rewrite (Hrtc e eq_refl) in Ho. by injection Ho as <- <-. }
    destruct (with_handle_ok i HClock a Ht Hi) as [(_ & _ & H1) Hh]. exists i, (with_handle i HClock a), 0.
    split; [by apply runs_sys|]. split; [|split; [split; [exact H1|] | done]].
    + apply runs_sys. cbn [os_step]. unfold os_write. bfalse ((i <? 0) || (8 <=? i) || (4 <? 0)). by rewrite Hh.
    + exists 0. intros b Hb. cbn [os_step]. unfold os_read. bfalse ((i <? 0) || (8 <=? i) || (4 <? 0)). by rewrite Hb, Hh.
  - exists ERROR, a, ERROR. split; [by apply runs_sys|]. split; [by apply runs_sys|]. split; [|done]. split; [apply Ht|].
    exists ERROR. intros b _. done.
Qed.

(** C35: [pingpong] plays for ever: whatever number of rallies is asked for, its run gets as far as
    having shown exactly these, each the pictures of one letter in column after column to the
    far wall and back, with the letters A to Z in turn; and it never returns.  That holds
    with the clock in the directory and without. *)
Theorem pingpong_plays a buf :
  table_ok a -> length buf = 81%nat -> (forall e, find_name (o_dir a) (str "rtc") = Some e -> e_type e = 0) ->
  (forall n, exists a', reaches (os_step execute) (pingpong_main buf) a a' /\ output a' = output a ++ shown_after n) /\
  (forall r b, ~ pingpong_main buf ⇓[a] r, b).
Proof.
  intros Ht Hbuf Hrtc. destruct (clock_ready a Ht Hrtc) as (fd & a1 & w & Hopen & Hwrite & Hp & Ho).
  assert (lift (walls buf) ⇓[a] court (replicate 76 32), a) as Hw by (rewrite walls_spec by done; apply runs_ret).
  pose proof (length_replicate 76 32) as Hl. split.
  - intros n. destruct (rallies_reached fd n 0 (replicate 76 32) a1 Hp Hl) as (a' & Hr & (_ & _ & _ & Hout)).
    exists a'. split; [|by rewrite Hout, Ho]. unfold pingpong_main.
    eapply reaches_bind; [exact Hw|]. eapply reaches_bind; [exact Hopen|]. eapply reaches_bind; [exact Hwrite|]. exact Hr.
  - intros r b Hr. unfold pingpong_main in Hr.
    eapply runs_after in Hr; [|exact Hw]. eapply runs_after in Hr; [|exact Hopen]. eapply runs_after in Hr; [|exact Hwrite].
    by eapply rallies_forever.
Qed.

End Play.

(** The first rally, on a system with a clock. *)
Lemma pingpong_plays_witness :
  (exists a', reaches (os_step no_program) (pingpong_main (replicate 81 0)) (demo_os []) a' /\ output a' = rally_text 65) /\
  (forall r b, ~ runs (os_step no_program) (pingpong_main (replicate 81 0)) (demo_os []) r b).
Proof.
  destruct (pingpong_plays no_program (demo_os []) (replicate 81 0)) as [H1 H2]; [apply demo_table | done | by intros e [= <-] |].
  split; [exact (H1 1%nat) | exact H2].
Defined.
