(* ===== verification/Refinement.v ===== *)
(** * The kernel keeps what it promises

    The system calls of the kernel, on a machine whose user types the lines of a script,
    simulate the operating system of [Unix]: the descriptors are the handles, the image
    is the files, the terminal has seen what the console shows.  What is proved of a
    program against the specification then holds of its run on the kernel. *)

From stdpp Require Import base list option sets.
From Stdlib Require Import ZArith Lia ZifyBool.
From ITree Require Import ITree.
From S2P Require Import Prelude MemOps Lib Ports Rtc Terminal FileSystem Paging Process Schedule FileArray Reading Lifecycle Drivers Linkage.
From S2P Require Import UserLib Syscalls Programs Unix ProgramSpecs.

(** ** The kernel as a handler of system calls *)

(** The kernel, and the lines the user is going to type. *)
Definition machine : Type := kernel * list (list Z).

(** A line typed at the terminal on display. *)
Definition enter_line (l : list Z) (k : kernel) : option kernel :=
  ts ← type_keys l (screen k); ts ← put_char NEW_LINE ts; Some (set_screen ts k).

Section Machine.
Context (L : layout) (dev : log -> Z -> Z) (pit_ret ret_addr : Z) (jk : junk) (regs : user_regs) (buf : Z).

(** A read of the standard input waits until the user has entered a line. *)
Definition k_read (fd n : Z) (w : machine) : option (Z * list Z * machine) :=
  '(k, lines) ← (if (fd =? 0) && (0 <=? n) then
                   match w.2 with [] => None | l :: rest => k ← enter_line l w.1; Some (k, rest) end
                 else Some w);
  '(r, bs, k) ← kread (galapagos_ops L dev) fd buf n k;
  Some (r, bs, (k, lines)).

(** A call that keeps to the kernel. *)
Definition on_kernel {X} (g : kernel -> option (X * kernel)) (w : machine) : option (X * machine) :=
  '(r, k) ← g w.1; Some (r, (k, w.2)).

Definition kernel_step (X : Type) (e : sysE X) : machine -> option (X * machine) :=
  match e with
  | Execute command => on_kernel (fun k =>
      o ← kexecute L pit_ret jk (Some command) 0 0 k; match o with Returns r k => Some (r, k) | Yields _ => None end)
  | Read fd n => k_read fd n
  | Write fd bs n => on_kernel (kwrite (galapagos_ops L dev) fd (Some bs) n)
  | Open name => on_kernel (kopen (galapagos_ops L dev) (Some name))
  | Close fd => on_kernel (kclose (galapagos_ops L dev) fd)
  | Getargs n => on_kernel (fun k => r ← kget_args buf n k; Some (r, k))
  | Vidmap p => on_kernel (fun k =>
      '(r, k) ← kvidmap L p k; bs ← (if r =? ERROR then Some [] else load_user k p 4); Some ((r, bs), k))
  | Set_handler s => on_kernel (fun k => Some (kset_handler s 0, k))
  | Call_sys n => on_kernel (fun k =>
      c ← system_call_linkage L dev pit_ret ret_addr jk (set_eax (u32 n) regs) 0 k;
      match c with (Resumes r k, _) => Some (s32 (r_eax r), k) | (GivesUp _, _) => None end)
  | Store _ _ => fun _ => None
  | Undefined => fun _ => None
  end.

(** Commands of which the first word is no file of the directory are refused. *)
Fixpoint first_word (cs : list Z) : list Z :=
  match cs with
  | [] => []
  | c :: cs' => if (c =? 32) || (c =? 10) then [] else c :: first_word cs'
  end.

Definition refuse (cs : list Z) (a : os) : option (Z * os) :=
  match first_word cs, find_name (o_dir a) (first_word cs) with
  | _ :: _, None => if Z.of_nat (length (first_word cs)) <? 128 then Some (ERROR, a) else None
  | _, _ => None
  end.

(** ** The relation *)

Section Image.
Context (k : kernel).
#[local] Abbreviation m := (image k).
#[local] Abbreviation f := (fsys k).

(** An image whose unused entries have no name and whose files are whole. *)
Record image_ok : Prop := {
  io_dir : dir_ok m f;
  io_unused : forall i, NUM_DIR_ENTRIES m f <= i < 63 -> entry_name m f i = [];
  io_file : forall i, 0 <= i < NUM_DIR_ENTRIES m f -> entry_type m f i = REGULAR_FILE ->
    file_at m f (entry_inode m f i) (get_inode_ptr f (entry_inode m f i)) /\ whole k (get_inode_ptr f (entry_inode m f i)) }.

Definition entry (i : Z) : dir_entry := DirEntry (entry_name m f i) (entry_type m f i) (entry_inode m f i).
Definition entries : list dir_entry := map entry (seqZ 0 (NUM_DIR_ENTRIES m f)).

(** The inode of a regular file of the directory. *)
Definition listed (ino : Z) : Prop :=
  exists i, 0 <= i < NUM_DIR_ENTRIES m f /\ entry_type m f i = REGULAR_FILE /\ entry_inode m f i = ino.

(** The handle a descriptor is. *)
Definition handle_fd (h : handle) (d : file_descriptor) : Prop :=
  match h with
  | HFree => in_use d = false
  | HStdin => d = FileDescriptor (Some std_ops) 0 CLEAR (Z.lor FD_IN_USE STDIN)
  | HStdout => d = FileDescriptor (Some std_ops) 0 CLEAR (Z.lor FD_IN_USE STDOUT)
  | HClock => file_op_table_ptr d = Some rtc_op /\ inode_ptr d = 0 /\ flags d = Z.lor FD_IN_USE RTC
  | HDir => file_op_table_ptr d = Some dir_op /\ inode_ptr d = 0 /\ flags d = Z.lor FD_IN_USE DIRECTORY
  | HFile ino pos => file_op_table_ptr d = Some fs_op /\ flags d = Z.lor FD_IN_USE REGULAR_FILE /\
      inode_ptr d = get_inode_ptr f ino /\ listed ino /\ file_position d = pos /\ 0 <= pos < 2 ^ 32
  end.

Definition fds_match (hs : list handle) (fds : list file_descriptor) : Prop :=
  length hs = 8%nat /\ (forall i h d, hs.[i] = Some h -> fds.[i] = Some d -> handle_fd h d) /\
  (forall i h, hs.[i] = Some h -> 2 <= i -> h <> HStdin /\ h <> HStdout).
End Image.

(** What terminal [t], on video page [v], went through since it was in the state [ts0]. *)
Inductive history (t v : Z) (ts0 : terminals) : list shown_event -> terminals -> Prop :=
  | history_start : history t v ts0 [] ts0
  | history_write es ts bs n r ts' :
      history t v ts0 es ts -> terminal_write t v (Some bs) n ts = Some (r, ts') ->
      history t v ts0 (es ++ [Shown (nonzero (take (Z.to_nat n) bs))]) ts'
  | history_enter es ts l ts1 ts2 n r bs ts3 :
      history t v ts0 es ts -> type_keys l ts = Some ts1 -> put_char NEW_LINE ts1 = Some ts2 ->
      terminal_read t 1 n ts2 = Some (ReadLine r bs ts3) -> history t v ts0 (es ++ [Entered l]) ts3
  | history_ports es ts s : history t v ts0 es ts -> history t v ts0 es (set_io s ts).

Definition typeable (l : list Z) : Prop := Forall (fun c => 32 <= c < 128) l /\ (length l <= 128)%nat.

Definition is_byte (b : Z) : Prop := 0 <= b < 256.

(** The process with its arguments, under its own page directory. *)
Record running (k : kernel) (cs : list Z) : Prop := {
  ru_stack : sp_ok (esp0 (pr k));
  ru_pids : length (pid_arr (pr k)) = 6%nat;
  ru_clock : initialized (clock k) <> 0;
  ru_layout : layout_ok L;
  ru_paging : paging_ok L (pg (pr k));
  ru_args : exists c b, curr_process (pr k) = Some c /\ (pcbs (pr k)).[c] = Some b /\ pid_ok (pid b) /\
    cr3 (pg (pr k)) = pd_addr L (pid b) /\ cstring (args b) cs /\ Forall is_byte cs /\ Z.of_nat (length cs) < 1024 }.

(** The terminal of the process, on display, with nothing typed. *)
Record shows (t v : Z) (ts0 : terminals) (es : list shown_event) (k : kernel) : Prop := {
  sh_term : exists x, at_terminal L k t v x /\ line x = [];
  sh_curr : curr_terminal (screen k) = t;
  sh_history : history t v ts0 es (screen k) }.

Record implements (t v : Z) (ts0 : terminals) (a : os) (w : machine) : Prop := {
  im_image : image_ok w.1;
  im_dir : o_dir a = entries w.1;
  im_data : forall ino, listed w.1 ino -> o_data a ino = file_content (image w.1) (fsys w.1) (get_inode_ptr (fsys w.1) ino);
  im_next : curr_file_number (fsys w.1) = o_next a;
  im_range : 0 <= o_next a <= NUM_DIR_ENTRIES (image w.1) (fsys w.1);
  im_table : table_ok a;
  im_fds : exists fds, desc_is (pr w.1) fds /\ fds_match w.1 (o_fds a) fds;
  im_running : running w.1 (o_args a);
  im_lines : o_lines a = w.2;
  im_typed : Forall typeable (o_lines a);
  im_shows : shows t v ts0 (o_console a) w.1 }.

(** ** Names, descriptors, inodes *)

Lemma find_map {A B} (g : A -> B) (P : B -> bool) l : find P (map g l) = g <$> find (fun x => P (g x)) l.
Proof. induction l as [|x l IH]; [done|]. cbn. destruct (P (g x)); [done | exact IH]. Qed.

Lemma find_name_lookup k cs :
  image_ok k -> cs <> [] -> find_name (entries k) cs = entry k <$> lookup_name (image k) (fsys k) cs.
Proof.
  intros [Hdir Hun _] Hne. unfold find_name, entries, lookup_name. rewrite find_map. f_equal. cbn [e_name entry].
  pose proof (do_entries _ _ Hdir) as Hn. set (N := NUM_DIR_ENTRIES (image k) (fsys k)) in *.
  replace 63 with (N + (63 - N)) by lia. rewrite seqZ_app, find_app by lia. destruct (find _ _) as [j|]; [done|].
  pose proof (find_seqZ (fun j => bool_decide (entry_name (image k) (fsys k) j = take 32 cs)) (0 + N) (63 - N)) as H.
  destruct (find _ _) as [j|]; [|done]. destruct H as (Hj & E%bool_decide_eq_true & _).
  rewrite Hun in E by lia. by destruct cs.
Qed.

Lemma listed_file k ino : image_ok k -> listed k ino ->
  file_at (image k) (fsys k) ino (get_inode_ptr (fsys k) ino) /\ whole k (get_inode_ptr (fsys k) ino).
Proof. intros Hi (i & Hr & Ht & <-). by apply (io_file k Hi). Qed.

Lemma listed_ptr k ino : image_ok k -> listed k ino -> get_inode_ptr (fsys k) ino <> 0.
Proof. intros Hi Hl. destruct (listed_file k ino Hi Hl) as [Hf _]. by apply file_at_ptr in Hf as (_ & H & _). Qed.

Lemma listed_inj k i j : image_ok k -> listed k i -> listed k j -> get_inode_ptr (fsys k) i = get_inode_ptr (fsys k) j -> i = j.
Proof.
  intros Hi H1 H2 E. destruct (listed_file k i Hi H1) as [F1 _], (listed_file k j Hi H2) as [F2 _].
  apply file_at_ptr in F1 as (_ & _ & <-). apply file_at_ptr in F2 as (_ & _ & <-). by rewrite E.
Qed.

Lemma handle_in_use k h d : handle_fd k h d -> in_use d = negb (is_free h).
Proof.
  unfold in_use. destruct h; cbn; [unfold in_use; lia | by intros -> | by intros -> | intros (_ & _ & ->) | intros (_ & _ & ->) | intros (_ & -> & _)]; done.
Qed.

Lemma free_handle_lowest k hs fds : Z.of_nat (length fds) = 8 -> fds_match k hs fds -> free_handle hs = lowest_free fds.
Proof.
  intros Hl (H8 & Hm & _). unfold free_handle, lowest_free, fd_slots. apply find_ext_in. intros i Hi%elem_of_seqZ.
  destruct (zget_ex hs i) as [h Hh]; [lia|]. destruct (zget_ex fds i) as [d Hd]; [lia|].
  unfold free_slot. rewrite Hh, Hd. rewrite (handle_in_use k h d) by by apply (Hm i). by destruct (is_free h).
Qed.

(** The descriptor of a new file is its handle. *)
Lemma new_handle_fd k j :
  image_ok k -> 0 <= j < NUM_DIR_ENTRIES (image k) (fsys k) ->
  match new_handle (entry k j), new_fd (fsys k) (load_dentry (image k) (entry_addr (fsys k) j)) with
  | Some h, Some d => handle_fd k h d /\ h <> HStdin /\ h <> HStdout
  | None, None => True
  | _, _ => False
  end.
Proof.
  intros Hi Hj. unfold new_handle, new_fd. cbn [e_type entry e_ino].
  change (file_type (load_dentry (image k) (entry_addr (fsys k) j))) with (entry_type (image k) (fsys k) j).
  change (inode_num (load_dentry (image k) (entry_addr (fsys k) j))) with (entry_inode (image k) (fsys k) j).
  unfold RTC, DIRECTORY, REGULAR_FILE. destruct (entry_type (image k) (fsys k) j) as [|[|[] |]|] eqn:Et; try done.
  cbn [Z.eqb Pos.eqb]. split; [|done]. cbn. assert (listed k (entry_inode (image k) (fsys k) j)) as Hl by (exists j; done).
  destruct (listed_file _ _ Hi Hl) as [[] _]. unfold INODE_SIZE in *. rewrite s32_small by lia. split_and!; done || lia.
Qed.

Lemma fds_match_set k hs fds i h d fds' :
  fds_match k hs fds -> handle_fd k h d -> h <> HStdin /\ h <> HStdout -> 0 <= i < 8 -> fds.[i <- d] = Some fds' -> fds_match k (<[Z.to_nat i := h]> hs) fds'.
Proof.
  intros (H8 & Hm & Hs) Hh Hst Hi E. rewrite <- (Nat2Z.id (length hs)) in H8.
  assert (forall j h', (<[Z.to_nat i := h]> hs).[j] = Some h' -> if j =? i then h' = h else hs.[j] = Some h') as Hget.
  { intros j h' Ej. pose proof (zget_Some_range _ _ _ Ej) as Hj. rewrite zget_lookup in Ej by lia.
    destruct (Z.eqb_spec j i) as [->|Hne].
    - rewrite list_lookup_insert_eq in Ej by lia. by injection Ej as <-.
    - rewrite list_lookup_insert_ne in Ej by lia. by rewrite zget_lookup by lia. }
  split_and!; [rewrite length_insert; lia | |].
  - intros j h' d' Ej%Hget Ed. rewrite (zget_zset _ _ _ _ _ E) in Ed. destruct (j =? i); [by simplify_eq | by apply (Hm j)].
  - intros j h' Ej%Hget H2. destruct (j =? i); [by subst | by apply (Hs j)].
Qed.

(** Reading moves descriptors as it moves handles. *)
Lemma fds_match_bump k hs fds ino n :
  image_ok k -> listed k ino -> fds_match k hs fds -> hs.[0] = Some HStdin -> hs.[1] = Some HStdout ->
  fds_match k (advance ino n hs) (bump (get_inode_ptr (fsys k) ino) n fds).
Proof.
  intros Hi Hl (H8 & Hm & Hs) H0 H1. split_and!; [unfold advance; by rewrite length_map | |].
  2:{ intros j h Ej Hj. rewrite advance_get in Ej. destruct (hs.[j]) as [h0|] eqn:Eh; [|done]. injection Ej as <-.
      destruct (Hs j h0 Eh Hj). destruct h0; try done. by case_if. }
  intros j h d Ej Ed.
  rewrite advance_get in Ej. rewrite bump_get in Ed.
  destruct (hs.[j]) as [h0|] eqn:Eh; [|done]. destruct (fds.[j]) as [d0|] eqn:Ed0; [|done].
  injection Ej as <-. injection Ed as <-. pose proof (Hm j h0 d0 Eh Ed0) as Hh. pose proof (listed_ptr k ino Hi Hl) as Hp.
  pose proof (zget_Some_range _ _ _ Eh) as Hr.
  destruct h0 as [| | | | |i p]; cbn [handle_fd] in *.
  - destruct ((2 <=? j) && _); [|done]. by destruct d0.
  - subst d0. cbn [inode_ptr]. by bfalse (0 =? get_inode_ptr (fsys k) ino); rewrite andb_false_r.
  - subst d0. cbn [inode_ptr]. by bfalse (0 =? get_inode_ptr (fsys k) ino); rewrite andb_false_r.
  - destruct Hh as (Ho & Hz & Hf). rewrite Hz. bfalse (0 =? get_inode_ptr (fsys k) ino). by rewrite andb_false_r.
  - destruct Hh as (Ho & Hz & Hf). rewrite Hz. bfalse (0 =? get_inode_ptr (fsys k) ino). by rewrite andb_false_r.
  - destruct Hh as (Ho & Hf & Hptr & Hli & Hpos & Hrange). rewrite Hptr.
    assert (2 <= j) as Hj. { destruct (decide (j = 0)) as [->|]; [congruence|]. destruct (decide (j = 1)) as [->|]; [congruence | lia]. }
    btrue (2 <=? j). cbn [andb].
    destruct (Z.eqb_spec i ino) as [->|Hne].
    + rewrite Z.eqb_refl. cbn. rewrite Hpos. split_and!; try done; apply u32_range.
    + rewrite (proj2 (Z.eqb_neq _ _)) by (intros E; by apply Hne, (listed_inj k)). cbn. done.
Qed.

Lemma load_bytes_store32 m a v : 0 <= a -> a + 4 <= 2 ^ 32 -> load_bytes (store32 m a v) a 4 = le_bytes v.
Proof.
  intros Ha Hb. unfold load_bytes, le_bytes. change (seqZ 0 (Z.of_nat 4)) with [0; 1; 2; 3]. change (seqZ 0 4) with [0; 1; 2; 3]. cbn [map].
  unfold store32, store16, store8. rewrite !Z.add_0_r. addresses.
  repeat match goal with |- context [?x =? ?y] => first [bfalse (x =? y) | btrue (x =? y)] end.
  change 0xFF with (Z.ones 8). rewrite !Z.land_ones by lia. rewrite !Z.shiftr_shiftr by lia. reflexivity.
Qed.

(** ** What the steps of the kernel keep *)

Section Simulation.
Context (t v : Z) (ts0 : terminals) (Hbuf : buf <> 0) (Hregs : forall n, regs_ok (set_eax (u32 n) regs)) (Hjk : (129 <= length (cmd_junk jk))%nat).

Lemma only_fds_pcb k k' fds' i b :
  only_fds k k' fds' -> (pcbs (pr k)).[i] = Some b ->
  exists b', (pcbs (pr k')).[i] = Some b' /\ args b' = args b /\ pid b' = pid b /\ terminal b' = terminal b.
Proof.
  intros (_ & _ & _ & _ & _ & _ & _ & _ & _ & _ & _ & _ & _ & _ & _ & Hp) Hb. rewrite Hp, Hb. destruct (decide _); by eexists.
Qed.

Lemma running_fds k k' fds' cs : only_fds k k' fds' -> running k cs -> running k' cs.
Proof.
  intros Ho [H1 H2 H3 H4 H5 (c & b & Hc & Hb & Hp & Hcr & Ha)]. destruct (only_fds_pcb k k' fds' c b Ho Hb) as (b' & Hb' & Ea & Ep & _).
  assert (pg (pr k') = pg (pr k)) as Hpg by apply Ho.
  destruct Ho as (_ & _ & _ & _ & _ & _ & Hck & _ & Hcur & Hpa & _ & _ & _ & Hsp & _).
  split; rewrite ?Hsp, ?Hpa, ?Hck, ?Hpg; try done. exists c, b'. rewrite Hcur, Ea, Ep. done.
Qed.

Lemma shows_fds k k' fds' es : only_fds k k' fds' -> shows t v ts0 es k -> shows t v ts0 es k'.
Proof.
  intros Ho [(x & [Ht Hs Hx Hv Hp] & Hl) Hc Hh].
  assert (screen k' = screen k) as Hscr by apply Ho. assert (pg (pr k') = pg (pr k)) as Hpg by apply Ho.
  assert (curr_process (pr k') = curr_process (pr k)) as Hcur by apply Ho.
  split; rewrite ?Hscr; try done. exists x. split; [|done]. split; rewrite ?Hscr; try done.
  - unfold get_curr_process_terminal in *. rewrite Hcur. destruct (curr_process (pr k)) as [c|]; [|done].
    destruct ((pcbs (pr k)).[c]) as [b|] eqn:Hb; [|done]. destruct (only_fds_pcb k k' fds' c b Ho Hb) as (b' & -> & _ & _ & E).
    cbn in *. congruence.
  - unfold video_page in *. by rewrite Hpg.
Qed.

(** The file system is a function of the image and the fixed part of [fs]. *)
Definition same_image (k k' : kernel) : Prop :=
  image k' = image k /\ boot_block (fsys k') = boot_block (fsys k) /\ inodes (fsys k') = inodes (fsys k) /\ data (fsys k') = data (fsys k).

Lemma same_image_eqs k k' : same_image k k' ->
  NUM_DIR_ENTRIES (image k') (fsys k') = NUM_DIR_ENTRIES (image k) (fsys k) /\
  NUM_DATA_BLOCKS (image k') (fsys k') = NUM_DATA_BLOCKS (image k) (fsys k) /\
  (forall i, entry_name (image k') (fsys k') i = entry_name (image k) (fsys k) i) /\
  (forall i, entry_type (image k') (fsys k') i = entry_type (image k) (fsys k) i) /\
  (forall i, entry_inode (image k') (fsys k') i = entry_inode (image k) (fsys k) i) /\
  (forall n, get_inode_ptr (fsys k') n = get_inode_ptr (fsys k) n) /\
  (forall p, file_content (image k') (fsys k') p = file_content (image k) (fsys k) p).
Proof.
  intros (E1 & E2 & E3 & E4). unfold entry_name, entry_type, entry_inode, NUM_DIR_ENTRIES, NUM_DATA_BLOCKS, get_inode_ptr, file_content, file_byte, entry_addr.
  rewrite E1, E2, E3, E4. done.
Qed.

Lemma same_image_ok k k' : same_image k k' -> image_ok k -> image_ok k'.
Proof.
  intros Hs [[B1 B2 B3 B4 B5 B6 B7] H2 H3]. pose proof Hs as (E1 & E2 & E3 & E4).
  destruct (same_image_eqs k k' Hs) as (Q1 & Q2 & Q3 & Q4 & Q5 & Q6 & _). split.
  - split; [by rewrite E1 | unfold boot_ok; by rewrite E2 | by rewrite Q1 | by rewrite Q2
      | intros i; rewrite Q1, Q4; apply B5 | intros i; rewrite Q1, Q3; apply B6 | intros i j; rewrite Q1, !Q3; apply B7].
  - intros i. rewrite Q1, Q3. apply H2.
  - intros i. rewrite Q1, Q4, Q5, Q6. intros Hi Ht. destruct (H3 i Hi Ht) as [[F1 F2 F3 F4 (j & F5 & F6)] [W1 W2]]. split.
    + split; rewrite ?Q6, ?E3; try done. exists j. by rewrite Q1, Q5.
    + split; [by rewrite E1|]. intros x Hx. rewrite E1 in Hx. specialize (W2 x Hx). unfold block_ok in *. by rewrite Q2, E1.
Qed.

Lemma same_image_listed k k' ino : same_image k k' -> listed k ino <-> listed k' ino.
Proof.
  intros Hs. destruct (same_image_eqs k k' Hs) as (Q1 & _ & _ & Q4 & Q5 & _). unfold listed.
  split; intros (i & H); exists i; rewrite Q1, Q4, Q5 in *; exact H.
Qed.

Lemma same_image_match k k' hs fds : same_image k k' -> fds_match k hs fds -> fds_match k' hs fds.
Proof.
  intros Hs (H8 & Hm & Hst). split_and!; [exact H8 | | exact Hst]. intros i h d Hh Hd. specialize (Hm i h d Hh Hd).
  destruct (same_image_eqs k k' Hs) as (_ & _ & _ & _ & _ & Q6 & _).
  destruct h as [| | | | |n p]; cbn [handle_fd] in *; try exact Hm. rewrite Q6, <- (same_image_listed k k' n Hs). exact Hm.
Qed.

Lemma implements_move a a' k k' ls :
  implements t v ts0 a (k, ls) -> same_image k k' ->
  o_dir a' = o_dir a -> o_data a' = o_data a -> o_args a' = o_args a -> o_lines a' = o_lines a ->
  curr_file_number (fsys k') = o_next a' -> 0 <= o_next a' <= NUM_DIR_ENTRIES (image k) (fsys k) -> table_ok a' ->
  (exists fds, desc_is (pr k') fds /\ fds_match k (o_fds a') fds) -> running k' (o_args a) ->
  shows t v ts0 (o_console a') k' -> implements t v ts0 a' (k', ls).
Proof.
  intros [I1 I2 I3 I4 I5 I6 I7 I8 I9 I10 I11] Hs Ed Eo Ea El Hn Hr Ht (fds & Hf1 & Hf2) Hru Hsh. cbn [fst snd] in *.
  destruct (same_image_eqs k k' Hs) as (Q1 & _ & Q3 & Q4 & Q5 & Q6 & Q7).
  split; cbn [fst snd]; rewrite ?Ed, ?Eo, ?Ea, ?El, ?Q1; [by apply (same_image_ok k) | | | exact Hn | exact Hr | exact Ht | | exact Hru | exact I9 | exact I10 | exact Hsh].
  - rewrite I2. unfold entries. rewrite Q1. apply map_ext. intros i. unfold entry. by rewrite Q3, Q4, Q5.
  - intros ino Hl. rewrite Q6, Q7. apply I3. by rewrite (same_image_listed k k').
  - exists fds. split; [exact Hf1 | by apply (same_image_match k)].
Qed.

(** A change of the descriptors. *)
Lemma implements_fds a k k' ls hs fds' :
  implements t v ts0 a (k, ls) -> only_fds k k' fds' -> fds_match k hs fds' -> table_ok (set_fds hs a) ->
  implements t v ts0 (set_fds hs a) (k', ls).
Proof.
  intros Hi Ho Hm Ht. pose proof Ho as (Hd & _ & Hfs & Him & _).
  apply (implements_move a _ k); [exact Hi | unfold same_image; by rewrite Him, Hfs | reflexivity | reflexivity | reflexivity | reflexivity
    | rewrite Hfs; apply (im_next _ _ _ _ _ Hi) | apply (im_range _ _ _ _ _ Hi) | exact Ht | exists fds'; split; [exact Hd | exact Hm]
    | apply (running_fds k k' fds' _ Ho), (im_running _ _ _ _ _ Hi) | apply (shows_fds k k' fds' _ Ho), (im_shows _ _ _ _ _ Hi)].
Qed.

(** A change of the position in the directory. *)
Lemma implements_next a k ls n f' :
  implements t v ts0 a (k, ls) -> boot_block f' = boot_block (fsys k) -> inodes f' = inodes (fsys k) -> data f' = data (fsys k) ->
  curr_file_number f' = n -> 0 <= n <= NUM_DIR_ENTRIES (image k) (fsys k) ->
  implements t v ts0 (set_next n a) (set_fsys f' k, ls).
Proof.
  intros Hi E1 E2 E3 E4 Hn.
  apply (implements_move a _ k); [exact Hi | split_and!; [reflexivity | exact E1 | exact E2 | exact E3] | reflexivity | reflexivity
    | reflexivity | reflexivity | exact E4 | exact Hn | apply (im_table _ _ _ _ _ Hi) | apply (im_fds _ _ _ _ _ Hi) | |].
  - destruct (im_running _ _ _ _ _ Hi). by split.
  - destruct (im_shows _ _ _ _ _ Hi) as [(x & [] & ?) ? ?]. split; [|assumption..]. exists x. split; [by split | assumption].
Qed.

(** A change of the terminals or of the clock. *)
Lemma implements_screen a k ls ts c es lines :
  implements t v ts0 a (k, ls) -> initialized c <> 0 -> shows t v ts0 es (set_screen ts k) ->
  Forall typeable lines ->
  implements t v ts0 (Os (o_dir a) (o_data a) (o_args a) (o_fds a) (o_next a) es lines) (set_screen ts (set_clock c k), lines).
Proof.
  intros [[Hd1 Hd2 Hd3] Hdir Hdata Hnext Hrange Ht Hf [] Hl Hty _] Hc [(x & [] & ?) ? ?] Hlines. split; cbn [fst snd] in *; try done.
  - split; [done | done |]. intros i Hi Hy. destruct (Hd3 i Hi Hy) as [H1 [H2 H3]]. done.
  - split; try done. by exists x.
Qed.

(** ** The calls *)

#[local] Abbreviation simulated X e a k ls r a' :=
  (exists w, kernel_step X e (k, ls) = Some (r, w) /\ implements t v ts0 a' w) (only parsing).

Lemma table_insert a i h : table_ok a -> 2 <= i < 8 -> table_ok (set_fds (<[Z.to_nat i := h]> (o_fds a)) a).
Proof. intros Ht Hi. by apply with_handle_ok. Qed.

Lemma string_in_cstring l cs : string_in l = Some cs -> cstring l cs.
Proof.
  revert cs. induction l as [|c l IH]; intros cs E; [done|]. cbn in E. destruct (Z.eqb_spec c 0) as [->|Hc].
  - injection E as <-. by exists l.
  - apply bind_Some in E as (cs' & E & [= <-]). destruct (IH cs' E) as (rest & -> & Hnz). exists rest. split; [done | by constructor].
Qed.

Lemma step_open a k ls name r a' :
  implements t v ts0 a (k, ls) -> os_open name a = Some (r, a') -> simulated Z (Open name) a k ls r a'.
Proof.
  intros Hi E. pose proof Hi as [I1 I2 _ _ _ I6 (fds & Hd & Hm) [_ _ Hck _ _ _] _ _ _]. cbn [fst snd] in *.
  cbn [kernel_step]. unfold on_kernel. cbn [fst snd].
  unfold os_open in E. apply bind_Some in E as (cs & Ecs%string_in_cstring & E). destruct (MAX_NAME <? _); [done|].
  rewrite (free_handle_lowest k _ fds) in E by (done || apply Hd). rewrite I2 in E.
  destruct cs as [|c cs].
  - assert (kopen (galapagos_ops L dev) (Some name) k = Some (ERROR, k)) as ->.
    { unfold kopen. rewrite (di_get _ _ Hd), some_bind. rewrite free_fd_spec by (destruct Hd; unfold FD_START, FILE_ARRAY_SIZE; lia). rewrite some_bind.
      case_if; [done|]. destruct Ecs as (rest & -> & _). reflexivity. }
    assert (Some (ERROR, a) = Some (r, a')) as [= <- <-] by by destruct (lowest_free fds). eauto.
  - pose proof (kopen_spec (galapagos_ops L dev) k fds name (c :: cs) _ Hck Hd (do_boot _ _ (io_dir k I1)) Ecs) as Hk.
    rewrite (find_name_lookup k) in E by done.
    destruct (lowest_free fds) as [i|] eqn:Ei; [|rewrite Hk by done; injection E as <- <-; eauto].
    apply lowest_free_range in Ei as [Hir _].
    destruct (lookup_name (image k) (fsys k) (c :: cs)) as [j|] eqn:Ej; [|rewrite Hk by done; injection E as <- <-; eauto].
    cbn [fmap option_fmap option_map] in E.
    assert (0 <= j < NUM_DIR_ENTRIES (image k) (fsys k)) as Hj.
    { unfold lookup_name in Ej. pose proof (find_seqZ (fun i => bool_decide (entry_name (image k) (fsys k) i = take 32 (c :: cs))) 0 63) as H.
      rewrite Ej in H. destruct H as (Hj & En%bool_decide_eq_true & _). destruct (Z.lt_ge_cases j (NUM_DIR_ENTRIES (image k) (fsys k))) as [|Hge]; [lia|].
      rewrite (io_unused k I1) in En by lia. done. }
    pose proof (new_handle_fd k j I1 Hj) as Hn.
    destruct (new_handle (entry k j)) as [h|], (new_fd _ _) as [d|]; try done; [|rewrite Hk by done; injection E as <- <-; eauto].
    destruct Hk as (fds' & k' & -> & Ef & Ho); [done|]. rewrite zset_in in E by (destruct Hm; lia). injection E as <- <-.
    eexists. split; [reflexivity|]. apply (implements_fds a k k' ls _ fds'); [exact Hi | exact Ho | | by apply table_insert].
    apply (fds_match_set k (o_fds a) fds i h d); [exact Hm | apply Hn | apply Hn | lia | exact Ef].
Qed.

Lemma handle_ops k h d : handle_fd k h d -> h <> HFree -> exists o, file_op_table_ptr d = Some o /\
  (h <> HStdin -> h <> HStdout -> o <> std_ops).
Proof. destruct h; cbn; intros H; try done; [subst d|subst d|destruct H as (H & _)..]; by eexists. Qed.

Lemma kclose_result k fds fd d o r k' :
  desc_is (pr k) fds -> fds.[fd] = Some d -> file_op_table_ptr d = Some o -> o <> std_ops ->
  kclose (galapagos_ops L dev) fd k = Some (r, k') -> 2 <= fd < 8 -> in_use d = true -> r = 0.
Proof.
  intros [Hg _] Hd Ho Hos E Hfd Hu. unfold kclose, FD_START, FILE_ARRAY_SIZE in E. rewrite Hg, some_bind in E.
  rewrite (proj2 (orb_false_iff _ _)), Hd, some_bind, Hu, Ho, some_bind in E by lia. cbn [negb] in E.
  apply bind_Some in E as (f' & _ & E). apply bind_Some in E as (p' & _ & E). destruct o; [done | by injection E as <- <-..].
Qed.

Lemma step_close a k ls fd r a' :
  implements t v ts0 a (k, ls) -> os_close fd a = Some (r, a') -> simulated Z (Close fd) a k ls r a'.
Proof.
  intros Hi E. pose proof Hi as [_ _ _ _ _ I6 (fds & Hd & Hm) _ _ _ _]. cbn [fst snd] in *.
  cbn [kernel_step]. unfold on_kernel. cbn [fst snd]. unfold os_close in E.
  destruct ((fd <? 2) || (8 <=? fd)) eqn:Er.
  - destruct (int32 fd); [|done]. injection E as <- <-. unfold kclose, FD_START, FILE_ARRAY_SIZE. rewrite (di_get _ _ Hd), some_bind, Er. eauto.
  - apply bind_Some in E as (h & Eh & E). destruct (zget_ex fds fd) as [d Ed]; [destruct Hd; lia|].
    pose proof (proj1 (proj2 Hm) fd h d Eh Ed) as Hh. pose proof (handle_in_use k h d Hh) as Hu. destruct (is_free h) eqn:Efr.
    + injection E as <- <-. unfold kclose, FD_START, FILE_ARRAY_SIZE. rewrite (di_get _ _ Hd), some_bind, Er, Ed, some_bind, Hu. eauto.
    + destruct (handle_ops k h d Hh) as (o & Ho & Hstd); [by destruct h|].
      assert (o <> std_ops) as Hos by (destruct (proj2 (proj2 Hm) fd h Eh); [lia | auto]).
      destruct (kclose_spec (galapagos_ops L dev) k fds fd d _ Hd) as (r0 & fds' & k' & E' & Ef & Hof); [lia | done | done | by eexists |].
      assert (r0 = 0) as -> by (apply (kclose_result _ _ _ _ _ _ _ Hd Ed Ho Hos E'); [lia | done]).
      rewrite zset_in in E by (destruct Hm; lia). injection E as <- <-. rewrite E'.
      eexists. split; [reflexivity|]. apply (implements_fds a k k' ls _ fds'); [exact Hi | exact Hof | | apply table_insert; [done | lia]].
      apply (fds_match_set k (o_fds a) fds fd HFree (closed d)); [exact Hm | done | done | lia | exact Ef].
Qed.

(** Whether the tests of [kwrite] and [kread] let a descriptor pass. *)
Definition may_write (h : handle) : bool := match h with HFree | HStdin => false | _ => true end.
Definition may_read (h : handle) : bool := match h with HFree | HStdout => false | _ => true end.

Lemma kwrite_open k fds fd h d bs n :
  desc_is (pr k) fds -> fds.[fd] = Some d -> handle_fd k h d -> 0 <= fd < 8 -> 0 <= n ->
  kwrite (galapagos_ops L dev) fd (Some bs) n k =
  if may_write h then o ← file_op_table_ptr d; op_write (galapagos_ops L dev o) fd bs n k else Some (ERROR, k).
Proof.
  intros [Hg _] Hd Hh Hfd Hn. unfold kwrite, FILE_ARRAY_SIZE. rewrite Hg, some_bind. bfalse ((fd <? 0) || (8 <=? fd) || (n <? 0)).
  rewrite Hd, some_bind. unfold in_use, has_type.
  destruct h; cbn [handle_fd] in Hh; [unfold in_use in Hh; by rewrite Hh | by subst d | by subst d | destruct Hh as (_ & _ & ->)
    | destruct Hh as (_ & _ & ->) | destruct Hh as (_ & -> & _)]; reflexivity.
Qed.

Lemma kread_open k fds fd h d n :
  desc_is (pr k) fds -> fds.[fd] = Some d -> handle_fd k h d -> 0 <= fd < 8 -> 0 <= n ->
  kread (galapagos_ops L dev) fd buf n k =
  if may_read h then o ← file_op_table_ptr d; op_read (galapagos_ops L dev o) (inode_ptr d) (file_position d) n k else Some (ERROR, [], k).
Proof.
  intros [Hg _] Hd Hh Hfd Hn. unfold kread, FILE_ARRAY_SIZE. rewrite Hg, some_bind. bfalse ((fd <? 0) || (8 <=? fd) || (buf =? 0) || (n <? 0)).
  rewrite Hd, some_bind. unfold in_use, has_type.
  destruct h; cbn [handle_fd] in Hh; [unfold in_use in Hh; by rewrite Hh | by subst d | by subst d | destruct Hh as (_ & _ & ->)
    | destruct Hh as (_ & _ & ->) | destruct Hh as (_ & -> & _)]; reflexivity.
Qed.

(** The terminal after a write. *)
Lemma write_shows es k bs n :
  shows t v ts0 es k -> 0 <= n <= Z.of_nat (length bs) ->
  exists ts, terminal_write t v (Some bs) n (screen k) = Some (Z.of_nat (length (nonzero (take (Z.to_nat n) bs))), ts) /\
    shows t v ts0 (es ++ [Shown (nonzero (take (Z.to_nat n) bs))]) (set_screen ts k).
Proof.
  intros [(x & [Ht Hs Hx Hv Hp] & _) Hc Hh] Hn.
  destruct (terminal_write_spec t v bs n (screen k) x Hs Hx Hp Hn) as (ts & x' & E & Hok & _ & _ & Hx' & Hl & _).
  exists ts. split; [exact E|]. pose proof (terminal_write_shown _ _ _ _ _ _ _ E) as [Hcur _]. split; cbn [screen set_screen].
  - exists x'. split; [by split | exact Hl].
  - congruence.
  - by eapply history_write.
Qed.

(** The terminal after the ports were used. *)
Lemma ports_shows es k s : shows t v ts0 es k -> shows t v ts0 es (set_screen (set_io s (screen k)) k).
Proof.
  intros [(x & [Ht [] Hx Hv Hp] & Hl) Hc Hh]. split; [|exact Hc | by apply history_ports].
  exists x. split; [|exact Hl]. by split.
Qed.

Lemma os_eta a : Os (o_dir a) (o_data a) (o_args a) (o_fds a) (o_next a) (o_console a) (o_lines a) = a.
Proof. by destruct a. Qed.

Lemma implements_ports a k ls c s :
  implements t v ts0 a (k, ls) -> initialized c <> 0 -> implements t v ts0 a (set_rtc c s k, ls).
Proof.
  intros Hi Hc. pose proof (im_lines _ _ _ _ _ Hi) as Hl. cbn [snd] in Hl. subst ls. rewrite <- (os_eta a) at 1.
  apply (implements_screen a k (o_lines a)); [exact Hi | exact Hc | apply ports_shows, (im_shows _ _ _ _ _ Hi) | apply (im_typed _ _ _ _ _ Hi)].
Qed.

Lemma step_write a k ls fd bs n r a' :
  implements t v ts0 a (k, ls) -> os_write fd bs n a = Some (r, a') -> simulated Z (Write fd bs n) a k ls r a'.
Proof.
  intros Hi E. pose proof Hi as [_ _ _ _ _ _ (fds & Hd & Hm) Hru Hl Hty Hsh]. cbn [fst snd] in *.
  cbn [kernel_step]. unfold on_kernel. cbn [fst snd]. unfold os_write in E.
  destruct ((fd <? 0) || (8 <=? fd) || (n <? 0)) eqn:Er.
  { destruct (_ && _) in E; [|done]. injection E as <- <-. unfold kwrite, FILE_ARRAY_SIZE. rewrite (di_get _ _ Hd), some_bind, Er. eauto. }
  destruct (MAX_BUFFER <? n); [done|]. apply bind_Some in E as (h & Eh & E). destruct (zget_ex fds fd) as [d Ed]; [destruct Hd; lia|].
  pose proof (proj1 (proj2 Hm) fd h d Eh Ed) as Hh. rewrite (kwrite_open k fds fd h d) by (done || lia).
  destruct h; cbn [may_write handle_fd] in *.
  - injection E as <- <-. eauto.
  - injection E as <- <-. eauto.
  - destruct (Z.of_nat (length bs) <? n) eqn:En; [done|]. injection E as <- <-. subst d. cbn [file_op_table_ptr]. rewrite some_bind.
    cbn [op_write galapagos_ops std_driver].
    destruct (write_shows (o_console a) k bs n Hsh) as (ts & Ew & Hsh'); [lia|].
    destruct (sh_term _ _ _ _ _ Hsh) as (x & [Ht _ _ Hv _] & _). rewrite Ht, some_bind, Hv, some_bind, Ew, some_bind.
    eexists. split; [reflexivity|].
    pose proof (implements_screen a k ls ts (clock k) _ ls Hi (ru_clock _ _ Hru) Hsh') as H. rewrite <- Hl in H at 1 2.
    rewrite Hl in H. replace (set_clock (clock k) k) with k in H by by destruct k. unfold say. rewrite Hl in *. by apply H.
  - destruct Hh as (-> & _ & _). rewrite some_bind. cbn [op_write galapagos_ops rtc_driver].
    destruct bs as [|b0 [|b1 [|b2 [|b3 bs]]]]; try done. injection E as <- <-.
    destruct (rtc_write dev _ _ _) as [ret s] eqn:Ew. rewrite some_bind. eexists. split.
    + rewrite <- (rtc_write_ret dev _ (clock k) (pio (screen k))), Ew. reflexivity.
    + apply implements_ports; [done | apply (ru_clock _ _ Hru)].
  - destruct Hh as (-> & _). injection E as <- <-. cbn. eauto.
  - destruct Hh as (-> & _). injection E as <- <-. cbn. eauto.
Qed.

(** The terminal after a line was typed and read. *)
Lemma enter_shows es k l n :
  shows t v ts0 es k -> typeable l -> 0 <= n ->
  let bs := take (Z.to_nat n) (l ++ [10]) in
  exists k1 ts3, enter_line l k = Some k1 /\ k1 = set_screen (screen k1) k /\
    terminal_read t 1 n (screen k1) = Some (ReadLine (Z.of_nat (length bs)) bs ts3) /\
    shows t v ts0 (es ++ [Entered l]) (set_screen ts3 k).
Proof.
  intros [(x & [Ht Hs Hx Hv Hp] & Hl) Hc Hh] [Hty Hlen] Hn bs.
  destruct (typed_line_spec l (screen k) x 1 n) as (ts1 & ts2 & ts3 & x3 & E1 & E2 & E3 & Hok & Hx3 & _ & Hl3 & Hc3); try done.
  - eapply Forall_impl; [exact Hty|]. intros c H. cbn beta in H. unfold plain_key, TAB, NEW_LINE. lia.
  - eapply Forall_impl; [exact Hty|]. intros c H. cbn beta in H. lia.
  - by rewrite Hc.
  - rewrite edit_types in E3 by (done || cbn; lia). cbn [app] in E3. rewrite Hc in E3, Hx3, Hc3.
    exists (set_screen ts2 k), ts3. unfold enter_line. rewrite E1, some_bind, E2, some_bind. split_and!; [done | done | exact E3|].
    split; [|exact Hc3 | by eapply history_enter]. exists x3. split; [by split | exact Hl3].
Qed.

Lemma step_read_stdin a k ls fd n r a' :
  implements t v ts0 a (k, ls) -> os_read fd n a = Some (r, a') -> 0 <= n -> (o_fds a).[fd] = Some HStdin ->
  simulated _ (Read fd n) a k ls r a'.
Proof.
  intros Hi E Hn Hh. pose proof Hi as [_ _ _ _ _ (_ & H0 & H1) (fds & Hd & Hm) Hru Hl Hty Hsh]. cbn [fst snd] in *.
  assert (fd = 0) as ->.
  { pose proof (zget_Some_range _ _ _ Hh). destruct (decide (fd = 0)); [done|]. destruct (decide (fd = 1)) as [->|]; [congruence|].
    destruct (proj2 (proj2 Hm) fd _ Hh); [lia | done]. }
  unfold os_read in E. rewrite (proj2 (orb_false_iff _ _)) in E by (rewrite orb_false_iff; lia).
  destruct (MAX_BUFFER <? n) eqn:Emax; [done|]. unfold MAX_BUFFER in Emax. rewrite Hh, some_bind in E.
  destruct (o_lines a) as [|l rest] eqn:El; [done|]. injection E as <- <-. rewrite <- Hl in *.
  inversion Hty as [|? ? Hl1 Hrest]; subst.
  destruct (enter_shows _ k l n Hsh Hl1 Hn) as (k1 & ts3 & E1 & Ek1 & E3 & Hsh').
  cbn [kernel_step]. unfold k_read. cbn [fst snd]. btrue ((0 =? 0) && (0 <=? n)). rewrite E1, !some_bind.
  assert (pr k1 = pr k) as Hpr by by rewrite Ek1.
  destruct (zget_ex fds 0) as [d Ed]; [destruct Hd; lia|]. pose proof (proj1 (proj2 Hm) 0 HStdin d H0 Ed) as Hdd. cbn in Hdd.
  rewrite (kread_open k1 fds 0 HStdin d) by (rewrite ?Hpr; done || lia). subst d. cbn [may_read file_op_table_ptr]. rewrite some_bind.
  cbn [op_read galapagos_ops std_driver]. destruct (sh_term _ _ _ _ _ Hsh) as (x & [Ht _ _ _ _] & _).
  rewrite Hpr, Ht, some_bind, E3, !some_bind. eexists. split; [reflexivity|].
  pose proof (implements_screen a k (l :: rest) ts3 (clock k) _ rest Hi (ru_clock _ _ Hru) Hsh' Hrest) as H.
  replace (set_clock (clock k) k) with k in H by by destruct k. rewrite Ek1. exact H.
Qed.

Lemma file_read k fds fd ino pos d n :
  image_ok k -> desc_is (pr k) fds -> fds.[fd] = Some d -> handle_fd k (HFile ino pos) d -> 0 <= n < 2 ^ 31 ->
  let bs := slice k (get_inode_ptr (fsys k) ino) pos n in
  exists k', fs_read (inode_ptr d) (file_position d) n k = Some (Z.of_nat (length bs), bs, k') /\
    only_fds k k' (bump (get_inode_ptr (fsys k) ino) (Z.of_nat (length bs)) fds).
Proof.
  intros Him Hd Ed (_ & _ & Hp & Hl & Hpos & Hr) Hn bs. destruct (listed_file k ino Him Hl) as [Hf Hw]. rewrite Hp, Hpos.
  by apply (fs_read_spec k fds ino); [apply Him|..].
Qed.

Lemma step_read_file a k ls fd n r a' ino pos :
  implements t v ts0 a (k, ls) -> os_read fd n a = Some (r, a') -> 0 <= n -> (o_fds a).[fd] = Some (HFile ino pos) ->
  simulated _ (Read fd n) a k ls r a'.
Proof.
  intros Hi E Hn Hh. pose proof Hi as [Him _ Hdata _ _ (H8 & H0 & H1) (fds & Hd & Hm) _ _ _ _]. cbn [fst snd] in *.
  pose proof (zget_Some_range _ _ _ Hh) as Hr. assert (fd <> 0) as Hfd0 by (intros ->; congruence).
  unfold os_read in E. rewrite (proj2 (orb_false_iff _ _)) in E by (rewrite orb_false_iff; lia).
  destruct (MAX_BUFFER <? n) eqn:Emax; [done|]. unfold MAX_BUFFER in Emax. rewrite Hh, some_bind in E.
  destruct (zget_ex fds fd) as [d Ed]; [destruct Hd; lia|]. pose proof (proj1 (proj2 Hm) fd _ d Hh Ed) as Hdd.
  pose proof Hdd as (Hop & _ & Hptr & Hli & _).
  rewrite (Hdata ino Hli) in E. fold (slice k (get_inode_ptr (fsys k) ino) pos n) in E. injection E as <- <-.
  cbn [kernel_step]. unfold k_read. cbn [fst snd]. bfalse ((fd =? 0) && (0 <=? n)). rewrite some_bind.
  rewrite (kread_open k fds fd (HFile ino pos) d) by (done || lia). cbn [may_read]. rewrite Hop, some_bind. cbn [op_read galapagos_ops fs_ops].
  destruct (file_read k fds fd ino pos d n) as (k' & -> & Ho); [done | done | done | done | lia|]. rewrite some_bind.
  eexists. split; [reflexivity|]. apply (implements_fds a k k' ls _ _ Hi Ho); [by apply fds_match_bump|].
  unfold table_ok. cbn [o_fds set_fds]. rewrite !advance_get, H0, H1. split_and!; [unfold advance; by rewrite length_map | done | done].
Qed.

Lemma step_read_dir a k ls fd n r a' :
  implements t v ts0 a (k, ls) -> os_read fd n a = Some (r, a') -> 0 <= n -> (o_fds a).[fd] = Some HDir ->
  simulated _ (Read fd n) a k ls r a'.
Proof.
  intros Hi E Hn Hh. pose proof Hi as [Him Hdir _ Hnext Hrange (H8 & H0 & H1) (fds & Hd & Hm) _ _ _ _]. cbn [fst snd] in *.
  pose proof (zget_Some_range _ _ _ Hh) as Hr. assert (fd <> 0) as Hfd0 by (intros ->; congruence).
  unfold os_read in E. rewrite (proj2 (orb_false_iff _ _)) in E by (rewrite orb_false_iff; lia).
  destruct (MAX_BUFFER <? n) eqn:Emax; [done|]. unfold MAX_BUFFER in Emax. rewrite Hh, some_bind in E.
  destruct (n =? 0) eqn:En; [done|].
  destruct (zget_ex fds fd) as [d Ed]; [destruct Hd; lia|]. pose proof (proj1 (proj2 Hm) fd _ d Hh Ed) as Hdd.
  cbn [kernel_step]. unfold k_read. cbn [fst snd]. bfalse ((fd =? 0) && (0 <=? n)). rewrite some_bind.
  rewrite (kread_open k fds fd HDir d) by (done || lia). cbn [may_read]. destruct Hdd as (-> & _). rewrite some_bind. cbn [op_read galapagos_ops dir_ops].
  pose proof (do_entries _ _ (io_dir k Him)) as Hents. rewrite Hdir in E. unfold entries in E.
  set (N := NUM_DIR_ENTRIES (image k) (fsys k)) in *.
  destruct (Z.lt_ge_cases (o_next a) N) as [Hlt|Hge].
  - rewrite zget_lookup, list_lookup_fmap, lookup_seqZ_lt in E by lia. cbn [fmap option_fmap option_map] in E.
    rewrite Z2Nat.id in E by lia. cbn [e_name entry] in E. rewrite Z.add_0_l in E. injection E as <- <-.
    rewrite dir_read_entry by (rewrite ?Hnext; fold N; lia). rewrite !some_bind, Hnext. eexists. split; [reflexivity|].
    apply implements_next; [exact Hi | reflexivity | reflexivity | reflexivity | cbn; by rewrite Hnext | fold N; lia].
  - rewrite zget_lookup, lookup_ge_None_2 in E by (rewrite ?length_map, ?length_seqZ; lia). injection E as <- <-.
    rewrite dir_read_end by (rewrite ?Hnext; fold N; lia). rewrite !some_bind. eexists. split; [reflexivity|].
    apply implements_next; [exact Hi | reflexivity | reflexivity | reflexivity | reflexivity | fold N; lia].
Qed.

Lemma step_read a k ls fd n r a' :
  implements t v ts0 a (k, ls) -> os_read fd n a = Some (r, a') -> simulated _ (Read fd n) a k ls r a'.
Proof.
  intros Hi E. destruct ((fd <? 0) || (8 <=? fd) || (n <? 0)) eqn:Er.
  { pose proof Hi as [_ _ _ _ _ _ (fds & Hd & _) _ _ _ _]. cbn [fst snd] in *. unfold os_read in E. rewrite Er in E. destruct (_ && _) in E; [|done]. injection E as <- <-.
    cbn [kernel_step]. unfold k_read. cbn [fst snd]. bfalse ((fd =? 0) && (0 <=? n)). rewrite some_bind.
    unfold kread, FILE_ARRAY_SIZE. rewrite (di_get _ _ Hd), some_bind. btrue ((fd <? 0) || (8 <=? fd) || (buf =? 0) || (n <? 0)).
    rewrite some_bind. eauto. }
  pose proof E as E'. unfold os_read in E'. rewrite Er in E'. destruct (MAX_BUFFER <? n); [done|]. apply bind_Some in E' as (h & Eh & E').
  destruct (decide (h = HStdin)) as [->|Hin]; [apply (step_read_stdin a); done || lia|].
  destruct (decide (h = HDir)) as [->|Hdr]; [apply (step_read_dir a); done || lia|].
  destruct h as [| | | | |ino pos]; try done; [..|apply (step_read_file a _ _ _ _ _ _ ino pos); done || lia];
    pose proof Hi as [_ _ _ _ _ (_ & H0 & _) (fds & Hd & Hm) Hru _ _ _]; cbn [fst snd] in *;
    (destruct (zget_ex fds fd) as [d Ed]; [destruct Hd; lia|]); pose proof (proj1 (proj2 Hm) fd _ d Eh Ed) as Hdd;
    (assert (fd <> 0) as Hfd0 by (intros ->; congruence));
    cbn [kernel_step]; unfold k_read; cbn [fst snd]; bfalse ((fd =? 0) && (0 <=? n)); rewrite some_bind;
    rewrite (kread_open k fds fd _ d n Hd Ed Hdd) by lia; cbn [may_read]; injection E' as <- <-.
  - rewrite some_bind. eauto.
  - rewrite some_bind. eauto.
  - destruct Hdd as (-> & _). rewrite some_bind. cbn [op_read galapagos_ops rtc_driver rtc_read_code].
    destruct (rtc_int dev _ _) as [c s] eqn:Ec. unfold rtc_int in Ec. injection Ec as <- <-. cbn. eexists. split; [reflexivity|].
    apply implements_ports; [done | apply (ru_clock _ _ Hru)].
Qed.

Lemma step_getargs a k ls n r a' :
  implements t v ts0 a (k, ls) -> os_getargs n a = Some (r, a') -> simulated _ (Getargs n) a k ls r a'.
Proof.
  intros Hi E. pose proof Hi as [_ _ _ _ _ _ _ [_ _ _ _ _ (c & b & Hc & Hb & _ & _ & Ha & _ & Hl)] _ _ _]. cbn [fst snd] in *.
  cbn [kernel_step]. unfold on_kernel, kget_args. cbn [fst snd]. rewrite Hc, some_bind, Hb, some_bind. unfold os_getargs in E.
  rewrite (proj2 (Z.eqb_neq buf 0) Hbuf). cbn [orb]. destruct (negb _) in E; [done|]. destruct (Z.ltb_spec n 0) as [Hn|Hn]; injection E as <- <-.
  - rewrite !some_bind. eauto.
  - rewrite (strlen_spec _ _ Ha) by lia. rewrite !some_bind. destruct Ha as (rest & -> & _).
    rewrite Nat2Z.id, take_app_length. eauto.
Qed.

Lemma first_word_split cs :
  text cs -> exists rest, cs = first_word cs ++ rest /\ Forall word_char (first_word cs) /\
    (rest = [] \/ exists c rest', rest = c :: rest' /\ (c = 32 \/ c = 10)).
Proof.
  induction 1 as [|c cs Hc _ (rest & E & Hw & Hr)]; [by exists []; eauto|]. cbn [first_word].
  destruct ((c =? 32) || (c =? 10)) eqn:Ec; [by exists (c :: cs); split_and!; [done | constructor | right; exists c, cs; split; [done | lia]]|].
  exists rest. split_and!; [cbn; by rewrite <- E | constructor; [unfold word_char; lia | done] | done].
Qed.

(** A refused command, wherever the frame of [kexecute] is. *)
Lemma refused_spec a k ls command r a' :
  implements t v ts0 a (k, ls) -> (cs ← string_in command; if MAX_NAME <? Z.of_nat (length cs) then None else refuse cs a) = Some (r, a') ->
  r = ERROR /\ a' = a /\ forall esp ebp, kexecute L pit_ret jk (Some command) esp ebp k = Some (Returns ERROR k).
Proof.
  intros Hi E. pose proof Hi as [Him Hdir _ _ _ _ _ Hru _ _ _]. cbn [fst snd] in *.
  apply bind_Some in E as (cs & (rest & -> & Htx)%string_in_cstring & E). destruct (MAX_NAME <? _); [done|]. unfold refuse in E.
  destruct (first_word_split cs Htx) as (tl & Ecs & Hw & Htl).
  destruct (first_word cs) as [|c w] eqn:Ew; [done|]. rewrite Hdir in E.
  rewrite (find_name_lookup k) in E by done. destruct (lookup_name (image k) (fsys k) (c :: w)) as [j|] eqn:Ej; [done|].
  cbn [fmap option_fmap option_map] in E. destruct (Z.of_nat (length (c :: w)) <? 128) eqn:El; [|done]. injection E as <- <-.
  split; [done|]. split; [done|]. intros esp ebp.
  assert (exists t' rest', cs ++ 0 :: rest = (c :: w) ++ t' :: rest' /\ (t' = 32 \/ t' = 0 \/ t' = 10)) as (t' & rest' & -> & Ht').
  { rewrite Ecs. destruct Htl as [-> | (c' & r' & -> & Hc')]; eexists _, _; rewrite <- app_assoc; cbn [app]; split; [reflexivity | lia | reflexivity | lia]. }
  apply kexecute_unknown; [apply Him | apply Hru | done | done | done | lia | done | done].
Qed.

Lemma step_execute a k ls command r a' :
  implements t v ts0 a (k, ls) -> (cs ← string_in command; if MAX_NAME <? Z.of_nat (length cs) then None else refuse cs a) = Some (r, a') ->
  simulated _ (Execute command) a k ls r a'.
Proof.
  intros Hi E. destruct (refused_spec _ _ _ _ _ _ Hi E) as (-> & -> & Ex). cbn [kernel_step]. unfold on_kernel. cbn [fst snd].
  rewrite Ex, some_bind. eauto.
Qed.

(** A kernel that differs in the page tables of its process. *)
Lemma implements_pages a k ls pages :
  implements t v ts0 a (k, ls) -> paging_ok L pages -> cr3 pages = cr3 (pg (pr k)) -> page_tables pages = page_tables (pg (pr k)) ->
  implements t v ts0 a (set_pr (set_pg pages (pr k)) k, ls).
Proof.
  intros Hi Hok Hcr Hpt. pose proof (im_running _ _ _ _ _ Hi) as [H1 H2 H3 HL H5 (c & b & Hc & Hb & Hp & Hcr' & Ha)]. cbn [fst] in *.
  apply (implements_move a _ k); [exact Hi | done | done | done | done | done | apply (im_next _ _ _ _ _ Hi) | apply (im_range _ _ _ _ _ Hi)
    | apply (im_table _ _ _ _ _ Hi) | | |].
  - destruct (im_fds _ _ _ _ _ Hi) as (fds & [Hg Hsz] & Hm). exists fds. split; [by split | exact Hm].
  - split; try done. exists c, b. cbn [pr set_pr pg set_pg]. rewrite Hcr. done.
  - destruct (im_shows _ _ _ _ _ Hi) as [(x & [A1 A2 A3 A4 A5] & Hx) ? ?]. cbn [fst] in *. split; [|assumption..]. exists x. split; [|assumption].
    split; try assumption. rewrite <- A4. rewrite !(video_page_word L _ (pid b)) by (done || (cbn; congruence)). cbn. by rewrite Hpt.
Qed.

(** The contents of the kernel stacks and of the programs do not matter. *)
Lemma implements_mem a k ls m u :
  implements t v ts0 a (k, ls) -> implements t v ts0 a (with_kmem m (set_umem u k), ls).
Proof.
  intros Hi. apply (implements_move a _ k); [exact Hi | done | done | done | done | done | apply (im_next _ _ _ _ _ Hi) | apply (im_range _ _ _ _ _ Hi)
    | apply (im_table _ _ _ _ _ Hi) | | |].
  - destruct (im_fds _ _ _ _ _ Hi) as (fds & [Hg Hsz] & Hm). exists fds. split; [by split | exact Hm].
  - destruct (im_running _ _ _ _ _ Hi). by split.
  - destruct (im_shows _ _ _ _ _ Hi) as [(x & [] & ?) ? ?]. split; [|assumption..]. exists x. split; [by split | assumption].
Qed.

Lemma implements_kmem a k ls m : implements t v ts0 a (k, ls) -> implements t v ts0 a (with_kmem m k, ls).
Proof. intros Hi. apply (implements_mem a k ls m (umem k)) in Hi. by destruct k. Qed.

Lemma implements_umem a k ls u : implements t v ts0 a (k, ls) -> implements t v ts0 a (set_umem u k, ls).
Proof. intros Hi. apply (implements_mem a k ls (kmem (pr k)) u) in Hi. by destruct k as [[] ]. Qed.

Lemma step_vidmap a k ls p r a' :
  implements t v ts0 a (k, ls) -> os_step refuse _ (Vidmap p) a = Some (r, a') -> simulated _ (Vidmap p) a k ls r a'.
Proof.
  intros Hi E. pose proof (im_running _ _ _ _ _ Hi) as [_ _ _ HL Hpg (c & b & Hc & Hb & Hp & Hcr & _)]. cbn [fst snd] in *.
  cbn [kernel_step]. unfold on_kernel, kvidmap. cbn [fst snd]. rewrite Hc, some_bind, Hb, some_bind.
  pose proof (address_in_user_correct p (pid b)) as Ha. unfold program_page in Ha.
  assert (address_in_user (s32 p) (pid b) = 0 \/ address_in_user (s32 p) (pid b) = ERROR) as Hau by (unfold address_in_user; repeat case_if; auto).
  unfold pid_ok in Hp. cbn [os_step] in E. destruct (_ || _) eqn:Er in E.
  - injection E as <- <-. destruct Hau as [H| ->]; [lia|]. cbn. eauto.
  - destruct (_ && _) eqn:Eg in E; [|done]. injection E as <- <-. rewrite (proj2 (Ha ltac:(lia) ltac:(lia))) by lia.
    change (ERROR =? 0) with false. cbv iota. destruct (map_vid_spec L (pg (pr k)) (pid b)) as (pages & -> & Hok & Hcr' & Hpt); [unfold pid_ok; lia | done |].
    rewrite some_bind. change (0 =? ERROR) with false. cbv iota zeta. rewrite some_bind.
    change (s32 VIRT_VID_MEM =? ERROR) with false. cbv iota. unfold load_user. cbn [pr set_umem set_pr curr_process set_pg pcbs].
    rewrite Hc, some_bind, Hb, some_bind. unfold in_program. rewrite Eg, some_bind. cbn [umem set_umem].
    change (Z.to_nat 4) with 4%nat. rewrite load_bytes_store32 by (unfold program_frame; lia).
    eexists. split; [reflexivity|]. apply implements_umem, implements_pages; [exact Hi | exact Hok | congruence | exact Hpt].
Qed.

Lemma step_call_sys a k ls n r a' :
  implements t v ts0 a (k, ls) -> os_step refuse _ (Call_sys n) a = Some (r, a') -> simulated _ (Call_sys n) a k ls r a'.
Proof.
  intros Hi E. pose proof Hi as [_ _ _ _ _ _ _ [Hsp _ _ _ _ _] _ _ _]. cbn [fst snd] in *.
  cbn [os_step] in E. destruct (_ || _) eqn:Er in E; [|done]. injection E as <- <-.
  cbn [kernel_step]. unfold on_kernel. cbn [fst snd].
  destruct (bad_number_spec L dev pit_ret ret_addr jk (set_eax (u32 n) regs) 0 k) as (m & E' & _); [apply Hregs | done | |].
  { cbn [r_eax set_eax]. unfold s32, u32. zlia. }
  rewrite E', some_bind. cbn [r_eax set_eax]. eexists. split; [reflexivity|].
  by apply implements_kmem.
Qed.

Lemma kernel_simulates : simulates (os_step refuse) kernel_step (implements t v ts0).
Proof.
  intros X e a [k ls] x a' Hi E. destruct e; cbn [os_step] in E.
  - by apply (step_execute a).
  - by apply (step_read a).
  - by apply (step_write a).
  - by apply (step_open a).
  - by apply (step_close a).
  - by apply (step_getargs a).
  - by apply (step_vidmap a).
  - injection E as <- <-. eexists. split; [reflexivity | done].
  - by apply (step_call_sys a).
  - done.
  - done.
Qed.

End Simulation.

(** ** Programs on the kernel *)

(** The abstract state of a kernel that is about to run a program with the handles [hs]
    and the arguments [cs]. *)
Definition os_of (k : kernel) (hs : list handle) (cs : list Z) (ls : list (list Z)) : os :=
  Os (entries k) (fun ino => file_content (image k) (fsys k) (get_inode_ptr (fsys k) ino)) cs hs
     (curr_file_number (fsys k)) [] ls.

Record ready (t v : Z) (k : kernel) (hs : list handle) (cs : list Z) (ls : list (list Z)) : Prop := {
  re_image : image_ok k;
  re_next : 0 <= curr_file_number (fsys k) <= NUM_DIR_ENTRIES (image k) (fsys k);
  re_table : length hs = 8%nat /\ hs.[0] = Some HStdin /\ hs.[1] = Some HStdout;
  re_fds : exists fds, desc_is (pr k) fds /\ fds_match k hs fds;
  re_running : running k cs;
  re_typed : Forall typeable ls;
  re_term : exists x, at_terminal L k t v x /\ line x = [];
  re_shown : curr_terminal (screen k) = t }.

Lemma ready_implements t v k hs cs ls : ready t v k hs cs ls -> implements t v (screen k) (os_of k hs cs ls) (k, ls).
Proof. intros []. split; try done. split; try done. apply history_start. Qed.

Lemma entries_named k : image_ok k -> named (entries k).
Proof.
  intros [Hdir _ _]. apply Forall_forall. intros e (i & -> & Hi%elem_of_seqZ)%list_elem_of_fmap. cbn [e_name entry].
  assert (entry_name (image k) (fsys k) i <> []) as Hne by (apply (do_named _ _ Hdir); lia).
  unfold entry_name in *. pose proof (name_of_length (load_bytes (image k) (entry_addr (fsys k) i) 32)) as Hl.
  split; [unfold text|split; [destruct (name_of _); [done | cbn; lia] | unfold load_bytes in Hl at 2; rewrite length_map, length_seqZ in Hl; lia]].
  clear. induction (load_bytes _ _ _) as [|b bs IH]; [constructor|]. cbn. destruct (Z.eqb_spec b 0); [constructor | by constructor].
Qed.

End Machine.

(** ** A small machine *)

(** Process 3 of the first terminal, started with the arguments [cs]. *)
Definition demo_prog_block (cs : list Z) (n : Z) : pcb :=
  Pcb n PROGRAM_START (get_kstack_address n) USTACK_START 0x8048094 (if n =? 3 then Some 0 else None) None demo_files
    (replicate 33 0) (cs ++ [0]) 0x7f0000 0x7f0100 0 0.
Definition machine_for (cs : list Z) (f : fs) (m : memory) (pages : paging) : kernel :=
  Kernel (Procs (map (demo_prog_block cs) (seqZ 0 6)) (Some 3) (Some 3) [1; 1; 1; 1; 0; 0] [Some 0; Some 1; Some 2]
            (get_kstack_address 3) pages (fun _ => 0))
    demo_child_sched f m (fun _ => 0) demo_terminals (Rtc 1 0) true.
Definition machine_with : fs -> memory -> paging -> kernel := machine_for [97].
Definition demo_machine : paging -> kernel := machine_with demo_fs demo_mem.

Lemma demo_image_ok cs pages : image_ok (machine_for cs demo_fs demo_mem pages).
Proof.
  assert (forall i, 0 <= i < NUM_DIR_ENTRIES demo_mem demo_fs -> i = 0 \/ i = 1) as Hi.
  { change (NUM_DIR_ENTRIES demo_mem demo_fs) with 2. lia. }
  split; cbn [image fsys machine_for].
  - apply demo_dir_ok.
  - change (NUM_DIR_ENTRIES demo_mem demo_fs) with 2. intros i Hr. apply demo_empty_names. lia.
  - intros i [-> | ->]%Hi Hty; [vm_compute in Hty; discriminate|].
    replace (entry_inode demo_mem demo_fs 1) with 0 by (vm_compute; reflexivity).
    replace (get_inode_ptr demo_fs 0) with demo_inode by (vm_compute; reflexivity).
    split; [apply demo_file_at | by apply demo_whole].
Qed.

(** The pages of the system with process 3 running, its screen at [v]. *)
Definition demo_mapped (pages : paging) (v : Z) : Prop :=
  paging_ok demo_layout pages /\ cr3 pages = pd_addr demo_layout 3 /\ translate demo_layout pages false VID_MEM = Some v /\ page_ok v.

Lemma machine_for_ready cs f m pages v ls :
  Forall (fun c => 0 < c < 256) cs -> Z.of_nat (length cs) < 1024 ->
  image_ok (machine_for cs f m pages) -> 0 <= curr_file_number f <= NUM_DIR_ENTRIES m f ->
  demo_mapped pages v -> Forall typeable ls -> ready demo_layout 0 v (machine_for cs f m pages) std_handles cs ls.
Proof.
  intros Hcs Hlen Him Hn (Hok & Hcr & Hv & Hp) Hls. split.
  - exact Him.
  - exact Hn.
  - done.
  - exists demo_files. split; [split; reflexivity|]. split_and!; [done | |].
    + intros i h d Hh Hd. pose proof (zget_Some_range _ _ _ Hh) as Hr. change (Z.of_nat (length std_handles)) with 8 in Hr.
      assert (i = 0 \/ i = 1 \/ i = 2 \/ i = 3 \/ i = 4 \/ i = 5 \/ i = 6 \/ i = 7) as Hi by lia.
      destruct Hi as [-> | [-> | [-> | [-> | [-> | [-> | [-> | ->]]]]]]]; injection Hh as <-; injection Hd as <-; reflexivity.
    + intros i h Hh Hi. rewrite zget_lookup in Hh by lia. destruct (Z.to_nat i) as [|[|n]] eqn:E; [lia | lia|]. cbn in Hh.
      apply (lookup_replicate_1 6 HFree) in Hh as [-> _]. done.
  - split; [vm_compute; split; discriminate || reflexivity | done | done | apply demo_layout_ok | exact Hok|].
    exists 3, (demo_prog_block cs 3). split; [done|]. split; [done|]. split; [unfold pid_ok; cbn; lia|]. split; [exact Hcr|].
    split; [exists []; split; [done | eapply Forall_impl; [exact Hcs | cbn; lia]]|].
    split; [eapply Forall_impl; [exact Hcs | unfold is_byte; cbn; lia] | done].
  - done.
  - exists demo_tty. split; [|done]. split; [done | apply demo_terminals_ok | done | exact Hv | exact Hp].
  - done.
Qed.

Lemma machine_ready f m pages v ls :
  image_ok (machine_with f m pages) -> 0 <= curr_file_number f <= NUM_DIR_ENTRIES m f ->
  demo_mapped pages v -> Forall typeable ls -> ready demo_layout 0 v (machine_with f m pages) std_handles [97] ls.
Proof. apply machine_for_ready; [repeat constructor; lia | cbn; lia]. Qed.

Lemma demo_ready pages v ls :
  demo_mapped pages v -> Forall typeable ls -> ready demo_layout 0 v (demo_machine pages) std_handles [97] ls.
Proof.
  apply machine_ready; [apply demo_image_ok|]. change (NUM_DIR_ENTRIES demo_mem demo_fs) with 2. change (curr_file_number demo_fs) with 0. lia.
Qed.

(** Those of the system just booted. *)
Lemma demo_pages : exists pages v, demo_mapped pages v.
Proof.
  destruct (booted_ok demo_layout zero_paging [] demo_layout_ok zero_paging_sized ltac:(constructor)) as (pages & _ & Hok).
  destruct (video_page_ok demo_layout (demo_machine (set_cr3 (pd_addr demo_layout 3) pages)) 3) as (v & Hv & Hp);
    [apply demo_layout_ok | by apply paging_ok_cr3 | done | unfold pid_ok; lia|].
  exists (set_cr3 (pd_addr demo_layout 3) pages), v. split_and!; [by apply paging_ok_cr3 | done | exact Hv | apply Hp..].
Qed.
