(* ===== verification/UserCalls.v ===== *)
(** * Programs on the processor

    The step from the system calls as values to the system calls as the processor makes
    them: the library wrappers of [syscalls/ece391syscall.S] put the number and the
    arguments into registers, the buffers are bytes in the page of the program, and the
    call enters the kernel through [system_call_linkage].  What the kernel stored is
    read back from the page.  The specification of [Unix] is implemented on this level
    too, so that what was proved of a program holds of its run on the kernel. *)

From stdpp Require Import base list option sets.
From Stdlib Require Import ZArith Lia ZifyBool.
From ITree Require Import ITree.
From S2P Require Import Prelude MemOps Lib Ports Rtc Terminal FileSystem Paging Process Schedule FileArray Reading Lifecycle Drivers Linkage.
From S2P Require Import UserLib Syscalls Programs Unix ProgramSpecs Refinement.

#[export] Instance iret_eq_dec : EqDecision iret_t.
Proof. solve_decision. Defined.
#[export] Instance user_regs_eq_dec : EqDecision user_regs.
Proof. solve_decision. Defined.

(** ** The wrappers *)

Section User.
Context (L : layout) (dev : log -> Z -> Z) (pit_ret ret_addr : Z) (jk : junk) (regs : user_regs) (abuf : Z).

(** [DO_CALL]: the number in eax, the arguments in ebx, ecx and edx. *)
Definition call_regs (n a1 a2 a3 : Z) : user_regs :=
  UserRegs n (u32 a2) (u32 a3) (u32 a1) (r_ebp regs) (r_esi regs) (r_edi regs) (r_frame regs).

(** What [ds] holds in a program: the kernel enters it with its own segment in [ds], of which
    [iret] leaves the null selector, and the programs never load the register. *)
Definition program_ds : Z := iret_data KERNEL_DS.

(** The instruction [int $0x80] with the registers [r], for a program that goes on with the
    same registers but for eax. *)
Definition int80 (r : user_regs) (k : kernel) : option (Z * kernel) :=
  '(c, ds) ← system_call_linkage L dev pit_ret ret_addr jk r program_ds k;
  match c with
  | Resumes r' k =>
      if bool_decide (r' = set_eax (r_eax r') r) && (ds =? program_ds) then Some (s32 (r_eax r'), k) else None
  | GivesUp _ => None
  end.

Definition do_call (n a1 a2 a3 : Z) (k : kernel) : option (Z * kernel) := int80 (call_regs n a1 a2 a3) k.

(** The program has the bytes [bs] in its page from the address [abuf] on. *)
Definition put_bytes (m : memory) (a : Z) (bs : list Z) : memory :=
  fun x => match bs.[x - a] with Some b => b | None => m x end.
Definition put_user (bs : list Z) (k : kernel) : option kernel :=
  c ← curr_process (pr k); b ← (pcbs (pr k)).[c];
  Some (set_umem (put_bytes (umem k) (program_frame (pid b) abuf) bs) k).

(** ** The calls of a program *)

Definition on_machine {X} (g : kernel -> option (X * kernel)) (w : machine) : option (X * machine) :=
  '(r, k) ← g w.1; Some (r, (k, w.2)).

(** [movb] to an address: where the page tables of the program say, in video memory or in the
    frame of the program; anywhere else it faults. *)
Definition user_store (addr c : Z) (k : kernel) : option kernel :=
  pa ← translate L (pg (pr k)) true addr;
  let ts := screen k in
  if (0xb8000 <=? pa) && (pa <? 0xbc000)
  then Some (set_screen (Terminals (mem_set ts) (curr_terminal ts) (ttys ts) (store8 (vm ts) pa c) (pio ts)) k)
  else Some (set_umem (store8 (umem k) pa c) k).

(** The line the user types while a read of the standard input waits. *)
Definition typed (fd n : Z) (w : machine) : option machine :=
  if (fd =? 0) && (0 <=? n) then
    match w.2 with [] => None | l :: rest => k ← enter_line l w.1; Some (k, rest) end
  else Some w.

Definition user_step (X : Type) (e : sysE X) : machine -> option (X * machine) :=
  match e with
  | Execute command => on_machine (fun k => k ← put_user (take 1024 command) k; do_call 2 abuf 0 0 k)
  | Read fd n => fun w =>
      w ← typed fd n w;
      on_machine (fun k =>
        '(r, k) ← do_call 3 fd abuf n k;
        bs ← (if 0 <? r then load_user k abuf r else Some []); Some ((r, bs), k)) w
  | Write fd buf n => on_machine (fun k => k ← put_user (take (Z.to_nat MAX_BUFFER) buf) k; do_call 4 fd abuf n k)
  | Open name => on_machine (fun k => k ← put_user (take 1024 name) k; do_call 5 abuf 0 0 k)
  | Close fd => on_machine (fun k => do_call 6 fd 0 0 k)
  | Getargs n => on_machine (fun k =>
      '(r, k) ← do_call 7 abuf n 0 k;
      bs ← (if r =? 0 then s ← load_user k abuf 1024; cs ← string_in s; Some (cs ++ [0]) else Some []); Some ((r, bs), k))
  | Vidmap p => on_machine (fun k =>
      '(r, k) ← do_call 8 p 0 0 k; bs ← (if r =? ERROR then Some [] else load_user k p 4); Some ((r, bs), k))
  | Set_handler s => on_machine (fun k => do_call 9 s 0 0 k)
  | Call_sys n => on_machine (fun k => int80 (set_eax (u32 n) regs) k)
  | Store addr c => on_machine (fun k => k ← user_store addr c k; Some (tt, k))
  | Undefined => fun _ => None
  end.

(** ** Bytes in the page of the program *)

Lemma load_put m A bs n :
  0 <= A -> A + Z.of_nat n <= 2 ^ 32 ->
  exists rest, load_bytes (put_bytes m A bs) A n = take n bs ++ rest /\ ((n <= length bs)%nat -> rest = []).
Proof.
  intros HA Hn. set (l := load_bytes (put_bytes m A bs) A n).
  assert (length l = n) as Hl by (unfold l, load_bytes; rewrite length_map, length_seqZ; lia).
  assert (forall i b, (i < n)%nat -> bs !! i = Some b -> l !! i = Some b) as Hget.
  { intros i b Hi Hb. unfold l, load_bytes. rewrite list_lookup_fmap, lookup_seqZ_lt by lia. cbn [fmap option_fmap option_map].
    rewrite u32_small by lia. unfold put_bytes. replace (A + (0 + Z.of_nat i) - A) with (Z.of_nat i) by lia.
    by rewrite zget_lookup, Nat2Z.id, Hb by lia. }
  exists (drop (length (take n bs)) l). split.
  - rewrite <- (take_drop (length (take n bs)) l) at 1. f_equal. apply list_eq. intros i.
    destruct (decide (i < length (take n bs))%nat) as [Hi|Hi]; [|by rewrite !lookup_ge_None_2 by (rewrite ?length_take in *; lia)].
    rewrite lookup_take_lt by done. rewrite length_take in Hi. destruct (lookup_lt_is_Some_2 bs i) as [b Hb]; [lia|].
    rewrite (Hget i b), lookup_take_lt, Hb by (done || lia). done.
  - intros Hle. apply drop_ge. rewrite length_take. lia.
Qed.

Lemma store_is_put m A bs x : Forall is_byte bs -> store_bytes m A bs x = put_bytes m A bs x.
Proof.
  intros Hb. unfold put_bytes. revert m A. induction Hb as [|b bs Hb _ IH]; intros m A; cbn [store_bytes].
  - unfold zget. by case_if.
  - rewrite IH. unfold store8. destruct (Z.eqb_spec x A) as [->|Hne].
    + rewrite Z.sub_diag. unfold zget at 1. bfalse (0 <=? A - (A + 1)). unfold zget. cbn. apply u8_small, Hb.
    + destruct (Z.lt_ge_cases x A) as [Hlt|Hge].
      * unfold zget. bfalse (0 <=? x - (A + 1)). by bfalse (0 <=? x - A).
      * rewrite !zget_lookup by lia. replace (Z.to_nat (x - A)) with (S (Z.to_nat (x - (A + 1)))) by lia. done.
Qed.

Lemma load_store m A bs n :
  0 <= A -> A + Z.of_nat n <= 2 ^ 32 -> Forall is_byte bs ->
  exists rest, load_bytes (store_bytes m A bs) A n = take n bs ++ rest /\ ((n <= length bs)%nat -> rest = []).
Proof.
  intros HA Hn Hb. destruct (load_put m A bs n HA Hn) as (rest & E & Hr). exists rest. split; [|done]. rewrite <- E.
  unfold load_bytes. apply map_ext. intros i. by apply store_is_put.
Qed.

Lemma string_in_take l cs rest :
  string_in l = Some cs -> Z.of_nat (length cs) <= MAX_NAME -> string_in (take 1024 l ++ rest) = Some cs.
Proof.
  intros (r & -> & Hnz)%string_in_cstring Hl. unfold MAX_NAME in Hl. apply string_in_spec.
  exists (take (1024 - length cs - 1) r ++ rest). split; [|done]. rewrite take_app, take_ge by lia. rewrite <- app_assoc. f_equal.
  destruct (1024 - length cs)%nat as [|n] eqn:E; [lia|]. cbn [take app]. by replace (S n - 1)%nat with n by lia.
Qed.

(** What a write says depends on the bytes it is told to write, or on one dword. *)
Lemma os_write_same fd buf buf' n a x :
  (n <= MAX_BUFFER -> exists rest, buf' = take (Z.to_nat (Z.max 4 n)) buf ++ rest) ->
  os_write fd buf n a = Some x -> os_write fd buf' n a = Some x.
Proof.
  intros Hb E. unfold os_write in *. destruct ((fd <? 0) || (8 <=? fd) || (n <? 0)) eqn:Er; [done|].
  destruct (MAX_BUFFER <? n) eqn:Em; [done|]. destruct Hb as (rest & ->); [lia|].
  apply bind_Some in E as (h & -> & E). rewrite some_bind. destruct h; try done.
  - destruct (Z.of_nat (length buf) <? n) eqn:El; [done|].
    rewrite (proj2 (Z.ltb_ge _ _)) by (rewrite length_app, length_take; lia).
    rewrite take_app, take_take, length_take, Nat.min_l by lia. by replace (Z.to_nat n - _)%nat with 0%nat by lia; rewrite app_nil_r.
  - destruct (Z.to_nat (Z.max 4 n)) as [|[|[|[|N]]]] eqn:EN; try lia.
    destruct buf as [|b0 [|b1 [|b2 [|b3 buf]]]]; try done.
Qed.

(** ** The processor around a call *)

Section Calls.
Context (Habuf : 0x8000000 <= abuf /\ abuf + MAX_BUFFER <= 0x8400000) (Hregs : regs_ok regs) (Hret : u32_range_of ret_addr)
  (Hjk : (129 <= length (cmd_junk jk))%nat) (t v : Z) (ts0 : terminals).

#[local] Abbreviation implements := (implements L t v ts0).
#[local] Abbreviation table := (sys_call_table L dev pit_ret jk).

(** The kernel stack when the function of the table starts. *)
Definition entered (r : user_regs) (k : kernel) : kernel := with_kmem (call_stack ret_addr r (kmem (pr k)) (esp0 (pr k))).1 k.

Lemma call_regs_ok n a1 a2 a3 : 0 <= n < 2 ^ 32 -> regs_ok (call_regs n a1 a2 a3).
Proof.
  intros Hn. unfold regs_ok, u32_range_of in *. cbn [call_regs r_eax r_ecx r_edx r_ebx r_ebp r_esi r_edi r_frame].
  pose proof (u32_range a1). pose proof (u32_range a2). pose proof (u32_range a3). lia.
Qed.

Lemma do_call_spec n a1 a2 a3 k ret k' :
  1 <= n <= 10 -> sp_ok (esp0 (pr k)) ->
  table n (u32 a1) (u32 a2) (u32 a3) (esp0 (pr k) - 72) (entered (call_regs n a1 a2 a3) k) = Some (Returns ret k') ->
  2 < n \/ keeps_stack (entered (call_regs n a1 a2 a3) k) k' -> - 2 ^ 31 <= ret < 2 ^ 31 ->
  do_call n a1 a2 a3 k = Some (ret, k').
Proof.
  intros Hn Hsp E Hkeep Hr. pose proof (call_regs_ok n a1 a2 a3 ltac:(lia)) as Hok. unfold do_call, int80. rewrite linkage_eq by (done || cbn; lia).
  change (r_eax (call_regs n a1 a2 a3)) with n. change (r_ebx (call_regs n a1 a2 a3)) with (u32 a1).
  change (r_ecx (call_regs n a1 a2 a3)) with (u32 a2). change (r_edx (call_regs n a1 a2 a3)) with (u32 a3).
  unfold entered in E. rewrite E, !some_bind.
  assert (keeps_stack (entered (call_regs n a1 a2 a3) k) k') as Hk by (destruct Hkeep; [by eapply sys_call_keeps | done]).
  unfold keeps_stack, entered in Hk. cbn [pr with_kmem set_pr kmem set_kmem] in Hk. rewrite Hk.
  destruct (call_frame ret_addr (call_regs n a1 a2 a3) (kmem (pr k)) (esp0 (pr k)) Hok Hret Hsp) as (_ & _ & _ & _ & -> & _).
  rewrite bool_decide_true by done. cbn [r_eax set_eax]. do 2 f_equal. unfold s32, u32. zlia.
Qed.

(** The kernel with the call under way still implements the same system. *)
Lemma implements_entered a k ls r : implements a (k, ls) -> implements a (entered r k, ls).
Proof. apply implements_kmem. Qed.

Lemma implements_sp a k ls : implements a (k, ls) -> sp_ok (esp0 (pr k)).
Proof. intros Hi. apply (ru_stack _ _ _ (im_running _ _ _ _ _ _ Hi)). Qed.

Lemma implements_process a k ls : implements a (k, ls) -> exists c b, curr_process (pr k) = Some c /\ (pcbs (pr k)).[c] = Some b /\ pid_ok (pid b).
Proof. intros Hi. destruct (ru_args _ _ _ (im_running _ _ _ _ _ _ Hi)) as (c & b & Hc & Hb & Hp & _). eauto. Qed.

(** A buffer put in place and read by the kernel. *)
Lemma put_then_load a k ls bs :
  implements a (k, ls) ->
  exists k1, put_user bs k = Some k1 /\ implements a (k1, ls) /\ kmem (pr k1) = kmem (pr k) /\
    forall r n, 0 <= n -> abuf + n <= 0x8400000 ->
      exists rest, load_user (entered r k1) abuf n = Some (take (Z.to_nat n) bs ++ rest).
Proof.
  intros Hi. destruct (implements_process _ _ _ Hi) as (c & b & Hc & Hb & Hp). unfold put_user. rewrite Hc, some_bind, Hb, some_bind.
  eexists. split; [reflexivity|]. split; [by apply implements_umem|]. split; [done|]. intros r n Hn Hend.
  unfold load_user, entered. cbn [pr with_kmem set_pr set_umem curr_process set_kmem pcbs umem]. rewrite Hc, some_bind, Hb, some_bind.
  unfold in_program, MAX_BUFFER, pid_ok in *. btrue ((0x8000000 <=? abuf) && (abuf + n <=? 0x8400000)).
  destruct (load_put (umem k) (program_frame (pid b) abuf) bs (Z.to_nat n)) as (rest & -> & _); [unfold program_frame; lia.. |]. by exists rest.
Qed.

(** What the kernel stored in the page, read back. *)
Lemma store_then_load a k ls bs :
  implements a (k, ls) -> Forall is_byte bs -> Z.of_nat (length bs) <= MAX_BUFFER ->
  exists k1, store_user k abuf bs = Some k1 /\ implements a (k1, ls) /\
    forall n, 0 <= n -> abuf + n <= 0x8400000 ->
      exists rest, load_user k1 abuf n = Some (take (Z.to_nat n) bs ++ rest) /\ (n <= Z.of_nat (length bs) -> rest = []).
Proof.
  intros Hi Hbs Hlen. destruct (implements_process _ _ _ Hi) as (c & b & Hc & Hb & Hp). unfold store_user. rewrite Hc, some_bind, Hb, some_bind.
  unfold in_program, MAX_BUFFER, pid_ok in *.
  assert (forall u, (forall x, u x = store_bytes (umem k) (program_frame (pid b) abuf) bs x) -> forall n, 0 <= n -> abuf + n <= 0x8400000 ->
    exists rest, load_user (set_umem u k) abuf n = Some (take (Z.to_nat n) bs ++ rest) /\ (n <= Z.of_nat (length bs) -> rest = [])) as Hload.
  { intros u Hu n Hn Hend. unfold load_user. cbn [pr set_umem umem]. rewrite Hc, some_bind, Hb, some_bind.
    unfold in_program. btrue ((0x8000000 <=? abuf) && (abuf + n <=? 0x8400000)).
    destruct (load_store (umem k) (program_frame (pid b) abuf) bs (Z.to_nat n)) as (rest & E & Hr); [unfold program_frame; lia.. | done|].
    exists rest. split; [|intros; apply Hr; lia]. rewrite <- E. f_equal. unfold load_bytes. apply map_ext. intros i. apply Hu. }
  destruct bs as [|b0 bs'] eqn:Ebs.
  - exists k. split; [done|]. split; [done|]. intros n Hn Hend. destruct (Hload (umem k) ltac:(done) n Hn Hend) as (rest & E & Hr).
    exists rest. split; [|done]. by destruct k.
  - btrue ((0x8000000 <=? abuf) && (abuf + Z.of_nat (length (b0 :: bs')) <=? 0x8400000)).
    eexists. split; [reflexivity|]. split; [by apply implements_umem|]. by apply Hload.
Qed.

(** ** The range of the results *)

Lemma os_open_range name a r a' : os_open name a = Some (r, a') -> - 2 ^ 31 <= r < 2 ^ 31.
Proof.
  unfold os_open. intros E. apply bind_Some in E as (cs & _ & E). destruct (MAX_NAME <? _); [done|].
  destruct (free_handle (o_fds a)) as [i|] eqn:Ei; [apply free_handle_range in Ei|by injection E as <- <-].
  destruct cs as [|c cs]; [by injection E as <- <-|]. destruct (find_name _ _) as [d|]; [|by injection E as <- <-].
  destruct (new_handle d); [|by injection E as <- <-]. apply bind_Some in E as (l & _ & [= <- <-]). lia.
Qed.

Lemma os_write_range fd buf n a r a' : os_write fd buf n a = Some (r, a') -> - 2 ^ 31 <= r < 2 ^ 31.
Proof.
  unfold os_write. intros E. destruct (_ || _ || _) eqn:Er; [destruct (_ && _); [by injection E as <- <- | done]|].
  destruct (MAX_BUFFER <? n) eqn:Em; [done|]. unfold MAX_BUFFER in Em. apply bind_Some in E as (h & _ & E).
  destruct h; try (by injection E as <- <-).
  - destruct (Z.of_nat (length buf) <? n); [done|]. injection E as <- <-. unfold nonzero.
    pose proof (List.filter_length_le (fun c => negb (c =? 0)) (take (Z.to_nat n) buf)) as H. rewrite length_take in H. lia.
  - destruct buf as [|b0 [|b1 [|b2 [|b3 buf]]]]; try done. injection E as <- <-. by destruct (frequency_ok _).
Qed.

Lemma os_close_range fd a r a' : os_close fd a = Some (r, a') -> - 2 ^ 31 <= r < 2 ^ 31.
Proof.
  unfold os_close. intros E. destruct (_ || _); [destruct (int32 fd); [by injection E as <- <- | done]|].
  apply bind_Some in E as (h & _ & E). destruct (is_free h); [by injection E as <- <-|]. by apply bind_Some in E as (l & _ & [= <- <-]).
Qed.

(** What a read stores: bytes, no more than the buffer holds, and as many as it says. *)
Lemma os_read_bytes a k ls fd n r bs a' :
  implements a (k, ls) -> os_read fd n a = Some (r, bs, a') ->
  Forall is_byte bs /\ Z.of_nat (length bs) <= MAX_BUFFER /\ (r = Z.of_nat (length bs) \/ r = ERROR /\ bs = []).
Proof.
  intros Hi E. pose proof Hi as [Him Hdir Hdata _ _ _ (fds & Hd & Hm) _ Hl Hty _]. cbn [fst snd] in *.
  pose proof (do_bytes _ _ (io_dir k Him)) as Hb.
  unfold os_read in E. destruct (_ || _ || _) eqn:Er in E; [destruct (_ && _); [by injection E as <- <- <-; split_and!; [constructor | | right] | done]|].
  destruct (MAX_BUFFER <? n) eqn:Em; [done|]. apply bind_Some in E as (h & Eh & E).
  destruct h as [| | | | |ino pos]; try (by injection E as <- <- <-; split_and!; [constructor | | right]).
  - destruct (o_lines a) as [|l rest] eqn:El; [done|]. injection E as <- <- <-. inversion Hty as [|? ? [H1 _] _]; subst.
    split_and!; [|rewrite length_take; lia | by left]. apply Forall_take, Forall_app. split; [|repeat constructor; unfold is_byte; lia].
    eapply Forall_impl; [exact H1|]. unfold is_byte. cbn. lia.
  - injection E as <- <- <-. split_and!; [constructor | done | by left].
  - destruct (n =? 0); [done|]. destruct ((o_dir a).[o_next a]) as [e|] eqn:Ee; injection E as <- <- <-; [|split_and!; [constructor | done | by left]].
    split_and!; [|rewrite length_take; lia | by left]. apply Forall_take. rewrite Hdir in Ee. unfold entries, zget in Ee. destruct (0 <=? _); [|done].
    rewrite list_lookup_fmap in Ee. apply fmap_Some in Ee as (i & _ & ->). cbn [e_name entry]. unfold entry_name.
    apply Forall_forall. intros c Hc. assert (c ∈ load_bytes (image k) (entry_addr (fsys k) i) 32) as Hin.
    { clear -Hc. revert Hc. generalize (load_bytes (image k) (entry_addr (fsys k) i) 32). intros l. induction l as [|x l IH]; [done|]. cbn [name_of].
      destruct (x =? 0); [by intros ?%elem_of_nil|]. intros [->|H]%elem_of_cons; [left | right; by apply IH]. }
    apply list_elem_of_fmap in Hin as (j & -> & _). apply Hb.
  - injection E as <- <- <-. split_and!; [|rewrite length_take; lia | by left].
    destruct (zget_ex fds fd) as [d Ed]; [destruct Hd; lia|]. destruct (proj1 (proj2 Hm) fd _ d Eh Ed) as (_ & _ & _ & Hli & _).
    rewrite (Hdata ino Hli). apply Forall_take, Forall_drop. unfold file_content. apply Forall_forall. intros c (j & -> & _)%list_elem_of_fmap. apply Hb.
Qed.

(** ** The steps *)

#[local] Abbreviation step := (kernel_step L dev pit_ret ret_addr jk regs abuf).
#[local] Abbreviation stepped X e k ls r a' :=
  (exists w, user_step X e (k, ls) = Some (r, w) /\ implements a' w) (only parsing).

Lemma abuf_u32 : u32 abuf = abuf.
Proof. unfold MAX_BUFFER in Habuf. apply u32_small. lia. Qed.

Lemma abuf_string k : user_string k abuf = (s ← load_user k abuf 1024; Some (Some s)).
Proof.
  unfold MAX_BUFFER in Habuf. unfold user_string. bfalse (abuf =? 0). by replace (Z.min 1024 (0x8400000 - abuf)) with 1024 by lia.
Qed.

Lemma s32_u32 z : - 2 ^ 31 <= z < 2 ^ 31 -> s32 (u32 z) = z.
Proof. unfold s32, u32. intros. zlia. Qed.

Lemma regs_number n : regs_ok (set_eax (u32 n) regs).
Proof. pose proof (u32_range n). unfold regs_ok, u32_range_of in *. cbn [set_eax r_eax r_ecx r_edx r_ebx r_ebp r_esi r_edi r_frame]. lia. Qed.

(** The step of the kernel on a call that is under way. *)
Lemma entered_step {X} (e : sysE X) a k ls x a' r :
  implements a (k, ls) -> os_step refuse X e a = Some (x, a') ->
  exists w, step X e (entered r k, ls) = Some (x, w) /\ implements a' w.
Proof.
  intros Hi E. refine (kernel_simulates L dev pit_ret ret_addr jk regs abuf t v ts0 _ regs_number Hjk X e a (entered r k, ls) x a' _ E).
  - unfold MAX_BUFFER in Habuf. lia.
  - by apply implements_entered.
Qed.

Lemma user_open a k ls name r a' :
  implements a (k, ls) -> os_open name a = Some (r, a') -> stepped Z (Open name) k ls r a'.
Proof.
  intros Hi E. cbn [user_step]. unfold on_machine. cbn [fst snd]. pose proof (os_open_range _ _ _ _ E) as Hr.
  destruct (put_then_load a k ls (take 1024 name) Hi) as (k1 & -> & H1 & _ & Hload). rewrite some_bind.
  destruct (Hload (call_regs 5 abuf 0 0) 1024) as (rest & El); [lia | unfold MAX_BUFFER in Habuf; lia|].
  change (Z.to_nat 1024) with 1024%nat in El. rewrite take_take, Nat.min_id in El.
  assert (os_open (take 1024 name ++ rest) a = Some (r, a')) as E'.
  { unfold os_open in *. apply bind_Some in E as (cs & Ecs & E). destruct (MAX_NAME <? _) eqn:Em; [done|].
    rewrite (string_in_take name cs rest Ecs) by lia. by rewrite some_bind, Em. }
  destruct (entered_step (Open (take 1024 name ++ rest)) a k1 ls r a' (call_regs 5 abuf 0 0) H1 E') as (w & Ek & H2).
  cbn [kernel_step] in Ek. unfold on_kernel in Ek. cbn [fst snd] in Ek. apply bind_Some in Ek as ([r2 k2] & Ek & [= -> <-]).
  rewrite (do_call_spec 5 abuf 0 0 k1 r k2); [eauto | lia | by apply (implements_sp a k1 ls) | | by left | done].
  cbn [sys_call_table]. rewrite abuf_u32, abuf_string, El. by rewrite !some_bind, Ek, some_bind.
Qed.

Lemma user_write a k ls fd buf n r a' :
  implements a (k, ls) -> os_write fd buf n a = Some (r, a') -> stepped Z (Write fd buf n) k ls r a'.
Proof.
  intros Hi E. cbn [user_step]. unfold on_machine. cbn [fst snd]. pose proof (os_write_range _ _ _ _ _ _ E) as Hr.
  destruct (put_then_load a k ls (take (Z.to_nat MAX_BUFFER) buf) Hi) as (k1 & -> & H1 & _ & Hload). rewrite some_bind.
  set (M := Z.min (Z.max 4 n) (0x8400000 - abuf)). unfold MAX_BUFFER in Habuf.
  destruct (Hload (call_regs 4 fd abuf n) M) as (rest & El); [lia.. |].
  set (bs := take (Z.to_nat M) (take (Z.to_nat MAX_BUFFER) buf) ++ rest) in *.
  assert (- 2 ^ 31 <= fd < 2 ^ 31 /\ - 2 ^ 31 <= n < 2 ^ 31) as [Hfd Hn].
  { unfold os_write in E. destruct (_ || _ || _) eqn:Er in E; [destruct (int32 fd && int32 n) eqn:Ei in E; [unfold int32 in Ei; lia | done]|].
    destruct (MAX_BUFFER <? n) eqn:Em in E; [done|]. unfold MAX_BUFFER in Em. lia. }
  assert (os_write fd bs n a = Some (r, a')) as E'.
  { apply (os_write_same fd buf); [|exact E]. intros Hmax. exists rest. unfold bs, M, MAX_BUFFER in *. rewrite take_take. do 2 f_equal. lia. }
  destruct (entered_step (Write fd bs n) a k1 ls r a' (call_regs 4 fd abuf n) H1 E') as (w & Ek & H2).
  cbn [kernel_step] in Ek. unfold on_kernel in Ek. cbn [fst snd] in Ek. apply bind_Some in Ek as ([r2 k2] & Ek & [= -> <-]).
  rewrite (do_call_spec 4 fd abuf n k1 r k2); [eauto | lia | by apply (implements_sp a k1 ls) | | by left | done].
  cbn [sys_call_table]. rewrite abuf_u32, !s32_u32 by done. bfalse (abuf =? 0). unfold user_bytes, in_program.
  btrue ((0x8000000 <=? abuf) && (abuf + 0 <=? 0x8400000)). fold M. by rewrite El, !some_bind, Ek, some_bind.
Qed.

Lemma user_close a k ls fd r a' :
  implements a (k, ls) -> os_close fd a = Some (r, a') -> stepped Z (Close fd) k ls r a'.
Proof.
  intros Hi E. cbn [user_step]. unfold on_machine. cbn [fst snd]. pose proof (os_close_range _ _ _ _ E) as Hr.
  assert (- 2 ^ 31 <= fd < 2 ^ 31) as Hfd.
  { unfold os_close in E. destruct (_ || _) eqn:Er in E; [destruct (int32 fd) eqn:Ei in E; [unfold int32 in Ei; lia | done]|]. lia. }
  destruct (entered_step (Close fd) a k ls r a' (call_regs 6 fd 0 0) Hi E) as (w & Ek & H2).
  cbn [kernel_step] in Ek. unfold on_kernel in Ek. cbn [fst snd] in Ek. apply bind_Some in Ek as ([r2 k2] & Ek & [= -> <-]).
  rewrite (do_call_spec 6 fd 0 0 k r k2); [eauto | lia | by apply (implements_sp a k ls) | | by left | done].
  cbn [sys_call_table]. by rewrite s32_u32, Ek, some_bind.
Qed.

Lemma user_execute a k ls command r a' :
  implements a (k, ls) -> os_step refuse _ (Execute command) a = Some (r, a') -> stepped Z (Execute command) k ls r a'.
Proof.
  intros Hi E. cbn [os_step] in E. cbn [user_step]. unfold on_machine. cbn [fst snd].
  destruct (put_then_load a k ls (take 1024 command) Hi) as (k1 & -> & H1 & _ & Hload). rewrite some_bind.
  destruct (Hload (call_regs 2 abuf 0 0) 1024) as (rest & El); [lia | unfold MAX_BUFFER in Habuf; lia|].
  change (Z.to_nat 1024) with 1024%nat in El. rewrite take_take, Nat.min_id in El.
  assert ((cs ← string_in (take 1024 command ++ rest); if MAX_NAME <? Z.of_nat (length cs) then None else refuse cs a) = Some (r, a')) as E'.
  { apply bind_Some in E as (cs & Ecs & E). destruct (MAX_NAME <? _) eqn:Em; [done|].
    rewrite (string_in_take command cs rest Ecs) by lia. by rewrite some_bind, Em. }
  destruct (refused_spec L pit_ret jk t v ts0 Hjk a _ ls _ r a' (implements_entered _ _ _ (call_regs 2 abuf 0 0) H1) E') as (-> & -> & Ek).
  rewrite (do_call_spec 2 abuf 0 0 k1 ERROR (entered (call_regs 2 abuf 0 0) k1));
    [|lia | by apply (implements_sp a k1 ls) | | right; reflexivity | done].
  - eexists. split; [reflexivity|]. by apply implements_entered.
  - cbn [sys_call_table]. rewrite abuf_u32, abuf_string, El, !some_bind. apply Ek.
Qed.

(** The line is typed before the call or when it has begun. *)
Lemma typed_entered fd n k ls r :
  typed fd n (entered r k, ls) = ('(k1, ls1) ← typed fd n (k, ls); Some (entered r k1, ls1)).
Proof.
  unfold typed, enter_line. case_if; [|done]. cbn [fst snd]. destruct ls as [|l rest]; [done|].
  change (screen (entered r k)) with (screen k). destruct (type_keys l (screen k)) as [ts|]; [|done]. rewrite !some_bind.
  destruct (put_char NEW_LINE ts); done.
Qed.

Lemma typed_pr fd n k ls k1 ls1 : typed fd n (k, ls) = Some (k1, ls1) -> pr k1 = pr k.
Proof.
  unfold typed, enter_line. intros E. destruct (_ && _) in E; [|by injection E as <- <-]. cbn [fst snd] in E. destruct ls as [|l rest]; [done|].
  apply bind_Some in E as (k2 & E2 & [= <- <-]). apply bind_Some in E2 as (ts & _ & E2). by apply bind_Some in E2 as (ts2 & _ & [= <-]).
Qed.

Lemma k_read_typed fd n w :
  k_read L dev abuf fd n w =
  ('(k, lines) ← typed fd n w; '(r, bs, k) ← kread (galapagos_ops L dev) fd abuf n k; Some (r, bs, (k, lines))).
Proof. reflexivity. Qed.

Lemma user_read a k ls fd n r bs a' :
  implements a (k, ls) -> os_read fd n a = Some (r, bs, a') -> stepped _ (Read fd n) k ls (r, bs) a'.
Proof.
  intros Hi E. destruct (os_read_bytes a k ls fd n r bs a' Hi E) as (Hb & Hlen & Hr). unfold MAX_BUFFER in Hlen.
  assert (- 2 ^ 31 <= fd < 2 ^ 31 /\ - 2 ^ 31 <= n < 2 ^ 31) as [Hfd Hn].
  { unfold os_read in E. destruct (_ || _ || _) eqn:Er in E; [destruct (int32 fd && int32 n) eqn:Ei in E; [unfold int32 in Ei; lia | done]|].
    destruct (MAX_BUFFER <? n) eqn:Em in E; [done|]. unfold MAX_BUFFER in Em. lia. }
  destruct (entered_step (Read fd n) a k ls (r, bs) a' (call_regs 3 fd abuf n) Hi E) as (w & Ek & H2).
  cbn [kernel_step] in Ek. rewrite k_read_typed, typed_entered in Ek. apply bind_Some in Ek as ([ke ls1] & Et & Ek).
  apply bind_Some in Et as ([k1 ls2] & Et & [= <- <-]). apply bind_Some in Ek as ([[r2 bs2] k2] & Ek & [= -> -> <-]).
  destruct (store_then_load a' k2 ls2 bs H2 Hb) as (k3 & Es & H3 & Hload); [unfold MAX_BUFFER; lia|].
  cbn [user_step]. rewrite Et, some_bind. unfold on_machine. cbn [fst snd].
  rewrite (do_call_spec 3 fd abuf n k1 r k3); [| lia | rewrite (typed_pr _ _ _ _ _ _ Et); by apply (implements_sp a k ls) | | by left | destruct Hr as [->|[-> _]]; unfold ERROR; lia].
  - rewrite some_bind. assert ((if 0 <? r then load_user k3 abuf r else Some []) = Some bs) as ->; [|rewrite some_bind; eauto].
    case_if.
    + destruct Hr as [->|[-> _]]; [|done]. destruct (Hload (Z.of_nat (length bs))) as (rest & El & Hrest); [lia | unfold MAX_BUFFER in Habuf; lia|].
      rewrite El, Hrest by lia. by rewrite Nat2Z.id, firstn_all, app_nil_r.
    + destruct Hr as [->|[_ ->]]; [|done]. destruct bs; [done | cbn in *; lia].
  - cbn [sys_call_table]. by rewrite abuf_u32, !s32_u32, Ek, some_bind, Es, some_bind by done.
Qed.

Lemma user_getargs a k ls n r bs a' :
  implements a (k, ls) -> os_getargs n a = Some (r, bs, a') -> stepped _ (Getargs n) k ls (r, bs) a'.
Proof.
  intros Hi E. destruct (ru_args _ _ _ (im_running _ _ _ _ _ _ Hi)) as (c & b & _ & _ & _ & _ & (rest & _ & Hnz) & Hby & Hlen). unfold MAX_BUFFER in Habuf.
  destruct (entered_step (Getargs n) a k ls (r, bs) a' (call_regs 7 abuf n 0) Hi E) as (w & Ek & H2).
  cbn [kernel_step] in Ek. unfold on_kernel in Ek. cbn [fst snd] in Ek. apply bind_Some in Ek as ([rb k2] & Ek & [= -> <-]).
  apply bind_Some in Ek as (rb & Ek & [= -> <-]).
  assert (- 2 ^ 31 <= n < 2 ^ 31 /\ (r = ERROR /\ bs = [] \/ r = 0 /\ bs = o_args a ++ [0])) as [Hn Hbs].
  { unfold os_getargs in E. destruct (int32 n) eqn:Ei; [|done]. split; [unfold int32 in Ei; lia|]. cbn [negb] in E.
    destruct (n <? 0); injection E as <- <- <-; auto. }
  destruct (store_then_load a' _ ls bs H2) as (k3 & Es & H3 & Hload).
  { destruct Hbs as [[_ ->]|[_ ->]]; [constructor|]. apply Forall_app. split; [done | repeat constructor; unfold is_byte; lia]. }
  { destruct Hbs as [[_ ->]|[_ ->]]; [done|]. rewrite length_app. unfold MAX_BUFFER. cbn. lia. }
  cbn [user_step]. unfold on_machine. cbn [fst snd].
  rewrite (do_call_spec 7 abuf n 0 k r k3); [| lia | by apply (implements_sp a k ls) | | by left | destruct Hbs as [[-> _]|[-> _]]; unfold ERROR; lia].
  - rewrite some_bind. assert ((if r =? 0 then s ← load_user k3 abuf 1024; cs ← string_in s; Some (cs ++ [0]) else Some []) = Some bs) as ->; [|rewrite some_bind; eauto].
    destruct Hbs as [[-> ->]|[-> ->]]; [done|]. cbn [Z.eqb]. destruct (Hload 1024) as (junk & -> & _); [lia.. |]. rewrite some_bind.
    change (Z.to_nat 1024) with 1024%nat. rewrite take_ge by (rewrite length_app; cbn; lia). rewrite <- app_assoc.
    rewrite (string_in_spec _ (o_args a)) by (by exists junk). done.
  - cbn [sys_call_table]. by rewrite abuf_u32, s32_u32, Ek, some_bind, Es, some_bind by done.
Qed.

Lemma user_vidmap a k ls p r bs a' :
  implements a (k, ls) -> os_step refuse _ (Vidmap p) a = Some (r, bs, a') -> stepped _ (Vidmap p) k ls (r, bs) a'.
Proof.
  intros Hi E. destruct (entered_step (Vidmap p) a k ls (r, bs) a' (call_regs 8 p 0 0) Hi E) as (w & Ek & H2).
  cbn [kernel_step] in Ek. unfold on_kernel in Ek. cbn [fst snd] in Ek. apply bind_Some in Ek as ([rb k2] & Ek & [= -> <-]).
  apply bind_Some in Ek as ([r2 k3] & Ek & El). apply bind_Some in El as (bs2 & El & [= -> -> <-]).
  assert (0 <= p < 2 ^ 32 /\ - 2 ^ 31 <= r < 2 ^ 31) as [Hp Hr].
  { cbn [os_step] in E. destruct (_ || _) eqn:Er in E; [injection E as <- <- <-; unfold ERROR; lia|].
    destruct (_ && _) eqn:Eg in E; [|done]. injection E as <- <- <-. split; [lia | apply s32_range]. }
  cbn [user_step]. unfold on_machine. cbn [fst snd].
  rewrite (do_call_spec 8 p 0 0 k r k3); [| lia | by apply (implements_sp a k ls) | | by left | done].
  - rewrite some_bind, El, some_bind. eauto.
  - cbn [sys_call_table]. by rewrite u32_small, Ek, some_bind by lia.
Qed.

Lemma user_call_sys a k ls n r a' :
  implements a (k, ls) -> os_step refuse _ (Call_sys n) a = Some (r, a') -> stepped _ (Call_sys n) k ls r a'.
Proof.
  intros Hi E. cbn [os_step] in E. destruct (_ || _) eqn:Er in E; [|done]. injection E as <- <-.
  cbn [user_step]. unfold on_machine. cbn [fst snd]. unfold int80.
  destruct (bad_number_spec L dev pit_ret ret_addr jk (set_eax (u32 n) regs) program_ds k) as (m & -> & _); [apply regs_number | by apply (implements_sp a k ls) | |].
  { cbn [r_eax set_eax]. unfold s32, u32. zlia. }
  rewrite !some_bind, bool_decide_true by done. eexists. split; [reflexivity|]. by apply implements_kmem.
Qed.

Lemma user_set_handler a k ls s : implements a (k, ls) -> stepped _ (Set_handler s) k ls ERROR a.
Proof.
  intros Hi. cbn [user_step]. unfold on_machine. cbn [fst snd].
  rewrite (do_call_spec 9 s 0 0 k ERROR (entered (call_regs 9 s 0 0) k)); [| lia | by apply (implements_sp a k ls) | done | by left | done].
  eexists. split; [reflexivity|]. by apply implements_entered.
Qed.

Lemma user_simulates : simulates (os_step refuse) user_step implements.
Proof.
  intros X e a [k ls] x a' Hi E. destruct e; cbn [os_step] in E.
  - by apply (user_execute a).
  - destruct x. by apply (user_read a).
  - by apply (user_write a).
  - by apply (user_open a).
  - by apply (user_close a).
  - destruct x. by apply (user_getargs a).
  - destruct x. by apply (user_vidmap a).
  - injection E as <- <-. by apply user_set_handler.
  - by apply (user_call_sys a).
  - done.
  - done.
Qed.

End Calls.

(** ** The page tables after a call *)

(** The function of the table a call ran, on the kernel with the call under way. *)
Lemma int80_inv r k z k' :
  3 <= r_eax r <= 10 -> int80 r k = Some (z, k') ->
  exists m a1 a2 a3 sp ret, sys_call_table L dev pit_ret jk (r_eax r) a1 a2 a3 sp (with_kmem m k) = Some (Returns ret k') /\ z = s32 (u32 ret).
Proof.
  intros Hn E. unfold int80 in E. apply bind_Some in E as ([c ds] & E & E'). unfold system_call_linkage in E. cbv zeta in E.
  replace ((s32 (r_eax r) <? MIN_SYS_CALL) || (MAX_SYS_CALL <? s32 (r_eax r))) with false in E
    by (unfold MIN_SYS_CALL, MAX_SYS_CALL; rewrite s32_small by lia; lia).
  apply bind_Some in E as ([ret k2|k2] & Et & E); [|by injection E as <- <-].
  revert E Et. generalize (pushal r (push (iflags (r_frame r)) (int_frame (r_frame r) (kmem (pr k), esp0 (pr k))))). intros s.
  generalize (push ret_addr (push (r_ebx r) (push (r_ecx r) (push (r_edx r) s)))). intros s' E Et.
  injection E as <- <-. destruct (_ && _) in E'; [|done]. injection E' as <- <-.
  exists s'.1, (load32 s'.1 (u32 (s'.2 + 4))), (load32 s'.1 (u32 (s'.2 + 8))), (load32 s'.1 (u32 (s'.2 + 12))), s'.2, ret. by split.
Qed.

Lemma file_call_pages n a1 a2 a3 k z k' : 3 <= n <= 6 -> do_call n a1 a2 a3 k = Some (z, k') -> pg (pr k') = pg (pr k).
Proof.
  intros Hn (m & b1 & b2 & b3 & sp & ret & E & _)%int80_inv; [|cbn; lia]. by apply file_call_keeps in E as [_ ->].
Qed.

Lemma put_user_pr bs k k' : put_user bs k = Some k' -> pr k' = pr k.
Proof. unfold put_user. intros (c & _ & (b & _ & [= <-])%bind_Some)%bind_Some. done. Qed.

(** Reading, writing, opening and closing change no page table. *)
Definition on_files {X} (e : sysE X) : bool := match e with Read _ _ | Write _ _ _ | Open _ | Close _ => true | _ => false end.

Lemma file_step_pages {X} (e : sysE X) k ls x w : on_files e = true -> user_step X e (k, ls) = Some (x, w) -> pg (pr w.1) = pg (pr k).
Proof.
  intros He. destruct e; try discriminate He; cbn [user_step]; unfold on_machine; cbn [fst snd].
  - intros ([k1 ls1] & Et & E)%bind_Some. apply typed_pr in Et. apply bind_Some in E as ([r k2] & E & [= <- <-]).
    apply bind_Some in E as ([z k3] & E & E'). apply bind_Some in E' as (bs & _ & [= <- <-]). cbn [fst] in *.
    apply file_call_pages in E; [|lia]. congruence.
  - intros ([r k2] & (k1 & Ep & E)%bind_Some & [= <- <-])%bind_Some. apply put_user_pr in Ep. apply file_call_pages in E; [|lia]. cbn. congruence.
  - intros ([r k2] & (k1 & Ep & E)%bind_Some & [= <- <-])%bind_Some. apply put_user_pr in Ep. apply file_call_pages in E; [|lia]. cbn. congruence.
  - intros ([r k2] & E & [= <- <-])%bind_Some. apply file_call_pages in E; [|lia]. done.
Qed.

(** [vidmap] opens the page of the screen in the page tables of the process, or fails and
    leaves them alone. *)
Lemma vidmap_pages p k ls r bs w c b :
  curr_process (pr k) = Some c -> (pcbs (pr k)).[c] = Some b -> pid_ok (pid b) -> user_step _ (Vidmap p) (k, ls) = Some ((r, bs), w) ->
  r = ERROR /\ pg (pr w.1) = pg (pr k) \/ r <> ERROR /\ exists ret, map_vid_memory L (pid b) (pg (pr k)) = Some (ret, pg (pr w.1)).
Proof.
  unfold pid_ok. intros Hc Hb Hp ([r2 k2] & E & [= -> <-])%bind_Some. cbn [fst] in *. apply bind_Some in E as ([z k3] & E & E').
  apply bind_Some in E' as (bs2 & _ & [= -> _ ->]).
  apply int80_inv in E as (m & a1 & a2 & a3 & sp & ret & E & ->); [|cbn; lia]. cbn [sys_call_table call_regs r_eax] in E.
  apply bind_Some in E as ([ret' k4] & E & [= -> ->]). unfold kvidmap in E. cbn [pr with_kmem set_pr curr_process set_kmem pcbs] in E.
  rewrite Hc, some_bind, Hb, some_bind in E. destruct (_ =? _) in E; [injection E as <- <-; by left|].
  apply bind_Some in E as ([ret2 pg'] & Em & E). cbn [pg set_kmem] in Em.
  assert (ret2 = 0) as ->.
  { unfold map_vid_memory in Em. rewrite (proj2 (Z.ltb_ge _ _)) in Em by lia. unfold upd2 in Em.
    by repeat (apply bind_Some in Em as (? & _ & Em) || injection Em as <- _). }
  change (0 =? ERROR) with false in E. cbv iota zeta in E. injection E as <- <-. right. split; [done|]. by exists 0.
Qed.

(** ** Programs on the kernel *)

Context (Habuf : 0x8000000 <= abuf /\ abuf + MAX_BUFFER <= 0x8400000) (Hregs : regs_ok regs) (Hret : u32_range_of ret_addr)
  (Hjk : (129 <= length (cmd_junk jk))%nat).

(** A run against the specification is a run on the kernel. *)
Lemma run_on_kernel {R} (p : prog R) t v k hs cs ls r a :
  ready L t v k hs cs ls -> runs (os_step refuse) p (os_of k hs cs ls) r a ->
  exists k' ls', runs user_step p (k, ls) r (k', ls') /\ implements L t v (screen k) a (k', ls').
Proof.
  intros Hr H. destruct (runs_sim _ _ _ _ _ _ _ _ (user_simulates Habuf Hregs Hret Hjk t v (screen k)) (ready_implements _ _ _ _ _ _ _ Hr) H)
    as ([k' ls'] & H1 & H2). eauto.
Qed.

(** C7: the kernel implements the operating system of the specification: from states that
    correspond, every call the specification answers is answered by the kernel with the
    same result and the same bytes, the general registers but eax, the flags, the stack and
    [ds], which is null in a program, being as before, and the states after it correspond again: handles and
    descriptors, positions, files, arguments, and the history of the terminal. *)
Theorem kernel_implements_unix t v ts0 : simulates (os_step refuse) user_step (implements L t v ts0).
Proof. by apply user_simulates. Qed.

(** C15: [cat] of a regular file, run on the kernel's own system calls with the file system
    image, the descriptors and the terminal of a process: it ends with 0, and what it wrote
    to the terminal since it started is the content of the file in the image, byte
    for byte without the zeros. *)
Theorem cat_on_kernel t v k hs cs ls i b :
  ready L t v k hs cs ls -> lookup_name (image k) (fsys k) cs = Some i -> entry_type (image k) (fsys k) i = REGULAR_FILE ->
  cs <> [] -> text cs -> (length cs < 1024)%nat -> is_Some (free_handle hs) -> length b = 1024%nat ->
  exists k' es, runs user_step (Cat.cat_main b) (k, ls) 0 (k', ls) /\ history t v (screen k) es (screen k') /\
    shown_bytes es = nonzero (file_content (image k) (fsys k) (get_inode_ptr (fsys k) (entry_inode (image k) (fsys k) i))).
Proof.
  intros Hr Hi Hty Hne Htx Hlen [j Hj] Hb. pose proof Hr as [Him Hnx Htab _ _ _ _ _]. pose proof (io_dir k Him) as Hdir.
  pose proof (do_entries _ _ Hdir) as Hents.
  assert (cat_shows (os_of k hs cs ls) = (0, nonzero (file_content (image k) (fsys k) (get_inode_ptr (fsys k) (entry_inode (image k) (fsys k) i))))) as Hs.
  { unfold cat_shows, opens. cbn [o_args os_of o_fds o_dir]. rewrite Hj. destruct cs as [|c cs]; [done|].
    rewrite (find_name_lookup k (c :: cs) Him Hne), Hi.
    cbn [fmap option_fmap option_map]. unfold new_handle. cbn [e_type entry]. by rewrite Hty. }
  destruct (cat_runs refuse (os_of k hs cs ls) b) as (a & Hrun & Hsame & Hout); try done.
  - by apply entries_named.
  - unfold os_of, entries. cbn [o_next o_dir]. rewrite length_map, length_seqZ. lia.
  - intros ino. cbn [o_data os_of]. pose proof (load32_range (image k) (get_inode_ptr (fsys k) ino) (do_bytes _ _ Hdir)) as Hl.
    rewrite length_content; unfold inode_length; lia.
  - rewrite Hs in Hrun, Hout. destruct (run_on_kernel _ t v k hs cs ls 0 a Hr Hrun) as (k' & ls' & H1 & H2).
    exists k', (o_console a). pose proof (im_lines _ _ _ _ _ _ H2) as Hl. cbn [snd] in Hl. destruct Hsame as (_ & _ & _ & Hl' & _).
    rewrite Hl' in Hl. cbn in Hl. subst ls'. split; [exact H1|]. split; [apply (im_shows _ _ _ _ _ _ H2) | exact Hout].
Qed.

(** C14: the repository's test of the error paths passes on the kernel: bad descriptors,
    a seventh open file, names that do not exist, closed files, bad pointers for
    vidmap, the standard files used the wrong way round and bad call numbers are all
    refused, so that every test reports PASS on the terminal and the result is 0. *)
Theorem syserr_on_kernel t v k cs rest i b bs :
  ready L t v k std_handles cs (str "0" :: rest) ->
  lookup_name (image k) (fsys k) (str ".") = Some i -> entry_type (image k) (fsys k) i = DIRECTORY ->
  lookup_name (image k) (fsys k) (str "helloo") = None -> lookup_name (image k) (fsys k) (str "shel") = None ->
  length b = 128%nat -> (forall j, length (bs j) = 32%nat) ->
  exists k' es, runs user_step (Syserr.syserr_main b bs) (k, str "0" :: rest) 0 (k', rest) /\ history t v (screen k) es (screen k') /\
    shown_bytes es = str "Choose from tests 1-8. 0 to run all: " ++ syserr_report.
Proof.
  intros Hr Hdot Hty H1 H2 Hb Hbs. pose proof Hr as [Him _ _ _ _ _ _ _].
  destruct (syserr_runs refuse (os_of k std_handles cs (str "0" :: rest)) (entry k i) rest b bs) as (a & Hrun & Hlines & Hout); try done.
  - split; cbn [o_fds o_dir os_of]; [done | | exact Hty | |]; rewrite (find_name_lookup k) by done; [by rewrite Hdot | by rewrite H1 | by rewrite H2].
  - destruct (run_on_kernel _ t v k _ _ _ 0 a Hr Hrun) as (k' & ls' & H3 & H4). pose proof (im_lines _ _ _ _ _ _ H4) as Hl. cbn [snd] in Hl.
    rewrite Hlines in Hl. subst ls'. exists k', (o_console a). split; [exact H3|]. split; [apply (im_shows _ _ _ _ _ _ H4) | exact Hout].
Qed.

End User.

(** ** Witnesses *)

Definition demo_user : user_regs := demo_regs 0 0.

Lemma demo_user_ok : regs_ok demo_user.
Proof. by apply demo_regs_ok. Qed.

#[local] Abbreviation demo_step := (user_step demo_layout (fun _ _ => 0) 0 0x400000 demo_junk demo_user 0x8100000).

Lemma kernel_implements_unix_witness :
  simulates (os_step refuse) demo_step (implements demo_layout 0 0xb8000 demo_terminals).
Proof. apply (kernel_implements_unix demo_layout (fun _ _ => 0) 0 0x400000 demo_junk demo_user 0x8100000); [unfold MAX_BUFFER; lia | apply demo_user_ok | done | cbn; lia]. Defined.

(** [cat a] shows the 4098 bytes of the file. *)
Lemma cat_on_kernel_witness :
  exists pages v k' es, runs demo_step (Cat.cat_main (replicate 1024 0)) (demo_machine pages, []) 0 (k', []) /\
    history 0 v demo_terminals es (screen k') /\
    shown_bytes es = nonzero (file_content demo_mem demo_fs demo_inode).
Proof.
  destruct demo_pages as (pages & v & Hm). exists pages, v.
  apply (cat_on_kernel demo_layout (fun _ _ => 0) 0 0x400000 demo_junk demo_user 0x8100000 ltac:(unfold MAX_BUFFER; lia) demo_user_ok ltac:(done) ltac:(cbn; lia)
    0 v (demo_machine pages) std_handles [97] [] 1 (replicate 1024 0));
    [by apply demo_ready | vm_compute; reflexivity | vm_compute; reflexivity | done | by repeat constructor | cbn; lia | by eexists | done].
Defined.

Lemma syserr_on_kernel_witness :
  exists pages v k' es, runs demo_step (Syserr.syserr_main (replicate 128 0) (fun _ => replicate 32 0)) (demo_machine pages, [str "0"]) 0 (k', []) /\
    history 0 v demo_terminals es (screen k') /\
    shown_bytes es = str "Choose from tests 1-8. 0 to run all: " ++ syserr_report.
Proof.
  destruct demo_pages as (pages & v & Hm). exists pages, v.
  apply (syserr_on_kernel demo_layout (fun _ _ => 0) 0 0x400000 demo_junk demo_user 0x8100000 ltac:(unfold MAX_BUFFER; lia) demo_user_ok ltac:(done) ltac:(cbn; lia)
    0 v (demo_machine pages) [97] [] 0 (replicate 128 0) (fun _ => replicate 32 0));
    [apply demo_ready; [done|] | vm_compute; reflexivity | vm_compute; reflexivity | vm_compute; reflexivity | vm_compute; reflexivity | done | done].
  repeat constructor; cbn; lia.
Defined.
