(* ===== verification/Sigtest.v ===== *)
(** * The test of the signals, [syscalls/ece391sigtest.c]

    The kernel refuses signal handlers, so the store through a null pointer in the middle
    of the program is a page fault: the program gets exactly as far as that. *)

From ITree Require Import ITree.
From S2P Require Import Prelude MemOps Lib Ports Rtc Terminal FileSystem Paging Process Schedule FileArray Reading Lifecycle Drivers Linkage.
From S2P Require Import UserLib Syscalls Programs Unix ProgramSpecs Refinement UserCalls.
From Stdlib Require Import ZArith Lia ZifyBool.
From stdpp Require Import base list option sets.

#[local] Open Scope Z_scope.

(** What it shows before the fault. *)
Definition sigtest_shows (args : list Z) : list Z :=
  (if bool_decide (head args = Some 49) then str "Installing signal handlers" ++ [10] else []) ++ str "Hi, what's your name? ".

Section Specs.
Context (execute : list Z -> os -> option (Z * os)).

Ltac says :=
  eapply runs_fdputs; [| first [apply lit_cstring | apply litn_cstring]; by repeat constructor | by vm_compute |].

(** The first part: the handlers are announced and refused. *)
Lemma install_runs a c :
  on_stdout a ->
  exists a', runs (os_step execute)
    (if c =? 49 then
       ece391_fdputs 1 (litn "Installing signal handlers");;;
       sys (Set_handler Sigtest.SEGFAULT);;; sys (Set_handler Sigtest.ALARM);;; Ret tt
     else Ret tt) a tt a' /\ o_fds a' = o_fds a /\ o_lines a' = o_lines a /\
    output a' = output a ++ (if c =? 49 then str "Installing signal handlers" ++ [10] else []).
Proof.
  intros Hout. destruct (c =? 49).
  - eexists. split; [says; [done|]; eapply runs_call; [reflexivity|]; eapply runs_call; [reflexivity|]; apply runs_ret|].
    split_and!; [done | done | apply output_say].
  - exists a. split; [apply runs_ret|]. by rewrite app_nil_r.
Qed.

Lemma sigtest_faults a l rest buf :
  table_ok a -> text (o_args a) -> (length (o_args a) < 1024)%nat -> o_lines a = l :: rest -> line_ok l -> length buf = 1024%nat ->
  exists a', faults (os_step execute) (Sigtest.sigtest_main false buf) a a' /\ o_lines a' = rest /\
    output a' = output a ++ sigtest_shows (o_args a).
Proof.
  intros Ht Htx Hargs Hl Hline Hbuf. set (buf1 := (o_args a ++ [0]) ++ drop (length (o_args a ++ [0])) buf).
  assert (fill buf 0 (o_args a ++ [0]) = Some buf1) as E1 by (apply fill_start; rewrite length_app; cbn; lia).
  assert (length buf1 = 1024%nat) as Hb1 by (apply fill_length in E1; lia).
  destruct (zget_ex buf1 0) as [c Hc]; [lia|].
  assert ((c =? 49) = bool_decide (head (o_args a) = Some 49)) as Hc49.
  { unfold buf1 in Hc. destruct (o_args a) as [|x args]; cbn in Hc; injection Hc as <-; [done|]. cbn [head].
    destruct (Z.eqb_spec x 49) as [->|Hne]; [by rewrite bool_decide_true | by rewrite bool_decide_false by congruence]. }
  destruct (install_runs a c) as (a1 & R1 & Hf1 & Hl1 & Ho1); [by destruct Ht as (_ & _ & H)|].
  assert (table_ok a1) as Ht1 by (unfold table_ok in *; by rewrite Hf1).
  set (a2 := say (Shown (str "Hi, what's your name? ")) a1).
  exists (set_lines rest (say (Entered l) a2)). split_and!; [|done|].
  - unfold Sigtest.sigtest_main. eapply faults_call; [reflexivity|]. cbn beta iota. eapply faults_step; [exact E1|].
    change (negb (0 =? 0)) with false. cbv iota. eapply faults_step; [exact Hc|]. eapply faults_bind; [exact R1|].
    eapply (faults_bind _ _ _ _ tt a2).
    { apply fdputs_runs; [by destruct Ht1 as (_ & _ & H) | apply lit_cstring; by repeat constructor | by vm_compute]. }
    eapply faults_call; [apply (os_read_line a2 l rest); [exact Ht1 | cbn; congruence | done]|]. cbn beta iota.
    destruct (fill_line buf1 l (proj2 Hline) Hb1) as (buf2 & E2 & _). eapply faults_step; [exact E2|].
    bfalse (-1 =? Z.of_nat (length l) + 1). apply faults_lift.
  - unfold output. cbn [o_console set_lines]. fold (output (say (Entered l) a2)). rewrite output_entered. unfold a2. rewrite output_say, Ho1, Hc49.
    unfold sigtest_shows. by rewrite app_assoc.
Qed.
End Specs.

(** ** On the kernel *)

Section OnKernel.
Context (L : layout) (dev : log -> Z -> Z) (pit_ret ret_addr : Z) (jk : junk) (regs : user_regs) (abuf : Z).
Context (Habuf : 0x8000000 <= abuf /\ abuf + MAX_BUFFER <= 0x8400000) (Hregs : regs_ok regs) (Hret : u32_range_of ret_addr)
  (Hjk : (129 <= length (cmd_junk jk))%nat).

(** Address 0 belongs to no page of a program. *)
Lemma null_unmapped s pid : paging_ok L s -> layout_ok L -> pid_ok pid -> cr3 s = pd_addr L pid -> translate L s true 0 = None.
Proof.
  intros Hok HL Hp Hcr. replace s with (set_cr3 (pd_addr L pid) s) by (rewrite <- Hcr; by destruct s).
  rewrite translate_walk by (done || lia). destruct (walk _ _ _ _ _ _) as [pa|] eqn:E; [|done]. destruct Hok as (_ & _ & _ & H).
  apply (walk_user_inv L) in E; [|by apply H | lia]. unfold program_page, vidmap_page in E. lia.
Qed.

(** The call that installs a handler fails, whichever signal it is for. *)
Definition refuses_handlers (w : machine) : Prop :=
  forall signum, exists k', user_step L dev pit_ret ret_addr jk regs abuf _ (Set_handler signum) w = Some (ERROR, (k', w.2)).

Lemma implements_refuses t v ts0 a w : implements L t v ts0 a w -> refuses_handlers w.
Proof.
  destruct w as [k ls]. intros Hi signum.
  destruct (user_set_handler L dev pit_ret ret_addr jk regs abuf Hregs Hret Hjk t v ts0 a k ls signum Hi) as ([k' ls'] & E & Hi').
  pose proof (im_lines _ _ _ _ _ _ Hi) as H1. pose proof (im_lines _ _ _ _ _ _ Hi') as H2. cbn [snd] in *. exists k'. by rewrite E, <- H2, H1.
Qed.

(** C16: [sigtest] on the kernel.  A call that installs a handler returns -1, before the
    program as after it; the program does not look at the result.  It says that it installs
    handlers when its argument starts with 1, asks for a name, reads the line, and the store
    through the null pointer that follows finds no page: with no handler the program ends there,
    and what was shown is that announcement and the question, and nothing after them. *)
Theorem sigtest_on_kernel t v k cs l rest buf :
  ready L t v k std_handles cs (l :: rest) -> text cs -> (length cs < 1024)%nat -> length buf = 1024%nat ->
  exists k' es, faults (user_step L dev pit_ret ret_addr jk regs abuf) (Sigtest.sigtest_main false buf) (k, l :: rest) (k', rest) /\
    history t v (screen k) es (screen k') /\ shown_bytes es = sigtest_shows cs /\
    refuses_handlers (k, l :: rest) /\ refuses_handlers (k', rest) /\ translate L (pg (pr k')) true 0 = None.
Proof.
  intros Hr Htx Hlen Hbuf. pose proof (re_typed _ _ _ _ _ _ _ Hr) as Hty. inversion Hty as [|? ? [Hl1 Hl2] _]; subst.
  destruct (sigtest_faults refuse (os_of k std_handles cs (l :: rest)) l rest buf) as (a & Hf & Hlines & Hout); try done.
  - split; [|lia]. eapply Forall_impl; [exact Hl1|]. cbn. lia.
  - pose proof (ready_implements _ _ _ _ _ _ _ Hr) as Hi0.
    destruct (faults_sim _ _ _ _ _ _ _ (user_simulates L dev pit_ret ret_addr jk regs abuf Habuf Hregs Hret Hjk t v (screen k)) Hi0 Hf)
      as ([k' ls'] & Hf' & Hi).
    pose proof (im_lines _ _ _ _ _ _ Hi) as Hl. cbn [snd] in Hl. rewrite Hlines in Hl. subst ls'.
    exists k', (o_console a). split_and!; [exact Hf' | apply (im_shows _ _ _ _ _ _ Hi) | exact Hout | by eapply implements_refuses | by eapply implements_refuses|].
    destruct (im_running _ _ _ _ _ _ Hi) as [_ _ _ HL Hok (c & b & _ & _ & Hp & Hcr & _)]. by apply (null_unmapped _ (pid b)).
Qed.

End OnKernel.

(** [sigtest 1]. *)
Lemma sigtest_on_kernel_witness :
  exists pages v k' es, faults (user_step demo_layout (fun _ _ => 0) 0 0x400000 demo_junk demo_user 0x8100000)
      (Sigtest.sigtest_main false (replicate 1024 0)) (machine_for [49] demo_fs demo_mem pages, [str "bob"]) (k', []) /\
    history 0 v demo_terminals es (screen k') /\ shown_bytes es = str "Installing signal handlers" ++ [10] ++ str "Hi, what's your name? " /\
    translate demo_layout (pg (pr k')) true 0 = None.
Proof.
  destruct demo_pages as (pages & v & Hm). exists pages, v.
  destruct (sigtest_on_kernel demo_layout (fun _ _ => 0) 0 0x400000 demo_junk demo_user 0x8100000 ltac:(unfold MAX_BUFFER; lia) demo_user_ok ltac:(done) ltac:(cbn; lia)
    0 v (machine_for [49] demo_fs demo_mem pages) [49] (str "bob") [] (replicate 1024 0)) as (k' & es & H1 & H2 & H3 & _ & _ & H4).
  - apply machine_for_ready; [repeat constructor; lia | cbn; lia | apply demo_image_ok | | exact Hm|].
    + change (NUM_DIR_ENTRIES demo_mem demo_fs) with 2. change (curr_file_number demo_fs) with 0. lia.
    + change (str "bob") with [98; 111; 98]. repeat constructor; cbn; lia.
  - by repeat constructor.
  - cbn. lia.
  - done.
  - exists k', es. by split_and!.
Defined.
