(* ===== verification/Emulate.v ===== *)
(** * The calls on Linux, [syscalls/ece391emulate.c]

    The library that lets the programs run on Linux: [ece391_execute] splits the command
    into an argument vector, [ece391_getargs] joins the vector of the child again, and a
    directory is read through [readdir].  Linux is a parameter: a record of the calls
    the file makes, on a state of its own.  Arrays are lists and a C access outside of one
    is [None]. *)

From Stdlib Require Import ZArith Lia ZifyBool.
From stdpp Require Import base list option sets.
From S2P Require Import Prelude Lib UserLib.

(** How a child ended, as [wait] reports it. *)
Inductive wait_status := Exited (code : Z) | Signaled (sig : Z).

(** The calls of Linux: the raw results of [INT $0x80] in eax, and the library functions. *)
Record linux (H D : Type) := Linux {
  int_open : list Z -> H -> Z * H;
  int_read : Z -> Z -> H -> Z * list Z * H;
  int_write : Z -> list Z -> Z -> H -> Z * H;
  int_close : Z -> H -> Z * H;
  opendir : H -> option D * H;
  readdir : D -> H -> option (list Z) * H;
  closedir : D -> H -> H;
  open_null : H -> Z * H;
  close_fd : Z -> H -> H;
  open_mem : H -> Z * H;
  mmap_low : Z -> H -> option Z * H;
  spawn : list Z -> list (list Z) -> H -> wait_status * H }.

Arguments int_open {H D}. Arguments int_read {H D}. Arguments int_write {H D}. Arguments int_close {H D}.
Arguments opendir {H D}. Arguments readdir {H D}. Arguments closedir {H D}. Arguments open_null {H D}.
Arguments close_fd {H D}. Arguments open_mem {H D}. Arguments mmap_low {H D}. Arguments spawn {H D}.

(** [CMP $0xFFFFC000,%EAX; JBE 1f; MOVL $-1,%EAX]: the errors of Linux become -1. *)
Definition linux_result (eax : Z) : Z := if 0xFFFFC000 <? eax then -1 else s32 eax.

(** ** Strings *)

(** [ece391_strcpy] between two arrays, to [dst + d]. *)
Fixpoint strcpy_to (dst : list Z) (d : Z) (src : list Z) : option (list Z) :=
  match src with
  | [] => None
  | c :: src' => dst ← dst.[d <- c]; if c =? 0 then Some dst else strcpy_to dst (d + 1) src'
  end.

(** [while ('\0' != *scan && ' ' != *scan && '\n' != *scan) scan++;] *)
Fixpoint scan_word (fuel : nat) (buf : list Z) (scan : Z) : option Z :=
  match fuel with
  | O => None
  | S fuel' => c ← buf.[scan]; if (c =? 0) || (c =? 32) || (c =? 10) then Some scan else scan_word fuel' buf (scan + 1)
  end.

(** [while (' ' == *scan) scan++;] *)
Fixpoint skip_spaces (fuel : nat) (buf : list Z) (scan : Z) : option Z :=
  match fuel with
  | O => None
  | S fuel' => c ← buf.[scan]; if c =? 32 then skip_spaces fuel' buf (scan + 1) else Some scan
  end.

(** The loop over the arguments; [args] are the pointers stored so far, as indices of [buf],
    in an array of 1024. *)
Fixpoint parse_args (fuel : nat) (buf : list Z) (scan : Z) (args : list Z) : option (list Z * list Z) :=
  match fuel with
  | O => None
  | S fuel' =>
      scan ← skip_spaces (S (length buf)) buf scan;
      c ← buf.[scan];
      if (c =? 0) || (c =? 10) then buf ← buf.[scan <- 0]; Some (buf, args)
      else
        if 1024 <=? Z.of_nat (length args) then None
        else
          let args := args ++ [scan] in
          scan ← scan_word (S (length buf)) buf scan;
          c ← buf.[scan];
          if negb (c =? 0) then buf ← buf.[scan <- 0]; parse_args fuel' buf (scan + 1) args
          else parse_args fuel' buf scan args
  end.

(** The string an argument points to: up to its zero. *)
Fixpoint string_at (buf : list Z) : option (list Z) :=
  match buf with
  | [] => None
  | c :: buf' => if c =? 0 then Some [] else s ← string_at buf'; Some (c :: s)
  end.

(** The buffer and the pointers when [args[n_arg] = NULL] has been stored; [junk] is what
    the 1026 bytes on the stack held. *)
Definition split_command (command junk : list Z) : option (list Z * list Z) :=
  buf ← junk.[0 <- 46]; buf ← buf.[1 <- 47];
  buf ← strcpy_to buf 2 command;
  scan ← scan_word (S (length buf)) buf 2;
  c ← buf.[scan];
  '(buf, args) ← (if negb (c =? 0) then buf ← buf.[scan <- 0]; parse_args (S (length buf)) buf (scan + 1) [0] else Some (buf, [0]));
  if Z.of_nat (length args) <? 1024 then Some (buf, args) else None.

Section Calls.
Context {H D : Type} (lx : linux H D).

(** [dir], [dir_fd] and [mem_fd], and Linux. *)
Record emulation := Emulation { dir : option D; dir_fd : Z; mem_fd : Z; host : H }.

Definition set_host (h : H) (e : emulation) : emulation := Emulation (dir e) (dir_fd e) (mem_fd e) h.

Definition ece391_execute (command junk : list Z) (e : emulation) : option (Z * emulation) :=
  n ← ece391_strlen command;
  if 1023 <? n then Some (-1, e)
  else
    '(buf, args) ← split_command command junk;
    path ← string_at buf;
    argv ← mapM (fun p => string_at (drop (Z.to_nat p) buf)) args;
    let '(status, h) := spawn lx path argv (host e) in
    Some (match status with Exited code => code | Signaled sig => if sig =? 9 then -1 else 256 end, set_host h e).

Definition ece391_open (filename : list Z) (e : emulation) : option (Z * emulation) :=
  r ← ece391_strcmp filename (str "." ++ [0]);
  if 0 =? r then
    let '(d, h) := opendir lx (host e) in
    let '(fd, h) := open_null lx h in
    Some (fd, Emulation d fd (mem_fd e) h)
  else
    let '(rval, h) := int_open lx filename (host e) in
    Some (linux_result rval, set_host h e).

(** The two loops of a read of the directory, into [to]: the name, then zeros. *)
Fixpoint copy_name (from to : list Z) (copied nbytes : Z) : option (Z * list Z * bool) :=
  match from with
  | [] => None
  | c :: from' =>
      if c =? 0 then Some (copied, to, false)
      else
        to ← to.[copied <- c];
        if copied + 1 =? nbytes then Some (nbytes, to, true)
        else if 32 =? copied + 1 then Some (32, to, true)
        else copy_name from' to (copied + 1) nbytes
  end.

Definition pad_name (to : list Z) (copied nbytes : Z) : option (Z * list Z) :=
  while_do 33 (fun '(copied, _) => (copied <? nbytes) && (copied <? 32))
    (fun '(copied, to) => to ← to.[copied <- 0]; Some (copied + 1, to)) (copied, to).

Definition is_dir (fd : Z) (e : emulation) : option D :=
  match dir e with Some d => if dir_fd e =? fd then Some d else None | None => None end.

(** [buf] is the buffer of the caller, and as a result what it then holds. *)
Definition ece391_read (fd : Z) (buf : list Z) (nbytes : Z) (e : emulation) : option (Z * list Z * emulation) :=
  match is_dir fd e with
  | None =>
      let '(r, bs, h) := int_read lx fd nbytes (host e) in
      if Z.of_nat (length buf) <? Z.of_nat (length bs) then None
      else Some (linux_result r, bs ++ drop (length bs) buf, set_host h e)
  | Some d =>
      let '(de, h) := readdir lx d (host e) in
      match de with
      | None => Some (0, buf, set_host h e)
      | Some d_name =>
          '(copied, buf, done) ← copy_name d_name buf 0 nbytes;
          '(copied, buf) ← (if (done : bool) then Some (copied, buf) else pad_name buf copied nbytes);
          Some (copied, buf, set_host h e)
      end
  end.

Definition ece391_write (fd : Z) (buf : list Z) (nbytes : Z) (e : emulation) : Z * emulation :=
  match is_dir fd e with
  | None => let '(r, h) := int_write lx fd buf nbytes (host e) in (linux_result r, set_host h e)
  | Some _ => (-1, e)
  end.

Definition ece391_close (fd : Z) (e : emulation) : Z * emulation :=
  match is_dir fd e with
  | None => let '(r, h) := int_close lx fd (host e) in (linux_result r, set_host h e)
  | Some d => (0, Emulation None (-1) (mem_fd e) (close_fd lx (dir_fd e) (closedir lx d (host e))))
  end.

(** The address the program finds at [screen_start] afterwards. *)
Definition ece391_vidmap (e : emulation) : Z * option Z * emulation :=
  let e := if mem_fd e =? -1 then let '(fd, h) := open_mem lx (host e) in Emulation (dir e) (dir_fd e) fd h else e in
  let '(image, h) := mmap_low lx (mem_fd e) (host e) in
  match image with
  | None => (-1, None, set_host h e)
  | Some a => (0, Some (a + 0xb8000), set_host h e)
  end.

End Calls.

(** [argv] without its first element; [p] is where [buf] points to in the array. *)
Fixpoint join_args (args : list (list Z)) (buf : list Z) (p nbytes : Z) : option (Z * list Z) :=
  match args with
  | [] => if nbytes <? 1 then Some (-1, buf) else buf ← buf.[p <- 0]; Some (0, buf)
  | a :: args' =>
      len ← ece391_strlen a;
      if nbytes <? len then Some (-1, buf)
      else
        buf ← strcpy_to buf p a;
        let p := p + len in
        let nbytes := nbytes - len in
        match args' with
        | [] => if nbytes <? 1 then Some (-1, buf) else buf ← buf.[p <- 0]; Some (0, buf)
        | _ =>
            if nbytes <? 1 then Some (-1, buf)
            else buf ← buf.[p <- 32]; join_args args' buf (p + 1) (nbytes - 1)
        end
  end.

Definition ece391_getargs (argv : list (list Z)) (buf : list Z) (nbytes : Z) : option (Z * list Z) :=
  join_args (drop 1 argv) buf 0 nbytes.

(** ** Words *)

Definition sep (c : Z) : bool := (c =? 0) || (c =? 32) || (c =? 10).
Definition word_ok (w : list Z) : Prop := Forall (fun c => sep c = false) w.

(** The arguments in the text behind the first separator: words with spaces before them,
    each ended by one space or newline; a newline where a word could begin ends the list. *)
Inductive splits_to : list Z -> list (list Z) -> Prop :=
  | st_end n : splits_to (replicate n 32) []
  | st_newline n rest : splits_to (replicate n 32 ++ 10 :: rest) []
  | st_last n w : word_ok w -> w <> [] -> splits_to (replicate n 32 ++ w) [w]
  | st_word n w c t ws : word_ok w -> w <> [] -> c = 32 \/ c = 10 -> splits_to t ws -> splits_to (replicate n 32 ++ w ++ c :: t) (w :: ws).

(** A command: its first word and its arguments. *)
Inductive command_is : list Z -> list Z -> list (list Z) -> Prop :=
  | ci_bare w : word_ok w -> command_is w w []
  | ci_args w c t ws : word_ok w -> c = 32 \/ c = 10 -> splits_to t ws -> command_is (w ++ c :: t) w ws.

(** The arguments with one space between them. *)
Fixpoint joined (ws : list (list Z)) : list Z :=
  match ws with
  | [] => []
  | [w] => w
  | w :: ws' => w ++ 32 :: joined ws'
  end.

Lemma skipped_spaces pre n c r fuel :
  c <> 32 -> (n < fuel)%nat ->
  skip_spaces fuel (pre ++ replicate n 32 ++ c :: r) (Z.of_nat (length pre)) = Some (Z.of_nat (length pre + n)).
Proof.
  intros Hc. revert pre fuel. induction n as [|n IH]; intros pre fuel Hf; (destruct fuel as [|fuel]; [lia|]); cbn [skip_spaces replicate app].
  - rewrite zget_app_r, Z.sub_diag by lia. change ((c :: r).[0]) with (Some c). rewrite some_bind. bfalse (c =? 32). f_equal. lia.
  - rewrite zget_app_r, Z.sub_diag by lia. change ((32 :: replicate n 32 ++ c :: r).[0]) with (Some 32). rewrite some_bind. cbn [Z.eqb Pos.eqb].
    pose proof (IH (pre ++ [32]) fuel ltac:(lia)) as E. rewrite <- app_assoc, length_app in E. cbn [app length] in E.
    replace (Z.of_nat (length pre) + 1) with (Z.of_nat (length pre + 1)) by lia. rewrite E. f_equal. lia.
Qed.

Lemma scan_word_spec pre w c r fuel :
  word_ok w -> sep c = true -> (length w < fuel)%nat ->
  scan_word fuel (pre ++ w ++ c :: r) (Z.of_nat (length pre)) = Some (Z.of_nat (length pre + length w)).
Proof.
  intros Hw Hc. revert pre fuel. induction Hw as [|x w Hx _ IH]; intros pre fuel Hf; (destruct fuel as [|fuel]; [cbn in Hf; lia|]); cbn [scan_word app].
  - rewrite zget_app_r, Z.sub_diag by lia. change ((c :: r).[0]) with (Some c). rewrite some_bind. unfold sep in Hc. rewrite Hc. f_equal. cbn [length]. lia.
  - rewrite zget_app_r, Z.sub_diag by lia. change ((x :: w ++ c :: r).[0]) with (Some x). rewrite some_bind. unfold sep in Hx. rewrite Hx.
    pose proof (IH (pre ++ [x]) fuel ltac:(cbn in Hf; lia)) as E. rewrite <- app_assoc, length_app in E. cbn [app length] in E.
    replace (Z.of_nat (length pre) + 1) with (Z.of_nat (length pre + 1)) by lia. rewrite E. f_equal. cbn [length]. lia.
Qed.

Lemma string_at_word w r : word_ok w -> string_at (w ++ 0 :: r) = Some w.
Proof.
  induction 1 as [|c w Hc _ IH]; [done|]. cbn. unfold sep in Hc. destruct (c =? 0); [done|]. by rewrite IH.
Qed.

Lemma splits_to_count t ws : splits_to t ws -> (length ws <= length t)%nat.
Proof.
  induction 1 as [| | n w _ Hw | n w c t ws _ Hw _ _ IH]; cbn [length]; try lia; rewrite ?length_app; cbn [length]; [destruct w; [done | cbn; lia] | lia].
Qed.

(** A word of the text: its pointer leads to it in every later state of the buffer. *)
Definition points_to (buf : list Z) (p : Z) (w : list Z) : Prop := 0 <= p /\ string_at (drop (Z.to_nat p) buf) = Some w.

Lemma points_to_word pre w r : word_ok w -> points_to (pre ++ w ++ 0 :: r) (Z.of_nat (length pre)) w.
Proof. intros Hw. split; [lia|]. rewrite Nat2Z.id, drop_app_length. by apply string_at_word. Qed.

Lemma get_at pre a c (r : list Z) i :
  i = Z.of_nat (length pre + length a) -> (pre ++ a ++ c :: r).[i] = Some c.
Proof.
  intros ->. rewrite app_assoc, zget_app_r by (rewrite length_app; lia). rewrite length_app, Z.sub_diag. done.
Qed.

Lemma set_at pre a c d (r : list Z) i :
  i = Z.of_nat (length pre + length a) -> (pre ++ a ++ c :: r).[i <- d] = Some (pre ++ a ++ d :: r).
Proof. intros ->. rewrite !app_assoc. apply zset_app_mid. by rewrite length_app. Qed.

(** The end of the list of arguments, at a zero or a newline. *)
Lemma parse_args_end fuel pre n c r args :
  c = 0 \/ c = 10 -> (0 < fuel)%nat ->
  parse_args fuel (pre ++ replicate n 32 ++ c :: r) (Z.of_nat (length pre)) args = Some (pre ++ replicate n 32 ++ 0 :: r, args).
Proof.
  intros Hc Hf. destruct fuel as [|fuel]; [lia|]. cbn [parse_args].
  rewrite skipped_spaces by (rewrite ?length_app, ?length_replicate; cbn [length]; lia). rewrite some_bind.
  rewrite (get_at pre (replicate n 32) c r) by (rewrite length_replicate; lia). rewrite some_bind. btrue ((c =? 0) || (c =? 10)).
  rewrite (set_at pre (replicate n 32) c 0 r) by (rewrite length_replicate; lia). done.
Qed.

(** One argument, up to the separator behind it. *)
Lemma parse_args_word fuel pre n w c r args :
  word_ok w -> w <> [] -> sep c = true -> Z.of_nat (length args) < 1024 ->
  parse_args (S fuel) (pre ++ replicate n 32 ++ w ++ c :: r) (Z.of_nat (length pre)) args =
  if negb (c =? 0) then parse_args fuel (pre ++ replicate n 32 ++ w ++ 0 :: r) (Z.of_nat (length pre + n + length w + 1)) (args ++ [Z.of_nat (length pre + n)])
  else parse_args fuel (pre ++ replicate n 32 ++ w ++ c :: r) (Z.of_nat (length pre + n + length w)) (args ++ [Z.of_nat (length pre + n)]).
Proof.
  intros Hw Hne Hc Ha. cbn [parse_args]. destruct w as [|x w]; [done|]. inversion Hw as [|? ? Hx Hw']; subst. pose proof Hx as Hx'. unfold sep in Hx'.
  cbn [app]. rewrite skipped_spaces by (rewrite ?length_app, ?length_replicate; cbn [length]; lia). rewrite some_bind.
  rewrite (get_at pre (replicate n 32) x) by (rewrite length_replicate; lia). rewrite some_bind. bfalse ((x =? 0) || (x =? 10)).
  bfalse (1024 <=? Z.of_nat (length args)). change (x :: w ++ c :: r) with ((x :: w) ++ c :: r).
  pose proof (scan_word_spec (pre ++ replicate n 32) (x :: w) c r (S (length (pre ++ replicate n 32 ++ (x :: w) ++ c :: r))) Hw Hc) as Es.
  rewrite !length_app, length_replicate, <- !app_assoc in Es. rewrite !length_app, length_replicate. rewrite Es by (cbn [length]; lia). rewrite some_bind.
  rewrite (app_assoc (replicate n 32)), (get_at pre (replicate n 32 ++ x :: w) c r) by (rewrite length_app, length_replicate; lia). rewrite some_bind.
  destruct (c =? 0) eqn:E0; cbn [negb].
  - done.
  - rewrite (set_at pre (replicate n 32 ++ x :: w) c 0 r) by (rewrite length_app, length_replicate; lia). rewrite some_bind. rewrite <- !app_assoc.
    f_equal. lia.
Qed.

Lemma parsed_args t ws : splits_to t ws -> forall pre junk args fuel,
  (length t < fuel)%nat -> Z.of_nat (length args + length ws) < 1024 ->
  exists X ps, parse_args fuel (pre ++ t ++ 0 :: junk) (Z.of_nat (length pre)) args = Some (pre ++ X, args ++ ps) /\
    Forall2 (points_to (pre ++ X)) ps ws.
Proof.
  induction 1 as [n | n rest | n w Hw Hne | n w c t ws Hw Hne Hc _ IH]; intros pre junk args fuel Hf Ha.
  - exists (replicate n 32 ++ 0 :: junk), []. rewrite (app_nil_r args). split; [apply parse_args_end; [by left | lia] | constructor].
  - exists (replicate n 32 ++ 0 :: rest ++ 0 :: junk), []. rewrite (app_nil_r args), <- app_assoc. cbn [app]. split; [apply parse_args_end; [by right | rewrite length_app in Hf; lia] | constructor].
  - exists (replicate n 32 ++ w ++ 0 :: junk), [Z.of_nat (length pre + n)]. destruct fuel as [|fuel]; [lia|]. rewrite <- app_assoc. split.
    + rewrite parse_args_word by (done || (cbn [length] in Ha; lia)). cbn [Z.eqb negb].
      pose proof (parse_args_end fuel (pre ++ replicate n 32 ++ w) 0 0 junk (args ++ [Z.of_nat (length pre + n)]) ltac:(by left)) as E.
      rewrite !length_app, length_replicate, <- !app_assoc in E. cbn [replicate app] in E. rewrite Nat.add_assoc in E. apply E.
      rewrite length_app in Hf. destruct w; [done | cbn in Hf; lia].
    + constructor; [|constructor]. pose proof (points_to_word (pre ++ replicate n 32) w junk Hw) as P. by rewrite length_app, length_replicate, <- app_assoc in P.
  - destruct fuel as [|fuel]; [lia|]. rewrite !length_app in Hf. cbn [length] in Hf, Ha. rewrite <- !app_assoc. cbn [app].
    destruct (IH (pre ++ replicate n 32 ++ w ++ [0]) junk (args ++ [Z.of_nat (length pre + n)]) fuel) as (X & ps & E & HF); [lia | rewrite length_app; cbn; lia|].
    exists (replicate n 32 ++ w ++ 0 :: X), (Z.of_nat (length pre + n) :: ps).
    rewrite parse_args_word; [|done | done | unfold sep; lia | lia]. bfalse (c =? 0). cbn [negb].
    rewrite !length_app, length_replicate, <- !app_assoc in E. cbn [app length] in E.
    replace (length pre + n + length w + 1)%nat with (length pre + (n + (length w + 1)))%nat by lia.
    split; [rewrite E; reflexivity|].
    rewrite <- !app_assoc in HF. cbn [app] in HF. constructor; [|exact HF].
    pose proof (points_to_word (pre ++ replicate n 32) w X Hw) as P. by rewrite length_app, length_replicate, <- app_assoc in P.
Qed.

Lemma strcpy_to_spec cs jr : Forall (fun c => c <> 0) cs -> forall pre old,
  (length cs < length old)%nat ->
  strcpy_to (pre ++ old) (Z.of_nat (length pre)) (cs ++ 0 :: jr) = Some (pre ++ cs ++ 0 :: drop (S (length cs)) old).
Proof.
  induction 1 as [|c cs Hc _ IH]; intros pre old Hl; (destruct old as [|o old]; [cbn in Hl; lia|]); cbn [app strcpy_to].
  - rewrite zset_app_mid by done. by rewrite some_bind.
  - rewrite zset_app_mid by done. rewrite some_bind. bfalse (c =? 0).
    specialize (IH (pre ++ [c]) old ltac:(cbn in Hl; lia)). rewrite length_app, <- !app_assoc in IH. cbn [app length] in IH.
    by replace (Z.of_nat (length pre) + 1) with (Z.of_nat (length pre + 1)) by lia.
Qed.

Lemma split_command_spec cs w ws jr junk :
  command_is cs w ws -> Forall (fun c => c <> 0) cs -> (length cs <= 1023)%nat -> length junk = 1026%nat ->
  exists buf ps, split_command (cs ++ 0 :: jr) junk = Some (buf, 0 :: ps) /\
    string_at buf = Some ([46; 47] ++ w) /\ Forall2 (points_to buf) (0 :: ps) (([46; 47] ++ w) :: ws).
Proof.
  intros Hc Hnz Hl Hj. destruct junk as [|j0 [|j1 junk]]; [done | done|]. cbn [length] in Hj.
  assert (forall w X, word_ok w -> string_at ([46; 47] ++ w ++ 0 :: X) = Some ([46; 47] ++ w)) as Hpath.
  { intros w' X Hw. rewrite app_assoc. apply string_at_word. by repeat constructor. }
  unfold split_command. rewrite (zset_in _ 0) by (cbn [length]; lia). rewrite some_bind.
  rewrite (zset_in _ 1) by (rewrite length_insert; cbn [length]; lia). rewrite some_bind.
  change (<[Z.to_nat 1 := 47]> (<[Z.to_nat 0 := 46]> (j0 :: j1 :: junk))) with ([46; 47] ++ junk).
  pose proof (strcpy_to_spec cs jr Hnz [46; 47] junk) as Es. change (Z.of_nat (length [46; 47])) with 2 in Es. rewrite Es, some_bind by lia.
  set (old := drop _ junk). assert (length old = 1023 - length cs)%nat as Hold by (unfold old; rewrite length_drop; lia).
  destruct Hc as [w Hw | w c t ws Hw Hc Ht].
  - pose proof (scan_word_spec [46; 47] w 0 old) as E. change (Z.of_nat (length [46; 47])) with 2 in E. rewrite E, some_bind by (done || (rewrite !length_app; cbn [length]; lia)).
    rewrite (get_at [46; 47] w 0 old) by done. rewrite some_bind. cbn [Z.eqb negb]. rewrite some_bind. change (Z.of_nat (length [0]) <? 1024) with true. cbv iota.
    exists ([46; 47] ++ w ++ 0 :: old), []. split; [done|]. split; [by apply Hpath|]. constructor; [|constructor]. split; [lia|]. by apply Hpath.
  - rewrite <- app_assoc. cbn [app]. change (46 :: 47 :: w ++ c :: t ++ 0 :: old) with ([46; 47] ++ w ++ c :: (t ++ 0 :: old)).
    pose proof (scan_word_spec [46; 47] w c (t ++ 0 :: old)) as E. change (Z.of_nat (length [46; 47])) with 2 in E.
    rewrite E, some_bind by (done || (unfold sep; lia) || (rewrite !length_app; cbn [length]; lia)).
    rewrite (get_at [46; 47] w c) by done. rewrite some_bind. bfalse (c =? 0). cbn [negb]. rewrite (set_at [46; 47] w c 0) by done. rewrite some_bind.
    rewrite length_app in Hl. cbn [length] in Hl. pose proof (splits_to_count t ws Ht) as Hcount.
    destruct (parsed_args t ws Ht ([46; 47] ++ w ++ [0]) old [0] (S (length ([46; 47] ++ w ++ 0 :: t ++ 0 :: old)))) as (X & ps & Ep & HF);
      [rewrite !length_app; cbn [length]; rewrite length_app; lia | cbn [length]; lia|].
    rewrite <- !app_assoc in Ep. cbn [app] in Ep |- *.
    replace (Z.of_nat (length [46; 47] + length w) + 1) with (Z.of_nat (length (46 :: 47 :: w ++ [0]))) by (cbn [length]; rewrite length_app; cbn [length]; lia).
    rewrite Ep, some_bind. pose proof (Forall2_length _ _ _ HF) as Hps. cbn [length].  btrue (Z.of_nat (S (length ps)) <? 1024).
    rewrite <- !app_assoc in HF. cbn [app] in HF.
    exists (46 :: 47 :: w ++ 0 :: X), ps. split; [done|]. split; [by apply (Hpath w X)|]. constructor; [|exact HF]. split; [lia|]. by apply (Hpath w X).
Qed.

Lemma join_args_spec ws : Forall (Forall (fun c => c <> 0)) ws -> forall pre old nbytes,
  Z.of_nat (length (joined ws)) < nbytes -> nbytes <= Z.of_nat (length old) -> nbytes < 2 ^ 31 ->
  join_args (map (fun w => w ++ [0]) ws) (pre ++ old) (Z.of_nat (length pre)) nbytes =
  Some (0, pre ++ joined ws ++ 0 :: drop (S (length (joined ws))) old).
Proof.
  induction 1 as [|w ws Hw _ IH]; intros pre old nbytes H1 H2 H3.
  - destruct old as [|o old]; [cbn in *; lia|]. cbn [map join_args joined length] in *. bfalse (nbytes <? 1).
    rewrite zset_app_mid by done. by rewrite some_bind.
  - cbn [map join_args]. rewrite (ece391_strlen_spec (w ++ [0]) w); [|by exists [] | destruct ws; cbn [joined] in H1; rewrite ?length_app in H1; lia].
    rewrite some_bind. destruct ws as [|w2 ws]; [cbn [map joined] in *|].
    + bfalse (nbytes <? Z.of_nat (length w)). rewrite strcpy_to_spec by (done || lia). rewrite some_bind.
      bfalse (nbytes - Z.of_nat (length w) <? 1). rewrite (set_at pre w 0 0) by lia. done.
    + change (joined (w :: w2 :: ws)) with (w ++ 32 :: joined (w2 :: ws)) in *. rewrite length_app in *. cbn [length] in H1.
      bfalse (nbytes <? Z.of_nat (length w)). rewrite strcpy_to_spec by (done || lia). rewrite some_bind.
      change (map (fun w => w ++ [0]) (w2 :: ws)) with ((w2 ++ [0]) :: map (fun w => w ++ [0]) ws). cbv iota zeta.
      bfalse (nbytes - Z.of_nat (length w) <? 1). rewrite (set_at pre w 0 32) by lia. rewrite some_bind.
      specialize (IH (pre ++ w ++ [32]) (drop (S (length w)) old) (nbytes - Z.of_nat (length w) - 1)).
      rewrite !length_app, <- !app_assoc in IH. cbn [app length] in IH. rewrite length_drop, drop_drop in IH.
      replace (Z.of_nat (length pre) + Z.of_nat (length w) + 1) with (Z.of_nat (length pre + (length w + 1))) by lia.
      change ((w2 ++ [0]) :: map (fun w => w ++ [0]) ws) with (map (fun w => w ++ [0]) (w2 :: ws)). rewrite IH by lia.
      rewrite <- app_assoc. cbn [app length]. do 6 f_equal.
Qed.

(** C39: The arguments on Linux: a command of at most 1023 characters is split without leaving its
    buffers, the child gets the first word behind "./" and the words after it, and
    [ece391_getargs] in the child joins these with one space between any two. *)
Theorem emulated_args {H D} (lx : linux H D) e cs w ws jr junk buf n :
  command_is cs w ws -> Forall (fun c => c <> 0) cs -> (length cs <= 1023)%nat -> length junk = 1026%nat ->
  Forall (Forall (fun c => c <> 0)) ws -> Z.of_nat (length (joined ws)) < n -> n <= Z.of_nat (length buf) -> n < 2 ^ 31 ->
  let argv := ([46; 47] ++ w) :: ws in
  let '(status, h) := spawn lx ([46; 47] ++ w) argv (host e) in
  ece391_execute lx (cs ++ 0 :: jr) junk e =
    Some (match status with Exited code => code | Signaled sig => if sig =? 9 then -1 else 256 end, set_host h e) /\
  ece391_getargs (map (fun a => a ++ [0]) argv) buf n = Some (0, joined ws ++ 0 :: drop (S (length (joined ws))) buf).
Proof.
  intros Hc Hnz Hl Hj Hws Hn1 Hn2 Hn3 argv. destruct (spawn lx _ argv (host e)) as [status h] eqn:Esp. split.
  - unfold ece391_execute. rewrite (ece391_strlen_spec _ cs) by (by exists jr || lia). rewrite some_bind. bfalse (1023 <? Z.of_nat (length cs)).
    destruct (split_command_spec cs w ws jr junk Hc Hnz Hl Hj) as (b & ps & -> & Hp & HF). rewrite some_bind, Hp, some_bind.
    assert (mapM (fun p => string_at (drop (Z.to_nat p) b)) (0 :: ps) = Some argv) as ->; [|by rewrite some_bind, Esp].
    apply mapM_Some. eapply Forall2_impl; [exact HF|]. by intros p x [_ E].
  - unfold ece391_getargs. cbn [map drop argv]. apply (join_args_spec ws Hws [] buf n); lia.
Qed.

(** [ls  a b], typed with its newline, on a Linux where every child exits with 7. *)
Definition quiet_linux : linux unit unit :=
  Linux unit unit (fun _ h => (3, h)) (fun _ _ h => (0, [], h)) (fun _ _ _ h => (0, h)) (fun _ h => (0, h)) (fun h => (Some tt, h))
    (fun _ h => (None, h)) (fun _ h => h) (fun h => (4, h)) (fun _ h => h) (fun h => (5, h)) (fun _ h => (None, h)) (fun _ _ h => (Exited 7, h)).

Lemma emulated_args_witness :
  ece391_execute quiet_linux (str "ls  a b" ++ [10; 0]) (replicate 1026 170) (Emulation None (-1) (-1) tt) = Some (7, Emulation None (-1) (-1) tt) /\
  ece391_getargs [str "./ls" ++ [0]; [97; 0]; [98; 0]] (replicate 8 170) 8 = Some (0, [97; 32; 98; 0; 170; 170; 170; 170]).
Proof.
  apply (emulated_args quiet_linux (Emulation None (-1) (-1) tt) (str "ls" ++ 32 :: [32; 97] ++ 32 :: [98; 10]) (str "ls") [[97]; [98]] [] (replicate 1026 170) (replicate 8 170) 8).
  - apply ci_args; [by repeat constructor | by left|]. apply (st_word 1 [97] 32 [98; 10] [[98]]); [by repeat constructor | done | by left|].
    apply (st_word 0 [98] 10 [] []); [by repeat constructor | done | by right|]. apply (st_end 0).
  - by repeat constructor.
  - cbn. lia.
  - apply length_replicate.
  - by repeat constructor.
  - cbn. lia.
  - cbn. lia.
  - lia.
Defined.

(** An argument that is as long as the buffer is copied with its zero behind the end of it:
    [len > nbytes] lets it pass. *)
Lemma getargs_overflow prog w (buf : list Z) :
  Forall (fun c => c <> 0) w -> length w = length buf -> Z.of_nat (length w) < 2 ^ 31 ->
  ece391_getargs [prog; w ++ [0]] buf (Z.of_nat (length buf)) = None.
Proof.
  intros Hw Hl Hm. unfold ece391_getargs. cbn [drop join_args]. rewrite (ece391_strlen_spec (w ++ [0]) w) by (by exists [] || lia). rewrite some_bind, Hl.
  bfalse (Z.of_nat (length buf) <? Z.of_nat (length buf)). enough (strcpy_to buf 0 (w ++ [0]) = None) as -> by done.
  assert (forall pre old, length w = length old -> strcpy_to (pre ++ old) (Z.of_nat (length pre)) (w ++ [0]) = None) as H; [|by apply (H [] buf)].
  clear -Hw. induction Hw as [|c w Hc _ IH]; intros pre old Hl.
  - destruct old; [|done]. cbn [app strcpy_to]. rewrite zset_out; [done|]. rewrite app_nil_r. lia.
  - destruct old as [|o old]; [done|]. cbn [app strcpy_to]. rewrite zset_app_mid by done. rewrite some_bind. bfalse (c =? 0).
    specialize (IH (pre ++ [c]) old ltac:(cbn in Hl; lia)). rewrite length_app, <- app_assoc in IH. cbn [app length] in IH.
    by replace (Z.of_nat (length pre) + 1) with (Z.of_nat (length pre + 1)) by lia.
Qed.

(** ** Reading a directory *)

Lemma copy_name_spec nbytes m cs jr : Forall (fun c => c <> 0) cs -> Z.of_nat m = Z.min nbytes 32 -> forall pre old,
  (length pre < m)%nat -> (m <= length pre + length old)%nat ->
  copy_name (cs ++ 0 :: jr) (pre ++ old) (Z.of_nat (length pre)) nbytes =
  if (m <=? length pre + length cs)%nat
  then Some (Z.of_nat m, pre ++ take (m - length pre) cs ++ drop (m - length pre) old, true)
  else Some (Z.of_nat (length pre + length cs), pre ++ cs ++ drop (length cs) old, false).
Proof.
  intros Hcs Hm. induction Hcs as [|c cs Hc _ IH]; intros pre old H1 H2.
  - cbn [app copy_name length]. rewrite (proj2 (Nat.leb_gt _ _)) by lia. cbn [Z.eqb drop]. do 3 f_equal. lia.
  - destruct old as [|o old]; [cbn in H2; lia|]. cbn [app copy_name length] in *. bfalse (c =? 0). rewrite zset_app_mid by done. rewrite some_bind.
    destruct (decide (length pre + 1 = m)%nat) as [E|Hne].
    + rewrite (proj2 (Nat.leb_le _ _)) by lia. replace (m - length pre)%nat with 1%nat by lia. cbn [take drop app].
      destruct (Z.eqb_spec (Z.of_nat (length pre) + 1) nbytes) as [En|En]; [do 3 f_equal; lia|].
      btrue (32 =? Z.of_nat (length pre) + 1). do 3 f_equal. lia.
    + bfalse (Z.of_nat (length pre) + 1 =? nbytes). bfalse (32 =? Z.of_nat (length pre) + 1).
      specialize (IH (pre ++ [c]) old). rewrite length_app, <- app_assoc in IH. cbn [app length] in IH.
      replace (Z.of_nat (length pre) + 1) with (Z.of_nat (length pre + 1)) by lia. rewrite IH by lia.
      replace (length pre + S (length cs))%nat with (length pre + 1 + length cs)%nat by lia. case_match.
      * replace (m - length pre)%nat with (S (m - (length pre + 1))) by lia. cbn [take drop app]. by rewrite <- app_assoc.
      * by rewrite <- app_assoc.
Qed.

Lemma pad_name_spec nbytes m : Z.of_nat m = Z.min nbytes 32 -> forall pre old,
  (length pre <= m)%nat -> (m <= length pre + length old)%nat ->
  pad_name (pre ++ old) (Z.of_nat (length pre)) nbytes = Some (Z.of_nat m, pre ++ replicate (m - length pre) 0 ++ drop (m - length pre) old).
Proof.
  intros Hm pre old H1 H2. unfold pad_name. assert (m - length pre < 33)%nat as Hf by lia. revert pre old H1 H2 Hf.
  generalize 33%nat. intros fuel pre old H1 H2 Hf. remember (m - length pre)%nat as k eqn:Ek. revert fuel pre old H1 H2 Hf Ek.
  induction k as [|k IH]; intros fuel pre old H1 H2 Hf Ek; (destruct fuel as [|fuel]; [lia|]); cbn [while_do].
  - bfalse ((Z.of_nat (length pre) <? nbytes) && (Z.of_nat (length pre) <? 32)). cbn [replicate app drop]. do 2 f_equal. f_equal. lia.
  - btrue ((Z.of_nat (length pre) <? nbytes) && (Z.of_nat (length pre) <? 32)). destruct old as [|o old]; [cbn in H2; lia|].
    rewrite zset_app_mid by done. rewrite !some_bind. specialize (IH fuel (pre ++ [0]) old). rewrite length_app, <- !app_assoc in IH. cbn [app length] in IH, H2.
    replace (Z.of_nat (length pre) + 1) with (Z.of_nat (length pre + 1)) by lia. rewrite IH by lia. done.
Qed.

(** A read of the directory delivers a name with zeros behind it, always as many bytes as fit, up to 32. *)
Lemma dir_read_spec {H D} (lx : linux H D) e d fd buf nbytes cs jr h :
  is_dir fd e = Some d -> readdir lx d (host e) = (Some (cs ++ 0 :: jr), h) -> Forall (fun c => c <> 0) cs ->
  1 <= nbytes -> Z.min nbytes 32 <= Z.of_nat (length buf) ->
  let m := Z.to_nat (Z.min nbytes 32) in
  ece391_read lx fd buf nbytes e = Some (Z.of_nat m, take m (cs ++ replicate 32 0) ++ drop m buf, set_host h e).
Proof.
  intros Hd Hr Hcs Hn Hb m. unfold ece391_read. rewrite Hd, Hr. assert (Z.of_nat m = Z.min nbytes 32) as Hm by (unfold m; lia).
  pose proof (copy_name_spec nbytes m cs jr Hcs Hm [] buf) as E. cbn [app length] in E. change (Z.of_nat 0) with 0 in E. rewrite E by lia.
  rewrite Nat.sub_0_r, Nat.add_0_l. destruct (Nat.leb_spec m (length cs)) as [Hle|Hgt]; rewrite some_bind.
  - rewrite some_bind, take_app_le by done. done.
  - pose proof (pad_name_spec nbytes m Hm cs (drop (length cs) buf)) as Ep. rewrite length_drop in Ep. rewrite Ep, some_bind by lia.
    rewrite take_app_ge, take_replicate, drop_drop, <- app_assoc by lia.
    rewrite Nat.min_l by lia. by replace (length cs + (m - length cs))%nat with m by lia.
Qed.

(** The whole directory: the names in the order of [readdir], then 0. *)
Fixpoint dir_reads {H D} (lx : linux H D) (n : nat) (fd : Z) (buf : list Z) (nbytes : Z) (e : emulation (H := H) (D := D)) : option (list (Z * list Z)) :=
  match n with
  | O => Some []
  | S n' => '(r, b, e) ← ece391_read lx fd buf nbytes e; rs ← dir_reads lx n' fd buf nbytes e; Some ((r, b) :: rs)
  end.

Lemma dir_reads_S {H D} (lx : linux H D) n fd buf nbytes e :
  dir_reads lx (S n) fd buf nbytes e = ('(r, b, e) ← ece391_read lx fd buf nbytes e; rs ← dir_reads lx n fd buf nbytes e; Some ((r, b) :: rs)).
Proof. reflexivity. Qed.

(** [readdir] goes through the list [names] that the state of Linux holds. *)
Record lists_names {H D} (lx : linux H D) (left : H -> list (list Z)) : Prop := {
  ln_next d h : readdir lx d h = match left h with
    | [] => (None, h)
    | cs :: _ => (Some (cs ++ [0]), snd (readdir lx d h))
    end;
  ln_left d h : left (snd (readdir lx d h)) = tail (left h) }.

(** A directory on Linux: after [ece391_open] of ".", reads of [nbytes] bytes deliver the names in
    order, each padded with zeros to [nbytes] or 32 bytes, whichever is less, and then 0. *)
Theorem emulated_dir {H D} (lx : linux H D) left e fd buf nbytes h d :
  lists_names lx left -> opendir lx (host e) = (Some d, h) -> fst (open_null lx h) = fd -> 1 <= nbytes ->
  Z.of_nat (length buf) = nbytes -> Forall (Forall (fun c => c <> 0)) (left (snd (open_null lx h))) ->
  exists e', ece391_open lx [46; 0] e = Some (fd, e') /\
    dir_reads lx (S (length (left (host e')))) fd buf nbytes e' =
    Some (map (fun cs => let m := Z.to_nat (Z.min nbytes 32) in (Z.of_nat m, take m (cs ++ replicate 32 0) ++ drop m buf)) (left (host e')) ++ [(0, buf)]).
Proof.
  intros [Hnext Hleft] Ho Hfd Hn Hb Hnz. exists (Emulation (Some d) fd (mem_fd e) (snd (open_null lx h))). split.
  - unfold ece391_open. cbn. rewrite Ho. destruct (open_null lx h) as [fd' h']. cbn in Hfd. by subst.
  - clear Hfd Ho. cbn [host]. revert Hnz. generalize (snd (open_null lx h)). intros h'. remember (left h') as names eqn:En. revert h' En.
    induction names as [|cs names IH]; intros h' En Hnz; cbn [length map app]; rewrite dir_reads_S.
    + unfold ece391_read. cbn [is_dir dir dir_fd host]. rewrite Z.eqb_refl, Hnext, <- En. done.
    + apply Forall_cons in Hnz as [Hcs Hrest].
      rewrite (dir_read_spec lx _ d fd buf nbytes cs [] (snd (readdir lx d h'))); [| by cbn; rewrite Z.eqb_refl | cbn [host]; rewrite Hnext, <- En; done | done | done | lia].
      rewrite some_bind. pose proof (IH (snd (readdir lx d h')) ltac:(by rewrite Hleft, <- En) Hrest) as E.
      change (set_host _ _) with (Emulation (Some d) fd (mem_fd e) (snd (readdir lx d h'))). rewrite E. done.
Qed.

(** A Linux whose directory holds "." and "a". *)
Definition two_names : linux (list (list Z)) unit :=
  Linux _ _ (fun _ h => (3, h)) (fun _ _ h => (0, [], h)) (fun _ _ _ h => (0, h)) (fun _ h => (0, h)) (fun h => (Some tt, [[46]; [97]]))
    (fun _ h => match h with [] => (None, h) | cs :: h' => (Some (cs ++ [0]), h') end) (fun _ h => h) (fun h => (4, h)) (fun _ h => h)
    (fun h => (5, h)) (fun _ h => (None, h)) (fun _ _ h => (Exited 0, h)).

Lemma emulated_dir_witness :
  exists e', ece391_open two_names [46; 0] (Emulation None (-1) (-1) []) = Some (4, e') /\
    dir_reads two_names 3 4 [170; 170; 170] 3 e' = Some [(3, [46; 0; 0]); (3, [97; 0; 0]); (0, [170; 170; 170])].
Proof.
  destruct (emulated_dir two_names id (Emulation None (-1) (-1) []) 4 [170; 170; 170] 3 [[46]; [97]] tt) as (e' & Eo & Er).
  - split; intros d [|cs h]; done.
  - done.
  - done.
  - lia.
  - done.
  - by repeat constructor.
  - exists e'. split; [exact Eo|]. injection Eo as <-. exact Er.
Defined.
