(* ===== verification/Blink.v ===== *)
(** * The blinking characters of [fish]

    [fish/blink.S] keeps a linked list of characters that blink on the screen, in slots of
    the array [blink_array] that [fish/fish.c] allocates with [mp1_malloc]; a slot is
    free when its location is 0.  The first part translates the routines, the second is
    what they promise: a sequence of blinking characters without slots or pointers.  A
    pointer is NULL or the index of a slot.

    The routines never read the screen, they only store bytes at addresses from
    [vmem_base_addr] on.  The state collects these stores in order; [Fish] performs them in
    the memory of the kernel, through the page tables of the program. *)

From Stdlib Require Import ZArith Lia ZifyBool.
From stdpp Require Import base list option sets.
From S2P Require Import Prelude.

(** [struct mp1_blink_struct] of [blink.h]. *)
Record mp1_blink_struct := Blink {
  location : Z;
  on_char : Z;
  off_char : Z;
  on_length : Z;
  off_length : Z;
  countdown : Z;
  status : Z;
  next : option Z }.

#[export] Instance mp1_blink_struct_eq_dec : EqDecision mp1_blink_struct.
Proof. solve_decision. Defined.

Definition set_link (p : option Z) (b : mp1_blink_struct) : mp1_blink_struct :=
  Blink (location b) (on_char b) (off_char b) (on_length b) (off_length b) (countdown b) (status b) p.
Definition set_countdown (c : Z) (b : mp1_blink_struct) : mp1_blink_struct :=
  Blink (location b) (on_char b) (off_char b) (on_length b) (off_length b) c (status b) (next b).
Definition set_status (s : Z) (b : mp1_blink_struct) : mp1_blink_struct :=
  Blink (location b) (on_char b) (off_char b) (on_length b) (off_length b) (countdown b) s (next b).
Definition set_lengths (on off : Z) (b : mp1_blink_struct) : mp1_blink_struct :=
  Blink (location b) (on_char b) (off_char b) on off (countdown b) (status b) (next b).

(** The variables of the program, and the bytes it stored on the screen, by address. *)
Record fish_state := Fish {
  blink_array : list mp1_blink_struct;
  mp1_list_head : option Z;
  vmem_base_addr : Z;
  stores : list (Z * Z) }.

Definition set_array (a : list mp1_blink_struct) (st : fish_state) : fish_state :=
  Fish a (mp1_list_head st) (vmem_base_addr st) (stores st).
Definition set_head (p : option Z) (st : fish_state) : fish_state :=
  Fish (blink_array st) p (vmem_base_addr st) (stores st).
Definition set_base (a : Z) (st : fish_state) : fish_state :=
  Fish (blink_array st) (mp1_list_head st) a (stores st).
Definition set_stores (l : list (Z * Z)) (st : fish_state) : fish_state :=
  Fish (blink_array st) (mp1_list_head st) (vmem_base_addr st) l.

(** A signed 16-bit word. *)
Definition s16 (z : Z) : Z := (z + 2 ^ 15) mod 2 ^ 16 - 2 ^ 15.

Definition CELLS : Z := 80 * 25.
Definition RTC_ADD : Z := 0.
Definition RTC_REMOVE : Z := 1.
Definition RTC_FIND : Z := 2.
Definition RTC_SYNC : Z := 3.

(** ** The allocator of [fish.c] *)

Definition zero_struct : mp1_blink_struct := Blink 0 0 0 0 0 0 0 None.

(** [for (i = 0; i < 80*25; i++) if (blink_array[i].location == 0) return &blink_array[i];] *)
Fixpoint malloc_from (n : nat) (i : Z) (a : list mp1_blink_struct) : option (option Z) :=
  match n with
  | O => Some None
  | S n' => b ← a.[i]; if location b =? 0 then Some (Some i) else malloc_from n' (i + 1) a
  end.
Definition mp1_malloc (a : list mp1_blink_struct) : option (option Z) := malloc_from (Z.to_nat CELLS) 0 a.

Definition mp1_free (p : Z) (a : list mp1_blink_struct) : option (list mp1_blink_struct) := a.[p <- zero_struct].

(** ** [blink.S] *)

(** [movl vmem_base_addr(,1),%edx] and [movb %cl,(%edx,%eax,1)] *)
Definition mp1_poke (cl eax : Z) (st : fish_state) : fish_state :=
  let edx := vmem_base_addr st in
  set_stores (stores st ++ [(u32 (edx + eax), cl)]) st.

(** One element of the loop of the tasklet, at [ebx]. *)
Definition tasklet_one (ebx : Z) (st : fish_state) : option (option Z * fish_state) :=
  b ← (blink_array st).[ebx];
  let b := set_countdown (u16 (countdown b - 1)) b in
  '(b, st) ←
    (if 0 <? s16 (countdown b) then Some (b, st)
     else
       let eax := Z.shiftl (location b) 1 in
       let on := negb (Z.land (status b) 1 =? 0) in
       let st := mp1_poke (if on then off_char b else on_char b) eax st in
       let dx := if on then off_length b else on_length b in
       Some (set_status (Z.lxor (status b) 1) (set_countdown dx b), st));
  a ← (blink_array st).[ebx <- b];
  Some (next b, set_array a st).

Fixpoint tasklet_loop (fuel : nat) (ebx : option Z) (st : fish_state) : option fish_state :=
  match fuel with
  | O => None
  | S fuel' =>
      match ebx with
      | None => Some st
      | Some p => '(ebx, st) ← tasklet_one p st; tasklet_loop fuel' ebx st
      end
  end.

(** The list has at most one element per slot. *)
Definition loop_fuel : nat := S (Z.to_nat CELLS).

Definition mp1_rtc_tasklet (st : fish_state) : option fish_state := tasklet_loop loop_fuel (mp1_list_head st) st.

Fixpoint find_loop (fuel : nat) (a : list mp1_blink_struct) (ax : Z) (ebx : option Z) : option (option Z) :=
  match fuel with
  | O => None
  | S fuel' =>
      match ebx with
      | None => Some None
      | Some p => b ← a.[p]; if location b =? ax then Some (Some p) else find_loop fuel' a ax (next b)
      end
  end.

(** The argument is 32 bits wide and its low word is the location. *)
Definition mp1_find_helper (arg : Z) (st : fish_state) : option (option Z) :=
  find_loop loop_fuel (blink_array st) (u16 arg) (mp1_list_head st).

(** [user] is the structure the argument points to. *)
Definition mp1_ioctl_add (user : mp1_blink_struct) (st : fish_state) : option (Z * fish_state) :=
  if CELLS <=? location user then Some (-1, st)
  else
    let tmp := set_countdown (on_length user) (set_status 1 user) in
    p ← mp1_malloc (blink_array st);
    match p with
    | None => Some (-1, st)
    | Some edx =>
        a ← (blink_array st).[edx <- tmp];
        a ← a.[edx <- set_link (mp1_list_head st) tmp];
        let st := set_head (Some edx) (set_array a st) in
        Some (0, mp1_poke (on_char tmp) (Z.shiftl (location tmp) 1) st)
    end.

(** The walk to the pointer that points to the element: the list head ([None]) or the link of a slot. *)
Fixpoint remove_find_prev (fuel : nat) (a : list mp1_blink_struct) (head : option Z) (eax : Z) (edx : option Z) : option (option Z) :=
  match fuel with
  | O => None
  | S fuel' =>
      p ← (match edx with None => Some head | Some q => b ← a.[q]; Some (next b) end);
      if bool_decide (p = Some eax) then Some edx
      else q ← p; remove_find_prev fuel' a head eax (Some q)
  end.

Definition mp1_ioctl_remove (arg : Z) (st : fish_state) : option (Z * fish_state) :=
  p ← mp1_find_helper arg st;
  match p with
  | None => Some (-1, st)
  | Some eax =>
      edx ← remove_find_prev loop_fuel (blink_array st) (mp1_list_head st) eax None;
      b ← (blink_array st).[eax];
      st ← (match edx with
            | None => Some (set_head (next b) st)
            | Some q => c ← (blink_array st).[q]; a ← (blink_array st).[q <- set_link (next b) c]; Some (set_array a st)
            end);
      a ← mp1_free eax (blink_array st);
      Some (0, set_array a st)
  end.

(** [testb] clears the overflow flag and the sign flag is bit 7 of the result, so [cmovl]
    moves when bit 7 of [STATUS & 1] is set. *)
Definition cmovl_after_testb (mask value : Z) : bool := Z.testbit (Z.land mask value) 7.

Definition mp1_ioctl_sync (arg : Z) (st : fish_state) : option (Z * fish_state) :=
  p ← mp1_find_helper (Z.shiftr arg 16) st;
  match p with
  | None => Some (-1, st)
  | Some esi =>
      q ← mp1_find_helper (Z.land arg 0xFFFF) st;
      match q with
      | None => Some (-1, st)
      | Some edi =>
          s ← (blink_array st).[esi]; d ← (blink_array st).[edi];
          let d := set_status (status s) (set_countdown (countdown s) (set_lengths (on_length s) (off_length s) d)) in
          a ← (blink_array st).[edi <- d];
          let cl := if cmovl_after_testb 1 (u8 (status d)) then on_char d else off_char d in
          Some (0, mp1_poke cl (Z.shiftl (location d) 1) (set_array a st))
      end
  end.

(** The structure found is copied over the one of the caller. *)
Definition mp1_ioctl_find (user : mp1_blink_struct) (st : fish_state) : option (Z * mp1_blink_struct) :=
  p ← mp1_find_helper (location user) st;
  match p with
  | None => Some (-1, user)
  | Some eax => b ← (blink_array st).[eax]; Some (0, b)
  end.

(** The jump through [call_table]; [user] is what [arg] points to where it is a pointer. *)
Definition mp1_ioctl (arg : Z) (user : mp1_blink_struct) (cmd : Z) (st : fish_state) : option (Z * mp1_blink_struct * fish_state) :=
  if cmd =? RTC_ADD then '(r, st) ← mp1_ioctl_add user st; Some (r, user, st)
  else if cmd =? RTC_REMOVE then '(r, st) ← mp1_ioctl_remove arg st; Some (r, user, st)
  else if cmd =? RTC_FIND then '(r, user) ← mp1_ioctl_find user st; Some (r, user, st)
  else if cmd =? RTC_SYNC then '(r, st) ← mp1_ioctl_sync arg st; Some (r, user, st)
  else None.

(** ** What the routines promise

    The characters in the order of the list, the newest first, each without its link; and
    the page of the screen. *)

Definition strip (b : mp1_blink_struct) : mp1_blink_struct := set_link None b.

Definition cells : Type := list mp1_blink_struct * list Z.

(** The character [c] at the place [loc] of the screen; the odd bytes are attributes. *)
Definition show (loc c : Z) (v : list Z) : list Z := <[Z.to_nat (2 * loc) := u8 c]> v.

(** Stores of bytes on the page at [base]. *)
Definition paint_one (base : Z) (v : list Z) (s : Z * Z) : list Z := <[Z.to_nat (fst s - base) := u8 (snd s)]> v.
Definition paint (base : Z) (l : list (Z * Z)) (v : list Z) : list Z := foldl (paint_one base) v l.
Definition on_page (base : Z) (s : Z * Z) : Prop := base <= fst s < base + 4096.

(** A character that starts its other half of the period. *)
Definition flip (b : mp1_blink_struct) : mp1_blink_struct :=
  if Z.odd (status b) then set_status (Z.lxor (status b) 1) (set_countdown (off_length b) b)
  else set_status (Z.lxor (status b) 1) (set_countdown (on_length b) b).

Definition current_char (b : mp1_blink_struct) : Z := if Z.odd (status b) then on_char b else off_char b.

(** The tick that ends a half: the countdown goes to 0, or below it as a signed word. *)
Definition expires (b : mp1_blink_struct) : bool := s16 (u16 (countdown b - 1)) <=? 0.

Definition tick (b : mp1_blink_struct) : mp1_blink_struct :=
  if expires b then flip b else set_countdown (u16 (countdown b - 1)) b.

Definition repaint (b : mp1_blink_struct) (v : list Z) : list Z :=
  if expires b then show (location b) (current_char (flip b)) v else v.

Definition spec_tick (s : cells) : cells := (map tick (fst s), foldl (fun v b => repaint b v) (snd s) (fst s)).

Definition spec_add (u : mp1_blink_struct) (s : cells) : Z * cells :=
  if (CELLS <=? location u) || (CELLS <=? Z.of_nat (length (fst s))) then (-1, s)
  else (0, (set_countdown (on_length u) (set_status 1 (strip u)) :: fst s, show (location u) (on_char u) (snd s))).

Definition at_location (loc : Z) (b : mp1_blink_struct) : bool := location b =? loc.

(** [f] on the newest character at [loc]. *)
Fixpoint on_first (loc : Z) (f : mp1_blink_struct -> list mp1_blink_struct) (l : list mp1_blink_struct) : list mp1_blink_struct :=
  match l with
  | [] => []
  | b :: l' => if at_location loc b then f b ++ l' else b :: on_first loc f l'
  end.

Definition spec_remove (loc : Z) (s : cells) : Z * cells :=
  match find (at_location loc) (fst s) with
  | None => (-1, s)
  | Some _ => (0, (on_first loc (fun _ => []) (fst s), snd s))
  end.

Definition spec_find (loc : Z) (s : cells) : option mp1_blink_struct := find (at_location loc) (fst s).

(** The character at [to] blinks with the one at [from], and shows its off character. *)
Definition synced (s d : mp1_blink_struct) : mp1_blink_struct :=
  set_status (status s) (set_countdown (countdown s) (set_lengths (on_length s) (off_length s) d)).

Definition spec_sync (from to : Z) (s : cells) : Z * cells :=
  match find (at_location from) (fst s), find (at_location to) (fst s) with
  | Some a, Some d => (0, (on_first to (fun d => [synced a d]) (fst s), show to (off_char d) (snd s)))
  | _, _ => (-1, s)
  end.

(** ** The slots that hold the list *)

Inductive chain (a : list mp1_blink_struct) : option Z -> list Z -> Prop :=
  | chain_nil : chain a None []
  | chain_cons p b ps : a.[p] = Some b -> chain a (next b) ps -> chain a (Some p) (p :: ps).

(** The slot [p] holds [b]. *)
Definition slot_holds (a : list mp1_blink_struct) (p : Z) (b : mp1_blink_struct) : Prop :=
  exists c, a.[p] = Some c /\ strip c = b /\ 0 < location c < CELLS.

(** [v0] is the page before the stores, [addr] its address. *)
Section Page.
Context (v0 : list Z) (addr : Z).

Definition vmem (st : fish_state) : list Z := paint (vmem_base_addr st) (stores st) v0.

Record holds (st : fish_state) (ps : list Z) (s : cells) : Prop := {
  h_slots : Z.of_nat (length (blink_array st)) = CELLS;
  h_chain : chain (blink_array st) (mp1_list_head st) ps;
  h_nodup : NoDup ps;
  h_cells : Forall2 (slot_holds (blink_array st)) ps (fst s);
  h_free : forall p b, (blink_array st).[p] = Some b -> p ∉ ps -> location b = 0;
  h_vmem : length (vmem st) = 4096%nat;
  h_screen : vmem st = snd s;
  h_at : vmem_base_addr st = addr;
  h_base : 0 <= vmem_base_addr st /\ vmem_base_addr st + 4096 <= 2 ^ 32;
  h_stores : Forall (on_page (vmem_base_addr st)) (stores st) }.

(** The list of the program is [s], and it stored nothing outside of the page. *)
Definition represents (st : fish_state) (s : cells) : Prop := exists ps, holds st ps s.

Lemma chain_insert a h ps p b :
  chain a h ps -> p ∉ ps -> 0 <= p < Z.of_nat (length a) -> chain (<[Z.to_nat p := b]> a) h ps.
Proof.
  intros Hc Hp Hr. induction Hc as [|q c ps E _ IH]; [constructor|]. apply not_elem_of_cons in Hp as [Hne Hp].
  econstructor; [|by apply IH]. rewrite zget_insert by done. by bfalse (q =? p).
Qed.

Lemma slot_holds_insert a ps l p b :
  Forall2 (slot_holds a) ps l -> p ∉ ps -> 0 <= p < Z.of_nat (length a) ->
  Forall2 (slot_holds (<[Z.to_nat p := b]> a)) ps l.
Proof.
  intros HF Hp Hr. induction HF as [|q c ps l Hq _ IH]; [constructor|]. apply not_elem_of_cons in Hp as [Hne Hp].
  constructor; [|by apply IH]. destruct Hq as (d & E & H). exists d. rewrite zget_insert by done. by bfalse (q =? p).
Qed.

Lemma slots_in_range a ps l p : Forall2 (slot_holds a) ps l -> p ∈ ps -> 0 <= p < Z.of_nat (length a).
Proof.
  intros HF Hp. induction HF as [|q c ps l (d & E & _) _ IH]; [by apply elem_of_nil in Hp|].
  apply elem_of_cons in Hp as [->|Hp]; [by eapply zget_Some_range | by apply IH].
Qed.

(** Distinct numbers below [n] are at most [n], and [n] of them are all. *)
Lemma nodup_bounded (ps : list Z) n :
  NoDup ps -> (forall p, p ∈ ps -> 0 <= p < Z.of_nat n) -> (length ps <= n)%nat.
Proof.
  intros Hnd Hr. rewrite <- (length_seq n 0), <- (length_map Z.of_nat).
  apply submseteq_length, NoDup_submseteq; [done|]. intros p Hp. apply list_elem_of_fmap.
  exists (Z.to_nat p). specialize (Hr p Hp). split; [lia|]. apply elem_of_seq. lia.
Qed.

Lemma all_listed (ps : list Z) n : (forall p, 0 <= p < Z.of_nat n -> p ∈ ps) -> (n <= length ps)%nat.
Proof.
  intros Hall. rewrite <- (length_seq n 0) at 1. rewrite <- (length_map Z.of_nat).
  apply submseteq_length, NoDup_submseteq.
  - apply NoDup_fmap; [intros x y; lia | apply NoDup_seq].
  - intros p (i & -> & Hi%elem_of_seq)%list_elem_of_fmap. apply Hall. lia.
Qed.

(** [mp1_malloc] gives the first free slot. *)
Lemma malloc_from_spec a : forall n i, 0 <= i -> i + Z.of_nat n <= Z.of_nat (length a) ->
  exists r, malloc_from n i a = Some r /\
    match r with
    | Some p => i <= p < i + Z.of_nat n /\ (exists b, a.[p] = Some b /\ location b = 0)
    | None => forall p b, i <= p < i + Z.of_nat n -> a.[p] = Some b -> location b <> 0
    end.
Proof.
  induction n as [|n IH]; intros i Hi Hn; cbn [malloc_from].
  - exists None. split; [done|]. intros; lia.
  - destruct (zget_ex a i) as [b Eb]; [lia|]. rewrite Eb, some_bind. destruct (Z.eqb_spec (location b) 0) as [E0|Hne].
    + exists (Some i). split; [done|]. split; [lia | by exists b].
    + destruct (IH (i + 1)) as (r & -> & Hr); [lia..|]. exists r. split; [done|]. destruct r as [p|].
      * destruct Hr as (? & ?). split; [lia | done].
      * intros p c Hp Ec. destruct (Z.eqb_spec p i) as [->|]; [by simplify_eq | apply (Hr p); [lia | done]].
Qed.

Lemma holds_length st ps s : holds st ps s -> (length ps <= Z.to_nat CELLS)%nat /\ length (fst s) = length ps.
Proof.
  intros H. split; [|symmetry; by eapply Forall2_length, H].
  apply nodup_bounded; [apply H|]. intros p Hp. pose proof (slots_in_range _ _ _ _ (h_cells _ _ _ H) Hp).
  rewrite (h_slots _ _ _ H) in *. unfold CELLS in *. lia.
Qed.

Lemma malloc_spec st ps s :
  holds st ps s ->
  exists r, mp1_malloc (blink_array st) = Some r /\
    match r with
    | Some p => (p ∉ ps) /\ 0 <= p < CELLS /\ Z.of_nat (length (fst s)) < CELLS
    | None => CELLS <= Z.of_nat (length (fst s))
    end.
Proof.
  intros H. pose proof (holds_length _ _ _ H) as (Hps & Hlen). pose proof (h_slots _ _ _ H) as Hn.
  destruct (malloc_from_spec (blink_array st) (Z.to_nat CELLS) 0) as (r & Er & Hr); [lia | unfold CELLS in *; lia|].
  exists r. split; [done|]. rewrite Hlen. destruct r as [p|].
  - destruct Hr as (Hp & b & Eb & Hb). assert (p ∉ ps) as Hout.
    { intros Hin. apply list_elem_of_lookup in Hin as [i Hi].
      destruct (Forall2_lookup_l _ _ _ _ _ (h_cells _ _ _ H) Hi) as (c & _ & d & Ed & _ & Hd). simplify_eq. lia. }
    split_and!; [done | unfold CELLS in *; lia | unfold CELLS in *; lia |].
    assert (length (p :: ps) <= Z.to_nat CELLS)%nat; [|cbn in *; unfold CELLS in *; lia].
    apply nodup_bounded; [by constructor; [|apply H]|]. intros q [->|Hq]%elem_of_cons; [unfold CELLS in *; lia|].
    pose proof (slots_in_range _ _ _ _ (h_cells _ _ _ H) Hq). unfold CELLS in *. lia.
  - enough (Z.to_nat CELLS <= length ps)%nat by lia. apply all_listed. intros p Hp.
    destruct (decide (p ∈ ps)) as [|Hout]; [done|]. destruct (zget_ex (blink_array st) p) as [b Eb]; [unfold CELLS in *; lia|].
    destruct (Hr p b); [lia | done |]. by apply (h_free _ _ _ H p).
Qed.

(** ** The routines keep the promise *)

Definition base_ok (st : fish_state) : Prop := 0 <= vmem_base_addr st /\ vmem_base_addr st + 4096 <= 2 ^ 32.

Lemma poke_in_range cl loc st :
  0 <= loc < CELLS -> base_ok st ->
  mp1_poke cl (Z.shiftl loc 1) st = set_stores (stores st ++ [(vmem_base_addr st + 2 * loc, cl)]) st.
Proof.
  intros Hl [? ?]. unfold mp1_poke. rewrite Z.shiftl_mul_pow2 by lia. change (2 ^ 1) with 2. rewrite (Z.mul_comm loc).
  by rewrite u32_small by (unfold CELLS in *; lia).
Qed.

Lemma paint_app base l1 l2 v : paint base (l1 ++ l2) v = paint base l2 (paint base l1 v).
Proof. apply foldl_app. Qed.

Lemma paint_show base loc c v : paint base [(base + 2 * loc, c)] v = show loc c v.
Proof. unfold paint, paint_one, show. cbn. by replace (base + 2 * loc - base) with (2 * loc) by lia. Qed.

Lemma vmem_poked st loc c l :
  vmem (set_stores (stores st ++ (vmem_base_addr st + 2 * loc, c) :: l) st) = paint (vmem_base_addr st) l (show loc c (vmem st)).
Proof. unfold vmem. cbn [stores set_stores vmem_base_addr]. rewrite paint_app. by rewrite <- (paint_show (vmem_base_addr st)). Qed.

Lemma cell_on_page base loc c : 0 <= loc < CELLS -> on_page base (base + 2 * loc, c).
Proof. unfold on_page, CELLS. cbn. lia. Qed.

Lemma show_length loc c v : length (show loc c v) = length v.
Proof. apply length_insert. Qed.

Lemma slot_holds_new a p b : strip b = b -> 0 < location b < CELLS -> 0 <= p < Z.of_nat (length a) -> forall q,
  slot_holds (<[Z.to_nat p := set_link q b]> a) p b.
Proof. intros Hb Hl Hp q. exists (set_link q b). rewrite zget_insert, Z.eqb_refl by done. by rewrite <- Hb at 2. Qed.

Lemma add_holds st ps s u :
  holds st ps s -> 0 < location u ->
  exists st' ps', mp1_ioctl_add u st = Some (fst (spec_add u s), st') /\ holds st' ps' (snd (spec_add u s)).
Proof.
  intros H Hu. unfold mp1_ioctl_add, spec_add. destruct (Z.leb_spec CELLS (location u)) as [Hbig|Hsmall]; [by exists st, ps|].
  destruct (malloc_spec st ps s H) as (r & -> & Hr). rewrite some_bind. cbn [orb]. destruct r as [p|].
  2: { btrue (CELLS <=? Z.of_nat (length (fst s))). by exists st, ps. }
  destruct Hr as (Hp & Hrange & Hlen). bfalse (CELLS <=? Z.of_nat (length (fst s))). cbn [fst snd].
  pose proof (h_slots _ _ _ H) as Hn. rewrite zset_in by lia. rewrite some_bind. rewrite zset_in by (rewrite length_insert; lia).
  rewrite some_bind, list_insert_insert_eq. rewrite poke_in_range by (apply H || (cbn; lia)).
  set (b := set_countdown (on_length u) (set_status 1 (strip u))).
  eexists _, (p :: ps). split; [done|]. constructor; cbn [blink_array mp1_list_head set_stores set_head set_array vmem_base_addr stores fst snd].
  - by rewrite length_insert.
  - econstructor; [rewrite zget_insert, Z.eqb_refl by lia; done|]. cbn [next set_link]. apply chain_insert; [apply H | done | lia].
  - constructor; [done | apply H].
  - constructor; [by apply (slot_holds_new _ p b); [ | cbn; lia | lia]|]. apply slot_holds_insert; [apply H | done | lia].
  - intros q c. rewrite zget_insert by lia. intros Ec [Hq Hout]%not_elem_of_cons.
    rewrite (proj2 (Z.eqb_neq q p)) in Ec by done. by eapply H.
  - unfold vmem. cbn [vmem_base_addr stores set_stores set_head set_array]. rewrite paint_app, paint_show, show_length. apply H.
  - unfold vmem. cbn [vmem_base_addr stores set_stores set_head set_array]. rewrite paint_app, paint_show. by rewrite <- (h_screen _ _ _ H).
  - apply H.
  - apply H.
  - apply Forall_app. split; [apply H|]. constructor; [apply cell_on_page; cbn; lia | done].
Qed.

(** Where the search stops. *)
Definition splits (loc : Z) (p : Z) (b : mp1_blink_struct) (ps : list Z) (l : list mp1_blink_struct) : Prop :=
  exists ps1 ps2 l1 l2, ps = ps1 ++ p :: ps2 /\ l = l1 ++ b :: l2 /\ length l1 = length ps1 /\
    location b = loc /\ Forall (fun c => location c <> loc) l1.

Lemma find_loop_spec a loc : forall ps l h fuel,
  chain a h ps -> Forall2 (slot_holds a) ps l -> (length ps < fuel)%nat ->
  exists r, find_loop fuel a loc h = Some r /\
    match r with
    | Some p => exists b, splits loc p b ps l
    | None => Forall (fun c => location c <> loc) l
    end.
Proof.
  induction ps as [|p ps IH]; intros l h fuel Hc HF Hfuel; inversion Hc as [|q c ps' Eq Hc']; subst; destruct fuel as [|fuel]; try (cbn in Hfuel; lia);
    inversion HF as [|q2 b ps2 l' (d & Ed & Hs & Hl) HF']; subst; cbn [find_loop].
  - by exists None.
  - rewrite Eq, some_bind. simplify_eq. destruct (Z.eqb_spec (location c) loc) as [E|Hne].
    + exists (Some p). split; [done|]. exists (strip c), [], ps, [], l'. by split_and!.
    + destruct (IH l' (next c) fuel) as (r & -> & Hr); [done..|cbn in Hfuel; lia|]. exists r. split; [done|]. destruct r as [q|].
      * destruct Hr as (b & ps1 & ps2 & l1 & l2 & -> & -> & Hlen & Hb & Hf).
        exists b, (p :: ps1), ps2, (strip c :: l1), l2. split_and!; try done; [cbn; lia | by constructor].
      * by constructor.
Qed.

Lemma find_spec st ps s arg :
  holds st ps s ->
  exists r, mp1_find_helper arg st = Some r /\
    match r with
    | Some p => exists b, splits (u16 arg) p b ps (fst s)
    | None => Forall (fun c => location c <> u16 arg) (fst s)
    end.
Proof.
  intros H. apply find_loop_spec; [apply H.. |]. apply holds_length in H. unfold loop_fuel. lia.
Qed.

Lemma find_none loc l : Forall (fun c => location c <> loc) l -> find (at_location loc) l = None.
Proof. induction 1 as [|b l Hb _ IH]; [done|]. cbn. unfold at_location at 1. by bfalse (location b =? loc). Qed.

Lemma find_splits loc l1 b l2 :
  Forall (fun c => location c <> loc) l1 -> location b = loc -> find (at_location loc) (l1 ++ b :: l2) = Some b.
Proof.
  intros Hl Hb. induction Hl as [|c l Hc _ IH]; cbn; unfold at_location at 1.
  - by btrue (location b =? loc).
  - by bfalse (location c =? loc).
Qed.

Lemma on_first_splits loc f l1 b l2 :
  Forall (fun c => location c <> loc) l1 -> location b = loc -> on_first loc f (l1 ++ b :: l2) = l1 ++ f b ++ l2.
Proof.
  intros Hl Hb. induction Hl as [|c l Hc _ IH]; cbn; unfold at_location at 1.
  - by btrue (location b =? loc).
  - bfalse (location c =? loc). by rewrite IH.
Qed.

(** The slot where the search stops. *)
Lemma splits_slot st ps s loc p b :
  holds st ps s -> splits loc p b ps (fst s) -> slot_holds (blink_array st) p b.
Proof.
  intros H (ps1 & ps2 & l1 & l2 & -> & El & Hlen & _). pose proof (h_cells _ _ _ H) as HF. rewrite El in HF.
  apply Forall2_app_inv in HF as [_ HF]; [|done]. by inversion HF.
Qed.

Lemma find_holds st ps s u :
  holds st ps s -> 0 <= location u < 65536 ->
  exists r b, mp1_ioctl_find u st = Some (r, b) /\
    match spec_find (location u) s with
    | Some c => r = 0 /\ strip b = c
    | None => r = -1 /\ b = u
    end.
Proof.
  intros H Hu. unfold mp1_ioctl_find, spec_find. destruct (find_spec st ps s (location u) H) as (r & -> & Hr).
  rewrite some_bind. rewrite u16_small in Hr by lia. destruct r as [p|].
  - destruct Hr as (b & Hs). destruct (splits_slot _ _ _ _ _ _ H Hs) as (c & -> & <- & _). rewrite some_bind.
    destruct Hs as (ps1 & ps2 & l1 & l2 & _ & -> & _ & Hb & Hl). rewrite find_splits by done. by exists 0, c.
  - rewrite find_none by done. by exists (-1), u.
Qed.

Lemma chain_update a h ps p b b' :
  chain a h ps -> a.[p] = Some b -> next b' = next b -> chain (<[Z.to_nat p := b']> a) h ps.
Proof.
  intros Hc Hp Hn. pose proof (zget_Some_range _ _ _ Hp) as Hr. induction Hc as [|q c ps E _ IH]; [constructor|].
  destruct (Z.eqb_spec q p) as [->|Hne].
  - simplify_eq. apply (chain_cons _ _ b'); [by rewrite zget_insert, Z.eqb_refl by done | by rewrite Hn].
  - apply (chain_cons _ _ c); [|done]. rewrite zget_insert by done. by bfalse (q =? p).
Qed.

(** A slot of the list gets new contents at the same location. *)
Lemma holds_update st ps l1 b l2 v ps1 p ps2 c c' :
  holds st ps (l1 ++ b :: l2, v) -> ps = ps1 ++ p :: ps2 -> length l1 = length ps1 ->
  (blink_array st).[p] = Some c -> next c' = next c -> location c' = location c ->
  holds (set_array (<[Z.to_nat p := c']> (blink_array st)) st) ps (l1 ++ strip c' :: l2, v).
Proof.
  intros H -> Hlen Hc Hn Hl. pose proof (zget_Some_range _ _ _ Hc) as Hr.
  pose proof (h_cells _ _ _ H) as HF. apply Forall2_app_inv in HF as [HF1 HF2]; [|done].
  inversion HF2 as [|p' b' ps' l' (d & Ed & Hs & Hloc) HF3]; subst. simplify_eq.
  pose proof (h_nodup _ _ _ H) as (Hnd1 & Hdisj & [Hp Hnd2]%NoDup_cons)%NoDup_app.
  constructor; cbn [blink_array mp1_list_head set_array vmem_base_addr stores fst snd].
  - rewrite length_insert. apply H.
  - eapply chain_update; [apply H | done | done].
  - apply H.
  - apply Forall2_app; [|constructor].
    + apply slot_holds_insert; [done | | done]. intros Hin. apply (Hdisj p); [done | left].
    + exists c'. rewrite zget_insert, Z.eqb_refl by done. by rewrite Hl.
    + by apply slot_holds_insert.
  - intros q d. rewrite zget_insert by done. case_if; [|by apply H]. subst. intros _ Hout. destruct Hout.
    apply elem_of_app. right. left.
  - apply H.
  - apply H.
  - apply H.
  - apply H.
  - apply H.
Qed.

Lemma holds_poke st ps l v loc c :
  holds st ps (l, v) -> 0 <= loc < CELLS -> holds (mp1_poke c (Z.shiftl loc 1) st) ps (l, show loc c v).
Proof.
  intros H Hl. pose proof (h_screen _ _ _ H) as Ev. cbn in Ev. rewrite poke_in_range by (done || apply H).
  constructor; try apply H; cbn [stores set_stores vmem_base_addr fst snd].
  - rewrite vmem_poked. cbn. rewrite show_length. apply H.
  - rewrite vmem_poked. cbn. by rewrite Ev.
  - apply Forall_app. split; [apply H|]. constructor; [by apply cell_on_page | done].
Qed.

(** The [cmovl] of [mp1_ioctl_sync] never moves. *)
Lemma cmovl_never value : cmovl_after_testb 1 value = false.
Proof.
  unfold cmovl_after_testb. rewrite Z.land_spec. by destruct (Z.testbit value 7).
Qed.

Lemma sync_holds st ps s from to :
  holds st ps s -> 0 <= from < 65536 -> 0 <= to < 65536 ->
  exists st' ps', mp1_ioctl_sync (Z.lor (Z.shiftl from 16) to) st = Some (fst (spec_sync from to s), st') /\
    holds st' ps' (snd (spec_sync from to s)).
Proof.
  intros H Hf Ht. unfold mp1_ioctl_sync, spec_sync.
  assert (Z.shiftr (Z.lor (Z.shiftl from 16) to) 16 = from) as ->.
  { rewrite Z.shiftr_lor, Z.shiftr_shiftl_l, Z.sub_diag, Z.shiftl_0_r, (Z.shiftr_div_pow2 to), Z.div_small by lia. apply Z.lor_0_r. }
  assert (Z.land (Z.lor (Z.shiftl from 16) to) 0xFFFF = to) as ->.
  { rewrite Z.land_lor_distr_l. change 0xFFFF with (Z.ones 16). rewrite !Z.land_ones, Z.shiftl_mul_pow2, Z.mod_mul, Z.mod_small by lia. done. }
  destruct (find_spec st ps s from H) as (r & -> & Hr). rewrite some_bind, u16_small in * by lia. destruct r as [p|].
  2: { rewrite find_none by done. by exists st, ps. }
  destruct (find_spec st ps s to H) as (r & -> & Hq). rewrite some_bind, u16_small in * by lia.
  destruct Hr as (b & Hp). destruct (splits_slot _ _ _ _ _ _ H Hp) as (c & Ec & Hb & _).
  destruct Hp as (ps1 & ps2 & l1 & l2 & _ & El & _ & Hbl & Hl1).
  assert (find (at_location from) (fst s) = Some b) as -> by (rewrite El; by apply find_splits).
  destruct r as [q|].
  2: { rewrite find_none by done. by exists st, ps. }
  destruct Hq as (d & Hq). destruct (splits_slot _ _ _ _ _ _ H Hq) as (e & Ee & Hd & Hloc). rewrite Ec, Ee, !some_bind.
  pose proof (zget_Some_range _ _ _ Ee) as Hqr. rewrite cmovl_never. cbv iota.
  rewrite zset_in by done. rewrite some_bind.
  destruct Hq as (ps3 & ps4 & l3 & l4 & Eps & El' & Hlen & Hdl & Hl3). destruct s as [l v]. cbn [fst snd] in *. clear El.
  pose proof (holds_update st ps l3 d l4 v ps3 q ps4 e _ ltac:(by rewrite <- El') Eps Hlen Ee
    (eq_refl (next (set_status (status c) (set_countdown (countdown c) (set_lengths (on_length c) (off_length c) e))))) eq_refl) as H2.
  pose proof (holds_poke _ _ _ _ (location e) (off_char e) H2 ltac:(lia)) as H3.
  cbn [off_char location set_status set_countdown set_lengths]. rewrite El', find_splits, on_first_splits by done.
  subst d b. eexists _, _. split; [done|]. cbn [app snd]. subst to. exact H3.
Qed.

Lemma remove_find_prev_spec a head p ps2 : forall ps1 edx h fuel,
  match edx with None => Some head | Some q => b ← a.[q]; Some (next b) end = Some h ->
  chain a h (ps1 ++ p :: ps2) -> p ∉ ps1 -> (length ps1 < fuel)%nat ->
  remove_find_prev fuel a head p edx = Some (match last ps1 with Some q => Some q | None => edx end).
Proof.
  induction ps1 as [|q ps1 IH]; intros edx h fuel Hedx Hc Hp Hfuel; (destruct fuel as [|fuel]; [cbn in Hfuel; lia|]);
    cbn [remove_find_prev]; rewrite Hedx, some_bind; inversion Hc as [|q' c ps' Eq Hc']; subst.
  - by rewrite bool_decide_true.
  - apply not_elem_of_cons in Hp as [Hne Hp]. rewrite bool_decide_false by congruence. rewrite some_bind.
    rewrite (IH (Some q) (next c) fuel); [|by rewrite Eq | done | done | cbn in Hfuel; lia].
    rewrite last_cons. by destruct (last ps1).
Qed.

(** The element after [q] leaves the chain. *)
Lemma chain_unlink a p b q c ps2 : forall ps1 h,
  chain a h (ps1 ++ q :: p :: ps2) -> NoDup (ps1 ++ q :: p :: ps2) -> a.[p] = Some b -> a.[q] = Some c ->
  chain (<[Z.to_nat q := set_link (next b) c]> a) h (ps1 ++ q :: ps2).
Proof.
  intros ps1 h Hc Hnd Hb Hq. pose proof (zget_Some_range _ _ _ Hq) as Hr. revert h Hc Hnd.
  induction ps1 as [|r ps1 IH]; intros h Hc [Hout Hnd]%NoDup_cons; cbn [app] in *; inversion Hc as [|r' d ps' Er Hc']; subst.
  - inversion Hc' as [|p' e ps' Ep Hc2]; subst. simplify_eq.
    apply (chain_cons _ _ (set_link (next b) c)); [by rewrite zget_insert, Z.eqb_refl by done|].
    apply chain_insert; [done | | done]. intros Hin. apply Hout. by right.
  - apply (chain_cons _ _ d); [|by apply IH]. rewrite zget_insert by done.
    assert (r <> q) by (intros ->; apply Hout; apply elem_of_app; right; left). by bfalse (r =? q).
Qed.

(** The slots of the list once the one at [p] has left it. *)
Lemma holds_unlinked st st' ps1 p ps2 l1 b l2 v :
  holds st (ps1 ++ p :: ps2) (l1 ++ b :: l2, v) -> length l1 = length ps1 ->
  length (blink_array st') = length (blink_array st) -> vmem_base_addr st' = vmem_base_addr st -> stores st' = stores st ->
  chain (blink_array st') (mp1_list_head st') (ps1 ++ ps2) ->
  (forall q c, (blink_array st).[q] = Some c -> exists k, (blink_array st').[q] = Some (set_link k c)) ->
  holds (set_array (<[Z.to_nat p := zero_struct]> (blink_array st')) st') (ps1 ++ ps2) (l1 ++ l2, v).
Proof.
  intros H Hlen Hn Hba Hst Hc Hsame. assert (vmem st' = vmem st) as Hv by (unfold vmem; by rewrite Hba, Hst).
  pose proof (h_cells _ _ _ H) as HF. apply Forall2_app_inv in HF as [HF1 HF2]; [|done].
  inversion HF2 as [|p' b' ps' l' (d & Ed & Hs & Hloc) HF3]; subst. pose proof (zget_Some_range _ _ _ Ed) as Hr.
  pose proof (h_nodup _ _ _ H) as (Hnd1 & Hdisj & [Hp Hnd2]%NoDup_cons)%NoDup_app.
  assert (p ∉ ps1 ++ ps2) as Hout.
  { intros [Hin|Hin]%elem_of_app; [|done]. apply (Hdisj p); [done | left]. }
  constructor; cbn [blink_array mp1_list_head set_array vmem_base_addr stores fst snd].
  - rewrite length_insert, Hn. apply H.
  - apply chain_insert; [done | done | by rewrite Hn].
  - apply NoDup_app. split_and!; [done | | done]. intros q Hq1 Hq2. apply (Hdisj q); [done | by right].
  - apply slot_holds_insert; [|done | by rewrite Hn]. apply Forall2_app; eapply Forall2_impl; [exact HF1 | | exact HF3 |];
      intros q c (e & Ee & <- & He); destruct (Hsame _ _ Ee) as (k & Ek); by exists (set_link k e).
  - intros q c. rewrite zget_insert by (by rewrite Hn). case_if; [by intros [= <-]|]. intros Ec Hq.
    destruct (zget_ex (blink_array st) q) as [e Ee]; [rewrite <- Hn; by eapply zget_Some_range|].
    destruct (Hsame _ _ Ee) as (k & Ek). simplify_eq. change (location e = 0). apply (h_free _ _ _ H q); [done|].
    intros [Hin|[->|Hin]%elem_of_cons]%elem_of_app; try done; apply Hq, elem_of_app; tauto.
  - change (length (vmem st') = 4096%nat). rewrite Hv. apply H.
  - change (vmem st' = v). rewrite Hv. apply H.
  - rewrite Hba. apply H.
  - rewrite Hba. apply H.
  - rewrite Hba, Hst. apply H.
Qed.

Lemma set_link_same b : set_link (next b) b = b.
Proof. by destruct b. Qed.

Lemma remove_holds st ps s arg :
  holds st ps s ->
  exists st' ps', mp1_ioctl_remove arg st = Some (fst (spec_remove (u16 arg) s), st') /\
    holds st' ps' (snd (spec_remove (u16 arg) s)).
Proof.
  intros H. unfold mp1_ioctl_remove, spec_remove. destruct (find_spec st ps s arg H) as (r & -> & Hr). rewrite some_bind.
  destruct r as [p|]; [|rewrite find_none by done; by exists st, ps].
  destruct Hr as (b & Hs). destruct (splits_slot _ _ _ _ _ _ H Hs) as (d & Ed & Hd & _).
  destruct Hs as (ps1 & ps2 & l1 & l2 & -> & El & Hlen & Hb & Hl). destruct s as [l v]. cbn [fst snd] in *. subst l.
  rewrite find_splits, on_first_splits by done. cbn [fst snd app].
  pose proof (h_nodup _ _ _ H) as Hnd. pose proof Hnd as (_ & Hdisj & _)%NoDup_app. pose proof (holds_length _ _ _ H) as [Hps _].
  rewrite length_app in Hps.
  rewrite (remove_find_prev_spec _ _ p ps2 ps1 None (mp1_list_head st)); [|done | apply H | | unfold loop_fuel; lia].
  2: { intros Hin. apply (Hdisj p); [done | left]. }
  rewrite !some_bind, Ed, some_bind. pose proof (zget_Some_range _ _ _ Ed) as Hr.
  destruct (last ps1) as [q|] eqn:Elast.
  - apply last_Some in Elast as (ps0 & ->). rewrite <- app_assoc in H, Hnd. cbn [app] in H, Hnd.
    destruct (zget_ex (blink_array st) q) as [c Eq].
    { eapply slots_in_range; [apply (h_cells _ _ _ H)|]. apply elem_of_app. right. left. }
    pose proof (zget_Some_range _ _ _ Eq) as Hqr. rewrite Eq, some_bind, zset_in, some_bind by done. rewrite some_bind.
    unfold mp1_free. cbn [blink_array set_array]. rewrite zset_in, some_bind by (by rewrite length_insert).
    eexists _, ((ps0 ++ [q]) ++ ps2). split; [done|].
    eapply (holds_unlinked st (set_array (<[Z.to_nat q := set_link (next d) c]> (blink_array st)) st)); cbn [blink_array mp1_list_head set_array].
    + rewrite <- app_assoc. exact H.
    + done.
    + apply length_insert.
    + done.
    + done.
    + rewrite <- app_assoc. eapply chain_unlink; [apply H | done..].
    + intros r e Ee. change (exists k, (<[Z.to_nat q := set_link (next d) c]> (blink_array st)).[r] = Some (set_link k e)).
      rewrite zget_insert by done. case_if; [|by exists (next e); rewrite set_link_same]. subst. simplify_eq. by eexists.
  - apply last_None in Elast as ->. cbn [app] in *. rewrite some_bind. unfold mp1_free. cbn [blink_array set_head].
    rewrite zset_in, some_bind by done. eexists _, ps2. split; [done|].
    apply (holds_unlinked st (set_head (next d) st) [] p ps2 l1 b l2 v); try done.
    + cbn. pose proof (h_chain _ _ _ H) as Hc. inversion Hc. by simplify_eq.
    + intros r e Ee. exists (next e). by rewrite set_link_same.
Qed.

Lemma odd_land z : negb (Z.land z 1 =? 0) = Z.odd z.
Proof.
  change 1 with (Z.ones 1) at 1. rewrite Z.land_ones by lia. change (2 ^ 1) with 2. rewrite Zmod_odd. by destruct (Z.odd z).
Qed.

Lemma odd_lxor z : Z.odd (Z.lxor z 1) = negb (Z.odd z).
Proof. rewrite <- !Z.bit0_odd, Z.lxor_spec. by destruct (Z.testbit z 0). Qed.

(** What the tasklet stores for one character. *)
Definition blinks (base : Z) (b : mp1_blink_struct) : list (Z * Z) :=
  if expires b then [(base + 2 * location b, current_char (flip b))] else [].

Lemma paint_blinks base l v : paint base (concat (map (blinks base) l)) v = foldl (fun v b => repaint b v) v l.
Proof.
  revert v. induction l as [|b l IH]; intros v; [done|]. cbn [map concat foldl]. rewrite paint_app, IH. f_equal.
  unfold blinks, repaint. case_if; [apply paint_show | done].
Qed.

Lemma blinks_link base q b : blinks base (set_link q b) = blinks base b.
Proof.
  unfold blinks, current_char, flip. change (expires (set_link q b)) with (expires b). cbn [status set_link]. by destruct (Z.odd (status b)).
Qed.

Lemma tasklet_one_spec p st c :
  (blink_array st).[p] = Some c -> 0 <= location c < CELLS -> base_ok st ->
  tasklet_one p st = Some (next c, Fish (<[Z.to_nat p := tick c]> (blink_array st)) (mp1_list_head st) (vmem_base_addr st)
    (stores st ++ blinks (vmem_base_addr st) c)).
Proof.
  intros Ec Hl Hv. pose proof (zget_Some_range _ _ _ Ec) as Hr. unfold tasklet_one, tick, blinks, expires. rewrite Ec, some_bind. cbv zeta.
  cbn [countdown set_countdown location status on_char off_char on_length off_length]. rewrite Z.ltb_antisym.
  destruct (s16 (u16 (countdown c - 1)) <=? 0) eqn:E; cbn [negb].
  - rewrite odd_land, poke_in_range by done. rewrite !some_bind. cbn [blink_array set_stores]. rewrite zset_in, some_bind by done.
    unfold flip, current_char. by destruct (Z.odd (status c)) eqn:Eo; cbn [status set_status]; rewrite odd_lxor, Eo.
  - rewrite some_bind. rewrite zset_in, some_bind by done. by rewrite app_nil_r.
Qed.

Lemma tick_link q b : tick (set_link q b) = set_link q (tick b).
Proof. unfold tick, flip. change (expires (set_link q b)) with (expires b). cbn [status set_link]. by destruct (expires b), (Z.odd (status b)). Qed.

Lemma tick_location b : location (tick b) = location b.
Proof. unfold tick, flip. by destruct (expires b), (Z.odd (status b)). Qed.

Lemma tick_next b : next (tick b) = next b.
Proof. unfold tick, flip. by destruct (expires b), (Z.odd (status b)). Qed.

Lemma repaint_length b v : length (repaint b v) = length v.
Proof. unfold repaint. case_if; [apply show_length | done]. Qed.

Lemma paint_length l v : length (foldl (fun v b => repaint b v) v l) = length v.
Proof. revert v. induction l as [|b l IH]; intros v; cbn [foldl]; [done|]. rewrite IH. apply repaint_length. Qed.

Lemma tasklet_loop_spec : forall ps l st ebx fuel,
  chain (blink_array st) ebx ps -> NoDup ps -> Forall2 (slot_holds (blink_array st)) ps l ->
  base_ok st -> (length ps < fuel)%nat ->
  exists a, tasklet_loop fuel ebx st = Some (Fish a (mp1_list_head st) (vmem_base_addr st)
      (stores st ++ concat (map (blinks (vmem_base_addr st)) l))) /\
    length a = length (blink_array st) /\ Forall2 (slot_holds a) ps (map tick l) /\
    (forall q, q ∉ ps -> a.[q] = (blink_array st).[q]) /\
    (forall q c, (blink_array st).[q] = Some c -> exists c', a.[q] = Some c' /\ next c' = next c).
Proof.
  induction ps as [|p ps IH]; intros l st ebx fuel Hc Hnd HF Hv Hfuel; inversion Hc as [|p' c ps' Ep Hc']; subst;
    (destruct fuel as [|fuel]; [cbn in Hfuel; lia|]); inversion HF as [|p' b ps' l' (c' & Ec & Hs & Hloc) HF']; subst; cbn [tasklet_loop].
  - exists (blink_array st). split_and!; try done; [cbn; rewrite app_nil_r; by destruct st|]. intros q c Eq. by exists c.
  - simplify_eq. apply NoDup_cons in Hnd as [Hp Hnd]. pose proof (zget_Some_range _ _ _ Ep) as Hr.
    rewrite (tasklet_one_spec p st c) by (done || lia). rewrite some_bind.
    set (st1 := Fish _ _ _ _). destruct (IH l' st1 (next c) fuel) as (a & E & Hlen & HFa & Hout & Hlinks).
    + by apply chain_insert.
    + done.
    + by apply slot_holds_insert.
    + done.
    + cbn in Hfuel. lia.
    + exists a. cbn [blink_array vmem_base_addr stores mp1_list_head st1] in *. rewrite length_insert in Hlen. rewrite E. split_and!; try done.
      * cbn [map concat]. unfold strip. by rewrite blinks_link, <- app_assoc.
      * cbn [map]. constructor; [|done]. exists (tick c). rewrite Hout, zget_insert, Z.eqb_refl, tick_location by done. split_and!; try lia; [done|].
        unfold strip. by rewrite tick_link.
      * intros q [Hne Hq]%not_elem_of_cons. rewrite Hout, zget_insert by done. by bfalse (q =? p).
      * intros q d Ed. destruct (Z.eqb_spec q p) as [->|Hne].
        -- assert (d = c) as -> by congruence. exists (tick c). by rewrite Hout, zget_insert, Z.eqb_refl, tick_next by done.
        -- apply Hlinks. rewrite zget_insert by done. by bfalse (q =? p).
Qed.

Lemma chain_links a a' h ps :
  chain a h ps -> (forall q c, a.[q] = Some c -> exists c', a'.[q] = Some c' /\ next c' = next c) -> chain a' h ps.
Proof.
  intros Hc Hl. induction Hc as [|p b ps E _ IH]; [constructor|]. destruct (Hl p b E) as (c & Ec & Hn).
  apply (chain_cons _ _ c); [done | by rewrite Hn].
Qed.

Lemma tasklet_holds st ps s :
  holds st ps s -> exists st' ps', mp1_rtc_tasklet st = Some st' /\ holds st' ps' (spec_tick s).
Proof.
  intros H. destruct (tasklet_loop_spec ps (fst s) st (mp1_list_head st) loop_fuel) as (a & E & Hlen & HF & Hout & Hlinks);
    [apply H..| |].
  { apply holds_length in H. unfold loop_fuel. lia. }
  set (st' := Fish a _ _ _) in E.
  assert (vmem st' = foldl (fun v b => repaint b v) (vmem st) (fst s)) as Ev.
  { unfold vmem, st'. cbn [vmem_base_addr stores]. by rewrite paint_app, paint_blinks. }
  exists st', ps. split; [exact E|]. constructor; cbn [blink_array mp1_list_head vmem_base_addr stores spec_tick fst snd st'].
  - rewrite Hlen. apply H.
  - eapply chain_links; [apply H | done].
  - apply H.
  - done.
  - intros p b Eb Hp. rewrite Hout in Eb by done. by eapply H.
  - fold st'. rewrite Ev, <- (h_vmem _ _ _ H). apply paint_length.
  - fold st'. by rewrite Ev, (h_screen _ _ _ H).
  - apply H.
  - apply H.
  - apply Forall_app. split; [apply H|]. apply Forall_concat, Forall_map, Forall_forall. intros b Hb.
    apply list_elem_of_lookup in Hb as [i Hi]. destruct (Forall2_lookup_r _ _ _ _ _ (h_cells _ _ _ H) Hi) as (p & _ & d & _ & <- & Hd).
    unfold blinks. case_if; [|constructor]. constructor; [apply cell_on_page; cbn; lia | done].
Qed.

(** ** Sequences of operations *)

Inductive blink_op := BAdd (u : mp1_blink_struct) | BRemove (arg : Z) | BFind (u : mp1_blink_struct) | BSync (from to : Z) | BTick.

(** The C types of the arguments; a location of 0 is not to be added. *)
Definition op_ok (o : blink_op) : Prop :=
  match o with
  | BAdd u => 0 < location u
  | BFind u => 0 <= location u < 65536
  | BSync from to => 0 <= from < 65536 /\ 0 <= to < 65536
  | BRemove _ | BTick => True
  end.

(** What the caller sees: the value returned, and the structure it gave, without the link. *)
Definition answer : Type := Z * option mp1_blink_struct.

Definition do_op (o : blink_op) (st : fish_state) : option (answer * fish_state) :=
  match o with
  | BAdd u => '(r, _, st) ← mp1_ioctl 0 u RTC_ADD st; Some ((r, None), st)
  | BRemove arg => '(r, _, st) ← mp1_ioctl arg zero_struct RTC_REMOVE st; Some ((r, None), st)
  | BFind u => '(r, b, st) ← mp1_ioctl 0 u RTC_FIND st; Some ((r, Some (strip b)), st)
  | BSync from to => '(r, _, st) ← mp1_ioctl (Z.lor (Z.shiftl from 16) to) zero_struct RTC_SYNC st; Some ((r, None), st)
  | BTick => st ← mp1_rtc_tasklet st; Some ((0, None), st)
  end.

Definition spec_op (o : blink_op) (s : cells) : answer * cells :=
  match o with
  | BAdd u => let '(r, s) := spec_add u s in ((r, None), s)
  | BRemove arg => let '(r, s) := spec_remove (u16 arg) s in ((r, None), s)
  | BFind u => match spec_find (location u) s with Some b => ((0, Some b), s) | None => ((-1, Some (strip u)), s) end
  | BSync from to => let '(r, s) := spec_sync from to s in ((r, None), s)
  | BTick => ((0, None), spec_tick s)
  end.

Fixpoint do_ops (os : list blink_op) (st : fish_state) : option (list answer * fish_state) :=
  match os with
  | [] => Some ([], st)
  | o :: os' => '(r, st) ← do_op o st; '(rs, st) ← do_ops os' st; Some (r :: rs, st)
  end.

Fixpoint spec_ops (os : list blink_op) (s : cells) : list answer * cells :=
  match os with
  | [] => ([], s)
  | o :: os' => let '(r, s) := spec_op o s in let '(rs, s) := spec_ops os' s in (r :: rs, s)
  end.

Lemma do_op_spec o st s :
  represents st s -> op_ok o -> exists st', do_op o st = Some (fst (spec_op o s), st') /\ represents st' (snd (spec_op o s)).
Proof.
  intros (ps & H) Ho. destruct o as [u|arg|u|from to|]; cbn [op_ok] in Ho; cbn [do_op spec_op].
  - destruct (add_holds st ps s u H Ho) as (st' & ps' & E & H'). unfold mp1_ioctl. btrue (RTC_ADD =? RTC_ADD).
    rewrite E, !some_bind. destruct (spec_add u s). by exists st'; split; [|exists ps'].
  - destruct (remove_holds st ps s arg H) as (st' & ps' & E & H'). unfold mp1_ioctl. cbn -[mp1_ioctl_remove spec_remove].
    rewrite E, !some_bind. destruct (spec_remove (u16 arg) s). by exists st'; split; [|exists ps'].
  - destruct (find_holds st ps s u H Ho) as (r & b & E & Hr). unfold mp1_ioctl. cbn -[mp1_ioctl_find spec_find].
    rewrite E, !some_bind. exists st. destruct (spec_find (location u) s) as [c|]; destruct Hr as [-> ->]; by split; [|exists ps].
  - destruct Ho as [Hf Ht]. destruct (sync_holds st ps s from to H Hf Ht) as (st' & ps' & E & H'). unfold mp1_ioctl. cbn -[mp1_ioctl_sync spec_sync Z.lor Z.shiftl].
    rewrite E, !some_bind. destruct (spec_sync from to s). by exists st'; split; [|exists ps'].
  - destruct (tasklet_holds st ps s H) as (st' & ps' & E & H'). rewrite E, some_bind. by exists st'; split; [|exists ps'].
Qed.

Lemma do_ops_spec os : forall st s,
  represents st s -> Forall op_ok os ->
  exists st', do_ops os st = Some (fst (spec_ops os s), st') /\ represents st' (snd (spec_ops os s)).
Proof.
  induction os as [|o os IH]; intros st s H Hos; cbn [do_ops spec_ops]; [by exists st|]. inversion Hos as [|? ? Ho Hos']; subst.
  destruct (do_op_spec o st s H Ho) as (st1 & -> & H1). rewrite some_bind. destruct (spec_op o s) as [r s1].
  destruct (IH st1 s1 H1 Hos') as (st2 & -> & H2). rewrite some_bind. destruct (spec_ops os s1) as [rs s2]. by exists st2.
Qed.

(** The stores have been performed. *)
Lemma represents_length st s : represents st s -> length (snd s) = 4096%nat.
Proof. intros (ps & H). rewrite <- (h_screen _ _ _ H). apply H. Qed.

End Page.

Lemma represents_flushed v base st s : represents v base st s -> represents (snd s) base (set_stores [] st) s.
Proof.
  intros H. pose proof (represents_length v base st s H) as Hl. destruct H as (ps & []). exists ps. by split.
Qed.

(** [blink_array] as [main] clears it, the empty list, and the page at [base]. *)
Definition fish_start (base : Z) : fish_state := Fish (replicate (Z.to_nat CELLS) zero_struct) None base [].

Lemma start_represents base v : length v = 4096%nat -> 0 <= base -> base + 4096 <= 2 ^ 32 -> represents v base (fish_start base) ([], v).
Proof.
  intros Hv H0 H1. exists []. constructor; cbn [blink_array mp1_list_head vmem_base_addr stores fish_start fst snd]; try done.
  - constructor.
  - constructor.
  - intros p b Eb _. unfold zget in Eb. destruct (0 <=? p); [|done]. by apply lookup_replicate in Eb as [-> _].
Qed.

(** C30: [fish/blink.S] with the allocator of [fish/fish.c]: any sequence of additions, removals, searches,
    synchronisations and ticks from the cleared array on, provided no character is added at location 0, ends,
    stays inside the array, stores nothing outside of the 4096 bytes from [vmem_base_addr] on, answers what the
    abstract list answers, and leaves the characters the abstract list has and on the page what it shows. *)
Theorem blink_refines os base v :
  length v = 4096%nat -> 0 <= base -> base + 4096 <= 2 ^ 32 -> Forall op_ok os ->
  exists st, do_ops os (fish_start base) = Some (fst (spec_ops os ([], v)), st) /\ represents v base st (snd (spec_ops os ([], v))).
Proof. intros Hv H0 H1. apply do_ops_spec. by apply start_represents. Qed.

Definition fish_I : mp1_blink_struct := Blink 540 73 77 7 6 0 0 None.
Definition fish_tail : mp1_blink_struct := Blink 41 124 32 15 15 0 0 None.

Lemma blink_refines_witness :
  exists st, do_ops [BAdd fish_I; BTick; BAdd fish_tail; BSync 540 41; BTick; BFind fish_tail; BRemove 540; BRemove 540] (fish_start 0xdeadb000) =
      Some ([(0, None); (0, None); (0, None); (0, None); (0, None); (0, Some (Blink 41 124 32 7 6 5 1 None)); (0, None); (-1, None)], st) /\
    represents (replicate 4096 32) 0xdeadb000 st ([Blink 41 124 32 7 6 5 1 None], show 41 32 (show 41 124 (show 540 73 (replicate 4096 32)))).
Proof.
  refine (blink_refines [BAdd fish_I; BTick; BAdd fish_tail; BSync 540 41; BTick; BFind fish_tail; BRemove 540; BRemove 540] 0xdeadb000 (replicate 4096 32) _ _ _ _).
  - apply length_replicate.
  - done.
  - done.
  - repeat constructor; done.
Defined.

(** ** How a character blinks *)

Fixpoint ticks (n : nat) (b : mp1_blink_struct) : mp1_blink_struct :=
  match n with O => b | S n' => tick (ticks n' b) end.

(** The phase [r] ticks after the character was added or its period began. *)
Definition in_phase (on off r : Z) (b : mp1_blink_struct) : Prop :=
  on_length b = on /\ off_length b = off /\
  (0 <= r < on /\ Z.odd (status b) = true /\ countdown b = on - r \/
   on <= r < on + off /\ Z.odd (status b) = false /\ countdown b = on + off - r).

Lemma expires_small b : 1 <= countdown b <= 2 ^ 15 -> expires b = (countdown b =? 1).
Proof.
  intros H. unfold expires, s16. rewrite u16_small by lia. rewrite Z.mod_small by lia. lia.
Qed.

Lemma tick_phase on off r b :
  1 <= on <= 2 ^ 15 -> 1 <= off <= 2 ^ 15 -> in_phase on off r b -> in_phase on off ((r + 1) mod (on + off)) (tick b).
Proof.
  intros Hon Hoff (E1 & E2 & H). unfold tick. rewrite expires_small by (destruct H; lia).
  assert (u16 (countdown b - 1) = countdown b - 1) as Eu by (apply u16_small; destruct H; lia).
  destruct (Z.eqb_spec (countdown b) 1) as [E|Hne]; unfold in_phase.
  - destruct H as [(Hr & Hs & Hc)|(Hr & Hs & Hc)]; unfold flip; rewrite Hs; cbn [on_length off_length status countdown set_status set_countdown];
      rewrite odd_lxor, Hs; split_and!; try done.
    + right. rewrite Z.mod_small by lia. split_and!; [lia | lia | done | lia].
    + left. replace (r + 1) with (on + off) by lia. rewrite Z.mod_same by lia. split_and!; [lia | lia | done | lia].
  - cbn [on_length off_length status countdown set_countdown]. split_and!; try done. rewrite Z.mod_small by (destruct H; lia).
    destruct H as [(Hr & Hs & Hc)|(Hr & Hs & Hc)]; [left | right]; split_and!; done || lia.
Qed.

Lemma ticks_phase n b :
  1 <= on_length b <= 2 ^ 15 -> 1 <= off_length b <= 2 ^ 15 -> status b = 1 -> countdown b = on_length b ->
  in_phase (on_length b) (off_length b) (Z.of_nat n mod (on_length b + off_length b)) (ticks n b).
Proof.
  intros Hon Hoff Hs Hc. induction n as [|n IH].
  - cbn [ticks]. rewrite Z.mod_small by lia. split_and!; try done. left. rewrite Hs. split_and!; done || lia.
  - cbn [ticks]. replace (Z.of_nat (S n) mod (on_length b + off_length b)) with ((Z.of_nat n mod (on_length b + off_length b) + 1) mod (on_length b + off_length b)).
    + by apply tick_phase.
    + rewrite Zplus_mod_idemp_l. f_equal. lia.
Qed.

Lemma ticks_tick n b : ticks n (tick b) = tick (ticks n b).
Proof. induction n as [|n IH]; [done|]. cbn [ticks]. by rewrite IH. Qed.

Lemma ticks_fields n b :
  location (ticks n b) = location b /\ on_char (ticks n b) = on_char b /\ off_char (ticks n b) = off_char b.
Proof.
  induction n as [|n IH]; [done|]. cbn [ticks]. unfold tick, flip. by destruct (expires (ticks n b)), (Z.odd (status (ticks n b))).
Qed.

(** A character elsewhere does not touch the place [loc]. *)
Lemma repaint_elsewhere b v loc :
  0 <= loc -> 0 <= location b -> location b <> loc -> repaint b v !! Z.to_nat (2 * loc) = v !! Z.to_nat (2 * loc).
Proof. intros. unfold repaint, show. case_if; [|done]. apply list_lookup_insert_ne. lia. Qed.

Lemma paint_elsewhere l v loc :
  0 <= loc -> Forall (fun b => 0 <= location b /\ location b <> loc) l ->
  foldl (fun v b => repaint b v) v l !! Z.to_nat (2 * loc) = v !! Z.to_nat (2 * loc).
Proof.
  intros Hloc HF. revert v. induction HF as [|b l [? ?] _ IH]; intros v; [done|]. cbn [foldl]. rewrite IH. by apply repaint_elsewhere.
Qed.

Lemma repaint_at b v :
  0 <= location b < CELLS -> length v = 4096%nat -> v !! Z.to_nat (2 * location b) = Some (u8 (current_char b)) ->
  repaint b v !! Z.to_nat (2 * location b) = Some (u8 (current_char (tick b))).
Proof.
  intros Hl Hv E. unfold repaint, tick, show. case_if; [|done]. rewrite list_lookup_insert_eq by (unfold CELLS in *; lia). done.
Qed.

(** The newest character, [n] ticks later. *)
Lemma ticks_newest n : forall b l v,
  0 <= location b < CELLS -> length v = 4096%nat -> v !! Z.to_nat (2 * location b) = Some (u8 (current_char b)) ->
  Forall (fun c => 0 <= location c /\ location c <> location b) l ->
  snd (snd (spec_ops (replicate n BTick) (b :: l, v))) !! Z.to_nat (2 * location b) = Some (u8 (current_char (ticks n b))).
Proof.
  induction n as [|n IH]; intros b l v Hb Hv E HF; [done|]. cbn [replicate spec_ops spec_op]. unfold spec_tick. cbn [fst snd map foldl].
  pose proof (IH (tick b) (map tick l) (foldl (fun v b => repaint b v) (repaint b v) l)) as IHn.
  rewrite tick_location, paint_length, repaint_length in IHn. destruct (spec_ops _ _) as [rs s]. cbn [snd] in *.
  rewrite IHn; [by cbn [ticks]; rewrite ticks_tick | done | done | |].
  - rewrite paint_elsewhere by (done || lia). by apply repaint_at.
  - apply Forall_map. eapply Forall_impl; [exact HF|]. intros c. by rewrite tick_location.
Qed.

(** C31: A character with lengths from 1 to [2 ^ 15] that is added at a place other than 0 where no other blinks,
    while a slot is free, blinks: when [n] ticks and nothing else followed, the page shows its on character there
    if [n] modulo the sum of the lengths is below the on length, and its off character otherwise.  The countdown
    is compared as a signed word, so that longer lengths would count as over. *)
Theorem blink_period v0 base st l v u n :
  represents v0 base st (l, v) -> Z.of_nat (length l) < CELLS -> 0 < location u < CELLS ->
  Forall (fun c => location c <> location u) l -> 1 <= on_length u <= 2 ^ 15 -> 1 <= off_length u <= 2 ^ 15 ->
  exists rs st', do_ops (BAdd u :: replicate n BTick) st = Some ((0, None) :: rs, st') /\
    vmem v0 st' !! Z.to_nat (2 * location u) =
    Some (u8 (if Z.of_nat n mod (on_length u + off_length u) <? on_length u then on_char u else off_char u)).
Proof.
  intros H Hfull Hu Hother Hon Hoff.
  destruct (do_ops_spec v0 base (BAdd u :: replicate n BTick) st (l, v) H) as (st' & E & ps' & H').
  { constructor; [cbn; lia|]. by apply Forall_replicate. }
  set (b := set_countdown (on_length u) (set_status 1 (strip u))). destruct H as (ps & H).
  pose proof (h_vmem _ _ _ _ _ H) as Hv. rewrite (h_screen _ _ _ _ _ H) in Hv. cbn [snd] in Hv.
  assert (snd (snd (spec_ops (replicate n BTick) (b :: l, show (location u) (on_char u) v))) !! Z.to_nat (2 * location b) = Some (u8 (current_char (ticks n b)))) as Hn.
  { apply ticks_newest; [cbn; lia | by rewrite show_length | |].
    - unfold show. rewrite list_lookup_insert_eq by (unfold CELLS in *; cbn; lia). done.
    - apply Forall_forall. intros c Hc. split; [|by rewrite Forall_forall in Hother; apply Hother].
      apply list_elem_of_lookup in Hc as [i Hi]. destruct (Forall2_lookup_r _ _ _ _ _ (h_cells _ _ _ _ _ H) Hi) as (p & _ & d & _ & <- & Hd). cbn. lia. }
  cbn [spec_ops spec_op] in E, H'. unfold spec_add in E, H'. cbn [fst snd] in E, H'.
  replace ((CELLS <=? location u) || (CELLS <=? Z.of_nat (length l))) with false in E, H' by (unfold CELLS in *; lia).
  change (location b) with (location u) in Hn. fold b in E, H'.
  destruct (spec_ops (replicate n BTick) _) as [rs s]. eexists _, st'. split; [exact E|].
  rewrite (h_screen _ _ _ _ _ H'). cbn [snd] in *. rewrite Hn. do 2 f_equal. unfold current_char.
  destruct (ticks_fields n b) as (_ & -> & ->). destruct (ticks_phase n b) as (_ & _ & [(Hr & -> & _)|(Hr & -> & _)]); try done;
    change (on_length b) with (on_length u) in *; change (off_length b) with (off_length u) in *.
  - by btrue (Z.of_nat n mod (on_length u + off_length u) <? on_length u).
  - by bfalse (Z.of_nat n mod (on_length u + off_length u) <? on_length u).
Qed.

Lemma blink_period_witness :
  exists rs st', do_ops (BAdd fish_I :: replicate 200 BTick) (fish_start 0xdeadb000) = Some ((0, None) :: rs, st') /\
    vmem (replicate 4096 32) st' !! 1080%nat = Some 73.
Proof.
  refine (blink_period (replicate 4096 32) 0xdeadb000 (fish_start 0xdeadb000) [] (replicate 4096 32) fish_I 200 _ _ _ _ _ _).
  - apply start_represents; [apply length_replicate | done | done].
  - done.
  - done.
  - constructor.
  - by cbn.
  - by cbn.
Defined.

(** A slot that links to itself. *)
Lemma self_loop p : forall fuel st b,
  (blink_array st).[p] = Some b -> next b = Some p -> tasklet_loop fuel (Some p) st = None.
Proof.
  induction fuel as [|fuel IH]; intros st b Hb Hn; [done|]. cbn [tasklet_loop].
  destruct (tasklet_one p st) as [[q st']|] eqn:E; [|done]. rewrite some_bind. unfold tasklet_one in E. rewrite Hb, some_bind in E. cbv zeta in E.
  apply bind_Some in E as ([c st1] & E1 & (a & Ea & E)%bind_Some). injection E as <- <-.
  assert (next c = Some p) as ->.
  { destruct (0 <? _) in E1; by injection E1 as <- <-. }
  apply (IH _ c).
  - cbn. by rewrite (zget_zset _ _ _ _ _ Ea), Z.eqb_refl.
  - destruct (0 <? _) in E1; by injection E1 as <- <-.
Qed.

(** An addition while the first slot is free. *)
Lemma add_first_slot st b u :
  (blink_array st).[0] = Some b -> location b = 0 -> 0 <= location u < CELLS -> base_ok st ->
  mp1_ioctl_add u st =
  Some (0, Fish (<[0%nat := set_link (mp1_list_head st) (set_countdown (on_length u) (set_status 1 u))]> (blink_array st)) (Some 0)
             (vmem_base_addr st) (stores st ++ [(vmem_base_addr st + 2 * location u, on_char u)])).
Proof.
  intros Hb Hl Hu Hv. pose proof (zget_Some_range _ _ _ Hb) as Hr. unfold mp1_ioctl_add. bfalse (CELLS <=? location u).
  assert (mp1_malloc (blink_array st) = Some (Some 0)) as ->.
  { unfold mp1_malloc. destruct (Z.to_nat CELLS) as [|n] eqn:E; [done|]. cbn [malloc_from].
    rewrite Hb, some_bind, Hl. reflexivity. }
  rewrite some_bind, zset_in, some_bind by done. rewrite zset_in, some_bind by (by rewrite length_insert).
  rewrite poke_in_range by done. change (Z.to_nat 0) with 0%nat. by rewrite list_insert_insert_eq.
Qed.

(** A character at location 0, the upper left corner, is accepted but its slot still counts as free: the
    next character gets the same slot and links to itself, so that the tasklet never ends. *)
Theorem corner_never_ends z u base :
  0 <= base -> base + 4096 <= 2 ^ 32 -> location z = 0 -> 0 <= location u < CELLS ->
  exists st, do_ops [BAdd z; BAdd u] (fish_start base) = Some ([(0, None); (0, None)], st) /\
    forall fuel, tasklet_loop fuel (mp1_list_head st) st = None.
Proof.
  intros H0 H1 Hz Hu. set (z1 := set_link None (set_countdown (on_length z) (set_status 1 z))).
  set (u1 := set_link (Some 0) (set_countdown (on_length u) (set_status 1 u))).
  assert (exists a, replicate (Z.to_nat CELLS) zero_struct = zero_struct :: a) as (a & Ea) by (by eexists).
  assert (0 <= location z < CELLS) as Hz' by (unfold CELLS; lia).
  pose proof (add_first_slot (Fish (zero_struct :: a) None base []) zero_struct z eq_refl eq_refl Hz' (conj H0 H1)) as E1.
  pose proof (add_first_slot (Fish (z1 :: a) (Some 0) base [(base + 2 * location z, on_char z)]) z1 u eq_refl Hz Hu (conj H0 H1)) as E2.
  eexists (Fish (u1 :: a) (Some 0) base [_; _]). split.
  - unfold fish_start. rewrite Ea. cbn [do_ops do_op]. unfold mp1_ioctl. btrue (RTC_ADD =? RTC_ADD).
    rewrite E1, !some_bind. cbn [blink_array mp1_list_head vmem_base_addr stores app] in *. fold z1. change (<[0%nat := z1]> (zero_struct :: a)) with (z1 :: a).
    by rewrite E2, !some_bind.
  - intros fuel. by apply (self_loop 0 fuel _ u1).
Qed.

Lemma corner_never_ends_witness :
  exists st, do_ops [BAdd zero_struct; BAdd fish_I] (fish_start 0xdeadb000) = Some ([(0, None); (0, None)], st) /\
    forall fuel, tasklet_loop fuel (mp1_list_head st) st = None.
Proof. refine (corner_never_ends zero_struct fish_I 0xdeadb000 _ _ _ _); done. Defined.
