(* ===== verification/BlinkBytes.v ===== *)
(** * The bytes of the blinking characters

    [fish/blink.S] and [fish/fish.c] copy and clear [struct mp1_blink_struct] as bytes, with
    [ece391_memcpy] and [ece391_memset].  This file has the two loops and the layout of the
    structure, and shows that they do on bytes what [Blink] does on records: a copy of
    16 bytes writes or reads one slot, clearing writes the record of zeros. *)

From Stdlib Require Import ZArith Lia ZifyBool.
From stdpp Require Import base list option.
From S2P Require Import Prelude Blink.

(** ** The loops *)

(** [for (i = 0; i < n; i++) mem[i] = c;] from index [i] of the array on. *)
Fixpoint memset_from (n : nat) (mem : list Z) (i c : Z) : option (list Z) :=
  match n with O => Some mem | S n' => mem ← mem.[i <- c]; memset_from n' mem (i + 1) c end.

(** [memory] points to index [m] of the array of bytes [mem]; [c] is a [char]. *)
Definition ece391_memset (mem : list Z) (m c n : Z) : option (list Z) := memset_from (Z.to_nat n) mem m (c mod 2 ^ 8).

(** [for (i = 0; i < n; i++) d[i] = s[i];] *)
Fixpoint memcpy_from (n : nat) (dest : list Z) (d : Z) (src : list Z) (s : Z) : option (list Z) :=
  match n with O => Some dest | S n' => c ← src.[s]; dest ← dest.[d <- c]; memcpy_from n' dest (d + 1) src (s + 1) end.

(** The pointers are into two arrays: a structure of the caller, one on the stack, or [blink_array]. *)
Definition ece391_memcpy (dest : list Z) (d : Z) (src : list Z) (s n : Z) : option (Z * list Z) :=
  dest ← memcpy_from (Z.to_nat n) dest d src s; Some (0, dest).

Lemma memset_from_spec c k : forall n pre post,
  length post = n -> memset_from n (pre ++ post ++ k) (Z.of_nat (length pre)) c = Some (pre ++ replicate n c ++ k).
Proof.
  induction n as [|n IH]; intros pre post Hp; (destruct post as [|x post]; [try done | try done]). cbn [memset_from replicate app].
  rewrite (zset_app_mid pre) by done. rewrite some_bind. specialize (IH (pre ++ [c]) post ltac:(cbn in Hp; lia)).
  rewrite length_app, <- !app_assoc in IH. cbn [app length] in IH. rewrite <- IH. f_equal. lia.
Qed.

Lemma memcpy_from_spec k : forall n pre post spre bs sk,
  length post = n -> length bs = n ->
  memcpy_from n (pre ++ post ++ k) (Z.of_nat (length pre)) (spre ++ bs ++ sk) (Z.of_nat (length spre)) = Some (pre ++ bs ++ k).
Proof.
  induction n as [|n IH]; intros pre post spre bs sk Hp Hb; (destruct post as [|x post]; [try done | try done]); (destruct bs as [|b bs]; [try done | try done]).
  cbn [memcpy_from app]. rewrite (zget_app_r spre), Z.sub_diag by lia. change ((b :: bs ++ sk).[0]) with (Some b). rewrite some_bind.
  rewrite (zset_app_mid pre) by done. rewrite some_bind.
  specialize (IH (pre ++ [b]) post (spre ++ [b]) bs sk ltac:(cbn in Hp; lia) ltac:(cbn in Hb; lia)).
  rewrite !length_app, <- !app_assoc in IH. cbn [app length] in IH. rewrite <- IH. f_equal; lia.
Qed.

(** ** The layout *)

Definition STRUCT_SIZE : Z := 16.

Definition word_bytes (v : Z) : list Z := [Z.land v 0xFF; Z.land (Z.shiftr v 8) 0xFF].
Definition dword_bytes (v : Z) : list Z := word_bytes (Z.land v 0xFFFF) ++ word_bytes (Z.land (Z.shiftr v 16) 0xFFFF).

Section Layout.
(** The address of [blink_array], which is in the page of the program. *)
Context (base : Z).
Hypothesis Hbase : 0 < base /\ base + STRUCT_SIZE * CELLS <= 2 ^ 32.

Definition pointer (p : option Z) : Z := match p with None => 0 | Some i => base + STRUCT_SIZE * i end.

Definition struct_bytes (b : mp1_blink_struct) : list Z :=
  word_bytes (location b) ++ [on_char b; off_char b] ++ word_bytes (on_length b) ++ word_bytes (off_length b) ++
  word_bytes (countdown b) ++ word_bytes (status b) ++ dword_bytes (pointer (next b)).

Definition array_bytes (a : list mp1_blink_struct) : list Z := concat (map struct_bytes a).

Lemma struct_bytes_length b : length (struct_bytes b) = 16%nat.
Proof. done. Qed.

Lemma array_bytes_length a : length (array_bytes a) = (16 * length a)%nat.
Proof. unfold array_bytes. induction a as [|b a IH]; [done|]. cbn [map concat length]. rewrite length_app, IH, struct_bytes_length. lia. Qed.

Lemma array_bytes_app a a' : array_bytes (a ++ a') = array_bytes a ++ array_bytes a'.
Proof. unfold array_bytes. by rewrite map_app, concat_app. Qed.

Lemma array_bytes_mid a i b : a.[i] = Some b ->
  array_bytes a = array_bytes (take (Z.to_nat i) a) ++ struct_bytes b ++ array_bytes (drop (S (Z.to_nat i)) a) /\
  STRUCT_SIZE * i = Z.of_nat (length (array_bytes (take (Z.to_nat i) a))).
Proof.
  intros H. pose proof (zget_Some_range _ _ _ H) as Hi. rewrite zget_lookup in H by lia. split.
  - rewrite <- (take_drop_middle _ _ _ H) at 1. rewrite array_bytes_app. done.
  - rewrite array_bytes_length, length_take. unfold STRUCT_SIZE. lia.
Qed.

(** Copying a structure to the slot [i] writes the slot. *)
Lemma copy_to_slot a i old b a' : a.[i] = Some old -> a.[i <- b] = Some a' ->
  ece391_memcpy (array_bytes a) (STRUCT_SIZE * i) (struct_bytes b) 0 STRUCT_SIZE = Some (0, array_bytes a').
Proof.
  intros H Hset. destruct (array_bytes_mid a i old H) as [-> ->]. pose proof (zget_Some_range _ _ _ H) as Hi.
  rewrite zset_in in Hset by done. injection Hset as <-. rewrite zget_lookup in H by lia. unfold ece391_memcpy.
  rewrite <- (app_nil_r (struct_bytes b)) at 1. change (Z.to_nat STRUCT_SIZE) with 16%nat.
  rewrite (memcpy_from_spec _ 16 _ (struct_bytes old) [] (struct_bytes b) []) by done.
  rewrite some_bind, insert_take_drop, array_bytes_app by lia. done.
Qed.

(** Copying the slot [i] to a structure reads the slot. *)
Lemma copy_from_slot a i b dest : a.[i] = Some b -> length dest = 16%nat ->
  ece391_memcpy dest 0 (array_bytes a) (STRUCT_SIZE * i) STRUCT_SIZE = Some (0, struct_bytes b).
Proof.
  intros H Hd. destruct (array_bytes_mid a i b H) as [-> ->]. unfold ece391_memcpy. change (Z.to_nat STRUCT_SIZE) with 16%nat.
  rewrite <- (app_nil_r dest). rewrite (memcpy_from_spec [] 16 [] dest _ (struct_bytes b)) by done. cbn [app]. by rewrite app_nil_r.
Qed.

(** Clearing a slot, as [mp1_free] does, writes the record of zeros. *)
Lemma clear_slot a i old a' : a.[i] = Some old -> a.[i <- zero_struct] = Some a' ->
  ece391_memset (array_bytes a) (STRUCT_SIZE * i) 0 STRUCT_SIZE = Some (array_bytes a').
Proof.
  intros H Hset. destruct (array_bytes_mid a i old H) as [-> ->]. pose proof (zget_Some_range _ _ _ H) as Hi.
  rewrite zset_in in Hset by done. injection Hset as <-. unfold ece391_memset. change (Z.to_nat STRUCT_SIZE) with 16%nat.
  rewrite (memset_from_spec _ _ 16 _ (struct_bytes old)) by done. rewrite insert_take_drop, array_bytes_app by lia. done.
Qed.

Lemma array_bytes_zero n : array_bytes (replicate n zero_struct) = replicate (16 * n) 0.
Proof.
  unfold array_bytes. induction n as [|n IH]; [done|]. replace (16 * S n)%nat with (16 + 16 * n)%nat by lia.
  rewrite replicate_add, <- IH. done.
Qed.

(** Clearing all of [blink_array], as [main] does first: every slot is free. *)
Lemma clear_array mem : length mem = Z.to_nat (STRUCT_SIZE * CELLS) ->
  ece391_memset mem 0 0 (STRUCT_SIZE * 80 * 25) = Some (array_bytes (replicate (Z.to_nat CELLS) zero_struct)).
Proof.
  intros H. unfold ece391_memset. change (STRUCT_SIZE * 80 * 25) with (STRUCT_SIZE * CELLS). rewrite <- (app_nil_r mem).
  rewrite (memset_from_spec _ [] _ [] mem) by done. cbn [app]. rewrite app_nil_r, array_bytes_zero.
  assert (Z.to_nat (STRUCT_SIZE * CELLS) = 16 * Z.to_nat CELLS)%nat as -> by (unfold STRUCT_SIZE; lia).
  change (0 mod 2 ^ 8) with 0. reflexivity.
Qed.

(** ** Nothing is lost *)

Definition word_at (bs : list Z) (i : Z) : option Z := lo ← bs.[i]; hi ← bs.[i + 1]; Some (lo + 2 ^ 8 * hi).

Definition struct_of (bs : list Z) : option mp1_blink_struct :=
  loc ← word_at bs 0; on ← bs.[2]; off ← bs.[3]; onl ← word_at bs 4; offl ← word_at bs 6;
  cd ← word_at bs 8; st ← word_at bs 10; lo ← word_at bs 12; hi ← word_at bs 14;
  let p := lo + 2 ^ 16 * hi in
  Some (Blink loc on off onl offl cd st (if p =? 0 then None else Some ((p - base) / STRUCT_SIZE))).

Definition is_word (v : Z) : Prop := 0 <= v < 2 ^ 16.

(** A structure as [blink.S] keeps it. *)
Record struct_wf (b : mp1_blink_struct) : Prop := {
  wf_location : is_word (location b);
  wf_on_length : is_word (on_length b);
  wf_off_length : is_word (off_length b);
  wf_countdown : is_word (countdown b);
  wf_status : is_word (status b);
  wf_next : forall i, next b = Some i -> 0 <= i < CELLS }.

Lemma word_bytes_value v : is_word v -> Z.land v 0xFF + 2 ^ 8 * Z.land (Z.shiftr v 8) 0xFF = v.
Proof.
  unfold is_word. intros H. change 0xFF with (Z.ones 8). rewrite !Z.land_ones, Z.shiftr_div_pow2 by lia.
  Z.to_euclidean_division_equations. lia.
Qed.

Lemma pointer_value p : (forall i, p = Some i -> 0 <= i < CELLS) ->
  0 <= pointer p < 2 ^ 32 /\ (if pointer p =? 0 then None else Some ((pointer p - base) / STRUCT_SIZE)) = p.
Proof.
  unfold STRUCT_SIZE, CELLS in *. intros H. destruct p as [i|]; cbn [pointer]; [|done]. specialize (H i eq_refl). unfold STRUCT_SIZE. split; [lia|].
  bfalse (base + 16 * i =? 0). f_equal. replace (base + 16 * i - base) with (i * 16) by lia. apply Z.div_mul. lia.
Qed.

Lemma struct_of_bytes l0 l1 on off n0 n1 f0 f1 c0 c1 s0 s1 p0 p1 p2 p3 :
  struct_of [l0; l1; on; off; n0; n1; f0; f1; c0; c1; s0; s1; p0; p1; p2; p3] =
  let p := p0 + 2 ^ 8 * p1 + 2 ^ 16 * (p2 + 2 ^ 8 * p3) in
  Some (Blink (l0 + 2 ^ 8 * l1) on off (n0 + 2 ^ 8 * n1) (f0 + 2 ^ 8 * f1) (c0 + 2 ^ 8 * c1) (s0 + 2 ^ 8 * s1)
    (if p =? 0 then None else Some ((p - base) / STRUCT_SIZE))).
Proof. reflexivity. Qed.

Lemma struct_roundtrip b : struct_wf b -> struct_of (struct_bytes b) = Some b.
Proof.
  intros [H1 H2 H3 H4 H5 H6]. destruct (pointer_value _ H6) as [Hp Ep].
  transitivity (Some (Blink (location b) (on_char b) (off_char b) (on_length b) (off_length b) (countdown b) (status b)
    (if pointer (next b) =? 0 then None else Some ((pointer (next b) - base) / STRUCT_SIZE)))); [|rewrite Ep; by destruct b].
  unfold struct_bytes, dword_bytes. generalize dependent (pointer (next b)). intros v Hv _.
  assert (is_word (Z.land v 0xFFFF) /\ is_word (Z.land (Z.shiftr v 16) 0xFFFF) /\ Z.land v 0xFFFF + 2 ^ 16 * Z.land (Z.shiftr v 16) 0xFFFF = v) as (Hl & Hh & Ev).
  { unfold is_word. change 0xFFFF with (Z.ones 16). rewrite !Z.land_ones, Z.shiftr_div_pow2 by lia. Z.to_euclidean_division_equations. lia. }
  unfold word_bytes. cbn [app]. rewrite struct_of_bytes.
  rewrite !word_bytes_value by done. by rewrite Ev.
Qed.

End Layout.
