(* ===== verification/Fish.v ===== *)
(** * The program [fish], [fish/fish.c]

    [main] and [add_frames] as an interaction tree over the system calls and the bytes the
    program stores on the screen; the variables of [blink.S] are state the tree passes on.
    The specification reads the two frames as lines of text and says which characters blink
    where.  On the kernel every byte goes where the page tables of the process map its
    address, so that what the specification says is shown is read back from video memory. *)

From ITree Require Import ITree.
From S2P Require Import Prelude MemOps Lib Ports Rtc Terminal FileSystem Paging Process Schedule FileArray Reading Lifecycle Drivers Linkage.
From S2P Require Import UserLib Syscalls Programs Unix ProgramSpecs Refinement UserCalls Blink.
From Stdlib Require Import ZArith Lia ZifyBool.
From stdpp Require Import base list option sets.

#[local] Open Scope Z_scope.

Definition WAIT : Z := 200.

Definition set_place (loc on off : Z) (b : mp1_blink_struct) : mp1_blink_struct :=
  Blink loc on off (on_length b) (off_length b) (countdown b) (status b) (next b).

(** The bytes a routine of [blink.S] stores, in order.  It reads none of them, so that they may
    as well be stored when it returns. *)
Fixpoint perform (l : list (Z * Z)) : prog unit :=
  match l with [] => Ret tt | (a, c) :: l' => sys (Store a c);;; perform l' end.
Definition flushed {X} (o : option (X * fish_state)) : prog (X * fish_state) :=
  '(x, st) <~ lift o;; perform (stores st);;; Ret (x, set_stores [] st).

(** [mp1_ioctl] and [mp1_rtc_tasklet] as the C code calls them. *)
Definition call_ioctl (arg : Z) (user : mp1_blink_struct) (cmd : Z) (st : fish_state) : prog fish_state :=
  '(_, st) <~ flushed (mp1_ioctl arg user cmd st);; Ret st.
Definition call_tasklet (st : fish_state) : prog fish_state :=
  '(_, st) <~ flushed (st ← mp1_rtc_tasklet st; Some (tt, st));; Ret st.

(** [if (c != '\n') { num_bytes = ece391_read(fd, &c, 1); if (num_bytes == 0) ... }] *)
Definition next_char (fd c : Z) (eof : bool) : prog (Z * bool) :=
  if negb (c =? 10) then
    '(num_bytes, bs) <~ sys (Read fd 1);; buf <~ lift (fill [c] 0 bs);; c <~ lift (buf.[0]);;
    if num_bytes =? 0 then Ret (10, true) else Ret (c, eof)
  else Ret (c, eof).

(** The variables of the loops: a character and an end-of-file flag for each file, the
    structure on the stack, and the state of [blink.S]. *)
Record frame_vars := Frame { c0 : Z; c1 : Z; eof0 : bool; eof1 : bool; blink_struct : mp1_blink_struct; fish : fish_state }.

(** One turn of the inner loop, at [row] and [col]. *)
Definition column (fd0 fd1 row : Z) (s : Z * frame_vars) : prog (Z * frame_vars + frame_vars) :=
  let '(col, x) := s in
  '(a, e0) <~ next_char fd0 (c0 x) (eof0 x);;
  '(b, e1) <~ next_char fd1 (c1 x) (eof1 x);;
  if (a =? 10) && (b =? 10) then Ret (inr (Frame a b e0 e1 (blink_struct x) (fish x)))
  else
    x <~ (if (negb (a =? 32) && negb (a =? 10)) || (negb (b =? 32) && negb (b =? 10)) then
            let u := set_place (u16 (row * 80 + col + 40)) (if a =? 10 then 32 else a) (if b =? 10 then 32 else b) (blink_struct x) in
            st <~ call_ioctl 0 u RTC_ADD (fish x);; Ret (Frame a b e0 e1 u st)
          else Ret (Frame a b e0 e1 (blink_struct x) (fish x)));;
    Ret (inl (col + 1, x)).

(** The end of a row: the file is closed when it has ended, once per row. *)
Definition end_row (fd : Z) (eof : bool) : prog Z :=
  if eof then sys (Close fd);;; Ret 10 else Ret 48.

Definition add_rows (fd0 fd1 : Z) : Z * frame_vars -> prog frame_vars :=
  ITree.iter (fun '(row, x) =>
    if negb (eof0 x) || negb (eof1 x) then
      x <~ ITree.iter (column fd0 fd1 row) (0, x);;
      a <~ end_row fd0 (eof0 x);;
      b <~ end_row fd1 (eof1 x);;
      Ret (inl (row + 1, Frame a b (eof0 x) (eof1 x) (blink_struct x) (fish x)))
    else Ret (inr x)).

(** [inr] is a call of [ece391_halt], which ends the program; [junk] is what the stack held. *)
Definition add_frames (f0 f1 : list Z) (junk : mp1_blink_struct) (st : fish_state) : prog (fish_state + Z) :=
  let b := set_lengths 15 15 junk in
  fd0 <~ sys (Open f0);;
  if fd0 <? 0 then Ret (inr (-1))
  else
    fd1 <~ sys (Open f1);;
    if fd1 <? 0 then Ret (inr (-1))
    else
      x <~ add_rows fd0 fd1 (0, Frame 48 48 false false b st);;
      Ret (inl (fish x)).

(** [for (i = 0; i < n; i++) { ece391_read(rtc_fd, &garbage, 4); mp1_rtc_tasklet(garbage); }] *)
Definition wait (rtc_fd n : Z) (st : fish_state) : prog fish_state :=
  Syserr.for_prog (Z.to_nat n) 0 (fun _ st => sys (Read rtc_fd 4);;; call_tasklet st) st.

(** [vmem_base_addr] after the call, and what is returned: 0 is NULL. *)
Definition mp1_set_video_mode (vmem_var : Z) : prog Z :=
  '(r, bs) <~ sys (Vidmap vmem_var);;
  if r =? -1 then Ret 0
  else
    match bs with
    | [x0; x1; x2; x3] => Ret (x0 + 2 ^ 8 * x1 + 2 ^ 16 * x2 + 2 ^ 24 * x3)
    | _ => lift None
    end.

(** The value [main] returns, or halts with, and its variables at the end.  [vmem_var] is the
    address of [vmem_base_addr]. *)
Definition fish_main (vmem_var : Z) (junk1 junk2 : mp1_blink_struct) : prog (Z * fish_state) :=
  vmem_base_addr <~ mp1_set_video_mode vmem_var;;
  let st := fish_start vmem_base_addr in
  if vmem_base_addr =? 0 then Ret (-1, st)
  else
    rtc_fd <~ sys (Open (lit "rtc"));;
    r <~ add_frames (lit "frame0.txt") (lit "frame1.txt") junk2 st;;
    match r with
    | inr code => Ret (code, st)
    | inl st =>
        sys (Write rtc_fd [32; 0; 0; 0] 4);;;
        st <~ wait rtc_fd WAIT st;;
        let b := set_place (6 * 80 + 60) 73 77 (set_lengths 7 6 junk1) in
        st <~ call_ioctl 0 b RTC_ADD st;;
        st <~ wait rtc_fd WAIT st;;
        st <~ call_ioctl (Z.lor (Z.shiftl 40 16) (6 * 80 + 60)) zero_struct RTC_SYNC st;;
        st <~ wait rtc_fd WAIT st;;
        st <~ call_ioctl WAIT zero_struct RTC_REMOVE st;;
        st <~ wait rtc_fd (80 * 25) st;;
        sys (Close rtc_fd);;;
        Ret (0, st)
    end.

(** ** What it is to show *)

(** The character at [row] and [col] that alternates between [on] and [off]: none for two blanks. *)
Definition cell_ops (row col on off : Z) : list blink_op :=
  if (on =? 32) && (off =? 32) then [] else [BAdd (Blink (row * 80 + col + 40) on off 15 15 0 0 None)].

(** Two lines side by side, the shorter one filled up with blanks; then two texts. *)
Definition row_ops (row col : Z) (l0 l1 : list Z) : list blink_op :=
  concat (map (fun i => cell_ops row (col + Z.of_nat i) (default 32 (l0 !! i)) (default 32 (l1 !! i))) (seq 0 (max (length l0) (length l1)))).
Definition rows_ops (row : Z) (t0 t1 : list (list Z)) : list blink_op :=
  concat (map (fun i => row_ops (row + Z.of_nat i) 0 (default [] (t0 !! i)) (default [] (t1 !! i))) (seq 0 (max (length t0) (length t1)))).
Definition frame_ops (d0 d1 : list Z) : list blink_op := rows_ops 0 (lines d0) (lines d1).

Definition fish_ops (d0 d1 : list Z) : list blink_op :=
  frame_ops d0 d1 ++ replicate 200 BTick ++ [BAdd (Blink 540 73 77 7 6 0 0 None)] ++ replicate 200 BTick ++
  [BSync 40 540] ++ replicate 200 BTick ++ [BRemove 200] ++ replicate 2000 BTick.

(** ** The lines and the operations *)

Lemma spec_ops_app o1 o2 s : snd (spec_ops (o1 ++ o2) s) = snd (spec_ops o2 (snd (spec_ops o1 s))).
Proof.
  revert s. induction o1 as [|o o1 IH]; intros s; [done|]. cbn [app spec_ops]. destruct (spec_op o s) as [r s1]. specialize (IH s1).
  destruct (spec_ops (o1 ++ o2) s1), (spec_ops o1 s1). exact IH.
Qed.

Lemma seq_step n : (0 < n)%nat -> seq 0 n = 0%nat :: map S (seq 0 (n - 1)).
Proof. intros H. destruct n; [lia|]. cbn [seq]. by rewrite seq_shift, Nat.sub_succ, Nat.sub_0_r. Qed.

Lemma length_tail {A} (l : list A) : length (tail l) = (length l - 1)%nat.
Proof. destruct l; cbn; lia. Qed.

Lemma lookup_tail_S {A} (l : list A) i : l !! S i = tail l !! i.
Proof. by destruct l. Qed.

Lemma row_ops_step row col x0 x1 :
  (0 < max (length x0) (length x1))%nat ->
  row_ops row col x0 x1 = cell_ops row col (default 32 (head x0)) (default 32 (head x1)) ++ row_ops row (col + 1) (tail x0) (tail x1).
Proof.
  intros H. unfold row_ops. rewrite seq_step by done. cbn [map concat]. rewrite !length_tail.
  replace (max (length x0 - 1) (length x1 - 1)) with (max (length x0) (length x1) - 1)%nat by lia. f_equal.
  - replace (col + Z.of_nat 0) with col by lia. by destruct x0, x1.
  - rewrite map_map. f_equal. apply map_ext. intros i. rewrite !lookup_tail_S. f_equal. lia.
Qed.

Lemma rows_ops_step row t0 t1 :
  (0 < max (length t0) (length t1))%nat ->
  rows_ops row t0 t1 = row_ops row 0 (default [] (head t0)) (default [] (head t1)) ++ rows_ops (row + 1) (tail t0) (tail t1).
Proof.
  intros H. unfold rows_ops. rewrite seq_step by done. cbn [map concat]. rewrite !length_tail.
  replace (max (length t0 - 1) (length t1 - 1)) with (max (length t0) (length t1) - 1)%nat by lia. f_equal.
  - replace (row + Z.of_nat 0) with row by lia. by destruct t0, t1.
  - rewrite map_map. f_equal. apply map_ext. intros i. rewrite !lookup_tail_S. f_equal. lia.
Qed.

(** What is not set in a structure does not matter when it is added. *)
Lemma spec_add_fields u u' s :
  location u = location u' -> on_char u = on_char u' -> off_char u = off_char u' -> on_length u = on_length u' -> off_length u = off_length u' ->
  spec_add u s = spec_add u' s.
Proof. destruct u, u'. cbn. intros -> -> -> -> ->. done. Qed.

(** ** The abstract system with a page of the screen

    The page is open to the program once [vidmap] succeeded; then what the program stores
    there is what it shows, as long as nothing is written to the terminal. *)

Record view := View { w_os : os; w_open : bool; w_page : list Z }.

Section World.
Context (execute : list Z -> os -> option (Z * os)).

Definition on_os {X} (e : sysE X) (w : view) : option (X * view) :=
  '(x, a) ← os_step execute X e (w_os w); Some (x, View a (w_open w) (w_page w)).

Definition view_step (X : Type) (e : sysE X) : view -> option (X * view) :=
  match e in sysE X return view -> option (X * view) with
  | Read fd n => fun w => if bool_decide ((o_fds (w_os w)).[fd] = Some HStdin) then None else on_os (Read fd n) w
  | Write fd buf n => fun w => if bool_decide ((o_fds (w_os w)).[fd] = Some HStdout) then None else on_os (Write fd buf n) w
  | Open name => on_os (Open name)
  | Close fd => on_os (Close fd)
  | Vidmap p => fun w =>
      '(x, w) ← on_os (Vidmap p) w; Some (x, View (w_os w) (w_open w || negb (fst x =? ERROR)) (w_page w))
  | Store a c => fun w =>
      if w_open w && (VIRT_VID_MEM <=? a) && (a <? VIRT_VID_MEM + 4096)
      then Some (tt, View (w_os w) true (paint_one VIRT_VID_MEM (w_page w) (a, c))) else None
  | _ => fun _ => None
  end.

#[local] Abbreviation R := (runs view_step).

Lemma view_read fd n a o p x a' :
  os_step execute _ (Read fd n) a = Some (x, a') -> (o_fds a).[fd] <> Some HStdin ->
  view_step _ (Read fd n) (View a o p) = Some (x, View a' o p).
Proof. intros E H. cbn [view_step w_os]. rewrite bool_decide_false by done. unfold on_os. cbn [w_os]. by rewrite E, some_bind. Qed.

Lemma view_write fd buf n a o p x a' :
  os_step execute _ (Write fd buf n) a = Some (x, a') -> (o_fds a).[fd] <> Some HStdout ->
  view_step _ (Write fd buf n) (View a o p) = Some (x, View a' o p).
Proof. intros E H. cbn [view_step w_os]. rewrite bool_decide_false by done. unfold on_os. cbn [w_os]. by rewrite E, some_bind. Qed.

Lemma view_open name a o p x a' :
  os_step execute _ (Open name) a = Some (x, a') -> view_step _ (Open name) (View a o p) = Some (x, View a' o p).
Proof. intros E. cbn [view_step]. unfold on_os. cbn [w_os]. by rewrite E, some_bind. Qed.

Lemma view_close fd a o p x a' :
  os_step execute _ (Close fd) a = Some (x, a') -> view_step _ (Close fd) (View a o p) = Some (x, View a' o p).
Proof. intros E. cbn [view_step]. unfold on_os. cbn [w_os]. by rewrite E, some_bind. Qed.

(** ** The routines and their stores *)

#[local] Abbreviation base := VIRT_VID_MEM.

(** The program stands for [s], and the page shows it. *)
Definition settled (st : fish_state) (s : cells) : Prop := represents (snd s) base st s /\ stores st = [].

Lemma perform_runs l : forall a v,
  Forall (on_page base) l -> R (perform l) (View a true v) tt (View a true (paint base l v)).
Proof.
  induction l as [|[x c] l IH]; intros a v Hl; [apply runs_ret|]. inversion Hl as [|? ? Hx Hl']; subst. unfold on_page in Hx. cbn [fst] in Hx.
  cbn [perform paint foldl]. eapply runs_call; [|by apply IH]. cbn [view_step w_open w_os w_page]. by btrue (true && (base <=? x) && (x <? base + 4096)).
Qed.

Lemma flushed_runs {X} (o : option (X * fish_state)) x st' a (s0 s' : cells) :
  o = Some (x, st') -> represents (snd s0) base st' s' ->
  R (flushed o) (View a true (snd s0)) (x, set_stores [] st') (View a true (snd s')) /\ settled (set_stores [] st') s'.
Proof.
  intros Eo Hr. split; [|split; [by eapply represents_flushed | done]]. unfold flushed. eapply runs_lift; [exact Eo|]. cbn beta iota.
  destruct Hr as (ps & Hh). eapply runs_bind; [apply perform_runs|].
  - rewrite <- (h_at _ _ _ _ _ Hh). apply (h_stores _ _ _ _ _ Hh).
  - rewrite <- (h_screen _ _ _ _ _ Hh). unfold vmem. rewrite (h_at _ _ _ _ _ Hh). apply runs_ret.
Qed.

(** A call of [mp1_ioctl] that does the operation [o] of the specification. *)
Lemma call_ioctl_runs arg user cmd st a (s s' : cells) r u st' :
  mp1_ioctl arg user cmd st = Some (r, u, st') -> represents (snd s) base st' s' ->
  exists st1, R (call_ioctl arg user cmd st) (View a true (snd s)) st1 (View a true (snd s')) /\ settled st1 s'.
Proof.
  intros E Hr. destruct (flushed_runs _ _ _ a s s' E Hr) as [R1 H1]. exists (set_stores [] st'). split; [|exact H1].
  unfold call_ioctl. eapply runs_bind; [exact R1 | apply runs_ret].
Qed.

Lemma ioctl_add st s u a :
  settled st s -> 0 < location u ->
  exists st', R (call_ioctl 0 u RTC_ADD st) (View a true (snd s)) st' (View a true (snd (snd (spec_ops [BAdd u] s)))) /\
    settled st' (snd (spec_ops [BAdd u] s)).
Proof.
  intros [(ps & H) _] Hu. destruct (add_holds _ _ st ps s u H Hu) as (st' & ps' & E & H').
  assert (snd (spec_ops [BAdd u] s) = snd (spec_add u s)) as -> by (cbn [spec_ops spec_op]; by destruct (spec_add u s)).
  eapply call_ioctl_runs; [|by exists ps']. unfold mp1_ioctl. btrue (RTC_ADD =? RTC_ADD). by rewrite E, some_bind.
Qed.

Lemma ioctl_sync st s from to a :
  settled st s -> 0 <= from < 65536 -> 0 <= to < 65536 ->
  exists st', R (call_ioctl (Z.lor (Z.shiftl from 16) to) zero_struct RTC_SYNC st) (View a true (snd s)) st'
      (View a true (snd (snd (spec_ops [BSync from to] s)))) /\ settled st' (snd (spec_ops [BSync from to] s)).
Proof.
  intros [(ps & H) _] Hf Ht. destruct (sync_holds _ _ st ps s from to H Hf Ht) as (st' & ps' & E & H').
  assert (snd (spec_ops [BSync from to] s) = snd (spec_sync from to s)) as -> by (cbn [spec_ops spec_op]; by destruct (spec_sync from to s)).
  eapply call_ioctl_runs; [|by exists ps']. unfold mp1_ioctl. change (RTC_SYNC =? RTC_ADD) with false. change (RTC_SYNC =? RTC_REMOVE) with false.
  change (RTC_SYNC =? RTC_FIND) with false. change (RTC_SYNC =? RTC_SYNC) with true. cbv iota. by rewrite E, some_bind.
Qed.

Lemma ioctl_remove st s arg a :
  settled st s ->
  exists st', R (call_ioctl arg zero_struct RTC_REMOVE st) (View a true (snd s)) st' (View a true (snd (snd (spec_ops [BRemove arg] s)))) /\
    settled st' (snd (spec_ops [BRemove arg] s)).
Proof.
  intros [(ps & H) _]. destruct (remove_holds _ _ st ps s arg H) as (st' & ps' & E & H').
  assert (snd (spec_ops [BRemove arg] s) = snd (spec_remove (u16 arg) s)) as -> by (cbn [spec_ops spec_op]; by destruct (spec_remove (u16 arg) s)).
  eapply call_ioctl_runs; [|by exists ps']. unfold mp1_ioctl. change (RTC_REMOVE =? RTC_ADD) with false.
  change (RTC_REMOVE =? RTC_REMOVE) with true. cbv iota. by rewrite E, some_bind.
Qed.

Lemma tasklet_runs st s a :
  settled st s ->
  exists st', R (call_tasklet st) (View a true (snd s)) st' (View a true (snd (spec_tick s))) /\ settled st' (spec_tick s).
Proof.
  intros [(ps & H) _]. destruct (tasklet_holds _ _ st ps s H) as (st1 & ps' & E & H').
  destruct (flushed_runs (st ← mp1_rtc_tasklet st; Some (tt, st)) tt st1 a s (spec_tick s)) as [R1 H1]; [by rewrite E | by exists ps'|].
  exists (set_stores [] st1). split; [|exact H1]. unfold call_tasklet. eapply runs_bind; [exact R1 | apply runs_ret].
Qed.

(** ** The frames are read *)

(** The files of the two frames, at [r0] and [r1] unless they have ended, and the clock. *)
Definition file_left (a : os) (fd ino : Z) (eof : bool) (r : list Z) : Prop :=
  eof = false -> exists pos, (o_fds a).[fd] = Some (HFile ino pos) /\ 0 <= pos /\
    pos + Z.of_nat (length r) = Z.of_nat (length (o_data a ino)) /\ Z.of_nat (length (o_data a ino)) < 2 ^ 32 /\
    drop (Z.to_nat pos) (o_data a ino) = r.

Record at_files (rtc fd0 i0 fd1 i1 : Z) (e0 e1 : bool) (r0 r1 : list Z) (a : os) : Prop := {
  af_size : length (o_fds a) = 8%nat;
  af_clock : (o_fds a).[rtc] = Some HClock;
  af_fds : 2 <= fd0 < 8 /\ 2 <= fd1 < 8 /\ fd0 <> fd1 /\ fd0 <> rtc /\ fd1 <> rtc /\ i0 <> i1;
  af_left0 : file_left a fd0 i0 e0 r0;
  af_left1 : file_left a fd1 i1 e1 r1 }.

Lemma at_files_swap rtc fd0 i0 fd1 i1 e0 e1 r0 r1 a :
  at_files rtc fd0 i0 fd1 i1 e0 e1 r0 r1 a -> at_files rtc fd1 i1 fd0 i0 e1 e0 r1 r0 a.
Proof. intros [? ? (? & ? & ? & ? & ? & ?) ? ?]. split; try done. Qed.

(** One byte of the first file. *)
Lemma read_byte rtc fd0 i0 fd1 i1 e1 r0 r1 a :
  at_files rtc fd0 i0 fd1 i1 false e1 r0 r1 a ->
  exists a', os_step execute _ (Read fd0 1) a = Some (Z.of_nat (length (take 1 r0)), take 1 r0, a') /\
    at_files rtc fd0 i0 fd1 i1 false e1 (tail r0) r1 a'.
Proof.
  intros [H8 Hc (F0 & F1 & F2 & F3 & F4 & F5) H0 H1]. destruct (H0 eq_refl) as (pos & Hh & Hp & Hl & Hmax & Hd).
  assert (os_read fd0 1 a = Some (Z.of_nat (length (take 1 r0)), take 1 r0, set_fds (advance i0 (Z.of_nat (length (take 1 r0))) (o_fds a)) a)) as E.
  { unfold os_read. bfalse ((fd0 <? 0) || (8 <=? fd0) || (1 <? 0)). change (MAX_BUFFER <? 1) with false. cbv iota. rewrite Hh, some_bind, Hd. done. }
  eexists. split; [exact E|].
  split; cbn [o_fds set_fds]; [unfold advance; by rewrite length_map | by rewrite advance_get, Hc | done | |].
  - intros _. exists (pos + Z.of_nat (length (take 1 r0))). cbn [o_fds set_fds o_data]. rewrite advance_get, Hh. cbn [fmap option_fmap option_map].
    rewrite Z.eqb_refl, u32_small by (rewrite length_take; lia).
    split_and!; [done | lia | rewrite length_tail, length_take; lia | done |].
    destruct r0 as [|b r0]; cbn [length take tail].
    + replace (pos + Z.of_nat 0) with pos by lia. done.
    + rewrite Z2Nat.inj_add, <- drop_drop, Hd by lia. done.
  - intros He1. destruct (H1 He1) as (q & Hq & Hq0 & Hql & Hqm & Hqd). exists q. cbn [o_fds set_fds o_data]. rewrite advance_get, Hq.
    cbn [fmap option_fmap option_map]. by bfalse (i1 =? i0).
Qed.

Lemma at_files_typed rtc fd0 i0 fd1 i1 e1 r0 r1 a : at_files rtc fd0 i0 fd1 i1 false e1 r0 r1 a -> (o_fds a).[fd0] <> Some HStdin.
Proof. intros [_ _ _ H0 _]. destruct (H0 eq_refl) as (pos & -> & _). done. Qed.

(** The rest [x] of a line that ends at [r'], after the character [c]; [c] is a newline when
    the line is over. *)
Definition at_line (c : Z) (eof : bool) (r x r' : list Z) (eof' : bool) : Prop :=
  Forall (fun c => c <> 10) x /\
  (c = 10 /\ x = [] /\ r = r' /\ eof = eof' \/
   c <> 10 /\ eof = false /\ (r = x ++ 10 :: r' /\ eof' = false \/ r = x /\ r' = [] /\ eof' = true)).

Lemma next_char_runs rtc fd0 i0 fd1 i1 e0 e1 r0 r1 a c x r' e' v :
  at_files rtc fd0 i0 fd1 i1 e0 e1 r0 r1 a -> at_line c e0 r0 x r' e' ->
  exists e2 r2 a', R (next_char fd0 c e0) (View a true v) (default 10 (head x), e2) (View a' true v) /\
    at_files rtc fd0 i0 fd1 i1 e2 e1 r2 r1 a' /\ at_line (default 10 (head x)) e2 r2 (tail x) r' e'.
Proof.
  intros Ha [Hx [(-> & -> & -> & ->)|(Hc & -> & H)]]; unfold next_char.
  - exists e', r', a. split; [apply runs_ret|]. split; [done|]. split; [constructor | left; done].
  - rewrite (proj2 (Z.eqb_neq c 10) Hc). cbn [negb]. destruct (read_byte _ _ _ _ _ _ _ _ _ Ha) as (a' & Er%(view_read _ _ _ true v) & Ha'); [|apply (at_files_typed _ _ _ _ _ _ _ _ _ Ha)].
    destruct H as [[-> ->]|(-> & -> & ->)].
    + exists false, (tail (x ++ 10 :: r')), a'. destruct x as [|y x]; cbn [app tail head default take length] in *.
      * split; [|split; [done | split; [constructor | by left]]].
        eapply runs_call; [exact Er|]. cbn beta iota. eapply runs_lift; [reflexivity|]. eapply runs_lift; [reflexivity|]. apply runs_ret.
      * inversion Hx as [|? ? Hy Hx']; subst. split; [|split; [done | split; [done | right; split_and!; [done | done | by left]]]].
        eapply runs_call; [exact Er|]. cbn beta iota. eapply runs_lift; [reflexivity|]. eapply runs_lift; [reflexivity|]. apply runs_ret.
    + destruct x as [|y x]; cbn [tail head default take length] in *.
      * exists true, [], a'. split; [|split; [|split; [constructor | by left]]].
        -- eapply runs_call; [exact Er|]. cbn beta iota. eapply runs_lift; [reflexivity|]. eapply runs_lift; [reflexivity|]. apply runs_ret.
        -- destruct Ha'. split; try done.
      * inversion Hx as [|? ? Hy Hx']; subst. exists false, x, a'. split; [|split; [done | split; [done | right; split_and!; [done | done | by right]]]].
        eapply runs_call; [exact Er|]. cbn beta iota. eapply runs_lift; [reflexivity|]. eapply runs_lift; [reflexivity|]. apply runs_ret.
Qed.

(** The cell of one column is added, or skipped when both characters are blanks. *)
Lemma add_cell row col a b u st s :
  settled st s -> 0 <= row -> 0 <= col -> row * 80 + col + 40 < 65536 -> on_length u = 15 -> off_length u = 15 ->
  forall w e0 e1, exists u' st',
    let s' := snd (spec_ops (cell_ops row col (if a =? 10 then 32 else a) (if b =? 10 then 32 else b)) s) in R
    (if (negb (a =? 32) && negb (a =? 10)) || (negb (b =? 32) && negb (b =? 10)) then
       let u := set_place (u16 (row * 80 + col + 40)) (if a =? 10 then 32 else a) (if b =? 10 then 32 else b) u in
       st <~ call_ioctl 0 u RTC_ADD st;; Ret (Frame a b e0 e1 u st)
     else Ret (Frame a b e0 e1 u st)) (View w true (snd s)) (Frame a b e0 e1 u' st') (View w true (snd s')) /\
    on_length u' = 15 /\ off_length u' = 15 /\ settled st' s'.
Proof.
  intros Hs Hrow Hcol Hfit Hon Hoff w e0 e1. unfold cell_ops.
  replace ((negb (a =? 32) && negb (a =? 10)) || (negb (b =? 32) && negb (b =? 10)))
    with (negb (((if a =? 10 then 32 else a) =? 32) && ((if b =? 10 then 32 else b) =? 32))).
  2: { destruct (Z.eqb_spec a 10), (Z.eqb_spec b 10), (Z.eqb_spec a 32), (Z.eqb_spec b 32); subst; try done. }
  destruct (_ && _); cbn [negb]; [exists u, st; split; [apply runs_ret | done]|].
  set (u' := set_place _ _ _ u).
  assert (spec_ops [BAdd (Blink (row * 80 + col + 40) (if a =? 10 then 32 else a) (if b =? 10 then 32 else b) 15 15 0 0 None)] s = spec_ops [BAdd u'] s) as ->.
  { cbn [spec_ops spec_op]. erewrite spec_add_fields; [reflexivity | | done | done | done | done].
    change (location u') with (u16 (row * 80 + col + 40)). by rewrite u16_small by lia. }
  destruct (ioctl_add st s u' w Hs) as (st' & R1 & H').
  { change (location u') with (u16 (row * 80 + col + 40)). rewrite u16_small by lia. lia. }
  exists u', st'. split; [|by split_and!]. eapply runs_bind; [exact R1 | apply runs_ret].
Qed.

Lemma column_runs rtc fd0 i0 fd1 i1 row r0' e0' r1' e1' : forall n x0 x1 col a b e0 e1 r0 r1 u st s w,
  max (length x0) (length x1) = n -> at_files rtc fd0 i0 fd1 i1 e0 e1 r0 r1 w ->
  at_line a e0 r0 x0 r0' e0' -> at_line b e1 r1 x1 r1' e1' -> settled st s ->
  on_length u = 15 -> off_length u = 15 -> 0 <= row -> 0 <= col -> row * 80 + col + Z.of_nat n + 40 < 65536 ->
  exists u' st' w', let s' := snd (spec_ops (row_ops row col x0 x1) s) in
    R (ITree.iter (column fd0 fd1 row) (col, Frame a b e0 e1 u st)) (View w true (snd s)) (Frame 10 10 e0' e1' u' st') (View w' true (snd s')) /\
    at_files rtc fd0 i0 fd1 i1 e0' e1' r0' r1' w' /\ on_length u' = 15 /\ off_length u' = 15 /\ settled st' s'.
Proof.
  induction n as [|n IH]; intros x0 x1 col a b e0 e1 r0 r1 u st s w Hn Hw H0 H1 Hs Hon Hoff Hrow Hcol Hfit;
    destruct (next_char_runs _ _ _ _ _ _ _ _ _ _ _ _ _ _ (snd s) Hw H0) as (e2 & r2 & w1 & R1 & Hw1 & H0');
    destruct (next_char_runs _ _ _ _ _ _ _ _ _ _ _ _ _ _ (snd s) (at_files_swap _ _ _ _ _ _ _ _ _ _ Hw1) H1) as (e3 & r3 & w2 & R2 & Hw2%at_files_swap & H1').
  - destruct x0; [|cbn in Hn; lia]. destruct x1; [|cbn in Hn; lia]. cbn [head default tail] in *.
    destruct H0' as [_ [(_ & _ & -> & ->)|(? & _)]]; [|done]. destruct H1' as [_ [(_ & _ & -> & ->)|(? & _)]]; [|done].
    exists u, st, w2. split_and!; try done. apply runs_iter_stop. unfold column. cbn [c0 c1 eof0 eof1].
    eapply runs_bind; [exact R1|]. cbn beta iota. eapply runs_bind; [exact R2|]. apply runs_ret.
  - set (c := default 10 (head x0)) in *. set (d := default 10 (head x1)) in *.
    assert ((c =? 10) && (d =? 10) = false) as Hgo.
    { destruct H0 as [F0 _], H1 as [F1 _]. unfold c, d. destruct x0 as [|y0 x0], x1 as [|y1 x1]; cbn in *; [lia|..];
        repeat match goal with H : Forall _ (_ :: _) |- _ => inversion H; clear H; subst end; lia. }
    destruct (add_cell row col c d u st s Hs Hrow Hcol ltac:(lia) Hon Hoff w2 e2 e3) as (u1 & st1 & R3 & Hon1 & Hoff1 & Hs1).
    cbv zeta in R3. set (s1 := snd (spec_ops _ s)) in R3, Hs1.
    destruct (IH (tail x0) (tail x1) (col + 1) c d e2 e3 r2 r3 u1 st1 s1 w2) as (u' & st' & w' & R4 & Hw' & Hon' & Hoff' & Hs');
      [rewrite !length_tail; lia | exact Hw2 | exact H0' | exact H1' | exact Hs1 | done | done | lia | lia | lia|].
    assert (snd (spec_ops (row_ops row col x0 x1) s) = snd (spec_ops (row_ops row (col + 1) (tail x0) (tail x1)) s1)) as ->.
    { rewrite row_ops_step, spec_ops_app by lia. unfold s1.
      replace (default 32 (head x0)) with (if c =? 10 then 32 else c); [replace (default 32 (head x1)) with (if d =? 10 then 32 else d); [done|]|].
      * destruct H1 as [F1 _]. unfold d. destruct x1 as [|y x1]; [done|]. inversion F1; subst. cbn. by bfalse (y =? 10).
      * destruct H0 as [F0 _]. unfold c. destruct x0 as [|y x0]; [done|]. inversion F0; subst. cbn. by bfalse (y =? 10). }
    exists u', st', w'. split_and!; try done.
    eapply runs_iter_next; [|exact R4]. unfold column. cbn [c0 c1 eof0 eof1 blink_struct fish].
    eapply runs_bind; [exact R1|]. cbn beta iota. eapply runs_bind; [exact R2|]. cbn beta iota. fold c d. rewrite Hgo.
    eapply runs_bind; [exact R3|]. apply runs_ret.
Qed.

(** Between two rows: the lines [t] are left, none when the file has ended. *)
Definition row_start (c : Z) (eof : bool) (r : list Z) (t : list (list Z)) : Prop :=
  c = (if eof then 10 else 48) /\ t = (if eof then [] else lines r).

Lemma row_start_line c eof r t :
  row_start c eof r t ->
  exists r' eof', at_line c eof r (default [] (head t)) r' eof' /\ row_start (if eof' then 10 else 48) eof' r' (tail t).
Proof.
  intros [-> ->]. destruct eof.
  - exists r, true. split; [|done]. split; [constructor | by left].
  - destruct (lines_split r) as (x & Hx & [(r' & -> & ->)|[-> ->]]); cbn [head default tail].
    + exists r', false. split; [|done]. split; [done|]. right. split_and!; [done | done | by left].
    + exists [], true. split; [|done]. split; [done|]. right. split_and!; [done | done | by right].
Qed.

Lemma end_row_runs rtc fd0 i0 fd1 i1 e0 e1 r0 r1 w v :
  at_files rtc fd0 i0 fd1 i1 e0 e1 r0 r1 w ->
  exists w', R (end_row fd0 e0) (View w true v) (if e0 then 10 else 48) (View w' true v) /\ at_files rtc fd0 i0 fd1 i1 e0 e1 r0 r1 w'.
Proof.
  intros Hw. pose proof Hw as [H8 Hc (F0 & F1 & F2 & F3 & F4 & F5) H0 H1]. destruct e0; [|exists w; split; [apply runs_ret | done]].
  destruct (zget_ex (o_fds w) fd0) as [h Hh]; [lia|].
  assert (exists r w', os_close fd0 w = Some (r, w') /\ at_files rtc fd0 i0 fd1 i1 true e1 r0 r1 w') as (r & w' & E & Hw').
  { unfold os_close. bfalse ((fd0 <? 2) || (8 <=? fd0)). rewrite Hh, some_bind. destruct (is_free h); [by exists ERROR, w|].
    rewrite zset_in, some_bind by lia. eexists _, _. split; [done|]. split; cbn [o_fds set_fds].
    - by rewrite length_insert.
    - rewrite zget_insert by lia. by bfalse (rtc =? fd0).
    - done.
    - done.
    - intros He. destruct (H1 He) as (pos & Hq & Hrest). exists pos. cbn [o_fds set_fds o_data]. rewrite zget_insert by lia. by bfalse (fd1 =? fd0). }
  exists w'. split; [|done]. eapply runs_call; [apply view_close; exact E | apply runs_ret].
Qed.

Lemma add_rows_runs rtc fd0 i0 fd1 i1 W : forall n t0 t1 row a b e0 e1 r0 r1 u st s w,
  max (length t0) (length t1) = n -> at_files rtc fd0 i0 fd1 i1 e0 e1 r0 r1 w ->
  row_start a e0 r0 t0 -> row_start b e1 r1 t1 -> settled st s -> on_length u = 15 -> off_length u = 15 -> 0 <= row ->
  Forall (fun l => (length l <= W)%nat) t0 -> Forall (fun l => (length l <= W)%nat) t1 ->
  (row + Z.of_nat n) * 80 + Z.of_nat W + 40 < 65536 ->
  exists x w', let s' := snd (spec_ops (rows_ops row t0 t1) s) in
    R (add_rows fd0 fd1 (row, Frame a b e0 e1 u st)) (View w true (snd s)) x (View w' true (snd s')) /\
    (exists r0' r1', at_files rtc fd0 i0 fd1 i1 true true r0' r1' w') /\ settled (fish x) s'.
Proof.
  induction n as [|n IH]; intros t0 t1 row a b e0 e1 r0 r1 u st s w Hn Hw H0 H1 Hs Hon Hoff Hrow W0 W1 Hfit.
  - destruct t0; [|cbn in Hn; lia]. destruct t1; [|cbn in Hn; lia].
    destruct H0 as [_ Ht0], H1 as [_ Ht1]. destruct e0; [|by destruct (lines_ne r0)]. destruct e1; [|by destruct (lines_ne r1)].
    eexists _, w. split; [apply runs_iter_stop, runs_ret|]. split; [by eauto | exact Hs].
  - destruct (row_start_line _ _ _ _ H0) as (r0' & e0' & L0 & S0). destruct (row_start_line _ _ _ _ H1) as (r1' & e1' & L1 & S1).
    assert (negb e0 || negb e1 = true) as Hgo.
    { destruct H0 as [_ ->], H1 as [_ ->]. by destruct e0, e1. }
    assert (forall t, Forall (fun l => (length l <= W)%nat) t -> (length (default [] (head t) : list Z) <= W)%nat /\ Forall (fun l => (length l <= W)%nat) (tail t)) as HW.
    { intros t Ht. destruct Ht; cbn; [split; [lia | constructor] | done]. }
    destruct (HW t0 W0) as [W0h W0t], (HW t1 W1) as [W1h W1t].
    destruct (column_runs rtc fd0 i0 fd1 i1 row r0' e0' r1' e1' _ _ _ 0 a b e0 e1 r0 r1 u st s w eq_refl Hw L0 L1 Hs Hon Hoff)
      as (u1 & st1 & w1 & R1 & Hw1 & Hon1 & Hoff1 & Hs1); [lia | lia | lia|].
    cbv zeta in R1. set (s1 := snd (spec_ops _ s)) in R1, Hs1.
    destruct (end_row_runs _ _ _ _ _ _ _ _ _ _ (snd s1) Hw1) as (w2 & R2 & Hw2).
    destruct (end_row_runs _ _ _ _ _ _ _ _ _ _ (snd s1) (at_files_swap _ _ _ _ _ _ _ _ _ _ Hw2)) as (w3 & R3 & Hw3%at_files_swap).
    destruct (IH (tail t0) (tail t1) (row + 1) (if e0' then 10 else 48) (if e1' then 10 else 48) e0' e1' r0' r1' u1 st1 s1 w3) as (x & w' & R4 & Hw' & Hs');
      [rewrite !length_tail; lia | exact Hw3 | exact S0 | exact S1 | exact Hs1 | done | done | lia | done | done | lia|].
    assert (snd (spec_ops (rows_ops row t0 t1) s) = snd (spec_ops (rows_ops (row + 1) (tail t0) (tail t1)) s1)) as -> by (by rewrite rows_ops_step, spec_ops_app by lia).
    exists x, w'. split; [|split; [exact Hw' | exact Hs']].
    unfold add_rows. eapply runs_iter_next; [|exact R4]. cbn [eof0 eof1]. rewrite Hgo.
    eapply runs_bind; [exact R1|]. cbn [eof0 eof1]. eapply runs_bind; [exact R2|]. eapply runs_bind; [exact R3|]. apply runs_ret.
Qed.

(** ** The whole program *)

Lemma wait_runs rtc a : 0 <= rtc < 8 -> (o_fds a).[rtc] = Some HClock -> forall n st s,
  settled st s -> 0 <= n ->
  exists st', let s' := snd (spec_ops (replicate (Z.to_nat n) BTick) s) in
    R (wait rtc n st) (View a true (snd s)) st' (View a true (snd s')) /\ settled st' s'.
Proof.
  intros Hr Hc n st s Hs Hn. unfold wait. generalize 0. revert st s Hs. induction (Z.to_nat n) as [|m IH]; intros st s Hs i.
  - exists st. split; [apply runs_ret | done].
  - cbn [Syserr.for_prog replicate]. destruct (tasklet_runs st s a Hs) as (st1 & R0 & H1).
    destruct (IH st1 _ H1 (i + 1)) as (st' & R1 & H').
    assert (snd (spec_ops (BTick :: replicate m BTick) s) = snd (spec_ops (replicate m BTick) (spec_tick s))) as ->
      by (cbn [spec_ops spec_op]; by destruct (spec_ops (replicate m BTick) (spec_tick s))).
    exists st'. split; [|exact H']. eapply runs_bind; [|exact R1]. eapply runs_call; [|exact R0].
    apply view_read; [|by rewrite Hc]. cbn [os_step]. unfold os_read. bfalse ((rtc <? 0) || (8 <=? rtc) || (4 <? 0)).
    change (MAX_BUFFER <? 4) with false. cbv iota. by rewrite Hc, some_bind.
Qed.

(** The files [fish] opens are there. *)
Record has_frames (a : os) (i0 i1 : Z) : Prop := {
  hf_fds : o_fds a = std_handles;
  hf_clock : exists e, find_name (o_dir a) (str "rtc") = Some e /\ e_type e = 0;
  hf_frame0 : exists e, find_name (o_dir a) (str "frame0.txt") = Some e /\ e_type e = 2 /\ e_ino e = i0;
  hf_frame1 : exists e, find_name (o_dir a) (str "frame1.txt") = Some e /\ e_type e = 2 /\ e_ino e = i1;
  hf_differ : i0 <> i1;
  hf_small : (length (o_data a i0) <= 800)%nat /\ (length (o_data a i1) <= 800)%nat }.

(** The handles once the three files are open. *)
Definition opened (i0 i1 : Z) : list handle := [HStdin; HStdout; HClock; HFile i0 0; HFile i1 0; HFree; HFree; HFree].

Lemma add_frames_runs a i0 i1 junk st s :
  has_frames a i0 i1 -> settled st s ->
  exists st' a', let s' := snd (spec_ops (frame_ops (o_data a i0) (o_data a i1)) s) in
    R (add_frames (lit "frame0.txt") (lit "frame1.txt") junk st)
      (View (set_fds [HStdin; HStdout; HClock; HFree; HFree; HFree; HFree; HFree] a) true (snd s)) (inl st') (View a' true (snd s')) /\
    length (o_fds a') = 8%nat /\ (o_fds a').[2] = Some HClock /\ settled st' s'.
Proof.
  intros [Hf _ (e0 & E0 & T0 & I0) (e1 & E1 & T1 & I1) Hd [S0 S1]] Hs.
  destruct (lines_length (o_data a i0)) as [A0 B0], (lines_length (o_data a i1)) as [A1 B1].
  assert (forall (i d : list Z), (length d <= 800)%nat -> Forall (fun l => (length l <= length d)%nat) (lines i) -> Forall (fun l : list Z => (length l <= 800)%nat) (lines i)) as Hw.
  { intros i d Hl H. eapply Forall_impl; [exact H|]. cbn. lia. }
  destruct (add_rows_runs 2 3 i0 4 i1 800 _ (lines (o_data a i0)) (lines (o_data a i1)) 0 48 48 false false (o_data a i0) (o_data a i1)
    (set_lengths 15 15 junk) st s (set_fds (opened i0 i1) a) eq_refl) as (x & a' & R1 & (r0 & r1 & Ha') & H'); try done.
  - split; try done.
    + intros _. exists 0. cbn [o_data set_fds]. split_and!; [done | lia | lia | lia | done].
    + intros _. exists 0. cbn [o_data set_fds]. split_and!; [done | lia | lia | lia | done].
  - by apply (Hw _ (o_data a i0)).
  - by apply (Hw _ (o_data a i1)).
  - lia.
  - exists (fish x), a'. split; [|split; [apply (af_size _ _ _ _ _ _ _ _ _ _ Ha') | split; [apply (af_clock _ _ _ _ _ _ _ _ _ _ Ha') | exact H']]].
    unfold add_frames. eapply runs_call.
    { apply view_open. cbn [os_step]. apply (os_open_file _ (str "frame0.txt") _ e0 3); try done;
        [apply lit_cstring; by repeat constructor | unfold new_handle; by rewrite T0]. }
    change (3 <? 0) with false. cbv iota. eapply runs_call.
    { apply view_open. cbn [os_step]. apply (os_open_file _ (str "frame1.txt") _ e1 4); try done;
        [apply lit_cstring; by repeat constructor | unfold new_handle; by rewrite T1]. }
    change (4 <? 0) with false. cbv iota. rewrite I0, I1. eapply runs_bind; [exact R1 | apply runs_ret].
Qed.

Lemma close_runs rtc a : 0 <= rtc < 8 -> 2 <= rtc -> length (o_fds a) = 8%nat -> exists r a', os_step execute _ (Close rtc) a = Some (r, a') /\ o_lines a' = o_lines a.
Proof.
  intros H1 H2 H8. cbn [os_step]. unfold os_close. bfalse ((rtc <? 2) || (8 <=? rtc)). destruct (zget_ex (o_fds a) rtc) as [h ->]; [lia|]. rewrite some_bind.
  destruct (is_free h); [by eexists _, _|]. rewrite zset_in, some_bind by lia. by eexists _, _.
Qed.

(** What follows the frames in [main]. *)
Lemma fish_rest_runs a st s junk :
  length (o_fds a) = 8%nat -> (o_fds a).[2] = Some HClock -> settled st s ->
  exists st' a', let s' := snd (spec_ops (replicate 200 BTick ++ [BAdd (Blink 540 73 77 7 6 0 0 None)] ++ replicate 200 BTick ++
      [BSync 40 540] ++ replicate 200 BTick ++ [BRemove 200] ++ replicate 2000 BTick) s) in R
    (sys (Write 2 [32; 0; 0; 0] 4);;;
     st <~ wait 2 WAIT st;;
     let b := set_place (6 * 80 + 60) 73 77 (set_lengths 7 6 junk) in
     st <~ call_ioctl 0 b RTC_ADD st;;
     st <~ wait 2 WAIT st;;
     st <~ call_ioctl (Z.lor (Z.shiftl 40 16) (6 * 80 + 60)) zero_struct RTC_SYNC st;;
     st <~ wait 2 WAIT st;;
     st <~ call_ioctl WAIT zero_struct RTC_REMOVE st;;
     st <~ wait 2 (80 * 25) st;;
     sys (Close 2);;;
     Ret (0, st)) (View a true (snd s)) (0, st') (View a' true (snd s')) /\ settled st' s'.
Proof.
  intros H8 Hc Hs. rewrite !spec_ops_app. unfold WAIT.
  destruct (wait_runs 2 a ltac:(lia) Hc 200 st s Hs ltac:(lia)) as (st1 & R1 & H1). change (Z.to_nat 200) with 200%nat in R1, H1.
  cbv zeta in R1. set (s1 := snd (spec_ops (replicate 200 BTick) s)) in *.
  set (b := set_place (6 * 80 + 60) 73 77 (set_lengths 7 6 junk)).
  destruct (ioctl_add st1 s1 b a H1 ltac:(cbn; lia)) as (st2 & R2 & H2).
  assert (snd (spec_ops [BAdd b] s1) = snd (spec_ops [BAdd (Blink 540 73 77 7 6 0 0 None)] s1)) as Eb.
  { cbn [spec_ops spec_op]. by rewrite (spec_add_fields b (Blink 540 73 77 7 6 0 0 None)). }
  rewrite Eb in R2, H2. set (s2 := snd (spec_ops [BAdd (Blink 540 73 77 7 6 0 0 None)] s1)) in *.
  destruct (wait_runs 2 a ltac:(lia) Hc 200 st2 s2 H2 ltac:(lia)) as (st3 & R3 & H3). change (Z.to_nat 200) with 200%nat in R3, H3.
  cbv zeta in R3. set (s3 := snd (spec_ops (replicate 200 BTick) s2)) in *.
  destruct (ioctl_sync st3 s3 40 540 a H3 ltac:(lia) ltac:(lia)) as (st4 & R4 & H4).
  set (s4 := snd (spec_ops [BSync 40 540] s3)) in *.
  destruct (wait_runs 2 a ltac:(lia) Hc 200 st4 s4 H4 ltac:(lia)) as (st5 & R5 & H5). change (Z.to_nat 200) with 200%nat in R5, H5.
  cbv zeta in R5. set (s5 := snd (spec_ops (replicate 200 BTick) s4)) in *.
  destruct (ioctl_remove st5 s5 200 a H5) as (st6 & R6 & H6).
  set (s6 := snd (spec_ops [BRemove 200] s5)) in *.
  destruct (wait_runs 2 a ltac:(lia) Hc (80 * 25) st6 s6 H6 ltac:(lia)) as (st7 & R7 & H7). change (Z.to_nat (80 * 25)) with 2000%nat in R7, H7.
  destruct (close_runs 2 a ltac:(lia) ltac:(lia) H8) as (r8 & a8 & E8 & _).
  exists st7, a8. split; [|exact H7].
  eapply runs_call; [apply view_write; [cbn [os_step]; unfold os_write; change ((2 <? 0) || (8 <=? 2) || (4 <? 0)) with false;
    change (MAX_BUFFER <? 4) with false; cbv iota; rewrite Hc, some_bind; reflexivity | by rewrite Hc]|].
  eapply runs_bind; [exact R1|]. cbv zeta. eapply runs_bind; [exact R2|].
  eapply runs_bind; [exact R3|]. eapply runs_bind; [exact R4|].
  eapply runs_bind; [exact R5|]. eapply runs_bind; [exact R6|].
  eapply runs_bind; [exact R7|]. eapply runs_call; [apply view_close; exact E8|]. apply runs_ret.
Qed.

Lemma fish_runs a i0 i1 vmem_var o v junk1 junk2 :
  has_frames a i0 i1 -> 0x8000000 <= vmem_var -> vmem_var + 4 <= 0x8400000 -> length v = 4096%nat ->
  exists st a', let s := snd (spec_ops (fish_ops (o_data a i0) (o_data a i1)) ([], v)) in
    R (fish_main vmem_var junk1 junk2) (View a o v) (0, st) (View a' true (snd s)) /\ settled st s.
Proof.
  intros Hf Hv1 Hv2 Hlen. pose proof Hf as [Hfds (er & Er & Tr) _ _ _ _].
  assert (settled (fish_start base) ([], v)) as Hst by (split; [by apply start_represents | done]).
  destruct (add_frames_runs a i0 i1 junk2 (fish_start base) ([], v) Hf Hst) as (st1 & a1 & R1 & H8 & Hc & H1).
  destruct (fish_rest_runs a1 st1 _ junk1 H8 Hc H1) as (st & a2 & R2 & H2).
  unfold fish_ops. rewrite spec_ops_app. exists st, a2. split; [|exact H2].
  unfold fish_main. eapply runs_bind.
  { unfold mp1_set_video_mode. apply (runs_call _ _ _ (View a o v) video_answer (View a true v) base (View a true v));
      [|change (R (Ret base) (View a true v) base (View a true v)); apply runs_ret]. cbn [view_step]. unfold on_os. cbn [os_step w_os w_open w_page].
    bfalse (((0 <=? vmem_var) && (vmem_var <? 0x8000000)) || ((0x8400000 <=? vmem_var) && (vmem_var <? 2 ^ 32))).
    btrue ((0x8000000 <=? vmem_var) && (vmem_var + 4 <=? 0x8400000)). rewrite some_bind. by destruct o. }
  cbv zeta. change (base =? 0) with false. cbv iota. eapply runs_call.
  { apply view_open. cbn [os_step]. apply (os_open_file _ (str "rtc") _ er 2); rewrite ?Hfds; try done;
      [apply lit_cstring; by repeat constructor | unfold new_handle; by rewrite Tr]. }
  rewrite Hfds. eapply runs_bind; [exact R1|]. cbn beta iota. exact R2.
Qed.
End World.

(** ** On the kernel *)

(** The page of video memory at frame [F]. *)
Definition vmem_page (F : Z) (k : kernel) : list Z := map (fun o => vm (screen k) (F * 4096 + o)) (seqZ 0 4096).

Section OnKernel.
Context (L : layout) (dev : log -> Z -> Z) (pit_ret ret_addr : Z) (jk : junk) (regs : user_regs) (abuf : Z).
Context (Habuf : 0x8000000 <= abuf /\ abuf + MAX_BUFFER <= 0x8400000) (Hregs : regs_ok regs) (Hret : u32_range_of ret_addr)
  (Hjk : (129 <= length (cmd_junk jk))%nat).

#[local] Abbreviation step := (user_step L dev pit_ret ret_addr jk regs abuf).

(** The page tables are those of a process of which the page of [vidmap] is at frame [F]. *)
Definition vidmap_at (s : paging) (open : bool) (F : Z) : Prop :=
  exists p, pid_ok p /\ cr3 s = pd_addr L p /\ vid_words s p (open, F).

Lemma vidmap_translate s o F va :
  paging_ok L s -> layout_ok L -> vidmap_at s o F -> VIRT_VID_MEM <= va < VIRT_VID_MEM + 4096 -> o = true ->
  translate L s true va = Some (F * 4096 + (va - VIRT_VID_MEM)).
Proof.
  unfold VIRT_VID_MEM. intros Hok HL (p & Hp & Hcr & Hw) Hva ->.
  assert (set_cr3 (pd_addr L p) s = s) as Es by (rewrite <- Hcr; by destruct s).
  rewrite <- Es, translate_walk, (walk_user L _ _ (true, F)) by (done || lia). unfold user_reach.
  bfalse ((0x8000000 <=? va) && (va <? 0x8400000)). cbn [fst snd]. by btrue (true && (0xdeadb000 <=? va) && (va <? 0xdeadc000)).
Qed.

Lemma vidmap_frame s o F : paging_ok L s -> vidmap_at s o F -> video_frame F.
Proof. intros (_ & _ & _ & Hok) (p & Hp & _ & _ & _ & E). destruct (Paging.video_page _ _ _ _ _ (Hok p Hp)) as [_ H]. by rewrite E in H. Qed.

(** A terminal nothing was shown on has the same video memory. *)
Lemma history_nil t v ts0 es ts : history t v ts0 es ts -> es = [] -> vm ts = vm ts0.
Proof. induction 1 as [| | |es ts s H IH]; intros E; [done | by destruct es | by destruct es | by apply IH]. Qed.

(** Calls on files that show nothing. *)
Lemma quiet_step {X} (e : sysE X) w x w' :
  view_step refuse X e w = Some (x, w') -> on_files e = true ->
  exists a', os_step refuse X e (w_os w) = Some (x, a') /\ w' = View a' (w_open w) (w_page w) /\ o_console a' = o_console (w_os w).
Proof.
  intros E He. destruct e; try discriminate He; cbn [view_step] in E; try (case_bool_decide; [done|]); unfold on_os in E;
    apply bind_Some in E as ([x2 a'] & E & [= -> <-]); exists a'; (split; [exact E|]); (split; [done|]); cbn [os_step] in E.
  - unfold os_read in E. unbind; done.
  - unfold os_write in E. unbind; done.
  - unfold os_open in E. unbind; done.
  - unfold os_close in E. unbind; done.
Qed.

(** The view of the program and the machine: the page of the view is the page of video memory
    behind [vidmap], and the rest of video memory is that of [m0]. *)
Record on_screen (t v F : Z) (m0 : memory) (w : view) (m : machine) : Prop := {
  on_system : implements L t v (screen m.1) (w_os w) m;
  on_quiet : o_console (w_os w) = [];
  on_vidmap : vidmap_at (pg (pr m.1)) (w_open w) F;
  on_page_shown : w_page w = vmem_page F m.1;
  on_rest : only_page (F * 4096) m0 (vm (screen m.1)) }.

(** From here on the history of the terminal starts anew. *)
Lemma implements_anew t v ts0 a k ls : implements L t v ts0 a (k, ls) -> o_console a = [] -> implements L t v (screen k) a (k, ls).
Proof.
  intros [? ? ? ? ? ? ? ? ? ? [Hx Hc _]] Hq. split; try assumption. split; [exact Hx | exact Hc|]. rewrite Hq. apply history_start.
Qed.

Lemma vmem_page_same F k k' : vm (screen k') = vm (screen k) -> vmem_page F k' = vmem_page F k.
Proof. unfold vmem_page. by intros ->. Qed.

Lemma on_screen_call t v F m0 w m a' m' o' :
  on_screen t v F m0 w m -> implements L t v (screen m.1) a' m' -> o_console a' = [] -> vidmap_at (pg (pr m'.1)) o' F ->
  on_screen t v F m0 (View a' o' (w_page w)) m'.
Proof.
  destruct m as [k ls], m' as [k' ls']. cbn [fst]. intros [_ _ _ Hp Hr] Hi Hq Hv. cbn [fst] in *.
  assert (vm (screen k') = vm (screen k)) as E.
  { destruct (im_shows _ _ _ _ _ _ Hi) as [_ _ H]. cbn [fst] in H. by apply (history_nil t v _ (o_console a')). }
  split; cbn [w_os w_open w_page fst]; [by eapply implements_anew | done | done | by rewrite (vmem_page_same F k k') | by rewrite E].
Qed.

(** A byte stored in video memory. *)
Definition shown_at (pa c : Z) (k : kernel) : kernel :=
  set_screen (Terminals (mem_set (screen k)) (curr_terminal (screen k)) (ttys (screen k)) (store8 (vm (screen k)) pa c) (pio (screen k))) k.

Lemma implements_shown t v ts0 a k ls pa c :
  implements L t v ts0 a (k, ls) -> o_console a = [] -> implements L t v (screen (shown_at pa c k)) a (shown_at pa c k, ls).
Proof.
  intros [[Hd1 Hd2 Hd3] Hdir Hdata Hnext Hrange Ht Hf [] Hl Hty [(x & [A1 [B1 B2 B3 B4] A3 A4 A5] & Hx) Hc _]] Hq. split; cbn [fst snd] in *; try done.
  - split; [done | done |]. intros i Hr Hy. by destruct (Hd3 i Hr Hy) as [H1 [H2 H3]].
  - split; [|exact Hc | rewrite Hq; apply history_start]. exists x. split; [|exact Hx]. split; try done. split; try done. by apply store8_bytes.
Qed.

Lemma vmem_page_store F k o c :
  0 <= o < 4096 -> vmem_page F (shown_at (F * 4096 + o) c k) = <[Z.to_nat o := u8 c]> (vmem_page F k).
Proof.
  intros Ho. apply list_eq. intros i. unfold vmem_page. cbn [shown_at screen set_screen vm].
  destruct (decide (i < 4096)%nat) as [Hi|Hi].
  - destruct (decide (i = Z.to_nat o)) as [->|Hne].
    + rewrite list_lookup_insert_eq by (rewrite length_map, length_seqZ; lia). rewrite list_lookup_fmap, lookup_seqZ_lt by lia.
      cbn [fmap option_fmap option_map]. unfold store8. by btrue (F * 4096 + (0 + Z.of_nat (Z.to_nat o)) =? F * 4096 + o).
    + rewrite list_lookup_insert_ne by done. rewrite !list_lookup_fmap, lookup_seqZ_lt by lia.
      cbn [fmap option_fmap option_map]. unfold store8. by bfalse (F * 4096 + (0 + Z.of_nat i) =? F * 4096 + o).
  - rewrite !lookup_ge_None_2; [done | rewrite length_insert, length_map, length_seqZ; lia | rewrite length_map, length_seqZ; lia].
Qed.

Lemma store_on_screen t v F m0 w k ls a c :
  on_screen t v F m0 w (k, ls) -> w_open w = true -> VIRT_VID_MEM <= a < VIRT_VID_MEM + 4096 ->
  exists m, step _ (Store a c) (k, ls) = Some (tt, m) /\ on_screen t v F m0 (View (w_os w) true (paint_one VIRT_VID_MEM (w_page w) (a, c))) m.
Proof.
  intros [Hi Hq Hv Hp Hr] Ho Ha. cbn [fst] in *. rewrite Ho in Hv. destruct (im_running _ _ _ _ _ _ Hi) as [_ _ _ HL Hok _]. cbn [fst] in *.
  pose proof (vidmap_frame _ _ _ Hok Hv) as HF. unfold video_frame in HF.
  exists (shown_at (F * 4096 + (a - VIRT_VID_MEM)) c k, ls). split.
  - cbn [user_step]. unfold on_machine, user_store. cbn [fst snd]. rewrite (vidmap_translate _ true F) by done. rewrite some_bind.
    unfold VIRT_VID_MEM in *. by btrue ((0xb8000 <=? F * 4096 + (a - 0xdeadb000)) && (F * 4096 + (a - 0xdeadb000) <? 0xbc000)).
  - split; cbn [w_os w_open w_page fst]; [by eapply implements_shown | done | done | |].
    + unfold paint_one. cbn [fst snd]. by rewrite Hp, vmem_page_store by lia.
    + intros x Hx. cbn. unfold store8. rewrite <- Hr by done. by bfalse (x =? F * 4096 + (a - VIRT_VID_MEM)).
Qed.

Lemma vidmap_on_screen t v F m0 w k ls p r bs a' :
  on_screen t v F m0 w (k, ls) -> os_step refuse _ (Vidmap p) (w_os w) = Some (r, bs, a') ->
  exists m, step _ (Vidmap p) (k, ls) = Some (r, bs, m) /\ on_screen t v F m0 (View a' (w_open w || negb (r =? ERROR)) (w_page w)) m.
Proof.
  intros Hon E. pose proof Hon as [Hi Hq Hv _ _]. cbn [fst] in *.
  destruct (user_simulates L dev pit_ret ret_addr jk regs abuf Habuf Hregs Hret Hjk t v (screen k) _ _ _ _ _ _ Hi E) as ([k' ls'] & Eu & Hi').
  exists (k', ls'). split; [exact Eu|]. apply (on_screen_call t v F m0 w (k, ls)); [exact Hon | exact Hi' | |].
  { cbn [os_step] in E. destruct (_ || _) in E; [|destruct (_ && _) in E; [|done]]; by injection E as _ _ <-. }
  destruct (im_running _ _ _ _ _ _ Hi) as [_ _ _ HL Hok (c & b & Hc & Hb & Hp & Hcr & _)]. destruct Hv as (q & Hpq & Hcq & Hw). cbn [fst] in *.
  assert (q = pid b) as -> by (unfold pd_addr in *; lia).
  destruct (vidmap_pages L dev pit_ret ret_addr jk regs abuf p k ls r bs (k', ls') c b Hc Hb Hp Eu) as [[-> Epg]|[Hr (ret & Em)]]; cbn [fst] in *.
  - rewrite Epg, Z.eqb_refl, orb_false_r. by exists (pid b).
  - rewrite (proj2 (Z.eqb_neq _ _) Hr), orb_true_r. unfold pid_ok in Hp. unfold map_vid_memory in Em. rewrite (proj2 (Z.ltb_ge _ _)) in Em by lia.
    apply bind_Some in Em as (vts & E1 & Em). apply bind_Some in Em as (pds & E2 & [= _ <-]).
    exists (pid b). split; [done|]. split; [done|]. destruct Hok as [Hs _].
    pose proof (map_video_words _ (pid b) (pid b) true vts pds _ Hs Hp E1 E2 Hw) as H. rewrite Z.eqb_refl in H. exact H.
Qed.

Lemma view_simulates t v F m0 : simulates (view_step refuse) step (on_screen t v F m0).
Proof.
  intros X e w [k ls] x w' Hon E. destruct (on_files e) eqn:He.
  - destruct (quiet_step e w x w' E He) as (a' & Eo & -> & Hq). pose proof Hon as [Hi Hq0 Hv _ _]. cbn [fst] in *.
    destruct (user_simulates L dev pit_ret ret_addr jk regs abuf Habuf Hregs Hret Hjk t v (screen k) _ _ _ _ _ _ Hi Eo) as (m' & Eu & Hi').
    exists m'. split; [exact Eu|]. apply (on_screen_call t v F m0 w (k, ls)); [exact Hon | exact Hi' | congruence|].
    by rewrite (file_step_pages _ _ _ _ _ _ _ e k ls x m' He Eu).
  - destruct e; try discriminate He; try discriminate E; cbn [view_step] in E.
    + apply bind_Some in E as ([[r bs] w2] & E & [= <- <-]). unfold on_os in E. apply bind_Some in E as ([x a'] & E & [= -> <-]).
      cbn [fst]. exact (vidmap_on_screen t v F m0 w k ls _ r bs a' Hon E).
    + destruct (w_open w && _ && _) eqn:Eg in E; [|done]. injection E as <- <-. apply andb_prop in Eg as [[Ho ?]%andb_prop ?].
      apply (store_on_screen t v F m0 w k ls); [exact Hon | exact Ho | lia].
Qed.

(** The contents of the file with entry [i]. *)
Definition content (k : kernel) (i : Z) : list Z :=
  file_content (image k) (fsys k) (get_inode_ptr (fsys k) (entry_inode (image k) (fsys k) i)).

Record frames_in (k : kernel) (i0 i1 : Z) : Prop := {
  fi_clock : exists i, lookup_name (image k) (fsys k) (str "rtc") = Some i /\ entry_type (image k) (fsys k) i = RTC;
  fi_frame0 : lookup_name (image k) (fsys k) (str "frame0.txt") = Some i0 /\ entry_type (image k) (fsys k) i0 = REGULAR_FILE;
  fi_frame1 : lookup_name (image k) (fsys k) (str "frame1.txt") = Some i1 /\ entry_type (image k) (fsys k) i1 = REGULAR_FILE;
  fi_differ : entry_inode (image k) (fsys k) i0 <> entry_inode (image k) (fsys k) i1;
  fi_small : (length (content k i0) <= 800)%nat /\ (length (content k i1) <= 800)%nat }.

(** C8: [fish], run on the kernel through the system call interface with the two frames in the
    file system, by a process of which the page of [vidmap] is at frame [F] of video memory: it
    ends with 0; its page tables then map the address [vidmap] answered to that frame, open for
    the program; and the frame holds what the two texts say, drawn over what it showed before:
    at each place where the lines of the frames differ from blanks, the characters of the two
    frames in turn, then the steps of [main] after them.  The rest of video memory is as it was. *)
Theorem fish_on_kernel t v k cs ls i0 i1 vmem_var o F junk1 junk2 :
  ready L t v k std_handles cs ls -> frames_in k i0 i1 -> vidmap_at (pg (pr k)) o F ->
  0x8000000 <= vmem_var -> vmem_var + 4 <= 0x8400000 ->
  exists st k' ls', runs step (fish_main vmem_var junk1 junk2) (k, ls) (0, st) (k', ls') /\
    (forall va, VIRT_VID_MEM <= va < VIRT_VID_MEM + 4096 -> translate L (pg (pr k')) true va = Some (F * 4096 + (va - VIRT_VID_MEM))) /\
    vmem_page F k' = snd (snd (spec_ops (fish_ops (content k i0) (content k i1)) ([], vmem_page F k))) /\
    only_page (F * 4096) (vm (screen k)) (vm (screen k')).
Proof.
  intros Hr [(ir & Er & Tr) (E0 & T0) (E1 & T1) Hd Hs] Hv Hv1 Hv2. pose proof (re_image _ _ _ _ _ _ _ Hr) as Him.
  assert (has_frames (os_of k std_handles cs ls) (entry_inode (image k) (fsys k) i0) (entry_inode (image k) (fsys k) i1)) as Hf.
  { split; cbn [o_fds o_dir o_data os_of]; [done | exists (entry k ir) | exists (entry k i0) | exists (entry k i1) | done | done];
      rewrite (find_name_lookup k) by done; [by rewrite Er | by rewrite E0 | by rewrite E1]. }
  destruct (fish_runs refuse _ _ _ vmem_var o (vmem_page F k) junk1 junk2 Hf Hv1 Hv2) as (st & a & Hrun & Hst);
    [unfold vmem_page; by rewrite length_map, length_seqZ|].
  assert (on_screen t v F (vm (screen k)) (View (os_of k std_handles cs ls) o (vmem_page F k)) (k, ls)) as Hon
    by (split; [by apply ready_implements | done | done | done | by intros x _]).
  destruct (runs_sim _ _ _ _ _ _ _ _ (view_simulates t v F (vm (screen k))) Hon Hrun) as ([k' ls'] & H1 & [Hi _ Hv' Hp Hrest]).
  cbn [fst w_open w_page] in *. destruct (im_running _ _ _ _ _ _ Hi) as [_ _ _ HL Hok _].
  exists st, k', ls'. split; [exact H1|]. split; [|by split].
  intros va Hva. by apply (vidmap_translate _ true).
Qed.

End OnKernel.

(** ** An image with two frames *)

(** The bytes of an image, by their offsets; all others are 0. *)
Definition seg_byte (o : Z) (seg : Z * list Z) : option Z := (snd seg).[o - fst seg].
Definition seg_mem (segs : list (Z * list Z)) : memory := fun x =>
  match omap (seg_byte (x - demo_base)) segs with b :: _ => b | [] => 0 end.

Definition fish_segs : list (Z * list Z) :=
  [(0, [4]); (4, [2]); (8, [2]); (64, str "."); (96, [1]); (128, str "rtc"); (192, str "frame0.txt"); (224, [2]);
   (256, str "frame1.txt"); (288, [2]); (292, [1]);
   (4096, [6]); (4100, [0]); (8192, [5]); (8196, [1]); (12288, [60; 111; 10; 32; 62; 10]); (16384, [111; 62; 10; 32; 32])].
Definition fish_mem : memory := seg_mem fish_segs.
Definition fish_fs : fs := snd (fs_init fish_mem (Fs 0 0 0 0) demo_base).

Lemma fish_entries : NUM_DIR_ENTRIES fish_mem fish_fs = 4.
Proof. vm_compute. reflexivity. Qed.

Lemma seg_mem_bytes segs : Forall (fun s => Forall is_byte (snd s)) segs -> bytes (seg_mem segs).
Proof.
  intros H x. unfold seg_mem. induction H as [|seg segs Hs _ IH]; [cbn; lia|]. cbn [omap list_omap].
  destruct (seg_byte (x - demo_base) seg) as [b|] eqn:E; [|exact IH]. unfold seg_byte, zget in E. destruct (0 <=? _); [|done].
  apply (Forall_lookup_1 _ _ _ _ Hs E).
Qed.

Lemma fish_empty_names i : 4 <= i < 63 -> entry_name fish_mem fish_fs i = [].
Proof.
  intros Hi. pose proof (on_interval (fun i => bool_decide (entry_name fish_mem fish_fs i = [])) 4 59) as H.
  specialize (H ltac:(vm_compute; reflexivity) i ltac:(lia)). cbv beta in H. by apply bool_decide_eq_true in H.
Qed.

Lemma fish_dir_ok : dir_ok fish_mem fish_fs.
Proof.
  assert (forall i, 0 <= i < NUM_DIR_ENTRIES fish_mem fish_fs -> i = 0 \/ i = 1 \/ i = 2 \/ i = 3) as Hi by (rewrite fish_entries; lia).
  split.
  - apply seg_mem_bytes. assert (forallb (fun s => forallb (fun b => (0 <=? b) && (b <? 256)) (snd s)) fish_segs = true) as H by (vm_compute; reflexivity).
    rewrite forallb_forall in H. apply Forall_forall. intros s Hs%list_elem_of_In. specialize (H s Hs). rewrite forallb_forall in H.
    apply Forall_forall. intros b Hb%list_elem_of_In. specialize (H b Hb). unfold is_byte. lia.
  - split; vm_compute; done.
  - rewrite fish_entries. lia.
  - vm_compute. discriminate.
  - intros i [-> | [-> | [-> | ->]]]%Hi; vm_compute; reflexivity.
  - intros i [-> | [-> | [-> | ->]]]%Hi; vm_compute; discriminate.
  - intros i j Hr%Hi Hj E.
    assert (forallb (fun i => forallb (fun j => negb (bool_decide (entry_name fish_mem fish_fs i = entry_name fish_mem fish_fs j)) || (i =? j)) (seqZ 0 63)) (seqZ 0 4) = true) as H
      by (vm_compute; reflexivity).
    pose proof (on_interval _ _ _ H i ltac:(lia)) as H1. cbv beta in H1. pose proof (on_interval _ _ _ H1 j ltac:(lia)) as H2. cbv beta in H2.
    rewrite (bool_decide_true _ E) in H2. cbn [negb orb] in H2. lia.
Qed.

Lemma fish_file k n p len :
  image k = fish_mem -> fsys k = fish_fs -> file_at fish_mem fish_fs n p -> inode_length fish_mem p = len -> 0 <= len < 4096 ->
  inode_block fish_mem p 0 < 2 -> file_at fish_mem fish_fs n p /\ whole k p.
Proof.
  intros Hm Hf Ha Hl Hlen Hb. split; [exact Ha|]. split; rewrite Hm, ?Hf, Hl; [lia|]. intros x Hx. unfold block_ok, BLOCK_SIZE.
  rewrite Z.div_small by lia. replace (NUM_DATA_BLOCKS fish_mem fish_fs) with 2 by (vm_compute; reflexivity). exact Hb.
Qed.

Lemma fish_image_ok pages : image_ok (machine_with fish_fs fish_mem pages).
Proof.
  assert (forall i, 0 <= i < NUM_DIR_ENTRIES fish_mem fish_fs -> i = 0 \/ i = 1 \/ i = 2 \/ i = 3) as Hi by (rewrite fish_entries; lia).
  split; cbn [image fsys machine_with machine_for].
  - apply fish_dir_ok.
  - rewrite fish_entries. apply fish_empty_names.
  - intros i [-> | [-> | [-> | ->]]]%Hi Hty; try (vm_compute in Hty; discriminate).
    + replace (entry_inode fish_mem fish_fs 2) with 0 by (vm_compute; reflexivity).
      apply (fish_file _ _ _ 6); [done | done | | vm_compute; reflexivity | lia | vm_compute; reflexivity].
      split; [reflexivity | lia | vm_compute; reflexivity | vm_compute; reflexivity|]. exists 2. split; [rewrite fish_entries; lia | vm_compute; reflexivity].
    + replace (entry_inode fish_mem fish_fs 3) with 1 by (vm_compute; reflexivity).
      apply (fish_file _ _ _ 5); [done | done | | vm_compute; reflexivity | lia | vm_compute; reflexivity].
      split; [reflexivity | lia | vm_compute; reflexivity | vm_compute; reflexivity|]. exists 3. split; [rewrite fish_entries; lia | vm_compute; reflexivity].
Qed.

Lemma fish_frames_in pages : frames_in (machine_with fish_fs fish_mem pages) 2 3.
Proof.
  split; cbn [image fsys machine_with machine_for].
  - exists 1. split; vm_compute; reflexivity.
  - split; vm_compute; reflexivity.
  - split; vm_compute; reflexivity.
  - vm_compute. discriminate.
  - unfold content. cbn [image fsys machine_with machine_for]. split; apply Nat.leb_le; vm_compute; reflexivity.
Qed.

(** The pages of process 3 when the system has just booted. *)
Lemma demo_screen : exists pages v, demo_mapped pages v /\ vid_words pages 3 (false, 0xb8).
Proof.
  destruct (booted_full demo_layout zero_paging [] demo_layout_ok zero_paging_sized ltac:(constructor)) as (pages & _ & Hok & Hv).
  destruct (video_page_ok demo_layout (demo_machine (set_cr3 (pd_addr demo_layout 3) pages)) 3) as (v & Ev & Hp);
    [apply demo_layout_ok | by apply paging_ok_cr3 | done | unfold pid_ok; lia|].
  exists (set_cr3 (pd_addr demo_layout 3) pages), v. split; [split_and!; [by apply paging_ok_cr3 | done | exact Ev | apply Hp..]|].
  apply (Hv 3). unfold pid_ok. lia.
Qed.

(** The frames "<o" over " >" and "o>" over "  ", in a process just booted. *)
Lemma fish_on_kernel_witness :
  exists pages st k' ls', runs (user_step demo_layout (fun _ _ => 0) 0 0x400000 demo_junk demo_user 0x8100000)
      (fish_main 0x8048f00 zero_struct zero_struct) (machine_with fish_fs fish_mem pages, []) (0, st) (k', ls') /\
    vmem_page 0xb8 k' =
      snd (snd (spec_ops (fish_ops [60; 111; 10; 32; 62; 10] [111; 62; 10; 32; 32]) ([], vmem_page 0xb8 (machine_with fish_fs fish_mem pages)))).
Proof.
  destruct demo_screen as (pages & v & Hm & Hvid). exists pages.
  destruct (fish_on_kernel demo_layout (fun _ _ => 0) 0 0x400000 demo_junk demo_user 0x8100000 ltac:(unfold MAX_BUFFER; lia) demo_user_ok ltac:(done) ltac:(cbn; lia)
    0 v (machine_with fish_fs fish_mem pages) [97] [] 2 3 0x8048f00 false 0xb8 zero_struct zero_struct) as (st & k' & ls' & Hr & _ & Hs & _).
  - apply machine_ready; [apply fish_image_ok | rewrite fish_entries; change (curr_file_number fish_fs) with 0; lia | exact Hm | constructor].
  - apply fish_frames_in.
  - exists 3. split; [unfold pid_ok; lia|]. split; [apply Hm | exact Hvid].
  - lia.
  - lia.
  - exists st, k', ls'. split; [exact Hr|].
    assert (content (machine_with fish_fs fish_mem pages) 2 = [60; 111; 10; 32; 62; 10]) as E0 by (vm_compute; reflexivity).
    assert (content (machine_with fish_fs fish_mem pages) 3 = [111; 62; 10; 32; 32]) as E1 by (vm_compute; reflexivity).
    rewrite <- E0, <- E1. exact Hs.
Defined.
